(* ===== verification/_CoqProject ===== *)
-Q . S2P
Prelude.v
Dlist.v
Errno.v
Memory.v
Page.v
Buddy.v
BuddyInv.v
BuddySpec.v
BuddyThm.v
BootAlloc.v
BootAllocInv.v
BootAllocThm.v
BootInitThm.v
Multiboot.v
Libk.v
LibkThm.v
Libutils.v
LibutilsThm.v
Bitmap.v
Lst.v
PageAlloc.v
Slab.v
SlabInv.v
SlabThm.v
KmallocThm.v
SlabExample.v
Vmm.v
VmmThm.v
VmmBootThm.v
KernelInit.v
Vma.v
VmaInv.v
VmaAlloc.v
VmaThm.v
VmaMap.v
VmaFree.v
VmaExample.v
Task.v
Sched.v
Process.v
SchedInv.v
SchedThm.v
SignalThm.v
ProcessThm.v
KernelSteps.v
ProcessExample.v
Gdt.v
Idt.v
VmmWords.v
Fork.v
ForkSpace.v
ForkThm.v
ForkChild.v
ForkExample.v
Loader.v
LoaderInv.v
LoaderThm.v
LoaderMap.v
LoaderLayout.v
Usercopy.v
Spawn.v
SpawnExample.v
Tty.v
TtyThm.v
TtyFormat.v
Keyboard.v
KeyboardThm.v
KeyboardEdit.v
KeyboardExample.v
ConsoleTyped.v
Block.v
BlockThm.v
Pci.v
PciThm.v
Ata.v
AtaThm.v
Listing.v
Report.v
Sloppy.v
BuddyTest.v
