(* ===== verification/Prelude.v ===== *)
(** * kfs: a verification library for the K1tox x86 kernel

    The repository is a 32-bit x86 kernel in C.  The boot loader enters it with
    a description of memory; a boot allocator cuts that into zones; a buddy
    allocator hands out page frames, a slab allocator objects, and the paging
    code address spaces; tasks are created, scheduled, signalled, forked and
    reaped on top of them; system calls and interrupts lead into all of this;
    terminals, the keyboard and the disks are its devices.  This library
    translates that code, component by component, into executable Rocq
    definitions and proves what makes each component correct.

    ** Conventions

    An operation is a computation of the monad [M S] below: explicit state
    passing over the record [S] of its component, with four outcomes: a result,
    a kernel panic, a fault (an access the C code has no right to make) and
    exhausted fuel.  [wp c s Q] is total correctness: [c] returns and [Q]
    holds.  Machine words are [Z] with their wrap-around written out.  An
    interrupt handler and a system call are one step each: the gates of [Idt]
    are interrupt gates, so the processor runs them with interrupts off.  What
    the kernel does not contain (devices, the tables the build generates,
    user programs) is a parameter.

    ** Memory

    - [Dlist]: the intrusive lists of include/list.h, over a store of cells.
      [Errno]: include/utils/error.h.  [Memory], [Page]: the zones, flags and
      page descriptors (memory.h, page.c, page.h).
    - [Buddy]: src/memory/buddy.c.  [BuddyInv] states the invariant (every
      free block is aligned, of one zone, on one list, and free blocks never
      have a free buddy) and how the internal operations move it, [BuddySpec]
      proves the operations against it, [BuddyThm] has the theorems: allocation
      and release, on every branch, completeness, and any sequence of
      operations.  [BuddyTest]: the self test at the end of buddy.c passes on
      an allocator that keeps the invariant.
    - [BootAlloc], [BootAllocInv], [BootAllocThm], [BootInitThm]:
      boot_allocator.c.  Initialisation refines the set of addresses that the
      memory map makes available and nothing reserves.  [Multiboot]: the walk
      over the boot information (mb2_info.c) that feeds it.
    - [PageAlloc]: the interface of the frame allocator, as a class with laws,
      and the buddy allocator as its instance.
    - [Slab], [SlabInv], [SlabThm], [KmallocThm], [SlabExample]:
      slab.c and kmalloc.c on the words of memory; two defects of the code are
      proved in [SlabExample].
    - [Vmm], [VmmThm], [VmmBootThm], [VmmWords]: paging (vmm.c) against the
      translation the processor makes.  [Vma], [VmaInv], [VmaAlloc], [VmaThm],
      [VmaMap], [VmaFree], [VmaExample]: areas, mmap, munmap, demand paging and
      vmalloc, over the class [KernelAllocator], whose laws are the documented
      contract of kmalloc (the heap of [Slab] keeps it but for those two
      defects).
    - [KernelInit]: init of src/arch/x86/x86.c brings up the boot allocator,
      the kernel directory, the page descriptors, the buddy and the slab
      allocators one after the other; the free frames in the end are available
      memory that nothing reserved and no boot allocation took.

    ** Processes

    - [Task], [Sched], [Process]: the task structure and its lists, wait
      queues, the timer, the scheduler, signals, exit and waitpid (src/proc,
      src/syscalls).  [SchedInv]: the invariant of the queues;
      [SchedThm], [SignalThm], [ProcessThm]: round robin without starvation,
      sleepers woken on time, delivery of signals, exit and reaping;
      [KernelSteps]: the invariant over every sequence of kernel events;
      [ProcessExample]: instances.
    - [Gdt], [Idt]: the descriptor tables as the processor reads them, and the
      dispatch of interrupts (src/arch/x86).
    - [Fork], [ForkSpace], [ForkThm], [ForkChild], [ForkExample]: fork copies
      every user page, the tables and the kernel stack; three defects.
    - [Loader], [LoaderInv], [LoaderThm], [LoaderMap],
      [LoaderLayout]: program images (userspace.c, section.c, io_stream.h).
      [Usercopy]: copies from and to user memory and write.  [Spawn],
      [SpawnExample]: task creation and execve, and the first program started
      over the real allocators.  [Sloppy]: the shell's threads; creating and
      queueing one, on every branch, whatever the allocators do.

    ** Libraries

    [Libk], [LibkThm], [Libutils], [LibutilsThm]: the C library of the kernel;
    [Bitmap]: bitmaps and the identifier manager; [Lst]: the list library
    src/lib/data_structs/lst.

    ** Devices

    - [Tty]: vga.c and tty.c.  [TtyThm]: the ring of 256 lines refines a
      scrolling grid ([term]); [TtyFormat]: the conversions of vga_printf are
      numerals.  [Keyboard]: keyboard.c and layout.h; [KeyboardThm]: the
      invariant of the layout tables; [KeyboardEdit]: typing refines a line
      editor, and what Enter does; [ConsoleTyped]: all values stay in their C
      types; [KeyboardExample]: instances.
    - [Block], [BlockThm]: the class [Disk] that a driver implements, and the
      partition table, proved against that class.  [Pci], [PciThm]: the scan of
      the bus on hardware that follows the specification.  [Ata], [AtaThm]: the
      IDE driver, an instance of [Disk].  [Listing]: what the shell lists.
    - [Report]: the dumps of the components, as calls of vga_printf whose
      formats agree with their arguments, memory dumps and kpanic.

    ** Fuel

    Loops that are not structural carry fuel; the theorems that a function
    returns show that it is enough.  Fixed bounds: [ORDER_FUEL] 12 (the orders
    of the buddy allocator), 4 cuts of a region into zones, 28 cache sizes,
    depth 2 of kmalloc's recursion, 21 digits in ft_itoa, 13 calls of ft_putnbr
    and 9 of ft_puthexa, 5 wraps and 257 scrolled lines of a character (its
    coordinates are bytes), 4 spaces of a tabulation, 256 buses.  String loops
    have the length of their string and list loops that of their list.  The
    polling of a disk or of the keyboard controller, which the code does not
    bound, takes its bound as a parameter, as do the walk over the boot
    information and the dumps of memory and of a stack, whose theorems give
    one; a walk over a free list has [LIST_FUEL], one more than the page
    descriptors.

    ** Not modelled

    Assembly (boot code, stubs, the user programs, the context switch, which is
    an entry of the scheduler's trace) and single instructions (halt, control
    registers, interrupts on and off); the constructors that the linker
    collects; the two functions of buddy.c that print list nodes before the
    self test stops; the wrappers io_open, io_write and io_seek, which nothing
    calls; the structures of multiboot2.h for tags that the kernel skips. *)

From stdpp Require Export base list functions strings numbers sets fin_sets list_numbers.
From Stdlib Require Export ZArith Lia.

Open Scope Z_scope.

(** ** Machine integers

    The kernel is built for i686: [size_t], [uintptr_t], [uint32_t] and
    [unsigned long] are 32 bits wide.  A value of one of these types is a
    [Z] in [0, W32); every operation that can leave the range wraps. *)

Definition W32 : Z := 4294967296.

Definition u32 (z : Z) : Z := z mod W32.

(** The two's complement reading of a 32-bit word: [int], [ssize_t], [long]. *)
Definition s32 (z : Z) : Z := if u32 z <? 2147483648 then u32 z else u32 z - W32.

Definition u16 (z : Z) : Z := z mod 65536.

Definition u8 (z : Z) : Z := z mod 256.

(** Bitwise complement at width 32. *)
Definition not32 (z : Z) : Z := u32 (Z.lnot z).

Declare Scope c_scope.
Delimit Scope c_scope with c.
Notation "a ⊞ b" := (u32 (a + b)) (at level 50, left associativity) : c_scope.
Notation "a ⊟ b" := (u32 (a - b)) (at level 50, left associativity) : c_scope.
Notation "a ⊠ b" := (u32 (a * b)) (at level 40, left associativity) : c_scope.
Open Scope c_scope.

(** *** The arithmetic macros of include/utils/kmacro.h *)

Definition ALIGN (x a : Z) : Z := Z.land (x ⊞ (a ⊟ 1)) (not32 (a ⊟ 1)).

Definition ALIGN_DOWN (x a : Z) : Z := Z.land x (not32 (a ⊟ 1)).

Definition IS_ALIGNED (addr a : Z) : bool := ALIGN addr a =? addr.

Definition DIV_ROUND_UP (x y : Z) : Z := ((x ⊞ y) ⊟ 1) / y.

Definition FLAG_IS_SET (flags flag : Z) : bool := negb (Z.land flags flag =? 0).

Definition MIN (a b : Z) : Z := if a <? b then a else b.

Definition BITS_TO_BYTES (nb_bits : Z) : Z := DIV_ROUND_UP nb_bits 8.

Definition PAGE_SIZE : Z := 4096.

Definition KERNEL_VADDR_BASE : Z := 3221225472. (* 0xC0000000 *)

(** *** Facts about the machine operations *)

Lemma u32_range z : 0 ≤ u32 z < W32.
Proof. apply Z.mod_pos_bound. reflexivity. Qed.

Lemma u32_small z : 0 ≤ z < W32 → u32 z = z.
Proof. apply Z.mod_small. Qed.

Lemma u32_idemp z : u32 (u32 z) = u32 z.
Proof. apply u32_small, u32_range. Qed.

(** *** Signed words: congruence modulo [2^32] *)

Lemma s32_shift a k : s32 (a + k * W32) = s32 a.
Proof. unfold s32, u32. by rewrite Z.mod_add by done. Qed.

Lemma s32_decomp x : ∃ k, s32 x = x + k * W32.
Proof.
  unfold s32, u32. pose proof (Z.div_mod x W32 ltac:(done)).
  case_match; [exists (- (x / W32))|exists (- (x / W32) - 1)]; lia.
Qed.

Lemma s32_small z : -2147483648 ≤ z < 2147483648 → s32 z = z.
Proof.
  intros Hz. unfold s32. destruct (decide (0 ≤ z)).
  - rewrite u32_small by (unfold W32; lia). by rewrite (proj2 (Z.ltb_lt _ _)) by lia.
  - assert (u32 z = z + W32) as ->.
    { symmetry. apply (Z.mod_unique _ _ (-1)); unfold W32; lia. }
    rewrite (proj2 (Z.ltb_ge _ _)) by (unfold W32; lia). lia.
Qed.

(** A field above another. *)
Lemma lor_low a f k : 0 ≤ k → 0 ≤ f < 2 ^ k → Z.lor (a * 2 ^ k) f = a * 2 ^ k + f.
Proof.
  intros Hk Hf. symmetry. apply Z.add_nocarry_lor. apply Z.bits_inj'. intros i Hi. rewrite Z.land_spec, Z.bits_0.
  destruct (Z.lt_ge_cases i k) as [Hik|Hik].
  - rewrite Z.mul_pow2_bits_low by done. done.
  - destruct (decide (f = 0)) as [->|]; [by rewrite Z.bits_0, andb_false_r|].
    rewrite (Z.bits_above_log2 f i); [by rewrite andb_false_r|lia|].
    apply Z.lt_le_trans with k; [apply Z.log2_lt_pow2; lia|done].
Qed.

Lemma land_pow2 a k : 0 ≤ k → Z.land a (2 ^ k) = if Z.testbit a k then 2 ^ k else 0.
Proof.
  intros Hk. apply Z.bits_inj'. intros n Hn.
  rewrite Z.land_spec, Z.pow2_bits_eqb by done.
  destruct (Z.eqb_spec k n) as [->|].
  - destruct (Z.testbit a n); simpl; [|by rewrite Z.bits_0].
    by rewrite Z.pow2_bits_true.
  - rewrite andb_false_r. destruct (Z.testbit a k); [|by rewrite Z.bits_0].
    by rewrite Z.pow2_bits_false.
Qed.

Lemma lxor_pow2 a k : 0 ≤ k →
  Z.lxor a (2 ^ k) = if Z.testbit a k then a - 2 ^ k else a + 2 ^ k.
Proof.
  intros Hk. pose proof (Z.add_lxor_2land a (2 ^ k)) as H.
  rewrite land_pow2 in H by done. destruct (Z.testbit a k); lia.
Qed.

Lemma land_lnot_ones x k : 0 ≤ k → Z.land x (Z.lnot (Z.ones k)) = x - x mod 2 ^ k.
Proof.
  intros Hk. rewrite <- Z.ldiff_land, Z.ldiff_ones_r by done.
  rewrite Z.shiftl_mul_pow2, Z.shiftr_div_pow2 by done.
  pose proof (Z.pow_pos_nonneg 2 k). rewrite (Z.div_mod x (2 ^ k)) at 2 by lia. lia.
Qed.

Lemma land_u32_r x m : 0 ≤ x < W32 → Z.land x (u32 m) = Z.land x m.
Proof.
  intros Hx. unfold u32. change W32 with (2 ^ 32).
  rewrite <- Z.land_ones, (Z.land_comm m), Z.land_assoc, Z.land_ones by lia.
  by rewrite Z.mod_small.
Qed.

(** Rounding down to a power of two, the only alignments the kernel uses. *)
Lemma ALIGN_DOWN_pow2 x k : 0 ≤ x < W32 → 0 ≤ k < 32 →
  ALIGN_DOWN x (2 ^ k) = x - x mod 2 ^ k.
Proof.
  intros Hx Hk. unfold ALIGN_DOWN, not32.
  assert (2 ^ k ≤ 2 ^ 31) by (apply Z.pow_le_mono_r; lia).
  assert (2 ^ 31 < W32) by reflexivity.
  pose proof (Z.pow_pos_nonneg 2 k).
  rewrite land_u32_r, u32_small by lia.
  replace (2 ^ k - 1) with (Z.ones k) by (rewrite Z.ones_equiv; lia).
  apply land_lnot_ones. lia.
Qed.

(** Rounding up: exact as long as the sum does not wrap. *)
Lemma ALIGN_pow2 x k : 0 ≤ k < 32 → 0 ≤ x → x + (2 ^ k - 1) < W32 →
  ALIGN x (2 ^ k) = (x + (2 ^ k - 1)) - (x + (2 ^ k - 1)) mod 2 ^ k.
Proof.
  intros Hk Hx Hs. pose proof (Z.pow_pos_nonneg 2 k).
  rewrite <- ALIGN_DOWN_pow2 by lia. unfold ALIGN, ALIGN_DOWN.
  by rewrite (u32_small (2 ^ k - 1)), (u32_small (x + _)) by lia.
Qed.

Lemma ALIGN_spec x k : 0 ≤ k < 32 → 0 ≤ x → x + (2 ^ k - 1) < W32 →
  x ≤ ALIGN x (2 ^ k) < x + 2 ^ k ∧ (2 ^ k | ALIGN x (2 ^ k)).
Proof.
  intros Hk Hx Hs. pose proof (Z.pow_pos_nonneg 2 k ltac:(lia) ltac:(lia)).
  rewrite ALIGN_pow2 by done.
  pose proof (Z.mod_pos_bound (x + (2 ^ k - 1)) (2 ^ k)). split; [lia|].
  exists ((x + (2 ^ k - 1)) / 2 ^ k). rewrite Z.mod_eq by lia. lia.
Qed.

(** A multiple of [d] is the least one above [x] if it is within [d] of it. *)
Lemma least_multiple d r x y : 0 < d → (d | r) → (d | y) → r < x + d → x ≤ y → r ≤ y.
Proof.
  intros Hd [a ->] [c ->] H1 H2.
  assert (a < c + 1) by (apply (Z.mul_lt_mono_pos_r d); lia). nia.
Qed.

Lemma DIV_ROUND_UP_exact x y : 0 < y → 0 ≤ x → x + y ≤ W32 - 1 →
  DIV_ROUND_UP x y = (x + y - 1) / y.
Proof. intros. unfold DIV_ROUND_UP. by rewrite !u32_small by (rewrite ?u32_small; lia). Qed.

Lemma DIV_ROUND_UP_bounds x y : 0 < y → 0 ≤ x → x + y ≤ W32 - 1 →
  (DIV_ROUND_UP x y - 1) * y < x ≤ DIV_ROUND_UP x y * y.
Proof.
  intros. rewrite DIV_ROUND_UP_exact by done.
  pose proof (Z.div_mod (x + y - 1) y). pose proof (Z.mod_pos_bound (x + y - 1) y). nia.
Qed.

(** ** Execution outcomes and the state monad

    A C function that reads and writes globals is a function from the state
    to an outcome.  [Panic] is a call of [kpanic] (which never returns),
    [Fault] is a memory access the C program has no right to make (a NULL
    dereference or an index outside its array), [Hang] is the exhaustion of
    the fuel of a loop that has no structural bound. *)

Inductive outcome (A : Type) : Type :=
  | Done (a : A)
  | Panic (msg : string)
  | Fault
  | Hang.
Arguments Done {A} _.
Arguments Panic {A} _.
Arguments Fault {A}.
Arguments Hang {A}.

Definition obind {A B} (o : outcome A) (f : A → outcome B) : outcome B :=
  match o with Done a => f a | Panic m => Panic m | Fault => Fault | Hang => Hang end.

Definition M (S A : Type) : Type := S → outcome (A * S).

#[export] Instance M_ret S : MRet (M S) := λ A a s, Done (a, s).

#[export] Instance M_bind S : MBind (M S) := λ A B f c s,
  match c s with
  | Done (a, s') => f a s'
  | Panic m => Panic m
  | Fault => Fault
  | Hang => Hang
  end.

Definition kpanic {S A} (msg : string) : M S A := λ _, Panic msg.

Definition fault {S A} : M S A := λ _, Fault.

Definition hang {S A} : M S A := λ _, Hang.

Definition gets {S A} (f : S → A) : M S A := λ s, Done (f s, s).

Definition modify {S} (f : S → S) : M S unit := λ s, Done (tt, f s).

(** [assert(expr)] of include/utils/assert.h in the debug build. *)
Definition assert_ {S} (b : bool) : M S unit :=
  if b then mret tt else kpanic "Assertion failed".

(** [for (i = lo; i < lo + n; i++) body(i)]. *)
Fixpoint for_ {S} (n : nat) (i : Z) (body : Z → M S unit) : M S unit :=
  match n with
  | O => mret tt
  | Datatypes.S n' => body i ;; for_ n' (i + 1) body
  end.

(** ** Total-correctness triples *)

Section WP.
Context {S : Type}.

(** [wp c s Q]: from [s] the computation [c] returns, without panic, fault
    or exhausted fuel, and its result and final state satisfy [Q]. *)
Definition wp {A} (c : M S A) (s : S) (Q : A → S → Prop) : Prop :=
  match c s with Done (a, s') => Q a s' | _ => False end.

Lemma wp_ret {A} (a : A) s (Q : A → S → Prop) : Q a s → wp (mret a) s Q.
Proof. done. Qed.

Lemma wp_bind {A B} (c : M S A) (f : A → M S B) s Q :
  wp c s (λ a s', wp (f a) s' Q) → wp (mbind f c) s Q.
Proof. unfold wp, mbind, M_bind. by destruct (c s) as [[a s']| | |]. Qed.

Lemma wp_gets {A} (f : S → A) s (Q : A → S → Prop) : Q (f s) s → wp (gets f) s Q.
Proof. done. Qed.

Lemma wp_modify (f : S → S) s (Q : unit → S → Prop) : Q tt (f s) → wp (modify f) s Q.
Proof. done. Qed.

Lemma wp_mono {A} (c : M S A) s (Q Q' : A → S → Prop) :
  wp c s Q → (∀ a s', Q a s' → Q' a s') → wp c s Q'.
Proof. unfold wp. destruct (c s) as [[a s']| | |]; eauto. Qed.

Lemma wp_if {A} (b : bool) (c1 c2 : M S A) s Q :
  (b = true → wp c1 s Q) → (b = false → wp c2 s Q) → wp (if b then c1 else c2) s Q.
Proof. destruct b; auto. Qed.

Lemma wp_assert b s (Q : unit → S → Prop) : b = true → Q tt s → wp (assert_ b) s Q.
Proof. by intros ->. Qed.

Lemma wp_run {A} (c : M S A) s (Q : A → S → Prop) :
  wp c s Q ↔ ∃ a s', c s = Done (a, s') ∧ Q a s'.
Proof.
  unfold wp. split; [|by intros (a & s' & -> & ?)].
  destruct (c s) as [[a s']| | |]; [eauto|done..].
Qed.

Lemma wp_with_run {A} (c : M S A) s (Q : A → S → Prop) :
  wp c s Q → wp c s (λ a s', c s = Done (a, s') ∧ Q a s').
Proof. unfold wp. destruct (c s) as [[a s']| | |]; auto. Qed.

(** The state a run ends in, for the concrete runs of the witnesses. *)
Definition final_state {A} (c : M S A) (s : S) : S :=
  match c s with Done (_, s') => s' | _ => s end.

Lemma wp_final {A} (c : M S A) s (Q : S → Prop) : wp c s (λ _ s', Q s') → Q (final_state c s).
Proof. unfold wp, final_state. by destruct (c s) as [[a s']| | |]. Qed.

Lemma run_final {A} (c : M S A) s a :
  match c s with Done (x, _) => x = a | _ => False end → c s = Done (a, final_state c s).
Proof. unfold final_state. destruct (c s) as [[x s']| | |]; [by intros ->|done..]. Qed.

(** [wlp c s Q]: the computation does not run out of fuel and, when it
    returns, its result and final state satisfy [Q]; it may panic or fault. *)
Definition wlp {A} (c : M S A) (s : S) (Q : A → S → Prop) : Prop :=
  match c s with Done (a, s') => Q a s' | Hang => False | _ => True end.

Lemma wp_wlp {A} (c : M S A) s Q : wp c s Q → wlp c s Q.
Proof. unfold wp, wlp. by destruct (c s) as [[a s']| | |]. Qed.

Lemma wlp_ret {A} (a : A) s (Q : A → S → Prop) : Q a s → wlp (mret a) s Q.
Proof. done. Qed.

Lemma wlp_bind {A B} (c : M S A) (f : A → M S B) s Q :
  wlp c s (λ a s', wlp (f a) s' Q) → wlp (mbind f c) s Q.
Proof. unfold wlp, mbind, M_bind. by destruct (c s) as [[a s']| | |]. Qed.

Lemma wlp_bind_assoc {A B} (c : M S A) (d : M S A) (k : M S B) s Q :
  wlp ((c ;; d) ;; k) s Q → wlp (c ;; d ;; k) s Q.
Proof. unfold wlp, mbind, M_bind. by destruct (c s) as [[a s']| | |]. Qed.

Lemma wlp_mono {A} (c : M S A) s (Q Q' : A → S → Prop) :
  wlp c s Q → (∀ a s', Q a s' → Q' a s') → wlp c s Q'.
Proof. unfold wlp. destruct (c s) as [[a s']| | |]; eauto. Qed.

Lemma wlp_done {A} (c : M S A) s Q a s' : wlp c s Q → c s = Done (a, s') → Q a s'.
Proof. unfold wlp. by intros H E; rewrite E in H. Qed.

(** The loop rule: [I] indexes the invariant by the loop counter. *)
Lemma wp_for (I : Z → S → Prop) (body : Z → M S unit) n i s :
  I i s →
  (∀ j s, i ≤ j < i + Z.of_nat n → I j s → wp (body j) s (λ _ s', I (j + 1) s')) →
  wp (for_ n i body) s (λ _ s', I (i + Z.of_nat n) s').
Proof.
  revert i s. induction n as [|n IH]; intros i s Hi Hb; simpl.
  - apply wp_ret. by rewrite Z.add_0_r.
  - apply wp_bind. eapply wp_mono; [apply Hb; [lia|done]|]. intros [] s' Hs'.
    replace (i + Z.of_nat (Datatypes.S n)) with (i + 1 + Z.of_nat n) by lia.
    apply IH; [done|]. intros j s2 Hj. apply Hb. lia.
Qed.

End WP.

(** ** Automation *)

(** One symbolic-execution step of a [wp] goal. *)
Ltac wp_step :=
  lazymatch goal with
  | |- wp (mbind _ _) _ _ => apply wp_bind
  | |- wp (mret _) _ _ => apply wp_ret
  | |- wp (gets _) _ _ => apply wp_gets
  | |- wp (modify _) _ _ => apply wp_modify
  end.

Ltac wp_steps := repeat (wp_step; cbn beta).

(** Case analysis on the boolean comparisons of the source. *)
Ltac case_bool :=
  match goal with
  | |- context [if ?b then _ else _] => destruct b eqn:?
  | |- context [match ?b with true => _ | false => _ end] => destruct b eqn:?
  end.

Ltac to_prop :=
  repeat match goal with
  | H : (_ =? _) = true |- _ => apply Z.eqb_eq in H
  | H : (_ =? _) = false |- _ => apply Z.eqb_neq in H
  | H : (_ <? _) = true |- _ => apply Z.ltb_lt in H
  | H : (_ <? _) = false |- _ => apply Z.ltb_ge in H
  | H : (_ <=? _) = true |- _ => apply Z.leb_le in H
  | H : (_ <=? _) = false |- _ => apply Z.leb_gt in H
  | H : negb _ = true |- _ => apply negb_true_iff in H
  | H : negb _ = false |- _ => apply negb_false_iff in H
  | H : _ && _ = true |- _ => apply andb_true_iff in H as [? ?]
  | H : _ || _ = false |- _ => apply orb_false_iff in H as [? ?]
  end.

(** ** Lists of distinct numbers *)

Lemma NoDup_range_length (l : list Z) lo n : 0 ≤ n →
  NoDup l → (∀ x, x ∈ l → lo ≤ x < lo + n) → Z.of_nat (length l) ≤ n.
Proof.
  intros Hn Hnd Hr.
  assert (l ⊆+ seqZ lo n) as Hs.
  { apply NoDup_submseteq; [done|]. intros x Hx. apply elem_of_seqZ. auto. }
  apply submseteq_length in Hs. rewrite length_seqZ in Hs. lia.
Qed.

Lemma filter_ext_in (P1 P2 : Z → Prop) `{!∀ x, Decision (P1 x), !∀ x, Decision (P2 x)} (l : list Z) :
  (∀ x, x ∈ l → P1 x ↔ P2 x) → filter P1 l = filter P2 l.
Proof.
  induction l as [|x l IH]; intros Hl; [done|]. rewrite !filter_cons.
  rewrite (IH (λ y Hy, Hl y (list_elem_of_further _ _ _ Hy))).
  specialize (Hl x (list_elem_of_here _ _)). repeat case_decide; tauto || done.
Qed.

Create HintDb kfs.
Create Rewrite HintDb kfs.
#[export] Hint Resolve u32_range wp_ret : kfs.
#[export] Hint Rewrite u32_idemp : kfs.
