(* ===== verification/Dlist.v ===== *)
(** * Intrusive circular doubly linked lists (include/list.h)

    [N] is the type of the [struct list_head] locations of one component
    (list sentinels and the nodes embedded in its structures).  The heap
    cells that hold them are a total store [N → list_head]; a NULL link is
    [None] and following it is the failure of the operation ([None] as a
    result).  [dlist σ h l] is the representation predicate: from the
    sentinel [h] the [next] links visit exactly [l] and come back to [h],
    and the [prev] links are their mirror image. *)

From S2P Require Import Prelude.

Section Dlist.
Context {N : Type} `{!EqDecision N}.

Record list_head := ListHead { next : option N; prev : option N }.

#[local] Abbreviation store := (N → list_head).

Implicit Types (σ : store) (n h p q : N) (l : list N).

Definition set_next (n : N) (v : option N) (σ : store) : store :=
  <[n := ListHead v (prev (σ n))]> σ.

Definition set_prev (n : N) (v : option N) (σ : store) : store :=
  <[n := ListHead (next (σ n)) v]> σ.

Definition INIT_SENTINEL (n : N) (σ : store) : store :=
  <[n := ListHead (Some n) (Some n)]> σ.

Definition list_is_empty (h : N) (σ : store) : bool :=
  bool_decide (next (σ h) = Some h).

Definition list_first_entry (h : N) (σ : store) : option N :=
  if list_is_empty h σ then None else next (σ h).

Definition list_node_is_linked (n : N) (σ : store) : bool :=
  match next (σ n), prev (σ n) with
  | Some x, Some _ => negb (bool_decide (x = n))
  | _, _ => false
  end.

Definition list_add_head (new h : N) (σ : store) : option store :=
  let old_next := next (σ h) in
  let σ := set_next new old_next σ in
  let σ := set_prev new (Some h) σ in
  match old_next with
  | None => None
  | Some o => Some (set_next h (Some new) (set_prev o (Some new) σ))
  end.

Definition list_insert (new : N) (pv : option N) (nx : N) (σ : store) : option store :=
  let σ := set_prev nx (Some new) σ in
  let σ := set_next new (Some nx) σ in
  let σ := set_prev new pv σ in
  match pv with
  | None => None
  | Some p => Some (set_next p (Some new) σ)
  end.

Definition list_add_tail (new h : N) (σ : store) : option store :=
  list_insert new (prev (σ h)) h σ.

Definition pop_node (n : N) (σ : store) : option store :=
  match prev (σ n) with
  | None => None
  | Some p =>
      let σ := set_next p (next (σ n)) σ in
      match next (σ n) with
      | None => None
      | Some x =>
          let σ := set_prev x (prev (σ n)) σ in
          Some (set_prev n None (set_next n None σ))
      end
  end.

(** [list_for_each_entry(pos, head, m) if (P(pos)) return pos; return NULL].
    [fuel] bounds the walk; a NULL link makes [list_next_entry] compute a
    pointer into unmapped memory. *)
Fixpoint list_find_from (fuel : nat) (P : N → bool) (h pos : N) (σ : store)
    : outcome (option N) :=
  match fuel with
  | O => Hang
  | S fuel =>
      if bool_decide (pos = h) then Done None
      else if P pos then Done (Some pos)
      else match next (σ pos) with
           | None => Fault
           | Some q => list_find_from fuel P h q σ
           end
  end.

Definition list_find (fuel : nat) (P : N → bool) (h : N) (σ : store) : outcome (option N) :=
  if list_is_empty h σ then Done None
  else match next (σ h) with
       | None => Fault
       | Some q => list_find_from fuel P h q σ
       end.

(** The nodes a read-only traversal visits, in order. *)
Fixpoint list_nodes_from (fuel : nat) (h pos : N) (σ : store) : outcome (list N) :=
  match fuel with
  | O => Hang
  | S fuel =>
      if bool_decide (pos = h) then Done []
      else match next (σ pos) with
           | None => Fault
           | Some q => obind (list_nodes_from fuel h q σ) (λ l, Done (pos :: l))
           end
  end.

Definition list_nodes (fuel : nat) (h : N) (σ : store) : outcome (list N) :=
  match next (σ h) with
  | None => Fault
  | Some q => list_nodes_from fuel h q σ
  end.

(** ** Reading back a store *)

Lemma next_set_next n v σ m :
  next (set_next n v σ m) = if decide (n = m) then v else next (σ m).
Proof.
  unfold set_next. case_decide; subst; [by rewrite fn_lookup_insert|].
  by rewrite fn_lookup_insert_ne.
Qed.

Lemma prev_set_next n v σ m : prev (set_next n v σ m) = prev (σ m).
Proof.
  unfold set_next. destruct (decide (n = m)); subst; [by rewrite fn_lookup_insert|].
  by rewrite fn_lookup_insert_ne.
Qed.

Lemma prev_set_prev n v σ m :
  prev (set_prev n v σ m) = if decide (n = m) then v else prev (σ m).
Proof.
  unfold set_prev. case_decide; subst; [by rewrite fn_lookup_insert|].
  by rewrite fn_lookup_insert_ne.
Qed.

Lemma next_set_prev n v σ m : next (set_prev n v σ m) = next (σ m).
Proof.
  unfold set_prev. destruct (decide (n = m)); subst; [by rewrite fn_lookup_insert|].
  by rewrite fn_lookup_insert_ne.
Qed.

Lemma set_next_other n v σ m : n ≠ m → set_next n v σ m = σ m.
Proof. apply fn_lookup_insert_ne. Qed.

Lemma set_prev_other n v σ m : n ≠ m → set_prev n v σ m = σ m.
Proof. apply fn_lookup_insert_ne. Qed.

Lemma list_head_eq (a b : list_head) : next a = next b → prev a = prev b → a = b.
Proof. destruct a, b; simpl; congruence. Qed.

(** ** Segments and lists *)

Fixpoint dseg (σ : store) (p : N) (l : list N) (q : N) : Prop :=
  match l with
  | [] => next (σ p) = Some q ∧ prev (σ q) = Some p
  | x :: l => next (σ p) = Some x ∧ prev (σ x) = Some p ∧ dseg σ x l q
  end.

Definition dlist (σ : store) (h : N) (l : list N) : Prop :=
  NoDup (h :: l) ∧ dseg σ h l h.

Lemma dseg_app σ p l1 x l2 q :
  dseg σ p (l1 ++ x :: l2) q ↔ dseg σ p l1 x ∧ dseg σ x l2 q.
Proof. revert p. induction l1 as [|y l1 IH]; intros p; simpl; [tauto|]. rewrite IH. tauto. Qed.

Lemma dseg_head σ p l q : dseg σ p l q → next (σ p) = Some (default q (head l)).
Proof. destruct l; simpl; tauto. Qed.

Lemma last_cons_default (x : N) l d : List.last (x :: l) d = List.last l x.
Proof.
  revert x d. induction l as [|z l IH]; intros; [done|].
  change (List.last (z :: l) d = List.last (z :: l) x). by rewrite !IH.
Qed.

Lemma dseg_last σ p l q : dseg σ p l q → prev (σ q) = Some (List.last l p).
Proof.
  revert p. induction l as [|x l IH]; intros p; simpl; [tauto|]. intros (_ & _ & H).
  rewrite (IH _ H), <- (last_cons_default x l p). done.
Qed.

Lemma last_in p l : List.last l p ∈ p :: l.
Proof.
  induction l as [|x l IH] using rev_ind; [set_solver|].
  rewrite List.last_last. set_solver.
Qed.

(** A store that agrees on the links of a segment, except that its last node
    now points to [x], holds the same segment ending at [x]. *)
Lemma dseg_retarget σ σ' p l q x :
  NoDup (p :: l) → dseg σ p l q →
  (∀ m, m ∈ p :: l → m ≠ List.last l p → next (σ' m) = next (σ m)) →
  (∀ m, m ∈ l → prev (σ' m) = prev (σ m)) →
  next (σ' (List.last l p)) = Some x → prev (σ' x) = Some (List.last l p) →
  dseg σ' p l x.
Proof.
  revert p. induction l as [|y l IH]; intros p Hnd Hs Hn Hp Hl Hx; simpl in *; [done|].
  destruct Hs as (H1 & H2 & H3). apply NoDup_cons in Hnd as [Hp' Hnd].
  pose proof (last_cons_default y l p) as E. simpl in E. rewrite E in *.
  assert (p ≠ List.last l y) as Hne by (intros ->; apply Hp', last_in).
  rewrite Hn, Hp by (done || apply list_elem_of_here).
  split_and!; [done..|]. apply IH; [done..| | |done|done].
  - intros m Hm ?. apply Hn; [by apply list_elem_of_further|done].
  - intros m Hm. apply Hp. by apply list_elem_of_further.
Qed.

Lemma dseg_frame σ σ' p l q :
  dseg σ p l q →
  (∀ m, m ∈ p :: l → next (σ' m) = next (σ m)) →
  (∀ m, m ∈ q :: l → prev (σ' m) = prev (σ m)) →
  dseg σ' p l q.
Proof.
  revert p. induction l as [|x l IH]; intros p; simpl.
  - intros [H1 H2] Hn Hp. rewrite Hn, Hp by set_solver. done.
  - intros (H1 & H2 & H3) Hn Hp. rewrite Hn, Hp by set_solver. split_and!; [done|done|].
    apply IH; [done|set_solver..].
Qed.

Lemma dlist_frame σ σ' h l :
  (∀ m, m ∈ h :: l → σ' m = σ m) → dlist σ h l → dlist σ' h l.
Proof.
  intros E [Hnd Hs]. split; [done|].
  eapply dseg_frame; [done|intros m Hm; by rewrite E..].
Qed.

Lemma dlist_unique σ h l l' : dlist σ h l → dlist σ h l' → l = l'.
Proof.
  intros [Hnd Hs] [Hnd' Hs']. apply NoDup_cons in Hnd as [Hh _], Hnd' as [Hh' _].
  revert Hh Hh' Hs Hs'. generalize h at 3 5. revert l'.
  induction l as [|x l IH]; intros [|y l'] p Hh Hh' Hs Hs'; simpl in *.
  - done.
  - destruct Hs as [E _], Hs' as [E' _]. rewrite E in E'. simplify_eq. set_solver.
  - destruct Hs as [E _], Hs' as [E' _]. rewrite E in E'. simplify_eq. set_solver.
  - destruct Hs as (E & _ & Hs), Hs' as (E' & _ & Hs'). rewrite E in E'.
    injection E' as <-. f_equal. eapply IH; [set_solver..|done|done].
Qed.

(** ** The operations refine sequence operations *)

Ltac unfold_links :=
  repeat first
    [ rewrite next_set_next | rewrite prev_set_next
    | rewrite next_set_prev | rewrite prev_set_prev ].

Ltac solve_links := unfold_links; repeat case_decide; subst; (done || congruence || set_solver).

Lemma dlist_init h σ : dlist (INIT_SENTINEL h σ) h [].
Proof.
  split; [apply NoDup_singleton|]. unfold INIT_SENTINEL; simpl.
  by rewrite fn_lookup_insert.
Qed.

Lemma INIT_SENTINEL_other h σ m : m ≠ h → INIT_SENTINEL h σ m = σ m.
Proof. intros. by apply fn_lookup_insert_ne. Qed.

Lemma list_is_empty_spec σ h l : dlist σ h l → list_is_empty h σ = bool_decide (l = []).
Proof.
  intros [Hnd Hs]. apply NoDup_cons in Hnd as [Hh _]. unfold list_is_empty.
  apply bool_decide_ext. rewrite (dseg_head _ _ _ _ Hs).
  destruct l; simpl; [done|]. split; [|done]. intros [= ->]. set_solver.
Qed.

Lemma list_first_entry_spec σ h l : dlist σ h l → list_first_entry h σ = head l.
Proof.
  intros Hl. unfold list_first_entry. rewrite (list_is_empty_spec _ _ _ Hl).
  destruct Hl as [_ Hs]. rewrite (dseg_head _ _ _ _ Hs). by destruct l.
Qed.

Lemma list_node_is_linked_spec σ h l n : dlist σ h l → n ∈ l → list_node_is_linked n σ = true.
Proof.
  intros [Hnd Hs] Hn. apply list_elem_of_split in Hn as (l1 & l2 & ->).
  apply dseg_app in Hs as [H1 H2]. unfold list_node_is_linked.
  rewrite (dseg_head _ _ _ _ H2), (dseg_last _ _ _ _ H1).
  apply negb_true_iff, bool_decide_eq_false. intros E.
  apply NoDup_cons in Hnd as [Hh Hnd]. apply NoDup_app in Hnd as (_ & _ & Hnd).
  apply NoDup_cons in Hnd as [Hn _]. destruct l2; simpl in E; set_solver.
Qed.

Lemma list_add_head_spec σ h l n : dlist σ h l → n ∉ h :: l →
  ∃ σ', list_add_head n h σ = Some σ' ∧ dlist σ' h (n :: l) ∧
        (∀ m, m ∉ n :: h :: l → σ' m = σ m).
Proof.
  intros [Hnd Hs] Hn. unfold list_add_head.
  rewrite (dseg_head _ _ _ _ Hs). eexists. split; [done|].
  assert (NoDup (h :: n :: l)) as Hnd'.
  { apply NoDup_cons in Hnd as [? ?]. rewrite !NoDup_cons. set_solver. }
  split; [split; [done|]|].
  - destruct l as [|x l]; simpl in *.
    + split_and!; solve_links.
    + destruct Hs as (H1 & H2 & H3). rewrite !NoDup_cons in Hnd'.
      split_and!; [solve_links..|].
      eapply dseg_frame; [exact H3|..]; intros m Hm; solve_links.
  - intros m Hm. destruct l as [|x l]; simpl;
      rewrite set_next_other, !set_prev_other, set_next_other; set_solver.
Qed.

Lemma list_insert_dseg σ p l q n : NoDup (p :: l) → q ∉ l → n ∉ q :: p :: l → dseg σ p l q →
  ∃ σ', list_insert n (prev (σ q)) q σ = Some σ' ∧ dseg σ' p (l ++ [n]) q ∧
        (∀ m, m ≠ n → m ≠ List.last l p → next (σ' m) = next (σ m)) ∧
        (∀ m, m ≠ n → m ≠ q → prev (σ' m) = prev (σ m)).
Proof.
  intros Hnd Hq Hn Hs. unfold list_insert. rewrite (dseg_last _ _ _ _ Hs).
  eexists. split; [done|]. pose proof (last_in p l) as Hl.
  split; [apply dseg_app; split|split].
  - eapply (dseg_retarget σ); [done|done|intros m Hm ?; solve_links|
      intros m Hm; solve_links|solve_links|solve_links].
  - simpl. split; solve_links.
  - intros m ? ?. solve_links.
  - intros m ? ?. solve_links.
Qed.

Lemma list_add_tail_spec σ h l n : dlist σ h l → n ∉ h :: l →
  ∃ σ', list_add_tail n h σ = Some σ' ∧ dlist σ' h (l ++ [n]) ∧
        (∀ m, m ∉ n :: h :: l → σ' m = σ m).
Proof.
  intros [Hnd Hs] Hn. unfold list_add_tail.
  destruct (list_insert_dseg σ h l h n) as (σ' & -> & Hs' & Hnx & Hpv);
    [done|by apply NoDup_cons in Hnd as [? _]|set_solver|done|].
  exists σ'. split; [done|]. split; [split; [|done]|].
  - apply NoDup_cons in Hnd as [? ?]. apply NoDup_cons. split; [set_solver|].
    apply NoDup_app. split_and!; [done|set_solver|apply NoDup_singleton].
  - intros m Hm. pose proof (last_in h l).
    apply list_head_eq; [apply Hnx|apply Hpv]; set_solver.
Qed.

(** Insertion in front of a node [x] of the list. *)
Lemma list_insert_spec σ h l1 x l2 n : dlist σ h (l1 ++ x :: l2) → n ∉ h :: l1 ++ x :: l2 →
  ∃ σ', list_insert n (prev (σ x)) x σ = Some σ' ∧ dlist σ' h (l1 ++ n :: x :: l2) ∧
        (∀ m, m ∉ n :: h :: l1 ++ x :: l2 → σ' m = σ m).
Proof.
  intros [Hnd Hs] Hn. apply dseg_app in Hs as [H1 H2].
  apply NoDup_cons in Hnd as [Hh Hnd]. pose proof Hnd as Hnd'.
  apply NoDup_app in Hnd as (Hnd1 & Hd & Hnd2). apply NoDup_cons in Hnd2 as [Hx Hnd2].
  destruct (list_insert_dseg σ h l1 x n) as (σ' & E & Hs' & Hnx & Hpv);
    [apply NoDup_cons; set_solver|set_solver|set_solver|done|].
  pose proof (last_in h l1) as Hl.
  exists σ'. split; [done|]. split; [split|].
  - apply NoDup_cons. split; [set_solver|].
    rewrite <- Permutation_middle. apply NoDup_cons. split; [set_solver|done].
  - change (l1 ++ n :: x :: l2) with (l1 ++ [n] ++ x :: l2). rewrite app_assoc.
    apply dseg_app. split; [done|].
    eapply dseg_frame; [exact H2|..]; intros m Hm.
    + apply Hnx; intros ->; [set_solver|]. apply elem_of_cons in Hl as [E'|?]; [|set_solver].
      rewrite E' in Hm. set_solver.
    + apply Hpv; intros ->; set_solver.
  - intros m Hm. apply list_head_eq; [apply Hnx|apply Hpv]; intros ->; set_solver.
Qed.

Lemma pop_node_spec σ h l1 n l2 : dlist σ h (l1 ++ n :: l2) →
  ∃ σ', pop_node n σ = Some σ' ∧ dlist σ' h (l1 ++ l2) ∧ σ' n = ListHead None None ∧
        (∀ m, m ∉ n :: h :: l1 ++ l2 → σ' m = σ m).
Proof.
  intros [Hnd Hs]. apply dseg_app in Hs as [H1 H2].
  apply NoDup_cons in Hnd as [Hh Hnd]. pose proof Hnd as Hnd'.
  apply NoDup_app in Hnd as (Hnd1 & Hd & Hnd2). apply NoDup_cons in Hnd2 as [Hn Hnd2].
  assert (NoDup (h :: l1)) as Hndh by (apply NoDup_cons; set_solver).
  pose proof (last_in h l1) as Hl. assert (List.last l1 h ≠ n) as Hln.
  { intros E. rewrite E in Hl. set_solver. }
  assert (next (set_next (List.last l1 h) (next (σ n)) σ n) = next (σ n)) as E1.
  { rewrite next_set_next. by case_decide. }
  unfold pop_node. rewrite (dseg_last _ _ _ _ H1), E1, (dseg_head _ _ _ _ H2).
  eexists. split; [done|]. rewrite prev_set_next, (dseg_last _ _ _ _ H1).
  split; [split|split].
  - apply NoDup_cons. split; [set_solver|]. apply NoDup_app. set_solver.
  - destruct l2 as [|y l2]; simpl in *.
    + rewrite app_nil_r.
      eapply (dseg_retarget σ); [done|exact H1|intros m Hm ?|intros m Hm|..]; solve_links.
    + destruct H2 as (H21 & H22 & H23). apply NoDup_cons in Hnd2 as [Hy Hnd2].
      apply dseg_app. split.
      * eapply (dseg_retarget σ); [done|exact H1|intros m Hm ?|intros m Hm|..]; solve_links.
      * assert (∀ m, m ∈ y :: l2 → m ≠ n ∧ m ≠ List.last l1 h) as Hm1.
        { intros m Hm. split; intros ->; [set_solver|].
          apply elem_of_cons in Hl as [E|?]; [rewrite E in Hm|]; set_solver. }
        assert (∀ m, m ∈ h :: l2 → m ≠ n ∧ m ≠ y) as Hm2 by set_solver.
        eapply dseg_frame; [exact H23|intros m Hm; destruct (Hm1 m Hm)|
          intros m Hm; destruct (Hm2 m Hm)]; unfold_links; repeat case_decide; congruence.
  - destruct l2; simpl in *; apply list_head_eq; solve_links.
  - intros m Hm. destruct l2; simpl in *;
      rewrite set_prev_other, set_next_other, set_prev_other, set_next_other; set_solver.
Qed.

(** A traversal with at least as much fuel as the list has nodes plus one
    terminates and finds the first node that satisfies the test. *)
Lemma list_find_from_spec P σ h l pos fuel : h ∉ l →
  dseg σ pos l h → pos ≠ h → (S (S (length l)) ≤ fuel)%nat →
  list_find_from fuel P h pos σ = Done (List.find P (pos :: l)).
Proof.
  revert pos fuel. induction l as [|x l IH]; intros pos [|fuel] Hh Hs Hp Hf; simpl in *;
    try lia.
  - rewrite bool_decide_eq_false_2 by done. destruct (P pos); [done|].
    destruct Hs as [-> _]. destruct fuel; [lia|]. simpl. by rewrite bool_decide_eq_true_2.
  - rewrite bool_decide_eq_false_2 by done. destruct (P pos); [done|].
    destruct Hs as (-> & _ & Hs). rewrite IH; [done|set_solver|done|set_solver|lia].
Qed.

Lemma list_find_spec P σ h l fuel : dlist σ h l → (S (length l) ≤ fuel)%nat →
  list_find fuel P h σ = Done (List.find P l).
Proof.
  intros Hl Hf. unfold list_find. rewrite (list_is_empty_spec _ _ _ Hl).
  destruct Hl as [Hnd Hs]. apply NoDup_cons in Hnd as [Hh _].
  destruct l as [|x l]; [done|]. rewrite bool_decide_eq_false_2 by done.
  destruct Hs as (-> & _ & Hs). apply list_find_from_spec; set_solver.
Qed.

Lemma list_nodes_from_spec σ h l pos fuel : h ∉ l →
  dseg σ pos l h → pos ≠ h → (S (S (length l)) ≤ fuel)%nat →
  list_nodes_from fuel h pos σ = Done (pos :: l).
Proof.
  revert pos fuel. induction l as [|x l IH]; intros pos [|fuel] Hh Hs Hp Hf; simpl in *;
    try lia; rewrite bool_decide_eq_false_2 by done.
  - destruct Hs as [-> _]. destruct fuel; [lia|]. simpl. by rewrite bool_decide_eq_true_2.
  - destruct Hs as (-> & _ & Hs). by rewrite IH by (set_solver || lia || done).
Qed.

Lemma list_nodes_spec σ h l fuel : dlist σ h l → (S (length l) ≤ fuel)%nat →
  list_nodes fuel h σ = Done l.
Proof.
  intros [Hnd Hs] Hf. apply NoDup_cons in Hnd as [Hh _]. unfold list_nodes.
  destruct l as [|x l]; simpl in Hs.
  - destruct Hs as [-> _]. destruct fuel; [simpl in Hf; lia|]. simpl.
    by rewrite bool_decide_eq_true_2.
  - destruct Hs as (-> & _ & Hs). apply list_nodes_from_spec; set_solver.
Qed.

End Dlist.

Arguments list_head : clear implicits.
