(* ===== verification/Errno.v ===== *)
(** * Error codes (include/utils/error.h) *)

From S2P Require Import Prelude.

Definition SUCCESS : Z := 0.
Definition EPERM : Z := 1.  (* Operation not permitted *)
Definition ENOENT : Z := 2.  (* No such file or directory *)
Definition ESRCH : Z := 3.  (* No such process *)
Definition EINTR : Z := 4.  (* Interrupted system call *)
Definition EIO : Z := 5.  (* I/O error *)
Definition ENXIO : Z := 6.  (* No such device or address *)
Definition E2BIG : Z := 7.  (* Argument list too long *)
Definition ENOEXEC : Z := 8.  (* Exec format error *)
Definition EBADF : Z := 9.  (* Bad file number *)
Definition ECHILD : Z := 10.  (* No child processes *)
Definition EAGAIN : Z := 11.  (* Try again / Resource temporarily unavailable *)
Definition ENOMEM : Z := 12.  (* Out of memory *)
Definition EACCES : Z := 13.  (* Permission denied *)
Definition EFAULT : Z := 14.  (* Bad address *)
Definition ENOTBLK : Z := 15.  (* Block device required *)
Definition EBUSY : Z := 16.  (* Device or resource busy *)
Definition EEXIST : Z := 17.  (* File exists *)
Definition EXDEV : Z := 18.  (* Cross-device link *)
Definition ENODEV : Z := 19.  (* No such device *)
Definition ENOTDIR : Z := 20.  (* Not a directory *)
Definition EISDIR : Z := 21.  (* Is a directory *)
Definition EINVAL : Z := 22.  (* Invalid argument *)
Definition ENFILE : Z := 23.  (* File table overflow *)
Definition EMFILE : Z := 24.  (* Too many open files *)
Definition ENOTTY : Z := 25.  (* Not a typewriter (Inappropriate ioctl) *)
Definition ETXTBSY : Z := 26.  (* Text file busy *)
Definition EFBIG : Z := 27.  (* File too large *)
Definition ENOSPC : Z := 28.  (* No space left on device *)
Definition ESPIPE : Z := 29.  (* Illegal seek *)
Definition EROFS : Z := 30.  (* Read-only file system *)
Definition EMLINK : Z := 31.  (* Too many links *)
Definition EPIPE : Z := 32.  (* Broken pipe *)
Definition EDOM : Z := 33.  (* Math argument out of domain of func *)
Definition ERANGE : Z := 34.  (* Math result not representable *)
Definition EDEADLK : Z := 35.  (* Resource deadlock would occur *)
Definition ENAMETOOLONG : Z := 36.  (* File name too long *)
Definition ENOLCK : Z := 37.  (* No record locks available *)
Definition ENOSYS : Z := 38.  (* Invalid system call number *)
Definition ENOTEMPTY : Z := 39.  (* Directory not empty *)
Definition ELOOP : Z := 40.  (* Too many symbolic links encountered *)
Definition ERESTART : Z := 512.  (* Interrupted system call should be restarted *)
Definition ENOSR : Z := 513.  (* Out of streams resources *)
Definition EUNREACH : Z := 600.  (* Code is unreachable *)
