(* ===== verification/Memory.v ===== *)
(** * The constants and enumerations of include/memory/memory.h,
    include/memory/boot_allocator.h and include/memory/buddy.h that the
    memory components share. *)

From S2P Require Import Prelude.

(** [enum zone_type]. *)
Inductive zone_type := LOWMEM_ZONE | DMA_ZONE | HIGHMEM_ZONE | INVALID_ZONE.

#[export] Instance zone_type_eq_dec : EqDecision zone_type.
Proof. solve_decision. Defined.

Definition MAX_ZONE : Z := 3.

(** The value C gives to the enumerator. *)
Definition zone_index (z : zone_type) : Z :=
  match z with LOWMEM_ZONE => 0 | DMA_ZONE => 1 | HIGHMEM_ZONE => 2 | INVALID_ZONE => 3 end.

Definition all_zones : list zone_type := [LOWMEM_ZONE; DMA_ZONE; HIGHMEM_ZONE].

Definition DMA_START : Z := 0.
Definition LOWMEM_START : Z := 16777216.     (* 0x01000000 *)
Definition HIGHMEM_START : Z := 939524096.   (* 0x38000000 *)
Definition HIGHMEM_END : Z := 4294967295.    (* 0xFFFFFFFF *)

(** [struct region] of include/memory/boot_allocator.h. *)
Record region := Region { start : Z; end_ : Z }.

#[export] Instance region_eq_dec : EqDecision region.
Proof. solve_decision. Defined.

(** GFP flags. *)
Definition __GFP_KERNEL : Z := 1.
Definition __GFP_ATOMIC : Z := 2.
Definition __GFP_DMA : Z := 4.
Definition __GFP_ZERO : Z := 16.
Definition GFP_KERNEL : Z := __GFP_KERNEL.

(** The linear mapping: physical [0, 0x3FFFFFFF] at [0xC0000000]. *)
Definition PHYS_TO_VIRT_LINEAR {S} (p_addr : Z) : M S Z :=
  assert_ (p_addr <=? not32 KERNEL_VADDR_BASE) ;; mret (p_addr ⊞ KERNEL_VADDR_BASE).

Definition VIRT_TO_PHYS_LINEAR {S} (v_addr : Z) : M S Z :=
  assert_ (KERNEL_VADDR_BASE <=? v_addr) ;; mret (v_addr ⊟ KERNEL_VADDR_BASE).

(** Buddy orders. *)
Definition MAX_ORDER : Z := 10.
Definition BAD_ORDER : Z := 11.

Definition PAGE_BY_ORDER (order : Z) : Z := u32 (Z.shiftl 1 order).

Definition ORDER_TO_BYTES (order : Z) : Z := PAGE_BY_ORDER order ⊠ PAGE_SIZE.

Lemma PAGE_BY_ORDER_pow2 o : 0 ≤ o < 32 → PAGE_BY_ORDER o = 2 ^ o.
Proof.
  intros. unfold PAGE_BY_ORDER. rewrite Z.shiftl_1_l. apply u32_small.
  assert (2 ^ o ≤ 2 ^ 31) by (apply Z.pow_le_mono_r; lia).
  assert (2 ^ 31 < W32) by reflexivity. pose proof (Z.pow_pos_nonneg 2 o). lia.
Qed.

Lemma pow2_order_le o : 0 ≤ o ≤ 10 → 1 ≤ 2 ^ o ≤ 1024.
Proof.
  intros. split; [pose proof (Z.pow_pos_nonneg 2 o); lia|].
  change 1024 with (2 ^ 10). apply Z.pow_le_mono_r; lia.
Qed.

Lemma ORDER_TO_BYTES_pow2 o : 0 ≤ o ≤ 10 → ORDER_TO_BYTES o = 2 ^ o * PAGE_SIZE.
Proof.
  intros. unfold ORDER_TO_BYTES. rewrite PAGE_BY_ORDER_pow2 by lia. apply u32_small.
  pose proof (pow2_order_le o). unfold PAGE_SIZE, W32. lia.
Qed.
