(* ===== verification/Page.v ===== *)
(** * Page descriptors (include/memory/page.h, src/memory/page.c)

    [page_descriptors] is an array of [MAX_PAGES] descriptors, one per 4 KiB
    frame of the 32-bit physical space; a [struct page *] is modelled by its
    index in the array.  The [node] field of a descriptor lives in the list
    store of the buddy allocator, keyed by the same index. *)

From S2P Require Import Prelude Memory.

Definition MAX_PAGES : Z := 1048576.
Definition PAGE_MAGIC : Z := 3735928559. (* 0xDEADBEEF *)

Definition PAGE_STATE_MASK : Z := 7.
Definition PAGE_ZONE_MASK : Z := 56.

Definition PAGE_STATE_UNUSABLE : Z := 0.
Definition PAGE_STATE_RESERVED : Z := 1.
Definition PAGE_STATE_AVAILABLE : Z := 2.
Definition PAGE_STATE_FREE : Z := 3.
Definition PAGE_STATE_ALLOCATED : Z := 4.
Definition PAGE_STATE_SLAB : Z := 6.

Definition PAGE_ZONE_DMA : Z := 8.
Definition PAGE_ZONE_LOWMEM : Z := 16.
Definition PAGE_ZONE_HIGHMEM : Z := 32.

Record page := Page { flags : Z; private_data : Z }.

#[export] Instance page_inhabited : Inhabited page := populate (Page 0 0).

Definition PAGE_GET_STATE (p : page) : Z := Z.land (flags p) PAGE_STATE_MASK.

Definition PAGE_GET_ZONE (p : page) : Z := Z.land (flags p) PAGE_ZONE_MASK.

Definition PAGE_SET_STATE (p : page) (state : Z) : page :=
  Page (Z.lor (Z.land (flags p) (not32 PAGE_STATE_MASK)) state) (private_data p).

Definition PAGE_IS_FREE (p : page) : bool := PAGE_GET_STATE p =? PAGE_STATE_FREE.

Definition PAGE_IS_ALLOCATED (p : page) : bool := PAGE_GET_STATE p =? PAGE_STATE_ALLOCATED.

Definition set_private (p : page) (v : Z) : page := Page (flags p) v.

(** ** Address arithmetic *)

Definition page_to_phys (idx : Z) : Z := idx ⊠ PAGE_SIZE.

Definition page_index_to_page (total_pages idx : Z) : option Z :=
  if total_pages <=? idx then None else Some idx.

Definition page_addr_to_page (addr : Z) : Z := ALIGN_DOWN addr PAGE_SIZE / PAGE_SIZE.

Definition page_addr_is_same_page (addr1 addr2 : Z) : bool :=
  addr1 / PAGE_SIZE =? addr2 / PAGE_SIZE.

(** ** Flags of a fresh descriptor *)

Fixpoint page_addr_is_in_reg (regs : list region) (addr : Z) : bool :=
  match regs with
  | [] => false
  | reg :: regs =>
      if (start reg <=? addr) && (addr <? end_ reg) then true else page_addr_is_in_reg regs addr
  end.

(** [free_reg] and [res_reg] are the region tables of the boot allocator,
    per zone; the loop visits the zones in enumeration order. *)
Fixpoint page_get_state_flag_loop (zones : list zone_type)
    (free_reg res_reg : zone_type → list region) (addr : Z) : Z :=
  match zones with
  | [] => PAGE_STATE_UNUSABLE
  | z :: zones =>
      if page_addr_is_in_reg (free_reg z) addr then PAGE_STATE_AVAILABLE
      else if page_addr_is_in_reg (res_reg z) addr then PAGE_STATE_RESERVED
      else page_get_state_flag_loop zones free_reg res_reg addr
  end.

Definition page_get_state_flag (free_reg res_reg : zone_type → list region) (addr : Z) : Z :=
  page_get_state_flag_loop all_zones free_reg res_reg addr.

Definition page_get_zone_flag (addr : Z) : Z :=
  if HIGHMEM_START <=? addr then PAGE_ZONE_HIGHMEM
  else if LOWMEM_START <=? addr then PAGE_ZONE_LOWMEM
  else PAGE_ZONE_DMA.

Definition page_get_appropriate_flag (free_reg res_reg : zone_type → list region) (addr : Z) : Z :=
  Z.lor (page_get_state_flag free_reg res_reg addr) (page_get_zone_flag addr).

(** The descriptor the loop of [page_descriptor_init] writes at index [i]. *)
Definition page_descriptor_init (free_reg res_reg : zone_type → list region) (i : Z) : page :=
  Page (page_get_appropriate_flag free_reg res_reg (i ⊠ PAGE_SIZE)) PAGE_MAGIC.

(** ** Searches and counts over the array *)

Fixpoint page_descriptor_foreach {A} (n : nat) (i : Z) (handler : page → A → A)
    (pd : Z → page) (a : A) : A :=
  match n with
  | O => a
  | S n => page_descriptor_foreach n (i + 1) handler pd (handler (pd i) a)
  end.

Definition count_free_pages (p : page) (counter : Z) : Z :=
  if PAGE_IS_FREE p then counter ⊞ 1 else counter.

Definition count_reserved_pages (p : page) (counter : Z) : Z :=
  if negb (PAGE_IS_FREE p) then counter ⊞ 1 else counter.

Definition page_get_updated_page_free_count (total_pages : Z) (pd : Z → page) : Z :=
  page_descriptor_foreach (Z.to_nat total_pages) 0 count_free_pages pd 0.

Definition page_get_updated_reserved_count (total_pages : Z) (pd : Z → page) : Z :=
  page_descriptor_foreach (Z.to_nat total_pages) 0 count_reserved_pages pd 0.

Inductive direction := NEXT | PREV.

Fixpoint page_addr_to_usable_loop (fuel : nat) (total_pages : Z) (pd : Z → page)
    (factor ret : Z) : outcome (option Z) :=
  match fuel with
  | O => Hang
  | S fuel =>
      if (0 <=? ret) && (ret <=? total_pages - 1) then
        if PAGE_IS_FREE (pd ret) then Done (Some ret)
        else page_addr_to_usable_loop fuel total_pages pd factor (ret + factor)
      else Done None
  end.

Definition page_addr_to_usable (fuel : nat) (total_pages : Z) (pd : Z → page)
    (addr : Z) (dir : direction) : outcome (option Z) :=
  let factor := match dir with NEXT => 1 | PREV => -1 end in
  page_addr_to_usable_loop fuel total_pages pd factor (page_addr_to_page addr).

(** ** Lemmas on the flag word *)

Definition flags_ok (p : page) : Prop := 0 ≤ flags p < W32.

Lemma PAGE_SET_STATE_bits p st n : flags_ok p → 0 ≤ st < 8 → 0 ≤ n →
  Z.testbit (flags (PAGE_SET_STATE p st)) n =
  if decide (n < 3) then Z.testbit st n else Z.testbit (flags p) n.
Proof.
  intros Hf Hst Hn. unfold PAGE_SET_STATE, not32; simpl.
  rewrite land_u32_r by done. change PAGE_STATE_MASK with (Z.ones 3).
  rewrite Z.lor_spec, Z.land_spec, Z.lnot_spec by done.
  case_decide.
  - rewrite Z.ones_spec_low by lia. simpl. by rewrite andb_false_r.
  - rewrite Z.ones_spec_high by lia. simpl. rewrite andb_true_r.
    replace (Z.testbit st n) with false; [by rewrite orb_false_r|].
    symmetry. apply Z.bits_above_log2; [lia|].
    destruct (decide (st = 0)) as [->|]; [simpl; lia|].
    assert (Z.log2 st < 3) by (apply Z.log2_lt_pow2; lia). lia.
Qed.

Lemma flags_SET_STATE_range p st : flags_ok p → 0 ≤ st < 8 → flags_ok (PAGE_SET_STATE p st).
Proof.
  intros Hf Hst. unfold flags_ok.
  assert (flags (PAGE_SET_STATE p st) = flags (PAGE_SET_STATE p st) mod W32) as ->.
  2: { apply Z.mod_pos_bound. reflexivity. }
  change W32 with (2 ^ 32). apply Z.bits_inj'. intros n Hn.
  destruct (decide (n < 32)).
  - by rewrite Z.mod_pow2_bits_low by lia.
  - rewrite Z.mod_pow2_bits_high by lia. rewrite PAGE_SET_STATE_bits by done.
    rewrite decide_False by lia.
    rewrite <- (Z.mod_small (flags p) (2 ^ 32)) by done. apply Z.mod_pow2_bits_high. lia.
Qed.

Lemma PAGE_SET_STATE_get p st : flags_ok p → 0 ≤ st < 8 →
  PAGE_GET_STATE (PAGE_SET_STATE p st) = st.
Proof.
  intros Hf Hst. unfold PAGE_GET_STATE. change PAGE_STATE_MASK with (Z.ones 3).
  apply Z.bits_inj'. intros n Hn. rewrite Z.land_spec, PAGE_SET_STATE_bits by done.
  case_decide.
  - by rewrite Z.ones_spec_low, andb_true_r by lia.
  - rewrite Z.ones_spec_high, andb_false_r by lia. symmetry.
    rewrite <- (Z.mod_small st (2 ^ 3)) by lia. apply Z.mod_pow2_bits_high. lia.
Qed.

Lemma PAGE_SET_STATE_zone p st : flags_ok p → 0 ≤ st < 8 →
  PAGE_GET_ZONE (PAGE_SET_STATE p st) = PAGE_GET_ZONE p.
Proof.
  intros Hf Hst. unfold PAGE_GET_ZONE. change PAGE_ZONE_MASK with (Z.shiftl (Z.ones 3) 3).
  apply Z.bits_inj'. intros n Hn. rewrite !Z.land_spec, PAGE_SET_STATE_bits by done.
  case_decide; [|done]. rewrite Z.shiftl_spec, (Z.testbit_neg_r (Z.ones 3)) by lia.
  by rewrite !andb_false_r.
Qed.

Lemma page_addr_to_page_phys i : 0 ≤ i < MAX_PAGES → page_addr_to_page (page_to_phys i) = i.
Proof.
  unfold MAX_PAGES. intros. unfold page_addr_to_page, page_to_phys.
  change PAGE_SIZE with (2 ^ 12). rewrite u32_small by (unfold W32; lia).
  rewrite ALIGN_DOWN_pow2 by (unfold W32; lia).
  rewrite Z.mod_mul, Z.sub_0_r, Z.div_mul by lia. done.
Qed.

(** Every 32-bit address has a descriptor: the array has no out-of-range index. *)
Lemma page_addr_to_page_range addr : 0 ≤ addr < W32 → 0 ≤ page_addr_to_page addr < MAX_PAGES.
Proof.
  unfold W32, MAX_PAGES. intros. unfold page_addr_to_page. change PAGE_SIZE with (2 ^ 12).
  rewrite ALIGN_DOWN_pow2 by (unfold W32; lia). change (2 ^ 12) with 4096.
  pose proof (Z.mod_pos_bound addr 4096). pose proof (Z.mod_le addr 4096).
  split; [apply Z.div_pos; lia|].
  apply Z.div_lt_upper_bound; lia.
Qed.

(** ** Fresh descriptors *)

Lemma page_get_state_flag_cases free_reg res_reg addr :
  let f := page_get_state_flag free_reg res_reg addr in
  f = PAGE_STATE_UNUSABLE ∨ f = PAGE_STATE_RESERVED ∨ f = PAGE_STATE_AVAILABLE.
Proof.
  unfold page_get_state_flag. generalize all_zones as zs.
  induction zs as [|z zs IH]; simpl; [by left|]. do 2 (case_match; [by auto|]). apply IH.
Qed.

Lemma page_get_state_flag_not_free free_reg res_reg addr :
  page_get_state_flag free_reg res_reg addr ≠ PAGE_STATE_FREE.
Proof.
  destruct (page_get_state_flag_cases free_reg res_reg addr) as [->|[->| ->]]; done.
Qed.

Lemma page_get_zone_flag_cases addr : let f := page_get_zone_flag addr in
  f = PAGE_ZONE_DMA ∨ f = PAGE_ZONE_LOWMEM ∨ f = PAGE_ZONE_HIGHMEM.
Proof. unfold page_get_zone_flag. repeat case_match; auto. Qed.

Lemma page_descriptor_init_flags free_reg res_reg i : 0 ≤ i < MAX_PAGES →
  let p := page_descriptor_init free_reg res_reg i in
  flags_ok p ∧ PAGE_GET_STATE p = page_get_state_flag free_reg res_reg (i * PAGE_SIZE) ∧
  PAGE_GET_ZONE p = page_get_zone_flag (i * PAGE_SIZE).
Proof.
  unfold MAX_PAGES. intros Hi. unfold page_descriptor_init, flags_ok, PAGE_GET_STATE, PAGE_GET_ZONE.
  simpl. rewrite u32_small by (unfold PAGE_SIZE, W32; lia). unfold page_get_appropriate_flag.
  destruct (page_get_state_flag_cases free_reg res_reg (i * PAGE_SIZE)) as [->|[->| ->]];
  destruct (page_get_zone_flag_cases (i * PAGE_SIZE)) as [->|[->| ->]]; done.
Qed.
