(* ===== verification/Buddy.v ===== *)
(** * The buddy allocator (src/memory/buddy.c): state and operations

    The state is the page descriptor array, the [list_head] cells of the
    free-list sentinels and of the descriptors, and the [nr_free] counters.
    Addresses are physical and 32 bits wide; the C [NULL] is address 0. *)

From S2P Require Import Prelude Dlist Memory Page.

(** The [struct list_head] cells the allocator links together. *)
Inductive bnode :=
  | FreeList (zone : zone_type) (order : Z) (* &buddy[zone].areas[order].free_list[0] *)
  | PageNode (idx : Z).                     (* &page_descriptors[idx].node *)

#[export] Instance bnode_eq_dec : EqDecision bnode.
Proof. solve_decision. Defined.

Record bstate := BState {
  page_descriptors : Z → page;
  nodes : bnode → list_head bnode;
  nr_free : zone_type * Z → Z;
  total_pages : Z;
  boot_frozen : bool }.

Definition set_descriptors (f : (Z → page) → Z → page) (s : bstate) : bstate :=
  BState (f (page_descriptors s)) (nodes s) (nr_free s) (total_pages s) (boot_frozen s).

Definition set_nodes (n : bnode → list_head bnode) (s : bstate) : bstate :=
  BState (page_descriptors s) n (nr_free s) (total_pages s) (boot_frozen s).

Definition set_nr_free (k : zone_type * Z) (v : Z) (s : bstate) : bstate :=
  BState (page_descriptors s) (nodes s) (<[k := v]> (nr_free s)) (total_pages s) (boot_frozen s).

(** ** Bounds-checked accesses *)

Definition load_page (i : Z) : M bstate page :=
  if (0 <=? i) && (i <? MAX_PAGES) then gets (λ s, page_descriptors s i) else fault.

Definition store_page (i : Z) (p : page) : M bstate unit :=
  if (0 <=? i) && (i <? MAX_PAGES) then modify (set_descriptors <[i := p]>) else fault.

(** [buddy[zone].areas[order]] exists. *)
Definition area_ok (zone : zone_type) (order : Z) : bool :=
  negb (bool_decide (zone = INVALID_ZONE)) && (0 <=? order) && (order <=? MAX_ORDER).

Definition check_area (zone : zone_type) (order : Z) : M bstate unit :=
  if area_ok zone order then mret tt else fault.

Definition order_to_nrFree (order : Z) (zone : zone_type) : M bstate Z :=
  check_area zone order ;; gets (λ s, nr_free s (zone, order)).

(** [buddy[zone].areas[order].nr_free += d] on a [uint32_t]. *)
Definition add_nr_free (order : Z) (zone : zone_type) (d : Z) : M bstate unit :=
  check_area zone order ;;
  n ← gets (λ s, nr_free s (zone, order)) ;
  modify (set_nr_free (zone, order) (n ⊞ d)).

Definition lift_list (f : (bnode → list_head bnode) → option (bnode → list_head bnode))
    : M bstate unit := λ s,
  match f (nodes s) with
  | Some n => Done (tt, set_nodes n s)
  | None => Fault
  end.

(** ** Internal functions *)

Definition order_is_valid (order : Z) : bool := order <=? MAX_ORDER.

Definition order_to_free_list (order : Z) (zone : zone_type) : bnode := FreeList zone order.

Definition page_node_to_phys (n : bnode) : M bstate Z :=
  match n with PageNode i => mret (page_to_phys i) | FreeList _ _ => fault end.

Definition buddy_list_add_head (new_node head : bnode) (σ : bnode → list_head bnode)
    : option (bnode → list_head bnode) :=
  let old_next := next (σ head) in
  let σ := set_next new_node old_next σ in
  let σ := set_prev new_node (Some head) σ in
  match old_next with
  | None => None
  | Some o => Some (set_next head (Some new_node) (set_prev o (Some new_node) σ))
  end.

Fixpoint size_to_order_loop (n : nat) (order total : Z) : Z :=
  match n with
  | O => BAD_ORDER
  | S n => if total <=? PAGE_BY_ORDER order then order else size_to_order_loop n (order + 1) total
  end.

Definition size_to_order (size : Z) : Z :=
  size_to_order_loop 11 0 (DIV_ROUND_UP size PAGE_SIZE).

Definition pop_first_block (order : Z) (zone : zone_type) : M bstate Z :=
  check_area zone order ;;
  first ← gets (λ s, next (nodes s (order_to_free_list order zone))) ;
  match first with
  | None => fault
  | Some first_block =>
      if bool_decide (first_block = order_to_free_list order zone) then mret 0
      else
        lift_list (pop_node first_block) ;;
        add_nr_free order zone (-1) ;;
        page_node_to_phys first_block
  end.

Definition set_block_metadata (first_page block_order state_flags : Z) : M bstate unit :=
  let pages_in_block := PAGE_BY_ORDER block_order in
  p ← load_page first_page ;
  store_page first_page (set_private p block_order) ;;
  for_ (Z.to_nat pages_in_block) 0 (λ i,
    p ← load_page (first_page + i) ;
    store_page (first_page + i) (PAGE_SET_STATE p state_flags) ;;
    if 0 <? i then
      p ← load_page (first_page + i) ;
      store_page (first_page + i) (set_private p PAGE_MAGIC)
    else mret tt).

Fixpoint split_block_to_order (fuel : nat) (order_needed cur_order ptr : Z) (zone : zone_type)
    : M bstate Z :=
  match fuel with
  | O => hang
  | S fuel =>
      if negb (order_is_valid order_needed) || negb (order_is_valid cur_order) then
        kpanic "Error: split_block_to_order: Invalid Order"
      else if cur_order =? order_needed then mret ptr
      else
        let cur_order := cur_order ⊟ 1 in
        let pages_by_block := PAGE_BY_ORDER cur_order in
        let first_page := page_addr_to_page ptr in
        let buddy_page_head := first_page + pages_by_block in
        set_block_metadata buddy_page_head cur_order PAGE_STATE_FREE ;;
        check_area zone cur_order ;;
        lift_list (buddy_list_add_head (PageNode buddy_page_head)
                     (order_to_free_list cur_order zone)) ;;
        add_nr_free cur_order zone 1 ;;
        split_block_to_order fuel order_needed cur_order ptr zone
  end.

Definition page_zone_flags_to_zone_type (zone_flags : Z) : zone_type :=
  if zone_flags =? PAGE_ZONE_DMA then DMA_ZONE
  else if zone_flags =? PAGE_ZONE_LOWMEM then LOWMEM_ZONE
  else if zone_flags =? PAGE_ZONE_HIGHMEM then HIGHMEM_ZONE
  else INVALID_ZONE.

Definition get_buddy_base (zone : zone_type) : M bstate Z :=
  match zone with
  | DMA_ZONE => mret 0
  | LOWMEM_ZONE => mret LOWMEM_START
  | HIGHMEM_ZONE => mret HIGHMEM_START
  | INVALID_ZONE => kpanic "get_buddy_base: Invalid zone type"
  end.

Definition WHO_IS_MY_BUDDY (addr order base : Z) : Z :=
  Z.lxor (addr ⊟ base) (ORDER_TO_BYTES order) ⊞ base.

Definition get_buddy_page (block order : Z) (zone : zone_type) : M bstate (option Z) :=
  base ← get_buddy_base zone ;
  let buddy_page := page_addr_to_page (WHO_IS_MY_BUDDY block order base) in
  p ← load_page buddy_page ;
  if PAGE_IS_FREE p && (private_data p =? order) then mret (Some buddy_page) else mret None.

(** ** External functions *)

Definition buddy_get_var_size (var : Z) : M bstate Z :=
  p ← load_page (page_addr_to_page var) ;
  if private_data p =? PAGE_MAGIC then mret 0
  else mret (PAGE_BY_ORDER (private_data p) ⊠ PAGE_SIZE).

(** [while (cur_order != BAD_ORDER && !order_to_nrFree(cur_order, zone)) cur_order++]. *)
Fixpoint find_order (fuel : nat) (cur_order : Z) (zone : zone_type) : M bstate Z :=
  match fuel with
  | O => hang
  | S fuel =>
      if cur_order =? BAD_ORDER then mret cur_order
      else
        n ← order_to_nrFree cur_order zone ;
        if n =? 0 then find_order fuel (cur_order ⊞ 1) zone else mret cur_order
  end.

(** The orders visited are at most 0 .. 11, so 12 steps of fuel suffice for
    each of the loops below. *)
Definition ORDER_FUEL : nat := 12.

Definition buddy_alloc_pages (size : Z) (zone : zone_type) : M bstate Z :=
  let order_needed := size_to_order size in
  if negb (order_is_valid order_needed) then mret 0
  else
    cur_order ← find_order ORDER_FUEL order_needed zone ;
    if cur_order =? BAD_ORDER then mret 0
    else
      block ← pop_first_block cur_order zone ;
      if block =? 0 then kpanic "nr_free mismatch in alloc_pages"
      else
        ret ← split_block_to_order ORDER_FUEL order_needed cur_order block zone ;
        set_block_metadata (page_addr_to_page ret) order_needed PAGE_STATE_ALLOCATED ;;
        mret ret.

(** The coalescing loop; returns the final [ptr] and [block_order]. *)
Fixpoint free_coalesce (fuel : nat) (ptr block_order : Z) (zone : zone_type)
    : M bstate (Z * Z) :=
  match fuel with
  | O => hang
  | S fuel =>
      if block_order <? MAX_ORDER then
        buddy_page ← get_buddy_page ptr block_order zone ;
        match buddy_page with
        | None => mret (ptr, block_order)
        | Some b =>
            lift_list (pop_node (PageNode b)) ;;
            add_nr_free block_order zone (-1) ;;
            free_coalesce fuel (MIN ptr (page_to_phys b)) (block_order + 1) zone
        end
      else mret (ptr, block_order)
  end.

Definition buddy_free_block (ptr : Z) : M bstate unit :=
  page ← load_page (page_addr_to_page ptr) ;
  let block_order := private_data page in
  let current_state := PAGE_GET_STATE page in
  if current_state =? PAGE_STATE_FREE then kpanic "Double free detected"
  else if negb (current_state =? PAGE_STATE_ALLOCATED)
          && negb (current_state =? PAGE_STATE_AVAILABLE) then
    kpanic "Attempt to free a page with invalid state"
  else if negb (order_is_valid block_order) then kpanic "Incorrect block order"
  else
    let zone := page_zone_flags_to_zone_type (PAGE_GET_ZONE page) in
    '(ptr, block_order) ← free_coalesce ORDER_FUEL ptr block_order zone ;
    let final_page := page_addr_to_page ptr in
    set_block_metadata final_page block_order PAGE_STATE_FREE ;;
    check_area zone block_order ;;
    lift_list (buddy_list_add_head (PageNode final_page) (order_to_free_list block_order zone)) ;;
    add_nr_free block_order zone 1.

(** The body of the first loop of [buddy_init]. *)
Definition init_area (zone : zone_type) (order : Z) : M bstate unit :=
  modify (λ s, set_nodes (INIT_SENTINEL (FreeList zone order) (nodes s)) s) ;;
  modify (set_nr_free (zone, order) 0).

Fixpoint init_areas (zones : list zone_type) : M bstate unit :=
  match zones with
  | [] => mret tt
  | zone :: zones => for_ 11 0 (init_area zone) ;; init_areas zones
  end.

Definition boot_allocator_freeze : M bstate unit :=
  modify (λ s, BState (page_descriptors s) (nodes s) (nr_free s) (total_pages s) true).

Definition buddy_init : M bstate unit :=
  init_areas all_zones ;;
  n ← gets total_pages ;
  for_ (Z.to_nat n) 0 (λ i,
    page ← load_page i ;
    if PAGE_GET_STATE page =? PAGE_STATE_AVAILABLE then
      store_page i (set_private page 0) ;;
      buddy_free_block (page_to_phys i)
    else mret tt) ;;
  boot_allocator_freeze.

(** [buddy_print]: the sum it returns. *)
Fixpoint buddy_print_loop (n : nat) (order : Z) (zone : zone_type) (total : Z) : M bstate Z :=
  match n with
  | O => mret total
  | S n =>
      nr ← order_to_nrFree order zone ;
      buddy_print_loop n (order + 1) zone
        (if 0 <? nr then total ⊞ (nr ⊠ ORDER_TO_BYTES order) else total)
  end.

Definition buddy_print (zone : zone_type) : M bstate Z := buddy_print_loop 11 0 zone 0.

(** A machine of eight frames of which frames 1 to 6 are available, to run
    the allocator on. *)
Definition boot_state : bstate :=
  BState (page_descriptor_init
            (λ z, if bool_decide (z = DMA_ZONE) then [Region 4096 28672] else [])
            (λ z, if bool_decide (z = DMA_ZONE) then [Region 0 4096] else []))
         (λ _, ListHead None None) (λ _, 7) 8 false.
