(* ===== verification/BuddyInv.v ===== *)
(** * The buddy allocator: invariant and component lemmas

    [binv s fl T] is the invariant of the allocator.  [fl (z, o)] is the
    content of the free list of zone [z] and order [o] as a sequence of
    frame numbers, and [T] is the set of frames in transit: taken off a free
    list by the operation under way, but still marked FREE.  Between
    operations [T] is empty. *)

From S2P Require Import Prelude Dlist Memory Page Buddy.

(** ** Zones and alignment *)

(** The zone of a frame. *)
Definition zone_of (i : Z) : zone_type :=
  page_zone_flags_to_zone_type (page_get_zone_flag (i * PAGE_SIZE)).

(** The first frame of a zone. *)
Definition zone_base (z : zone_type) : Z :=
  match z with LOWMEM_ZONE => 4096 | HIGHMEM_ZONE => 229376 | _ => 0 end.

Definition in_block (i o j : Z) : Prop := i ≤ j < i + 2 ^ o.

#[export] Instance in_block_dec i o j : Decision (in_block i o j).
Proof. unfold in_block. apply _. Defined.

(** The other half of the block of order [o+1] that contains frame [p]. *)
Definition buddy_of (p o : Z) : Z := if Z.testbit p o then p - 2 ^ o else p + 2 ^ o.

Lemma zone_of_unfold i : zone_of i =
  if decide (229376 ≤ i) then HIGHMEM_ZONE
  else if decide (4096 ≤ i) then LOWMEM_ZONE else DMA_ZONE.
Proof.
  unfold zone_of, page_get_zone_flag, HIGHMEM_START, LOWMEM_START, PAGE_SIZE.
  destruct (Z.leb_spec 939524096 (i * 4096)); [by rewrite decide_True by lia|].
  rewrite decide_False by lia.
  destruct (Z.leb_spec 16777216 (i * 4096)); [by rewrite decide_True by lia|].
  by rewrite decide_False by lia.
Qed.

Lemma zone_of_valid i : zone_of i ≠ INVALID_ZONE.
Proof. rewrite zone_of_unfold. repeat case_decide; done. Qed.

Lemma zone_base_le i : 0 ≤ i → zone_base (zone_of i) ≤ i.
Proof. intros. rewrite zone_of_unfold. repeat case_decide; simpl; lia. Qed.

Lemma pow2_split o n : 0 ≤ o ≤ n → 2 ^ n = 2 ^ (n - o) * 2 ^ o.
Proof. intros. rewrite <- Z.pow_add_r by lia. f_equal. lia. Qed.

(** A multiple of [2^n] is a boundary between aligned blocks of smaller order. *)
Lemma aligned_boundary m o n c j : 0 ≤ o ≤ n → (2 ^ o | m) → in_block m o j →
  c * 2 ^ n ≤ j → c * 2 ^ n ≤ m.
Proof.
  intros Ho [k ->] [_ Hj] Hc. rewrite (pow2_split o n) in * by done.
  pose proof (Z.pow_pos_nonneg 2 o). set (a := 2 ^ (n - o)) in *.
  assert (c * a < k + 1) by nia. nia.
Qed.

(** Zone boundaries are 4 MiB aligned, so an aligned block never straddles two zones. *)
Lemma zone_of_block m o j : 0 ≤ o ≤ 10 → (2 ^ o | m) → in_block m o j → zone_of j = zone_of m.
Proof.
  intros Ho Hm Hj. rewrite !zone_of_unfold.
  pose proof (aligned_boundary m o 10 224 j Ho Hm Hj) as H1.
  pose proof (aligned_boundary m o 10 4 j Ho Hm Hj) as H2. destruct Hj as [Hj _].
  change (224 * 2 ^ 10) with 229376 in H1. change (4 * 2 ^ 10) with 4096 in H2.
  repeat case_decide; done || lia.
Qed.

Lemma aligned_range m o : 0 ≤ o ≤ 10 → (2 ^ o | m) → m < MAX_PAGES → m + 2 ^ o ≤ MAX_PAGES.
Proof.
  intros Ho Hm Hlt. destruct (decide (m + 2 ^ o ≤ MAX_PAGES)) as [|Hn]; [done|exfalso].
  pose proof (aligned_boundary m o 10 1024 MAX_PAGES Ho Hm) as H.
  change (1024 * 2 ^ 10) with MAX_PAGES in H. unfold in_block in H.
  assert (MAX_PAGES ≤ m) by (apply H; lia). lia.
Qed.

Lemma divide_mono p o : 0 ≤ o → (2 ^ (o + 1) | p) → (2 ^ o | p).
Proof. intros Ho [k ->]. exists (k * 2). rewrite Z.pow_add_r by lia. lia. Qed.

(** ** The buddy of a block *)

Lemma testbit_aligned k o : 0 ≤ o → Z.testbit (k * 2 ^ o) o = Z.odd k.
Proof. intros. by rewrite Z.mul_pow2_bits, Z.sub_diag, Z.bit0_odd by done. Qed.

(** An aligned block and its buddy are the two halves of a block of the next order. *)
Lemma buddy_cases p o : 0 ≤ o → (2 ^ o | p) →
  ∃ m, (2 ^ (o + 1) | m) ∧
       ((p = m ∧ buddy_of p o = m + 2 ^ o) ∨ (p = m + 2 ^ o ∧ buddy_of p o = m)).
Proof.
  intros Ho [k ->]. unfold buddy_of. rewrite testbit_aligned by done.
  rewrite Z.pow_add_r by lia. pose proof (Zodd_mod k) as Hm. rewrite Zmod_odd in Hm.
  destruct (Z.odd k) eqn:E.
  - exists (k * 2 ^ o - 2 ^ o). split; [|right; lia].
    exists (k / 2). pose proof (Z.div_mod k 2). rewrite Zmod_odd, E in H. lia.
  - exists (k * 2 ^ o). split; [|left; lia].
    exists (k / 2). pose proof (Z.div_mod k 2). rewrite Zmod_odd, E in H. lia.
Qed.

Lemma buddy_of_aligned p o : 0 ≤ o → (2 ^ o | p) → (2 ^ o | buddy_of p o).
Proof.
  intros Ho Hp. destruct (buddy_cases p o Ho Hp) as (m & Hm & [[_ ->]|[_ ->]]);
    apply divide_mono in Hm; auto.
  apply Z.divide_add_r; [done|]. apply Z.divide_refl.
Qed.

Lemma buddy_of_involutive p o : 0 ≤ o → (2 ^ o | p) → buddy_of (buddy_of p o) o = p.
Proof.
  intros Ho Hp. pose proof (buddy_of_aligned p o Ho Hp) as Hb.
  destruct Hp as [k ->], Hb as [k' Hk]. pose proof (Z.pow_pos_nonneg 2 o).
  rewrite Hk. unfold buddy_of in *. rewrite testbit_aligned in * by done.
  destruct (Z.odd k) eqn:E.
  - assert (k' = k - 1) as -> by nia. rewrite Z.odd_sub, E. simpl. lia.
  - assert (k' = k + 1) as -> by nia. rewrite Z.odd_add, E. simpl. lia.
Qed.

Lemma testbit_sub_mult p c n o : 0 ≤ o < n → Z.testbit (p - c * 2 ^ n) o = Z.testbit p o.
Proof.
  intros Ho. apply Z.b2z_inj. rewrite !Z.testbit_spec' by lia.
  rewrite (pow2_split o n), (pow2_split 1 (n - o)) by lia.
  pose proof (Z.pow_pos_nonneg 2 o). set (a := 2 ^ (n - o - 1)).
  replace (p - c * (a * 2 ^ 1 * 2 ^ o)) with (p + (- c * a * 2) * 2 ^ o) by ring.
  rewrite Z.div_add by lia. by rewrite Z.mod_add by lia.
Qed.

(** The XOR formula of the source computes the buddy, whatever the zone. *)
Lemma WHO_IS_MY_BUDDY_spec p o : 0 ≤ o < 10 → 0 ≤ p → (2 ^ o | p) → p < MAX_PAGES →
  WHO_IS_MY_BUDDY (page_to_phys p) o (zone_base (zone_of p) * PAGE_SIZE)
  = page_to_phys (buddy_of p o).
Proof.
  intros Ho Hp Hal Hlt. pose proof (pow2_order_le o ltac:(lia)) as Ho'.
  pose proof (buddy_cases p o ltac:(lia) Hal) as (m & Hm & Hbm).
  assert (m + 2 ^ (o + 1) ≤ MAX_PAGES) as Hmm.
  { apply aligned_range; [lia|done|]. lia. }
  assert (0 ≤ buddy_of p o < MAX_PAGES) as Hb.
  { rewrite Z.pow_add_r in * by lia. destruct Hm as [c Hc].
    destruct Hbm as [[? ->]|[? ->]]; [lia|]. split; [|lia].
    change (2 ^ 1) with 2 in *. set (w := 2 ^ o) in *. assert (0 ≤ c) by nia. nia. }
  pose proof (zone_base_le p Hp) as Hz. unfold MAX_PAGES in *.
  unfold WHO_IS_MY_BUDDY, page_to_phys. rewrite ORDER_TO_BYTES_pow2 by lia.
  set (B := zone_base (zone_of p)) in *.
  assert (∃ c, B = c * 2 ^ 10) as [c Hc].
  { unfold B. destruct (zone_of p); [exists 4|exists 0|exists 224|exists 0]; reflexivity. }
  assert (0 ≤ B) by (unfold B; destruct (zone_of p); simpl; lia).
  change PAGE_SIZE with (2 ^ 12). rewrite (u32_small (p * _)) by (unfold W32; lia).
  rewrite (u32_small (_ - _)) by (unfold W32; lia).
  replace (p * 2 ^ 12 - B * 2 ^ 12) with ((p - B) * 2 ^ 12) by lia.
  rewrite <- Z.pow_add_r, lxor_pow2, Z.mul_pow2_bits, Z.add_simpl_r by lia.
  rewrite Hc, testbit_sub_mult, <- Hc by lia.
  unfold buddy_of. unfold buddy_of in Hb. rewrite Z.pow_add_r by lia.
  destruct (Z.testbit p o); f_equal; lia.
Qed.

Lemma get_buddy_base_zone i : get_buddy_base (zone_of i) = mret (zone_base (zone_of i) * PAGE_SIZE).
Proof. pose proof (zone_of_valid i). by destruct (zone_of i). Qed.

(** ** The invariant *)

Definition pages_ok (s : bstate) : Prop := ∀ j, 0 ≤ j < MAX_PAGES →
  flags_ok (page_descriptors s j) ∧
  PAGE_GET_ZONE (page_descriptors s j) = page_get_zone_flag (j * PAGE_SIZE).

Definition is_free (s : bstate) (j : Z) : Prop :=
  PAGE_GET_STATE (page_descriptors s j) = PAGE_STATE_FREE.

(** A block of order [o] at frame [i] of zone [z], and its metadata. *)
Record block_ok (s : bstate) (z : zone_type) (o i : Z) : Prop := {
  blk_order : 0 ≤ o ≤ 10;
  blk_pos : 0 < i;
  blk_range : i + 2 ^ o ≤ MAX_PAGES;
  blk_align : (2 ^ o | i);
  blk_zone : zone_of i = z;
  blk_free : ∀ j, in_block i o j → is_free s j;
  blk_private : ∀ j, in_block i o j →
    private_data (page_descriptors s j) = if decide (j = i) then o else PAGE_MAGIC }.

Abbreviation freelists := (zone_type * Z → list Z).

Record binv (s : bstate) (fl : freelists) (T : Z → Prop) : Prop := {
  bi_pages : pages_ok s;
  bi_list : ∀ z o, area_ok z o = true →
    dlist (nodes s) (FreeList z o) (PageNode <$> fl (z, o));
  bi_nr : ∀ z o, area_ok z o = true → nr_free s (z, o) = Z.of_nat (length (fl (z, o)));
  bi_block : ∀ z o i, i ∈ fl (z, o) → block_ok s z o i;
  bi_cover : ∀ j, 0 ≤ j < MAX_PAGES → is_free s j →
    T j ∨ ∃ z o i, i ∈ fl (z, o) ∧ in_block i o j;
  bi_transit : ∀ z o i j, i ∈ fl (z, o) → in_block i o j → ¬ T j }.

(** No two free blocks are buddies of each other. *)
Definition coalesced (fl : freelists) : Prop :=
  ∀ z o i, i ∈ fl (z, o) → o < MAX_ORDER → buddy_of i o ∉ fl (z, o).

(** ** Reading the invariant *)

Section Inv.
Context (s : bstate) (fl : freelists) (T : Z → Prop) (Hinv : binv s fl T).

Lemma block_area z o i : i ∈ fl (z, o) → area_ok z o = true.
Proof.
  intros Hi. apply (bi_block _ _ _ Hinv) in Hi as [? _ _ _ Hz _ _].
  pose proof (zone_of_valid i). unfold area_ok.
  rewrite bool_decide_eq_false_2 by congruence. unfold MAX_ORDER.
  simpl. apply andb_true_iff. split; apply Z.leb_le; lia.
Qed.

Lemma block_frames z o i j : i ∈ fl (z, o) → in_block i o j → 0 ≤ j < MAX_PAGES.
Proof. intros Hi [? ?]. destruct (bi_block _ _ _ Hinv _ _ _ Hi). lia. Qed.

Lemma block_self z o i : i ∈ fl (z, o) → in_block i o i.
Proof.
  intros Hi. destruct (bi_block _ _ _ Hinv _ _ _ Hi). unfold in_block.
  pose proof (Z.pow_pos_nonneg 2 o). lia.
Qed.

(** Free blocks do not overlap: the head of a block is the only frame of it
    whose [private_data] is a valid order. *)
Lemma block_overlap z o i z' o' i' j : i ∈ fl (z, o) → i' ∈ fl (z', o') →
  in_block i o j → in_block i' o' j → z = z' ∧ o = o' ∧ i = i'.
Proof.
  intros Hi Hi' Hj Hj'.
  pose proof (bi_block _ _ _ Hinv _ _ _ Hi) as B.
  pose proof (bi_block _ _ _ Hinv _ _ _ Hi') as B'.
  assert (∀ (z o i z' o' i' : _), i ∈ fl (z, o) → i' ∈ fl (z', o') → block_ok s z o i →
    block_ok s z' o' i' → in_block i' o' i → o = o' ∧ i = i') as Hkey.
  { clear - Hinv. intros z o i z' o' i' Hi Hi' B B' Hj.
    pose proof (block_self _ _ _ Hi) as Hs.
    pose proof (blk_private _ _ _ _ B i Hs) as H1. rewrite decide_True in H1 by done.
    rewrite (blk_private _ _ _ _ B' i Hj) in H1. destruct B. unfold PAGE_MAGIC in H1.
    case_decide; [|lia]. auto. }
  assert (o = o' ∧ i = i') as [-> ->].
  { destruct (decide (i ≤ i')).
    - destruct (Hkey z' o' i' z o i) as [-> ->]; auto. unfold in_block in *. lia.
    - destruct (Hkey z o i z' o' i') as [-> ->]; auto. unfold in_block in *. lia. }
  destruct B, B'. split_and!; congruence.
Qed.

Lemma block_list_unique z o z' o' i : i ∈ fl (z, o) → i ∈ fl (z', o') → (z, o) = (z', o').
Proof.
  intros Hi Hi'. pose proof (block_self _ _ _ Hi). pose proof (block_self _ _ _ Hi').
  destruct (block_overlap z o i z' o' i i) as (-> & -> & _); auto.
Qed.

Lemma block_length z o : Z.of_nat (length (fl (z, o))) ≤ MAX_PAGES.
Proof.
  destruct (area_ok z o) eqn:E.
  - destruct (bi_list _ _ _ Hinv z o E) as [Hnd _]. apply NoDup_cons in Hnd as [_ Hnd].
    apply NoDup_fmap_1 in Hnd. eapply (NoDup_range_length _ 0); [done|done|].
    intros i Hi. pose proof (block_self _ _ _ Hi) as Hs.
    pose proof (block_frames _ _ _ _ Hi Hs). lia.
  - destruct (fl (z, o)) as [|i l] eqn:El; [done|].
    rewrite (block_area z o i) in E; [done|]. rewrite El. set_solver.
Qed.

(** A frame marked FREE whose [private_data] is a valid order heads a free block. *)
Lemma free_head z o b : 0 ≤ b < MAX_PAGES → is_free s b → ¬ T b → 0 ≤ o ≤ 10 →
  private_data (page_descriptors s b) = o → zone_of b = z → b ∈ fl (z, o).
Proof.
  intros Hb Hf HT Ho Hp Hz.
  destruct (bi_cover _ _ _ Hinv b Hb Hf) as [|(z' & o' & i & Hi & Hj)]; [done|].
  pose proof (bi_block _ _ _ Hinv _ _ _ Hi) as B.
  pose proof (blk_private _ _ _ _ B b Hj) as E. destruct B.
  case_decide; [|unfold PAGE_MAGIC in *; lia]. by simplify_eq.
Qed.

End Inv.

(** ** How the internal operations move the invariant *)

(** ** Descriptor updates *)

Lemma descriptors_insert i p s j :
  page_descriptors (set_descriptors <[i := p]> s) j =
  if decide (i = j) then p else page_descriptors s j.
Proof.
  simpl. case_decide; subst; [by rewrite fn_lookup_insert|by rewrite fn_lookup_insert_ne].
Qed.

Lemma wp_load_page i s (Q : page → bstate → Prop) : 0 ≤ i < MAX_PAGES →
  Q (page_descriptors s i) s → wp (load_page i) s Q.
Proof.
  intros Hi HQ. unfold load_page.
  rewrite (proj2 (Z.leb_le 0 i)), (proj2 (Z.ltb_lt i MAX_PAGES)) by lia. done.
Qed.

Lemma wp_store_page i p s (Q : unit → bstate → Prop) : 0 ≤ i < MAX_PAGES →
  Q tt (set_descriptors <[i := p]> s) → wp (store_page i p) s Q.
Proof.
  intros Hi HQ. unfold store_page.
  rewrite (proj2 (Z.leb_le 0 i)), (proj2 (Z.ltb_lt i MAX_PAGES)) by lia. done.
Qed.

Lemma wp_check_area z o s (Q : unit → bstate → Prop) :
  area_ok z o = true → Q tt s → wp (check_area z o) s Q.
Proof. unfold check_area. by intros ->. Qed.

(** Everything but the descriptors is the same. *)
Definition same_lists (s s' : bstate) : Prop :=
  nodes s' = nodes s ∧ nr_free s' = nr_free s ∧
  total_pages s' = total_pages s ∧ boot_frozen s' = boot_frozen s.

(** The descriptor that [set_block_metadata] leaves at frame [j]. *)
Definition meta (first o st : Z) (p : page) (j : Z) : page :=
  Page (flags (PAGE_SET_STATE p st)) (if decide (j = first) then o else PAGE_MAGIC).

Definition meta_written (first o st : Z) (s s' : bstate) : Prop :=
  same_lists s s' ∧
  ∀ j, page_descriptors s' j =
       if decide (in_block first o j) then meta first o st (page_descriptors s j) j
       else page_descriptors s j.

Lemma wp_set_block_metadata first o st s (Q : unit → bstate → Prop) :
  0 ≤ o ≤ 10 → 0 ≤ first → first + 2 ^ o ≤ MAX_PAGES →
  (∀ s', meta_written first o st s s' → Q tt s') →
  wp (set_block_metadata first o st) s Q.
Proof.
  intros Ho Hf Hr HQ. pose proof (pow2_order_le o Ho) as Hp.
  unfold set_block_metadata. rewrite PAGE_BY_ORDER_pow2 by lia.
  wp_step. apply wp_load_page; [lia|]. wp_step. apply wp_store_page; [lia|].
  set (I := λ k s', same_lists s s' ∧ ∀ j, page_descriptors s' j =
    if decide (first ≤ j < first + k) then meta first o st (page_descriptors s j) j
    else if decide (j = first) then set_private (page_descriptors s j) o
    else page_descriptors s j).
  eapply wp_mono; [apply (wp_for I)|].
  - split; [done|]. intros j. rewrite descriptors_insert, (decide_False (P := _ ≤ _ < _)) by lia.
    repeat case_decide; congruence || done.
  - intros k s' Hk [Hs Hd]. rewrite Z2Nat.id in Hk by lia.
    wp_step. apply wp_load_page; [lia|]. wp_step. apply wp_store_page; [lia|].
    rewrite Hd, (decide_False (P := _ ≤ _ < _)) by lia.
    destruct (Z.ltb_spec 0 k).
    + rewrite decide_False by lia.
      wp_step. apply wp_load_page; [lia|]. apply wp_store_page; [lia|].
      split; [done|]. intros j. rewrite !descriptors_insert, Hd.
      unfold meta. repeat case_decide; subst; try lia; try done;
        rewrite Hd; unfold meta; repeat case_decide; try lia; done.
    + assert (k = 0) as -> by lia. rewrite decide_True by lia. apply wp_ret.
      split; [done|]. intros j. rewrite descriptors_insert, Hd.
      unfold meta. rewrite Z.add_0_r. repeat case_decide; subst; try lia; done.
  - intros [] s' [Hs Hd]. apply HQ. split; [done|]. intros j. rewrite Hd.
    rewrite Z.add_0_l, Z2Nat.id by lia. unfold in_block.
    repeat case_decide; try lia; done.
Qed.

Lemma meta_written_pages first o st s s' : 0 ≤ st < 8 → pages_ok s →
  meta_written first o st s s' → pages_ok s'.
Proof.
  intros Hst Hp [_ Hd] j Hj. destruct (Hp j Hj) as [Hf Hz]. rewrite Hd. case_decide; [|done].
  split; [by apply (flags_SET_STATE_range (page_descriptors s j))|].
  rewrite <- Hz. by apply (PAGE_SET_STATE_zone (page_descriptors s j)).
Qed.

Lemma meta_written_state first o st s s' j : 0 ≤ st < 8 → pages_ok s → 0 ≤ j < MAX_PAGES →
  meta_written first o st s s' → in_block first o j →
  PAGE_GET_STATE (page_descriptors s' j) = st.
Proof.
  intros Hst Hp Hj [_ Hd] Hb. rewrite Hd, decide_True by done.
  apply (PAGE_SET_STATE_get (page_descriptors s j)); [|done]. by apply Hp.
Qed.

Lemma meta_written_outside first o st s s' j : meta_written first o st s s' →
  ¬ in_block first o j → page_descriptors s' j = page_descriptors s j.
Proof. intros [_ Hd] Hb. by rewrite Hd, decide_False. Qed.

(** ** Lists and counters *)

Lemma wp_lift_list f σ' s (Q : unit → bstate → Prop) :
  f (nodes s) = Some σ' → Q tt (set_nodes σ' s) → wp (lift_list f) s Q.
Proof. intros E HQ. unfold wp, lift_list. by rewrite E. Qed.

Lemma wp_add_nr_free z o d s (Q : unit → bstate → Prop) : area_ok z o = true →
  Q tt (set_nr_free (z, o) (u32 (nr_free s (z, o) + d)) s) → wp (add_nr_free o z d) s Q.
Proof. intros Ha HQ. unfold add_nr_free. wp_step. by apply wp_check_area. Qed.

Lemma nr_insert (k k' : zone_type * Z) v s :
  nr_free (set_nr_free k v s) k' = if decide (k = k') then v else nr_free s k'.
Proof.
  simpl. case_decide; subst; [by rewrite fn_lookup_insert|by rewrite fn_lookup_insert_ne].
Qed.

Lemma fl_insert (fl : freelists) k l k' :
  (<[k := l]> fl) k' = if decide (k = k') then l else fl k'.
Proof. case_decide; subst; [by rewrite fn_lookup_insert|by rewrite fn_lookup_insert_ne]. Qed.

(** ** Putting a block on a free list *)

Definition insert_block (p o : Z) (z : zone_type) : M bstate unit :=
  set_block_metadata p o PAGE_STATE_FREE ;;
  check_area z o ;;
  lift_list (buddy_list_add_head (PageNode p) (order_to_free_list o z)) ;;
  add_nr_free o z 1.

Lemma block_ok_frame s s' z o i :
  (∀ j, in_block i o j → page_descriptors s' j = page_descriptors s j) →
  block_ok s z o i → block_ok s' z o i.
Proof.
  intros E [? ? ? ? ? Hf Hp]. split; auto; intros j Hj.
  - unfold is_free. rewrite E by done. by apply Hf.
  - rewrite E by done. by apply Hp.
Qed.

Lemma area_ok_intro p o : 0 ≤ o ≤ 10 → area_ok (zone_of p) o = true.
Proof.
  intros. pose proof (zone_of_valid p). unfold area_ok.
  rewrite bool_decide_eq_false_2 by done. unfold MAX_ORDER. simpl.
  apply andb_true_iff. split; apply Z.leb_le; lia.
Qed.

Lemma wp_insert_block p o s fl T (Q : unit → bstate → Prop) :
  binv s fl T → 0 ≤ o ≤ 10 → 0 < p → p + 2 ^ o ≤ MAX_PAGES → (2 ^ o | p) →
  (∀ j, in_block p o j → T j) →
  (∀ s', binv s' (<[(zone_of p, o) := p :: fl (zone_of p, o)]> fl)
              (λ j, T j ∧ ¬ in_block p o j) →
     (∀ j, in_block p o j → is_free s' j) →
     (∀ j, ¬ in_block p o j → page_descriptors s' j = page_descriptors s j) →
     total_pages s' = total_pages s → boot_frozen s' = boot_frozen s → Q tt s') →
  wp (insert_block p o (zone_of p)) s Q.
Proof.
  intros Hinv Ho Hp Hr Hal HT HQ. pose proof (area_ok_intro p o Ho) as Ha.
  remember (zone_of p) as z eqn:Ez.
  assert (in_block p o p) as Hpp.
  { unfold in_block. pose proof (Z.pow_pos_nonneg 2 o). lia. }
  assert (∀ z' o', p ∉ fl (z', o')) as Hnew.
  { intros z' o' Hin. eapply (bi_transit _ _ _ Hinv); eauto using block_self. }
  unfold insert_block. wp_step. apply wp_set_block_metadata; [lia..|]. intros s1 Hm.
  wp_step. apply wp_check_area; [done|].
  pose proof Hm as [(En & Er & Et & Eb) _].
  destruct (list_add_head_spec (nodes s1) (FreeList z o) (PageNode <$> fl (z, o)) (PageNode p))
    as (σ' & E & Hl & Hfr).
  { rewrite En. by apply (bi_list _ _ _ Hinv). }
  { rewrite not_elem_of_cons, list_elem_of_fmap. split; [done|].
    intros (y & [= <-] & Hy). by eapply Hnew. }
  wp_step. eapply wp_lift_list; [exact E|]. apply wp_add_nr_free; [done|].
  assert (∀ j, in_block p o j → is_free s1 j) as Hfree.
  { intros j Hj. eapply (meta_written_state p o); [done|apply Hinv| |done|done].
    unfold in_block in Hj. lia. }
  apply HQ; simpl; [|done|by intros j; apply (meta_written_outside _ _ _ _ _ _ Hm)|done|done].
  split.
  - change (pages_ok s1). eapply meta_written_pages; [|apply Hinv|exact Hm]; done.
  - intros z' o' Ha'. simpl. rewrite fl_insert.
    destruct (decide ((z, o) = (z', o'))) as [[= <- <-]|Hne].
    + exact Hl.
    + apply (dlist_frame (nodes s)); [|by apply (bi_list _ _ _ Hinv)].
      intros m Hm'. rewrite <- En. apply Hfr. rewrite !not_elem_of_cons.
      rewrite elem_of_cons, list_elem_of_fmap in Hm'.
      destruct Hm' as [->|(y & -> & Hy)].
      * split_and!; [done|congruence|]. rewrite list_elem_of_fmap. naive_solver.
      * split_and!; [intros [= ->]; by eapply Hnew|done|].
        rewrite list_elem_of_fmap. intros (y' & [= <-] & Hy').
        by apply Hne, (block_list_unique s fl T Hinv z o z' o' y).
  - intros z' o' Ha'. simpl. rewrite fl_insert.
    pose proof (block_length s fl T Hinv z o). unfold MAX_PAGES in *.
    destruct (decide ((z, o) = (z', o'))) as [[= <- <-]|Hne].
    + rewrite fn_lookup_insert, Er, (bi_nr _ _ _ Hinv) by done.
      rewrite u32_small by (unfold W32; lia). simpl. lia.
    + rewrite fn_lookup_insert_ne, Er by done. by apply (bi_nr _ _ _ Hinv).
  - intros z' o' i. rewrite fl_insert. intros Hi.
    assert ((z', o', i) = (z, o, p) ∨ i ∈ fl (z', o')) as [[= -> -> ->]|Hi'].
    { destruct (decide ((z, o) = (z', o'))) as [[= <- <-]|]; [|auto].
      apply elem_of_cons in Hi as [->|]; auto. }
    + split; auto. intros j Hj. simpl.
      destruct Hm as [_ Hd]. rewrite Hd, decide_True by done. done.
    + eapply block_ok_frame; [|by apply (bi_block _ _ _ Hinv)]. intros j Hj. simpl.
      eapply meta_written_outside; [done|]. intros Hj'. eapply (bi_transit _ _ _ Hinv); eauto.
  - intros j Hj Hf. destruct (decide (in_block p o j)) as [Hb|Hb].
    + right. exists z, o, p. rewrite fl_insert, decide_True by done. split; [set_solver|done].
    + unfold is_free in Hf. simpl in Hf. rewrite (meta_written_outside _ _ _ _ _ _ Hm Hb) in Hf.
      destruct (bi_cover _ _ _ Hinv j Hj Hf) as [|(z' & o' & i & Hi & Hij)]; [by left|right].
      exists z', o', i. rewrite fl_insert. split; [|done].
      case_decide; [|done]. simplify_eq. set_solver.
  - intros z' o' i j. rewrite fl_insert. intros Hi Hj [HTj Hnj].
    destruct (decide ((z, o) = (z', o'))) as [[= <- <-]|].
    + apply elem_of_cons in Hi as [->|Hi]; [done|]. eapply (bi_transit _ _ _ Hinv); eauto.
    + eapply (bi_transit _ _ _ Hinv); eauto.
Qed.

(** The two callers inline [insert_block] in front of what follows. *)
Lemma wp_insert_block_seq {A} p o z (rest : M bstate A) s Q :
  wp (insert_block p o z) s (λ _ s', wp rest s' Q) →
  wp (set_block_metadata p o PAGE_STATE_FREE ;;
      check_area z o ;;
      lift_list (buddy_list_add_head (PageNode p) (order_to_free_list o z)) ;;
      add_nr_free o z 1 ;; rest) s Q.
Proof.
  unfold insert_block, wp, mbind, M_bind.
  destruct (set_block_metadata p o PAGE_STATE_FREE s) as [[[] s1]| | |]; [|done..].
  destruct (check_area z o s1) as [[[] s2]| | |]; [|done..].
  destruct (lift_list _ s2) as [[[] s3]| | |]; [|done..].
  by destruct (add_nr_free o z 1 s3) as [[[] s4]| | |].
Qed.

(** ** Taking a block off its free list *)

Lemma wp_remove_block z o i s fl T (Q : unit → bstate → Prop) :
  binv s fl T → i ∈ fl (z, o) →
  (∀ s' l1 l2, fl (z, o) = l1 ++ i :: l2 →
     binv s' (<[(z, o) := l1 ++ l2]> fl) (λ j, T j ∨ in_block i o j) →
     page_descriptors s' = page_descriptors s →
     total_pages s' = total_pages s → boot_frozen s' = boot_frozen s → Q tt s') →
  wp (lift_list (pop_node (PageNode i))) s (λ _ s1, wp (add_nr_free o z (-1)) s1 Q).
Proof.
  intros Hinv Hi HQ. pose proof (block_area _ _ _ Hinv _ _ _ Hi) as Ha.
  pose proof (bi_list _ _ _ Hinv z o Ha) as Hl.
  pose proof (bi_nr _ _ _ Hinv z o Ha) as Hnr.
  pose proof (block_length _ _ _ Hinv z o) as Hlen.
  apply list_elem_of_split in Hi as (l1 & l2 & El). pose proof El as El'.
  rewrite El, fmap_app, fmap_cons in Hl.
  assert (i ∉ l1 ++ l2) as Hi.
  { destruct Hl as [Hnd _]. apply NoDup_cons in Hnd as [_ Hnd].
    rewrite <- fmap_cons, <- fmap_app in Hnd. apply NoDup_fmap_1 in Hnd.
    rewrite <- Permutation_middle in Hnd. by apply NoDup_cons in Hnd as [? _]. }
  apply pop_node_spec in Hl as (σ' & E & Hl & _ & Hfr). rewrite <- fmap_app in Hl, Hfr.
  eapply wp_lift_list; [exact E|]. apply wp_add_nr_free; [done|].
  assert (∀ k x, x ∈ (<[(z, o) := l1 ++ l2]> fl) k → x ∈ fl k ∧ (k, x) ≠ (z, o, i)) as Hsub.
  { intros k x. rewrite fl_insert. case_decide; [subst|].
    - rewrite El. set_solver.
    - intros ?. split; [done|congruence]. }
  apply (HQ _ l1 l2); simpl; [done| |done..].
  assert (∀ z' o' x, x ∈ fl (z', o') → (z', o', x) ≠ (z, o, i) →
    x ∈ (<[(z, o) := l1 ++ l2]> fl) (z', o')) as Hsup.
  { intros z' o' x Hx Hne. rewrite fl_insert. case_decide; [simplify_eq|done].
    rewrite El in Hx. set_solver. }
  split.
  - exact (bi_pages _ _ _ Hinv).
  - intros z' o' Ha'. simpl. rewrite fl_insert.
    destruct (decide ((z, o) = (z', o'))) as [[= <- <-]|Hne]; [exact Hl|].
    apply (dlist_frame (nodes s)); [|by apply (bi_list _ _ _ Hinv)].
    intros m Hm'. apply Hfr. rewrite !not_elem_of_cons.
    rewrite elem_of_cons, list_elem_of_fmap in Hm'.
    assert (∀ y, y ∈ fl (z', o') → y ∉ i :: l1 ++ l2) as Hdisj.
    { intros y Hy Hy'. apply Hne, (block_list_unique s fl T Hinv z o z' o' y); [|done].
      rewrite El. set_solver. }
    destruct Hm' as [->|(y & -> & Hy)].
    + split_and!; [done|congruence|]. rewrite list_elem_of_fmap. naive_solver.
    + specialize (Hdisj y Hy). rewrite list_elem_of_fmap. set_solver.
  - intros z' o' Ha'. simpl. rewrite fl_insert.
    destruct (decide ((z, o) = (z', o'))) as [[= <- <-]|Hne].
    + rewrite fn_lookup_insert, Hnr. rewrite El, !length_app in *. simpl in *.
      unfold MAX_PAGES in Hlen. rewrite u32_small by (unfold W32; lia). lia.
    + rewrite fn_lookup_insert_ne by done. by apply (bi_nr _ _ _ Hinv).
  - intros z' o' x Hx. apply Hsub in Hx as [Hx _].
    by apply (block_ok_frame s), (bi_block _ _ _ Hinv).
  - intros j Hj Hf. destruct (bi_cover _ _ _ Hinv j Hj Hf) as [|(z' & o' & x & Hx & Hxj)]; [auto|].
    destruct (decide ((z', o', x) = (z, o, i))) as [[= -> -> ->]|Hne]; [by left; right|].
    right. eauto 10.
  - intros z' o' x j Hx Hj [HT|HB]; apply Hsub in Hx as [Hx Hne].
    + eapply (bi_transit _ _ _ Hinv); eauto.
    + apply Hne. destruct (block_overlap s fl T Hinv z' o' x z o i j) as (-> & -> & ->); auto.
      rewrite El. set_solver.
Qed.

(** ** Marking the block in transit as allocated *)

Lemma binv_allocate p o s s' fl :
  binv s fl (in_block p o) → 0 ≤ p → p + 2 ^ o ≤ MAX_PAGES →
  meta_written p o PAGE_STATE_ALLOCATED s s' → binv s' fl (λ _, False).
Proof.
  intros Hinv Hp Hr Hm. pose proof Hm as [(En & Er & _ & _) _].
  assert (∀ z o' i j, i ∈ fl (z, o') → in_block i o' j →
    page_descriptors s' j = page_descriptors s j) as Hsame.
  { intros z o' i j Hi Hj. eapply meta_written_outside; [done|].
    eapply (bi_transit _ _ _ Hinv); eauto. }
  split.
  - eapply meta_written_pages; [|apply Hinv|exact Hm]. done.
  - rewrite En. apply Hinv.
  - rewrite Er. apply Hinv.
  - intros z o' i Hi. eapply block_ok_frame; [|by apply (bi_block _ _ _ Hinv)]. eauto.
  - intros j Hj Hf. right. destruct (decide (in_block p o j)) as [Hb|Hb].
    + unfold is_free in Hf.
      by rewrite (meta_written_state p o PAGE_STATE_ALLOCATED s) in Hf by (done || apply Hinv).
    + unfold is_free in Hf. rewrite (meta_written_outside _ _ _ _ _ _ Hm Hb) in Hf.
      by destruct (bi_cover _ _ _ Hinv j Hj Hf).
  - auto.
Qed.

(** Only the set of frames in transit matters. *)
Lemma binv_transit_iff s fl (T T' : Z → Prop) :
  (∀ j, T j ↔ T' j) → binv s fl T → binv s fl T'.
Proof.
  intros E [? ? ? ? Hc Ht]. split; auto.
  - intros j Hj Hf. destruct (Hc j Hj Hf); [left; by apply E|by right].
  - intros z o i j Hi Hj HT. eapply Ht; eauto. by apply E.
Qed.
