(* ===== verification/BuddySpec.v ===== *)
(** * The buddy allocator: correctness of the external functions *)

From S2P Require Import Prelude Dlist Memory Page Buddy BuddyInv.

(** The state of the allocator between two calls. *)
Definition buddy_ok (s : bstate) : Prop :=
  ∃ fl, binv s fl (λ _, False) ∧ coalesced fl.

(** [frames p o]: an aligned run of [2^o] frames, frame 0 excluded. *)
Definition run_ok (p o : Z) : Prop :=
  0 ≤ o ≤ 10 ∧ 0 < p ∧ p + 2 ^ o ≤ MAX_PAGES ∧ (2 ^ o | p).

(** A block handed out by the allocator, as its metadata records it. *)
Definition allocated (s : bstate) (p o : Z) : Prop :=
  run_ok p o ∧
  (∀ j, in_block p o j →
     private_data (page_descriptors s j) = if decide (j = p) then o else PAGE_MAGIC) ∧
  ∀ j, in_block p o j → PAGE_GET_STATE (page_descriptors s j) = PAGE_STATE_ALLOCATED.

(** ** Requested sizes and orders *)

Lemma size_to_order_loop_spec n order total : (n ≤ 11)%nat → order = 11 - Z.of_nat n →
  let r := size_to_order_loop n order total in
  order ≤ r ≤ 11 ∧ (r ≤ 10 → total ≤ 2 ^ r) ∧ (order < r → 2 ^ (r - 1) < total).
Proof.
  revert order. induction n as [|n IH]; intros order Hn Ho; simpl.
  - unfold BAD_ORDER. lia.
  - rewrite PAGE_BY_ORDER_pow2 by lia. destruct (Z.leb_spec total (2 ^ order)).
    + split_and!; done || lia.
    + destruct (IH (order + 1)) as (H1 & H2 & H3); [lia..|].
      split_and!; [lia|lia|done|]. intros _.
      destruct (decide (size_to_order_loop n (order + 1) total = order + 1)) as [->|].
      * by replace (order + 1 - 1) with order by lia.
      * apply H3. lia.
Qed.

Lemma size_to_order_range size : 0 ≤ size_to_order size ≤ 11.
Proof.
  destruct (size_to_order_loop_spec 11 0 (DIV_ROUND_UP size PAGE_SIZE)) as [? _]; [lia..|done].
Qed.

(** ** Coalescing *)

Lemma coalesced_insert fl z o p : coalesced fl → 0 ≤ o → (2 ^ o | p) →
  (∀ i, i ∈ fl (z, o) → (2 ^ o | i)) → (o < MAX_ORDER → buddy_of p o ∉ fl (z, o)) →
  coalesced (<[(z, o) := p :: fl (z, o)]> fl).
Proof.
  intros Hc Ho Hp Hal Hb z' o' i. rewrite fl_insert.
  destruct (decide ((z, o) = (z', o'))) as [[= <- <-]|]; [|by apply Hc].
  intros Hi Hlt. pose proof (Z.pow_pos_nonneg 2 o).
  apply elem_of_cons in Hi as [->|Hi].
  - apply not_elem_of_cons. split; [|by apply Hb].
    unfold buddy_of. destruct (Z.testbit p o); lia.
  - apply not_elem_of_cons. split; [|by apply Hc].
    intros E. apply Hb; [done|]. rewrite <- E, buddy_of_involutive by auto. done.
Qed.

Lemma coalesced_remove fl z o i l1 l2 : coalesced fl → fl (z, o) = l1 ++ i :: l2 →
  coalesced (<[(z, o) := l1 ++ l2]> fl).
Proof.
  intros Hc E z' o' x. rewrite fl_insert.
  destruct (decide ((z, o) = (z', o'))) as [[= <- <-]|]; [|by apply Hc].
  intros Hx Hlt Hb. apply (Hc z o x); [rewrite E; set_solver|done|rewrite E; set_solver].
Qed.

Lemma binv_aligned s fl T z o i : binv s fl T → i ∈ fl (z, o) → (2 ^ o | i).
Proof. intros Hinv Hi. by destruct (bi_block _ _ _ Hinv _ _ _ Hi). Qed.

(** ** Splitting *)

Lemma split_right_half p c : 0 ≤ c → (2 ^ (c + 1) | p) →
  (2 ^ c | p + 2 ^ c) ∧ buddy_of (p + 2 ^ c) c = p.
Proof.
  intros Hc [k ->]. rewrite Z.pow_add_r by lia.
  replace (k * (2 ^ c * 2 ^ 1) + 2 ^ c) with ((2 * k + 1) * 2 ^ c) by lia.
  split; [by exists (2 * k + 1)|]. unfold buddy_of. rewrite testbit_aligned by done.
  rewrite Z.odd_add, Z.odd_mul. simpl. lia.
Qed.

(** The free lists after a block at [p] was split from order [c] down to order [n]:
    each order between gains the right half. *)
Definition split_lists (p n c : Z) (fl fl' : freelists) : Prop :=
  ∀ z o, fl' (z, o) = if decide (z = zone_of p ∧ n ≤ o < c) then (p + 2 ^ o) :: fl (z, o) else fl (z, o).

Lemma wp_split fuel n c p s fl (Q : Z → bstate → Prop) :
  binv s fl (in_block p c) → coalesced fl → run_ok p c → 0 ≤ n ≤ c → c - n < Z.of_nat fuel →
  (∀ s' fl', binv s' fl' (in_block p n) → coalesced fl' → split_lists p n c fl fl' →
     (∀ j, ¬ in_block p c j → page_descriptors s' j = page_descriptors s j) →
     (∀ j, in_block p c j → ¬ in_block p n j → is_free s' j) →
     total_pages s' = total_pages s → Q (page_to_phys p) s') →
  wp (split_block_to_order fuel n c (page_to_phys p) (zone_of p)) s Q.
Proof.
  revert c s fl Q. induction fuel as [|fuel IH]; intros c s fl Q Hinv Hco Hrun Hn Hf HQ; [lia|].
  pose proof Hrun as ((Hc0 & Hc10) & Hp & Hr & Hal). simpl.
  unfold order_is_valid, MAX_ORDER.
  rewrite (proj2 (Z.leb_le n 10)), (proj2 (Z.leb_le c 10)) by lia. simpl.
  destruct (Z.eqb_spec c n) as [->|Hne].
  { apply wp_ret. eapply HQ; eauto; [|intros j ? ?; done]. intros z o. rewrite decide_False; [done|]. intros [_ ?]. lia. }
  rewrite page_addr_to_page_phys by (pose proof (Z.pow_pos_nonneg 2 c); lia).
  assert (∃ d, c = d + 1) as [d ->] by (exists (c - 1); lia).
  rewrite Z.add_simpl_r, (u32_small d), PAGE_BY_ORDER_pow2 by (unfold W32; lia).
  assert (2 ^ (d + 1) = 2 ^ d + 2 ^ d) as Hpow by (rewrite Z.pow_add_r; lia).
  pose proof (Z.pow_pos_nonneg 2 d) as Hd.
  destruct (split_right_half p d) as [Hal' Hbud]; [lia|done|].
  assert (zone_of (p + 2 ^ d) = zone_of p) as Hz.
  { apply (zone_of_block p (d + 1)); [lia|done|]. unfold in_block. lia. }
  rewrite <- Hz. apply wp_insert_block_seq.
  eapply wp_insert_block; [exact Hinv|lia|lia|lia|done|unfold in_block; lia|].
  intros s1 Hinv1 Hfree1 Hout1 Ht1 _. rewrite Hz in *.
  eapply (IH d); [| |split_and!; try lia; apply divide_mono; [lia|done]|lia|lia|].
  - eapply binv_transit_iff; [|exact Hinv1]. intros j. unfold in_block. lia.
  - apply coalesced_insert; [done|lia|done|intros i; by eapply binv_aligned|].
    intros _. rewrite Hbud. intros Hin.
    eapply (bi_transit _ _ _ Hinv _ _ _ p Hin); unfold in_block; lia.
  - intros s2 fl2 Hinv2 Hco2 Hsp2 Hout2 Hfree2 Ht2. eapply HQ; [exact Hinv2|done|..|congruence].
    + intros z o. rewrite (Hsp2 z o), fl_insert. destruct (decide ((zone_of p, d) = (z, o))) as [[= <- <-]|Hno].
      * rewrite decide_False by (intros [_ ?]; lia). rewrite decide_True by (split; [done|lia]). done.
      * destruct (decide (z = zone_of p ∧ n ≤ o < d)) as [[-> Hod]|Hod]; [rewrite decide_True by (split; [done|lia]); done|].
        rewrite decide_False; [done|]. intros [-> Hod']. apply Hod. split; [done|].
        destruct (decide (o = d)) as [->|]; [by destruct Hno|lia].
    + intros j Hj. rewrite Hout2, Hout1; [done|..]; unfold in_block in *; lia.
    + intros j Hj Hjn. destruct (decide (in_block p d j)); [by apply Hfree2|].
      unfold is_free. rewrite Hout2 by done. apply Hfree1. unfold in_block in *. lia.
Qed.

(** ** Searching the free lists *)

Lemma area_ok_zone z o : z ≠ INVALID_ZONE → 0 ≤ o ≤ 10 → area_ok z o = true.
Proof.
  intros. unfold area_ok. rewrite bool_decide_eq_false_2 by done. unfold MAX_ORDER. simpl.
  apply andb_true_iff. split; apply Z.leb_le; lia.
Qed.

Lemma wp_find_order fuel n z s fl T (Q : Z → bstate → Prop) :
  binv s fl T → z ≠ INVALID_ZONE → 0 ≤ n ≤ 11 → 11 - n < Z.of_nat fuel →
  (∀ c, n ≤ c ≤ 11 → (∀ o, n ≤ o < c → fl (z, o) = []) → c = 11 ∨ fl (z, c) ≠ [] → Q c s) →
  wp (find_order fuel n z) s Q.
Proof.
  intros Hinv Hz. revert n. induction fuel as [|fuel IH]; intros n Hn Hf HQ; [lia|]. simpl.
  unfold BAD_ORDER. destruct (Z.eqb_spec n 11) as [->|Hne].
  { apply wp_ret, HQ; auto with lia. }
  wp_step. unfold order_to_nrFree. wp_step.
  assert (area_ok z n = true) as Ha by (apply area_ok_zone; [done|lia]).
  apply wp_check_area; [done|]. apply wp_gets. rewrite (bi_nr _ _ _ Hinv) by done.
  destruct (Z.eqb_spec (Z.of_nat (length (fl (z, n)))) 0) as [E|E].
  - rewrite u32_small by (unfold W32; lia). apply IH; [lia..|]. intros c Hc Hemp Hor.
    apply HQ; [lia| |done]. intros o Ho. destruct (decide (o = n)) as [->|]; [|apply Hemp; lia].
    destruct (fl (z, n)); [done|simpl in E; lia].
  - apply wp_ret, HQ; [lia|lia|]. right. intros E'. by rewrite E' in E.
Qed.

Lemma wp_pop_first z c i l s fl (Q : Z → bstate → Prop) :
  binv s fl (λ _, False) → fl (z, c) = i :: l →
  (∀ s', binv s' (<[(z, c) := l]> fl) (in_block i c) →
     page_descriptors s' = page_descriptors s → total_pages s' = total_pages s →
     Q (page_to_phys i) s') →
  wp (pop_first_block c z) s Q.
Proof.
  intros Hinv El HQ. assert (i ∈ fl (z, c)) as Hi by (rewrite El; set_solver).
  pose proof (block_area _ _ _ Hinv _ _ _ Hi) as Ha.
  pose proof (bi_list _ _ _ Hinv z c Ha) as Hl. rewrite El, fmap_cons in Hl.
  unfold pop_first_block, order_to_free_list. wp_step. apply wp_check_area; [done|]. wp_step. apply wp_gets.
  destruct Hl as [_ Hs]. simpl in Hs. destruct Hs as [-> _].
  rewrite bool_decide_eq_false_2 by done. wp_step.
  eapply wp_mono; [eapply wp_remove_block; [exact Hinv|exact Hi|]|].
  - intros s' l1 l2 E Hinv' Hpd Ht _. rewrite El in E.
    assert (l1 = [] ∧ l2 = l) as [-> ->].
    { destruct (bi_list _ _ _ Hinv z c Ha) as [Hnd _]. rewrite El in Hnd.
      apply NoDup_cons in Hnd as [_ Hnd]. apply NoDup_fmap_1, NoDup_cons in Hnd as [Hil _].
      destruct l1 as [|x l1]; simplify_eq/=; [done|]. exfalso. set_solver. }
    instantiate (1 := λ _ s', binv s' (<[(z, c) := l]> fl) (in_block i c) ∧
      page_descriptors s' = page_descriptors s ∧ total_pages s' = total_pages s).
    split_and!; [|done..]. eapply binv_transit_iff; [|exact Hinv']. intros j. simpl. tauto.
  - intros [] s1 Hw. wp_step. eapply wp_mono; [exact Hw|].
    intros [] s2 (? & ? & ?). apply wp_ret. by apply HQ.
Qed.

(** ** Allocation *)

(** What an allocation leaves alone: frames outside the block keep their
    FREE status, and a frame that was not FREE keeps its descriptor. *)
Definition alloc_frame (s s' : bstate) (p o : Z) : Prop :=
  (∀ j, 0 ≤ j < MAX_PAGES → ¬ in_block p o j → is_free s' j ↔ is_free s j) ∧
  (∀ j, 0 ≤ j < MAX_PAGES → ¬ is_free s j → page_descriptors s' j = page_descriptors s j) ∧
  total_pages s' = total_pages s.

Lemma page_to_phys_small i : 0 ≤ i < MAX_PAGES → page_to_phys i = i * PAGE_SIZE.
Proof.
  unfold MAX_PAGES, page_to_phys, PAGE_SIZE. intros. apply u32_small. unfold W32. lia.
Qed.

Lemma run_ok_frame p o : run_ok p o → 0 ≤ p < MAX_PAGES.
Proof. intros (? & ? & ? & _). pose proof (Z.pow_pos_nonneg 2 o). lia. Qed.

(** The free lists after an allocation of order [n] was served by the block at [p]
    of the least order [c] that has one. *)
Definition alloc_lists (z : zone_type) (p n c : Z) (fl fl' : freelists) : Prop :=
  n ≤ c ≤ 10 ∧ (∀ o, n ≤ o < c → fl (z, o) = []) ∧
  ∃ l, fl (z, c) = p :: l ∧ split_lists p n c (<[(z, c) := l]> fl) fl'.

Lemma wp_buddy_alloc_lists size z s fl (Q : Z → bstate → Prop) :
  binv s fl (λ _, False) → coalesced fl → z ≠ INVALID_ZONE →
  ((∀ c, size_to_order size ≤ c ≤ 10 → fl (z, c) = []) → Q 0 s) →
  (∀ p s', let o := size_to_order size in
     run_ok p o → zone_of p = z → (∃ fl' c, binv s' fl' (λ _, False) ∧ coalesced fl' ∧ alloc_lists z p o c fl fl') →
     allocated s' p o →
     (∀ j, in_block p o j → is_free s j) → alloc_frame s s' p o → Q (page_to_phys p) s') →
  wp (buddy_alloc_pages size z) s Q.
Proof.
  intros Hinv Hco Hz HQ0 HQ. pose proof (size_to_order_range size) as Ho.
  unfold buddy_alloc_pages, order_is_valid, MAX_ORDER.
  destruct (Z.leb_spec (size_to_order size) 10); cbn [negb]; [|apply wp_ret, HQ0; intros; lia].
  wp_step. eapply wp_find_order; [exact Hinv|done|lia|unfold ORDER_FUEL; lia|].
  intros c Hc Hemp Hor. unfold BAD_ORDER.
  destruct (Z.eqb_spec c 11) as [->|Hc11]; [apply wp_ret, HQ0; intros; apply Hemp; lia|].
  destruct Hor as [|Hne]; [lia|]. destruct (fl (z, c)) as [|i l] eqn:El; [done|clear Hne].
  assert (i ∈ fl (z, c)) as Hi by (rewrite El; set_solver).
  pose proof (bi_block _ _ _ Hinv _ _ _ Hi) as [? Hi0 Hir Hal Hzi Hif _].
  assert (run_ok i c) as Hrun by done. pose proof (run_ok_frame _ _ Hrun) as Hfr.
  wp_step. eapply wp_pop_first; [exact Hinv|exact El|]. intros s1 Hinv1 Hpd1 Ht1.
  destruct (Z.eqb_spec (page_to_phys i) 0) as [E0|_].
  { rewrite page_to_phys_small in E0 by done. unfold PAGE_SIZE in E0. lia. }
  rewrite <- Hzi in *.
  set (n := size_to_order size) in *.
  wp_step. eapply (wp_split _ n c i s1); [exact Hinv1| |done|lia|unfold ORDER_FUEL; lia|].
  { by eapply (coalesced_remove fl _ _ i []). }
  intros s2 fl2 Hinv2 Hco2 Hsp2 Hout2 Hfree2 Ht2. rewrite page_addr_to_page_phys by done.
  assert (2 ^ n ≤ 2 ^ c) by (apply Z.pow_le_mono_r; lia).
  assert ((2 ^ n | i)) as Hal'.
  { destruct Hal as [k ->]. rewrite (pow2_split n c) by lia. rewrite Z.mul_assoc. by eexists. }
  assert (run_ok i n) as Hrunn by (split_and!; lia || done).
  wp_step. apply wp_set_block_metadata; [lia..|]. intros s3 Hm. apply wp_ret.
  assert (∀ j, in_block i n j → in_block i c j) as Hsub by (unfold in_block; lia).
  pose proof Hm as [(_ & _ & Ht3 & _) Hd3]. apply HQ; auto.
  - exists fl2, c. split_and!; [eapply binv_allocate; [exact Hinv2|lia..|done]|done|].
    split_and!; [lia|lia|done|]. by exists l.
  - split; [done|]. split.
    + intros j Hj. by rewrite Hd3, decide_True.
    + intros j Hj. eapply meta_written_state; [done|apply Hinv2|unfold in_block in *; lia|done|done].
  - split_and!; [| |congruence].
    + intros j Hj Hnj. unfold is_free. rewrite (meta_written_outside _ _ _ _ _ _ Hm Hnj).
      destruct (decide (in_block i c j)) as [Hb|Hb].
      * split; intros _; [by apply Hif|by apply Hfree2].
      * by rewrite Hout2, Hpd1.
    + intros j Hj Hnf. assert (¬ in_block i c j) as Hb by (intros ?; by apply Hnf, Hif).
      rewrite (meta_written_outside _ _ _ _ _ _ Hm), Hout2, Hpd1; auto.
Qed.

Lemma wp_buddy_alloc size z s fl (Q : Z → bstate → Prop) :
  binv s fl (λ _, False) → coalesced fl → z ≠ INVALID_ZONE →
  ((∀ c, size_to_order size ≤ c ≤ 10 → fl (z, c) = []) → Q 0 s) →
  (∀ p s', let o := size_to_order size in
     run_ok p o → zone_of p = z → buddy_ok s' → allocated s' p o →
     (∀ j, in_block p o j → is_free s j) → alloc_frame s s' p o → Q (page_to_phys p) s') →
  wp (buddy_alloc_pages size z) s Q.
Proof.
  intros Hinv Hco Hz HQ0 HQ. eapply wp_buddy_alloc_lists; [done..|].
  intros p s' o Hrun Hzp (fl' & c & Hinv' & Hco' & _) Hal Hfr Hfm. apply HQ; auto. by exists fl'.
Qed.

Lemma aligned_block_eq i m o : 0 ≤ o → (2 ^ o | i) → (2 ^ o | m) → in_block i o m → i = m.
Proof.
  intros Ho [a ->] [b ->] [H1 H2]. pose proof (Z.pow_pos_nonneg 2 o).
  assert (a = b) by nia. congruence.
Qed.

(** In a coalesced state every aligned run of FREE frames lies inside one free block. *)
Lemma free_run_in_block s fl o m : binv s fl (λ _, False) → coalesced fl → 0 ≤ o → o ≤ 10 →
  0 ≤ m → (2 ^ o | m) → m + 2 ^ o ≤ MAX_PAGES → (∀ j, in_block m o j → is_free s j) →
  ∃ c i, o ≤ c ≤ 10 ∧ i ∈ fl (zone_of m, c) ∧ in_block i c m.
Proof.
  intros Hinv Hco Ho. revert m. pattern o. apply natlike_ind; [..|exact Ho]; clear o Ho.
  - intros m _ Hm _ Hr Hf. simpl in Hr.
    destruct (bi_cover _ _ _ Hinv m) as [[]|(z & c & i & Hi & Him)];
      [lia|apply Hf; unfold in_block; lia|].
    pose proof (bi_block _ _ _ Hinv _ _ _ Hi) as [? _ _ Hal <- _ _].
    exists c, i. split; [lia|]. by rewrite (zone_of_block i c m).
  - intros k Hk IH m Hk10 Hm Hal Hr Hf. rewrite <- Z.add_1_r in *.
    pose proof (Z.pow_pos_nonneg 2 k) as Hpos.
    assert (2 ^ (k + 1) = 2 ^ k + 2 ^ k) as Hpow by (rewrite Z.pow_add_r; lia).
    destruct (split_right_half m k) as [Hal2 Hb2]; [lia|done|].
    assert (zone_of (m + 2 ^ k) = zone_of m) as Hz2.
    { apply (zone_of_block m (k + 1)); [lia|done|]. unfold in_block. lia. }
    destruct (IH m) as (c1 & i1 & Hc1 & Hi1 & Hb1);
      [lia|lia|by apply divide_mono|lia|intros j Hj; apply Hf; unfold in_block in *; lia|].
    destruct (decide (k = c1)) as [<-|]; [|exists c1, i1; split; [lia|done]].
    destruct (IH (m + 2 ^ k)) as (c2 & i2 & Hc2 & Hi2 & Hb3);
      [lia|lia|done|lia|intros j Hj; apply Hf; unfold in_block in *; lia|].
    rewrite Hz2 in Hi2.
    pose proof (bi_block _ _ _ Hinv _ _ _ Hi1) as [_ _ _ Hali1 _ _ _].
    pose proof (bi_block _ _ _ Hinv _ _ _ Hi2) as [_ _ _ Hali2 _ _ _].
    destruct (decide (k = c2)) as [<-|].
    + apply aligned_block_eq in Hb1 as ->; [|lia|done|by apply divide_mono].
      apply aligned_block_eq in Hb3 as ->; [|lia|done|done]. exfalso.
      apply (Hco (zone_of m) k (m + 2 ^ k)); [done|unfold MAX_ORDER; lia|]. by rewrite Hb2.
    + exists c2, i2. split; [lia|]. split; [done|].
      assert (i2 ≤ m); [|unfold in_block in *; lia].
      destruct Hal as [a ->], Hali2 as [b ->].
      rewrite (pow2_split (k + 1) c2) in * by lia. unfold in_block in Hb3.
      set (w := 2 ^ (c2 - (k + 1))) in *. set (v := 2 ^ (k + 1)) in *.
      assert (b * w ≤ a) by nia. nia.
Qed.

(** ** Freeing *)

Lemma wp_free_coalesce fuel p o s fl (Q : Z * Z → bstate → Prop) :
  binv s fl (in_block p o) → coalesced fl → run_ok p o → 10 - o < Z.of_nat fuel →
  (∀ s' fl' p' o', binv s' fl' (in_block p' o') → coalesced fl' → run_ok p' o' →
     zone_of p' = zone_of p →
     (∀ j, in_block p o j → in_block p' o' j) →
     (∀ j, in_block p' o' j → in_block p o j ∨ is_free s j) →
     (o' < MAX_ORDER → buddy_of p' o' ∉ fl' (zone_of p', o')) →
     page_descriptors s' = page_descriptors s → total_pages s' = total_pages s →
     Q (page_to_phys p', o') s') →
  wp (free_coalesce fuel (page_to_phys p) o (zone_of p)) s Q.
Proof.
  revert p o s fl Q.
  induction fuel as [|fuel IH]; intros p o s fl Q Hinv Hco Hrun Hf HQ; [destruct Hrun; lia|]. simpl.
  pose proof Hrun as ((Ho0 & Ho10) & Hp & Hr & Hal). pose proof (run_ok_frame _ _ Hrun) as Hfr.
  destruct (Z.ltb_spec o MAX_ORDER) as [Hlt|Hge]; unfold MAX_ORDER in *.
  2: { apply wp_ret. eapply HQ; eauto. lia. }
  pose proof (Z.pow_pos_nonneg 2 o ltac:(lia) Ho0) as Hpos.
  assert (2 ^ (o + 1) = 2 ^ o + 2 ^ o) as Hpow by (rewrite Z.pow_add_r; lia).
  destruct (buddy_cases p o) as (m & Hm & Hcase); [lia|done|].
  assert (0 ≤ m) as Hm0.
  { destruct Hm as [k ->]. rewrite Hpow in *. clear - Hcase Hp Hpos.
    set (w := 2 ^ o) in *.
    assert (0 ≤ k) by (destruct Hcase as [[E _]|[E _]]; nia). nia. }
  assert (m + 2 ^ (o + 1) ≤ MAX_PAGES) as Hmr by (apply aligned_range; [lia|done|lia]).
  assert (0 ≤ buddy_of p o < MAX_PAGES) as Hbr by lia.
  assert (∀ j, in_block m (o + 1) j ↔ in_block p o j ∨ in_block (buddy_of p o) o j) as Hun.
  { intros j. unfold in_block. lia. }
  assert (zone_of m = zone_of p) as Hzm.
  { symmetry. apply (zone_of_block m (o + 1)); [lia|done|]. unfold in_block. lia. }
  assert (zone_of (buddy_of p o) = zone_of p) as Hzb.
  { rewrite <- Hzm. apply (zone_of_block m (o + 1)); [lia|done|]. unfold in_block. lia. }
  assert (¬ in_block p o (buddy_of p o)) as Hnb by (unfold in_block; lia).
  unfold get_buddy_page. wp_step. wp_step. rewrite get_buddy_base_zone. wp_step.
  rewrite WHO_IS_MY_BUDDY_spec, page_addr_to_page_phys by (done || lia).
  wp_step. apply wp_load_page; [done|]. unfold PAGE_IS_FREE.
  destruct (Z.eqb_spec (PAGE_GET_STATE (page_descriptors s (buddy_of p o))) PAGE_STATE_FREE)
    as [Hbf|Hbf]; [destruct (Z.eqb_spec (private_data (page_descriptors s (buddy_of p o))) o)
    as [Hbp|Hbp]|]; cbn [andb]; apply wp_ret.
  - assert (buddy_of p o ∈ fl (zone_of p, o)) as Hin by (eapply free_head; eauto).
    pose proof (bi_block _ _ _ Hinv _ _ _ Hin) as [_ Hb0 _ _ _ Hbfree _].
    assert (MIN (page_to_phys p) (page_to_phys (buddy_of p o)) = page_to_phys m) as Hmin.
    { unfold MIN. rewrite !page_to_phys_small by (lia || done). unfold PAGE_SIZE.
      destruct Hcase as [[? ?]|[? ?]]; case_match; to_prop; lia. }
    wp_step. eapply wp_mono; [eapply (wp_remove_block _ _ _ _ _ _
      (λ _ s', ∃ l1 l2, fl (zone_of p, o) = l1 ++ buddy_of p o :: l2 ∧
         binv s' (<[(zone_of p, o) := l1 ++ l2]> fl) (in_block m (o + 1)) ∧
         page_descriptors s' = page_descriptors s ∧ total_pages s' = total_pages s));
      [exact Hinv|exact Hin|]|].
    { intros s' l1 l2 El Hinv' ? ? _. exists l1, l2. split_and!; [done| |done..].
      eapply binv_transit_iff; [|exact Hinv']. intros j. by rewrite Hun. }
    intros [] s1 Hw. wp_step. eapply wp_mono; [exact Hw|].
    intros [] s2 (l1 & l2 & El & Hinv2 & Hpd2 & Ht2). rewrite Hmin, <- Hzm.
    eapply IH; [exact Hinv2|by eapply coalesced_remove|split_and!; done || lia|lia|].
    intros s3 fl3 p3 o3 Hinv3 Hco3 Hrun3 Hz3 Hs1 Hs2 Hb3 Hpd3 Ht3.
    eapply HQ; eauto; [congruence|intros j Hj; apply Hs1, Hun; auto| |congruence..].
    intros j Hj. destruct (Hs2 j Hj) as [Hjm|Hjf].
    + apply Hun in Hjm as [|]; auto.
    + right. unfold is_free in *. by rewrite <- Hpd2.
  - eapply HQ; eauto. intros _ Hin. apply Hbp.
    pose proof (bi_block _ _ _ Hinv _ _ _ Hin) as B.
    rewrite (blk_private _ _ _ _ B), decide_True; [done..|]. by eapply block_self.
  - eapply HQ; eauto. intros _ Hin. apply Hbf.
    pose proof (bi_block _ _ _ Hinv _ _ _ Hin) as B.
    apply (blk_free _ _ _ _ B). by eapply block_self.
Qed.

(** What freeing the block leaves alone. *)
Definition free_frame (s s' : bstate) (p o : Z) : Prop :=
  (∀ j, in_block p o j → is_free s' j) ∧
  (∀ j, 0 ≤ j < MAX_PAGES → ¬ in_block p o j → is_free s' j ↔ is_free s j) ∧
  (∀ j, 0 ≤ j < MAX_PAGES → ¬ in_block p o j → ¬ is_free s j →
        page_descriptors s' j = page_descriptors s j) ∧
  total_pages s' = total_pages s.

Lemma wp_buddy_free p o s fl (Q : unit → bstate → Prop) :
  binv s fl (λ _, False) → coalesced fl → run_ok p o →
  PAGE_GET_STATE (page_descriptors s p) = PAGE_STATE_ALLOCATED ∨
  PAGE_GET_STATE (page_descriptors s p) = PAGE_STATE_AVAILABLE →
  private_data (page_descriptors s p) = o → (∀ j, in_block p o j → ¬ is_free s j) →
  (∀ s', buddy_ok s' → free_frame s s' p o → Q tt s') →
  wp (buddy_free_block (page_to_phys p)) s Q.
Proof.
  intros Hinv Hco Hrun Hst Hpr Hnf HQ. pose proof (run_ok_frame _ _ Hrun) as Hfr.
  pose proof Hrun as ((Ho0 & Ho10) & Hp & Hr & Hal).
  unfold buddy_free_block. rewrite page_addr_to_page_phys by done.
  wp_step. apply wp_load_page; [done|]. rewrite Hpr.
  replace (PAGE_GET_STATE (page_descriptors s p) =? PAGE_STATE_FREE) with false
    by (by destruct Hst as [->| ->]).
  replace (_ && _) with false by (by destruct Hst as [->| ->]).
  unfold order_is_valid. rewrite (proj2 (Z.leb_le o MAX_ORDER)) by (unfold MAX_ORDER; lia).
  cbn [negb].
  replace (page_zone_flags_to_zone_type (PAGE_GET_ZONE (page_descriptors s p)))
    with (zone_of p) by (unfold zone_of; by rewrite (proj2 (bi_pages _ _ _ Hinv p Hfr))).
  assert (binv s fl (in_block p o)) as Hinv'.
  { destruct Hinv as [? ? ? Hb Hc Ht]. split; auto.
    - intros j Hj Hf. destruct (Hc j Hj Hf) as [[]|?]; auto.
    - intros z o' i j Hi Hj Hpj. apply (Hnf j Hpj). by apply (blk_free _ _ _ _ (Hb _ _ _ Hi)). }
  wp_step. eapply wp_free_coalesce; [exact Hinv'|done|done|unfold ORDER_FUEL; lia|].
  intros s1 fl1 p1 o1 Hinv1 Hco1 Hrun1 Hz1 Hs1 Hs2 Hb1 Hpd1 Ht1.
  pose proof Hrun1 as ((? & ?) & ? & ? & Hal1).
  rewrite page_addr_to_page_phys by (by eapply run_ok_frame). rewrite <- Hz1.
  change (wp (insert_block p1 o1 (zone_of p1)) s1 Q).
  eapply wp_insert_block; [exact Hinv1|lia|lia|lia|done|auto|].
  intros s2 Hinv2 Hfree2 Hout2 Ht2 _. apply HQ.
  - eexists. split; [eapply binv_transit_iff; [|exact Hinv2]; simpl; tauto|].
    apply coalesced_insert; auto. intros i. by eapply binv_aligned.
  - split_and!; [auto| | |congruence].
    + intros j Hj Hnj. destruct (decide (in_block p1 o1 j)) as [Hb|Hb].
      * destruct (Hs2 j Hb) as [|]; [done|]. split; auto.
      * unfold is_free. by rewrite Hout2, Hpd1.
    + intros j Hj Hnj Hjf. rewrite Hout2, Hpd1; [done|]. intros Hb.
      by destruct (Hs2 j Hb).
Qed.

(** ** Initialisation *)

Definition area_empty (s : bstate) (z : zone_type) (o : Z) : Prop :=
  nodes s (FreeList z o) = ListHead (Some (FreeList z o)) (Some (FreeList z o)) ∧
  nr_free s (z, o) = 0.

Definition init_frame (s s' : bstate) : Prop :=
  page_descriptors s' = page_descriptors s ∧ total_pages s' = total_pages s ∧
  ∀ z o, area_empty s z o → area_empty s' z o.

Lemma init_frame_trans s1 s2 s3 : init_frame s1 s2 → init_frame s2 s3 → init_frame s1 s3.
Proof. intros (? & ? & ?) (? & ? & ?). split_and!; [congruence..|auto]. Qed.

Lemma wp_init_area z o s : wp (init_area z o) s (λ _ s', init_frame s s' ∧ area_empty s' z o).
Proof.
  unfold init_area. wp_steps. split; [split_and!; [done..|]|split]; simpl.
  - intros z' o' [Hn Hr]. split; simpl.
    + unfold INIT_SENTINEL. destruct (decide (FreeList z o = FreeList z' o')) as [<-|].
      * by rewrite fn_lookup_insert.
      * by rewrite fn_lookup_insert_ne.
    + destruct (decide ((z, o) = (z', o'))) as [<-|].
      * by rewrite fn_lookup_insert.
      * by rewrite fn_lookup_insert_ne.
  - unfold INIT_SENTINEL. by rewrite fn_lookup_insert.
  - by rewrite fn_lookup_insert.
Qed.

Lemma wp_init_areas zones s :
  wp (init_areas zones) s (λ _ s', init_frame s s' ∧
    ∀ z o, z ∈ zones → 0 ≤ o ≤ 10 → area_empty s' z o).
Proof.
  revert s. induction zones as [|z zones IH]; intros s; cbn [init_areas].
  { apply wp_ret. split; [done|]. set_solver. }
  wp_step. eapply wp_mono; [apply (wp_for (λ k s', init_frame s s' ∧
    ∀ o, 0 ≤ o < k → area_empty s' z o))|].
  - split; [done|]. lia.
  - intros k s1 _ [Hf He]. eapply wp_mono; [apply wp_init_area|]. intros [] s2 [Hf2 He2].
    split; [by eapply init_frame_trans|]. intros o Ho.
    destruct (decide (o = k)) as [->|]; [done|]. apply Hf2, He. lia.
  - intros [] s1 [Hf He]. eapply wp_mono; [apply IH|]. intros [] s2 [Hf2 He2].
    split; [by eapply init_frame_trans|]. intros z' o Hz Ho.
    apply elem_of_cons in Hz as [->|Hz]; [apply Hf2, He; lia|by apply He2].
Qed.

Lemma buddy_ok_set_private s i v : buddy_ok s → ¬ is_free s i →
  buddy_ok (set_descriptors <[i := set_private (page_descriptors s i) v]> s).
Proof.
  intros (fl & Hinv & Hco) Hnf. exists fl. split; [|done].
  set (s' := set_descriptors _ s).
  assert (∀ j, flags (page_descriptors s' j) = flags (page_descriptors s j)) as Hfl.
  { intros j. unfold s'. rewrite descriptors_insert. by case_decide; subst. }
  assert (∀ j, is_free s' j ↔ is_free s j) as Hfr.
  { intros j. unfold is_free, PAGE_GET_STATE. by rewrite Hfl. }
  destruct Hinv as [Hp Hl Hn Hb Hc Ht]. split; auto.
  - intros j Hj. unfold flags_ok, PAGE_GET_ZONE. rewrite Hfl. by apply Hp.
  - intros z o x Hx. eapply block_ok_frame; [|by apply Hb]. intros j Hj.
    unfold s'. rewrite descriptors_insert, decide_False; [done|]. intros ->.
    by apply Hnf, (blk_free _ _ _ _ (Hb _ _ _ Hx)).
  - intros j Hj Hf. apply Hc; [done|]. by apply Hfr.
Qed.

Lemma buddy_ok_freeze s : buddy_ok s → ∀ b,
  buddy_ok (BState (page_descriptors s) (nodes s) (nr_free s) (total_pages s) b).
Proof.
  intros (fl & [Hp Hl Hn Hb Hc Ht] & Hco) b. exists fl. split; [|done].
  split; auto. intros z o i Hi. eapply block_ok_frame; [|by apply Hb]. done.
Qed.

Lemma wp_buddy_init s (Q : unit → bstate → Prop) :
  pages_ok s → 0 ≤ total_pages s ≤ MAX_PAGES → (∀ j, 0 ≤ j < MAX_PAGES → ¬ is_free s j) →
  PAGE_GET_STATE (page_descriptors s 0) ≠ PAGE_STATE_AVAILABLE →
  (∀ s', buddy_ok s' → total_pages s' = total_pages s → boot_frozen s' = true →
     (∀ j, 0 ≤ j < MAX_PAGES → is_free s' j ↔
        j < total_pages s ∧ PAGE_GET_STATE (page_descriptors s j) = PAGE_STATE_AVAILABLE) →
     Q tt s') →
  wp buddy_init s Q.
Proof.
  intros Hp Ht Hnf H0 HQ. unfold buddy_init. wp_step. eapply wp_mono; [apply wp_init_areas|].
  intros [] s1 [(Hpd & Ht1 & _) He]. wp_step. apply wp_gets. rewrite Ht1. wp_step.
  eapply wp_mono; [apply (wp_for (λ k s', buddy_ok s' ∧ total_pages s' = total_pages s ∧
    ∀ j, 0 ≤ j < MAX_PAGES →
      (is_free s' j ↔ j < k ∧ PAGE_GET_STATE (page_descriptors s j) = PAGE_STATE_AVAILABLE) ∧
      (¬ is_free s' j → page_descriptors s' j = page_descriptors s j)))|].
  - split_and!; [|done|].
    + exists (λ _, []). split; [|by intros z o i []%elem_of_nil].
      assert (∀ z o, area_ok z o = true → area_empty s1 z o) as He'.
      { intros z o Ha. apply He; [destruct z; try set_solver; done|].
        unfold area_ok, MAX_ORDER in Ha. to_prop. lia. }
      split; [by intros j Hj; rewrite Hpd; apply Hp|..].
      * intros z o Ha. destruct (He' z o Ha) as [E _]. split; [apply NoDup_singleton|].
        simpl. by rewrite E.
      * intros z o Ha. by destruct (He' z o Ha) as [_ ->].
      * by intros z o i []%elem_of_nil.
      * intros j Hj Hf. unfold is_free in Hf. rewrite Hpd in Hf. by apply Hnf in Hf.
      * by intros z o i j []%elem_of_nil.
    + intros j Hj. unfold is_free. rewrite Hpd. split; [|done].
      split; [by intros ?%Hnf|lia].
  - intros k s2 Hk (Hok & Ht2 & Hall). rewrite Z2Nat.id in Hk by lia.
    destruct (Hall k) as [Hfk Hpk]; [lia|]. assert (¬ is_free s2 k) as Hnk by (rewrite Hfk; lia).
    wp_step. apply wp_load_page; [lia|]. rewrite Hpk by done.
    destruct (Z.eqb_spec (PAGE_GET_STATE (page_descriptors s k)) PAGE_STATE_AVAILABLE) as [Ea|Ea].
    + assert (k ≠ 0) by congruence.
      wp_step. apply wp_store_page; [lia|]. rewrite <- Hpk by done.
      destruct (buddy_ok_set_private s2 k 0 Hok Hnk) as (fl & Hinv & Hco).
      set (s3 := set_descriptors _ s2) in *.
      assert (∀ j, is_free s3 j ↔ is_free s2 j) as Hfr.
      { intros j. unfold is_free, s3. rewrite descriptors_insert. by case_decide; subst. }
      assert (∀ j, in_block k 0 j ↔ j = k) as Hb0 by (unfold in_block; simpl; lia).
      eapply (wp_buddy_free k 0); [exact Hinv|done|..].
      * split_and!; [lia..|]. apply Z.divide_1_l.
      * right. unfold s3. rewrite descriptors_insert, decide_True by done.
        rewrite <- Hpk in Ea by done. done.
      * unfold s3. by rewrite descriptors_insert, decide_True.
      * intros j ->%Hb0. by rewrite Hfr.
      * intros s4 Hok4 (Hin4 & Hout4 & Hsame4 & Ht4).
        split; [done|]. split; [rewrite Ht4; done|]. intros j Hj.
        destruct (Hall j Hj) as [Hfj Hpj]. destruct (decide (j = k)) as [->|Hne].
        { assert (is_free s4 k) by (apply Hin4, Hb0; done). split; [|done]. split; [|done].
          intros _. split; [lia|done]. }
        rewrite (Hout4 j Hj), (Hfr j) by (by rewrite Hb0). split.
        { rewrite Hfj. split; intros []; (split; [lia|done]). }
        intros Hn. rewrite Hsame4; [|done|by rewrite Hb0|by rewrite Hfr].
        unfold s3. rewrite descriptors_insert, decide_False by done. auto.
    + apply wp_ret. split_and!; [done..|]. intros j Hj. destruct (Hall j Hj) as [Hfj Hpj].
      split; [|done]. rewrite Hfj. split; intros []; (split; [|done]); [lia|].
      destruct (decide (j = k)) as [->|]; [done|lia].
  - intros [] s2 (Hok & Ht2 & Hall). unfold boot_allocator_freeze. apply wp_modify.
    rewrite Z.add_0_l, Z2Nat.id in Hall by lia. apply HQ; [|done|done|].
    + by apply buddy_ok_freeze.
    + intros j Hj. by apply Hall.
Qed.
