(* ===== verification/BuddyThm.v ===== *)
(** * The buddy allocator: what it promises to its callers

    The theorems of the external functions of src/memory/buddy.c, over every
    state that satisfies the invariant [buddy_ok]. *)

From S2P Require Import Prelude Dlist Memory Page Buddy BuddyInv BuddySpec.

(** ** Allocation *)

(** A run of frames that can serve a request of order [o] in zone [z]. *)
Definition free_run (s : bstate) (z : zone_type) (o m : Z) : Prop :=
  run_ok m o ∧ zone_of m = z ∧ ∀ j, in_block m o j → is_free s j.

(** The successful outcome of an allocation of order [o] in zone [z]. *)
Definition alloc_post (s s' : bstate) (z : zone_type) (o p : Z) : Prop :=
  buddy_ok s' ∧ free_run s z o p ∧ allocated s' p o ∧ alloc_frame s s' p o.

Lemma buddy_alloc_cases s size z : buddy_ok s → z ≠ INVALID_ZONE →
  let o := size_to_order size in
  (buddy_alloc_pages size z s = Done (0, s) ∧ ¬ ∃ m, free_run s z o m) ∨
  (∃ p s', buddy_alloc_pages size z s = Done (page_to_phys p, s') ∧ alloc_post s s' z o p).
Proof.
  intros (fl & Hinv & Hco) Hz o.
  assert (wp (buddy_alloc_pages size z) s (λ r s',
    (r = 0 ∧ s' = s ∧ ¬ ∃ m, free_run s z o m) ∨
    ∃ p, r = page_to_phys p ∧ alloc_post s s' z o p)) as Hw.
  { eapply wp_buddy_alloc; [exact Hinv|done|done|..].
    - intros Hemp. left. split_and!; [done..|]. intros (m & (Ho & Hm & Hr & Hal) & Hzm & Hf).
      destruct (free_run_in_block s fl o m) as (c & i & Hc & Hi & _); [done|done|lia..|done|done|done|].
      rewrite Hzm, Hemp in Hi by done. by apply elem_of_nil in Hi.
    - intros p s' Hrun Hzp Hok Hal Hf Hfr. right. exists p. by split. }
  apply wp_run in Hw as (r & s' & E & [(-> & -> & ?)|(p & -> & ?)]); [left|right]; eauto.
Qed.

Lemma buddy_alloc_result s size z r s1 : buddy_ok s → z ≠ INVALID_ZONE →
  buddy_alloc_pages size z s = Done (r, s1) → r ≠ 0 →
  buddy_ok s1 ∧ allocated s1 (page_addr_to_page r) (size_to_order size).
Proof.
  intros Hok Hz E Hr.
  destruct (buddy_alloc_cases s size z Hok Hz) as [[E' _]|(p & s1' & E' & Hok1 & (Hrun & _) & Hal & _)];
    rewrite E in E'; simplify_eq.
  by rewrite page_addr_to_page_phys by (by eapply run_ok_frame).
Qed.

(** C1: [buddy_alloc_pages] never panics, faults or loops from a consistent
    state.  It returns NULL and changes nothing, or it returns the address of
    a naturally aligned block of the requested order that lies in the
    requested zone and whose frames were all FREE; the block is then marked
    ALLOCATED with its order recorded, every other frame keeps its status,
    every frame in use keeps its descriptor, and the state is consistent. *)
Theorem buddy_alloc_pages_correct (s : bstate) (size : Z) (z : zone_type) :
  buddy_ok s → z ≠ INVALID_ZONE →
  ∃ r s', buddy_alloc_pages size z s = Done (r, s') ∧
    ((r = 0 ∧ s' = s) ∨
     ∃ p, r = p * PAGE_SIZE ∧ r ≠ 0 ∧ alloc_post s s' z (size_to_order size) p).
Proof.
  intros Hok Hz. destruct (buddy_alloc_cases s size z Hok Hz) as [[E _]|(p & s' & E & Hp)].
  - exists 0, s. auto.
  - exists (page_to_phys p), s'. split; [done|]. right. exists p.
    assert (run_ok p (size_to_order size)) as Hrun by apply Hp.
    rewrite page_to_phys_small by (by eapply run_ok_frame). destruct Hrun as (_ & ? & _).
    split; [done|]. split; [unfold PAGE_SIZE; lia|done].
Qed.

(** C35: the allocator is complete: it returns NULL only when the zone holds
    no aligned run of FREE frames of the requested order at all, so freed
    neighbours are always merged back. *)
Theorem buddy_alloc_pages_complete (s : bstate) (size : Z) (z : zone_type) :
  buddy_ok s → z ≠ INVALID_ZONE →
  (∃ s', buddy_alloc_pages size z s = Done (0, s')) ↔ ¬ ∃ m, free_run s z (size_to_order size) m.
Proof.
  intros Hok Hz. destruct (buddy_alloc_cases s size z Hok Hz) as [[E Hn]|(p & s' & E & Hp)].
  - split; [done|eauto].
  - destruct Hp as (_ & Hf & _). split; [|intros []; eauto]. intros [s2 E2]. exfalso.
    rewrite E in E2. destruct Hf as (Hrun & _). pose proof (run_ok_frame _ _ Hrun).
    injection E2 as E2 _. rewrite page_to_phys_small in E2 by done.
    destruct Hrun as (_ & ? & _). unfold PAGE_SIZE in E2. lia.
Qed.

(** ** Freeing *)

Lemma buddy_free_run s p o : buddy_ok s → allocated s p o →
  ∃ s', buddy_free_block (page_to_phys p) s = Done (tt, s') ∧ buddy_ok s' ∧ free_frame s s' p o.
Proof.
  intros (fl & Hinv & Hco) (Hrun & Hpr & Hst).
  assert (in_block p o p) as Hpp.
  { unfold in_block. pose proof (Z.pow_pos_nonneg 2 o). destruct Hrun. lia. }
  assert (wp (buddy_free_block (page_to_phys p)) s (λ _ s', buddy_ok s' ∧ free_frame s s' p o)) as Hw.
  { eapply wp_buddy_free; [exact Hinv|done|exact Hrun|left; by apply Hst|..].
    - by rewrite (Hpr p Hpp), decide_True.
    - intros j Hj. unfold is_free. by rewrite (Hst j Hj).
    - done. }
  apply wp_run in Hw as ([] & s' & ?). eauto.
Qed.

(** C3: freeing a block the allocator handed out succeeds: exactly its frames
    become FREE, every other frame keeps its status, every frame in use
    keeps its descriptor, and the state stays consistent and coalesced. *)
Theorem buddy_free_block_correct (s : bstate) (p o : Z) :
  buddy_ok s → allocated s p o →
  ∃ s', buddy_free_block (p * PAGE_SIZE) s = Done (tt, s') ∧ buddy_ok s' ∧ free_frame s s' p o.
Proof.
  intros Hok Hal. rewrite <- page_to_phys_small; [by apply buddy_free_run|].
  eapply run_ok_frame, Hal.
Qed.

(** Allocating a block and freeing it again gives back exactly the free
    frames there were, whatever was split and merged on the way. *)
Theorem buddy_alloc_free_roundtrip (s : bstate) (size : Z) (z : zone_type) (r : Z) (s1 : bstate) :
  buddy_ok s → z ≠ INVALID_ZONE → buddy_alloc_pages size z s = Done (r, s1) → r ≠ 0 →
  ∃ s2, buddy_free_block r s1 = Done (tt, s2) ∧ buddy_ok s2 ∧
    (∀ j, 0 ≤ j < MAX_PAGES → is_free s2 j ↔ is_free s j) ∧
    (∀ j, 0 ≤ j < MAX_PAGES → ¬ is_free s j → page_descriptors s2 j = page_descriptors s j).
Proof.
  intros Hok Hz E Hr.
  destruct (buddy_alloc_cases s size z Hok Hz) as [[E' _]|(p & s1' & E' & Hok1 & Hf & Hal & Hfr)];
    rewrite E in E'; simplify_eq.
  destruct (buddy_free_run s1' p _ Hok1 Hal) as (s2 & E2 & Hok2 & Hin & Hout & Hsame & _).
  destruct Hf as (Hrun & Hzp & Hff), Hfr as (Ho1 & Hs1 & _).
  exists s2. split_and!; [done|done|..].
  - intros j Hj. destruct (decide (in_block p (size_to_order size) j)) as [Hb|Hb].
    + split; intros _; auto.
    + rewrite Hout by done. by apply Ho1.
  - intros j Hj Hn. assert (¬ in_block p (size_to_order size) j) by (intros ?; by apply Hn, Hff).
    rewrite Hsame, Hs1; [done..|]. by rewrite Ho1.
Qed.

(** ** Misuse *)

Lemma load_page_in i s : 0 ≤ i < MAX_PAGES → load_page i s = Done (page_descriptors s i, s).
Proof.
  intros Hi. unfold load_page.
  rewrite (proj2 (Z.leb_le 0 i)), (proj2 (Z.ltb_lt i MAX_PAGES)) by lia. done.
Qed.

Lemma buddy_free_double s i : 0 ≤ i < MAX_PAGES → is_free s i →
  buddy_free_block (page_to_phys i) s = Panic "Double free detected".
Proof.
  intros Hi Hf. unfold buddy_free_block. rewrite page_addr_to_page_phys by done.
  unfold mbind, M_bind. rewrite load_page_in by done. by rewrite Hf.
Qed.

(** Misuse is caught.  After a block is freed, freeing any address of it
    again panics with "Double free detected"; freeing a frame in the middle
    of an allocated block, whose [private_data] is the page magic, panics
    with "Incorrect block order"; freeing a reserved, unusable or slab frame
    panics with an invalid-state message.  None of them touches the lists. *)
Theorem buddy_free_misuse (s : bstate) (p o j : Z) :
  buddy_ok s → allocated s p o → in_block p o j →
  (∃ s', buddy_free_block (page_to_phys p) s = Done (tt, s') ∧
         buddy_free_block (page_to_phys j) s' = Panic "Double free detected") ∧
  (j ≠ p →
     buddy_free_block (page_to_phys j) s = Panic "Incorrect block order") ∧
  (∀ i, 0 ≤ i < MAX_PAGES →
     PAGE_GET_STATE (page_descriptors s i) ∈
       [PAGE_STATE_UNUSABLE; PAGE_STATE_RESERVED; PAGE_STATE_SLAB] →
     buddy_free_block (page_to_phys i) s = Panic "Attempt to free a page with invalid state").
Proof.
  intros Hok Hal Hj. assert (0 ≤ j < MAX_PAGES) as Hjr.
  { destruct Hal as [(? & ? & ? & _) _]. unfold in_block in Hj. lia. }
  split_and!.
  - destruct (buddy_free_run s p o Hok Hal) as (s' & E & _ & Hin & _).
    exists s'. split; [done|]. by apply buddy_free_double, Hin.
  - intros Hne. unfold buddy_free_block. rewrite page_addr_to_page_phys by done.
    unfold mbind, M_bind. rewrite load_page_in by done.
    destruct Hal as (_ & Hpr & Hst). by rewrite (Hst j Hj), (Hpr j Hj), decide_False.
  - intros i Hi Hst. unfold buddy_free_block. rewrite page_addr_to_page_phys by done.
    unfold mbind, M_bind. rewrite load_page_in by done.
    repeat (apply elem_of_cons in Hst as [->|Hst]; [done|]). by apply elem_of_nil in Hst.
Qed.

(** ** Initialisation *)

(** From the descriptor array [page_descriptor_init] builds (no frame is
    FREE yet and frame 0 is not available, as the boot allocator keeps it),
    [buddy_init] terminates without panicking, freezes the boot allocator
    and establishes the invariant with exactly the AVAILABLE frames below
    [total_pages] on the free lists. *)
Theorem buddy_init_correct (s : bstate) (free_reg res_reg : zone_type → list region) :
  page_descriptors s = page_descriptor_init free_reg res_reg →
  0 ≤ total_pages s ≤ MAX_PAGES →
  page_get_state_flag free_reg res_reg 0 ≠ PAGE_STATE_AVAILABLE →
  ∃ s', buddy_init s = Done (tt, s') ∧ buddy_ok s' ∧ boot_frozen s' = true ∧
    total_pages s' = total_pages s ∧
    ∀ j, 0 ≤ j < MAX_PAGES → is_free s' j ↔
      j < total_pages s ∧
      page_get_state_flag free_reg res_reg (j * PAGE_SIZE) = PAGE_STATE_AVAILABLE.
Proof.
  intros Hpd Ht H0.
  assert (∀ j, 0 ≤ j < MAX_PAGES → PAGE_GET_STATE (page_descriptors s j)
    = page_get_state_flag free_reg res_reg (j * PAGE_SIZE)) as Hst.
  { intros j Hj. rewrite Hpd. by apply page_descriptor_init_flags. }
  assert (wp buddy_init s (λ _ s', buddy_ok s' ∧ boot_frozen s' = true ∧
    total_pages s' = total_pages s ∧ ∀ j, 0 ≤ j < MAX_PAGES → is_free s' j ↔
      j < total_pages s ∧
      page_get_state_flag free_reg res_reg (j * PAGE_SIZE) = PAGE_STATE_AVAILABLE)) as Hw.
  { apply wp_buddy_init; [|done|..].
    - intros j Hj. rewrite Hpd. split; by apply page_descriptor_init_flags.
    - intros j Hj. unfold is_free. rewrite Hst by done. apply page_get_state_flag_not_free.
    - rewrite Hst by (unfold MAX_PAGES; lia). done.
    - intros s' ? ? ? Hf. split_and!; [done..|]. intros j Hj. by rewrite Hf, Hst. }
  apply wp_run in Hw as ([] & s' & E & Hw). eauto.
Qed.

(** ** Sequences of calls *)

(** A client of the allocator: it allocates, and it frees blocks it holds
    ([BFree k] frees the [k]-th block it holds, if there is one). *)
Inductive bop := BAlloc (size : Z) (z : zone_type) | BFree (k : nat).

Definition bop_ok (op : bop) : Prop :=
  match op with BAlloc _ z => z ≠ INVALID_ZONE | BFree _ => True end.

Definition run_op (op : bop) (sl : bstate * list (Z * Z)) : outcome (bstate * list (Z * Z)) :=
  let '(s, live) := sl in
  match op with
  | BAlloc size z =>
      obind (buddy_alloc_pages size z s) (λ '(r, s'),
        Done (s', if r =? 0 then live else (page_addr_to_page r, size_to_order size) :: live))
  | BFree k =>
      match live !! k with
      | None => Done (s, live)
      | Some (p, _) =>
          obind (buddy_free_block (page_to_phys p) s) (λ '(_, s'), Done (s', delete k live))
      end
  end.

Fixpoint run_ops (ops : list bop) (sl : bstate * list (Z * Z)) : outcome (bstate * list (Z * Z)) :=
  match ops with
  | [] => Done sl
  | op :: ops => obind (run_op op sl) (run_ops ops)
  end.

Definition in_live (live : list (Z * Z)) (j : Z) : Prop :=
  ∃ k p o, live !! k = Some (p, o) ∧ in_block p o j.

(** The frames free at [s0] are those free at [s] and those of the live
    blocks, and the live blocks are pairwise disjoint allocated blocks. *)
Record trace_inv (s0 s : bstate) (live : list (Z * Z)) : Prop := {
  ti_ok : buddy_ok s;
  ti_alloc : ∀ k p o, live !! k = Some (p, o) → allocated s p o;
  ti_disjoint : ∀ k k' p o p' o' j, live !! k = Some (p, o) → live !! k' = Some (p', o') →
    in_block p o j → in_block p' o' j → k = k';
  ti_frames : ∀ j, 0 ≤ j < MAX_PAGES → is_free s0 j ↔ is_free s j ∨ in_live live j }.

Lemma allocated_not_free s p o j : allocated s p o → in_block p o j →
  0 ≤ j < MAX_PAGES ∧ ¬ is_free s j.
Proof.
  intros ((? & ? & ? & _) & _ & Hst) Hj. unfold is_free. rewrite (Hst j Hj).
  unfold in_block in Hj. split; [lia|done].
Qed.

(** An allocated block survives every operation that keeps its descriptors. *)
Lemma allocated_frame s s' p o : allocated s p o →
  (∀ j, in_block p o j → page_descriptors s' j = page_descriptors s j) → allocated s' p o.
Proof.
  intros (Hrun & Hpr & Hst) Hsame. split_and!; [done|..]; intros j Hj; rewrite Hsame; auto.
Qed.

Lemma trace_alloc s0 s live s' z o p : trace_inv s0 s live → alloc_post s s' z o p →
  trace_inv s0 s' ((p, o) :: live).
Proof.
  intros [Hok Hal Hd Hf] (Hok' & (Hrun & _ & Hff) & Hal' & (Hout & Hsame & _)). split; [done|..].
  - intros [|k] p' o'; simpl; [by intros [= <- <-]|]. intros Hk.
    eapply allocated_frame; [by eapply Hal|]. intros j Hj.
    destruct (allocated_not_free s p' o' j); eauto.
  - assert (∀ k p' o' j, live !! k = Some (p', o') → in_block p o j → ¬ in_block p' o' j) as Hne.
    { intros k p' o' j Hk Hj Hj'. destruct (allocated_not_free s p' o' j); eauto. }
    intros [|k] [|k'] p1 o1 p2 o2 j; simpl; intros H1 H2 H3 H4; simplify_eq; [done|..].
    + by destruct (Hne k' p2 o2 j).
    + by destruct (Hne k p1 o1 j).
    + f_equal. eauto.
  - intros j Hj. rewrite Hf by done. destruct (decide (in_block p o j)) as [Hb|Hb].
    + split; intros _; [right; by exists 0%nat, p, o|left; auto].
    + rewrite Hout by done. split; (intros [|(k & p' & o' & Hk & Hb')]; [by left|right]).
      * by exists (S k), p', o'.
      * destruct k as [|k]; simpl in Hk; [by simplify_eq|]. by exists k, p', o'.
Qed.

Lemma trace_free s0 s live s' k p o : trace_inv s0 s live → live !! k = Some (p, o) →
  buddy_ok s' → free_frame s s' p o → trace_inv s0 s' (delete k live).
Proof.
  intros [Hok Hal Hd Hf] Hk Hok' (Hin & Hout & Hsame & _).
  assert (∀ k', ∃ k2, k2 ≠ k ∧ ∀ x, delete k live !! k' = Some x → live !! k2 = Some x) as Hdel.
  { intros k'. destruct (decide (k' < k)%nat).
    - exists k'. split; [lia|]. intros x. by rewrite list_lookup_delete_lt.
    - exists (S k'). split; [lia|]. intros x. by rewrite list_lookup_delete_ge by lia. }
  assert (∀ k2, k2 ≠ k → ∃ k', delete k live !! k' = live !! k2) as Hdel2.
  { intros k2 Hne. destruct (decide (k2 < k)%nat).
    - exists k2. by rewrite list_lookup_delete_lt.
    - exists (k2 - 1)%nat. rewrite list_lookup_delete_ge by lia. f_equal. lia. }
  split; [done|..].
  - intros k' p' o' Hk'. destruct (Hdel k') as (k2 & Hne & H2). apply H2 in Hk'.
    eapply allocated_frame; [by eapply Hal|]. intros j Hj.
    destruct (allocated_not_free s p' o' j) as [? ?]; eauto.
  - intros k1 k2 p1 o1 p2 o2 j H1 H2 Hj1 Hj2.
    destruct (decide (k1 < k)%nat) as [l1|l1], (decide (k2 < k)%nat) as [l2|l2];
      rewrite ?list_lookup_delete_lt in H1 by lia; rewrite ?list_lookup_delete_lt in H2 by lia;
      rewrite ?list_lookup_delete_ge in H1 by lia; rewrite ?list_lookup_delete_ge in H2 by lia;
      pose proof (Hd _ _ _ _ _ _ _ H1 H2 Hj1 Hj2); lia.
  - intros j Hj. rewrite Hf by done. destruct (decide (in_block p o j)) as [Hb|Hb].
    + split; intros _; [left; auto|right; by exists k, p, o].
    + rewrite (Hout j Hj Hb). split; (intros [|(k1 & p1 & o1 & H1 & Hb1)]; [by left|right]).
      * destruct (Hdel2 k1) as [k' E]; [congruence|]. exists k', p1, o1. by rewrite E.
      * destruct (Hdel k1) as (k2 & _ & E). exists k2, p1, o1. auto.
Qed.

Lemma run_op_inv s0 s live op : trace_inv s0 s live → bop_ok op →
  ∃ s' live', run_op op (s, live) = Done (s', live') ∧ trace_inv s0 s' live'.
Proof.
  intros Hinv Hop. destruct op as [size z|k]; simpl.
  - destruct (buddy_alloc_cases s size z (ti_ok _ _ _ Hinv) Hop) as [[-> _]|(p & s' & -> & Hp)].
    + by exists s, live.
    + cbn [obind]. assert (run_ok p (size_to_order size)) as Hrun by apply Hp.
      pose proof (run_ok_frame _ _ Hrun). rewrite page_addr_to_page_phys by done.
      rewrite page_to_phys_small by done. destruct Hrun as (_ & ? & _).
      rewrite (proj2 (Z.eqb_neq _ 0)) by (unfold PAGE_SIZE; lia).
      do 2 eexists. split; [done|]. by eapply trace_alloc.
  - destruct (live !! k) as [[p o]|] eqn:Hk; [|by exists s, live].
    destruct (buddy_free_run s p o) as (s' & -> & Hok & Hfr);
      [apply Hinv|by eapply ti_alloc|]. simpl.
    do 2 eexists. split; [done|]. by eapply trace_free.
Qed.

(** C2: for every sequence of allocations and of frees of blocks the client
    holds, started in a consistent state, the allocator runs to the end
    without a panic; the blocks the client holds are pairwise disjoint
    allocated blocks, and the frames that were free at the start are exactly
    the frames still free plus the frames of the blocks held: no frame is
    ever lost, duplicated or handed out twice. *)
Theorem buddy_run_ops_safe (ops : list bop) (s0 : bstate) :
  buddy_ok s0 → Forall bop_ok ops →
  ∃ s live, run_ops ops (s0, []) = Done (s, live) ∧ trace_inv s0 s live.
Proof.
  intros Hok Hops.
  assert (trace_inv s0 s0 []) as Hinit.
  { split; [done|..]; try by intros [|?]. intros j Hj. split; [by left|].
    intros [|(k & p & o & Hk & _)]; [done|]. by destruct k. }
  revert Hinit Hops. generalize (@nil (Z * Z)) as live. generalize s0 at 2 3 as s.
  induction ops as [|op ops IH]; intros s live Hinv Hops; [by exists s, live|].
  cbn [run_ops]. apply Forall_cons in Hops as [Hop Hops].
  destruct (run_op_inv s0 s live op) as (s' & live' & -> & Hinv'); [done..|]. by apply IH.
Qed.

(** ** Orders *)

(** For every size up to [2^32 - 4096] bytes, [size_to_order] returns
    the least order whose block holds the size, and [BAD_ORDER] exactly when
    no block (4 MiB at most) does. *)
Theorem size_to_order_least (size : Z) :
  0 ≤ size → size ≤ W32 - PAGE_SIZE →
  let r := size_to_order size in
  0 ≤ r ≤ BAD_ORDER ∧
  (r = BAD_ORDER ↔ ORDER_TO_BYTES MAX_ORDER < size) ∧
  (r ≤ MAX_ORDER → size ≤ ORDER_TO_BYTES r) ∧
  ∀ o, 0 ≤ o < r → o ≤ MAX_ORDER → ORDER_TO_BYTES o < size.
Proof.
  intros H0 Hs r. unfold r, BAD_ORDER, MAX_ORDER, size_to_order.
  destruct (size_to_order_loop_spec 11 0 (DIV_ROUND_UP size PAGE_SIZE)) as (Hr & Hle & Hlt);
    [lia..|]. set (x := size_to_order_loop _ _ _) in *.
  assert (DIV_ROUND_UP size PAGE_SIZE = (size + 4095) / 4096) as E.
  { unfold DIV_ROUND_UP, PAGE_SIZE in *. unfold u32, W32 in *.
    destruct (decide (size = 4294967296 - 4096)) as [->|]; [done|].
    rewrite (Z.mod_small (size + 4096)), Z.mod_small by lia. f_equal. lia. }
  rewrite E in *. pose proof (Z.div_mod (size + 4095) 4096 ltac:(done)).
  pose proof (Z.mod_pos_bound (size + 4095) 4096 ltac:(done)).
  assert (∀ o, 0 ≤ o < x → o ≤ 10 → ORDER_TO_BYTES o < size) as Hall.
  { intros o Ho Ho'. rewrite ORDER_TO_BYTES_pow2 by lia. unfold PAGE_SIZE.
    assert (2 ^ o ≤ 2 ^ (x - 1)) by (apply Z.pow_le_mono_r; lia). lia. }
  assert (x ≤ 10 → size ≤ ORDER_TO_BYTES x) as Hx.
  { intros Hx. rewrite ORDER_TO_BYTES_pow2 by lia. unfold PAGE_SIZE. specialize (Hle Hx). lia. }
  split_and!; [lia|lia| |done|done]. split; [intros ->; apply Hall; lia|].
  intros Hbig. destruct (decide (x ≤ 10)); [|lia]. specialize (Hx ltac:(done)).
  rewrite ORDER_TO_BYTES_pow2 in Hx, Hbig by lia. unfold PAGE_SIZE in *.
  assert (2 ^ x ≤ 2 ^ 10) by (apply Z.pow_le_mono_r; lia). lia.
Qed.

(** Above that bound the round-up in [DIV_ROUND_UP] wraps around and the
    request is served as if it were for a single frame: [size_to_order]
    returns order 0 instead of [BAD_ORDER] for the last 4095 sizes. *)
Theorem size_to_order_wraps (size : Z) :
  W32 - PAGE_SIZE < size < W32 → size_to_order size = 0.
Proof.
  unfold PAGE_SIZE. intros Hs. unfold size_to_order.
  assert (DIV_ROUND_UP size PAGE_SIZE = 0) as ->; [|done].
  unfold DIV_ROUND_UP, PAGE_SIZE, u32. unfold W32 in *.
  assert ((size + 4096) mod 4294967296 = size + 4096 - 4294967296) as ->.
  { symmetry. apply (Z.mod_unique _ _ 1); lia. }
  rewrite Z.mod_small by lia. apply Z.div_small. lia.
Qed.

Lemma buddy_bounds p o : run_ok p o → o < MAX_ORDER →
  ∃ m, (2 ^ (o + 1) | m) ∧ 0 ≤ buddy_of p o < MAX_PAGES ∧ zone_of (buddy_of p o) = zone_of p ∧
    ((p = m ∧ buddy_of p o = m + 2 ^ o) ∨ (p = m + 2 ^ o ∧ buddy_of p o = m)).
Proof.
  intros (Ho & Hp & Hr & Hal) Hlt. unfold MAX_ORDER in Hlt.
  pose proof (Z.pow_pos_nonneg 2 o ltac:(lia) ltac:(lia)) as Hpos.
  assert (2 ^ (o + 1) = 2 ^ o + 2 ^ o) as Hpow by (rewrite Z.pow_add_r; lia).
  destruct (buddy_cases p o) as (m & Hm & Hcase); [lia|done|].
  assert (0 ≤ m) as Hm0.
  { destruct Hm as [k ->]. rewrite Hpow in *. clear - Hcase Hp Hpos. set (w := 2 ^ o) in *.
    assert (0 ≤ k) by (destruct Hcase as [[E _]|[E _]]; nia). nia. }
  assert (m + 2 ^ (o + 1) ≤ MAX_PAGES) by (apply aligned_range; [lia|done|lia]).
  exists m. split_and!; [done|lia|lia| |done].
  transitivity (zone_of m); [|symmetry]; apply (zone_of_block m (o + 1));
    (lia || done || unfold in_block; lia).
Qed.

(** The buddy of an aligned block of order below [MAX_ORDER] is the other
    half of the aligned block of the next order: it is computed without
    wrap-around, it never leaves the zone, and the buddy of the buddy is the
    block itself. *)
Theorem buddy_address_correct (p o : Z) : run_ok p o → o < MAX_ORDER →
  let base := zone_base (zone_of p) * PAGE_SIZE in
  ∃ b m, WHO_IS_MY_BUDDY (p * PAGE_SIZE) o base = b * PAGE_SIZE ∧
    0 ≤ b < MAX_PAGES ∧ zone_of b = zone_of p ∧ (2 ^ (o + 1) | m) ∧
    ((p = m ∧ b = m + 2 ^ o) ∨ (p = m + 2 ^ o ∧ b = m)) ∧
    WHO_IS_MY_BUDDY (b * PAGE_SIZE) o base = p * PAGE_SIZE.
Proof.
  intros Hrun Hlt base. destruct (buddy_bounds p o Hrun Hlt) as (m & Hm & Hb & Hz & Hc).
  pose proof (run_ok_frame _ _ Hrun) as Hp. destruct Hrun as (Ho & _ & _ & Hal).
  unfold MAX_ORDER in Hlt. exists (buddy_of p o), m. unfold base.
  rewrite <- (page_to_phys_small p), <- (page_to_phys_small (buddy_of p o)) by done.
  rewrite WHO_IS_MY_BUDDY_spec by (done || lia).
  split_and!; [done|lia|lia|done|done|done|].
  rewrite <- Hz, WHO_IS_MY_BUDDY_spec by (lia || apply buddy_of_aligned; (lia || done)).
  by rewrite buddy_of_involutive by (lia || done).
Qed.

(** ** Accounting *)

(** The frames of zone [z] marked FREE. *)
Definition free_frames (s : bstate) (z : zone_type) : list Z :=
  filter (λ j, PAGE_GET_STATE (page_descriptors s j) = PAGE_STATE_FREE ∧ zone_of j = z)
    (seqZ 0 MAX_PAGES).

Lemma elem_of_free_frames s z j :
  j ∈ free_frames s z ↔ (is_free s j ∧ zone_of j = z) ∧ 0 ≤ j < MAX_PAGES.
Proof. unfold free_frames. by rewrite list_elem_of_filter, elem_of_seqZ. Qed.

Lemma NoDup_free_frames s z : NoDup (free_frames s z).
Proof. apply NoDup_filter, NoDup_seqZ. Qed.

#[local] Opaque free_frames.

(** The frames of the free blocks of zone [z], order by order. *)
Definition block_frames_of (fl : freelists) (z : zone_type) (o : Z) : list Z :=
  fl (z, o) ≫= λ i, seqZ i (2 ^ o).

Lemma elem_of_block_frames_of fl z o j :
  j ∈ block_frames_of fl z o ↔ ∃ i, i ∈ fl (z, o) ∧ in_block i o j.
Proof.
  unfold block_frames_of. rewrite list_elem_of_bind. setoid_rewrite elem_of_seqZ.
  unfold in_block. naive_solver.
Qed.

Section Accounting.
Context (s : bstate) (fl : freelists) (Hinv : binv s fl (λ _, False)).

Lemma block_frames_of_NoDup z o : NoDup (fl (z, o)) → NoDup (block_frames_of fl z o).
Proof.
  unfold block_frames_of. intros Hnd. apply NoDup_bind; [|intros; apply NoDup_seqZ|done].
  intros i i' j Hi Hi' Hj Hj'. apply elem_of_seqZ in Hj, Hj'.
  by destruct (block_overlap s fl _ Hinv z o i z o i' j) as (_ & _ & ->).
Qed.

Lemma block_frames_of_length z o :
  length (block_frames_of fl z o) = (length (fl (z, o)) * Z.to_nat (2 ^ o))%nat.
Proof.
  unfold block_frames_of. induction (fl (z, o)) as [|i l IH]; [done|].
  rewrite bind_cons, length_app, IH, length_seqZ. simpl. lia.
Qed.

(** The first [n] orders of a zone laid end to end. *)
Definition orders_frames (z : zone_type) (n : nat) : list Z :=
  seqZ 0 (Z.of_nat n) ≫= block_frames_of fl z.

Lemma orders_frames_NoDup z n : (n ≤ 11)%nat → z ≠ INVALID_ZONE → NoDup (orders_frames z n).
Proof.
  intros Hn Hz. apply NoDup_bind; [| |apply NoDup_seqZ].
  - intros o o' j _ _ (i & Hi & Hj)%elem_of_block_frames_of (i' & Hi' & Hj')%elem_of_block_frames_of.
    by destruct (block_overlap s fl _ Hinv z o i z o' i' j) as (_ & -> & _).
  - intros o Ho%elem_of_seqZ. apply block_frames_of_NoDup.
    destruct (bi_list _ _ _ Hinv z o) as [Hnd _]; [by apply area_ok_zone; [|lia]|].
    by apply NoDup_cons in Hnd as [_ ?%NoDup_fmap_1].
Qed.

Lemma orders_frames_free z : z ≠ INVALID_ZONE → orders_frames z 11 ≡ₚ free_frames s z.
Proof.
  intros Hz. apply NoDup_Permutation.
  - by apply orders_frames_NoDup.
  - apply NoDup_free_frames.
  - intros j. unfold orders_frames. rewrite elem_of_free_frames, list_elem_of_bind. split.
    + intros (o & (i & Hi & Hj)%elem_of_block_frames_of & _).
      pose proof (block_frames s fl _ Hinv _ _ _ _ Hi Hj).
      pose proof (bi_block _ _ _ Hinv _ _ _ Hi) as [? _ _ Hal Hzi Hf _].
      split_and!; [by apply Hf| |lia|lia]. by rewrite (zone_of_block i o j).
    + intros [[Hf Hzj] Hj]. destruct (bi_cover _ _ _ Hinv j) as [[]|(z' & o & i & Hi & Hb)];
        [lia|done|].
      pose proof (bi_block _ _ _ Hinv _ _ _ Hi) as [? _ _ Hal Hzi _ _].
      exists o. rewrite elem_of_seqZ. split; [|lia]. apply elem_of_block_frames_of.
      exists i. split; [|done]. by rewrite (zone_of_block i o j), Hzi in Hzj by done; subst.
Qed.

Lemma orders_frames_S z n : orders_frames z (S n) = orders_frames z n ++ block_frames_of fl z (Z.of_nat n).
Proof.
  unfold orders_frames. replace (Z.of_nat (S n)) with (Z.of_nat n + 1) by lia.
  rewrite seqZ_app by lia. rewrite bind_app. simpl. by rewrite app_nil_r.
Qed.

Lemma free_frames_bound z : z ≠ INVALID_ZONE → Z.of_nat (length (free_frames s z)) < MAX_PAGES.
Proof.
  intros Hz. pose proof (NoDup_free_frames s z) as Hnd.
  destruct (decide (z = HIGHMEM_ZONE)) as [->|Hn].
  - apply (Z.le_lt_trans _ (MAX_PAGES - 229376)); [|unfold MAX_PAGES; lia].
    apply (NoDup_range_length _ 229376); [unfold MAX_PAGES; lia|done|].
    intros j [[_ Hj] Hr]%elem_of_free_frames.
    rewrite zone_of_unfold in Hj. repeat case_decide; simplify_eq. lia.
  - apply (Z.le_lt_trans _ 229376); [|unfold MAX_PAGES; lia].
    apply (NoDup_range_length _ 0); [lia|done|].
    intros j [[_ Hj] Hr]%elem_of_free_frames.
    rewrite zone_of_unfold in Hj. repeat case_decide; simplify_eq; lia.
Qed.

Lemma wp_buddy_print_loop z n k : z ≠ INVALID_ZONE → (k + n = 11)%nat →
  wp (buddy_print_loop n (Z.of_nat k) z (Z.of_nat (length (orders_frames z k)) * PAGE_SIZE)) s
    (λ r s', s' = s ∧ r = Z.of_nat (length (free_frames s z)) * PAGE_SIZE).
Proof.
  intros Hz. revert k. induction n as [|n IH]; intros k Hk; cbn [buddy_print_loop].
  - apply wp_ret. split; [done|]. replace k with 11%nat by lia.
    by rewrite (Permutation_length (orders_frames_free z Hz)).
  - wp_step. unfold order_to_nrFree. wp_step.
    assert (area_ok z (Z.of_nat k) = true) as Ha by (apply area_ok_zone; [done|lia]).
    apply wp_check_area; [done|]. apply wp_gets. rewrite (bi_nr _ _ _ Hinv) by done.
    specialize (IH (S k) ltac:(lia)). replace (Z.of_nat (S k)) with (Z.of_nat k + 1) in IH by lia.
    match goal with |- wp (buddy_print_loop _ _ _ ?t) _ _ =>
      replace t with (Z.of_nat (length (orders_frames z (S k))) * PAGE_SIZE); [done|] end.
    assert (Z.of_nat (length (orders_frames z (S k))) < MAX_PAGES) as Hb.
    { eapply Z.le_lt_trans; [|apply (free_frames_bound z Hz)].
      rewrite <- (Permutation_length (orders_frames_free z Hz)).
      apply inj_le, submseteq_length, NoDup_submseteq; [apply orders_frames_NoDup; [lia|done]|].
      intros j. unfold orders_frames. rewrite !list_elem_of_bind.
      intros (o & Ho & Hj%elem_of_seqZ). exists o. rewrite elem_of_seqZ. split; [done|lia]. }
    rewrite orders_frames_S, length_app, block_frames_of_length in *.
    rewrite ORDER_TO_BYTES_pow2 by lia. pose proof (Z.pow_pos_nonneg 2 (Z.of_nat k) ltac:(lia) ltac:(lia)).
    rewrite Nat2Z.inj_add, Nat2Z.inj_mul, Z2Nat.id in * by lia.
    set (x := Z.of_nat (length (fl (z, Z.of_nat k)))) in *.
    set (y := Z.of_nat (length (orders_frames z k))) in *.
    assert (0 ≤ x) by lia. assert (0 ≤ y) by lia. unfold PAGE_SIZE, MAX_PAGES, W32 in *.
    destruct (Z.ltb_spec 0 x); [|nia].
    rewrite (u32_small (x * _)) by (unfold W32; nia). rewrite u32_small by (unfold W32; nia). lia.
Qed.

End Accounting.

(** [buddy_print] returns the number of bytes in the FREE frames of the
    zone: the counters, the lists and the descriptors agree, and the sum
    does not wrap. *)
Theorem buddy_print_counts_free (s : bstate) (z : zone_type) :
  buddy_ok s → z ≠ INVALID_ZONE →
  buddy_print z s = Done (Z.of_nat (length (free_frames s z)) * PAGE_SIZE, s).
Proof.
  intros (fl & Hinv & _) Hz.
  pose proof (wp_buddy_print_loop s fl Hinv z 11 0 Hz eq_refl) as Hw.
  apply wp_run in Hw as (r & s' & E & -> & ->). exact E.
Qed.

(** ** The theorems at work on a machine of eight frames *)

Definition DMA_regions (r : region) (z : zone_type) : list region :=
  if bool_decide (z = DMA_ZONE) then [r] else [].

(** The state [buddy_init] builds from [boot_state]. *)
Definition booted : bstate :=
  final_state buddy_init boot_state.

(** ... and the state after one frame was allocated. *)
Definition booted1 : bstate :=
  final_state (buddy_alloc_pages 4096 DMA_ZONE) booted.

Lemma booted_ok : buddy_ok booted.
Proof.
  unfold booted. apply (wp_final _ _ buddy_ok), wp_buddy_init; [|done|..|auto].
  - intros j Hj. split; by apply page_descriptor_init_flags.
  - intros j Hj. unfold is_free. cbn [boot_state page_descriptors].
    rewrite (proj1 (proj2 (page_descriptor_init_flags _ _ j Hj))).
    apply page_get_state_flag_not_free.
  - vm_compute. discriminate.
Qed.

Lemma booted_alloc : buddy_alloc_pages 4096 DMA_ZONE booted = Done (24576, booted1).
Proof.
  unfold booted1. apply run_final. vm_compute. reflexivity.
Qed.

Lemma booted1_allocated : buddy_ok booted1 ∧ allocated booted1 6 0.
Proof.
  change 6 with (page_addr_to_page 24576). change 0 with (size_to_order 4096).
  apply (buddy_alloc_result booted _ DMA_ZONE); [exact booted_ok|discriminate| |discriminate].
  exact booted_alloc.
Qed.

Lemma buddy_alloc_pages_correct_witness :
  ∃ r s', buddy_alloc_pages 4096 DMA_ZONE booted = Done (r, s') ∧
    ((r = 0 ∧ s' = booted) ∨
     ∃ p, r = p * PAGE_SIZE ∧ r ≠ 0 ∧ alloc_post booted s' DMA_ZONE (size_to_order 4096) p).
Proof. apply (buddy_alloc_pages_correct booted 4096 DMA_ZONE booted_ok). discriminate. Defined.

Lemma buddy_alloc_pages_complete_witness :
  (∃ s', buddy_alloc_pages 4194304 DMA_ZONE booted = Done (0, s')) ↔
  ¬ ∃ m, free_run booted DMA_ZONE (size_to_order 4194304) m.
Proof. apply (buddy_alloc_pages_complete booted 4194304 DMA_ZONE booted_ok). discriminate. Defined.

Lemma buddy_free_block_correct_witness :
  ∃ s', buddy_free_block (6 * PAGE_SIZE) booted1 = Done (tt, s') ∧ buddy_ok s' ∧
    free_frame booted1 s' 6 0.
Proof.
  apply (buddy_free_block_correct booted1 6 0);
    [exact (proj1 booted1_allocated)|exact (proj2 booted1_allocated)].
Defined.

Lemma buddy_alloc_free_roundtrip_witness :
  ∃ s2, buddy_free_block 24576 booted1 = Done (tt, s2) ∧ buddy_ok s2 ∧
    (∀ j, 0 ≤ j < MAX_PAGES → is_free s2 j ↔ is_free booted j) ∧
    (∀ j, 0 ≤ j < MAX_PAGES → ¬ is_free booted j →
       page_descriptors s2 j = page_descriptors booted j).
Proof.
  apply (buddy_alloc_free_roundtrip booted 4096 DMA_ZONE 24576 booted1 booted_ok);
    [discriminate|exact booted_alloc|discriminate].
Defined.

Lemma buddy_free_misuse_witness :
  ∃ s', buddy_free_block (page_to_phys 6) booted1 = Done (tt, s') ∧
        buddy_free_block (page_to_phys 6) s' = Panic "Double free detected".
Proof.
  apply (buddy_free_misuse booted1 6 0 6);
    [exact (proj1 booted1_allocated)|exact (proj2 booted1_allocated)|].
  unfold in_block. lia.
Defined.

Lemma buddy_init_correct_witness :
  ∃ s', buddy_init boot_state = Done (tt, s') ∧ buddy_ok s' ∧ boot_frozen s' = true ∧
    total_pages s' = total_pages boot_state ∧
    ∀ j, 0 ≤ j < MAX_PAGES → is_free s' j ↔
      j < total_pages boot_state ∧
      page_get_state_flag (DMA_regions (Region 4096 28672)) (DMA_regions (Region 0 4096))
        (j * PAGE_SIZE) = PAGE_STATE_AVAILABLE.
Proof.
  apply (buddy_init_correct boot_state (DMA_regions (Region 4096 28672))
           (DMA_regions (Region 0 4096)));
    [reflexivity|split; discriminate|vm_compute; discriminate].
Defined.

Lemma buddy_run_ops_safe_witness :
  ∃ s live, run_ops [BAlloc 4096 DMA_ZONE; BAlloc 8192 DMA_ZONE; BFree 1; BFree 0] (booted, [])
    = Done (s, live) ∧ trace_inv booted s live.
Proof.
  apply (buddy_run_ops_safe [BAlloc 4096 DMA_ZONE; BAlloc 8192 DMA_ZONE; BFree 1; BFree 0]
           booted booted_ok).
  repeat constructor; discriminate.
Defined.

Lemma size_to_order_least_witness : 4097 ≤ ORDER_TO_BYTES (size_to_order 4097).
Proof. apply (size_to_order_least 4097); vm_compute; discriminate. Defined.

Lemma size_to_order_wraps_witness : size_to_order 4294967295 = 0.
Proof. apply (size_to_order_wraps 4294967295). split; reflexivity. Defined.

Lemma buddy_address_correct_witness :
  ∃ b m, WHO_IS_MY_BUDDY (6 * PAGE_SIZE) 1 (zone_base (zone_of 6) * PAGE_SIZE) = b * PAGE_SIZE ∧
    0 ≤ b < MAX_PAGES ∧ zone_of b = zone_of 6 ∧ (2 ^ (1 + 1) | m) ∧
    ((6 = m ∧ b = m + 2 ^ 1) ∨ (6 = m + 2 ^ 1 ∧ b = m)) ∧
    WHO_IS_MY_BUDDY (b * PAGE_SIZE) 1 (zone_base (zone_of 6) * PAGE_SIZE) = 6 * PAGE_SIZE.
Proof.
  apply (buddy_address_correct 6 1); [|reflexivity].
  repeat split; try done. by exists 3.
Defined.

Lemma buddy_print_counts_free_witness :
  buddy_print DMA_ZONE booted = Done (Z.of_nat (length (free_frames booted DMA_ZONE)) * PAGE_SIZE, booted).
Proof. apply (buddy_print_counts_free booted DMA_ZONE booted_ok). discriminate. Defined.
