(* ===== verification/BootAlloc.v ===== *)
(** * The boot allocator (src/memory/boot_allocator.c, src/kernel/mb2_info.c)

    Before the buddy allocator exists, physical memory is a set of tables of
    regions.  A table [struct region t[MAX_REGIONS]] with its count is a list
    of regions; writing past [MAX_REGIONS] is a fault.  The
    reports printed on the console are in Report. *)

From S2P Require Import Prelude Memory Page.

Definition MAX_REGIONS : Z := 256.
Definition REGION_TYPE_COUNT : Z := 3.

(** [enum mem_type]. *)
Inductive mem_type := FREE_MEMORY | RESERVED_MEMORY | HOLES_MEMORY.

#[export] Instance mem_type_eq_dec : EqDecision mem_type.
Proof. solve_decision. Defined.

Record boot_alloc_entry := BootAllocEntry { p_addr : Z; e_size : Z; e_free : bool }.

(** [struct boot_allocator] and the zone tables next to it; [count[t]],
    [free_count[z]] and [res_count[z]] are the lengths of the tables. *)
Record boot_allocator := BootAllocator {
  frozen : bool;
  allocations : list boot_alloc_entry;
  regions : mem_type → list region;
  free_zones : zone_type → list region;
  res_zones : zone_type → list region;
  b_total_pages : Z;
  total_RAM : Z }.

Definition set_allocations (l : list boot_alloc_entry) (b : boot_allocator) : boot_allocator :=
  BootAllocator (frozen b) l (regions b) (free_zones b) (res_zones b) (b_total_pages b) (total_RAM b).

Definition set_regions (t : mem_type) (l : list region) (b : boot_allocator) : boot_allocator :=
  BootAllocator (frozen b) (allocations b) (<[t := l]> (regions b)) (free_zones b) (res_zones b)
    (b_total_pages b) (total_RAM b).

Definition set_free_zone (z : zone_type) (l : list region) (b : boot_allocator) : boot_allocator :=
  BootAllocator (frozen b) (allocations b) (regions b) (<[z := l]> (free_zones b)) (res_zones b)
    (b_total_pages b) (total_RAM b).

Definition set_res_zone (z : zone_type) (l : list region) (b : boot_allocator) : boot_allocator :=
  BootAllocator (frozen b) (allocations b) (regions b) (free_zones b) (<[z := l]> (res_zones b))
    (b_total_pages b) (total_RAM b).

Definition set_total_pages (n : Z) (b : boot_allocator) : boot_allocator :=
  BootAllocator (frozen b) (allocations b) (regions b) (free_zones b) (res_zones b) n (total_RAM b).

Definition set_total_RAM (n : Z) (b : boot_allocator) : boot_allocator :=
  BootAllocator (frozen b) (allocations b) (regions b) (free_zones b) (res_zones b)
    (b_total_pages b) n.

Definition tlen {A} (l : list A) : Z := Z.of_nat (length l).

(** A value computed from a table with checked accesses. *)
Definition lift {S A} (o : outcome A) : M S A := λ s,
  match o with Done a => Done (a, s) | Panic m => Panic m | Fault => Fault | Hang => Hang end.

(** ** Tables *)

Definition boot_alloc_get_addr_zone (addr : Z) : zone_type :=
  if HIGHMEM_START <=? addr then HIGHMEM_ZONE
  else if LOWMEM_START <=? addr then LOWMEM_ZONE
  else DMA_ZONE.

(** The inner loop of the sort: [while (--j > 0 && reg[j-1].start >
    current.start) reg[j] = reg[j-1]; reg[j] = current], entered at [j]. *)
Fixpoint sort_shift (j : nat) (current : region) (reg : list region) : list region :=
  match j with
  | O => <[0%nat := current]> reg
  | S j' =>
      match reg !! j' with
      | Some r =>
          if start current <? start r then sort_shift j' current (<[j := r]> reg)
          else <[j := current]> reg
      | None => reg
      end
  end.

Fixpoint sort_loop (n i : nat) (reg : list region) : list region :=
  match n with
  | O => reg
  | S n =>
      match reg !! i with
      | Some current => sort_loop n (S i) (sort_shift i current reg)
      | None => reg
      end
  end.

Definition boot_allocator_sort_regions (reg : list region) : list region :=
  sort_loop (length reg - 1) 1 reg.

(** [merged[merged_count++] = r]. *)
Definition push_merged (merged : list region) (r : region) : outcome (list region) :=
  if tlen merged <? MAX_REGIONS then Done (merged ++ [r]) else Fault.

Fixpoint merge_loop (cur : region) (rest merged : list region) : outcome (list region) :=
  match rest with
  | [] => push_merged merged cur
  | r :: rest =>
      if end_ cur =? start r then merge_loop (Region (start cur) (end_ r)) rest merged
      else obind (push_merged merged cur) (merge_loop r rest)
  end.

(** [cur] is read before the table is sorted again. *)
Definition boot_allocator_merge_contiguous_regions (reg : list region) : outcome (list region) :=
  match reg with
  | [] => Done []
  | cur :: _ => merge_loop cur (drop 1 (boot_allocator_sort_regions reg)) []
  end.

Definition BOOT_ALLOCATOR_SORT_AND_MERGE (reg : list region) : outcome (list region) :=
  boot_allocator_merge_contiguous_regions (boot_allocator_sort_regions reg).

(** ** Regions *)

Definition boot_allocator_add_region (start end_ : Z) (type : mem_type) : M boot_allocator unit :=
  if (end_ <? start) && negb (end_ =? 0) then kpanic "boot_alloc: Invalid region"
  else if start =? end_ then mret tt
  else
    t ← gets (λ b, regions b type) ;
    if MAX_REGIONS <=? tlen t then kpanic "boot_alloc: too many regions"
    else modify (set_regions type (t ++ [Region start end_])).

Definition boot_allocator_add_to_zones (size start : Z) : M boot_allocator unit :=
  let zone := boot_alloc_get_addr_zone start in
  t ← gets (λ b, res_zones b zone) ;
  if MAX_REGIONS <=? tlen t then kpanic "No more space in zone to add a new region!"
  else
    t ← lift (BOOT_ALLOCATOR_SORT_AND_MERGE (t ++ [Region start (start ⊞ size)])) ;
    modify (set_res_zone zone t).

Definition boot_allocator_reserved_wrapper (start end_ : Z) : M boot_allocator unit :=
  boot_allocator_add_region start end_ RESERVED_MEMORY.

Fixpoint regions_overlap (rs : list region) (start0 end0 : Z) : bool :=
  match rs with
  | [] => false
  | r :: rs =>
      if negb ((end0 <=? start r) || (end_ r <=? start0)) then true
      else regions_overlap rs start0 end0
  end.

Definition boot_allocator_range_overlaps (start end_ : Z) (type : mem_type) : M boot_allocator bool :=
  gets (λ b, regions_overlap (regions b type) start end_).

(** [if (cur < e && !overlaps(cur, e, FREE)) add_region(cur, e, FREE)]. *)
Definition add_free_piece (cur e : Z) : M boot_allocator unit :=
  if cur <? e then
    o ← boot_allocator_range_overlaps cur e FREE_MEMORY ;
    if negb o then boot_allocator_add_region cur e FREE_MEMORY else mret tt
  else mret tt.

Fixpoint free_handler_loop (ress : list region) (cur end0 : Z) : M boot_allocator unit :=
  match ress with
  | [] => add_free_piece cur end0
  | res :: ress =>
      if (end_ res <=? cur) || (end0 <=? start res) then free_handler_loop ress cur end0
      else
        add_free_piece cur (start res) ;;
        let cur := if cur <? end_ res then end_ res else cur in
        if end0 <=? cur then mret tt else free_handler_loop ress cur end0
  end.

Definition boot_allocator_free_handler (start end_ : Z) : M boot_allocator unit :=
  ress ← gets (λ b, regions b RESERVED_MEMORY) ;
  free_handler_loop ress start end_.

Definition boot_allocator_get_all_regions (b : boot_allocator) : list region :=
  regions b FREE_MEMORY ++ regions b RESERVED_MEMORY ++ regions b HOLES_MEMORY.

Fixpoint fill_gaps_loop (all_reg : list region) : M boot_allocator unit :=
  match all_reg with
  | r :: ((r' :: _) as rest) =>
      (if end_ r <? start r' then boot_allocator_add_region (end_ r) (start r') HOLES_MEMORY
       else mret tt) ;;
      fill_gaps_loop rest
  | _ => mret tt
  end.

Definition sort_and_merge_regions (type : mem_type) : M boot_allocator unit :=
  t ← gets (λ b, regions b type) ;
  t ← lift (BOOT_ALLOCATOR_SORT_AND_MERGE t) ;
  modify (set_regions type t).

Definition boot_allocator_fill_gaps_as_holes : M boot_allocator unit :=
  b ← gets id ;
  let total_reg := (length (regions b RESERVED_MEMORY) + length (regions b FREE_MEMORY))%nat in
  if Nat.eqb total_reg 0 then mret tt
  else
    all_reg ← lift (BOOT_ALLOCATOR_SORT_AND_MERGE (take total_reg (boot_allocator_get_all_regions b))) ;
    fill_gaps_loop all_reg ;;
    sort_and_merge_regions HOLES_MEMORY.

Definition boot_allocator_init_total_size (start end_ : Z) : M boot_allocator unit :=
  let end_ := if end_ =? 0 then 4294967295 else end_ in
  r ← gets total_RAM ;
  modify (set_total_RAM (r ⊞ (end_ ⊟ start))).

Definition boot_allocator_get_total_visibale_ram : M boot_allocator Z :=
  b ← gets id ;
  let all_reg := boot_allocator_get_all_regions b in
  if Nat.eqb (length all_reg) 0 then kpanic "this function cannot be called before memory parsing"
  else
    all_reg ← lift (BOOT_ALLOCATOR_SORT_AND_MERGE all_reg) ;
    match last all_reg with
    | Some r => mret (if end_ r =? 0 then 4294967295 else end_ r)
    | None => fault
    end.

(** ** Zones *)

(** [zones[zone][zcount[zone]++] = r], without a bound check in the code. *)
Definition push_zone (get : boot_allocator → zone_type → list region)
    (set : zone_type → list region → boot_allocator → boot_allocator)
    (zone : zone_type) (r : region) : M boot_allocator unit :=
  t ← gets (λ b, get b zone) ;
  if tlen t <? MAX_REGIONS then modify (set zone (t ++ [r])) else fault.

(** The [while] loop that cuts one region at the zone limits: there are
    three zones, so three rounds are enough and a fourth finds the guard false. *)
Fixpoint init_zones_cut (fuel : nat) (get : boot_allocator → zone_type → list region)
    (set : zone_type → list region → boot_allocator → boot_allocator)
    (cur_start region_end : Z) : M boot_allocator unit :=
  match fuel with
  | O => hang
  | S fuel =>
      if cur_start <? region_end then
        let '(zone, zone_end) :=
          if HIGHMEM_START <=? cur_start then (HIGHMEM_ZONE, HIGHMEM_END)
          else if LOWMEM_START <=? cur_start then (LOWMEM_ZONE, HIGHMEM_START)
          else (DMA_ZONE, LOWMEM_START) in
        let sub_end := if region_end <? zone_end then region_end else zone_end in
        (if cur_start <? sub_end then push_zone get set zone (Region cur_start sub_end)
         else mret tt) ;;
        init_zones_cut fuel get set sub_end region_end
      else mret tt
  end.

Fixpoint init_zones_loop (get : boot_allocator → zone_type → list region)
    (set : zone_type → list region → boot_allocator → boot_allocator)
    (reg : list region) : M boot_allocator unit :=
  match reg with
  | [] => mret tt
  | r :: reg => init_zones_cut 4 get set (start r) (end_ r) ;; init_zones_loop get set reg
  end.

Definition boot_allocator_init_zones (get : boot_allocator → zone_type → list region)
    (set : zone_type → list region → boot_allocator → boot_allocator)
    (type : mem_type) : M boot_allocator unit :=
  reg ← gets (λ b, regions b type) ;
  init_zones_loop get set reg.

(** ** The memory map of the boot loader *)

(** [struct multiboot_mmap_entry]: a 64-bit address and length. *)
Record mmap_entry := MmapEntry { addr : Z; len : Z; mtype : Z }.

Fixpoint mb2_mmap_iter (mmap : list mmap_entry) (handler : Z → Z → M boot_allocator unit)
    (free : bool) : M boot_allocator unit :=
  match mmap with
  | [] => mret tt
  | entry :: mmap =>
      (if negb (mtype entry =? 1) && free then mret tt
       else if (mtype entry =? 1) && negb free then mret tt
       else handler (u32 (addr entry)) (u32 (u32 (addr entry) + len entry))) ;;
      mb2_mmap_iter mmap handler free
  end.

(** What the processor and the linker tell [boot_allocator_init]: the
    descriptor-table registers, the kernel image and the boot information. *)
Record boot_env := BootEnv {
  gdtr_base : Z; gdtr_limit : Z; idtr_base : Z; idtr_limit : Z;
  kernel_start : Z; kernel_end : Z; mb2info : Z; mb2info_total_size : Z }.

Definition reserve_virt (start end_ : Z) : M boot_allocator unit :=
  s ← VIRT_TO_PHYS_LINEAR start ;
  e ← VIRT_TO_PHYS_LINEAR end_ ;
  boot_allocator_add_region s e RESERVED_MEMORY.

Definition sort_and_merge_zone (z : zone_type) : M boot_allocator unit :=
  b ← gets id ;
  f ← lift (BOOT_ALLOCATOR_SORT_AND_MERGE (free_zones b z)) ;
  modify (set_free_zone z f) ;;
  r ← lift (BOOT_ALLOCATOR_SORT_AND_MERGE (res_zones b z)) ;
  modify (set_res_zone z r).

Definition boot_allocator_init (env : boot_env) (mmap : list mmap_entry) : M boot_allocator unit :=
  modify (set_regions FREE_MEMORY []) ;;
  modify (set_regions RESERVED_MEMORY []) ;;
  modify (set_regions HOLES_MEMORY []) ;;
  modify (set_allocations []) ;;
  boot_allocator_add_region 655360 1048576 RESERVED_MEMORY ;;
  reserve_virt (gdtr_base env) ((gdtr_base env ⊞ gdtr_limit env) ⊞ 1) ;;
  reserve_virt (idtr_base env) ((idtr_base env ⊞ idtr_limit env) ⊞ 1) ;;
  boot_allocator_add_region 0 4096 RESERVED_MEMORY ;;
  boot_allocator_add_region 4096 654336 RESERVED_MEMORY ;;
  reserve_virt (kernel_start env) (kernel_end env) ;;
  boot_allocator_add_region (mb2info env) (mb2info env ⊞ mb2info_total_size env) RESERVED_MEMORY ;;
  mb2_mmap_iter mmap boot_allocator_reserved_wrapper false ;;
  sort_and_merge_regions RESERVED_MEMORY ;;
  mb2_mmap_iter mmap boot_allocator_free_handler true ;;
  sort_and_merge_regions FREE_MEMORY ;;
  boot_allocator_fill_gaps_as_holes ;;
  mb2_mmap_iter mmap boot_allocator_init_total_size false ;;
  mb2_mmap_iter mmap boot_allocator_init_total_size true ;;
  ram ← boot_allocator_get_total_visibale_ram ;
  modify (set_total_pages (ram / PAGE_SIZE)) ;;
  boot_allocator_init_zones free_zones set_free_zone FREE_MEMORY ;;
  boot_allocator_init_zones res_zones set_res_zone RESERVED_MEMORY ;;
  sort_and_merge_zone LOWMEM_ZONE ;;
  sort_and_merge_zone DMA_ZONE ;;
  sort_and_merge_zone HIGHMEM_ZONE.

(** ** Allocation *)

(** [allocations[num_allocations++] = ...], without a bound check in the code. *)
Definition log_allocation (ret size : Z) (freeable : bool) : M boot_allocator unit :=
  l ← gets allocations ;
  if tlen l <? MAX_REGIONS then modify (set_allocations (l ++ [BootAllocEntry ret size freeable]))
  else fault.

(** [if (guard) *reg = zones[--count]] for the region at index [i]. *)
Definition remove_region (i : nat) (l : list region) : list region :=
  match last l with Some r => take (length l - 1) (<[i := r]> l) | None => l end.

(** [for (int i = free_count[zone] - 1; i >= 0; i--)]. *)
Fixpoint boot_alloc_loop (n : nat) (size : Z) (zone : zone_type) (freeable : bool)
    : M boot_allocator Z :=
  match n with
  | O => mret 0
  | S i =>
      zs ← gets (λ b, free_zones b zone) ;
      match zs !! i with
      | None => fault
      | Some reg =>
          if size <=? (end_ reg ⊟ start reg) then
            if (end_ reg ⊟ size) <? start reg then boot_alloc_loop i size zone freeable
            else
              let ret := end_ reg ⊟ size in
              boot_allocator_add_to_zones size ret ;;
              (if start reg =? ret then
                 modify (set_free_zone zone (remove_region i (<[i := Region (start reg) ret]> zs)))
               else modify (set_free_zone zone (<[i := Region (start reg) ret]> zs))) ;;
              log_allocation ret size freeable ;;
              mret ret
          else boot_alloc_loop i size zone freeable
      end
  end.

Definition boot_alloc (size : Z) (zone : zone_type) (freeable : bool) : M boot_allocator Z :=
  b ← gets id ;
  if frozen b then mret 0
  else if bool_decide (zone = INVALID_ZONE) then fault
  else boot_alloc_loop (length (free_zones b zone)) size zone freeable.

Fixpoint boot_alloc_at_loop (n i : nat) (size : Z) (zone : zone_type) (freeable : bool)
    (start0 end0 align : Z) : M boot_allocator Z :=
  match n with
  | O => mret 0
  | S n =>
      zs ← gets (λ b, free_zones b zone) ;
      match zs !! i with
      | None => fault
      | Some reg =>
          if (end0 <=? start reg) || (end_ reg <=? start0) then
            boot_alloc_at_loop n (S i) size zone freeable start0 end0 align
          else
            let alloc_start := if start0 <=? start reg then start reg else start0 in
            let alloc_end_limit := if end_ reg <? end0 then end_ reg else end0 in
            let alloc_start := if align =? -1 then alloc_start else ALIGN alloc_start (u32 align) in
            if (alloc_start ⊞ size) <=? alloc_end_limit then
              let alloc_end := alloc_start ⊞ size in
              boot_allocator_add_to_zones size alloc_start ;;
              log_allocation alloc_start size freeable ;;
              zs ← (if alloc_end <? end_ reg then
                      if MAX_REGIONS <=? tlen zs then kpanic "No more space for free regions!"
                      else mret (zs ++ [Region alloc_end (end_ reg)])
                    else mret zs) ;
              let zs := <[i := Region (start reg) alloc_start]> zs in
              let zs := if alloc_start <=? start reg then remove_region i zs else zs in
              modify (set_free_zone zone (boot_allocator_sort_regions zs)) ;;
              mret alloc_start
            else boot_alloc_at_loop n (S i) size zone freeable start0 end0 align
      end
  end.

Definition boot_alloc_at (size : Z) (zone : zone_type) (freeable : bool) (start0 end0 align : Z)
    : M boot_allocator Z :=
  b ← gets id ;
  if frozen b || (size =? 0) || (end0 <? (start0 ⊞ size)) then mret 0
  else if bool_decide (zone = INVALID_ZONE) then fault
  else boot_alloc_at_loop (length (free_zones b zone)) 0 size zone freeable start0 end0 align.

Definition boot_allocator_freeze : M boot_allocator unit :=
  modify (λ b, BootAllocator true (allocations b) (regions b) (free_zones b) (res_zones b)
                 (b_total_pages b) (total_RAM b)).
