(* ===== verification/BootAllocInv.v ===== *)
(** * The boot allocator: region tables and their lemmas *)

From S2P Require Import Prelude Memory Page BootAlloc.
From Stdlib Require Import Sorting.Sorted.

(** ** Sets of addresses *)

Definition in_region (r : region) (a : Z) : Prop := start r ≤ a < end_ r.

(** The addresses of a table. *)
Definition covers (l : list region) (a : Z) : Prop := ∃ r, r ∈ l ∧ in_region r a.

Definition proper (r : region) : Prop := 0 ≤ start r ∧ start r < end_ r ∧ end_ r < W32.

(** Two regions with no common address. *)
Definition separate (r r' : region) : Prop := end_ r ≤ start r' ∨ end_ r' ≤ start r.

Fixpoint disjoint_regions (l : list region) : Prop :=
  match l with [] => True | r :: l => Forall (separate r) l ∧ disjoint_regions l end.

Lemma separate_sym r r' : separate r r' → separate r' r.
Proof. unfold separate. lia. Qed.

Lemma disjoint_perm l l' : l ≡ₚ l' → disjoint_regions l → disjoint_regions l'.
Proof.
  induction 1 as [|r l l' Hp IH|r r' l|l1 l2 l3 _ IH1 _ IH2]; simpl; auto.
  - intros [Hf Hd]. split; [by rewrite <- Hp|auto].
  - rewrite !Forall_cons. intros ((Hs & H1) & H2 & Hd). split_and!; auto. by apply separate_sym.
Qed.

#[export] Instance disjoint_perm_proper : Proper ((≡ₚ) ==> iff) disjoint_regions.
Proof. intros l l' H. split; by apply disjoint_perm. Qed.

#[export] Instance covers_perm_proper : Proper ((≡ₚ) ==> eq ==> iff) covers.
Proof. intros l l' H a ? <-. unfold covers. by setoid_rewrite H. Qed.

Lemma covers_nil a : covers [] a ↔ False.
Proof. split; [intros (? & []%elem_of_nil & _)|done]. Qed.

Lemma covers_cons r l a : covers (r :: l) a ↔ in_region r a ∨ covers l a.
Proof.
  unfold covers. setoid_rewrite elem_of_cons. split.
  - intros (x & [->|Hx] & Ha); eauto.
  - intros [|(x & ? & ?)]; eauto.
Qed.

Lemma covers_app l l' a : covers (l ++ l') a ↔ covers l a ∨ covers l' a.
Proof. unfold covers. setoid_rewrite elem_of_app. naive_solver. Qed.

Lemma covers_singleton r a : covers [r] a ↔ in_region r a.
Proof. rewrite covers_cons, covers_nil. tauto. Qed.

(** Proper regions without a common address are separate, and conversely. *)
Lemma separate_intro r r' : proper r → proper r' → (∀ a, in_region r a → ¬ in_region r' a) →
  separate r r'.
Proof.
  unfold proper, in_region, separate. intros H1 H2 H.
  destruct (decide (start r ≤ start r')); [specialize (H (start r'))|specialize (H (start r))]; lia.
Qed.

Lemma separate_covers r l : proper r → Forall proper l → (∀ a, in_region r a → ¬ covers l a) →
  Forall (separate r) l.
Proof.
  intros Hr Hl H. apply Forall_forall. intros r' Hr'.
  apply separate_intro; [done|by eapply Forall_forall|].
  intros a Ha Ha'. apply (H a Ha). by exists r'.
Qed.

Lemma separate_not_covers r l a : Forall (separate r) l → in_region r a → ¬ covers l a.
Proof.
  intros Hs Ha (r' & Hr' & Ha'). rewrite Forall_forall in Hs. specialize (Hs _ Hr').
  unfold separate, in_region in *. lia.
Qed.

(** ** Sorting *)

Definition sorted_regions : list region → Prop := StronglySorted (λ r r', start r ≤ start r').

(** The reference insertion: behind the last region that starts no later. *)
Definition insert_region (r : region) (l : list region) : list region :=
  rev (let fix ins l := match l with
         | [] => [r]
         | x :: l => if start r <? start x then x :: ins l else r :: x :: l
       end in ins (rev l)).

Lemma insert_region_snoc r l x : insert_region r (l ++ [x]) =
  if start r <? start x then insert_region r l ++ [x] else l ++ [x; r].
Proof.
  unfold insert_region. rewrite rev_app_distr. simpl.
  destruct (start r <? start x); simpl; [done|]. by rewrite rev_involutive, <- app_assoc.
Qed.

Lemma insert_region_perm r l : insert_region r l ≡ₚ r :: l.
Proof.
  induction l as [|x l IH] using rev_ind; [done|]. rewrite insert_region_snoc.
  case_match.
  - by rewrite IH.
  - change (l ++ [x; r]) with (l ++ [x] ++ [r]). rewrite app_assoc.
    by rewrite (Permutation_app_comm _ [r]).
Qed.

Lemma StronglySorted_snoc {A} (R : A → A → Prop) l x :
  StronglySorted R (l ++ [x]) ↔ StronglySorted R l ∧ Forall (λ y, R y x) l.
Proof.
  induction l as [|y l IH]; simpl; [split; repeat constructor|]. split.
  - intros [[H1 H3]%IH H2]%StronglySorted_inv. apply Forall_app in H2 as [H2 H4].
    rewrite Forall_singleton in H4. split; constructor; done.
  - intros [[H1 H3]%StronglySorted_inv [H2 H4]%Forall_cons].
    constructor; [by apply IH|]. apply Forall_app. split; [done|]. by apply Forall_singleton.
Qed.

Lemma insert_region_sorted r l : sorted_regions l → sorted_regions (insert_region r l).
Proof.
  unfold sorted_regions. induction l as [|x l IH] using rev_ind; intros Hs.
  - repeat constructor.
  - rewrite insert_region_snoc. pose proof Hs as Hs0. apply StronglySorted_snoc in Hs as [Hs Hx].
    destruct (Z.ltb_spec (start r) (start x)).
    + apply StronglySorted_snoc. split; [by apply IH|].
      rewrite insert_region_perm. constructor; [lia|done].
    + change (l ++ [x; r]) with (l ++ [x] ++ [r]). rewrite app_assoc. apply StronglySorted_snoc.
      split; [done|]. apply Forall_app. split; [|repeat constructor; done].
      eapply Forall_impl; [exact Hx|]. simpl. lia.
Qed.

(** The shifting loop of the code computes that insertion in place. *)
Lemma sort_shift_insert r l x k : sort_shift (length l) r (l ++ x :: k) = insert_region r l ++ k.
Proof.
  revert x k. induction l as [|y l IH] using rev_ind; intros x k; [done|].
  rewrite length_app, Nat.add_1_r, insert_region_snoc. simpl.
  rewrite <- app_assoc. simpl.
  rewrite lookup_app_r, Nat.sub_diag by done. simpl.
  assert (∀ z, <[S (length l) := z]> (l ++ y :: x :: k) = l ++ y :: z :: k) as E.
  { intros z. rewrite insert_app_r_alt, Nat.sub_succ_l, Nat.sub_diag by lia. done. }
  rewrite !E. case_match.
  - rewrite IH. by rewrite <- app_assoc.
  - by rewrite <- app_assoc.
Qed.

Lemma sort_loop_spec n l k : length k = n → sorted_regions l →
  let r := sort_loop n (length l) (l ++ k) in sorted_regions r ∧ r ≡ₚ l ++ k.
Proof.
  revert l k. induction n as [|n IH]; intros l k Hk Hs; simpl.
  - destruct k; [|done]. by rewrite app_nil_r.
  - destruct k as [|x k]; [done|]. rewrite lookup_app_r, Nat.sub_diag by done. simpl.
    rewrite sort_shift_insert.
    assert (S (length l) = length (insert_region x l)) as ->
      by (by rewrite insert_region_perm).
    destruct (IH (insert_region x l) k) as [H1 H2]; [simpl in Hk; lia|by apply insert_region_sorted|].
    split; [done|]. rewrite H2, insert_region_perm. simpl.
    by rewrite (Permutation_middle l k x).
Qed.

Lemma boot_allocator_sort_regions_spec l :
  sorted_regions (boot_allocator_sort_regions l) ∧ boot_allocator_sort_regions l ≡ₚ l.
Proof.
  unfold boot_allocator_sort_regions. destruct l as [|x l]; [split; [constructor|done]|].
  replace (length (x :: l) - 1)%nat with (length l) by (simpl; lia).
  apply (sort_loop_spec (length l) [x] l); [done|]. repeat constructor.
Qed.

(** ** Merging *)

Lemma push_merged_room merged r : tlen merged < MAX_REGIONS →
  push_merged merged r = Done (merged ++ [r]).
Proof. intros. unfold push_merged. by rewrite (proj2 (Z.ltb_lt _ _)). Qed.

Lemma proper_join cur r : proper cur → proper r → end_ cur = start r →
  proper (Region (start cur) (end_ r)) ∧
  ∀ a, in_region (Region (start cur) (end_ r)) a ↔ in_region cur a ∨ in_region r a.
Proof. unfold proper, in_region. simpl. intros. split; [|intros a]; lia. Qed.

Lemma separate_join cur r l : end_ cur = start r → Forall proper l →
  Forall (separate cur) l → Forall (separate r) l →
  Forall (separate (Region (start cur) (end_ r))) l.
Proof.
  intros E Hl H1 H2. rewrite Forall_forall in *. intros x Hx.
  specialize (Hl x Hx). specialize (H1 x Hx). specialize (H2 x Hx).
  unfold separate, proper in *. simpl. lia.
Qed.

Record merge_result (l out : list region) : Prop := {
  mr_proper : Forall proper out;
  mr_covers : ∀ a, covers out a ↔ covers l a;
  mr_length : tlen out ≤ tlen l;
  mr_disjoint : disjoint_regions l → disjoint_regions out;
  mr_sorted : sorted_regions l → sorted_regions out }.

Lemma covers_start_ge l out x : Forall proper out → (∀ a, covers out a → covers l a) →
  Forall (λ r, start x ≤ start r) l → Forall (λ r, start x ≤ start r) out.
Proof.
  intros Hp Hc Hl. rewrite Forall_forall in *. intros r Hr. specialize (Hp r Hr).
  destruct (Hc (start r)) as (r' & Hr' & Ha).
  { exists r. split; [done|]. unfold in_region, proper in *. lia. }
  specialize (Hl _ Hr'). unfold in_region in Ha. lia.
Qed.

Lemma merge_loop_spec rest cur acc : tlen acc + tlen rest < MAX_REGIONS →
  Forall proper (cur :: rest) →
  ∃ out, merge_loop cur rest acc = Done (acc ++ out) ∧ merge_result (cur :: rest) out.
Proof.
  unfold tlen. revert cur acc. induction rest as [|r rest IH]; intros cur acc Hlen Hp; simpl.
  - exists [cur]. rewrite push_merged_room by (unfold tlen; simpl in Hlen; lia). by split.
  - apply Forall_cons in Hp as [Hcur Hp]. pose proof Hp as Hp0.
    apply Forall_cons in Hp as [Hr Hp]. destruct (Z.eqb_spec (end_ cur) (start r)) as [E|E].
    + destruct (proper_join cur r Hcur Hr E) as [Hj Hin].
      destruct (IH (Region (start cur) (end_ r)) acc) as (out & -> & [H1 H2 H3 H4 H5]);
        [simpl in Hlen; lia|by constructor|].
      exists out. split; [done|]. split; [done|..].
      * intros a. rewrite H2, !covers_cons, Hin. tauto.
      * unfold tlen in *. simpl in *. lia.
      * simpl. rewrite Forall_cons. intros ((_ & Hd1) & Hd2 & Hd). apply H4. split; [|done].
        by apply separate_join.
      * intros [[Hs _]%StronglySorted_inv [_ Hs']%Forall_cons]%StronglySorted_inv.
        apply H5. by constructor.
    + rewrite push_merged_room by (unfold tlen; simpl in Hlen; lia). cbn [obind].
      destruct (IH r (acc ++ [cur])) as (out & -> & [H1 H2 H3 H4 H5]);
        [rewrite length_app; simpl in *; lia|done|].
      exists (cur :: out). rewrite <- app_assoc. split; [done|]. split.
      * by constructor.
      * intros a. rewrite !(covers_cons cur), H2. done.
      * unfold tlen in *. simpl in *. lia.
      * intros [Hd1 Hd]. split; [|auto]. apply separate_covers; [done..|].
        intros a Ha. rewrite H2. by apply separate_not_covers with cur.
      * intros [Hs Hs']%StronglySorted_inv. constructor; [by apply H5|].
        eapply covers_start_ge; [done| |exact Hs']. intros a. apply H2.
Qed.

(** Sorting a sorted table changes nothing. *)
Lemma insert_region_last r l : Forall (λ x, start x ≤ start r) l → insert_region r l = l ++ [r].
Proof.
  destruct l as [|x l _] using rev_ind; [done|]. intros [_ H]%Forall_app.
  rewrite Forall_singleton in H. rewrite insert_region_snoc.
  rewrite (proj2 (Z.ltb_ge _ _)) by done. by rewrite <- app_assoc.
Qed.

Lemma sort_loop_sorted n l k : length k = n → sorted_regions (l ++ k) →
  sort_loop n (length l) (l ++ k) = l ++ k.
Proof.
  revert l k. induction n as [|n IH]; intros l k Hk Hs; [done|].
  destruct k as [|x k]; [done|]. simpl. rewrite lookup_app_r, Nat.sub_diag by done. simpl.
  change (l ++ x :: k) with (l ++ [x] ++ k) in *. rewrite app_assoc in *.
  assert (Forall (λ y, start y ≤ start x) l) as Hx.
  { clear - Hs. induction l as [|y l IH]; [done|].
    apply StronglySorted_inv in Hs as [Hs Hf]. apply Forall_app in Hf as [Hf _].
    apply Forall_app in Hf as [_ Hf]. rewrite Forall_singleton in Hf. constructor; [done|auto]. }
  rewrite <- app_assoc. simpl. rewrite sort_shift_insert, insert_region_last by done.
  specialize (IH (l ++ [x]) k). rewrite length_app, Nat.add_1_r in IH.
  rewrite IH; [by rewrite <- app_assoc|simpl in Hk; lia|done].
Qed.

Lemma sort_sorted l : sorted_regions l → boot_allocator_sort_regions l = l.
Proof.
  intros Hs. unfold boot_allocator_sort_regions. destruct l as [|x l]; [done|].
  apply (sort_loop_sorted _ [x] l); [simpl; lia|done].
Qed.

(** What [BOOT_ALLOCATOR_SORT_AND_MERGE] does to a table of proper regions. *)
Lemma sort_and_merge_spec l : Forall proper l → tlen l ≤ MAX_REGIONS →
  ∃ out, BOOT_ALLOCATOR_SORT_AND_MERGE l = Done out ∧ merge_result l out ∧ sorted_regions out.
Proof.
  intros Hp Hlen. unfold BOOT_ALLOCATOR_SORT_AND_MERGE, boot_allocator_merge_contiguous_regions.
  destruct (boot_allocator_sort_regions_spec l) as [Hs Hperm].
  rewrite (sort_sorted (boot_allocator_sort_regions l)) by done.
  destruct (boot_allocator_sort_regions l) as [|cur rest] eqn:E.
  - apply Permutation_nil_l in Hperm as <-. exists []. split; [done|]. split; [|constructor].
    by split.
  - change (drop 1 (cur :: rest)) with rest.
    destruct (merge_loop_spec rest cur []) as (out & -> & [H1 H2 H3 H4 H5]).
    + unfold tlen in *. rewrite <- Hperm in Hlen. simpl in *. lia.
    + by rewrite Hperm.
    + exists out. split; [done|]. split; [|by apply H5]. split; [done|..].
      * intros a. by rewrite H2, Hperm.
      * unfold tlen in *. by rewrite <- Hperm.
      * rewrite <- Hperm. done.
      * auto.
Qed.
