(* ===== verification/BootAllocThm.v ===== *)
(** * The boot allocator: what allocation and initialisation guarantee *)

From S2P Require Import Prelude Memory Page BootAlloc BootAllocInv.
From Stdlib Require Import Sorting.Sorted.

(** The free and reserved tables of zone [z]: proper regions, the free ones
    pairwise disjoint and inside the zone, and no address both free and
    reserved.  (Reserved regions may overlap: the boot loader and the kernel
    may both claim a range.) *)
Record zone_ok (b : boot_allocator) (z : zone_type) : Prop := {
  zo_free : Forall proper (free_zones b z);
  zo_res : Forall proper (res_zones b z);
  zo_free_disjoint : disjoint_regions (free_zones b z);
  zo_zone : ∀ a, covers (free_zones b z) a → boot_alloc_get_addr_zone a = z;
  zo_excl : ∀ a, covers (free_zones b z) a → ¬ covers (res_zones b z) a }.

(** The effect of handing out [[ret, ret + size)] in zone [z]. *)
Record boot_alloc_post (b b' : boot_allocator) (z : zone_type) (ret size : Z) (freeable : bool)
    : Prop := {
  bp_ok : zone_ok b' z;
  bp_was_free : ∀ a, ret ≤ a < ret + size → covers (free_zones b z) a;
  bp_free : ∀ a, covers (free_zones b' z) a ↔ covers (free_zones b z) a ∧ ¬ ret ≤ a < ret + size;
  bp_res : ∀ a, covers (res_zones b' z) a ↔ covers (res_zones b z) a ∨ ret ≤ a < ret + size;
  bp_other : ∀ z', z' ≠ z → free_zones b' z' = free_zones b z' ∧ res_zones b' z' = res_zones b z';
  bp_log : allocations b' = allocations b ++ [BootAllocEntry ret size freeable];
  bp_free_len : tlen (free_zones b' z) ≤ tlen (free_zones b z) + 1;
  bp_res_len : tlen (res_zones b' z) ≤ tlen (res_zones b z) + 1;
  bp_kept : frozen b' = frozen b ∧ b_total_pages b' = b_total_pages b }.

(** ** Updating a table *)

Lemma insert_delete_perm (l : list region) i x r : l !! i = Some r →
  <[i := x]> l ≡ₚ x :: delete i l.
Proof.
  intros Hi. pose proof (lookup_lt_Some _ _ _ Hi).
  rewrite (delete_Permutation (<[i := x]> l) i x) by (by apply list_lookup_insert_eq).
  rewrite !delete_take_drop. by rewrite take_insert_ge, drop_insert_lt by lia.
Qed.

Lemma remove_region_perm (l : list region) i r : l !! i = Some r →
  remove_region i l ≡ₚ delete i l.
Proof.
  intros Hi. unfold remove_region. destruct l as [|x l _] using rev_ind; [done|].
  rewrite last_snoc, length_app, Nat.add_sub. apply lookup_lt_Some in Hi as Hlt.
  rewrite length_app in Hlt. simpl in Hlt. destruct (decide (i < length l)%nat).
  - rewrite insert_app_l by done. rewrite take_app_length' by (by rewrite length_insert).
    rewrite lookup_app_l in Hi by done. rewrite (insert_delete_perm l i x r) by done.
    rewrite (delete_take_drop (l ++ [x])), take_app_le, drop_app_le by lia.
    rewrite app_assoc, <- delete_take_drop. by rewrite Permutation_cons_append.
  - assert (i = length l) as -> by lia. rewrite insert_app_r_alt, Nat.sub_diag by done.
    rewrite take_app_length. rewrite delete_take_drop, take_app_length, drop_ge; [by rewrite app_nil_r|].
    rewrite length_app. simpl. lia.
Qed.

Lemma remove_region_length i (l : list region) : (length (remove_region i l) = length l - 1)%nat.
Proof.
  unfold remove_region. destruct l as [|x l _] using rev_ind; [done|].
  rewrite last_snoc, length_take, length_insert, length_app. simpl. lia.
Qed.

Lemma wp_lift {S A} (o : outcome A) a (s : S) (Q : A → S → Prop) : o = Done a → Q a s →
  wp (lift o) s Q.
Proof. by intros ->. Qed.

Lemma proper_split r x : proper r → in_region r x ∨ x = end_ r →
  ∀ a, in_region r a ↔ in_region (Region (start r) x) a ∨ in_region (Region x (end_ r)) a.
Proof. unfold proper, in_region. simpl. lia. Qed.

(** ** Reserving a block *)

Lemma wp_add_to_zones b z ret size (Q : unit → boot_allocator → Prop) :
  zone_ok b z → tlen (res_zones b z) < MAX_REGIONS → 0 ≤ ret → 0 < size → ret + size < W32 →
  boot_alloc_get_addr_zone ret = z →
  (∀ out, Forall proper out → tlen out ≤ tlen (res_zones b z) + 1 →
     (∀ a, covers out a ↔ covers (res_zones b z) a ∨ ret ≤ a < ret + size) →
     Q tt (set_res_zone z out b)) →
  wp (boot_allocator_add_to_zones size ret) b Q.
Proof.
  intros Hok Hroom Hr Hs Hw Hz HQ. unfold boot_allocator_add_to_zones. rewrite Hz.
  wp_step. apply wp_gets. rewrite (proj2 (Z.leb_gt _ _)) by done.
  rewrite u32_small by lia. set (blk := Region ret (ret + size)).
  assert (proper blk) as Hblk by (unfold proper, blk; simpl; lia).
  assert (blk :: res_zones b z ≡ₚ res_zones b z ++ [blk]) as Hp by (by rewrite Permutation_cons_append).
  destruct (sort_and_merge_spec (res_zones b z ++ [blk])) as (out & E & [H1 H2 H3 _ _] & _).
  - rewrite <- Hp. constructor; [done|apply Hok].
  - unfold tlen in *. rewrite length_app. simpl. lia.
  - wp_step. eapply wp_lift; [exact E|]. apply wp_modify. apply HQ; [done| |].
    { unfold tlen in *. rewrite length_app in H3. simpl in H3. lia. }
    intros a. by rewrite H2, covers_app, covers_singleton.
Qed.

Lemma wp_log_allocation b ret size freeable (Q : unit → boot_allocator → Prop) :
  tlen (allocations b) < MAX_REGIONS →
  Q tt (set_allocations (allocations b ++ [BootAllocEntry ret size freeable]) b) →
  wp (log_allocation ret size freeable) b Q.
Proof.
  intros Hroom HQ. unfold log_allocation. wp_step. apply wp_gets.
  rewrite (proj2 (Z.ltb_lt _ _)) by done. by apply wp_modify.
Qed.

(** The new free and reserved tables of zone [z], seen from [b]. *)
Lemma boot_alloc_post_intro b z ret size freeable out fr :
  zone_ok b z → 0 < size → (∀ a, ret ≤ a < ret + size → covers (free_zones b z) a) →
  Forall proper out → tlen out ≤ tlen (res_zones b z) + 1 →
  (∀ a, covers out a ↔ covers (res_zones b z) a ∨ ret ≤ a < ret + size) →
  Forall proper fr → disjoint_regions fr → tlen fr ≤ tlen (free_zones b z) + 1 →
  (∀ a, covers fr a ↔ covers (free_zones b z) a ∧ ¬ ret ≤ a < ret + size) →
  ∀ b', free_zones b' = <[z := fr]> (free_zones b) → res_zones b' = <[z := out]> (res_zones b) →
  allocations b' = allocations b ++ [BootAllocEntry ret size freeable] →
  frozen b' = frozen b ∧ b_total_pages b' = b_total_pages b →
  boot_alloc_post b b' z ret size freeable.
Proof.
  intros Hok Hs Hfree Ho1 Ho2 Ho3 Hf1 Hf2 Hf4 Hf3 b' Ef Er El Ek.
  split; rewrite ?Ef, ?Er, ?fn_lookup_insert; auto.
  - split; rewrite ?Ef, ?Er, ?fn_lookup_insert; auto.
    + intros a [? _]%Hf3. by apply Hok.
    + intros a [H1 H2]%Hf3 [H3|]%Ho3; [|done]. by apply (zo_excl _ _ Hok a).
  - intros z' Hz'. by rewrite !fn_lookup_insert_ne by done.
Qed.

(** ** boot_alloc *)

Lemma free_piece_spec b z i reg x l : zone_ok b z → free_zones b z !! i = Some reg →
  l ≡ₚ x ++ delete i (free_zones b z) → Forall proper x → disjoint_regions x →
  (∀ a, covers x a → in_region reg a) →
  Forall proper l ∧ disjoint_regions l ∧
  ∀ a, covers l a ↔ covers (free_zones b z) a ∧ ¬ (in_region reg a ∧ ¬ covers x a).
Proof.
  intros Hok Hi Hl Hx Hxd Hsub.
  pose proof (delete_Permutation _ _ _ Hi) as Hp.
  pose proof (zo_free _ _ Hok) as Hf. pose proof (zo_free_disjoint _ _ Hok) as Hd.
  setoid_rewrite Hp. rewrite Hp in Hf, Hd. rewrite Forall_cons in Hf. destruct Hf as [Hreg Hf].
  destruct Hd as [Hs Hd]. set (rest := delete i (free_zones b z)) in *.
  assert (∀ a, covers x a → ¬ covers rest a) as Hex.
  { intros a Ha. apply separate_not_covers with reg; auto. }
  split_and!.
  - rewrite Hl. by apply Forall_app.
  - rewrite Hl. clear Hl Hsub. induction x as [|r x IH]; [done|]. simpl in *.
    apply Forall_cons in Hx as [Hr Hx]. destruct Hxd as [Hrx Hxd]. split.
    + apply Forall_app. split; [done|]. apply separate_covers; [done..|].
      intros a Ha. apply Hex, covers_cons. by left.
    + apply IH; auto. intros a Ha. apply Hex, covers_cons. by right.
  - intros a. rewrite Hl, covers_app, covers_cons. split.
    + intros [Ha|Ha]; [split; [left; auto|tauto]|]. split; [by right|]. intros [Hin _].
      by apply (separate_not_covers reg rest a).
    + intros [[Ha|Ha] Hn]; [|by right]. left.
      destruct (decide (Exists (λ r, start r ≤ a < end_ r) x)) as [He|He].
      * apply Exists_exists in He as (r & Hr & Hra). by exists r.
      * exfalso. apply Hn. split; [done|]. intros (r & Hr & Hra). apply He, Exists_exists. eauto.
Qed.

Section BootAlloc.
Context (b : boot_allocator) (z : zone_type) (size : Z) (freeable : bool).
Context (Hok : zone_ok b z) (Hsize : 0 < size < W32).
Context (Hres : tlen (res_zones b z) < MAX_REGIONS).
Context (Hlog : tlen (allocations b) < MAX_REGIONS).

Lemma boot_alloc_loop_spec n : (n ≤ length (free_zones b z))%nat →
  wp (boot_alloc_loop n size z freeable) b (λ r b',
    (r = 0 ∧ b' = b ∧ ∀ i reg, (i < n)%nat → free_zones b z !! i = Some reg →
       end_ reg - start reg < size) ∨
    (∃ reg, reg ∈ free_zones b z ∧ start reg ≤ r ∧ r + size = end_ reg ∧
       boot_alloc_post b b' z r size freeable)).
Proof.
  induction n as [|i IH]; intros Hn; simpl.
  { apply wp_ret. left. split_and!; [done..|]. intros; lia. }
  wp_step. apply wp_gets.
  destruct (lookup_lt_is_Some_2 (free_zones b z) i) as [reg Hi]; [lia|]. rewrite Hi.
  assert (reg ∈ free_zones b z) as Hin by (by eapply list_elem_of_lookup_2).
  assert (proper reg) as Hreg by (pose proof (zo_free _ _ Hok) as H; rewrite Forall_forall in H; auto).
  pose proof Hreg as (Hr1 & Hr2 & Hr3).
  rewrite (u32_small (end_ reg - start reg)) by lia.
  destruct (Z.leb_spec size (end_ reg - start reg)) as [Hle|Hgt].
  2: { eapply wp_mono; [apply IH; lia|]. intros r b' [(-> & -> & Hall)|?]; [left|by right].
       split_and!; [done..|]. intros k reg' Hk Hk'.
       destruct (decide (k = i)) as [->|]; [by simplify_eq|]. apply (Hall k); [lia|done]. }
  rewrite (u32_small (end_ reg - size)), (proj2 (Z.ltb_ge _ _)) by lia.
  set (ret := end_ reg - size).
  assert (∀ a, ret ≤ a < ret + size → covers (free_zones b z) a) as Hfree.
  { intros a Ha. exists reg. split; [done|]. unfold in_region, ret in *. lia. }
  wp_step. eapply (wp_add_to_zones b z ret size); auto; try (unfold ret; lia).
  { apply (zo_zone _ _ Hok), Hfree. unfold ret. lia. }
  intros out Ho1 Ho2 Ho3.
  assert (wp (if start reg =? ret then
                modify (set_free_zone z (remove_region i (<[i := Region (start reg) ret]> (free_zones b z))))
              else modify (set_free_zone z (<[i := Region (start reg) ret]> (free_zones b z))))
    (set_res_zone z out b) (λ _ b', ∃ fr, b' = set_free_zone z fr (set_res_zone z out b) ∧
       Forall proper fr ∧ disjoint_regions fr ∧ tlen fr ≤ tlen (free_zones b z) + 1 ∧
       ∀ a, covers fr a ↔ covers (free_zones b z) a ∧ ¬ ret ≤ a < ret + size)) as Hw.
  { pose proof (insert_delete_perm _ i (Region (start reg) ret) _ Hi) as Hp.
    destruct (Z.eqb_spec (start reg) ret) as [E|E]; apply wp_modify; eexists; (split; [done|]).
    - destruct (free_piece_spec b z i reg []
        (remove_region i (<[i := Region (start reg) ret]> (free_zones b z)))) as (F1 & F2 & F3);
        [done|done| |done|done|by intros a ?%covers_nil|].
      + assert (i < length (free_zones b z))%nat by lia.
        rewrite remove_region_perm by (by apply list_lookup_insert_eq).
        rewrite !delete_take_drop, take_insert_ge, drop_insert_lt by lia. done.
      + split_and!; [done..|unfold tlen; rewrite remove_region_length, length_insert; lia|].
        intros a. rewrite F3, covers_nil. unfold in_region, ret in *.
        split; intros [? H]; (split; [done|]); intros ?; apply H; lia.
    - destruct (free_piece_spec b z i reg [Region (start reg) ret]
        (<[i := Region (start reg) ret]> (free_zones b z))) as (F1 & F2 & F3);
        [done|done|done| |done| |].
      + constructor; [|done]. unfold proper, ret in *. simpl. lia.
      + intros a. rewrite covers_singleton. unfold in_region, ret. simpl. lia.
      + split_and!; [done..|unfold tlen; rewrite length_insert; lia|].
        intros a. rewrite F3, covers_singleton.
        unfold in_region, ret in *. simpl.
        split; intros [? H]; (split; [done|]); intros ?; apply H; lia. }
  wp_step. eapply wp_mono; [exact Hw|]. intros [] b' (fr & -> & F1 & F2 & F4 & F3).
  wp_step. apply wp_log_allocation; [done|]. apply wp_ret. right. exists reg.
  split_and!; [done|unfold ret; lia|unfold ret; lia|].
  apply (boot_alloc_post_intro b z ret size freeable out fr); done || lia.
Qed.

End BootAlloc.

(** [boot_alloc] from consistent zone tables with room in the reserved
    table and in the log never panics or faults.  It returns NULL, changing
    nothing, only when every free region of the zone is smaller than the
    request; otherwise it carves the block off the top of a free region, the
    block leaves the free table and enters the reserved one address for
    address, other zones are untouched, and the tables stay consistent. *)
Theorem boot_alloc_correct (b : boot_allocator) (z : zone_type) (size : Z) (freeable : bool) :
  zone_ok b z → z ≠ INVALID_ZONE → frozen b = false → 0 < size < W32 →
  tlen (res_zones b z) < MAX_REGIONS → tlen (allocations b) < MAX_REGIONS →
  ∃ r b', boot_alloc size z freeable b = Done (r, b') ∧
    ((r = 0 ∧ b' = b ∧ ∀ reg, reg ∈ free_zones b z → end_ reg - start reg < size) ∨
     (∃ reg, reg ∈ free_zones b z ∧ start reg ≤ r ∧ r + size = end_ reg ∧
        boot_alloc_post b b' z r size freeable)).
Proof.
  intros Hok Hz Hfr Hs Hres Hlog.
  pose proof (boot_alloc_loop_spec b z size freeable Hok Hs Hres Hlog
                (length (free_zones b z)) (le_n _)) as Hw.
  apply wp_run in Hw as (r & b' & E & Hw). exists r, b'. split.
  - unfold boot_alloc, mbind, M_bind, gets. simpl. rewrite Hfr, bool_decide_eq_false_2 by done. exact E.
  - destruct Hw as [(-> & -> & H)|H]; [left|by right]. split_and!; [done..|].
    intros reg (i & Hi)%list_elem_of_lookup. apply (H i); [|done]. by eapply lookup_lt_Some.
Qed.

(** ** boot_alloc_at *)

(** [x] is a place for the request inside [reg]. *)
Definition fits (reg : region) (size start0 end0 k x : Z) : Prop :=
  (2 ^ k | x) ∧ start reg ≤ x ∧ start0 ≤ x ∧ x + size ≤ end_ reg ∧ x + size ≤ end0.

Section BootAllocAt.
Context (b : boot_allocator) (z : zone_type) (size : Z) (freeable : bool) (start0 end0 k : Z).
Context (Hok : zone_ok b z) (Hsize : 0 < size) (Hs0 : 0 ≤ start0) (Hse : start0 + size ≤ end0).
Context (Hk : 0 ≤ k < 31) (Hw : end0 + 2 ^ k + size < W32).
Context (Hfree : tlen (free_zones b z) < MAX_REGIONS).
Context (Hres : tlen (res_zones b z) < MAX_REGIONS).
Context (Hlog : tlen (allocations b) < MAX_REGIONS).

(** The two pieces of [reg] left around the block. *)
Definition around (reg : region) (x : Z) : list region :=
  (if x <=? start reg then [] else [Region (start reg) x]) ++
  (if x + size <? end_ reg then [Region (x + size) (end_ reg)] else []).

Lemma around_spec reg x : proper reg → start reg ≤ x → x + size ≤ end_ reg →
  Forall proper (around reg x) ∧ disjoint_regions (around reg x) ∧
  ∀ a, covers (around reg x) a ↔ in_region reg a ∧ ¬ x ≤ a < x + size.
Proof.
  unfold around. intros (R1 & R2 & R3) H1 H2.
  destruct (Z.leb_spec x (start reg)), (Z.ltb_spec (x + size) (end_ reg)); simpl; (split; [|split]).
  all: try (repeat first [apply Forall_nil_2 | apply Forall_cons_2]; unfold proper; simpl; lia).
  all: try (intros a; rewrite ?covers_cons, covers_nil; unfold in_region; simpl; lia).
  all: repeat split; repeat constructor; unfold separate; simpl; lia.
Qed.

(** The table the code leaves, before it is sorted. *)
Definition carve (zs : list region) (i : nat) (reg : region) (x : Z) : list region :=
  let zs := if x + size <? end_ reg then zs ++ [Region (x + size) (end_ reg)] else zs in
  let zs := <[i := Region (start reg) x]> zs in
  if x <=? start reg then remove_region i zs else zs.

Lemma carve_perm zs i reg x : zs !! i = Some reg →
  carve zs i reg x ≡ₚ around reg x ++ delete i zs.
Proof.
  intros Hi. pose proof (lookup_lt_Some _ _ _ Hi) as Hlt. unfold carve, around.
  set (post := if x + size <? end_ reg then [Region (x + size) (end_ reg)] else []).
  replace (if x + size <? end_ reg then zs ++ [Region (x + size) (end_ reg)] else zs)
    with (zs ++ post) by (unfold post; case_match; [done|by rewrite app_nil_r]).
  rewrite insert_app_l by done.
  assert (delete i (zs ++ post) = delete i zs ++ post) as Hdel.
  { rewrite !delete_take_drop, take_app_le, drop_app_le by lia. by rewrite app_assoc. }
  destruct (Z.leb_spec x (start reg)); simpl.
  - rewrite (remove_region_perm _ i (Region (start reg) x)).
    + rewrite <- insert_app_l by done.
      rewrite !delete_take_drop, take_insert_ge, drop_insert_lt, <- delete_take_drop by lia.
      rewrite Hdel, delete_take_drop. by rewrite Permutation_app_comm.
    + rewrite lookup_app_l by (by rewrite length_insert). by apply list_lookup_insert_eq.
  - rewrite (insert_delete_perm zs i _ reg) by done. simpl.
    by rewrite (Permutation_app_comm post).
Qed.

(** The block is the lowest place in [reg], and [reg] is cut around it. *)
Definition carved (b0 b1 : boot_allocator) (reg : region) (x : Z) : Prop :=
  (∀ y, fits reg size start0 end0 k y → x ≤ y) ∧
  ∃ rest, free_zones b0 z ≡ₚ reg :: rest ∧ free_zones b1 z ≡ₚ around reg x ++ rest.

(** Where the code tries to put the block in [reg], and the bound it checks. *)
Definition place (reg : region) : Z := ALIGN (if start0 <=? start reg then start reg else start0) (2 ^ k).

Definition room (reg : region) : Z := if end_ reg <? end0 then end_ reg else end0.

Lemma place_spec reg : proper reg → start reg < end0 → start0 < end_ reg →
  0 ≤ place reg + size < W32 ∧ (∀ y, fits reg size start0 end0 k y → place reg ≤ y) ∧
  (fits reg size start0 end0 k (place reg) ↔ place reg + size ≤ room reg).
Proof.
  intros (Hr1 & Hr2 & Hr3) Ha Hb. pose proof (Z.pow_pos_nonneg 2 k ltac:(lia) ltac:(lia)) as Hpk.
  unfold place, room. set (lo := if start0 <=? start reg then start reg else start0).
  assert (start reg ≤ lo ∧ start0 ≤ lo ∧ lo < end0 ∧ (lo = start reg ∨ lo = start0)) as Hlo
    by (unfold lo; case_match; to_prop; lia).
  destruct (ALIGN_spec lo k) as [Hx1 Hx2]; [lia|lia|lia|]. set (x := ALIGN lo (2 ^ k)) in *.
  split_and!; [lia|lia| |].
  - intros y (Hy1 & Hy2 & Hy3 & Hy4 & Hy5). apply (least_multiple (2 ^ k) x lo y); lia || done.
  - unfold fits. destruct (Z.ltb_spec (end_ reg) end0); split; intros; split_and?; lia || done.
Qed.

(** The table of free regions once the block is cut off region [i]. *)
Lemma wp_set_carved i reg x b1 :
  wp (zs ← (if x + size <? end_ reg then
              if MAX_REGIONS <=? tlen (free_zones b z) then kpanic "No more space for free regions!"
              else mret (free_zones b z ++ [Region (x + size) (end_ reg)])
            else mret (free_zones b z)) ;
      modify (set_free_zone z (boot_allocator_sort_regions
        (if x <=? start reg then remove_region i (<[i := Region (start reg) x]> zs)
         else <[i := Region (start reg) x]> zs))) ;; mret x) b1
    (λ r b', r = x ∧ b' = set_free_zone z (boot_allocator_sort_regions (carve (free_zones b z) i reg x)) b1).
Proof.
  unfold carve. rewrite (proj2 (Z.leb_gt MAX_REGIONS _)) by done.
  wp_step. destruct (x + size <? end_ reg); apply wp_ret; wp_steps; done.
Qed.

(** The block is taken off region [i]. *)
Lemma wp_carve_at i reg x : free_zones b z !! i = Some reg → fits reg size start0 end0 k x →
  (∀ y, fits reg size start0 end0 k y → x ≤ y) →
  wp (boot_allocator_add_to_zones size x ;; log_allocation x size freeable ;;
      zs ← (if x + size <? end_ reg then
              if MAX_REGIONS <=? tlen (free_zones b z) then kpanic "No more space for free regions!"
              else mret (free_zones b z ++ [Region (x + size) (end_ reg)])
            else mret (free_zones b z)) ;
      modify (set_free_zone z (boot_allocator_sort_regions
        (if x <=? start reg then remove_region i (<[i := Region (start reg) x]> zs)
         else <[i := Region (start reg) x]> zs))) ;; mret x) b
    (λ r b', r = x ∧ carved b b' reg x ∧ boot_alloc_post b b' z x size freeable).
Proof.
  intros Hi Hfits Hleast. assert (reg ∈ free_zones b z) as Hin by (by eapply list_elem_of_lookup_2).
  assert (proper reg) as Hreg by (pose proof (zo_free _ _ Hok) as H; rewrite Forall_forall in H; auto).
  pose proof Hreg as (Hr1 & Hr2 & Hr3). destruct Hfits as (Hx1 & Hx2 & Hx3 & Hx4 & Hx5).
  assert (0 < 2 ^ k) as Hpk by (apply Z.pow_pos_nonneg; lia).
  assert (∀ a, x ≤ a < x + size → covers (free_zones b z) a) as Hcov.
  { intros a Hax. exists reg. split; [done|]. unfold in_region. lia. }
  wp_step. eapply (wp_add_to_zones b z x size); auto; try lia.
  { apply (zo_zone _ _ Hok), Hcov. lia. }
  intros out Ho1 Ho2 Ho3. wp_step. apply wp_log_allocation; [done|]. cbn beta.
  destruct (around_spec reg x Hreg) as (A1 & A2 & A3); [lia..|].
  destruct (boot_allocator_sort_regions_spec (carve (free_zones b z) i reg x)) as [_ Hperm].
  pose proof (Permutation_trans Hperm (carve_perm _ _ _ x Hi)) as Hperm'.
  destruct (free_piece_spec b z i reg (around reg x) _ Hok Hi Hperm' A1 A2) as (F1 & F2 & F3).
  { intros a Ha'. by apply A3. }
  eapply wp_mono; [apply wp_set_carved|]. intros r b' [-> ->]. split; [done|]. split.
  { split; [done|]. exists (delete i (free_zones b z)).
    split; [by apply delete_Permutation|]. cbn. by rewrite fn_lookup_insert. }
  apply (boot_alloc_post_intro b z x size freeable out
    (boot_allocator_sort_regions (carve (free_zones b z) i reg x))); try (done || lia).
  { apply Permutation_length in Hperm'. pose proof (Permutation_length (delete_Permutation _ _ _ Hi)) as Hlen.
    unfold tlen, around in *. rewrite !length_app in Hperm'. cbn [length] in Hlen.
    repeat case_match; cbn [length] in Hperm'; lia. }
  intros a. rewrite F3, A3. split; intros [Hca Hna]; (split; [done|]); [|tauto].
  intros Hax. apply Hna. unfold in_region. split; [lia|tauto].
Qed.

Lemma boot_alloc_at_loop_spec n i : (i + n = length (free_zones b z))%nat →
  wp (boot_alloc_at_loop n i size z freeable start0 end0 (2 ^ k)) b (λ r b',
    (r = 0 ∧ b' = b ∧ ∀ j reg x, (i ≤ j)%nat → free_zones b z !! j = Some reg →
       ¬ fits reg size start0 end0 k x) ∨
    (∃ reg, reg ∈ free_zones b z ∧ fits reg size start0 end0 k r ∧ carved b b' reg r ∧
       boot_alloc_post b b' z r size freeable)).
Proof.
  revert i. induction n as [|n IH]; intros i Hn; simpl.
  { apply wp_ret. left. split_and!; [done..|]. intros j reg x Hj Hl.
    apply lookup_lt_Some in Hl. lia. }
  wp_step. apply wp_gets.
  destruct (lookup_lt_is_Some_2 (free_zones b z) i) as [reg Hi]; [lia|]. rewrite Hi.
  assert (reg ∈ free_zones b z) as Hin by (by eapply list_elem_of_lookup_2).
  assert (proper reg) as Hreg by (pose proof (zo_free _ _ Hok) as H; rewrite Forall_forall in H; auto).
  assert ((∀ x, ¬ fits reg size start0 end0 k x) →
    wp (boot_alloc_at_loop n (S i) size z freeable start0 end0 (2 ^ k)) b (λ r b',
    (r = 0 ∧ b' = b ∧ ∀ j reg x, (i ≤ j)%nat → free_zones b z !! j = Some reg →
       ¬ fits reg size start0 end0 k x) ∨
    (∃ reg, reg ∈ free_zones b z ∧ fits reg size start0 end0 k r ∧ carved b b' reg r ∧
       boot_alloc_post b b' z r size freeable))) as Hskip.
  { intros Hno. eapply wp_mono; [apply IH; lia|].
    intros r b' [(-> & -> & Hall)|?]; [left|by right]. split_and!; [done..|].
    intros j reg' x Hj Hl. destruct (decide (j = i)) as [->|]; [by simplify_eq|].
    apply (Hall j); [lia|done]. }
  destruct (Z.leb_spec end0 (start reg)) as [Ha|Ha]; simpl;
    [apply Hskip; unfold fits; lia|].
  destruct (Z.leb_spec (end_ reg) start0) as [Hb|Hb]; [apply Hskip; unfold fits; lia|].
  assert (0 < 2 ^ k ≤ 2 ^ 30) by (split; [apply Z.pow_pos_nonneg|apply Z.pow_le_mono_r]; lia).
  rewrite (proj2 (Z.eqb_neq (2 ^ k) (-1))), (u32_small (2 ^ k)) by (assert (2 ^ 30 < W32) by done; lia).
  destruct (place_spec reg Hreg Ha Hb) as (Hx & Hleast & Hfits). fold (place reg) (room reg).
  rewrite (u32_small (place reg + size)) by lia.
  destruct (Z.leb_spec (place reg + size) (room reg)) as [Hle|Hgt].
  - apply Hfits in Hle. eapply wp_mono; [by apply wp_carve_at|]. intros r b' (-> & Hc & Hp). right. by exists reg.
  - apply Hskip. intros y Hy. pose proof (Hleast y Hy). destruct Hy as (_ & _ & _ & ? & ?).
    unfold room in Hgt. case_match; lia.
Qed.

End BootAllocAt.

Lemma boot_alloc_at_run (b : boot_allocator) (z : zone_type) (size : Z) (freeable : bool)
    (start0 end0 k : Z) :
  zone_ok b z → z ≠ INVALID_ZONE → frozen b = false → 0 < size → 0 ≤ start0 →
  start0 + size ≤ end0 → 0 ≤ k < 31 → end0 + 2 ^ k + size < W32 →
  tlen (free_zones b z) < MAX_REGIONS → tlen (res_zones b z) < MAX_REGIONS →
  tlen (allocations b) < MAX_REGIONS →
  ∃ r b', boot_alloc_at size z freeable start0 end0 (2 ^ k) b = Done (r, b') ∧
    ((r = 0 ∧ b' = b ∧ ∀ reg x, reg ∈ free_zones b z → ¬ fits reg size start0 end0 k x) ∨
     (∃ reg, reg ∈ free_zones b z ∧ fits reg size start0 end0 k r ∧ carved z size start0 end0 k b b' reg r ∧
        boot_alloc_post b b' z r size freeable)).
Proof.
  intros Hok Hz Hfr Hs Hs0 Hse Hk Hw Hfree Hres Hlog.
  pose proof (Z.pow_pos_nonneg 2 k ltac:(lia) ltac:(lia)).
  pose proof (boot_alloc_at_loop_spec b z size freeable start0 end0 k Hok Hs Hs0 Hse Hk Hw
    Hfree Hres Hlog (length (free_zones b z)) 0 eq_refl) as HW.
  apply wp_run in HW as (r & b' & E & HW). exists r, b'. split.
  - unfold boot_alloc_at, mbind, M_bind, gets. simpl.
    rewrite Hfr, (proj2 (Z.eqb_neq size 0)), (u32_small (start0 + size)) by lia.
    rewrite (proj2 (Z.ltb_ge end0 (start0 + size))) by lia. simpl.
    rewrite bool_decide_eq_false_2 by done. exact E.
  - destruct HW as [(-> & -> & HN)|?]; [left|by right]. split_and!; [done..|].
    intros reg x (i & Hi)%list_elem_of_lookup. apply (HN i); [lia|done].
Qed.

(** [boot_alloc_at] from consistent zone tables with room left, for a
    request that stays clear of the end of the address space, returns NULL
    only when no free region of the zone has an aligned place for the block
    inside [[start, end)]; otherwise it returns such a place, moves exactly
    that block from the free to the reserved table and keeps what is left of
    the region on both sides of it. *)
Theorem boot_alloc_at_correct (b : boot_allocator) (z : zone_type) (size : Z) (freeable : bool)
    (start0 end0 k : Z) :
  zone_ok b z → z ≠ INVALID_ZONE → frozen b = false → 0 < size → 0 ≤ start0 →
  start0 + size ≤ end0 → 0 ≤ k < 31 → end0 + 2 ^ k + size < W32 →
  tlen (free_zones b z) < MAX_REGIONS → tlen (res_zones b z) < MAX_REGIONS →
  tlen (allocations b) < MAX_REGIONS →
  ∃ r b', boot_alloc_at size z freeable start0 end0 (2 ^ k) b = Done (r, b') ∧
    ((r = 0 ∧ b' = b ∧ ∀ reg x, reg ∈ free_zones b z → ¬ fits reg size start0 end0 k x) ∨
     (∃ reg, reg ∈ free_zones b z ∧ fits reg size start0 end0 k r ∧
        boot_alloc_post b b' z r size freeable)).
Proof.
  intros Hok Hz Hfr Hs Hs0 Hse Hk Hw Hfree Hres Hlog.
  destruct (boot_alloc_at_run b z size freeable start0 end0 k) as (r & b' & E & HW); [done..|].
  exists r, b'. split; [done|]. destruct HW as [?|(reg & ? & ? & _ & ?)]; [by left|right; by exists reg].
Qed.

(** Once [boot_allocator_freeze] has run, both allocation functions
    refuse every request and leave the tables alone, for good. *)
Theorem boot_alloc_frozen (b : boot_allocator) :
  ∃ b', boot_allocator_freeze b = Done (tt, b') ∧
    (∀ size z freeable, boot_alloc size z freeable b' = Done (0, b')) ∧
    (∀ size z freeable s e align, boot_alloc_at size z freeable s e align b' = Done (0, b')).
Proof. eexists. split; [reflexivity|]. split; intros; reflexivity. Qed.
