(* ===== verification/BootInitThm.v ===== *)
(** * The boot allocator: initialisation from the memory map *)

From S2P Require Import Prelude Memory Page BootAlloc BootAllocInv BootAllocThm.
From Stdlib Require Import Sorting.Sorted.

(** ** Adding regions *)

Lemma regions_set b t l t' :
  regions (set_regions t l b) t' = if decide (t = t') then l else regions b t'.
Proof.
  simpl. case_decide; [subst; by rewrite fn_lookup_insert|by rewrite fn_lookup_insert_ne].
Qed.

Lemma wlp_add_region b s e t (Q : unit → boot_allocator → Prop) : s < e →
  (tlen (regions b t) < MAX_REGIONS → Q tt (set_regions t (regions b t ++ [Region s e]) b)) →
  wlp (boot_allocator_add_region s e t) b Q.
Proof.
  intros Hse HQ. unfold boot_allocator_add_region.
  rewrite (proj2 (Z.ltb_ge e s)), (proj2 (Z.eqb_neq s e)) by lia. simpl.
  apply wlp_bind, wp_wlp, wp_gets. destruct (Z.leb_spec MAX_REGIONS (tlen (regions b t))); [done|].
  by apply HQ.
Qed.

Lemma regions_overlap_separate l s e :
  regions_overlap l s e = false ↔ Forall (separate (Region s e)) l.
Proof.
  induction l as [|r l IH]; simpl; [done|]. rewrite Forall_cons. unfold separate at 1. simpl.
  destruct (Z.leb_spec e (start r)), (Z.leb_spec (end_ r) s); simpl; rewrite <- ?IH; naive_solver lia.
Qed.

(** What changes only the FREE table, by adding to it addresses of [A] that
    are not FREE yet; when none of [A] was FREE, all of [A] is added. *)
Record free_added (A : Z → Prop) (b b' : boot_allocator) : Prop := {
  fa_other : ∀ t, t ≠ FREE_MEMORY → regions b' t = regions b t;
  fa_zones : free_zones b' = free_zones b ∧ res_zones b' = res_zones b;
  fa_len : tlen (regions b FREE_MEMORY) ≤ MAX_REGIONS → tlen (regions b' FREE_MEMORY) ≤ MAX_REGIONS;
  fa_proper : Forall proper (regions b FREE_MEMORY) → Forall proper (regions b' FREE_MEMORY);
  fa_disjoint : Forall proper (regions b FREE_MEMORY) → disjoint_regions (regions b FREE_MEMORY) →
    disjoint_regions (regions b' FREE_MEMORY);
  fa_keep : ∀ a, covers (regions b FREE_MEMORY) a → covers (regions b' FREE_MEMORY) a;
  fa_only : ∀ a, covers (regions b' FREE_MEMORY) a → covers (regions b FREE_MEMORY) a ∨ A a;
  fa_all : Forall proper (regions b FREE_MEMORY) →
    (∀ a, A a → ¬ covers (regions b FREE_MEMORY) a) →
    ∀ a, A a → covers (regions b' FREE_MEMORY) a }.

Lemma free_added_refl b (A : Z → Prop) : (∀ a, ¬ A a) → free_added A b b.
Proof. split; naive_solver. Qed.

Lemma free_added_trans (A A1 A2 : Z → Prop) b b1 b2 :
  (∀ a, A a ↔ A1 a ∨ A2 a) → (∀ a, A1 a → ¬ A2 a) →
  free_added A1 b b1 → free_added A2 b1 b2 → free_added A b b2.
Proof.
  intros HA Hex [O1 [Z1 Z1'] L1 P1 D1 K1 S1 T1] [O2 [Z2 Z2'] L2 P2 D2 K2 S2 T2]. split.
  - intros t Ht. rewrite O2, O1; done.
  - split; congruence.
  - auto.
  - auto.
  - auto.
  - auto.
  - intros a [[?|?]%S1|?]%S2; rewrite HA; auto.
  - intros Hp Hn a Ha. apply HA in Ha as [Ha|Ha].
    + apply K2, T1; [done| |done]. intros x Hx. apply Hn, HA. auto.
    + apply T2; [auto| |done]. intros x Hx Hc. apply S1 in Hc as [Hc|Hc].
      * eapply Hn; [|exact Hc]. apply HA. auto.
      * by apply (Hex x).
Qed.

Lemma free_added_iff (A A' : Z → Prop) b b' : (∀ a, A a ↔ A' a) →
  free_added A b b' → free_added A' b b'.
Proof.
  intros HA [O1 Z1 L1 P1 D1 K1 S1 T1]. split; auto.
  - intros a Ha. rewrite <- HA. auto.
  - intros Hp Hn a Ha. apply T1; [done| |by apply HA]. intros x Hx. apply Hn. by apply HA.
Qed.

Lemma wlp_add_free_piece b cur e : 0 ≤ cur → e < W32 →
  wlp (add_free_piece cur e) b (λ _ b', free_added (λ a, cur ≤ a < e) b b').
Proof.
  intros Hc He. unfold add_free_piece. destruct (Z.ltb_spec cur e).
  2: { apply wlp_ret, free_added_refl. lia. }
  apply wlp_bind. unfold boot_allocator_range_overlaps. apply wp_wlp, wp_gets.
  assert (proper (Region cur e)) as Hp by (unfold proper; simpl; lia).
  destruct (regions_overlap (regions b FREE_MEMORY) cur e) eqn:Ho; simpl.
  - apply wlp_ret. split; auto. intros Hpr Hn a Ha. exfalso.
    assert (regions_overlap (regions b FREE_MEMORY) cur e = false); [|congruence].
    apply regions_overlap_separate, separate_covers; [done..|]. intros x Hx. by apply Hn.
  - apply regions_overlap_separate in Ho. apply wlp_add_region; [done|]. intros Hroom.
    split; [intros t Ht; rewrite regions_set; by rewrite decide_False|done|..];
      rewrite regions_set, decide_True by done.
    + intros _. unfold tlen in *. rewrite length_app. simpl. lia.
    + intros Hf. apply Forall_app. split; [done|]. by apply Forall_singleton.
    + intros _ Hd. rewrite <- Permutation_cons_append. by split.
    + intros a. rewrite covers_app. auto.
    + intros a. rewrite covers_app, covers_singleton. auto.
    + intros _ _ a Ha. rewrite covers_app, covers_singleton. auto.
Qed.

(** ** Carving the reserved regions out of a free range *)

Lemma wlp_free_handler_loop ress cur end0 b : Forall proper ress → sorted_regions ress →
  0 ≤ cur → end0 < W32 →
  wlp (free_handler_loop ress cur end0) b
    (λ _ b', free_added (λ a, cur ≤ a < end0 ∧ ¬ covers ress a) b b').
Proof.
  revert cur b. induction ress as [|res ress IH]; intros cur b Hp Hs Hc He; simpl.
  { eapply wlp_mono; [by apply wlp_add_free_piece|]. intros [] b'. apply free_added_iff.
    intros a. rewrite covers_nil. tauto. }
  apply Forall_cons in Hp as [Hres Hp]. apply StronglySorted_inv in Hs as [Hs Hfirst].
  pose proof Hres as (Hr1 & Hr2 & Hr3).
  destruct (Z.leb_spec (end_ res) cur); simpl.
  { eapply wlp_mono; [by apply IH|]. intros [] b'. apply free_added_iff. intros a.
    rewrite covers_cons. unfold in_region. split; intros [? ?]; split; naive_solver lia. }
  destruct (Z.leb_spec end0 (start res)); simpl.
  { eapply wlp_mono; [by apply IH|]. intros [] b'. apply free_added_iff. intros a.
    rewrite covers_cons. unfold in_region. split; intros [? ?]; split; naive_solver lia. }
  apply wlp_bind. eapply wlp_mono; [apply (wlp_add_free_piece b cur (start res)); lia|].
  intros [] b1 Hb1. rewrite (proj2 (Z.ltb_lt cur (end_ res))) by done. cbn zeta.
  assert (∀ a, a < start res → ¬ covers (res :: ress) a) as Hbefore.
  { intros a Ha (r & Hr & Hin). unfold in_region in Hin. rewrite Forall_forall in Hfirst.
    apply elem_of_cons in Hr as [->|Hr]; [lia|]. specialize (Hfirst _ Hr). simpl in Hfirst. lia. }
  destruct (Z.leb_spec end0 (end_ res)).
  - apply wlp_ret. eapply free_added_iff; [|exact Hb1]. intros a. simpl. split.
    + intros Ha. split; [lia|]. apply Hbefore. lia.
    + intros [Ha Hn]. rewrite covers_cons in Hn. unfold in_region in Hn. lia.
  - eapply wlp_mono; [apply IH; done || lia|]. intros [] b2 Hb2.
    eapply free_added_trans; [| |exact Hb1|exact Hb2]; simpl.
    + intros a. split.
      * intros [Ha Hn]. destruct (decide (a < start res)); [left; lia|right].
        rewrite covers_cons in Hn. unfold in_region in Hn. split; [lia|tauto].
      * intros [Ha|[Ha Hn]]; (split; [lia|]); [apply Hbefore; lia|].
        rewrite covers_cons. unfold in_region. intros [|]; [lia|done].
    + lia.
Qed.

(** [boot_allocator_free_handler] adds to the FREE table exactly what is
    left of the range once the reserved regions (sorted, possibly
    overlapping) are cut out, as long as the range was not FREE before; it
    never adds an address that is reserved or outside the range, keeps the
    FREE regions pairwise disjoint, and touches no other table. *)
Theorem boot_allocator_free_handler_correct (b : boot_allocator) (start0 end0 : Z) :
  Forall proper (regions b RESERVED_MEMORY) → sorted_regions (regions b RESERVED_MEMORY) →
  0 ≤ start0 → end0 < W32 →
  wlp (boot_allocator_free_handler start0 end0) b (λ _ b',
    free_added (λ a, start0 ≤ a < end0 ∧ ¬ covers (regions b RESERVED_MEMORY) a) b b').
Proof.
  intros Hp Hs H0 He. unfold boot_allocator_free_handler. apply wlp_bind, wp_wlp, wp_gets.
  by apply wlp_free_handler_loop.
Qed.

(** ** Distributing regions over the zones *)

Section Zones.
Context (get : boot_allocator → zone_type → list region).
Context (set : zone_type → list region → boot_allocator → boot_allocator).
Context (Hget : ∀ z l b z', get (set z l b) z' = if decide (z = z') then l else get b z').
Context (keep : boot_allocator → boot_allocator → Prop) `{!PreOrder keep}.
Context (Hkeep : ∀ z l b, keep b (set z l b)).

(** The addresses of [R] were added to the tables of their zones; [D] tells
    whether the pieces added are disjoint. *)
Record zones_added (D : Prop) (R : Z → Prop) (b b' : boot_allocator) : Prop := {
  za_keep : keep b b';
  za_len : ∀ z, tlen (get b z) ≤ MAX_REGIONS → tlen (get b' z) ≤ MAX_REGIONS;
  za_proper : ∀ z, Forall proper (get b z) → Forall proper (get b' z);
  za_covers : ∀ z a, covers (get b' z) a ↔
    covers (get b z) a ∨ R a ∧ boot_alloc_get_addr_zone a = z;
  za_disjoint : D → ∀ z, Forall proper (get b z) → disjoint_regions (get b z) →
    (∀ a, R a → ¬ covers (get b z) a) → disjoint_regions (get b' z) }.

Lemma zones_added_refl D R b : (∀ a, ¬ R a) → zones_added D R b b.
Proof. intros HR. split; try done. intros z a. split; [by left|]. intros [|[?%HR _]]; done. Qed.

Lemma zones_added_trans (D D1 D2 : Prop) (R R1 R2 : Z → Prop) b b1 b2 :
  (∀ a, R a ↔ R1 a ∨ R2 a) → (D → D1 ∧ D2 ∧ ∀ a, R1 a → ¬ R2 a) →
  zones_added D1 R1 b b1 → zones_added D2 R2 b1 b2 → zones_added D R b b2.
Proof.
  intros HR HD [K1 L1 P1 C1 X1] [K2 L2 P2 C2 X2]. split; auto.
  - by etransitivity.
  - intros z a. rewrite C2, C1, HR. tauto.
  - intros (HD1 & HD2 & Hex)%HD z Hp Hd Hn. apply X2; [done|auto|..].
    + apply X1; auto. intros a Ha. apply Hn, HR. auto.
    + intros a Ha [Hc|[Hc _]]%C1; [|by apply (Hex a)]. eapply Hn; [|exact Hc]. apply HR. auto.
Qed.

Lemma zones_added_iff D (R R' : Z → Prop) b b' : (∀ a, R a ↔ R' a) →
  zones_added D R b b' → zones_added D R' b b'.
Proof.
  intros HR [K1 L1 P1 C1 X1]. split; auto.
  - intros z a. rewrite C1, HR. tauto.
  - intros HD z Hp Hd Hn. apply X1; auto. intros a Ha. apply Hn. by apply HR.
Qed.

Lemma wlp_push_zone z s e b : proper (Region s e) →
  (∀ a, s ≤ a < e → boot_alloc_get_addr_zone a = z) →
  wlp (push_zone get set z (Region s e)) b (λ _ b', zones_added True (λ a, s ≤ a < e) b b').
Proof.
  intros Hp Hz. unfold push_zone. apply wlp_bind, wp_wlp, wp_gets.
  destruct (Z.ltb_spec (tlen (get b z)) MAX_REGIONS) as [Hl|Hl]; [|done].
  apply wp_wlp, wp_modify. split; [done|..].
  - intros z'. rewrite Hget. case_decide; [|done]. subst. unfold tlen in *.
    rewrite length_app. simpl. lia.
  - intros z' Hf. rewrite Hget. case_decide; [|done]. subst. apply Forall_app.
    split; [done|]. by apply Forall_singleton.
  - intros z' a. rewrite Hget. case_decide.
    + subst. rewrite covers_app, covers_singleton. unfold in_region. simpl. naive_solver.
    + split; [by left|]. intros [|[Ha E]]; [done|]. by rewrite (Hz a Ha) in E.
  - intros _ z' Hf Hd Hn. rewrite Hget. case_decide; [|done]. subst.
    rewrite <- Permutation_cons_append. split; [|done]. by apply separate_covers.
Qed.

(** One more round per zone limit still ahead of [cur]. *)
Definition rounds (cur : Z) : nat :=
  if decide (HIGHMEM_START ≤ cur) then 2 else if decide (LOWMEM_START ≤ cur) then 3 else 4.

Lemma wlp_init_zones_cut fuel cur re b : 0 ≤ cur → re < W32 →
  (cur < re → (rounds cur ≤ fuel)%nat) → (1 ≤ fuel)%nat →
  wlp (init_zones_cut fuel get set cur re) b (λ _ b', zones_added True (λ a, cur ≤ a < re) b b').
Proof.
  revert cur b. induction fuel as [|fuel IH]; intros cur b Hc Hre Hf Hf1; [lia|].
  cbn [init_zones_cut]. destruct (Z.ltb_spec cur re) as [Hlt|Hge].
  2: { apply wlp_ret, zones_added_refl. lia. }
  specialize (Hf Hlt). unfold rounds in Hf.
  match goal with |- context [let '(_, _) := ?p in _] =>
    assert (∃ zone zone_end, p = (zone, zone_end) ∧ cur < zone_end ∧
      (∀ a, cur ≤ a < zone_end → boot_alloc_get_addr_zone a = zone) ∧
      (zone_end < re → (rounds zone_end ≤ fuel)%nat)) as (zone & zone_end & -> & Hze & Hz & Hr) end.
  { unfold HIGHMEM_START, LOWMEM_START, HIGHMEM_END, W32 in *.
    destruct (Z.leb_spec 939524096 cur); [|destruct (Z.leb_spec 16777216 cur)];
      do 2 eexists; (split; [done|]); (split; [lia|]);
      (split; [intros a Ha; unfold boot_alloc_get_addr_zone, HIGHMEM_START, LOWMEM_START;
               repeat case_match; to_prop; done || lia
              |intros; unfold rounds, HIGHMEM_START, LOWMEM_START; repeat case_decide; lia]). }
  set (sub_end := if re <? zone_end then re else zone_end).
  assert (cur < sub_end ∧ sub_end ≤ re ∧ sub_end ≤ zone_end ∧ (sub_end = re ∨ sub_end = zone_end))
    as Hsub by (unfold sub_end; destruct (Z.ltb_spec re zone_end); lia).
  rewrite (proj2 (Z.ltb_lt cur sub_end)) by lia. apply wlp_bind.
  eapply wlp_mono; [apply wlp_push_zone|].
  { unfold proper. simpl. lia. }
  { intros a Ha. apply Hz. lia. }
  intros [] b1 Hb1. eapply wlp_mono; [apply (IH sub_end); [lia|lia| |]|].
  - intros Hs. destruct Hsub as (_ & _ & _ & [->| ->]); [lia|auto].
  - repeat case_decide; lia.
  - intros [] b2 Hb2. eapply zones_added_trans; [| |exact Hb1|exact Hb2]; simpl; [lia|].
    intros _. split_and!; [done..|]. intros a. lia.
Qed.

Lemma wlp_init_zones_loop reg b : Forall proper reg →
  wlp (init_zones_loop get set reg) b (λ _ b', zones_added (disjoint_regions reg) (covers reg) b b').
Proof.
  revert b. induction reg as [|r reg IH]; intros b Hp; cbn [init_zones_loop].
  { apply wlp_ret, zones_added_refl. by intros a []%covers_nil. }
  apply Forall_cons in Hp as [Hr Hp]. apply wlp_bind.
  eapply wlp_mono; [apply wlp_init_zones_cut|].
  1, 2: unfold proper in Hr; lia.
  1, 2: unfold rounds; repeat case_decide; lia.
  intros [] b1 Hb1. eapply wlp_mono; [by apply IH|]. intros [] b2 Hb2.
  eapply zones_added_trans; [| |exact Hb1|exact Hb2]; simpl.
  - intros a. by rewrite covers_cons.
  - intros [Hs Hd]. split_and!; [done..|]. intros a Ha. by apply separate_not_covers with r.
Qed.

End Zones.

(** ** The whole initialisation *)

Definition entry_ok (e : mmap_entry) : Prop := 0 ≤ addr e ∧ 0 < len e ∧ addr e + len e < W32.

(** The regions the memory map calls available ([free = true]) or not. *)
Definition mmap_regions (free : bool) (mmap : list mmap_entry) : list region :=
  (λ e, Region (addr e) (addr e + len e)) <$> filter (λ e, (mtype e =? 1) = free) mmap.

(** Everything the kernel is told about itself lies below 4 GiB, the tables
    and the image in the linear mapping. *)
Definition env_ok (env : boot_env) : Prop :=
  KERNEL_VADDR_BASE ≤ gdtr_base env ∧ 0 ≤ gdtr_limit env ∧ gdtr_base env + gdtr_limit env + 1 < W32 ∧
  KERNEL_VADDR_BASE ≤ idtr_base env ∧ 0 ≤ idtr_limit env ∧ idtr_base env + idtr_limit env + 1 < W32 ∧
  KERNEL_VADDR_BASE ≤ kernel_start env ∧ kernel_start env < kernel_end env ∧ kernel_end env < W32 ∧
  0 ≤ mb2info env ∧ 0 < mb2info_total_size env ∧ mb2info env + mb2info_total_size env < W32.

(** The regions reserved whatever the memory map says. *)
Definition builtin_reserved (env : boot_env) : list region :=
  [Region 655360 1048576;
   Region (gdtr_base env - KERNEL_VADDR_BASE) (gdtr_base env + gdtr_limit env + 1 - KERNEL_VADDR_BASE);
   Region (idtr_base env - KERNEL_VADDR_BASE) (idtr_base env + idtr_limit env + 1 - KERNEL_VADDR_BASE);
   Region 0 4096; Region 4096 654336;
   Region (kernel_start env - KERNEL_VADDR_BASE) (kernel_end env - KERNEL_VADDR_BASE);
   Region (mb2info env) (mb2info env + mb2info_total_size env)].

Lemma wlp_mmap_iter (P : list region → boot_allocator → Prop) handler free :
  (∀ l b e, entry_ok e → P l b →
     wlp (handler (addr e) (addr e + len e)) b
       (λ _ b', P (l ++ [Region (addr e) (addr e + len e)]) b')) →
  ∀ mmap l b, Forall entry_ok mmap → P l b →
  wlp (mb2_mmap_iter mmap handler free) b (λ _ b', P (l ++ mmap_regions free mmap) b').
Proof.
  intros Hstep mmap. induction mmap as [|e mmap IH]; intros l b Hm HP; simpl.
  { apply wlp_ret. by rewrite app_nil_r. }
  apply Forall_cons in Hm as [He Hm]. apply wlp_bind. pose proof He as (? & ? & ?).
  rewrite (u32_small (addr e)), u32_small by lia. unfold mmap_regions. rewrite filter_cons.
  destruct (mtype e =? 1), free; simpl; rewrite ?decide_True, ?decide_False by done.
  2, 3: apply wlp_ret; by apply IH.
  all: eapply wlp_mono; [by apply Hstep|]; intros [] b' HP';
    eapply wlp_mono; [by apply IH|]; intros [] b''; unfold mmap_regions; by rewrite <- app_assoc.
Qed.

(** While the reserved regions are collected. *)
Record collecting (l : list region) (b : boot_allocator) : Prop := {
  co_res : regions b RESERVED_MEMORY = l;
  co_free : regions b FREE_MEMORY = [];
  co_zones : ∀ z, free_zones b z = [] ∧ res_zones b z = [];
  co_proper : Forall proper l;
  co_len : tlen l ≤ MAX_REGIONS }.

Lemma wlp_collect l s e b : proper (Region s e) → collecting l b →
  wlp (boot_allocator_add_region s e RESERVED_MEMORY) b (λ _ b', collecting (l ++ [Region s e]) b').
Proof.
  intros Hp [<- Hf Hz Hpr Hl]. apply wlp_add_region; [unfold proper in Hp; simpl in Hp; lia|].
  intros Hroom. split; rewrite ?regions_set; try done.
  - apply Forall_app. split; [done|]. by apply Forall_singleton.
  - unfold tlen in *. rewrite length_app. simpl. lia.
Qed.

Lemma wlp_collect_virt l s e b : KERNEL_VADDR_BASE ≤ s → s < e → e < W32 → collecting l b →
  wlp (reserve_virt s e) b
    (λ _ b', collecting (l ++ [Region (s - KERNEL_VADDR_BASE) (e - KERNEL_VADDR_BASE)]) b').
Proof.
  intros Hs He Hw Hc. unfold reserve_virt, VIRT_TO_PHYS_LINEAR.
  rewrite !(proj2 (Z.leb_le KERNEL_VADDR_BASE _)) by lia.
  rewrite !u32_small by (unfold KERNEL_VADDR_BASE in *; lia).
  do 2 (apply wlp_bind, wlp_bind, wp_wlp, wp_ret, wlp_ret).
  apply wlp_collect; [|done]. unfold proper, KERNEL_VADDR_BASE in *. simpl. lia.
Qed.

(** While the free regions are added: the reserved ones are settled. *)
Record freeing (res l : list region) (b : boot_allocator) : Prop := {
  fr_res : regions b RESERVED_MEMORY = res;
  fr_zones : ∀ z, free_zones b z = [] ∧ res_zones b z = [];
  fr_len : tlen (regions b FREE_MEMORY) ≤ MAX_REGIONS;
  fr_proper : Forall proper (regions b FREE_MEMORY);
  fr_disjoint : disjoint_regions (regions b FREE_MEMORY);
  fr_sound : ∀ a, covers (regions b FREE_MEMORY) a → covers l a ∧ ¬ covers res a;
  fr_full : disjoint_regions l → ∀ a, covers l a → ¬ covers res a →
    covers (regions b FREE_MEMORY) a }.

Lemma disjoint_snoc l r : disjoint_regions (l ++ [r]) ↔ Forall (separate r) l ∧ disjoint_regions l.
Proof. by rewrite <- Permutation_cons_append. Qed.

Lemma wlp_freeing res l e b : Forall proper res → sorted_regions res → entry_ok e → freeing res l b →
  wlp (boot_allocator_free_handler (addr e) (addr e + len e)) b
    (λ _ b', freeing res (l ++ [Region (addr e) (addr e + len e)]) b').
Proof.
  intros Hp Hs (? & ? & ?) [Hres Hz Hl Hfp Hfd Hso Hfu].
  unfold boot_allocator_free_handler. apply wlp_bind, wp_wlp, wp_gets. rewrite Hres.
  eapply wlp_mono; [apply wlp_free_handler_loop; done || lia|].
  intros [] b' [O1 [Z1 Z2] L1 P1 D1 K1 S1 T1]. split; auto.
  - by rewrite O1.
  - intros z. by rewrite Z1, Z2.
  - intros a Ha. rewrite covers_app, covers_singleton. unfold in_region. simpl.
    apply S1 in Ha as [Ha|[Ha Hn]]; [|by auto]. apply Hso in Ha as [? ?]. auto.
  - intros [Hsep Hd]%disjoint_snoc a Ha Hn.
    rewrite covers_app, covers_singleton in Ha. destruct Ha as [Ha|Ha]; [by apply K1, Hfu|].
    apply T1; [done| |done]. intros x [Hx _] [Hx2 _]%Hso.
    by apply (separate_not_covers _ _ x Hsep).
Qed.

(** Steps that leave the FREE and RESERVED tables and the zones alone. *)
Definition same_tables (b b' : boot_allocator) : Prop :=
  (∀ t, t ≠ HOLES_MEMORY → regions b' t = regions b t) ∧
  free_zones b' = free_zones b ∧ res_zones b' = res_zones b.

#[export] Instance same_tables_preorder : PreOrder same_tables.
Proof.
  split; [done|]. intros b1 b2 b3 (H1 & ? & ?) (H2 & ? & ?). split_and!; [|congruence..].
  intros t Ht. by rewrite H2, H1.
Qed.

Lemma same_tables_holes l b : same_tables b (set_regions HOLES_MEMORY l b).
Proof. split_and!; [|done..]. intros t Ht. rewrite regions_set. by rewrite decide_False. Qed.

Lemma merge_loop_not_hang rest cur acc : merge_loop cur rest acc ≠ Hang.
Proof.
  revert cur acc. induction rest as [|r rest IH]; intros cur acc; simpl; unfold push_merged.
  - by case_match.
  - case_match; [apply IH|]. case_match; simpl; [apply IH|done].
Qed.

Lemma wlp_lift_merge l (s : boot_allocator) (Q : list region → boot_allocator → Prop) :
  (∀ out, BOOT_ALLOCATOR_SORT_AND_MERGE l = Done out → Q out s) →
  wlp (lift (BOOT_ALLOCATOR_SORT_AND_MERGE l)) s Q.
Proof.
  intros HQ. unfold wlp, lift.
  assert (BOOT_ALLOCATOR_SORT_AND_MERGE l ≠ Hang) as Hh.
  { unfold BOOT_ALLOCATOR_SORT_AND_MERGE, boot_allocator_merge_contiguous_regions.
    case_match; [done|]. apply merge_loop_not_hang. }
  destruct (BOOT_ALLOCATOR_SORT_AND_MERGE l); auto.
Qed.

Lemma wlp_fill_gaps_loop l b : wlp (fill_gaps_loop l) b (λ _ b', same_tables b b').
Proof.
  revert b. induction l as [|r l IH]; intros b; [done|]. destruct l as [|r' l]; [done|].
  cbn [fill_gaps_loop]. apply wlp_bind.
  assert (wlp (if end_ r <? start r' then boot_allocator_add_region (end_ r) (start r') HOLES_MEMORY
               else mret tt) b (λ _ b', same_tables b b')) as Hw.
  { destruct (Z.ltb_spec (end_ r) (start r')); [|by apply wlp_ret].
    apply wlp_add_region; [done|]. intros _. apply same_tables_holes. }
  eapply wlp_mono; [exact Hw|]. intros [] b1 H1. eapply wlp_mono; [apply IH|].
  intros [] b2 H2. by etransitivity.
Qed.

Lemma wlp_fill_gaps b :
  wlp boot_allocator_fill_gaps_as_holes b (λ _ b', same_tables b b').
Proof.
  unfold boot_allocator_fill_gaps_as_holes. apply wlp_bind, wp_wlp, wp_gets.
  case_match; [by apply wlp_ret|]. apply wlp_bind, wlp_lift_merge. intros out _.
  apply wlp_bind. eapply wlp_mono; [apply wlp_fill_gaps_loop|]. intros [] b1 H1.
  unfold sort_and_merge_regions. apply wlp_bind, wp_wlp, wp_gets, wlp_bind, wlp_lift_merge.
  intros out' _. apply wp_wlp, wp_modify. etransitivity; [exact H1|]. apply same_tables_holes.
Qed.

Lemma wlp_init_total_size s e b :
  wlp (boot_allocator_init_total_size s e) b (λ _ b', same_tables b b').
Proof. by unfold boot_allocator_init_total_size. Qed.

Lemma wlp_total_size mmap free b :
  wlp (mb2_mmap_iter mmap boot_allocator_init_total_size free) b (λ _ b', same_tables b b').
Proof.
  revert b. induction mmap as [|e mmap IH]; intros b; simpl; [by apply wlp_ret|].
  apply wlp_bind. destruct (negb (mtype e =? 1) && free), ((mtype e =? 1) && negb free);
    try (apply wlp_ret; apply IH).
  eapply wlp_mono; [apply wlp_init_total_size|]. intros [] b1 H1.
  eapply wlp_mono; [apply IH|]. intros [] b2 H2. by etransitivity.
Qed.

(** What the zone tables hold in the end, by the tables they were built from. *)
Record zones_built (b0 b : boot_allocator) : Prop := {
  zb_regions : regions b = regions b0;
  zb_free_proper : ∀ z, Forall proper (free_zones b z);
  zb_free_len : ∀ z, tlen (free_zones b z) ≤ MAX_REGIONS;
  zb_free_disjoint : ∀ z, disjoint_regions (free_zones b z);
  zb_free : ∀ z a, covers (free_zones b z) a ↔
    covers (regions b0 FREE_MEMORY) a ∧ boot_alloc_get_addr_zone a = z;
  zb_res_proper : ∀ z, Forall proper (res_zones b z);
  zb_res_len : ∀ z, tlen (res_zones b z) ≤ MAX_REGIONS;
  zb_res : ∀ z a, covers (res_zones b z) a ↔
    covers (regions b0 RESERVED_MEMORY) a ∧ boot_alloc_get_addr_zone a = z }.

Definition keep_res (b b' : boot_allocator) : Prop :=
  regions b' = regions b ∧ res_zones b' = res_zones b.

Definition keep_free (b b' : boot_allocator) : Prop :=
  regions b' = regions b ∧ free_zones b' = free_zones b.

#[local] Instance keep_res_preorder : PreOrder keep_res.
Proof. split; [done|]. intros b1 b2 b3 [? ?] [? ?]. split; congruence. Qed.

#[local] Instance keep_free_preorder : PreOrder keep_free.
Proof. split; [done|]. intros b1 b2 b3 [? ?] [? ?]. split; congruence. Qed.

Lemma zone_insert (g : zone_type → list region) z l z' :
  (<[z := l]> g) z' = if decide (z = z') then l else g z'.
Proof. case_decide; [subst; by rewrite fn_lookup_insert|by rewrite fn_lookup_insert_ne]. Qed.

Lemma wlp_init_zones b : (∀ z, free_zones b z = [] ∧ res_zones b z = []) →
  Forall proper (regions b FREE_MEMORY) → Forall proper (regions b RESERVED_MEMORY) →
  disjoint_regions (regions b FREE_MEMORY) →
  wlp (boot_allocator_init_zones free_zones set_free_zone FREE_MEMORY ;;
       boot_allocator_init_zones res_zones set_res_zone RESERVED_MEMORY) b
    (λ _ b', zones_built b b').
Proof.
  intros He Hfp Hrp Hd. unfold boot_allocator_init_zones.
  apply wlp_bind, wlp_bind, wp_wlp, wp_gets.
  eapply wlp_mono; [apply (wlp_init_zones_loop free_zones set_free_zone
    (λ z l b z', zone_insert (free_zones b) z l z') keep_res); done|].
  intros [] b1 [[K1 K1'] L1 P1 C1 D1]. apply wlp_bind, wp_wlp, wp_gets.
  eapply wlp_mono; [apply (wlp_init_zones_loop res_zones set_res_zone
    (λ z l b z', zone_insert (res_zones b) z l z') keep_free); [done|by rewrite K1]|].
  intros [] b2 [[K2 K2'] L2 P2 C2 _]. rewrite K1 in C2.
  split; [congruence|..]; intros z; pose proof (He z) as [Hf Hr]; rewrite ?K2'.
  - apply P1. by rewrite Hf.
  - apply L1. by rewrite Hf.
  - apply D1; rewrite ?Hf; try done. by intros a _ []%covers_nil.
  - intros a. rewrite C1, Hf, covers_nil. tauto.
  - apply P2. by rewrite K1', Hr.
  - apply L2. by rewrite K1', Hr.
  - intros a. rewrite C2, K1', Hr, covers_nil. tauto.
Qed.

Lemma wlp_sort_and_merge_zone z b0 b : zones_built b0 b →
  wlp (sort_and_merge_zone z) b (λ _ b', zones_built b0 b').
Proof.
  intros [H1 H2 H3 H4 H5 H6 H7 H8]. unfold sort_and_merge_zone. apply wlp_bind, wp_wlp, wp_gets.
  destruct (sort_and_merge_spec (free_zones b z)) as (f & Ef & [F1 F2 F3 F4 _] & _); [done..|].
  destruct (sort_and_merge_spec (res_zones b z)) as (r & Er & [R1 R2 R3 _ _] & _); [done..|].
  apply wlp_bind, wp_wlp. eapply wp_lift; [exact Ef|]. apply wlp_bind, wp_wlp, wp_modify.
  apply wlp_bind, wp_wlp. eapply wp_lift; [exact Er|]. apply wp_wlp, wp_modify.
  specialize (H3 z) as H3z. specialize (H7 z) as H7z.
  split; simpl; try done; intros z'; rewrite ?zone_insert; case_decide; subst; auto; try lia.
  - intros a. by rewrite F2, H5.
  - intros a. by rewrite R2, H8.
Qed.

(** What [boot_allocator_init] promises: [R] and [F] are the ranges reserved
    and available according to the kernel and the memory map. *)
Record boot_ready (R F : list region) (b : boot_allocator) : Prop := {
  br_zone : ∀ z, zone_ok b z;
  br_res : ∀ z a, covers (res_zones b z) a ↔ covers R a ∧ boot_alloc_get_addr_zone a = z;
  br_sound : ∀ z a, covers (free_zones b z) a → covers F a ∧ ¬ covers R a;
  br_full : disjoint_regions F → ∀ a, covers F a → ¬ covers R a →
    covers (free_zones b (boot_alloc_get_addr_zone a)) a }.

Lemma wlp_collect_all env mmap b (k : M boot_allocator unit) Q :
  env_ok env → Forall entry_ok mmap → collecting [] b →
  (∀ b', collecting (builtin_reserved env ++ mmap_regions false mmap) b' → wlp k b' Q) →
  wlp (boot_allocator_add_region 655360 1048576 RESERVED_MEMORY ;;
       reserve_virt (gdtr_base env) ((gdtr_base env ⊞ gdtr_limit env) ⊞ 1) ;;
       reserve_virt (idtr_base env) ((idtr_base env ⊞ idtr_limit env) ⊞ 1) ;;
       boot_allocator_add_region 0 4096 RESERVED_MEMORY ;;
       boot_allocator_add_region 4096 654336 RESERVED_MEMORY ;;
       reserve_virt (kernel_start env) (kernel_end env) ;;
       boot_allocator_add_region (mb2info env) (mb2info env ⊞ mb2info_total_size env) RESERVED_MEMORY ;;
       mb2_mmap_iter mmap boot_allocator_reserved_wrapper false ;; k) b Q.
Proof.
  intros (G1 & G2 & G3 & I1 & I2 & I3 & K1 & K2 & K3 & M1 & M2 & M3) Hm Hc Hk.
  assert (0 < KERNEL_VADDR_BASE) by done.
  rewrite (u32_small (gdtr_base env + gdtr_limit env)), (u32_small (gdtr_base env + _ + 1)) by lia.
  rewrite (u32_small (idtr_base env + idtr_limit env)), (u32_small (idtr_base env + _ + 1)) by lia.
  rewrite u32_small by lia.
  apply wlp_bind. eapply wlp_mono; [by apply (wlp_collect [])|]. intros [] b1 H1.
  apply wlp_bind. eapply wlp_mono; [eapply wlp_collect_virt; [lia..|exact H1]|]. intros [] b2 H2.
  apply wlp_bind. eapply wlp_mono; [eapply wlp_collect_virt; [lia..|exact H2]|]. intros [] b3 H3.
  apply wlp_bind. eapply wlp_mono; [eapply wlp_collect; [done|exact H3]|]. intros [] b4 H4.
  apply wlp_bind. eapply wlp_mono; [eapply wlp_collect; [done|exact H4]|]. intros [] b5 H5.
  apply wlp_bind. eapply wlp_mono; [eapply wlp_collect_virt; [lia..|exact H5]|]. intros [] b6 H6.
  apply wlp_bind. eapply wlp_mono;
    [eapply wlp_collect; [unfold proper; simpl; lia|exact H6]|]. intros [] b7 H7.
  apply wlp_bind. eapply wlp_mono;
    [apply (wlp_mmap_iter collecting boot_allocator_reserved_wrapper false); [|done|exact H7]
    |intros [] b8; apply Hk].
  intros l b8 e (? & ? & ?) Hl. apply wlp_collect; [|done]. unfold proper. simpl. lia.
Qed.

Lemma wlp_sort_and_merge_regions t b (Q : unit → boot_allocator → Prop) :
  Forall proper (regions b t) → tlen (regions b t) ≤ MAX_REGIONS →
  (∀ out, merge_result (regions b t) out → sorted_regions out → Q tt (set_regions t out b)) →
  wlp (sort_and_merge_regions t) b Q.
Proof.
  intros Hp Hl HQ. unfold sort_and_merge_regions. apply wlp_bind, wp_wlp, wp_gets.
  destruct (sort_and_merge_spec _ Hp Hl) as (out & E & Hm & Hs).
  apply wlp_bind, wp_wlp. eapply wp_lift; [exact E|]. apply wp_wlp, wp_modify. auto.
Qed.

Lemma wlp_total_ram b (Q : Z → boot_allocator → Prop) :
  (∀ ram, Q ram b) → wlp boot_allocator_get_total_visibale_ram b Q.
Proof.
  intros HQ. unfold boot_allocator_get_total_visibale_ram. apply wlp_bind, wp_wlp, wp_gets.
  case_match; [done|]. apply wlp_bind, wlp_lift_merge. intros out _. case_match; [|done].
  by apply wlp_ret.
Qed.

Lemma boot_ready_intro R F res b0 b :
  freeing res F b0 → Forall proper res → (∀ a, covers res a ↔ covers R a) →
  zones_built b0 b → boot_ready R F b.
Proof.
  intros [Hres _ _ _ _ Hso Hfu] Hp HR [H1 H2 H3 H4 H5 H6 H7 H8]. split.
  - intros z. split; auto.
    + intros a [_ ?]%H5. done.
    + intros a [Ha _]%H5 [Hr _]%H8. rewrite Hres in Hr. by apply Hso in Ha as [_ ?].
  - intros z a. by rewrite H8, Hres, HR.
  - intros z a [Ha _]%H5. rewrite <- HR. by apply Hso.
  - intros Hd a Ha Hn. apply H5. split; [|done]. apply Hfu; [done..|]. by rewrite HR.
Qed.

Lemma wlp_boot_allocator_init env mmap b :
  env_ok env → Forall entry_ok mmap → (∀ z, free_zones b z = [] ∧ res_zones b z = []) →
  wlp (boot_allocator_init env mmap) b (λ _ b',
    boot_ready (builtin_reserved env ++ mmap_regions false mmap) (mmap_regions true mmap) b').
Proof.
  intros Henv Hm Hz. unfold boot_allocator_init.
  do 4 (apply wlp_bind, wp_wlp, wp_modify). set (b1 := set_allocations _ _).
  assert (collecting [] b1) as Hc by (by split).
  apply wlp_collect_all; [done..|]. intros b2 [Hres Hfree Hz2 Hp Hl].
  apply wlp_bind, wlp_sort_and_merge_regions; [by rewrite Hres..|].
  intros res [R1 R2 R3 _ _] Hsort. rewrite Hres in R2.
  apply wlp_bind. eapply wlp_mono.
  { apply (wlp_mmap_iter (freeing res) boot_allocator_free_handler true); [|done|].
    - intros l b3 e He Hf. by apply wlp_freeing.
    - split; rewrite ?regions_set, ?decide_True, ?decide_False, ?Hfree by done; try done.
      by intros a []%covers_nil. }
  intros [] b3 [F1 F2 F3 F4 F5 F6 F7]. rewrite app_nil_l in *.
  apply wlp_bind, wlp_sort_and_merge_regions; [done..|]. intros fr [M1 M2 M3 M4 _] _.
  set (b4 := set_regions FREE_MEMORY fr b3).
  assert (freeing res (mmap_regions true mmap) b4) as Hb4.
  { unfold b4. split; rewrite ?regions_set, ?decide_True, ?decide_False by done; auto.
    - lia.
    - intros a Ha. apply F6, M2, Ha.
    - intros Hd a Ha Hn. apply M2. by apply F7. }
  apply wlp_bind. eapply wlp_mono; [apply wlp_fill_gaps|]. intros [] b5 H5.
  apply wlp_bind. eapply wlp_mono; [apply wlp_total_size|]. intros [] b6 H6.
  apply wlp_bind. eapply wlp_mono; [apply wlp_total_size|]. intros [] b7 H7.
  assert (same_tables b4 b7) as H47 by (by repeat (etransitivity; [eassumption|])).
  apply wlp_bind, wlp_total_ram. intros ram. apply wlp_bind, wp_wlp, wp_modify.
  set (b8 := set_total_pages _ b7).
  assert (freeing res (mmap_regions true mmap) b8) as Hb8.
  { destruct H47 as (T & T1 & T2), Hb4. unfold b8.
    split; simpl; rewrite ?T, ?T1, ?T2 by done; auto. }
  apply wlp_bind_assoc. apply wlp_bind. eapply wlp_mono.
  { apply wlp_init_zones; try apply Hb8. by rewrite (fr_res _ _ _ Hb8). }
  intros [] b9 H9.
  apply wlp_bind. eapply wlp_mono; [by apply wlp_sort_and_merge_zone|]. intros [] b10 H10.
  apply wlp_bind. eapply wlp_mono; [by apply wlp_sort_and_merge_zone|]. intros [] b11 H11.
  eapply wlp_mono; [by apply wlp_sort_and_merge_zone|]. intros [] b12 H12.
  by eapply boot_ready_intro.
Qed.


(** ** The theorems at work on a small machine *)

Definition sample_env : boot_env :=
  BootEnv (KERNEL_VADDR_BASE + 2048) 63 (KERNEL_VADDR_BASE) 2047
          (KERNEL_VADDR_BASE + 1048576) (KERNEL_VADDR_BASE + 2097152) 2097152 1024.

Definition sample_mmap : list mmap_entry :=
  [MmapEntry 0 654336 1; MmapEntry 983040 65536 2; MmapEntry 1048576 32505856 1].

Definition cleared : boot_allocator :=
  BootAllocator false [] (λ _, []) (λ _, []) (λ _, []) 0 0.

(** The tables after [boot_allocator_init]. *)
Definition ready : boot_allocator :=
  final_state (boot_allocator_init sample_env sample_mmap) cleared.

Lemma ready_run : boot_allocator_init sample_env sample_mmap cleared = Done (tt, ready).
Proof. unfold ready. apply run_final. vm_compute. reflexivity. Qed.

Lemma sample_env_ok : env_ok sample_env.
Proof. unfold env_ok. vm_compute. intuition discriminate. Qed.

Lemma sample_mmap_ok : Forall entry_ok sample_mmap.
Proof. repeat constructor; vm_compute; congruence. Qed.

Lemma ready_zones z : zone_ok ready z.
Proof.
  pose proof (wlp_boot_allocator_init _ _ cleared sample_env_ok sample_mmap_ok) as Hw.
  apply (wlp_done _ _ _ _ _ (Hw (λ _, conj eq_refl eq_refl)) ready_run).
Qed.


Lemma boot_alloc_correct_witness :
  ∃ r b', boot_alloc 4096 DMA_ZONE true ready = Done (r, b') ∧
    ((r = 0 ∧ b' = ready ∧ ∀ reg, reg ∈ free_zones ready DMA_ZONE → end_ reg - start reg < 4096) ∨
     (∃ reg, reg ∈ free_zones ready DMA_ZONE ∧ start reg ≤ r ∧ r + 4096 = end_ reg ∧
        boot_alloc_post ready b' DMA_ZONE r 4096 true)).
Proof.
  apply (boot_alloc_correct ready DMA_ZONE 4096 true (ready_zones DMA_ZONE));
    vm_compute; try split; congruence.
Defined.

Lemma boot_alloc_at_correct_witness :
  ∃ r b', boot_alloc_at 8192 LOWMEM_ZONE true 16777217 33554432 (2 ^ 12) ready = Done (r, b') ∧
    ((r = 0 ∧ b' = ready ∧ ∀ reg x, reg ∈ free_zones ready LOWMEM_ZONE →
        ¬ fits reg 8192 16777217 33554432 12 x) ∨
     (∃ reg, reg ∈ free_zones ready LOWMEM_ZONE ∧ fits reg 8192 16777217 33554432 12 r ∧
        boot_alloc_post ready b' LOWMEM_ZONE r 8192 true)).
Proof.
  apply (boot_alloc_at_correct ready LOWMEM_ZONE 8192 true 16777217 33554432 12 (ready_zones LOWMEM_ZONE));
    vm_compute; try split; congruence.
Defined.

Definition one_reserved : boot_allocator :=
  BootAllocator false [] (<[RESERVED_MEMORY := [Region 4096 8192]]> (λ _, [])) (λ _, []) (λ _, []) 0 0.

Lemma boot_allocator_free_handler_correct_witness :
  wlp (boot_allocator_free_handler 0 65536) one_reserved (λ _ b',
    free_added (λ a, 0 ≤ a < 65536 ∧ ¬ covers (regions one_reserved RESERVED_MEMORY) a)
      one_reserved b').
Proof.
  refine (boot_allocator_free_handler_correct one_reserved 0 65536 _ _ _ _);
    [repeat constructor; vm_compute; congruence|repeat constructor|lia|reflexivity].
Defined.

(** A region that reaches the end of the 32-bit address space has end 0,
    and merging a lower neighbour into it loses both: the merged region
    [[s, 0)] is then skipped when the zone tables are built, so neither its
    reserved nor its available addresses are recorded in any zone. *)
Theorem boot_region_to_4GiB_lost (s e : Z) (get : boot_allocator → zone_type → list region)
    (set : zone_type → list region → boot_allocator → boot_allocator) (b : boot_allocator) :
  0 ≤ s < e → e < W32 →
  BOOT_ALLOCATOR_SORT_AND_MERGE [Region s e; Region e 0] = Done [Region s 0] ∧
  init_zones_loop get set [Region s 0] b = Done (tt, b).
Proof.
  intros Hs He.
  assert (sorted_regions [Region s e; Region e 0]) as Hsort by (repeat constructor; simpl; lia).
  unfold BOOT_ALLOCATOR_SORT_AND_MERGE, boot_allocator_merge_contiguous_regions.
  rewrite !(sort_sorted _ Hsort). simpl. rewrite Z.eqb_refl. split; [done|].
  unfold mbind, M_bind. rewrite (proj2 (Z.ltb_ge s 0)) by lia. done.
Qed.

Lemma boot_region_to_4GiB_lost_witness :
  BOOT_ALLOCATOR_SORT_AND_MERGE [Region 4294705152 4294836224; Region 4294836224 0]
    = Done [Region 4294705152 0] ∧
  init_zones_loop res_zones set_res_zone [Region 4294705152 0] cleared = Done (tt, cleared).
Proof.
  apply (boot_region_to_4GiB_lost 4294705152 4294836224 res_zones set_res_zone cleared);
    [split; [lia|reflexivity]|reflexivity].
Defined.
