(* ===== verification/Multiboot.v ===== *)
(** * The boot information (src/kernel/mb2_info.c, include/kernel/mb2_info.h, include/multiboot2.h)

    The walk over the tags the boot loader leaves in memory, down to the
    32-bit words it reads, and that it hands [boot_allocator_init] exactly the
    memory map the loader wrote. *)

From S2P Require Import Prelude Memory BootAlloc.

(** ** Data *)

Definition MULTIBOOT2_HEADER_MAGIC : Z := 3897708758.
Definition MULTIBOOT2_BOOTLOADER_MAGIC : Z := 920085129.
Definition MULTIBOOT_TAG_TYPE_END : Z := 0.
Definition MULTIBOOT_TAG_TYPE_MMAP : Z := 6.
Definition TAGS_NEEDED : Z := 1.

(** The header of the kernel image: [sizeof] of the three structures, which are
    aligned to 8 bytes. *)
Definition SIZEOF_multiboot_header : Z := 16.
Definition SIZEOF_information_request : Z := 16.
Definition SIZEOF_tag_end : Z := 8.
Record multiboot_header := MultibootHeader { magic : Z; architecture : Z; header_length : Z; checksum : Z }.

Definition mb2_header : multiboot_header :=
  let length := SIZEOF_multiboot_header + SIZEOF_information_request + SIZEOF_tag_end in
  MultibootHeader MULTIBOOT2_HEADER_MAGIC 0 length (u32 (4294967296 - (MULTIBOOT2_HEADER_MAGIC + 0 + length))).

(** What the specification asks of the header. *)
Lemma mb2_header_checksum : u32 (magic mb2_header + architecture mb2_header + header_length mb2_header + checksum mb2_header) = 0.
Proof. reflexivity. Qed.

Section Walk.
(** The 32-bit word at an address, and the fuel of the two loops: more than the
    tags, and more than the entries of a memory map. *)
Context (word : Z → Z) (limit : nat).

(** [struct multiboot_mmap_entry]. *)
Definition entry_at (a : Z) : mmap_entry :=
  MmapEntry (word a + W32 * word (a ⊞ 4)) (word (a ⊞ 8) + W32 * word (a ⊞ 12)) (word (a ⊞ 16)).

(** The entries from [entry] on: [for (entry = mmap->entries; entry < mmap_end; entry = next_entry(entry, mmap))].
    [None] when the loop does not end within its fuel. *)
Fixpoint mmap_entries (fuel : nat) (entry entry_size mmap_end : Z) : option (list mmap_entry) :=
  match fuel with
  | O => None
  | Datatypes.S fuel =>
      if entry <? mmap_end then l ← mmap_entries fuel (entry ⊞ entry_size) entry_size mmap_end ; Some (entry_at entry :: l)
      else Some []
  end.

(** The body of the loop for a tag of the memory map. *)
Definition take_mmap (env : boot_env) (tag : Z) : M boot_allocator unit :=
  match mmap_entries limit (tag ⊞ 16) (word (tag ⊞ 8)) (tag ⊞ word (tag ⊞ 4)) with
  | None => hang
  | Some l => boot_allocator_init env l
  end.

(** [while (tag->type != MULTIBOOT_TAG_TYPE_END)]: the number of memory maps found. *)
Fixpoint walk_tags (fuel : nat) (env : boot_env) (tag tags_found : Z) : M boot_allocator Z :=
  match fuel with
  | O => hang
  | Datatypes.S fuel =>
      if word tag =? MULTIBOOT_TAG_TYPE_END then mret tags_found
      else
        n ← (if word tag =? MULTIBOOT_TAG_TYPE_MMAP
             then take_mmap env tag ;; mret (tags_found + 1) else mret tags_found) ;
        walk_tags fuel env (tag ⊞ ALIGN (word (tag ⊞ 4)) 8) n
  end.

(** [mb2_init]: [env] is completed by the address and the size of the information. *)
Definition mb2_init (env : boot_env) (mb2_magic mb2_mbi : Z) : M boot_allocator unit :=
  if negb (mb2_magic =? MULTIBOOT2_BOOTLOADER_MAGIC) then kpanic "Invalid magic number"
  else
    let env := BootEnv (gdtr_base env) (gdtr_limit env) (idtr_base env) (idtr_limit env) (kernel_start env) (kernel_end env)
                 mb2_mbi (word mb2_mbi) in
    n ← walk_tags limit env (mb2_mbi ⊞ 8) 0 ;
    if negb (n =? TAGS_NEEDED) then kpanic "Multiboot2: Not whole tags founded" else mret tt.

(** ** The format

    A tag is its type, its size and its body, and the next one starts at the
    next multiple of 8; the list ends with a tag of type 0. *)

Inductive tag := TMmap (entry_size : Z) (l : list mmap_entry) | TOther (type size : Z).

Definition tag_type (t : tag) : Z := match t with TMmap _ _ => 6 | TOther ty _ => ty end.
Definition tag_size (t : tag) : Z := match t with TMmap es l => 16 + es * Z.of_nat (length l) | TOther _ sz => sz end.

(** The words of entry [e] at [a], and of the entries of a map. *)
Fixpoint entries_at (a es : Z) (l : list mmap_entry) : Prop :=
  match l with
  | [] => True
  | e :: l => entry_at a = e ∧ entries_at (a + es) es l
  end.

Definition tag_ok (t : tag) : Prop :=
  match t with TMmap es l => 24 ≤ es | TOther ty sz => ty ≠ 0 ∧ ty ≠ 6 ∧ 8 ≤ sz end.

Definition next_tag (a : Z) (t : tag) : Z := a + ALIGN (tag_size t) 8.

Fixpoint tags_at (a : Z) (l : list tag) : Prop :=
  match l with
  | [] => word a = 0
  | t :: l =>
      word a = tag_type t ∧ word (a + 4) = tag_size t ∧ tag_ok t ∧ a + tag_size t < W32 - 16 ∧
      match t with TMmap es el => word (a + 8) = es ∧ entries_at (a + 16) es el | TOther _ _ => True end ∧
      tags_at (next_tag a t) l
  end.

Lemma next_tag_spec a t : tag_ok t → 0 ≤ a → a + tag_size t < W32 - 16 →
  a + tag_size t ≤ next_tag a t < a + tag_size t + 8 ∧ 8 ≤ tag_size t.
Proof.
  intros Hok Ha Hn. assert (8 ≤ tag_size t) as H8 by (destruct t; cbn in *; lia). unfold next_tag.
  destruct (ALIGN_spec (tag_size t) 3) as [H _]; [lia|lia|unfold W32 in *; lia|]. change (2 ^ 3) with 8 in H. lia.
Qed.

Lemma mmap_entries_at fuel a es l : 0 ≤ a → 24 ≤ es → a + es * Z.of_nat (length l) < W32 → (length l < fuel)%nat → entries_at a es l →
  mmap_entries fuel a es (a + es * Z.of_nat (length l)) = Some l.
Proof.
  revert fuel a. induction l as [|e l IH]; intros fuel a Ha Hes Hb Hf Hl; (destruct fuel as [|fuel]; [cbn in Hf; lia|]).
  { cbn [mmap_entries length]. by rewrite (proj2 (Z.ltb_ge _ _)) by lia. }
  destruct Hl as [He Hl]. cbn [mmap_entries length]. cbn [length] in Hb, Hf. rewrite Nat2Z.inj_succ in Hb |- *.
  rewrite (proj2 (Z.ltb_lt _ _)) by nia. rewrite (u32_small (a + es)) by (unfold W32 in *; nia).
  replace (a + es * Z.succ (Z.of_nat (length l))) with ((a + es) + es * Z.of_nat (length l)) by lia.
  rewrite IH; [cbn; by rewrite He|nia|done|nia|lia|done].
Qed.

(** The memory maps among the tags. *)
Definition maps_of (l : list tag) : list (list mmap_entry) := omap (λ t, match t with TMmap _ el => Some el | _ => None end) l.

(** The allocator initialised from each map in turn. *)
Fixpoint init_all (env : boot_env) (l : list (list mmap_entry)) : M boot_allocator unit :=
  match l with
  | [] => mret tt
  | el :: l => boot_allocator_init env el ;; init_all env l
  end.

Lemma bind_assoc {A B C} (c : M boot_allocator A) (f : A → M boot_allocator B) (g : B → M boot_allocator C) s :
  ((c ≫= f) ≫= g) s = (c ≫= (λ a, f a ≫= g)) s.
Proof. unfold mbind, M_bind. by destruct (c s) as [[a s']| | |]. Qed.

Lemma take_mmap_at env a es el : 0 ≤ a → 24 ≤ es → a + (16 + es * Z.of_nat (length el)) < W32 - 16 → (length el < limit)%nat →
  word (a + 4) = 16 + es * Z.of_nat (length el) → word (a + 8) = es → entries_at (a + 16) es el →
  take_mmap env a = boot_allocator_init env el.
Proof.
  intros Ha Hes Hb Hl H4 H8 He. unfold take_mmap. rewrite (u32_small (a + 16)), (u32_small (a + 8)), (u32_small (a + 4)) by (unfold W32 in *; nia).
  rewrite H4, H8, (u32_small (a + (16 + _))) by (unfold W32 in *; nia).
  replace (a + (16 + es * Z.of_nat (length el))) with ((a + 16) + es * Z.of_nat (length el)) by lia.
  by rewrite mmap_entries_at by (done || lia).
Qed.

Lemma walk_tags_at fuel env a l n s : 0 ≤ a < W32 - 8 → tags_at a l → (length l < fuel)%nat → Forall (λ el, length el < limit)%nat (maps_of l) →
  walk_tags fuel env a n s = (init_all env (maps_of l) ;; mret (n + Z.of_nat (length (maps_of l)))) s.
Proof.
  revert fuel a n s. induction l as [|t l IH]; intros fuel a n s Ha Ht Hf Hm; (destruct fuel as [|fuel]; [cbn in Hf; lia|]); cbn [walk_tags].
  { cbn in Ht. rewrite Ht. cbn. by rewrite Z.add_0_r. }
  destruct Ht as (E1 & E2 & Hok & Hb & Hbody & Hrest). destruct (next_tag_spec a t Hok ltac:(lia) Hb) as [Hn H8].
  rewrite (u32_small (a + 4)) by (unfold W32 in *; lia). rewrite E1, E2. fold (next_tag a t).
  rewrite (u32_small (next_tag a t)) by (unfold W32 in *; lia). cbn [length] in Hf.
  assert (∀ n s, walk_tags fuel env (next_tag a t) n s = (init_all env (maps_of l) ;; mret (n + Z.of_nat (length (maps_of l)))) s ∨
    ¬ Forall (λ el, length el < limit)%nat (maps_of l)) as IH'.
  { intros n' s'. destruct (decide (Forall (λ el, length el < limit)%nat (maps_of l))); [left|by right].
    apply IH; [unfold W32 in *; lia|done|lia|done]. }
  destruct t as [es el|ty sz]; cbn [tag_type tag_size maps_of omap list_omap] in *.
  - destruct Hbody as [H8' He]. apply Forall_cons in Hm as [Hel Hm].
    change (6 =? MULTIBOOT_TAG_TYPE_END) with false. change (6 =? MULTIBOOT_TAG_TYPE_MMAP) with true. cbn iota.
    rewrite (take_mmap_at env a es el) by (done || lia). cbn [init_all length]. rewrite !bind_assoc.
    unfold mbind, M_bind, mret, M_ret. destruct (boot_allocator_init env el s) as [[[] s1]| | |]; try done.
    destruct (IH' (n + 1) s1) as [E|]; [|done]. unfold mbind, M_bind, mret, M_ret in E. fold (maps_of l). rewrite E.
    destruct (init_all env (maps_of l) s1) as [[[] s2]| | |]; try done. do 2 f_equal. lia.
  - destruct Hok as (H0 & H6 & _). change MULTIBOOT_TAG_TYPE_END with 0. change MULTIBOOT_TAG_TYPE_MMAP with 6.
    rewrite (proj2 (Z.eqb_neq _ _) H0), (proj2 (Z.eqb_neq _ _) H6). fold (maps_of l) in *.
    destruct (IH' n s) as [E|]; [|done]. exact E.
Qed.

(** The environment with the information's own extent. *)
Definition with_info (env : boot_env) (mbi : Z) : boot_env :=
  BootEnv (gdtr_base env) (gdtr_limit env) (idtr_base env) (idtr_limit env) (kernel_start env) (kernel_end env) mbi (word mbi).

Lemma mb2_init_walk env mbi l s : 0 ≤ mbi < W32 - 16 → tags_at (mbi + 8) l → (length l < limit)%nat →
  Forall (λ el, length el < limit)%nat (maps_of l) →
  walk_tags limit env (mbi ⊞ 8) 0 s = (init_all env (maps_of l) ;; mret (Z.of_nat (length (maps_of l)))) s.
Proof.
  intros Hm Ht Hl He. rewrite u32_small by (unfold W32 in *; lia).
  by rewrite (walk_tags_at limit env (mbi + 8) l 0 s) by (done || unfold W32 in *; lia).
Qed.

Lemma mb2_init_one env mbi l s el : 0 ≤ mbi < W32 - 16 → tags_at (mbi + 8) l → (length l < limit)%nat →
  Forall (λ el, length el < limit)%nat (maps_of l) → maps_of l = [el] →
  mb2_init env MULTIBOOT2_BOOTLOADER_MAGIC mbi s = boot_allocator_init (with_info env mbi) el s.
Proof.
  intros Hm Ht Hl He E. unfold mb2_init. rewrite Z.eqb_refl. cbn [negb]. fold (with_info env mbi).
  pose proof (mb2_init_walk (with_info env mbi) mbi l s Hm Ht Hl He) as Hw. rewrite E in Hw.
  cbn [init_all length] in Hw. unfold mbind, M_bind, mret, M_ret in *. rewrite Hw.
  by destruct (boot_allocator_init (with_info env mbi) el s) as [[[] s1]| | |].
Qed.

(** C6: [mb2_init] hands the boot allocator exactly the memory map of the boot
    loader.  For boot information in memory in the format of the
    specification (tags at multiples of 8 in any number and order, of any
    type and size, entries of any size of at least 24 bytes), with one memory
    map among its tags, [mb2_init] does what [boot_allocator_init] does on
    the entries of that map, all of them and in order; the walk ends at the
    end tag.  Without a memory map it panics, and so it does on a wrong magic
    number. *)
Theorem mb2_init_correct env mbi l s : 0 ≤ mbi < W32 - 16 → tags_at (mbi + 8) l → (length l < limit)%nat →
  Forall (λ el, length el < limit)%nat (maps_of l) →
  (∀ el, maps_of l = [el] → mb2_init env MULTIBOOT2_BOOTLOADER_MAGIC mbi s = boot_allocator_init (with_info env mbi) el s) ∧
  (maps_of l = [] → mb2_init env MULTIBOOT2_BOOTLOADER_MAGIC mbi s = Panic "Multiboot2: Not whole tags founded") ∧
  (∀ m, m ≠ MULTIBOOT2_BOOTLOADER_MAGIC → mb2_init env m mbi s = Panic "Invalid magic number").
Proof.
  intros Hm Ht Hl He. split; [|split].
  - intros el E. by apply (mb2_init_one env mbi l).
  - intros E. pose proof (mb2_init_walk (with_info env mbi) mbi l s Hm Ht Hl He) as Hw. rewrite E in Hw.
    unfold mb2_init. rewrite Z.eqb_refl. cbn [negb]. fold (with_info env mbi). unfold mbind, M_bind in *. by rewrite Hw.
  - intros m Hne. unfold mb2_init. by rewrite (proj2 (Z.eqb_neq _ _) Hne).
Qed.

End Walk.

(** ** An instance *)

(** A command line of 12 bytes, one map of one megabyte and the end tag, at 0x1000. *)
Definition info_words : list (Z * Z) :=
  [(4096, 80); (4104, 1); (4108, 12); (4120, 6); (4124, 40); (4128, 24); (4136, 1048576); (4144, 1048576); (4152, 1)].

Definition info_word (a : Z) : Z := default 0 (snd <$> find (λ p, p.1 =? a) info_words).

Definition info_tags : list tag := [TOther 1 12; TMmap 24 [MmapEntry 1048576 1048576 1]].

Definition untouched : boot_allocator := BootAllocator false [] (λ _, []) (λ _, []) (λ _, []) 0 0.

Lemma mb2_init_correct_witness :
  mb2_init info_word 4 (BootEnv 0 0 0 0 0 0 0 0) MULTIBOOT2_BOOTLOADER_MAGIC 4096 untouched =
    boot_allocator_init (BootEnv 0 0 0 0 0 0 4096 80) [MmapEntry 1048576 1048576 1] untouched.
Proof.
  destruct (mb2_init_correct info_word 4 (BootEnv 0 0 0 0 0 0 0 0) 4096 info_tags untouched) as [H _].
  - by vm_compute.
  - repeat split; try reflexivity; by vm_compute.
  - cbn. lia.
  - constructor; [cbn; lia|constructor].
  - exact (H _ eq_refl).
Defined.
