(* ===== verification/Libk.v ===== *)
(** * The kernel's C library (lib/libk)

    Memory is a map from 32-bit addresses to bytes.  A loop the code bounds
    by a count recurses on it; a loop that runs to a terminator takes fuel,
    and the theorems show that the length of the string plus one is enough. *)

From S2P Require Import Prelude.

Definition mem := Z → Z.

Definition ld (a : Z) : M mem Z := gets (λ m, m (u32 a)).

Definition st (a v : Z) : M mem unit := modify <[u32 a := u8 v]>.

(** [char] is signed. *)
Definition s8 (z : Z) : Z := if u8 z <? 128 then u8 z else u8 z - 256.

(** ** Characters *)

Definition ft_isalpha (c : Z) : bool :=
  ((65 <=? c) && (c <=? 90)) || ((97 <=? c) && (c <=? 122)).

Definition ft_isdigit (c : Z) : bool := (48 <=? c) && (c <=? 57).

Definition ft_isalnum (c : Z) : bool := ft_isalpha c || ft_isdigit c.

Definition ft_isascii (c : Z) : bool := (0 <=? c) && (c <=? 127).

Definition ft_isprint (c : Z) : bool := (32 <=? c) && (c <=? 126).

Definition ft_tolower (c : Z) : Z := if (65 <=? c) && (c <=? 90) then c + 32 else c.

Definition ft_toupper (c : Z) : Z := if (97 <=? c) && (c <=? 122) then c - 32 else c.

(** ** Blocks of memory *)

Fixpoint memset_loop (s c : Z) (n : nat) : M mem unit :=
  match n with
  | O => mret tt
  | S n => st (s + Z.of_nat n) c ;; memset_loop s c n
  end.

Definition ft_memset (s c n : Z) : M mem Z := memset_loop s c (Z.to_nat n) ;; mret s.

Definition ft_bzero (s n : Z) : M mem unit := ft_memset s 0 n ;; mret tt.

Fixpoint memcpy_loop (d s : Z) (n : nat) : M mem unit :=
  match n with
  | O => mret tt
  | S n => v ← ld s ; st d v ;; memcpy_loop (d + 1) (s + 1) n
  end.

Definition ft_memcpy (dest src n : Z) : M mem Z := memcpy_loop dest src (Z.to_nat n) ;; mret dest.

Fixpoint memmove_down (dest src : Z) (n : nat) : M mem unit :=
  match n with
  | O => mret tt
  | S n => v ← ld (src + Z.of_nat n) ; st (dest + Z.of_nat n) v ;; memmove_down dest src n
  end.

Definition ft_memmove (dest src n : Z) : M mem Z :=
  (if dest <? src then
     for_ (Z.to_nat n) 0 (λ i, v ← ld (src + i) ; st (dest + i) v)
   else if src <? dest then memmove_down dest src (Z.to_nat n)
   else mret tt) ;;
  mret dest.

Fixpoint memchr_loop (s c : Z) (n : nat) (i : Z) : M mem (option Z) :=
  match n with
  | O => mret None
  | S n =>
      v ← ld (s + i) ;
      if v =? u8 c then mret (Some (s + i)) else memchr_loop s c n (i + 1)
  end.

Definition ft_memchr (s c n : Z) : M mem (option Z) := memchr_loop s c (Z.to_nat n) 0.

Fixpoint memcmp_loop (s1 s2 : Z) (n : nat) (i : Z) : M mem Z :=
  match n with
  | O => mret 0
  | S n =>
      a ← ld (s1 + i) ;
      b ← ld (s2 + i) ;
      if negb (a =? b) then mret (a - b) else memcmp_loop s1 s2 n (i + 1)
  end.

Definition ft_memcmp (s1 s2 n : Z) : M mem Z := memcmp_loop s1 s2 (Z.to_nat n) 0.

(** ** Strings *)

Fixpoint strlen_loop (fuel : nat) (s i : Z) : M mem Z :=
  match fuel with
  | O => hang
  | S fuel => c ← ld (s + i) ; if c =? 0 then mret i else strlen_loop fuel s (i + 1)
  end.

Definition ft_strlen (fuel : nat) (s : Z) : M mem Z := strlen_loop fuel s 0.

Definition ft_strchr (fuel : nat) (s c : Z) : M mem (option Z) :=
  len ← ft_strlen fuel s ; ft_memchr s c (len + 1).

Fixpoint strrchr_loop (s c : Z) (i : nat) : M mem (option Z) :=
  match i with
  | O => mret None
  | S i =>
      v ← ld (s + Z.of_nat i) ;
      if v =? u8 c then mret (Some (s + Z.of_nat i)) else strrchr_loop s c i
  end.

Definition ft_strrchr (fuel : nat) (s c : Z) : M mem (option Z) :=
  len ← ft_strlen fuel s ; strrchr_loop s c (Z.to_nat (len + 1)).

Definition ft_strequ (fuel : nat) (s1 s2 : Z) : M mem bool :=
  len1 ← ft_strlen fuel s1 ;
  len2 ← ft_strlen fuel s2 ;
  if negb (len1 =? len2) then mret false
  else r ← ft_memcmp s1 s2 (len1 + 1) ; mret (r =? 0).

(** The test after the loop compares position [i] whatever stopped the loop. *)
Fixpoint strncmp_loop (fuel : nat) (s1 s2 n i : Z) : M mem Z :=
  match fuel with
  | O => hang
  | S fuel =>
      a ← ld (s1 + i) ;
      b ← ld (s2 + i) ;
      if (i <? n) && negb (a =? 0) && negb (b =? 0) then
        if negb (a =? b) then mret (a - b) else strncmp_loop fuel s1 s2 n (i + 1)
      else if negb (a =? b) then mret (a - b) else mret 0
  end.

Definition ft_strncmp (fuel : nat) (s1 s2 n : Z) : M mem Z := strncmp_loop fuel s1 s2 n 0.

(** [while (src[i] && i < dsize - 1) { dst[i] = src[i]; i++; }]. *)
Fixpoint strlcpy_copy (fuel : nat) (dst src dsize i : Z) : M mem Z :=
  match fuel with
  | O => hang
  | S fuel =>
      c ← ld (src + i) ;
      if negb (c =? 0) && (i <? dsize - 1) then
        st (dst + i) c ;; strlcpy_copy fuel dst src dsize (i + 1)
      else mret i
  end.

Definition ft_strlcpy (fuel : nat) (dst src dsize : Z) : M mem Z :=
  i ← (if 0 <? dsize then i ← strlcpy_copy fuel dst src dsize 0 ; st (dst + i) 0 ;; mret i
       else mret 0) ;
  strlen_loop fuel src i.

Fixpoint strlcat_dlen (fuel : nat) (dst dsize dst_len : Z) : M mem Z :=
  match fuel with
  | O => hang
  | S fuel =>
      c ← ld (dst + dst_len) ;
      if negb (c =? 0) && (dst_len <? dsize) then strlcat_dlen fuel dst dsize (dst_len + 1)
      else mret dst_len
  end.

Fixpoint strlcat_copy (fuel : nat) (dst src dsize i j : Z) : M mem Z :=
  match fuel with
  | O => hang
  | S fuel =>
      c ← ld (src + j) ;
      if negb (c =? 0) && (i <? dsize ⊟ 1) then
        st (dst + i) c ;; strlcat_copy fuel dst src dsize (i + 1) (j + 1)
      else mret i
  end.

(** [src = None] is the NULL pointer. *)
Definition ft_strlcat (fuel : nat) (dst : Z) (src : option Z) (dsize : Z) : M mem Z :=
  match src with
  | None => mret 0
  | Some src =>
      dst_len ← strlcat_dlen fuel dst dsize 0 ;
      src_len ← ft_strlen fuel src ;
      if dst_len =? dsize then mret (dsize ⊞ src_len)
      else
        i ← strlcat_copy fuel dst src dsize dst_len 0 ;
        (if i <? dsize then st (dst + i) 0 else mret tt) ;;
        mret (dst_len ⊞ src_len)
  end.

(** [while (seg[l] && str[i + l] == seg[l] && i + l < len) l++]. *)
Fixpoint strnstr_match (fuel : nat) (str seg len i l : Z) : M mem Z :=
  match fuel with
  | O => hang
  | S fuel =>
      c ← ld (seg + l) ;
      if c =? 0 then mret l
      else
        d ← ld (str + (i + l)) ;
        if (d =? c) && (i + l <? len) then strnstr_match fuel str seg len i (l + 1) else mret l
  end.

Fixpoint strnstr_loop (fuel : nat) (str seg len i : Z) : M mem (option Z) :=
  match fuel with
  | O => hang
  | S fuel' =>
      c ← ld (str + i) ;
      if negb (c =? 0) && (i <? len) then
        l ← strnstr_match fuel str seg len i 0 ;
        e ← ld (seg + l) ;
        if e =? 0 then mret (Some (str + i)) else strnstr_loop fuel' str seg len (i + 1)
      else mret None
  end.

Definition ft_strnstr (fuel : nat) (str seg len : Z) : M mem (option Z) :=
  c ← ld seg ;
  if c =? 0 then mret (Some str)
  else if negb (len =? 0) then strnstr_loop fuel str seg len 0 else mret None.

(** ** Numbers *)

Definition ft_isspace (c : Z) : bool :=
  (c =? 32) || (c =? 9) || (c =? 11) || (c =? 10) || (c =? 12) || (c =? 13).

Fixpoint atoi_skip (fuel : nat) (nptr i : Z) : M mem Z :=
  match fuel with
  | O => hang
  | S fuel =>
      c ← ld (nptr + i) ; if ft_isspace (s8 c) then atoi_skip fuel nptr (i + 1) else mret i
  end.

(** [int] arithmetic: the products and sums wrap at 32 bits. *)
Fixpoint atoi_digits (fuel : nat) (nptr i num : Z) : M mem Z :=
  match fuel with
  | O => hang
  | S fuel =>
      c ← ld (nptr + i) ;
      if ft_isdigit (s8 c) then atoi_digits fuel nptr (i + 1) (s32 (s32 (num * 10) + (s8 c - 48)))
      else mret num
  end.

Definition ft_atoi (fuel : nat) (nptr : Z) : M mem Z :=
  i ← atoi_skip fuel nptr 0 ;
  c ← ld (nptr + i) ;
  let sig := if c =? 45 then -1 else 1 in
  let i := if (c =? 45) || (c =? 43) then i + 1 else i in
  num ← atoi_digits fuel nptr i 0 ;
  mret (s32 (num * sig)).

(** [ft_striteri]: [f] is the callback, with the index and the character's address. *)
Fixpoint striteri_loop (fuel : nat) (f : Z → Z → M mem unit) (s i : Z) : M mem unit :=
  match fuel with
  | O => hang
  | S fuel =>
      c ← ld (s + i) ;
      if c =? 0 then mret tt else f i (s + i) ;; striteri_loop fuel f s (i + 1)
  end.

Definition ft_striteri (fuel : nat) (f : Z → Z → M mem unit) (s : Z) : M mem unit :=
  striteri_loop fuel f s 0.
