(* ===== verification/LibkThm.v ===== *)
(** * The C library: block copies and strings *)

From S2P Require Import Prelude Libk.

(** Memory cells hold bytes. *)
Definition mem_ok (m : mem) : Prop := ∀ a, 0 ≤ m a < 256.

Lemma u8_small v : 0 ≤ v < 256 → u8 v = v.
Proof. apply Z.mod_small. Qed.

Lemma mem_insert (m : mem) a v b : (<[a := v]> m) b = if decide (b = a) then v else m b.
Proof.
  unfold mem in *. case_decide; [subst; apply fn_lookup_insert|by apply fn_lookup_insert_ne].
Qed.

Lemma wp_ld a m (Q : Z → mem → Prop) : 0 ≤ a < W32 → Q (m a) m → wp (ld a) m Q.
Proof. intros Ha HQ. unfold ld. apply wp_gets. by rewrite u32_small. Qed.

Lemma wp_st a v m (Q : unit → mem → Prop) : 0 ≤ a < W32 → Q tt (<[a := u8 v]> m) → wp (st a v) m Q.
Proof. intros Ha HQ. unfold st. apply wp_modify. by rewrite u32_small. Qed.

(** ** Block operations *)

(** [m'] is [m] with the [n] bytes at [d] replaced by [f]. *)
Definition written (m m' : mem) (d n : Z) (f : Z → Z) : Prop :=
  ∀ a, m' a = if decide (d ≤ a < d + n) then f (a - d) else m a.

Lemma written_ok m m' d n f : mem_ok m → (∀ i, 0 ≤ i < n → 0 ≤ f i < 256) →
  written m m' d n f → mem_ok m'.
Proof. intros Hm Hf Hw a. rewrite Hw. case_decide; [apply Hf; lia|done]. Qed.

Lemma wp_memset_loop s c n m : 0 ≤ s → s + Z.of_nat n ≤ W32 →
  wp (memset_loop s c n) m (λ _ m', written m m' s (Z.of_nat n) (λ _, u8 c)).
Proof.
  revert m. induction n as [|n IH]; intros m Hs Hn; cbn [memset_loop].
  - apply wp_ret. intros a. rewrite decide_False; [done|lia].
  - wp_step. apply wp_st; [lia|]. eapply wp_mono; [apply IH; lia|].
    intros [] m' Hw a. rewrite Hw, mem_insert. repeat case_decide; try done; lia.
Qed.

Lemma wp_memcpy_loop d s n m : mem_ok m → 0 ≤ d → 0 ≤ s → d + Z.of_nat n ≤ W32 →
  s + Z.of_nat n ≤ W32 → d ≤ s ∨ s + Z.of_nat n ≤ d →
  wp (memcpy_loop d s n) m (λ _ m', written m m' d (Z.of_nat n) (λ i, m (s + i))).
Proof.
  revert d s m. induction n as [|n IH]; intros d s m Hm Hd Hs Hdn Hsn Ho; cbn [memcpy_loop].
  - apply wp_ret. intros a. rewrite decide_False; [done|lia].
  - wp_step. apply wp_ld; [lia|]. wp_step. apply wp_st; [lia|]. rewrite u8_small by apply Hm.
    eapply wp_mono; [apply (IH (d + 1) (s + 1)); try lia|].
    + intros a. rewrite mem_insert. case_decide; apply Hm.
    + intros [] m' Hw a. rewrite Hw, !mem_insert.
      repeat case_decide; try lia; try done; f_equal; lia.
Qed.

Lemma wp_memmove_down d s n m : mem_ok m → 0 ≤ s → s < d → d + Z.of_nat n ≤ W32 →
  wp (memmove_down d s n) m (λ _ m', written m m' d (Z.of_nat n) (λ i, m (s + i))).
Proof.
  revert m. induction n as [|n IH]; intros m Hm Hs Hd Hn; cbn [memmove_down].
  - apply wp_ret. intros a. rewrite decide_False; [done|lia].
  - wp_step. apply wp_ld; [lia|]. wp_step. apply wp_st; [lia|]. rewrite u8_small by apply Hm.
    eapply wp_mono; [apply IH; try lia|].
    + intros a. rewrite mem_insert. case_decide; apply Hm.
    + intros [] m' Hw a. rewrite Hw, !mem_insert.
      repeat case_decide; try lia; try done; f_equal; lia.
Qed.

Lemma wp_memmove_up d s n m : mem_ok m → 0 ≤ d → d < s → s + Z.of_nat n ≤ W32 →
  wp (for_ n 0 (λ i, v ← ld (s + i) ; st (d + i) v)) m
    (λ _ m', written m m' d (Z.of_nat n) (λ i, m (s + i))).
Proof.
  intros Hm Hd Hs Hn. eapply wp_mono; [apply (wp_for (λ k m', written m m' d k (λ i, m (s + i))))|].
  - intros a. rewrite decide_False; [done|lia].
  - intros k m' Hk Hw. wp_step. apply wp_ld; [lia|]. apply wp_st; [lia|]. intros a.
    rewrite mem_insert, !Hw. rewrite (decide_False (P := d ≤ s + k < d + k)) by lia.
    rewrite u8_small by apply Hm. repeat case_decide; try lia; try done; f_equal; lia.
  - done.
Qed.

(** [ft_memmove] copies the [n] bytes as they were before the call and
    changes nothing else, however the two ranges overlap. *)
Theorem ft_memmove_correct (dest src n : Z) (m : mem) :
  mem_ok m → 0 ≤ dest → 0 ≤ src → 0 ≤ n → dest + n ≤ W32 → src + n ≤ W32 →
  ∃ m', ft_memmove dest src n m = Done (dest, m') ∧ mem_ok m' ∧
    written m m' dest n (λ i, m (src + i)).
Proof.
  intros Hm Hd Hs Hn Hdn Hsn.
  assert (wp (ft_memmove dest src n) m (λ r m', r = dest ∧ mem_ok m' ∧
    written m m' dest n (λ i, m (src + i)))) as Hw.
  { assert (∀ m', written m m' dest n (λ i, m (src + i)) →
      dest = dest ∧ mem_ok m' ∧ written m m' dest n (λ i, m (src + i))) as Hfin.
    { intros m' Hw. split_and!; [done| |done]. eapply written_ok; [exact Hm| |exact Hw]. intros; apply Hm. }
    unfold ft_memmove. wp_step.
    destruct (Z.ltb_spec dest src); [|destruct (Z.ltb_spec src dest)].
    - eapply wp_mono; [apply wp_memmove_up; try done; lia|].
      intros [] m' Hw. rewrite Z2Nat.id in Hw by done. apply wp_ret. auto.
    - eapply wp_mono; [apply wp_memmove_down; try done; lia|].
      intros [] m' Hw. rewrite Z2Nat.id in Hw by done. apply wp_ret. auto.
    - apply wp_ret, wp_ret, Hfin. intros a. case_decide; [f_equal; lia|done]. }
  apply wp_run in Hw as (r & m' & E & -> & ?). eauto.
Qed.

(** ** Strings *)

(** The NUL-terminated string [s] is stored at [p]. *)
Record cstr (m : mem) (p : Z) (s : list Z) : Prop := {
  cs_bytes : ∀ i c, s !! i = Some c → m (p + Z.of_nat i) = c;
  cs_nul : m (p + Z.of_nat (length s)) = 0;
  cs_chars : Forall (λ c, 0 < c < 256) s;
  cs_range : 0 ≤ p ∧ p + Z.of_nat (length s) < W32 }.

Lemma cstr_tail m p c s : cstr m p (c :: s) → cstr m (p + 1) s ∧ m p = c ∧ 0 < c < 256.
Proof.
  intros [Hb Hn Hc Hr]. apply Forall_cons in Hc as [Hc0 Hc]. split_and!; [|..].
  - split; [| |done|simpl in Hr; lia].
    + intros i x Hi. rewrite <- (Hb (S i) x Hi). f_equal. lia.
    + rewrite <- Hn. f_equal. simpl. lia.
  - rewrite <- (Hb 0%nat c eq_refl). f_equal. lia.
  - lia.
  - lia.
Qed.

Lemma cstr_char m p s (i : nat) : cstr m p s → (i ≤ length s)%nat →
  m (p + Z.of_nat i) = default 0 (s !! i) ∧ 0 ≤ p + Z.of_nat i < W32.
Proof.
  intros [Hb Hn Hc Hr] Hi. split; [|lia]. destruct (s !! i) as [c|] eqn:E; simpl; [by apply Hb|].
  apply lookup_ge_None in E. assert (i = length s) as -> by lia. done.
Qed.

Lemma cstr_nonzero m p s (i : nat) : cstr m p s → (i < length s)%nat →
  ∃ c, s !! i = Some c ∧ m (p + Z.of_nat i) = c ∧ 0 < c < 256.
Proof.
  intros Hs Hi. destruct (lookup_lt_is_Some_2 _ _ Hi) as [c Hc]. exists c.
  split_and!; [done|by apply (cs_bytes _ _ _ Hs)|..];
    pose proof (Forall_lookup_1 _ _ _ _ (cs_chars _ _ _ Hs) Hc) as H; simpl in H; lia.
Qed.

Lemma wp_strlen_loop fuel m p s (i : nat) : cstr m p s → (i ≤ length s)%nat →
  (length s - i < fuel)%nat →
  wp (strlen_loop fuel p (Z.of_nat i)) m (λ r m', r = Z.of_nat (length s) ∧ m' = m).
Proof.
  intros Hs. revert i. induction fuel as [|fuel IH]; intros i Hi Hf; [lia|]. cbn [strlen_loop].
  destruct (cstr_char m p s i Hs Hi) as [Hc Hr]. wp_step. apply wp_ld; [done|].
  destruct (decide (i = length s)) as [->|].
  - rewrite (cs_nul _ _ _ Hs). by apply wp_ret.
  - destruct (cstr_nonzero m p s i Hs) as (c & _ & -> & ?); [lia|].
    rewrite (proj2 (Z.eqb_neq c 0)) by lia.
    replace (Z.of_nat i + 1) with (Z.of_nat (S i)) by lia. apply IH; lia.
Qed.

Lemma wp_strlen fuel m p s (Q : Z → mem → Prop) : cstr m p s → (length s < fuel)%nat →
  Q (Z.of_nat (length s)) m → wp (ft_strlen fuel p) m Q.
Proof.
  intros Hs Hf HQ. unfold ft_strlen. change 0 with (Z.of_nat 0).
  eapply wp_mono; [apply (wp_strlen_loop fuel m p s 0 Hs); lia|]. by intros r m' [-> ->].
Qed.

(** *** Comparison *)

(** The C standard's [strncmp] on strings: at most [n] characters compared. *)
Fixpoint strncmp_ref (n : nat) (s1 s2 : list Z) : Z :=
  match n with
  | O => 0
  | S n =>
      match s1, s2 with
      | [], [] => 0
      | [], b :: _ => - b
      | a :: _, [] => a
      | a :: s1, b :: s2 => if a =? b then strncmp_ref n s1 s2 else a - b
      end
  end.

Lemma wp_strncmp_loop fuel m n (i : nat) : ∀ p1 p2 s1 s2,
  cstr m (p1 + Z.of_nat i) s1 → cstr m (p2 + Z.of_nat i) s2 → Z.of_nat i ≤ n →
  (length s1 < fuel)%nat →
  wp (strncmp_loop fuel p1 p2 n (Z.of_nat i)) m
    (λ r m', r = strncmp_ref (Z.to_nat (n - Z.of_nat i) + 1) s1 s2 ∧ m' = m).
Proof.
  revert i. induction fuel as [|fuel IH]; intros i p1 p2 s1 s2 H1 H2 Hi Hf; [lia|].
  cbn [strncmp_loop]. pose proof (cs_range _ _ _ H1). pose proof (cs_range _ _ _ H2).
  wp_step. apply wp_ld; [lia|]. wp_step. apply wp_ld; [lia|].
  rewrite Nat.add_1_r. cbn [strncmp_ref].
  destruct s1 as [|a s1], s2 as [|b s2].
  - pose proof (cs_nul _ _ _ H1) as E1. pose proof (cs_nul _ _ _ H2) as E2.
    simpl in E1, E2. rewrite Z.add_0_r in E1, E2. rewrite E1, E2. rewrite andb_false_r. by apply wp_ret.
  - pose proof (cs_nul _ _ _ H1) as E1. simpl in E1. rewrite Z.add_0_r in E1.
    apply cstr_tail in H2 as (_ & -> & ?). rewrite E1, andb_false_r. cbn [andb].
    rewrite (proj2 (Z.eqb_neq 0 b)) by lia. by apply wp_ret.
  - pose proof (cs_nul _ _ _ H2) as E2. simpl in E2. rewrite Z.add_0_r in E2.
    apply cstr_tail in H1 as (_ & -> & ?). rewrite E2, andb_false_r.
    rewrite (proj2 (Z.eqb_neq a 0)) by lia. apply wp_ret. split; [lia|done].
  - apply cstr_tail in H1 as (H1 & -> & ?), H2 as (H2 & -> & ?).
    rewrite (proj2 (Z.eqb_neq a 0)), (proj2 (Z.eqb_neq b 0)), !andb_true_r by lia.
    destruct (Z.ltb_spec (Z.of_nat i) n).
    + destruct (a =? b); cbn [negb]; [|by apply wp_ret].
      replace (Z.of_nat i + 1) with (Z.of_nat (S i)) by lia.
      replace (Z.to_nat (n - Z.of_nat i)) with (Z.to_nat (n - Z.of_nat (S i)) + 1)%nat by lia.
      apply IH; [..|lia|simpl in Hf; lia];
        (replace (Z.of_nat (S i)) with (Z.of_nat i + 1) by lia; by rewrite Z.add_assoc).
    + replace (Z.to_nat (n - Z.of_nat i)) with 0%nat by lia.
      destruct (a =? b); by apply wp_ret.
Qed.

(** [ft_strncmp] compares one character too many: its result is that of
    the standard [strncmp] with the bound [n + 1], for every pair of strings
    and every bound. *)
Theorem ft_strncmp_compares_n_plus_1 (m : mem) (p1 p2 n : Z) (s1 s2 : list Z) (fuel : nat) :
  cstr m p1 s1 → cstr m p2 s2 → 0 ≤ n → (length s1 < fuel)%nat →
  ft_strncmp fuel p1 p2 n m = Done (strncmp_ref (Z.to_nat n + 1) s1 s2, m).
Proof.
  intros H1 H2 Hn Hf.
  pose proof (wp_strncmp_loop fuel m n 0 p1 p2 s1 s2) as Hw. rewrite !Z.add_0_r, Z.sub_0_r in Hw.
  apply wp_run in Hw as (r & m' & E & -> & ->); [exact E|done..].
Qed.

(** *** Copying *)

Lemma wp_strlcpy_copy fuel m dst src s dsize (i : nat) m1 : mem_ok m → cstr m src s →
  0 ≤ dst → dst + dsize ≤ W32 → 0 < dsize →
  dst + dsize ≤ src ∨ src + Z.of_nat (length s) < dst →
  (i ≤ length s)%nat → Z.of_nat i < dsize → (length s - i < fuel)%nat →
  written m m1 dst (Z.of_nat i) (λ j, m (src + j)) →
  wp (strlcpy_copy fuel dst src dsize (Z.of_nat i)) m1 (λ r m',
    r = Z.min (Z.of_nat (length s)) (dsize - 1) ∧ written m m' dst r (λ j, m (src + j))).
Proof.
  intros Hm Hs Hd Hdn Hpos Hsep. revert i m1.
  induction fuel as [|fuel IH]; intros i m1 Hi Hid Hf Hw; [lia|]. cbn [strlcpy_copy].
  destruct (cstr_char m src s i Hs Hi) as [Hc Hr].
  assert (m1 (src + Z.of_nat i) = m (src + Z.of_nat i)) as E1
    by (rewrite Hw, decide_False; [done|lia]).
  wp_step. apply wp_ld; [done|]. cbn beta. rewrite E1.
  destruct (decide (i = length s)) as [->|Hne].
  { rewrite (cs_nul _ _ _ Hs). cbn [Z.eqb negb andb]. apply wp_ret. rewrite Z.min_l by lia. done. }
  destruct (cstr_nonzero m src s i Hs) as (c & _ & Ec & ?); [lia|].
  rewrite Ec, (proj2 (Z.eqb_neq c 0)) by lia. cbn [negb andb].
  destruct (Z.ltb_spec (Z.of_nat i) (dsize - 1)).
  - wp_step. apply wp_st; [lia|]. replace (Z.of_nat i + 1) with (Z.of_nat (S i)) by lia.
    apply IH; try lia. intros a. rewrite mem_insert, Hw, u8_small by lia.
    destruct (decide (a = dst + Z.of_nat i)) as [->|].
    + rewrite decide_True by lia. rewrite <- Ec. f_equal. lia.
    + repeat case_decide; lia || done.
  - apply wp_ret. rewrite Z.min_r by lia. replace (dsize - 1) with (Z.of_nat i) by lia. done.
Qed.

(** C33: [ft_strlcpy] returns the length of the source; with a non-empty
    buffer it stores the longest prefix that fits followed by a NUL, so the
    buffer always holds a string, and it writes nothing outside the buffer. *)
Theorem ft_strlcpy_correct (m : mem) (dst src dsize : Z) (s : list Z) (fuel : nat) :
  mem_ok m → cstr m src s → 0 ≤ dst → 0 < dsize → dst + dsize ≤ W32 →
  dst + dsize ≤ src ∨ src + Z.of_nat (length s) < dst → (length s < fuel)%nat →
  ∃ m', ft_strlcpy fuel dst src dsize m = Done (Z.of_nat (length s), m') ∧
    cstr m' dst (take (Z.to_nat (dsize - 1)) s) ∧
    ∀ a, ¬ dst ≤ a < dst + dsize → m' a = m a.
Proof.
  intros Hm Hs Hd Hpos Hdn Hsep Hf.
  assert (wp (ft_strlcpy fuel dst src dsize) m (λ r m', r = Z.of_nat (length s) ∧
    cstr m' dst (take (Z.to_nat (dsize - 1)) s) ∧
    ∀ a, ¬ dst ≤ a < dst + dsize → m' a = m a)) as Hwp.
  2: { apply wp_run in Hwp as (r & m' & E & -> & ?). eauto. }
  pose proof (cs_range _ _ _ Hs) as Hr.
  unfold ft_strlcpy. rewrite (proj2 (Z.ltb_lt 0 dsize)) by done. wp_step. wp_step.
  eapply wp_mono; [apply (wp_strlcpy_copy fuel m dst src s dsize 0 m); try done; try lia|].
  { intros a. rewrite decide_False; [done|lia]. }
  intros k m1 [-> Hw]. set (k := Z.min (Z.of_nat (length s)) (dsize - 1)) in *.
  wp_step. apply wp_st; [lia|]. wp_step. set (m2 := <[dst + k := u8 0]> m1).
  assert (∀ a, ¬ dst ≤ a < dst + dsize → m2 a = m a) as Hout.
  { intros a Ha. unfold m2. rewrite mem_insert, Hw. repeat case_decide; lia || done. }
  assert (cstr m2 src s) as Hs2.
  { destruct Hs as [Hb Hn Hc _]. split; auto.
    - intros i c Hi. rewrite Hout; [by apply Hb|]. apply lookup_lt_Some in Hi. lia.
    - rewrite Hout; [done|lia]. }
  replace k with (Z.of_nat (Z.to_nat k)) by lia.
  eapply wp_mono; [apply (wp_strlen_loop fuel m2 src s); [done|lia|lia]|].
  intros r m' [-> ->]. split_and!; [done| |done].
  assert (length (take (Z.to_nat (dsize - 1)) s) = Z.to_nat k) as Hlen
    by (rewrite length_take; lia).
  split.
  - intros i c Hi. pose proof (lookup_lt_Some _ _ _ Hi) as Hlt.
    apply lookup_take_Some in Hi as [Hi _]. unfold m2. rewrite mem_insert, Hw.
    rewrite decide_False, decide_True by lia.
    replace (src + (dst + Z.of_nat i - dst)) with (src + Z.of_nat i) by lia.
    by apply (cs_bytes _ _ _ Hs).
  - unfold m2. rewrite mem_insert, decide_True by lia. done.
  - apply Forall_take, Hs.
  - lia.
Qed.

(** *** Equality *)

Lemma wp_memcmp_loop s1 s2 n m (i : nat) :
  (∀ j, (i ≤ j < i + n)%nat → 0 ≤ s1 + Z.of_nat j < W32 ∧ 0 ≤ s2 + Z.of_nat j < W32) →
  wp (memcmp_loop s1 s2 n (Z.of_nat i)) m (λ r m', m' = m ∧
    (r = 0 ↔ ∀ j, (i ≤ j < i + n)%nat → m (s1 + Z.of_nat j) = m (s2 + Z.of_nat j))).
Proof.
  revert i. induction n as [|n IH]; intros i Hr; cbn [memcmp_loop].
  { apply wp_ret. split; [done|]. split; [intros _ j; lia|done]. }
  destruct (Hr i) as [? ?]; [lia|]. wp_step. apply wp_ld; [done|]. wp_step. apply wp_ld; [done|].
  destruct (Z.eqb_spec (m (s1 + Z.of_nat i)) (m (s2 + Z.of_nat i))) as [E|E]; cbn [negb].
  - replace (Z.of_nat i + 1) with (Z.of_nat (S i)) by lia.
    eapply wp_mono; [apply IH; intros j Hj; apply Hr; lia|]. intros r m' [-> Hiff].
    split; [done|]. rewrite Hiff. split; intros Hall j Hj; [|apply Hall; lia].
    destruct (decide (j = i)) as [->|]; [done|]. apply Hall. lia.
  - apply wp_ret. split; [done|]. split; [lia|]. intros Hall. exfalso. apply E, Hall. lia.
Qed.

(** [ft_strequ] decides string equality. *)
Theorem ft_strequ_correct (m : mem) (p1 p2 : Z) (s1 s2 : list Z) (fuel : nat) :
  cstr m p1 s1 → cstr m p2 s2 → (length s1 < fuel)%nat → (length s2 < fuel)%nat →
  ft_strequ fuel p1 p2 m = Done (bool_decide (s1 = s2), m).
Proof.
  intros H1 H2 Hf1 Hf2.
  assert (wp (ft_strequ fuel p1 p2) m (λ r m', r = bool_decide (s1 = s2) ∧ m' = m)) as Hw.
  2: { apply wp_run in Hw as (r & m' & E & -> & ->). exact E. }
  unfold ft_strequ. wp_step. eapply wp_strlen; [done..|]. wp_step. eapply wp_strlen; [done..|].
  destruct (Z.eqb_spec (Z.of_nat (length s1)) (Z.of_nat (length s2))) as [El|El]; cbn [negb].
  2: { apply wp_ret. split; [|done]. symmetry. apply bool_decide_eq_false. congruence. }
  pose proof (cs_range _ _ _ H1). pose proof (cs_range _ _ _ H2).
  wp_step. unfold ft_memcmp. eapply wp_mono; [apply (wp_memcmp_loop p1 p2 _ m 0); intros; lia|].
  intros r m' [-> Hr]. apply wp_ret. split; [|done].
  apply eq_true_iff_eq. rewrite Z.eqb_eq, bool_decide_eq_true, Hr. split.
  - intros Hall. apply list_eq_same_length with (length s1); [lia|done|].
    intros i x y Hi Hx Hy. rewrite <- (cs_bytes _ _ _ H1 i x Hx), <- (cs_bytes _ _ _ H2 i y Hy).
    apply Hall. lia.
  - intros -> j Hj. destruct (cstr_char m p1 s2 j H1) as [-> _]; [lia|].
    destruct (cstr_char m p2 s2 j H2) as [-> _]; [lia|]. done.
Qed.
