(* ===== verification/Libutils.v ===== *)
(** * Allocating string helpers (lib/libutils)

    The helpers call [kmalloc] and [kfree]; they are written against the
    interface [Kmalloc], and their theorems use only what [KmallocSpec]
    promises of it. *)

From S2P Require Import Prelude Memory Libk.

(** The allocator as the string helpers see it; the NULL pointer is 0. *)
Class Kmalloc := {
  kmalloc : Z → Z → M mem Z;
  kfree : Z → M mem unit }.

Section Libutils.
Context `{Kmalloc}.

Definition ft_calloc (count size : Z) : M mem Z :=
  kmalloc (count ⊠ size) (Z.lor GFP_KERNEL __GFP_ZERO).

(** [while (src[i]) { str[i] = src[i]; i++; } str[i] = 0]. *)
Fixpoint copy_str (fuel : nat) (str src i : Z) : M mem Z :=
  match fuel with
  | O => hang
  | S fuel =>
      c ← ld (src + i) ;
      if c =? 0 then mret i else st (str + i) c ;; copy_str fuel str src (i + 1)
  end.

Definition ft_strdup (fuel : nat) (src : Z) : M mem Z :=
  len ← ft_strlen fuel src ;
  str ← kmalloc (len ⊞ 1) GFP_KERNEL ;
  if str =? 0 then mret 0
  else i ← copy_str fuel str src 0 ; st (str + i) 0 ;; mret str.

(** [while (s2[++j]) str[i++] = s2[j]]. *)
Fixpoint append_str (fuel : nat) (str s2 i j : Z) : M mem Z :=
  match fuel with
  | O => hang
  | S fuel =>
      c ← ld (s2 + j) ;
      if c =? 0 then mret i else st (str + i) c ;; append_str fuel str s2 (i + 1) (j + 1)
  end.

Definition ft_strjoin (fuel : nat) (s1 s2 : Z) : M mem Z :=
  if s1 =? 0 then mret 0
  else
    len1 ← ft_strlen fuel s1 ;
    len2 ← ft_strlen fuel s2 ;
    str ← kmalloc ((len1 ⊞ len2) ⊞ 1) GFP_KERNEL ;
    if str =? 0 then mret 0
    else
      i ← copy_str fuel str s1 0 ;
      i ← append_str fuel str s2 i 0 ;
      st (str + i) 0 ;;
      mret str.

Definition ft_join_and_free (fuel : nat) (s1 s2 : Z) : M mem Z :=
  s1 ← (if s1 =? 0 then ft_calloc 1 1 else mret s1) ;
  if s1 =? 0 then mret 0
  else if s2 =? 0 then mret 0
  else
    len1 ← ft_strlen fuel s1 ;
    len2 ← ft_strlen fuel s2 ;
    join ← kmalloc ((len1 ⊞ len2) ⊞ 1) GFP_KERNEL ;
    if join =? 0 then mret 0
    else
      i ← copy_str fuel join s1 0 ;
      i ← append_str fuel join s2 i 0 ;
      st (join + i) 0 ;;
      mret join.

(** [while (i < len && s[start]) str[i++] = s[start++]]. *)
Fixpoint substr_copy (fuel : nat) (str s start len i : Z) : M mem Z :=
  match fuel with
  | O => hang
  | S fuel =>
      c ← ld (s + start) ;
      if (i <? len) && negb (c =? 0) then
        st (str + i) c ;; substr_copy fuel str s (start + 1) len (i + 1)
      else mret i
  end.

Definition ft_substr (fuel : nat) (s start len : Z) : M mem Z :=
  if s =? 0 then mret 0
  else
    n ← ft_strlen fuel s ;
    if n <=? start then ft_calloc 1 1
    else if n <? len then ft_strdup fuel (s + start)
    else
      str ← kmalloc (len ⊞ 1) GFP_KERNEL ;
      if str =? 0 then mret 0
      else i ← substr_copy fuel str s start len 0 ; st (str + i) 0 ;; mret str.

Fixpoint strmapi_loop (fuel : nat) (f : Z → Z → Z) (str s i : Z) : M mem Z :=
  match fuel with
  | O => hang
  | S fuel =>
      c ← ld (s + i) ;
      if c =? 0 then mret i else st (str + i) (f i (s8 c)) ;; strmapi_loop fuel f str s (i + 1)
  end.

Definition ft_strmapi (fuel : nat) (s : Z) (f : Z → Z → Z) : M mem Z :=
  if s =? 0 then mret 0
  else
    len ← ft_strlen fuel s ;
    str ← kmalloc (len ⊞ 1) GFP_KERNEL ;
    if str =? 0 then mret 0
    else i ← strmapi_loop fuel f str s 0 ; st (str + i) 0 ;; mret str.

(** ** Trimming *)

Fixpoint is_sep (fuel : nat) (c charset i : Z) : M mem bool :=
  match fuel with
  | O => hang
  | S fuel =>
      x ← ld (charset + i) ;
      if x =? 0 then mret false
      else if c =? x then mret true else is_sep fuel c charset (i + 1)
  end.

(** [j] is a [size_t]: below index 0 it wraps and the loop reads before the string. *)
Fixpoint end_charset_loop (fuel : nat) (s charset j i : Z) : M mem Z :=
  match fuel with
  | O => hang
  | S fuel' =>
      c ← ld (s + j) ;
      b ← is_sep fuel c charset 0 ;
      if (b : bool) then end_charset_loop fuel' s charset (j ⊟ 1) (i + 1) else mret i
  end.

Definition end_charset (fuel : nat) (s charset : Z) : M mem Z :=
  len ← ft_strlen fuel s ;
  end_charset_loop fuel s charset (len ⊟ 1) 0.

Fixpoint skip_charset (fuel : nat) (s charset i : Z) : M mem Z :=
  match fuel with
  | O => hang
  | S fuel' =>
      c ← ld (s + i) ;
      b ← is_sep fuel c charset 0 ;
      if (b : bool) then skip_charset fuel' s charset (i + 1) else mret i
  end.

(** [while (i < bound) str[j++] = s[i++]]. *)
Fixpoint trim_copy (fuel : nat) (str s i bound j : Z) : M mem Z :=
  match fuel with
  | O => hang
  | S fuel =>
      if i <? bound then
        c ← ld (s + i) ; st (str + j) c ;; trim_copy fuel str s (i + 1) bound (j + 1)
      else mret j
  end.

Definition ft_strtrim (fuel : nat) (s charset : Z) : M mem Z :=
  if s =? 0 then mret 0
  else
    j ← ft_strlen fuel s ;
    k ← end_charset fuel s charset ;
    i ← skip_charset fuel s charset 0 ;
    let k := if i =? j then 0 else k in
    str ← kmalloc ((j ⊟ (k ⊞ i)) ⊞ 1) GFP_KERNEL ;
    if str =? 0 then mret 0
    else
      len ← ft_strlen fuel s ;
      j ← trim_copy fuel str s i (len ⊟ k) 0 ;
      st (str + j) 0 ;;
      mret str.

(** ** Numbers *)

(** [long long] arithmetic on an [int] argument stays in range. *)
Fixpoint intlen_loop (fuel : nat) (n i : Z) : M mem Z :=
  match fuel with
  | O => hang
  | S fuel => if n =? 0 then mret i else intlen_loop fuel (Z.quot n 10) (i + 1)
  end.

(** A 64-bit number has at most 20 decimal digits. *)
Definition DIGITS : nat := 21.

Definition intlen (n : Z) : M mem Z :=
  if n =? 0 then mret 1
  else
    let neg := if n <? 0 then 1 else 0 in
    let n := if n <? 0 then n * -1 else n in
    i ← intlen_loop DIGITS n 0 ;
    mret (i + neg).

Fixpoint makeit_loop (fuel : nat) (n str i neg : Z) : M mem unit :=
  match fuel with
  | O => hang
  | S fuel =>
      if negb (n =? 0) && (neg <=? i) then
        st (str + i) (Z.rem n 10 + 48) ;; makeit_loop fuel (Z.quot n 10) str (i ⊟ 1) neg
      else mret tt
  end.

Definition makeit (n str : Z) : M mem Z :=
  i ← intlen n ;
  st (str + i) 0 ;;
  let i := i ⊟ 1 in
  let neg := if n <? 0 then 1 else 0 in
  (if n <? 0 then st str 45 else if n =? 0 then st str 48 else mret tt) ;;
  let n := if n <? 0 then n * -1 else n in
  makeit_loop DIGITS n str i neg ;;
  mret str.

Definition ft_itoa (n : Z) : M mem Z :=
  len ← intlen n ;
  str ← kmalloc (len ⊞ 1) GFP_KERNEL ;
  if str =? 0 then mret 0 else makeit n str.

Fixpoint countlen_loop (fuel : nat) (nb blen i : Z) : M mem Z :=
  match fuel with
  | O => hang
  | S fuel => if nb =? 0 then mret i else countlen_loop fuel (nb / blen) blen (i + 1)
  end.

(** A 64-bit number has at most 64 digits in base 2. *)
Definition BASE_DIGITS : nat := 65.

Definition ft_countlen (fuel : nat) (nb base : Z) : M mem Z :=
  if nb =? 0 then mret 1
  else blen ← ft_strlen fuel base ; countlen_loop BASE_DIGITS nb blen 0.

Fixpoint makebase_loop (fuel : nat) (nb base blen str i : Z) : M mem unit :=
  match fuel with
  | O => hang
  | S fuel =>
      if nb =? 0 then mret tt
      else
        c ← ld (base + nb mod blen) ;
        st (str + i) c ;;
        makebase_loop fuel (nb / blen) base blen str (i ⊟ 1)
  end.

Definition makebase (fuel : nat) (nb base str : Z) : M mem Z :=
  i ← ft_countlen fuel nb base ;
  st (str + i) 0 ;;
  let i := i ⊟ 1 in
  (if nb =? 0 then st (str + i) 48
   else blen ← ft_strlen fuel base ; makebase_loop BASE_DIGITS nb base blen str i) ;;
  mret str.

Definition ft_itoa_base (fuel : nat) (nb base : Z) : M mem Z :=
  len ← ft_countlen fuel nb base ;
  str ← kmalloc (len ⊞ 1) GFP_KERNEL ;
  if str =? 0 then mret 0 else makebase fuel nb base str.

(** ** Splitting *)

(** The 32-bit little-endian pointer at [a]. *)
Definition ld32 (a : Z) : M mem Z :=
  b0 ← ld a ; b1 ← ld (a + 1) ; b2 ← ld (a + 2) ; b3 ← ld (a + 3) ;
  mret (b0 + 256 * b1 + 65536 * b2 + 16777216 * b3).

Definition st32 (a v : Z) : M mem unit :=
  st a v ;; st (a + 1) (v / 256) ;; st (a + 2) (v / 65536) ;; st (a + 3) (v / 16777216).

Definition ft_strndup (s n : Z) : M mem Z :=
  dest ← kmalloc (n ⊞ 1) GFP_KERNEL ;
  if dest =? 0 then mret 0
  else
    for_ (Z.to_nat n) 0 (λ i, c ← ld (s + i) ; st (dest + i) c) ;;
    st (dest + n) 0 ;;
    mret dest.

Fixpoint countwords_loop (fuel : nat) (str set i len : Z) : M mem Z :=
  match fuel with
  | O => hang
  | S fuel =>
      c ← ld (str + i) ;
      if c =? 0 then mret len
      else
        d ← ld (str + (i + 1)) ;
        let len := if (c =? set) && negb (d =? set) && negb (d =? 0) then len + 1 else len in
        countwords_loop fuel str set (i + 1) len
  end.

Definition ft_countwords (fuel : nat) (str set : Z) : M mem Z :=
  n ← ft_strlen fuel str ;
  if n =? 0 then mret 0
  else
    c ← ld str ;
    countwords_loop fuel str set 0 (if negb (c =? set) then 1 else 0).

Fixpoint word_len (fuel : nat) (str set i len_word : Z) : M mem Z :=
  match fuel with
  | O => hang
  | S fuel =>
      c ← ld (str + (i + len_word)) ;
      if negb (c =? set) && negb (c =? 0) then word_len fuel str set i (len_word + 1)
      else mret len_word
  end.

(** [i] is the index after the increment [++i]. *)
Fixpoint split_loop (fuel : nat) (str set tab i m_tab : Z) : M mem Z :=
  match fuel with
  | O => hang
  | S fuel' =>
      c ← ld (str + i) ;
      if c =? 0 then mret m_tab
      else if negb (c =? set) then
        len_word ← word_len fuel str set i 0 ;
        w ← ft_strndup (str + i) len_word ;
        st32 (tab + 4 * m_tab) w ;;
        split_loop fuel' str set tab (i + len_word) (m_tab + 1)
      else split_loop fuel' str set tab (i + 1) m_tab
  end.

Definition ft_split (fuel : nat) (str set : Z) : M mem Z :=
  if str =? 0 then mret 0
  else
    n ← ft_countwords fuel str set ;
    tab ← ft_calloc 4 (n + 1) ;
    if tab =? 0 then mret 0
    else
      m_tab ← split_loop fuel str set tab 0 0 ;
      st32 (tab + 4 * m_tab) 0 ;;
      mret tab.

Fixpoint strslen_loop (fuel : nat) (str i : Z) : M mem Z :=
  match fuel with
  | O => hang
  | S fuel => p ← ld32 (str + 4 * i) ; if p =? 0 then mret i else strslen_loop fuel str (i + 1)
  end.

Definition ft_strslen (fuel : nat) (str : Z) : M mem Z := strslen_loop fuel str 0.

Fixpoint free_strs_loop (fuel : nat) (tab i : Z) : M mem unit :=
  match fuel with
  | O => hang
  | S fuel =>
      p ← ld32 (tab + 4 * i) ;
      if p =? 0 then mret tt else kfree p ;; free_strs_loop fuel tab (i + 1)
  end.

Definition ft_free_strs (fuel : nat) (tab : Z) : M mem unit :=
  free_strs_loop fuel tab 0 ;; kfree tab.

End Libutils.
