(* ===== verification/LibutilsThm.v ===== *)
(** * The string helpers: correctness against the allocator's interface *)

From S2P Require Import Prelude Memory Libk LibkThm Libutils.

(** What the helpers rely on: [kmalloc] returns NULL and changes nothing, or
    a non-NULL block inside the address space that avoids the addresses
    [live] the caller uses, without touching those. *)
Class KmallocSpec `{Kmalloc} (live : Z → Prop) : Prop :=
  kmalloc_spec : ∀ (m : mem) size gfp, mem_ok m → 0 < size < W32 →
    wp (kmalloc size gfp) m (λ r m', mem_ok m' ∧
      ((r = 0 ∧ m' = m) ∨
       (0 < r ∧ r + size ≤ W32 ∧ (∀ a, r ≤ a < r + size → ¬ live a) ∧
        ∀ a, live a → m' a = m a))).

(** Addresses of the string at [p]. *)
Definition str_addrs (p : Z) (s : list Z) (a : Z) : Prop := p ≤ a ≤ p + Z.of_nat (length s).

Lemma cstr_frame m m' p s : cstr m p s → (∀ a, str_addrs p s a → m' a = m a) → cstr m' p s.
Proof.
  intros [Hb Hn Hc Hr] Hf. split; [| |done|done].
  - intros i c Hi. rewrite Hf; [by apply Hb|]. apply lookup_lt_Some in Hi. unfold str_addrs. lia.
  - rewrite Hf; [done|]. unfold str_addrs. lia.
Qed.

(** Writing the characters of [s] and then a NUL makes the string [s]. *)
Lemma cstr_written m m' p s f : written m m' p (Z.of_nat (length s)) f →
  (∀ i c, s !! i = Some c → f (Z.of_nat i) = c) → Forall (λ c, 0 < c < 256) s →
  0 ≤ p → p + Z.of_nat (length s) < W32 →
  cstr (<[p + Z.of_nat (length s) := u8 0]> m') p s.
Proof.
  intros Hw Hf Hc Hp Hr. split; [| |done|lia].
  - intros i c Hi. pose proof (lookup_lt_Some _ _ _ Hi). rewrite mem_insert, decide_False by lia.
    rewrite Hw, decide_True by lia. replace (p + Z.of_nat i - p) with (Z.of_nat i) by lia. auto.
  - rewrite mem_insert. by rewrite decide_True.
Qed.

Lemma wp_copy_str fuel m str src s (i : nat) m1 : mem_ok m → cstr m src s → 0 ≤ str →
  str + Z.of_nat (length s) ≤ W32 →
  str + Z.of_nat (length s) ≤ src ∨ src + Z.of_nat (length s) < str →
  (i ≤ length s)%nat → (length s - i < fuel)%nat →
  written m m1 str (Z.of_nat i) (λ j, m (src + j)) →
  wp (copy_str fuel str src (Z.of_nat i)) m1 (λ r m', r = Z.of_nat (length s) ∧
    written m m' str (Z.of_nat (length s)) (λ j, m (src + j))).
Proof.
  intros Hm Hs Hd Hdn Hsep. revert i m1.
  induction fuel as [|fuel IH]; intros i m1 Hi Hf Hw; [lia|]. cbn [copy_str].
  destruct (cstr_char m src s i Hs Hi) as [Hc Hr].
  assert (m1 (src + Z.of_nat i) = m (src + Z.of_nat i)) as E1
    by (rewrite Hw, decide_False; [done|lia]).
  wp_step. apply wp_ld; [done|]. cbn beta. rewrite E1.
  destruct (decide (i = length s)) as [->|Hne].
  { rewrite (cs_nul _ _ _ Hs). by apply wp_ret. }
  destruct (cstr_nonzero m src s i Hs) as (c & _ & Ec & ?); [lia|].
  rewrite Ec, (proj2 (Z.eqb_neq c 0)) by lia.
  wp_step. apply wp_st; [lia|]. replace (Z.of_nat i + 1) with (Z.of_nat (S i)) by lia.
  apply IH; try lia. intros a. rewrite mem_insert, Hw, u8_small by lia.
  destruct (decide (a = str + Z.of_nat i)) as [->|].
  - rewrite decide_True by lia. rewrite <- Ec. f_equal. lia.
  - repeat case_decide; lia || done.
Qed.

Section Spec.
Context `{Kmalloc}.

(** [ft_strdup] returns NULL with memory unchanged when the allocator
    does, and otherwise a block that holds a copy of the string, leaving
    everything the caller uses, the source included, as it was. *)
Theorem ft_strdup_correct (live : Z → Prop) `{!KmallocSpec live} (m : mem) (src : Z) (s : list Z)
    (fuel : nat) :
  mem_ok m → cstr m src s → (∀ a, str_addrs src s a → live a) → (length s < fuel)%nat →
  Z.of_nat (length s) + 1 < W32 →
  ∃ r m', ft_strdup fuel src m = Done (r, m') ∧
    ((r = 0 ∧ m' = m) ∨ (0 < r ∧ cstr m' r s ∧ ∀ a, live a → m' a = m a)).
Proof.
  intros Hm Hs Hlive Hf Hw.
  assert (wp (ft_strdup fuel src) m (λ r m',
    (r = 0 ∧ m' = m) ∨ (0 < r ∧ cstr m' r s ∧ ∀ a, live a → m' a = m a))) as Hwp.
  2: { apply wp_run in Hwp as (r & m' & E & ?). eauto. }
  unfold ft_strdup. wp_step. eapply wp_strlen; [done..|]. rewrite u32_small by lia. wp_step.
  eapply wp_mono; [apply (kmalloc_spec m (Z.of_nat (length s) + 1) GFP_KERNEL Hm); lia|].
  intros r m1 [Hm1 [[-> ->]|(Hr & Hrn & Hfresh & Hsame)]].
  { apply wp_ret. by left. }
  rewrite (proj2 (Z.eqb_neq r 0)) by lia.
  assert (cstr m1 src s) as Hs1 by (eapply cstr_frame; [done|]; auto).
  assert (r + Z.of_nat (length s) ≤ src ∨ src + Z.of_nat (length s) < r) as Hsep.
  { destruct (decide (r + Z.of_nat (length s) ≤ src)); [by left|right].
    destruct (decide (src + Z.of_nat (length s) < r)); [done|exfalso].
    apply (Hfresh (Z.max r src)); [lia|]. apply Hlive. unfold str_addrs. lia. }
  wp_step. eapply wp_mono; [apply (wp_copy_str fuel m1 r src s 0 m1); try done; try lia|].
  { intros a. rewrite decide_False; [done|lia]. }
  intros k m2 [-> Hw2]. wp_step. apply wp_st; [lia|]. apply wp_ret. right. split_and!; [done|..].
  - eapply cstr_written; [exact Hw2| |apply Hs|lia|lia]. intros i c Hi. by apply (cs_bytes _ _ _ Hs1).
  - intros a Ha. rewrite <- (Hsame a Ha).
    assert (¬ r ≤ a < r + (Z.of_nat (length s) + 1)) by (intros ?; by eapply Hfresh).
    rewrite mem_insert, Hw2. rewrite !decide_False by lia. done.
Qed.

(** ** Decimal numbers *)

(** The decimal digits of a positive number, most significant first. *)
Fixpoint dec (fuel : nat) (n : Z) : list Z :=
  match fuel with
  | O => []
  | S fuel => if n =? 0 then [] else dec fuel (n / 10) ++ [n mod 10 + 48]
  end.

(** The decimal representation [ft_itoa] is to produce. *)
Definition itoa_str (n : Z) : list Z :=
  if n =? 0 then [48] else if n <? 0 then 45 :: dec 20 (- n) else dec 20 n.

Definition dec_value (v : Z) (s : list Z) : Z := fold_left (λ v c, v * 10 + (c - 48)) s v.

Lemma dec_digits fuel n : 0 ≤ n → Forall (λ c, 48 ≤ c ≤ 57) (dec fuel n).
Proof.
  revert n. induction fuel as [|fuel IH]; intros n Hn; simpl; [constructor|].
  case_match; [constructor|]. apply Forall_app. split.
  - apply IH, Z.div_pos; lia.
  - apply Forall_singleton. pose proof (Z.mod_pos_bound n 10). lia.
Qed.

Lemma dec_value_app v s c : dec_value v (s ++ [c]) = dec_value v s * 10 + (c - 48).
Proof. unfold dec_value. by rewrite fold_left_app. Qed.

Lemma dec_correct fuel n : 0 ≤ n < 10 ^ Z.of_nat fuel → dec_value 0 (dec fuel n) = n.
Proof.
  revert n. induction fuel as [|fuel IH]; intros n Hn; simpl; [change (10 ^ Z.of_nat 0) with 1 in Hn; unfold dec_value; simpl; lia|].
  destruct (Z.eqb_spec n 0) as [->|]; [done|]. rewrite dec_value_app, IH.
  - pose proof (Z.div_mod n 10). lia.
  - rewrite Nat2Z.inj_succ, Z.pow_succ_r in Hn by lia. split; [apply Z.div_pos; lia|].
    apply Z.div_lt_upper_bound; lia.
Qed.

Lemma dec_length fuel n : (length (dec fuel n) ≤ fuel)%nat.
Proof.
  revert n. induction fuel as [|fuel IH]; intros n; simpl; [done|]. case_match; simpl; [lia|].
  rewrite length_app. simpl. specialize (IH (n / 10)). lia.
Qed.

Lemma dec_pos fuel n : n ≠ 0 → (1 ≤ length (dec (S fuel) n))%nat.
Proof. intros Hn. simpl. rewrite (proj2 (Z.eqb_neq n 0) Hn), length_app. simpl. lia. Qed.

Lemma div10_range n fuel : 0 ≤ n < 10 ^ Z.of_nat (S fuel) → 0 ≤ n / 10 < 10 ^ Z.of_nat fuel.
Proof.
  rewrite Nat2Z.inj_succ, Z.pow_succ_r by lia. intros. split; [apply Z.div_pos; lia|].
  apply Z.div_lt_upper_bound; lia.
Qed.

Lemma wp_intlen_loop fuel n i m : 0 ≤ n < 10 ^ Z.of_nat fuel →
  wp (intlen_loop (S fuel) n i) m (λ r m', r = i + Z.of_nat (length (dec fuel n)) ∧ m' = m).
Proof.
  revert n i. induction fuel as [|fuel IH]; intros n i Hn.
  - assert (n = 0) as -> by (change (10 ^ Z.of_nat 0) with 1 in Hn; lia). apply wp_ret. simpl. split; [lia|done].
  - cbn [intlen_loop dec]. destruct (Z.eqb_spec n 0) as [->|]; [apply wp_ret; simpl; split; [lia|done]|].
    rewrite Z.quot_div_nonneg by lia.
    eapply wp_mono; [apply IH; by apply div10_range|]. intros r m' [-> ->]. split; [|done].
    rewrite length_app. simpl. lia.
Qed.

Lemma wp_makeit_loop fuel n str i neg m : 0 ≤ n < 10 ^ Z.of_nat fuel → 0 ≤ str → 0 ≤ neg →
  i = neg + Z.of_nat (length (dec fuel n)) - 1 → -1 ≤ i → str + i < W32 → i < W32 - 1 →
  wp (makeit_loop (S fuel) n str (u32 i) neg) m (λ _ m',
    written m m' (str + neg) (Z.of_nat (length (dec fuel n)))
      (λ j, default 0 (dec fuel n !! Z.to_nat j))).
Proof.
  revert n i m. induction fuel as [|fuel IH]; intros n i m Hn Hs Hneg Hi Hi1 Hr Hw.
  - assert (n = 0) as -> by (change (10 ^ Z.of_nat 0) with 1 in Hn; lia). apply wp_ret.
    intros a. rewrite decide_False; [done|]. simpl. lia.
  - cbn [makeit_loop dec] in *. destruct (Z.eqb_spec n 0) as [->|Hn0]; cbn [negb andb].
    { apply wp_ret. intros a. rewrite decide_False; [done|]. simpl. lia. }
    set (d := dec fuel (n / 10)) in *. rewrite length_app in Hi. simpl in Hi.
    rewrite (u32_small i) by lia. rewrite (proj2 (Z.leb_le neg i)) by lia.
    wp_step. apply wp_st; [lia|].
    rewrite (Z.quot_div_nonneg n 10), (Z.rem_mod_nonneg n 10) by lia.
    eapply wp_mono; [apply (IH (n / 10) (i - 1)); fold d; try lia; by apply div10_range|].
    intros [] m' Hw' a. rewrite Hw', mem_insert, length_app. fold d. simpl.
    rewrite u8_small by (pose proof (Z.mod_pos_bound n 10); lia).
    destruct (decide (a = str + i)) as [->|].
    + rewrite decide_False, decide_True by lia.
      rewrite lookup_app_r by lia. replace (Z.to_nat _ - length d)%nat with 0%nat by lia. done.
    + destruct (decide (str + neg ≤ a < str + neg + Z.of_nat (length d))).
      * rewrite decide_True by lia. by rewrite lookup_app_l by lia.
      * by rewrite decide_False by lia.
Qed.

Definition int_ok (n : Z) : Prop := -2147483648 ≤ n < 2147483648.

Lemma wp_intlen n m : int_ok n →
  wp (intlen n) m (λ r m', r = Z.of_nat (length (itoa_str n)) ∧ m' = m).
Proof.
  unfold int_ok. intros Hn. unfold intlen, itoa_str.
  destruct (Z.eqb_spec n 0) as [->|]; [by apply wp_ret|]. wp_step.
  destruct (Z.ltb_spec n 0);
    (eapply wp_mono; [apply (wp_intlen_loop 20); rewrite ?Z.mul_opp_r, ?Z.mul_1_r; lia|]);
    intros r m' [-> ->]; apply wp_ret; (split; [|done]).
  - replace (n * -1) with (- n) by lia. simpl length. lia.
  - lia.
Qed.

Lemma itoa_str_chars n : int_ok n → Forall (λ c, 0 < c < 256) (itoa_str n) ∧
  (1 ≤ length (itoa_str n) ≤ 21)%nat.
Proof.
  unfold int_ok. intros Hn. unfold itoa_str.
  assert (∀ k, 0 < k → Forall (λ c, 0 < c < 256) (dec 20 k) ∧ (1 ≤ length (dec 20 k) ≤ 20)%nat) as Hd.
  { intros k Hk. split; [|split; [|apply dec_length]].
    - eapply Forall_impl; [apply (dec_digits 20 k); lia|]. simpl. lia.
    - apply (dec_pos 19). lia. }
  destruct (Z.eqb_spec n 0); [split; [by repeat constructor|simpl; lia]|].
  destruct (Z.ltb_spec n 0).
  - destruct (Hd (- n)); [lia|]. split; [by constructor|cbn [length]; lia].
  - destruct (Hd n); [lia|]. split; [done|lia].
Qed.

(** What [makeit] stores at [str]. *)
Lemma wp_makeit n str m : int_ok n → 0 ≤ str → str + Z.of_nat (length (itoa_str n)) < W32 →
  wp (makeit n str) m (λ r m', r = str ∧ cstr m' str (itoa_str n) ∧
    ∀ a, ¬ str ≤ a ≤ str + Z.of_nat (length (itoa_str n)) → m' a = m a).
Proof.
  intros Hn Hs Hr. destruct (itoa_str_chars n Hn) as [Hch Hlen].
  unfold makeit. wp_step. eapply wp_mono; [by apply wp_intlen|]. intros len m0 [-> ->].
  set (L := Z.of_nat (length (itoa_str n))) in *.
  wp_step. apply wp_st; [lia|]. set (m1 := <[str + L := u8 0]> m).
  unfold int_ok in Hn.
  assert (∀ f m', written m1 m' str L f → (∀ i c, itoa_str n !! i = Some c → f (Z.of_nat i) = c) →
    cstr m' str (itoa_str n) ∧ ∀ a, ¬ str ≤ a ≤ str + L → m' a = m a) as Hfin.
  { intros f m' Hw Hf. split.
    - split; [| |done|lia].
      + intros i c Hi. pose proof (lookup_lt_Some _ _ _ Hi). rewrite Hw, decide_True by lia.
        replace (str + Z.of_nat i - str) with (Z.of_nat i) by lia. auto.
      + fold L. rewrite Hw, decide_False by lia. unfold m1. by rewrite mem_insert, decide_True.
    - intros a Ha. rewrite Hw, decide_False by lia. unfold m1. by rewrite mem_insert, decide_False by lia. }
  assert (L < 22) as HL by lia.
  wp_step. destruct (Z.ltb_spec n 0) as [Hneg|Hpos]; [|destruct (Z.eqb_spec n 0) as [E0|Hn0]].
  - assert (itoa_str n = 45 :: dec 20 (- n)) as E.
    { unfold itoa_str. by rewrite (proj2 (Z.eqb_neq n 0)), (proj2 (Z.ltb_lt n 0)) by lia. }
    assert (L = 1 + Z.of_nat (length (dec 20 (- n)))) as EL by (unfold L; rewrite E; cbn [length]; lia).
    clearbody L. rewrite E in Hfin.
    apply wp_st; [lia|]. wp_step. replace (n * -1) with (- n) by lia.
    eapply wp_mono; [apply (wp_makeit_loop 20); lia || (unfold W32; lia)|].
    intros [] m' Hw. apply wp_ret. split; [done|]. rewrite E.
    apply (Hfin (λ j, default 0 ((45 :: dec 20 (- n)) !! Z.to_nat j))).
    + intros a. rewrite Hw, mem_insert. destruct (decide (a = str)) as [->|].
      * rewrite decide_False, decide_True by lia. by rewrite Z.sub_diag.
      * destruct (decide (str + 1 ≤ a < str + 1 + Z.of_nat (length (dec 20 (- n))))).
        -- rewrite decide_True by lia.
           by replace (Z.to_nat (a - str)) with (S (Z.to_nat (a - (str + 1)))) by lia.
        -- by rewrite decide_False by lia.
    + intros i c Hi. by rewrite Nat2Z.id, Hi.
  - assert (itoa_str n = [48]) as E by (by rewrite E0).
    assert (L = 1) as EL by (unfold L; by rewrite E). clearbody L. rewrite E in Hfin |- *.
    apply wp_st; [lia|]. rewrite E0. wp_step. apply wp_ret, wp_ret. split; [done|].
    apply (Hfin (λ _, 48)); [|intros [|i] c; [by intros [= <-]|done]].
    intros a. rewrite mem_insert. repeat case_decide; lia || done.
  - assert (itoa_str n = dec 20 n) as E.
    { unfold itoa_str. by rewrite (proj2 (Z.eqb_neq n 0)), (proj2 (Z.ltb_ge n 0)) by lia. }
    assert (L = Z.of_nat (length (dec 20 n))) as EL by (unfold L; by rewrite E).
    clearbody L. rewrite E in Hfin. apply wp_ret. wp_step.
    eapply wp_mono; [apply (wp_makeit_loop 20); lia || (unfold W32; lia)|].
    intros [] m' Hw. apply wp_ret. split; [done|]. rewrite Z.add_0_r, <- EL in Hw. rewrite E.
    eapply Hfin; [exact Hw|]. intros i c Hi. cbn beta. by rewrite Nat2Z.id, Hi.
Qed.

(** *** Reading them back *)

Lemma wp_atoi_digits fuel m p s (i : nat) v : cstr m p s → (i ≤ length s)%nat →
  Forall (λ c, 48 ≤ c ≤ 57) (drop i s) → (length s - i < fuel)%nat →
  wp (atoi_digits fuel p (Z.of_nat i) (s32 v)) m
    (λ r m', r = s32 (dec_value v (drop i s)) ∧ m' = m).
Proof.
  intros Hs. revert i v. induction fuel as [|fuel IH]; intros i v Hi Hd Hf; [lia|].
  cbn [atoi_digits]. destruct (cstr_char m p s i Hs Hi) as [Hc Hr]. wp_step. apply wp_ld; [done|].
  rewrite Hc. destruct (s !! i) as [c|] eqn:E; simpl.
  - rewrite (drop_S _ _ _ E) in Hd |- *. apply Forall_cons in Hd as [Hc48 Hd].
    assert (s8 c = c) as -> by (unfold s8; rewrite u8_small by lia; by rewrite (proj2 (Z.ltb_lt _ _)) by lia).
    unfold ft_isdigit. rewrite (proj2 (Z.leb_le 48 c)), (proj2 (Z.leb_le c 57)) by lia. cbn [andb].
    assert (s32 (s32 (s32 v * 10) + (c - 48)) = s32 (v * 10 + (c - 48))) as ->.
    { destruct (s32_decomp v) as [k1 ->], (s32_decomp ((v + k1 * W32) * 10)) as [k2 ->].
      rewrite <- (s32_shift (v * 10 + (c - 48)) (k1 * 10 + k2)). f_equal. lia. }
    replace (Z.of_nat i + 1) with (Z.of_nat (S i)) by lia.
    apply lookup_lt_Some in E. apply IH; [lia|done|lia].
  - apply lookup_ge_None in E. rewrite drop_ge by lia. by apply wp_ret.
Qed.

Lemma itoa_first n : int_ok n → ∃ c s, itoa_str n = c :: s ∧
  (n < 0 → c = 45 ∧ Forall (λ c, 48 ≤ c ≤ 57) s ∧ dec_value 0 s = - n) ∧
  (0 ≤ n → Forall (λ c, 48 ≤ c ≤ 57) (c :: s) ∧ dec_value 0 (c :: s) = n).
Proof.
  unfold int_ok. intros Hn. unfold itoa_str.
  destruct (Z.eqb_spec n 0) as [->|]; [exists 48, []; split_and!; [done|lia|]; intros _; split; [by repeat constructor|done]|].
  destruct (Z.ltb_spec n 0).
  - exists 45, (dec 20 (- n)). split_and!; [done| |lia]. intros _. split_and!; [done|..].
    + apply dec_digits. lia.
    + apply dec_correct. simpl. lia.
  - destruct (dec 20 n) as [|c s] eqn:E.
    { pose proof (dec_pos 19 n ltac:(lia)) as Hd. rewrite E in Hd. simpl in Hd. lia. }
    exists c, s. split_and!; [done|lia|]. intros _. rewrite <- E. split.
    + apply dec_digits. lia.
    + apply dec_correct. simpl. lia.
Qed.

Lemma wp_atoi_itoa n p m fuel : int_ok n → cstr m p (itoa_str n) → (22 < fuel)%nat →
  wp (ft_atoi fuel p) m (λ r m', r = n ∧ m' = m).
Proof.
  intros Hn Hs Hf. destruct (itoa_str_chars n Hn) as [_ Hlen].
  destruct (itoa_first n Hn) as (c & s & E & Hneg & Hpos). rewrite E in *.
  destruct (cstr_tail m p c s Hs) as (_ & Hc & _). pose proof (cs_range _ _ _ Hs).
  assert (45 ≤ c ≤ 57 ∧ c ≠ 43 ∧ (c = 45 ↔ n < 0)) as Hc45.
  { destruct (decide (n < 0)) as [Hlt|].
    - destruct (Hneg Hlt) as [-> _]. lia.
    - destruct Hpos as [[? _]%Forall_cons _]; lia. }
  unfold ft_atoi. wp_step. destruct fuel as [|fuel]; [lia|].
  assert (∀ (Q : Z → mem → Prop), Q 0 m → wp (atoi_skip (S fuel) p 0) m Q) as Hskip.
  { intros Q HQ. cbn [atoi_skip]. rewrite Z.add_0_r. wp_step. apply wp_ld; [lia|]. rewrite Hc.
    assert (s8 c = c) as -> by (unfold s8; rewrite u8_small by lia; by rewrite (proj2 (Z.ltb_lt _ _)) by lia).
    unfold ft_isspace. repeat (rewrite (proj2 (Z.eqb_neq c _)) by lia). by apply wp_ret. }
  apply Hskip. rewrite Z.add_0_r. wp_step. apply wp_ld; [lia|]. rewrite Hc.
  rewrite (proj2 (Z.eqb_neq c 43)), orb_false_r by lia. wp_step.
  change 0 with (s32 0) at 1. destruct (Z.eqb_spec c 45) as [E45|E45].
  - destruct Hneg as (_ & Hd & Hv); [lia|].
    eapply wp_mono; [apply (wp_atoi_digits (S fuel) m p (c :: s) 1 0 Hs); [simpl; lia|done|lia]|].
    intros r m' [-> ->]. apply wp_ret. split; [|done].
    change (drop 1 (c :: s)) with s. rewrite Hv.
    destruct (s32_decomp (- n)) as [k ->]. transitivity (s32 n); [|by apply s32_small].
    rewrite <- (s32_shift n (- k)). f_equal. lia.
  - destruct Hpos as [Hd Hv]; [lia|].
    eapply wp_mono; [apply (wp_atoi_digits (S fuel) m p (c :: s) 0 0 Hs); [simpl; lia|done|lia]|].
    intros r m' [-> ->]. apply wp_ret. split; [|done].
    change (drop 0 (c :: s)) with (c :: s). rewrite Hv, Z.mul_1_r.
    by rewrite !(s32_small n) by done.
Qed.

(** Printing a number and reading it back is the identity on all of
    [int], the least one included: whenever the allocator serves [ft_itoa],
    the block it returns holds the decimal representation and [ft_atoi]
    parses it to the same number. *)
Theorem ft_atoi_itoa_roundtrip (live : Z → Prop) `{!KmallocSpec live} (m : mem) (n : Z) (fuel : nat) :
  mem_ok m → int_ok n → (22 < fuel)%nat →
  ∃ r m', ft_itoa n m = Done (r, m') ∧
    ((r = 0 ∧ m' = m) ∨
     (cstr m' r (itoa_str n) ∧ (∀ a, live a → m' a = m a) ∧ ft_atoi fuel r m' = Done (n, m'))).
Proof.
  intros Hm Hn Hf. destruct (itoa_str_chars n Hn) as [_ Hlen].
  assert (wp (ft_itoa n) m (λ r m', (r = 0 ∧ m' = m) ∨
    (cstr m' r (itoa_str n) ∧ (∀ a, live a → m' a = m a) ∧ ft_atoi fuel r m' = Done (n, m')))) as Hwp.
  2: { apply wp_run in Hwp as (r & m' & E & ?). eauto. }
  unfold ft_itoa. wp_step. eapply wp_mono; [by apply wp_intlen|]. intros len m0 [-> ->].
  rewrite u32_small by (unfold W32; lia). wp_step.
  eapply wp_mono; [apply (kmalloc_spec m (Z.of_nat (length (itoa_str n)) + 1) GFP_KERNEL Hm); unfold W32; lia|].
  intros r m1 [Hm1 [[-> ->]|(Hr & Hrn & Hfresh & Hsame)]]; [apply wp_ret; by left|].
  rewrite (proj2 (Z.eqb_neq r 0)) by lia.
  eapply wp_mono; [apply wp_makeit; [done|lia|lia]|]. intros r' m2 (-> & Hs & Hout). right.
  split_and!; [done|..].
  - intros a Ha. rewrite Hout; [by apply Hsame|]. intros ?. apply (Hfresh a); [lia|done].
  - pose proof (wp_atoi_itoa n r m2 fuel Hn Hs Hf) as Ha.
    apply wp_run in Ha as (x & m3 & E & -> & ->). exact E.
Qed.

End Spec.

(** ** The theorems at work *)

(** An arena above 1 MiB that serves one block. *)
Definition arena_kmalloc (size gfp : Z) : M mem Z :=
  if size <=? W32 - 1048576 then mret 1048576 else mret 0.

#[local] Instance arena : Kmalloc := { kmalloc := arena_kmalloc; kfree := λ _, mret tt }.

#[local] Instance arena_spec : KmallocSpec (λ a, a < 1048576).
Proof.
  intros m size gfp Hm Hs. unfold kmalloc, arena, arena_kmalloc.
  destruct (Z.leb_spec size (W32 - 1048576)); apply wp_ret; (split; [done|]); [right|by left].
  split_and!; [lia|lia| |done]. lia.
Qed.

Lemma ft_atoi_itoa_roundtrip_witness :
  ∃ r m', ft_itoa (-2147483648) (λ _, 0) = Done (r, m') ∧
    ((r = 0 ∧ m' = (λ _, 0)) ∨
     (cstr m' r (itoa_str (-2147483648)) ∧ (∀ a, a < 1048576 → m' a = 0) ∧
      ft_atoi 23 r m' = Done (-2147483648, m'))).
Proof.
  apply (ft_atoi_itoa_roundtrip (λ a, a < 1048576) (λ _, 0) (-2147483648) 23);
    [intros a; lia|split; [lia|reflexivity]|lia].
Defined.

(** "abc" at 100 and "abd" at 200. *)
Definition two_strings : mem :=
  <[100 := 97]> (<[101 := 98]> (<[102 := 99]> (<[200 := 97]> (<[201 := 98]> (<[202 := 100]> (λ _, 0)))))).

Lemma two_strings_abc : cstr two_strings 100 [97; 98; 99].
Proof.
  split; [|reflexivity|repeat constructor; lia|split; [lia|reflexivity]].
  intros [|[|[|i]]] c E; simplify_eq/=; reflexivity.
Qed.

Lemma two_strings_abd : cstr two_strings 200 [97; 98; 100].
Proof.
  split; [|reflexivity|repeat constructor; lia|split; [lia|reflexivity]].
  intros [|[|[|i]]] c E; simplify_eq/=; reflexivity.
Qed.

Lemma two_strings_ok : mem_ok two_strings.
Proof.
  intros a. unfold two_strings. rewrite !mem_insert. repeat case_decide; lia.
Qed.

Lemma ft_strdup_correct_witness :
  ∃ r m', ft_strdup 10 100 two_strings = Done (r, m') ∧
    ((r = 0 ∧ m' = two_strings) ∨
     (0 < r ∧ cstr m' r [97; 98; 99] ∧ ∀ a, a < 1048576 → m' a = two_strings a)).
Proof.
  apply (ft_strdup_correct (λ a, a < 1048576) two_strings 100 [97; 98; 99] 10);
    [exact two_strings_ok|exact two_strings_abc|unfold str_addrs; simpl; lia|simpl; lia|reflexivity].
Defined.

Lemma ft_strncmp_compares_n_plus_1_witness :
  ft_strncmp 10 100 200 2 two_strings = Done (-1, two_strings) ∧
  strncmp_ref 2 [97; 98; 99] [97; 98; 100] = 0.
Proof.
  split; [|reflexivity].
  apply (ft_strncmp_compares_n_plus_1 two_strings 100 200 2 [97; 98; 99] [97; 98; 100] 10);
    [exact two_strings_abc|exact two_strings_abd|lia|simpl; lia].
Defined.

Lemma ft_strequ_correct_witness : ft_strequ 10 100 200 two_strings = Done (false, two_strings).
Proof.
  apply (ft_strequ_correct two_strings 100 200 [97; 98; 99] [97; 98; 100] 10);
    [exact two_strings_abc|exact two_strings_abd|simpl; lia|simpl; lia].
Defined.

Lemma ft_strlcpy_correct_witness :
  ∃ m', ft_strlcpy 10 300 100 3 two_strings = Done (3, m') ∧ cstr m' 300 [97; 98] ∧
    ∀ a, ¬ 300 ≤ a < 300 + 3 → m' a = two_strings a.
Proof.
  apply (ft_strlcpy_correct two_strings 300 100 3 [97; 98; 99] 10);
    [exact two_strings_ok|exact two_strings_abc|lia|lia|unfold W32; lia|right; simpl; lia|simpl; lia].
Defined.

Lemma ft_memmove_correct_witness :
  ∃ m', ft_memmove 101 100 3 two_strings = Done (101, m') ∧ mem_ok m' ∧
    written two_strings m' 101 3 (λ i, two_strings (100 + i)).
Proof.
  apply (ft_memmove_correct 101 100 3 two_strings two_strings_ok); unfold W32; lia.
Defined.
