(* ===== verification/Bitmap.v ===== *)
(** * Bitmaps and identifier allocation (lib/data_structs/bitmap,
    src/utils/id_manager.c)

    The bytes of a bitmap are a function of the byte index.  [id_manager]
    hands out process identifiers and block-device numbers from a bitmap. *)

From S2P Require Import Prelude.

Record t_bitmap := Bitmap { nb_bits : Z; data : Z → Z }.

Definition bitmap_check (map : t_bitmap) (index : Z) : bool :=
  if nb_bits map <=? index then false
  else negb (Z.land (Z.shiftr (data map (index / 8)) (index mod 8)) 1 =? 0).

Definition bitmap_set (map : t_bitmap) (index : Z) : t_bitmap :=
  if nb_bits map <=? index then map
  else
    let mask := u8 (Z.shiftl 1 (index mod 8)) in
    Bitmap (nb_bits map) (<[index / 8 := Z.lor (data map (index / 8)) mask]> (data map)).

Definition bitmap_unset (map : t_bitmap) (index : Z) : t_bitmap :=
  if nb_bits map <=? index then map
  else
    let mask := u8 (Z.shiftl 1 (index mod 8)) in
    Bitmap (nb_bits map)
      (<[index / 8 := u8 (Z.land (data map (index / 8)) (Z.lnot mask))]> (data map)).

Definition bitmap_clear (map : t_bitmap) : t_bitmap :=
  Bitmap (nb_bits map)
    (λ i, if (0 <=? i) && (i <? BITS_TO_BYTES (nb_bits map)) then 0 else data map i).

Definition BIT_IS_FULL : Z := 255.

(** The inner loop over the bits of byte [i]; [None] when all are set. *)
Fixpoint find_bit (n : nat) (d : Z → Z) (nb i j : Z) : option Z :=
  match n with
  | O => None
  | S n =>
      if negb (Z.land (Z.shiftr (d i) j) 1 =? 0) then find_bit n d nb i (j + 1)
      else let index := i * 8 + j in Some (if nb <=? index then -1 else index)
  end.

(** The outer loop over the bytes. *)
Fixpoint find_byte (n : nat) (d : Z → Z) (nb byte_start bit_offset i : Z) : Z :=
  match n with
  | O => -1
  | S n =>
      if d i =? BIT_IS_FULL then find_byte n d nb byte_start bit_offset (i + 1)
      else
        let offset := if i =? byte_start then bit_offset else 0 in
        match find_bit (Z.to_nat (8 - offset)) d nb i offset with
        | Some r => r
        | None => find_byte n d nb byte_start bit_offset (i + 1)
        end
  end.

Definition bitmap_find_next_zero_from (nb : Z) (d : Z → Z) (bit_start : Z) : Z :=
  if nb <=? bit_start then -1
  else
    let byte_start := bit_start / 8 in
    let bit_offset := bit_start mod 8 in
    let max := BITS_TO_BYTES nb in
    find_byte (Z.to_nat (max - byte_start)) d nb byte_start bit_offset byte_start.

Definition bitmap_find_next_zero (nb : Z) (d : Z → Z) : Z := bitmap_find_next_zero_from nb d 0.

(** ** Identifiers *)

Record id_manager := IdManager { bitmap : t_bitmap; next_free : Z }.

(** [garbage] is the content of the fresh allocation. *)
Definition id_manager_create (max_id : Z) (garbage : Z → Z) : id_manager :=
  IdManager (bitmap_clear (Bitmap max_id garbage)) 0.

Definition find_next (map : t_bitmap) (from : Z) : Z :=
  let n := bitmap_find_next_zero_from (nb_bits map) (data map) from in
  if n =? -1 then bitmap_find_next_zero (nb_bits map) (data map) else n.

Definition id_manager_alloc (mgr : id_manager) : Z * id_manager :=
  if next_free mgr =? -1 then (-1, mgr)
  else
    let allocated := next_free mgr in
    let map := bitmap_set (bitmap mgr) allocated in
    (allocated, IdManager map (find_next map (allocated + 1))).

Definition id_manager_free (mgr : id_manager) (id : Z) : id_manager :=
  IdManager (bitmap_unset (bitmap mgr) id)
    (if (next_free mgr =? -1) || (s32 id <? next_free mgr) then s32 id else next_free mgr).

Definition id_manager_reserve_id (mgr : id_manager) (id : Z) : bool * id_manager :=
  if bitmap_check (bitmap mgr) id || (nb_bits (bitmap mgr) <=? id) then (false, mgr)
  else
    let map := bitmap_set (bitmap mgr) id in
    (true, IdManager map (if s32 id =? next_free mgr then find_next map (id + 1) else next_free mgr)).

(** * Correctness *)

(** Bit [i] of the map. *)
Definition bit (map : t_bitmap) (i : Z) : bool := Z.testbit (data map (i / 8)) (i mod 8).

Record bitmap_ok (map : t_bitmap) : Prop := {
  bm_size : 0 ≤ nb_bits map < 2147483640;
  bm_bytes : ∀ i, 0 ≤ i → 0 ≤ data map i < 256 }.

Lemma shiftr_land_1 x j : 0 ≤ j → (Z.land (Z.shiftr x j) 1 =? 0) = negb (Z.testbit x j).
Proof.
  intros Hj. change 1 with (2 ^ 0). rewrite land_pow2, Z.shiftr_spec, Z.add_0_l by lia.
  by destruct (Z.testbit x j).
Qed.

Lemma bitmap_check_bit map i : 0 ≤ i → bitmap_check map i = bool_decide (i < nb_bits map) && bit map i.
Proof.
  intros Hi. unfold bitmap_check, bit. destruct (Z.leb_spec (nb_bits map) i).
  - by rewrite bool_decide_eq_false_2 by lia.
  - rewrite bool_decide_eq_true_2 by lia.
    rewrite shiftr_land_1 by (apply Z.mod_pos_bound; lia). by rewrite negb_involutive.
Qed.

Lemma divmod8_eq i j : i / 8 = j / 8 → i mod 8 = j mod 8 → i = j.
Proof. intros. pose proof (Z.div_mod i 8). pose proof (Z.div_mod j 8). lia. Qed.

Lemma byte_high x n : 0 ≤ x < 256 → 8 ≤ n → Z.testbit x n = false.
Proof.
  intros Hx Hn. rewrite <- (Z.mod_small x (2 ^ 8)) by lia. apply Z.mod_pow2_bits_high. lia.
Qed.

Lemma mask_small i : u8 (Z.shiftl 1 (i mod 8)) = 2 ^ (i mod 8) ∧ 0 ≤ i mod 8 < 8.
Proof.
  pose proof (Z.mod_pos_bound i 8 ltac:(lia)). split; [|lia]. rewrite Z.shiftl_1_l. apply Z.mod_small.
  assert (2 ^ (i mod 8) ≤ 2 ^ 7) by (apply Z.pow_le_mono_r; lia).
  pose proof (Z.pow_pos_nonneg 2 (i mod 8)). change (2 ^ 7) with 128 in *. lia.
Qed.

Lemma byte_range x : (∀ n, 8 ≤ n → Z.testbit x n = false) → 0 ≤ x → 0 ≤ x < 256.
Proof.
  intros Hh Hx. split; [done|]. destruct (decide (x < 256)); [done|exfalso].
  assert (8 ≤ Z.log2 x) as Hl by (apply Z.log2_le_pow2; [lia|change (2 ^ 8) with 256; lia]).
  specialize (Hh _ Hl). rewrite Z.bit_log2 in Hh by lia. done.
Qed.

(** [m'] is [m] with bit [i] set to [b]. *)
Record bit_written (m m' : t_bitmap) (i : Z) (b : bool) : Prop := {
  bw_nb : nb_bits m' = nb_bits m;
  bw_ok : bitmap_ok m';
  bw_bit : ∀ j, 0 ≤ j → bit m' j = if decide (j = i) then b else bit m j }.

Lemma bit_insert map i v j nb : 0 ≤ i → 0 ≤ j →
  bit (Bitmap nb (<[i / 8 := v]> (data map))) j =
  if decide (j / 8 = i / 8) then Z.testbit v (j mod 8) else bit map j.
Proof.
  intros Hi Hj. unfold bit. simpl. case_decide as E.
  - by rewrite E, fn_lookup_insert.
  - by rewrite fn_lookup_insert_ne.
Qed.

Lemma bitmap_ok_insert map k v : bitmap_ok map → 0 ≤ v < 256 →
  bitmap_ok (Bitmap (nb_bits map) (<[k := v]> (data map))).
Proof.
  intros [Hn Hb] Hv. split; [done|]. intros i Hi. simpl. destruct (decide (i = k)) as [->|].
  - by rewrite fn_lookup_insert.
  - rewrite fn_lookup_insert_ne by done. auto.
Qed.

Lemma bitmap_set_spec map i : bitmap_ok map → 0 ≤ i < nb_bits map →
  bit_written map (bitmap_set map i) i true.
Proof.
  intros Hok Hi. unfold bitmap_set. rewrite (proj2 (Z.leb_gt _ _)) by lia.
  destruct (mask_small i) as [-> Hm]. pose proof (Z.div_pos i 8 ltac:(lia) ltac:(lia)).
  pose proof (bm_bytes _ Hok (i / 8) ltac:(done)) as Hb. split; [done|..].
  - apply bitmap_ok_insert; [done|]. apply byte_range; [|apply Z.lor_nonneg; split; [lia|apply Z.pow_nonneg; lia]].
    intros n Hn. rewrite Z.lor_spec, byte_high, Z.pow2_bits_false by lia. done.
  - intros j Hj. rewrite bit_insert by lia.
    pose proof (Z.mod_pos_bound j 8 ltac:(lia)).
    destruct (decide (j = i)) as [->|Hne].
    + by rewrite decide_True, Z.lor_spec, Z.pow2_bits_true, orb_true_r by lia.
    + case_decide as E; [|done]. rewrite Z.lor_spec, Z.pow2_bits_false, orb_false_r.
      * unfold bit. by rewrite E.
      * intros E'. by apply Hne, divmod8_eq.
Qed.

Lemma bitmap_unset_spec map i : bitmap_ok map → 0 ≤ i < nb_bits map →
  bit_written map (bitmap_unset map i) i false.
Proof.
  intros Hok Hi. unfold bitmap_unset. rewrite (proj2 (Z.leb_gt _ _)) by lia.
  destruct (mask_small i) as [-> Hm]. pose proof (Z.div_pos i 8 ltac:(lia) ltac:(lia)).
  split; [done|..].
  - apply bitmap_ok_insert; [done|]. apply Z.mod_pos_bound. lia.
  - intros j Hj. rewrite bit_insert by lia.
    pose proof (Z.mod_pos_bound j 8 ltac:(lia)). unfold u8. change 256 with (2 ^ 8).
    rewrite Z.mod_pow2_bits_low, Z.land_spec, Z.lnot_spec by lia.
    destruct (decide (j = i)) as [->|Hne].
    + by rewrite decide_True, Z.pow2_bits_true, andb_false_r by lia.
    + case_decide as E; [|done]. rewrite Z.pow2_bits_false, andb_true_r.
      * unfold bit. by rewrite E.
      * intros E'. by apply Hne, divmod8_eq.
Qed.

Lemma BITS_TO_BYTES_spec n : 0 ≤ n < 2147483640 →
  n ≤ 8 * BITS_TO_BYTES n < n + 8.
Proof.
  intros Hn. unfold BITS_TO_BYTES.
  pose proof (DIV_ROUND_UP_bounds n 8 ltac:(lia) ltac:(lia) ltac:(unfold W32; lia)). lia.
Qed.

Lemma bitmap_clear_spec map : 0 ≤ nb_bits map < 2147483640 → (∀ i, 0 ≤ i → 0 ≤ data map i < 256) →
  bitmap_ok (bitmap_clear map) ∧ ∀ i, 0 ≤ i < nb_bits map → bit (bitmap_clear map) i = false.
Proof.
  intros Hn Hb. split.
  - split; [done|]. intros i Hi. simpl. case_match; [lia|auto].
  - intros i Hi. unfold bit. simpl. pose proof (BITS_TO_BYTES_spec _ Hn).
    pose proof (Z.div_mod i 8). pose proof (Z.mod_pos_bound i 8).
    rewrite (proj2 (Z.leb_le _ _)), (proj2 (Z.ltb_lt _ _)) by lia. apply Z.bits_0.
Qed.

(** ** Searching *)

(** [r] is the least clear bit of [[from, nb)], or -1 when there is none. *)
Definition least_zero (map : t_bitmap) (from r : Z) : Prop :=
  (r = -1 ∧ ∀ i, from ≤ i < nb_bits map → bit map i = true) ∨
  (from ≤ r < nb_bits map ∧ bit map r = false ∧ ∀ i, from ≤ i < r → bit map i = true).

Lemma bit_split map i j : 0 ≤ j < 8 → bit map (i * 8 + j) = Z.testbit (data map i) j.
Proof.
  intros Hj. unfold bit.
  by rewrite Z.div_add_l, (Z.div_small j 8), Z.add_0_r, Z.add_comm, Z.mod_add, Z.mod_small by lia.
Qed.

Lemma bit_rep i : ∃ q j, i = q * 8 + j ∧ 0 ≤ j < 8.
Proof.
  exists (i / 8), (i mod 8). pose proof (Z.div_mod i 8). pose proof (Z.mod_pos_bound i 8). lia.
Qed.

Lemma find_bit_spec map n i j : 0 ≤ j → j + Z.of_nat n = 8 →
  match find_bit n (data map) (nb_bits map) i j with
  | None => ∀ k, j ≤ k < 8 → bit map (i * 8 + k) = true
  | Some r => ∃ k, j ≤ k < 8 ∧ bit map (i * 8 + k) = false ∧
      (∀ l, j ≤ l < k → bit map (i * 8 + l) = true) ∧
      r = if nb_bits map <=? i * 8 + k then -1 else i * 8 + k
  end.
Proof.
  revert j. induction n as [|n IH]; intros j Hj Hn; simpl; [lia|].
  rewrite shiftr_land_1 by done. rewrite <- (bit_split map i j) by lia.
  destruct (bit map (i * 8 + j)) eqn:Eb; simpl.
  - specialize (IH (j + 1) ltac:(lia) ltac:(lia)).
    assert (∀ l, l = j → bit map (i * 8 + l) = true) as Hjj by (by intros l ->).
    destruct (find_bit n _ _ i (j + 1)) as [r|].
    + destruct IH as (k & ? & ? & Hall & ->). exists k. split_and!; [lia|lia|done| |done].
      intros l Hl. destruct (decide (l = j)); [auto|]. apply Hall. lia.
    + intros k Hk. destruct (decide (k = j)); [auto|]. apply IH. lia.
  - exists j. split_and!; [lia|lia|done| |done]. lia.
Qed.

(** The first bit the search looks at in byte [i]. *)
Definition low_bit (byte_start bit_offset i : Z) : Z :=
  if i =? byte_start then i * 8 + bit_offset else i * 8.

Lemma find_byte_spec map n bs off i : 0 ≤ off < 8 → bs ≤ i → 0 ≤ i →
  nb_bits map ≤ 8 * (i + Z.of_nat n) → 
  least_zero map (low_bit bs off i) (find_byte n (data map) (nb_bits map) bs off i).
Proof.
  intros Hoff. revert i. induction n as [|n IH]; intros i Hbs Hi Hmax; cbn [find_byte].
  { left. split; [done|]. unfold low_bit. intros k Hk. case_match; to_prop; lia. }
  set (off_i := if i =? bs then off else 0).
  assert (0 ≤ off_i < 8 ∧ low_bit bs off i = i * 8 + off_i) as [Ho Hlow]
    by (unfold off_i, low_bit; case_match; lia).
  assert ((∀ k, off_i ≤ k < 8 → bit map (i * 8 + k) = true) →
    least_zero map (low_bit bs off i) (find_byte n (data map) (nb_bits map) bs off (i + 1))) as Hskip.
  { intros Hfull. assert (low_bit bs off (i + 1) = i * 8 + 8) as E.
    { unfold low_bit. rewrite (proj2 (Z.eqb_neq _ _)) by lia. lia. }
    assert (∀ k, low_bit bs off i ≤ k < i * 8 + 8 → bit map k = true) as Hthis.
    { intros k Hk. replace k with (i * 8 + (k - i * 8)) by lia. apply Hfull. lia. }
    destruct (IH (i + 1)) as [[-> Hall]|(Hr & Hz & Hall)]; [lia..|left|right]; rewrite E in *.
    - split; [done|]. intros k Hk. destruct (decide (k < i * 8 + 8)); [apply Hthis|apply Hall]; lia.
    - split_and!; [lia|lia|done|]. intros k Hk.
      destruct (decide (k < i * 8 + 8)); [apply Hthis|apply Hall]; lia. }
  destruct (Z.eqb_spec (data map i) BIT_IS_FULL) as [Ef|Ef].
  { apply Hskip. intros k Hk. rewrite bit_split, Ef by lia. change BIT_IS_FULL with (Z.ones 8).
    apply Z.ones_spec_low. lia. }
  pose proof (find_bit_spec map (Z.to_nat (8 - off_i)) i off_i ltac:(lia) ltac:(lia)) as Hb.
  destruct (find_bit _ _ _ i off_i) as [r|]; [|by apply Hskip].
  destruct Hb as (k & Hk & Hz & Hall & ->). rewrite Hlow.
  assert (∀ l, i * 8 + off_i ≤ l < i * 8 + k → bit map l = true) as Hbelow.
  { intros l Hl. replace l with (i * 8 + (l - i * 8)) by lia. apply Hall. lia. }
  destruct (Z.leb_spec (nb_bits map) (i * 8 + k)).
  - left. split; [done|]. intros l Hl. apply Hbelow. lia.
  - right. split_and!; [lia|lia|done|done].
Qed.

Lemma find_next_zero_from_spec map from : bitmap_ok map → 0 ≤ from →
  least_zero map from (bitmap_find_next_zero_from (nb_bits map) (data map) from).
Proof.
  intros [Hn _] Hf. unfold bitmap_find_next_zero_from. destruct (Z.leb_spec (nb_bits map) from).
  { left. split; [done|]. lia. }
  pose proof (Z.div_mod from 8 ltac:(lia)). pose proof (Z.mod_pos_bound from 8 ltac:(lia)).
  pose proof (Z.div_pos from 8 Hf ltac:(lia)). pose proof (BITS_TO_BYTES_spec _ Hn).
  replace from with (low_bit (from / 8) (from mod 8) (from / 8)) at 1
    by (unfold low_bit; rewrite Z.eqb_refl; lia).
  apply find_byte_spec; lia.
Qed.

(** [bitmap_find_next_zero_from] returns the least clear bit at or after
    the start, below [nb_bits], and -1 exactly when every such bit is set;
    bits past the end of a partial last byte are never returned. *)
Theorem bitmap_find_next_zero_from_correct (map : t_bitmap) (from : Z) :
  bitmap_ok map → 0 ≤ from →
  least_zero map from (bitmap_find_next_zero_from (nb_bits map) (data map) from).
Proof. apply find_next_zero_from_spec. Qed.

(** Writing one bit changes that bit only, and [bitmap_check] reads it
    back; outside the map [bitmap_check] is false and writes do nothing. *)
Theorem bitmap_set_unset_check (map : t_bitmap) (i j : Z) :
  bitmap_ok map → 0 ≤ i → 0 ≤ j →
  (i < nb_bits map →
     bitmap_check (bitmap_set map i) j = (if decide (j = i) then true else bitmap_check map j) ∧
     bitmap_check (bitmap_unset map i) j = (if decide (j = i) then false else bitmap_check map j)) ∧
  (nb_bits map ≤ i →
     bitmap_set map i = map ∧ bitmap_unset map i = map ∧ bitmap_check map i = false).
Proof.
  intros Hok Hi Hj. split; intros Hr.
  - destruct (bitmap_set_spec map i Hok) as [N1 _ B1]; [done|].
    destruct (bitmap_unset_spec map i Hok) as [N2 _ B2]; [done|].
    rewrite !bitmap_check_bit, N1, N2, B1, B2 by done. case_decide; [|done].
    subst. rewrite bool_decide_eq_true_2 by done. done.
  - unfold bitmap_set, bitmap_unset, bitmap_check. by rewrite (proj2 (Z.leb_le _ _)).
Qed.

(** ** Identifiers *)

(** The identifier is in use. *)
Definition in_use (mgr : id_manager) (id : Z) : Prop :=
  0 ≤ id < nb_bits (bitmap mgr) ∧ bit (bitmap mgr) id = true.

Record id_ok (mgr : id_manager) : Prop := {
  id_bitmap : bitmap_ok (bitmap mgr);
  id_nonempty : 0 < nb_bits (bitmap mgr);
  id_next : (next_free mgr = -1 ∧ ∀ i, 0 ≤ i < nb_bits (bitmap mgr) → in_use mgr i) ∨
            (0 ≤ next_free mgr < nb_bits (bitmap mgr) ∧ ¬ in_use mgr (next_free mgr)) }.

Lemma find_next_spec map from : bitmap_ok map → 0 ≤ from →
  (find_next map from = -1 ∧ ∀ i, 0 ≤ i < nb_bits map → bit map i = true) ∨
  (0 ≤ find_next map from < nb_bits map ∧ bit map (find_next map from) = false).
Proof.
  intros Hok Hf. unfold find_next.
  destruct (find_next_zero_from_spec map from Hok Hf) as [[-> _]|(Hr & Hz & _)].
  - rewrite Z.eqb_refl. unfold bitmap_find_next_zero.
    destruct (find_next_zero_from_spec map 0 Hok ltac:(done)) as [[-> Hall]|(? & ? & _)]; auto.
  - rewrite (proj2 (Z.eqb_neq _ _)) by lia. right. split; [lia|done].
Qed.

(** [mgr'] uses the same identifiers as [mgr], except [id], whose use is [b]. *)
Definition id_written (mgr mgr' : id_manager) (id : Z) (b : Prop) : Prop :=
  id_ok mgr' ∧ nb_bits (bitmap mgr') = nb_bits (bitmap mgr) ∧
  (in_use mgr' id ↔ b) ∧ ∀ i, i ≠ id → in_use mgr' i ↔ in_use mgr i.

Lemma in_use_written mgr map id b n : 0 ≤ id < nb_bits (bitmap mgr) →
  bit_written (bitmap mgr) map id b → ∀ i, in_use (IdManager map n) i ↔
    if decide (i = id) then b = true else in_use mgr i.
Proof.
  intros Hid [Hn _ Hb] i. unfold in_use. simpl. rewrite Hn.
  destruct (decide (0 ≤ i)); [|split; [lia|case_decide; lia]].
  rewrite Hb by done. case_decide; [subst; intuition lia|done].
Qed.

Lemma id_ok_next mgr map id n : id_ok mgr → 0 ≤ id < nb_bits (bitmap mgr) →
  bit_written (bitmap mgr) map id true → 0 ≤ n → id_ok (IdManager map (find_next map n)).
Proof.
  intros [H1 H2 _] Hid [Hn Hok Hb] Hn0. split; simpl; [done|lia|].
  destruct (find_next_spec map n Hok Hn0) as [[-> Hall]|[Hr Hz]]; [left|right].
  - split; [done|]. intros i Hi. split; [done|]. by apply Hall.
  - split; [done|]. intros [_ E]. simpl in E. congruence.
Qed.

(** [id_manager_alloc] returns -1 exactly when every identifier is in
    use, and otherwise an identifier in range that was free, which becomes
    the only one whose use changes. *)
Theorem id_manager_alloc_correct (mgr : id_manager) :
  id_ok mgr →
  let '(r, mgr') := id_manager_alloc mgr in
  (r = -1 ∧ mgr' = mgr ∧ ∀ i, 0 ≤ i < nb_bits (bitmap mgr) → in_use mgr i) ∨
  (0 ≤ r < nb_bits (bitmap mgr) ∧ ¬ in_use mgr r ∧ id_written mgr mgr' r True).
Proof.
  intros Hok. pose proof Hok as [Hb Hn Hx]. unfold id_manager_alloc.
  destruct Hx as [[E Hall]|[Hr Hfree]].
  - rewrite E, Z.eqb_refl. auto.
  - rewrite (proj2 (Z.eqb_neq _ _)) by lia. right.
    pose proof (bitmap_set_spec _ _ Hb Hr) as Hw.
    split; [lia|]. split; [done|]. unfold id_written. split_and!.
    + by eapply id_ok_next; [| |exact Hw|lia].
    + by destruct Hw.
    + by rewrite (in_use_written mgr _ _ true _ Hr Hw), decide_True.
    + intros i Hi. by rewrite (in_use_written mgr _ _ true _ Hr Hw), decide_False.
Qed.

(** [id_manager_free] of an identifier in range makes it free and
    changes no other; a freed identifier can be allocated again. *)
Theorem id_manager_free_correct (mgr : id_manager) (id : Z) :
  id_ok mgr → 0 ≤ id < nb_bits (bitmap mgr) →
  id_written mgr (id_manager_free mgr id) id False.
Proof.
  intros Hok Hid. pose proof Hok as [Hb Hn Hx].
  pose proof (bitmap_unset_spec _ _ Hb Hid) as Hw. pose proof (bm_size _ Hb).
  pose proof (in_use_written mgr _ _ false
    (next_free (id_manager_free mgr id)) Hid Hw) as Hu. unfold id_manager_free in *. simpl in Hu.
  rewrite s32_small in * by lia. unfold id_written.
  split_and!.
  - split; simpl; [by destruct Hw|by destruct Hw as [-> _ _]|]. right.
    destruct Hw as [Ew _ _]. rewrite Ew.
    split.
    + destruct Hx as [[-> _]|[? _]]; [done|]. case_match; lia.
    + rewrite Hu. destruct Hx as [[E _]|[Hr Hnf]].
      * rewrite E. simpl. by rewrite decide_True.
      * destruct (orb _ _); [by rewrite decide_True|]. case_decide; [done|]. done.
  - by destruct Hw.
  - rewrite Hu. by rewrite decide_True.
  - intros i Hi. rewrite Hu. by rewrite decide_False.
Qed.

(** [id_manager_reserve_id] succeeds exactly for a free identifier in
    range, and then takes that identifier and no other. *)
Theorem id_manager_reserve_correct (mgr : id_manager) (id : Z) :
  id_ok mgr → 0 ≤ id < 2147483648 →
  let '(r, mgr') := id_manager_reserve_id mgr id in
  (r = true ↔ id < nb_bits (bitmap mgr) ∧ ¬ in_use mgr id) ∧
  (r = false → mgr' = mgr) ∧ (r = true → id_written mgr mgr' id True).
Proof.
  intros Hok Hid. pose proof Hok as [Hb Hn Hx]. unfold id_manager_reserve_id.
  rewrite bitmap_check_bit by lia. destruct (Z.leb_spec (nb_bits (bitmap mgr)) id) as [Hge|Hlt].
  - rewrite orb_true_r. split_and!; [|done|done]. split; [done|lia].
  - rewrite bool_decide_eq_true_2, orb_false_r by lia. simpl.
    destruct (bit (bitmap mgr) id) eqn:Eb.
    + split_and!; [|done|done]. split; [done|]. intros [_ []]. split; [lia|done].
    + assert (¬ in_use mgr id) as Hnu by (intros [_ E]; congruence).
      assert (0 ≤ id < nb_bits (bitmap mgr)) as Hr by lia.
      pose proof (bitmap_set_spec _ _ Hb Hr) as Hw. split_and!; [done|done|]. intros _.
      rewrite s32_small by lia. unfold id_written. split_and!.
      * destruct (Z.eqb_spec id (next_free mgr)) as [E|E].
        { by eapply id_ok_next; [| |exact Hw|lia]. }
        split; simpl; [by destruct Hw|by destruct Hw as [-> _ _]|].
        destruct Hx as [[_ Hall]|[Hn0 Hn1]]; [by destruct Hnu; apply Hall|]. right.
        split; [by destruct Hw as [-> _ _]|]. rewrite (in_use_written mgr _ _ true _ Hr Hw).
        by rewrite decide_False.
      * by destruct Hw.
      * by rewrite (in_use_written mgr _ _ true _ Hr Hw), decide_True.
      * intros i Hi. by rewrite (in_use_written mgr _ _ true _ Hr Hw), decide_False.
Qed.

Lemma id_manager_create_ok max_id garbage : 0 < max_id < 2147483640 →
  (∀ i, 0 ≤ i → 0 ≤ garbage i < 256) →
  id_ok (id_manager_create max_id garbage) ∧ ∀ i, ¬ in_use (id_manager_create max_id garbage) i.
Proof.
  intros Hm Hg.
  destruct (bitmap_clear_spec (Bitmap max_id garbage)) as [Hok Hz]; [simpl; lia|done|].
  assert (∀ i, ¬ in_use (id_manager_create max_id garbage) i) as Hn.
  { intros i [Hi E]. simpl in Hi. specialize (Hz i Hi). unfold id_manager_create in E.
    cbn [bitmap] in E. congruence. }
  split; [|done]. split; [done|simpl; lia|]. right. simpl. split; [lia|apply Hn].
Qed.

(** [id_manager_free] does not check its argument: when all identifiers
    are in use, freeing a number past the end of the map makes the next
    allocation hand out that number, which is outside the managed range. *)
Theorem id_manager_free_out_of_range (mgr : id_manager) (id : Z) :
  next_free mgr = -1 → 0 < nb_bits (bitmap mgr) → nb_bits (bitmap mgr) ≤ id < 2147483648 →
  fst (id_manager_alloc (id_manager_free mgr id)) = id.
Proof.
  intros E Hn Hid. unfold id_manager_free, id_manager_alloc. rewrite E, s32_small by lia. simpl.
  by rewrite (proj2 (Z.eqb_neq id (-1))) by lia.
Qed.

(** ** The theorems at work on three identifiers *)

Definition three : id_manager := id_manager_create 3 (λ _, 170).

Lemma three_ok : id_ok three.
Proof. apply id_manager_create_ok; intros; lia. Qed.

Lemma bitmap_find_next_zero_from_correct_witness :
  least_zero (bitmap three) 1 (bitmap_find_next_zero_from 3 (data (bitmap three)) 1).
Proof.
  apply (bitmap_find_next_zero_from_correct (bitmap three) 1); [apply three_ok|lia].
Defined.

Lemma bitmap_set_unset_check_witness : bitmap_check (bitmap_set (bitmap three) 2) 2 = true.
Proof. apply (bitmap_set_unset_check (bitmap three) 2 2); [apply three_ok|lia|lia|reflexivity]. Defined.

Lemma id_manager_alloc_correct_witness :
  let '(r, mgr') := id_manager_alloc three in
  (r = -1 ∧ mgr' = three ∧ ∀ i, 0 ≤ i < nb_bits (bitmap three) → in_use three i) ∨
  (0 ≤ r < nb_bits (bitmap three) ∧ ¬ in_use three r ∧ id_written three mgr' r True).
Proof. apply (id_manager_alloc_correct three three_ok). Defined.

Lemma id_manager_free_correct_witness : id_written three (id_manager_free three 1) 1 False.
Proof. apply (id_manager_free_correct three 1 three_ok). simpl. lia. Defined.

Lemma id_manager_reserve_correct_witness : 
  let '(r, mgr') := id_manager_reserve_id three 2 in
  (r = true ↔ 2 < nb_bits (bitmap three) ∧ ¬ in_use three 2) ∧
  (r = false → mgr' = three) ∧ (r = true → id_written three mgr' 2 True).
Proof. apply (id_manager_reserve_correct three 2 three_ok). lia. Defined.

Lemma id_manager_free_out_of_range_witness :
  fst (id_manager_alloc (id_manager_free (IdManager (Bitmap 3 (λ _, 255)) (-1)) 9)) = 9.
Proof.
  apply (id_manager_free_out_of_range (IdManager (Bitmap 3 (λ _, 255)) (-1)) 9); simpl; lia.
Defined.
