(* ===== verification/Lst.v ===== *)
(** * The list library (src/lib/data_structs/lst)

    Singly linked lists of [void *] contents in a store of cells.  The
    addresses that the coming allocations return are [fresh] (0 for a failed
    one, and all fail once the list is used up); [freed] are the blocks given
    back and [deleted] the contents passed to [del], newest first.  A pointer
    to the head ([t_list **]) is a head that goes in and a head that comes
    out. *)

From stdpp Require Import gmap.
From S2P Require Import Prelude.

Record lst := Lst {
  cells : gmap Z (Z * Z);         (* content, next *)
  fresh : list Z;
  freed : list Z;
  deleted : list Z }.

Definition cell_at (a : Z) : M lst (Z * Z) := λ s,
  match cells s !! a with Some c => Done (c, s) | None => Fault end.

Definition set_cell (a : Z) (c : Z * Z) : M lst unit := modify (λ s, Lst (<[a := c]> (cells s)) (fresh s) (freed s) (deleted s)).

Definition set_next (a n : Z) : M lst unit := c ← cell_at a ; set_cell a (c.1, n).

(** [kmalloc(sizeof(t_list))]. *)
Definition kmalloc_cell : M lst Z := λ s,
  match fresh s with
  | [] => Done (0, s)
  | a :: l => Done (a, Lst (cells s) l (freed s) (deleted s))
  end.

Definition kfree_cell (a : Z) : M lst unit := modify (λ s, Lst (delete a (cells s)) (fresh s) (a :: freed s) (deleted s)).

Definition del (c : Z) : M lst unit := modify (λ s, Lst (cells s) (fresh s) (freed s) (c :: deleted s)).

Definition ft_lstnew (content : Z) : M lst Z :=
  li ← kmalloc_cell ;
  if li =? 0 then mret 0 else set_cell li (content, 0) ;; mret li.

Definition ft_lstadd_front (head start : Z) : M lst Z :=
  (if negb (head =? 0) then set_next start head else mret tt) ;;
  mret start.

(** [while (li->next) li = li->next;] *)
Fixpoint last_cell (fuel : nat) (li : Z) : M lst Z :=
  match fuel with
  | O => hang
  | Datatypes.S fuel =>
      c ← cell_at li ;
      if c.2 =? 0 then mret li else last_cell fuel c.2
  end.

Definition ft_lstlast (fuel : nat) (l : Z) : M lst Z := if l =? 0 then mret 0 else last_cell fuel l.

Definition ft_lstadd_back (fuel : nat) (head new : Z) : M lst Z :=
  if negb (head =? 0) then li ← last_cell fuel head ; set_next li new ;; mret head
  else mret new.

Fixpoint ft_lstsize (fuel : nat) (l : Z) : M lst Z :=
  match fuel with
  | O => hang
  | Datatypes.S fuel => if l =? 0 then mret 0 else c ← cell_at l ; n ← ft_lstsize fuel c.2 ; mret (n + 1)
  end.

(** The contents [f] is called with, in order. *)
Fixpoint ft_lstiter (fuel : nat) (l : Z) : M lst (list Z) :=
  match fuel with
  | O => hang
  | Datatypes.S fuel => if l =? 0 then mret [] else c ← cell_at l ; cs ← ft_lstiter fuel c.2 ; mret (c.1 :: cs)
  end.

Definition ft_lstdelone (l : Z) : M lst unit := c ← cell_at l ; del c.1 ;; kfree_cell l.

Fixpoint ft_lstclear (fuel : nat) (head : Z) : M lst Z :=
  match fuel with
  | O => hang
  | Datatypes.S fuel =>
      if head =? 0 then mret 0
      else c ← cell_at head ; del c.1 ;; kfree_cell head ;; ft_lstclear fuel c.2
  end.

(** The popped cell and the new head. *)
Definition ft_lst_pop (head : Z) : M lst (Z * Z) :=
  if head =? 0 then mret (0, 0)
  else c ← cell_at head ; set_next head 0 ;; mret (head, c.2).

(** [while (lst)] of [ft_lstmap]; [li] is the list built so far. *)
Fixpoint map_cells (fuel : nat) (limit : nat) (f : Z → Z) (l li : Z) : M lst Z :=
  match fuel with
  | O => hang
  | Datatypes.S fuel =>
      if l =? 0 then mret li
      else
        c ← cell_at l ;
        tmp ← ft_lstnew (f c.1) ;
        if tmp =? 0 then ft_lstclear limit li ;; mret 0
        else
          li ← ft_lstadd_back limit li tmp ;
          c ← cell_at l ;
          map_cells fuel limit f c.2 li
  end.

Definition ft_lstmap (fuel : nat) (f : Z → Z) (l : Z) : M lst Z := if l =? 0 then mret 0 else map_cells fuel fuel f l 0.

(** ** Lists in the store *)

(** From [a] to NULL, the cells [as] with the contents [cs]. *)
Fixpoint chain (m : gmap Z (Z * Z)) (a : Z) (nodes cs : list Z) : Prop :=
  match nodes, cs with
  | [], [] => a = 0
  | n :: nodes, c :: cs => a = n ∧ n ≠ 0 ∧ ∃ next, m !! n = Some (c, next) ∧ chain m next nodes cs
  | _, _ => False
  end.

Lemma chain_frame m m' a nodes cs : chain m a nodes cs → (∀ n, n ∈ nodes → m' !! n = m !! n) → chain m' a nodes cs.
Proof.
  revert a cs. induction nodes as [|n nodes IH]; intros a [|c cs] Hc Hm; cbn in *; try done.
  destruct Hc as (-> & Hn & next & E & Hc). split; [done|]. split; [done|]. exists next.
  split; [rewrite Hm by set_solver; done|]. apply IH; [done|]. intros n' Hn'. apply Hm. set_solver.
Qed.

Lemma chain_length m a nodes cs : chain m a nodes cs → length nodes = length cs.
Proof.
  revert a cs. induction nodes as [|n nodes IH]; intros a [|c cs] Hc; cbn in *; try done.
  destruct Hc as (_ & _ & next & _ & Hc). f_equal. by eapply IH.
Qed.

Lemma chain_head m a nodes cs : chain m a nodes cs → a = default 0 (head nodes).
Proof. destruct nodes, cs; cbn; naive_solver. Qed.

Lemma wp_cell_at a c s (Q : Z * Z → lst → Prop) : cells s !! a = Some c → Q c s → wp (cell_at a) s Q.
Proof. intros E HQ. unfold wp, cell_at. by rewrite E. Qed.

Lemma wp_set_next a c s (Q : unit → lst → Prop) n : cells s !! a = Some c →
  Q tt (Lst (<[a := (c.1, n)]> (cells s)) (fresh s) (freed s) (deleted s)) → wp (set_next a n) s Q.
Proof. intros E HQ. unfold set_next. apply wp_bind, (wp_cell_at a c); [done|]. by apply wp_modify. Qed.

(** ** Size, traversal *)

Lemma wp_lstiter fuel a nodes cs s : chain (cells s) a nodes cs → (length cs < fuel)%nat →
  wp (ft_lstiter fuel a) s (λ l s', l = cs ∧ s' = s).
Proof.
  revert a nodes cs. induction fuel as [|fuel IH]; intros a nodes cs Hc Hf; [lia|]. cbn [ft_lstiter].
  destruct nodes as [|n nodes], cs as [|c cs]; cbn in Hc; try done; [subst a; by apply wp_ret|].
  destruct Hc as (-> & Hn & next & E & Hc). rewrite (proj2 (Z.eqb_neq _ _) Hn). apply wp_bind, (wp_cell_at _ _ _ _ E), wp_bind.
  cbn [fst snd length] in *. eapply wp_mono; [by apply (IH next nodes cs Hc); lia|]. intros l s' [-> ->]. by apply wp_ret.
Qed.

Lemma wp_lstsize fuel a nodes cs s : chain (cells s) a nodes cs → (length cs < fuel)%nat →
  wp (ft_lstsize fuel a) s (λ n s', n = Z.of_nat (length cs) ∧ s' = s).
Proof.
  revert a nodes cs. induction fuel as [|fuel IH]; intros a nodes cs Hc Hf; [lia|]. cbn [ft_lstsize].
  destruct nodes as [|n nodes], cs as [|c cs]; cbn in Hc; try done; [subst a; by apply wp_ret|].
  destruct Hc as (-> & Hn & next & E & Hc). rewrite (proj2 (Z.eqb_neq _ _) Hn). apply wp_bind, (wp_cell_at _ _ _ _ E), wp_bind.
  cbn [fst snd length] in *. eapply wp_mono; [by apply (IH next nodes cs Hc); lia|]. intros l s' [-> ->]. apply wp_ret. split; [lia|done].
Qed.

(** ** Adding *)

Lemma wp_last_cell fuel a n nodes cs s : chain (cells s) a (n :: nodes) cs → (length cs ≤ fuel)%nat →
  wp (last_cell fuel a) s (λ r s', r = List.last (n :: nodes) 0 ∧ s' = s).
Proof.
  revert a n nodes cs. induction fuel as [|fuel IH]; intros a n nodes cs Hc Hf.
  { apply chain_length in Hc. cbn in Hc. lia. }
  destruct cs as [|c cs]; [done|]. destruct Hc as (-> & Hn & next & E & Hc). cbn [last_cell].
  apply wp_bind, (wp_cell_at _ _ _ _ E). cbn [snd length] in *. pose proof (chain_head _ _ _ _ Hc) as Hh.
  destruct nodes as [|n2 nodes].
  - cbn in Hh. subst next. by apply wp_ret.
  - destruct cs as [|c2 cs]; [done|]. pose proof Hc as (-> & Hn2 & _). rewrite (proj2 (Z.eqb_neq _ _) Hn2).
    eapply wp_mono; [apply (IH _ _ _ _ Hc); lia|]. intros r s' [-> ->]. done.
Qed.

Lemma last_in_nodes (n : Z) nodes : List.last (n :: nodes) 0 ∈ n :: nodes.
Proof.
  revert n. induction nodes as [|k nodes IH]; intros n; [cbn; set_solver|].
  change (List.last (n :: k :: nodes) 0) with (List.last (k :: nodes) 0). specialize (IH k). set_solver.
Qed.

(** A chain whose last cell is made to point at another one. *)
Lemma chain_link m a n nodes cs b nodes' cs' c : chain m a (n :: nodes) cs → chain m b nodes' cs' → NoDup ((n :: nodes) ++ nodes') →
  m !! List.last (n :: nodes) 0 = Some c → chain (<[List.last (n :: nodes) 0 := (c.1, b)]> m) a ((n :: nodes) ++ nodes') (cs ++ cs').
Proof.
  revert a n cs. induction nodes as [|n2 nodes IH]; intros a n cs Hc Hb Hnd Hlast; (destruct cs as [|c1 cs]; [done|]);
    destruct Hc as (-> & Hn & next & E & Hc).
  - cbn in Hc. destruct cs; [|done]. change (List.last [n] 0) with n in *. rewrite E in Hlast. injection Hlast as <-. cbn [app fst].
    split; [done|]. split; [done|]. exists b. split; [by rewrite lookup_insert_eq|].
    eapply chain_frame; [done|]. intros n' Hn'. apply lookup_insert_ne. apply NoDup_cons in Hnd as [Hnin _]. set_solver.
  - change (List.last (n :: n2 :: nodes) 0) with (List.last (n2 :: nodes) 0) in *.
    apply (proj1 (NoDup_cons n ((n2 :: nodes) ++ nodes'))) in Hnd as [Hnin Hnd].
    split; [done|]. split; [done|]. exists next. split; [|by apply (IH next n2 cs)].
    rewrite lookup_insert_ne; [done|]. intros E'. apply Hnin, elem_of_app. left. rewrite <- E'. apply last_in_nodes.
Qed.

Lemma last_cell_some m a n nodes cs : chain m a (n :: nodes) cs → ∃ c, m !! List.last (n :: nodes) 0 = Some c.
Proof.
  revert a n cs. induction nodes as [|n2 nodes IH]; intros a n cs Hc; (destruct cs as [|c1 cs]; [done|]); destruct Hc as (-> & Hn & next & E & Hc).
  - cbn. eauto.
  - by apply (IH next n2 cs).
Qed.

(** [ft_lstadd_back] appends a list. *)
Lemma wp_add_back fuel a nodes cs b nodes' cs' s : chain (cells s) a nodes cs → chain (cells s) b nodes' cs' → NoDup (nodes ++ nodes') →
  (length cs ≤ fuel)%nat →
  wp (ft_lstadd_back fuel a b) s (λ r s', chain (cells s') r (nodes ++ nodes') (cs ++ cs') ∧
    (∀ n, n ∉ nodes → cells s' !! n = cells s !! n) ∧ fresh s' = fresh s ∧ freed s' = freed s ∧ deleted s' = deleted s).
Proof.
  intros Hc Hb Hnd Hf. unfold ft_lstadd_back. destruct nodes as [|n nodes], cs as [|c cs]; try done.
  { cbn in Hc. subst a. by apply wp_ret. }
  pose proof Hc as (-> & Hn & _). rewrite (proj2 (Z.eqb_neq _ _) Hn). cbn [negb]. apply wp_bind.
  eapply wp_mono; [by apply (wp_last_cell fuel n n nodes (c :: cs))|]. intros r s' [-> ->].
  destruct (last_cell_some _ _ _ _ _ Hc) as (cl & El). apply wp_bind, (wp_set_next _ cl); [done|]. apply wp_ret. cbn [cells fresh freed deleted].
  split; [by apply chain_link|]. split; [|done]. intros k Hk. apply lookup_insert_ne. intros <-. apply Hk, last_in_nodes.
Qed.

(** ** Clearing *)

(** [ft_lstclear] deletes every content in order, gives every cell back once, and touches nothing else. *)
Lemma wp_clear fuel a nodes cs s : chain (cells s) a nodes cs → NoDup nodes → (length cs < fuel)%nat →
  wp (ft_lstclear fuel a) s (λ r s', r = 0 ∧ freed s' = reverse nodes ++ freed s ∧ deleted s' = reverse cs ++ deleted s ∧ fresh s' = fresh s ∧
    (∀ n, n ∈ nodes → cells s' !! n = None) ∧ (∀ n, n ∉ nodes → cells s' !! n = cells s !! n)).
Proof.
  revert a nodes cs s. induction fuel as [|fuel IH]; intros a nodes cs s Hc Hnd Hf; [lia|]. cbn [ft_lstclear].
  destruct nodes as [|n nodes], cs as [|c cs]; cbn in Hc; try done; [subst a; apply wp_ret; split_and!; set_solver|].
  destruct Hc as (-> & Hn & next & E & Hc). apply NoDup_cons in Hnd as [Hnin Hnd]. rewrite (proj2 (Z.eqb_neq _ _) Hn).
  apply wp_bind, (wp_cell_at _ _ _ _ E), wp_bind, wp_modify, wp_bind, wp_modify. cbn [fst snd length] in *.
  eapply wp_mono; [apply (IH next nodes cs); [|done|lia]|].
  { eapply chain_frame; [exact Hc|]. intros n' Hn'. apply lookup_delete_ne. set_solver. }
  intros r s' (-> & Hfr & Hde & Hfs & Hin & Hout). cbn [cells freed deleted fresh] in *. split; [done|].
  rewrite Hfr, Hde, !reverse_cons, <- !app_assoc. split; [done|]. split; [done|]. split; [done|]. split.
  - intros k Hk. destruct (decide (k ∈ nodes)); [auto|]. rewrite Hout by done. assert (k = n) as -> by set_solver. apply lookup_delete_eq.
  - intros k Hk. rewrite Hout by set_solver. apply lookup_delete_ne. set_solver.
Qed.

(** ** Mapping *)

(** A new cell in front of nothing. *)
Lemma wp_lstnew c s x l (Q : Z → lst → Prop) : fresh s = x :: l → x ≠ 0 →
  Q x (Lst (<[x := (c, 0)]> (cells s)) l (freed s) (deleted s)) → wp (ft_lstnew c) s Q.
Proof.
  intros Ef Hx HQ. unfold ft_lstnew. apply wp_bind. unfold wp at 1, kmalloc_cell. rewrite Ef.
  rewrite (proj2 (Z.eqb_neq _ _) Hx). by apply wp_bind, wp_modify, wp_ret.
Qed.

Section Map.
Context (f : Z → Z) (limit : nat).

(** One turn of the loop: the next cell is appended to the list built so far. *)
Lemma wp_map_step l n nodes c cs li bn bcs x good s (Q : Z → lst → Prop) :
  chain (cells s) l (n :: nodes) (c :: cs) → chain (cells s) li bn bcs → fresh s = x :: good → x ≠ 0 →
  NoDup (bn ++ (n :: nodes) ++ [x]) → (length bcs ≤ limit)%nat →
  (∀ next li' s', chain (cells s') next nodes cs → chain (cells s') li' (bn ++ [x]) (bcs ++ [f c]) → fresh s' = good →
     freed s' = freed s → deleted s' = deleted s → (∀ k, k ∉ bn ++ [x] → cells s' !! k = cells s !! k) →
     wp (map_cells (length cs + 1) limit f next li') s' Q) →
  wp (map_cells (S (length cs + 1)) limit f l li) s Q.
Proof.
  intros Hc Hb Ef Hx Hnd Hlim HQ. destruct Hc as (-> & Hn & next & E & Hc). cbn [map_cells]. rewrite (proj2 (Z.eqb_neq _ _) Hn).
  apply NoDup_app in Hnd as (Hndb & Hdis & Hnd). apply NoDup_app in Hnd as (Hndn & Hdisx & _).
  assert (x ∉ bn) as Hxb by (intros ?; eapply Hdis; [done|set_solver]).
  assert (x ∉ n :: nodes) as Hxn by (intros ?; eapply Hdisx; [done|set_solver]).
  apply wp_bind, (wp_cell_at _ _ _ _ E), wp_bind, (wp_lstnew _ _ x good); [done|done|]. cbn [fst].
  rewrite (proj2 (Z.eqb_neq _ _) Hx). apply wp_bind. set (s1 := Lst _ _ _ _).
  eapply wp_mono; [apply (wp_add_back limit li bn bcs x [x] [f c] s1)|].
  - eapply chain_frame; [exact Hb|]. intros k Hk. apply lookup_insert_ne. set_solver.
  - split; [done|]. split; [done|]. exists 0. split; [apply lookup_insert_eq|done].
  - apply NoDup_app. split; [done|]. split; [set_solver|apply NoDup_singleton].
  - done.
  - intros li' s2 (Hc2 & Hout & Efs & Efr & Ede). assert (∀ k, k ∉ bn ++ [x] → cells s2 !! k = cells s !! k) as Hk.
    { intros k Hk. rewrite Hout by set_solver. apply lookup_insert_ne. set_solver. }
    apply wp_bind, (wp_cell_at _ (c, next)); [rewrite Hk; [done|set_solver]|]. cbn [snd].
    apply HQ; try done. eapply chain_frame; [exact Hc|]. intros k Hin. apply Hk. set_solver.
Qed.

Lemma nodup_first (bn nodes : list Z) x good : NoDup (bn ++ nodes ++ x :: good) → NoDup (bn ++ nodes ++ [x]).
Proof.
  intros H. eapply sublist_NoDup; [exact H|]. apply sublist_app; [done|]. apply sublist_app; [done|]. apply sublist_skip, sublist_nil_l.
Qed.

Lemma nodup_rest (bn nodes : list Z) n x good : NoDup (bn ++ (n :: nodes) ++ x :: good) → NoDup ((bn ++ [x]) ++ nodes ++ good).
Proof.
  intros H. assert ((bn ++ [x]) ++ nodes ++ good ≡ₚ bn ++ nodes ++ x :: good) as ->.
  { rewrite <- app_assoc. cbn. by rewrite Permutation_middle. }
  eapply sublist_NoDup; [exact H|]. apply sublist_app; [done|]. by apply sublist_cons.
Qed.

Lemma wp_map_ok good tail l nodes cs li bn bcs s :
  chain (cells s) l nodes cs → chain (cells s) li bn bcs → fresh s = good ++ tail → length good = length cs → Forall (λ x, x ≠ 0) good →
  NoDup (bn ++ nodes ++ good) → (length bcs + length cs ≤ limit)%nat →
  wp (map_cells (length cs + 1) limit f l li) s (λ r s', chain (cells s') r (bn ++ good) (bcs ++ map f cs) ∧ fresh s' = tail ∧
    freed s' = freed s ∧ deleted s' = deleted s ∧ ∀ k, k ∉ bn ++ good → cells s' !! k = cells s !! k).
Proof.
  revert good l nodes li bn bcs s. induction cs as [|c cs IH]; intros good l nodes li bn bcs s Hc Hb Ef Hlen Hnz Hnd Hlim.
  { destruct nodes; [|done]. cbn in Hc. subst l. destruct good; [|done]. apply wp_ret. by rewrite !app_nil_r. }
  destruct nodes as [|n nodes]; [done|]. destruct good as [|x good]; [done|]. apply Forall_cons in Hnz as [Hx Hnz]. cbn [length] in *.
  eapply (wp_map_step l n nodes c cs li bn bcs x); [done|done|exact Ef|done|by eapply nodup_first|lia|].
  intros next li' s' Hc' Hb' Ef' Efr Ede Hk. eapply wp_mono.
  { apply (IH good next nodes li' (bn ++ [x]) (bcs ++ [f c]) s'); try done; [lia|by eapply nodup_rest|rewrite length_app; cbn; lia]. }
  intros r s2 (H1 & H2 & H3 & H4 & H5). rewrite <- !app_assoc in H1. cbn in H1. split; [done|]. split; [done|].
  split; [congruence|]. split; [congruence|]. intros k Hin. rewrite H5, Hk by set_solver. done.
Qed.

(** The allocation fails after the cells [good]: what was built is cleared. *)
Lemma wp_map_fail good tail l nodes cs li bn bcs s :
  chain (cells s) l nodes cs → chain (cells s) li bn bcs → fresh s = good ++ tail → head tail = None ∨ head tail = Some 0 →
  (length good < length cs)%nat → Forall (λ x, x ≠ 0) good → NoDup (bn ++ nodes ++ good) → (length bcs + length cs < limit)%nat →
  wp (map_cells (length cs + 1) limit f l li) s (λ r s', r = 0 ∧ freed s' = reverse (bn ++ good) ++ freed s ∧
    deleted s' = reverse (bcs ++ map f (take (length good) cs)) ++ deleted s).
Proof.
  revert good l nodes li bn bcs s. induction cs as [|c cs IH]; intros good l nodes li bn bcs s Hc Hb Ef Ht Hlen Hnz Hnd Hlim; [cbn in Hlen; lia|].
  destruct nodes as [|n nodes]; [done|]. cbn [length] in *. destruct good as [|x good].
  - pose proof Hc as (-> & Hn & next & E & _). cbn [map_cells Nat.add]. rewrite (proj2 (Z.eqb_neq _ _) Hn).
    apply wp_bind, (wp_cell_at _ _ _ _ E), wp_bind. assert (NoDup bn) as Hndb by (by apply NoDup_app in Hnd as [? _]).
    cbn [app] in Ef. unfold wp at 1, ft_lstnew, mbind, M_bind, kmalloc_cell. rewrite Ef.
    assert (∀ s1, cells s1 = cells s → freed s1 = freed s → deleted s1 = deleted s →
      wp (ft_lstclear limit li ;; mret 0) s1 (λ r s', r = 0 ∧ freed s' = reverse (bn ++ []) ++ freed s ∧
        deleted s' = reverse (bcs ++ map f (take 0 (c :: cs))) ++ deleted s)) as Hclear.
    { intros s1 E1 E2 E3. apply wp_bind. eapply wp_mono; [apply (wp_clear limit li bn bcs s1); [by rewrite E1|done|lia]|].
      intros r s2 (_ & H1 & H2 & _). apply wp_ret. cbn [take map]. rewrite !app_nil_r, H1, H2, E2, E3. done. }
    destruct tail as [|y tail]; [by apply Hclear|]. destruct Ht as [|Ht]; [done|]. injection Ht as ->. by apply Hclear.
  - apply Forall_cons in Hnz as [Hx Hnz]. cbn [length] in *.
    eapply (wp_map_step l n nodes c cs li bn bcs x); [done|done|exact Ef|done|by eapply nodup_first|lia|].
    intros next li' s' Hc' Hb' Ef' Efr Ede Hk. eapply wp_mono.
    { apply (IH good next nodes li' (bn ++ [x]) (bcs ++ [f c]) s'); try done; [lia|by eapply nodup_rest|rewrite length_app; cbn; lia]. }
    intros r s2 (-> & H2 & H3). rewrite <- !app_assoc in H2, H3. cbn [app] in H2, H3. rewrite H2, H3, Efr, Ede. done.
Qed.

End Map.

(** [ft_lstmap] copies a list through a function, or leaves nothing.  For
    a list of [cs], and when the coming allocations give new cells [good],
    the call returns: with a new list of the images of [cs] in order, made of
    those cells, and every other cell unchanged, when there are as many as
    the list is long; and otherwise NULL, with the cells it had taken given
    back, each once, and the images they held deleted.  (The image computed
    for the cell that could not be allocated is not deleted.) *)
Theorem ft_lstmap_correct f a nodes cs good tail s : chain (cells s) a nodes cs → cs ≠ [] → fresh s = good ++ tail →
  Forall (λ x, x ≠ 0) good → NoDup (nodes ++ good) →
  (length good = length cs → ∃ r s', ft_lstmap (length cs + 1) f a s = Done (r, s') ∧ chain (cells s') r good (map f cs) ∧
     freed s' = freed s ∧ deleted s' = deleted s ∧ ∀ k, k ∉ good → cells s' !! k = cells s !! k) ∧
  ((length good < length cs)%nat → head tail = None ∨ head tail = Some 0 →
   ∃ s', ft_lstmap (length cs + 1) f a s = Done (0, s') ∧ freed s' = reverse good ++ freed s ∧
     deleted s' = reverse (map f (take (length good) cs)) ++ deleted s).
Proof.
  intros Hc Hne Ef Hnz Hnd. unfold ft_lstmap. destruct nodes as [|n nodes]; [by destruct cs|]. destruct cs as [|c cs]; [done|].
  pose proof Hc as (Ea & Hn & _). rewrite Ea, (proj2 (Z.eqb_neq _ _) Hn), <- Ea. split.
  - intros Hlen. destruct (proj1 (wp_run _ _ _) (wp_map_ok f (length (c :: cs) + 1) good tail a (n :: nodes) (c :: cs) 0 [] [] s
      Hc eq_refl Ef Hlen Hnz Hnd ltac:(cbn; lia))) as (r & s' & E & H1 & H2 & H3 & H4 & H5). by exists r, s'.
  - intros Hlen Ht. destruct (proj1 (wp_run _ _ _) (wp_map_fail f (length (c :: cs) + 1) good tail a (n :: nodes) (c :: cs) 0 [] [] s
      Hc eq_refl Ef Ht Hlen Hnz Hnd ltac:(cbn; lia))) as (r & s' & E & -> & H2 & H3). by exists s'.
Qed.

(** Two cells; the second allocation fails. *)
Definition two_cells : lst := Lst (<[16 := (1, 32)]> (<[32 := (2, 0)]> ∅)) [48] [] [].

Lemma ft_lstmap_correct_witness : ∃ s', ft_lstmap 3 (λ z, z * 10) 16 two_cells = Done (0, s') ∧ freed s' = [48] ∧ deleted s' = [10].
Proof.
  destruct (ft_lstmap_correct (λ z, z * 10) 16 [16; 32] [1; 2] [48] [] two_cells) as [_ H].
  - split; [done|]. split; [done|]. exists 32. split; [done|]. split; [done|]. split; [done|]. by exists 0.
  - done.
  - done.
  - by repeat constructor.
  - apply NoDup_cons; split; [set_solver|]. apply NoDup_cons; split; [set_solver|]. apply NoDup_singleton.
  - destruct H as (s' & E & H1 & H2); [cbn; lia|by left|]. exists s'. split; [exact E|]. split; [exact H1|exact H2].
Defined.
