(* ===== verification/PageAlloc.v ===== *)
(** * The page allocator as its clients see it

    The paging code and the slab allocator take frames from the buddy
    allocator.  [PageAllocator] names the operations and [PageAllocatorLaws]
    what their clients rely on; the buddy allocator is the instance. *)

From S2P Require Import Prelude Dlist Memory Page Buddy BuddyInv BuddySpec BuddyThm.

Class PageAllocator (S : Type) := {
  pa_alloc : Z → zone_type → M S Z;
  pa_free : Z → M S unit;
  pa_ok : S → Prop;
  (** [pa_owned s p o]: the [2^o] frames from frame [p] are handed out as one block. *)
  pa_owned : S → Z → Z → Prop;
  (** [pa_taken s j]: frame [j] is not available for allocation. *)
  pa_taken : S → Z → Prop }.

(** No frame in common. *)
Definition blocks_apart (p o p' o' : Z) : Prop := ∀ j, in_block p o j → ¬ in_block p' o' j.

Class PageAllocatorLaws (S : Type) `{PageAllocator S} : Prop := {
  pa_alloc_law : ∀ s size z, pa_ok s → z ≠ INVALID_ZONE →
    wp (pa_alloc size z) s (λ r s',
      (r = 0 ∧ s' = s) ∨
      ∃ p, r = p * PAGE_SIZE ∧ run_ok p (size_to_order size) ∧ zone_of p = z ∧
        pa_ok s' ∧ pa_owned s' p (size_to_order size) ∧
        (∀ j, pa_taken s j → pa_taken s' j ∧ ¬ in_block p (size_to_order size) j) ∧
        ∀ p' o', pa_owned s p' o' → pa_owned s' p' o');
  pa_free_law : ∀ s p o, pa_ok s → pa_owned s p o →
    wp (pa_free (p * PAGE_SIZE)) s (λ _ s', pa_ok s' ∧
      (∀ j, pa_taken s' j ↔ pa_taken s j ∧ ¬ in_block p o j) ∧
      ∀ p' o', pa_owned s p' o' → blocks_apart p o p' o' → pa_owned s' p' o');
  pa_owned_run : ∀ s p o, pa_owned s p o → run_ok p o;
  pa_owned_taken : ∀ s p o j, pa_owned s p o → in_block p o j → pa_taken s j;
  pa_owned_apart : ∀ s p o p' o', pa_owned s p o → pa_owned s p' o' →
    (p, o) = (p', o') ∨ blocks_apart p o p' o' }.

Lemma blocks_apart_sym p o p' o' : blocks_apart p o p' o' → blocks_apart p' o' p o.
Proof. unfold blocks_apart. firstorder. Qed.

(** ** The buddy allocator implements it *)

#[export] Instance buddy_allocator : PageAllocator bstate := {
  pa_alloc := buddy_alloc_pages;
  pa_free := buddy_free_block;
  pa_ok := buddy_ok;
  pa_owned := allocated;
  pa_taken := λ s j, 0 ≤ j < MAX_PAGES ∧ ¬ is_free s j }.

(** The head of a block is its only frame whose metadata is an order. *)
Lemma allocated_apart s p o p' o' : allocated s p o → allocated s p' o' →
  (p, o) = (p', o') ∨ blocks_apart p o p' o'.
Proof.
  intros H1 H2.
  assert (∀ p o p' o', allocated s p o → allocated s p' o' → in_block p' o' p → (p, o) = (p', o'))
    as Hkey.
  { clear. intros p o p' o' ((Ho & _) & Hp & _) (_ & Hp' & _) Hin.
    assert (in_block p o p) as Hpp by (unfold in_block; pose proof (Z.pow_pos_nonneg 2 o); lia).
    specialize (Hp p Hpp). rewrite decide_True in Hp by done. specialize (Hp' p Hin).
    rewrite Hp in Hp'. case_decide; [by subst|]. unfold PAGE_MAGIC in Hp'. lia. }
  destruct (decide (p ≤ p')) as [Hle|Hle].
  - destruct (decide (in_block p o p')) as [Hin|Hout]; [left; symmetry; eauto|right].
    intros j Hj Hj'. apply Hout. unfold in_block in *. lia.
  - destruct (decide (in_block p' o' p)) as [Hin|Hout]; [left; eauto|right].
    intros j Hj Hj'. apply Hout. unfold in_block in *. lia.
Qed.

#[export] Instance buddy_allocator_laws : PageAllocatorLaws bstate.
Proof.
  split; simpl.
  - intros s size z Hok Hz. apply wp_run.
    destruct (buddy_alloc_cases s size z Hok Hz)
      as [[E _]|(p & s' & E & Hok' & (Hrun & Hzp & Hf) & Hal & Hout & Hsame & _)].
    + exists 0, s. auto.
    + exists (page_to_phys p), s'. split; [done|]. right. exists p.
      rewrite page_to_phys_small by (by eapply run_ok_frame).
      do 5 (split; [done|]). split.
      * intros j [Hj Hn]. assert (¬ in_block p (size_to_order size) j) as Hb by auto.
        split; [|done]. split; [done|]. by rewrite Hout.
      * intros p' o' Hal'. eapply allocated_frame; [exact Hal'|]. intros j Hj.
        destruct (allocated_not_free _ _ _ _ Hal' Hj). auto.
  - intros s p o Hok Hal. apply wp_run.
    destruct (buddy_free_run s p o Hok Hal) as (s' & E & Hok' & Hfree & Hout & Hsame & _).
    exists tt, s'. rewrite <- page_to_phys_small by (eapply run_ok_frame, Hal). split_and!; [done|done|..].
    { intros j. destruct (decide (in_block p o j)) as [Hb|Hb].
      - split; [|tauto]. intros [_ Hn]. exfalso. auto.
      - assert (0 ≤ j < MAX_PAGES → is_free s' j ↔ is_free s j) by auto. tauto. }
    intros p' o' Hal' Hap. eapply allocated_frame; [exact Hal'|]. intros j Hj.
    destruct (allocated_not_free _ _ _ _ Hal' Hj). apply Hsame; [done| |done].
    intros Hj'. by apply (Hap j).
  - by intros s p o [Hrun _].
  - intros s p o j. apply allocated_not_free.
  - intros s p o p' o'. apply allocated_apart.
Qed.
