(* ===== verification/Slab.v ===== *)
(** * The slab allocator and kmalloc (src/memory/slab.c, src/memory/kmalloc.c):
    state and operations

    A slab is named by the virtual address of its [struct slab]; the three
    lists of a cache are the sequences of their members (Dlist relates the
    two), so the list links are not part of the word memory [kwords], which
    holds the free-list links that live inside the free objects.  The page
    descriptors and the frames are those of the buddy allocator. *)

From S2P Require Import Prelude Dlist Memory Page Buddy.

(** ** Data *)

Definition SLAB_INTRUSIVE_THRESHOLD : Z := 512.
Definition SLAB_IS_EXTERNAL (size : Z) : bool := SLAB_INTRUSIVE_THRESHOLD <? size.
Definition MAX_SLAB_SIZE : Z := 2048.
Definition MAX_KMALLOC_SIZE : Z := 4194304.
Definition SIZEOF_SLAB : Z := 32.

(** [cache_size]: the enumerators are the indices 0 .. 8. *)
Definition CACHE_8B : Z := 0.
Definition CACHE_16B : Z := 1.
Definition NUM_SLAB_CACHES : Z := 9.

Definition cache_sizes (i : Z) : Z :=
  nth (Z.to_nat i) [8; 16; 32; 64; 128; 256; 512; 1024; 2048; 4096] 0.

Record slab_cache := SlabCache {
  slabs_full : list Z;
  slabs_partial : list Z;
  slabs_empty : list Z;
  object_size : Z;
  objects_per_slab : Z }.

Abbreviation cache_id := (zone_type * Z)%type.

Record slab := Slab { freelist : Z; inuse : Z; parent_cache : cache_id }.

Record kstate := KState {
  kbuddy : bstate;
  kwords : Z → Z;
  slabs : Z → slab;
  slab_caches : cache_id → slab_cache }.

(** ** Accessors *)

Definition lift_b {A} (c : M bstate A) : M kstate A := λ s,
  match c (kbuddy s) with
  | Done (a, b) => Done (a, KState b (kwords s) (slabs s) (slab_caches s))
  | Panic m => Panic m
  | Fault => Fault
  | Hang => Hang
  end.

Definition set_kwords (f : (Z → Z) → Z → Z) (s : kstate) : kstate :=
  KState (kbuddy s) (f (kwords s)) (slabs s) (slab_caches s).

Definition set_slab (a : Z) (x : slab) (s : kstate) : kstate :=
  KState (kbuddy s) (kwords s) (<[a := x]> (slabs s)) (slab_caches s).

Definition set_cache (k : cache_id) (c : slab_cache) (s : kstate) : kstate :=
  KState (kbuddy s) (kwords s) (slabs s) (<[k := c]> (slab_caches s)).

Definition unlink (a : Z) (l : list Z) : list Z := filter (λ x, x ≠ a) l.

(** [pop_node(&slab->list)] for a slab of cache [c]. *)
Definition pop_slab (a : Z) (c : slab_cache) : slab_cache :=
  SlabCache (unlink a (slabs_full c)) (unlink a (slabs_partial c)) (unlink a (slabs_empty c))
    (object_size c) (objects_per_slab c).

(** [list_add_head(&slab->list, &cache->slabs_...)]. *)
Definition add_full (a : Z) (c : slab_cache) : slab_cache :=
  SlabCache (a :: slabs_full c) (slabs_partial c) (slabs_empty c) (object_size c) (objects_per_slab c).

Definition add_partial (a : Z) (c : slab_cache) : slab_cache :=
  SlabCache (slabs_full c) (a :: slabs_partial c) (slabs_empty c) (object_size c) (objects_per_slab c).

Definition add_empty (a : Z) (c : slab_cache) : slab_cache :=
  SlabCache (slabs_full c) (slabs_partial c) (a :: slabs_empty c) (object_size c) (objects_per_slab c).

Definition upd_cache (k : cache_id) (f : slab_cache → slab_cache) : M kstate unit :=
  modify (λ s, set_cache k (f (slab_caches s k)) s).

(** ** slab.c *)

(** [while (cache_size < size)]; a [size_t] doubles at most 27 times before it
    wraps to 0, and never leaves 0. *)
Fixpoint size_to_cache_loop (fuel : nat) (cache_size cache_idx size : Z) : outcome Z :=
  if cache_size <? size then
    match fuel with
    | O => Hang
    | S fuel => size_to_cache_loop fuel (cache_size ⊠ 2) (cache_idx + 1) size
    end
  else Done cache_idx.

Definition size_to_cache_size (size : Z) : outcome Z :=
  if size <=? 8 then Done CACHE_8B
  else
    obind (size_to_cache_loop 28 16 CACHE_16B size) (λ cache_idx,
      Done (if NUM_SLAB_CACHES <=? cache_idx then NUM_SLAB_CACHES else cache_idx)).

Definition lift_o {A} (o : outcome A) : M kstate A := λ s, obind o (λ a, Done (a, s)).

(** The loop of [slab_init_intrusive_freelist]: link [n] objects from [current]. *)
Fixpoint link_objects (n : nat) (current obj_size : Z) (w : Z → Z) : Z * (Z → Z) :=
  match n with
  | O => (current, w)
  | S n => let next := current ⊞ obj_size in link_objects n next obj_size (<[current := next]> w)
  end.

Definition slab_init_intrusive_freelist (src first_obj obj_size available_space : Z) : M kstate unit :=
  let end_iteration := available_space / obj_size in
  modify (set_kwords (λ w,
    let '(current, w) := link_objects (Z.to_nat (end_iteration ⊟ 1)) first_obj obj_size w in
    <[current := 0]> w)) ;;
  modify (λ s, let x := slabs s src in set_slab src (Slab first_obj (inuse x) (parent_cache x)) s).

Section Alloc.
(** [kmalloc] and [slab_create] call each other; see [kmalloc] below. *)
Context (kmalloc_ : Z → Z → M kstate Z).

Definition slab_create (cache : cache_id) (zone : zone_type) : M kstate Z :=
  new_page_phy ← lift_b (buddy_alloc_pages PAGE_SIZE zone) ;
  if new_page_phy =? 0 then mret 0
  else
    let page := page_addr_to_page new_page_phy in
    p ← lift_b (load_page page) ;
    lift_b (store_page page (PAGE_SET_STATE p PAGE_STATE_SLAB)) ;;
    new_page_virt ← PHYS_TO_VIRT_LINEAR new_page_phy ;
    size ← gets (λ s, object_size (slab_caches s cache)) ;
    '(ret, first_object, available_space) ←
      (if SLAB_IS_EXTERNAL size then
         let flags := if bool_decide (zone = DMA_ZONE) then Z.lor GFP_KERNEL __GFP_DMA else GFP_KERNEL in
         ret ← kmalloc_ SIZEOF_SLAB flags ;
         if ret =? 0 then lift_b (buddy_free_block new_page_phy) ;; mret (0, 0, 0)
         else mret (ret, new_page_virt, PAGE_SIZE)
       else mret (new_page_virt, new_page_virt ⊞ SIZEOF_SLAB, PAGE_SIZE ⊟ SIZEOF_SLAB)) ;
    if ret =? 0 then mret 0
    else
      modify (λ s, set_slab ret (Slab (freelist (slabs s ret)) 0 cache) s) ;;
      slab_init_intrusive_freelist ret first_object size available_space ;;
      p ← lift_b (load_page page) ;
      lift_b (store_page page (set_private p ret)) ;;
      mret ret.

(** The slab an object is taken from; 0 when memory is exhausted. *)
Definition pick_slab (k : cache_id) (zone : zone_type) : M kstate Z :=
  cache ← gets (λ s, slab_caches s k) ;
  match slabs_partial cache, slabs_empty cache with
  | slab_ :: _, _ => mret slab_
  | [], slab_ :: _ =>
      upd_cache k (pop_slab slab_) ;; upd_cache k (add_partial slab_) ;; mret slab_
  | [], [] =>
      slab_ ← slab_create k zone ;
      (if slab_ =? 0 then mret tt else upd_cache k (add_partial slab_)) ;;
      mret slab_
  end.

Definition slab_alloc (size : Z) (zone : zone_type) : M kstate Z :=
  slab_size ← lift_o (size_to_cache_size size) ;
  if (slab_size =? NUM_SLAB_CACHES) || (zone_index DMA_ZONE <? zone_index zone) then mret 0
  else
    let k := (zone, slab_size) in
    slab_ ← pick_slab k zone ;
    if slab_ =? 0 then mret 0
    else
      x ← gets (λ s, slabs s slab_) ;
      let ret := freelist x in
      if ret =? 0 then fault
      else
        next ← gets (λ s, kwords s ret) ;
        modify (set_slab slab_ (Slab next (inuse x ⊞ 1) (parent_cache x))) ;;
        (if next =? 0 then upd_cache k (pop_slab slab_) ;; upd_cache k (add_full slab_) else mret tt) ;;
        mret ret.

(** ** kmalloc.c *)

Definition slab_free (ptr : Z) : M kstate unit :=
  phys ← VIRT_TO_PHYS_LINEAR ptr ;
  page ← lift_b (load_page (page_addr_to_page phys)) ;
  if negb (PAGE_GET_STATE page =? PAGE_STATE_SLAB) then
    kpanic "Error: slab_free: try to free memory not handled by slab."
  else
    let slab_ := private_data page in
    x ← gets (λ s, slabs s slab_) ;
    let k := parent_cache x in
    modify (set_kwords (λ w, <[ptr := freelist x]> w)) ;;
    modify (set_slab slab_ (Slab ptr (inuse x ⊟ 1) k)) ;;
    n ← gets (λ s, objects_per_slab (slab_caches s k)) ;
    if inuse x ⊟ 1 =? n ⊟ 1 then upd_cache k (pop_slab slab_) ;; upd_cache k (add_partial slab_)
    else if inuse x ⊟ 1 =? 0 then upd_cache k (pop_slab slab_) ;; upd_cache k (add_empty slab_)
    else mret tt.

Definition kfree (ptr : Z) : M kstate unit :=
  if ptr =? 0 then mret tt
  else
    phys_addr ← VIRT_TO_PHYS_LINEAR ptr ;
    page ← lift_b (load_page (page_addr_to_page phys_addr)) ;
    let page_state := PAGE_GET_STATE page in
    if page_state =? PAGE_STATE_SLAB then slab_free ptr
    else if page_state =? PAGE_STATE_ALLOCATED then lift_b (buddy_free_block phys_addr)
    else mret tt.

Definition ksize (ptr : Z) : M kstate Z :=
  if ptr =? 0 then mret 0
  else
    phys_addr ← VIRT_TO_PHYS_LINEAR ptr ;
    page ← lift_b (load_page (page_addr_to_page phys_addr)) ;
    let page_state := PAGE_GET_STATE page in
    if page_state =? PAGE_STATE_SLAB then
      gets (λ s, object_size (slab_caches s (parent_cache (slabs s (private_data page)))))
    else if page_state =? PAGE_STATE_ALLOCATED then
      mret (if private_data page =? PAGE_MAGIC then 0 else ORDER_TO_BYTES (private_data page))
    else mret 0.

(** The body of the [while] of [slab_shrink_caches]: the slabs that are empty
    when the loop starts; none is unlinked. *)
Fixpoint shrink_slabs (size : Z) (l : list Z) : M kstate unit :=
  match l with
  | [] => mret tt
  | slab_ :: l =>
      x ← gets (λ s, slabs s slab_) ;
      phys ← VIRT_TO_PHYS_LINEAR (if SLAB_IS_EXTERNAL size then freelist x else slab_) ;
      let page := page_addr_to_page phys in
      p ← lift_b (load_page page) ;
      lift_b (store_page page (set_private (PAGE_SET_STATE p PAGE_STATE_ALLOCATED) 0)) ;;
      lift_b (buddy_free_block (page_to_phys page)) ;;
      (if SLAB_IS_EXTERNAL size then kfree slab_ else mret tt) ;;
      shrink_slabs size l
  end.

Definition slab_shrink_caches (zone : zone_type) : M kstate unit :=
  for_ 9 0 (λ i,
    cache ← gets (λ s, slab_caches s (zone, i)) ;
    shrink_slabs (object_size cache) (slabs_empty cache)).

Definition get_allocation (zone : zone_type) (size : Z) : M kstate Z :=
  if MAX_SLAB_SIZE <? size then
    phys_addr ← lift_b (buddy_alloc_pages size zone) ;
    if phys_addr =? 0 then mret 0 else PHYS_TO_VIRT_LINEAR phys_addr
  else slab_alloc size zone.

Definition try_alloc_with_reclaim (zone : zone_type) (size : Z) : M kstate Z :=
  alloc ← get_allocation zone size ;
  if alloc =? 0 then slab_shrink_caches zone ;; get_allocation zone size else mret alloc.

(** [ft_bzero(ret, size)] on the words of the heap. *)
Definition bzero_heap (a n : Z) : M kstate unit :=
  modify (set_kwords (λ w x, if (a <=? x) && (x <? a + n) then 0 else w x)).

Definition kmalloc_body (size flags : Z) : M kstate Z :=
  let zone := if FLAG_IS_SET flags __GFP_DMA then DMA_ZONE else LOWMEM_ZONE in
  if size =? 0 then mret 0
  else if MAX_KMALLOC_SIZE <? size then mret 0
  else
    ret ← try_alloc_with_reclaim zone size ;
    (if negb (ret =? 0) && FLAG_IS_SET flags __GFP_ZERO then bzero_heap ret size else mret tt) ;;
    mret ret.

End Alloc.

(** The only recursive call, from [slab_create], asks for [sizeof(struct slab)]
    bytes, which are in an intrusive cache: the depth is at most 2. *)
Fixpoint kmalloc_fuel (fuel : nat) (size flags : Z) : M kstate Z :=
  match fuel with
  | O => hang
  | S fuel => kmalloc_body (kmalloc_fuel fuel) size flags
  end.

Definition kmalloc : Z → Z → M kstate Z := kmalloc_fuel 2.

(** ** Initialisation and statistics *)

Definition slab_init_cache (i : Z) : slab_cache :=
  SlabCache [] [] [] (cache_sizes i)
    ((if SLAB_IS_EXTERNAL (cache_sizes i) then PAGE_SIZE else PAGE_SIZE ⊟ SIZEOF_SLAB) / cache_sizes i).

Fixpoint slab_init_zones (zones : list zone_type) : M kstate unit :=
  match zones with
  | [] => mret tt
  | zone :: zones => for_ 9 0 (λ i, modify (set_cache (zone, i) (slab_init_cache i))) ;; slab_init_zones zones
  end.

Definition slab_init : M kstate unit := slab_init_zones all_zones.

Definition list_count_nodes (l : list Z) : Z := u32 (Z.of_nat (length l)).

Definition debug_slab_size_to_str (i : Z) : string :=
  nth (Z.to_nat i) ["8B"; "16B"; "32B"; "64B"; "128B"; "256B"; "512B"; "1024B"; "2048B"] "??B".

(** The numbers [slab_print_zone_summary] prints for a cache. *)
Record cache_stats := CacheStats {
  st_total : Z; st_full : Z; st_partial : Z; st_empty : Z;
  st_inuse : Z; st_objects : Z; st_mem_used : Z; st_mem_held : Z; st_efficiency : Z }.

Definition cache_summary (s : kstate) (c : slab_cache) : cache_stats :=
  let full_slabs := list_count_nodes (slabs_full c) in
  let partial_slabs := list_count_nodes (slabs_partial c) in
  let empty_slabs := list_count_nodes (slabs_empty c) in
  let total_slabs := full_slabs ⊞ partial_slabs ⊞ empty_slabs in
  let total_inuse := foldl (λ acc a, acc ⊞ inuse (slabs s a)) (full_slabs ⊠ objects_per_slab c) (slabs_partial c) in
  let mem_held := total_slabs ⊠ PAGE_SIZE in
  let mem_used := total_inuse ⊠ object_size c in
  CacheStats total_slabs full_slabs partial_slabs empty_slabs total_inuse
    (total_slabs ⊠ objects_per_slab c) mem_used mem_held
    (if 0 <? mem_held then (mem_used ⊠ 100) / mem_held else 0).

(** The memory the caches of a zone hold, and the rows printed. *)
Fixpoint slab_zone_loop (n : nat) (i : Z) (zone : zone_type) (s : kstate) : Z * list cache_stats :=
  match n with
  | O => (0, [])
  | S n =>
      let st := cache_summary s (slab_caches s (zone, i)) in
      let '(held, rows) := slab_zone_loop n (i + 1) zone s in
      if st_total st =? 0 then (held, rows) else (st_mem_held st ⊞ held, st :: rows)
  end.

Definition slab_print_zone_summary (zone : zone_type) (s : kstate) : Z * list cache_stats :=
  slab_zone_loop 9 0 zone s.

Definition slab_print_summary (s : kstate) : Z :=
  (slab_print_zone_summary LOWMEM_ZONE s).1 ⊞ (slab_print_zone_summary DMA_ZONE s).1.
