(* ===== verification/SlabInv.v ===== *)
(** * The slab allocator: objects, free lists and the invariant

    [kinv s g ex] is the invariant of the slab allocator.  The ghost state
    [g] gives, for each slab, its frame and the sequence of its free objects;
    [ex] is the slab an operation under way has not yet put on the right
    list (0, which is no slab, between operations). *)

From S2P Require Import Prelude Dlist Memory Page Buddy BuddyInv BuddySpec BuddyThm Slab.

(** ** Addresses *)

(** The virtual address of frame [p]. *)
Definition virt (p : Z) : Z := p * PAGE_SIZE + KERNEL_VADDR_BASE.

(** The frames slabs are made of: those of the two zones below [HIGHMEM_START]. *)
Definition low_frame (p : Z) : Prop := 0 < p < 229376.

Definition is_external (i : Z) : bool := SLAB_IS_EXTERNAL (cache_sizes i).

(** Objects of a slab of cache index [i], and the offset of the first one. *)
Definition nobj (i : Z) : Z := objects_per_slab (slab_init_cache i).

Definition first_off (i : Z) : Z := if is_external i then 0 else SIZEOF_SLAB.

Definition objs_from (a size : Z) (n : nat) : list Z := map (λ j, a + Z.of_nat j * size) (seq 0 n).

Definition objs (i p : Z) : list Z :=
  objs_from (virt p + first_off i) (cache_sizes i) (Z.to_nat (nobj i)).

Lemma index_cases i (P : Z → Prop) : 0 ≤ i < 9 →
  P 0 → P 1 → P 2 → P 3 → P 4 → P 5 → P 6 → P 7 → P 8 → P i.
Proof.
  intros Hi. intros.
  assert (i = 0 ∨ i = 1 ∨ i = 2 ∨ i = 3 ∨ i = 4 ∨ i = 5 ∨ i = 6 ∨ i = 7 ∨ i = 8) as Hc by lia.
  naive_solver.
Qed.

(** The layout of the nine caches: objects fit in the page, after the header. *)
Lemma layout i : 0 ≤ i < 9 →
  0 < cache_sizes i ∧ 2 ≤ nobj i ≤ 508 ∧ first_off i + nobj i * cache_sizes i ≤ PAGE_SIZE ∧
  0 ≤ first_off i ∧ 8 ≤ cache_sizes i.
Proof.
  intros Hi. apply (index_cases i (λ i, 0 < cache_sizes i ∧ 2 ≤ nobj i ≤ 508 ∧
    first_off i + nobj i * cache_sizes i ≤ PAGE_SIZE ∧ 0 ≤ first_off i ∧ 8 ≤ cache_sizes i) Hi);
    vm_compute; intuition congruence.
Qed.

Lemma elem_of_objs_from a size n x :
  x ∈ objs_from a size n ↔ ∃ j : nat, (j < n)%nat ∧ x = a + Z.of_nat j * size.
Proof.
  unfold objs_from. rewrite list_elem_of_In, in_map_iff. split.
  - intros (j & <- & Hj%in_seq). exists j. split; [lia|done].
  - intros (j & Hj & ->). exists j. split; [done|]. apply in_seq. lia.
Qed.

Lemma length_objs_from a size n : length (objs_from a size n) = n.
Proof. unfold objs_from. by rewrite length_map, length_seq. Qed.

Lemma objs_from_S a size n : objs_from a size (S n) = a :: objs_from (a + size) size n.
Proof.
  unfold objs_from. cbn [seq map]. f_equal; [lia|]. rewrite <- seq_shift, map_map.
  apply map_ext. intros j. lia.
Qed.

Lemma NoDup_objs_from a size n : 0 < size → NoDup (objs_from a size n).
Proof.
  intros Hs. revert a. induction n as [|n IH]; intros a; [apply NoDup_nil_2|].
  rewrite objs_from_S. apply NoDup_cons. split; [|apply IH].
  rewrite elem_of_objs_from. intros (j & Hj & E). nia.
Qed.

Lemma obj_range i p x : 0 ≤ i < 9 → x ∈ objs i p →
  virt p + first_off i ≤ x ∧ x + cache_sizes i ≤ virt p + PAGE_SIZE.
Proof.
  intros Hi Hx. apply elem_of_objs_from in Hx as (j & Hj & ->). destruct (layout i Hi) as (? & ? & ? & ? & ?).
  assert (Z.of_nat j + 1 ≤ nobj i) by lia. nia.
Qed.

(** The address of an object determines its frame. *)
Lemma obj_frame p x : low_frame p → virt p ≤ x < virt p + PAGE_SIZE →
  page_addr_to_page (x ⊟ KERNEL_VADDR_BASE) = p.
Proof.
  unfold low_frame, virt, KERNEL_VADDR_BASE. change PAGE_SIZE with 4096. intros Hp Hx.
  rewrite u32_small by (unfold W32; lia). unfold page_addr_to_page. change PAGE_SIZE with (2 ^ 12).
  rewrite ALIGN_DOWN_pow2 by (unfold W32; lia). change (2 ^ 12) with 4096.
  pose proof (Z.div_mod (x - 3221225472) 4096). pose proof (Z.mod_pos_bound (x - 3221225472) 4096).
  assert ((x - 3221225472) / 4096 = p) by (symmetry; apply (Z.div_unique _ _ _ (x - 3221225472 - 4096 * p)); lia).
  replace (x - 3221225472 - (x - 3221225472) mod 4096) with (p * 4096) by lia. apply Z.div_mul. lia.
Qed.

Lemma obj_page i p x : 0 ≤ i < 9 → low_frame p → x ∈ objs i p →
  page_addr_to_page (x ⊟ KERNEL_VADDR_BASE) = p.
Proof.
  intros Hi Hp Hx. destruct (obj_range i p x Hi Hx), (layout i Hi) as (? & ? & ? & ? & ?).
  apply obj_frame; [done|]. lia.
Qed.

Lemma obj_word i p x : 0 ≤ i < 9 → low_frame p → x ∈ objs i p → KERNEL_VADDR_BASE ≤ x < W32 ∧ x ≠ 0.
Proof.
  intros Hi Hp Hx. destruct (obj_range i p x Hi Hx), (layout i Hi) as (? & ? & ? & ? & ?).
  unfold low_frame, virt, KERNEL_VADDR_BASE, PAGE_SIZE, W32 in *. lia.
Qed.

(** ** Free lists *)

(** From [a] the links visit exactly [l] and end at NULL. *)
Fixpoint chain (w : Z → Z) (a : Z) (l : list Z) : Prop :=
  match l with
  | [] => a = 0
  | x :: l => a = x ∧ x ≠ 0 ∧ chain w (w x) l
  end.

Lemma chain_ext w w' a l : (∀ x, x ∈ l → w' x = w x) → chain w a l → chain w' a l.
Proof.
  revert a. induction l as [|x l IH]; intros a Hw; [done|]. cbn [chain]. intros (-> & ? & Hc).
  split_and!; [done|done|]. rewrite Hw by set_solver. apply IH; [|done]. set_solver.
Qed.

(** [slab_init_intrusive_freelist] links the objects in address order. *)
Lemma link_objects_chain n a size w : 0 < size → 0 < a → a + Z.of_nat n * size < W32 →
  let '(current, w1) := link_objects n a size w in
  chain (<[current := 0]> w1 : Z → Z) a (objs_from a size (S n)) ∧
  ∀ x, x ∉ objs_from a size (S n) → (<[current := 0]> w1 : Z → Z) x = w x.
Proof.
  intros Hs. revert a w. induction n as [|n IH]; intros a w Ha Hb; cbn [link_objects].
  - rewrite objs_from_S. change (objs_from (a + size) size 0) with (@nil Z). split.
    + cbn [chain]. split_and!; [done|lia|]. by rewrite fn_lookup_insert.
    + intros x Hx. rewrite fn_lookup_insert_ne; [done|]. set_solver.
  - rewrite u32_small by nia. specialize (IH (a + size) (<[a := a + size]> w) ltac:(lia) ltac:(nia)).
    destruct (link_objects n (a + size) size (<[a := a + size]> w)) as [cur w1].
    destruct IH as [Hc Ho]. rewrite objs_from_S. split.
    + cbn [chain]. split_and!; [done|lia|].
      assert (a ∉ objs_from (a + size) size (S n)) as Hnin.
      { rewrite elem_of_objs_from. intros (j & _ & E). nia. }
      rewrite (Ho a Hnin), fn_lookup_insert. exact Hc.
    + intros x Hx. apply not_elem_of_cons in Hx as [Hne Hx]. rewrite Ho by done.
      by rewrite fn_lookup_insert_ne.
Qed.

(** ** The invariant *)

Record ghost := Ghost { gfl : Z → list Z; gpg : Z → Z }.

Definition all_slabs (c : slab_cache) : list Z := slabs_full c ++ slabs_partial c ++ slabs_empty c.

(** Zones with slabs and indices of caches. *)
Definition cache_ok (k : cache_id) : Prop := (k.1 = LOWMEM_ZONE ∨ k.1 = DMA_ZONE) ∧ 0 ≤ k.2 < 9.

(** [x] is an object of cache [k] in use. *)
Definition live_in (s : kstate) (g : ghost) (k : cache_id) (x : Z) : Prop :=
  ∃ a, cache_ok k ∧ a ∈ all_slabs (slab_caches s k) ∧ x ∈ objs k.2 (gpg g a) ∧ (x ∉ gfl g a).

Definition live (s : kstate) (g : ghost) (x : Z) : Prop := ∃ k, live_in s g k x.

(** A slab and its free objects. *)
Record slab_ok (s : kstate) (g : ghost) (k : cache_id) (a : Z) : Prop := {
  so_parent : parent_cache (slabs s a) = k;
  so_frame : low_frame (gpg g a);
  so_state : PAGE_GET_STATE (page_descriptors (kbuddy s) (gpg g a)) = PAGE_STATE_SLAB;
  so_private : private_data (page_descriptors (kbuddy s) (gpg g a)) = a;
  so_intrusive : is_external k.2 = false → a = virt (gpg g a);
  so_external : is_external k.2 = true → live s g a;
  so_chain : chain (kwords s) (freelist (slabs s a)) (gfl g a);
  so_nodup : NoDup (gfl g a);
  so_objs x : x ∈ gfl g a → x ∈ objs k.2 (gpg g a);
  so_inuse : inuse (slabs s a) = nobj k.2 - Z.of_nat (length (gfl g a)) }.

(** The list a slab is on tells how full it is. *)
Definition placed (c : slab_cache) (n : Z) (a : Z) (fl : list Z) : Prop :=
  (a ∈ slabs_full c ↔ fl = []) ∧ (a ∈ slabs_empty c ↔ Z.of_nat (length fl) = n).

Record kinv (s : kstate) (g : ghost) (ex : Z) : Prop := {
  ki_buddy : buddy_ok (kbuddy s);
  ki_sizes k : cache_ok k →
    object_size (slab_caches s k) = cache_sizes k.2 ∧ objects_per_slab (slab_caches s k) = nobj k.2;
  ki_nodup k : NoDup (all_slabs (slab_caches s k));
  ki_cache k a : a ∈ all_slabs (slab_caches s k) → cache_ok k;
  ki_slab k a : a ∈ all_slabs (slab_caches s k) → slab_ok s g k a;
  ki_placed k a : a ∈ all_slabs (slab_caches s k) → a ≠ ex →
    placed (slab_caches s k) (nobj k.2) a (gfl g a) }.

Lemma virt_pos p : low_frame p → virt p ≠ 0.
Proof. unfold low_frame, virt, PAGE_SIZE, KERNEL_VADDR_BASE. lia. Qed.

(** *** Slabs and their objects *)

Section Facts.
Context (s : kstate) (g : ghost) (ex : Z) (Hk : kinv s g ex).

Lemma slab_index k a : a ∈ all_slabs (slab_caches s k) → 0 ≤ k.2 < 9.
Proof. intros Ha. by destruct (ki_cache _ _ _ Hk k a Ha). Qed.

Lemma slab_nonzero k a : a ∈ all_slabs (slab_caches s k) → a ≠ 0.
Proof.
  intros Ha. pose proof (ki_slab _ _ _ Hk k a Ha) as H. destruct (is_external k.2) eqn:E.
  - destruct (so_external _ _ _ _ H E) as (k' & b & _ & Hb & Hx & _).
    apply (obj_word k'.2 (gpg g b)); [by eapply slab_index|apply (ki_slab _ _ _ Hk k' b Hb)|done].
  - rewrite (so_intrusive _ _ _ _ H E). apply virt_pos, H.
Qed.

Lemma slab_unique k a k' a' : a ∈ all_slabs (slab_caches s k) → a' ∈ all_slabs (slab_caches s k') →
  gpg g a = gpg g a' → k = k' ∧ a = a'.
Proof.
  intros H1%(ki_slab _ _ _ Hk) H2%(ki_slab _ _ _ Hk) E.
  assert (a = a') as <- by (rewrite <- (so_private _ _ _ _ H1), E; apply (so_private _ _ _ _ H2)).
  split; [|done]. rewrite <- (so_parent _ _ _ _ H1). apply (so_parent _ _ _ _ H2).
Qed.

Lemma object_unique k a k' a' x : a ∈ all_slabs (slab_caches s k) → a' ∈ all_slabs (slab_caches s k') →
  x ∈ objs k.2 (gpg g a) → x ∈ objs k'.2 (gpg g a') → k = k' ∧ a = a'.
Proof.
  intros H1 H2 Hx Hx'. apply slab_unique; [done..|].
  rewrite <- (obj_page k.2 (gpg g a) x), <- (obj_page k'.2 (gpg g a') x); try done; eauto using slab_index.
  - apply (ki_slab _ _ _ Hk k' a' H2).
  - apply (ki_slab _ _ _ Hk k a H1).
Qed.

Lemma free_count k a : a ∈ all_slabs (slab_caches s k) →
  Z.of_nat (length (gfl g a)) ≤ nobj k.2 ∧
  ∀ x, x ∈ objs k.2 (gpg g a) → (x ∉ gfl g a) → Z.of_nat (length (gfl g a)) < nobj k.2.
Proof.
  intros Ha. pose proof (ki_slab _ _ _ Hk k a Ha) as H. pose proof (layout _ (slab_index _ _ Ha)) as (? & ? & _).
  assert (length (objs k.2 (gpg g a)) = Z.to_nat (nobj k.2)) as El by apply length_objs_from.
  assert (gfl g a ⊆+ objs k.2 (gpg g a)) as Hs%submseteq_length
    by (apply NoDup_submseteq; [apply H|]; intros x; apply (so_objs _ _ _ _ H)).
  split; [lia|]. intros x Hx Hn.
  assert (x :: gfl g a ⊆+ objs k.2 (gpg g a)) as Hs'%submseteq_length; [|cbn in Hs'; lia].
  apply NoDup_submseteq; [apply NoDup_cons; split; [done|apply H]|].
  intros y [->|Hy]%elem_of_cons; [done|by apply (so_objs _ _ _ _ H)].
Qed.

End Facts.

(** *** Moving a slab between lists *)

Lemma elem_of_unlink a x l : x ∈ unlink a l ↔ x ∈ l ∧ x ≠ a.
Proof. unfold unlink. rewrite list_elem_of_filter. tauto. Qed.

(** [c'] is [c] with the slab [a], and only it, moved. *)
Record moved (a : Z) (c c' : slab_cache) : Prop := {
  mv_sizes : object_size c' = object_size c ∧ objects_per_slab c' = objects_per_slab c;
  mv_all : ∀ x, x ∈ all_slabs c' ↔ x = a ∨ x ∈ all_slabs c;
  mv_nodup : NoDup (all_slabs c) → NoDup (all_slabs c');
  mv_full : ∀ x, x ≠ a → x ∈ slabs_full c' ↔ x ∈ slabs_full c;
  mv_empty : ∀ x, x ≠ a → x ∈ slabs_empty c' ↔ x ∈ slabs_empty c }.

Lemma unlink_all a c : unlink a (all_slabs c) =
  unlink a (slabs_full c) ++ unlink a (slabs_partial c) ++ unlink a (slabs_empty c).
Proof. unfold all_slabs, unlink. by rewrite !filter_app. Qed.

Lemma NoDup_unlink_cons a l : NoDup l → NoDup (a :: unlink a l).
Proof. intros. apply NoDup_cons. rewrite elem_of_unlink. split; [tauto|by apply NoDup_filter]. Qed.

Lemma moved_intro a c c' :
  object_size c' = object_size c → objects_per_slab c' = objects_per_slab c →
  all_slabs c' ≡ₚ a :: unlink a (all_slabs c) →
  (∀ x, x ≠ a → x ∈ slabs_full c' ↔ x ∈ slabs_full c) →
  (∀ x, x ≠ a → x ∈ slabs_empty c' ↔ x ∈ slabs_empty c) → moved a c c'.
Proof.
  intros ? ? Hp Hf He. split; [done| | |done|done].
  - intros x. rewrite Hp, elem_of_cons, elem_of_unlink. destruct (decide (x = a)); tauto.
  - intros Hnd. rewrite Hp. by apply NoDup_unlink_cons.
Qed.

Lemma moved_full a c : moved a c (add_full a (pop_slab a c)).
Proof.
  apply moved_intro; cbn; try done; intros; rewrite ?elem_of_cons, ?elem_of_unlink; [|tauto..].
  by rewrite unlink_all.
Qed.

Lemma moved_partial a c : moved a c (add_partial a (pop_slab a c)).
Proof.
  apply moved_intro; cbn; try done; intros; rewrite ?elem_of_cons, ?elem_of_unlink; [|tauto..].
  rewrite unlink_all. symmetry. apply Permutation_middle.
Qed.

Lemma moved_empty a c : moved a c (add_empty a (pop_slab a c)).
Proof.
  apply moved_intro; cbn; try done; intros; rewrite ?elem_of_cons, ?elem_of_unlink; [|tauto..].
  rewrite unlink_all. symmetry. rewrite (app_assoc (unlink a (slabs_full c))).
  etrans; [apply Permutation_middle|]. by rewrite <- app_assoc.
Qed.

Lemma moved_new a c : (a ∉ all_slabs c) → moved a c (add_partial a c).
Proof.
  intros Ha. split; [done|..]; unfold all_slabs in *; cbn.
  - intros x. set_solver.
  - intros Hnd. rewrite <- Permutation_middle. by apply NoDup_cons.
  - done.
  - done.
Qed.

(** ** Every step of the operations keeps the invariant *)

(** The states that differ from [s] in slab [a] of cache [k] only. *)
Definition slab_updated (s : kstate) (k : cache_id) (a : Z) (w : Z → Z) (x : slab) (c : slab_cache) : kstate :=
  KState (kbuddy s) w (<[a := x]> (slabs s)) (<[k := c]> (slab_caches s)).

Definition ghost_updated (g : ghost) (a : Z) (F : list Z) : ghost := Ghost (<[a := F]> (gfl g)) (gpg g).

Lemma moved_id a c : a ∈ all_slabs c → moved a c c.
Proof. intros Ha. split; try done. intros x. split; [auto|by intros [->|?]]. Qed.

Section Update.
Context (s : kstate) (g : ghost) (ex ex' : Z) (k : cache_id) (a : Z).
Context (x : slab) (w : Z → Z) (c : slab_cache) (F : list Z).
Context (Hk : kinv s g ex) (Ha : a ∈ all_slabs (slab_caches s k)).
Context (Hex : ex = 0 ∨ ex = a) (Hmv : moved a (slab_caches s k) c).
Context (Hobjs : ∀ y, y ∈ F → y ∈ objs k.2 (gpg g a)).
Context (Hext : ∀ k' b, b ∈ all_slabs (slab_caches s k') → is_external k'.2 = true → b ∈ F → b ∈ gfl g a).

#[local] Abbreviation s' := (slab_updated s k a w x c).
#[local] Abbreviation g' := (ghost_updated g a F).

Lemma updated_slabs k' b : b ∈ all_slabs (slab_caches s' k') ↔ b ∈ all_slabs (slab_caches s k').
Proof.
  unfold slab_updated. cbn [slab_caches]. destruct (decide (k = k')) as [<-|Hne].
  - rewrite fn_lookup_insert, (mv_all _ _ _ Hmv). split; [by intros [->|?]|auto].
  - by rewrite fn_lookup_insert_ne.
Qed.

Lemma updated_live_in k' y : live_in s' g' k' y ↔
  (k' = k ∧ y ∈ objs k.2 (gpg g a) ∧ (y ∉ F)) ∨ (live_in s g k' y ∧ (y ∉ objs k.2 (gpg g a))).
Proof.
  split.
  - intros (b & Hc & Hb & Hy & Hn). apply updated_slabs in Hb.
    unfold ghost_updated in Hy, Hn. cbn [gfl gpg] in Hy, Hn.
    destruct (decide (a = b)) as [<-|Hne].
    + rewrite fn_lookup_insert in Hn. left.
      destruct (slab_unique _ _ _ Hk k' a k a Hb Ha eq_refl) as [-> _]. done.
    + rewrite fn_lookup_insert_ne in Hn by done. right. split; [by exists b|].
      intros Hy'. by destruct (object_unique _ _ _ Hk k a k' b y Ha Hb Hy' Hy).
  - intros [(-> & Hy & Hn)|[(b & Hc & Hb & Hy & Hn) Hout]].
    + exists a. split_and!; [by eapply ki_cache|by apply updated_slabs|done|].
      unfold ghost_updated. cbn [gfl]. by rewrite fn_lookup_insert.
    + assert (a ≠ b) as Hne.
      { intros <-. destruct (slab_unique _ _ _ Hk k' a k a Hb Ha eq_refl) as [-> _]. done. }
      exists b. split_and!; [done|by apply updated_slabs|done|].
      unfold ghost_updated. cbn [gfl]. by rewrite fn_lookup_insert_ne.
Qed.

Lemma updated_live y : live s' g' y ↔
  (y ∈ objs k.2 (gpg g a) ∧ (y ∉ F)) ∨ (live s g y ∧ (y ∉ objs k.2 (gpg g a))).
Proof. unfold live. setoid_rewrite updated_live_in. naive_solver. Qed.

Context (Hparent : parent_cache x = k) (Hchain : chain w (freelist x) F) (Hnd : NoDup F).
Context (Hinuse : inuse x = nobj k.2 - Z.of_nat (length F)).
Context (Hplaced : a ≠ ex' → placed c (nobj k.2) a F).
Context (Hw : ∀ y, (y ∉ objs k.2 (gpg g a)) → w y = kwords s y).

(** The structure of an external slab is an object that stays in use. *)
Lemma updated_external k' b : b ∈ all_slabs (slab_caches s k') → is_external k'.2 = true → live s' g' b.
Proof.
  intros Hb E. apply updated_live.
  pose proof (so_external _ _ _ _ (ki_slab _ _ _ Hk k' b Hb) E) as Hl.
  destruct (decide (b ∈ objs k.2 (gpg g a))) as [Ho|Ho]; [|by right]. left. split; [done|].
  intros HF. apply (Hext k' b Hb E) in HF. destruct Hl as (k2 & b2 & _ & Hb2 & Ho2 & Hn2).
  destruct (object_unique _ _ _ Hk k a k2 b2 b Ha Hb2 Ho Ho2) as [_ ->]. done.
Qed.

Lemma kinv_update : kinv s' g' ex'.
Proof.
  pose proof (ki_slab _ _ _ Hk k a Ha) as Hsa.
  split.
  - apply Hk.
  - intros k' Hc. unfold slab_updated. cbn [slab_caches]. destruct (decide (k = k')) as [<-|Hne].
    + rewrite fn_lookup_insert. destruct (mv_sizes _ _ _ Hmv) as [-> ->]. by apply (ki_sizes _ _ _ Hk).
    + rewrite fn_lookup_insert_ne by done. by apply (ki_sizes _ _ _ Hk).
  - intros k'. unfold slab_updated. cbn [slab_caches]. destruct (decide (k = k')) as [<-|Hne].
    + rewrite fn_lookup_insert. apply (mv_nodup _ _ _ Hmv), Hk.
    + rewrite fn_lookup_insert_ne by done. apply Hk.
  - intros k' b Hb%updated_slabs. by eapply ki_cache.
  - intros k' b Hb%updated_slabs. pose proof (ki_slab _ _ _ Hk k' b Hb) as Hs.
    destruct (decide (a = b)) as [<-|Hne].
    + destruct (slab_unique _ _ _ Hk k' a k a Hb Ha eq_refl) as [-> _].
      split; unfold slab_updated, ghost_updated; cbn [kbuddy kwords slabs slab_caches gfl gpg];
        rewrite ?fn_lookup_insert; try done; try apply Hsa.
      intros E. by apply (updated_external k a).
    + split; unfold slab_updated, ghost_updated; cbn [kbuddy kwords slabs slab_caches gfl gpg];
        rewrite ?fn_lookup_insert_ne by done; try apply Hs.
      * intros E. by apply (updated_external k' b).
      * apply (chain_ext (kwords s)); [|apply Hs]. intros y Hy. apply Hw. intros Hy'.
        apply (so_objs _ _ _ _ Hs) in Hy. by destruct (object_unique _ _ _ Hk k a k' b y Ha Hb Hy' Hy).
  - intros k' b Hb%updated_slabs Hne. unfold slab_updated, ghost_updated. cbn [slab_caches gfl].
    destruct (decide (a = b)) as [<-|Hab].
    + destruct (slab_unique _ _ _ Hk k' a k a Hb Ha eq_refl) as [-> _].
      rewrite !fn_lookup_insert. auto.
    + rewrite (fn_lookup_insert_ne (gfl g)) by done.
      assert (b ≠ ex) as Hbx.
      { destruct Hex as [E|E]; rewrite E; [by eapply slab_nonzero|done]. }
      destruct (ki_placed _ _ _ Hk k' b Hb Hbx) as [P1 P2]. destruct (decide (k = k')) as [<-|Hkk].
      * rewrite fn_lookup_insert. unfold placed. rewrite (mv_full _ _ _ Hmv), (mv_empty _ _ _ Hmv) by done. done.
      * rewrite fn_lookup_insert_ne by done. done.
Qed.

End Update.

(** ** Taking an object *)

(** The end of [slab_alloc], once a slab is chosen. *)
Definition take_object (k : cache_id) (slab_ : Z) : M kstate Z :=
  x ← gets (λ s, slabs s slab_) ;
  let ret := freelist x in
  if ret =? 0 then fault
  else
    next ← gets (λ s, kwords s ret) ;
    modify (set_slab slab_ (Slab next (inuse x ⊞ 1) (parent_cache x))) ;;
    (if next =? 0 then upd_cache k (pop_slab slab_) ;; upd_cache k (add_full slab_) else mret tt) ;;
    mret ret.

(** The state with the same caches, slabs and words as [s], up to pointwise
    equality: what the invariant depends on. *)
Record kstate_eq (s s' : kstate) : Prop := {
  ke_buddy : kbuddy s' = kbuddy s;
  ke_words y : kwords s' y = kwords s y;
  ke_slabs a : slabs s' a = slabs s a;
  ke_caches k : slab_caches s' k = slab_caches s k }.

Lemma live_in_ext s s' g k y : kstate_eq s s' → live_in s g k y → live_in s' g k y.
Proof. intros [_ _ _ Hc] (a & ? & ? & ? & ?). exists a. by rewrite Hc. Qed.

Lemma live_ext s s' g y : kstate_eq s s' → live s g y → live s' g y.
Proof. intros He [k Hl]. exists k. by eapply live_in_ext. Qed.

Lemma kinv_ext s s' g ex : kstate_eq s s' → kinv s g ex → kinv s' g ex.
Proof.
  intros He Hk. pose proof He as [Hb Hw Hs Hc]. split.
  - rewrite Hb. apply Hk.
  - intros k. rewrite Hc. apply Hk.
  - intros k. rewrite Hc. apply Hk.
  - intros k a. rewrite Hc. apply Hk.
  - intros k a. rewrite Hc. intros Ha. pose proof (ki_slab _ _ _ Hk k a Ha) as H.
    split; rewrite ?Hb, ?Hs; try apply H.
    + intros E. eapply live_ext; [done|]. by apply H.
    + apply (chain_ext (kwords s)); [done|]. apply H.
  - intros k a. rewrite !Hc. apply Hk.
Qed.

Lemma partial_only s g ex k a : kinv s g ex → a ∈ slabs_partial (slab_caches s k) →
  a ∈ all_slabs (slab_caches s k) ∧ (a ∉ slabs_full (slab_caches s k)) ∧ (a ∉ slabs_empty (slab_caches s k)).
Proof.
  intros Hk Ha. pose proof (ki_nodup _ _ _ Hk k) as Hnd. unfold all_slabs in *.
  apply NoDup_app in Hnd as (_ & Hd1 & Hnd). apply NoDup_app in Hnd as (_ & Hd2 & _).
  split_and!; [set_solver|intros H; apply (Hd1 a H); set_solver|by apply Hd2].
Qed.

(** Two updates of the cache [k] after one of slab [a]. *)
Lemma updated_eq s k a x (f h : slab_cache → slab_cache) :
  kstate_eq (slab_updated s k a (kwords s) x (h (f (slab_caches s k))))
    (set_cache k (h (<[k := f (slab_caches s k)]> (slab_caches s) k))
      (set_cache k (f (slab_caches s k)) (set_slab a x s))).
Proof.
  split; try done. intros k'. cbn [slab_caches set_cache set_slab slab_updated].
  destruct (decide (k = k')) as [<-|]; [by rewrite !fn_lookup_insert|by rewrite !fn_lookup_insert_ne].
Qed.

Lemma updated_eq_same s k a x : kstate_eq (slab_updated s k a (kwords s) x (slab_caches s k)) (set_slab a x s).
Proof.
  split; try done. intros k'. cbn [slab_caches set_slab slab_updated].
  destruct (decide (k = k')) as [<-|]; [by rewrite fn_lookup_insert|by rewrite fn_lookup_insert_ne].
Qed.

Lemma kstate_eq_sym s s' : kstate_eq s s' → kstate_eq s' s.
Proof. intros []. split; intros; congruence. Qed.

Lemma take_spec s g k a r F : kinv s g a → a ∈ slabs_partial (slab_caches s k) → gfl g a = r :: F →
  wp (take_object k a) s (λ ret s', ret = r ∧ kinv s' (ghost_updated g a F) 0 ∧ kbuddy s' = kbuddy s ∧
    r ∈ objs k.2 (gpg g a) ∧ ¬ live s g r ∧
    ∀ k' y, live_in s' (ghost_updated g a F) k' y ↔ live_in s g k' y ∨ (k' = k ∧ y = r)).
Proof.
  intros Hk Hp Hfl. destruct (partial_only _ _ _ _ _ Hk Hp) as (Ha & Hnf & Hne).
  pose proof (ki_slab _ _ _ Hk k a Ha) as Hs. pose proof (so_chain _ _ _ _ Hs) as Hc. rewrite Hfl in Hc.
  destruct Hc as (Efr & Hr0 & Hc). pose proof (so_nodup _ _ _ _ Hs) as Hnd. rewrite Hfl in Hnd.
  apply NoDup_cons in Hnd as [HrF Hnd].
  assert (r ∈ objs k.2 (gpg g a)) as Hro by (apply (so_objs _ _ _ _ Hs); rewrite Hfl; set_solver).
  assert (∀ y, y ∈ F → y ∈ objs k.2 (gpg g a)) as HF by (intros y Hy; apply (so_objs _ _ _ _ Hs); rewrite Hfl; set_solver).
  destruct (free_count _ _ _ Hk k a Ha) as [Hcount _]. rewrite Hfl in Hcount. cbn [length] in Hcount.
  pose proof (layout _ (slab_index _ _ _ Hk _ _ Ha)) as (_ & Hn & _).
  assert (a ≠ 0) as Ha0 by by eapply slab_nonzero.
  set (x := Slab (kwords s r) (inuse (slabs s a) ⊞ 1) (parent_cache (slabs s a))).
  assert (inuse x = nobj k.2 - Z.of_nat (length F)) as Hin.
  { unfold x. cbn [inuse]. rewrite (so_inuse _ _ _ _ Hs), Hfl. cbn [length].
    rewrite u32_small by (unfold W32; lia). lia. }
  assert (∀ c, moved a (slab_caches s k) c → placed c (nobj k.2) a F → ∀ s1,
    kstate_eq (slab_updated s k a (kwords s) x c) s1 →
    kinv s1 (ghost_updated g a F) 0 ∧ kbuddy s1 = kbuddy s ∧ r ∈ objs k.2 (gpg g a) ∧ ¬ live s g r ∧
    ∀ k' y, live_in s1 (ghost_updated g a F) k' y ↔ live_in s g k' y ∨ (k' = k ∧ y = r)) as Hfin.
  { intros c Hmv Hpl s1 He.
    assert (∀ k' b, b ∈ all_slabs (slab_caches s k') → is_external k'.2 = true → b ∈ F → b ∈ gfl g a) as Hext
      by (intros; rewrite Hfl; set_solver).
    split_and!; [|apply (ke_buddy _ _ He)|done|..].
    - apply (kinv_ext _ _ _ _ He), (kinv_update s g a 0 k a x (kwords s) c F Hk Ha); auto.
      apply (so_parent _ _ _ _ Hs).
    - intros (k' & b & _ & Hb & Hx & Hy). destruct (object_unique _ _ _ Hk k a k' b r Ha Hb Hro Hx) as [_ <-].
      apply Hy. rewrite Hfl. set_solver.
    - intros k' y. transitivity (live_in (slab_updated s k a (kwords s) x c) (ghost_updated g a F) k' y).
      { split; intros; eapply live_in_ext; eauto using kstate_eq_sym. }
      rewrite (updated_live_in s g a k a x (kwords s) c F Hk Ha Hmv). split.
      + intros [(-> & Hy & HyF)|[? _]]; [|by left]. destruct (decide (y = r)); [by right|left].
        exists a. split_and!; [by eapply ki_cache|done|done|]. rewrite Hfl. set_solver.
      + intros [Hl|[-> ->]]; [|by left]. destruct (decide (y ∈ objs k.2 (gpg g a))) as [Ho|]; [left|by right].
        destruct Hl as (b & _ & Hb & Hx & Hy).
        destruct (object_unique _ _ _ Hk k a k' b y Ha Hb Ho Hx) as [<- <-]. rewrite Hfl in Hy. set_solver. }
  unfold take_object. wp_steps. rewrite Efr, (proj2 (Z.eqb_neq _ _) Hr0). wp_steps. fold x.
  destruct F as [|y F']; cbn [chain] in Hc.
  - rewrite Hc, Z.eqb_refl. unfold upd_cache. wp_steps. split; [done|].
    eapply Hfin; [apply (moved_full a)| |apply (updated_eq s k a x (pop_slab a) (add_full a))].
    split; cbn [slabs_full slabs_empty add_full pop_slab length]; [set_solver|]. rewrite elem_of_unlink.
    split; [tauto|]. intros. lia.
  - destruct Hc as (Ey & Hy0 & _). rewrite Ey, (proj2 (Z.eqb_neq _ _) Hy0). wp_steps. split; [done|].
    eapply Hfin; [by apply moved_id| |apply updated_eq_same].
    split; [split; [by intros ?%Hnf|done]|]. split; [by intros ?%Hne|]. cbn [length] in *. lia.
Qed.

(** ** A new slab *)

Lemma wp_lift_b {A} (c : M bstate A) s (Q : A → kstate → Prop) :
  wp c (kbuddy s) (λ a b, Q a (KState b (kwords s) (slabs s) (slab_caches s))) → wp (lift_b c) s Q.
Proof. unfold wp, lift_b. by destruct (c (kbuddy s)) as [[a b]| | |]. Qed.

(** The descriptor of a frame in use may change, as long as it stays in use. *)
Lemma buddy_ok_set_desc s i q : buddy_ok s → ¬ is_free s i → flags_ok q →
  PAGE_GET_ZONE q = PAGE_GET_ZONE (page_descriptors s i) → PAGE_GET_STATE q ≠ PAGE_STATE_FREE →
  buddy_ok (set_descriptors <[i := q]> s).
Proof.
  intros (fl & Hinv & Hco) Hnf Hfq Hz Hst. exists fl. split; [|done].
  set (s' := set_descriptors _ s).
  assert (∀ j, is_free s' j ↔ is_free s j) as Hfr.
  { intros j. unfold is_free, s'. rewrite descriptors_insert. case_decide; subst; [|done].
    split; [done|]. intros Hf. by destruct Hnf. }
  destruct Hinv as [Hp Hl Hn Hb Hc Ht]. split; auto.
  - intros j Hj. unfold s'. rewrite descriptors_insert. case_decide; [subst j|by apply Hp].
    rewrite Hz. split; [done|]. by apply Hp.
  - intros z o x Hx. eapply block_ok_frame; [|by apply Hb]. intros j Hj.
    unfold s'. rewrite descriptors_insert, decide_False; [done|]. intros ->.
    by apply Hnf, (blk_free _ _ _ _ (Hb _ _ _ Hx)).
  - intros j Hj Hf. apply Hc; [done|]. by apply Hfr.
Qed.

Lemma buddy_flags s j : buddy_ok s → 0 ≤ j < MAX_PAGES → flags_ok (page_descriptors s j).
Proof. intros (fl & Hinv & _) Hj. by apply (bi_pages _ _ _ Hinv). Qed.

Lemma low_frame_max p : low_frame p → 0 ≤ p < MAX_PAGES.
Proof. unfold low_frame, MAX_PAGES. lia. Qed.

Lemma virt_page p : low_frame p → page_addr_to_page (virt p ⊟ KERNEL_VADDR_BASE) = p.
Proof. intros. apply obj_frame; [done|]. unfold PAGE_SIZE. lia. Qed.

(** The slab [virt p] of cache [k] is made of frame [p], with all its objects free. *)
Definition ghost_added (g : ghost) (i p : Z) : ghost :=
  Ghost (<[virt p := objs i p]> (gfl g)) (<[virt p := p]> (gpg g)).

Section Added.
Context (s : kstate) (g : ghost) (k : cache_id) (p : Z) (s' : kstate).
Context (Hk : kinv s g 0) (Hc : cache_ok k) (Hint : is_external k.2 = false).
Context (Hp : low_frame p) (Hfree : is_free (kbuddy s) p).
Context (Hb : buddy_ok (kbuddy s')).
Context (Hsame : ∀ j, j ≠ p → 0 ≤ j < MAX_PAGES → ¬ is_free (kbuddy s) j →
  page_descriptors (kbuddy s') j = page_descriptors (kbuddy s) j).
Context (Hst : PAGE_GET_STATE (page_descriptors (kbuddy s') p) = PAGE_STATE_SLAB).
Context (Hpr : private_data (page_descriptors (kbuddy s') p) = virt p).
Context (Hw : ∀ y, (y ∉ objs k.2 p) → kwords s' y = kwords s y).
Context (Hch : chain (kwords s') (freelist (slabs s' (virt p))) (objs k.2 p)).
Context (Hin : inuse (slabs s' (virt p)) = 0) (Hpar : parent_cache (slabs s' (virt p)) = k).
Context (Hsl : ∀ a, a ≠ virt p → slabs s' a = slabs s a).
Context (Hca : ∀ k', slab_caches s' k' =
  if decide (k' = k) then add_partial (virt p) (slab_caches s k) else slab_caches s k').

#[local] Abbreviation g' := (ghost_added g k.2 p).

Lemma old_page k' a : a ∈ all_slabs (slab_caches s k') → gpg g a ≠ p.
Proof.
  intros Ha E. pose proof (ki_slab _ _ _ Hk k' a Ha) as H. unfold is_free in Hfree.
  rewrite <- E, (so_state _ _ _ _ H) in Hfree. done.
Qed.

Lemma old_slab k' a : a ∈ all_slabs (slab_caches s k') → a ≠ virt p.
Proof.
  intros Ha E. pose proof (ki_slab _ _ _ Hk k' a Ha) as H. destruct (is_external k'.2) eqn:Ee.
  - destruct (so_external _ _ _ _ H Ee) as (k2 & b & [_ Hk2] & Hb2 & Hx & _).
    apply (old_page k2 b Hb2). rewrite <- (obj_page k2.2 (gpg g b) a Hk2); [|apply (ki_slab _ _ _ Hk k2 b Hb2)|done].
    rewrite E. by apply virt_page.
  - apply (old_page k' a Ha). pose proof (so_intrusive _ _ _ _ H Ee) as E'.
    assert (virt p = virt (gpg g a)) as E2 by congruence. unfold virt, PAGE_SIZE in E2. lia.
Qed.

Lemma added_slabs k' a : a ∈ all_slabs (slab_caches s' k') ↔
  (k' = k ∧ a = virt p) ∨ a ∈ all_slabs (slab_caches s k').
Proof. rewrite Hca. case_decide; subst; unfold all_slabs; cbn; set_solver. Qed.

Lemma added_ghost k' a : a ∈ all_slabs (slab_caches s k') → gfl g' a = gfl g a ∧ gpg g' a = gpg g a.
Proof.
  intros Ha%old_slab. unfold ghost_added. cbn [gfl gpg]. by rewrite !fn_lookup_insert_ne.
Qed.

Lemma added_ghost_new : gfl g' (virt p) = objs k.2 p ∧ gpg g' (virt p) = p.
Proof. unfold ghost_added. cbn [gfl gpg]. by rewrite !fn_lookup_insert. Qed.

Lemma added_live_in k' y : live_in s' g' k' y ↔ live_in s g k' y.
Proof.
  split; intros (a & Hck & Ha & Hx & Hy).
  - apply added_slabs in Ha as [[-> ->]|Ha].
    + destruct added_ghost_new as [E1 E2]. rewrite E1 in Hy. rewrite E2 in Hx. done.
    + destruct (added_ghost k' a Ha) as [E1 E2]. rewrite E1 in Hy. rewrite E2 in Hx. by exists a.
  - exists a. destruct (added_ghost k' a Ha) as [-> ->]. split_and!; try done.
    apply added_slabs. by right.
Qed.

Lemma added_live y : live s' g' y ↔ live s g y.
Proof. unfold live. by setoid_rewrite added_live_in. Qed.

Lemma kinv_added : kinv s' g' (virt p).
Proof.
  destruct added_ghost_new as [Efl Epg]. destruct Hc as [_ Hi]. pose proof (layout k.2 Hi) as (Hsz & Hno & _).
  split.
  - done.
  - intros k' Hck. rewrite Hca. destruct (ki_sizes _ _ _ Hk k' Hck) as [? ?]. case_decide; subst; done.
  - intros k'. rewrite Hca. case_decide; [subst k'|apply Hk].
    apply (mv_nodup _ _ _ (moved_new _ _ (λ H, old_slab k (virt p) H eq_refl))), Hk.
  - intros k' a [[-> _]|Ha]%added_slabs; [done|by eapply ki_cache].
  - intros k' a [[-> ->]|Ha]%added_slabs.
    + split; rewrite ?Efl, ?Epg; try done.
      * rewrite Hint. done.
      * apply NoDup_objs_from. done.
      * unfold objs. rewrite Hin, length_objs_from. lia.
    + pose proof (ki_slab _ _ _ Hk k' a Ha) as H. destruct (added_ghost k' a Ha) as [E1 E2].
      assert (page_descriptors (kbuddy s') (gpg g a) = page_descriptors (kbuddy s) (gpg g a)) as Ed.
      { apply Hsame; [by eapply old_page|apply low_frame_max, H|].
        unfold is_free. by rewrite (so_state _ _ _ _ H). }
      split; rewrite ?E1, ?E2, ?Ed, ?Hsl by (by eapply old_slab); try apply H.
      * intros Ee. apply added_live. by apply H.
      * apply (chain_ext (kwords s)); [|apply H]. intros y Hy. apply Hw. intros Hy'.
        apply (so_objs _ _ _ _ H) in Hy. apply (old_page k' a Ha).
        rewrite <- (obj_page k'.2 (gpg g a) y (slab_index _ _ _ Hk _ _ Ha)); [|apply H|done].
        by apply (obj_page k.2).
  - intros k' a [[-> ->]|Ha]%added_slabs Hne; [done|].
    destruct (added_ghost k' a Ha) as [-> _]. pose proof (slab_nonzero _ _ _ Hk k' a Ha) as Ha0.
    destruct (ki_placed _ _ _ Hk k' a Ha Ha0) as [P1 P2]. rewrite Hca. case_decide; [subst k'|done]. done.
Qed.

End Added.
