(* ===== verification/SlabThm.v ===== *)
(** * The slab allocator and kmalloc: theorems *)

From S2P Require Import Prelude Dlist Memory Page Buddy BuddyInv BuddySpec BuddyThm Slab SlabInv.

(** ** Cache sizes *)

Lemma cache_sizes_pow2 i : 0 ≤ i < 9 → cache_sizes i = 2 ^ (i + 3).
Proof. intros Hi. by apply (index_cases i (λ i, cache_sizes i = 2 ^ (i + 3)) Hi). Qed.

Lemma size_to_cache_loop_spec fuel i size : 0 ≤ i → 28 ≤ i + Z.of_nat fuel → size ≤ 2 ^ 31 →
  ∃ j, size_to_cache_loop fuel (2 ^ (i + 3)) i size = Done j ∧ i ≤ j ∧ size ≤ 2 ^ (j + 3) ∧
       (j = i ∨ 2 ^ (j + 2) < size).
Proof.
  revert i. induction fuel as [|fuel IH]; intros i Hi Hf Hs; cbn [size_to_cache_loop];
    destruct (Z.ltb_spec (2 ^ (i + 3)) size) as [Hlt|Hge].
  - assert (2 ^ 31 ≤ 2 ^ (i + 3)) by (apply Z.pow_le_mono_r; lia). lia.
  - exists i. split_and!; auto; lia.
  - assert (i + 3 < 31) as Hi31 by (apply (proj2 (Z.pow_lt_mono_r_iff 2 (i + 3) 31 ltac:(lia) ltac:(lia))); lia).
    assert (2 ^ (i + 3) * 2 = 2 ^ (i + 1 + 3)) as E.
    { replace (i + 1 + 3) with (Z.succ (i + 3)) by lia. rewrite Z.pow_succ_r by lia. lia. }
    rewrite u32_small, E.
    + destruct (IH (i + 1)) as (j & Hj & ? & ? & Hc); [lia..|]. exists j. split_and!; [done|lia|done|].
      right. destruct Hc as [-> |?]; [by replace (i + 1 + 2) with (i + 3) by lia|done].
    + rewrite E. split; [apply Z.pow_nonneg; lia|].
      change W32 with (2 ^ 32). apply Z.pow_lt_mono_r; lia.
  - exists i. split_and!; auto; lia.
Qed.

Lemma size_to_cache_run size : 0 < size ≤ 2147483648 →
  ∃ i, size_to_cache_size size = Done i ∧
    ((0 ≤ i < NUM_SLAB_CACHES ∧ size ≤ cache_sizes i ∧ ∀ j, 0 ≤ j < i → cache_sizes j < size) ∨
     (i = NUM_SLAB_CACHES ∧ MAX_SLAB_SIZE < size)).
Proof.
  intros Hs. unfold size_to_cache_size, NUM_SLAB_CACHES. destruct (Z.leb_spec size 8) as [H8|H8].
  { exists 0. split; [done|]. left. split_and!; [lia|lia|done|lia]. }
  destruct (size_to_cache_loop_spec 28 1 size) as (j & Hj & Hge & Hfit & Hmin); [lia..|].
  change (2 ^ (1 + 3)) with 16 in Hj. unfold CACHE_16B. rewrite Hj. cbn [obind].
  assert (∀ m, 0 ≤ m < j → 2 ^ (m + 3) < size) as Hsmall.
  { intros m Hm. destruct Hmin as [->|Hmin]; [assert (m = 0) as -> by lia; cbn; lia|].
    assert (2 ^ (m + 3) ≤ 2 ^ (j + 2)) by (apply Z.pow_le_mono_r; lia). lia. }
  destruct (Z.leb_spec 9 j) as [H9|H9].
  - exists 9. split; [done|]. right. split; [done|]. unfold MAX_SLAB_SIZE. apply (Hsmall 8). lia.
  - exists j. split; [done|]. left. rewrite cache_sizes_pow2 by lia. split_and!; [lia|lia|done|].
    intros m Hm. rewrite cache_sizes_pow2 by lia. auto.
Qed.

(** [size_to_cache_size] picks the smallest cache whose objects are large
    enough, and reports that there is none exactly when the request exceeds
    the largest object size. *)
Theorem size_to_cache_size_correct size : 0 < size ≤ 2147483648 →
  ∃ i, size_to_cache_size size = Done i ∧
    ((0 ≤ i < NUM_SLAB_CACHES ∧ size ≤ cache_sizes i ∧ ∀ j, 0 ≤ j < i → cache_sizes j < size) ∨
     (i = NUM_SLAB_CACHES ∧ MAX_SLAB_SIZE < size)).
Proof. apply size_to_cache_run. Qed.

(** ** Choosing a slab *)

(** The slab an object can be taken from. *)
Definition picked (s : kstate) (g : ghost) (k : cache_id) (a : Z) (s' : kstate) : Prop :=
  ∃ g', kinv s' g' a ∧ a ∈ slabs_partial (slab_caches s' k) ∧ gfl g' a ≠ [] ∧ a ≠ 0 ∧
        (∀ k' y, live_in s' g' k' y ↔ live_in s g k' y) ∧
        ∀ p o, allocated (kbuddy s) p o → allocated (kbuddy s') p o.

Lemma kinv_weaken s g ex : kinv s g 0 → kinv s g ex.
Proof.
  intros Hk. destruct Hk as [? ? ? ? ? Hp]. split; try done. intros k a Ha _. apply Hp; [done|].
  by eapply slab_nonzero.
Qed.

Lemma PHYS_TO_VIRT_run (s : kstate) p (Q : Z → kstate → Prop) : low_frame p →
  Q (virt p) s → wp (PHYS_TO_VIRT_LINEAR (p * PAGE_SIZE)) s Q.
Proof.
  intros Hp HQ. unfold PHYS_TO_VIRT_LINEAR. apply wp_bind, wp_assert.
  - apply Z.leb_le. unfold low_frame in Hp. change (not32 KERNEL_VADDR_BASE) with 1073741823. unfold PAGE_SIZE. lia.
  - apply wp_ret. rewrite u32_small; [exact HQ|].
    unfold low_frame, PAGE_SIZE, KERNEL_VADDR_BASE, W32 in *. lia.
Qed.

Lemma low_zone_frame z p : z = LOWMEM_ZONE ∨ z = DMA_ZONE → zone_of p = z → 0 < p → low_frame p.
Proof.
  intros Hz E Hp. rewrite zone_of_unfold in E. unfold low_frame. split; [done|].
  destruct (decide (229376 ≤ p)); [|lia]. destruct Hz; congruence.
Qed.

Section Create.
Context (km : Z → Z → M kstate Z).

(** The state [slab_create] leaves for an intrusive slab made of frame [p]. *)
Record created (s : kstate) (k : cache_id) (p : Z) (s' : kstate) : Prop := {
  cr_frame : low_frame p;
  cr_free : is_free (kbuddy s) p;
  cr_buddy : buddy_ok (kbuddy s');
  cr_same : ∀ j, j ≠ p → 0 ≤ j < MAX_PAGES → ¬ is_free (kbuddy s) j →
    page_descriptors (kbuddy s') j = page_descriptors (kbuddy s) j;
  cr_state : PAGE_GET_STATE (page_descriptors (kbuddy s') p) = PAGE_STATE_SLAB;
  cr_private : private_data (page_descriptors (kbuddy s') p) = virt p;
  cr_words : ∀ y, (y ∉ objs k.2 p) → kwords s' y = kwords s y;
  cr_chain : chain (kwords s') (freelist (slabs s' (virt p))) (objs k.2 p);
  cr_inuse : inuse (slabs s' (virt p)) = 0;
  cr_parent : parent_cache (slabs s' (virt p)) = k;
  cr_slabs : ∀ a, a ≠ virt p → slabs s' a = slabs s a;
  cr_caches : slab_caches s' = slab_caches s }.

(** The words [slab_init_intrusive_freelist] writes in the page. *)
Lemma init_freelist_chain i p w : 0 ≤ i < 9 → low_frame p → is_external i = false →
  let '(current, w1) := link_objects
      (Z.to_nat ((PAGE_SIZE ⊟ SIZEOF_SLAB) / cache_sizes i ⊟ 1)) (virt p ⊞ SIZEOF_SLAB) (cache_sizes i) w in
  chain (<[current := 0]> w1 : Z → Z) (virt p ⊞ SIZEOF_SLAB) (objs i p) ∧
  ∀ x, (x ∉ objs i p) → (<[current := 0]> w1 : Z → Z) x = w x.
Proof.
  intros Hi Hp He. destruct (layout i Hi) as (Hs & Hn & Hfit & _).
  assert (first_off i = SIZEOF_SLAB ∧ (PAGE_SIZE ⊟ SIZEOF_SLAB) / cache_sizes i = nobj i) as [Eo En].
  { unfold first_off, nobj, slab_init_cache. cbn [objects_per_slab]. unfold is_external in *. by rewrite He. }
  rewrite En, (u32_small (nobj i - 1)) by (unfold W32; lia).
  rewrite u32_small by (unfold low_frame, virt, PAGE_SIZE, KERNEL_VADDR_BASE, SIZEOF_SLAB, W32 in *; lia).
  unfold objs. rewrite Eo. replace (Z.to_nat (nobj i)) with (S (Z.to_nat (nobj i - 1))) by lia.
  apply link_objects_chain; [done|unfold low_frame, virt, PAGE_SIZE, KERNEL_VADDR_BASE, SIZEOF_SLAB in *; lia|].
  rewrite Eo in Hfit. unfold low_frame, virt, PAGE_SIZE, KERNEL_VADDR_BASE, SIZEOF_SLAB, W32 in *.
  rewrite Z2Nat.id by lia. nia.
Qed.

Lemma slab_create_spec s g k : kinv s g 0 → cache_ok k → is_external k.2 = false →
  wp (slab_create km k k.1) s (λ r s', (r = 0 ∧ s' = s) ∨ ∃ p, r = virt p ∧ created s k p s').
Proof.
  intros Hk [Hz Hi] He. destruct (ki_sizes _ _ _ Hk k (conj Hz Hi)) as [Esz _].
  unfold slab_create. apply wp_bind, wp_lift_b, wp_run.
  destruct (buddy_alloc_cases (kbuddy s) PAGE_SIZE k.1) as [[E _]|(p & b1 & E & Hb1 & (Hrun & Hzp & Hf) & Hal & Hfr1)];
    [apply Hk|by destruct Hz as [-> | ->]|..].
  { exists 0, (kbuddy s). split; [done|]. apply wp_ret. left. split; [done|]. by destruct s. }
  exists (page_to_phys p), b1. split; [done|].
  change (size_to_order PAGE_SIZE) with 0 in *. destruct Hrun as (_ & Hp0 & Hpm & _).
  assert (in_block p 0 p) as Hpp by (unfold in_block; lia).
  assert (low_frame p) as Hp by by eapply low_zone_frame.
  assert (0 ≤ p < MAX_PAGES) as Hpr by by apply low_frame_max.
  rewrite page_to_phys_small by done. set (d1 := page_descriptors b1 p).
  rewrite (proj2 (Z.eqb_neq _ _)) by (unfold PAGE_SIZE; lia).
  rewrite <- page_to_phys_small, page_addr_to_page_phys by done.
  assert (¬ is_free b1 p) as Hnf1 by (unfold is_free; by rewrite (proj2 (proj2 Hal) p Hpp)).
  assert (flags_ok d1) as Hd1 by by apply buddy_flags.
  apply wp_bind, wp_lift_b, wp_load_page; [done|]. cbn beta. fold d1.
  apply wp_bind, wp_lift_b, wp_store_page; [done|]. cbn [kbuddy kwords slabs slab_caches].
  set (d2 := PAGE_SET_STATE d1 PAGE_STATE_SLAB).
  rewrite page_to_phys_small by done. apply wp_bind, PHYS_TO_VIRT_run; [done|]. wp_steps.
  cbn [slab_caches]. rewrite Esz.
  change (SLAB_IS_EXTERNAL (cache_sizes k.2)) with (is_external k.2). rewrite He. wp_steps.
  rewrite (proj2 (Z.eqb_neq _ _)) by by apply virt_pos. wp_steps.
  unfold slab_init_intrusive_freelist. wp_steps.
  apply wp_lift_b, wp_load_page; [done|]. cbn [kbuddy set_kwords set_slab]. wp_steps.
  apply wp_lift_b, wp_store_page; [done|]. wp_steps. right. exists p. split; [done|].
  pose proof (init_freelist_chain k.2 p (kwords s) Hi Hp He) as Hlink.
  cbn [kwords slabs slab_caches set_kwords set_slab kbuddy].
  destruct (link_objects _ _ _ (kwords s)) as [cur w1]. destruct Hlink as [Hchain Hout].
  assert (page_descriptors (set_descriptors <[p:=d2]> b1) p = d2) as Ed2
    by by rewrite descriptors_insert, decide_True.
  split; cbn [kbuddy kwords slabs slab_caches]; try done.
  - by apply Hf.
  - assert (PAGE_GET_STATE d2 = PAGE_STATE_SLAB) as Est by by apply PAGE_SET_STATE_get.
    apply buddy_ok_set_private.
    + apply buddy_ok_set_desc; [done|done|by apply flags_SET_STATE_range|by apply PAGE_SET_STATE_zone|].
      change (PAGE_GET_STATE d2 ≠ PAGE_STATE_FREE). by rewrite Est.
    + change (PAGE_GET_STATE (page_descriptors (set_descriptors <[p:=d2]> b1) p) ≠ PAGE_STATE_FREE).
      by rewrite Ed2, Est.
  - intros j Hj Hjr Hjn. rewrite !descriptors_insert, !decide_False by done. by apply Hfr1.
  - rewrite !descriptors_insert, !decide_True by done. change (PAGE_GET_STATE d2 = PAGE_STATE_SLAB).
    by apply PAGE_SET_STATE_get.
  - by rewrite descriptors_insert, decide_True.
  - rewrite fn_lookup_insert. cbn [freelist]. exact Hchain.
  - by rewrite !fn_lookup_insert.
  - by rewrite !fn_lookup_insert.
  - intros a Ha. by rewrite !fn_lookup_insert_ne.
Qed.

Lemma pick_slab_spec s g k : kinv s g 0 → cache_ok k → is_external k.2 = false →
  wp (pick_slab km k k.1) s (λ a s', (a = 0 ∧ s' = s) ∨ picked s g k a s').
Proof.
  intros Hk Hc He. pose proof (layout _ (proj2 Hc)) as (_ & Hn & _). unfold pick_slab. wp_steps.
  destruct (slabs_partial (slab_caches s k)) as [|a l] eqn:Ep;
    [destruct (slabs_empty (slab_caches s k)) as [|a l] eqn:Ee|].
  - apply wp_bind. eapply wp_mono; [by apply (slab_create_spec s g)|].
    intros r s1 [[-> ->]|(p & -> & Hcr)]; [wp_steps; by left|].
    rewrite (proj2 (Z.eqb_neq _ _)) by (apply virt_pos, Hcr). unfold upd_cache. wp_steps. right.
    assert (∀ k', <[k := add_partial (virt p) (slab_caches s1 k)]> (slab_caches s1) k' =
      if decide (k' = k) then add_partial (virt p) (slab_caches s k) else slab_caches s k') as Hca.
    { intros k'. rewrite (cr_caches _ _ _ _ Hcr). case_decide; subst;
        [by rewrite fn_lookup_insert|by rewrite fn_lookup_insert_ne]. }
    assert (∀ p' o, allocated (kbuddy s) p' o → allocated (kbuddy s1) p' o) as Hkeep.
    { intros p' o Hal. eapply allocated_frame; [exact Hal|]. intros j Hj.
      destruct (allocated_not_free _ _ _ _ Hal Hj) as [Hjr Hnf]. apply (cr_same _ _ _ _ Hcr); [|done|done].
      intros ->. apply Hnf, Hcr. }
    destruct Hcr. exists (ghost_added g k.2 p). split_and!.
    + by eapply kinv_added.
    + cbn [slab_caches set_cache]. rewrite Hca, decide_True by done. cbn. set_solver.
    + unfold ghost_added. cbn [gfl]. rewrite fn_lookup_insert. intros E%(f_equal length).
      unfold objs in E. rewrite length_objs_from in E. cbn [length] in E. lia.
    + by apply virt_pos.
    + intros k' y. by eapply added_live_in.
    + exact Hkeep.
  - assert (a ∈ all_slabs (slab_caches s k)) as Ha by (unfold all_slabs; rewrite Ee; set_solver).
    pose proof (slab_nonzero _ _ _ Hk k a Ha) as Ha0.
    destruct (ki_placed _ _ _ Hk k a Ha Ha0) as [_ [Hfull _]]. rewrite Ee in Hfull.
    specialize (Hfull ltac:(set_solver)).
    unfold upd_cache. wp_steps. right.
    assert (kstate_eq (slab_updated s k a (kwords s) (slabs s a) (add_partial a (pop_slab a (slab_caches s k))))
      (set_cache k (add_partial a (<[k:=pop_slab a (slab_caches s k)]> (slab_caches s) k))
         (set_cache k (pop_slab a (slab_caches s k)) s))) as Heq.
    { split; try done.
      - intros b. cbn [slabs set_cache slab_updated]. destruct (decide (a = b)) as [<-|];
          [by rewrite fn_lookup_insert|by rewrite fn_lookup_insert_ne].
      - intros k'. cbn [slab_caches set_cache slab_updated]. destruct (decide (k = k')) as [<-|];
          [by rewrite !fn_lookup_insert|by rewrite !fn_lookup_insert_ne]. }
    pose proof (ki_slab _ _ _ Hk k a Ha) as Hs.
    exists (ghost_updated g a (gfl g a)). split_and!.
    + apply (kinv_ext _ _ _ _ Heq), 
        (kinv_update s g 0 a k a _ _ _ _ Hk Ha (or_introl eq_refl) (moved_partial _ _) (so_objs _ _ _ _ Hs));
        try done; apply Hs.
    + cbn [slab_caches set_cache]. rewrite !fn_lookup_insert. cbn. set_solver.
    + unfold ghost_updated. cbn [gfl]. rewrite fn_lookup_insert. intros E. rewrite E in Hfull. cbn [length] in Hfull. lia.
    + done.
    + intros k' y. transitivity (live_in (slab_updated s k a (kwords s) (slabs s a)
        (add_partial a (pop_slab a (slab_caches s k)))) (ghost_updated g a (gfl g a)) k' y).
      { split; intros; eapply live_in_ext; eauto using kstate_eq_sym. }
      rewrite (updated_live_in s g 0 k a _ _ _ _ Hk Ha (moved_partial _ _)). split.
      * intros [(-> & ? & ?)|[? _]]; [|done]. exists a. done.
      * intros Hl. destruct (decide (y ∈ objs k.2 (gpg g a))) as [Ho|]; [left|by right].
        destruct Hl as (b & _ & Hb & Hx & Hy). by destruct (object_unique _ _ _ Hk k a k' b y Ha Hb Ho Hx) as [<- <-].
    + done.
  - wp_steps. right. exists g. assert (a ∈ slabs_partial (slab_caches s k)) as Hap by (rewrite Ep; set_solver).
    destruct (partial_only _ _ _ _ _ Hk Hap) as (Ha & Hnf & _).
    pose proof (slab_nonzero _ _ _ Hk k a Ha) as Ha0.
    destruct (ki_placed _ _ _ Hk k a Ha Ha0) as [[_ Hemp] _].
    split_and!; [by apply kinv_weaken|done|naive_solver|done|done|done].
Qed.

(** What a successful allocation of an object of cache [k] promises. *)
Record object_given (s : kstate) (g : ghost) (k : cache_id) (r : Z) (s' : kstate) (g' : ghost) : Prop := {
  og_inv : kinv s' g' 0;
  og_fresh : ¬ live s g r;
  og_live k' y : live_in s' g' k' y ↔ live_in s g k' y ∨ (k' = k ∧ y = r);
  og_object : ∃ p, low_frame p ∧ r ∈ objs k.2 p;
  og_pages p o : allocated (kbuddy s) p o → allocated (kbuddy s') p o }.

Lemma slab_alloc_run s g size z : kinv s g 0 → z = LOWMEM_ZONE ∨ z = DMA_ZONE → 0 < size ≤ 512 →
  wp (slab_alloc km size z) s (λ r s', (r = 0 ∧ s' = s) ∨
    ∃ i g', size_to_cache_size size = Done i ∧ 0 ≤ i < 9 ∧ size ≤ cache_sizes i ∧
      object_given s g (z, i) r s' g').
Proof.
  intros Hk Hz Hs. destruct (size_to_cache_run size) as (i & Ei & Hi); [lia|].
  unfold NUM_SLAB_CACHES, MAX_SLAB_SIZE in Hi. destruct Hi as [(Hi & Hfit & Hmin)|]; [|lia].
  assert (is_external i = false) as He.
  { unfold is_external, SLAB_IS_EXTERNAL, SLAB_INTRUSIVE_THRESHOLD. apply Z.ltb_ge.
    destruct (decide (i ≤ 6)) as [H6|H6].
    - rewrite cache_sizes_pow2 by lia. change 512 with (2 ^ 9). apply Z.pow_le_mono_r; lia.
    - specialize (Hmin 6 ltac:(lia)). change (cache_sizes 6) with 512 in Hmin. lia. }
  assert (cache_ok (z, i)) as Hc by done.
  unfold slab_alloc, lift_o. apply wp_bind. unfold wp at 1. rewrite Ei. cbn [obind].
  rewrite (proj2 (Z.eqb_neq _ _)) by (unfold NUM_SLAB_CACHES; lia).
  replace (zone_index DMA_ZONE <? zone_index z) with false by (by destruct Hz as [-> | ->]). cbn [orb].
  apply wp_bind. eapply wp_mono; [by apply (pick_slab_spec s g (z, i))|].
  intros a s1 [[-> ->]|(g1 & Hk1 & Hp1 & Hne & Ha0 & Hl1 & Hal1)]; [wp_steps; by left|].
  rewrite (proj2 (Z.eqb_neq _ _) Ha0). destruct (gfl g1 a) as [|r F] eqn:Efl; [done|].
  eapply (wp_mono (take_object (z, i) a)); [by apply (take_spec s1 g1 (z, i) a r F)|].
  intros ret s2 (-> & Hk2 & Eb & Hro & Hnl & Hl2). right. exists i, (ghost_updated g1 a F).
  split_and!; [done|lia|lia|done|]. split; [done| | | |].
  - intros [k' Hlr]. apply Hnl. exists k'. by apply Hl1.
  - intros k' y. by rewrite Hl2, Hl1.
  - exists (gpg g1 a). split; [|done]. destruct (partial_only _ _ _ _ _ Hk1 Hp1) as (Ha & _).
    apply (ki_slab _ _ _ Hk1 _ _ Ha).
  - intros p o Hal. rewrite Eb. auto.
Qed.

End Create.

(** ** Freeing an object *)

(** [x] is not the [struct slab] of an external slab. *)
Definition not_struct (s : kstate) (x : Z) : Prop := ∀ k a, a ∈ all_slabs (slab_caches s k) → a ≠ x.

Lemma VIRT_TO_PHYS_run (s : kstate) x (Q : Z → kstate → Prop) : KERNEL_VADDR_BASE ≤ x →
  Q (x ⊟ KERNEL_VADDR_BASE) s → wp (VIRT_TO_PHYS_LINEAR x) s Q.
Proof.
  intros Hx HQ. unfold VIRT_TO_PHYS_LINEAR. apply wp_bind, wp_assert; [by apply Z.leb_le|]. by apply wp_ret.
Qed.

Lemma updated_eq_words s k a x w (f h : slab_cache → slab_cache) :
  kstate_eq (slab_updated s k a w x (h (f (slab_caches s k))))
    (set_cache k (h (<[k := f (slab_caches s k)]> (slab_caches s) k))
      (set_cache k (f (slab_caches s k)) (set_slab a x (set_kwords (λ _, w) s)))).
Proof. apply (updated_eq (set_kwords (λ _, w) s)). Qed.

Lemma slab_free_run s g k x : kinv s g 0 → live_in s g k x → not_struct s x →
  wp (slab_free x) s (λ _ s', ∃ g', kinv s' g' 0 ∧ kbuddy s' = kbuddy s ∧
    ∀ k' y, live_in s' g' k' y ↔ live_in s g k' y ∧ y ≠ x).
Proof.
  intros Hk (a & Hc & Ha & Hx & Hnf) Hns. pose proof (ki_slab _ _ _ Hk k a Ha) as Hs.
  destruct Hc as [Hz Hi]. destruct (obj_word k.2 (gpg g a) x Hi (so_frame _ _ _ _ Hs) Hx) as [Hxr Hx0].
  destruct (free_count _ _ _ Hk k a Ha) as [_ Hcount]. specialize (Hcount x Hx Hnf).
  pose proof (layout _ Hi) as (_ & Hn & _). destruct (ki_sizes _ _ _ Hk k (conj Hz Hi)) as [_ En].
  assert (a ≠ 0) as Ha0 by by eapply slab_nonzero.
  destruct (ki_placed _ _ _ Hk k a Ha Ha0) as [Pf Pe].
  unfold slab_free. apply wp_bind, VIRT_TO_PHYS_run; [lia|].
  rewrite (obj_page k.2 (gpg g a) x Hi (so_frame _ _ _ _ Hs) Hx).
  apply wp_bind, wp_lift_b, wp_load_page; [apply low_frame_max, Hs|]. cbn beta.
  rewrite (so_state _ _ _ _ Hs), (so_private _ _ _ _ Hs), Z.eqb_refl. cbn [negb]. wp_steps.
  cbn [kbuddy kwords slabs slab_caches]. rewrite (so_parent _ _ _ _ Hs). cbn [slab_caches set_slab set_kwords].
  rewrite En, (so_inuse _ _ _ _ Hs), !u32_small by (unfold W32; lia).
  set (F := x :: gfl g a). set (w := <[x := freelist (slabs s a)]> (kwords s)).
  set (X := Slab x (nobj k.2 - Z.of_nat (length (gfl g a)) - 1) k).
  assert (∀ c, moved a (slab_caches s k) c → placed c (nobj k.2) a F → ∀ s1,
    kstate_eq (slab_updated s k a w X c) s1 →
    ∃ g', kinv s1 g' 0 ∧ kbuddy s1 = kbuddy s ∧ ∀ k' y, live_in s1 g' k' y ↔ live_in s g k' y ∧ y ≠ x) as Hfin.
  { intros c Hmv Hpl s1 He. exists (ghost_updated g a F).
    assert (∀ y, y ∈ F → y ∈ objs k.2 (gpg g a)) as HF.
    { intros y [->|Hy]%elem_of_cons; [done|by apply (so_objs _ _ _ _ Hs)]. }
    split_and!; [|apply (ke_buddy _ _ He)|].
    - apply (kinv_ext _ _ _ _ He), (kinv_update s g 0 0 k a X w c F Hk Ha); auto.
      + intros k' b Hb _ [->|?]%elem_of_cons; [|done]. by destruct (Hns k' x Hb).
      + unfold F, w. cbn [chain]. split_and!; [done|done|]. rewrite fn_lookup_insert.
        apply (chain_ext (kwords s)); [|apply Hs]. intros y Hy. apply fn_lookup_insert_ne. by intros ->.
      + apply NoDup_cons. split; [done|apply Hs].
      + unfold X, F. cbn [inuse length]. lia.
      + intros y Hy. apply fn_lookup_insert_ne. by intros ->.
    - intros k' y. transitivity (live_in (slab_updated s k a w X c) (ghost_updated g a F) k' y).
      { split; intros; eapply live_in_ext; eauto using kstate_eq_sym. }
      rewrite (updated_live_in s g 0 k a X w c F Hk Ha Hmv). split.
      + intros [(-> & Hy & HyF)|[Hl Hy]]; [|split; [done|by intros ->]].
        apply not_elem_of_cons in HyF as [? ?]. split; [|done]. by exists a.
      + intros [Hl Hne]. destruct (decide (y ∈ objs k.2 (gpg g a))) as [Ho|]; [left|by right].
        destruct Hl as (b & _ & Hb & Hy & Hyn).
        destruct (object_unique _ _ _ Hk k a k' b y Ha Hb Ho Hy) as [<- <-]. set_solver. }
  destruct (Z.eqb_spec (nobj k.2 - Z.of_nat (length (gfl g a)) - 1) (nobj k.2 - 1)) as [E1|E1];
    [|destruct (Z.eqb_spec (nobj k.2 - Z.of_nat (length (gfl g a)) - 1) 0) as [E2|E2]];
    unfold upd_cache; wp_steps.
  - eapply Hfin; [apply (moved_partial a)| |apply (updated_eq_words s k a X w (pop_slab a) (add_partial a))].
    split; cbn [slabs_full slabs_empty add_partial pop_slab]; rewrite elem_of_unlink; unfold F; cbn [length].
    + naive_solver.
    + split; [tauto|]. intros. lia.
  - eapply Hfin; [apply (moved_empty a)| |apply (updated_eq_words s k a X w (pop_slab a) (add_empty a))].
    split; cbn [slabs_full slabs_empty add_empty pop_slab]; rewrite ?elem_of_unlink; unfold F; cbn [length].
    + naive_solver.
    + split; [lia|]. intros. set_solver.
  - eapply Hfin; [by apply moved_id| |apply (updated_eq_same (set_kwords (λ _, w) s) k a X)].
    split; unfold F; cbn [length].
    + split; [|done]. intros Hf%Pf. rewrite Hf in E1. cbn [length] in E1. lia.
    + split; [intros He%Pe; lia|lia].
Qed.
