(* ===== verification/KmallocThm.v ===== *)
(** * kmalloc and kfree: the kernel heap

    A block of the heap is an object of a slab or a block of the buddy
    allocator seen through the linear mapping. *)

From S2P Require Import Prelude Dlist Memory Page Buddy BuddyInv BuddySpec BuddyThm.
From S2P Require Import Slab SlabInv SlabThm.

(** The block of [n] bytes at [a] is in use. *)
Definition obj_block (s : kstate) (g : ghost) (a n : Z) : Prop :=
  ∃ k, live_in s g k a ∧ n = cache_sizes k.2.

Definition page_block (s : kstate) (a n : Z) : Prop :=
  ∃ p o, low_frame p ∧ allocated (kbuddy s) p o ∧ a = virt p ∧ n = 2 ^ o * PAGE_SIZE.

Definition block (s : kstate) (g : ghost) (a n : Z) : Prop := obj_block s g a n ∨ page_block s a n.

Definition ranges_apart (a n b m : Z) : Prop := a + n ≤ b ∨ b + m ≤ a.

(** ** Blocks do not overlap *)

Section Blocks.
Context (s : kstate) (g : ghost) (Hk : kinv s g 0).

(** The frame of an object in use. *)
Lemma live_frame k x : live_in s g k x → ∃ q, low_frame q ∧ x ∈ objs k.2 q ∧ 0 ≤ k.2 < 9 ∧
  PAGE_GET_STATE (page_descriptors (kbuddy s) q) = PAGE_STATE_SLAB.
Proof.
  intros (a & [_ Hi] & Ha & Hx & _). pose proof (ki_slab _ _ _ Hk k a Ha) as H.
  exists (gpg g a). split_and!; [apply H|done|apply Hi|apply Hi|apply H].
Qed.

Lemma objs_apart i p x y : 0 ≤ i < 9 → x ∈ objs i p → y ∈ objs i p → x ≠ y →
  ranges_apart x (cache_sizes i) y (cache_sizes i).
Proof.
  intros Hi Hx Hy Hne. destruct (layout i Hi) as (Hs & _).
  apply elem_of_objs_from in Hx as (j & _ & ->), Hy as (j' & _ & ->). unfold ranges_apart.
  destruct (decide (Z.of_nat j < Z.of_nat j')); [left; nia|right].
  assert (j ≠ j') by (intros ->; done). nia.
Qed.

Lemma pages_apart p q : p ≠ q → ranges_apart (virt p) PAGE_SIZE (virt q) PAGE_SIZE.
Proof. unfold ranges_apart, virt, PAGE_SIZE. lia. Qed.

Lemma live_apart k x k' y : live_in s g k x → live_in s g k' y → x ≠ y →
  ranges_apart x (cache_sizes k.2) y (cache_sizes k'.2).
Proof.
  intros Hx Hy Hne. pose proof Hx as (a & [_ Hi] & Ha & Hxo & _). pose proof Hy as (b & [_ Hi'] & Hb & Hyo & _).
  destruct (decide (gpg g a = gpg g b)) as [E|E].
  - destruct (slab_unique _ _ _ Hk k a k' b Ha Hb E) as [<- <-]. by eapply objs_apart.
  - destruct (obj_range _ _ _ Hi Hxo), (obj_range _ _ _ Hi' Hyo), (layout _ Hi) as (_ & _ & _ & ? & _),
      (layout _ Hi') as (_ & _ & _ & ? & _).
    destruct (pages_apart _ _ E); unfold ranges_apart; [left|right]; lia.
Qed.

(** A page that is not of the slab allocator is apart from its objects. *)
Lemma object_off_page k x p o : live_in s g k x → 0 ≤ o →
  (∀ j, in_block p o j → PAGE_GET_STATE (page_descriptors (kbuddy s) j) ≠ PAGE_STATE_SLAB) →
  ranges_apart (virt p) (2 ^ o * PAGE_SIZE) x (cache_sizes k.2).
Proof.
  intros Hx Ho Hp. destruct (live_frame k x Hx) as (q & Hq & Hxo & Hi & Hst).
  destruct (obj_range _ _ _ Hi Hxo), (layout _ Hi) as (_ & _ & _ & ? & _).
  assert (¬ in_block p o q) as Hout by (intros Hin; by apply (Hp q Hin)).
  unfold in_block in Hout. unfold ranges_apart, virt, PAGE_SIZE in *. lia.
Qed.

Lemma object_off_block k x p o : live_in s g k x → allocated (kbuddy s) p o →
  ranges_apart (virt p) (2 ^ o * PAGE_SIZE) x (cache_sizes k.2).
Proof.
  intros Hx Hal. pose proof Hal as ((Ho & _) & _ & Hst). apply object_off_page; [done|lia|].
  intros j Hj. by rewrite (Hst j Hj).
Qed.

Lemma apart_sym a n b m : ranges_apart a n b m → ranges_apart b m a n.
Proof. unfold ranges_apart. tauto. Qed.

Lemma blocks_off p o p' o' : allocated (kbuddy s) p o → allocated (kbuddy s) p' o' → p ≠ p' →
  ranges_apart (virt p) (2 ^ o * PAGE_SIZE) (virt p') (2 ^ o' * PAGE_SIZE).
Proof.
  intros H1 H2 Hne. assert (0 < 2 ^ o ∧ 0 < 2 ^ o') as [Ho Ho'].
  { destruct H1 as ((? & _) & _), H2 as ((? & _) & _). split; apply Z.pow_pos_nonneg; lia. }
  assert (∀ p o p' o', allocated (kbuddy s) p o → allocated (kbuddy s) p' o' → p ≠ p' → ¬ in_block p o p') as Hkey.
  { clear. intros p o p' o' (_ & Hp & _) ((Ho' & _) & Hp' & _) Hne Hin.
    assert (in_block p' o' p') as Hself by (unfold in_block; pose proof (Z.pow_pos_nonneg 2 o'); lia).
    specialize (Hp p' Hin). specialize (Hp' p' Hself). rewrite decide_False in Hp by done.
    rewrite decide_True in Hp' by done. unfold PAGE_MAGIC in Hp. lia. }
  pose proof (Hkey p o p' o' H1 H2 Hne). pose proof (Hkey p' o' p o H2 H1 (not_eq_sym Hne)).
  unfold in_block, ranges_apart, virt, PAGE_SIZE in *. lia.
Qed.

Lemma block_apart a n b m : block s g a n → block s g b m → a ≠ b → ranges_apart a n b m.
Proof.
  intros [(k & Hx & ->)|(p & o & _ & Hal & -> & ->)] [(k' & Hy & ->)|(p' & o' & _ & Hal' & -> & ->)] Hne.
  - by apply live_apart.
  - apply apart_sym. by apply object_off_block.
  - by apply object_off_block.
  - apply blocks_off; [done..|]. by intros ->.
Qed.

End Blocks.

(** ** Steps that do not concern the slabs *)

(** The buddy allocator may change as long as the frames of the slabs keep
    their descriptors. *)
Lemma kinv_buddy s g b : kinv s g 0 → buddy_ok b →
  (∀ j, 0 ≤ j < MAX_PAGES → PAGE_GET_STATE (page_descriptors (kbuddy s) j) = PAGE_STATE_SLAB →
        page_descriptors b j = page_descriptors (kbuddy s) j) →
  kinv (KState b (kwords s) (slabs s) (slab_caches s)) g 0.
Proof.
  intros Hk Hb Hsame. split; try apply Hk; [done|]. intros k a Ha. pose proof (ki_slab _ _ _ Hk k a Ha) as H.
  assert (page_descriptors b (gpg g a) = page_descriptors (kbuddy s) (gpg g a)) as E
    by (apply Hsame; [apply low_frame_max, H|apply H]).
  split; cbn [kbuddy kwords slabs slab_caches]; rewrite ?E; apply H.
Qed.

(** A free object is outside every block in use. *)
Lemma free_off_block s g k a y r n : kinv s g 0 → a ∈ all_slabs (slab_caches s k) → y ∈ gfl g a →
  block s g r n → ¬ r ≤ y < r + n.
Proof.
  intros Hk Ha Hy Hb. pose proof (ki_slab _ _ _ Hk k a Ha) as H. pose proof (so_objs _ _ _ _ H y Hy) as Hyo.
  assert (0 ≤ k.2 < 9) as Hi by (by eapply slab_index). destruct (layout _ Hi) as (Hsz & _ & _ & Hoff & _).
  destruct (obj_range _ _ _ Hi Hyo) as [Hy1 Hy2].
  destruct Hb as [(k' & (b & [_ Hi'] & Hb & Hro & Hrn) & ->)|(p & o & Hp & Hal & -> & ->)].
  - destruct (decide (gpg g a = gpg g b)) as [E|E].
    + destruct (slab_unique _ _ _ Hk k a k' b Ha Hb E) as [<- <-].
      destruct (objs_apart k.2 (gpg g a) r y Hi Hro Hyo); [by intros ->|..]; lia.
    + destruct (obj_range _ _ _ Hi' Hro), (layout _ Hi') as (_ & _ & _ & ? & _), (pages_apart _ _ E); lia.
  - assert (¬ in_block p o (gpg g a)) as Hout.
    { intros Hin. pose proof (so_state _ _ _ _ H) as E. by rewrite (proj2 (proj2 Hal) _ Hin) in E. }
    unfold in_block in Hout. unfold virt, PAGE_SIZE in *. lia.
Qed.

(** Writing inside a block in use does not touch the free lists. *)
Lemma kinv_write s g r n f : kinv s g 0 → block s g r n →
  (∀ w y, ¬ r ≤ y < r + n → f w y = w y) → kinv (set_kwords f s) g 0.
Proof.
  intros Hk Hb Hf. split; try apply Hk. intros k a Ha. pose proof (ki_slab _ _ _ Hk k a Ha) as H.
  split; try apply H. cbn [kwords set_kwords slabs]. apply (chain_ext (kwords s)); [|apply H].
  intros y Hy. apply Hf. by eapply free_off_block.
Qed.

(** ** Allocation *)

(** A block of at least [size] bytes at [r] has been added, apart from all others. *)
Definition heap_given (s : kstate) (g : ghost) (size r : Z) (s' : kstate) (g' : ghost) (m : Z) : Prop :=
  kinv s' g' 0 ∧ r ≠ 0 ∧ size ≤ m ∧ block s' g' r m ∧
  ∀ a n, block s g a n → block s' g' a n ∧ ranges_apart a n r m.

Section Alloc.
Context (km : Z → Z → M kstate Z).

Lemma get_allocation_spec s g z size : kinv s g 0 → z = LOWMEM_ZONE ∨ z = DMA_ZONE →
  0 < size ≤ 512 ∨ 2048 < size ≤ MAX_KMALLOC_SIZE →
  wp (get_allocation km z size) s (λ r s', (r = 0 ∧ s' = s) ∨ ∃ g' m, heap_given s g size r s' g' m).
Proof.
  intros Hk Hz Hs. unfold get_allocation, MAX_SLAB_SIZE. destruct (Z.ltb_spec 2048 size) as [Hbig|Hsmall].
  - apply wp_bind, wp_lift_b, wp_run.
    destruct (buddy_alloc_cases (kbuddy s) size z) as [[E _]|(p & b & E & Hb & (Hrun & Hzp & Hf) & Hal & _ & Hsame & _)];
      [apply Hk|by destruct Hz as [-> | ->]|..].
    { exists 0, (kbuddy s). split; [done|]. apply wp_ret. left. split; [done|]. by destruct s. }
    exists (page_to_phys p), b. split; [done|]. destruct (size_to_order_least size) as (_ & _ & Hfit & _);
      [lia|unfold MAX_KMALLOC_SIZE, W32, PAGE_SIZE in *; lia|]. set (o := size_to_order size) in *.
    pose proof Hrun as (Ho & Hp0 & _). specialize (Hfit ltac:(unfold MAX_ORDER; lia)).
    rewrite ORDER_TO_BYTES_pow2 in Hfit by lia.
    assert (low_frame p) as Hp by by eapply low_zone_frame.
    rewrite page_to_phys_small by by apply low_frame_max.
    rewrite (proj2 (Z.eqb_neq _ _)) by (unfold PAGE_SIZE; lia).
    apply PHYS_TO_VIRT_run; [done|]. right. exists g, (2 ^ o * PAGE_SIZE).
    set (s' := KState b _ _ _). assert (kinv s' g 0) as Hk'.
    { apply kinv_buddy; [done|done|]. intros j Hj Est. apply Hsame; [done|]. unfold is_free. by rewrite Est. }
    assert (page_block s' (virt p) (2 ^ o * PAGE_SIZE)) as Hpb by by exists p, o.
    split_and!; [done|by apply virt_pos|done|by right|].
    assert (∀ a n, block s g a n → block s' g a n ∧ a ≠ virt p) as Hold.
    { intros a n [(k & Hx & ->)|(p' & o' & Hp' & Hal' & -> & ->)].
      - split; [left; by exists k|]. intros ->. destruct (live_frame s g Hk k _ Hx) as (q & Hq & Hxo & Hi & Hst).
        assert (q = p) as ->.
        { rewrite <- (obj_page k.2 q (virt p) Hi Hq Hxo). by apply virt_page. }
        assert (in_block p o p) as Hpp by (unfold in_block; pose proof (Z.pow_pos_nonneg 2 o); lia).
        specialize (Hf p Hpp). unfold is_free in Hf. by rewrite Hst in Hf.
      - split.
        + right. exists p', o'. split_and!; try done. eapply allocated_frame; [exact Hal'|]. intros j Hj.
          destruct (allocated_not_free _ _ _ _ Hal' Hj). by apply Hsame.
        + intros E'. assert (p' = p) as -> by (unfold virt, PAGE_SIZE in E'; lia).
          assert (in_block p o' p ∧ in_block p o p) as [Hpp Hpp'].
          { destruct Hal' as ((? & _) & _). unfold in_block. pose proof (Z.pow_pos_nonneg 2 o').
            pose proof (Z.pow_pos_nonneg 2 o). lia. }
          destruct (allocated_not_free _ _ _ _ Hal' Hpp) as [_ Hn]. by apply Hn, Hf. }
    intros a n Hbl. destruct (Hold a n Hbl) as [Hbl' Hne]. split; [done|].
    apply (block_apart s' g Hk'); [done|by right|done].
  - eapply wp_mono; [apply (slab_alloc_run km s g size z Hk Hz); lia|].
    intros r s' [?|(i & g' & _ & Hi & Hfit & [Hk' Hfr Hl (p & Hp & Hro) Hpg])]; [by left|].
    right. exists g', (cache_sizes i).
    assert (obj_block s' g' r (cache_sizes i)) as Hrb by (exists (z, i); split; [apply Hl; by right|done]).
    split_and!; [done|by apply (obj_word i p)|done|by left|].
    intros a n Hbl. assert (block s' g' a n ∧ a ≠ r) as [Hbl' Hne].
    { destruct Hbl as [(k & Hx & ->)|(p' & o' & Hp' & Hal & -> & ->)].
      - split; [left; exists k; split; [apply Hl; by left|done]|]. intros ->. apply Hfr. by exists k.
      - split; [right; exists p', o'; eauto|]. intros E. destruct Hrb as (k & Hx & _).
        destruct (live_frame s' g' Hk' k r Hx) as (q & Hq & Hxo & Hik & Hst).
        assert (q = p') as -> by (rewrite <- (obj_page k.2 q r Hik Hq Hxo), <- E; by apply virt_page).
        specialize (Hpg _ _ Hal). assert (in_block p' o' p') as Hpp.
        { destruct Hpg as ((? & _) & _). unfold in_block. pose proof (Z.pow_pos_nonneg 2 o'). lia. }
        by rewrite (proj2 (proj2 Hpg) _ Hpp) in Hst. }
    split; [done|]. apply (block_apart s' g' Hk'); [done|by left|done].
Qed.

(** With no empty slab to give back, reclaiming changes nothing. *)
Lemma shrink_nothing z s : (∀ i, 0 ≤ i < 9 → slabs_empty (slab_caches s (z, i)) = []) →
  wp (slab_shrink_caches z) s (λ _ s', s' = s).
Proof.
  intros He. unfold slab_shrink_caches.
  eapply wp_mono; [apply (wp_for (λ _ s', s' = s)); [done|]|by intros [] s' ->].
  intros j s1 Hj ->. wp_steps. rewrite He by lia. by apply wp_ret.
Qed.

Lemma kmalloc_body_spec s g size flags : kinv s g 0 →
  let z := if FLAG_IS_SET flags __GFP_DMA then DMA_ZONE else LOWMEM_ZONE in
  (∀ i, 0 ≤ i < 9 → slabs_empty (slab_caches s (z, i)) = []) →
  0 ≤ size → ¬ 512 < size ≤ 2048 →
  wp (kmalloc_body km size flags) s (λ r s', (r = 0 ∧ s' = s) ∨
    ∃ g' m, heap_given s g size r s' g' m ∧
      (FLAG_IS_SET flags __GFP_ZERO = true → ∀ y, r ≤ y < r + size → kwords s' y = 0)).
Proof.
  intros Hk z He H0 Hs. unfold kmalloc_body. fold z.
  destruct (Z.eqb_spec size 0) as [E0|E0]; [apply wp_ret; by left|].
  destruct (Z.ltb_spec MAX_KMALLOC_SIZE size) as [Emax|Emax]; [apply wp_ret; by left|].
  assert (0 < size ≤ 512 ∨ 2048 < size ≤ MAX_KMALLOC_SIZE) as Hrange by lia.
  assert (z = LOWMEM_ZONE ∨ z = DMA_ZONE) as Hz by (unfold z; case_match; auto).
  apply wp_bind. assert (wp (try_alloc_with_reclaim km z size) s (λ r s', (r = 0 ∧ s' = s) ∨
    ∃ g' m, heap_given s g size r s' g' m)) as Htry.
  { unfold try_alloc_with_reclaim. apply wp_bind.
    eapply wp_mono; [by apply (get_allocation_spec s g z size)|]. intros r s1 [[-> ->]|(g1 & m & Hg)].
    - rewrite Z.eqb_refl. apply wp_bind. eapply wp_mono; [by apply shrink_nothing|]. intros [] s2 ->.
      by apply get_allocation_spec.
    - rewrite (proj2 (Z.eqb_neq _ _)) by apply Hg. apply wp_ret. eauto. }
  eapply wp_mono; [exact Htry|]. intros r s1 [[-> ->]|(g1 & m & Hg)].
  - rewrite Z.eqb_refl. cbn [negb andb]. wp_steps. by left.
  - pose proof Hg as (Hk1 & Hr0 & Hm & Hb & Hold). rewrite (proj2 (Z.eqb_neq _ _) Hr0). cbn [negb andb].
    destruct (FLAG_IS_SET flags __GFP_ZERO) eqn:Ez; unfold bzero_heap; wp_steps; right; exists g1, m.
    + split.
      * split_and!; try done. eapply kinv_write; [done|done|]. intros w y Hy.
        destruct (Z.leb_spec r y), (Z.ltb_spec y (r + size)); cbn [andb]; try done. lia.
      * intros _ y Hy. cbn [kwords set_kwords].
        by rewrite (proj2 (Z.leb_le _ _)), (proj2 (Z.ltb_lt _ _)) by lia.
    + by split.
Qed.

End Alloc.


(** ** Freeing *)

(** The block at [a], and only it, has been given back. *)
Definition heap_freed (s : kstate) (g : ghost) (a : Z) (s' : kstate) (g' : ghost) : Prop :=
  kinv s' g' 0 ∧ ∀ b m, block s' g' b m ↔ block s g b m ∧ b ≠ a.

Lemma page_block_virt p : low_frame p →
  virt p ⊟ KERNEL_VADDR_BASE = page_to_phys p ∧ KERNEL_VADDR_BASE ≤ virt p.
Proof.
  intros Hp. rewrite page_to_phys_small by by apply low_frame_max.
  unfold low_frame, virt, KERNEL_VADDR_BASE, PAGE_SIZE in *. rewrite u32_small by (unfold W32; lia). lia.
Qed.

(** An object is never at the address of a block of frames. *)
Lemma object_not_page s g k x p o : kinv s g 0 → live_in s g k x → allocated (kbuddy s) p o →
  low_frame p → x ≠ virt p.
Proof.
  intros Hk Hx Hal Hp ->. destruct (live_frame s g Hk k _ Hx) as (q & Hq & Hxo & Hi & Hst).
  assert (q = p) as -> by (rewrite <- (obj_page k.2 q (virt p) Hi Hq Hxo); by apply virt_page).
  assert (in_block p o p) as Hpp.
  { destruct Hal as ((? & _) & _). unfold in_block. pose proof (Z.pow_pos_nonneg 2 o). lia. }
  by rewrite (proj2 (proj2 Hal) _ Hpp) in Hst.
Qed.

Lemma virt_inj p q : virt p = virt q → p = q.
Proof. unfold virt, PAGE_SIZE. lia. Qed.

Lemma freed_page s g p o b : kinv s g 0 → low_frame p → allocated (kbuddy s) p o → buddy_ok b →
  free_frame (kbuddy s) b p o →
  heap_freed s g (virt p) (KState b (kwords s) (slabs s) (slab_caches s)) g.
Proof.
  intros Hk Hp Hal Hb (Hin & Hout & Hsame & _).
  assert (in_block p o p) as Hpp.
  { destruct Hal as ((? & _) & _). unfold in_block. pose proof (Z.pow_pos_nonneg 2 o). lia. }
  assert (∀ j, 0 ≤ j < MAX_PAGES → ¬ in_block p o j → ¬ is_free (kbuddy s) j →
    page_descriptors b j = page_descriptors (kbuddy s) j) as Heq by auto.
  split.
  - apply kinv_buddy; [done..|]. intros j Hj Est. apply Heq; [done| |unfold is_free; by rewrite Est].
    intros Hjb. by rewrite (proj2 (proj2 Hal) _ Hjb) in Est.
  - intros a m. split.
    + intros [(k & Hx & ->)|(p' & o' & Hp' & Hal' & -> & ->)].
      * split; [left; by exists k|]. by eapply object_not_page.
      * cbn [kbuddy] in Hal'. assert (∀ j, in_block p' o' j → ¬ in_block p o j) as Hdis.
        { intros j Hj Hjb. destruct (allocated_not_free _ _ _ _ Hal' Hj) as [Hr Hn]. by apply Hn, Hin. }
        split.
        { right. exists p', o'. split_and!; try done. eapply allocated_frame; [exact Hal'|]. intros j Hj.
          destruct (allocated_not_free _ _ _ _ Hal' Hj) as [Hr Hn]. symmetry. apply Heq; auto.
          intros Hf. apply Hn. by apply Hout; auto. }
        intros E%virt_inj. subst p'. apply (Hdis p); [|done].
        destruct Hal' as ((? & _) & _). unfold in_block. pose proof (Z.pow_pos_nonneg 2 o'). lia.
    + intros [[(k & Hx & ->)|(p' & o' & Hp' & Hal' & -> & ->)] Hne]; [left; by exists k|].
      right. exists p', o'. split_and!; try done. eapply allocated_frame; [exact Hal'|]. intros j Hj.
      destruct (allocated_not_free _ _ _ _ Hal' Hj) as [Hr Hn]. apply Heq; auto. intros Hjb.
      destruct (blocks_off s p o p' o' Hal Hal') as [?|?]; [by intros -> | ..];
        unfold in_block, virt, PAGE_SIZE in *; lia.
Qed.

Lemma kfree_run s g a n : kinv s g 0 → block s g a n → not_struct s a →
  wp (kfree a) s (λ _ s', ∃ g', heap_freed s g a s' g').
Proof.
  intros Hk Hbl Hns. unfold kfree. destruct Hbl as [(k & Hx & ->)|(p & o & Hp & Hal & -> & ->)].
  - destruct (live_frame s g Hk k a Hx) as (q & Hq & Hxo & Hi & Hst).
    destruct (obj_word _ _ _ Hi Hq Hxo) as [Hr H0]. rewrite (proj2 (Z.eqb_neq _ _) H0).
    apply wp_bind, VIRT_TO_PHYS_run; [lia|]. rewrite (obj_page _ _ _ Hi Hq Hxo).
    apply wp_bind, wp_lift_b, wp_load_page; [by apply low_frame_max|]. cbn beta. rewrite Hst, Z.eqb_refl.
    destruct s as [b w sl ca]. eapply wp_mono; [by apply (slab_free_run _ g k a)|].
    intros [] s' (g' & Hk' & Eb & Hl). exists g'. split; [done|]. intros y m. split.
    + intros [(k' & [Hy Hne]%Hl & ->)|(p' & o' & Hp' & Hal' & -> & ->)]; [split; [left; by exists k'|done]|].
      rewrite Eb in Hal'. split; [right; by exists p', o'|]. intros E.
      by eapply (object_not_page _ _ _ _ _ _ Hk Hx Hal' Hp').
    + intros [[(k' & Hy & ->)|(p' & o' & Hp' & Hal' & -> & ->)] Hne].
      * left. exists k'. split; [by apply Hl|done].
      * right. exists p', o'. by rewrite Eb.
  - rewrite (proj2 (Z.eqb_neq _ _)) by by apply virt_pos. destruct (page_block_virt p Hp) as [E Hv].
    apply wp_bind, VIRT_TO_PHYS_run; [done|]. rewrite virt_page by done.
    apply wp_bind, wp_lift_b, wp_load_page; [by apply low_frame_max|]. cbn beta.
    assert (in_block p o p) as Hpp.
    { destruct Hal as ((? & _) & _). unfold in_block. pose proof (Z.pow_pos_nonneg 2 o). lia. }
    rewrite (proj2 (proj2 Hal) p Hpp), E. change (PAGE_STATE_ALLOCATED =? PAGE_STATE_SLAB) with false.
    rewrite Z.eqb_refl. destruct (buddy_free_run (kbuddy s) p o (ki_buddy _ _ _ Hk) Hal) as (b & Eb & Hb & Hf).
    apply wp_lift_b, wp_run. exists tt, b. split; [by destruct s|]. exists g. exact (freed_page s g p o b Hk Hp Hal Hb Hf).
Qed.

(** C11: kfree.  Freeing a block in use, small or large, that is not the
    descriptor of a slab gives back that block and no other: the blocks in
    use afterwards are exactly the others, and the heap stays consistent. *)
Theorem kfree_correct s g a n : kinv s g 0 → block s g a n → not_struct s a →
  wp (kfree a) s (λ _ s', ∃ g', kinv s' g' 0 ∧ ∀ b m, block s' g' b m ↔ block s g b m ∧ b ≠ a).
Proof. apply kfree_run. Qed.

(** ** Initialisation *)

Lemma slab_init_zones_run zs s : wp (slab_init_zones zs) s (λ _ s', kbuddy s' = kbuddy s ∧
  ∀ z i, slab_caches s' (z, i) =
    if bool_decide (z ∈ zs ∧ 0 ≤ i < 9) then slab_init_cache i else slab_caches s (z, i)).
Proof.
  revert s. induction zs as [|z zs IH]; intros s; cbn [slab_init_zones].
  { apply wp_ret. split; [done|]. intros z i. rewrite bool_decide_false; [done|]. set_solver. }
  apply wp_bind. eapply wp_mono; [apply (wp_for (λ n s', kbuddy s' = kbuddy s ∧ ∀ z' i, slab_caches s' (z', i) =
    if bool_decide (z' = z ∧ 0 ≤ i < n) then slab_init_cache i else slab_caches s (z', i)))|].
  - split; [done|]. intros z' i. rewrite bool_decide_false; [done|]. lia.
  - intros j s1 Hj [Hb Hc]. wp_steps. split; [done|]. intros z' i. cbn [slab_caches set_cache].
    destruct (decide ((z, j) = (z', i))) as [[= <- <-]|Hne].
    + rewrite fn_lookup_insert, bool_decide_true; [done|]. split; [done|lia].
    + rewrite fn_lookup_insert_ne, Hc by done. assert (¬ (z' = z ∧ i = j)) by naive_solver.
      erewrite bool_decide_ext; [reflexivity|]. intuition lia.
  - intros [] s1 [Hb Hc]. eapply wp_mono; [apply IH|]. intros [] s2 [Hb2 Hc2]. split; [by rewrite Hb2|].
    intros z' i. rewrite Hc2, Hc.
    repeat case_bool_decide; try done; exfalso; set_solver by lia.
Qed.

Definition no_ghost : ghost := Ghost (λ _, []) (λ _, 0).

Lemma slab_init_run s : buddy_ok (kbuddy s) → (∀ k, all_slabs (slab_caches s k) = []) →
  wp slab_init s (λ _ s', kbuddy s' = kbuddy s ∧ kinv s' no_ghost 0 ∧
    ∀ k, all_slabs (slab_caches s' k) = []).
Proof.
  intros Hb He. eapply wp_mono; [apply slab_init_zones_run|]. intros [] s' [Eb Hc].
  assert (∀ k, all_slabs (slab_caches s' k) = []) as He'.
  { intros [z i]. rewrite Hc. case_bool_decide; [done|apply He]. }
  split_and!; [done| |done]. split.
  - by rewrite Eb.
  - intros [z i] [Hz Hi]. rewrite Hc, bool_decide_true; [done|]. split; [|done].
    unfold all_zones. cbn in Hz. set_solver.
  - intros k. rewrite He'. apply NoDup_nil_2.
  - intros k a. rewrite He'. set_solver.
  - intros k a. rewrite He'. set_solver.
  - intros k a. rewrite He'. set_solver.
Qed.
