(* ===== verification/SlabExample.v ===== *)
(** * The kernel heap at work on a machine of eight frames

    The witnesses of the theorems on kmalloc and kfree, and the run that shows
    what reclaiming empty slabs does. *)

From S2P Require Import Prelude Dlist Memory Page Buddy BuddyInv BuddySpec BuddyThm.
From S2P Require Import Slab SlabInv SlabThm KmallocThm.

(** The heap after [slab_init], over a buddy allocator. *)
Definition bss (b : bstate) : kstate :=
  KState b (λ _, 0) (λ _, Slab 0 0 (LOWMEM_ZONE, 0)) (λ _, SlabCache [] [] [] 0 0).

Definition heap (b : bstate) : kstate := final_state slab_init (bss b).

Lemma heap_ok b : buddy_ok b →
  kbuddy (heap b) = b ∧ kinv (heap b) no_ghost 0 ∧ ∀ k, all_slabs (slab_caches (heap b) k) = [].
Proof.
  intros Hb. unfold heap. apply (wp_final _ _ (λ s, kbuddy s = b ∧ kinv s no_ghost 0 ∧
    ∀ k, all_slabs (slab_caches s k) = [])). by apply (slab_init_run (bss b)).
Qed.

Lemma heap_no_empty b k : buddy_ok b → slabs_empty (slab_caches (heap b) k) = [].
Proof.
  intros Hb. destruct (heap_ok b Hb) as (_ & _ & He). specialize (He k). unfold all_slabs in He.
  by apply app_nil in He as [_ [_ ?]%app_nil].
Qed.


Lemma kfree_correct_witness :
  wp (kfree (virt 6)) (heap booted1) (λ _ s', ∃ g', kinv s' g' 0 ∧
    ∀ b m, block s' g' b m ↔ block (heap booted1) no_ghost b m ∧ b ≠ virt 6).
Proof.
  destruct (heap_ok booted1 (proj1 booted1_allocated)) as (Hb & Hk & He).
  apply (kfree_correct (heap booted1) no_ghost (virt 6) 4096).
  - exact Hk.
  - right. exists 6, 0. rewrite Hb. split; [unfold low_frame; lia|].
    split; [exact (proj2 booted1_allocated)|by split].
  - intros k a. rewrite He. intros []%elem_of_nil.
Defined.

Lemma size_to_cache_size_correct_witness :
  ∃ i, size_to_cache_size 100 = Done i ∧
    ((0 ≤ i < NUM_SLAB_CACHES ∧ 100 ≤ cache_sizes i ∧ ∀ j, 0 ≤ j < i → cache_sizes j < 100) ∨
     (i = NUM_SLAB_CACHES ∧ MAX_SLAB_SIZE < 100)).
Proof. apply (size_to_cache_size_correct 100). lia. Defined.

(** ** What reclaiming and running out of memory do *)

(** Allocate and free an object; ask for more than there is, which makes
    [kmalloc] reclaim; then allocate an object and a frame again. *)
Definition reclaim_run : M kstate (Z * Z * Z) :=
  slab_init ;;
  a ← kmalloc 8 __GFP_DMA ;
  kfree a ;;
  big ← kmalloc MAX_KMALLOC_SIZE __GFP_DMA ;
  b ← kmalloc 8 __GFP_DMA ;
  c ← kmalloc 4096 __GFP_DMA ;
  mret (big, b, c).

(** Reclaiming leaves the slabs it gives back to the buddy allocator on
    the list of empty slabs.  After one object was allocated and freed and a
    request that cannot be satisfied made [kmalloc] reclaim, the next object
    is taken from the frame given back, and the next frame handed out is that
    same frame: two blocks in use overlap. *)
Theorem shrink_shares_frame :
  ∃ s', reclaim_run (bss booted) = Done ((0, virt 6 + 32, virt 6), s').
Proof.
  exists (final_state reclaim_run (bss booted)). apply run_final. vm_compute. reflexivity.
Qed.

(** Take [n] frames, then ask for an object whose slab has its descriptor in
    another slab. *)
Fixpoint take_frames (n : nat) : M kstate unit :=
  match n with
  | O => mret tt
  | S n => kmalloc 4096 __GFP_DMA ;; take_frames n
  end.

(** When the last frame becomes an external slab and there is no memory
    for its descriptor, [slab_create] gives the frame back with
    [buddy_free_block] while its state is SLAB: the kernel panics instead of
    [kmalloc] returning NULL, which it does when no frame at all is left. *)
Theorem external_slab_no_memory_panics :
  (slab_init ;; take_frames 5 ;; kmalloc 1024 __GFP_DMA) (bss booted) =
    Panic "Attempt to free a page with invalid state" ∧
  ∃ s', (slab_init ;; take_frames 6 ;; kmalloc 1024 __GFP_DMA) (bss booted) = Done (0, s').
Proof.
  split; [vm_compute; reflexivity|]. eexists. apply run_final. vm_compute. reflexivity.
Qed.
