(* ===== verification/Vmm.v ===== *)
(** * Paging (src/memory/vmm.c, include/memory/vmm.h): operations

    Page directories and tables are frames of physical memory, which the
    kernel reaches through the linear mapping at [KERNEL_VADDR_BASE].  The
    state holds the 32-bit words of physical memory, the page allocator, the
    CR3 register, and the TLB maintenance done so far. *)

From S2P Require Import Prelude Dlist Memory Page Buddy BuddyInv BuddySpec BuddyThm PageAlloc.
From S2P Require Import BootAlloc.

(** ** Entries *)

Definition PTE_PRESENT_BIT : Z := 1.
Definition PTE_RW_BIT : Z := 2.
Definition PTE_US_BIT : Z := 4.
Definition PDE_PRESENT_BIT : Z := 1.
Definition PDE_RW_BIT : Z := 2.
Definition PDE_US_BIT : Z := 4.

Definition GET_PDE_INDEX (vaddr : Z) : Z := Z.shiftr vaddr 22.

Definition GET_PTE_INDEX (vaddr : Z) : Z := Z.land (Z.shiftr vaddr 12) 1023.

Definition ENTRY_FLAGS_MASK : Z := 4095.

Definition GET_ENTRY_FLAGS (entry : Z) : Z := Z.land entry ENTRY_FLAGS_MASK.

Definition GET_ENTRY_ADDR (entry : Z) : Z := Z.land entry (not32 ENTRY_FLAGS_MASK).

(** ** State *)

Inductive tlb_flush :=
  | ReloadCr3 (pd : Z)     (* paging_reload_cr3 *)
  | Invlpg (vaddr : Z).    (* paging_invalid_TLB_addr *)

Record vmm (S : Type) := Vmm {
  pmem : Z → Z;
  palloc : S;
  cr3 : Z;
  flushes : list tlb_flush }.
Arguments Vmm {S} _ _ _ _.
Arguments pmem {S} _.
Arguments palloc {S} _.
Arguments cr3 {S} _.
Arguments flushes {S} _.

Section Vmm.
Context {S : Type} `{PageAllocator S}.

Definition lift_pa {A} (c : M S A) : M (vmm S) A := λ st,
  match c (palloc st) with
  | Done (a, s) => Done (a, Vmm (pmem st) s (cr3 st) (flushes st))
  | Panic m => Panic m
  | Fault => Fault
  | Hang => Hang
  end.

(** The 32-bit word at a kernel virtual address of the linear mapping. *)
Definition ldw (v : Z) : M (vmm S) Z := gets (λ st, pmem st (v ⊟ KERNEL_VADDR_BASE)).

Definition stw (v x : Z) : M (vmm S) unit :=
  modify (λ st, Vmm (<[v ⊟ KERNEL_VADDR_BASE := x]> (pmem st)) (palloc st) (cr3 st) (flushes st)).

(** [ft_bzero(p, PAGE_SIZE)]. *)
Definition bzero_page (v : Z) : M (vmm S) unit :=
  modify (λ st,
    Vmm (λ a, if (v ⊟ KERNEL_VADDR_BASE <=? a) && (a <? (v ⊟ KERNEL_VADDR_BASE) + PAGE_SIZE)
              then 0 else pmem st a)
        (palloc st) (cr3 st) (flushes st)).

Definition get_current_page_directory_phys : M (vmm S) Z := gets cr3.

Definition paging_reload_cr3 (pd : Z) : M (vmm S) unit :=
  modify (λ st, Vmm (pmem st) (palloc st) pd (ReloadCr3 pd :: flushes st)).

Definition paging_invalid_TLB_addr (v : Z) : M (vmm S) unit :=
  modify (λ st, Vmm (pmem st) (palloc st) (cr3 st) (Invlpg v :: flushes st)).

(** ** Operations *)

(** The page table of [vaddr], created when absent: its virtual address and
    whether CR3 has to be reloaded; [None] when no frame is left. *)
Definition map_page_table (pde flags : Z) : M (vmm S) (option (Z * bool)) :=
  e ← ldw pde ;
  if negb (FLAG_IS_SET e PDE_PRESENT_BIT) then
    pt_phys ← lift_pa (pa_alloc PAGE_SIZE LOWMEM_ZONE) ;
    if pt_phys =? 0 then mret None
    else
      pt_virt ← PHYS_TO_VIRT_LINEAR pt_phys ;
      assert_ (negb (pt_virt =? 0)) ;;
      bzero_page pt_virt ;;
      stw pde (Z.lor (Z.lor (Z.lor pt_phys PDE_PRESENT_BIT) PDE_RW_BIT) (Z.land flags PDE_US_BIT)) ;;
      mret (Some (pt_virt, true))
  else
    let upgrade := FLAG_IS_SET flags PDE_US_BIT && negb (FLAG_IS_SET e PDE_US_BIT) in
    (if upgrade then stw pde (Z.lor e PDE_US_BIT) else mret tt) ;;
    e ← ldw pde ;
    pt_virt ← PHYS_TO_VIRT_LINEAR (GET_ENTRY_ADDR e) ;
    mret (Some (pt_virt, upgrade)).

Definition vmm_map_page (page_dir_phys v_addr p_addr flags : Z) : M (vmm S) bool :=
  let pde_idx := GET_PDE_INDEX v_addr in
  let pte_idx := GET_PTE_INDEX v_addr in
  pd_virt ← PHYS_TO_VIRT_LINEAR page_dir_phys ;
  assert_ (negb (pd_virt =? 0)) ;;
  pt ← map_page_table (pd_virt ⊞ 4 * pde_idx) flags ;
  match pt with
  | None => mret false
  | Some (pt_virt, needs_cr3_reload) =>
      assert_ (negb (pt_virt =? 0)) ;;
      stw (pt_virt ⊞ 4 * pte_idx) (Z.lor p_addr flags) ;;
      current_pd ← get_current_page_directory_phys ;
      (if current_pd =? page_dir_phys then
         if (needs_cr3_reload : bool) then paging_reload_cr3 page_dir_phys
         else paging_invalid_TLB_addr v_addr
       else mret tt) ;;
      mret true
  end.

(** [for (i = 0; i < 1024; i++) if (pt[i] & PRESENT) { empty = false; break; }]. *)
Fixpoint pt_is_empty (n : nat) (i pt_virt : Z) : M (vmm S) bool :=
  match n with
  | O => mret true
  | Datatypes.S n =>
      e ← ldw (pt_virt ⊞ 4 * i) ;
      if FLAG_IS_SET e PTE_PRESENT_BIT then mret false else pt_is_empty n (i + 1) pt_virt
  end.

Definition vmm_unmap_page (page_dir_phys v_addr : Z) : M (vmm S) bool :=
  let pde_idx := GET_PDE_INDEX v_addr in
  let pte_idx := GET_PTE_INDEX v_addr in
  pd_virt ← PHYS_TO_VIRT_LINEAR page_dir_phys ;
  pde ← ldw (pd_virt ⊞ 4 * pde_idx) ;
  if negb (FLAG_IS_SET pde PDE_PRESENT_BIT) then mret false
  else
    let pt_phys := GET_ENTRY_ADDR pde in
    pt_virt ← PHYS_TO_VIRT_LINEAR pt_phys ;
    pte ← ldw (pt_virt ⊞ 4 * pte_idx) ;
    if negb (FLAG_IS_SET pte PTE_PRESENT_BIT) then mret false
    else
      stw (pt_virt ⊞ 4 * pte_idx) 0 ;;
      paging_invalid_TLB_addr v_addr ;;
      is_pt_empty ← pt_is_empty 1024 0 pt_virt ;
      (if (is_pt_empty : bool) then
         stw (pd_virt ⊞ 4 * pde_idx) 0 ;;
         lift_pa (pa_free pt_phys) ;;
         current_pd ← get_current_page_directory_phys ;
         if page_dir_phys =? current_pd then paging_reload_cr3 page_dir_phys else mret tt
       else mret tt) ;;
      mret true.

Definition vmm_get_mapping (page_dir_phys v_addr : Z) : M (vmm S) Z :=
  let pde_idx := GET_PDE_INDEX v_addr in
  let pte_idx := GET_PTE_INDEX v_addr in
  pd_ptr ← PHYS_TO_VIRT_LINEAR page_dir_phys ;
  pde ← ldw (pd_ptr ⊞ 4 * pde_idx) ;
  if negb (FLAG_IS_SET pde PDE_PRESENT_BIT) then mret 0
  else
    pt_ptr ← PHYS_TO_VIRT_LINEAR (GET_ENTRY_ADDR pde) ;
    pte ← ldw (pt_ptr ⊞ 4 * pte_idx) ;
    if negb (FLAG_IS_SET pte PTE_PRESENT_BIT) then mret 0
    else mret (GET_ENTRY_ADDR pte ⊞ Z.land v_addr 4095).

Definition VMM_KMAP_VADDR : Z := 4294959104. (* 0xFFFFE000 *)

Definition vmm_kmap (p_addr : Z) : M (vmm S) Z :=
  cur ← get_current_page_directory_phys ;
  ok ← vmm_map_page cur VMM_KMAP_VADDR p_addr (Z.lor PTE_PRESENT_BIT PTE_RW_BIT) ;
  if (ok : bool) then mret VMM_KMAP_VADDR else mret 0.

Definition vmm_kunmap : M (vmm S) unit :=
  cur ← get_current_page_directory_phys ;
  vmm_unmap_page cur VMM_KMAP_VADDR ;; mret tt.

Definition vmm_free_pt_range (pd_phys pde_start pde_end : Z) : M (vmm S) unit :=
  pd ← PHYS_TO_VIRT_LINEAR pd_phys ;
  for_ (Z.to_nat (pde_end - pde_start)) pde_start (λ i,
    e ← ldw (pd ⊞ 4 * i) ;
    if FLAG_IS_SET e PDE_PRESENT_BIT then
      lift_pa (pa_free (GET_ENTRY_ADDR e)) ;; stw (pd ⊞ 4 * i) 0
    else mret tt).

Definition vmm_destroy_user_pd (pd_phys : Z) : M (vmm S) unit :=
  vmm_free_pt_range pd_phys 0 768 ;; lift_pa (pa_free pd_phys).

(** The [while (remaining_page > 0 && j < 1024)] loop over one table; [None]
    when an entry lacks a flag. *)
Fixpoint verify_pt (n : nat) (pt_virt j remaining pte_flags : Z) : M (vmm S) (option Z) :=
  match n with
  | O => mret (Some remaining)
  | Datatypes.S n =>
      if (0 <? remaining) && (j <? 1024) then
        pte ← ldw (pt_virt ⊞ 4 * j) ;
        if Z.land pte pte_flags =? pte_flags then
          verify_pt n pt_virt (j + 1) (remaining - 1) pte_flags
        else mret None
      else mret (Some remaining)
  end.

Fixpoint verify_pds (n : nat) (i pd_virt vaddr pde_start remaining pde_flags pte_flags : Z)
    : M (vmm S) Z :=
  match n with
  | O => mret 0
  | Datatypes.S n =>
      pde ← ldw (pd_virt ⊞ 4 * (pde_start + i)) ;
      if negb (Z.land pde pde_flags =? pde_flags) then mret (-1)
      else
        let cur_vaddr := vaddr ⊞ i * (1024 * PAGE_SIZE) in
        pt_virt ← PHYS_TO_VIRT_LINEAR (GET_ENTRY_ADDR pde) ;
        let j := if i =? 0 then GET_PTE_INDEX cur_vaddr else 0 in
        r ← verify_pt 1024 pt_virt j remaining pte_flags ;
        match r with
        | None => mret (-1)
        | Some remaining => verify_pds n (i + 1) pd_virt vaddr pde_start remaining pde_flags pte_flags
        end
  end.

Definition vmm_verify_range_flags (pd_virt vaddr n pde_flags pte_flags : Z) : M (vmm S) Z :=
  if n =? 0 then mret 0
  else
    let pde_start := GET_PDE_INDEX vaddr in
    let pde_end := GET_PDE_INDEX ((vaddr ⊞ n) ⊟ 1) in
    let pde_range := (pde_end ⊟ pde_start) ⊞ 1 in
    let pages_to_verify := DIV_ROUND_UP (vaddr mod PAGE_SIZE ⊞ n) PAGE_SIZE in
    verify_pds (Z.to_nat pde_range) 0 pd_virt vaddr pde_start pages_to_verify
      (Z.lor pde_flags PDE_PRESENT_BIT) (Z.lor pte_flags PTE_PRESENT_BIT).

End Vmm.

(** ** The kernel directory *)

(** [vmm_finalize] runs before paging uses the buddy allocator: its tables
    come from the boot allocator and are written through the identity map. *)
Record vboot := VBoot { vb_boot : boot_allocator; vb_mem : Z → Z; kpage_dir : Z; vb_cr3 : Z }.

Definition lift_boot {A} (c : M boot_allocator A) : M vboot A := λ s,
  match c (vb_boot s) with
  | Done (a, b) => Done (a, VBoot b (vb_mem s) (kpage_dir s) (vb_cr3 s))
  | Panic m => Panic m
  | Fault => Fault
  | Hang => Hang
  end.

Definition st_id (a x : Z) : M vboot unit :=
  modify (λ s, VBoot (vb_boot s) (<[a := x]> (vb_mem s)) (kpage_dir s) (vb_cr3 s)).

Definition bzero_id (p : Z) : M vboot unit :=
  modify (λ s, VBoot (vb_boot s)
    (λ a, if (p <=? a) && (a <? p + PAGE_SIZE) then 0 else vb_mem s a) (kpage_dir s) (vb_cr3 s)).

Definition MiB_SIZE : Z := 1048576.
Definition pt_count : Z := 224.

Definition vmm_finalize : M vboot unit :=
  page_dir_phys ← lift_boot (boot_alloc_at PAGE_SIZE DMA_ZONE true 0 (MiB_SIZE * 4) PAGE_SIZE) ;
  if page_dir_phys =? 0 then kpanic "Failed PD alloc"
  else
    bzero_id page_dir_phys ;;
    pt_pool_phys ← lift_boot (boot_alloc_at (pt_count * PAGE_SIZE) DMA_ZONE true 0 (MiB_SIZE * 4) PAGE_SIZE) ;
    if pt_pool_phys =? 0 then kpanic "Failed PT pool alloc"
    else
      for_ (Z.to_nat pt_count) 0 (λ i,
        let pde_idx := 768 + i in
        let current_pt_phys_addr := pt_pool_phys ⊞ i * PAGE_SIZE in
        st_id (page_dir_phys ⊞ 4 * pde_idx)
          (Z.lor (Z.lor current_pt_phys_addr PDE_PRESENT_BIT) PDE_RW_BIT) ;;
        bzero_id current_pt_phys_addr ;;
        for_ 1024 0 (λ j,
          let p_addr := (i * 4 * MiB_SIZE) ⊞ j * PAGE_SIZE in
          st_id (current_pt_phys_addr ⊞ 4 * j) (Z.lor (Z.lor p_addr PTE_PRESENT_BIT) PTE_RW_BIT))) ;;
      modify (λ s, VBoot (vb_boot s) (vb_mem s) page_dir_phys (vb_cr3 s)) ;;
      modify (λ s, VBoot (vb_boot s) (vb_mem s) (kpage_dir s) page_dir_phys).

Definition vmm_get_kernel_directory : M vboot Z := gets kpage_dir.
