(* ===== verification/VmmThm.v ===== *)
(** * Paging: address spaces and what the operations do to them *)

From S2P Require Import Prelude Dlist Memory Page Buddy BuddyInv BuddySpec BuddyThm PageAlloc.
From S2P Require Import BootAlloc Vmm.

(** ** Entries *)

Lemma entry_addr e : 0 ≤ e < W32 → GET_ENTRY_ADDR e = e - e mod 4096.
Proof.
  intros He. unfold GET_ENTRY_ADDR. change (not32 ENTRY_FLAGS_MASK) with (not32 (2 ^ 12 ⊟ 1)).
  fold (ALIGN_DOWN e (2 ^ 12)). by rewrite ALIGN_DOWN_pow2 by lia.
Qed.

Lemma land_high t f : 0 ≤ f < 4096 → Z.land (t * 4096) f = 0.
Proof.
  intros Hf. apply Z.bits_inj'. intros n Hn. rewrite Z.land_spec, Z.bits_0.
  change 4096 with (2 ^ 12). destruct (decide (n < 12)).
  - by rewrite Z.mul_pow2_bits_low by lia.
  - rewrite <- (Z.mod_small f (2 ^ 12)) by lia. rewrite Z.mod_pow2_bits_high by lia.
    apply andb_false_r.
Qed.

(** A frame address and flag bits do not interfere. *)
Lemma lor_frame t f : 0 ≤ f < 4096 → Z.lor (t * 4096) f = t * 4096 + f.
Proof.
  intros Hf. pose proof (Z.add_lor_land (t * 4096) f) as E. rewrite land_high in E by done. lia.
Qed.

Lemma mk_entry t f : 0 ≤ t < MAX_PAGES → 0 ≤ f < 4096 →
  0 ≤ Z.lor (t * 4096) f < W32 ∧ GET_ENTRY_ADDR (Z.lor (t * 4096) f) = t * 4096 ∧
  ∀ k, 0 ≤ k < 4096 → FLAG_IS_SET (Z.lor (t * 4096) f) k = FLAG_IS_SET f k.
Proof.
  unfold MAX_PAGES. intros Ht Hf.
  assert (0 ≤ Z.lor (t * 4096) f < W32) by (rewrite lor_frame by done; unfold W32; lia).
  split_and!; [lia|lia|..].
  - rewrite entry_addr, lor_frame by done.
    rewrite Z.add_comm, Z.mod_add, Z.mod_small by lia. lia.
  - intros k Hk. unfold FLAG_IS_SET. by rewrite Z.land_lor_distr_l, land_high, Z.lor_0_l.
Qed.

Definition present (e : Z) : bool := FLAG_IS_SET e 1.

(** Two entries the MMU does not tell apart, user bit aside. *)
Definition same_entry (e e' : Z) : Prop :=
  present e = present e' ∧ GET_ENTRY_ADDR e = GET_ENTRY_ADDR e'.

Lemma entry_split e : 0 ≤ e < W32 →
  ∃ t f, 0 ≤ t < MAX_PAGES ∧ 0 ≤ f < 4096 ∧ e = Z.lor (t * 4096) f.
Proof.
  intros He. exists (e / 4096), (e mod 4096).
  assert (0 ≤ e mod 4096 < 4096) as Hf by (apply Z.mod_pos_bound; lia).
  rewrite lor_frame by done. unfold MAX_PAGES, W32 in *. pose proof (Z.div_mod e 4096).
  split_and!; [apply Z.div_pos; lia|apply Z.div_lt_upper_bound; lia|lia|lia|lia].
Qed.

Lemma user_entry e : 0 ≤ e < W32 →
  0 ≤ Z.lor e PDE_US_BIT < W32 ∧ same_entry (Z.lor e PDE_US_BIT) e.
Proof.
  intros He. destruct (entry_split e He) as (t & f & Ht & Hf & ->).
  rewrite <- Z.lor_assoc.
  assert (0 ≤ Z.lor f PDE_US_BIT < 4096) as Hf'.
  { split; [apply Z.lor_nonneg; split; [lia|done]|]. change 4096 with (2 ^ 12).
    assert (Z.lor f PDE_US_BIT = Z.lor f PDE_US_BIT mod 2 ^ 12) as ->; [|apply Z.mod_pos_bound; lia].
    rewrite <- Z.land_ones by lia. rewrite Z.land_lor_distr_l, !Z.land_ones by lia.
    change (PDE_US_BIT mod 2 ^ 12) with PDE_US_BIT. by rewrite Z.mod_small by (change (2 ^ 12) with 4096; lia). }
  destruct (mk_entry t f Ht Hf) as (_ & A1 & F1).
  destruct (mk_entry t _ Ht Hf') as (R2 & A2 & F2).
  split; [done|]. split; [|congruence]. unfold present. rewrite F1, F2 by done.
  unfold FLAG_IS_SET. rewrite Z.land_lor_distr_l. change (Z.land PDE_US_BIT 1) with 0.
  by rewrite Z.lor_0_r.
Qed.

(** ** The translation the MMU performs *)

Definition translate (m : Z → Z) (pd v : Z) : Z :=
  let e := m (pd + 4 * GET_PDE_INDEX v) in
  if present e then
    let e' := m (GET_ENTRY_ADDR e + 4 * GET_PTE_INDEX v) in
    if present e' then GET_ENTRY_ADDR e' ⊞ Z.land v 4095 else 0
  else 0.

Lemma index_range v : 0 ≤ v < W32 → 0 ≤ GET_PDE_INDEX v < 1024 ∧ 0 ≤ GET_PTE_INDEX v < 1024.
Proof.
  intros Hv. unfold GET_PDE_INDEX, GET_PTE_INDEX. change 1023 with (Z.ones 10).
  rewrite Z.land_ones, !Z.shiftr_div_pow2 by lia. split.
  - unfold W32 in Hv. split; [apply Z.div_pos; lia|apply Z.div_lt_upper_bound; lia].
  - apply Z.mod_pos_bound. lia.
Qed.

(** The two indices determine the virtual page. *)
Lemma index_page v v' : GET_PDE_INDEX v = GET_PDE_INDEX v' → GET_PTE_INDEX v = GET_PTE_INDEX v' →
  v / 4096 = v' / 4096.
Proof.
  unfold GET_PDE_INDEX, GET_PTE_INDEX. change 1023 with (Z.ones 10).
  rewrite !Z.land_ones, !Z.shiftr_div_pow2 by lia. change (2 ^ 22) with (4096 * 1024).
  change (2 ^ 12) with 4096. change (2 ^ 10) with 1024. rewrite <- !Z.div_div by lia.
  pose proof (Z.div_mod (v / 4096) 1024). pose proof (Z.div_mod (v' / 4096) 1024). lia.
Qed.

Lemma page_index v v' : v / 4096 = v' / 4096 →
  GET_PDE_INDEX v = GET_PDE_INDEX v' ∧ GET_PTE_INDEX v = GET_PTE_INDEX v'.
Proof.
  intros E. unfold GET_PDE_INDEX, GET_PTE_INDEX. rewrite !Z.shiftr_div_pow2 by lia.
  change (2 ^ 22) with (4096 * 1024). change (2 ^ 12) with 4096.
  rewrite <- !Z.div_div by lia. by rewrite E.
Qed.

Section Vmm.
Context {S : Type} `{PageAllocatorLaws S}.
Implicit Types st : vmm S.

Definition set_pmem (f : (Z → Z) → Z → Z) st : vmm S :=
  Vmm (f (pmem st)) (palloc st) (cr3 st) (flushes st).

(** ** Accesses through the linear mapping *)

(** A frame the linear mapping reaches. *)
Definition low_frame (f : Z) : Prop := 0 < f < 229376.

Lemma wp_lin st p (Q : Z → vmm S → Prop) : 0 ≤ p < 1073741824 → Q (p + KERNEL_VADDR_BASE) st →
  wp (PHYS_TO_VIRT_LINEAR p) st Q.
Proof.
  intros Hp HQ. unfold PHYS_TO_VIRT_LINEAR. wp_step.
  assert (not32 KERNEL_VADDR_BASE = 1073741823) as -> by reflexivity.
  apply wp_assert; [apply Z.leb_le; lia|]. apply wp_ret.
  by rewrite u32_small by (unfold KERNEL_VADDR_BASE, W32; lia).
Qed.

Lemma lin_word f i : low_frame f → 0 ≤ i < 1024 →
  ((f * 4096 + KERNEL_VADDR_BASE) ⊞ 4 * i) ⊟ KERNEL_VADDR_BASE = f * 4096 + 4 * i.
Proof.
  unfold low_frame, KERNEL_VADDR_BASE. intros. rewrite !u32_small; unfold W32; try lia.
  rewrite u32_small; unfold W32; lia.
Qed.

Lemma wp_ldw st f i (Q : Z → vmm S → Prop) : low_frame f → 0 ≤ i < 1024 →
  Q (pmem st (f * 4096 + 4 * i)) st → wp (ldw ((f * 4096 + KERNEL_VADDR_BASE) ⊞ 4 * i)) st Q.
Proof. intros Hf Hi HQ. unfold ldw. apply wp_gets. by rewrite lin_word. Qed.

Lemma wp_stw st f i x (Q : unit → vmm S → Prop) : low_frame f → 0 ≤ i < 1024 →
  Q tt (set_pmem <[f * 4096 + 4 * i := x]> st) →
  wp (stw ((f * 4096 + KERNEL_VADDR_BASE) ⊞ 4 * i) x) st Q.
Proof. intros Hf Hi HQ. unfold stw. apply wp_modify. by rewrite lin_word. Qed.

Lemma wp_lift_pa {A} (c : M S A) st (Q : A → vmm S → Prop) :
  wp c (palloc st) (λ a s, Q a (Vmm (pmem st) s (cr3 st) (flushes st))) → wp (lift_pa c) st Q.
Proof. unfold wp, lift_pa. by destruct (c (palloc st)) as [[a s]| | |]. Qed.

Lemma lin_nonzero f : low_frame f → negb (f * 4096 + KERNEL_VADDR_BASE =? 0) = true.
Proof. unfold low_frame, KERNEL_VADDR_BASE. intros. apply negb_true_iff, Z.eqb_neq. lia. Qed.

(** Words of different frames, or of different indices, are different. *)
Lemma word_ne f i g j : 0 ≤ i < 1024 → 0 ≤ j < 1024 → (f, i) ≠ (g, j) →
  f * 4096 + 4 * i ≠ g * 4096 + 4 * j.
Proof. intros Hi Hj Hne E. apply Hne. assert (f = g) as -> by lia. f_equal. lia. Qed.

Lemma pm_insert (m : Z → Z) a x b : (<[a := x]> m) b = if decide (b = a) then x else m b.
Proof. case_decide; [subst; by rewrite fn_lookup_insert|by rewrite fn_lookup_insert_ne]. Qed.

(** ** Well-formed directories *)

Definition entry (m : Z → Z) (f i : Z) : Z := m (f * 4096 + 4 * i).

(** The frame of the page table behind entry [i]. *)
Definition table (m : Z → Z) (f i : Z) : Z := entry m f i / 4096.

(** The directory in frame [f]: it and its tables are distinct frames the
    allocator does not consider available, and all their words are words. *)
Record pd_ok st (f : Z) : Prop := {
  pk_alloc : pa_ok (palloc st);
  pk_frame : low_frame f;
  pk_taken : pa_taken (palloc st) f;
  pk_entry : ∀ i, 0 ≤ i < 1024 → 0 ≤ entry (pmem st) f i < W32;
  pk_table : ∀ i, 0 ≤ i < 1024 → present (entry (pmem st) f i) = true →
    low_frame (table (pmem st) f i) ∧ pa_taken (palloc st) (table (pmem st) f i) ∧
    table (pmem st) f i ≠ f;
  pk_inj : ∀ i j, 0 ≤ i < 1024 → 0 ≤ j < 1024 → i ≠ j →
    present (entry (pmem st) f i) = true → present (entry (pmem st) f j) = true →
    table (pmem st) f i ≠ table (pmem st) f j;
  pk_pte : ∀ i j, 0 ≤ i < 1024 → 0 ≤ j < 1024 → present (entry (pmem st) f i) = true →
    0 ≤ entry (pmem st) (table (pmem st) f i) j < W32 }.

Lemma table_addr m f i : 0 ≤ entry m f i < W32 → GET_ENTRY_ADDR (entry m f i) = table m f i * 4096.
Proof.
  intros Hr. rewrite entry_addr by done. unfold table. pose proof (Z.div_mod (entry m f i) 4096). lia.
Qed.

Lemma translate_unfold st f v : pd_ok st f → 0 ≤ v < W32 →
  translate (pmem st) (f * 4096) v =
  if present (entry (pmem st) f (GET_PDE_INDEX v)) then
    let e' := entry (pmem st) (table (pmem st) f (GET_PDE_INDEX v)) (GET_PTE_INDEX v) in
    if present e' then GET_ENTRY_ADDR e' ⊞ Z.land v 4095 else 0
  else 0.
Proof.
  intros Hok Hv. destruct (index_range v Hv) as [Hi Hj]. unfold translate.
  fold (entry (pmem st) f (GET_PDE_INDEX v)).
  by rewrite table_addr by (by apply (pk_entry _ _ Hok)).
Qed.

(** [vmm_get_mapping] is the translation. *)
Lemma wp_get_mapping st f v (Q : Z → vmm S → Prop) : pd_ok st f → 0 ≤ v < W32 →
  Q (translate (pmem st) (f * 4096) v) st → wp (vmm_get_mapping (f * 4096) v) st Q.
Proof.
  intros Hok Hv HQ. destruct (index_range v Hv) as [Hi Hj]. pose proof (pk_frame _ _ Hok) as Hf.
  rewrite translate_unfold in HQ by done. unfold vmm_get_mapping.
  wp_step. apply wp_lin; [unfold low_frame in Hf; lia|]. wp_step. apply wp_ldw; [done..|].
  fold (entry (pmem st) f (GET_PDE_INDEX v)). unfold present in HQ.
  change PDE_PRESENT_BIT with 1.
  destruct (FLAG_IS_SET (entry (pmem st) f (GET_PDE_INDEX v)) 1) eqn:Ep; cbn [negb]; [|by apply wp_ret].
  rewrite table_addr by (by apply (pk_entry _ _ Hok)).
  destruct (pk_table _ _ Hok _ Hi Ep) as (Ht & _ & _).
  wp_step. apply wp_lin; [unfold low_frame in Ht; lia|]. wp_step. apply wp_ldw; [done..|].
  fold (entry (pmem st) (table (pmem st) f (GET_PDE_INDEX v)) (GET_PTE_INDEX v)).
  change PTE_PRESENT_BIT with 1. cbn zeta in HQ.
  destruct (FLAG_IS_SET (entry (pmem st) (table _ _ _) (GET_PTE_INDEX v)) 1); cbn [negb]; by apply wp_ret.
Qed.

(** ** Writing one page-table entry *)

Section StorePte.
Context (st : vmm S) (f v x : Z).
Context (Hok : pd_ok st f) (Hv : 0 ≤ v < W32) (Hx : 0 ≤ x < W32).
Context (Hp : present (entry (pmem st) f (GET_PDE_INDEX v)) = true).

Let t := table (pmem st) f (GET_PDE_INDEX v).
Let st' := set_pmem <[t * 4096 + 4 * GET_PTE_INDEX v := x]> st.

Lemma store_pte_dir i : 0 ≤ i < 1024 → entry (pmem st') f i = entry (pmem st) f i.
Proof.
  intros Hi. destruct (index_range v Hv) as [Hd Hj]. unfold entry at 1, st'. simpl.
  rewrite pm_insert, decide_False; [done|]. apply word_ne; [done..|]. intros [= E _].
  by apply (pk_table _ _ Hok _ Hd Hp).
Qed.

Lemma store_pte_table i j : 0 ≤ i < 1024 → 0 ≤ j < 1024 →
  present (entry (pmem st) f i) = true →
  entry (pmem st') (table (pmem st) f i) j =
  if decide (i = GET_PDE_INDEX v ∧ j = GET_PTE_INDEX v) then x
  else entry (pmem st) (table (pmem st) f i) j.
Proof.
  intros Hi Hj Hpi. destruct (index_range v Hv) as [Hd Hjv]. unfold entry at 1, st'. simpl.
  rewrite pm_insert. case_decide as E; case_decide as E'; try done.
  - exfalso. apply E'. destruct (decide (i = GET_PDE_INDEX v)) as [->|Hne].
    + split; [done|]. unfold t in E. lia.
    + exfalso. eapply word_ne; [| | |exact E]; [done..|]. intros [= E1 _].
      by apply (pk_inj _ _ Hok i (GET_PDE_INDEX v)).
  - exfalso. apply E. destruct E' as [-> ->]. done.
Qed.

Lemma store_pte_ok : pd_ok st' f.
Proof.
  assert (∀ i, 0 ≤ i < 1024 → table (pmem st') f i = table (pmem st) f i) as Ht.
  { intros i Hi. unfold table. by rewrite store_pte_dir. }
  destruct Hok as [K1 K2 K3 K4 K5 K6 K7]. split; auto.
  - intros i Hi. rewrite store_pte_dir by done. auto.
  - intros i Hi. rewrite store_pte_dir, Ht by done. apply K5. done.
  - intros i j Hi Hj. rewrite !store_pte_dir, !Ht by done. auto.
  - intros i j Hi Hj. rewrite store_pte_dir, Ht by done. intros Hpi.
    rewrite store_pte_table by done. case_decide; [done|auto].
Qed.

Lemma store_pte_translate v' : 0 ≤ v' < W32 →
  translate (pmem st') (f * 4096) v' =
  if decide (v' / 4096 = v / 4096) then
    (if present x then GET_ENTRY_ADDR x ⊞ Z.land v' 4095 else 0)
  else translate (pmem st) (f * 4096) v'.
Proof.
  intros Hv'. rewrite !translate_unfold by (done || apply store_pte_ok).
  destruct (index_range v' Hv') as [Hd' Hj'].
  rewrite store_pte_dir by done. unfold table. rewrite store_pte_dir by done.
  fold (table (pmem st) f (GET_PDE_INDEX v')).
  case_decide as E.
  - destruct (page_index _ _ E) as [-> E2].
    rewrite Hp. cbn zeta. rewrite store_pte_table by (done || apply index_range; done).
    by rewrite decide_True by done.
  - destruct (present (entry (pmem st) f (GET_PDE_INDEX v'))) eqn:Ep; [|done]. cbn zeta.
    rewrite store_pte_table by done. rewrite decide_False; [done|].
    intros [E1 E2]. apply E. by apply index_page.
Qed.

End StorePte.

(** ** Finding or creating the page table *)

(** Steps that change no translation of the directory in frame [f]. *)
Record same_space (f : Z) (st st' : vmm S) : Prop := {
  ss_ok : pd_ok st' f;
  ss_translate : ∀ v, 0 ≤ v < W32 →
    translate (pmem st') (f * 4096) v = translate (pmem st) (f * 4096) v;
  ss_cr3 : cr3 st' = cr3 st;
  ss_flushes : flushes st' = flushes st }.

Lemma order_PAGE_SIZE : size_to_order PAGE_SIZE = 0.
Proof. reflexivity. Qed.

Lemma lowmem_frame p : zone_of p = LOWMEM_ZONE → low_frame p.
Proof. rewrite zone_of_unfold. unfold low_frame. repeat case_decide; done || lia. Qed.

(** Installing the fresh, zeroed table [t] in entry [i] of the directory. *)
Definition install (st : vmm S) (s : S) (f i t e : Z) : vmm S :=
  Vmm (<[f * 4096 + 4 * i := e]>
         (λ a, if (t * 4096 <=? a) && (a <? t * 4096 + PAGE_SIZE) then 0 else pmem st a))
      s (cr3 st) (flushes st).

Section Install.
Context (st : vmm S) (s : S) (f i t e : Z).
Context (Hok : pd_ok st f) (Hi : 0 ≤ i < 1024).
Context (Hnp : present (entry (pmem st) f i) = false).
Context (Hs : pa_ok s) (Ht : low_frame t) (Htt : pa_taken s t).
Context (Hkeep : ∀ j, pa_taken (palloc st) j → pa_taken s j ∧ j ≠ t).
Context (He : 0 ≤ e < W32) (Hea : GET_ENTRY_ADDR e = t * 4096).

Lemma install_entry g j : 0 ≤ j < 1024 → g ≠ t →
  entry (pmem (install st s f i t e)) g j =
  if decide (g = f ∧ j = i) then e else entry (pmem st) g j.
Proof.
  intros Hj Hg. unfold entry at 1. simpl. rewrite pm_insert.
  case_decide as E; case_decide as E'; try done.
  - exfalso. apply E'. assert (g = f) as -> by lia. split; [done|lia].
  - exfalso. apply E. by destruct E' as [-> ->].
  - replace (_ && _) with false; [done|]. symmetry. unfold PAGE_SIZE. apply andb_false_iff.
    rewrite Z.leb_gt, Z.ltb_ge. lia.
Qed.

Lemma install_new j : 0 ≤ j < 1024 → entry (pmem (install st s f i t e)) t j = 0.
Proof.
  intros Hj. unfold entry. simpl. rewrite pm_insert, decide_False.
  - rewrite (proj2 (Z.leb_le _ _)), (proj2 (Z.ltb_lt _ _)) by (unfold PAGE_SIZE; lia). done.
  - apply word_ne; [done..|]. intros [= E _]. by apply (proj2 (Hkeep f (pk_taken _ _ Hok))).
Qed.

Lemma install_dir j : 0 ≤ j < 1024 →
  entry (pmem (install st s f i t e)) f j = if decide (j = i) then e else entry (pmem st) f j.
Proof.
  intros Hj. rewrite install_entry by (done || apply Hkeep, Hok).
  repeat case_decide; tauto || done.
Qed.

Lemma install_table j : 0 ≤ j < 1024 →
  table (pmem (install st s f i t e)) f j = if decide (j = i) then t else table (pmem st) f j.
Proof.
  intros Hj. unfold table. rewrite install_dir by done. case_decide; [|done].
  rewrite entry_addr in Hea by done. pose proof (Z.div_mod e 4096).
  pose proof (Z.mod_pos_bound e 4096). lia.
Qed.

Lemma install_ok : pd_ok (install st s f i t e) f.
Proof.
  pose proof Hok as [K1 K2 K3 K4 K5 K6 K7].
  split; [done|done|by apply Hkeep|..].
  - intros j Hj. rewrite install_dir by done. case_decide; auto.
  - intros j Hj. rewrite install_dir, install_table by done. case_decide.
    + intros _. split; [done|]. split; [done|]. intros E. by apply (proj2 (Hkeep f K3)).
    + intros Hp. destruct (K5 j Hj Hp) as (? & ? & ?). split_and!; [done|by apply Hkeep|done].
  - intros j k Hj Hk Hjk. rewrite !install_dir, !install_table by done.
    repeat case_decide; subst; try done; intros Hp1 Hp2.
    + apply not_eq_sym, Hkeep, K5; done.
    + apply Hkeep, K5; done.
    + auto.
  - intros j k Hj Hk. rewrite install_dir, install_table by done. case_decide.
    + intros _. rewrite install_new by done. done.
    + intros Hp. destruct (K5 j Hj Hp) as (_ & Htk & Hne).
      rewrite install_entry by (done || by apply Hkeep). rewrite decide_False by tauto. auto.
Qed.

Lemma install_same : same_space f st (install st s f i t e).
Proof.
  split; [apply install_ok|..|done|done]. intros v Hv.
  destruct (index_range v Hv) as [Hd Hj].
  rewrite !translate_unfold by (done || apply install_ok).
  rewrite install_dir, install_table by done. case_decide as E.
  - rewrite E, Hnp. cbn zeta. rewrite install_new by done. by case_match.
  - destruct (present (entry (pmem st) f (GET_PDE_INDEX v))) eqn:Ep; [|done]. cbn zeta.
    destruct (pk_table _ _ Hok _ Hd Ep) as (_ & Htk & Hne).
    rewrite install_entry by (done || by apply Hkeep). by rewrite decide_False by tauto.
Qed.

End Install.

(** Setting the user bit of a directory entry. *)
Lemma user_bit_same st f i : pd_ok st f → 0 ≤ i < 1024 →
  same_space f st (set_pmem <[f * 4096 + 4 * i := Z.lor (entry (pmem st) f i) PDE_US_BIT]> st) ∧
  ∀ j, 0 ≤ j < 1024 →
    same_entry (entry (pmem (set_pmem <[f * 4096 + 4 * i := Z.lor (entry (pmem st) f i) PDE_US_BIT]> st)) f j)
      (entry (pmem st) f j).
Proof.
  intros Hok Hi. set (e := entry (pmem st) f i). set (st' := set_pmem _ st).
  destruct (user_entry e (pk_entry _ _ Hok i Hi)) as [Her Hse].
  assert (∀ j, 0 ≤ j < 1024 → 0 ≤ entry (pmem st') f j < W32 ∧
    same_entry (entry (pmem st') f j) (entry (pmem st) f j)) as Hdir.
  { intros j Hj.
    assert (entry (pmem st') f j = if decide (j = i) then Z.lor e PDE_US_BIT else entry (pmem st) f j) as ->.
    { unfold st', entry at 1. simpl. rewrite pm_insert. repeat case_decide; subst; done || lia. }
    case_decide; [by subst|]. split; [by apply (pk_entry _ _ Hok)|done]. }
  assert (∀ j, 0 ≤ j < 1024 → table (pmem st') f j = table (pmem st) f j) as Htab.
  { intros j Hj. destruct (Hdir j Hj) as [Hr [_ Ha]].
    rewrite !table_addr in Ha by (done || by apply (pk_entry _ _ Hok)). lia. }
  assert (∀ g j, 0 ≤ j < 1024 → g ≠ f → entry (pmem st') g j = entry (pmem st) g j) as Hout.
  { intros g j Hj Hg. unfold entry at 1, st'. simpl. rewrite pm_insert, decide_False; [done|].
    apply word_ne; [done..|]. congruence. }
  assert (pd_ok st' f) as Hok'.
  { pose proof Hok as [K1 K2 K3 K4 K5 K6 K7]. split; auto.
    - intros j Hj. by apply Hdir.
    - intros j Hj. rewrite Htab by done. destruct (Hdir j Hj) as [_ [-> _]]. by apply K5.
    - intros j k Hj Hk Hjk. rewrite !Htab by done.
      destruct (Hdir j Hj) as [_ [-> _]], (Hdir k Hk) as [_ [-> _]]. by apply K6.
    - intros j k Hj Hk. rewrite Htab by done. destruct (Hdir j Hj) as [_ [-> _]]. intros Hp.
      rewrite Hout by (done || by apply K5). by apply K7. }
  split; [|by intros j Hj; apply Hdir]. split; [done|..|done|done]. intros v Hv.
  destruct (index_range v Hv) as [Hd Hj]. rewrite !translate_unfold by done.
  rewrite Htab by done. destruct (Hdir _ Hd) as [_ [-> _]].
  destruct (present (entry (pmem st) f (GET_PDE_INDEX v))) eqn:Ep; [|done].
  by rewrite Hout by (done || by apply (pk_table _ _ Hok)).
Qed.

Lemma same_space_refl st f : pd_ok st f → same_space f st st.
Proof. by split. Qed.

Lemma map_entry_flags t flags : low_frame t → 0 ≤ flags →
  let e := Z.lor (Z.lor (Z.lor (t * 4096) PDE_PRESENT_BIT) PDE_RW_BIT) (Z.land flags PDE_US_BIT) in
  0 ≤ e < W32 ∧ GET_ENTRY_ADDR e = t * 4096 ∧ present e = true.
Proof.
  intros Ht Hf. cbn zeta. rewrite <- !Z.lor_assoc.
  change PDE_US_BIT with (2 ^ 2). rewrite land_pow2 by lia.
  assert (0 ≤ t < MAX_PAGES) as Htm by (unfold low_frame, MAX_PAGES in *; lia).
  destruct (Z.testbit flags 2).
  - destruct (mk_entry t 7 Htm ltac:(lia)) as (? & ? & Hp). unfold present. by rewrite Hp.
  - destruct (mk_entry t 3 Htm ltac:(lia)) as (? & ? & Hp). unfold present. by rewrite Hp.
Qed.

(** Tables may have been added, with frames that were available. *)
Record grown (f : Z) (st st' : vmm S) : Prop := {
  gr_taken : ∀ j, pa_taken (palloc st) j → pa_taken (palloc st') j;
  gr_owned : ∀ p o, pa_owned (palloc st) p o → pa_owned (palloc st') p o;
  gr_tables : ∀ i, 0 ≤ i < 1024 → present (entry (pmem st') f i) = true →
    (present (entry (pmem st) f i) = true ∧ table (pmem st') f i = table (pmem st) f i) ∨
    (pa_owned (palloc st') (table (pmem st') f i) 0 ∧ ¬ pa_taken (palloc st) (table (pmem st') f i)) }.

Lemma grown_dir f st st' : palloc st' = palloc st →
  (∀ i, 0 ≤ i < 1024 → present (entry (pmem st') f i) = present (entry (pmem st) f i) ∧
     table (pmem st') f i = table (pmem st) f i) → grown f st st'.
Proof.
  intros Ep Hd. split; rewrite ?Ep; auto. intros i Hi. destruct (Hd i Hi) as [-> ->]. auto.
Qed.

Lemma grown_trans f st1 st2 st3 : grown f st1 st2 → grown f st2 st3 → grown f st1 st3.
Proof.
  intros [A1 A2 A3] [B1 B2 B3]. split; auto. intros i Hi Hp.
  destruct (B3 i Hi Hp) as [[Hp2 E]|[Ho Hn]]; [|right; split; auto].
  destruct (A3 i Hi Hp2) as [[Hp1 E1]|[Ho Hn]]; [left; split; congruence|].
  right. rewrite E. auto.
Qed.

(** No frame is left for a page table. *)
Definition no_table_frame (s : S) : Prop := pa_alloc PAGE_SIZE LOWMEM_ZONE s = Done (0, s).

Lemma wp_map_page_table st f i flags : pd_ok st f → 0 ≤ i < 1024 → 0 ≤ flags →
  wp (map_page_table ((f * 4096 + KERNEL_VADDR_BASE) ⊞ 4 * i) flags) st (λ r st',
    (r = None ∧ st' = st ∧ present (entry (pmem st) f i) = false ∧ no_table_frame (palloc st)) ∨
    ∃ b, r = Some (table (pmem st') f i * 4096 + KERNEL_VADDR_BASE, b) ∧
      same_space f st st' ∧ present (entry (pmem st') f i) = true ∧ grown f st st').
Proof.
  intros Hok Hi Hfl. pose proof (pk_frame _ _ Hok) as Hf. unfold map_page_table.
  wp_step. apply wp_ldw; [done..|]. fold (entry (pmem st) f i). change PDE_PRESENT_BIT with 1.
  destruct (FLAG_IS_SET (entry (pmem st) f i) 1) eqn:Ep; cbn [negb].
  - assert (∀ (b : bool) (Q : option (Z * bool) → vmm S → Prop) (st' : vmm S),
      pd_ok st' f → present (entry (pmem st') f i) = true →
      Q (Some (table (pmem st') f i * 4096 + KERNEL_VADDR_BASE, b)) st' →
      wp (e ← ldw ((f * 4096 + KERNEL_VADDR_BASE) ⊞ 4 * i) ;
          pt_virt ← PHYS_TO_VIRT_LINEAR (GET_ENTRY_ADDR e) ;
          mret (Some (pt_virt, b))) st' Q) as Htail.
    { intros b Q st' Hok' Hp' HQ. wp_step. apply wp_ldw; [done..|]. fold (entry (pmem st') f i).
      rewrite table_addr by (by apply (pk_entry _ _ Hok')).
      destruct (pk_table _ _ Hok' i Hi Hp') as [Ht _]. unfold low_frame in Ht.
      wp_step. apply wp_lin; [lia|]. by apply wp_ret. }
    destruct (FLAG_IS_SET flags PDE_US_BIT && negb (FLAG_IS_SET (entry (pmem st) f i) PDE_US_BIT)).
    + destruct (user_bit_same st f i Hok Hi) as [Hss Hse].
      wp_step. apply wp_stw; [done..|]. apply Htail; [apply Hss|by destruct (Hse i Hi) as [-> _]|].
      right. eexists. split_and!; [done|done|by destruct (Hse i Hi) as [-> _]|].
      apply grown_dir; [done|]. intros j Hj. destruct (Hse j Hj) as [-> Ha]. split; [done|].
      rewrite !table_addr in Ha by (by apply (pk_entry _ _ (ss_ok _ _ _ Hss)) || by apply (pk_entry _ _ Hok)).
      lia.
    + wp_step. apply wp_ret. apply Htail; [done..|]. right. eexists.
      split_and!; [done|by apply same_space_refl|done|by apply grown_dir].
  - wp_step. apply wp_lift_pa. eapply wp_mono; [apply wp_with_run, pa_alloc_law; [apply Hok|done]|].
    intros r s [Erun [[-> ->]|(t & -> & Hrun & Hz & Hs & Hown & Hkeep & Hkown)]].
    { simpl. apply wp_ret. left. by destruct st. }
    rewrite order_PAGE_SIZE in *. apply lowmem_frame in Hz as Ht. change PAGE_SIZE with 4096.
    assert (∀ j, in_block t 0 j ↔ j = t) as Hb by (unfold in_block; simpl; lia).
    rewrite (proj2 (Z.eqb_neq (t * 4096) 0)) by (unfold low_frame in Ht; lia).
    wp_step. apply wp_lin; [unfold low_frame in Ht; lia|].
    wp_step. apply wp_assert; [by apply lin_nonzero|]. wp_step. unfold bzero_page. apply wp_modify.
    wp_step. apply wp_stw; [done..|]. apply wp_ret.
    destruct (map_entry_flags t flags Ht Hfl) as (He & Hea & Hep).
    set (e := Z.lor _ (Z.land flags PDE_US_BIT)) in *.
    rewrite (u32_small (t * 4096 + KERNEL_VADDR_BASE - KERNEL_VADDR_BASE))
      by (unfold low_frame, W32 in *; lia).
    replace (t * 4096 + KERNEL_VADDR_BASE - KERNEL_VADDR_BASE) with (t * 4096) by lia.
    change (set_pmem _ _) with (install st s f i t e).
    assert (pa_taken s t) as Htt by (by eapply pa_owned_taken, Hb).
    assert (∀ j, pa_taken (palloc st) j → pa_taken s j ∧ j ≠ t) as Hkeep'.
    { intros j Hj. rewrite <- Hb. by apply Hkeep. }
    right. exists true. split_and!.
    + by rewrite install_table, decide_True.
    + by apply install_same.
    + by rewrite install_dir, decide_True.
    + split; [by intros j Hj; apply Hkeep'|done|]. intros j Hj.
      rewrite install_dir, install_table by done. case_decide; [|auto]. intros _. right.
      split; [done|]. intros Htk. by apply (proj2 (Hkeep' t Htk)).
Qed.

(** What mapping the page of [v] with entry [x] does to the directory in frame [f]. *)
Record page_set (f v x : Z) (st st' : vmm S) : Prop := {
  ps_ok : pd_ok st' f;
  ps_page : ∀ v', 0 ≤ v' < W32 → v' / 4096 = v / 4096 →
    translate (pmem st') (f * 4096) v' = if present x then GET_ENTRY_ADDR x ⊞ Z.land v' 4095 else 0;
  ps_other : ∀ v', 0 ≤ v' < W32 → v' / 4096 ≠ v / 4096 →
    translate (pmem st') (f * 4096) v' = translate (pmem st) (f * 4096) v';
  (** a directory in use by the processor has its stale entry flushed *)
  ps_flush : cr3 st = f * 4096 → cr3 st' = f * 4096 ∧
    (ReloadCr3 (f * 4096) ∈ flushes st' ∨ Invlpg v ∈ flushes st');
  ps_grown : grown f st st' }.

Lemma wp_vmm_map_page st f v p flags : pd_ok st f → 0 ≤ v < W32 → 0 ≤ flags →
  0 ≤ Z.lor p flags < W32 →
  wp (vmm_map_page (f * 4096) v p flags) st (λ r st',
    (r = false ∧ st' = st ∧ present (entry (pmem st) f (GET_PDE_INDEX v)) = false ∧
       no_table_frame (palloc st)) ∨
    (r = true ∧ page_set f v (Z.lor p flags) st st')).
Proof.
  intros Hok Hv Hfl Hx. destruct (index_range v Hv) as [Hi Hj]. pose proof (pk_frame _ _ Hok) as Hf.
  unfold vmm_map_page. wp_step. apply wp_lin; [unfold low_frame in Hf; lia|].
  wp_step. apply wp_assert; [by apply lin_nonzero|]. wp_step.
  eapply wp_mono; [by apply wp_map_page_table|].
  intros r st1 [(-> & -> & Hnp & Hno)|(b & -> & [Hok1 Htr1 Hcr1 Hfl1] & Hp1 & Hgr1)].
  { apply wp_ret. left. done. }
  destruct (pk_table _ _ Hok1 _ Hi Hp1) as (Ht & _ & _).
  wp_step. apply wp_assert; [by apply lin_nonzero|]. wp_step. apply wp_stw; [done..|].
  pose proof (store_pte_ok st1 f v (Z.lor p flags) Hok1 Hv Hx Hp1) as Hok2.
  pose proof (store_pte_translate st1 f v (Z.lor p flags) Hok1 Hv Hx Hp1) as Htr2.
  pose proof (store_pte_dir st1 f v (Z.lor p flags) Hok1 Hv Hp1) as Hdir2.
  set (st2 := set_pmem _ st1) in *. wp_step. unfold get_current_page_directory_phys. apply wp_gets.
  change (cr3 st2) with (cr3 st1). rewrite Hcr1.
  assert (∀ c fl, (cr3 st = f * 4096 → c = f * 4096 ∧ (ReloadCr3 (f * 4096) ∈ fl ∨ Invlpg v ∈ fl)) →
    page_set f v (Z.lor p flags) st (Vmm (pmem st2) (palloc st2) c fl)) as Hfin.
  { intros c fl Hc. split; simpl; [by destruct Hok2|..|done|].
    - intros v' Hv' E. by rewrite Htr2, decide_True by done.
    - intros v' Hv' E. rewrite Htr2, decide_False by done. auto.
    - eapply grown_trans; [exact Hgr1|]. apply grown_dir; [done|]. intros k Hk.
      specialize (Hdir2 k Hk). unfold table in *. simpl in *. by rewrite Hdir2. }
  wp_step. destruct (Z.eqb_spec (cr3 st) (f * 4096)) as [Ec|Ec]; [destruct b|].
  - apply wp_modify, wp_ret. right. split; [done|]. apply Hfin. intros _. split; [done|].
    left. set_solver.
  - apply wp_modify, wp_ret. right. split; [done|]. apply Hfin. simpl. intros _. split; [congruence|].
    right. set_solver.
  - apply wp_ret, wp_ret. right. split; [done|].
    replace st2 with (Vmm (pmem st2) (palloc st2) (cr3 st2) (flushes st2)) by (by destruct st2).
    by apply Hfin.
Qed.

(** C7: mapping a page changes the translation of that page and of no other:
    [vmm_map_page] never panics or faults on a well-formed directory; it
    returns false, changing nothing, only when the page table is missing and
    no frame is left for it, and otherwise [vmm_get_mapping] gives the new
    frame for every address of the page and its former answer everywhere
    else; when the directory is the active one the stale TLB entry is
    flushed. *)
Theorem vmm_map_page_correct (st : vmm S) (f v q flags : Z) :
  pd_ok st f → 0 ≤ v < W32 → 0 ≤ q < MAX_PAGES → 0 ≤ flags < 4096 →
  FLAG_IS_SET flags PTE_PRESENT_BIT = true →
  ∃ r st', vmm_map_page (f * 4096) v (q * 4096) flags st = Done (r, st') ∧ pd_ok st' f ∧
    (r = false → st' = st ∧ present (entry (pmem st) f (GET_PDE_INDEX v)) = false ∧
       no_table_frame (palloc st)) ∧
    (r = true → ∀ v', 0 ≤ v' < W32 → ∃ a,
       vmm_get_mapping (f * 4096) v' st' = Done (a, st') ∧
       if decide (v' / 4096 = v / 4096) then a = q * 4096 + v' mod 4096
       else vmm_get_mapping (f * 4096) v' st = Done (a, st)) ∧
    (r = true → cr3 st = f * 4096 →
       cr3 st' = f * 4096 ∧ (ReloadCr3 (f * 4096) ∈ flushes st' ∨ Invlpg v ∈ flushes st')).
Proof.
  intros Hok Hv Hq Hfl Hpr. destruct (mk_entry q flags Hq Hfl) as (Hx & Hxa & Hxf).
  pose proof (wp_vmm_map_page st f v (q * 4096) flags Hok Hv ltac:(lia) Hx) as Hw.
  apply wp_run in Hw as (r & st' & E & [(-> & -> & Hn)|(-> & [Hok' Hp Ho Hf _])]).
  { exists false, st. by split_and!. }
  exists true, st'. split_and!; [done..| |done]. intros _ v' Hv'.
  exists (translate (pmem st') (f * 4096) v').
  assert (∀ st0, pd_ok st0 f → vmm_get_mapping (f * 4096) v' st0
    = Done (translate (pmem st0) (f * 4096) v', st0)) as Hget.
  { intros st0 Hok0. assert (wp (vmm_get_mapping (f * 4096) v') st0
      (λ a s, a = translate (pmem st0) (f * 4096) v' ∧ s = st0)) as Hw by (by apply wp_get_mapping).
    apply wp_run in Hw as (a & s & ? & -> & ->). done. }
  split; [by apply Hget|]. case_decide as E'.
  - rewrite Hp by done. unfold present. rewrite Hxf by done. change PTE_PRESENT_BIT with 1 in Hpr.
    rewrite Hpr, Hxa. change 4095 with (Z.ones 12). rewrite Z.land_ones by lia.
    change (2 ^ 12) with 4096. pose proof (Z.mod_pos_bound v' 4096). apply u32_small.
    unfold MAX_PAGES, W32 in *. lia.
  - rewrite Ho by done. by apply Hget.
Qed.

Lemma get_mapping_run st f v : pd_ok st f → 0 ≤ v < W32 →
  vmm_get_mapping (f * 4096) v st = Done (translate (pmem st) (f * 4096) v, st).
Proof.
  intros Hok Hv. assert (wp (vmm_get_mapping (f * 4096) v) st
    (λ a s, a = translate (pmem st) (f * 4096) v ∧ s = st)) as Hw by (by apply wp_get_mapping).
  apply wp_run in Hw as (a & s & ? & -> & ->). done.
Qed.

(** ** Removing a page *)

Lemma wp_pt_is_empty st t n i : low_frame t → 0 ≤ i → i + Z.of_nat n ≤ 1024 →
  wp (pt_is_empty n i (t * 4096 + KERNEL_VADDR_BASE)) st (λ b st', st' = st ∧
    (b = true ↔ ∀ j, i ≤ j < i + Z.of_nat n → present (entry (pmem st) t j) = false)).
Proof.
  intros Ht. revert i. induction n as [|n IH]; intros i Hi Hn; cbn [pt_is_empty].
  { apply wp_ret. split; [done|]. split; [lia|done]. }
  wp_step. apply wp_ldw; [done|lia|]. fold (entry (pmem st) t i). change PTE_PRESENT_BIT with 1.
  fold (present (entry (pmem st) t i)). destruct (present (entry (pmem st) t i)) eqn:Ep.
  - apply wp_ret. split; [done|]. split; [done|]. intros Hall.
    rewrite (Hall i) in Ep by lia. done.
  - eapply wp_mono; [apply IH; lia|]. intros b st' [-> Hiff]. split; [done|]. rewrite Hiff.
    split; intros Hall j Hj; [|apply Hall; lia].
    destruct (decide (j = i)) as [->|]; [done|]. apply Hall. lia.
Qed.

(** Dropping the empty table behind entry [i] and giving its frame back. *)
Definition drop_table (st : vmm S) (s : S) (f i : Z) : vmm S :=
  Vmm (<[f * 4096 + 4 * i := 0]> (pmem st)) s (cr3 st) (flushes st).

Lemma drop_table_same st s f i : pd_ok st f → 0 ≤ i < 1024 →
  present (entry (pmem st) f i) = true →
  (∀ j, 0 ≤ j < 1024 → present (entry (pmem st) (table (pmem st) f i) j) = false) →
  pa_ok s → (∀ j, pa_taken (palloc st) j → j ≠ table (pmem st) f i → pa_taken s j) →
  same_space f st (drop_table st s f i).
Proof.
  intros Hok Hi Hp Hemp Hs Hkeep. pose proof Hok as [K1 K2 K3 K4 K5 K6 K7].
  set (st' := drop_table st s f i).
  assert (∀ j, 0 ≤ j < 1024 → entry (pmem st') f j = if decide (j = i) then 0 else entry (pmem st) f j) as Hdir.
  { intros j Hj. unfold st', entry at 1. simpl. rewrite pm_insert. repeat case_decide; done || lia. }
  assert (∀ j, 0 ≤ j < 1024 → j ≠ i → table (pmem st') f j = table (pmem st) f j) as Htab.
  { intros j Hj Hne. unfold table. by rewrite Hdir, decide_False. }
  assert (∀ g j, 0 ≤ j < 1024 → g ≠ f → entry (pmem st') g j = entry (pmem st) g j) as Hout.
  { intros g j Hj Hg. unfold entry at 1, st'. simpl. rewrite pm_insert, decide_False; [done|].
    apply word_ne; [done..|]. congruence. }
  assert (pd_ok st' f) as Hok'.
  { split; [done|done|apply Hkeep; [done|]; apply not_eq_sym, K5; done|..].
    - intros j Hj. rewrite Hdir by done. case_decide; [done|auto].
    - intros j Hj. rewrite Hdir by done. case_decide; [done|]. rewrite Htab by done. intros Hpj.
      destruct (K5 j Hj Hpj) as (? & ? & ?). split_and!; [done| |done]. apply Hkeep; [done|].
      by apply K6.
    - intros j k Hj Hk Hjk. rewrite !Hdir by done. repeat case_decide; try done.
      rewrite !Htab by done. by apply K6.
    - intros j k Hj Hk. rewrite Hdir by done. case_decide; [done|]. rewrite Htab by done. intros Hpj.
      rewrite Hout by (done || by apply K5). by apply K7. }
  split; [done|..|done|done]. intros v Hv. destruct (index_range v Hv) as [Hd Hj].
  rewrite !translate_unfold by done. rewrite Hdir by done. case_decide as E.
  - rewrite E, Hp. cbn zeta. by rewrite Hemp.
  - destruct (present (entry (pmem st) f (GET_PDE_INDEX v))) eqn:Ep; [|done].
    rewrite Htab by done. cbn zeta. by rewrite Hout by (done || by apply K5).
Qed.

(** What unmapping the page of [v] does: its table may be given back. *)
Record page_unset (f v : Z) (st st' : vmm S) : Prop := {
  pu_ok : pd_ok st' f;
  pu_flush : Invlpg v ∈ flushes st';
  pu_translate : ∀ v', 0 ≤ v' < W32 → translate (pmem st') (f * 4096) v' =
    if decide (v' / 4096 = v / 4096) then 0 else translate (pmem st) (f * 4096) v';
  pu_taken : ∀ j, pa_taken (palloc st) j → j ≠ table (pmem st) f (GET_PDE_INDEX v) →
    pa_taken (palloc st') j;
  pu_untaken : ∀ j, pa_taken (palloc st') j → pa_taken (palloc st) j;
  pu_owned : ∀ p o, pa_owned (palloc st) p o → p ≠ table (pmem st) f (GET_PDE_INDEX v) →
    pa_owned (palloc st') p o;
  pu_tables : ∀ i, 0 ≤ i < 1024 → present (entry (pmem st') f i) = true →
    present (entry (pmem st) f i) = true ∧ table (pmem st') f i = table (pmem st) f i ∧
    (pa_owned (palloc st) (table (pmem st) f i) 0 → pa_owned (palloc st') (table (pmem st) f i) 0) }.

(** [st1] is [st] without the entry of page [v]; the table that held it is
    empty and given back, which leaves the allocator in state [s]. *)
Lemma page_unset_drop st st1 f v s c fl :
  let i := GET_PDE_INDEX v in let t := table (pmem st) f i in
  pd_ok st f → 0 ≤ v < W32 → present (entry (pmem st) f i) = true → pd_ok st1 f → palloc st1 = palloc st →
  (∀ k, 0 ≤ k < 1024 → entry (pmem st1) f k = entry (pmem st) f k) →
  (∀ v', 0 ≤ v' < W32 → translate (pmem st1) (f * 4096) v' =
     if decide (v' / 4096 = v / 4096) then 0 else translate (pmem st) (f * 4096) v') →
  (∀ j, 0 ≤ j < 1024 → present (entry (pmem st1) t j) = false) →
  pa_owned (palloc st) t 0 → pa_ok s → (∀ j, pa_taken s j ↔ pa_taken (palloc st) j ∧ ¬ in_block t 0 j) →
  (∀ p o, pa_owned (palloc st) p o → blocks_apart t 0 p o → pa_owned s p o) → Invlpg v ∈ fl →
  page_unset f v st (Vmm (pmem (drop_table st1 s f i)) s c fl).
Proof.
  intros i t Hok Hv Hp Hok1 Epa Hdir1 Htr1 Hemp Hown Hs Hkeep Hkown Hfl. destruct (index_range v Hv) as [Hi _]. fold i in Hi.
  assert (∀ j, in_block t 0 j ↔ j = t) as Hb0 by (intros j; unfold in_block; simpl; lia).
  assert (table (pmem st1) f i = t) as Et by (unfold table; by rewrite Hdir1).
  assert (∀ k, 0 ≤ k < 1024 → entry (pmem (drop_table st1 s f i)) f k =
    if decide (k = i) then 0 else entry (pmem st) f k) as Hdir4.
  { intros k Hk. unfold entry at 1. simpl. rewrite pm_insert.
    repeat case_decide; try done; try lia. by apply Hdir1. }
  assert (same_space f st1 (drop_table st1 s f i)) as [Hok4 Htr4 _ _].
  { apply drop_table_same; [done|done|by rewrite Hdir1|by rewrite Et|done|].
    rewrite Et, Epa. intros j Hj Hnt. apply Hkeep. by rewrite Hb0. }
  split; [by destruct Hok4|done|..].
  - intros v' Hv'. etransitivity; [by apply Htr4|]. by apply Htr1.
  - intros j Hj Hnt. apply Hkeep. by rewrite Hb0.
  - intros j Hj. by apply Hkeep in Hj as [? _].
  - intros p o Hpo Hpt. apply Hkown; [done|].
    destruct (pa_owned_apart _ _ _ _ _ Hown Hpo) as [[= E _]|]; [by destruct (Hpt (eq_sym E))|done].
  - intros k Hk. change (pmem (Vmm ?m _ _ _)) with m. unfold table at 1. rewrite !Hdir4 by done. case_decide; [done|]. intros Hpk.
    split; [done|]. split; [done|]. intros Ho. apply Hkown; [done|].
    destruct (pa_owned_apart _ _ _ _ _ Hown Ho) as [[= E]|]; [|done].
    by destruct (pk_inj _ _ Hok k i).
Qed.

Lemma wp_vmm_unmap_page st f v : pd_ok st f → 0 ≤ v < W32 →
  (present (entry (pmem st) f (GET_PDE_INDEX v)) = true →
     pa_owned (palloc st) (table (pmem st) f (GET_PDE_INDEX v)) 0) →
  wp (vmm_unmap_page (f * 4096) v) st (λ r st',
    (r = false ∧ st' = st ∧ (present (entry (pmem st) f (GET_PDE_INDEX v)) = false ∨
       present (entry (pmem st) (table (pmem st) f (GET_PDE_INDEX v)) (GET_PTE_INDEX v)) = false)) ∨
    (r = true ∧ present (entry (pmem st) f (GET_PDE_INDEX v)) = true ∧
     present (entry (pmem st) (table (pmem st) f (GET_PDE_INDEX v)) (GET_PTE_INDEX v)) = true ∧
     page_unset f v st st')).
Proof.
  intros Hok Hv Hown. destruct (index_range v Hv) as [Hi Hj]. pose proof (pk_frame _ _ Hok) as Hf.
  set (i := GET_PDE_INDEX v) in *. set (t := table (pmem st) f i) in *.
  unfold vmm_unmap_page. wp_step. apply wp_lin; [unfold low_frame in Hf; lia|].
  wp_step. apply wp_ldw; [done..|]. fold i. fold (entry (pmem st) f i). change PDE_PRESENT_BIT with 1.
  fold (present (entry (pmem st) f i)). destruct (present (entry (pmem st) f i)) eqn:Ep; cbn [negb].
  2: { apply wp_ret. left. auto. }
  rewrite table_addr by (by apply (pk_entry _ _ Hok)). fold t.
  destruct (pk_table _ _ Hok _ Hi Ep) as (Ht & Htk & Hne). fold t in Ht, Htk, Hne.
  wp_step. apply wp_lin; [unfold low_frame in Ht; lia|]. wp_step. apply wp_ldw; [done..|].
  fold (entry (pmem st) t (GET_PTE_INDEX v)). change PTE_PRESENT_BIT with 1.
  fold (present (entry (pmem st) t (GET_PTE_INDEX v))).
  destruct (present (entry (pmem st) t (GET_PTE_INDEX v))) eqn:Ep'; cbn [negb].
  2: { apply wp_ret. left. auto. }
  wp_step. apply wp_stw; [done..|]. wp_step. unfold paging_invalid_TLB_addr. apply wp_modify.
  pose proof (store_pte_ok st f v 0 Hok Hv ltac:(done) Ep) as Hok1.
  pose proof (store_pte_dir st f v 0 Hok Hv Ep) as Hdir1.
  pose proof (store_pte_translate st f v 0 Hok Hv ltac:(done) Ep) as Htr1.
  fold i t in Hok1, Htr1, Hdir1. set (st1 := set_pmem _ st) in *.
  set (st2 := Vmm (pmem st1) (palloc st1) (cr3 st1) (Invlpg v :: flushes st1)).
  assert (pd_ok st2 f) as Hok2 by (by destruct Hok1).
  assert (∀ k, 0 ≤ k < 1024 → table (pmem st1) f k = table (pmem st) f k) as Htab1.
  { intros k Hk. unfold table. by rewrite Hdir1. }
  wp_step. eapply wp_mono; [apply (wp_pt_is_empty st2 t 1024 0 Ht); lia|].
  intros b st3 [-> Hb]. wp_step. destruct b.
  - wp_step. apply wp_stw; [done..|]. wp_step. apply wp_lift_pa. change (t * 4096) with (t * PAGE_SIZE).
    specialize (Hown eq_refl).
    eapply wp_mono; [apply (pa_free_law (palloc st) t 0); [apply Hok|exact Hown]|].
    intros [] s (Hs & Hkeep & Hkown). cbn beta.
    change (Vmm _ s _ _) with (drop_table st2 s f i). wp_step. unfold get_current_page_directory_phys. apply wp_gets.
    assert (∀ c fl, Invlpg v ∈ fl → page_unset f v st (Vmm (pmem (drop_table st2 s f i)) s c fl)) as Hfin.
    { intros c fl Hin. apply page_unset_drop; try done. intros j Hj'. apply Hb; done. }
    destruct (f * 4096 =? _); [apply wp_modify|apply wp_ret]; apply wp_ret; right;
      (do 3 (split; [done|])); apply Hfin; simpl; set_solver.
  - apply wp_ret, wp_ret. right. do 3 (split; [done|]). split; [done|simpl; set_solver|..].
    + intros v' Hv'. change (pmem st2) with (pmem st1). by rewrite Htr1.
    + done.
    + done.
    + done.
    + intros k Hk. change (pmem st2) with (pmem st1). rewrite Hdir1, Htab1 by done. auto.
Qed.


(** ** Checking access rights *)

(** All the bits of [flags] are set in [e]. *)
Definition has_flags (e flags : Z) : bool := Z.land e flags =? flags.

(** The virtual page number [q] is mapped with at least these flags. *)
Definition page_allows (m : Z → Z) (f pf tf q : Z) : Prop :=
  has_flags (entry m f (q / 1024)) pf = true ∧
  has_flags (entry m (table m f (q / 1024)) (q mod 1024)) tf = true.

Lemma has_flags_present e pf : has_flags e (Z.lor pf 1) = true → present e = true.
Proof.
  unfold has_flags, present, FLAG_IS_SET. rewrite Z.eqb_eq. intros E.
  change 1 with (2 ^ 0) in *. rewrite land_pow2 by done.
  assert (Z.testbit (Z.land e (Z.lor pf (2 ^ 0))) 0 = true) as Hb.
  { rewrite E, Z.lor_spec, Z.pow2_bits_true, orb_true_r by lia. done. }
  rewrite Z.land_spec in Hb. apply andb_true_iff in Hb as [-> _]. done.
Qed.

Lemma wp_verify_pt st t n j rem tf : low_frame t → 0 ≤ j ≤ 1024 → 0 ≤ rem → 1024 - j ≤ Z.of_nat n →
  wp (verify_pt n (t * 4096 + KERNEL_VADDR_BASE) j rem tf) st (λ r st', st' = st ∧
    let k := Z.min rem (1024 - j) in
    match r with
    | Some rem' => rem' = rem - k ∧ ∀ l, j ≤ l < j + k → has_flags (entry (pmem st) t l) tf = true
    | None => ∃ l, j ≤ l < j + k ∧ has_flags (entry (pmem st) t l) tf = false
    end).
Proof.
  intros Ht. revert j rem. induction n as [|n IH]; intros j rem Hj Hrem Hn; cbn [verify_pt].
  { apply wp_ret. split; [done|]. cbn zeta. split; [lia|]. lia. }
  destruct (Z.ltb_spec 0 rem); cbn [andb].
  2: { apply wp_ret. split; [done|]. cbn zeta. split; [lia|]. lia. }
  destruct (Z.ltb_spec j 1024).
  2: { apply wp_ret. split; [done|]. cbn zeta. split; [lia|]. lia. }
  wp_step. apply wp_ldw; [done|lia|]. fold (entry (pmem st) t j).
  fold (has_flags (entry (pmem st) t j) tf). destruct (has_flags (entry (pmem st) t j) tf) eqn:Ef.
  - eapply wp_mono; [apply IH; lia|]. intros r st' [-> Hr]. split; [done|]. cbn zeta in *.
    destruct r as [rem'|].
    + destruct Hr as [-> Hall]. split; [lia|]. intros l Hl.
      destruct (decide (l = j)) as [->|]; [done|]. apply Hall. lia.
    + destruct Hr as (l & Hl & Hf). exists l. split; [lia|done].
  - apply wp_ret. split; [done|]. cbn zeta. exists j. split; [lia|done].
Qed.

Lemma wp_verify_pds st f n : ∀ i va ds rem pf tf j0 last,
  pd_ok st f → 0 ≤ va < W32 → 0 ≤ i → 0 ≤ ds → 0 < rem → 0 ≤ j0 < 1024 →
  j0 = (if i =? 0 then GET_PTE_INDEX va else 0) →
  (ds + i) * 1024 + j0 + rem = last + 1 → last < 1048576 →
  Z.of_nat n = Z.max 0 (last / 1024 - (ds + i) + 1) →
  wp (verify_pds n i (f * 4096 + KERNEL_VADDR_BASE) va ds rem (Z.lor pf 1) (Z.lor tf 1)) st
    (λ r st', st' = st ∧ (r = 0 ∨ r = -1) ∧
       (r = 0 ↔ ∀ q, (ds + i) * 1024 + j0 ≤ q ≤ last → page_allows (pmem st) f (Z.lor pf 1) (Z.lor tf 1) q)).
Proof.
  induction n as [|n IH]; intros i va ds rem pf tf j0 last Hok Hva Hi Hds Hrem Hj0 Ej Hsum Hlast Hn;
    cbn [verify_pds].
  { apply wp_ret. split; [done|]. split; [by left|]. split; [|done]. intros _ q Hq.
    pose proof (Z.div_mod last 1024). pose proof (Z.mod_pos_bound last 1024). lia. }
  set (d := ds + i) in *. pose proof (pk_frame _ _ Hok) as Hf.
  pose proof (Z.div_mod last 1024 ltac:(lia)). pose proof (Z.mod_pos_bound last 1024 ltac:(lia)).
  assert (0 ≤ d < 1024) as Hd by lia.
  wp_step. apply wp_ldw; [done..|]. fold (entry (pmem st) f d).
  fold (has_flags (entry (pmem st) f d) (Z.lor pf 1)).
  assert (∀ l, 0 ≤ l < 1024 → (d * 1024 + l) / 1024 = d ∧ (d * 1024 + l) mod 1024 = l) as Hq.
  { intros l Hl. split.
    - by rewrite Z.div_add_l, Z.div_small, Z.add_0_r by lia.
    - by rewrite Z.add_comm, Z.mod_add, Z.mod_small by lia. }
  destruct (has_flags (entry (pmem st) f d) (Z.lor pf 1)) eqn:Epf; cbn [negb].
  2: { apply wp_ret. split; [done|]. split; [by right|]. split; [done|]. intros Hall.
       destruct (Hall (d * 1024 + j0)) as [E _]; [lia|]. destruct (Hq j0 Hj0) as [Eq _].
       rewrite Eq in E. congruence. }
  apply has_flags_present in Epf as Hp.
  destruct (pk_table _ _ Hok d Hd Hp) as (Ht & _ & _).
  rewrite table_addr by (by apply (pk_entry _ _ Hok)). set (t := table (pmem st) f d) in *.
  wp_step. apply wp_lin; [unfold low_frame in Ht; lia|].
  assert ((if i =? 0 then GET_PTE_INDEX (va ⊞ i * (1024 * PAGE_SIZE)) else 0) = j0) as ->.
  { rewrite Ej. destruct (Z.eqb_spec i 0) as [->|]; [|done].
    by rewrite Z.mul_0_l, Z.add_0_r, u32_small. }
  wp_step. eapply wp_mono; [apply (wp_verify_pt st t 1024 j0 rem (Z.lor tf 1) Ht); lia|].
  intros r st' [-> Hr]. cbn zeta in Hr. set (k := Z.min rem (1024 - j0)) in *.
  destruct r as [rem'|].
  - destruct Hr as [-> Hall].
    assert (∀ q, d * 1024 + j0 ≤ q < d * 1024 + j0 + k →
      page_allows (pmem st) f (Z.lor pf 1) (Z.lor tf 1) q) as Hthis.
    { intros q Hqr. replace q with (d * 1024 + (q - d * 1024)) by lia.
      destruct (Hq (q - d * 1024)) as [E1 E2]; [lia|]. unfold page_allows. rewrite E1, E2.
      split; [done|]. apply Hall. lia. }
    destruct (decide (rem ≤ 1024 - j0)).
    + assert (n = 0%nat) as -> by lia. cbn [verify_pds]. apply wp_ret.
      split; [done|]. split; [by left|]. split; [|done]. intros _ q Hqr. apply Hthis. lia.
    + eapply wp_mono; [apply (IH (i + 1) va ds _ pf tf 0 last); try done; try lia|].
      { by rewrite (proj2 (Z.eqb_neq (i + 1) 0)) by lia. }
      intros r st' (-> & Hr01 & Hiff). split; [done|]. split; [done|]. rewrite Hiff.
      split; intros Hall' q Hqr.
      * destruct (decide (q < d * 1024 + j0 + k)); [apply Hthis; lia|]. apply Hall'. lia.
      * apply Hall'. lia.
  - destruct Hr as (l & Hl & Hfl). apply wp_ret. split; [done|]. split; [by right|]. split; [done|].
    intros Hall. destruct (Hall (d * 1024 + l)) as [_ E]; [lia|].
    destruct (Hq l) as [E1 E2]; [lia|]. rewrite E1, E2 in E. fold t in E. congruence.
Qed.

Lemma verify_range_run (st : vmm S) (f vaddr n pf tf : Z) :
  pd_ok st f → 0 ≤ vaddr → 0 < n → vaddr + n < W32 → n + 8192 < W32 →
  ∃ r, vmm_verify_range_flags (f * 4096 + KERNEL_VADDR_BASE) vaddr n pf tf st = Done (r, st) ∧
    (r = 0 ∨ r = -1) ∧
    (r = 0 ↔ ∀ q, vaddr / 4096 ≤ q ≤ (vaddr + n - 1) / 4096 →
       page_allows (pmem st) f (Z.lor pf 1) (Z.lor tf 1) q).
Proof.
  intros Hok Hva Hn Hw Hn2. set (last := (vaddr + n - 1) / 4096).
  assert (0 ≤ vaddr < W32) as Hvw by lia. destruct (index_range vaddr Hvw) as [Hi Hj].
  pose proof (Z.div_mod vaddr 4096 ltac:(lia)). pose proof (Z.mod_pos_bound vaddr 4096 ltac:(lia)).
  pose proof (Z.div_mod (vaddr + n - 1) 4096 ltac:(lia)) as Hdm.
  pose proof (Z.mod_pos_bound (vaddr + n - 1) 4096 ltac:(lia)). fold last in Hdm.
  assert (GET_PDE_INDEX vaddr * 1024 + GET_PTE_INDEX vaddr = vaddr / 4096) as Hidx.
  { unfold GET_PDE_INDEX, GET_PTE_INDEX. change 1023 with (Z.ones 10).
    rewrite Z.land_ones, !Z.shiftr_div_pow2 by lia. change (2 ^ 22) with (4096 * 1024).
    change (2 ^ 12) with 4096. change (2 ^ 10) with 1024. rewrite <- Z.div_div by lia.
    pose proof (Z.div_mod (vaddr / 4096) 1024). lia. }
  assert (GET_PDE_INDEX (vaddr + n - 1) = last / 1024) as Hend.
  { unfold GET_PDE_INDEX, last. rewrite Z.shiftr_div_pow2 by lia. change (2 ^ 22) with (4096 * 1024).
    by rewrite Z.div_div by lia. }
  assert (vaddr / 4096 ≤ last) as Hle by (apply Z.div_le_mono; lia).
  assert (GET_PDE_INDEX vaddr ≤ last / 1024) as Hle2.
  { assert (GET_PDE_INDEX vaddr = vaddr / 4096 / 1024) as ->; [|apply Z.div_le_mono; lia].
    unfold GET_PDE_INDEX. rewrite Z.shiftr_div_pow2 by lia. change (2 ^ 22) with (4096 * 1024).
    by rewrite Z.div_div by lia. }
  assert (last < 1048576) as Hlast by (apply Z.div_lt_upper_bound; unfold W32 in *; lia).
  assert (0 ≤ last / 1024 < 1024) as Hl2.
  { split; [lia|apply Z.div_lt_upper_bound; lia]. }
  assert (wp (vmm_verify_range_flags (f * 4096 + KERNEL_VADDR_BASE) vaddr n pf tf) st
    (λ r st', st' = st ∧ (r = 0 ∨ r = -1) ∧
      (r = 0 ↔ ∀ q, vaddr / 4096 ≤ q ≤ last → page_allows (pmem st) f (Z.lor pf 1) (Z.lor tf 1) q))) as HW.
  { unfold vmm_verify_range_flags. rewrite (proj2 (Z.eqb_neq n 0)) by lia.
    rewrite (u32_small (vaddr + n)), (u32_small (vaddr + n - 1)), Hend by lia.
    rewrite (u32_small (last / 1024 - _)), (u32_small (last / 1024 - _ + 1)) by (unfold W32; lia).
    change PAGE_SIZE with 4096. rewrite (u32_small (vaddr mod 4096 + n)) by lia.
    rewrite DIV_ROUND_UP_exact by (unfold W32 in *; lia).
    assert ((vaddr mod 4096 + n + 4096 - 1) / 4096 = last - vaddr / 4096 + 1) as ->.
    { symmetry. apply (Z.div_unique_pos _ _ _ ((vaddr + n - 1) mod 4096)); lia. }
    change PDE_PRESENT_BIT with 1. change PTE_PRESENT_BIT with 1.
    eapply wp_mono; [apply (wp_verify_pds st f _ 0 vaddr _ _ pf tf (GET_PTE_INDEX vaddr) last); try done; try lia|].
    intros r st' (-> & H01 & Hiff). split; [done|]. split; [done|]. rewrite Hiff.
    by rewrite Z.add_0_r, Hidx. }
  apply wp_run in HW as (r & st' & E & -> & ?). eauto.
Qed.

(** [vmm_verify_range_flags] returns 0 exactly when every page the range
    [[vaddr, vaddr + n)] touches is mapped with at least the requested
    directory and table flags, for a range that neither wraps around nor is
    within two pages of the size of the address space; it reads the tables
    only. *)
Theorem vmm_verify_range_flags_correct (st : vmm S) (f vaddr n pf tf : Z) :
  pd_ok st f → 0 ≤ vaddr → 0 < n → vaddr + n < W32 → n + 8192 < W32 →
  ∃ r, vmm_verify_range_flags (f * 4096 + KERNEL_VADDR_BASE) vaddr n pf tf st = Done (r, st) ∧
    (r = 0 ∨ r = -1) ∧
    (r = 0 ↔ ∀ q, vaddr / 4096 ≤ q ≤ (vaddr + n - 1) / 4096 →
       page_allows (pmem st) f (Z.lor pf 1) (Z.lor tf 1) q).
Proof. apply verify_range_run. Qed.

(** ** Tearing an address space down *)

(** Clearing directory entries below 768 while their tables are freed: [k]
    entries done. *)
Record torn_down (st : vmm S) (f a k : Z) (st' : vmm S) : Prop := {
  td_ok : pa_ok (palloc st');
  td_taken : ∀ j, pa_taken (palloc st') j ↔ pa_taken (palloc st) j ∧
    ∀ i, a ≤ i < k → present (entry (pmem st) f i) = true → j ≠ table (pmem st) f i;
  td_owned : ∀ p o, pa_owned (palloc st) p o →
    (∀ i, a ≤ i < k → present (entry (pmem st) f i) = true → p ≠ table (pmem st) f i) →
    pa_owned (palloc st') p o;
  td_dir : ∀ i, a ≤ i < k → present (entry (pmem st') f i) = false;
  td_mem : ∀ x, (∀ i, a ≤ i < k → x ≠ f * 4096 + 4 * i) → pmem st' x = pmem st x;
  td_cr3 : cr3 st' = cr3 st;
  td_flushes : flushes st' = flushes st }.

Lemma wp_free_pt_range st f a b : pd_ok st f → 0 ≤ a ≤ b → b ≤ 1024 →
  (∀ i, a ≤ i < b → present (entry (pmem st) f i) = true →
     pa_owned (palloc st) (table (pmem st) f i) 0) →
  wp (vmm_free_pt_range (f * 4096) a b) st (λ _ st', torn_down st f a b st').
Proof.
  intros Hok Hab Hb Hown. pose proof (pk_frame _ _ Hok) as Hf. unfold vmm_free_pt_range.
  wp_step. apply wp_lin; [unfold low_frame in Hf; lia|].
  eapply wp_mono; [apply wp_for with (I := torn_down st f a)|].
  3: { intros [] st'. by replace (a + Z.of_nat (Z.to_nat (b - a))) with b by lia. }
  { split; try done; [apply Hok|intros j; split; [|tauto]|lia]. intros ?. split; [done|lia]. }
  intros k st1 Hk [D1 D2 D3 D4 D5 D6 D7].
  assert (entry (pmem st1) f k = entry (pmem st) f k) as Ek by (apply D5; lia).
  wp_step. apply wp_ldw; [done|lia|]. fold (entry (pmem st1) f k). rewrite Ek.
  change PDE_PRESENT_BIT with 1. fold (present (entry (pmem st) f k)).
  destruct (present (entry (pmem st) f k)) eqn:Ep.
  - rewrite table_addr by (apply (pk_entry _ _ Hok); lia). set (t := table (pmem st) f k) in *.
    assert (pa_owned (palloc st1) t 0) as Ht.
    { apply D3; [apply Hown; [lia|done]|]. intros i Hi Hp. apply (pk_inj _ _ Hok); try done; lia. }
    wp_step. apply wp_lift_pa. change (t * 4096) with (t * PAGE_SIZE).
    eapply wp_mono; [by apply (pa_free_law (palloc st1) t 0)|].
    intros [] s (Hs & Htk & Hkeep). cbn beta. apply wp_stw; [done|lia|].
    assert (∀ j, in_block t 0 j ↔ j = t) as Hin by (intros j; unfold in_block; simpl; lia).
    split; simpl; try done.
    + intros j. rewrite Htk, Hin, D2. split.
      * intros [[H1 H2] H3]. split; [done|]. intros i Hi Hp.
        destruct (decide (i = k)) as [->|]; [done|]. apply H2; [lia|done].
      * intros [H1 H2]. split; [split; [done|]|].
        -- intros i Hi. apply H2. lia.
        -- apply H2; [lia|done].
    + intros p o Hpo Hne. apply Hkeep.
      * apply D3; [done|]. intros i Hi. apply Hne. lia.
      * assert (pa_owned (palloc st1) p o) as Hp1.
        { apply D3; [done|]. intros i Hi. apply Hne. lia. }
        destruct (pa_owned_apart (palloc st1) t 0 p o Ht Hp1) as [[= E _]|]; [|done].
        exfalso. by apply (Hne k); [lia|..].
    + intros i Hi. unfold entry. simpl. rewrite pm_insert. case_decide; [done|]. apply D4. lia.
    + intros x Hx. rewrite pm_insert, decide_False by (apply Hx; lia). apply D5.
      intros i Hi. apply Hx. lia.
  - apply wp_ret. split; try done.
    + intros j. rewrite D2. split; intros [H1 H2]; (split; [done|]); intros i Hi Hp.
      * destruct (decide (i = k)) as [->|]; [congruence|]. apply H2; [lia|done].
      * apply H2; [lia|done].
    + intros p o Hpo Hne. apply D3; [done|]. intros i Hi. apply Hne. lia.
    + intros i Hi. destruct (decide (i = k)) as [->|]; [by rewrite Ek|]. apply D4. lia.
    + intros x Hx. apply D5. intros i Hi. apply Hx. lia.
Qed.

(** Destroying a user directory whose frame and user tables the page
    allocator handed out gives back exactly the frames of the tables of the
    lower 3 GiB and the frame of the directory, keeps every other frame as
    it was and writes nothing but directory entries below 768. *)
Theorem vmm_destroy_user_pd_correct (st : vmm S) (f : Z) :
  pd_ok st f → pa_owned (palloc st) f 0 →
  (∀ i, 0 ≤ i < 768 → present (entry (pmem st) f i) = true →
     pa_owned (palloc st) (table (pmem st) f i) 0) →
  ∃ st', vmm_destroy_user_pd (f * 4096) st = Done (tt, st') ∧ pa_ok (palloc st') ∧
    (∀ j, pa_taken (palloc st') j ↔ pa_taken (palloc st) j ∧ j ≠ f ∧
       ∀ i, 0 ≤ i < 768 → present (entry (pmem st) f i) = true → j ≠ table (pmem st) f i) ∧
    (∀ x, ¬ f * 4096 ≤ x < f * 4096 + 3072 → pmem st' x = pmem st x) ∧
    cr3 st' = cr3 st ∧ flushes st' = flushes st.
Proof.
  intros Hok Hf Hown.
  assert (wp (vmm_destroy_user_pd (f * 4096)) st (λ _ st', pa_ok (palloc st') ∧
    (∀ j, pa_taken (palloc st') j ↔ pa_taken (palloc st) j ∧ j ≠ f ∧
       ∀ i, 0 ≤ i < 768 → present (entry (pmem st) f i) = true → j ≠ table (pmem st) f i) ∧
    (∀ x, ¬ f * 4096 ≤ x < f * 4096 + 3072 → pmem st' x = pmem st x) ∧
    cr3 st' = cr3 st ∧ flushes st' = flushes st)) as Hw.
  { unfold vmm_destroy_user_pd. wp_step.
    eapply wp_mono; [apply wp_free_pt_range; try done; lia|].
    intros [] st1 [D1 D2 D3 D4 D5 D6 D7]. cbn beta. apply wp_lift_pa.
    change (f * 4096) with (f * PAGE_SIZE).
    assert (pa_owned (palloc st1) f 0) as Hf1.
    { apply D3; [done|]. intros i Hi Hp. apply not_eq_sym, (pk_table _ _ Hok); [lia|done]. }
    eapply wp_mono; [by apply (pa_free_law (palloc st1) f 0)|].
    intros [] s (Hs & Htk & _). cbn beta. simpl. split_and!; [done| | |done|done].
    - intros j. rewrite Htk, D2. unfold in_block. simpl.
      assert (¬ f ≤ j < f + 1 ↔ j ≠ f) as -> by lia. tauto.
    - intros x Hx. apply D5. intros i Hi. unfold PAGE_SIZE in *. lia. }
  apply wp_run in Hw as ([] & st' & ?). eauto.
Qed.
End Vmm.

(** ** A small address space

    The directory is frame 6; its entry 0 leads to a table in frame 1, whose
    entry 1 maps the page at 4096 to frame 7, for user code. *)

Definition booted2 : bstate := final_state (buddy_alloc_pages 4096 DMA_ZONE) booted1.

Lemma booted2_run : buddy_alloc_pages 4096 DMA_ZONE booted1 = Done (4096, booted2).
Proof. unfold booted2. apply run_final. vm_compute. reflexivity. Qed.

Lemma buddy_alloc_keeps s s1 size z r p o : buddy_ok s → z ≠ INVALID_ZONE →
  buddy_alloc_pages size z s = Done (r, s1) → r ≠ 0 → allocated s p o → allocated s1 p o.
Proof.
  intros Hok Hz E Hr Hal. pose proof (pa_alloc_law s size z Hok Hz) as HW.
  unfold wp in HW. simpl in HW. rewrite E in HW.
  destruct HW as [[? _]|(q & _ & _ & _ & _ & _ & _ & Hkeep)]; [done|]. by apply Hkeep.
Qed.

Lemma booted2_allocated : buddy_ok booted2 ∧ allocated booted2 1 0 ∧ allocated booted2 6 0.
Proof.
  destruct booted1_allocated as [Hok1 H6].
  pose proof (buddy_alloc_result booted1 4096 DMA_ZONE 4096 booted2 Hok1 ltac:(discriminate)
    booted2_run ltac:(discriminate)) as [Hok2 H1].
  pose proof (buddy_alloc_keeps booted1 booted2 4096 DMA_ZONE 4096 6 0 Hok1 ltac:(discriminate)
    booted2_run ltac:(discriminate) H6) as H6'.
  split; [exact Hok2|]. split; [exact H1|exact H6'].
Qed.

Definition small_mem : Z → Z := <[1 * 4096 + 4 * 1 := 28679]> (<[6 * 4096 + 4 * 0 := 4103]> (λ _, 0)).

Definition small : vmm bstate := Vmm small_mem booted2 24576 [].

Lemma small_dir i : 0 ≤ i < 1024 → entry small_mem 6 i = if decide (i = 0) then 4103 else 0.
Proof.
  intros Hi. unfold entry, small_mem. rewrite !pm_insert. repeat case_decide; lia.
Qed.

Lemma small_pt i : 0 ≤ i < 1024 → entry small_mem 1 i = if decide (i = 1) then 28679 else 0.
Proof.
  intros Hi. unfold entry, small_mem. rewrite !pm_insert. repeat case_decide; lia.
Qed.

Lemma small_ok : pd_ok small 6.
Proof.
  destruct booted2_allocated as (Hok & H1 & H6).
  assert (∀ i, 0 ≤ i < 1024 → present (entry small_mem 6 i) = true → i = 0) as H0.
  { intros i Hi. rewrite small_dir by done. by case_decide. }
  assert (table small_mem 6 0 = 1) as Ht by reflexivity.
  split; simpl; [done|unfold low_frame; lia|..].
  - by apply (allocated_not_free _ 6 0).
  - intros i Hi. rewrite small_dir by done. case_decide; unfold W32; lia.
  - intros i Hi Hp%H0; [|done]. subst. rewrite Ht. split; [unfold low_frame; lia|].
    split; [|lia]. by apply (allocated_not_free _ 1 0).
  - intros i j Hi Hj Hne Hp%H0 Hq%H0; lia.
  - intros i j Hi Hj Hp%H0; [|done]. subst. rewrite Ht, small_pt by done. case_decide; unfold W32; lia.
Qed.

Lemma vmm_map_page_correct_witness :
  ∃ r st', vmm_map_page (6 * 4096) 8192 (5 * 4096) 7 small = Done (r, st') ∧ pd_ok st' 6 ∧
    (r = false → st' = small ∧ present (entry (pmem small) 6 (GET_PDE_INDEX 8192)) = false ∧
       no_table_frame (palloc small)) ∧
    (r = true → ∀ v', 0 ≤ v' < W32 → ∃ a,
       vmm_get_mapping (6 * 4096) v' st' = Done (a, st') ∧
       if decide (v' / 4096 = 8192 / 4096) then a = 5 * 4096 + v' mod 4096
       else vmm_get_mapping (6 * 4096) v' small = Done (a, small)) ∧
    (r = true → cr3 small = 6 * 4096 →
       cr3 st' = 6 * 4096 ∧ (ReloadCr3 (6 * 4096) ∈ flushes st' ∨ Invlpg 8192 ∈ flushes st')).
Proof.
  apply (vmm_map_page_correct small 6 8192 5 7 small_ok);
    [split; [discriminate|reflexivity]..|reflexivity].
Defined.


Lemma vmm_verify_range_flags_correct_witness :
  ∃ r, vmm_verify_range_flags (6 * 4096 + KERNEL_VADDR_BASE) 4100 4092 4 4 small = Done (r, small) ∧
    (r = 0 ∨ r = -1) ∧
    (r = 0 ↔ ∀ q, 4100 / 4096 ≤ q ≤ (4100 + 4092 - 1) / 4096 →
       page_allows (pmem small) 6 (Z.lor 4 1) (Z.lor 4 1) q).
Proof.
  apply (vmm_verify_range_flags_correct small 6 4100 4092 4 4 small_ok);
    [discriminate|reflexivity|reflexivity|reflexivity].
Defined.

Lemma vmm_destroy_user_pd_correct_witness :
  ∃ st', vmm_destroy_user_pd (6 * 4096) small = Done (tt, st') ∧ pa_ok (palloc st') ∧
    (∀ j, pa_taken (palloc st') j ↔ pa_taken (palloc small) j ∧ j ≠ 6 ∧
       ∀ i, 0 ≤ i < 768 → present (entry (pmem small) 6 i) = true → j ≠ table (pmem small) 6 i) ∧
    (∀ x, ¬ 6 * 4096 ≤ x < 6 * 4096 + 3072 → pmem st' x = pmem small x) ∧
    cr3 st' = cr3 small ∧ flushes st' = flushes small.
Proof.
  apply (vmm_destroy_user_pd_correct small 6 small_ok); [exact (proj2 (proj2 booted2_allocated))|].
  intros i Hi Hp. change (pmem small) with small_mem in *. rewrite small_dir in Hp by lia.
  destruct (decide (i = 0)) as [->|]; [exact (proj1 (proj2 booted2_allocated))|discriminate].
Defined.
