(* ===== verification/VmmBootThm.v ===== *)
(** * Paging: the kernel directory built at boot

    [vmm_finalize] maps the first 896 MiB of physical memory at
    [KERNEL_VADDR_BASE] and nothing else. *)

From S2P Require Import Prelude Dlist Memory Page Buddy BuddyInv BuddySpec BuddyThm PageAlloc.
From S2P Require Import BootAlloc BootAllocInv BootAllocThm BootInitThm Vmm VmmThm.

(** ** What the two boot allocations give *)

(** A successful [boot_alloc_at] gives a page-aligned block of the free
    regions, inside the window. *)
Lemma boot_alloc_at_page b b' z size keep r : zone_ok b z → z ≠ INVALID_ZONE →
  0 < size ≤ 4194304 →
  tlen (free_zones b z) < MAX_REGIONS → tlen (res_zones b z) < MAX_REGIONS →
  tlen (allocations b) < MAX_REGIONS →
  boot_alloc_at size z keep 0 4194304 4096 b = Done (r, b') → r ≠ 0 →
  (4096 | r) ∧ 0 < r ∧ r + size ≤ 4194304 ∧ boot_alloc_post b b' z r size keep.
Proof.
  intros Hok Hz Hs H1 H2 H3 E Hr. unfold boot_alloc_at, mbind, M_bind, gets in E. simpl in E.
  destruct (frozen b); [cbv in E; congruence|].
  rewrite (proj2 (Z.eqb_neq size 0)) in E by lia.
  rewrite (u32_small (0 + size)), (proj2 (Z.ltb_ge _ _)) in E by (unfold W32; lia). simpl in E.
  rewrite bool_decide_eq_false_2 in E by done.
  pose proof (boot_alloc_at_loop_spec b z size keep 0 4194304 12 Hok ltac:(lia) ltac:(lia) ltac:(lia)
    ltac:(lia) ltac:(simpl; unfold W32; lia) H1 H2 H3 (length (free_zones b z)) 0 eq_refl) as HW.
  unfold wp in HW. change (2 ^ 12) with 4096 in HW. rewrite E in HW.
  destruct HW as [[-> _]|(reg & _ & (Hd & _ & H0 & _ & He) & _ & Hpost)]; [done|].
  split_and!; [done|lia|lia|done].
Qed.

(** ** The writes of the two loops *)

(** The directory in frame [P] with tables in frames [T] to [T + n - 1]. *)
Record linear_upto (P T n : Z) (m : Z → Z) : Prop := {
  lu_dir : ∀ k, 0 ≤ k < 1024 → entry m P k =
    if decide (768 ≤ k < 768 + n) then (T + (k - 768)) * 4096 + 3 else 0;
  lu_pt : ∀ i j, 0 ≤ i < n → 0 ≤ j < 1024 → entry m (T + i) j = (i * 1024 + j) * 4096 + 3 }.

Lemma flags3 a : 0 ≤ a → Z.lor (Z.lor (a * 4096) PDE_PRESENT_BIT) PDE_RW_BIT = a * 4096 + 3.
Proof. intros Ha. rewrite <- Z.lor_assoc. change (Z.lor PDE_PRESENT_BIT PDE_RW_BIT) with 3. by rewrite lor_frame. Qed.

Section Finalize.
Context (P T : Z) (HP : 0 < P < 1024) (HT : 0 < T ∧ T + 224 ≤ 1024) (HPT : ¬ T ≤ P < T + 224).

(** The inner loop fills one table. *)
Lemma wp_fill_table i s (Q : unit → vboot → Prop) : 0 ≤ i < 224 →
  (∀ m, (∀ j, 0 ≤ j < 1024 → entry m (T + i) j = (i * 1024 + j) * 4096 + 3) →
     (∀ f j, 0 ≤ j < 1024 → f ≠ T + i → entry m f j = entry (vb_mem s) f j) →
     Q tt (VBoot (vb_boot s) m (kpage_dir s) (vb_cr3 s))) →
  wp (for_ 1024 0 (λ j, st_id ((T + i) * 4096 ⊞ 4 * j)
       (Z.lor (Z.lor ((i * 4 * MiB_SIZE) ⊞ j * PAGE_SIZE) PTE_PRESENT_BIT) PTE_RW_BIT))) s Q.
Proof.
  intros Hi HQ.
  set (I := λ k s', vb_boot s' = vb_boot s ∧ kpage_dir s' = kpage_dir s ∧ vb_cr3 s' = vb_cr3 s ∧
    (∀ j, 0 ≤ j < k → entry (vb_mem s') (T + i) j = (i * 1024 + j) * 4096 + 3) ∧
    (∀ f j, 0 ≤ j < 1024 → f ≠ T + i → entry (vb_mem s') f j = entry (vb_mem s) f j)).
  eapply wp_mono; [apply wp_for with (I := I)|].
  - unfold I. split_and!; try done. lia.
  - intros k s' Hk (E1 & E2 & E3 & E4 & E5). unfold st_id. apply wp_modify.
    unfold MiB_SIZE, PAGE_SIZE. change PTE_PRESENT_BIT with PDE_PRESENT_BIT. change PTE_RW_BIT with PDE_RW_BIT.
    rewrite (u32_small (i * 4 * 1048576 + k * 4096)), (u32_small ((T + i) * 4096 + 4 * k)) by (unfold W32; lia).
    replace (i * 4 * 1048576 + k * 4096) with ((i * 1024 + k) * 4096) by lia. rewrite flags3 by lia.
    unfold I. split_and!; simpl; try done.
    + intros j Hj. unfold entry. rewrite pm_insert. case_decide; [repeat f_equal; lia|]. apply E4. lia.
    + intros f j Hj Hf. unfold entry. rewrite pm_insert, decide_False; [by apply E5|].
      apply word_ne; [done|lia|]. congruence.
  - intros [] [b' m' k' c'] (E1 & E2 & E3 & E4 & E5). simpl in *. subst. by apply HQ.
Qed.

Lemma wp_fill_tables s : linear_upto P T 0 (vb_mem s) →
  wp (for_ (Z.to_nat pt_count) 0 (λ i,
        let pde_idx := 768 + i in
        let current_pt_phys_addr := T * 4096 ⊞ i * PAGE_SIZE in
        st_id (P * 4096 ⊞ 4 * pde_idx)
          (Z.lor (Z.lor current_pt_phys_addr PDE_PRESENT_BIT) PDE_RW_BIT) ;;
        bzero_id current_pt_phys_addr ;;
        for_ 1024 0 (λ j,
          let p_addr := (i * 4 * MiB_SIZE) ⊞ j * PAGE_SIZE in
          st_id (current_pt_phys_addr ⊞ 4 * j) (Z.lor (Z.lor p_addr PTE_PRESENT_BIT) PTE_RW_BIT)))) s
    (λ _ s', vb_boot s' = vb_boot s ∧ linear_upto P T 224 (vb_mem s')).
Proof.
  intros H0. cbn zeta.
  eapply wp_mono; [apply wp_for with (I := λ n s', vb_boot s' = vb_boot s ∧ linear_upto P T n (vb_mem s'))|].
  - done.
  - intros i s' Hi [Eb [Ld Lp]]. assert (0 ≤ i < 224) as Hi' by (change 224 with (0 + Z.of_nat (Z.to_nat pt_count)); done).
    change PAGE_SIZE with 4096. rewrite (u32_small (T * 4096 + i * 4096)) by (unfold W32; lia).
    replace (T * 4096 + i * 4096) with ((T + i) * 4096) by lia.
    rewrite (u32_small (P * 4096 + _)), flags3 by (unfold W32; lia).
    wp_step. unfold st_id at 1. apply wp_modify. wp_step. unfold bzero_id. apply wp_modify.
    apply wp_fill_table; [done|]. intros m Hm1 Hm2. simpl in Hm2. simpl. split; [done|].
    assert (∀ f j, 0 ≤ j < 1024 → f ≠ T + i → entry m f j =
      if decide (f = P ∧ j = 768 + i) then (T + i) * 4096 + 3 else entry (vb_mem s') f j) as Hm.
    { intros f j Hj Hf. rewrite Hm2 by done. unfold entry at 1.
      replace (_ && _) with false.
      2: { symmetry. unfold PAGE_SIZE. apply andb_false_iff. rewrite Z.leb_gt, Z.ltb_ge. lia. }
      rewrite pm_insert. repeat case_decide; try done; exfalso.
      - assert (f = P) as -> by lia. lia.
      - intuition (subst; lia). }
    split.
    + intros k Hk. rewrite Hm by lia. repeat case_decide; try lia; rewrite Ld by done; repeat case_decide; lia.
    + intros i' j Hr' Hj. destruct (decide (i' = i)) as [->|]; [by apply Hm1|].
      rewrite Hm by lia. rewrite decide_False by lia. apply Lp; lia.
  - intros [] s' Hs. exact Hs.
Qed.

End Finalize.

(** The translation of a finished linear mapping. *)
Lemma linear_translate P T m : 0 < T → T + 224 ≤ 1024 → linear_upto P T 224 m →
  ∀ v, 0 ≤ v < W32 → translate m (P * 4096) v =
    if decide (KERNEL_VADDR_BASE ≤ v < KERNEL_VADDR_BASE + 224 * 4194304)
    then v - KERNEL_VADDR_BASE else 0.
Proof.
  intros HT1 HT2 [Ld Lp] v Hv. destruct (index_range v Hv) as [Hi Hj].
  unfold translate. fold (entry m P (GET_PDE_INDEX v)).
  assert (GET_PDE_INDEX v = v / 4194304) as Ei.
  { unfold GET_PDE_INDEX. by rewrite Z.shiftr_div_pow2 by lia. }
  assert (GET_PTE_INDEX v = (v / 4096) mod 1024) as Ej.
  { unfold GET_PTE_INDEX. change 1023 with (Z.ones 10). by rewrite Z.land_ones, Z.shiftr_div_pow2 by lia. }
  pose proof (Z.div_mod v 4194304 ltac:(lia)) as Dv. pose proof (Z.mod_pos_bound v 4194304 ltac:(lia)) as Bv.
  rewrite <- Ei in Dv. rewrite Ld by done. unfold KERNEL_VADDR_BASE.
  case_decide as C; case_decide as C'; try lia; [|done].
  set (i := GET_PDE_INDEX v - 768) in *. assert (0 ≤ i < 224) as Hi' by lia.
  assert (∀ a, 0 ≤ a < MAX_PAGES → present (a * 4096 + 3) = true ∧
    GET_ENTRY_ADDR (a * 4096 + 3) = a * 4096) as Hpa.
  { intros a Ha. rewrite <- lor_frame by lia. destruct (mk_entry a 3 Ha ltac:(lia)) as (_ & -> & Hf).
    split; [|done]. unfold present. by rewrite Hf. }
  destruct (Hpa (T + i)) as [-> ->]; [unfold MAX_PAGES; lia|]. cbn zeta.
  fold (entry m (T + i) (GET_PTE_INDEX v)). rewrite Lp by done.
  destruct (Hpa (i * 1024 + GET_PTE_INDEX v)) as [-> ->]; [unfold MAX_PAGES; lia|].
  change 4095 with (Z.ones 12). rewrite Z.land_ones by lia. change (2 ^ 12) with 4096.
  pose proof (Z.div_mod v 4096 ltac:(lia)). pose proof (Z.mod_pos_bound v 4096 ltac:(lia)).
  pose proof (Z.div_mod (v / 4096) 1024 ltac:(lia)) as Dp. rewrite <- Ej in Dp.
  assert (v / 4096 / 1024 = GET_PDE_INDEX v) as E2 by (rewrite Ei, Z.div_div by lia; done).
  rewrite E2 in Dp. rewrite u32_small by (unfold W32; lia). lia.
Qed.

(** When the boot allocator has room for the directory and the 224 page
    tables, [vmm_finalize] takes exactly these two blocks and loads a
    directory that maps [[0xC0000000, 0xF8000000)] linearly onto physical
    memory from 0 and maps nothing else. *)
Theorem vmm_finalize_correct (b b1 b2 : boot_allocator) (m : Z → Z) (k0 c0 pd pool : Z) :
  zone_ok b DMA_ZONE →
  tlen (free_zones b DMA_ZONE) < MAX_REGIONS → tlen (res_zones b DMA_ZONE) < MAX_REGIONS →
  tlen (allocations b) < MAX_REGIONS →
  tlen (free_zones b1 DMA_ZONE) < MAX_REGIONS → tlen (res_zones b1 DMA_ZONE) < MAX_REGIONS →
  tlen (allocations b1) < MAX_REGIONS →
  boot_alloc_at PAGE_SIZE DMA_ZONE true 0 (MiB_SIZE * 4) PAGE_SIZE b = Done (pd, b1) → pd ≠ 0 →
  boot_alloc_at (pt_count * PAGE_SIZE) DMA_ZONE true 0 (MiB_SIZE * 4) PAGE_SIZE b1 = Done (pool, b2) →
  pool ≠ 0 →
  ∃ m', vmm_finalize (VBoot b m k0 c0) = Done (tt, VBoot b2 m' pd pd) ∧
    ∀ v, 0 ≤ v < W32 → translate m' pd v =
      if decide (KERNEL_VADDR_BASE ≤ v < KERNEL_VADDR_BASE + 224 * 4194304)
      then v - KERNEL_VADDR_BASE else 0.
Proof.
  intros Hok F1 R1 A1 F2 R2 A2 E1 Hpd E2 Hpool.
  change (MiB_SIZE * 4) with 4194304 in *. change PAGE_SIZE with 4096 in E1, E2.
  change (pt_count * 4096) with 917504 in *.
  destruct (boot_alloc_at_page b b1 DMA_ZONE 4096 true pd Hok ltac:(discriminate) ltac:(lia)
    F1 R1 A1 E1 Hpd) as ([P ->] & HP1 & HP2 & Post1).
  destruct (boot_alloc_at_page b1 b2 DMA_ZONE 917504 true pool (bp_ok _ _ _ _ _ _ Post1)
    ltac:(discriminate) ltac:(lia) F2 R2 A2 E2 Hpool) as ([T ->] & HT1 & HT2 & Post2).
  assert (¬ T ≤ P < T + 224) as HPT.
  { intros HPT. destruct (proj1 (bp_free _ _ _ _ _ _ Post1 (P * 4096))) as [_ []]; [|lia].
    apply (bp_was_free _ _ _ _ _ _ Post2). lia. }
  assert (wp vmm_finalize (VBoot b m k0 c0) (λ _ s', vb_boot s' = b2 ∧ kpage_dir s' = P * 4096 ∧
    vb_cr3 s' = P * 4096 ∧ linear_upto P T 224 (vb_mem s'))) as HW.
  { unfold vmm_finalize. change (MiB_SIZE * 4) with 4194304. change (pt_count * PAGE_SIZE) with 917504.
    change PAGE_SIZE with 4096. wp_step. unfold wp at 1. unfold lift_boot at 1. cbn [vb_boot]. rewrite E1.
    rewrite (proj2 (Z.eqb_neq _ _)) by done. wp_step. unfold bzero_id at 1. apply wp_modify.
    wp_step. unfold wp at 1. unfold lift_boot at 1. cbn [vb_boot]. rewrite E2.
    rewrite (proj2 (Z.eqb_neq _ _)) by done. wp_step.
    eapply wp_mono; [apply (wp_fill_tables P T); try lia|].
    - split; [|lia]. intros k Hk. rewrite decide_False by lia. unfold entry. simpl.
      by rewrite (proj2 (Z.leb_le _ _)), (proj2 (Z.ltb_lt _ _)) by (unfold PAGE_SIZE; lia).
    - intros [] s' [Eb HL]. wp_step. apply wp_modify, wp_modify.
      split_and!; [exact Eb|reflexivity|reflexivity|exact HL]. }
  apply wp_run in HW as ([] & [b' m' k' c'] & E & Eb & Ek & Ec & HL). simpl in *. subst.
  exists m'. split; [done|]. apply (linear_translate P T); [lia..|done].
Qed.

(** The boot allocator after the directory was taken. *)
Definition ready1 : boot_allocator :=
  final_state (boot_alloc_at PAGE_SIZE DMA_ZONE true 0 (MiB_SIZE * 4) PAGE_SIZE) ready.

Definition ready2 : boot_allocator :=
  final_state (boot_alloc_at (pt_count * PAGE_SIZE) DMA_ZONE true 0 (MiB_SIZE * 4) PAGE_SIZE) ready1.

Lemma vmm_finalize_correct_witness :
  ∃ pd m', vmm_finalize (VBoot ready (λ _, 0) 0 0) = Done (tt, VBoot ready2 m' pd pd) ∧
    ∀ v, 0 ≤ v < W32 → translate m' pd v =
      if decide (KERNEL_VADDR_BASE ≤ v < KERNEL_VADDR_BASE + 224 * 4194304)
      then v - KERNEL_VADDR_BASE else 0.
Proof.
  assert (∃ pd, boot_alloc_at PAGE_SIZE DMA_ZONE true 0 (MiB_SIZE * 4) PAGE_SIZE ready = Done (pd, ready1)
    ∧ pd ≠ 0) as (pd & E1 & H1).
  { eexists. split; [unfold ready1; apply run_final; vm_compute; reflexivity|discriminate]. }
  assert (∃ p, boot_alloc_at (pt_count * PAGE_SIZE) DMA_ZONE true 0 (MiB_SIZE * 4) PAGE_SIZE ready1
    = Done (p, ready2) ∧ p ≠ 0) as (p & E2 & H2).
  { eexists. split; [unfold ready2; apply run_final; vm_compute; reflexivity|discriminate]. }
  exists pd. apply (vmm_finalize_correct ready ready1 ready2 (λ _, 0) 0 0 pd p (ready_zones DMA_ZONE));
    [vm_compute; congruence..|exact E1|exact H1|exact E2|exact H2].
Defined.
