(* ===== verification/KernelInit.v ===== *)
(** * The memory side of the kernel's initialisation (init in src/arch/x86/x86.c)

    [mb2_init], [vmm_finalize], [page_descriptor_init], [buddy_init] and
    [slab_init] in the order [init] calls them, over one machine: what the
    allocators own at the end, address by address, from the boot loader's
    memory map. *)

From S2P Require Import Prelude Dlist Memory Page Buddy BuddyInv BuddySpec BuddyThm.
From S2P Require Import BootAlloc BootAllocInv BootAllocThm BootInitThm Multiboot.
From S2P Require Import Slab SlabInv KmallocThm PageAlloc Vmm VmmThm VmmBootThm.

(** ** The machine

    The globals [total_pages] and [bootmem.state] are shared by the boot
    allocator and the buddy allocator: a buddy operation runs on the values of
    the boot allocator, and what it leaves in [bootmem.state] is kept. *)

Record machine := Machine {
  m_boot : vboot;              (* bootmem, the zone tables, physical memory, kpage_dir, CR3 *)
  m_heap : kstate;             (* the page descriptors, the buddy and slab allocators *)
  m_descriptors : Z }.         (* the pointer page_descriptors *)

Definition on_boot {A} (c : M vboot A) : M machine A := λ s,
  match c (m_boot s) with
  | Done (a, v) => Done (a, Machine v (m_heap s) (m_descriptors s))
  | Panic m => Panic m
  | Fault => Fault
  | Hang => Hang
  end.

Definition on_heap {A} (c : M kstate A) : M machine A := λ s,
  match c (m_heap s) with
  | Done (a, h) => Done (a, Machine (m_boot s) h (m_descriptors s))
  | Panic m => Panic m
  | Fault => Fault
  | Hang => Hang
  end.

Definition boot_globals (b : boot_allocator) (s : bstate) : bstate :=
  BState (page_descriptors s) (nodes s) (nr_free s) (b_total_pages b) (frozen b).

Definition set_frozen (f : bool) (b : boot_allocator) : boot_allocator :=
  BootAllocator f (allocations b) (regions b) (free_zones b) (res_zones b) (b_total_pages b) (total_RAM b).

Definition on_buddy {A} (c : M bstate A) : M machine A := λ s,
  let v := m_boot s in
  let h := m_heap s in
  match c (boot_globals (vb_boot v) (kbuddy h)) with
  | Done (a, s') =>
      Done (a, Machine (VBoot (set_frozen (boot_frozen s') (vb_boot v)) (vb_mem v) (kpage_dir v) (vb_cr3 v))
                 (KState s' (kwords h) (slabs h) (slab_caches h)) (m_descriptors s))
  | Panic m => Panic m
  | Fault => Fault
  | Hang => Hang
  end.

Definition SIZEOF_page : Z := 16.

(** The loop of [page_descriptor_init]: the flags of frame [i] come from the zone tables. *)
Definition fill_descriptor (i : Z) : M machine unit :=
  b ← gets (λ s, vb_boot (m_boot s)) ;
  on_buddy (store_page i (Page.page_descriptor_init (free_zones b) (res_zones b) i)).

Definition page_descriptor_init : M machine unit :=
  p_addr ← on_boot (lift_boot (boot_alloc (MAX_PAGES ⊠ SIZEOF_page) LOWMEM_ZONE true)) ;
  if p_addr =? 0 then kpanic "Failed to allocate page descriptors!"
  else
    v ← PHYS_TO_VIRT_LINEAR p_addr ;
    modify (λ s, Machine (m_boot s) (m_heap s) v) ;;
    for_ (Z.to_nat MAX_PAGES) 0 fill_descriptor.

Section Init.
(** The words of the boot information, and the fuel of its walk. *)
Context (word : Z → Z) (limit : nat).

Definition init_memory (env : boot_env) (mb2_magic mb2_mbi : Z) : M machine unit :=
  on_boot (lift_boot (mb2_init word limit env mb2_magic mb2_mbi)) ;;
  on_boot vmm_finalize ;;
  page_descriptor_init ;;
  on_buddy buddy_init ;;
  on_heap slab_init.

End Init.

(** ** What [boot_allocator_init] leaves in the globals *)

Definition wide (r : region) : Prop := 0 ≤ start r < W32 ∧ 0 ≤ end_ r < W32.

Record globals_ok (b : boot_allocator) : Prop := {
  go_frozen : frozen b = false;
  go_log : allocations b = [];
  go_wide : ∀ t, Forall wide (regions b t);
  go_total : 0 ≤ b_total_pages b < MAX_PAGES }.

(** [c] returns only states that keep the globals in order, with results in [R]. *)
Definition keeps {A} (R : A → Prop) (c : M boot_allocator A) : Prop :=
  ∀ b a b', globals_ok b → c b = Done (a, b') → globals_ok b' ∧ R a.

Create HintDb keepdb.

Lemma globals_kept_ret {A} (R : A → Prop) a : R a → keeps R (mret a).
Proof. intros H b a' b' Hb [= <- <-]. done. Qed.

Lemma globals_kept_bind {A B} (R : A → Prop) (Q : B → Prop) (c : M boot_allocator A) f :
  keeps R c → (∀ a, R a → keeps Q (f a)) → keeps Q (mbind f c).
Proof.
  intros Hc Hf b x b' Hb E. unfold mbind, M_bind in E. destruct (c b) as [[a b1]| | |] eqn:E1; try done.
  destruct (Hc _ _ _ Hb E1) as [Hb1 Ha]. by apply (Hf a Ha b1 x b').
Qed.

Lemma globals_kept_gets {A} (R : A → Prop) (f : boot_allocator → A) :
  (∀ b, globals_ok b → R (f b)) → keeps R (gets f).
Proof. intros H b a b' Hb [= <- <-]. auto. Qed.

Lemma globals_kept_modify f : (∀ b, globals_ok b → globals_ok (f b)) → keeps (λ _, True) (modify f).
Proof. intros H b a b' Hb [= _ <-]. auto. Qed.

Lemma globals_kept_lift {A} (R : A → Prop) (o : outcome A) : (∀ a, o = Done a → R a) → keeps R (lift o).
Proof. intros H b a b' Hb E. unfold lift in E. destruct o; try done. injection E as <- <-. auto. Qed.

Lemma globals_kept_panic {A} (R : A → Prop) m : keeps R (kpanic m).
Proof. done. Qed.

Lemma globals_kept_fault {A} (R : A → Prop) : keeps R fault.
Proof. done. Qed.

Lemma globals_kept_weaken {A} (R Q : A → Prop) (c : M boot_allocator A) : keeps R c → (∀ a, R a → Q a) → keeps Q c.
Proof. intros H HQ b a b' Hb E. destruct (H _ _ _ Hb E). auto. Qed.

(** *** Tables stay within the machine's addresses *)

Lemma merge_loop_wide rest cur acc out : Forall wide (cur :: rest) → Forall wide acc →
  merge_loop cur rest acc = Done out → Forall wide out.
Proof.
  revert cur acc. induction rest as [|r rest IH]; intros cur acc Hw Ha; cbn [merge_loop]; unfold push_merged.
  - case_match; [|done]. intros [= <-]. apply Forall_app. split; [done|]. exact Hw.
  - apply Forall_cons in Hw as [Hc [Hr Hrest]%Forall_cons]. case_match.
    + apply IH; [|done]. apply Forall_cons. split; [|done]. destruct Hc, Hr. by split.
    + case_match; [|done]. cbn [obind]. apply IH; [by apply Forall_cons|].
      apply Forall_app. split; [done|]. by apply Forall_singleton.
Qed.

Lemma sort_and_merge_wide l out : Forall wide l → BOOT_ALLOCATOR_SORT_AND_MERGE l = Done out → Forall wide out.
Proof.
  unfold BOOT_ALLOCATOR_SORT_AND_MERGE, boot_allocator_merge_contiguous_regions. intros Hl.
  destruct (boot_allocator_sort_regions_spec l) as [_ P1].
  destruct (boot_allocator_sort_regions l) as [|cur l1] eqn:E1; [by intros [= <-]|]. rewrite <- P1 in Hl.
  destruct (boot_allocator_sort_regions_spec (cur :: l1)) as [_ P2]. rewrite <- P2 in Hl.
  intros H. eapply merge_loop_wide; [|by apply Forall_nil_2|exact H].
  apply Forall_cons. split; [|by apply Forall_drop].
  rewrite P2 in Hl. by apply Forall_cons in Hl as [? _].
Qed.

Lemma globals_set_regions t l b : globals_ok b → Forall wide l → globals_ok (set_regions t l b).
Proof. intros [? ? ? ?] Hl. split; try done. intros t'. rewrite regions_set. by case_decide. Qed.

Lemma globals_kept_add_region s e t : 0 ≤ s < W32 → 0 ≤ e < W32 → keeps (λ _, True) (boot_allocator_add_region s e t).
Proof.
  intros Hs He. unfold boot_allocator_add_region. repeat case_match; try (by apply globals_kept_panic); [by apply globals_kept_ret|].
  eapply (globals_kept_bind (Forall wide)); [apply globals_kept_gets; intros b Hb; apply Hb|]. intros l Hl.
  case_match; [apply globals_kept_panic|]. apply globals_kept_modify. intros b Hb. apply globals_set_regions; [done|].
  apply Forall_app. split; [done|]. by apply Forall_singleton.
Qed.

Lemma globals_kept_sort_and_merge t : keeps (λ _, True) (sort_and_merge_regions t).
Proof.
  unfold sort_and_merge_regions. eapply (globals_kept_bind (Forall wide)); [apply globals_kept_gets; intros b Hb; apply Hb|].
  intros l Hl. eapply (globals_kept_bind (Forall wide)); [apply globals_kept_lift; intros a; by apply sort_and_merge_wide|].
  intros out Ho. apply globals_kept_modify. intros b Hb. by apply globals_set_regions.
Qed.

Lemma globals_kept_free_piece cur e : 0 ≤ cur < W32 → 0 ≤ e < W32 → keeps (λ _, True) (add_free_piece cur e).
Proof.
  intros Hc He. unfold add_free_piece. case_match; [|by apply globals_kept_ret].
  eapply (globals_kept_bind (λ _, True)); [by apply globals_kept_gets|]. intros o _.
  case_match; [by apply globals_kept_add_region|by apply globals_kept_ret].
Qed.

Lemma globals_kept_free_handler_loop ress cur e : Forall wide ress → 0 ≤ cur < W32 → 0 ≤ e < W32 →
  keeps (λ _, True) (free_handler_loop ress cur e).
Proof.
  revert cur. induction ress as [|r ress IH]; intros cur Hw Hc He; cbn [free_handler_loop]; [by apply globals_kept_free_piece|].
  apply Forall_cons in Hw as [[H1 H2] Hw]. case_match; [by apply IH|].
  eapply (globals_kept_bind (λ _, True)); [by apply globals_kept_free_piece|]. intros [] _.
  repeat case_match; try (by apply globals_kept_ret); by apply IH.
Qed.

Lemma globals_kept_free_handler s e : 0 ≤ s < W32 → 0 ≤ e < W32 → keeps (λ _, True) (boot_allocator_free_handler s e).
Proof.
  intros. unfold boot_allocator_free_handler.
  eapply (globals_kept_bind (Forall wide)); [apply globals_kept_gets; intros b Hb; apply Hb|]. intros l Hl.
  by apply globals_kept_free_handler_loop.
Qed.

Lemma globals_kept_total_size s e : keeps (λ _, True) (boot_allocator_init_total_size s e).
Proof.
  unfold boot_allocator_init_total_size. eapply (globals_kept_bind (λ _, True)); [by apply globals_kept_gets|]. intros r _.
  apply globals_kept_modify. by intros b [].
Qed.

Lemma globals_kept_mmap_iter mmap handler free : (∀ s e, 0 ≤ s < W32 → 0 ≤ e < W32 → keeps (λ _, True) (handler s e)) →
  keeps (λ _, True) (mb2_mmap_iter mmap handler free).
Proof.
  intros Hh. induction mmap as [|e mmap IH]; cbn [mb2_mmap_iter]; [by apply globals_kept_ret|].
  eapply (globals_kept_bind (λ _, True)); [|by intros [] _].
  repeat case_match; try (by apply globals_kept_ret). apply Hh; apply u32_range.
Qed.

Lemma globals_kept_reserve_virt s e : keeps (λ _, True) (reserve_virt s e).
Proof.
  assert (∀ v, keeps (λ p, 0 ≤ p < W32) (VIRT_TO_PHYS_LINEAR v)) as Hv.
  { intros v. unfold VIRT_TO_PHYS_LINEAR, assert_. eapply (globals_kept_bind (λ _, True)).
    - case_match; [by apply globals_kept_ret|apply globals_kept_panic].
    - intros _ _. apply globals_kept_ret, u32_range. }
  unfold reserve_virt. eapply globals_kept_bind; [apply Hv|]. intros p Hp. cbn beta in Hp.
  eapply globals_kept_bind; [apply Hv|]. intros q Hq. cbn beta in Hq. by apply globals_kept_add_region.
Qed.

Lemma globals_kept_fill_gaps_loop l : Forall wide l → keeps (λ _, True) (fill_gaps_loop l).
Proof.
  induction l as [|r l IH]; intros Hl; [by apply globals_kept_ret|]. destruct l as [|r' l]; [by apply globals_kept_ret|].
  cbn [fill_gaps_loop]. apply Forall_cons in Hl as [Hr Hl]. pose proof Hl as [Hr' _]%Forall_cons.
  eapply (globals_kept_bind (λ _, True)); [|intros [] _; by apply IH].
  case_match; [|by apply globals_kept_ret]. apply globals_kept_add_region; [apply Hr|apply Hr'].
Qed.

Lemma all_regions_wide b : globals_ok b → Forall wide (boot_allocator_get_all_regions b).
Proof. intros [_ _ H _]. unfold boot_allocator_get_all_regions. rewrite !Forall_app. auto. Qed.

Lemma globals_kept_fill_gaps : keeps (λ _, True) boot_allocator_fill_gaps_as_holes.
Proof.
  unfold boot_allocator_fill_gaps_as_holes.
  eapply (globals_kept_bind globals_ok); [by apply globals_kept_gets|]. intros b Hb. case_match; [by apply globals_kept_ret|].
  eapply (globals_kept_bind (Forall wide)).
  { apply globals_kept_lift. intros a. apply sort_and_merge_wide, Forall_take. by apply all_regions_wide. }
  intros l Hl. eapply (globals_kept_bind (λ _, True)); [by apply globals_kept_fill_gaps_loop|]. intros [] _. apply globals_kept_sort_and_merge.
Qed.

Lemma globals_kept_total_ram : keeps (λ r, 0 ≤ r < W32) boot_allocator_get_total_visibale_ram.
Proof.
  unfold boot_allocator_get_total_visibale_ram. eapply (globals_kept_bind globals_ok); [by apply globals_kept_gets|].
  intros b Hb. case_match; [apply globals_kept_panic|]. eapply (globals_kept_bind (Forall wide)).
  { apply globals_kept_lift. intros a. apply sort_and_merge_wide. by apply all_regions_wide. }
  intros l Hl. destruct (last l) as [r|] eqn:E; [|apply globals_kept_fault].
  apply last_Some_elem_of in E. rewrite Forall_forall in Hl. destruct (Hl _ E) as [_ He].
  apply globals_kept_ret. case_match; [unfold W32; lia|done].
Qed.

Lemma globals_kept_init_zones get set type : (∀ z l b, globals_ok b → globals_ok (set z l b)) →
  keeps (λ _, True) (boot_allocator_init_zones get set type).
Proof.
  intros Hset. unfold boot_allocator_init_zones. eapply (globals_kept_bind (λ _, True)); [by apply globals_kept_gets|]. intros l _.
  assert (∀ fuel s e, keeps (λ _, True) (init_zones_cut fuel get set s e)) as Hcut.
  { induction fuel as [|fuel IH]; intros s e; cbn [init_zones_cut]; [done|].
    case_match; [|by apply globals_kept_ret].
    match goal with |- context [let '(_, _) := ?p in _] => destruct p as [zone zone_end] end.
    eapply (globals_kept_bind (λ _, True)); [|by intros [] _].
    match goal with |- keeps _ (if ?c then _ else _) => destruct c end; [|by apply globals_kept_ret].
    unfold push_zone. eapply (globals_kept_bind (λ _, True)); [by apply globals_kept_gets|]. intros t _.
    case_match; [apply globals_kept_modify; auto|apply globals_kept_fault]. }
  induction l as [|r l IH]; cbn [init_zones_loop]; [by apply globals_kept_ret|].
  eapply (globals_kept_bind (λ _, True)); [apply Hcut|by intros [] _].
Qed.

Lemma globals_kept_merge_zone z : keeps (λ _, True) (sort_and_merge_zone z).
Proof.
  unfold sort_and_merge_zone. eapply (globals_kept_bind (λ _, True)); [by apply globals_kept_gets|]. intros b _.
  do 2 (eapply (globals_kept_bind (λ _, True)); [by apply globals_kept_lift|]; intros ? _;
    try (eapply (globals_kept_bind (λ _, True)); [apply globals_kept_modify; by intros ? []|]; intros _ _)).
  apply globals_kept_modify. by intros ? [].
Qed.

Lemma modify_step {S A} (f : S → S) (k : M S A) s : (modify f ;; k) s = k (f s).
Proof. done. Qed.

Ltac keep_next := eapply (globals_kept_bind (λ _, True)); [|intros _ _].

#[export] Hint Resolve globals_kept_add_region globals_kept_reserve_virt globals_kept_mmap_iter globals_kept_sort_and_merge globals_kept_free_handler
  globals_kept_fill_gaps globals_kept_total_size globals_kept_merge_zone u32_range : keepdb.

Lemma boot_allocator_init_globals env mmap b b' : frozen b = false → 0 ≤ b_total_pages b < MAX_PAGES →
  0 ≤ mb2info env < W32 →
  boot_allocator_init env mmap b = Done (tt, b') → globals_ok b'.
Proof.
  intros Hf Ht Hi E. unfold boot_allocator_init in E. rewrite !modify_step in E.
  match type of E with ?c ?b1 = _ => assert (keeps (λ _, True) c) as Hk; [|eapply (Hk b1 tt b'); [|exact E]] end.
  - assert (∀ x, 0 ≤ x ≤ 1048576 → 0 ≤ x < W32) by (unfold W32; lia).
    do 7 (keep_next; [eauto with keepdb lia|]).
    keep_next; [apply globals_kept_mmap_iter; intros; by apply globals_kept_add_region|]. keep_next; [auto with keepdb|].
    do 5 (keep_next; [eauto with keepdb|]).
    eapply globals_kept_bind; [apply globals_kept_total_ram|]. intros r Hr. cbn beta in Hr. keep_next.
    { apply globals_kept_modify. intros b0 []. split; try done. cbn [b_total_pages set_total_pages].
      unfold PAGE_SIZE, MAX_PAGES, W32 in *. split; [apply Z.div_pos; lia|apply Z.div_lt_upper_bound; lia]. }
    do 2 (keep_next; [apply globals_kept_init_zones; by intros ? ? ? []|]). do 2 (keep_next; [auto with keepdb|]). auto with keepdb.
  - split; [done..| |done]. intros t. cbn [regions set_allocations]. rewrite !regions_set.
    by destruct t; cbn.
Qed.

(** ** The three blocks taken before the buddy allocator starts *)

(** The tables between two boot allocations: consistent, and every region in the table of its zone. *)
Record tables_ok (b : boot_allocator) : Prop := {
  to_zone : ∀ z, zone_ok b z;
  to_res : ∀ z a, covers (res_zones b z) a → boot_alloc_get_addr_zone a = z }.

Lemma tables_alloc b b' z r size k : tables_ok b → boot_alloc_post b b' z r size k →
  tables_ok b' ∧ ∀ z' a, covers (free_zones b' z') a ↔ covers (free_zones b z') a ∧ ¬ r ≤ a < r + size.
Proof.
  intros [Hz Hr] P. pose proof (bp_was_free _ _ _ _ _ _ P) as Hwas.
  assert (∀ a, r ≤ a < r + size → boot_alloc_get_addr_zone a = z) as Hblk by (intros a ?; by apply (Hz z), Hwas).
  split; [split|].
  - intros z'. destruct (decide (z' = z)) as [->|Hne]; [apply P|].
    destruct (bp_other _ _ _ _ _ _ P z' Hne) as [E1 E2]. destruct (Hz z'). by split; rewrite ?E1, ?E2.
  - intros z' a. destruct (decide (z' = z)) as [->|Hne].
    + rewrite (bp_res _ _ _ _ _ _ P). intros [?|?]; [by apply Hr|by apply Hblk].
    + rewrite (proj2 (bp_other _ _ _ _ _ _ P z' Hne)). apply Hr.
  - intros z' a. destruct (decide (z' = z)) as [->|Hne]; [apply P|].
    rewrite (proj1 (bp_other _ _ _ _ _ _ P z' Hne)). split; [|by intros [? _]].
    intros Hc. split; [done|]. intros Ha. apply Hne. rewrite <- (zo_zone _ _ (Hz z') a Hc). by apply Hblk.
Qed.

(** Room for the directory and the 224 tables below 4 MiB: one aligned run of 225 pages. *)
Definition tables_fit (b : boot_allocator) : Prop :=
  ∃ reg x, reg ∈ free_zones b DMA_ZONE ∧ fits reg (225 * 4096) 0 4194304 12 x.

Lemma tables_fit_after b b1 reg pd : tables_fit b → carved DMA_ZONE 4096 0 4194304 12 b b1 reg pd →
  ∃ reg' x, reg' ∈ free_zones b1 DMA_ZONE ∧ fits reg' (224 * 4096) 0 4194304 12 x.
Proof.
  intros (reg0 & x & Hin & H1 & H2 & H3 & H4 & H5) (Hlow & rest & P0 & P1).
  rewrite P0 in Hin. apply elem_of_cons in Hin as [->|Hin].
  - assert (pd ≤ x) as Hx by (apply Hlow; unfold fits; split_and!; done || lia).
    exists (Region (pd + 4096) (end_ reg)), (x + 4096). split.
    + rewrite P1. unfold around. rewrite (proj2 (Z.ltb_lt _ _)) by lia. set_solver.
    + change (2 ^ 12) with 4096 in *. unfold fits. change (2 ^ 12) with 4096. cbn [start end_].
      split_and!; [by apply Z.divide_add_r; [|exists 1]|lia..].
  - exists reg0, x. split; [rewrite P1; set_solver|]. unfold fits. split_and!; done || lia.
Qed.

Section Taken.
Context (b : boot_allocator) (Htab : tables_ok b) (Hglob : frozen b = false ∧ allocations b = []).
Context (H0 : ¬ covers (free_zones b DMA_ZONE) 0).
Context (Hroom : tlen (free_zones b DMA_ZONE) + 2 ≤ MAX_REGIONS ∧ tlen (res_zones b DMA_ZONE) + 2 ≤ MAX_REGIONS).
Context (Hfit : tables_fit b).

Lemma tables_taken : ∃ pd b1 pool b2,
  boot_alloc_at PAGE_SIZE DMA_ZONE true 0 (MiB_SIZE * 4) PAGE_SIZE b = Done (pd, b1) ∧ pd ≠ 0 ∧
  boot_alloc_at (pt_count * PAGE_SIZE) DMA_ZONE true 0 (MiB_SIZE * 4) PAGE_SIZE b1 = Done (pool, b2) ∧ pool ≠ 0 ∧
  boot_alloc_post b b1 DMA_ZONE pd 4096 true ∧ boot_alloc_post b1 b2 DMA_ZONE pool 917504 true ∧
  (4096 | pd) ∧ (4096 | pool) ∧ pd + 4096 ≤ 4194304 ∧ pool + 917504 ≤ 4194304.
Proof.
  destruct Hroom as [R1 R2], Hglob as [G1 G2]. unfold MAX_REGIONS in *.
  destruct (boot_alloc_at_run b DMA_ZONE 4096 true 0 4194304 12) as (pd & b1 & E1 & C1);
    [apply Htab|done|done|lia|lia|lia|lia|done|unfold MAX_REGIONS; lia|unfold MAX_REGIONS; lia|by rewrite G2|].
  destruct C1 as [(_ & _ & Hno)|(reg & _ & F1 & Hcar & P1)].
  { destruct Hfit as (reg & x & Hin & Hx). destruct (Hno reg x Hin).
    destruct Hx as (? & ? & ? & ? & ?). unfold fits. split_and!; done || lia. }
  destruct (tables_alloc _ _ _ _ _ _ Htab P1) as [T1 Hf1].
  pose proof (bp_free_len _ _ _ _ _ _ P1). pose proof (bp_res_len _ _ _ _ _ _ P1).
  destruct (bp_kept _ _ _ _ _ _ P1) as [K1 _]. pose proof (bp_log _ _ _ _ _ _ P1) as L1. rewrite G2 in L1.
  destruct (boot_alloc_at_run b1 DMA_ZONE 917504 true 0 4194304 12) as (pool & b2 & E2 & C2);
    [apply T1|done|by rewrite K1|lia|lia|lia|lia|done|unfold MAX_REGIONS; lia|unfold MAX_REGIONS; lia|by rewrite L1|].
  destruct C2 as [(_ & _ & Hno)|(reg2 & _ & F2 & _ & P2)].
  { destruct (tables_fit_after _ _ _ _ Hfit Hcar) as (reg' & x & Hin & Hx). by destruct (Hno reg' x Hin). }
  exists pd, b1, pool, b2. split_and!; [exact E1| |exact E2| |done|done|apply F1|apply F2|apply F1|apply F2].
  - intros ->. exact (H0 (bp_was_free _ _ _ _ _ _ P1 0 ltac:(lia))).
  - intros ->. pose proof (bp_was_free _ _ _ _ _ _ P2 0 ltac:(lia)) as Hc. by apply (Hf1 DMA_ZONE 0) in Hc as [? _].
Qed.

Context (Hlow : tlen (res_zones b LOWMEM_ZONE) < MAX_REGIONS).
Context (Harr : ∃ reg, reg ∈ free_zones b LOWMEM_ZONE ∧ 16777216 ≤ end_ reg - start reg).

Lemma descriptors_taken b2 : tables_ok b2 → frozen b2 = false → tlen (allocations b2) < MAX_REGIONS →
  free_zones b2 LOWMEM_ZONE = free_zones b LOWMEM_ZONE → res_zones b2 LOWMEM_ZONE = res_zones b LOWMEM_ZONE →
  ∃ descs b3, boot_alloc (MAX_PAGES ⊠ SIZEOF_page) LOWMEM_ZONE true b2 = Done (descs, b3) ∧
    LOWMEM_START ≤ descs ∧ descs + 16777216 ≤ HIGHMEM_START ∧ boot_alloc_post b2 b3 LOWMEM_ZONE descs 16777216 true ∧
    ∃ reg, reg ∈ free_zones b LOWMEM_ZONE ∧ descs + 16777216 = end_ reg.
Proof.
  intros T2 Hf Hl E1 E2. change (MAX_PAGES ⊠ SIZEOF_page) with 16777216.
  destruct (boot_alloc_correct b2 LOWMEM_ZONE 16777216 true) as (r & b3 & E & C);
    [apply T2|done|done|done|by rewrite E2|done|]. rewrite E1 in C.
  destruct C as [(_ & _ & Hno)|(reg & Hin & H1 & H2 & P)].
  { destruct Harr as (reg & Hin & Hreg). specialize (Hno reg Hin). lia. }
  exists r, b3. assert (∀ a, r ≤ a < r + 16777216 → boot_alloc_get_addr_zone a = LOWMEM_ZONE) as Hz.
  { intros a Ha. by apply (to_zone _ T2 LOWMEM_ZONE), (bp_was_free _ _ _ _ _ _ P). }
  pose proof (Hz r ltac:(lia)) as Z1. pose proof (Hz (r + 16777215) ltac:(lia)) as Z2.
  unfold boot_alloc_get_addr_zone in Z1, Z2. split; [done|].
  destruct (Z.leb_spec HIGHMEM_START r), (Z.leb_spec LOWMEM_START r); try done.
  destruct (Z.leb_spec HIGHMEM_START (r + 16777215)); [done|]. split_and!; [lia|lia|done|]. by exists reg.
Qed.

End Taken.

(** ** The page descriptors *)

Lemma page_addr_is_in_reg_covers l a : page_addr_is_in_reg l a = true ↔ covers l a.
Proof.
  induction l as [|r l IH]; cbn [page_addr_is_in_reg]; [by rewrite covers_nil|]. rewrite covers_cons, <- IH.
  unfold in_region. destruct (Z.leb_spec (start r) a), (Z.ltb_spec a (end_ r)); cbn; intuition lia.
Qed.

Lemma state_flag_available b a : tables_ok b →
  page_get_state_flag (free_zones b) (res_zones b) a = PAGE_STATE_AVAILABLE ↔
  covers (free_zones b (boot_alloc_get_addr_zone a)) a.
Proof.
  intros [Hz Hr].
  assert (∀ z, z ≠ boot_alloc_get_addr_zone a →
    page_addr_is_in_reg (free_zones b z) a = false ∧ page_addr_is_in_reg (res_zones b z) a = false) as Hne.
  { intros z Hne. split; apply not_true_is_false; rewrite page_addr_is_in_reg_covers; intros Hc; apply Hne.
    - by rewrite (zo_zone _ _ (Hz z) a Hc).
    - by rewrite (Hr z a Hc). }
  assert (page_get_state_flag (free_zones b) (res_zones b) a =
    if page_addr_is_in_reg (free_zones b (boot_alloc_get_addr_zone a)) a then PAGE_STATE_AVAILABLE
    else if page_addr_is_in_reg (res_zones b (boot_alloc_get_addr_zone a)) a then PAGE_STATE_RESERVED
    else PAGE_STATE_UNUSABLE) as ->.
  { unfold page_get_state_flag, all_zones, page_get_state_flag_loop.
    destruct (boot_alloc_get_addr_zone a) eqn:E;
      repeat match goal with |- context [page_addr_is_in_reg (_ b ?z) a] =>
        destruct (Hne z ltac:(discriminate)) as [-> ->] end; try reflexivity.
    exfalso. revert E. unfold boot_alloc_get_addr_zone. by repeat case_match. }
  rewrite <- page_addr_is_in_reg_covers. split; [|by intros ->].
  destruct (page_addr_is_in_reg (free_zones b _) a); [done|]. by case_match.
Qed.

Lemma wp_on_boot {A} (c : M vboot A) s (Q : A → machine → Prop) :
  wp c (m_boot s) (λ a v, Q a (Machine v (m_heap s) (m_descriptors s))) → wp (on_boot c) s Q.
Proof. unfold wp, on_boot. by destruct (c (m_boot s)) as [[]| | |]. Qed.

Lemma wp_on_heap {A} (c : M kstate A) s (Q : A → machine → Prop) :
  wp c (m_heap s) (λ a h, Q a (Machine (m_boot s) h (m_descriptors s))) → wp (on_heap c) s Q.
Proof. unfold wp, on_heap. by destruct (c (m_heap s)) as [[]| | |]. Qed.

(** The machine after a buddy operation that ends in [s']. *)
Definition with_buddy (s : machine) (s' : bstate) : machine :=
  Machine (VBoot (set_frozen (boot_frozen s') (vb_boot (m_boot s))) (vb_mem (m_boot s)) (kpage_dir (m_boot s))
             (vb_cr3 (m_boot s)))
    (KState s' (kwords (m_heap s)) (slabs (m_heap s)) (slab_caches (m_heap s))) (m_descriptors s).

Lemma wp_on_buddy {A} (c : M bstate A) s (Q : A → machine → Prop) :
  wp c (boot_globals (vb_boot (m_boot s)) (kbuddy (m_heap s))) (λ a s', Q a (with_buddy s s')) → wp (on_buddy c) s Q.
Proof. unfold wp, on_buddy. by destruct (c _) as [[]| | |]. Qed.

Lemma set_frozen_id b : set_frozen (frozen b) b = b.
Proof. by destruct b. Qed.

(** What the loop has done after [n] frames. *)
Record filled (n : Z) (s s' : machine) : Prop := {
  fi_boot : m_boot s' = m_boot s;
  fi_array : m_descriptors s' = m_descriptors s;
  fi_caches : slab_caches (m_heap s') = slab_caches (m_heap s);
  fi_pages : ∀ j, 0 ≤ j < n → page_descriptors (kbuddy (m_heap s')) j =
    Page.page_descriptor_init (free_zones (vb_boot (m_boot s))) (res_zones (vb_boot (m_boot s))) j }.

Lemma wp_fill_descriptors s : wp (for_ (Z.to_nat MAX_PAGES) 0 fill_descriptor) s (λ _ s', filled MAX_PAGES s s').
Proof.
  eapply wp_mono; [apply (wp_for (λ n s', filled n s s'))|].
  - split; [done..|]. lia.
  - intros i s1 Hi [B1 A1 C1 P1]. rewrite Z2Nat.id in Hi by done. unfold fill_descriptor. wp_step. apply wp_gets. apply wp_on_buddy.
    apply wp_store_page; [lia|]. destruct s1 as [v1 h1 d1], v1 as [b1 m1 k1 c1]. cbn in *. subst. split; cbn; try done.
    + rewrite <- B1. cbn. by rewrite set_frozen_id.
    + intros j Hj. destruct (decide (i = j)) as [<-|Hne]; [by rewrite fn_lookup_insert, <- B1|].
      rewrite fn_lookup_insert_ne by done. apply P1. lia.
  - intros [] s'. by rewrite Z2Nat.id by done.
Qed.

(** ** The whole sequence *)

(** The blocks taken by the boot allocations: the directory, its tables, the descriptor array. *)
Definition taken (pd pool descs a : Z) : Prop :=
  pd ≤ a < pd + 4096 ∨ pool ≤ a < pool + 917504 ∨ descs ≤ a < descs + 16777216.

(** The machine with its memory under management: [R] and [F] are the reserved and the available regions,
    [total] the number of frames. *)
Record memory_ready (R F : list region) (total pd pool descs : Z) (s : machine) : Prop := {
  mr_heap : kinv (m_heap s) no_ghost 0;
  mr_frozen : frozen (vb_boot (m_boot s)) = true;
  mr_linear : ∀ v, 0 ≤ v < W32 → translate (vb_mem (m_boot s)) (vb_cr3 (m_boot s)) v =
    if decide (KERNEL_VADDR_BASE ≤ v < KERNEL_VADDR_BASE + HIGHMEM_START) then v - KERNEL_VADDR_BASE else 0;
  mr_array : m_descriptors s = descs + KERNEL_VADDR_BASE ∧ LOWMEM_START ≤ descs ∧ descs + 16777216 ≤ HIGHMEM_START;
  mr_low : pd + 4096 ≤ 4194304 ∧ pool + 917504 ≤ 4194304;
  mr_blocks : ∀ a, taken pd pool descs a → covers F a ∧ ¬ covers R a;
  mr_apart : ∀ a, ¬ (pd ≤ a < pd + 4096 ∧ pool ≤ a < pool + 917504) ∧
    ¬ (pd ≤ a < pd + 4096 ∧ descs ≤ a < descs + 16777216) ∧ ¬ (pool ≤ a < pool + 917504 ∧ descs ≤ a < descs + 16777216);
  mr_total : total_pages (kbuddy (m_heap s)) = total;
  mr_frames : ∀ j, 0 ≤ j < MAX_PAGES → is_free (kbuddy (m_heap s)) j ↔
    j < total ∧ covers F (j * PAGE_SIZE) ∧ ¬ covers R (j * PAGE_SIZE) ∧
    ¬ taken pd pool descs (j * PAGE_SIZE) }.

(** Every free region of the tables begins and ends at a page. *)
Definition page_aligned (b : boot_allocator) : Prop :=
  ∀ z r, r ∈ free_zones b z → (4096 | start r) ∧ (4096 | end_ r).

(** The tables are usable for the three allocations. *)
Record boot_room (b : boot_allocator) : Prop := {
  rm_free : tlen (free_zones b DMA_ZONE) + 2 ≤ MAX_REGIONS;
  rm_res : tlen (res_zones b DMA_ZONE) + 2 ≤ MAX_REGIONS;
  rm_low : tlen (res_zones b LOWMEM_ZONE) < MAX_REGIONS;
  rm_fit : tables_fit b;
  rm_array : ∃ reg, reg ∈ free_zones b LOWMEM_ZONE ∧ 16777216 ≤ end_ reg - start reg }.

(** The kernel's globals before it runs: the zero-filled memory of its image. *)
Record cleared_machine (s : machine) : Prop := {
  cm_zones : ∀ z, free_zones (vb_boot (m_boot s)) z = [] ∧ res_zones (vb_boot (m_boot s)) z = [];
  cm_frozen : frozen (vb_boot (m_boot s)) = false;
  cm_total : b_total_pages (vb_boot (m_boot s)) = 0;
  cm_caches : ∀ k, all_slabs (slab_caches (m_heap s) k) = [] }.

Section Ready.
Context (R F : list region) (b : boot_allocator).
Context (Hready : boot_ready R F b) (Hglob : globals_ok b) (Hroom : boot_room b).
Context (H0 : covers R 0) (HF : disjoint_regions F).

Lemma ready_tables : tables_ok b.
Proof. split; [apply Hready|]. intros z a [_ ?]%(br_res _ _ _ Hready). done. Qed.

Lemma ready_free a z : covers (free_zones b z) a ↔ boot_alloc_get_addr_zone a = z ∧ covers F a ∧ ¬ covers R a.
Proof.
  split.
  - intros Hc. split; [by apply (br_zone _ _ _ Hready)|]. by apply (br_sound _ _ _ Hready z).
  - intros (<- & ? & ?). by apply (br_full _ _ _ Hready).
Qed.

(** The free tables of [b3] are those of [b] without three separate blocks. *)
Record blocks_taken (pd pool descs : Z) (b3 : boot_allocator) : Prop := {
  bt_tables : tables_ok b3;
  bt_free : ∀ z a, covers (free_zones b3 z) a ↔ covers (free_zones b z) a ∧ ¬ taken pd pool descs a;
  bt_were : ∀ a, taken pd pool descs a → covers F a ∧ ¬ covers R a;
  bt_apart : ∀ a, ¬ (pd ≤ a < pd + 4096 ∧ pool ≤ a < pool + 917504) ∧
    ¬ (pd ≤ a < pd + 4096 ∧ descs ≤ a < descs + 16777216) ∧ ¬ (pool ≤ a < pool + 917504 ∧ descs ≤ a < descs + 16777216) }.

Lemma blocks_taken_intro pd pool descs b1 b2 b3 : boot_alloc_post b b1 DMA_ZONE pd 4096 true →
  boot_alloc_post b1 b2 DMA_ZONE pool 917504 true → boot_alloc_post b2 b3 LOWMEM_ZONE descs 16777216 true →
  blocks_taken pd pool descs b3.
Proof.
  intros P1 P2 P3. destruct (tables_alloc _ _ _ _ _ _ ready_tables P1) as [T1 F1].
  destruct (tables_alloc _ _ _ _ _ _ T1 P2) as [T2 F2]. destruct (tables_alloc _ _ _ _ _ _ T2 P3) as [T3 F3].
  assert (∀ a, pd ≤ a < pd + 4096 → ∃ z, covers (free_zones b z) a) as W1.
  { intros a Ha. eexists. by apply (bp_was_free _ _ _ _ _ _ P1). }
  assert (∀ a, pool ≤ a < pool + 917504 → ∃ z, covers (free_zones b1 z) a) as W2.
  { intros a Ha. eexists. by apply (bp_was_free _ _ _ _ _ _ P2). }
  assert (∀ a, descs ≤ a < descs + 16777216 → ∃ z, covers (free_zones b2 z) a) as W3.
  { intros a Ha. eexists. by apply (bp_was_free _ _ _ _ _ _ P3). }
  setoid_rewrite F1 in W2. setoid_rewrite F2 in W3. setoid_rewrite F1 in W3.
  setoid_rewrite ready_free in W1. setoid_rewrite ready_free in W2. setoid_rewrite ready_free in W3.
  split; [done| |unfold taken; naive_solver|naive_solver].
  intros z a. rewrite F3, F2, F1. unfold taken. tauto.
Qed.

(** The three allocations in a row. *)
Lemma three_blocks : ∃ pd b1 pool b2 descs b3,
  boot_alloc_at PAGE_SIZE DMA_ZONE true 0 (MiB_SIZE * 4) PAGE_SIZE b = Done (pd, b1) ∧ pd ≠ 0 ∧
  boot_alloc_at (pt_count * PAGE_SIZE) DMA_ZONE true 0 (MiB_SIZE * 4) PAGE_SIZE b1 = Done (pool, b2) ∧ pool ≠ 0 ∧
  boot_alloc (MAX_PAGES ⊠ SIZEOF_page) LOWMEM_ZONE true b2 = Done (descs, b3) ∧
  LOWMEM_START ≤ descs ∧ descs + 16777216 ≤ HIGHMEM_START ∧
  (4096 | pd) ∧ (4096 | pool) ∧ (page_aligned b → (4096 | descs)) ∧ pd + 4096 ≤ 4194304 ∧ pool + 917504 ≤ 4194304 ∧
  boot_alloc_post b b1 DMA_ZONE pd 4096 true ∧ b_total_pages b3 = b_total_pages b ∧ blocks_taken pd pool descs b3.
Proof.
  destruct Hroom as [R1 R2 R3 R4 R5], Hglob as [G1 G2 _ _].
  destruct (tables_taken b ready_tables (conj G1 G2)) as (pd & b1 & pool & b2 & E1 & N1 & E2 & N2 & P1 & P2 & D1 & D2 & B1 & B2);
    [by rewrite ready_free; intros (_ & _ & ?)|done|done|].
  destruct (tables_alloc _ _ _ _ _ _ ready_tables P1) as [T1 _]. destruct (tables_alloc _ _ _ _ _ _ T1 P2) as [T2 _].
  destruct (descriptors_taken b R3 R5 b2 T2) as (descs & b3 & E3 & L1 & L2 & P3 & reg & Hin & He).
  - by rewrite (proj1 (bp_kept _ _ _ _ _ _ P2)), (proj1 (bp_kept _ _ _ _ _ _ P1)).
  - by rewrite (bp_log _ _ _ _ _ _ P2), (bp_log _ _ _ _ _ _ P1), G2.
  - by rewrite (proj1 (bp_other _ _ _ _ _ _ P2 LOWMEM_ZONE ltac:(discriminate))), (proj1 (bp_other _ _ _ _ _ _ P1 LOWMEM_ZONE ltac:(discriminate))).
  - by rewrite (proj2 (bp_other _ _ _ _ _ _ P2 LOWMEM_ZONE ltac:(discriminate))), (proj2 (bp_other _ _ _ _ _ _ P1 LOWMEM_ZONE ltac:(discriminate))).
  - exists pd, b1, pool, b2, descs, b3. split_and!; try done; [| |by eapply blocks_taken_intro].
    2: { rewrite (proj2 (bp_kept _ _ _ _ _ _ P3)), (proj2 (bp_kept _ _ _ _ _ _ P2)). apply P1. }
    intros Hal. destruct (Hal _ _ Hin) as [_ [k Hk]]. exists (k - 4096). lia.
Qed.

(** Pages of a free frame, when regions begin and end at pages. *)
Definition whole_pages (pd pool descs : Z) (s : machine) : Prop :=
  ∀ j a, 0 ≤ j < MAX_PAGES → is_free (kbuddy (m_heap s)) j → j * PAGE_SIZE ≤ a < (j + 1) * PAGE_SIZE →
    covers F a ∧ ¬ covers R a ∧ ¬ taken pd pool descs a.

Lemma ready_whole pd pool descs s : memory_ready R F (b_total_pages b) pd pool descs s → page_aligned b →
  (4096 | pd) → (4096 | pool) → (4096 | descs) → whole_pages pd pool descs s.
Proof.
  intros Hm Hal [k1 ->] [k2 ->] [k3 ->] j a Hj Hfree Ha. unfold PAGE_SIZE in Ha.
  apply (mr_frames _ _ _ _ _ _ _ Hm j Hj) in Hfree as (_ & HFj & HRj & Ht). unfold PAGE_SIZE in *.
  destruct (proj2 (ready_free (j * 4096) (boot_alloc_get_addr_zone (j * 4096)))) as (r & Hr & Hin); [done|].
  destruct (Hal _ _ Hr) as [[e1 E1] [e2 E2]]. unfold in_region in Hin.
  assert (covers (free_zones b (boot_alloc_get_addr_zone (j * 4096))) a) as Hc.
  { exists r. split; [done|]. unfold in_region. lia. }
  apply ready_free in Hc as (_ & ? & ?). split_and!; [done..|]. unfold taken in *. lia.
Qed.

Lemma wp_page_descriptor_init s descs b3 : boot_alloc (MAX_PAGES ⊠ SIZEOF_page) LOWMEM_ZONE true (vb_boot (m_boot s)) = Done (descs, b3) →
  LOWMEM_START ≤ descs → descs + 16777216 ≤ HIGHMEM_START →
  wp page_descriptor_init s (λ _ s', filled MAX_PAGES
    (Machine (VBoot b3 (vb_mem (m_boot s)) (kpage_dir (m_boot s)) (vb_cr3 (m_boot s))) (m_heap s) (descs + KERNEL_VADDR_BASE)) s').
Proof.
  intros E L1 L2. unfold LOWMEM_START, HIGHMEM_START in *. unfold page_descriptor_init. wp_step. apply wp_on_boot.
  unfold wp at 1. unfold lift_boot at 1. rewrite E. cbn [fst snd].
  rewrite (proj2 (Z.eqb_neq _ _)) by lia. wp_step. unfold PHYS_TO_VIRT_LINEAR. wp_step.
  apply wp_assert; [apply Z.leb_le; change (not32 KERNEL_VADDR_BASE) with 1073741823; lia|]. apply wp_ret.
  wp_step. apply wp_modify. rewrite u32_small by (unfold KERNEL_VADDR_BASE, W32; lia). apply wp_fill_descriptors.
Qed.

(** [buddy_init] and [slab_init] on the descriptors just written. *)
Lemma wp_allocators_init s (Hfill : ∀ j, 0 ≤ j < MAX_PAGES → page_descriptors (kbuddy (m_heap s)) j =
    Page.page_descriptor_init (free_zones (vb_boot (m_boot s))) (res_zones (vb_boot (m_boot s))) j) :
  (∀ k, all_slabs (slab_caches (m_heap s) k) = []) →
  0 ≤ b_total_pages (vb_boot (m_boot s)) ≤ MAX_PAGES →
  page_get_state_flag (free_zones (vb_boot (m_boot s))) (res_zones (vb_boot (m_boot s))) 0 ≠ PAGE_STATE_AVAILABLE →
  wp (on_buddy buddy_init ;; on_heap slab_init) s (λ _ s',
    kinv (m_heap s') no_ghost 0 ∧ frozen (vb_boot (m_boot s')) = true ∧
    vb_mem (m_boot s') = vb_mem (m_boot s) ∧ vb_cr3 (m_boot s') = vb_cr3 (m_boot s) ∧ m_descriptors s' = m_descriptors s ∧
    total_pages (kbuddy (m_heap s')) = b_total_pages (vb_boot (m_boot s)) ∧
    ∀ j, 0 ≤ j < MAX_PAGES → is_free (kbuddy (m_heap s')) j ↔
      j < b_total_pages (vb_boot (m_boot s)) ∧
      page_get_state_flag (free_zones (vb_boot (m_boot s))) (res_zones (vb_boot (m_boot s))) (j * PAGE_SIZE) = PAGE_STATE_AVAILABLE).
Proof.
  intros Hc Ht Hz. assert (∀ j, 0 ≤ j < MAX_PAGES → PAGE_GET_STATE (page_descriptors (kbuddy (m_heap s)) j)
    = page_get_state_flag (free_zones (vb_boot (m_boot s))) (res_zones (vb_boot (m_boot s))) (j * PAGE_SIZE)) as Hst.
  { intros j Hj. rewrite Hfill by done. by apply page_descriptor_init_flags. }
  wp_step. apply wp_on_buddy, wp_buddy_init; cbn [page_descriptors boot_globals total_pages]; [|done|..].
  - intros j Hj. cbn [page_descriptors boot_globals]. rewrite Hfill by done. split; by apply page_descriptor_init_flags.
  - intros j Hj. unfold is_free. cbn [page_descriptors boot_globals]. rewrite Hst by done. apply page_get_state_flag_not_free.
  - by rewrite Hst by (unfold MAX_PAGES; lia).
  - intros s1 Hok Et Ef Hfr. apply wp_on_heap. eapply wp_mono; [apply slab_init_run; [exact Hok|exact Hc]|].
    intros [] h' (Eb & Hk & _). cbn. rewrite Eb. cbn. split_and!; try done.
    intros j Hj. by rewrite Hfr, Hst.
Qed.

Lemma memory_ready_run v h d : vb_boot v = b → (∀ k, all_slabs (slab_caches h k) = []) →
  wp (on_boot vmm_finalize ;; page_descriptor_init ;; on_buddy buddy_init ;; on_heap slab_init) (Machine v h d)
    (λ _ s', ∃ pd pool descs, memory_ready R F (b_total_pages b) pd pool descs s' ∧ (page_aligned b → whole_pages pd pool descs s')).
Proof.
  intros Ev Hh. destruct three_blocks as (pd & b1 & pool & b2 & descs & b3 & E1 & N1 & E2 & N2 & E3 & L1 & L2 & D1 & D2 & D3 & Lo1 & Lo2 & P1 & Et3 & [T3 Hf Hwere Hapart]).
  pose proof Hroom as [R1 R2 _ _ _]. pose proof Hglob as [G1 G2 _ G4].
  pose proof (bp_free_len _ _ _ _ _ _ P1). pose proof (bp_res_len _ _ _ _ _ _ P1). pose proof (bp_log _ _ _ _ _ _ P1) as Lg.
  rewrite G2 in Lg.
  destruct v as [vb m k0 c0]. cbn in Ev. subst vb.
  destruct (vmm_finalize_correct b b1 b2 m k0 c0 pd pool) as (m' & Erun & Hlin); try done;
    [apply ready_tables|unfold MAX_REGIONS in *; lia|unfold MAX_REGIONS in *; lia|by rewrite G2|
     unfold MAX_REGIONS in *; lia|unfold MAX_REGIONS in *; lia|by rewrite Lg|].
  wp_step. apply wp_on_boot. unfold wp at 1. cbn [m_boot]. rewrite Erun. wp_step.
  eapply wp_mono; [apply (wp_page_descriptor_init _ descs b3); [exact E3|done|done]|].
  intros [] s2 [B2 A2 C2 Pg]. cbn in B2, A2, C2, Pg.
  assert (page_get_state_flag (free_zones b3) (res_zones b3) 0 ≠ PAGE_STATE_AVAILABLE) as Hz0.
  { rewrite state_flag_available, Hf by done. intros [Hc0 _]. by apply ready_free in Hc0 as (_ & _ & ?). }
  eapply wp_mono; [apply wp_allocators_init; rewrite ?B2; cbn [vb_boot]; [exact Pg|by rewrite C2| |exact Hz0]|].
  { rewrite Et3. lia. }
  intros [] s3 (Hk & Hfz & Em & Ec & Ea & Et & Hfr). rewrite B2 in Em, Ec, Et, Hfr. cbn [vb_boot vb_mem vb_cr3] in Em, Ec, Et, Hfr.
  exists pd, pool, descs. assert (memory_ready R F (b_total_pages b) pd pool descs s3) as Hm.
  { split; try done.
    - intros w Hw. rewrite Em, Ec, Hlin by done. done.
    - split; [by rewrite Ea, A2|done].
    - by rewrite Et, Et3.
    - intros j Hj. rewrite Hfr, Et3 by done. rewrite state_flag_available, Hf by done. rewrite ready_free. tauto. }
  split; [done|]. intros Hal. apply ready_whole; auto.
Qed.

End Ready.

Lemma init_memory_run (word : Z → Z) (limit : nat) (env : boot_env) (mbi : Z) (l : list tag) (el : list mmap_entry)
    (s : machine) (b : boot_allocator) :
  0 ≤ mbi < W32 - 16 → tags_at word (mbi + 8) l → (length l < limit)%nat → (length el < limit)%nat → maps_of l = [el] →
  env_ok (with_info word env mbi) → Forall entry_ok el → disjoint_regions (mmap_regions true el) → cleared_machine s →
  boot_allocator_init (with_info word env mbi) el (vb_boot (m_boot s)) = Done (tt, b) → boot_room b →
  let R := builtin_reserved (with_info word env mbi) ++ mmap_regions false el in
  let F := mmap_regions true el in
  ∃ s' pd pool descs, init_memory word limit env MULTIBOOT2_BOOTLOADER_MAGIC mbi s = Done (tt, s') ∧
    memory_ready R F (b_total_pages b) pd pool descs s' ∧ (page_aligned b → whole_pages R F pd pool descs s').
Proof.
  intros Hm Ht Hl Hel Em Henv Hent Hdis [Z1 Z2 Z3 Z4] Eb Hroom R F.
  assert (boot_ready R F b) as Hready by (by apply (wlp_done _ _ _ _ _ (wlp_boot_allocator_init _ _ _ Henv Hent Z1) Eb)).
  assert (globals_ok b) as Hglob.
  { eapply boot_allocator_init_globals; [exact Z2|by rewrite Z3| |exact Eb]. cbn [mb2info with_info]. unfold W32 in *. lia. }
  assert (covers R 0) as HR0.
  { exists (Region 0 4096). split; [|by split]. unfold R, builtin_reserved. set_solver. }
  destruct s as [[vb m k c] h d]. cbn [m_boot m_heap vb_boot] in *.
  assert (wp (init_memory word limit env MULTIBOOT2_BOOTLOADER_MAGIC mbi) (Machine (VBoot vb m k c) h d)
    (λ _ s', ∃ pd pool descs, memory_ready R F (b_total_pages b) pd pool descs s' ∧ (page_aligned b → whole_pages R F pd pool descs s'))) as Hw.
  { unfold init_memory. wp_step. apply wp_on_boot. unfold wp at 1. unfold lift_boot at 1. cbn [m_boot vb_boot].
    rewrite (mb2_init_one word limit env mbi l vb el Hm Ht Hl) by (done || rewrite Em; by apply Forall_singleton).
    rewrite Eb. by apply (memory_ready_run R F b). }
  apply wp_run in Hw as ([] & s' & E & pd & pool & descs & ?). by exists s', pd, pool, descs.
Qed.


(** ** A machine of 64 MiB *)

Definition big_mmap : list mmap_entry :=
  [MmapEntry 0 654336 1; MmapEntry 983040 65536 2; MmapEntry 1048576 66060288 1].

(** The words of the boot information at [mbi]: its size, one tag with [big_mmap], the end tag. *)
Definition big_words (mbi size : Z) : list (Z * Z) :=
  [(mbi, size); (mbi + 8, 6); (mbi + 12, 88); (mbi + 16, 24)] ++
  concat (imap (λ i e, let a := mbi + 24 + 24 * Z.of_nat i in [(a, addr e); (a + 8, len e); (a + 16, mtype e)]) big_mmap).

Definition big_word (mbi size a : Z) : Z := default 0 (snd <$> find (λ p, p.1 =? a) (big_words mbi size)).

Definition big_machine : machine :=
  Machine (VBoot cleared (λ _, 0) 0 0)
    (KState (BState (λ _, Page 0 0) (λ _, ListHead None None) (λ _, 0) 0 false) (λ _, 0)
       (λ _, Slab 0 0 (LOWMEM_ZONE, 0)) (λ _, SlabCache [] [] [] 0 0)) 0.

Definition big_env (mbi size : Z) : boot_env := with_info (big_word mbi size) sample_env mbi.

Definition big_boot (mbi size : Z) : boot_allocator := final_state (boot_allocator_init (big_env mbi size) big_mmap) cleared.

Lemma big_cleared : cleared_machine big_machine.
Proof. by split. Qed.

Lemma big_entries : Forall entry_ok big_mmap ∧ disjoint_regions (mmap_regions true big_mmap).
Proof. split; [repeat constructor; vm_compute; congruence|]. repeat constructor; vm_compute; intuition congruence. Qed.

(** Boolean versions of the room conditions, to evaluate. *)
Definition room_check (b : boot_allocator) : bool :=
  (tlen (free_zones b DMA_ZONE) + 2 <=? MAX_REGIONS) && (tlen (res_zones b DMA_ZONE) + 2 <=? MAX_REGIONS) &&
  (tlen (res_zones b LOWMEM_ZONE) <? MAX_REGIONS) &&
  existsb (λ r, let x := ALIGN (start r) 4096 in (start r <=? x) && (0 <=? x) && (x mod 4096 =? 0) &&
                (x + 225 * 4096 <=? end_ r) && (x + 225 * 4096 <=? 4194304)) (free_zones b DMA_ZONE) &&
  existsb (λ r, 16777216 <=? end_ r - start r) (free_zones b LOWMEM_ZONE).

Lemma room_check_ok b : room_check b = true → boot_room b.
Proof.
  unfold room_check. rewrite !andb_true_iff, !Z.leb_le, Z.ltb_lt. intros ((((? & ?) & ?) & H4) & H5). split; [done..| |].
  - apply existsb_exists in H4 as (r & Hr & H4). rewrite !andb_true_iff, !Z.leb_le, Z.eqb_eq in H4.
    destruct H4 as ((((? & ?) & H3) & ?) & ?). exists r, (ALIGN (start r) 4096). split; [by apply list_elem_of_In|].
    unfold fits. split_and!; try done. change (2 ^ 12) with 4096. by apply Z.mod_divide.
  - apply existsb_exists in H5 as (r & Hr & H5%Z.leb_le). exists r. split; [by apply list_elem_of_In|done].
Qed.

Lemma big_room : boot_room (big_boot 2097152 4096) ∧ page_aligned (big_boot 2097152 4096).
Proof.
  split; [apply room_check_ok; vm_compute; reflexivity|].
  assert (∀ z, forallb (λ r, (start r mod 4096 =? 0) && (end_ r mod 4096 =? 0)) (free_zones (big_boot 2097152 4096) z) = true) as H.
  { intros []; vm_compute; reflexivity. }
  intros z r Hr. specialize (H z). rewrite forallb_forall in H. apply list_elem_of_In, H in Hr.
  apply andb_true_iff in Hr as [?%Z.eqb_eq ?%Z.eqb_eq]. split; by apply Z.mod_divide.
Qed.


(** A frame is classified by its first address alone.  On a machine whose
    boot information lies in the middle of a page (at 0x800068) the frame of
    that page is free after [init], although bytes of it are reserved. *)
Theorem free_frame_overlaps_reserved : ∃ s' a,
  init_memory (big_word 8388712 112) 4 sample_env MULTIBOOT2_BOOTLOADER_MAGIC 8388712 big_machine = Done (tt, s') ∧
  is_free (kbuddy (m_heap s')) 2048 ∧ 2048 * PAGE_SIZE ≤ a < 2049 * PAGE_SIZE ∧
  covers (builtin_reserved (big_env 8388712 112)) a.
Proof.
  destruct (init_memory_run (big_word 8388712 112) 4 sample_env 8388712 [TMmap 24 big_mmap] big_mmap big_machine
    (big_boot 8388712 112)) as (s' & pd & pool & descs & E & Hm & _).
  - by vm_compute.
  - repeat split; try reflexivity; by vm_compute.
  - cbn. lia.
  - cbn. lia.
  - reflexivity.
  - unfold env_ok. vm_compute. intuition discriminate.
  - apply big_entries.
  - apply big_entries.
  - apply big_cleared.
  - unfold big_boot. apply run_final. vm_compute. reflexivity.
  - apply room_check_ok. vm_compute. reflexivity.
  -exists s', 8388712. split; [exact E|]. clear E. split_and!.
    2, 3: clear; unfold PAGE_SIZE; lia.
    2: { exists (Region 8388712 8388824). split; [|clear; unfold in_region; cbn; lia].
         do 6 (apply elem_of_cons; right). apply elem_of_cons. left. vm_compute. reflexivity. }
    destruct (mr_low _ _ _ _ _ _ _ Hm) as [L1 L2], (mr_array _ _ _ _ _ _ _ Hm) as (_ & L3 & _).
    apply (mr_frames _ _ _ _ _ _ _ Hm); [clear; unfold MAX_PAGES; lia|]. clear Hm. split_and!.
    + vm_compute. reflexivity.
    + apply page_addr_is_in_reg_covers. vm_compute. reflexivity.
    + rewrite <- page_addr_is_in_reg_covers. vm_compute. discriminate.
    + unfold taken, PAGE_SIZE, LOWMEM_START in *. lia.
Qed.
