(* ===== verification/Vma.v ===== *)
(** * Virtual memory areas (src/memory/vma.c, vmalloc.c, syscalls/mmap.c,
    syscalls/munmap.c, the demand-paging part of page_fault_handler):
    operations

    A [vspace] is one list of areas, in list order, together with the area
    structures, the [pages] arrays they point to and the paging state.  The
    list is kept as the sequence of its nodes: Dlist shows that the insert
    and pop operations of include/list.h act this way on linked nodes. *)

From S2P Require Import Prelude Dlist Memory Page Buddy BuddyInv BuddySpec BuddyThm PageAlloc.
From S2P Require Import Errno Vmm.

(** ** kmalloc and the page allocator as one resource *)

Class KernelAllocator (S : Type) := {
  ka_pages :: PageAllocator S;
  ka_kmalloc : Z → Z → M S Z;
  ka_kfree : Z → M S unit;
  (** [ka_live s p]: [p] is a block [kmalloc] handed out and that was not freed. *)
  ka_live : S → Z → Prop }.

(** ** Data *)

Inductive vm_area_state := VM_AREA_FREE | VM_AREA_ALLOCATED | VM_AREA_LAZY.

#[export] Instance vm_area_state_eq_dec : EqDecision vm_area_state.
Proof. solve_decision. Defined.

Inductive vma_alloc_mode := VMA_EAGER | VMA_LAZY.

Record vm_area := VmArea {
  vm_state : vm_area_state;
  start_vaddr : Z;
  vm_size : Z;
  pte_flags : Z;
  nr_pages : Z;
  pages : Z }.   (* pointer to an array of frame addresses; 0 is NULL *)

(** The zeroed structure of [__GFP_ZERO]. *)
Definition zero_area : vm_area := VmArea VM_AREA_FREE 0 0 0 0 0.

Definition SIZEOF_VM_AREA : Z := 32.

Record vspace (S : Type) := VSpace {
  vs_vmm : vmm S;
  vs_list : list Z;
  vs_area : Z → vm_area;
  vs_pages : Z → list Z }.
Arguments VSpace {S} _ _ _ _.
Arguments vs_vmm {S} _.
Arguments vs_list {S} _.
Arguments vs_area {S} _.
Arguments vs_pages {S} _.

(** The area whose node follows, or precedes, that of [a]. *)
Fixpoint next_of (l : list Z) (a : Z) : option Z :=
  match l with
  | [] => None
  | x :: l => if x =? a then head l else next_of l a
  end.

Fixpoint prev_of (l : list Z) (a : Z) : option Z :=
  match l with
  | [] => None
  | x :: l => if bool_decide (head l = Some a) then Some x else prev_of l a
  end.

(** [list_insert(new, a->prev, a)]. *)
Fixpoint insert_before (l : list Z) (new a : Z) : list Z :=
  match l with
  | [] => [new]
  | x :: l => if x =? a then new :: x :: l else x :: insert_before l new a
  end.

Definition remove_node (l : list Z) (a : Z) : list Z := filter (λ x, x ≠ a) l.

Section Vma.
Context {S : Type} `{KernelAllocator S}.

Definition get_area (a : Z) : M (vspace S) vm_area := gets (λ s, vs_area s a).

Definition set_area (a : Z) (x : vm_area) : M (vspace S) unit :=
  modify (λ s, VSpace (vs_vmm s) (vs_list s) (<[a := x]> (vs_area s)) (vs_pages s)).

Definition set_list (f : list Z → list Z) : M (vspace S) unit :=
  modify (λ s, VSpace (vs_vmm s) (f (vs_list s)) (vs_area s) (vs_pages s)).

Definition lift_vmm {A} (c : M (vmm S) A) : M (vspace S) A := λ s,
  match c (vs_vmm s) with
  | Done (a, v) => Done (a, VSpace v (vs_list s) (vs_area s) (vs_pages s))
  | Panic m => Panic m
  | Fault => Fault
  | Hang => Hang
  end.

Definition kmalloc (size gfp : Z) : M (vspace S) Z := lift_vmm (lift_pa (ka_kmalloc size gfp)).

Definition kfree (p : Z) : M (vspace S) unit := lift_vmm (lift_pa (ka_kfree p)).

(** A zeroed structure, or a zeroed array of [n] words. *)
Definition kmalloc_area : M (vspace S) Z :=
  p ← kmalloc SIZEOF_VM_AREA (Z.lor GFP_KERNEL __GFP_ZERO) ;
  (if p =? 0 then mret tt else set_area p zero_area) ;;
  mret p.

Definition kmalloc_pages (n : Z) : M (vspace S) Z :=
  p ← kmalloc (4 ⊠ n) (Z.lor GFP_KERNEL __GFP_ZERO) ;
  (if p =? 0 then mret tt
   else modify (λ s, VSpace (vs_vmm s) (vs_list s) (vs_area s)
                       (<[p := replicate (Z.to_nat n) 0]> (vs_pages s)))) ;;
  mret p.

(** [p[i]] and [p[i] = x]. *)
Definition ld_page (p i : Z) : M (vspace S) Z := λ s,
  match vs_pages s p !! Z.to_nat i with
  | Some x => Done (x, s)
  | None => Fault
  end.

Definition st_page (p i x : Z) : M (vspace S) unit := λ s,
  if bool_decide (0 ≤ i < Z.of_nat (length (vs_pages s p))) then
    Done (tt, VSpace (vs_vmm s) (vs_list s) (vs_area s)
                (<[p := <[Z.to_nat i := x]> (vs_pages s p)]> (vs_pages s)))
  else Fault.

(** ** Neighbours *)

Definition vma_areas_are_neighbors (x y : vm_area) : bool :=
  (start_vaddr x ⊞ vm_size x) =? start_vaddr y.

Definition merge_neighbor (start_area next_area : Z) : M (vspace S) unit :=
  x ← get_area start_area ;
  y ← get_area next_area ;
  if bool_decide (vm_state x ≠ VM_AREA_FREE) || bool_decide (vm_state y ≠ VM_AREA_FREE) then mret tt
  else if vma_areas_are_neighbors x y then
    set_area start_area (VmArea (vm_state x) (start_vaddr x) (vm_size x ⊞ vm_size y)
                           (pte_flags x) (nr_pages x) (pages x)) ;;
    set_list (λ l, remove_node l next_area) ;;
    kfree next_area
  else mret tt.

Definition vma_merge_area (area : Z) : M (vspace S) unit :=
  l ← gets vs_list ;
  match next_of l area with Some next_area => merge_neighbor area next_area | None => mret tt end ;;
  l ← gets vs_list ;
  match prev_of l area with Some prev_area => merge_neighbor prev_area area | None => mret tt end.

(** ** Searches; 0 is NULL *)

Fixpoint first_area (p : vm_area → bool) (l : list Z) : M (vspace S) Z :=
  match l with
  | [] => mret 0
  | a :: l => x ← get_area a ; if p x then mret a else first_area p l
  end.

Definition vma_first_fit_alloc (size : Z) : M (vspace S) Z :=
  l ← gets vs_list ;
  first_area (λ x, (size <=? vm_size x) && bool_decide (vm_state x = VM_AREA_FREE)) l.

Definition vma_find_by_start (ptr : Z) : M (vspace S) Z :=
  assert_ (negb (ptr =? 0)) ;;
  l ← gets vs_list ;
  first_area (λ x, start_vaddr x =? ptr) l.

Definition vma_find_by_addr (ptr : Z) : M (vspace S) Z :=
  l ← gets vs_list ;
  first_area (λ x, (start_vaddr x <=? ptr) && (ptr <? (start_vaddr x ⊞ vm_size x))) l.

Definition vma_size (ptr : Z) : M (vspace S) Z :=
  assert_ (negb (ptr =? 0)) ;;
  a ← vma_find_by_start ptr ;
  assert_ (negb (a =? 0)) ;;
  x ← get_area a ; mret (vm_size x).

(** ** Splitting and mapping *)

Definition vma_split_area (area size : Z) : M (vspace S) Z :=
  assert_ (negb (area =? 0)) ;;
  let needed_size := ALIGN size PAGE_SIZE in
  let num_of_pages := DIV_ROUND_UP needed_size PAGE_SIZE in
  x ← get_area area ;
  if vm_size x <? needed_size then mret 0
  else if needed_size =? vm_size x then
    set_area area (VmArea VM_AREA_ALLOCATED (start_vaddr x) (vm_size x) (pte_flags x) num_of_pages (pages x)) ;;
    mret area
  else
    new_area ← kmalloc_area ;
    if new_area =? 0 then mret 0
    else
      n ← get_area new_area ;
      set_area new_area (VmArea VM_AREA_ALLOCATED (start_vaddr x) needed_size (pte_flags n) num_of_pages (pages n)) ;;
      set_area area (VmArea (vm_state x) (start_vaddr x ⊞ needed_size) (vm_size x ⊟ needed_size)
                       (pte_flags x) (nr_pages x) (pages x)) ;;
      set_list (λ l, insert_before l new_area area) ;;
      mret new_area.

(** The first loop of [vma_map_area]: a frame for every page. *)
Fixpoint map_area_alloc (n : nat) (i : Z) (p : Z) : M (vspace S) bool :=
  match n with
  | O => mret true
  | Datatypes.S n =>
      page ← lift_vmm (lift_pa (pa_alloc PAGE_SIZE HIGHMEM_ZONE)) ;
      if page =? 0 then mret false
      else st_page p i page ;; map_area_alloc n (i + 1) p
  end.

(** The second loop: install the translations. *)
Fixpoint map_area_map (n : nat) (i : Z) (pd start flags p : Z) : M (vspace S) bool :=
  match n with
  | O => mret true
  | Datatypes.S n =>
      paddr ← ld_page p i ;
      ok ← lift_vmm (vmm_map_page pd (start ⊞ i * PAGE_SIZE) paddr flags) ;
      if (ok : bool) then map_area_map n (i + 1) pd start flags p else mret false
  end.

Definition vma_map_area (new_area pd : Z) : M (vspace S) bool :=
  x ← get_area new_area ;
  ok ← map_area_alloc (Z.to_nat (nr_pages x)) 0 (pages x) ;
  if (ok : bool) then
    map_area_map (Z.to_nat (nr_pages x)) 0 pd (start_vaddr x) (pte_flags x) (pages x)
  else mret false.

(** ** Destruction *)

(** Unmap and free the pages of an area that have a frame. *)
Definition release_pages (x : vm_area) (pd : Z) : M (vspace S) unit :=
  for_ (Z.to_nat (nr_pages x)) 0 (λ i,
    page ← ld_page (pages x) i ;
    if page =? 0 then mret tt
    else
      lift_vmm (vmm_unmap_page pd (start_vaddr x ⊞ i * PAGE_SIZE)) ;;
      lift_vmm (lift_pa (pa_free page))).

Definition vma_destroy_area (area pd : Z) : M (vspace S) unit :=
  if area =? 0 then mret tt
  else
    x ← get_area area ;
    (if pages x =? 0 then mret tt
     else release_pages x pd ;; kfree (pages x)) ;;
    set_area area (VmArea VM_AREA_FREE (start_vaddr x) (vm_size x) 0 0 0) ;;
    vma_merge_area area.

Fixpoint destroy_list (l : list Z) (pd : Z) : M (vspace S) unit :=
  match l with
  | [] => mret tt
  | area :: l =>
      set_list (λ l, remove_node l area) ;;
      x ← get_area area ;
      (if pages x =? 0 then mret tt
       else release_pages x pd ;; kfree (pages x)) ;;
      kfree area ;;
      destroy_list l pd
  end.

Definition vma_destroy_areas (pd : Z) : M (vspace S) unit :=
  l ← gets vs_list ; destroy_list l pd ;; set_list (λ _, []).

(** ** Allocation *)

Definition vma_init_area (start end_ : Z) : M (vspace S) unit :=
  initial_hole ← kmalloc_area ;
  if initial_hole =? 0 then kpanic "Failed to allocate `initial_hole'"
  else
    x ← get_area initial_hole ;
    set_area initial_hole (VmArea VM_AREA_FREE start (end_ ⊟ start) (pte_flags x) (nr_pages x) (pages x)) ;;
    set_list (λ l, initial_hole :: l).

Definition vma_alloc_in_area (pd area size flags : Z) (alloc_mode : vma_alloc_mode) : M (vspace S) Z :=
  new_area ← vma_split_area area size ;
  if new_area =? 0 then mret 0
  else
    let number_of_pages := DIV_ROUND_UP size PAGE_SIZE in
    p ← kmalloc_pages number_of_pages ;
    x ← get_area new_area ;
    set_area new_area (VmArea (vm_state x) (start_vaddr x) (vm_size x) (pte_flags x) (nr_pages x) p) ;;
    if p =? 0 then vma_destroy_area new_area pd ;; mret 0
    else
      set_area new_area (VmArea (vm_state x) (start_vaddr x) (vm_size x) flags number_of_pages p) ;;
      match alloc_mode with
      | VMA_EAGER =>
          ok ← vma_map_area new_area pd ;
          if (ok : bool) then mret new_area
          else vma_destroy_area new_area pd ;; mret 0
      | VMA_LAZY =>
          set_area new_area (VmArea VM_AREA_LAZY (start_vaddr x) (vm_size x) flags number_of_pages p) ;;
          mret new_area
      end.

Definition vma_alloc (pd size flags hint_vaddr : Z) (alloc_mode : vma_alloc_mode) : M (vspace S) Z :=
  free_area ← (if hint_vaddr =? 0 then mret 0 else vma_find_by_start hint_vaddr) ;
  x ← get_area free_area ;
  free_area ← (if (free_area =? 0) || bool_decide (vm_state x ≠ VM_AREA_FREE) || (vm_size x <? size)
               then vma_first_fit_alloc size else mret free_area) ;
  if free_area =? 0 then mret 0
  else vma_alloc_in_area pd free_area size flags alloc_mode.

(** ** vmalloc *)

Definition VMALLOC_START : Z := 4160749568. (* 0xF8000000 *)
Definition VMALLOC_END : Z := 4294959103.   (* 0xFFFFDFFF *)
Definition MAX_VMALLOC_SIZE : Z := MiB_SIZE * 128 - 8192.
Definition MIN_VMALLOC_SIZE : Z := PAGE_SIZE.

Definition vmalloc_init : M (vspace S) unit :=
  set_list (λ _, []) ;; vma_init_area VMALLOC_START VMALLOC_END.

Definition vmalloc (size : Z) : M (vspace S) Z :=
  if (MAX_VMALLOC_SIZE <? size) || (size <? MIN_VMALLOC_SIZE) then mret 0
  else
    pd ← lift_vmm get_current_page_directory_phys ;
    area ← vma_alloc pd size (Z.lor PTE_PRESENT_BIT PTE_RW_BIT) 0 VMA_EAGER ;
    if area =? 0 then mret 0
    else x ← get_area area ; mret (start_vaddr x).

Definition vsize (ptr : Z) : M (vspace S) Z := vma_size ptr.

Definition vfree (ptr : Z) : M (vspace S) unit :=
  if ptr =? 0 then mret tt
  else
    area ← vma_find_by_start ptr ;
    if area =? 0 then mret tt
    else
      cr3 ← lift_vmm get_current_page_directory_phys ;
      x ← get_area area ;
      for_ (Z.to_nat (nr_pages x)) 0 (λ i,
        lift_vmm (vmm_unmap_page cr3 (start_vaddr x ⊞ i * PAGE_SIZE)) ;;
        page ← ld_page (pages x) i ;
        lift_vmm (lift_pa (pa_free page))) ;;
      kfree (pages x) ;;
      set_area area (VmArea VM_AREA_FREE (start_vaddr x) (vm_size x) (pte_flags x) 0 0) ;;
      vma_merge_area area.

(** ** System calls and demand paging, for the current task's areas *)

Definition PROT_WRITE : Z := 2.

Definition sys_mmap (cr3 addr length prot : Z) : M (vspace S) Z :=
  if length =? 0 then mret (- EINVAL)
  else
    let flags := Z.lor PTE_PRESENT_BIT PTE_US_BIT in
    let flags := if FLAG_IS_SET prot PROT_WRITE then Z.lor flags PTE_RW_BIT else flags in
    area ← vma_alloc cr3 length flags addr VMA_LAZY ;
    if area =? 0 then mret (- ENOMEM)
    else x ← get_area area ; mret (s32 (start_vaddr x)).

Definition sys_munmap (cr3 addr length : Z) : M (vspace S) Z :=
  if (addr =? 0) || (length =? 0) then mret (- EINVAL)
  else
    area ← vma_find_by_start addr ;
    x ← get_area area ;
    if (area =? 0) || (bool_decide (vm_state x ≠ VM_AREA_ALLOCATED) && bool_decide (vm_state x ≠ VM_AREA_LAZY))
    then mret (- EINVAL)
    else vma_destroy_area area cr3 ;; mret 0.

Definition page_fault_handler (cr3 faulting_address : Z) : M (vspace S) unit :=
  fault_area ← vma_find_by_addr faulting_address ;
  x ← get_area fault_area ;
  if negb (fault_area =? 0) && bool_decide (vm_state x = VM_AREA_LAZY) then
    ok ← vma_map_area fault_area cr3 ;
    if (ok : bool) then
      x ← get_area fault_area ;
      set_area fault_area (VmArea VM_AREA_ALLOCATED (start_vaddr x) (vm_size x) (pte_flags x) (nr_pages x) (pages x))
    else kpanic "Failed to map lazy VM area"
  else kpanic "Page fault".

End Vma.
