(* ===== verification/VmaInv.v ===== *)
(** * Virtual memory areas: invariants of the area list *)

From S2P Require Import Prelude Dlist Memory Page Buddy BuddyInv BuddySpec BuddyThm PageAlloc.
From S2P Require Import Vmm VmmThm Vma.

(** ** What the areas rely on: kmalloc, kfree and the page allocator *)

Definition preserves {S A} (P : S → Prop) (c : M S A) : Prop :=
  ∀ s a s', c s = Done (a, s') → P s → P s'.

(** A step of the heap, as far as the owners of frames can tell. *)
Record heap_step {S} `{PageAllocator S} (s s' : S) : Prop := {
  hs_ok : pa_ok s';
  hs_taken : ∀ j, pa_taken s j → pa_taken s' j;
  hs_owned : ∀ p o, pa_owned s p o → pa_owned s' p o }.

Class KernelAllocatorLaws (S : Type) `{KernelAllocator S} : Prop := {
  kal_pages :: PageAllocatorLaws S;
  kal_kmalloc : ∀ s size gfp, pa_ok s →
    wp (ka_kmalloc size gfp) s (λ r s', heap_step s s' ∧ (∀ j, pa_taken s' j → pa_taken s j) ∧
      (∀ p, ka_live s p → ka_live s' p) ∧
      (r = 0 ∨ (¬ ka_live s r ∧ ka_live s' r)));
  kal_kfree : ∀ s p, pa_ok s → ka_live s p →
    wp (ka_kfree p) s (λ _ s', heap_step s s' ∧ (∀ j, pa_taken s' j → pa_taken s j) ∧
      ∀ q, q ≠ p → ka_live s q → ka_live s' q);
  kal_kfree_null : ∀ s, wp (ka_kfree 0) s (λ _ s', s' = s);
  kal_null : ∀ s, ¬ ka_live s 0;
  kal_range : ∀ s size gfp r s', ka_kmalloc size gfp s = Done (r, s') → r = 0 ∨ 0 < r ∧ r + size < W32;
  kal_alloc_live : ∀ p size z, preserves (λ s, ka_live s p) (pa_alloc size z);
  kal_free_live : ∀ p a, preserves (λ s, ka_live s p) (pa_free a) }.

(** ** Lists of areas *)

Lemma next_of_mid l1 a l2 : a ∉ l1 → next_of (l1 ++ a :: l2) a = head l2.
Proof.
  induction l1 as [|x l1 IH]; simpl; intros Hn; [by rewrite Z.eqb_refl|].
  rewrite (proj2 (Z.eqb_neq x a)) by set_solver. apply IH. set_solver.
Qed.

Lemma prev_of_mid l1 a l2 : a ∉ l1 → prev_of (l1 ++ a :: l2) a = last l1 ∨
  (l1 = [] ∧ prev_of (l1 ++ a :: l2) a = prev_of (a :: l2) a).
Proof.
  induction l1 as [|x l1 IH]; intros Hn; [by right|left]. destruct l1 as [|y l1]; simpl.
  - by rewrite bool_decide_eq_true_2.
  - rewrite bool_decide_eq_false_2 by (intros [= ->]; set_solver).
    destruct IH as [E|[? _]]; [set_solver| |done]. exact E.
Qed.

Lemma prev_of_none l a : a ∉ l → prev_of l a = None.
Proof.
  induction l as [|x l IH]; simpl; intros Hn; [done|]. rewrite bool_decide_eq_false_2; [apply IH; set_solver|].
  intros E. apply Hn. destruct l; [done|]. simpl in E. simplify_eq. set_solver.
Qed.

Lemma prev_of_split l1 a l2 : NoDup (l1 ++ a :: l2) → prev_of (l1 ++ a :: l2) a = last l1.
Proof.
  rewrite NoDup_app, NoDup_cons. intros (_ & Hd & Hn & _).
  assert (a ∉ l1) as Ha by (intros Ha; apply (Hd a Ha); set_solver).
  destruct (prev_of_mid l1 a l2 Ha) as [->|[-> ->]]; [done|]. simpl.
  rewrite bool_decide_eq_false_2; [by rewrite prev_of_none|].
  intros E. apply Hn. destruct l2; [done|]. simpl in E. simplify_eq. set_solver.
Qed.

Lemma next_of_split l1 a l2 : NoDup (l1 ++ a :: l2) → next_of (l1 ++ a :: l2) a = head l2.
Proof.
  rewrite NoDup_app. intros (_ & Hd & _). apply next_of_mid. intros Ha. apply (Hd a Ha). set_solver.
Qed.

Lemma remove_node_out l a : a ∉ l → remove_node l a = l.
Proof.
  unfold remove_node. induction l as [|x l IH]; intros Hn; [done|].
  rewrite filter_cons_True by set_solver. f_equal. apply IH. set_solver.
Qed.

Lemma remove_node_mid l1 a l2 : NoDup (l1 ++ a :: l2) → remove_node (l1 ++ a :: l2) a = l1 ++ l2.
Proof.
  rewrite NoDup_app, NoDup_cons. intros (_ & Hd & Hn & _). unfold remove_node.
  rewrite filter_app, filter_cons_False by tauto.
  fold (remove_node l1 a) (remove_node l2 a). rewrite !remove_node_out; [done|done|].
  intros Ha. apply (Hd a Ha). set_solver.
Qed.

Lemma insert_before_mid l1 a l2 n : a ∉ l1 → insert_before (l1 ++ a :: l2) n a = l1 ++ n :: a :: l2.
Proof.
  induction l1 as [|x l1 IH]; simpl; intros Hn; [by rewrite Z.eqb_refl|].
  rewrite (proj2 (Z.eqb_neq x a)) by set_solver. f_equal. apply IH. set_solver.
Qed.

(** ** Layouts *)

Definition slot : Type := vm_area_state * Z * Z.

(** The slots tile [[lo, hi)], each from a page boundary. *)
Fixpoint tiles (lo : Z) (l : list slot) (hi : Z) : Prop :=
  match l with
  | [] => lo = hi
  | (_, s, n) :: l => s = lo ∧ 0 < n ∧ (4096 | s) ∧ tiles (s + n) l hi
  end.

Definition is_hole (x : slot) : Prop := x.1.1 = VM_AREA_FREE.

#[export] Instance is_hole_dec x : Decision (is_hole x).
Proof. unfold is_hole. apply _. Defined.

(** No two neighbouring holes. *)
Fixpoint coalesced (l : list slot) : Prop :=
  match l with
  | x :: l => (match l with y :: _ => ¬ (is_hole x ∧ is_hole y) | [] => True end) ∧ coalesced l
  | [] => True
  end.

Lemma tiles_app l1 l2 lo hi : tiles lo (l1 ++ l2) hi ↔ ∃ m, tiles lo l1 m ∧ tiles m l2 hi.
Proof.
  revert lo. induction l1 as [|[[st s] n] l1 IH]; intros lo; simpl.
  - split; [eauto|]. by intros (m & -> & ?).
  - rewrite IH. split.
    + intros (? & ? & ? & m & ? & ?). eauto 8.
    + intros (m & (? & ? & ? & ?) & ?). split_and!; eauto.
Qed.

Lemma tiles_le l lo hi : tiles lo l hi → lo ≤ hi.
Proof.
  revert lo. induction l as [|[[st s] n] l IH]; simpl; intros lo; [lia|].
  intros (-> & ? & _ & Ht). apply IH in Ht. lia.
Qed.

Lemma coalesced_app l1 x l2 :
  coalesced (l1 ++ x :: l2) ↔ coalesced (l1 ++ [x]) ∧ coalesced (x :: l2).
Proof.
  induction l1 as [|y l1 IH]; simpl; [tauto|]. rewrite IH. destruct l1; simpl; tauto.
Qed.

Lemma coalesced_tail l1 l2 : coalesced (l1 ++ l2) → coalesced l1 ∧ coalesced l2.
Proof.
  induction l1 as [|y l1 IH]; simpl; [done|]. intros [H1 H2]. destruct (IH H2). split; [|done].
  split; [|done]. by destruct l1.
Qed.

(** What a slot needs of its neighbours. *)
Lemma coalesced_mid l1 x l2 : coalesced l1 → coalesced l2 →
  (is_hole x → (∀ y, last l1 = Some y → ¬ is_hole y) ∧ (∀ y, head l2 = Some y → ¬ is_hole y)) →
  coalesced (l1 ++ x :: l2).
Proof.
  intros H1 H2 Hx. apply coalesced_app. split.
  - clear H2. assert (is_hole x → ∀ y, last l1 = Some y → ¬ is_hole y) as Hl by (intros Hh; apply Hx, Hh).
    clear Hx. induction l1 as [|y [|z l1] IH]; [done| |].
    + simpl. split; [|done]. intros [Hy Hh]. by apply (Hl Hh y).
    + destruct H1 as [Hyz Hz]. split; [done|]. by apply IH.
  - simpl. split; [|done]. destruct l2 as [|y l2]; [done|]. intros [Hh Hy].
    by apply (proj2 (Hx Hh) y).
Qed.

Lemma coalesced_busy l1 x l2 : coalesced l1 → coalesced l2 → ¬ is_hole x → coalesced (l1 ++ x :: l2).
Proof. intros. by apply coalesced_mid. Qed.

(** A hole's neighbours are busy. *)
Lemma coalesced_hole l1 x l2 : coalesced (l1 ++ x :: l2) → is_hole x →
  (∀ y, last l1 = Some y → ¬ is_hole y) ∧ (∀ y, head l2 = Some y → ¬ is_hole y).
Proof.
  intros [H1 H2]%coalesced_app Hx. split.
  - clear H2. induction l1 as [|y [|z l1] IH]; [done| |].
    + simpl in *. intros ? [= <-] ?. tauto.
    + destruct H1 as [_ H1]. by apply IH.
  - destruct l2 as [|y l2]; [done|]. simpl in *. intros ? [= <-]. tauto.
Qed.

Section VmaInv.
Context {S : Type} `{KernelAllocatorLaws S}.
Implicit Types st : vspace S.

Definition heap st : S := palloc (vs_vmm st).

Definition view (x : vm_area) : slot := (vm_state x, start_vaddr x, vm_size x).

Definition layout st : list slot := map (λ a, view (vs_area st a)) (vs_list st).

(** The areas that are not holes, in order. *)
Definition busy st : list Z := filter (λ a, vm_state (vs_area st a) ≠ VM_AREA_FREE) (vs_list st).

(** A hole has no pages array; a busy area has one with a word per page. *)
Definition area_ok st (a : Z) : Prop :=
  let x := vs_area st a in
  if decide (vm_state x = VM_AREA_FREE) then pages x = 0 ∧ nr_pages x = 0
  else ka_live (heap st) (pages x) ∧ (pages x ∉ vs_list st) ∧
       Z.of_nat (length (vs_pages st (pages x))) = nr_pages x ∧ nr_pages x * 4096 = vm_size x.

Record areas_wf st (lo hi : Z) : Prop := {
  aw_heap : pa_ok (heap st);
  aw_nodup : NoDup (vs_list st);
  aw_live : ∀ a, a ∈ vs_list st → ka_live (heap st) a;
  aw_lo : 0 ≤ lo;
  aw_hi : hi + 8192 ≤ W32;
  aw_tiles : tiles lo (layout st) hi;
  aw_area : ∀ a, a ∈ vs_list st → area_ok st a;
  aw_sep : ∀ a b, a ∈ busy st → b ∈ busy st → pages (vs_area st a) = pages (vs_area st b) → a = b }.

Definition areas_ok st lo hi : Prop := areas_wf st lo hi ∧ coalesced (layout st).

(** The busy areas, their structures and their arrays are as before. *)
Record busy_same st st' : Prop := {
  bs_busy : busy st' = busy st;
  bs_area : ∀ a, a ∈ busy st → vs_area st' a = vs_area st a;
  bs_pages : ∀ a, a ∈ busy st → vs_pages st' (pages (vs_area st a)) = vs_pages st (pages (vs_area st a)) }.

(** Only the heap part of the paging state moved. *)
Record vmm_same (v v' : vmm S) : Prop := {
  vm_pmem : pmem v' = pmem v;
  vm_cr3 : cr3 v' = cr3 v;
  vm_flushes : flushes v' = flushes v;
  vm_heap : heap_step (palloc v) (palloc v');
  vm_untaken : ∀ j, pa_taken (palloc v') j → pa_taken (palloc v) j }.

Lemma busy_in st a : a ∈ busy st ↔ vm_state (vs_area st a) ≠ VM_AREA_FREE ∧ a ∈ vs_list st.
Proof. unfold busy. by rewrite list_elem_of_filter. Qed.

Lemma heap_step_refl (s : S) : pa_ok s → heap_step s s.
Proof. by split. Qed.

Lemma heap_step_trans (s1 s2 s3 : S) : heap_step s1 s2 → heap_step s2 s3 → heap_step s1 s3.
Proof. intros [] []. split; auto. Qed.

Lemma vmm_same_refl v : pa_ok (palloc v) → vmm_same v v.
Proof. by split. Qed.

Lemma vmm_same_trans v1 v2 v3 : vmm_same v1 v2 → vmm_same v2 v3 → vmm_same v1 v3.
Proof. intros [] []. split; [congruence..|by eapply heap_step_trans|auto]. Qed.

Lemma busy_same_refl st : busy_same st st.
Proof. by split. Qed.

Lemma busy_same_trans st1 st2 st3 : busy_same st1 st2 → busy_same st2 st3 → busy_same st1 st3.
Proof.
  intros [A1 A2 A3] [B1 B2 B3]. rewrite A1 in B2, B3. split; [congruence|..].
  - intros a Ha. rewrite B2, A2; auto.
  - intros a Ha. rewrite <- (A2 a Ha) at 1. rewrite B3, A2 by done. auto.
Qed.

(** ** Lifted operations *)

Lemma wp_lift_vmm {A} (c : M (vmm S) A) st (Q : A → vspace S → Prop) :
  wp c (vs_vmm st) (λ a v, Q a (VSpace v (vs_list st) (vs_area st) (vs_pages st))) →
  wp (lift_vmm c) st Q.
Proof. unfold wp, lift_vmm. by destruct (c (vs_vmm st)) as [[a v]| | |]. Qed.

Lemma wp_kfree st p (Q : unit → vspace S → Prop) : pa_ok (heap st) → ka_live (heap st) p →
  (∀ v, vmm_same (vs_vmm st) v → (∀ q, q ≠ p → ka_live (heap st) q → ka_live (palloc v) q) →
     Q tt (VSpace v (vs_list st) (vs_area st) (vs_pages st))) →
  wp (Vma.kfree p) st Q.
Proof.
  intros Hok Hl HQ. unfold Vma.kfree. apply wp_lift_vmm, wp_lift_pa.
  eapply wp_mono; [by apply kal_kfree|]. intros [] s (Hs & Hu & Hq). by apply HQ.
Qed.

Lemma wp_kmalloc st size gfp (Q : Z → vspace S → Prop) : pa_ok (heap st) →
  (∀ r v, vmm_same (vs_vmm st) v → (∀ q, ka_live (heap st) q → ka_live (palloc v) q) →
     (r = 0 ∨ (r ≠ 0 ∧ ¬ ka_live (heap st) r ∧ ka_live (palloc v) r)) →
     Q r (VSpace v (vs_list st) (vs_area st) (vs_pages st))) →
  wp (Vma.kmalloc size gfp) st Q.
Proof.
  intros Hok HQ. unfold Vma.kmalloc. apply wp_lift_vmm, wp_lift_pa.
  eapply wp_mono; [by apply kal_kmalloc|]. intros r s (Hs & Hu & Hq & Hr). apply HQ; [done|done|].
  destruct Hr as [->|[Hn Hl]]; [by left|right]. split_and!; [|done|done].
  intros ->. by eapply kal_null.
Qed.

(** ** Merging *)

Lemma layout_split st l1 a l2 : vs_list st = l1 ++ a :: l2 →
  layout st = map (λ a, view (vs_area st a)) l1 ++ view (vs_area st a) :: map (λ a, view (vs_area st a)) l2.
Proof. intros E. unfold layout. by rewrite E, map_app. Qed.

Lemma map_view_ext (f g : Z → vm_area) l : (∀ a, a ∈ l → view (f a) = view (g a)) →
  map (λ a, view (f a)) l = map (λ a, view (g a)) l.
Proof. intros Hfg. apply list_fmap_ext. intros i a Ha. apply Hfg. by eapply list_elem_of_lookup_2. Qed.

(** Two neighbours in the list are neighbours in memory. *)
Lemma tiles_neighbors lo hi l1 x y l2 : 0 ≤ lo → hi < W32 → tiles lo (l1 ++ view x :: view y :: l2) hi →
  0 ≤ start_vaddr x ∧ start_vaddr y = start_vaddr x + vm_size x ∧
  start_vaddr x + vm_size x + vm_size y < W32 ∧ 0 < vm_size x ∧ 0 < vm_size y.
Proof.
  intros Hlo Hhi (m & H1 & H2)%tiles_app. simpl in H2.
  destruct H2 as (-> & ? & _ & -> & ? & _ & H2). apply tiles_le in H1, H2. lia.
Qed.

Lemma wp_merge_neighbor st lo hi l1 a b l2 (Q : unit → vspace S → Prop) :
  areas_wf st lo hi → vs_list st = l1 ++ a :: b :: l2 →
  (¬ (is_hole (view (vs_area st a)) ∧ is_hole (view (vs_area st b))) → Q tt st) →
  (is_hole (view (vs_area st a)) → is_hole (view (vs_area st b)) →
     ∀ st', areas_wf st' lo hi → vs_list st' = l1 ++ a :: l2 → busy_same st st' →
       vmm_same (vs_vmm st) (vs_vmm st') → vs_pages st' = vs_pages st →
       (∀ c, c ≠ a → vs_area st' c = vs_area st c) →
       is_hole (view (vs_area st' a)) → Q tt st') →
  wp (merge_neighbor a b) st Q.
Proof.
  intros Hwf Hl HQ1 HQ2. pose proof Hwf as [W1 W2 W3 W4 W5 W6 W7 W8].
  unfold merge_neighbor. wp_step. unfold get_area. apply wp_gets. wp_step. apply wp_gets.
  set (x := vs_area st a) in *. set (y := vs_area st b) in *.
  destruct (decide (vm_state x = VM_AREA_FREE ∧ vm_state y = VM_AREA_FREE)) as [[Hx Hy]|Hn].
  2: { replace (bool_decide _ || bool_decide _) with true; [apply wp_ret, HQ1, Hn|].
       symmetry. apply orb_true_iff. rewrite !bool_decide_eq_true.
       destruct (decide (vm_state x = VM_AREA_FREE)), (decide (vm_state y = VM_AREA_FREE)); tauto. }
  rewrite !bool_decide_eq_false_2 by tauto. cbn [orb].
  rewrite (layout_split st l1 a (b :: l2) Hl) in W6. simpl in W6. fold x y in W6.
  destruct (tiles_neighbors lo hi _ x y _ W4 ltac:(lia) W6) as (Hx0 & Hyx & Hw & Hx1 & Hy1).
  unfold vma_areas_are_neighbors. rewrite u32_small by lia. rewrite (proj2 (Z.eqb_eq _ _)) by lia.
  rewrite u32_small by lia.
  wp_step. unfold set_area. apply wp_modify. wp_step. unfold set_list. apply wp_modify. cbn [vs_list vs_vmm vs_area vs_pages].
  assert (a ≠ b ∧ (b ∉ l1) ∧ (b ∉ l2) ∧ (a ∉ l1) ∧ (a ∉ l2)) as (Hab & Hb1 & Hb2 & Ha1 & Ha2).
  { rewrite Hl in W2. apply NoDup_app in W2 as (_ & Hd & W2). apply NoDup_cons in W2 as [Hn1 W2].
    apply NoDup_cons in W2 as [Hn2 _]. split_and!; try set_solver; intros Hin; apply (Hd _ Hin); set_solver. }
  assert (remove_node (vs_list st) b = l1 ++ a :: l2) as ->.
  { rewrite Hl. change (a :: b :: l2) with ([a] ++ b :: l2). rewrite app_assoc.
    rewrite remove_node_mid; [by rewrite <- app_assoc|]. rewrite <- app_assoc. simpl. by rewrite <- Hl. }
  apply wp_kfree; [done|apply W3; rewrite Hl; set_solver|]. intros v Hv Hlive. cbn [vs_vmm vs_list vs_area vs_pages] in *.
  set (x' := VmArea _ _ _ _ _ _). set (st' := VSpace _ _ _ _).
  assert (∀ c, c ≠ a → vs_area st' c = vs_area st c) as Hother.
  { intros c Hc. simpl. by rewrite fn_lookup_insert_ne. }
  assert (vs_area st' a = x') as Ha by (simpl; by rewrite fn_lookup_insert).
  assert (∀ c, c ∈ vs_list st' → c ∈ vs_list st ∧ c ≠ b) as Hsub.
  { intros c. simpl. rewrite Hl. intros Hc. split; [set_solver|]. intros ->. set_solver. }
  assert (busy st' = busy st) as Hbusy.
  { unfold busy. simpl. rewrite Hl, !filter_app, !filter_cons.
    rewrite fn_lookup_insert. rewrite (decide_False (P := vm_state x' ≠ _)) by tauto.
    fold x y. rewrite !(decide_False (P := vm_state _ ≠ _)) by tauto.
    f_equal; apply filter_ext_in; intros c Hc; rewrite fn_lookup_insert_ne; set_solver. }
  assert (∀ c, c ∈ busy st → vs_area st' c = vs_area st c) as Hbarea.
  { intros c [Hc _]%busy_in. apply Hother. intros ->. done. }
  assert (∀ p, p ≠ b → ka_live (heap st) p → ka_live (heap st') p) as Hlive' by exact Hlive.
  assert (∀ c, c ∈ busy st → pages (vs_area st c) ≠ b) as Hpb.
  { intros c [Hc Hin]%busy_in. specialize (W7 c Hin). unfold area_ok in W7.
    rewrite decide_False in W7 by done. destruct W7 as (_ & Hnl & _). intros E. apply Hnl. rewrite E, Hl. set_solver. }
  assert (busy_same st st') as Hbs by (by split).
  apply HQ2; try done; [|by rewrite Ha].
  split; [apply Hv|..|done|done| | |].
  - simpl. rewrite Hl in W2. apply NoDup_app in W2 as (? & Hd & W2).
    apply NoDup_cons in W2 as [? W2]. apply NoDup_cons in W2 as [? ?].
    apply NoDup_app. split_and!; [done| |by apply NoDup_cons]. intros c Hc Hc'. apply (Hd c Hc). set_solver.
  - intros c Hc. destruct (Hsub c Hc). apply Hlive'; auto.
  - unfold layout. simpl. rewrite map_app. simpl. rewrite fn_lookup_insert.
    rewrite !(map_view_ext (<[a := x']> (vs_area st)) (vs_area st))
      by (intros c Hc; rewrite fn_lookup_insert_ne; set_solver).
    apply tiles_app. apply tiles_app in W6 as (m & T1 & E1 & ? & Hdv & E2 & ? & _ & T2).
    exists m. split; [done|]. simpl. split; [done|]. split; [lia|]. split; [done|].
    by replace (start_vaddr x + (vm_size x + vm_size y)) with (start_vaddr y + vm_size y) by lia.
  - intros c Hc. destruct (Hsub c Hc) as [Hc1 Hc2]. specialize (W7 c Hc1). unfold area_ok in *.
    destruct (decide (c = a)) as [->|Hne].
    + rewrite Ha. simpl. fold x in W7. rewrite !decide_True in * by done. done.
    + rewrite Hother by done. case_decide as Hs; [done|]. destruct W7 as (L1 & L2 & L3 & L4).
      split_and!; [|by intros []%Hsub|done|done]. apply Hlive'; [|done].
      apply Hpb. by apply busy_in.
  - intros c d. rewrite Hbusy. intros Hc Hd. rewrite !Hbarea by done. auto.
Qed.

Definition views st (l : list Z) : list slot := map (λ a, view (vs_area st a)) l.

Lemma views_app st l1 a l2 : views st (l1 ++ a :: l2) = views st l1 ++ view (vs_area st a) :: views st l2.
Proof. unfold views. by rewrite map_app. Qed.

Lemma views_same st st' a l : a ∉ l → (∀ c, c ≠ a → vs_area st' c = vs_area st c) →
  views st' l = views st l.
Proof. intros Ha Hs. apply map_view_ext. intros c Hc. rewrite Hs; [done|]. set_solver. Qed.

Lemma last_views st l y : last (views st l) = Some y → ∃ b, last l = Some b ∧ y = view (vs_area st b).
Proof. unfold views. rewrite fmap_last. destruct (last l); naive_solver. Qed.

Lemma head_views st l y : head (views st l) = Some y → ∃ b, head l = Some b ∧ y = view (vs_area st b).
Proof. unfold views. destruct l; naive_solver. Qed.

(** The second half of [vma_merge_area]. *)
Lemma wp_merge_prev st lo hi l1 a l2 (Q : unit → vspace S → Prop) :
  areas_wf st lo hi → vs_list st = l1 ++ a :: l2 → is_hole (view (vs_area st a)) →
  coalesced (views st l1) → coalesced (view (vs_area st a) :: views st l2) →
  (∀ st', areas_ok st' lo hi → busy_same st st' → vmm_same (vs_vmm st) (vs_vmm st') →
     vs_pages st' = vs_pages st → Q tt st') →
  wp (match prev_of (vs_list st) a with Some p => merge_neighbor p a | None => mret tt end) st Q.
Proof.
  intros Hwf Hl Ha C1 C2 HQ. pose proof (aw_nodup _ _ _ Hwf) as Hnd. rewrite Hl in Hnd.
  assert (coalesced (views st l2)) as C2' by apply C2.
  rewrite Hl, prev_of_split by done. destruct (last l1) as [p|] eqn:El.
  - apply last_Some in El as [l0 ->]. rewrite <- app_assoc in Hl, Hnd. simpl in Hl, Hnd.
    eapply wp_merge_neighbor; [exact Hwf|exact Hl| |].
    + intros Hn. apply HQ; [|apply busy_same_refl|apply vmm_same_refl, Hwf|done]. split; [done|].
      unfold layout. rewrite Hl. change (coalesced (views st (l0 ++ p :: a :: l2))).
      replace (l0 ++ p :: a :: l2) with ((l0 ++ [p]) ++ a :: l2) by (by rewrite <- app_assoc).
      unfold views. rewrite map_app. simpl. apply coalesced_mid; [done..|]. intros _. split.
      * intros y (b & Hb & ->)%last_views. rewrite last_snoc in Hb. simplify_eq. tauto.
      * intros y Hy Hhy. destruct C2 as [C2 _]. unfold views in C2, Hy.
        destruct (map _ l2) as [|z ?]; simplify_eq. simpl in Hy. simplify_eq. tauto.
    + intros Hp _ st' Hwf' Hl' Hbs Hvs Hps Ho Hp'. apply HQ; [|done..]. split; [done|].
      apply NoDup_app in Hnd as (_ & Hd & Hnd). apply NoDup_cons in Hnd as [Hnp _].
      unfold layout. rewrite Hl'. unfold views in *. rewrite map_app in *. simpl.
      fold (views st' l0) (views st' l2). fold (views st l0) in C1.
      rewrite !(views_same st st' p) by (done || set_solver || (intros Hin; apply (Hd p Hin); set_solver)).
      apply coalesced_mid; [by apply (coalesced_tail _ _ C1)|done|]. intros _. split.
      * apply (coalesced_hole _ _ [] C1). done.
      * intros y Hy Hhy. destruct C2 as [C2 _]. unfold views in Hy.
        destruct (map _ l2) as [|z ?]; simplify_eq. simpl in Hy. simplify_eq. tauto.
  - apply last_None in El as ->. apply wp_ret.
    apply HQ; [|apply busy_same_refl|apply vmm_same_refl, Hwf|done]. split; [done|].
    unfold layout. rewrite Hl. done.
Qed.

(** Merging a hole with its neighbours restores the invariant. *)
Lemma wp_vma_merge_area st lo hi l1 a l2 (Q : unit → vspace S → Prop) :
  areas_wf st lo hi → vs_list st = l1 ++ a :: l2 → is_hole (view (vs_area st a)) →
  coalesced (views st l1) → coalesced (views st l2) →
  (∀ st', areas_ok st' lo hi → busy_same st st' → vmm_same (vs_vmm st) (vs_vmm st') →
     vs_pages st' = vs_pages st → Q tt st') →
  wp (vma_merge_area a) st Q.
Proof.
  intros Hwf Hl Ha C1 C2 HQ. pose proof (aw_nodup _ _ _ Hwf) as Hnd.
  unfold vma_merge_area. wp_step. apply wp_gets. wp_step. rewrite Hl in Hnd.
  rewrite Hl, next_of_split by done. destruct l2 as [|b l2]; simpl.
  - apply wp_ret. wp_step. apply wp_gets. eapply wp_merge_prev; [exact Hwf|exact Hl|done..].
  - eapply wp_merge_neighbor; [exact Hwf|exact Hl| |].
    + intros Hn. wp_step. apply wp_gets. eapply wp_merge_prev; [exact Hwf|exact Hl|done..| |done].
      simpl. split; [tauto|done].
    + intros _ Hb st' Hwf' Hl' Hbs Hvs Hps Ho Ha'. wp_step. apply wp_gets.
      apply NoDup_app in Hnd as (_ & Hd & Hnd). apply NoDup_cons in Hnd as [Hna _].
      assert (views st' l1 = views st l1) as E1.
      { apply (views_same st st' a); [|done]. intros Hin. apply (Hd a Hin). set_solver. }
      assert (views st' l2 = views st l2) as E2 by (apply (views_same st st' a); [set_solver|done]).
      eapply wp_merge_prev; [exact Hwf'|exact Hl'|done|by rewrite E1| |].
      * rewrite E2. change (coalesced ([] ++ view (vs_area st' a) :: views st l2)).
        apply coalesced_mid; [done|apply C2|]. intros _. split; [done|].
        intros y Hy Hhy. simpl in C2. destruct C2 as [C2 _]. unfold views in *.
        destruct (map _ l2) as [|z ?]; [done|]. simpl in Hy. simplify_eq. tauto.
      * intros st2 Hok Hbs2 Hvs2 Hps2. apply HQ; [done|..|congruence].
        -- by eapply busy_same_trans.
        -- by eapply vmm_same_trans.
Qed.

End VmaInv.
