(* ===== verification/VmaAlloc.v ===== *)
(** * Virtual memory areas: finding, splitting and placing an area *)

From S2P Require Import Prelude Dlist Memory Page Buddy BuddyInv BuddySpec BuddyThm PageAlloc.
From S2P Require Import Vmm VmmThm Vma VmaInv.

Section VmaAlloc.
Context {S : Type} `{KernelAllocatorLaws S}.
Implicit Types st : vspace S.

(** ** Searches *)

Lemma wp_first_area st (p : vm_area → bool) l (Q : Z → vspace S → Prop) :
  ((∀ a, a ∈ l → p (vs_area st a) = false) → Q 0 st) →
  (∀ l1 a l2, l = l1 ++ a :: l2 → p (vs_area st a) = true →
     (∀ b, b ∈ l1 → p (vs_area st b) = false) → Q a st) →
  wp (first_area p l) st Q.
Proof.
  induction l as [|a l IH]; intros Hnone Hsome; simpl; [apply wp_ret, Hnone; set_solver|].
  wp_step. unfold get_area. apply wp_gets. destruct (p (vs_area st a)) eqn:Ep.
  - apply wp_ret. apply (Hsome [] a l); [done|done|]. set_solver.
  - apply IH.
    + intros Hall. apply Hnone. intros b [->|Hb]%elem_of_cons; auto.
    + intros l1 b l2 -> Hb Hall. apply (Hsome (a :: l1) b l2); [done|done|].
      intros c [->|Hc]%elem_of_cons; auto.
Qed.

Lemma listed_nonzero st lo hi a : areas_wf st lo hi → a ∈ vs_list st → a ≠ 0.
Proof. intros Hwf Ha ->. eapply kal_null, (aw_live _ _ _ Hwf), Ha. Qed.

(** The bounds of a slot of a tiling. *)
Lemma tiles_slot lo hi l1 x l2 : tiles lo (l1 ++ x :: l2) hi →
  lo ≤ x.1.2 ∧ 0 < x.2 ∧ x.1.2 + x.2 ≤ hi ∧ (4096 | x.1.2).
Proof.
  destruct x as [[s b] n]. intros (m & T1 & -> & Hn & Hd & T2)%tiles_app.
  apply tiles_le in T1, T2. simpl. split; [done|]. split; [done|]. split; [lia|done].
Qed.

Lemma area_bounds st lo hi a : areas_wf st lo hi → a ∈ vs_list st →
  lo ≤ start_vaddr (vs_area st a) ∧ 0 < vm_size (vs_area st a) ∧
  start_vaddr (vs_area st a) + vm_size (vs_area st a) ≤ hi ∧ (4096 | start_vaddr (vs_area st a)).
Proof.
  intros Hwf (l1 & l2 & Hl)%list_elem_of_split. pose proof (aw_tiles _ _ _ Hwf) as Ht.
  rewrite (layout_split _ _ _ _ Hl) in Ht. exact (tiles_slot _ _ _ _ _ Ht).
Qed.

(** Different areas do not overlap. *)
Lemma tiles_apart lo hi l1 x l2 y l3 : tiles lo (l1 ++ x :: l2 ++ y :: l3) hi →
  x.1.2 + x.2 ≤ y.1.2.
Proof.
  destruct x as [[sx bx] nx], y as [[sy b] ny].
  intros (m & _ & -> & Hn & _ & (m2 & T & -> & _)%tiles_app)%tiles_app. simpl.
  apply tiles_le in T. lia.
Qed.

Lemma areas_apart st lo hi a b : areas_wf st lo hi → a ∈ vs_list st → b ∈ vs_list st → a ≠ b →
  start_vaddr (vs_area st a) + vm_size (vs_area st a) ≤ start_vaddr (vs_area st b) ∨
  start_vaddr (vs_area st b) + vm_size (vs_area st b) ≤ start_vaddr (vs_area st a).
Proof.
  intros Hwf (l1 & l2 & Hl)%list_elem_of_split Hb Hab. pose proof (aw_tiles _ _ _ Hwf) as Ht.
  rewrite Hl in Hb. apply elem_of_app in Hb as [Hb|[->|Hb]%elem_of_cons]; [|done|];
    apply list_elem_of_split in Hb as (l3 & l4 & ->); unfold layout in Ht; rewrite Hl, !map_app in Ht; simpl in Ht.
  - right. rewrite <- app_assoc in Ht. exact (tiles_apart _ _ _ _ _ _ _ Ht).
  - left. rewrite map_app in Ht. simpl in Ht. exact (tiles_apart _ _ _ _ _ _ _ Ht).
Qed.

(** A move of the heap alone. *)
Lemma heap_move st lo hi v : areas_ok st lo hi → vmm_same (vs_vmm st) v →
  (∀ q, ka_live (heap st) q → ka_live (palloc v) q) →
  areas_ok (VSpace v (vs_list st) (vs_area st) (vs_pages st)) lo hi ∧
  busy_same st (VSpace v (vs_list st) (vs_area st) (vs_pages st)).
Proof.
  intros [[W1 W2 W3 W4 W5 W6 W7 W8] Hc] Hv Hlive. split; [|by split]. split; [|done]. split; auto; simpl.
  - apply Hv.
  - intros a Ha. specialize (W7 a Ha). unfold area_ok in *. simpl. case_decide; [done|].
    destruct W7 as (? & ? & ? & ?). split_and!; auto.
Qed.

(** ** Splitting *)

(** In [st1] the node [n] stands between the nodes [l1] and [l2], for an area
    of [k] bytes that is about to be initialised; the busy areas of [st]
    are around it. *)
Record placed st st1 (n : Z) (l1 l2 : list Z) (lo hi k : Z) : Prop := {
  pl_list : vs_list st1 = l1 ++ n :: l2;
  pl_heap : pa_ok (heap st1);
  pl_nodup : NoDup (l1 ++ n :: l2);
  pl_live : ∀ a, a ∈ l1 ++ n :: l2 → ka_live (heap st1) a;
  pl_keep : ∀ p, ka_live (heap st) p → ka_live (heap st1) p;
  pl_lo : 0 ≤ lo;
  pl_hi : hi + 8192 ≤ W32;
  pl_tiles : ∀ s, tiles lo (views st1 l1 ++ (s, start_vaddr (vs_area st1 n), k) :: views st1 l2) hi;
  pl_size : vm_size (vs_area st1 n) = k;
  pl_aligned : (4096 | k);
  pl_nopages : pages (vs_area st1 n) = 0;
  pl_area : ∀ a, a ∈ l1 ++ l2 → area_ok st1 a;
  pl_c1 : coalesced (views st1 l1);
  pl_c2 : coalesced (views st1 l2);
  pl_hole : (∀ y, last (views st1 l1) = Some y → ¬ is_hole y);
  pl_busy : filter (λ a, vm_state (vs_area st1 a) ≠ VM_AREA_FREE) (l1 ++ l2) = busy st;
  pl_barea : ∀ a, a ∈ busy st → vs_area st1 a = vs_area st a;
  pl_blive : ∀ a, a ∈ busy st → ka_live (heap st) (pages (vs_area st a));
  pl_pages : vs_pages st1 = vs_pages st;
  pl_sep : ∀ a b, a ∈ busy st → b ∈ busy st → pages (vs_area st a) = pages (vs_area st b) → a = b;
  pl_vmm : vmm_same (vs_vmm st) (vs_vmm st1) }.

Lemma align_page sz : 0 < sz → sz + 4096 ≤ W32 →
  sz ≤ ALIGN sz PAGE_SIZE < sz + 4096 ∧ (4096 | ALIGN sz PAGE_SIZE).
Proof. intros. unfold PAGE_SIZE. change 4096 with (2 ^ 12). apply ALIGN_spec; lia. Qed.

(** ** Filling the placed node *)

Section Placed.
Context (st st1 : vspace S) (n : Z) (l1 l2 : list Z) (lo hi k : Z).
Context (Hp : placed st st1 n l1 l2 lo hi k).
Lemma placed_out a : a ∈ l1 ++ l2 → a ≠ n.
Proof.
  intros Ha ->. pose proof (pl_nodup _ _ _ _ _ _ _ _ Hp) as Hn.
  apply NoDup_app in Hn as (_ & Hd & Hn). apply NoDup_cons in Hn as [Hn _].
  apply elem_of_app in Ha as [Ha|Ha]; [|done]. apply (Hd n Ha). set_solver.
Qed.

Context (v : vmm S) (x : vm_area) (ar : Z → vm_area) (pg : Z → list Z).
Context (Har : ar n = x) (Haro : ∀ c, c ≠ n → ar c = vs_area st1 c).
Context (Hv : vmm_same (vs_vmm st1) v).
Context (Hlive : ∀ q, ka_live (heap st1) q → ka_live (palloc v) q).
Context (Hstart : start_vaddr x = start_vaddr (vs_area st1 n)) (Hsize : vm_size x = k).

Let st2 := VSpace v (vs_list st1) ar pg.

Lemma placed_other a : a ≠ n → vs_area st2 a = vs_area st1 a.
Proof. apply Haro. Qed.

Lemma placed_this : vs_area st2 n = x.
Proof. exact Har. Qed.

Lemma placed_views l : (∀ a, a ∈ l → a ∈ l1 ++ l2) → views st2 l = views st1 l.
Proof.
  intros Hl. apply map_view_ext. intros a Ha. by rewrite placed_other by (apply placed_out; auto).
Qed.

Lemma placed_tiles : tiles lo (layout st2) hi.
Proof.
  change (layout st2) with (views st2 (vs_list st1)).
  rewrite (pl_list _ _ _ _ _ _ _ _ Hp), views_app, placed_this, !placed_views by set_solver.
  unfold view. rewrite Hstart, Hsize. apply Hp.
Qed.

Lemma placed_busy : busy st2 =
  filter (λ a, vm_state (vs_area st2 a) ≠ VM_AREA_FREE) l1 ++
  (if decide (vm_state x ≠ VM_AREA_FREE) then [n] else []) ++
  filter (λ a, vm_state (vs_area st2 a) ≠ VM_AREA_FREE) l2 ∧
  busy st = filter (λ a, vm_state (vs_area st2 a) ≠ VM_AREA_FREE) l1 ++
            filter (λ a, vm_state (vs_area st2 a) ≠ VM_AREA_FREE) l2.
Proof.
  split.
  - unfold busy. simpl vs_list. rewrite (pl_list _ _ _ _ _ _ _ _ Hp), filter_app, filter_cons, placed_this.
    f_equal. by case_decide.
  - rewrite <- (pl_busy _ _ _ _ _ _ _ _ Hp), filter_app.
    f_equal; apply filter_ext_in; intros a Ha; by rewrite placed_other by (apply placed_out; set_solver).
Qed.

Lemma placed_area a : a ∈ l1 ++ l2 →
  (∀ q, ka_live (heap st) q → pg q = vs_pages st q) → area_ok st2 a.
Proof.
  intros Ha Hpg. pose proof (pl_area _ _ _ _ _ _ _ _ Hp a Ha) as Hok. unfold area_ok in *.
  rewrite placed_other by (by apply placed_out). case_decide as Hs; [done|].
  destruct Hok as (A1 & A2 & A3 & A4). split_and!; [by apply Hlive|done| |done].
  simpl. rewrite (pl_pages _ _ _ _ _ _ _ _ Hp) in A3. rewrite <- A3. do 2 f_equal.
  assert (a ∈ busy st) as Hb.
  { rewrite <- (pl_busy _ _ _ _ _ _ _ _ Hp). by apply list_elem_of_filter. }
  rewrite (pl_barea _ _ _ _ _ _ _ _ Hp a Hb). by apply Hpg, (pl_blive _ _ _ _ _ _ _ _ Hp).
Qed.

Context (Hpg : ∀ q, ka_live (heap st) q → pg q = vs_pages st q).

Lemma placed_in a : a ∈ vs_list st2 → a = n ∨ a ∈ l1 ++ l2.
Proof. simpl. rewrite (pl_list _ _ _ _ _ _ _ _ Hp). set_solver. Qed.

Lemma placed_barea a : a ∈ busy st → vs_area st2 a = vs_area st a.
Proof.
  intros Ha. rewrite placed_other; [by apply Hp|]. apply placed_out.
  rewrite <- (pl_busy _ _ _ _ _ _ _ _ Hp) in Ha. by apply list_elem_of_filter in Ha as [_ ?].
Qed.

(** The common part of the two outcomes. *)
Lemma placed_wf : area_ok st2 n →
  (vm_state x ≠ VM_AREA_FREE → ∀ a, a ∈ busy st → pages (vs_area st a) ≠ pages x) →
  areas_wf st2 lo hi.
Proof.
  intros Hn Hfresh. destruct placed_busy as [B1 B2]. split.
  - apply Hv.
  - simpl. rewrite (pl_list _ _ _ _ _ _ _ _ Hp). apply Hp.
  - intros a Ha. apply Hlive, Hp. by rewrite <- (pl_list _ _ _ _ _ _ _ _ Hp).
  - apply Hp.
  - apply Hp.
  - apply placed_tiles.
  - intros a [->|Ha]%placed_in; [done|]. by apply placed_area.
  - assert (∀ a, a ∈ busy st2 → (a = n ∧ vm_state x ≠ VM_AREA_FREE) ∨ a ∈ busy st) as Hin.
    { rewrite B1, B2. intros a. case_decide; set_solver. }
    intros a b [[-> Hx]|Ha]%Hin [[-> Hy]|Hb]%Hin; [done|..].
    + rewrite placed_this, placed_barea by done. intros E. exfalso. by apply (Hfresh Hx b Hb).
    + rewrite placed_this, placed_barea by done. intros E. exfalso. by apply (Hfresh Hy a Ha).
    + rewrite !placed_barea by done. by apply Hp.
Qed.

(** Giving up: the node becomes a hole again. *)
Lemma placed_give_up : vm_state x = VM_AREA_FREE → pages x = 0 → nr_pages x = 0 →
  areas_wf st2 lo hi ∧ is_hole (view (vs_area st2 n)) ∧ coalesced (views st2 l1) ∧
  coalesced (views st2 l2) ∧ busy_same st st2.
Proof.
  intros Hx Hx1 Hx2. destruct placed_busy as [B1 B2]. split_and!.
  - apply placed_wf; [|done]. unfold area_ok. by rewrite placed_this, decide_True.
  - by rewrite placed_this.
  - rewrite placed_views by set_solver. apply Hp.
  - rewrite placed_views by set_solver. apply Hp.
  - split; [|by apply placed_barea|].
    + rewrite B1, B2. by rewrite decide_False by tauto.
    + intros a Ha. simpl. apply Hpg. by apply Hp.
Qed.

(** Success: the node becomes a busy area with its own pages array. *)
Lemma placed_commit : vm_state x ≠ VM_AREA_FREE → ¬ ka_live (heap st1) (pages x) →
  ka_live (palloc v) (pages x) → Z.of_nat (length (pg (pages x))) = nr_pages x →
  nr_pages x * 4096 = k →
  areas_ok st2 lo hi ∧ n ∈ busy st2 ∧ vs_area st2 n = x ∧
  busy st2 ≡ₚ n :: busy st ∧ (∀ a, a ∈ busy st → vs_area st2 a = vs_area st a).
Proof.
  intros Hx Hp1 Hp2 Hp3 Hp4. destruct placed_busy as [B1 B2].
  rewrite decide_True in B1 by done.
  assert (areas_wf st2 lo hi) as Hwf.
  { apply placed_wf.
    - unfold area_ok. rewrite placed_this, decide_False by done. split_and!; [done| |done|congruence].
      simpl. rewrite (pl_list _ _ _ _ _ _ _ _ Hp). intros Hin. apply Hp1. by apply Hp.
    - intros _ a Ha E. apply Hp1. rewrite <- E. by apply (pl_keep _ _ _ _ _ _ _ _ Hp), Hp. }
  split_and!; [split; [done|]|rewrite B1; set_solver|apply placed_this| |apply placed_barea].
  - change (layout st2) with (views st2 (vs_list st1)).
    rewrite (pl_list _ _ _ _ _ _ _ _ Hp), views_app, placed_this, !placed_views by set_solver.
    by apply coalesced_busy; [apply Hp|apply Hp|].
  - rewrite B1, B2. simpl. by rewrite Permutation_middle.
Qed.

End Placed.

(** ** vma_split_area *)

(** A hole and what surrounds it. *)
Record hole_at st (a : Z) (l1 l2 : list Z) : Prop := {
  ha_list : vs_list st = l1 ++ a :: l2;
  ha_out : ∀ c, c ∈ l1 ++ l2 → c ≠ a ∧ c ∈ vs_list st;
  ha_free : vm_state (vs_area st a) = VM_AREA_FREE;
  ha_pages : pages (vs_area st a) = 0;
  ha_nr : nr_pages (vs_area st a) = 0;
  ha_c1 : coalesced (views st l1);
  ha_c2 : coalesced (views st l2);
  ha_last : ∀ y, last (views st l1) = Some y → ¬ is_hole y;
  ha_head : ∀ y, head (views st l2) = Some y → ¬ is_hole y;
  ha_busy : busy st = filter (λ c, vm_state (vs_area st c) ≠ VM_AREA_FREE) (l1 ++ l2);
  ha_blive : ∀ c, c ∈ busy st → ka_live (heap st) (pages (vs_area st c)) }.

Lemma hole_split st lo hi a : areas_ok st lo hi → a ∈ vs_list st →
  vm_state (vs_area st a) = VM_AREA_FREE → ∃ l1 l2, hole_at st a l1 l2.
Proof.
  intros [Hwf Hc] Hin Hx. apply list_elem_of_split in Hin as Hl. destruct Hl as (l1 & l2 & Hl).
  exists l1, l2. pose proof (aw_nodup _ _ _ Hwf) as Hnd. rewrite Hl in Hnd.
  pose proof (aw_area _ _ _ Hwf a Hin) as Ha. unfold area_ok in Ha. rewrite decide_True in Ha by done.
  change (layout st) with (views st (vs_list st)) in Hc. rewrite Hl, views_app in Hc.
  destruct (coalesced_hole _ _ _ Hc Hx) as [Hlast Hhead]. destruct Ha as [Ha1 Ha2].
  destruct (coalesced_tail _ _ Hc) as [C1 [_ C2]].
  split; try done.
  - intros c Hin'. split; [|rewrite Hl; set_solver].
    intros ->. apply NoDup_app in Hnd as (_ & Hd & Hnd).
    apply NoDup_cons in Hnd as [Hn _]. apply elem_of_app in Hin' as [Hi|Hi]; [|done].
    apply (Hd a Hi). set_solver.
  - unfold busy. rewrite Hl, !filter_app, filter_cons_False by tauto. done.
  - intros c [Hs Hcl]%busy_in. pose proof (aw_area _ _ _ Hwf c Hcl) as Hok. unfold area_ok in Hok.
    rewrite decide_False in Hok by done. apply Hok.
Qed.

(** Parts of [placed] that do not depend on the case. *)
Lemma hole_views st st1 a n l1 l2 : hole_at st a l1 l2 →
  (∀ c, c ≠ a → c ≠ n → vs_area st1 c = vs_area st c) → (n = a ∨ n ∉ vs_list st) →
  ∀ l, (∀ c, c ∈ l → c ∈ l1 ++ l2) → views st1 l = views st l.
Proof.
  intros Hh Ho Hn l Hl. apply map_view_ext. intros c Hc. destruct (ha_out _ _ _ _ Hh c (Hl c Hc)).
  rewrite Ho; [done|done|]. intros ->. destruct Hn; done.
Qed.

Section Split.
Context (st : vspace S) (lo hi a k : Z) (l1 l2 : list Z) (Hok : areas_ok st lo hi).
Context (Hh : hole_at st a l1 l2) (Hk : 0 < k) (Hkd : (4096 | k)).

Let x := vs_area st a.

(** The hole is used up. *)
Lemma placed_exact flags num : k = vm_size x →
  placed st (VSpace (vs_vmm st) (vs_list st)
    (<[a := VmArea VM_AREA_ALLOCATED (start_vaddr x) (vm_size x) flags num (pages x)]> (vs_area st))
    (vs_pages st)) a l1 l2 lo hi k.
Proof.
  intros Hkx. destruct Hok as [Hwf Hc]. pose proof Hwf as [W1 W2 W3 W4 W5 W6 W7 W8].
  set (x' := VmArea _ _ _ _ _ _). set (st1 := VSpace _ _ _ _).
  assert (∀ c, c ≠ a → vs_area st1 c = vs_area st c) as Ho by (intros; simpl; by rewrite fn_lookup_insert_ne).
  assert (vs_area st1 a = x') as Ha by (simpl; by rewrite fn_lookup_insert).
  assert (∀ l, (∀ c, c ∈ l → c ∈ l1 ++ l2) → views st1 l = views st l) as Hviews.
  { apply (hole_views st st1 a a); auto. }
  pose proof (ha_list _ _ _ _ Hh) as Hl.
  split; rewrite ?Ha, ?Hviews by set_solver; simpl; try apply Hh; try done.
  - by rewrite <- Hl.
  - intros c Hin. apply W3. by rewrite Hl.
  - intros s. rewrite Hkx. change (layout st) with (views st (vs_list st)) in W6.
    rewrite Hl, views_app in W6. apply tiles_app in W6 as (m & T1 & T2). apply tiles_app. by exists m.
  - intros c Hin. destruct (ha_out _ _ _ _ Hh c Hin) as [Hca Hcl].
    specialize (W7 c Hcl). unfold area_ok in *. by rewrite Ho.
  - rewrite (ha_busy _ _ _ _ Hh). apply filter_ext_in. intros c Hin.
    destruct (ha_out _ _ _ _ Hh c Hin). by rewrite fn_lookup_insert_ne.
  - intros c [Hs Hin]%busy_in. rewrite fn_lookup_insert_ne; [done|]. intros ->. by rewrite (ha_free _ _ _ _ Hh) in Hs.
Qed.

(** A new node takes the first [k] bytes of the hole. *)
Lemma placed_front v n ar xn xa : k < vm_size x → vmm_same (vs_vmm st) v →
  (∀ q, ka_live (heap st) q → ka_live (palloc v) q) → ¬ ka_live (heap st) n → ka_live (palloc v) n →
  ar a = xa → ar n = xn → (∀ c, c ≠ a → c ≠ n → ar c = vs_area st c) →
  view xa = (vm_state x, start_vaddr x + k, vm_size x - k) → pages xa = pages x → nr_pages xa = nr_pages x →
  start_vaddr xn = start_vaddr x → vm_size xn = k → pages xn = 0 →
  placed st (VSpace v (l1 ++ n :: a :: l2) ar (vs_pages st)) n l1 (a :: l2) lo hi k.
Proof.
  intros Hkx Hv Hlive Hn1 Hn2 Ha Hn Ho Hxa Hxa1 Hxa2 Hxn Hxn1 Hxn2.
  destruct Hok as [Hwf Hc]. pose proof Hwf as [W1 W2 W3 W4 W5 W6 W7 W8].
  set (st1 := VSpace _ _ _ _). pose proof (ha_list _ _ _ _ Hh) as Hl.
  assert (n ∉ vs_list st) as Hnl by (intros Hin; apply Hn1, W3, Hin).
  assert (n ≠ a) as Hna by (intros ->; apply Hnl; rewrite Hl; set_solver).
  change ar with (vs_area st1) in Ha, Hn, Ho.
  assert (∀ l, (∀ c, c ∈ l → c ∈ l1 ++ l2) → views st1 l = views st l) as Hviews.
  { apply (hole_views st st1 a n); auto. }
  assert (views st1 (a :: l2) = (vm_state x, start_vaddr x + k, vm_size x - k) :: views st l2) as Hva.
  { change (views st1 (a :: l2)) with (view (vs_area st1 a) :: views st1 l2). by rewrite Ha, Hxa, Hviews by set_solver. }
  assert (∀ c, c ∈ busy st → vs_area st1 c = vs_area st c) as Hb.
  { intros c [Hs Hin]%busy_in. apply Ho; [|by intros ->]. intros ->. by rewrite (ha_free _ _ _ _ Hh) in Hs. }
  split; rewrite ?Hn, ?Hva, ?Hxn, ?Hviews by set_solver; try apply Hh; try done.
  - apply Hv.
  - rewrite Hl in W2, Hnl. apply NoDup_app in W2 as (? & Hd & ?). apply NoDup_app.
    split_and!; [done| |apply NoDup_cons; split; [set_solver|done]].
    intros c Hc1 [->|Hc2]%elem_of_cons; [set_solver|]. by apply (Hd c Hc1).
  - intros c Hin. destruct (decide (c = n)) as [->|]; [done|]. apply Hlive, W3. rewrite Hl. set_solver.
  - intros s. change (layout st) with (views st (vs_list st)) in W6.
    rewrite Hl, views_app in W6. apply tiles_app in W6 as (m & T1 & E & ? & Hd & T2). apply tiles_app.
    exists m. split; [done|]. simpl. fold x in E, Hd, T2. split; [done|]. split; [lia|]. split; [done|].
    split; [done|]. split; [lia|]. split; [by apply Z.divide_add_r|].
    by replace (start_vaddr x + k + (vm_size x - k)) with (start_vaddr x + vm_size x) by lia.
  - intros c Hin. destruct (decide (c = a)) as [->|Hca].
    { unfold area_ok. rewrite Ha. unfold view in Hxa. injection Hxa as Hst _ _.
      rewrite decide_True by (rewrite Hst; apply Hh). rewrite Hxa1, Hxa2. split; apply Hh. }
    assert (c ∈ l1 ++ l2) as Hin' by set_solver. destruct (ha_out _ _ _ _ Hh c Hin') as [_ Hcl].
    specialize (W7 c Hcl). unfold area_ok in *. rewrite Ho by (done || by intros ->).
    case_decide; [done|]. destruct W7 as (? & Hnp & ? & ?). split_and!; [by apply Hlive| |done|done].
    simpl. rewrite Hl in Hnp. intros Hin2. apply elem_of_app in Hin2 as [?|[E|?]%elem_of_cons]; [set_solver| |set_solver].
    apply Hn1. by rewrite <- E.
  - apply (coalesced_mid [] _ (views st l2)); [done|apply Hh|]. intros _. split; [done|apply Hh].
  - rewrite (ha_busy _ _ _ _ Hh), !filter_app, filter_cons_False
      by (rewrite Ha; unfold view in Hxa; injection Hxa as -> _ _; intros []; apply (ha_free _ _ _ _ Hh)).
    assert (∀ c, c ∈ l1 ++ l2 → vs_area st1 c = vs_area st c) as Ho'.
    { intros c Hin. destruct (ha_out _ _ _ _ Hh c Hin). apply Ho; [done|]. by intros ->. }
    f_equal; apply filter_ext_in; intros c Hin; (rewrite Ho'; [done|]); apply elem_of_app; auto.
Qed.

End Split.
End VmaAlloc.
