(* ===== verification/VmaThm.v ===== *)
(** * Virtual memory areas: allocation, lookup and release *)

From S2P Require Import Prelude Dlist Memory Page Buddy BuddyInv BuddySpec BuddyThm PageAlloc.
From S2P Require Import Errno Vmm VmmThm Vma VmaInv VmaAlloc.

Section VmaThm.
Context {S : Type} `{KernelAllocatorLaws S}.
Implicit Types st : vspace S.

Lemma pages_of_aligned k : 0 < k → k + 8192 ≤ W32 → (4096 | k) → DIV_ROUND_UP k PAGE_SIZE * 4096 = k.
Proof.
  intros H1 H2 [c ->]. pose proof (DIV_ROUND_UP_bounds (c * 4096) 4096 ltac:(lia) ltac:(lia) ltac:(lia)) as Hb.
  unfold PAGE_SIZE. lia.
Qed.

Lemma pages_of_size sz : 0 < sz → sz + 8192 ≤ W32 → DIV_ROUND_UP sz PAGE_SIZE * 4096 = ALIGN sz PAGE_SIZE.
Proof.
  intros H1 H2. destruct (align_page sz) as [Ha [c Hc]]; [lia..|].
  pose proof (DIV_ROUND_UP_bounds sz 4096 ltac:(lia) ltac:(lia) ltac:(lia)) as Hb.
  rewrite Hc in *. unfold PAGE_SIZE in *. lia.
Qed.

Lemma wp_vma_split_area st lo hi a sz (Q : Z → vspace S → Prop) :
  areas_ok st lo hi → a ∈ vs_list st → vm_state (vs_area st a) = VM_AREA_FREE →
  0 < sz ≤ vm_size (vs_area st a) →
  (∀ st1, areas_ok st1 lo hi → busy_same st st1 → vmm_same (vs_vmm st) (vs_vmm st1) → Q 0 st1) →
  (∀ n st1 l1 l2, placed st st1 n l1 l2 lo hi (ALIGN sz PAGE_SIZE) →
     start_vaddr (vs_area st1 n) = start_vaddr (vs_area st a) →
     vm_state (vs_area st1 n) = VM_AREA_ALLOCATED → Q n st1) →
  wp (vma_split_area a sz) st Q.
Proof.
  intros Hok Hin Hfree Hsz Q0 Q1. destruct (hole_split st lo hi a Hok Hin Hfree) as (l1 & l2 & Hh).
  pose proof Hok as [Hwf _]. pose proof (area_bounds _ _ _ _ Hwf Hin) as (Hb1 & Hb2 & Hb3 & Hb4).
  pose proof (aw_lo _ _ _ Hwf). pose proof (aw_hi _ _ _ Hwf).
  set (x := vs_area st a) in *. destruct (align_page sz) as [Hk Hkd]; [lia..|].
  set (k := ALIGN sz PAGE_SIZE) in *. unfold vma_split_area. wp_step.
  apply wp_assert; [apply negb_true_iff, Z.eqb_neq; by eapply listed_nonzero|].
  fold k. wp_step. unfold get_area at 1. apply wp_gets. fold x.
  destruct (Z.ltb_spec (vm_size x) k).
  { apply wp_ret. apply Q0; [done|apply busy_same_refl|apply vmm_same_refl, Hwf]. }
  destruct (Z.eqb_spec k (vm_size x)) as [Ek|Ek].
  { wp_step. unfold set_area. apply wp_modify, wp_ret.
    apply (Q1 a _ l1 l2); [exact (placed_exact st lo hi a k l1 l2 Hok Hh ltac:(lia) Hkd _ _ Ek)|simpl; by rewrite fn_lookup_insert..]. }
  wp_step. unfold kmalloc_area. wp_step. apply wp_kmalloc; [apply Hwf|].
  intros r v Hv Hlive [->|(Hr & Hn1 & Hn2)].
  { wp_step. apply wp_ret. apply wp_ret. apply wp_ret.
    destruct (heap_move st lo hi v Hok Hv Hlive). by apply Q0. }
  rewrite (proj2 (Z.eqb_neq r 0)) by done.
  wp_step. unfold set_area. apply wp_modify. apply wp_ret. rewrite (proj2 (Z.eqb_neq r 0)) by done.
  wp_step. apply wp_gets. cbn [vs_area vs_vmm vs_list vs_pages]. rewrite fn_lookup_insert.
  wp_step. apply wp_modify. wp_step. apply wp_modify. wp_step. unfold set_list. apply wp_modify. apply wp_ret.
  cbn [vs_area vs_vmm vs_list vs_pages zero_area pages pte_flags].
  pose proof (aw_nodup _ _ _ Hwf) as Hnd. rewrite (ha_list _ _ _ _ Hh) in Hnd.
  assert (r ≠ a) as Hra by (intros ->; apply Hn1; by apply Hwf).
  rewrite (ha_list _ _ _ _ Hh), insert_before_mid.
  2: { apply NoDup_app in Hnd as (_ & Hd & _). intros Ha. apply (Hd a Ha). set_solver. }
  rewrite (u32_small (start_vaddr x + k)), (u32_small (vm_size x - k)) by lia.
  eapply (Q1 r _ l1 (a :: l2)).
  - eapply (placed_front st lo hi a k l1 l2 Hok Hh ltac:(lia) Hkd); [fold x; lia|done|done|done|done|..].
    + by rewrite fn_lookup_insert.
    + by rewrite fn_lookup_insert_ne, fn_lookup_insert.
    + intros c Hca Hcr. by rewrite !fn_lookup_insert_ne.
    + done.
    + done.
    + done.
    + done.
    + done.
    + done.
  - simpl. by rewrite fn_lookup_insert_ne, fn_lookup_insert by done.
  - simpl. by rewrite fn_lookup_insert_ne, fn_lookup_insert by done.
Qed.

(** Writing the structure of the placed node, and moves of the heap. *)
Lemma placed_set st st1 n l1 l2 lo hi k v y ar : placed st st1 n l1 l2 lo hi k →
  ar n = y → (∀ c, c ≠ n → ar c = vs_area st1 c) →
  vmm_same (vs_vmm st1) v → (∀ q, ka_live (heap st1) q → ka_live (palloc v) q) →
  start_vaddr y = start_vaddr (vs_area st1 n) → vm_size y = k → pages y = 0 →
  placed st (VSpace v (vs_list st1) ar (vs_pages st1)) n l1 l2 lo hi k.
Proof.
  intros Hp Hn Ho Hv Hlive E1 E2 E3. set (st2 := VSpace _ _ _ _).
  pose proof (placed_out _ _ _ _ _ _ _ _ Hp) as Hout.
  change ar with (vs_area st2) in Hn, Ho.
  assert (∀ l, (∀ c, c ∈ l → c ∈ l1 ++ l2) → views st2 l = views st1 l) as Hviews.
  { intros l Hl. apply map_view_ext. intros c Hc. by rewrite Ho by (apply Hout; auto). }
  destruct Hp. split; rewrite ?Hn, ?Hviews, ?E1 by set_solver; try done.
  - apply Hv.
  - auto.
  - auto.
  - intros c Hc. specialize (pl_area c Hc). unfold area_ok in *. rewrite Ho by (by apply Hout). case_decide; [done|].
    destruct pl_area as (? & ? & ? & ?). split_and!; [by apply Hlive|done..].
  - rewrite <- pl_busy. apply filter_ext_in. intros c Hc. by rewrite Ho by (by apply Hout).
  - intros c Hc. rewrite Ho; [auto|]. apply Hout. rewrite <- pl_busy in Hc. by apply list_elem_of_filter in Hc as [_ ?].
  - by eapply vmm_same_trans.
Qed.

(** [vma_destroy_area] on a placed node that got no pages array. *)
Lemma wp_give_up st st1 n l1 l2 lo hi k pd (Q : unit → vspace S → Prop) :
  placed st st1 n l1 l2 lo hi k →
  (∀ st2, areas_ok st2 lo hi → busy_same st st2 → vmm_same (vs_vmm st) (vs_vmm st2) → Q tt st2) →
  wp (vma_destroy_area n pd) st1 Q.
Proof.
  intros Hp HQ. unfold vma_destroy_area.
  assert (n ≠ 0) as Hn0.
  { intros ->. eapply kal_null, (pl_live _ _ _ _ _ _ _ _ Hp). set_solver. }
  rewrite (proj2 (Z.eqb_neq n 0)) by done. wp_step. unfold get_area. apply wp_gets.
  rewrite (pl_nopages _ _ _ _ _ _ _ _ Hp). cbn [Z.eqb]. wp_step. apply wp_ret. wp_step. unfold set_area. apply wp_modify.
  destruct (placed_give_up st st1 n l1 l2 lo hi k Hp (vs_vmm st1)
    (VmArea VM_AREA_FREE (start_vaddr (vs_area st1 n)) (vm_size (vs_area st1 n)) 0 0 0)
    (<[n := VmArea VM_AREA_FREE (start_vaddr (vs_area st1 n)) (vm_size (vs_area st1 n)) 0 0 0]> (vs_area st1))
    (vs_pages st1)) as (Hwf & Hhole & C1 & C2 & Hbs); try done.
  { by rewrite fn_lookup_insert. }
  { intros c Hc. by rewrite fn_lookup_insert_ne. }
  { apply vmm_same_refl, Hp. }
  { apply Hp. }
  { intros q _. by rewrite (pl_pages _ _ _ _ _ _ _ _ Hp). }
  eapply wp_vma_merge_area; [exact Hwf|apply Hp|done..|].
  intros st2 Hok2 Hbs2 Hvs2 _. apply HQ; [done|by eapply busy_same_trans|].
  eapply vmm_same_trans; [apply Hp|done].
Qed.

(** ** vma_alloc, lazy mode *)

(** The area [n] is new and starts out without frames. *)
Record lazy_area st st' (n : Z) (sz flags : Z) : Prop := {
  la_area : vs_area st' n = VmArea VM_AREA_LAZY (start_vaddr (vs_area st' n)) (ALIGN sz PAGE_SIZE) flags
    (DIV_ROUND_UP sz PAGE_SIZE) (pages (vs_area st' n));
  la_busy : busy st' ≡ₚ n :: busy st;
  la_new : n ∉ busy st;
  la_same : ∀ a, a ∈ busy st → vs_area st' a = vs_area st a ∧
    vs_pages st' (pages (vs_area st a)) = vs_pages st (pages (vs_area st a));
  la_pages : vs_pages st' (pages (vs_area st' n)) = replicate (Z.to_nat (DIV_ROUND_UP sz PAGE_SIZE)) 0 }.

Lemma wp_alloc_in_area_lazy st lo hi a sz pd flags (Q : Z → vspace S → Prop) :
  areas_ok st lo hi → a ∈ vs_list st → vm_state (vs_area st a) = VM_AREA_FREE →
  0 < sz ≤ vm_size (vs_area st a) →
  (∀ st', areas_ok st' lo hi → busy_same st st' → vmm_same (vs_vmm st) (vs_vmm st') → Q 0 st') →
  (∀ n st', areas_ok st' lo hi → lazy_area st st' n sz flags →
     start_vaddr (vs_area st' n) = start_vaddr (vs_area st a) →
     vmm_same (vs_vmm st) (vs_vmm st') → Q n st') →
  wp (vma_alloc_in_area pd a sz flags VMA_LAZY) st Q.
Proof.
  intros Hok Hin Hfree Hsz Q0 Q1. unfold vma_alloc_in_area. wp_step.
  pose proof Hok as [Hwf _]. pose proof (area_bounds _ _ _ _ Hwf Hin) as (Hb1 & Hb2 & Hb3 & Hb4).
  pose proof (aw_lo _ _ _ Hwf). pose proof (aw_hi _ _ _ Hwf).
  assert (DIV_ROUND_UP sz PAGE_SIZE * 4096 = ALIGN sz PAGE_SIZE) as Hnum by (apply pages_of_size; lia).
  set (num := DIV_ROUND_UP sz PAGE_SIZE) in *. destruct (align_page sz) as [Hal _]; [lia..|].
  eapply wp_vma_split_area; [done..| |].
  { intros st1 Hok1 Hbs Hvs. apply wp_ret. by apply Q0. }
  intros n st1 l1 l2 Hp Hstart Hst.
  assert (n ≠ 0) as Hn0.
  { intros ->. eapply kal_null, (pl_live _ _ _ _ _ _ _ _ Hp). set_solver. }
  rewrite (proj2 (Z.eqb_neq n 0)) by done. fold num. cbv zeta. wp_step. unfold kmalloc_pages. wp_step.
  apply wp_kmalloc; [apply Hp|]. intros p v Hv Hlive [->|(Hp0 & Hp1 & Hp2)].
  - wp_step. apply wp_ret. apply wp_ret. wp_step. unfold get_area. apply wp_gets. wp_step. unfold set_area.
    apply wp_modify. cbn [Z.eqb]. wp_step. cbn [vs_vmm vs_list vs_area vs_pages].
    eapply wp_give_up; [eapply placed_set; [exact Hp|by rewrite fn_lookup_insert| |done..|apply Hp|done]; intros c Hc; by rewrite fn_lookup_insert_ne|].
    intros st2 Hok2 Hbs2 Hvs2. apply wp_ret. by apply Q0.
  - rewrite (proj2 (Z.eqb_neq p 0)) by done. wp_step. apply wp_modify. apply wp_ret.
    wp_step. unfold get_area. apply wp_gets. wp_step. unfold set_area. apply wp_modify.
    rewrite (proj2 (Z.eqb_neq p 0)) by done. wp_step. apply wp_modify. wp_step. apply wp_modify. apply wp_ret.
    cbn [vs_vmm vs_list vs_area vs_pages].
    set (x := vs_area st1 n). set (y := VmArea VM_AREA_LAZY _ _ _ _ _).
    set (pg := <[p := _]> (vs_pages st1)).
    set (ar := <[n := y]> _). set (st2 := VSpace _ _ _ _).
    assert (¬ ka_live (heap st) p) as Hpn by (intros Hl; by apply Hp1, (pl_keep _ _ _ _ _ _ _ _ Hp)).
    assert (∀ q, ka_live (heap st) q → pg q = vs_pages st q) as Hpg.
    { intros q Hq. unfold pg. rewrite fn_lookup_insert_ne by (by intros ->).
      by rewrite (pl_pages _ _ _ _ _ _ _ _ Hp). }
    destruct (placed_commit st st1 n l1 l2 lo hi _ Hp v y ar pg) as (Hok2 & Hnb & Hx & Hperm & Hsame); try done.
    { unfold ar. by rewrite fn_lookup_insert. }
    { intros c Hc. unfold ar. by rewrite !fn_lookup_insert_ne. }
    { apply Hp. }
    { simpl. unfold pg. rewrite fn_lookup_insert, length_replicate. lia. }
    assert (vs_area st2 n = y) as Hn by done.
    apply (Q1 n st2 Hok2).
    + split.
      * rewrite Hn. unfold y. simpl. f_equal. apply Hp.
      * done.
      * intros Hb. pose proof (placed_out _ _ _ _ _ _ _ _ Hp n) as Ho. apply Ho; [|done].
        rewrite <- (pl_busy _ _ _ _ _ _ _ _ Hp) in Hb. by apply list_elem_of_filter in Hb as [_ ?].
      * intros a' Ha'. split; [by apply Hsame|]. by apply Hpg, (pl_blive _ _ _ _ _ _ _ _ Hp).
      * rewrite Hn. simpl. unfold pg. by rewrite fn_lookup_insert.
    + rewrite Hn. done.
    + eapply vmm_same_trans; [apply Hp|done].
Qed.

Lemma wp_find_by_start st lo hi ptr (Q : Z → vspace S → Prop) : areas_wf st lo hi → ptr ≠ 0 →
  ((∀ a, a ∈ vs_list st → start_vaddr (vs_area st a) ≠ ptr) → Q 0 st) →
  (∀ a, a ≠ 0 → a ∈ vs_list st → start_vaddr (vs_area st a) = ptr → Q a st) →
  wp (vma_find_by_start ptr) st Q.
Proof.
  intros Hwf Hptr Q0 Q1. unfold vma_find_by_start. wp_step.
  apply wp_assert; [by apply negb_true_iff, Z.eqb_neq|]. wp_step. apply wp_gets. apply wp_first_area.
  - intros Hall. apply Q0. intros a Ha. by apply Z.eqb_neq, Hall.
  - intros l1 a l2 Hl Ha%Z.eqb_eq _. assert (a ∈ vs_list st) by (rewrite Hl; set_solver).
    apply Q1; [by eapply listed_nonzero|done..].
Qed.

(** The hole [vma_alloc] works in. *)
Definition usable st (a sz : Z) : Prop :=
  a ∈ vs_list st ∧ vm_state (vs_area st a) = VM_AREA_FREE ∧ sz ≤ vm_size (vs_area st a).

Lemma wp_first_fit st lo hi sz (Q : Z → vspace S → Prop) : areas_wf st lo hi →
  ((∀ a, ¬ usable st a sz) → Q 0 st) → (∀ a, a ≠ 0 → usable st a sz → Q a st) →
  wp (vma_first_fit_alloc sz) st Q.
Proof.
  intros Hwf Q0 Q1. unfold vma_first_fit_alloc. wp_step. apply wp_gets. apply wp_first_area.
  - intros Hall. apply Q0. intros a (Ha & Hs & Hz). specialize (Hall a Ha). simpl in Hall.
    rewrite bool_decide_eq_true_2, (proj2 (Z.leb_le _ _)) in Hall by done. done.
  - intros l1 a l2 Hl [Hz%Z.leb_le Hs%bool_decide_eq_true]%andb_true_iff _.
    assert (a ∈ vs_list st) by (rewrite Hl; set_solver).
    apply Q1; [by eapply listed_nonzero|done].
Qed.

Lemma wp_vma_alloc_hole st lo hi pd sz flags hint mode (Q : Z → vspace S → Prop) :
  areas_wf st lo hi →
  ((∀ a, ¬ usable st a sz) → Q 0 st) →
  (∀ a, a ≠ 0 → usable st a sz →
     (∀ b, b ∈ vs_list st → start_vaddr (vs_area st b) = hint → hint ≠ 0 → usable st b sz →
        start_vaddr (vs_area st a) = hint) →
     wp (vma_alloc_in_area pd a sz flags mode) st Q) →
  wp (vma_alloc pd sz flags hint mode) st Q.
Proof.
  intros Hwf Q0 Q1. unfold vma_alloc. wp_step.
  assert (∀ a, (a = 0 ∨ (a ≠ 0 ∧ a ∈ vs_list st ∧ start_vaddr (vs_area st a) = hint ∧ hint ≠ 0)) →
    (a = 0 → ∀ b, b ∈ vs_list st → start_vaddr (vs_area st b) = hint → hint = 0) →
    wp (x ← get_area a ;
        free_area ← (if (a =? 0) || bool_decide (vm_state x ≠ VM_AREA_FREE) || (vm_size x <? sz)
                     then vma_first_fit_alloc sz else mret a) ;
        if free_area =? 0 then mret 0 else vma_alloc_in_area pd free_area sz flags mode) st Q) as Hrest.
  { intros a Ha Hnone. wp_step. unfold get_area. apply wp_gets. wp_step.
    destruct ((a =? 0) || bool_decide (vm_state (vs_area st a) ≠ VM_AREA_FREE) || (vm_size (vs_area st a) <? sz)) eqn:E.
    - eapply wp_first_fit; [done|intros Hn; apply wp_ret; auto|]. intros b Hb0 Hb.
      rewrite (proj2 (Z.eqb_neq b 0)) by done. apply Q1; [done..|].
      intros c Hc1 Hc2 Hc3 (_ & Hc4 & Hc5). exfalso.
      destruct Ha as [->|(Ha0 & Ha1 & Ha2 & _)]; [by apply Hc3, (Hnone eq_refl c)|].
      assert (a = c) as ->.
      { destruct (decide (a = c)) as [|Hne]; [done|]. pose proof (area_bounds _ _ _ _ Hwf Ha1).
        pose proof (area_bounds _ _ _ _ Hwf Hc1). destruct (areas_apart _ _ _ a c Hwf Ha1 Hc1 Hne); lia. }
      rewrite (proj2 (Z.eqb_neq c 0)), bool_decide_eq_false_2, (proj2 (Z.ltb_ge _ _)) in E by tauto. done.
    - apply orb_false_iff in E as [[E1%Z.eqb_neq E2%bool_decide_eq_false]%orb_false_iff E3%Z.ltb_ge].
      apply wp_ret. rewrite (proj2 (Z.eqb_neq a 0)) by done.
      destruct Ha as [->|(_ & Ha1 & Ha2 & _)]; [done|]. apply Q1; [done| |done].
      split_and!; [done| |done]. destruct (decide (vm_state (vs_area st a) = VM_AREA_FREE)); tauto. }
  destruct (Z.eqb_spec hint 0) as [->|Hh].
  - apply wp_ret. apply Hrest; auto.
  - eapply wp_find_by_start; [done|done| |].
    + intros Hn. apply Hrest; [by left|]. intros _ b Hb E. by destruct (Hn b Hb).
    + intros a Ha0 Ha E. apply Hrest; [|done]. right. auto.
Qed.

(** ** mmap *)

(** The range of area [a] meets that of no other area. *)
Definition apart_from st (a : Z) (l : list Z) : Prop := ∀ b, b ∈ l →
  start_vaddr (vs_area st a) + vm_size (vs_area st a) ≤ start_vaddr (vs_area st b) ∨
  start_vaddr (vs_area st b) + vm_size (vs_area st b) ≤ start_vaddr (vs_area st a).


End VmaThm.
