(* ===== verification/VmaMap.v ===== *)
(** * Virtual memory areas: demand paging *)

From S2P Require Import Prelude Dlist Memory Page Buddy BuddyInv BuddySpec BuddyThm PageAlloc.
From S2P Require Import Errno Vmm VmmThm Vma VmaInv VmaAlloc VmaThm.

(** ** Predicates the page tables have no part in *)

Section Preserves.
Context {T : Type} (P : T → Prop).

Lemma preserves_ret {A} (a : A) : preserves P (mret a).
Proof. intros s b s' E. by inversion E. Qed.

Lemma preserves_bind {A B} (c : M T A) (k : A → M T B) :
  preserves P c → (∀ a, preserves P (k a)) → preserves P (mbind k c).
Proof.
  intros Hc Hk s b s'. unfold mbind, M_bind. destruct (c s) as [[a s1]| | |] eqn:E; [|done..].
  intros E' Hs. eapply Hk; [done|]. by eapply Hc.
Qed.

Lemma preserves_gets {A} (g : T → A) : preserves P (gets g).
Proof. intros s b s' E. by inversion E. Qed.

Lemma preserves_modify g : (∀ s, P s → P (g s)) → preserves P (modify g).
Proof. intros Hg s b s' E. inversion E. apply Hg. Qed.

Lemma preserves_assert b : preserves P (assert_ b).
Proof. destruct b; [apply preserves_ret|by intros ??? ?]. Qed.

Lemma wp_preserves {A} (c : M T A) s (Q : A → T → Prop) :
  preserves P c → P s → wp c s Q → wp c s (λ a s', Q a s' ∧ P s').
Proof.
  unfold wp. intros Hc Hs. destruct (c s) as [[a s']| | |] eqn:E; [|done..]. split; [done|]. by eapply Hc.
Qed.

End Preserves.

Ltac pres :=
  cbv zeta;
  lazymatch goal with
  | |- preserves _ (mret _) => apply preserves_ret
  | |- preserves _ (gets _) => apply preserves_gets
  | |- preserves _ (assert_ _) => apply preserves_assert
  | |- preserves _ (mbind _ _) => apply preserves_bind; [pres|intros ?; pres]
  | |- preserves _ (modify _) => apply preserves_modify; intros ?; exact id
  | |- preserves _ (if ?b then _ else _) => destruct b; pres
  | |- preserves _ (match ?x with _ => _ end) => destruct x; pres
  | |- _ => idtac
  end.

Section VmaMap.
Context {S : Type} `{KernelAllocatorLaws S}.
Implicit Types st : vspace S.

Lemma preserves_lift_pa {A} (P : S → Prop) (c : M S A) :
  preserves P c → preserves (λ v : vmm S, P (palloc v)) (lift_pa c).
Proof.
  intros Hc v a v'. unfold lift_pa. destruct (c (palloc v)) as [[b s]| | |] eqn:E; [|done..].
  intros [= <- <-]. simpl. by eapply Hc.
Qed.

Definition live_at (p : Z) (v : vmm S) : Prop := ka_live (palloc v) p.

Lemma lin_live p a : preserves (live_at p) (PHYS_TO_VIRT_LINEAR a).
Proof. unfold PHYS_TO_VIRT_LINEAR. pres. Qed.

Lemma map_page_live p pd v a fl : preserves (live_at p) (vmm_map_page pd v a fl).
Proof.
  unfold vmm_map_page, map_page_table, ldw, stw, bzero_page, paging_reload_cr3, paging_invalid_TLB_addr,
    get_current_page_directory_phys.
  pres; try apply lin_live. apply (preserves_lift_pa (λ s, ka_live s p)), kal_alloc_live.
Qed.

Lemma pt_is_empty_live p n i pt : preserves (live_at p) (pt_is_empty n i pt).
Proof. revert i. induction n as [|n IH]; intros i; simpl; unfold ldw; pres. apply IH. Qed.

Lemma unmap_page_live p pd v : preserves (live_at p) (vmm_unmap_page pd v).
Proof.
  unfold vmm_unmap_page, ldw, stw, paging_reload_cr3, paging_invalid_TLB_addr, get_current_page_directory_phys.
  pres; try apply lin_live; [apply pt_is_empty_live|].
  apply (preserves_lift_pa (λ s, ka_live s p)), kal_free_live.
Qed.

(** ** A frame for every page *)

(** Frames [fs] were taken from the allocator for the entries from [i] of the
    array [p]. *)
Record frames_got st st' (p : Z) (i : nat) (fs : list Z) : Prop := {
  fg_list : vs_list st' = vs_list st;
  fg_area : vs_area st' = vs_area st;
  fg_other : ∀ q, q ≠ p → vs_pages st' q = vs_pages st q;
  fg_length : length (vs_pages st' p) = length (vs_pages st p);
  fg_pages : ∀ k, vs_pages st' p !! k =
    if decide (i ≤ k < i + length fs)%nat then (λ q, q * 4096) <$> fs !! (k - i)%nat
    else vs_pages st p !! k;
  fg_pmem : pmem (vs_vmm st') = pmem (vs_vmm st);
  fg_cr3 : cr3 (vs_vmm st') = cr3 (vs_vmm st);
  fg_flushes : flushes (vs_vmm st') = flushes (vs_vmm st);
  fg_heap : heap_step (heap st) (heap st');
  fg_live : ∀ q, ka_live (heap st) q → ka_live (heap st') q;
  fg_nodup : NoDup fs;
  fg_frames : ∀ q, q ∈ fs → pa_owned (heap st') q 0 ∧ ¬ pa_taken (heap st) q ∧
    zone_of q = HIGHMEM_ZONE ∧ 0 ≤ q < MAX_PAGES }.

Lemma frames_got_nil st p i : pa_ok (heap st) → frames_got st st p i [].
Proof.
  intros Hok. assert (heap_step (heap st) (heap st)) by (by apply heap_step_refl).
  split; [done..| |done|done|done|done|done|constructor|set_solver].
  intros k. by rewrite decide_False by (simpl; lia).
Qed.

Lemma wp_map_area_alloc p n : ∀ i st, pa_ok (heap st) → (i + n ≤ length (vs_pages st p))%nat →
  wp (map_area_alloc n (Z.of_nat i) p) st (λ ok st', ∃ fs, frames_got st st' p i fs ∧
    (ok = true → length fs = n)).
Proof.
  induction n as [|n IH]; intros i st Hok Hlen; simpl.
  { apply wp_ret. exists []. split; [|done]. by apply frames_got_nil. }
  wp_step. apply wp_lift_vmm, wp_lift_pa.
  eapply wp_mono; [apply (wp_with_run), pa_alloc_law; done|].
  intros r s [Erun [[-> ->]|(q & -> & Hrun & Hz & Hs & Hown & Hkeep & Hko)]]; cbn beta.
  { simpl. apply wp_ret. exists []. split; [|done]. destruct st as [v ? ? ?]. destruct v.
    by apply frames_got_nil. }
  change (size_to_order PAGE_SIZE) with 0 in *. change PAGE_SIZE with 4096.
  rewrite (proj2 (Z.eqb_neq (q * 4096) 0)) by (destruct Hrun as (_ & ? & _); lia).
  wp_step. unfold wp at 1, st_page. cbn [vs_pages].
  rewrite bool_decide_eq_true_2 by lia. rewrite Nat2Z.id. cbn [vs_vmm vs_list vs_area].
  set (st1 := VSpace _ _ _ _).
  replace (Z.of_nat i + 1) with (Z.of_nat (Datatypes.S i)) by lia.
  assert (vs_pages st1 p = <[i := q * 4096]> (vs_pages st p)) as Ep by (simpl; by rewrite fn_lookup_insert).
  eapply wp_mono; [apply (IH (Datatypes.S i) st1); [done|rewrite Ep, length_insert; lia]|].
  intros ok st' (fs & [F1 F2 F3 F4 F5 F6 F7 F8 F9 F10 F11 F12] & Hokl).
  assert (∀ j, in_block q 0 j ↔ j = q) as Hb by (intros j; unfold in_block; simpl; lia).
  assert (pa_taken s q) as Hq by (by eapply pa_owned_taken, Hb).
  exists (q :: fs). split; [|intros Ht; simpl; rewrite Hokl; done].
  split; try done.
  - intros c Hc. rewrite F3 by done. simpl. by rewrite fn_lookup_insert_ne.
  - by rewrite F4, Ep, length_insert.
  - intros k. rewrite F5. destruct (decide (k = i)) as [->|Hki].
    + rewrite decide_False, decide_True by (simpl; lia). rewrite Ep, Nat.sub_diag. simpl.
      apply list_lookup_insert_eq. lia.
    + destruct (decide (Datatypes.S i ≤ k < Datatypes.S i + length fs)%nat).
      * rewrite decide_True by (simpl; lia).
        replace (k - i)%nat with (Datatypes.S (k - Datatypes.S i)) by lia. done.
      * rewrite decide_False by (simpl; lia). rewrite Ep. by apply list_lookup_insert_ne.
  - destruct F9. split; auto. intros j Hj. by apply hs_taken, Hkeep.
  - intros c Hc. apply F10. by eapply kal_alloc_live.
  - apply NoDup_cons. split; [|done]. intros Hin. by apply F12 in Hin as (_ & [] & _).
  - intros c [->|Hc]%elem_of_cons.
    + split; [by apply F9|]. split; [|split; [done|by eapply run_ok_frame]].
      intros Ht. by destruct (Hkeep q Ht) as [_ []]; apply Hb.
    + destruct (F12 c Hc) as (? & Hn & ? & ?). split; [done|]. split; [|done].
      intros Ht. apply Hn. by apply Hkeep.
Qed.

(** ** Installing the translations *)

(** The translations of the area from [start], for its first [i] pages. *)
Definition overlay (tr : Z → Z) (start : Z) (fs : list Z) (i : nat) (v : Z) : Z :=
  match (if decide (start ≤ v < start + Z.of_nat i * 4096) then fs !! Z.to_nat ((v - start) / 4096) else None) with
  | Some q => q * 4096 + v mod 4096
  | None => tr v
  end.

Lemma overlay_step tr start fs i q v : (4096 | start) → fs !! i = Some q →
  overlay tr start fs (Datatypes.S i) v =
  if decide (v / 4096 = (start + Z.of_nat i * 4096) / 4096) then q * 4096 + v mod 4096
  else overlay tr start fs i v.
Proof.
  intros [c ->] Hq. unfold overlay.
  replace (c * 4096 + Z.of_nat i * 4096) with ((c + Z.of_nat i) * 4096) by lia. rewrite Z.div_mul by lia.
  pose proof (Z.div_mod v 4096 ltac:(lia)). pose proof (Z.mod_pos_bound v 4096 ltac:(lia)).
  repeat case_decide; try lia; try done.
  replace ((v - c * 4096) / 4096) with (Z.of_nat i) by (apply Z.div_unique_pos with (v mod 4096); lia).
  by rewrite Nat2Z.id, Hq.
Qed.

Lemma wp_map_area_map (f p start flags : Z) st0 fs : (4096 | start) → 0 ≤ start →
  start + Z.of_nat (length fs) * 4096 < W32 → 0 ≤ flags < 4096 →
  FLAG_IS_SET flags PTE_PRESENT_BIT = true → (∀ q, q ∈ fs → 0 ≤ q < MAX_PAGES) →
  (∀ k q, fs !! k = Some q → vs_pages st0 p !! k = Some (q * 4096)) →
  ∀ n i st, (i + n = length fs)%nat → pd_ok (vs_vmm st) f →
  vs_pages st = vs_pages st0 → 
  wp (map_area_map n (Z.of_nat i) (f * 4096) start flags p) st (λ ok st',
    vs_list st' = vs_list st ∧ vs_area st' = vs_area st ∧ vs_pages st' = vs_pages st ∧
    pd_ok (vs_vmm st') f ∧ grown f (vs_vmm st) (vs_vmm st') ∧
    (∀ q, ka_live (heap st) q → ka_live (heap st') q) ∧
    (ok = true → ∀ tr, (∀ v, 0 ≤ v < W32 → translate (pmem (vs_vmm st)) (f * 4096) v = overlay tr start fs i v) →
       ∀ v, 0 ≤ v < W32 → translate (pmem (vs_vmm st')) (f * 4096) v = overlay tr start fs (length fs) v)).
Proof.
  intros Hd Hs Hw Hfl Hpr Hfr Hpg. induction n as [|n IH]; intros i st Hin Hok Hpages; simpl.
  { apply wp_ret. split_and!; try done; [by apply grown_dir|]. intros _ tr Htr.
    by replace (length fs) with i by lia. }
  destruct (lookup_lt_is_Some_2 fs i) as [q Hq]; [lia|].
  assert (0 ≤ q < MAX_PAGES) as Hqr by (apply Hfr; by eapply list_elem_of_lookup_2).
  wp_step. unfold wp at 1, ld_page. rewrite Nat2Z.id, Hpages, (Hpg i q Hq).
  change (Z.of_nat i * PAGE_SIZE) with (Z.of_nat i * 4096).
  set (v := start + Z.of_nat i * 4096). rewrite (u32_small v) by (unfold v; lia).
  assert (0 ≤ v < W32) as Hv by (unfold v; lia).
  wp_step. apply wp_lift_vmm. destruct (mk_entry q flags Hqr Hfl) as (Hx & Hxa & Hxf).
  eapply wp_mono.
  { eapply (wp_with_run), (wp_vmm_map_page (vs_vmm st) f v (q * 4096) flags Hok Hv); [lia|done]. }
  intros ok st1 [Erun [(-> & -> & _)|(-> & [Hok1 Hp1 Ho1 _ Hgr1])]]; cbn beta.
  { apply wp_ret. destruct st. split_and!; try done. by apply grown_dir. }
  set (st2 := VSpace st1 _ _ _).
  replace (Z.of_nat i + 1) with (Z.of_nat (Datatypes.S i)) by lia.
  eapply wp_mono; [apply (IH (Datatypes.S i) st2); [lia|done|done]|].
  intros ok st' (E1 & E2 & E3 & Hok2 & Hgr2 & Hl2 & Htr2). split_and!; try done.
  - simpl in E3. congruence.
  - by eapply grown_trans.
  - intros c Hc. apply Hl2. eapply (map_page_live c); [exact Erun|exact Hc].
  - intros Ht tr Htr. apply (Htr2 Ht). intros w Hw'. simpl.
    rewrite (overlay_step _ _ _ _ q) by done. fold v. case_decide as E.
    + rewrite Hp1 by done. unfold present. change PTE_PRESENT_BIT with 1 in Hpr.
      rewrite Hxf, Hpr, Hxa by done. change 4095 with (Z.ones 12). rewrite Z.land_ones by lia.
      change (2 ^ 12) with 4096. apply u32_small. pose proof (Z.mod_pos_bound w 4096 ltac:(lia)).
      unfold MAX_PAGES, W32 in *. lia.
    + rewrite Ho1 by done. auto.
Qed.

(** ** Updating a busy area in place *)

Lemma tiles_same_ranges (l l' : list slot) lo hi :
  Forall2 (λ x y, x.1.2 = y.1.2 ∧ x.2 = y.2) l l' → tiles lo l hi → tiles lo l' hi.
Proof.
  intros HF. revert lo. induction HF as [|[[s1 b1] n1] [[s2 b2] n2] l l' [E1 E2] _ IH]; [done|].
  simpl in *. subst. intros lo (? & ? & ? & ?). auto.
Qed.

Lemma coalesced_same_holes (l l' : list slot) :
  Forall2 (λ x y, is_hole x ↔ is_hole y) l l' → coalesced l → coalesced l'.
Proof.
  induction 1 as [|x y l l' E HF IH]; [done|]. intros [H1 H2]. split; [|auto].
  destruct HF; [done|]. tauto.
Qed.

Lemma areas_ok_update st st' lo hi a : areas_ok st lo hi → a ∈ busy st →
  vs_list st' = vs_list st → (∀ c, c ≠ a → vs_area st' c = vs_area st c) →
  vm_state (vs_area st' a) ≠ VM_AREA_FREE →
  start_vaddr (vs_area st' a) = start_vaddr (vs_area st a) →
  vm_size (vs_area st' a) = vm_size (vs_area st a) →
  nr_pages (vs_area st' a) = nr_pages (vs_area st a) → pages (vs_area st' a) = pages (vs_area st a) →
  (∀ c, c ∈ busy st → length (vs_pages st' (pages (vs_area st c))) = length (vs_pages st (pages (vs_area st c)))) →
  pa_ok (heap st') → (∀ q, ka_live (heap st) q → ka_live (heap st') q) →
  areas_ok st' lo hi ∧ busy st' = busy st.
Proof.
  intros [[W1 W2 W3 W4 W5 W6 W7 W8] Hc] Ha El Eo Es E1 E2 E3 E4 Ep Hh Hl.
  pose proof Ha as [Ha1 Ha2]%busy_in.
  assert (∀ c, (start_vaddr (vs_area st' c) = start_vaddr (vs_area st c) ∧
    vm_size (vs_area st' c) = vm_size (vs_area st c)) ∧
    nr_pages (vs_area st' c) = nr_pages (vs_area st c) ∧ pages (vs_area st' c) = pages (vs_area st c) ∧
    (vm_state (vs_area st' c) = VM_AREA_FREE ↔ vm_state (vs_area st c) = VM_AREA_FREE)) as Hall.
  { intros c. destruct (decide (c = a)) as [->|Hne]; [tauto|]. by rewrite Eo. }
  assert (busy st' = busy st) as Hb.
  { unfold busy. rewrite El. apply filter_ext_in. intros c _. destruct (Hall c) as (_ & _ & _ & E). by rewrite E. }
  split; [|done]. split; [split|]; rewrite ?El; try done.
  - intros c Hc'. by apply Hl, W3.
  - eapply tiles_same_ranges; [|exact W6]. unfold layout. rewrite El. apply Forall2_fmap_2, Forall_Forall2_diag.
    apply Forall_forall. intros c _. destruct (Hall c) as ([? ?] & _). done.
  - intros c Hc'. specialize (W7 c Hc'). unfold area_ok in *. destruct (Hall c) as ([_ ->] & -> & -> & Hs).
    rewrite El. repeat case_decide; try tauto. destruct W7 as (A1 & A2 & A3 & A4).
    split_and!; [by apply Hl|done| |done]. rewrite Ep; [done|]. by apply busy_in.
  - intros c d. rewrite Hb. destruct (Hall c) as (_ & _ & -> & _), (Hall d) as (_ & _ & -> & _). auto.
  - eapply coalesced_same_holes; [|exact Hc]. unfold layout. rewrite El. apply Forall2_fmap_2, Forall_Forall2_diag.
    apply Forall_forall. intros c _. destruct (Hall c) as (_ & _ & _ & Hs). unfold is_hole. simpl. tauto.
Qed.

(** ** vma_map_area *)

(** Every page of area [a] has its own new frame, and nothing else moved. *)
Record area_mapped st st' (f a : Z) (fs : list Z) : Prop := {
  am_frames : Z.of_nat (length fs) = nr_pages (vs_area st a) ∧ NoDup fs;
  am_owned : ∀ q, q ∈ fs → pa_owned (heap st') q 0 ∧ ¬ pa_taken (heap st) q ∧ zone_of q = HIGHMEM_ZONE;
  am_pages : vs_pages st' (pages (vs_area st a)) = map (λ q, q * 4096) fs;
  am_other : ∀ p, p ≠ pages (vs_area st a) → vs_pages st' p = vs_pages st p;
  am_ok : pd_ok (vs_vmm st') f;
  am_translate : ∀ v, 0 ≤ v < W32 → translate (pmem (vs_vmm st')) (f * 4096) v =
    overlay (translate (pmem (vs_vmm st)) (f * 4096)) (start_vaddr (vs_area st a)) fs (length fs) v }.

Lemma pd_ok_heap (v v' : vmm S) f : pd_ok v f → pmem v' = pmem v → heap_step (palloc v) (palloc v') → pd_ok v' f.
Proof.
  intros [K1 K2 K3 K4 K5 K6 K7] E [? Ht _]. split; rewrite ?E; auto.
  intros i Hi Hp. destruct (K5 i Hi Hp) as (? & ? & ?). auto.
Qed.

Lemma wp_vma_map_area st lo hi f a : areas_wf st lo hi → pd_ok (vs_vmm st) f → a ∈ busy st →
  0 ≤ pte_flags (vs_area st a) < 4096 → FLAG_IS_SET (pte_flags (vs_area st a)) PTE_PRESENT_BIT = true →
  wp (vma_map_area a (f * 4096)) st (λ ok st', vs_list st' = vs_list st ∧ vs_area st' = vs_area st ∧
    (∀ q, ka_live (heap st) q → ka_live (heap st') q) ∧
    (ok = true → ∃ fs, area_mapped st st' f a fs)).
Proof.
  intros Hwf Hok Ha Hfl Hpr. pose proof Ha as [Hs Hin]%busy_in.
  pose proof (aw_area _ _ _ Hwf a Hin) as Hao. unfold area_ok in Hao. rewrite decide_False in Hao by done.
  destruct Hao as (_ & _ & Hlen & Hsz). set (x := vs_area st a) in *.
  pose proof (area_bounds _ _ _ _ Hwf Hin) as (B1 & B2 & B3 & B4). fold x in B1, B2, B3, B4.
  pose proof (aw_lo _ _ _ Hwf). pose proof (aw_hi _ _ _ Hwf).
  unfold vma_map_area. wp_step. unfold get_area. apply wp_gets. fold x. wp_step.
  eapply wp_mono; [apply (wp_map_area_alloc (pages x) (Z.to_nat (nr_pages x)) 0 st); [apply Hwf|lia]|].
  intros ok st1 (fs & Hgot & Hok1). destruct ok.
  2: { apply wp_ret. split_and!; [apply Hgot|apply Hgot|apply Hgot|done]. }
  specialize (Hok1 eq_refl). pose proof Hgot as [F1 F2 F3 F4 F5 F6 F7 F8 F9 F10 F11 F12].
  assert (∀ k q, fs !! k = Some q → vs_pages st1 (pages x) !! k = Some (q * 4096)) as Hpg.
  { intros k q Hq. pose proof (lookup_lt_Some _ _ _ Hq). rewrite F5, decide_True by lia.
    rewrite Nat.sub_0_r, Hq. done. }
  assert (pd_ok (vs_vmm st1) f) as Hpd1 by (by eapply pd_ok_heap).
  eapply wp_mono.
  { apply (wp_map_area_map f (pages x) (start_vaddr x) (pte_flags x) st1 fs) with (i := 0%nat); try done; try lia.
    intros q Hq. by apply F12. }
  intros ok st2 (G1 & G2 & G3 & G4 & G5 & G6 & G7). split_and!; [congruence|congruence|auto|].
  intros ->. exists fs. split; try done.
  - fold x. split; [lia|done].
  - intros q Hq. destruct (F12 q Hq) as (? & ? & ? & ?). split_and!; [|done|done].
    by apply (gr_owned _ _ _ G5).
  - rewrite G3. apply list_eq. intros k. fold x. rewrite list_lookup_fmap. rewrite F5.
    rewrite Nat.sub_0_r. case_decide as E; [done|].
    rewrite (proj2 (lookup_ge_None _ _)), (proj2 (lookup_ge_None fs _)) by lia. done.
  - intros p Hp. rewrite G3. by apply F3.
  - intros v Hv. apply (G7 eq_refl); [|done]. intros w Hw. rewrite F6. unfold overlay.
    by rewrite decide_False by lia.
Qed.

(** ** Page faults *)

Lemma wp_find_by_addr st lo hi a addr : areas_wf st lo hi → a ∈ vs_list st →
  start_vaddr (vs_area st a) ≤ addr < start_vaddr (vs_area st a) + vm_size (vs_area st a) →
  vma_find_by_addr addr st = Done (a, st).
Proof.
  intros Hwf Ha Haddr.
  assert (∀ b, b ∈ vs_list st → start_vaddr (vs_area st b) ⊞ vm_size (vs_area st b) =
    start_vaddr (vs_area st b) + vm_size (vs_area st b)) as Hnw.
  { intros b Hb. pose proof (area_bounds _ _ _ _ Hwf Hb). pose proof (aw_lo _ _ _ Hwf).
    pose proof (aw_hi _ _ _ Hwf). apply u32_small. lia. }
  assert (wp (vma_find_by_addr addr) st (λ r st', r = a ∧ st' = st)) as HW.
  2: { apply wp_run in HW as (r & st' & E & -> & ->). done. }
  unfold vma_find_by_addr. wp_step. apply wp_gets. apply wp_first_area.
  - intros Hn. specialize (Hn a Ha). simpl in Hn. rewrite Hnw in Hn by done.
    rewrite (proj2 (Z.leb_le _ _)), (proj2 (Z.ltb_lt _ _)) in Hn by lia. done.
  - intros l1 b l2 Hl [Hb1%Z.leb_le Hb2%Z.ltb_lt]%andb_true_iff _.
    assert (b ∈ vs_list st) as Hb by (rewrite Hl; set_solver). rewrite Hnw in Hb2 by done.
    split; [|done]. destruct (decide (b = a)) as [|Hne]; [done|].
    destruct (areas_apart _ _ _ b a Hwf Hb Ha Hne); lia.
Qed.


End VmaMap.
