(* ===== verification/VmaFree.v ===== *)
(** * Virtual memory areas: releasing an area *)

From S2P Require Import Prelude Dlist Memory Page Buddy BuddyInv BuddySpec BuddyThm PageAlloc.
From S2P Require Import Errno Vmm VmmThm Vma VmaInv VmaAlloc VmaThm VmaMap.

Section VmaFree.
Context {S : Type} `{KernelAllocatorLaws S}.
Implicit Types st : vspace S.

(** The frames area [a] records are blocks of the page allocator, apart from
    the page tables; its pages without a frame are not mapped. *)
Record pages_ok st (f a : Z) : Prop := {
  po_entry : ∀ k w, vs_pages st (pages (vs_area st a)) !! k = Some w → w ≠ 0 →
    ∃ q, w = q * 4096 ∧ pa_owned (heap st) q 0 ∧ q ≠ f ∧
      ∀ i, 0 ≤ i < 1024 → present (entry (pmem (vs_vmm st)) f i) = true →
        table (pmem (vs_vmm st)) f i ≠ q;
  po_inj : ∀ k k' w, w ≠ 0 → vs_pages st (pages (vs_area st a)) !! k = Some w →
    vs_pages st (pages (vs_area st a)) !! k' = Some w → k = k';
  po_zero : ∀ k v, vs_pages st (pages (vs_area st a)) !! k = Some 0 →
    v / 4096 = start_vaddr (vs_area st a) / 4096 + Z.of_nat k →
    translate (pmem (vs_vmm st)) (f * 4096) v = 0;
  po_tables : ∀ i, 0 ≤ i < 1024 → GET_PDE_INDEX (start_vaddr (vs_area st a)) ≤ i →
    i ≤ GET_PDE_INDEX (start_vaddr (vs_area st a) + vm_size (vs_area st a) - 1) →
    present (entry (pmem (vs_vmm st)) f i) = true → pa_owned (heap st) (table (pmem (vs_vmm st)) f i) 0 }.

(** What is left of the address space of [v0] once the first [k] pages of the
    area from [start], with page words [ws], are released. *)
Record released (v0 : vmm S) (f start : Z) (ws : list Z) (k : nat) (v : vmm S) : Prop := {
  rl_ok : pd_ok v f;
  rl_tables : ∀ i, 0 ≤ i < 1024 → present (entry (pmem v) f i) = true →
    present (entry (pmem v0) f i) = true ∧ table (pmem v) f i = table (pmem v0) f i ∧
    (pa_owned (palloc v0) (table (pmem v0) f i) 0 → pa_owned (palloc v) (table (pmem v0) f i) 0);
  rl_owned : ∀ q o, pa_owned (palloc v0) q o → (∀ i, (i < k)%nat → ws !! i ≠ Some (q * 4096)) →
    (∀ i, 0 ≤ i < 1024 → present (entry (pmem v0) f i) = true → table (pmem v0) f i ≠ q) →
    pa_owned (palloc v) q o;
  rl_free : ∀ i q, (i < k)%nat → ws !! i = Some (q * 4096) → q ≠ 0 → ¬ pa_taken (palloc v) q;
  rl_untaken : ∀ j, pa_taken (palloc v) j → pa_taken (palloc v0) j;
  rl_translate : ∀ u, 0 ≤ u < W32 → translate (pmem v) (f * 4096) u =
    if decide (start ≤ u < start + Z.of_nat k * 4096) then 0 else translate (pmem v0) (f * 4096) u;
  rl_live : ∀ p, ka_live (palloc v0) p → ka_live (palloc v) p }.

Lemma page_range start k u : (4096 | start) → 
  u / 4096 = (start + k * 4096) / 4096 ↔ start + k * 4096 ≤ u < start + (k + 1) * 4096.
Proof.
  intros [c ->]. replace (c * 4096 + k * 4096) with ((c + k) * 4096) by lia. rewrite Z.div_mul by lia.
  pose proof (Z.div_mod u 4096). pose proof (Z.mod_pos_bound u 4096). lia.
Qed.

(** What unmapping page [u] leaves, whether or not it was mapped. *)
Record unmapped_any (v : vmm S) (f u : Z) (v' : vmm S) : Prop := {
  un_ok : pd_ok v' f;
  un_translate : ∀ w, 0 ≤ w < W32 → translate (pmem v') (f * 4096) w =
    if decide (w / 4096 = u / 4096) then 0 else translate (pmem v) (f * 4096) w;
  un_untaken : ∀ j, pa_taken (palloc v') j → pa_taken (palloc v) j;
  un_owned : ∀ q o, pa_owned (palloc v) q o →
    (∀ i, 0 ≤ i < 1024 → present (entry (pmem v) f i) = true → table (pmem v) f i ≠ q) →
    pa_owned (palloc v') q o;
  un_tables : ∀ i, 0 ≤ i < 1024 → present (entry (pmem v') f i) = true →
    present (entry (pmem v) f i) = true ∧ table (pmem v') f i = table (pmem v) f i ∧
    (pa_owned (palloc v) (table (pmem v) f i) 0 → pa_owned (palloc v') (table (pmem v) f i) 0);
  un_live : ∀ p, ka_live (palloc v) p → ka_live (palloc v') p }.

Lemma wp_unmap_any (v : vmm S) f u : pd_ok v f → 0 ≤ u < W32 →
  (present (entry (pmem v) f (GET_PDE_INDEX u)) = true →
     pa_owned (palloc v) (table (pmem v) f (GET_PDE_INDEX u)) 0) →
  wp (vmm_unmap_page (f * 4096) u) v (λ _ v', unmapped_any v f u v').
Proof.
  intros Hok Hu Hown. destruct (index_range u Hu) as [Hi _].
  eapply wp_mono; [apply wp_with_run, (wp_vmm_unmap_page v f u Hok Hu Hown)|].
  intros r v' [Erun [(-> & -> & Hn)|(-> & Hp & _ & [U1 U2 U3 U4 U5 U6 U7])]]; cbn beta.
  - split; [done| |by auto..]. intros w Hw. case_decide as E; [|done].
    rewrite translate_unfold by done. destruct (page_index _ _ E) as [-> ->].
    destruct Hn as [->|Hn]; [done|]. cbn zeta. rewrite Hn. by case_match.
  - split; try done.
    + intros q o Hq Hne. apply U6; [done|]. by apply not_eq_sym, Hne.
    + intros p Hl. eapply (unmap_page_live p); [exact Erun|exact Hl].
Qed.

Lemma page_range_S start m u : (4096 | start) →
  start ≤ u < start + Z.of_nat (Datatypes.S m) * 4096 ↔
  (start ≤ u < start + Z.of_nat m * 4096 ∨ u / 4096 = (start + Z.of_nat m * 4096) / 4096).
Proof. intros Hd. rewrite page_range by done. lia. Qed.

(** A page without a frame is skipped. *)
Lemma released_skip v0 f start ws m v : (4096 | start) → released v0 f start ws m v → ws !! m = Some 0 →
  (∀ u, u / 4096 = start / 4096 + Z.of_nat m → translate (pmem v0) (f * 4096) u = 0) →
  released v0 f start ws (Datatypes.S m) v.
Proof.
  intros Hd [R1 R2 R3 R4 R5 R6 R7] Hw Hz. split; try done.
  - intros q o Hq Hne. apply R3; [done|]. intros i Hi. apply Hne. lia.
  - intros i q Hi Hq Hq0. destruct (decide (i = m)) as [->|]; [|by apply (R4 i); [lia|..]].
    rewrite Hw in Hq. simplify_eq. lia.
  - intros u Hu. rewrite R6 by done. pose proof (page_range_S start m u Hd) as Hrange.
    destruct (decide (start ≤ u < start + Z.of_nat m * 4096)) as [E1|E1].
    { by rewrite decide_True by (apply Hrange; auto). }
    destruct (decide (u / 4096 = (start + Z.of_nat m * 4096) / 4096)) as [E2|E2].
    + rewrite decide_True by (apply Hrange; auto). apply Hz. rewrite E2. apply Z.div_add. lia.
    + by rewrite decide_False by (rewrite Hrange; tauto).
Qed.

(** A page with a frame is unmapped, which leaves [v1], then its frame [q] is
    given back, which leaves the allocator in state [s]. *)
Lemma released_free v0 f start ws m v v1 s q : (4096 | start) → released v0 f start ws m v →
  ws !! m = Some (q * 4096) → q ≠ f →
  (∀ i, 0 ≤ i < 1024 → present (entry (pmem v0) f i) = true → table (pmem v0) f i ≠ q) →
  unmapped_any v f (start + Z.of_nat m * 4096) v1 → pa_ok s →
  (∀ j, pa_taken s j ↔ pa_taken (palloc v1) j ∧ ¬ in_block q 0 j) →
  (∀ p o, pa_owned (palloc v1) p o → p ≠ q → pa_owned s p o) →
  (∀ p, ka_live (palloc v1) p → ka_live s p) →
  released v0 f start ws (Datatypes.S m) (Vmm (pmem v1) s (cr3 v1) (flushes v1)).
Proof.
  intros Hd [R1 R2 R3 R4 R5 R6 R7] Hw Hqf Hqt [U1 U2 U3 U4 U5 U6] Hs Htk Hko Hlive.
  assert (∀ j, in_block q 0 j ↔ j = q) as Hb by (intros j; unfold in_block; simpl; lia).
  assert (∀ i, 0 ≤ i < 1024 → present (entry (pmem v1) f i) = true → table (pmem v1) f i ≠ q) as Hnt.
  { intros i Hi Hp. destruct (U5 i Hi Hp) as (Hp1 & -> & _). destruct (R2 i Hi Hp1) as (Hp0 & -> & _). auto. }
  split; cbn [pmem palloc].
  - destruct U1 as [K1 K2 K3 K4 K5 K6 K7]. split; try done; simpl.
    + apply Htk. rewrite Hb. auto.
    + intros i Hi Hp. destruct (K5 i Hi Hp) as (? & ? & ?). split; [done|]. split; [|done].
      apply Htk. rewrite Hb. auto.
  - intros i Hi Hp. destruct (U5 i Hi Hp) as (Hp1 & Et & Ho1). destruct (R2 i Hi Hp1) as (Hp0 & Et0 & Ho0).
    split; [done|]. split; [congruence|]. intros Ho. apply Hko.
    + rewrite <- Et0. apply Ho1. rewrite Et0. auto.
    + rewrite <- Et0, <- Et. auto.
  - intros p o Hp Hne Hnt'. apply Hko.
    + apply U4; [apply R3; [done| |done]; intros i Hi; apply Hne; lia|].
      intros i Hi Hpr. destruct (R2 i Hi Hpr) as (Hp0 & -> & _). auto.
    + intros ->. apply (Hne m); [lia|done].
  - intros i p Hi Hp Hp0 Ht. apply Htk in Ht as [Ht Hnb]. rewrite Hb in Hnb.
    destruct (decide (i = m)) as [->|]; [rewrite Hw in Hp; simplify_eq; lia|].
    apply (R4 i p); [lia|done|done|]. by apply U3.
  - intros j [Ht _]%Htk. auto.
  - intros u Hu. rewrite U2, R6 by done. pose proof (page_range_S start m u Hd). repeat case_decide; tauto || done.
  - auto.
Qed.

(** The body of the loop for page [m] of area [a]. *)
Lemma wp_release_page st lo hi f a m v w : areas_wf st lo hi → a ∈ busy st → pages_ok st f a →
  let x := vs_area st a in let ws := vs_pages st (pages x) in
  released (vs_vmm st) f (start_vaddr x) ws m v → ws !! m = Some w → w ≠ 0 → Z.of_nat m < nr_pages x →
  wp (lift_vmm (vmm_unmap_page (f * 4096) (start_vaddr x ⊞ Z.of_nat m * PAGE_SIZE)) ;; lift_vmm (lift_pa (pa_free w)))
    (VSpace v (vs_list st) (vs_area st) (vs_pages st)) (λ _ st', ∃ v',
      st' = VSpace v' (vs_list st) (vs_area st) (vs_pages st) ∧
      released (vs_vmm st) f (start_vaddr x) ws (Datatypes.S m) v').
Proof.
  intros Hwf Ha [P1 P2 P3 P4] x ws HR Hw Hw0 Hm. pose proof Ha as [Hs Hin]%busy_in.
  pose proof (aw_area _ _ _ Hwf a Hin) as Hao. unfold area_ok in Hao. rewrite decide_False in Hao by done.
  destruct Hao as (_ & _ & Hlen & Hsz). pose proof (area_bounds _ _ _ _ Hwf Hin) as (B1 & B2 & B3 & B4).
  pose proof (aw_lo _ _ _ Hwf). pose proof (aw_hi _ _ _ Hwf). fold x in Hlen, Hsz, B1, B2, B3, B4. fold ws in Hlen.
  destruct (P1 m w Hw Hw0) as (q & -> & Hq & Hqf & Hqt). change (Z.of_nat m * PAGE_SIZE) with (Z.of_nat m * 4096).
  set (u := start_vaddr x + Z.of_nat m * 4096) in *. rewrite (u32_small u) by (unfold u; lia).
  assert (0 ≤ u < W32) as Hu by (unfold u; lia). destruct (index_range u Hu) as [Hui _].
  pose proof HR as [R1 R2 R3 _ _ _ _].
  wp_step. apply wp_lift_vmm. cbn [vs_vmm]. eapply wp_mono; [apply (wp_unmap_any v f u R1 Hu)|].
  { intros Hp. destruct (R2 _ Hui Hp) as (Hp0 & -> & Ho). apply Ho, P4; [done| | |done]; fold x;
      unfold GET_PDE_INDEX; rewrite !Z.shiftr_div_pow2 by lia; (apply Z.div_le_mono; [done|]); unfold u; lia. }
  intros ? v1 HU. cbn beta in *. assert (pa_owned (palloc v1) q 0) as Hq1.
  { apply HU.
    - apply R3; [done| |by apply Hqt]. intros i Hi E. assert (i = m); [|lia]. by apply (P2 i m (q * 4096)).
    - intros i Hi Hp. destruct (R2 i Hi Hp) as (Hp0 & -> & _). auto. }
  apply wp_lift_vmm, wp_lift_pa. cbn [vs_vmm]. change (q * 4096) with (q * PAGE_SIZE).
  eapply wp_mono; [apply wp_with_run, (pa_free_law (palloc v1) q 0); [apply HU|done]|].
  intros [] s [Erun (Hs1 & Htk & Hko)]. eexists. split; [reflexivity|]. eapply released_free; try done.
  - intros p o Hp Hpq. apply Hko; [done|]. destruct (pa_owned_apart _ _ _ _ _ Hq1 Hp) as [[= ? _]|]; [congruence|done].
  - intros p Hl. by eapply (kal_free_live p); [exact Erun|].
Qed.

Lemma wp_release_pages st lo hi f a (Q : unit → vspace S → Prop) :
  areas_wf st lo hi → a ∈ busy st → pd_ok (vs_vmm st) f → pages_ok st f a →
  (∀ v, released (vs_vmm st) f (start_vaddr (vs_area st a)) (vs_pages st (pages (vs_area st a)))
          (Z.to_nat (nr_pages (vs_area st a))) v →
     Q tt (VSpace v (vs_list st) (vs_area st) (vs_pages st))) →
  wp (release_pages (vs_area st a) (f * 4096)) st Q.
Proof.
  intros Hwf Ha Hpd Hpo HQ. pose proof Ha as [Hs Hin]%busy_in.
  pose proof (aw_area _ _ _ Hwf a Hin) as Hao. unfold area_ok in Hao. rewrite decide_False in Hao by done.
  destruct Hao as (_ & _ & Hlen & _). pose proof (area_bounds _ _ _ _ Hwf Hin) as (B1 & B2 & B3 & B4).
  set (x := vs_area st a) in *. set (ws := vs_pages st (pages x)) in *. unfold release_pages.
  eapply wp_mono.
  { apply wp_for with (I := λ k st', ∃ v,
      st' = VSpace v (vs_list st) (vs_area st) (vs_pages st) ∧
      released (vs_vmm st) f (start_vaddr x) ws (Z.to_nat k) v).
    - exists (vs_vmm st). split; [by destruct st|].
      split; [done|auto|auto|simpl; lia|auto| |auto].
      intros u Hu. by rewrite decide_False by (simpl; lia).
    - intros k st' Hk (v & -> & HR).
      destruct (lookup_lt_is_Some_2 ws (Z.to_nat k)) as [w Hw]; [lia|].
      wp_step. unfold wp at 1, ld_page. cbn [vs_pages vs_vmm vs_list vs_area]. fold ws. rewrite Hw.
      replace (Z.to_nat (k + 1)) with (Datatypes.S (Z.to_nat k)) by lia.
      set (m := Z.to_nat k) in *. replace k with (Z.of_nat m) by lia.
      destruct (Z.eqb_spec w 0) as [->|Hw0]; [|apply (wp_release_page st lo hi); try done; fold x; lia].
      apply wp_ret. exists v. split; [done|]. apply released_skip; [done..|]. intros u. by apply (po_zero _ _ _ Hpo m). }
  intros [] st' (v & -> & HR). apply HQ. by replace (Z.to_nat (0 + _)) with (Z.to_nat (nr_pages x)) in HR by lia.
Qed.

(** ** Turning the area into a hole *)

Lemma area_to_hole st lo hi a v x' ar : areas_ok st lo hi → a ∈ busy st →
  (∀ p, p ≠ pages (vs_area st a) → ka_live (heap st) p → ka_live (palloc v) p) → pa_ok (palloc v) →
  ar a = x' → (∀ c, c ≠ a → ar c = vs_area st c) →
  vm_state x' = VM_AREA_FREE → start_vaddr x' = start_vaddr (vs_area st a) →
  vm_size x' = vm_size (vs_area st a) → pages x' = 0 → nr_pages x' = 0 →
  let st' := VSpace v (vs_list st) ar (vs_pages st) in
  areas_wf st' lo hi ∧ busy st' = filter (λ c, c ≠ a) (busy st) ∧
  ∃ l1 l2, vs_list st' = l1 ++ a :: l2 ∧ coalesced (views st' l1) ∧ coalesced (views st' l2).
Proof.
  intros [Hwf Hc] Ha Hlive Hok Ea Eo X1 X2 X3 X4 X5 st'. pose proof Hwf as [W1 W2 W3 W4 W5 W6 W7 W8].
  pose proof Ha as [Ha1 Ha2]%busy_in. pose proof Ha2 as (l1 & l2 & Hl)%list_elem_of_split.
  change ar with (vs_area st') in Ea, Eo.
  assert (busy st' = filter (λ c, c ≠ a) (busy st)) as Hb.
  { unfold busy. rewrite list_filter_filter. apply filter_ext_in. intros c _.
    destruct (decide (c = a)) as [->|Hne]; [rewrite Ea; tauto|]. rewrite Eo by done. tauto. }
  assert (∀ c, c ∈ busy st → c ≠ a → pages (vs_area st c) ≠ pages (vs_area st a)) as Hsep.
  { intros c Hc1 Hc2 E. apply Hc2. by apply W8. }
  assert (pages (vs_area st a) ∉ vs_list st) as Hpl.
  { specialize (W7 a Ha2). unfold area_ok in W7. rewrite decide_False in W7 by done. apply W7. }
  assert (∀ c, c ∈ l1 ++ l2 → c ≠ a) as Hout.
  { rewrite Hl in W2. apply NoDup_app in W2 as (_ & Hd & W2). apply NoDup_cons in W2 as [Hn _].
    intros c [Hin|Hin]%elem_of_app ->; [|done]. apply (Hd a Hin). set_solver. }
  split; [|split; [done|]].
  - split; try done.
    + intros c Hc'. apply Hlive; [by intros ->|]. auto.
    + eapply tiles_same_ranges; [|exact W6]. unfold layout. apply Forall2_fmap_2, Forall_Forall2_diag.
      apply Forall_forall. intros c _. destruct (decide (c = a)) as [->|Hne].
      * rewrite Ea. simpl. by rewrite X2, X3.
      * by rewrite Eo.
    + intros c Hc'. specialize (W7 c Hc'). unfold area_ok in *. destruct (decide (c = a)) as [->|Hne].
      * by rewrite Ea, decide_True.
      * rewrite Eo by done. case_decide as Hs; [done|]. destruct W7 as (A1 & A2 & A3 & A4).
        split_and!; [|done..]. apply Hlive; [|done]. apply Hsep; [by apply busy_in|done].
    + intros c d. rewrite Hb. intros [Hc1 Hc2]%list_elem_of_filter [Hd1 Hd2]%list_elem_of_filter.
      rewrite !Eo by done. auto.
  - exists l1, l2. split; [done|]. change (layout st) with (views st (vs_list st)) in Hc.
    rewrite Hl, views_app in Hc. destruct (coalesced_tail _ _ Hc) as [C1 [_ C2]].
    assert (∀ l, (∀ c, c ∈ l → c ∈ l1 ++ l2) → views st' l = views st l) as Hv.
    { intros l Hsub. apply map_view_ext. intros c Hc'. by rewrite Eo by (by apply Hout, Hsub). }
    rewrite !Hv by set_solver. done.
Qed.

(** The area [a] is gone and the rest of the address space is as before. *)
Record area_gone st st' (f a : Z) : Prop := {
  ag_busy : busy st' = filter (λ c, c ≠ a) (busy st);
  ag_same : ∀ c, c ∈ busy st' → vs_area st' c = vs_area st c ∧
    vs_pages st' (pages (vs_area st c)) = vs_pages st (pages (vs_area st c));
  ag_ok : pd_ok (vs_vmm st') f;
  ag_translate : ∀ u, 0 ≤ u < W32 → translate (pmem (vs_vmm st')) (f * 4096) u =
    if decide (start_vaddr (vs_area st a) ≤ u < start_vaddr (vs_area st a) + vm_size (vs_area st a))
    then 0 else translate (pmem (vs_vmm st)) (f * 4096) u;
  ag_free : ∀ i q, vs_pages st (pages (vs_area st a)) !! i = Some (q * 4096) → q ≠ 0 →
    ¬ pa_taken (heap st') q }.

Lemma wp_vma_destroy_area st lo hi f a (Q : unit → vspace S → Prop) :
  areas_ok st lo hi → a ∈ busy st → pd_ok (vs_vmm st) f → pages_ok st f a →
  (∀ st', areas_ok st' lo hi → area_gone st st' f a → Q tt st') →
  wp (vma_destroy_area a (f * 4096)) st Q.
Proof.
  intros Hok Ha Hpd Hpo HQ. pose proof Hok as [Hwf _]. pose proof Ha as [Hs Hin]%busy_in.
  pose proof (aw_area _ _ _ Hwf a Hin) as Hao. unfold area_ok in Hao. rewrite decide_False in Hao by done.
  destruct Hao as (Hpl & Hpn & Hlen & Hsz). pose proof (area_bounds _ _ _ _ Hwf Hin) as (_ & B2 & _).
  unfold vma_destroy_area. rewrite (proj2 (Z.eqb_neq a 0)) by (by eapply listed_nonzero).
  wp_step. unfold get_area. apply wp_gets. wp_step.
  rewrite (proj2 (Z.eqb_neq (pages (vs_area st a)) 0)) by (intros E; rewrite E in Hpl; by apply kal_null in Hpl).
  wp_step. eapply wp_release_pages; [done..|]. intros v [R1 R2 R3 R4 R5 R6 R7].
  apply wp_kfree; [apply R1|by apply R7|]. intros v' [V1 V2 V3 V4 V5] Hlive. simpl in V1, V4, V5.
  cbn [vs_vmm vs_list vs_area vs_pages]. wp_step. unfold set_area. apply wp_modify.
  cbn [vs_vmm vs_list vs_area vs_pages]. set (x' := VmArea VM_AREA_FREE _ _ _ _ _).
  set (st1 := VSpace _ _ _ _).
  destruct (area_to_hole st lo hi a v' x' (<[a := x']> (vs_area st))) as (Hwf1 & Hb1 & l1 & l2 & Hl1 & C1 & C2); try done.
  { intros p Hp Hl. apply Hlive; [done|]. by apply R7. }
  { apply V4. }
  { by rewrite fn_lookup_insert. }
  { intros c Hc. by rewrite fn_lookup_insert_ne. }
  fold st1 in Hwf1, Hb1, Hl1, C1, C2.
  eapply wp_vma_merge_area; [exact Hwf1|exact Hl1| |done|done|].
  { simpl. by rewrite fn_lookup_insert. }
  intros st' Hok' [Bs1 Bs2 Bs3] [U1 U2 U3 U4 U5] Hps. apply HQ; [done|].
  assert (pd_ok v' f) as Hpd1 by (by eapply pd_ok_heap).
  assert (∀ c, c ∈ busy st1 → c ≠ a) as Hne.
  { intros c. rewrite Hb1. by intros [? _]%list_elem_of_filter. }
  assert (∀ c, c ∈ busy st1 → vs_area st1 c = vs_area st c) as Har.
  { intros c Hc. simpl. by rewrite fn_lookup_insert_ne by (by apply not_eq_sym, Hne). }
  split.
  - congruence.
  - rewrite Bs1. intros c Hc. rewrite Bs2, Har by done. split; [done|].
    specialize (Bs3 c Hc). by rewrite Har in Bs3.
  - eapply pd_ok_heap; [exact Hpd1|done|done].
  - intros u Hu. simpl in U1. rewrite U1, V1, R6 by done.
    replace (Z.of_nat (Z.to_nat (nr_pages (vs_area st a))) * 4096) with (vm_size (vs_area st a)) by lia. done.
  - intros i q Hi Hq Ht. apply U5, V5 in Ht. eapply R4; [|exact Hi|done|exact Ht].
    apply lookup_lt_Some in Hi. lia.
Qed.


End VmaFree.
