(* ===== verification/VmaExample.v ===== *)
(** * Virtual memory areas on a concrete machine

    The areas' theorems are applied to a small address space, over the buddy
    allocator and a heap that hands out blocks of a fixed window. *)

From S2P Require Import Prelude Dlist Memory Page Buddy BuddyInv BuddySpec BuddyThm PageAlloc.
From S2P Require Import Errno Vmm VmmThm Vma VmaInv VmaAlloc VmaThm VmaMap VmaFree.

(** ** A heap of 16 KiB blocks in a fixed window *)

Definition pool : Type := bstate * list Z.

Definition pool_lift {A} (c : M bstate A) : M pool A := λ s,
  match c s.1 with
  | Done (a, b) => Done (a, (b, s.2))
  | Panic m => Panic m
  | Fault => Fault
  | Hang => Hang
  end.

#[export] Instance pool_pages : PageAllocator pool := {
  pa_alloc := λ size z, pool_lift (pa_alloc size z);
  pa_free := λ p, pool_lift (pa_free p);
  pa_ok := λ s, pa_ok s.1;
  pa_owned := λ s, pa_owned s.1;
  pa_taken := λ s, pa_taken s.1 }.

Definition pool_next (l : list Z) : Z := foldr Z.max 3221225472 l + 16384.

#[export] Instance pool_heap : KernelAllocator pool := {
  ka_pages := pool_pages;
  ka_kmalloc := λ size gfp s,
    let p := pool_next s.2 in
    if (16384 <? size) || (3222274048 <? p) then Done (0, s) else Done (p, (s.1, p :: s.2));
  ka_kfree := λ p s, if p =? 0 then Done (tt, s) else Done (tt, (s.1, filter (λ q, q ≠ p) s.2));
  ka_live := λ s p, 3221225472 ≤ p ∧ p ∈ s.2 }.

Lemma wp_pool_lift {A} (c : M bstate A) (s : pool) (Q : A → pool → Prop) :
  wp c s.1 (λ a b, Q a (b, s.2)) → wp (pool_lift c) s Q.
Proof. unfold wp, pool_lift. by destruct (c s.1) as [[a b]| | |]. Qed.

#[export] Instance pool_pages_laws : PageAllocatorLaws pool.
Proof.
  split.
  - intros s size z Hok Hz. apply wp_pool_lift. eapply wp_mono; [exact (pa_alloc_law (S := bstate) s.1 size z Hok Hz)|].
    intros r b [[-> ->]|(p & Hp)]; [left; by destruct s|right; by exists p].
  - intros s p o Hok Ho. apply wp_pool_lift. eapply wp_mono; [exact (pa_free_law (S := bstate) s.1 p o Hok Ho)|]. auto.
  - intros s. apply (pa_owned_run (S := bstate) s.1).
  - intros s. apply (pa_owned_taken (S := bstate) s.1).
  - intros s. apply (pa_owned_apart (S := bstate) s.1).
Qed.

Lemma foldr_max_ge l : 3221225472 ≤ foldr Z.max 3221225472 l.
Proof. induction l; simpl; lia. Qed.

Lemma pool_next_fresh l : pool_next l ∉ l.
Proof.
  unfold pool_next. assert (∀ p, p ∈ l → p ≤ foldr Z.max 3221225472 l) as Hm.
  { induction l as [|x l IH]; [set_solver|]. intros p [->|Hp]%elem_of_cons; simpl; [lia|].
    specialize (IH p Hp). lia. }
  intros Hin%Hm. lia.
Qed.

Lemma pool_live_preserved {A} p (c : M bstate A) : preserves (λ s : pool, ka_live s p) (pool_lift c).
Proof.
  intros s a s' E. unfold pool_lift in E. destruct (c s.1) as [[b s1]| | |]; [|done..].
  inversion E. done.
Qed.

#[export] Instance pool_heap_laws : KernelAllocatorLaws pool.
Proof.
  assert (∀ (s : pool) l, pa_ok s → heap_step s (s.1, l)) as Hstep by (intros [s0 l0] l Hok; by split).
  split; [apply _|..].
  - intros s size gfp Hok. unfold wp. simpl. destruct ((16384 <? size) || _).
    { split_and!; auto. by apply (Hstep (s.1, s.2)) || (destruct s; by apply Hstep). }
    split_and!; auto.
    + intros p [? ?]. split; [done|]. simpl. set_solver.
    + right. pose proof (foldr_max_ge s.2). split; [by intros [_ ?%pool_next_fresh]|].
      simpl. unfold pool_next. split; [lia|set_solver].
  - intros s p Hok [Hp _]. unfold wp. simpl. rewrite (proj2 (Z.eqb_neq p 0)) by lia.
    split_and!; auto. intros q Hq [? ?]. split; [done|].
    simpl. by apply list_elem_of_filter.
  - intros s. done.
  - intros s [? _]. lia.
  - intros s size gfp r s' E. simpl in E. destruct (Z.ltb_spec 16384 size), (Z.ltb_spec 3222274048 (pool_next s.2));
      simplify_eq/=; [by left..|]. right. pose proof (foldr_max_ge s.2). unfold pool_next in *. unfold W32. lia.
  - intros p size z. apply pool_live_preserved.
  - intros p a. apply pool_live_preserved.
Qed.

(** ** The example

    One area is mapped, at 4096, to frame 4; one is lazy, at 8192; the rest
    of the user space is a hole. *)

Definition booted3 : bstate := final_state (buddy_alloc_pages 4096 DMA_ZONE) booted2.

Lemma booted3_run : buddy_alloc_pages 4096 DMA_ZONE booted2 = Done (16384, booted3).
Proof. unfold booted3. apply run_final. vm_compute. reflexivity. Qed.

Lemma booted3_allocated : buddy_ok booted3 ∧ allocated booted3 1 0 ∧ allocated booted3 6 0 ∧ allocated booted3 4 0.
Proof.
  destruct booted2_allocated as (Hok & H1 & H6).
  pose proof (buddy_alloc_result booted2 4096 DMA_ZONE 16384 booted3 Hok ltac:(discriminate)
    booted3_run ltac:(discriminate)) as [Hok3 H4].
  pose proof (λ p, buddy_alloc_keeps booted2 booted3 4096 DMA_ZONE 16384 p 0 Hok ltac:(discriminate)
    booted3_run ltac:(discriminate)) as Hk.
  split; [exact Hok3|]. split; [exact (Hk 1 H1)|]. split; [exact (Hk 6 H6)|exact H4].
Qed.

Definition nodeA : Z := 3221225536.
Definition nodeL : Z := 3221225600.
Definition nodeH : Z := 3221225664.
Definition arrA : Z := 3221225728.
Definition arrL : Z := 3221225792.

Definition user_mem : Z → Z := <[1 * 4096 + 4 * 1 := 16391]> (<[6 * 4096 + 4 * 0 := 4103]> (λ _, 0)).

Definition user_space : vspace pool := VSpace
  (Vmm user_mem (booted3, [nodeA; nodeL; nodeH; arrA; arrL]) 24576 [])
  [nodeA; nodeL; nodeH]
  (<[nodeA := VmArea VM_AREA_ALLOCATED 4096 4096 7 1 arrA]>
    (<[nodeL := VmArea VM_AREA_LAZY 8192 4096 7 1 arrL]>
      (λ _, VmArea VM_AREA_FREE 12288 3221200896 0 0 0)))
  (<[arrA := [16384]]> (λ _, [0])).

Lemma user_areas : areas_ok user_space 4096 3221213184.
Proof.
  split.
  - split; try done.
    + apply booted3_allocated.
    + repeat (apply NoDup_cons; split; [set_solver|]). constructor.
    + intros a Ha. split; [|set_solver]. unfold vs_list in Ha. simpl in Ha.
      repeat (apply elem_of_cons in Ha as [->|Ha]; [done|]). set_solver.
    + change (tiles 4096 [(VM_AREA_ALLOCATED, 4096, 4096); (VM_AREA_LAZY, 8192, 4096);
        (VM_AREA_FREE, 12288, 3221200896)] 3221213184).
      simpl. split; [done|]. split; [done|]. split; [by exists 1|].
      split; [done|]. split; [done|]. split; [by exists 2|].
      split; [done|]. split; [done|]. split; [by exists 3|done].
    + intros a Ha. change (a ∈ [nodeA; nodeL; nodeH]) in Ha.
      apply elem_of_cons in Ha as [->|Ha].
      { split; [split; [done|set_solver]|]. split; [set_solver|done]. }
      apply elem_of_cons in Ha as [->|Ha].
      { split; [split; [done|set_solver]|]. split; [set_solver|done]. }
      apply list_elem_of_singleton in Ha as ->. done.
    + intros a b [_ Ha]%busy_in [_ Hb]%busy_in. simpl in Ha, Hb.
      repeat (apply elem_of_cons in Ha as [->|Ha]); try set_solver;
      repeat (apply elem_of_cons in Hb as [->|Hb]); try set_solver; try done; vm_compute; congruence.
  - vm_compute. intuition congruence.
Qed.

Lemma user_dir i : 0 ≤ i < 1024 → entry user_mem 6 i = if decide (i = 0) then 4103 else 0.
Proof. intros Hi. unfold entry, user_mem. rewrite !pm_insert. repeat case_decide; lia. Qed.

Lemma user_pt i : 0 ≤ i < 1024 → entry user_mem 1 i = if decide (i = 1) then 16391 else 0.
Proof. intros Hi. unfold entry, user_mem. rewrite !pm_insert. repeat case_decide; lia. Qed.

Lemma user_present i : 0 ≤ i < 1024 → present (entry user_mem 6 i) = true → i = 0.
Proof. intros Hi. rewrite user_dir by done. by case_decide. Qed.

Lemma user_pd : pd_ok (vs_vmm user_space) 6.
Proof.
  destruct booted3_allocated as (Hok & H1 & H6 & _).
  assert (table user_mem 6 0 = 1) as Ht by reflexivity.
  split; [exact Hok|unfold low_frame; lia|..].
  - by apply (allocated_not_free _ 6 0).
  - intros i Hi. simpl. rewrite user_dir by done. case_decide; unfold W32; lia.
  - intros i Hi Hp%user_present; [|done]. subst. change (pmem _) with user_mem. rewrite Ht.
    split; [unfold low_frame; lia|]. split; [|lia]. by apply (allocated_not_free _ 1 0).
  - intros i j Hi Hj Hne Hp%user_present Hq%user_present; lia.
  - intros i j Hi Hj Hp%user_present; [|done]. subst. change (pmem _) with user_mem.
    rewrite Ht, user_pt by done. case_decide; unfold W32; lia.
Qed.

Lemma user_pages a : a ∈ busy user_space → pages_ok user_space 6 a.
Proof.
  destruct booted3_allocated as (Hok & H1 & H6 & H4).
  assert (table user_mem 6 0 = 1) as Ht by reflexivity.
  intros [Hs Ha]%busy_in. change (a ∈ [nodeA; nodeL; nodeH]) in Ha.
  apply elem_of_cons in Ha as [->|Ha]; [|apply elem_of_cons in Ha as [->|Ha]].
  - split.
    + intros [|[|k]] w; simpl; intros Hw Hw0; simplify_eq. exists 4.
      split; [done|]. split; [exact H4|]. split; [done|]. intros i Hi Hp%user_present; [|done].
      subst. change (pmem _) with user_mem. rewrite Ht. done.
    + intros [|[|k]] [|[|k']] w; simpl; intros; simplify_eq; done.
    + intros [|[|k]] v; simpl; intros; simplify_eq.
    + intros i Hi _ _ Hp%user_present; [|done]. subst. exact H1.
  - split.
    + intros [|[|k]] w; simpl; intros Hw Hw0; simplify_eq.
    + intros [|[|k]] [|[|k']] w; simpl; intros; simplify_eq; done.
    + intros [|[|k]] v; simpl; intros Hk Hv; simplify_eq.
      change (v / 4096 = 2) in Hv.
      assert (0 ≤ v < W32) as Hvr.
      { pose proof (Z.div_mod v 4096). pose proof (Z.mod_pos_bound v 4096). unfold W32. lia. }
      destruct (page_index v 8192) as [E1 E2]; [done|].
      etransitivity; [exact (translate_unfold (vs_vmm user_space) 6 v user_pd Hvr)|]. rewrite E1, E2.
      change (pmem (vs_vmm user_space)) with user_mem.
      change (GET_PDE_INDEX 8192) with 0. change (GET_PTE_INDEX 8192) with 2.
      rewrite Ht, user_pt, user_dir by done. reflexivity.
    + intros i Hi _ _ Hp%user_present; [|done]. subst. exact H1.
  - apply list_elem_of_singleton in Ha as ->. done.
Qed.



