(* ===== verification/Task.v ===== *)
(** * Tasks (include/proc/task.h, src/proc/task.c, include/arch/trap_frame.h):
    data and operations

    A task structure is the function from its fields to 32-bit words; the
    intrusive lists of tasks are kept as the sequences of their members
    (Dlist relates the two).  Calls into the memory subsystem and accesses
    to devices are recorded, in order, in the trace [effects]. *)

From S2P Require Import Prelude Memory Bitmap.

(** ** Data *)

Inductive tfield :=
  | pid | uid | gid | real_parent | parent | esp | cr3_ | kernel_stack_pointer | kernel_stack_base
  | text_sec | data_sec | stack_sec | heap_sec | signals_map | sig_trampoline | sig_handlers (sig : Z)
  | name | ring | need_resched | exit_code | state | tick_to_wake | quantum_remaining
  | wq_task | wq_head | wq_node | wq_state | wq_handler.

#[export] Instance tfield_eq_dec : EqDecision tfield.
Proof. solve_decision. Defined.

(** [enum process_states]. *)
Definition TASK_NEW : Z := 0.
Definition TASK_RUNNING : Z := 1.
Definition TASK_WAITING : Z := 2.
Definition TASK_ZOMBIE : Z := 3.

Definition task_state_to_string (state : Z) : string :=
  if state =? TASK_NEW then "NEW"
  else if state =? TASK_RUNNING then "RUNNING"
  else if state =? TASK_WAITING then "WAITING"
  else if state =? TASK_ZOMBIE then "ZOMBIE"
  else "UNKNOWN".

Definition STACK_CANARY_MAGIC : Z := 2880289470. (* 0xABADBABE *)
Definition PID_MAX : Z := 32768.
Definition DEFAULT_STACK_SIZE : Z := PAGE_SIZE * 2.
Definition SIZEOF_SECTION : Z := 24.

(** [struct section]. *)
Record section := Section_ {
  v_addr : Z; p_addr : Z; data_start : Z; data_size : Z; mapping_size : Z; sec_flags : Z }.

Definition zero_section : section := Section_ 0 0 0 0 0 0.

Inductive effect :=
  | EBuddyFree (p : Z)
  | EVmaDestroyAreas (t pd : Z)
  | EDestroyPd (pd : Z)
  | EKfree (p : Z)
  | ELoadCr3 (pd : Z)
  | ESwitchTo (from to : Z)
  | ECall (handler arg : Z)
  | ECopyToUser (dst : Z) (ws : list Z)
  | EOutb (port byte : Z)
  | EPrint (s : string).

Record sys := Sys {
  tasks : Z → tfield → Z;
  sections : Z → section;
  words : Z → Z;              (* kernel stacks *)
  ready_queue : list Z;
  info_queue : list Z;
  children : Z → list Z;
  waiters : Z → list Z;       (* by the address of the wait queue *)
  current_task : Z;
  idle_task : Z;
  kitoxD_task : Z;
  dummy_task : Z;
  pid_manager : id_manager;
  global_ticks : Z;
  preempt_count : Z;
  irqs : bool;
  effects : list effect }.

(** ** Accessors *)

Definition fld (t : Z) (f : tfield) : M sys Z :=
  if t =? 0 then fault else gets (λ s, tasks s t f).

Definition set_tasks (g : (Z → tfield → Z) → Z → tfield → Z) (s : sys) : sys :=
  Sys (g (tasks s)) (sections s) (words s) (ready_queue s) (info_queue s) (children s) (waiters s)
    (current_task s) (idle_task s) (kitoxD_task s) (dummy_task s) (pid_manager s) (global_ticks s)
    (preempt_count s) (irqs s) (effects s).

Definition upd (t : Z) (f : tfield) (v : Z) (m : Z → tfield → Z) : Z → tfield → Z :=
  <[t := <[f := v]> (m t)]> m.

Definition set_fld (t : Z) (f : tfield) (v : Z) : M sys unit :=
  if t =? 0 then fault else modify (set_tasks (upd t f v)).

Definition set_sections (g : (Z → section) → Z → section) (s : sys) : sys :=
  Sys (tasks s) (g (sections s)) (words s) (ready_queue s) (info_queue s) (children s) (waiters s)
    (current_task s) (idle_task s) (kitoxD_task s) (dummy_task s) (pid_manager s) (global_ticks s)
    (preempt_count s) (irqs s) (effects s).

Definition set_words (g : (Z → Z) → Z → Z) (s : sys) : sys :=
  Sys (tasks s) (sections s) (g (words s)) (ready_queue s) (info_queue s) (children s) (waiters s)
    (current_task s) (idle_task s) (kitoxD_task s) (dummy_task s) (pid_manager s) (global_ticks s)
    (preempt_count s) (irqs s) (effects s).

Definition set_ready (g : list Z → list Z) (s : sys) : sys :=
  Sys (tasks s) (sections s) (words s) (g (ready_queue s)) (info_queue s) (children s) (waiters s)
    (current_task s) (idle_task s) (kitoxD_task s) (dummy_task s) (pid_manager s) (global_ticks s)
    (preempt_count s) (irqs s) (effects s).

Definition set_info (g : list Z → list Z) (s : sys) : sys :=
  Sys (tasks s) (sections s) (words s) (ready_queue s) (g (info_queue s)) (children s) (waiters s)
    (current_task s) (idle_task s) (kitoxD_task s) (dummy_task s) (pid_manager s) (global_ticks s)
    (preempt_count s) (irqs s) (effects s).

Definition set_children (g : (Z → list Z) → Z → list Z) (s : sys) : sys :=
  Sys (tasks s) (sections s) (words s) (ready_queue s) (info_queue s) (g (children s)) (waiters s)
    (current_task s) (idle_task s) (kitoxD_task s) (dummy_task s) (pid_manager s) (global_ticks s)
    (preempt_count s) (irqs s) (effects s).

Definition set_waiters (g : (Z → list Z) → Z → list Z) (s : sys) : sys :=
  Sys (tasks s) (sections s) (words s) (ready_queue s) (info_queue s) (children s) (g (waiters s))
    (current_task s) (idle_task s) (kitoxD_task s) (dummy_task s) (pid_manager s) (global_ticks s)
    (preempt_count s) (irqs s) (effects s).

Definition set_current (t : Z) (s : sys) : sys :=
  Sys (tasks s) (sections s) (words s) (ready_queue s) (info_queue s) (children s) (waiters s)
    t (idle_task s) (kitoxD_task s) (dummy_task s) (pid_manager s) (global_ticks s)
    (preempt_count s) (irqs s) (effects s).

Definition set_pids (m : id_manager) (s : sys) : sys :=
  Sys (tasks s) (sections s) (words s) (ready_queue s) (info_queue s) (children s) (waiters s)
    (current_task s) (idle_task s) (kitoxD_task s) (dummy_task s) m (global_ticks s)
    (preempt_count s) (irqs s) (effects s).

Definition set_ticks (n : Z) (s : sys) : sys :=
  Sys (tasks s) (sections s) (words s) (ready_queue s) (info_queue s) (children s) (waiters s)
    (current_task s) (idle_task s) (kitoxD_task s) (dummy_task s) (pid_manager s) n
    (preempt_count s) (irqs s) (effects s).

Definition set_preempt (n : Z) (i : bool) (s : sys) : sys :=
  Sys (tasks s) (sections s) (words s) (ready_queue s) (info_queue s) (children s) (waiters s)
    (current_task s) (idle_task s) (kitoxD_task s) (dummy_task s) (pid_manager s) (global_ticks s)
    n i (effects s).

Definition do_effect (e : effect) (s : sys) : sys :=
  Sys (tasks s) (sections s) (words s) (ready_queue s) (info_queue s) (children s) (waiters s)
    (current_task s) (idle_task s) (kitoxD_task s) (dummy_task s) (pid_manager s) (global_ticks s)
    (preempt_count s) (irqs s) (e :: effects s).

Definition effect_ (e : effect) : M sys unit := modify (do_effect e).

Definition remove (t : Z) (l : list Z) : list Z := filter (λ x, x ≠ t) l.

Definition task_get_current_task : M sys Z := gets current_task.
Definition task_get_kitoxD : M sys Z := gets kitoxD_task.
Definition task_get_idle : M sys Z := gets idle_task.
Definition task_get_dummy : M sys Z := gets dummy_task.
Definition task_set_current_task (t : Z) : M sys unit := modify (set_current t).

(** ** Family *)

Definition task_append_child (parent_ child : Z) : M sys unit :=
  modify (set_children (λ c, <[parent_ := child :: c parent_]> c)) ;;
  set_fld child parent parent_ ;;
  set_fld child real_parent parent_.

(** [while (!list_is_empty(&parent->children))]; one unit of fuel per child. *)
Fixpoint reparent_loop (fuel : nat) (parent_ kitoxD : Z) : M sys unit :=
  c ← gets (λ s, children s parent_) ;
  match c with
  | [] => mret tt
  | child :: rest =>
      match fuel with
      | O => hang
      | S fuel =>
          set_fld child parent kitoxD ;;
          set_fld child real_parent kitoxD ;;
          modify (set_children (λ c, <[parent_ := rest]> c)) ;;
          modify (set_children (λ c, <[kitoxD := child :: c kitoxD]> c)) ;;
          reparent_loop fuel parent_ kitoxD
      end
  end.

Definition __task_reparent_children (fuel : nat) (parent_ : Z) : M sys unit :=
  kitoxD ← task_get_kitoxD ;
  if (kitoxD =? 0) || (parent_ =? kitoxD) then mret tt else reparent_loop fuel parent_ kitoxD.

Fixpoint find_task (p : Z → bool) (l : list Z) : Z :=
  match l with [] => 0 | t :: l => if p t then t else find_task p l end.

Definition task_find_by_pid (n : Z) : M sys Z :=
  gets (λ s, find_task (λ t, tasks s t pid =? n) (info_queue s)).

Definition task_has_child_pid (parent_ child_pid : Z) : M sys bool :=
  gets (λ s, existsb (λ t, tasks s t pid =? child_pid) (children s parent_)).

(** ** Release *)

(** [if (sec && sec->p_addr) buddy_free_block(sec->p_addr)]. *)
Definition free_section (sec : Z) : M sys unit :=
  if sec =? 0 then mret tt
  else
    x ← gets (λ s, sections s sec) ;
    if p_addr x =? 0 then mret tt else effect_ (EBuddyFree (p_addr x)).

Definition task_exit_cleanup (t : Z) : M sys unit :=
  text ← fld t text_sec ; free_section text ;;
  data ← fld t data_sec ; free_section data ;;
  stack ← fld t stack_sec ; free_section stack ;;
  trampo ← fld t sig_trampoline ; free_section trampo ;;
  r ← fld t ring ;
  pd ← fld t cr3_ ;
  (if 0 <? r then effect_ (EVmaDestroyAreas t pd) else mret tt) ;;
  (** [ft_bzero(task->text_sec, sizeof(struct section) * 4)] *)
  (if text =? 0 then fault
   else modify (set_sections (λ sec,
     <[text := zero_section]> (<[text + SIZEOF_SECTION := zero_section]>
       (<[text + 2 * SIZEOF_SECTION := zero_section]>
         (<[text + 3 * SIZEOF_SECTION := zero_section]> sec)))))) ;;
  if r =? 0 then mret tt else effect_ (EDestroyPd pd).

Definition task_release (t : Z) : M sys unit :=
  p ← fld t parent ;
  modify (set_children (λ c, <[p := remove t (c p)]> c)) ;;
  modify (set_info (remove t)) ;;
  n ← fld t pid ;
  mgr ← gets pid_manager ;
  modify (set_pids (id_manager_free mgr n)) ;;
  k ← fld t kernel_stack_pointer ;
  effect_ (EKfree k) ;;
  effect_ (EKfree t).

(** ** Crafting the first context *)

(** Offsets of [struct trap_frame]. *)
Definition SIZEOF_TRAP_FRAME : Z := 76.
Definition OFF_gs : Z := 0.
Definition OFF_fs : Z := 4.
Definition OFF_es : Z := 8.
Definition OFF_ds : Z := 12.
Definition OFF_eax : Z := 44.
Definition OFF_eip : Z := 56.
Definition OFF_cs : Z := 60.
Definition OFF_eflags : Z := 64.
Definition OFF_user_esp : Z := 68.
Definition OFF_user_ss : Z := 72.

Definition GDT_SELECTOR (idx ring : Z) : Z := Z.lor (Z.shiftl idx 3) ring.
Definition USER_RING : Z := 3.
Definition USER_CS : Z := GDT_SELECTOR 3 USER_RING.
Definition USER_DS : Z := GDT_SELECTOR 4 USER_RING.
Definition EFLAGS_FIXED : Z := Z.shiftl 1 1.
Definition EFLAGS_IF : Z := Z.shiftl 1 9.
Definition EFLAGS_USER_DEFAULT : Z := Z.lor EFLAGS_FIXED EFLAGS_IF.

Definition stw (a v : Z) : M sys unit := modify (set_words (λ w, <[a := v]> w)).

Definition bzero_words (a n : Z) : M sys unit :=
  modify (set_words (λ w x, if (a <=? x) && (x <? a + n) then 0 else w x)).

(** [interrupt_exit] is the address of the assembly routine of irq.s. *)
Definition task_craft_context (interrupt_exit t : Z) (userspace : bool) (entry : Z) : M sys unit :=
  base ← fld t kernel_stack_base ;
  (if userspace then
     let tf := base ⊟ SIZEOF_TRAP_FRAME in
     stack ← fld t stack_sec ;
     sec ← gets (λ s, sections s stack) ;
     bzero_words tf SIZEOF_TRAP_FRAME ;;
     stw (tf + OFF_user_ss) USER_DS ;;
     stw (tf + OFF_user_esp) (v_addr sec ⊞ mapping_size sec) ;;
     stw (tf + OFF_eflags) EFLAGS_USER_DEFAULT ;;
     stw (tf + OFF_cs) USER_CS ;;
     stw (tf + OFF_eip) entry ;;
     stw (tf + OFF_ds) USER_DS ;;
     stw (tf + OFF_es) USER_DS ;;
     stw (tf + OFF_fs) USER_DS ;;
     stw (tf + OFF_gs) USER_DS ;;
     stw (tf ⊟ 4) interrupt_exit
   else stw (base ⊟ 4) entry) ;;
  let kstack := (if userspace then base ⊟ SIZEOF_TRAP_FRAME else base) ⊟ 4 in
  stw (kstack ⊟ 4) 0 ;;
  stw (kstack ⊟ 8) 0 ;;
  stw (kstack ⊟ 12) 0 ;;
  stw (kstack ⊟ 16) 0 ;;
  set_fld t esp (kstack ⊟ 16).
