(* ===== verification/Sched.v ===== *)
(** * Scheduling (src/proc/scheduler.c, waitqueue.c, timer.c, lock.c):
    operations

    A wait queue is named by its address: that of the sleepers is
    [sleep_wq], that of the children of task [t] is [child_wq t].
    [switch_to] is recorded as an effect: what follows it, and what follows a
    call of [schedule] in its caller, runs when the caller is scheduled again
    ([timer_ksleep_resume] here, [schedule_resume] in Process). *)

From S2P Require Import Prelude Errno Memory Bitmap Task.

Definition DEFAULT_QUANTUM : Z := 10.
Definition TIMER_HZ : Z := 100.
Definition PIT_BASE_FREQUENCY : Z := 1193180.
Definition TICKS_PER_SECOND : Z := TIMER_HZ.
Definition SECONDS_TO_TICKS (seconds : Z) : Z := seconds ⊠ TICKS_PER_SECOND.
Definition TASK_INTERRUPTIBLE : Z := 0.
Definition TASK_UNINTERRUPTIBLE : Z := 1.

Definition sleep_wq : Z := -1.
Definition child_wq (t : Z) : Z := t.

(** ** scheduler.c *)

Definition pick_next : M sys Z :=
  q ← gets ready_queue ;
  match q with
  | [] => mret 0
  | next :: rest => modify (set_ready (λ _, rest)) ;; mret next
  end.

Definition sched_enqueue (t : Z) : M sys Z :=
  q ← gets ready_queue ;
  if (t =? 0) || bool_decide (t ∈ q) then mret (- EINVAL)
  else
    set_fld t state TASK_RUNNING ;;
    modify (set_ready (λ q, q ++ [t])) ;;
    mret SUCCESS.

(** [*(uint32_t * )(task->kernel_stack_pointer) != STACK_CANARY_MAGIC]. *)
Definition task_stack_overflow (t : Z) : M sys bool :=
  k ← fld t kernel_stack_pointer ;
  w ← gets (λ s, words s k) ;
  mret (negb (w =? STACK_CANARY_MAGIC)).

(** The result tells whether another task was switched to. *)
Definition schedule : M sys bool :=
  idle ← task_get_idle ;
  cur ← task_get_current_task ;
  dummy ← task_get_dummy ;
  if idle =? 0 then kpanic "Error: idle not init."
  else if cur =? 0 then kpanic "Error: current task is NULL."
  else
    ov ← task_stack_overflow cur ;
    if (ov : bool) then kpanic "Stack overflow"
    else
      st ← fld cur state ;
      (if (st =? TASK_RUNNING) && negb (cur =? idle) && negb (cur =? dummy)
       then sched_enqueue cur ;; mret tt else mret tt) ;;
      next ← pick_next ;
      next ← (if next =? 0 then
                (if cur =? idle then mret 0 else set_fld idle state TASK_RUNNING ;; mret idle)
              else
                st ← fld next state ;
                if negb (st =? TASK_RUNNING) then kpanic "Scheduler: non-RUNNING task in ready queue"
                else mret next) ;
      if next =? 0 then mret false
      else
        ov ← task_stack_overflow next ;
        if (ov : bool) then kpanic "Stack overflow"
        else
          task_set_current_task next ;;
          set_fld next quantum_remaining DEFAULT_QUANTUM ;;
          effect_ (ESwitchTo cur next) ;;
          mret true.

(** ** waitqueue.c *)

Definition wq_entry_init (t task_ st : Z) : M sys unit :=
  set_fld t wq_task task_ ;;
  set_fld t wq_head 0 ;;
  set_fld t wq_handler 0 ;;
  set_fld t wq_state st ;;
  set_fld t wq_node 0.

(** [pop_node(&task->wq_data.node)]. *)
Definition pop_wq_node (t : Z) : M sys unit :=
  w ← fld t wq_node ;
  modify (set_waiters (λ m, <[w := remove t (m w)]> m)) ;;
  set_fld t wq_node 0.

Definition wq_prepare (wq t : Z) : M sys unit :=
  set_fld t wq_head wq ;;
  set_fld t state TASK_WAITING ;;
  set_fld t need_resched 1 ;;
  q ← gets ready_queue ;
  (if bool_decide (t ∈ q) then modify (set_ready (remove t)) else mret tt) ;;
  w ← fld t wq_node ;
  (if negb (w =? 0) then pop_wq_node t else mret tt) ;;
  modify (set_waiters (λ m, <[wq := t :: m wq]> m)) ;;
  set_fld t wq_node wq.

(** [entry] is the wait-queue entry of task [t]. *)
Definition wq_finish (t : Z) : M sys unit :=
  w ← fld t wq_node ;
  if w =? 0 then mret tt
  else
    pop_wq_node t ;;
    h ← fld t wq_handler ;
    (if negb (h =? 0) then effect_ (ECall h t) else mret tt) ;;
    owner ← fld t wq_task ;
    set_fld owner state TASK_RUNNING ;;
    sched_enqueue owner ;;
    st ← fld t wq_state ;
    wq_entry_init t owner st.

Definition wq_wake_specifiq (t : Z) : M sys unit := wq_finish t.

Definition wq_signal_wake_up (t : Z) : M sys unit :=
  st ← fld t wq_state ;
  if st =? TASK_UNINTERRUPTIBLE then mret tt else wq_wake_specifiq t.

Definition wq_wake_one (wq : Z) : M sys unit :=
  if wq =? 0 then fault
  else
    l ← gets (λ s, waiters s wq) ;
    match l with [] => mret tt | t :: _ => wq_finish t end.

(** One unit of fuel per waiter. *)
Fixpoint wake_loop (fuel : nat) (wq : Z) : M sys unit :=
  l ← gets (λ s, waiters s wq) ;
  match l with
  | [] => mret tt
  | t :: _ => match fuel with O => hang | S fuel => wq_finish t ;; wake_loop fuel wq end
  end.

Definition wq_wake_all (fuel : nat) (wq : Z) : M sys unit :=
  if wq =? 0 then fault else wake_loop fuel wq.

(** ** timer.c *)

(** [list_for_each_safe] over the sleepers as they are when the loop starts. *)
Fixpoint wake_sleepers (l : list Z) : M sys unit :=
  match l with
  | [] => mret tt
  | t :: l =>
      owner ← fld t wq_task ;
      k ← fld owner tick_to_wake ;
      now ← gets global_ticks ;
      (if k <=? now then wq_finish t else mret tt) ;;
      wake_sleepers l
  end.

Definition task_wake_up_sleepers : M sys unit :=
  l ← gets (λ s, waiters s sleep_wq) ; wake_sleepers l.

Definition timer_get_global_ticks : M sys Z := gets global_ticks.

Definition timer_set_cycle (hz : Z) : M sys unit :=
  let divisor := PIT_BASE_FREQUENCY / hz in
  effect_ (EOutb 67 54) ;;
  effect_ (EOutb 64 (Z.land divisor 255)) ;;
  effect_ (EOutb 64 (u8 (Z.shiftr divisor 8))).

Definition timer_handle : M sys unit :=
  n ← gets global_ticks ;
  modify (set_ticks (n ⊞ 1)) ;;
  task_wake_up_sleepers ;;
  idle ← task_get_idle ;
  current ← task_get_current_task ;
  if current =? idle then schedule ;; mret tt
  else
    q ← fld current quantum_remaining ;
    set_fld current quantum_remaining (q ⊟ 1) ;;
    if 0 <? q ⊟ 1 then mret tt else schedule ;; mret tt.

(** Up to the switch; [tick_to_wake] is reset by [timer_ksleep_resume]. *)
Definition timer_ksleep (seconds : Z) : M sys bool :=
  cur ← task_get_current_task ;
  now ← gets global_ticks ;
  set_fld cur tick_to_wake (now ⊞ SECONDS_TO_TICKS seconds) ;;
  wq_prepare sleep_wq cur ;;
  schedule.

Definition timer_ksleep_resume (cur : Z) : M sys unit := set_fld cur tick_to_wake 0.

(** ** lock.c *)

Definition lock_preempt : M sys Z :=
  modify (λ s, set_preempt (preempt_count s ⊞ 1) false s) ;; mret 1.

Definition unlock_preempt : M sys Z :=
  modify (λ s, set_preempt (if preempt_count s =? 0 then 0 else preempt_count s - 1) (irqs s) s) ;;
  n ← gets preempt_count ;
  (if n =? 0 then
     cur ← task_get_current_task ;
     r ← (if cur =? 0 then mret 0 else fld cur need_resched) ;
     (if negb (r =? 0) then set_fld cur need_resched 0 else mret tt) ;;
     modify (λ s, set_preempt (preempt_count s) true s)
   else mret tt) ;;
  mret 0.
