(* ===== verification/Process.v ===== *)
(** * Signals and process exit (src/proc/signal.c, syscalls/exit.c, kill.c,
    signal.c, sigreturn.c, waitpid.c, do_syscall.c, getpid.c, getuid.c,
    sleep.c): operations *)

From S2P Require Import Prelude Errno Memory Bitmap Task Sched.

(** ** Signal numbers *)

Definition SIGHUP : Z := 1.
Definition SIGINT : Z := 2.
Definition SIGQUIT : Z := 3.
Definition SIGILL : Z := 4.
Definition SIGTRAP : Z := 5.
Definition SIGABRT : Z := 6.
Definition SIGIOT : Z := 6.
Definition SIGBUS : Z := 7.
Definition SIGFPE : Z := 8.
Definition SIGKILL : Z := 9.
Definition SIGUSR1 : Z := 10.
Definition SIGSEGV : Z := 11.
Definition SIGUSR2 : Z := 12.
Definition SIGPIPE : Z := 13.
Definition SIGALRM : Z := 14.
Definition SIGTERM : Z := 15.
Definition SIGSTKFLT : Z := 16.
Definition SIGCHLD : Z := 17.
Definition SIGCLD : Z := 17.
Definition SIGCONT : Z := 18.
Definition SIGSTOP : Z := 19.
Definition SIGTSTP : Z := 20.
Definition SIGTTIN : Z := 21.
Definition SIGTTOU : Z := 22.
Definition SIGURG : Z := 23.
Definition SIGXCPU : Z := 24.
Definition SIGXFSZ : Z := 25.
Definition SIGVTALRM : Z := 26.
Definition SIGPROF : Z := 27.
Definition SIGWINCH : Z := 28.
Definition SIGPOLL : Z := 29.
Definition SIGIO : Z := 29.
Definition SIGPWR : Z := 30.
Definition SIGSYS : Z := 31.
Definition SIG_Sentinel : Z := 32.

Definition default_msg (sig : Z) : string :=
  nth (Z.to_nat sig)
    [EmptyString; "Hangup";
     "Interrupt";
     "Quit";
     "Illegal instruction";
     "Trace/breakpoint trap";
     "Aborted";
     "Bus error";
     "Floating point exception";
     "Killed";
     "User defined signal 1";
     "Segmentation fault";
     "User defined signal 2";
     "Broken pipe";
     "Alarm clock";
     "Terminated";
     "Stack fault";
     "Child exited";
     "Continued";
     "Stopped (signal)";
     "Stopped (user)";
     "Stopped (tty input)";
     "Stopped (tty output)";
     "Urgent I/O condition";
     "CPU time limit exceeded";
     "File size limit exceeded";
     "Virtual timer expired";
     "Profiling timer expired";
     "Window changed";
     "I/O possible";
     "Power failure";
     "Bad system call"] EmptyString.

Definition signal_to_string (sig : Z) : string :=
  if (sig <? 1) || (SIG_Sentinel <=? sig) then "UNKNOWN"
  else nth (Z.to_nat sig)
    [EmptyString; "SIGHUP"; "SIGINT"; "SIGQUIT"; "SIGILL"; "SIGTRAP"; "SIGABRT";
     "SIGBUS"; "SIGFPE"; "SIGKILL"; "SIGUSR1"; "SIGSEGV"; "SIGUSR2";
     "SIGPIPE"; "SIGALRM"; "SIGTERM"; "SIGSTKFLT"; "SIGCHLD"; "SIGCONT";
     "SIGSTOP"; "SIGTSTP"; "SIGTTIN"; "SIGTTOU"; "SIGURG"; "SIGXCPU";
     "SIGXFSZ"; "SIGVTALRM"; "SIGPROF"; "SIGWINCH"; "SIGPOLL"; "SIGPWR";
     "SIGSYS"] "UNKNOWN".

Definition bit1 (n : Z) : Z := u32 (Z.shiftl 1 n).

Definition SIG_IGN_MASK : Z :=
  foldr Z.lor 0 (map bit1 [SIGCHLD; SIGCONT; SIGSTOP; SIGTSTP; SIGTTIN; SIGTTOU; SIGURG; SIGWINCH;
                           SIGPOLL; SIGPWR; SIGSTKFLT]).

Definition signal_is_valid (sig : Z) : bool := (0 <? sig) && (sig <? SIG_Sentinel).

Definition USER_TRAMPOLINE_VADDR : Z := KERNEL_VADDR_BASE - PAGE_SIZE.
Definition ESP_ALIGN : Z := 16.
Definition SIZEOF_SIGFRAME : Z := 8 + SIZEOF_TRAP_FRAME.
Definition MAX_SYSCALL : Z := 200.

(** ** Pending signals *)

Definition signal_check_perm (target : Z) : M sys bool :=
  cur ← task_get_current_task ;
  if (cur =? 0) || (target =? 0) then mret false
  else
    u ← fld cur uid ;
    if u =? 0 then mret true
    else v ← fld target uid ; mret (u =? v).

Definition signal_send (sig dst : Z) : M sys unit :=
  if negb (negb (dst =? 0) && (0 <? sig) && (sig <? SIG_Sentinel)) then mret tt
  else
    m ← fld dst signals_map ;
    set_fld dst signals_map (Z.lor m (bit1 sig)) ;;
    wq_signal_wake_up dst.

Definition signal_is_set (sig dst : Z) : M sys bool :=
  if negb (dst =? 0) && (sig <? SIG_Sentinel) then
    m ← fld dst signals_map ; mret (negb (Z.land (Z.shiftr m sig) 1 =? 0))
  else mret false.

Definition signal_reset (dst : Z) : M sys unit :=
  if dst =? 0 then mret tt else set_fld dst signals_map 0.

Definition signal_dequeue (sig dst : Z) : M sys unit :=
  if negb (dst =? 0) && (0 <? sig) && (sig <? SIG_Sentinel) then
    m ← fld dst signals_map ; set_fld dst signals_map (Z.land m (not32 (bit1 sig)))
  else mret tt.

(** [for (i = ...; i < SIG_Sentinel; i++)]. *)
Fixpoint dequeue_loop (n : nat) (i t : Z) : M sys Z :=
  match n with
  | O => mret 0
  | S n =>
      m ← fld t signals_map ;
      if Z.land (Z.shiftr m i) 1 =? 0 then dequeue_loop n (i + 1) t
      else signal_dequeue i t ;; mret i
  end.

Definition signal_dequeue_yield (t : Z) : M sys Z :=
  if t =? 0 then mret (- ESRCH) else dequeue_loop 31 1 t.

(** ** exit *)

(** Does not return: the result is the state in which another task runs. *)
Definition do_exit (kernel_directory status : Z) : M sys unit :=
  init ← task_get_kitoxD ;
  idle ← task_get_idle ;
  cur ← task_get_current_task ;
  parent_ ← fld cur real_parent ;
  if (cur =? idle) || (cur =? init) then kpanic "Error: Trying to exit init or idle..."
  else
    set_fld cur exit_code (u32 (Z.shiftl (Z.land status 255) 8)) ;;
    q ← gets ready_queue ;
    (if bool_decide (cur ∈ q) then modify (set_ready (remove cur)) else mret tt) ;;
    c ← gets (λ s, length (children s cur)) ;
    __task_reparent_children c cur ;;
    set_fld cur state TASK_ZOMBIE ;;
    n ← gets (λ s, length (waiters s (child_wq parent_))) ;
    wq_wake_all n (child_wq parent_) ;;
    effect_ (ELoadCr3 kernel_directory) ;;
    task_exit_cleanup cur ;;
    b ← schedule ;
    if (b : bool) then mret tt else kpanic "Returned after `task_exit_cleanup()'".

(** ** Delivery *)

Section Delivery.
(** The kernel's two handlers, the boot directory, and the user copies: the
    result of [copy_to_user] (0 is success) and the words [copy_from_user]
    reads, if it can. *)
Context (signal_default_handler signal_ignore_handler kernel_directory : Z).
Context (copy_to_user : Z → list Z → sys → Z).
Context (copy_from_user : Z → Z → sys → option (list Z)).

Definition signal_init_default_handlers (t : Z) : M sys unit :=
  for_ 32 0 (λ i,
    set_fld t (sig_handlers i)
      (if Z.land (Z.shiftr SIG_IGN_MASK i) 1 =? 0 then signal_default_handler else signal_ignore_handler)).

Definition run_default_handler (sig : Z) : M sys unit :=
  effect_ (EPrint (default_msg sig)) ;; do_exit kernel_directory (-1).

(** The words of the trap frame at [tf]. *)
Definition frame_words (tf : Z) (s : sys) : list Z :=
  map (λ i, words s (tf + 4 * Z.of_nat i)) (seq 0 19).

Fixpoint call_handlers (n : nat) (i cur : Z) : M sys unit :=
  match n with
  | O => mret tt
  | S n =>
      b ← signal_is_set i cur ;
      if (b : bool) then
        signal_dequeue i cur ;;
        handler ← fld cur (sig_handlers i) ;
        if KERNEL_VADDR_BASE <=? handler then
          p ← fld cur pid ;
          if (p =? 0) || (p =? 1) then call_handlers n (i + 1) cur
          else if handler =? signal_default_handler then run_default_handler i
          else if handler =? signal_ignore_handler then call_handlers n (i + 1) cur
          else fault
        else
          base ← fld cur kernel_stack_base ;
          let tf := base ⊟ SIZEOF_TRAP_FRAME in
          user_esp ← gets (λ s, words s (tf + OFF_user_esp)) ;
          let new_esp := ALIGN_DOWN (user_esp ⊟ SIZEOF_SIGFRAME) ESP_ALIGN in
          kframe ← gets (λ s, USER_TRAMPOLINE_VADDR :: i :: frame_words tf s) ;
          r ← gets (copy_to_user new_esp kframe) ;
          if negb (r =? 0) then do_exit kernel_directory (- EFAULT)
          else
            effect_ (ECopyToUser new_esp kframe) ;;
            stw (tf + OFF_eip) handler ;;
            stw (tf + OFF_user_esp) new_esp
      else call_handlers n (i + 1) cur
  end.

Definition signal_call_curtask_handlers : M sys unit :=
  cur ← task_get_current_task ;
  if cur =? 0 then mret tt else call_handlers 31 1 cur.

(** What [schedule] does once [switch_to] returns, in the task that was
    switched to. *)
Definition schedule_resume : M sys unit := signal_call_curtask_handlers.

(** ** System calls *)

Definition kill_pid (n sig : Z) : M sys Z :=
  target ← task_find_by_pid n ;
  if target =? 0 then mret (- ESRCH)
  else if negb (signal_is_valid sig) then mret (- EINVAL)
  else
    ok ← signal_check_perm target ;
    if negb ok then mret (- EPERM)
    else signal_send sig target ;; mret SUCCESS.

Definition sys_kill (n sig : Z) : M sys Z := kill_pid n sig.

Definition sys_signal (signum handler : Z) : M sys Z :=
  if negb (signal_is_valid signum) || (handler =? 0) then mret (- EINVAL)
  else if (signum =? SIGKILL) || (signum =? SIGSTOP) then mret (- EINVAL)
  else if KERNEL_VADDR_BASE <=? handler then mret (- EINVAL)
  else
    cur ← task_get_current_task ;
    old ← fld cur (sig_handlers signum) ;
    set_fld cur (sig_handlers signum) handler ;;
    mret (s32 old).

Definition store_frame (tf : Z) (ws : list Z) (w : Z → Z) : Z → Z :=
  foldr (λ '(i, x) w, <[tf + 4 * Z.of_nat i := x]> w) w (zip (seq 0 19) ws).

Definition sys_sigreturn : M sys Z :=
  cur ← task_get_current_task ;
  if cur =? 0 then mret (- EINVAL)
  else
    base ← fld cur kernel_stack_base ;
    let tf := base ⊟ SIZEOF_TRAP_FRAME in
    user_esp ← gets (λ s, words s (tf + OFF_user_esp)) ;
    let old_frame := user_esp ⊟ 4 in
    r ← gets (copy_from_user (old_frame ⊞ 8) SIZEOF_TRAP_FRAME) ;
    match r with
    | None => do_exit kernel_directory (- EFAULT) ;; mret 0
    | Some ws =>
        modify (set_words (store_frame tf ws)) ;;
        stw (tf + OFF_user_ss) USER_DS ;;
        f ← gets (λ s, words s (tf + OFF_eflags)) ;
        stw (tf + OFF_eflags) (Z.lor (Z.land f 3541) 514) ;;
        stw (tf + OFF_cs) USER_CS ;;
        stw (tf + OFF_ds) USER_DS ;;
        stw (tf + OFF_es) USER_DS ;;
        stw (tf + OFF_fs) USER_DS ;;
        stw (tf + OFF_gs) USER_DS ;;
        a ← gets (λ s, words s (tf + OFF_eax)) ; mret (s32 a)
    end.

Definition sys_exit (status : Z) : M sys unit := do_exit kernel_directory status.

Definition sys_getpid : M sys Z := cur ← task_get_current_task ; fld cur pid.

Definition sys_getuid : M sys Z := cur ← task_get_current_task ; fld cur uid.

Definition sys_sleep (seconds : Z) : M sys bool := timer_ksleep seconds.

Definition find_zombie_child (parent_ n : Z) : M sys Z :=
  gets (λ s, find_task (λ t, (tasks s t state =? TASK_ZOMBIE) && ((n =? -1) || (tasks s t pid =? n)))
               (children s parent_)).

(** One round of the [while (true)] of waitpid: its result, or [None] when the
    caller went to sleep and starts over once it is woken. *)
Definition sys_waitpid_round (n status : Z) : M sys (option Z) :=
  if (n =? 0) || (n <? -1) then mret (Some (- EINVAL))
  else
    cur ← task_get_current_task ;
    kids ← gets (λ s, children s cur) ;
    init ← task_get_kitoxD ;
    if bool_decide (kids = []) then
      if negb (cur =? init) then mret (Some (- ECHILD))
      else wq_prepare (child_wq cur) cur ;; schedule ;; mret None
    else
      has ← task_has_child_pid cur n ;
      if (0 <? n) && negb has then mret (Some (- ECHILD))
      else
        zombie ← find_zombie_child cur n ;
        if zombie =? 0 then wq_prepare (child_wq cur) cur ;; schedule ;; mret None
        else
          ret ← fld zombie pid ;
          code ← fld zombie exit_code ;
          r ← (if status =? 0 then mret 0 else gets (copy_to_user status [code])) ;
          if negb (r =? 0) then mret (Some (- EFAULT))
          else
            (if status =? 0 then mret tt else effect_ (ECopyToUser status [code])) ;;
            task_release zombie ;; mret (Some ret).

(** The table is generated from syscall.tbl; it has [MAX_SYSCALL] entries. *)
Context (syscall_table : Z → option (Z → Z → Z → Z → Z → Z → M sys Z)).

Definition do_syscall (tf : Z) : M sys unit :=
  if tf =? 0 then mret tt
  else
    sys_id ← gets (λ s, words s (tf + OFF_eax)) ;
    if MAX_SYSCALL <? sys_id then stw (tf + OFF_eax) (u32 (- ENOSYS))
    else if MAX_SYSCALL <=? sys_id then fault
    else
      match syscall_table sys_id with
      | None => stw (tf + OFF_eax) (u32 (- ENOSYS))
      | Some handler =>
          s ← gets words ;
          r ← handler (s (tf + 32)) (s (tf + 40)) (s (tf + 36)) (s (tf + 20)) (s (tf + 16)) (s (tf + 24)) ;
          stw (tf + OFF_eax) (u32 r)
      end.

End Delivery.
