(* ===== verification/SchedInv.v ===== *)
(** * The scheduler invariant

    The queues of the scheduler are exclusive: a task is ready (and then
    RUNNING), or linked in exactly the wait queue its entry names (and then
    WAITING), or in no queue.  Every operation of scheduler.c, waitqueue.c
    and timer.c is described by one of two transitions, [wakes] and
    [parks], and each transition preserves the invariant. *)

From S2P Require Import Prelude Errno Memory Bitmap Task Sched.

(** ** Symbolic execution *)

Lemma upd_eq t f v m : upd t f v m t f = v.
Proof. unfold upd. by rewrite !fn_lookup_insert. Qed.

Lemma upd_ne_field t f v m t' f' : f ≠ f' → upd t f v m t' f' = m t' f'.
Proof.
  intros Hf. unfold upd. destruct (decide (t = t')) as [->|].
  - by rewrite fn_lookup_insert, fn_lookup_insert_ne.
  - by rewrite fn_lookup_insert_ne.
Qed.

Lemma upd_ne_task t f v m t' f' : t ≠ t' → upd t f v m t' f' = m t' f'.
Proof. intros. unfold upd. by rewrite fn_lookup_insert_ne. Qed.

Lemma upd_field t f v m t' : upd t f v m t' f = if decide (t = t') then v else m t' f.
Proof. case_decide; subst; [apply upd_eq|by apply upd_ne_task]. Qed.

#[export] Hint Rewrite upd_eq : kfs.
#[export] Hint Rewrite upd_ne_field using discriminate : kfs.
#[export] Hint Rewrite upd_ne_task using (done || congruence) : kfs.

Lemma wp_fld t f s (Q : Z → sys → Prop) : t ≠ 0 → Q (tasks s t f) s → wp (fld t f) s Q.
Proof. intros Ht ?. unfold fld. by rewrite (proj2 (Z.eqb_neq _ _) Ht). Qed.

Lemma wp_set_fld t f v s (Q : unit → sys → Prop) :
  t ≠ 0 → Q tt (set_tasks (upd t f v) s) → wp (set_fld t f v) s Q.
Proof. intros Ht ?. unfold set_fld. by rewrite (proj2 (Z.eqb_neq _ _) Ht). Qed.

Lemma wp_effect e s (Q : unit → sys → Prop) : Q tt (do_effect e s) → wp (effect_ e) s Q.
Proof. done. Qed.

(** One step of a [wp] goal over the task table. *)
Ltac sys_step :=
  lazymatch goal with
  | |- wp (mbind _ _) _ _ => apply wp_bind
  | |- wp (mret _) _ _ => apply wp_ret
  | |- wp (gets _) _ _ => apply wp_gets
  | |- wp (modify _) _ _ => apply wp_modify
  | |- wp (effect_ _) _ _ => apply wp_effect
  | |- wp (fld _ _) _ _ => apply wp_fld; [done|]
  | |- wp (set_fld _ _ _) _ _ => apply wp_set_fld; [done|]
  end.

Ltac sys_steps := repeat (sys_step; cbn beta).

Lemma elem_of_remove t x l : x ∈ remove t l ↔ x ∈ l ∧ x ≠ t.
Proof. unfold remove. rewrite list_elem_of_filter. tauto. Qed.

Lemma filter_id (P : Z → Prop) `{!∀ x, Decision (P x)} (l : list Z) :
  (∀ x, x ∈ l → P x) → filter P l = l.
Proof.
  induction l as [|x l IH]; intros HP; [done|].
  rewrite filter_cons_True by (apply HP; set_solver). rewrite IH; [done|]. set_solver.
Qed.

Lemma filter_none (P : Z → Prop) `{!∀ x, Decision (P x)} (l : list Z) :
  (∀ x, x ∈ l → ¬ P x) → filter P l = [].
Proof.
  induction l as [|x l IH]; intros HP; [done|].
  rewrite filter_cons_False by (apply HP; set_solver). apply IH. set_solver.
Qed.

Lemma remove_notin t l : t ∉ l → remove t l = l.
Proof. intros Ht. apply filter_id. intros x Hx ->. done. Qed.

Lemma NoDup_remove t l : NoDup l → NoDup (remove t l).
Proof. apply NoDup_filter. Qed.

(** ** The invariant *)

(** Tasks the scheduler can still run. *)
Definition schedulable (s : sys) (t : Z) : Prop :=
  t ∈ ready_queue s ∨ tasks s t wq_node ≠ 0 ∨ t = idle_task s.

Definition canary (s : sys) (t : Z) : Prop :=
  words s (tasks s t kernel_stack_pointer) = STACK_CANARY_MAGIC.

(** The wait-queue entry of [t] is initialised. *)
Definition entry_ok (s : sys) (t : Z) : Prop :=
  tasks s t wq_task = t ∧ tasks s t wq_handler = 0.

Record sched_inv (s : sys) : Prop := {
  si_ready_nodup : NoDup (ready_queue s);
  si_ready t : t ∈ ready_queue s →
    t ≠ 0 ∧ tasks s t state = TASK_RUNNING ∧ tasks s t wq_node = 0 ∧ entry_ok s t;
  si_wait_nodup w : NoDup (waiters s w);
  si_wait w t : t ∈ waiters s w ↔ t ≠ 0 ∧ w ≠ 0 ∧ tasks s t wq_node = w;
  si_waiting t : t ≠ 0 → tasks s t wq_node ≠ 0 →
    tasks s t state = TASK_WAITING ∧ entry_ok s t;
  si_idle : idle_task s ≠ 0 ∧ (idle_task s ∉ ready_queue s) ∧ tasks s (idle_task s) wq_node = 0;
  si_null : tasks s 0 wq_node = 0;
  si_canary t : schedulable s t → canary s t }.

(** Between two kernel entries the current task is running, in no queue. *)
Record run_inv (s : sys) : Prop := {
  ri_sched : sched_inv s;
  ri_current : current_task s ≠ 0;
  ri_running : tasks s (current_task s) state = TASK_RUNNING;
  ri_unlinked : tasks s (current_task s) wq_node = 0;
  ri_entry : current_task s = idle_task s ∨ current_task s = dummy_task s ∨ entry_ok s (current_task s);
  ri_off_queue : current_task s ∉ ready_queue s;
  ri_canary : canary s (current_task s) }.

Lemma waiting_not_ready s t : sched_inv s → tasks s t wq_node ≠ 0 → t ∉ ready_queue s.
Proof. intros Hs Hw Ht. destruct (si_ready _ Hs t Ht) as (_ & _ & ? & _). done. Qed.

Lemma zombie_not_schedulable s t : sched_inv s → tasks s t state = TASK_ZOMBIE →
  (t ∉ ready_queue s) ∧ ∀ w, t ∉ waiters s w.
Proof.
  intros Hs Hz. split.
  - intros Ht. destruct (si_ready _ Hs t Ht) as (_ & E & _). rewrite Hz in E. done.
  - intros w Ht. apply (si_wait _ Hs) in Ht as (H0 & Hw & <-).
    destruct (si_waiting _ Hs t H0 Hw) as [E _]. rewrite Hz in E. done.
Qed.

(** ** States the scheduler cannot tell apart *)

Definition sched_field (f : tfield) : bool :=
  match f with state | wq_node | wq_task | wq_handler | kernel_stack_pointer => true | _ => false end.

Record sched_eq (s s' : sys) : Prop := {
  se_ready : ready_queue s' = ready_queue s;
  se_waiters w : waiters s' w = waiters s w;
  se_current : current_task s' = current_task s;
  se_idle : idle_task s' = idle_task s;
  se_dummy : dummy_task s' = dummy_task s;
  se_tasks t f : sched_field f = true → tasks s' t f = tasks s t f;
  se_words t : words s' (tasks s t kernel_stack_pointer) = words s (tasks s t kernel_stack_pointer) }.

#[export] Instance sched_eq_equiv : Equivalence sched_eq.
Proof.
  split.
  - done.
  - intros s s' []. split; intros; try congruence; [symmetry; auto|].
    rewrite (se_tasks0 t kernel_stack_pointer) by done. congruence.
  - intros s1 s2 s3 [] []. split; intros; try congruence.
    + rewrite se_tasks1 by done. auto.
    + rewrite <- se_words0. rewrite <- (se_tasks0 t kernel_stack_pointer) by done. auto.
Qed.

Lemma sched_eq_canary s s' t : sched_eq s s' → canary s t → canary s' t.
Proof. intros H. unfold canary. by rewrite (se_tasks _ _ H), (se_words _ _ H). Qed.

Lemma sched_eq_entry s s' t : sched_eq s s' → entry_ok s t → entry_ok s' t.
Proof. intros H. unfold entry_ok. by rewrite !(se_tasks _ _ H). Qed.

Lemma sched_eq_inv s s' : sched_eq s s' → sched_inv s → sched_inv s'.
Proof.
  intros H Hs. pose proof H as [Hr Hw Hc Hi Hd Hf _].
  split; rewrite ?Hr, ?Hi.
  - apply Hs.
  - intros t Ht. rewrite !Hf by done. destruct (si_ready _ Hs t Ht) as (? & ? & ? & ?).
    eauto using sched_eq_entry.
  - intros w. rewrite Hw. apply Hs.
  - intros w t. rewrite Hw, Hf by done. apply (si_wait _ Hs).
  - intros t H0. rewrite !Hf by done. intros Hn. destruct (si_waiting _ Hs t H0 Hn).
    eauto using sched_eq_entry.
  - rewrite Hf by done. apply (si_idle _ Hs).
  - rewrite Hf by done. apply (si_null _ Hs).
  - intros t Ht. apply (sched_eq_canary _ _ _ H), (si_canary _ Hs).
    unfold schedulable in *. by rewrite Hr, Hi, Hf in Ht.
Qed.

#[export] Instance sched_inv_proper : Proper (sched_eq ==> iff) sched_inv.
Proof. intros s s' H. split; apply sched_eq_inv; by rewrite H. Qed.

#[export] Instance run_inv_proper : Proper (sched_eq ==> iff) run_inv.
Proof.
  assert (∀ s s', sched_eq s s' → run_inv s → run_inv s') as Hone.
  { intros s s' H Hs. pose proof H as [Hr Hw Hc Hi Hd Hf _]. destruct Hs as [Hs ? ? ? He ? ?].
    split; rewrite ?Hr, ?Hc, ?Hi, ?Hd, ?Hf by done; eauto using sched_eq_canary.
    - by rewrite <- H.
    - destruct He as [?|[?|?]]; eauto using sched_eq_entry. }
  intros s s' H. split; apply Hone; by rewrite H.
Qed.

Lemma sched_eq_fld t f v s : sched_field f = false → sched_eq s (set_tasks (upd t f v) s).
Proof.
  intros Hf. split; try done. intros u g Hg. cbn [tasks set_tasks].
  rewrite upd_ne_field by congruence. done.
Qed.

(** ** Waking *)

(** The state with new task fields, ready queue and wait queues. *)
Definition with_queues (m : Z → tfield → Z) (r : list Z) (w : Z → list Z) (s : sys) : sys :=
  set_tasks (λ _, m) (set_ready (λ _, r) (set_waiters (λ _, w) s)).

(** The fields of a task once its wait-queue entry is finished. *)
Definition woken_fields (m : tfield → Z) (f : tfield) : Z :=
  match f with
  | state => TASK_RUNNING
  | wq_head | wq_handler | wq_node => 0
  | _ => m f
  end.

(** The tasks of [l], and no other, leave their wait queues for the tail of the
    ready queue, in the order of [l]. *)
Record wakes (l : list Z) (s s' : sys) : Prop := {
  wk_frame : ∃ m w, s' = with_queues m (ready_queue s ++ l) w s;
  wk_waiters w : waiters s' w = filter (λ t, t ∉ l) (waiters s w);
  wk_in t f : t ∈ l → tasks s' t f = woken_fields (tasks s t) f;
  wk_out t f : t ∉ l → tasks s' t f = tasks s t f }.

Lemma wakes_nil s : wakes [] s s.
Proof.
  split; [|..].
  - exists (tasks s), (waiters s). rewrite app_nil_r. by destruct s.
  - intros w. symmetry. apply filter_id. set_solver.
  - set_solver.
  - done.
Qed.

Lemma filter_filter_notin (l l' k : list Z) :
  filter (λ t, t ∉ l') (filter (λ t, t ∉ l) k) = filter (λ t, t ∉ l ++ l') k.
Proof.
  rewrite list_filter_filter. apply list_filter_iff. intros x. rewrite elem_of_app. tauto.
Qed.

Lemma woken_twice m f : woken_fields (woken_fields m) f = woken_fields m f.
Proof. by destruct f. Qed.

Lemma wakes_trans l l' s s1 s2 : wakes l s s1 → wakes l' s1 s2 → wakes (l ++ l') s s2.
Proof.
  intros [(m1 & w1 & E1) Hw1 Hi1 Ho1] [(m2 & w2 & E2) Hw2 Hi2 Ho2]. split.
  - exists m2, w2. subst s1. rewrite app_assoc. exact E2.
  - intros w. by rewrite Hw2, Hw1, filter_filter_notin.
  - intros t f Ht. destruct (decide (t ∈ l')) as [H2|H2].
    + rewrite Hi2 by done. destruct (decide (t ∈ l)) as [H1|H1].
      * rewrite <- (woken_twice (tasks s t)). destruct f; cbn; auto; by rewrite Hi1.
      * destruct f; cbn; auto; by rewrite Ho1.
    + rewrite Ho2 by done. apply Hi1. set_solver.
  - intros t f Ht. rewrite Ho2, Ho1; set_solver.
Qed.

Lemma wakes_schedulable l s s' t : wakes l s s' → (∀ t, t ∈ l → tasks s t wq_node ≠ 0) →
  schedulable s' t → schedulable s t.
Proof.
  intros [(m & w & E) Hw Hi Ho] Hl [Ht|[Ht|Ht]].
  - subst s'. cbn in Ht. apply elem_of_app in Ht as [?|?]; [by left|right; left; auto].
  - destruct (decide (t ∈ l)) as [H|H]; [rewrite Hi in Ht by done; done|].
    rewrite Ho in Ht by done. by right; left.
  - right. right. by subst s'.
Qed.

Lemma wakes_canary l s s' t : wakes l s s' → canary s t → canary s' t.
Proof.
  intros H. unfold canary.
  assert (tasks s' t kernel_stack_pointer = tasks s t kernel_stack_pointer) as ->.
  { destruct (decide (t ∈ l)); [by rewrite (wk_in _ _ _ H)|by rewrite (wk_out _ _ _ H)]. }
  destruct (wk_frame _ _ _ H) as (m & w & ->). done.
Qed.

Lemma wakes_inv l s s' : sched_inv s → NoDup l →
  (∀ t, t ∈ l → t ≠ 0 ∧ tasks s t wq_node ≠ 0) → wakes l s s' → sched_inv s'.
Proof.
  intros Hs Hnd Hl Hk. pose proof Hk as [(m & w0 & E) Hw Hi Ho].
  assert (Hr : ready_queue s' = ready_queue s ++ l) by by subst s'.
  assert (Hid : idle_task s' = idle_task s) by by subst s'.
  assert (∀ t, t ∈ l → t ∉ ready_queue s) as Hx
    by (intros t Ht; apply (waiting_not_ready s t Hs), Hl, Ht).
  assert ((idle_task s ∉ l) ∧ (0 ∉ l)) as [Hil H0l].
  { split; intros Hin; apply Hl in Hin as [? Hn]; [|done]. by destruct (si_idle _ Hs) as (_ & _ & ?). }
  split.
  - rewrite Hr. apply NoDup_app. split_and!; [apply Hs|set_solver|done].
  - intros t. rewrite Hr, elem_of_app. destruct (decide (t ∈ l)) as [Ht|Ht].
    + intros _. unfold entry_ok. rewrite !Hi by done. destruct (Hl t Ht) as [H0 Hn].
      destruct (si_waiting _ Hs t H0 Hn) as (_ & ? & _). done.
    + intros [?|?]; [|done]. unfold entry_ok. rewrite !Ho by done. by apply (si_ready _ Hs).
  - intros w. rewrite Hw. apply NoDup_filter, Hs.
  - intros w t. rewrite Hw, list_elem_of_filter, (si_wait _ Hs).
    destruct (decide (t ∈ l)); [rewrite Hi by done|rewrite Ho by done]; cbn; naive_solver.
  - intros t H0 Hn. destruct (decide (t ∈ l)) as [Ht|Ht]; [by rewrite Hi in Hn|].
    unfold entry_ok. rewrite !Ho in * by done. by apply (si_waiting _ Hs).
  - rewrite Hr, Hid, Ho by done. destruct (si_idle _ Hs) as (? & ? & ?).
    split_and!; [done|by apply not_elem_of_app|done].
  - rewrite Ho by done. apply (si_null _ Hs).
  - intros t Ht. apply (wakes_canary _ _ _ _ Hk), (si_canary _ Hs), (wakes_schedulable _ _ _ _ Hk); [|done].
    intros. by apply Hl.
Qed.

(** *** [wq_finish] wakes its task, or does nothing *)

Lemma wq_finish_wakes t s : sched_inv s → t ≠ 0 → tasks s t wq_node ≠ 0 →
  wp (wq_finish t) s (λ _ s', wakes [t] s s').
Proof.
  intros Hs H0 Hn. destruct (si_waiting _ Hs t H0 Hn) as (_ & Ht & Hh).
  pose proof (waiting_not_ready s t Hs Hn) as Hr.
  unfold wq_finish. sys_steps. rewrite (proj2 (Z.eqb_neq _ _) Hn).
  unfold pop_wq_node. sys_steps. cbn [tasks set_waiters set_tasks].
  autorewrite with kfs. rewrite Hh. cbn [negb Z.eqb]. sys_steps. cbn [tasks set_waiters set_tasks].
  autorewrite with kfs. rewrite Ht. sys_steps.
  unfold sched_enqueue. sys_steps. cbn [ready_queue set_waiters set_tasks].
  rewrite (proj2 (Z.eqb_neq _ _) H0), bool_decide_eq_false_2 by done. cbn [orb]. sys_steps.
  unfold wq_entry_init. sys_steps. cbn [tasks set_waiters set_tasks set_ready].
  autorewrite with kfs. split.
  - eexists _, _. reflexivity.
  - intros w. cbn [waiters set_waiters set_tasks set_ready].
    destruct (decide (w = tasks s t wq_node)) as [->|Hw].
    + rewrite fn_lookup_insert. apply list_filter_iff. intros x. set_solver.
    + rewrite fn_lookup_insert_ne by done. symmetry. apply filter_id. intros x Hx.
      rewrite list_elem_of_singleton. intros ->.
      apply (si_wait _ Hs) in Hx as (_ & _ & E). done.
  - intros x f ->%list_elem_of_singleton. cbn [tasks set_waiters set_tasks set_ready].
    destruct f; autorewrite with kfs; done.
  - intros x f Hx%not_elem_of_cons. destruct Hx as [Hx _]. cbn [tasks set_waiters set_tasks set_ready].
    autorewrite with kfs. done.
Qed.

Lemma wq_finish_unlinked t s : t ≠ 0 → tasks s t wq_node = 0 → wq_finish t s = Done (tt, s).
Proof.
  intros H0 Hn. unfold wq_finish, fld. rewrite (proj2 (Z.eqb_neq _ _) H0).
  unfold mbind, M_bind, gets. by rewrite Hn.
Qed.

(** *** The loop of [wq_wake_all] *)

Lemma wake_loop_wakes fuel wq s : sched_inv s → (length (waiters s wq) ≤ fuel)%nat →
  wp (wake_loop fuel wq) s (λ _ s', wakes (waiters s wq) s s').
Proof.
  revert s. induction fuel as [|fuel IH]; intros s Hs Hf; cbn [wake_loop]; sys_steps.
  - destruct (waiters s wq) as [|t l] eqn:E; [apply wp_ret, wakes_nil|cbn in Hf; lia].
  - destruct (waiters s wq) as [|t l] eqn:E; [apply wp_ret, wakes_nil|].
    assert (t ∈ waiters s wq) as Ht by (rewrite E; set_solver).
    apply (si_wait _ Hs) in Ht as (H0 & Hw & Hn). apply wp_bind.
    eapply wp_mono; [apply wq_finish_wakes; [done|done|congruence]|]. intros [] s1 H1.
    assert (waiters s1 wq = l) as E1.
    { rewrite (wk_waiters _ _ _ H1), E. pose proof (si_wait_nodup _ Hs wq) as Hnd. rewrite E in Hnd.
      apply NoDup_cons in Hnd as [Hnot _]. rewrite filter_cons_False by set_solver.
      apply filter_id. set_solver. }
    eapply wp_mono; [apply IH|].
    + eapply wakes_inv; [done| |..|done]; [apply NoDup_singleton|].
      intros x ->%list_elem_of_singleton. split; congruence.
    + rewrite E1. cbn in Hf. lia.
    + intros [] s2 H2. rewrite E1 in H2. by apply (wakes_trans [t] l _ s1).
Qed.

Lemma waiters_wakeable s w : sched_inv s →
  NoDup (waiters s w) ∧ ∀ t, t ∈ waiters s w → t ≠ 0 ∧ tasks s t wq_node ≠ 0.
Proof.
  intros Hs. split; [apply Hs|]. intros t (? & ? & ?)%(si_wait _ Hs). split; congruence.
Qed.

(** *** The sleepers *)

Definition due (s : sys) (t : Z) : Prop := tasks s t tick_to_wake ≤ global_ticks s.

#[export] Instance due_dec s t : Decision (due s t).
Proof. unfold due. apply _. Defined.

Lemma wakes_due l s s' t : wakes l s s' → due s' t ↔ due s t.
Proof.
  intros H. unfold due.
  assert (tasks s' t tick_to_wake = tasks s t tick_to_wake) as ->.
  { destruct (decide (t ∈ l)); [by rewrite (wk_in _ _ _ H)|by rewrite (wk_out _ _ _ H)]. }
  destruct (wk_frame _ _ _ H) as (m & w & ->). done.
Qed.

Lemma wake_sleepers_wakes l s : sched_inv s → NoDup l →
  (∀ t, t ∈ l → t ≠ 0 ∧ tasks s t wq_node ≠ 0) →
  wp (wake_sleepers l) s (λ _ s', wakes (filter (due s) l) s s').
Proof.
  revert s. induction l as [|t l IH]; intros s Hs Hnd Hl; cbn [wake_sleepers].
  - apply wp_ret, wakes_nil.
  - destruct (Hl t) as [H0 Hn]; [set_solver|]. apply NoDup_cons in Hnd as [Hnot Hnd].
    destruct (si_waiting _ Hs t H0 Hn) as (_ & Ht & _). sys_steps. rewrite Ht. sys_steps.
    destruct (Z.leb_spec (tasks s t tick_to_wake) (global_ticks s)) as [Hd|Hd].
    + rewrite filter_cons_True by done.
      eapply wp_mono; [by apply wq_finish_wakes|]. intros [] s1 H1.
      assert (sched_inv s1) as Hs1.
      { eapply wakes_inv; [done|apply NoDup_singleton| |done]. by intros x ->%list_elem_of_singleton. }
      eapply wp_mono; [apply IH; [done|done|]|].
      * intros x Hx. rewrite (wk_out _ _ _ H1) by set_solver. apply Hl. set_solver.
      * intros [] s2 H2. apply (wakes_trans [t] _ _ s1); [done|].
        replace (filter (due s) l) with (filter (due s1) l); [done|].
        apply list_filter_iff. intros x. apply (wakes_due _ _ _ _ H1).
    + rewrite filter_cons_False by (unfold due; lia). sys_steps. apply IH; [done..|]. set_solver.
Qed.

Lemma task_wake_up_sleepers_wakes s : sched_inv s →
  wp task_wake_up_sleepers s (λ _ s', wakes (filter (due s) (waiters s sleep_wq)) s s').
Proof.
  intros Hs. unfold task_wake_up_sleepers. sys_steps.
  destruct (waiters_wakeable s sleep_wq Hs). by apply wake_sleepers_wakes.
Qed.

(** ** Parking *)

Definition parked_fields (wq : Z) (m : tfield → Z) (f : tfield) : Z :=
  match f with
  | state => TASK_WAITING
  | need_resched => 1
  | wq_head | wq_node => wq
  | _ => m f
  end.

(** [t] moves to the head of the wait queue [wq] from wherever it was. *)
Record parks (wq t : Z) (s s' : sys) : Prop := {
  pk_frame : ∃ m w, s' = with_queues m (remove t (ready_queue s)) w s;
  pk_waiters w : waiters s' w = (if decide (w = wq) then [t] else []) ++ remove t (waiters s w);
  pk_in f : tasks s' t f = parked_fields wq (tasks s t) f;
  pk_out u f : u ≠ t → tasks s' u f = tasks s u f }.

Lemma set_ready_remove_notin t s : t ∉ ready_queue s → set_ready (remove t) s = s.
Proof. intros. unfold set_ready. rewrite remove_notin by done. by destruct s. Qed.

Lemma wq_prepare_parks wq t s : sched_inv s → t ≠ 0 → wp (wq_prepare wq t) s (λ _ s', parks wq t s s').
Proof.
  intros Hs H0. unfold wq_prepare. sys_steps. cbn [ready_queue set_tasks].
  assert (∀ Q, Q tt (set_ready (remove t) (set_tasks (upd t need_resched 1)
      (set_tasks (upd t state TASK_WAITING) (set_tasks (upd t wq_head wq) s)))) →
    wp (if bool_decide (t ∈ ready_queue s) then modify (set_ready (remove t)) else mret tt)
      (set_tasks (upd t need_resched 1) (set_tasks (upd t state TASK_WAITING) (set_tasks (upd t wq_head wq) s))) Q)
    as Hready.
  { intros Q HQ. case_bool_decide as Hr; [by apply wp_modify|]. apply wp_ret.
    by rewrite set_ready_remove_notin in HQ. }
  apply Hready. clear Hready. sys_steps. cbn [tasks set_ready set_tasks]. autorewrite with kfs.
  assert (∀ w, tasks s t wq_node = 0 → t ∉ waiters s w) as Hun.
  { intros w E Ht. apply (si_wait _ Hs) in Ht as (_ & ? & ?). congruence. }
  assert (∀ w, w ≠ tasks s t wq_node → remove t (waiters s w) = waiters s w) as Hother.
  { intros w Hw. apply remove_notin. intros Ht. apply (si_wait _ Hs) in Ht as (_ & _ & ?). congruence. }
  destruct (Z.eqb_spec (tasks s t wq_node) 0) as [E|E]; cbn [negb];
    [|unfold pop_wq_node]; sys_steps.
  - split.
    + eexists _, _. reflexivity.
    + intros w. cbn [waiters set_waiters set_tasks set_ready]. rewrite (remove_notin t) by auto.
      case_decide; subst; [by rewrite fn_lookup_insert|by rewrite fn_lookup_insert_ne].
    + intros f. cbn [tasks set_waiters set_tasks set_ready]. destruct f; by autorewrite with kfs.
    + intros u f Hu. cbn [tasks set_waiters set_tasks set_ready]. by autorewrite with kfs.
  - cbn [tasks set_waiters set_tasks set_ready]. autorewrite with kfs. split.
    + eexists _, _. reflexivity.
    + intros w. cbn [waiters set_waiters set_tasks set_ready].
      destruct (decide (w = wq)) as [->|Hw].
      * rewrite fn_lookup_insert. cbn. f_equal.
        destruct (decide (wq = tasks s t wq_node)) as [->|]; [by rewrite fn_lookup_insert|].
        rewrite fn_lookup_insert_ne by done. by rewrite Hother.
      * rewrite fn_lookup_insert_ne by done. cbn.
        destruct (decide (w = tasks s t wq_node)) as [->|]; [by rewrite fn_lookup_insert|].
        rewrite fn_lookup_insert_ne by done. by rewrite Hother.
    + intros f. cbn [tasks set_waiters set_tasks set_ready]. destruct f; by autorewrite with kfs.
    + intros u f Hu. cbn [tasks set_waiters set_tasks set_ready]. by autorewrite with kfs.
Qed.

Lemma parks_inv wq t s s' : sched_inv s → wq ≠ 0 → t ≠ 0 → t ≠ idle_task s → entry_ok s t → canary s t →
  parks wq t s s' → sched_inv s'.
Proof.
  intros Hs Hwq H0 Hid [He1 He2] Hc Hk. pose proof Hk as [(m & w0 & E) Hw Hi Ho].
  assert (Hr : ready_queue s' = remove t (ready_queue s)) by by subst s'.
  assert (Hi' : idle_task s' = idle_task s) by by subst s'.
  split.
  - rewrite Hr. apply NoDup_remove, Hs.
  - intros u. rewrite Hr, elem_of_remove. intros [Hu Hne]. unfold entry_ok. rewrite !Ho by done.
    by apply (si_ready _ Hs).
  - intros w. rewrite Hw. case_decide; cbn; [apply NoDup_cons; split; [rewrite elem_of_remove; tauto|]|];
      apply NoDup_remove, Hs.
  - intros w u. rewrite Hw, elem_of_app, elem_of_remove, (si_wait _ Hs).
    destruct (decide (u = t)) as [->|Hu].
    + rewrite Hi. cbn. case_decide; subst; set_solver.
    + rewrite Ho by done. case_decide; set_solver.
  - intros u Hu0 Hn. destruct (decide (u = t)) as [->|Hu].
    + unfold entry_ok. rewrite !Hi. done.
    + unfold entry_ok. rewrite !Ho in * by done. by apply (si_waiting _ Hs).
  - rewrite Hr, Hi', Ho by done. destruct (si_idle _ Hs) as (? & ? & ?).
    split_and!; [done|rewrite elem_of_remove; tauto|done].
  - rewrite Ho by done. apply (si_null _ Hs).
  - intros u Hu. assert (canary s u) as Hcu.
    { destruct (decide (u = t)) as [->|Hne]; [done|]. apply (si_canary _ Hs).
      destruct Hu as [Hu|[Hu|Hu]].
      - rewrite Hr, elem_of_remove in Hu. left. tauto.
      - rewrite Ho in Hu by done. by right; left.
      - right. right. congruence. }
    unfold canary in *. destruct (decide (u = t)) as [->|Hne]; [rewrite Hi|rewrite Ho by done];
      subst s'; exact Hcu.
Qed.

(** ** What a switch does

    [schedule] is the round-robin step: the running task goes to the tail of
    the ready queue, the head of the queue runs with a full quantum, and the
    idle task runs when the queue is empty. *)

(** The ready queue once [schedule] has put the current task back. *)
Definition requeue (s : sys) : list Z :=
  let cur := current_task s in
  if bool_decide (tasks s cur state = TASK_RUNNING ∧ cur ≠ idle_task s ∧ cur ≠ dummy_task s ∧
                  cur ∉ ready_queue s)
  then ready_queue s ++ [cur] else ready_queue s.

(** The fields of the task that gets the processor. *)
Definition running_fields (m : tfield → Z) (f : tfield) : Z :=
  match f with
  | state => TASK_RUNNING
  | quantum_remaining => DEFAULT_QUANTUM
  | _ => m f
  end.

(** The processor goes from the current task to [n]; [rest] is left ready. *)
Record switches (n : Z) (rest : list Z) (s s' : sys) : Prop := {
  sw_frame : ∃ m, s' = do_effect (ESwitchTo (current_task s) n)
                         (set_current n (with_queues m rest (waiters s) s));
  sw_in f : tasks s' n f = running_fields (tasks s n) f;
  sw_out t f : t ≠ n → tasks s' t f = tasks s t f }.

(** What [schedule] requires of the state it is called in. *)
Record sched_pre (s : sys) : Prop := {
  sp_sched : sched_inv s;
  sp_current : current_task s ≠ 0;
  sp_canary : canary s (current_task s);
  sp_idle : current_task s = idle_task s → tasks s (current_task s) state = TASK_RUNNING;
  sp_running : tasks s (current_task s) state = TASK_RUNNING →
    tasks s (current_task s) wq_node = 0 ∧
    (current_task s = idle_task s ∨ current_task s = dummy_task s ∨ entry_ok s (current_task s)) }.

Lemma run_pre s : run_inv s → sched_pre s.
Proof. intros []. split; auto. Qed.

Lemma upd_same t f v m u g : m t f = v → upd t f v m u g = m u g.
Proof.
  intros E. destruct (decide (t = u)) as [->|]; [|by rewrite upd_ne_task].
  destruct (decide (f = g)) as [->|]; [by rewrite upd_eq|by rewrite upd_ne_field].
Qed.

Lemma task_stack_overflow_no s t (Q : bool → sys → Prop) : t ≠ 0 → canary s t →
  Q false s → wp (task_stack_overflow t) s Q.
Proof.
  intros H0 Hc HQ. unfold task_stack_overflow. sys_steps. unfold canary in Hc. rewrite Hc.
  apply wp_ret. exact HQ.
Qed.

(** The guarded [sched_enqueue] of the current task yields [requeue]. *)
Lemma requeue_step s : sched_pre s →
  wp (if (tasks s (current_task s) state =? TASK_RUNNING) && negb (current_task s =? idle_task s) &&
         negb (current_task s =? dummy_task s)
      then sched_enqueue (current_task s) ;; mret tt else mret tt) s
    (λ _ s', ∃ m, (∀ u g, m u g = tasks s u g) ∧ s' = with_queues m (requeue s) (waiters s) s ∧
                  (requeue s = ready_queue s → s' = s)).
Proof.
  intros Hp. unfold requeue. set (c := current_task s).
  assert (∀ r, r = ready_queue s → ∃ m, (∀ u g, m u g = tasks s u g) ∧
      s = with_queues m r (waiters s) s ∧ (r = ready_queue s → s = s))
    as Hid by (intros r ->; exists (tasks s); split_and!; [done|by destruct s|done]).
  destruct (Z.eqb_spec (tasks s c state) TASK_RUNNING) as [E|E]; cbn [andb];
    [|sys_steps; apply Hid; by rewrite bool_decide_eq_false_2 by naive_solver].
  destruct (Z.eqb_spec c (idle_task s)) as [Ei|Ei]; cbn [andb negb];
    [sys_steps; apply Hid; by rewrite bool_decide_eq_false_2 by naive_solver|].
  destruct (Z.eqb_spec c (dummy_task s)) as [Ed|Ed]; cbn [andb negb];
    [sys_steps; apply Hid; by rewrite bool_decide_eq_false_2 by naive_solver|].
  assert (c ≠ 0) as H0 by apply (sp_current _ Hp).
  unfold sched_enqueue. sys_steps. rewrite (proj2 (Z.eqb_neq _ _) H0). cbn [orb].
  case_bool_decide as Hr.
  - sys_steps. apply Hid. rewrite bool_decide_eq_false_2 by naive_solver. done.
  - rewrite bool_decide_eq_true_2 by done. sys_steps.
    exists (upd c state TASK_RUNNING (tasks s)).
    split_and!; [intros; by apply upd_same|reflexivity|].
    intros E'%(f_equal length). rewrite length_app in E'. cbn in E'. lia.
Qed.

Lemma requeue_sub s t : t ∈ requeue s → t ∈ ready_queue s ∨
  (t = current_task s ∧ tasks s t state = TASK_RUNNING ∧ t ≠ idle_task s ∧ t ≠ dummy_task s).
Proof. unfold requeue. case_bool_decide; set_solver. Qed.

Lemma requeue_nodup s : sched_inv s → NoDup (requeue s).
Proof.
  intros Hs. unfold requeue. case_bool_decide as H; [|apply Hs].
  apply NoDup_app. split_and!; [apply Hs|set_solver|apply NoDup_singleton].
Qed.

(** Every task of the queue [schedule] picks from can run. *)
Lemma requeue_ok s t : sched_pre s → t ∈ requeue s →
  t ≠ 0 ∧ tasks s t state = TASK_RUNNING ∧ tasks s t wq_node = 0 ∧ entry_ok s t ∧ canary s t ∧ t ≠ idle_task s.
Proof.
  intros [Hs Hc0 Hcan _ Hrun] Ht. apply requeue_sub in Ht as [Ht|(-> & Hr & Hi & Hd)].
  - destruct (si_ready _ Hs t Ht) as (? & ? & ? & ?). split_and!; try done.
    + apply (si_canary _ Hs). by left.
    + intros ->. by destruct (si_idle _ Hs) as (_ & ? & _).
  - destruct (Hrun Hr) as [? [?|[?|?]]]; naive_solver.
Qed.

(** The switch of [schedule] to a task that can run. *)
Lemma switch_step cur n s : n ≠ 0 → canary s n →
  wp (ov ← task_stack_overflow n ;
      if (ov : bool) then kpanic "Stack overflow"
      else task_set_current_task n ;; set_fld n quantum_remaining DEFAULT_QUANTUM ;;
           effect_ (ESwitchTo cur n) ;; mret true) s
    (λ b s', b = true ∧ s' = do_effect (ESwitchTo cur n)
       (set_tasks (upd n quantum_remaining DEFAULT_QUANTUM) (set_current n s))).
Proof.
  intros H0 Hc. apply wp_bind, task_stack_overflow_no; [done..|].
  unfold task_set_current_task. sys_steps. done.
Qed.

Definition schedule_post (s : sys) (b : bool) (s' : sys) : Prop :=
  match requeue s with
  | [] => if decide (current_task s = idle_task s) then b = false ∧ s' = s
          else b = true ∧ switches (idle_task s) [] s s'
  | n :: rest => b = true ∧ switches n rest s s'
  end.

Lemma switches_intro n rest cur m s s' : cur = current_task s →
  (∀ f, m n f = running_fields (tasks s n) f ∨ f = quantum_remaining ∨ (f = state ∧ m n f = TASK_RUNNING)) →
  (∀ u f, u ≠ n → m u f = tasks s u f) →
  s' = do_effect (ESwitchTo cur n)
    (set_tasks (upd n quantum_remaining DEFAULT_QUANTUM) (set_current n (with_queues m rest (waiters s) s))) →
  switches n rest s s'.
Proof.
  intros -> Hn Hu ->. split.
  - exists (upd n quantum_remaining DEFAULT_QUANTUM m). reflexivity.
  - intros f. cbn [tasks do_effect set_tasks set_current with_queues].
    destruct (Hn f) as [E|[->|[-> E]]].
    + destruct (decide (f = quantum_remaining)) as [->|]; [by rewrite upd_eq|]. by rewrite upd_ne_field.
    + by rewrite upd_eq.
    + by rewrite upd_ne_field.
  - intros u f Hne. cbn [tasks do_effect set_tasks set_current with_queues].
    rewrite upd_ne_task by done. auto.
Qed.

Lemma schedule_spec s : sched_pre s → wp schedule s (schedule_post s).
Proof.
  intros Hp. pose proof Hp as [Hs Hc0 Hcan Hcidle Hrun]. destruct (si_idle _ Hs) as (Hi0 & Hiq & Hin).
  unfold schedule, task_get_idle, task_get_current_task, task_get_dummy. sys_steps.
  rewrite (proj2 (Z.eqb_neq _ _) Hi0), (proj2 (Z.eqb_neq _ _) Hc0).
  apply wp_bind, task_stack_overflow_no; [done..|]. sys_steps.
  eapply wp_mono; [by apply requeue_step|]. intros _ s1 (m & Hm & Es1 & Eid).
  unfold pick_next, schedule_post. sys_steps. pose proof (requeue_ok s) as Hok.
  assert (∀ t, canary s1 t ↔ canary s t) as Hc1.
  { intros t. unfold canary. rewrite Es1. cbn [tasks words with_queues set_tasks set_ready set_waiters].
    by rewrite Hm. }
  replace (ready_queue s1) with (requeue s) by by rewrite Es1.
  destruct (requeue s) as [|n rest] eqn:Eq; sys_steps.
  - change (0 =? 0) with true. cbv iota.
    destruct (Z.eqb_spec (current_task s) (idle_task s)) as [Ec|Ec].
    + sys_steps. rewrite Z.eqb_refl. sys_steps. rewrite decide_True by done. split; [done|]. apply Eid. symmetry.
      unfold requeue in Eq. rewrite bool_decide_eq_false_2 in Eq by naive_solver. done.
    + sys_steps. rewrite (proj2 (Z.eqb_neq _ _) Hi0).
      eapply wp_mono; [apply switch_step; [done|]|].
      * unfold canary. cbn [tasks words set_tasks]. autorewrite with kfs. apply Hc1.
        apply (si_canary _ Hs). by right; right.
      * intros b s' [-> ->]. rewrite decide_False by done. split; [done|].
        apply (switches_intro _ _ (current_task s) (upd (idle_task s) state TASK_RUNNING m)); [done|..].
        -- intros f. destruct (decide (f = quantum_remaining)) as [->|]; [tauto|].
           destruct (decide (f = state)) as [->|]; [right; right; by rewrite upd_eq|].
           left. rewrite upd_ne_field, Hm by done. by destruct f.
        -- intros u f Hu. by rewrite upd_ne_task, Hm.
        -- by rewrite Es1.
  - destruct (Hok n Hp) as (Hn0 & Hnr & Hnw & _ & Hnc & _); [set_solver|].
    rewrite (proj2 (Z.eqb_neq _ _) Hn0). sys_steps.
    replace (tasks (set_ready (λ _, rest) s1) n state) with TASK_RUNNING
      by (rewrite Es1; cbn; by rewrite Hm).
    cbn [Z.eqb negb]. rewrite Z.eqb_refl. cbn [negb]. sys_steps. rewrite (proj2 (Z.eqb_neq _ _) Hn0).
    eapply wp_mono; [apply switch_step; [done|]|].
    + change (canary s1 n). by apply Hc1.
    + intros b s' [-> ->]. split; [done|].
      apply (switches_intro _ _ (current_task s) m); [done|..].
      * intros f. rewrite Hm. by destruct f; auto.
      * intros u f _. apply Hm.
      * by rewrite Es1.
Qed.

(** *** A switch re-establishes the invariant *)

Lemma switches_task n rest s s' t f : switches n rest s s' → f ≠ state → f ≠ quantum_remaining →
  tasks s' t f = tasks s t f.
Proof.
  intros H ? ?. destruct (decide (t = n)) as [->|].
  - rewrite (sw_in _ _ _ _ H). by destruct f.
  - by apply (sw_out _ _ _ _ H).
Qed.

Lemma switches_canary n rest s s' t : switches n rest s s' → canary s' t ↔ canary s t.
Proof.
  intros H. unfold canary. rewrite (switches_task _ _ _ _ _ _ H) by done.
  destruct (sw_frame _ _ _ _ H) as (m & ->). done.
Qed.

Lemma switches_inv n rest s s' : sched_pre s → switches n rest s s' →
  (n :: rest = requeue s ∨ (n = idle_task s ∧ rest = [])) → run_inv s'.
Proof.
  intros Hp H Hn. pose proof Hp as [Hs Hc0 Hcan _ _].
  destruct (sw_frame _ _ _ _ H) as (m & E).
  assert (ready_queue s' = rest ∧ current_task s' = n ∧ idle_task s' = idle_task s ∧
    dummy_task s' = dummy_task s) as (Hr & Hc & Hi & Hd) by by subst s'.
  assert (∀ w, waiters s' w = waiters s w) as Hw by by subst s'.
  assert (∀ t f, f ≠ state → f ≠ quantum_remaining → tasks s' t f = tasks s t f) as Hf
    by (intros; by apply (switches_task n rest)).
  assert (∀ t, t ∈ rest → t ∈ requeue s ∧ t ≠ n) as Hrest.
  { intros t Ht. destruct Hn as [Hn|[_ ->]]; [|by apply elem_of_nil in Ht].
    pose proof (requeue_nodup s Hs) as Hnd. rewrite <- Hn in *. apply NoDup_cons in Hnd as [? _].
    set_solver. }
  assert (n ≠ 0 ∧ tasks s n wq_node = 0 ∧ canary s n ∧ (n = idle_task s ∨ entry_ok s n)) as (Hn0 & Hnw & Hnc & Hne).
  { destruct Hn as [Hn|[-> _]].
    - destruct (requeue_ok s n Hp) as (? & ? & ? & ? & ? & ?); [rewrite <- Hn; set_solver|]. naive_solver.
    - destruct (si_idle _ Hs) as (? & ? & ?). split_and!; auto. apply (si_canary _ Hs). by right; right. }
  assert (NoDup rest) as Hnd.
  { destruct Hn as [Hn|[_ ->]]; [|apply NoDup_nil_2]. pose proof (requeue_nodup s Hs) as Hx.
    rewrite <- Hn in Hx. by apply NoDup_cons in Hx as [_ ?]. }
  assert (∀ t, schedulable s' t → canary s' t) as Hcan'.
  { intros t Ht. apply (switches_canary _ _ _ _ _ H). destruct Ht as [Ht|[Ht|Ht]].
    - rewrite Hr in Ht. apply Hrest in Ht as [Ht _]. by destruct (requeue_ok s t Hp Ht) as (_ & _ & _ & _ & ? & _).
    - rewrite Hf in Ht by done. apply (si_canary _ Hs). by right; left.
    - rewrite Hi in Ht. apply (si_canary _ Hs). by right; right. }
  split; [split|..]; rewrite ?Hr, ?Hc, ?Hi, ?Hd; try done.
  - intros t Ht. apply Hrest in Ht as [Ht Hne']. destruct (requeue_ok s t Hp Ht) as (? & ? & ? & ? & _).
    unfold entry_ok. rewrite (sw_out _ _ _ _ H), !Hf by done. done.
  - intros w. rewrite Hw. apply Hs.
  - intros w t. rewrite Hw, Hf by done. apply (si_wait _ Hs).
  - intros t H0 Hnz. rewrite Hf in Hnz by done. destruct (si_waiting _ Hs t H0 Hnz) as [? ?].
    unfold entry_ok. rewrite (sw_out _ _ _ _ H), !Hf by congruence. done.
  - destruct (si_idle _ Hs) as (? & ? & ?). rewrite Hf by done. split_and!; try done.
    intros Hx. apply Hrest in Hx as [Hx _]. by destruct (requeue_ok s _ Hp Hx) as (_ & _ & _ & _ & _ & ?).
  - rewrite Hf by done. apply (si_null _ Hs).
  - by rewrite (sw_in _ _ _ _ H).
  - by rewrite Hf.
  - destruct Hne as [->|Hne]; [by left|]. right. right. unfold entry_ok. by rewrite !Hf.
  - intros Hx. by apply Hrest in Hx as [_ ?].
  - by apply (switches_canary _ _ _ _ _ H).
Qed.

Lemma schedule_inv s : sched_pre s → wp schedule s (λ b s', schedule_post s b s' ∧ run_inv s').
Proof.
  intros Hp. eapply wp_mono; [by apply schedule_spec|]. intros b s' Hpost. split; [done|].
  unfold schedule_post in Hpost. destruct (requeue s) as [|n rest] eqn:E.
  - case_decide as Hc; destruct Hpost as [-> Hsw].
    + subst s'. destruct Hp as [Hs H0 Hcan Hid Hrun]. destruct (Hrun (Hid Hc)) as [? ?].
      split; auto. rewrite Hc. apply (si_idle _ Hs).
    + apply (switches_inv _ _ _ _ Hp Hsw). by right.
  - destruct Hpost as [-> Hsw]. apply (switches_inv _ _ _ _ Hp Hsw). by left.
Qed.
