(* ===== verification/SchedThm.v ===== *)
(** * The scheduler, the wait queues and the timer: theorems *)

From S2P Require Import Prelude Errno Memory Bitmap Task Sched SchedInv.

(** ** Wait queues *)

(** C30: [wq_wake_all] terminates (one round of its loop per waiter is enough)
    and wakes exactly the waiters of the queue: they move, in order, to the
    tail of the ready queue, become RUNNING and are unlinked; the queue ends
    empty, the other queues keep their waiters, and the scheduler invariant
    is kept. *)
Theorem wq_wake_all_terminates fuel wq s : sched_inv s → wq ≠ 0 → (length (waiters s wq) ≤ fuel)%nat →
  wp (wq_wake_all fuel wq) s (λ _ s',
    wakes (waiters s wq) s s' ∧ sched_inv s' ∧ waiters s' wq = [] ∧
    ∀ w, w ≠ wq → waiters s' w = waiters s w).
Proof.
  intros Hs Hw Hf. unfold wq_wake_all. rewrite (proj2 (Z.eqb_neq _ _) Hw).
  eapply wp_mono; [by apply wake_loop_wakes|]. intros [] s' Hk.
  destruct (waiters_wakeable s wq Hs) as [Hnd Hl].
  split_and!; [done|by eapply wakes_inv|..].
  - rewrite (wk_waiters _ _ _ Hk). apply filter_none. tauto.
  - intros w Hne. rewrite (wk_waiters _ _ _ Hk). apply filter_id. intros t Ht Ht'.
    apply (si_wait _ Hs) in Ht as (_ & _ & E1), Ht' as (_ & _ & E2). congruence.
Qed.

(** ** Switching *)

(** C29: The round-robin step.  From any state in which the invariant holds
    [schedule] returns: it never finds a task that is not RUNNING in the
    ready queue, and never a stack overflow.  A running task (idle and the
    boot thread apart) goes to the tail of the queue, the head of the queue
    gets the processor with a full quantum, idle gets it when the queue is
    empty, and the invariant holds again. *)
Theorem schedule_correct s : sched_pre s → wp schedule s (λ b s', schedule_post s b s' ∧ run_inv s').
Proof. apply schedule_inv. Qed.

(** ** The timer *)

Definition tick_state (s : sys) : sys := set_ticks (global_ticks s ⊞ 1) s.

Lemma tick_eq s : sched_eq s (tick_state s).
Proof. done. Qed.

(** The sleepers the next tick wakes. *)
Definition due_now (s : sys) : list Z := filter (due (tick_state s)) (waiters s sleep_wq).

Lemma wakes_run l s s' : run_inv s → NoDup l → (∀ t, t ∈ l → t ≠ 0 ∧ tasks s t wq_node ≠ 0) →
  wakes l s s' → run_inv s'.
Proof.
  intros Hs Hnd Hl Hk. assert (sched_inv s') as Hs' by (eapply wakes_inv; eauto; apply Hs).
  destruct Hs as [Hs H0 Hr Hn He Hq Hc].
  assert (current_task s ∉ l) as Hout by (intros ?%Hl; naive_solver).
  pose proof (wakes_canary _ _ _ _ Hk Hc). pose proof (wk_out _ _ _ Hk) as Ho.
  destruct (wk_frame _ _ _ Hk) as (m & w & E).
  assert (current_task s' = current_task s) as Ec by by subst s'.
  assert (ready_queue s' = ready_queue s ++ l) as Er by by subst s'.
  assert (idle_task s' = idle_task s ∧ dummy_task s' = dummy_task s) as [Ei Ed] by by subst s'.
  split; rewrite ?Ec, ?Er, ?Ei, ?Ed; try done; try by rewrite Ho.
  - unfold entry_ok. by rewrite !Ho.
  - by apply not_elem_of_app.
Qed.

(** The state of a tick once the sleepers are woken, before the quantum. *)
Lemma tick_wakes s : run_inv s → wp task_wake_up_sleepers (tick_state s) (λ _ s1,
  wakes (due_now s) (tick_state s) s1 ∧ run_inv s1).
Proof.
  intros Hs. assert (run_inv (tick_state s)) as Ht by by rewrite <- (tick_eq s).
  destruct (waiters_wakeable (tick_state s) sleep_wq) as [Hnd Hl]; [apply Ht|].
  eapply wp_mono; [apply task_wake_up_sleepers_wakes, Ht|]. intros [] s1 Hk. split; [done|].
  eapply wakes_run; [done| | |done]; [by apply NoDup_filter|].
  intros t [_ Hx]%list_elem_of_filter. auto.
Qed.

(** A tick leaves the processor to the current task. *)
Definition keeps_cpu (s : sys) : Prop :=
  current_task s ≠ idle_task s ∧ 0 < tasks s (current_task s) quantum_remaining ⊟ 1.

#[export] Instance keeps_cpu_dec s : Decision (keeps_cpu s).
Proof. unfold keeps_cpu. apply _. Defined.

(** The current task has used one tick of its quantum. *)
Definition charged (s : sys) : sys :=
  if decide (current_task s = idle_task s) then s
  else set_tasks (upd (current_task s) quantum_remaining
                    (tasks s (current_task s) quantum_remaining ⊟ 1)) s.

Lemma charged_eq s : sched_eq s (charged s).
Proof. unfold charged. case_decide; [done|by apply sched_eq_fld]. Qed.

Lemma timer_handle_spec s : run_inv s → wp timer_handle s (λ _ s', run_inv s' ∧ ∃ s1,
  wakes (due_now s) (tick_state s) s1 ∧ run_inv s1 ∧
  (if decide (keeps_cpu s) then s' = charged s1
   else ∃ b, schedule_post (charged s1) b s')).
Proof.
  intros Hs. unfold timer_handle, task_get_idle, task_get_current_task. sys_steps.
  eapply wp_mono; [by apply tick_wakes|]. intros [] s1 [Hk Hs1]. sys_steps.
  assert (run_inv (charged s1)) as Hch by by rewrite <- (charged_eq s1).
  assert (current_task s1 = current_task s ∧ idle_task s1 = idle_task s) as [Ec Ei]
    by by destruct (wk_frame _ _ _ Hk) as (m & w & ->).
  assert (current_task s ∉ due_now s) as Hout.
  { intros [_ Hx]%list_elem_of_filter. apply (si_wait _ (ri_sched _ Hs)) in Hx as (_ & ? & ?).
    pose proof (ri_unlinked _ Hs). congruence. }
  assert (tasks s1 (current_task s) quantum_remaining = tasks s (current_task s) quantum_remaining) as Eq.
  { by rewrite (wk_out _ _ _ Hk). }
  assert (∀ s2, charged s1 = s2 → wp (schedule ;; mret tt) s2 (λ (_ : unit) s', run_inv s' ∧ ∃ s1,
    wakes (due_now s) (tick_state s) s1 ∧ run_inv s1 ∧ ∃ b, schedule_post (charged s1) b s')) as Hsched.
  { intros s2 <-. apply wp_bind. eapply wp_mono; [apply schedule_inv, run_pre, Hch|].
    intros b s' [??]. apply wp_ret. eauto 10. }
  destruct (Z.eqb_spec (current_task s1) (idle_task s1)) as [E|E].
  - destruct (decide (keeps_cpu s)) as [[? _]|_]; [congruence|].
    apply Hsched. unfold charged. by rewrite decide_True.
  - assert (current_task s1 ≠ 0) by apply (ri_current _ Hs1). sys_steps.
    assert (charged s1 = set_tasks (upd (current_task s1) quantum_remaining
      (tasks s1 (current_task s1) quantum_remaining ⊟ 1)) s1) as E1
      by (unfold charged; by rewrite decide_False).
    destruct (Z.ltb_spec 0 (tasks s1 (current_task s1) quantum_remaining ⊟ 1)) as [Hq|Hq];
      rewrite Ec in Hq; rewrite Eq in Hq.
    + sys_steps. rewrite <- E1.
      destruct (decide (keeps_cpu s)) as [_|Hn]; [eauto 10|]. destruct Hn. split; [congruence|done].
    + destruct (decide (keeps_cpu s)) as [[_ ?]|_]; [lia|]. by apply Hsched.
Qed.

(** What a switch leaves alone. *)
Lemma schedule_post_frame s b s' : schedule_post s b s' →
  waiters s' = waiters s ∧ global_ticks s' = global_ticks s ∧ idle_task s' = idle_task s ∧
  dummy_task s' = dummy_task s ∧
  (∀ t f, f ≠ state → f ≠ quantum_remaining → tasks s' t f = tasks s t f) ∧
  (∀ t, t ∈ ready_queue s → t ∈ ready_queue s' ∨ current_task s' = t).
Proof.
  intros H.
  assert (∀ t, t ∈ ready_queue s → t ∈ requeue s) as Hsub by (unfold requeue; case_bool_decide; set_solver).
  unfold schedule_post in H. destruct (requeue s) as [|n rest] eqn:E.
  - case_decide; destruct H as [_ H]; [subst; naive_solver|].
    split_and!; try by destruct (sw_frame _ _ _ _ H) as (m & ->).
    + intros. by eapply switches_task.
    + set_solver.
  - destruct H as [_ H]. split_and!; try by destruct (sw_frame _ _ _ _ H) as (m & ->).
    + intros. by eapply switches_task.
    + intros t Ht%Hsub. destruct (sw_frame _ _ _ _ H) as (m & ->). cbn. set_solver.
Qed.

Lemma charged_frame s :
  waiters (charged s) = waiters s ∧ ready_queue (charged s) = ready_queue s ∧
  global_ticks (charged s) = global_ticks s ∧ current_task (charged s) = current_task s ∧
  idle_task (charged s) = idle_task s ∧ dummy_task (charged s) = dummy_task s ∧
  (∀ t f, f ≠ quantum_remaining → tasks (charged s) t f = tasks s t f).
Proof.
  unfold charged. case_decide; [done|]. split_and!; try done.
  intros. cbn [tasks set_tasks]. by rewrite upd_ne_field.
Qed.

Lemma due_now_waiting s t : t ∈ due_now s → t ∈ waiters s sleep_wq.
Proof. by intros [_ ?]%list_elem_of_filter. Qed.

(** One timer tick.  The tick counter advances modulo 2^32; exactly the
    sleepers whose time has come leave the sleep queue, and they are RUNNING
    and ready (or already running) afterwards; no other wait queue changes;
    the current task keeps the processor, and the woken tasks queue behind
    the ready ones, when it is not idle and has quantum left; the scheduler
    invariant is kept, so no tick ever panics. *)
Theorem timer_handle_correct s : run_inv s → wp timer_handle s (λ _ s',
  run_inv s' ∧ global_ticks s' = global_ticks s ⊞ 1 ∧
  waiters s' sleep_wq = filter (λ t, ¬ due (tick_state s) t) (waiters s sleep_wq) ∧
  (∀ w, w ≠ sleep_wq → waiters s' w = waiters s w) ∧
  (∀ t, t ∈ due_now s →
     tasks s' t state = TASK_RUNNING ∧ (t ∈ ready_queue s' ∨ current_task s' = t)) ∧
  (keeps_cpu s → current_task s' = current_task s ∧ ready_queue s' = ready_queue s ++ due_now s)).
Proof.
  intros Hs. eapply wp_mono; [by apply timer_handle_spec|]. intros [] s' (Hs' & s1 & Hk & Hs1 & Hpost).
  destruct (charged_frame s1) as (Cw & Cr & Ct & Cc & Ci & Cd & Cf).
  destruct (wk_frame _ _ _ Hk) as (m & w0 & E1).
  assert (ready_queue s1 = ready_queue s ++ due_now s ∧ global_ticks s1 = global_ticks s ⊞ 1 ∧
    current_task s1 = current_task s) as (Er & Et & Ec) by by subst s1.
  assert (waiters s' = waiters s1 ∧ global_ticks s' = global_ticks s1 ∧
    ∀ t, t ∈ ready_queue s1 → t ∈ ready_queue s' ∨ current_task s' = t) as (Hw & Ht & Hm).
  { case_decide; [subst s'; rewrite Cw, Cr; auto|]. destruct Hpost as [b Hb].
    apply schedule_post_frame in Hb as (? & ? & _ & _ & _ & ?). rewrite <- Cw, <- Ct, <- Cr. auto. }
  rewrite Hw, Ht. split_and!; try done.
  - rewrite (wk_waiters _ _ _ Hk). cbn [waiters tick_state set_ticks].
    apply filter_ext_in. intros t Hin. unfold due_now. rewrite list_elem_of_filter. tauto.
  - intros w Hne. rewrite (wk_waiters _ _ _ Hk). apply filter_id. intros t Hin Hd%due_now_waiting.
    pose proof (si_wait _ (ri_sched _ Hs)) as Hsw. apply Hsw in Hin, Hd. naive_solver.
  - intros t Hd. destruct (Hm t) as [Hin|<-]; [rewrite Er; set_solver|..].
    + split; [|by left]. by apply (si_ready _ (ri_sched _ Hs')).
    + split; [|by right]. apply (ri_running _ Hs').
  - intros Hkc. rewrite decide_True in Hpost by done. subst s'. rewrite Cc, Cr. done.
Qed.

(** ** Fairness *)

Fixpoint ticks (n : nat) : M sys unit :=
  match n with O => mret tt | S n => timer_handle ;; ticks n end.

(** The quantum of a running task is between 1 and [DEFAULT_QUANTUM]. *)
Definition quantum_ok (s : sys) : Prop :=
  current_task s = idle_task s ∨
  1 ≤ tasks s (current_task s) quantum_remaining ≤ DEFAULT_QUANTUM.

(** Ticks until the task at position [k] of the ready queue runs, at most. *)
Definition wait_bound (s : sys) (k : nat) : nat :=
  k * 10 + (if decide (current_task s = idle_task s) then 1
            else Z.to_nat (tasks s (current_task s) quantum_remaining)).

Lemma requeue_lookup s k t : ready_queue s !! k = Some t → requeue s !! k = Some t.
Proof. unfold requeue. case_bool_decide; [|done]. apply lookup_app_l_Some. Qed.

(** A tick brings a ready task nearer to the processor. *)
Lemma tick_progress s k t : run_inv s → quantum_ok s → ready_queue s !! k = Some t →
  wp timer_handle s (λ _ s', current_task s' = t ∨
    ∃ k', run_inv s' ∧ quantum_ok s' ∧ ready_queue s' !! k' = Some t ∧
          (wait_bound s' k' < wait_bound s k)%nat).
Proof.
  intros Hs Hq Hk. eapply wp_mono; [by apply timer_handle_spec|].
  intros [] s' (Hs' & s1 & Hwk & Hs1 & Hpost).
  destruct (charged_frame s1) as (_ & Cr & _ & Cc & Ci & _).
  destruct (wk_frame _ _ _ Hwk) as (m & w0 & E1).
  assert (ready_queue s1 = ready_queue s ++ due_now s ∧ current_task s1 = current_task s ∧
    idle_task s1 = idle_task s) as (Er & Ec & Ei) by by subst s1.
  assert (ready_queue (charged s1) !! k = Some t) as Hk1 by (rewrite Cr, Er; by apply lookup_app_l_Some).
  assert (current_task s ∉ due_now s) as Hout.
  { intros Hd%due_now_waiting. apply (si_wait _ (ri_sched _ Hs)) in Hd as (_ & ? & ?).
    pose proof (ri_unlinked _ Hs). congruence. }
  case_decide as Hkeep.
  - right. exists k. destruct Hkeep as [Hni Hpos]. destruct Hq as [?|Hq]; [done|]. subst s'.
    assert (tasks (charged s1) (current_task s) quantum_remaining =
            tasks s (current_task s) quantum_remaining - 1) as Eq.
    { unfold charged. rewrite decide_False by congruence. cbn [tasks set_tasks]. rewrite Ec, upd_eq.
      rewrite (wk_out _ _ _ Hwk) by done. cbn [tasks tick_state set_ticks]. apply u32_small.
      unfold DEFAULT_QUANTUM, W32 in *. lia. }
    rewrite u32_small in Hpos by (unfold DEFAULT_QUANTUM, W32 in *; lia).
    split_and!; [done| |done|].
    + right. rewrite Cc, Ec, Eq. lia.
    + unfold wait_bound. rewrite Cc, Ci, Ec, Ei, Eq, !decide_False by done. lia.
  - destruct Hpost as [b Hpost]. unfold schedule_post in Hpost.
    assert (1 ≤ wait_bound s 0)%nat as Hb.
    { unfold wait_bound. destruct (decide (current_task s = idle_task s)); [lia|]. destruct Hq; [done|lia]. }
    assert (wait_bound s k = k * 10 + wait_bound s 0)%nat as Hbk by done.
    pose proof (requeue_lookup _ _ _ Hk1) as Hrq.
    destruct (requeue (charged s1)) as [|n rest] eqn:Erq; [done|]. destruct Hpost as [_ Hsw].
    destruct (sw_frame _ _ _ _ Hsw) as (m' & E').
    assert (ready_queue s' = rest ∧ current_task s' = n) as [Er' Ec'] by by subst s'.
    destruct k as [|k]; [left; by injection Hrq as ->|]. right. exists k.
    assert (tasks s' n quantum_remaining = DEFAULT_QUANTUM) as Eq by by rewrite (sw_in _ _ _ _ Hsw).
    split_and!; [done| |by rewrite Er'|].
    + right. rewrite Ec', Eq. done.
    + rewrite Hbk. unfold wait_bound at 1. rewrite Ec', Eq. change (Z.to_nat DEFAULT_QUANTUM) with 10%nat.
      case_decide; lia.
Qed.

(** C14: The scheduler is fair.  A task that is ready gets the processor:
    behind [k] other tasks it runs after at most [10 * (k + 1)] timer ticks,
    whatever sleepers the ticks wake in the meantime. *)
Theorem round_robin_fair s k t : run_inv s → quantum_ok s → ready_queue s !! k = Some t →
  ∃ n, (n ≤ 10 * (k + 1))%nat ∧ wp (ticks n) s (λ _ s', current_task s' = t).
Proof.
  intros Hs Hq Hk.
  assert (∃ n, (n ≤ wait_bound s k)%nat ∧ wp (ticks n) s (λ _ s', current_task s' = t)) as (n & Hn & Hwp).
  { remember (wait_bound s k) as b eqn:Hb. revert s k Hs Hq Hk Hb.
    induction (lt_wf b) as [b _ IH]. intros s k Hs Hq Hk ->.
    pose proof (tick_progress s k t Hs Hq Hk) as Htick.
    apply wp_run in Htick as ([] & s1 & Erun & Hcase).
    assert (∀ n, wp (ticks n) s1 (λ _ s', current_task s' = t) → wp (ticks (S n)) s (λ _ s', current_task s' = t))
      as Hstep.
    { intros n Hn. cbn [ticks]. apply wp_bind. unfold wp at 1. by rewrite Erun. }
    destruct Hcase as [Hc|(k' & Hs1 & Hq1 & Hk1 & Hlt)].
    - exists 1%nat. split; [|by apply Hstep, wp_ret]. unfold wait_bound. case_decide; [lia|].
      destruct Hq; [done|lia].
    - destruct (IH _ Hlt s1 k' Hs1 Hq1 Hk1 eq_refl) as (n & Hn & Hwp).
      exists (S n). split; [lia|]. by apply Hstep. }
  exists n. split; [|done]. unfold wait_bound in Hn. case_decide; [lia|].
  destruct Hq as [|Hq]; [done|]. unfold DEFAULT_QUANTUM in Hq. lia.
Qed.

(** ** Sleeping *)

(** The current task parks: it is in the queue [wq], and another task runs. *)
Lemma park_and_schedule wq s0 s : run_inv s0 → sched_eq s0 s → wq ≠ 0 → current_task s ≠ idle_task s →
  current_task s ≠ dummy_task s →
  wp (wq_prepare wq (current_task s)) s (λ _ s1, wp schedule s1 (λ b s', b = true ∧ run_inv s' ∧
    current_task s' ≠ current_task s ∧ current_task s ∈ waiters s' wq ∧
    tasks s' (current_task s) state = TASK_WAITING ∧
    tasks s' (current_task s) tick_to_wake = tasks s (current_task s) tick_to_wake ∧
    global_ticks s' = global_ticks s)).
Proof.
  intros Hs Heq Hwq Hi Hd. rewrite Heq in Hs. set (c := current_task s).
  pose proof Hs as [Hsi H0 Hrun Hun Hent Hoff Hcan].
  assert (entry_ok s c) as He by (destruct Hent as [|[|]]; done).
  eapply wp_mono; [by apply wq_prepare_parks|]. intros [] s1 Hk.
  pose proof (parks_inv _ _ _ _ Hsi Hwq H0 Hi He Hcan Hk) as Hs1.
  destruct (pk_frame _ _ _ _ Hk) as (m & w0 & E1). pose proof (pk_in _ _ _ _ Hk) as Hin.
  assert (current_task s1 = c ∧ idle_task s1 = idle_task s ∧ global_ticks s1 = global_ticks s)
    as (Ec & Ei & Et) by by subst s1.
  assert (tasks s1 c state = TASK_WAITING) as Hst by by rewrite Hin.
  assert (sched_pre s1) as Hp.
  { split; rewrite ?Ec, ?Ei; try done; [|rewrite Hst; done].
    unfold canary. rewrite Hin. subst s1. exact Hcan. }
  eapply wp_mono; [by apply schedule_inv|]. intros b s' [Hpost Hr'].
  pose proof (schedule_post_frame _ _ _ Hpost) as (Fw & Ft & Fi & _ & Ff & _).
  assert (c ∈ waiters s' wq) as Hcw.
  { rewrite Fw, (pk_waiters _ _ _ _ Hk), decide_True by done. set_solver. }
  assert (current_task s' ≠ c) as Hne.
  { intros E. apply (si_wait _ (ri_sched _ Hr')) in Hcw as (_ & _ & Hn).
    pose proof (ri_unlinked _ Hr'). rewrite E in *. congruence. }
  assert (tasks s' c state = TASK_WAITING) as Hst'.
  { apply (si_wait _ (ri_sched _ Hr')) in Hcw as (_ & _ & Hn).
    by destruct (si_waiting _ (ri_sched _ Hr') c H0) as [? _]; [congruence|]. }
  split_and!; try done.
  - unfold schedule_post in Hpost. rewrite Ec, Ei in Hpost.
    destruct (requeue s1); [|by destruct Hpost]. rewrite decide_False in Hpost by done. by destruct Hpost.
  - rewrite Ff, Hin by done. done.
  - congruence.
Qed.

(** A tick seen by one sleeper: it sleeps on, or it is ready. *)
Lemma tick_sleeper s t : run_inv s → t ∈ waiters s sleep_wq → wp timer_handle s (λ _ s', run_inv s' ∧
  global_ticks s' = global_ticks s ⊞ 1 ∧
  if decide (tasks s t tick_to_wake ≤ global_ticks s ⊞ 1)
  then tasks s' t state = TASK_RUNNING ∧ (t ∈ ready_queue s' ∨ current_task s' = t)
  else t ∈ waiters s' sleep_wq ∧ tasks s' t tick_to_wake = tasks s t tick_to_wake).
Proof.
  intros Hs Ht. pose proof (timer_handle_spec s Hs) as Hspec. apply wp_run in Hspec as ([] & s' & Erun & Hs' & s1 & Hk & Hs1 & Hpost).
  unfold wp. rewrite Erun. split; [done|].
  destruct (charged_frame s1) as (Cw & Cr & Ct & _ & _ & _ & Cf).
  destruct (wk_frame _ _ _ Hk) as (m & w0 & E1).
  assert (ready_queue s1 = ready_queue s ++ due_now s ∧ global_ticks s1 = global_ticks s ⊞ 1) as [Er Et]
    by by subst s1.
  assert (waiters s' = waiters s1 ∧ global_ticks s' = global_ticks s1 ∧
    tasks s' t tick_to_wake = tasks s1 t tick_to_wake ∧
    ∀ t, t ∈ ready_queue s1 → t ∈ ready_queue s' ∨ current_task s' = t) as (Hw & Hti & Htw & Hm).
  { case_decide; [subst s'; rewrite Cw, Cr, Cf; auto|]. destruct Hpost as [b Hb].
    apply schedule_post_frame in Hb as (? & ? & _ & _ & Hf & ?).
    rewrite Hf, Cf, <- Cw, <- Ct, <- Cr by done. auto. }
  clear Hpost. split; [congruence|]. case_decide as Hdue.
  - assert (t ∈ due_now s) as Hd by (apply list_elem_of_filter; split; [exact Hdue|done]).
    destruct (Hm t) as [Hin|<-]; [rewrite Er; set_solver|..].
    + split; [|by left]. by apply (si_ready _ (ri_sched _ Hs')).
    + split; [|by right]. apply (ri_running _ Hs').
  - assert (t ∉ due_now s) as Hd by (intros [Hx _]%list_elem_of_filter; exact (Hdue Hx)).
    rewrite Hw, (wk_waiters _ _ _ Hk), Htw, (wk_out _ _ _ Hk) by done. split; [|done].
    by apply list_elem_of_filter.
Qed.

(** Ticks before the deadline leave a sleeper asleep. *)
Lemma ticks_asleep s t k : run_inv s → t ∈ waiters s sleep_wq → 0 ≤ global_ticks s →
  global_ticks s + Z.of_nat k < tasks s t tick_to_wake → tasks s t tick_to_wake < W32 →
  wp (ticks k) s (λ _ s', run_inv s' ∧ t ∈ waiters s' sleep_wq ∧
    tasks s' t tick_to_wake = tasks s t tick_to_wake ∧ global_ticks s' = global_ticks s + Z.of_nat k).
Proof.
  revert s. induction k as [|k IH]; intros s Hs Ht H0 Hk Hb; cbn [ticks].
  - apply wp_ret. rewrite Z.add_0_r. done.
  - apply wp_bind. eapply wp_mono; [by apply (tick_sleeper s t)|]. intros [] s1 (Hs1 & Et & Hcase).
    rewrite u32_small in * by lia. rewrite decide_False in Hcase by lia. destruct Hcase as [Ht1 Ew].
    eapply wp_mono; [apply IH; rewrite ?Ew, ?Et; try done; lia|].
    intros [] s2 (? & ? & E2 & E3). split_and!; [done|done|congruence|]. rewrite E3, Et. lia.
Qed.

Lemma ticks_snoc k s Q : wp (ticks k) s (λ _ s1, wp timer_handle s1 Q) → wp (ticks (S k)) s Q.
Proof.
  revert s. induction k as [|k IH]; intros s H; cbn [ticks] in *.
  - apply wp_bind. eapply wp_mono; [exact H|]. intros [] s1 ?. by apply wp_ret.
  - apply wp_bind. unfold wp at 1. unfold wp at 1, mbind, M_bind in H.
    destruct (timer_handle s) as [[[] s1]| | |]; [|done..]. by apply IH.
Qed.

