(* ===== verification/SignalThm.v ===== *)
(** * Signals: theorems

    The pending set of a task is the bitmap [signals_map]; sending sets one
    bit and wakes an interruptible sleeper, delivery takes the lowest bit. *)

From S2P Require Import Prelude Errno Memory Bitmap Task Sched SchedInv SchedThm Process.

(** ** The pending set *)

Definition pending (s : sys) (t i : Z) : bool := Z.testbit (tasks s t signals_map) i.

Definition signals_ok (s : sys) (t : Z) : Prop := 0 ≤ tasks s t signals_map < W32.

Lemma bit1_pow2 n : 0 ≤ n < 32 → bit1 n = 2 ^ n.
Proof. apply PAGE_BY_ORDER_pow2. Qed.

Lemma lor_bit1 m i j : 0 ≤ i < 32 → 0 ≤ j → Z.testbit (Z.lor m (bit1 i)) j = (i =? j) || Z.testbit m j.
Proof.
  intros Hi Hj. rewrite bit1_pow2, Z.lor_spec, Z.pow2_bits_eqb by lia. apply orb_comm.
Qed.

Lemma land_not_bit1 m i j : 0 ≤ m < W32 → 0 ≤ i < 32 → 0 ≤ j →
  Z.testbit (Z.land m (not32 (bit1 i))) j = negb (i =? j) && Z.testbit m j.
Proof.
  intros Hm Hi Hj. unfold not32. rewrite land_u32_r, bit1_pow2 by done.
  rewrite Z.land_spec, Z.lnot_spec, Z.pow2_bits_eqb by lia. apply andb_comm.
Qed.

Lemma pending_test s t i : 0 ≤ i → (Z.land (Z.shiftr (tasks s t signals_map) i) 1 =? 0) = negb (pending s t i).
Proof. apply shiftr_land_1. Qed.

Lemma valid_bounds sig : signal_is_valid sig = true ↔ 0 < sig < 32.
Proof. unfold signal_is_valid, SIG_Sentinel. rewrite andb_true_iff, Z.ltb_lt, Z.ltb_lt. done. Qed.

(** Only the field [f] of [t] changes, to [v]. *)
Lemma set_fld_run t f v s : t ≠ 0 → set_fld t f v s = Done (tt, set_tasks (upd t f v) s).
Proof. intros H0. unfold set_fld. by rewrite (proj2 (Z.eqb_neq _ _) H0). Qed.

Lemma signal_dequeue_run i t s : t ≠ 0 → 0 < i < 32 →
  signal_dequeue i t s =
    Done (tt, set_tasks (upd t signals_map (Z.land (tasks s t signals_map) (not32 (bit1 i)))) s).
Proof.
  intros H0 Hi. unfold signal_dequeue, SIG_Sentinel, fld.
  rewrite (proj2 (Z.eqb_neq _ _) H0), (proj2 (Z.ltb_lt 0 i)), (proj2 (Z.ltb_lt i 32)) by lia.
  cbn. by apply set_fld_run.
Qed.

Lemma dequeue_loop_spec n i t s : t ≠ 0 → signals_ok s t → 0 < i → i + Z.of_nat n = 32 →
  wp (dequeue_loop n i t) s (λ r s',
    (r = 0 ∧ s' = s ∧ ∀ j, i ≤ j < 32 → pending s t j = false) ∨
    (i ≤ r < 32 ∧ pending s t r = true ∧ (∀ j, i ≤ j < r → pending s t j = false) ∧
     s' = set_tasks (upd t signals_map (Z.land (tasks s t signals_map) (not32 (bit1 r)))) s)).
Proof.
  revert i. induction n as [|n IH]; intros i H0 Hok Hi Hn; cbn [dequeue_loop].
  - apply wp_ret. left. do 2 (split; [done|]). intros; lia.
  - sys_steps. rewrite pending_test by lia. destruct (pending s t i) eqn:Hp; cbn [negb].
    + apply wp_bind. unfold wp. rewrite signal_dequeue_run by lia. right. split_and!; first [done|lia|intros; lia].
    + eapply wp_mono; [apply IH; [done|done|lia|lia]|].
      assert (∀ k j, (i + 1 ≤ j < k → pending s t j = false) → i ≤ j < k → pending s t j = false) as Hext.
      { intros k j Hj ?. destruct (decide (j = i)) as [->|]; [done|]. apply Hj. lia. }
      intros r s' [(-> & -> & Hj)|(? & ? & Hj & ->)].
      * left. do 2 (split; [done|]). intros j. apply Hext, Hj.
      * right. split; [lia|]. split; [done|]. split; [|done]. intros j. apply Hext, Hj.
Qed.

(** [signal_dequeue_yield] takes the lowest pending signal: it returns 0
    and changes nothing when no signal is pending, and otherwise returns the
    least pending number and removes exactly that one from the pending set. *)
Theorem signal_dequeue_yield_correct t s : t ≠ 0 → signals_ok s t →
  wp (signal_dequeue_yield t) s (λ r s',
    (r = 0 ∧ s' = s ∧ ∀ i, 1 ≤ i < 32 → pending s t i = false) ∨
    (1 ≤ r < 32 ∧ pending s t r = true ∧ (∀ i, 1 ≤ i < r → pending s t i = false) ∧
     (∀ i, 0 ≤ i → pending s' t i = negb (r =? i) && pending s t i) ∧
     (∀ u f, u ≠ t ∨ f ≠ signals_map → tasks s' u f = tasks s u f))).
Proof.
  intros H0 Hok. unfold signal_dequeue_yield. rewrite (proj2 (Z.eqb_neq _ _) H0).
  eapply wp_mono; [by apply dequeue_loop_spec|]. intros r s' [?|(Hr & Hp & Hlow & ->)]; [by left|].
  right. split_and!; try done; try lia.
  - intros i Hi. unfold pending. cbn [tasks set_tasks]. rewrite upd_eq. apply land_not_bit1; [done|lia|done].
  - intros u f [?|?]; cbn [tasks set_tasks]; [by rewrite upd_ne_task|by rewrite upd_ne_field].
Qed.

(** ** Sending *)

(** The state with [sig] pending for [t], before anybody is woken. *)
Definition posted (sig t : Z) (s : sys) : sys :=
  set_tasks (upd t signals_map (Z.lor (tasks s t signals_map) (bit1 sig))) s.

Lemma posted_eq sig t s : sched_eq s (posted sig t s).
Proof. by apply sched_eq_fld. Qed.

Lemma posted_pending sig t s i : 0 < sig < 32 → 0 ≤ i → pending (posted sig t s) t i = (sig =? i) || pending s t i.
Proof. intros. unfold pending, posted. cbn [tasks set_tasks]. rewrite upd_eq. apply lor_bit1; lia. Qed.

(** A signal interrupts the wait of [t]. *)
Definition interrupts (s : sys) (t : Z) : bool :=
  negb (tasks s t wq_node =? 0) && negb (tasks s t wq_state =? TASK_UNINTERRUPTIBLE).

Lemma signal_send_spec sig t s : sched_inv s → t ≠ 0 → 0 < sig < 32 →
  wp (signal_send sig t) s (λ _ s', wakes (if interrupts s t then [t] else []) (posted sig t s) s').
Proof.
  intros Hs H0 Hsig. unfold signal_send, SIG_Sentinel.
  rewrite (proj2 (Z.eqb_neq _ _) H0), (proj2 (Z.ltb_lt 0 sig)), (proj2 (Z.ltb_lt sig 32)) by lia.
  cbn [negb andb]. sys_steps. fold (posted sig t s).
  assert (sched_inv (posted sig t s)) as Hp by by rewrite <- posted_eq.
  unfold wq_signal_wake_up, wq_wake_specifiq, interrupts. sys_steps.
  replace (tasks (posted sig t s) t wq_state) with (tasks s t wq_state)
    by (unfold posted; cbn [tasks set_tasks]; by rewrite upd_ne_field).
  assert (tasks (posted sig t s) t wq_node = tasks s t wq_node) as En
    by (unfold posted; cbn [tasks set_tasks]; by rewrite upd_ne_field).
  destruct (Z.eqb_spec (tasks s t wq_state) TASK_UNINTERRUPTIBLE); cbn [negb].
  - rewrite andb_false_r. sys_steps. apply wakes_nil.
  - rewrite andb_true_r. destruct (Z.eqb_spec (tasks s t wq_node) 0) as [E|E]; cbn [negb].
    + unfold wp. rewrite wq_finish_unlinked by congruence. apply wakes_nil.
    + apply wq_finish_wakes; [done|done|congruence].
Qed.

Lemma signal_send_run sig t s : run_inv s → t ≠ 0 → signal_is_valid sig = true →
  wp (signal_send sig t) s (λ _ s', run_inv s' ∧
    (∀ u i, 0 ≤ i → pending s' u i = (bool_decide (u = t) && (sig =? i)) || pending s u i) ∧
    (if interrupts s t
     then tasks s' t state = TASK_RUNNING ∧ tasks s' t wq_node = 0 ∧ ready_queue s' = ready_queue s ++ [t]
     else tasks s' t state = tasks s t state ∧ tasks s' t wq_node = tasks s t wq_node ∧
          ready_queue s' = ready_queue s)).
Proof.
  intros Hs H0 Hv%valid_bounds. eapply wp_mono; [apply signal_send_spec; [apply Hs|done|done]|].
  intros [] s' Hk. assert (run_inv (posted sig t s)) as Hp by by rewrite <- posted_eq.
  assert (∀ f, f ≠ signals_map → tasks (posted sig t s) t f = tasks s t f) as Hf
    by (intros; unfold posted; cbn [tasks set_tasks]; by rewrite upd_ne_field).
  split_and!.
  - eapply wakes_run; [done| | |done]; destruct (interrupts s t) eqn:Ei; try set_solver.
    + apply NoDup_singleton.
    + apply NoDup_nil_2.
    + intros u ->%list_elem_of_singleton. unfold interrupts in Ei. to_prop. by rewrite Hf.
  - intros u i Hi. unfold pending.
    replace (tasks s' u signals_map) with (tasks (posted sig t s) u signals_map).
    2: { destruct (decide (u ∈ if interrupts s t then [t] else []));
           [by rewrite (wk_in _ _ _ Hk)|by rewrite (wk_out _ _ _ Hk)]. }
    case_bool_decide as Hu; subst; [by apply posted_pending|].
    unfold posted. cbn [tasks set_tasks]. by rewrite upd_ne_task.
  - destruct (wk_frame _ _ _ Hk) as (m & w & E).
    assert (ready_queue s' = ready_queue s ++ if interrupts s t then [t] else []) as -> by by subst s'.
    destruct (interrupts s t) eqn:Ei.
    + rewrite !(wk_in _ _ _ Hk) by set_solver. done.
    + rewrite !(wk_out _ _ _ Hk) by set_solver. rewrite !Hf, app_nil_r by done. done.
Qed.

(** Sending a valid signal adds exactly that signal to the pending set of
    the target and to no other task's; a target in an interruptible wait is
    taken out of its wait queue and made ready, any other target keeps its
    place; the scheduler invariant is kept. *)
Theorem signal_send_correct sig t s : run_inv s → t ≠ 0 → signal_is_valid sig = true →
  wp (signal_send sig t) s (λ _ s', run_inv s' ∧
    (∀ u i, 0 ≤ i → pending s' u i = (bool_decide (u = t) && (sig =? i)) || pending s u i) ∧
    (if interrupts s t
     then tasks s' t state = TASK_RUNNING ∧ tasks s' t wq_node = 0 ∧ ready_queue s' = ready_queue s ++ [t]
     else tasks s' t state = tasks s t state ∧ tasks s' t wq_node = tasks s t wq_node ∧
          ready_queue s' = ready_queue s)).
Proof. apply signal_send_run. Qed.

(** ** kill *)

Lemma find_task_spec p l : (0 ∉ l) →
  (find_task p l = 0 ∧ ∀ t, t ∈ l → p t = false) ∨
  (find_task p l ∈ l ∧ find_task p l ≠ 0 ∧ p (find_task p l) = true).
Proof.
  induction l as [|x l IH]; intros H0; cbn [find_task].
  - left. split; [done|]. intros t Ht%elem_of_nil. done.
  - destruct (p x) eqn:Hp.
    + right. split_and!; [set_solver| |done]. intros ->. set_solver.
    + destruct IH as [[E Hl]|(?&?&?)]; [set_solver|left|right; set_solver].
      split; [done|]. intros t [->|?]%elem_of_cons; auto.
Qed.

Lemma kill_pid_run n sig s : run_inv s → (0 ∉ info_queue s) →
  let cur := current_task s in
  wp (kill_pid n sig) s (λ r s',
    (r = - ESRCH ∧ s' = s ∧ ∀ t, t ∈ info_queue s → tasks s t pid ≠ n) ∨
    ∃ t, t ∈ info_queue s ∧ tasks s t pid = n ∧
      ((r = - EINVAL ∧ s' = s ∧ ¬ (0 < sig < 32)) ∨
       (r = - EPERM ∧ s' = s ∧ 0 < sig < 32 ∧ tasks s cur uid ≠ 0 ∧ tasks s cur uid ≠ tasks s t uid) ∨
       (r = SUCCESS ∧ 0 < sig < 32 ∧ (tasks s cur uid = 0 ∨ tasks s cur uid = tasks s t uid) ∧
        run_inv s' ∧ pending s' t sig = true ∧
        (interrupts s t = true → t ∈ ready_queue s' ∧ tasks s' t state = TASK_RUNNING)))).
Proof.
  intros Hs Hinfo cur. unfold kill_pid, task_find_by_pid. sys_steps.
  destruct (find_task_spec (λ t, tasks s t pid =? n) (info_queue s) Hinfo) as [[-> Hno]|(Hin & H0 & Hp)].
  - sys_steps. left. do 2 (split; [done|]). intros t Ht. by apply Z.eqb_neq, Hno.
  - apply Z.eqb_eq in Hp. set (t := find_task _ _) in *. rewrite (proj2 (Z.eqb_neq _ _) H0).
    destruct (signal_is_valid sig) eqn:Hv; cbn [negb].
    2: { sys_steps. right. exists t. do 2 (split; [done|]). left. do 2 (split; [done|]).
         rewrite <- valid_bounds. congruence. }
    pose proof (proj1 (valid_bounds sig) Hv) as Hb.
    assert (cur ≠ 0) as Hc0 by apply (ri_current _ Hs).
    unfold signal_check_perm, task_get_current_task. sys_steps. fold cur.
    rewrite (proj2 (Z.eqb_neq _ _) H0), (proj2 (Z.eqb_neq _ _) Hc0). cbn [orb]. sys_steps.
    assert (∀ P : Prop, P → wp (signal_send sig t ;; mret SUCCESS) s (λ r s', r = SUCCESS ∧ P ∧
      run_inv s' ∧ pending s' t sig = true ∧
        (interrupts s t = true → t ∈ ready_queue s' ∧ tasks s' t state = TASK_RUNNING))) as Hsend.
    { intros P HP. apply wp_bind. eapply wp_mono; [by apply signal_send_run|].
      intros [] s' (Hs' & Hpend & Hq). apply wp_ret. do 3 (split; [done|]). split.
      - rewrite Hpend by lia. by rewrite bool_decide_eq_true_2, Z.eqb_refl.
      - intros Hi. rewrite Hi in Hq. destruct Hq as (? & _ & ->). set_solver. }
    destruct (Z.eqb_spec (tasks s cur uid) 0) as [Hu|Hu]; [|sys_steps;
      destruct (Z.eqb_spec (tasks s cur uid) (tasks s t uid)) as [Hu2|Hu2]; cbn [negb]].
    + sys_steps. cbn [negb]. eapply wp_mono; [apply (Hsend (tasks s cur uid = 0)), Hu|].
      intros r s' H. right. exists t. do 2 (split; [done|]). naive_solver.
    + eapply wp_mono; [apply (Hsend (tasks s cur uid = tasks s t uid)), Hu2|].
      intros r s' H. right. exists t. do 2 (split; [done|]). naive_solver.
    + sys_steps. right. exists t. naive_solver.
Qed.

(** [kill] tells its errors apart, in this order: no task with the given
    pid is -ESRCH, a signal number outside 1..31 is -EINVAL, a caller that is
    neither root nor the owner of the target is -EPERM; each leaves the state
    as it was.  Otherwise the call returns 0 and sends the signal to a task
    with that pid. *)
Theorem kill_pid_correct n sig s : run_inv s → (0 ∉ info_queue s) →
  let cur := current_task s in
  wp (kill_pid n sig) s (λ r s',
    (r = - ESRCH ∧ s' = s ∧ ∀ t, t ∈ info_queue s → tasks s t pid ≠ n) ∨
    ∃ t, t ∈ info_queue s ∧ tasks s t pid = n ∧
      ((r = - EINVAL ∧ s' = s ∧ ¬ (0 < sig < 32)) ∨
       (r = - EPERM ∧ s' = s ∧ 0 < sig < 32 ∧ tasks s cur uid ≠ 0 ∧ tasks s cur uid ≠ tasks s t uid) ∨
       (r = SUCCESS ∧ 0 < sig < 32 ∧ (tasks s cur uid = 0 ∨ tasks s cur uid = tasks s t uid) ∧
        run_inv s' ∧ pending s' t sig = true ∧
        (interrupts s t = true → t ∈ ready_queue s' ∧ tasks s' t state = TASK_RUNNING)))).
Proof. apply kill_pid_run. Qed.
