(* ===== verification/ProcessThm.v ===== *)
(** * Process exit, waiting and context creation: theorems *)

From S2P Require Import Prelude Errno Memory Bitmap Task Sched SchedInv SchedThm Process SignalThm.

(** ** Reparenting *)

(** The children [l] of [p] have moved to [k]. *)
Record reparented (p k : Z) (s s' : sys) : Prop := {
  rp_frame : ∃ m c, s' = set_tasks (λ _, m) (set_children (λ _, c) s);
  rp_children q : children s' q = (if decide (q = k) then rev (children s p) else []) ++
                                  (if decide (q = p) then [] else children s q);
  rp_in t f : t ∈ children s p → (f = parent ∨ f = real_parent) → tasks s' t f = k;
  rp_out t f : (t ∈ children s p → f ≠ parent ∧ f ≠ real_parent) → tasks s' t f = tasks s t f }.

Lemma reparent_loop_spec fuel p k s : p ≠ k → (0 ∉ children s p) → (length (children s p) ≤ fuel)%nat →
  wp (reparent_loop fuel p k) s (λ _ s', reparented p k s s').
Proof.
  intros Hpk. remember (children s p) as l eqn:El. revert fuel s El.
  induction l as [|c l IH]; intros fuel s El H0 Hf.
  - assert (reparented p k s s) as Hid.
    { split.
      - exists (tasks s), (children s). by destruct s.
      - intros q. rewrite <- El. destruct (decide (q = k)), (decide (q = p)); subst; cbn; congruence.
      - rewrite <- El. intros t f []%elem_of_nil.
      - done. }
    destruct fuel; cbn [reparent_loop]; sys_steps; rewrite <- El; by apply wp_ret.
  - destruct fuel as [|fuel]; [cbn in Hf; lia|]. cbn [reparent_loop]. sys_steps. rewrite <- El.
    apply not_elem_of_cons in H0 as [Hc0 H0]. assert (c ≠ 0) by congruence. sys_steps.
    set (s1 := set_children _ _).
    assert (∀ q, children s1 q = if decide (q = k) then c :: children s k else if decide (q = p) then l else children s q)
      as Hch.
    { intros q. unfold s1. cbn [children set_children set_tasks].
      destruct (decide (q = k)) as [->|]; [rewrite fn_lookup_insert, fn_lookup_insert_ne; done|].
      rewrite fn_lookup_insert_ne by done.
      destruct (decide (q = p)) as [->|]; [by rewrite fn_lookup_insert|by rewrite fn_lookup_insert_ne]. }
    assert (∀ t f, tasks s1 t f = if decide (t = c ∧ (f = parent ∨ f = real_parent)) then k else tasks s t f) as Ht.
    { intros t f. unfold s1. cbn [tasks set_children set_tasks]. destruct (decide (t = c)) as [->|Hne].
      - destruct (decide (f = real_parent)) as [->|]; [rewrite upd_eq, decide_True by auto; done|].
        rewrite upd_ne_field by done. destruct (decide (f = parent)) as [->|];
          [rewrite upd_eq, decide_True by auto; done|]. rewrite upd_ne_field, decide_False by naive_solver. done.
      - rewrite !upd_ne_task, decide_False by naive_solver. done. }
    assert (children s1 p = l) as Hp1 by (rewrite Hch, decide_False, decide_True by done; done).
    eapply wp_mono; [apply IH; [done|done|cbn in Hf; lia]|].
    intros [] s2 [(m & g & E) Hc2 Hin Hout]. rewrite Hp1 in Hc2, Hin, Hout. split.
    + exists m, g. exact E.
    + intros q. rewrite Hc2, Hch, <- El. cbn [rev]. destruct (decide (q = k)) as [Ek|].
      * rewrite <- app_assoc. rewrite !decide_False by congruence. by rewrite Ek.
      * by destruct (decide (q = p)).
    + rewrite <- El. intros t f [->|Htl]%elem_of_cons Hf'; [|by apply Hin].
      destruct (decide (c ∈ l)); [by apply Hin|]. rewrite Hout by done. rewrite Ht, decide_True by done. done.
    + rewrite <- El. intros t f Hn. rewrite Hout by (intros; apply Hn; set_solver). rewrite Ht, decide_False; [done|].
      intros [-> ?]. destruct Hn; [set_solver|]. naive_solver.
Qed.

Lemma reparented_eq p k s s' : reparented p k s s' → sched_eq s s'.
Proof.
  intros H. destruct (rp_frame _ _ _ _ H) as (m & c & E). pose proof (rp_out _ _ _ _ H) as Ho.
  split; try by subst s'. intros t f Hf. apply Ho. intros _. by destruct f.
Qed.

(** ** Exit *)

(** What [task_exit_cleanup] gives back for one section. *)
Definition section_trace (s : sys) (sec : Z) : list effect :=
  if (sec =? 0) || (p_addr (sections s sec) =? 0) then [] else [EBuddyFree (p_addr (sections s sec))].

(** The calls of [task_exit_cleanup], the last one first. *)
Definition cleanup_trace (s : sys) (t : Z) : list effect :=
  (if tasks s t ring =? 0 then [] else [EDestroyPd (tasks s t cr3_)]) ++
  (if 0 <? tasks s t ring then [EVmaDestroyAreas t (tasks s t cr3_)] else []) ++
  section_trace s (tasks s t sig_trampoline) ++ section_trace s (tasks s t stack_sec) ++
  section_trace s (tasks s t data_sec) ++ section_trace s (tasks s t text_sec).

Definition set_effects (l : list effect) (s : sys) : sys :=
  Sys (tasks s) (sections s) (words s) (ready_queue s) (info_queue s) (children s) (waiters s)
    (current_task s) (idle_task s) (kitoxD_task s) (dummy_task s) (pid_manager s) (global_ticks s)
    (preempt_count s) (irqs s) l.

Lemma free_section_run sec s :
  free_section sec s = Done (tt, set_effects (section_trace s sec ++ effects s) s).
Proof.
  unfold free_section, section_trace, set_effects. destruct (sec =? 0); [by destruct s|].
  unfold mbind, M_bind, gets. cbn [orb]. by destruct (p_addr (sections s sec) =? 0); destruct s.
Qed.

Lemma task_exit_cleanup_spec t s : t ≠ 0 → tasks s t text_sec ≠ 0 →
  wp (task_exit_cleanup t) s (λ _ s', ∃ sec,
    s' = set_sections (λ _, sec) (set_effects (cleanup_trace s t ++ effects s) s)).
Proof.
  intros H0 Ht. unfold task_exit_cleanup.
  assert (∀ sec s (Q : unit → sys → Prop), Q tt (set_effects (section_trace s sec ++ effects s) s) →
    wp (free_section sec) s Q) as Hfree by (intros sec s1 Q HQ; unfold wp; by rewrite free_section_run).
  do 4 (sys_steps; apply Hfree). sys_steps. cbn [tasks set_effects]. rewrite (proj2 (Z.eqb_neq _ _) Ht).
  unfold cleanup_trace. rewrite <- !app_assoc.
  destruct (Z.ltb_spec 0 (tasks s t ring)) as [Hr|Hr].
  - rewrite (proj2 (Z.eqb_neq (tasks s t ring) 0)) by lia. sys_steps. eexists. reflexivity.
  - destruct (Z.eqb_spec (tasks s t ring) 0); sys_steps; eexists; reflexivity.
Qed.

(** The state in which the exiting task has become a zombie. *)
Lemma zombie_inv t s : sched_inv s → (t ∉ ready_queue s) → tasks s t wq_node = 0 →
  sched_inv (set_tasks (upd t state TASK_ZOMBIE) s).
Proof.
  intros Hs Hr Hn. set (s' := set_tasks _ s).
  assert (∀ u f, f ≠ state → tasks s' u f = tasks s u f) as Hf
    by (intros; unfold s'; cbn [tasks set_tasks]; by rewrite upd_ne_field).
  assert (∀ u, u ≠ t → tasks s' u state = tasks s u state) as Hst
    by (intros; unfold s'; cbn [tasks set_tasks]; by rewrite upd_ne_task).
  split; change (ready_queue s') with (ready_queue s); change (idle_task s') with (idle_task s);
    change (waiters s') with (waiters s).
  - apply Hs.
  - intros u Hu. destruct (si_ready _ Hs u Hu) as (? & ? & ? & ?). unfold entry_ok.
    rewrite Hst, !Hf by congruence. done.
  - apply Hs.
  - intros w u. rewrite Hf by done. apply (si_wait _ Hs).
  - intros u Hu0 Hun. rewrite Hf in Hun by done. destruct (si_waiting _ Hs u Hu0 Hun).
    unfold entry_ok. rewrite Hst, !Hf by congruence. done.
  - rewrite Hf by done. apply (si_idle _ Hs).
  - rewrite Hf by done. apply (si_null _ Hs).
  - intros u Hu. unfold schedulable in Hu. rewrite Hf in Hu by done.
    unfold canary. rewrite Hf by done. by apply (si_canary _ Hs).
Qed.

(** The state in which [do_exit] calls [schedule]: the caller is a zombie, its
    children have moved to init, its parent is awake, its memory is free. *)
Record exiting (kd status : Z) (s s' : sys) : Prop := {
  ex_inv : sched_inv s';
  ex_state : tasks s' (current_task s) state = TASK_ZOMBIE;
  ex_code : tasks s' (current_task s) exit_code = u32 (Z.shiftl (Z.land status 255) 8);
  ex_children q : children s' q =
    (if decide (q = kitoxD_task s) then rev (children s (current_task s)) else []) ++
    (if decide (q = current_task s) then [] else children s q);
  ex_parents c f : c ∈ children s (current_task s) → f = parent ∨ f = real_parent →
    tasks s' c f = kitoxD_task s;
  ex_ready : ready_queue s' = ready_queue s ++ waiters s (child_wq (tasks s (current_task s) real_parent));
  ex_woken : waiters s' (child_wq (tasks s (current_task s) real_parent)) = [];
  ex_frame : current_task s' = current_task s ∧ idle_task s' = idle_task s ∧
             dummy_task s' = dummy_task s ∧ ∀ t, canary s t → canary s' t;
  ex_effects : effects s' = cleanup_trace s (current_task s) ++ ELoadCr3 kd :: effects s }.

(** The caller of exit: an ordinary task, with a parent to wait for it. *)
Record may_exit (s : sys) : Prop := {
  me_init : kitoxD_task s ≠ 0;
  me_task : current_task s ≠ idle_task s ∧ current_task s ≠ dummy_task s ∧ current_task s ≠ kitoxD_task s;
  me_parent : tasks s (current_task s) real_parent ≠ 0;
  me_text : tasks s (current_task s) text_sec ≠ 0;
  me_children : 0 ∉ children s (current_task s) }.

Lemma zombie_wakes L s s2 s4 : run_inv s → sched_eq s s2 → L = waiters s2 (child_wq (tasks s (current_task s) real_parent)) →
  let c := current_task s in
  wakes L (set_tasks (upd c state TASK_ZOMBIE) s2) s4 →
  sched_inv s4 ∧ (c ∉ L) ∧ ready_queue s4 = ready_queue s ++ L ∧
  waiters s4 (child_wq (tasks s c real_parent)) = [] ∧ (∀ t, canary s t → canary s4 t) ∧
  ∀ t f, f ≠ state → f ≠ wq_head → f ≠ wq_handler → f ≠ wq_node → tasks s4 t f = tasks s2 t f.
Proof.
  intros Hs Heq EL c Hk. assert (run_inv s2) as Hs2 by by rewrite <- Heq.
  assert (current_task s2 = c) as Ec by apply (se_current _ _ Heq).
  assert (sched_inv (set_tasks (upd c state TASK_ZOMBIE) s2)) as Hz.
  { apply zombie_inv; rewrite <- ?Ec; [apply Hs2|apply (ri_off_queue _ Hs2)|apply (ri_unlinked _ Hs2)]. }
  destruct (waiters_wakeable _ (child_wq (tasks s c real_parent)) Hz) as [Hnd Hw].
  cbn [waiters set_tasks] in Hnd, Hw. fold c in EL. rewrite <- EL in Hnd, Hw.
  assert (c ∉ L) as Hout.
  { intros [? Hn]%Hw. cbn [tasks set_tasks] in Hn. rewrite upd_ne_field in Hn by done.
    rewrite <- Ec in Hn. by rewrite (ri_unlinked _ Hs2) in Hn. }
  split_and!; try done.
  - by eapply wakes_inv.
  - destruct (wk_frame _ _ _ Hk) as (m & w & ->). cbn [ready_queue with_queues set_tasks set_ready].
    by rewrite (se_ready _ _ Heq).
  - rewrite (wk_waiters _ _ _ Hk). cbn [waiters set_tasks]. rewrite <- EL. apply filter_none. tauto.
  - intros t Ht. apply (wakes_canary _ _ _ _ Hk). apply (sched_eq_canary _ _ _ Heq) in Ht.
    unfold canary in *. cbn [tasks words set_tasks]. by rewrite upd_ne_field.
  - intros t f ? ? ? ?. destruct (decide (t ∈ L)) as [Ht|Ht].
    + rewrite (wk_in _ _ _ Hk) by done. cbn [tasks set_tasks].
      destruct f; cbn [woken_fields]; try done; by rewrite upd_ne_field.
    + rewrite (wk_out _ _ _ Hk) by done. cbn [tasks set_tasks]. by rewrite upd_ne_field.
Qed.

(** [do_exit] up to its call of [schedule]. *)
Definition exit_prefix (kd status : Z) (cur parent_ : Z) : M sys unit :=
  set_fld cur exit_code (u32 (Z.shiftl (Z.land status 255) 8)) ;;
  q ← gets ready_queue ;
  (if bool_decide (cur ∈ q) then modify (set_ready (remove cur)) else mret tt) ;;
  c ← gets (λ s, length (children s cur)) ;
  __task_reparent_children c cur ;;
  set_fld cur state TASK_ZOMBIE ;;
  n ← gets (λ s, length (waiters s (child_wq parent_))) ;
  wq_wake_all n (child_wq parent_) ;;
  effect_ (ELoadCr3 kd) ;;
  task_exit_cleanup cur.

Lemma exit_prefix_spec kd status s : run_inv s → may_exit s →
  let c := current_task s in
  wp (exit_prefix kd status c (tasks s c real_parent)) s (λ _ s', exiting kd status s s').
Proof.
  intros Hs [Hk0 (Hci & Hcd & Hck) Hp0 Htx Hch] c. pose proof (ri_current _ Hs) as H0. fold c in H0, Hp0, Htx, Hch, Hck.
  unfold exit_prefix. sys_steps. cbn [ready_queue set_tasks].
  rewrite bool_decide_eq_false_2 by apply (ri_off_queue _ Hs). sys_steps.
  set (s1 := set_tasks (upd c exit_code _) s). assert (sched_eq s s1) as H1 by by apply sched_eq_fld.
  unfold __task_reparent_children, task_get_kitoxD. sys_steps.
  change (kitoxD_task s1) with (kitoxD_task s). rewrite (proj2 (Z.eqb_neq _ _) Hk0), (proj2 (Z.eqb_neq _ _) Hck).
  cbn [orb]. eapply wp_mono; [by apply reparent_loop_spec|]. intros [] s2 Hrp. sys_steps.
  assert (sched_eq s s2) as H2 by (etrans; [done|by apply (reparented_eq c (kitoxD_task s))]).
  set (L := waiters s2 (child_wq (tasks s c real_parent))).
  unfold wq_wake_all, child_wq at 1. rewrite (proj2 (Z.eqb_neq _ _) Hp0).
  eapply wp_mono; [apply wake_loop_wakes; [|done]|].
  { apply zombie_inv; rewrite <- ?H2; [apply Hs|..].
    - rewrite (se_ready _ _ H2). apply (ri_off_queue _ Hs).
    - rewrite (se_tasks _ _ H2) by done. apply (ri_unlinked _ Hs). }
  intros [] s4 Hk. change (wakes L (set_tasks (upd c state TASK_ZOMBIE) s2) s4) in Hk.
  destruct (zombie_wakes L s s2 s4 Hs H2 eq_refl Hk) as (Hs4 & Hout & Hr4 & Hw4 & Hc4 & Hf4). fold c in Hout, Hw4.
  assert (∀ f, f ≠ exit_code → f ≠ parent → f ≠ real_parent → f ≠ state → f ≠ wq_head → f ≠ wq_handler →
    f ≠ wq_node → tasks s4 c f = tasks s c f) as Hcf.
  { intros f ? ? ? ? ? ? ?. rewrite Hf4, (rp_out _ _ _ _ Hrp) by done. unfold s1. cbn [tasks set_tasks].
    by rewrite upd_ne_field. }
  sys_steps. eapply wp_mono; [apply task_exit_cleanup_spec; [done|]|].
  { cbn [tasks do_effect]. by rewrite Hcf. }
  intros [] s6 (sec & ->). destruct (wk_frame _ _ _ Hk) as (m & w & E4).
  destruct (rp_frame _ _ _ _ Hrp) as (m2 & ch & E2).
  split; cbn [tasks children ready_queue waiters current_task idle_task dummy_task effects
              set_sections set_effects do_effect]; fold c.
  - by apply (sched_eq_inv s4).
  - rewrite (wk_out _ _ _ Hk) by done. cbn [tasks set_tasks]. by rewrite upd_eq.
  - rewrite Hf4, (rp_out _ _ _ _ Hrp) by done. unfold s1. cbn [tasks set_tasks]. by rewrite upd_eq.
  - intros q. replace (children s4) with (children s2) by by subst s4. apply (rp_children _ _ _ _ Hrp).
  - intros x f Hx Hf. rewrite Hf4 by (destruct Hf as [-> | ->]; done). by apply (rp_in _ _ _ _ Hrp).
  - rewrite Hr4. unfold L. by rewrite (se_waiters _ _ H2).
  - exact Hw4.
  - split_and!; by subst s4 s2.
  - replace (effects s4) with (effects s) by by subst s4 s2.
    replace (cleanup_trace (do_effect (ELoadCr3 kd) s4) c) with (cleanup_trace s c); [done|].
    unfold cleanup_trace, section_trace. cbn [tasks sections do_effect].
    replace (sections s4) with (sections s) by by subst s4 s2. by rewrite !Hcf.
Qed.

Lemma wp_eq {S A} (c d : M S A) s Q : c s = d s → wp d s Q → wp c s Q.
Proof. unfold wp. by intros ->. Qed.

Lemma exit_code_value status : u32 (Z.shiftl (Z.land status 255) 8) = (status mod 256) * 256.
Proof.
  change 255 with (Z.ones 8). rewrite Z.land_ones, Z.shiftl_mul_pow2 by lia.
  change (2 ^ 8) with 256. apply u32_small. pose proof (Z.mod_pos_bound status 256). unfold W32. lia.
Qed.

Lemma do_exit_split kd status s : current_task s ≠ 0 → current_task s ≠ idle_task s →
  current_task s ≠ kitoxD_task s →
  do_exit kd status s = (exit_prefix kd status (current_task s) (tasks s (current_task s) real_parent) ;;
    b ← schedule ; if (b : bool) then mret tt else kpanic "Returned after `task_exit_cleanup()'") s.
Proof.
  intros H0 Hi Hk. unfold do_exit, exit_prefix, task_get_kitoxD, task_get_idle, task_get_current_task, fld.
  unfold mbind, M_bind, gets. rewrite (proj2 (Z.eqb_neq _ _) H0). cbn beta iota.
  rewrite (proj2 (Z.eqb_neq _ _) Hi), (proj2 (Z.eqb_neq _ _) Hk). cbn [orb].
  repeat (case_match; try done).
Qed.

Lemma do_exit_run kd status s : run_inv s → may_exit s →
  let c := current_task s in
  let wq := child_wq (tasks s c real_parent) in
  wp (do_exit kd status) s (λ _ s', run_inv s' ∧
    current_task s' ≠ c ∧ (c ∉ ready_queue s') ∧ (∀ w, c ∉ waiters s' w) ∧
    tasks s' c state = TASK_ZOMBIE ∧ tasks s' c exit_code = (status mod 256) * 256 ∧
    children s' c = [] ∧
    children s' (kitoxD_task s) = rev (children s c) ++ children s (kitoxD_task s) ∧
    (∀ x, x ∈ children s c → tasks s' x parent = kitoxD_task s) ∧
    (∀ t, t ∈ waiters s wq → tasks s' t state = TASK_RUNNING ∧ (t ∈ ready_queue s' ∨ current_task s' = t)) ∧
    effects s' = ESwitchTo c (current_task s') :: cleanup_trace s c ++ ELoadCr3 kd :: effects s).
Proof.
  intros Hs He c wq. pose proof He as [Hk0 (Hi & Hd & Hk) Hp0 Htx Hch].
  eapply wp_eq; [apply do_exit_split; [apply (ri_current _ Hs)|done|done]|].
  apply wp_bind. eapply wp_mono; [by apply exit_prefix_spec|].
  intros [] s1 [Hs1 Hz Hcode Hc1 Hpar Hr1 Hw1 (Ec & Ei & Ed & Hcan) Heff].
  fold c in Hz, Hcode, Hc1, Hpar, Hr1, Hw1, Ec, Heff. fold wq in Hr1, Hw1.
  assert (sched_pre s1) as Hp.
  { split; rewrite ?Ec, ?Ei; [done|apply (ri_current _ Hs)|apply Hcan, (ri_canary _ Hs)|done|].
    rewrite Hz. done. }
  assert (c ≠ 0) as H0 by apply (ri_current _ Hs).
  apply wp_bind. eapply wp_mono; [by apply schedule_inv|]. intros b s' [Hpost Hs'].
  pose proof (schedule_post_frame _ _ _ Hpost) as (Fw & _ & _ & _ & Ff & Fm).
  destruct (zombie_not_schedulable _ _ Hs1 Hz) as [Hzr Hzw].
  assert (∃ n rest, b = true ∧ switches n rest s1 s' ∧ n ≠ c ∧ (c ∉ rest)) as (n & rest & -> & Hsw & Hn & Hrest).
  { unfold schedule_post in Hpost. assert (requeue s1 = ready_queue s1) as Eq.
    { unfold requeue. rewrite bool_decide_eq_false_2; [done|]. rewrite Ec, Hz. naive_solver. }
    rewrite Eq in Hpost. destruct (ready_queue s1) as [|n rest].
    - rewrite Ec, Ei, decide_False in Hpost by done. exists (idle_task s), [].
      destruct Hpost. split_and!; [done|done|exact (not_eq_sym Hi)|set_solver].
    - exists n, rest. destruct Hpost. split_and!; [done|done|set_solver|set_solver]. }
  apply wp_ret. destruct (sw_frame _ _ _ _ Hsw) as (m & E').
  assert (current_task s' = n ∧ ready_queue s' = rest ∧ children s' = children s1 ∧
    effects s' = ESwitchTo (current_task s1) n :: effects s1) as (En & Er & Ech & Ee) by by subst s'.
  split; [done|]. rewrite En, Er, Ech. split; [done|]. split; [done|].
  split; [by intros w; rewrite Fw|]. split; [by rewrite (sw_out _ _ _ _ Hsw)|].
  split. { rewrite Ff, Hcode by done. apply exit_code_value. }
  split. { rewrite Hc1, decide_False, decide_True by done. done. }
  split. { rewrite Hc1, decide_True, decide_False by done. done. }
  split. { intros x Hx. rewrite Ff by done. apply Hpar; auto. }
  split; [|by rewrite Ee, Ec, Heff].
  intros t Ht. rewrite <- En, <- Er. destruct (Fm t) as [Hin|<-]; [rewrite Hr1; set_solver|..].
  - split; [|by left]. by apply (si_ready _ (ri_sched _ Hs')).
  - split; [|by right]. apply (ri_running _ Hs').
Qed.


(** ** Waiting for a child *)

Lemma task_release_run t s : t ≠ 0 →
  wp (task_release t) s (λ _ s', sched_eq s s' ∧
    children s' = <[tasks s t parent := remove t (children s (tasks s t parent))]> (children s) ∧
    info_queue s' = remove t (info_queue s) ∧
    pid_manager s' = id_manager_free (pid_manager s) (tasks s t pid) ∧
    effects s' = EKfree t :: EKfree (tasks s t kernel_stack_pointer) :: effects s).
Proof. intros H0. unfold task_release. sys_steps. split_and!; done. Qed.

(** A child [waitpid n] is waiting for. *)
Definition reapable (s : sys) (n z : Z) : Prop :=
  z ∈ children s (current_task s) ∧ tasks s z state = TASK_ZOMBIE ∧ (n = -1 ∨ tasks s z pid = n).

(** The zombie [z] has been reaped. *)
Record reaped (z status : Z) (s s' : sys) : Prop := {
  re_inv : run_inv s';
  re_children : children s' (current_task s) = remove z (children s (current_task s));
  re_info : info_queue s' = remove z (info_queue s);
  re_pid : pid_manager s' = id_manager_free (pid_manager s) (tasks s z pid);
  re_effects : effects s' = EKfree z :: EKfree (tasks s z kernel_stack_pointer) ::
    (if status =? 0 then [] else [ECopyToUser status [tasks s z exit_code]]) ++ effects s }.

Section Waitpid.
Context (copy_to_user : Z → list Z → sys → Z).

Lemma reap_spec z status s : run_inv s → z ≠ 0 → tasks s z parent = current_task s →
  wp (ret ← fld z pid ;
      code ← fld z exit_code ;
      r ← (if status =? 0 then mret 0 else gets (copy_to_user status [code])) ;
      if negb (r =? 0) then mret (Some (- EFAULT))
      else
        (if status =? 0 then mret tt else effect_ (ECopyToUser status [code])) ;;
        task_release z ;; mret (Some ret)) s
    (λ r s', (r = Some (- EFAULT) ∧ s' = s ∧ status ≠ 0 ∧ copy_to_user status [tasks s z exit_code] s ≠ 0) ∨
             (r = Some (tasks s z pid) ∧ reaped z status s s')).
Proof.
  intros Hs H0 Hp. sys_steps.
  assert (∀ s1, sched_eq s s1 → children s1 = children s → tasks s1 = tasks s → info_queue s1 = info_queue s →
    pid_manager s1 = pid_manager s →
    effects s1 = (if status =? 0 then [] else [ECopyToUser status [tasks s z exit_code]]) ++ effects s →
    wp (task_release z) s1 (λ _ s', reaped z status s s')) as Hrel.
  { intros s1 Heq Ec Et Ei Ep Ee. eapply wp_mono; [by apply task_release_run|].
    intros [] s' (Hq & Hc & Hi & Hm & Hf). rewrite Et, ?Ec in Hc. rewrite Et, Ep in Hm. rewrite Et, Ee in Hf.
    split; [by rewrite <- Hq, <- Heq| |congruence|done|done].
    by rewrite Hc, Hp, fn_lookup_insert. }
  destruct (Z.eqb_spec status 0) as [Es|Es]; sys_steps.
  - cbn [Z.eqb negb]. sys_steps. eapply wp_mono; [by apply Hrel|]. intros [] s' Hr. apply wp_ret. auto.
  - destruct (Z.eqb_spec (copy_to_user status [tasks s z exit_code] s) 0) as [Er|Er]; cbn [negb]; sys_steps.
    + eapply wp_mono; [by apply Hrel|]. intros [] s' Hr. apply wp_ret. auto.
    + by left.
Qed.

Lemma waitpid_run n status s : run_inv s →
  current_task s ≠ idle_task s → current_task s ≠ dummy_task s →
  (∀ c, c ∈ children s (current_task s) → c ≠ 0 ∧ tasks s c parent = current_task s) →
  let cur := current_task s in
  wp (sys_waitpid_round copy_to_user n status) s (λ r s',
    (r = Some (- EINVAL) ∧ s' = s ∧ (n = 0 ∨ n < -1)) ∨
    (r = Some (- ECHILD) ∧ s' = s ∧ ((children s cur = [] ∧ cur ≠ kitoxD_task s) ∨
       (0 < n ∧ ∀ c, c ∈ children s cur → tasks s c pid ≠ n))) ∨
    (∃ z, reapable s n z ∧
       ((r = Some (- EFAULT) ∧ s' = s ∧ status ≠ 0 ∧ copy_to_user status [tasks s z exit_code] s ≠ 0) ∨
        (r = Some (tasks s z pid) ∧ reaped z status s s'))) ∨
    (r = None ∧ (∀ z, ¬ reapable s n z) ∧ run_inv s' ∧ current_task s' ≠ cur ∧
       cur ∈ waiters s' (child_wq cur) ∧ tasks s' cur state = TASK_WAITING)).
Proof.
  intros Hs Hi Hd Hfam cur. unfold sys_waitpid_round, task_get_current_task, task_get_kitoxD.
  assert (cur ≠ 0) as H0 by apply (ri_current _ Hs).
  assert ((∀ z, ¬ reapable s n z) → wp (wq_prepare (child_wq cur) cur ;; schedule ;; mret None) s (λ (r : option Z) s',
    r = None ∧ (∀ z, ¬ reapable s n z) ∧ run_inv s' ∧ current_task s' ≠ cur ∧
       cur ∈ waiters s' (child_wq cur) ∧ tasks s' cur state = TASK_WAITING)) as Hsleep.
  { intros Hno. apply wp_bind. eapply wp_mono; [by apply (park_and_schedule (child_wq cur) s s)|].
    intros [] s1 Hsch. apply wp_bind. eapply wp_mono; [exact Hsch|].
    intros b s' (_ & ? & ? & ? & ? & _). by apply wp_ret. }
  destruct ((n =? 0) || (n <? -1)) eqn:En.
  { apply wp_ret. left. do 2 (split; [done|]). apply orb_true_iff in En as [?|?]; to_prop; lia. }
  sys_steps. fold cur. case_bool_decide as Hk.
  - destruct (Z.eqb_spec cur (kitoxD_task s)) as [Ek|Ek]; cbn [negb].
    + eapply wp_mono; [apply Hsleep|]; [|by intros r s' H; do 3 right].
      intros z [Hz _]. fold cur in Hz. rewrite Hk in Hz. by apply elem_of_nil in Hz.
    + sys_steps. right. left. auto.
  - unfold task_has_child_pid. sys_steps. fold cur.
    destruct (0 <? n) eqn:Hn; cbn [andb]; [destruct (existsb _ _) eqn:Hex; cbn [negb]|].
    2: { sys_steps. right. left. do 2 (split; [done|]). right. apply Z.ltb_lt in Hn. split; [done|].
         intros c Hc Hpc. assert (existsb (λ t, tasks s t pid =? n) (children s cur) = true) as Hx;
           [|by rewrite Hx in Hex].
         apply existsb_exists. exists c. split; [by apply list_elem_of_In|by apply Z.eqb_eq]. }
    all: unfold find_zombie_child; sys_steps.
    all: destruct (find_task_spec (λ t, (tasks s t state =? TASK_ZOMBIE) && ((n =? -1) || (tasks s t pid =? n)))
           (children s cur)) as [[-> Hno]|(Hin & Hz0 & Hp)]; [intros Hx%Hfam; naive_solver| |].
    all: try (set (z := find_task _ _) in *; rewrite (proj2 (Z.eqb_neq _ _) Hz0);
      eapply wp_mono; [apply (reap_spec z status s); [done|done|by apply Hfam]|];
      intros r s' Hr; right; right; left; exists z; split; [|done];
      to_prop; split_and!; [done|done|]; match goal with H : _ || _ = true |- _ =>
        apply orb_true_iff in H as [?|?]; to_prop; auto end).
    all: cbn [Z.eqb]; eapply wp_mono; [apply Hsleep|by intros r s' H; do 3 right].
    all: intros z (Hz & Hzs & Hzp); apply Hno in Hz; rewrite Hzs in Hz; cbn in Hz;
      apply orb_false_iff in Hz as [? ?]; to_prop; naive_solver.
Qed.

(** C28: [waitpid], one round of its loop.  A pid that is 0 or below -1 is
    -EINVAL; no child to wait for is -ECHILD (init waits instead); both leave
    the state as it was.  When a matching zombie child exists it is reaped:
    its pid is returned and freed for reuse, it leaves the lists of tasks, its
    exit status is copied out when asked for (-EFAULT, with nothing reaped,
    when that fails) and its stack and structure are freed, once each.
    Otherwise the caller sleeps on its own child queue and another task runs. *)
Theorem sys_waitpid_round_correct n status s : run_inv s →
  current_task s ≠ idle_task s → current_task s ≠ dummy_task s →
  (∀ c, c ∈ children s (current_task s) → c ≠ 0 ∧ tasks s c parent = current_task s) →
  let cur := current_task s in
  wp (sys_waitpid_round copy_to_user n status) s (λ r s',
    (r = Some (- EINVAL) ∧ s' = s ∧ (n = 0 ∨ n < -1)) ∨
    (r = Some (- ECHILD) ∧ s' = s ∧ ((children s cur = [] ∧ cur ≠ kitoxD_task s) ∨
       (0 < n ∧ ∀ c, c ∈ children s cur → tasks s c pid ≠ n))) ∨
    (∃ z, reapable s n z ∧
       ((r = Some (- EFAULT) ∧ s' = s ∧ status ≠ 0 ∧ copy_to_user status [tasks s z exit_code] s ≠ 0) ∨
        (r = Some (tasks s z pid) ∧ reaped z status s s'))) ∨
    (r = None ∧ (∀ z, ¬ reapable s n z) ∧ run_inv s' ∧ current_task s' ≠ cur ∧
       cur ∈ waiters s' (child_wq cur) ∧ tasks s' cur state = TASK_WAITING)).
Proof. apply waitpid_run. Qed.

End Waitpid.

(** ** The first context of a task *)

(** The words from [a] up, as [switch_to] pops them. *)
Definition stack_words (s : sys) (a : Z) (n : nat) : list Z :=
  map (λ i, words s (a + 4 * Z.of_nat i)) (seq 0 n).

Lemma word_eq (w : Z → Z) a x v : a = x → (<[a := v]> w : Z → Z) x = v.
Proof. intros ->. apply fn_lookup_insert. Qed.

Lemma mword_ne (w : Z → Z) a x v : a ≠ x → (<[a := v]> w : Z → Z) x = w x.
Proof. apply fn_lookup_insert_ne. Qed.

Lemma word_zeroed (w : Z → Z) a n x : a ≤ x < a + n → (if (a <=? x) && (x <? a + n) then 0 else w x) = 0.
Proof. intros. by rewrite (proj2 (Z.leb_le _ _)), (proj2 (Z.ltb_lt _ _)) by lia. Qed.

Lemma word_not_zeroed (w : Z → Z) a n x : x < a ∨ a + n ≤ x →
  (if (a <=? x) && (x <? a + n) then 0 else w x) = w x.
Proof. destruct (Z.leb_spec a x), (Z.ltb_spec x (a + n)); cbn; [lia|done..]. Qed.

(** Resolve the reads of a chain of word stores. *)
Ltac read_words :=
  repeat first
    [ rewrite word_eq by lia | rewrite mword_ne by lia
    | rewrite word_zeroed by lia | rewrite word_not_zeroed by lia ].

(** [task_craft_context] leaves a stack from which [switch_to] enters the
    new task: four zeroed callee-saved registers, then the return address.
    A kernel task returns to [entry]; a user task returns to [interrupt_exit],
    which finds right above it a trap frame that enters ring 3 at [entry] with
    zeroed general registers, user selectors, interrupts enabled and the top
    of the user stack.  Nothing else is written. *)
Theorem task_craft_context_correct interrupt_exit t (userspace : bool) entry s : t ≠ 0 →
  let base := tasks s t kernel_stack_base in
  let stack := sections s (tasks s t stack_sec) in
  let frame := if userspace then 76 else 0 in
  96 ≤ base < W32 →
  wp (task_craft_context interrupt_exit t userspace entry) s (λ _ s',
    tasks s' t esp = base - frame - 20 ∧
    (if userspace
     then stack_words s' (base - 96) 24 =
       [0; 0; 0; 0; interrupt_exit;
        35; 35; 35; 35;                                          (* gs fs es ds *)
        0; 0; 0; 0; 0; 0; 0; 0;                                  (* general registers *)
        0; 0;                                                    (* interrupt and error numbers *)
        entry; 27; 514; v_addr stack ⊞ mapping_size stack; 35]   (* eip cs eflags esp ss *)
     else stack_words s' (base - 20) 5 = [0; 0; 0; 0; entry]) ∧
    (∀ a, a < base - frame - 20 ∨ base ≤ a → words s' a = words s a) ∧
    s' = set_tasks (upd t esp (base - frame - 20)) (set_words (λ _, words s') s)).
Proof.
  intros H0 base stack frame Hb. unfold task_craft_context, stw, bzero_words. sys_steps.
  fold base. unfold frame, SIZEOF_TRAP_FRAME. clearbody base.
  assert (∀ k, 0 ≤ k ≤ 96 → u32 (base - k) = base - k) as Hu by (intros; apply u32_small; lia).
  assert (∀ j k, 0 ≤ j + k ≤ 96 → u32 (base - j - k) = base - j - k) as Hu2 by (intros; apply u32_small; lia).
  assert (∀ k, 0 ≤ k ≤ 16 → u32 (base - 76 - 4 - k) = base - 76 - 4 - k) as Hu3 by (intros; apply u32_small; lia).
  destruct userspace; sys_steps; rewrite !Hu, !Hu2, ?Hu3 by lia; cbn [tasks set_words set_tasks]; rewrite upd_eq;
    (split; [lia|]); split_and!; try (do 2 f_equal; lia); cbn [words set_words set_tasks stack_words map seq];
    unfold OFF_user_ss, OFF_user_esp, OFF_eflags, OFF_cs, OFF_eip, OFF_ds, OFF_es, OFF_fs, OFF_gs.
  - repeat (apply (f_equal2 cons); [read_words; done|]). done.
  - intros a Ha. read_words. done.
  - repeat (apply (f_equal2 cons); [read_words; done|]). done.
  - intros a Ha. read_words. done.
Qed.
