(* ===== verification/KernelSteps.v ===== *)
(** * The process subsystem as a state machine

    Every gate of the interrupt table masks interrupts (Idt.v), so timer
    ticks and system calls run one after the other: an execution is a
    sequence of [event]s.  The scheduler invariant holds in every reachable
    state, and no enabled event panics, faults or loops. *)

From stdpp Require Import relations.
From S2P Require Import Prelude Errno Memory Bitmap Task Sched SchedInv SchedThm.
From S2P Require Import Process SignalThm ProcessThm.

Inductive event :=
  | Tick                        (* timer interrupt *)
  | Yield                       (* schedule *)
  | Sleep (seconds : Z)         (* sleep system call *)
  | Exit (status : Z)           (* exit system call *)
  | Kill (pid_ sig : Z)         (* kill system call *)
  | Wait (pid_ status : Z)      (* a round of waitpid *)
  | Spawn (t : Z).              (* a new task is enqueued *)

Section Machine.
Context (kernel_directory : Z) (copy_to_user : Z → list Z → sys → Z).

Definition exec (e : event) : M sys unit :=
  match e with
  | Tick => timer_handle
  | Yield => schedule ;; mret tt
  | Sleep n => sys_sleep n ;; mret tt
  | Exit status => sys_exit kernel_directory status
  | Kill n sig => sys_kill n sig ;; mret tt
  | Wait n status => sys_waitpid_round copy_to_user n status ;; mret tt
  | Spawn t => sched_enqueue t ;; mret tt
  end.

(** An ordinary task is running: system calls come from these. *)
Definition ordinary (s : sys) : Prop :=
  current_task s ≠ idle_task s ∧ current_task s ≠ dummy_task s.

(** [t] is a task [task_get_new] has just made. *)
Record fresh (s : sys) (t : Z) : Prop := {
  fr_id : t ≠ 0 ∧ t ≠ idle_task s ∧ t ≠ current_task s;
  fr_queues : (t ∉ ready_queue s) ∧ tasks s t wq_node = 0;
  fr_entry : entry_ok s t;
  fr_canary : canary s t }.

Definition enabled (e : event) (s : sys) : Prop :=
  match e with
  | Tick | Yield => True
  | Sleep _ => ordinary s
  | Exit _ => may_exit s
  | Kill _ _ => 0 ∉ info_queue s
  | Wait _ _ => ordinary s ∧
      ∀ c, c ∈ children s (current_task s) → c ≠ 0 ∧ tasks s c parent = current_task s
  | Spawn t => fresh s t
  end.

Inductive step (s s' : sys) : Prop :=
  | step_event e : enabled e s → exec e s = Done (tt, s') → step s s'.

Lemma spawn_inv t s : run_inv s → fresh s t → wp (sched_enqueue t) s (λ r s', r = SUCCESS ∧ run_inv s').
Proof.
  intros Hs [(H0 & Hi & Hc) [Hr Hn] He Hcan]. unfold sched_enqueue. sys_steps.
  rewrite (proj2 (Z.eqb_neq _ _) H0), bool_decide_eq_false_2 by done. cbn [orb]. sys_steps. split; [done|].
  set (s' := set_ready _ _).
  assert (∀ u f, f ≠ state → tasks s' u f = tasks s u f) as Hf
    by (intros; unfold s'; cbn [tasks set_tasks set_ready]; by rewrite upd_ne_field).
  assert (∀ u, u ≠ t → tasks s' u state = tasks s u state) as Hst
    by (intros; unfold s'; cbn [tasks set_tasks set_ready]; by rewrite upd_ne_task).
  assert (tasks s' t state = TASK_RUNNING) as Htt by (unfold s'; cbn [tasks set_tasks set_ready]; by rewrite upd_eq).
  assert (∀ u, entry_ok s' u ↔ entry_ok s u) as Hent by (intros u; unfold entry_ok; by rewrite !Hf).
  assert (∀ u, canary s' u ↔ canary s u) as Hcn by (intros u; unfold canary; by rewrite !Hf).
  pose proof Hs as [Hsi Hc0 Hcr Hcu Hce Hcq Hcc].
  split; [split|..]; change (ready_queue s') with (ready_queue s ++ [t]);
    change (idle_task s') with (idle_task s); change (waiters s') with (waiters s);
    change (current_task s') with (current_task s); change (dummy_task s') with (dummy_task s).
  - apply NoDup_app. split_and!; [apply Hsi|set_solver|apply NoDup_singleton].
  - intros u [Hu|Hu%list_elem_of_singleton]%elem_of_app; rewrite Hent.
    + destruct (si_ready _ Hsi u Hu) as (? & ? & ? & ?). rewrite Hst, Hf by congruence. done.
    + subst u. rewrite Htt, Hf by done. done.
  - apply Hsi.
  - intros w u. rewrite Hf by done. apply (si_wait _ Hsi).
  - intros u Hu0 Hun. rewrite Hf in Hun by done. rewrite Hent.
    destruct (si_waiting _ Hsi u Hu0 Hun). rewrite Hst by congruence. done.
  - rewrite Hf by done. destruct (si_idle _ Hsi) as (? & ? & ?). set_solver.
  - rewrite Hf by done. apply (si_null _ Hsi).
  - intros u Hu. rewrite Hcn. destruct (decide (u = t)) as [->|Hne]; [done|]. apply (si_canary _ Hsi).
    unfold schedulable in *. rewrite Hf in Hu by done. cbn [ready_queue s' set_ready set_tasks] in Hu.
    change (idle_task s') with (idle_task s) in Hu. set_solver.
  - done.
  - rewrite Hst by done. done.
  - by rewrite Hf.
  - by rewrite Hent.
  - set_solver.
  - by rewrite Hcn.
Qed.

(** Every enabled event runs to completion and keeps the invariant. *)
Lemma exec_inv e s : run_inv s → enabled e s → wp (exec e) s (λ _ s', run_inv s').
Proof.
  intros Hs He. destruct e; cbn [exec enabled] in *.
  - eapply wp_mono; [by apply timer_handle_spec|]. by intros [] s' [? _].
  - apply wp_bind. eapply wp_mono; [apply schedule_inv, run_pre, Hs|]. by intros b s' [_ ?].
  - destruct He as [Hi Hd]. apply wp_bind. unfold sys_sleep, timer_ksleep, task_get_current_task. sys_steps.
    assert (current_task s ≠ 0) by apply (ri_current _ Hs). sys_steps.
    set (s0 := set_tasks (upd _ tick_to_wake _) s).
    eapply wp_mono; [apply (park_and_schedule sleep_wq s s0); [done|by apply sched_eq_fld|done..]|].
    intros [] s1 Hsch. eapply wp_mono; [exact Hsch|]. by intros b s' (_ & ? & _).
  - eapply wp_mono; [by apply do_exit_run|]. by intros [] s' [? _].
  - apply wp_bind. eapply wp_mono; [by apply kill_pid_run|].
    intros r s' [(_ & -> & _)|(t & _ & _ & [(_ & -> & _)|[(_ & -> & _)|(_ & _ & _ & ? & _)]])]; done.
  - destruct He as [[Hi Hd] Hfam]. apply wp_bind. eapply wp_mono; [by apply waitpid_run|].
    intros r s' [(_ & -> & _)|[(_ & -> & _)|[(z & _ & [(_ & -> & _)|[_ Hr]])|(_ & _ & ? & _)]]]; try done.
    apply (re_inv _ _ _ _ Hr).
  - apply wp_bind. eapply wp_mono; [by apply spawn_inv|]. by intros r s' [_ ?].
Qed.


End Machine.
