(* ===== verification/ProcessExample.v ===== *)
(** * A small system: the theorems of the process subsystem at work

    Init (300) waits for its children, task 400 runs, its child 500 is ready,
    its child 700 is a zombie, and 600 sleeps. *)

From stdpp Require Import relations.
From S2P Require Import Prelude Errno Memory Bitmap Task Sched SchedInv SchedThm.
From S2P Require Import Process SignalThm ProcessThm KernelSteps.

Definition demo_tasks (t : Z) (f : tfield) : Z :=
  match f with
  | pid | wq_task => t
  | parent | real_parent =>
      if t =? 400 then 300 else if (t =? 500) || (t =? 700) then 400 else if t =? 600 then 300 else 0
  | state =>
      if (t =? 300) || (t =? 600) then TASK_WAITING else if t =? 700 then TASK_ZOMBIE else TASK_RUNNING
  | wq_node | wq_head => if t =? 300 then child_wq 300 else if t =? 600 then sleep_wq else 0
  | kernel_stack_pointer => 4096
  | kernel_stack_base => 12288
  | text_sec => 16384
  | tick_to_wake => 50
  | quantum_remaining => DEFAULT_QUANTUM
  | exit_code => if t =? 700 then 256 else 0
  | _ => 0
  end.

Definition demo : sys :=
  Sys demo_tasks (λ _, zero_section) (λ _, STACK_CANARY_MAGIC) [500] [100; 300; 400; 500; 600; 700]
    (λ t, if t =? 400 then [500; 700] else if t =? 300 then [400; 600] else [])
    (λ w, if w =? child_wq 300 then [300] else if w =? sleep_wq then [600] else [])
    400 100 300 200 (id_manager_create PID_MAX (λ _, 0)) 0 0 true [].

Lemma demo_sched : sched_inv demo.
Proof.
  split.
  - apply NoDup_singleton.
  - by intros t ->%list_elem_of_singleton.
  - intros w. cbn [waiters demo]. repeat case_match; [apply NoDup_singleton..|apply NoDup_nil_2].
  - intros w t. cbn [waiters demo tasks demo_tasks]. unfold child_wq, sleep_wq.
    destruct (Z.eqb_spec w 300) as [->|]; [|destruct (Z.eqb_spec w (-1)) as [->|]];
      rewrite ?list_elem_of_singleton, ?elem_of_nil;
      (destruct (Z.eqb_spec t 300) as [->|]; [|destruct (Z.eqb_spec t 600) as [->|]]); naive_solver lia.
  - intros t _. cbn [tasks demo demo_tasks]. unfold entry_ok. cbn [tasks demo demo_tasks].
    destruct (t =? 300), (t =? 600); done.
  - split_and!; [done|set_solver|done].
  - done.
  - done.
Qed.

Lemma demo_run : run_inv demo.
Proof. split; try done; [apply demo_sched|right; right; done|set_solver]. Qed.

Lemma demo_exit : may_exit demo.
Proof. split; try done. cbn. set_solver. Qed.

Lemma demo_family c : c ∈ children demo (current_task demo) → c ≠ 0 ∧ tasks demo c parent = current_task demo.
Proof. cbn. by intros [->|[->|Hx%elem_of_nil]%elem_of_cons]%elem_of_cons. Qed.

Lemma wq_wake_all_terminates_witness : wp (wq_wake_all 1 300) demo (λ _ s',
    wakes (waiters demo 300) demo s' ∧ sched_inv s' ∧ waiters s' 300 = [] ∧
    ∀ w, w ≠ 300 → waiters s' w = waiters demo w).
Proof. apply (wq_wake_all_terminates 1 300 demo); [apply demo_sched|done|cbn; lia]. Defined.

Lemma schedule_correct_witness : wp schedule demo (λ b s', schedule_post demo b s' ∧ run_inv s').
Proof. apply (schedule_correct demo), run_pre, demo_run. Defined.

Lemma timer_handle_correct_witness : wp timer_handle demo (λ _ s', run_inv s').
Proof. eapply wp_mono; [apply (timer_handle_correct demo), demo_run|]. by intros ? ? [? _]. Defined.

Lemma round_robin_fair_witness : ∃ n, (n ≤ 10)%nat ∧ wp (ticks n) demo (λ _ s', current_task s' = 500).
Proof. apply (round_robin_fair demo 0 500); [apply demo_run|right; done|done]. Defined.


Lemma signal_dequeue_yield_correct_witness :
  wp (signal_dequeue_yield 400) (posted SIGTERM 400 demo) (λ r _, r = 0 ∨ 1 ≤ r < 32).
Proof.
  eapply wp_mono; [apply (signal_dequeue_yield_correct 400 (posted SIGTERM 400 demo)); done|].
  intros r s' [[-> _]|[? _]]; auto.
Defined.

Lemma signal_send_correct_witness :
  wp (signal_send SIGTERM 600) demo (λ _ s', ready_queue s' = [500; 600] ∧ pending s' 600 SIGTERM = true).
Proof.
  eapply wp_mono; [apply (signal_send_correct SIGTERM 600 demo); [apply demo_run|done|done]|].
  intros [] s' (_ & Hp & Hw). destruct Hw as (_ & _ & ->). split; [done|]. by rewrite Hp.
Defined.

Lemma kill_pid_correct_witness : wp (kill_pid 600 SIGTERM) demo (λ r _, r ≤ 0).
Proof.
  eapply wp_mono; [apply (kill_pid_correct 600 SIGTERM demo); [apply demo_run|set_solver]|].
  unfold ESRCH, EINVAL, EPERM, SUCCESS. naive_solver lia.
Defined.


Lemma sys_waitpid_round_correct_witness :
  wp (sys_waitpid_round (λ _ _ _, 0) (-1) 0) demo (λ r s', r = Some 700 ∧ children s' 400 = [500]).
Proof.
  eapply wp_mono; [apply (sys_waitpid_round_correct (λ _ _ _, 0) (-1) 0 demo);
    [apply demo_run|done|done|apply demo_family]|].
  intros r s' [(_ & _ & ?)|[(_ & _ & [[? _]|[? _]])|[(z & (Hz & Hs & _) & [(_ & _ & ? & _)|[-> Hr]])|(_ & Hno & _)]]];
    try done; try lia.
  - assert (z = 700) as ->.
    { cbn in Hz. apply elem_of_cons in Hz as [->|[->|Hx%elem_of_nil]%elem_of_cons]; done. }
    split; [done|]. apply (re_children _ _ _ _ Hr).
  - destruct (Hno 700). split_and!; [cbn; set_solver|done|by left].
Defined.

Lemma task_craft_context_correct_witness :
  wp (task_craft_context 3222274048 500 false 3222275072) demo (λ _ s',
    stack_words s' 12268 5 = [0; 0; 0; 0; 3222275072]).
Proof.
  eapply wp_mono; [apply (task_craft_context_correct 3222274048 500 false 3222275072 demo); done|].
  by intros [] s' (_ & ? & _).
Defined.

