(* ===== verification/Gdt.v ===== *)
(** * Segmentation (src/arch/x86/gdt.c, include/arch/x86.h, include/arch/tss.h)

    The descriptor table [gdt_init] builds, the task state segment it points
    to and the segment registers it loads.  [quad] is the packed descriptor as
    the processor finds it in memory; the functions [seg_...] are the
    processor's reading of a descriptor, so that the theorems say what the
    table means and not only what the code writes. *)

From S2P Require Import Prelude Task.

(** ** Data *)

Definition GDT_MAX_ENTRIES : Z := 6.

Definition SEGMENT_SIZE_BIT : Z := 4.
Definition GRANULARITY_BIT : Z := 8.

Definition ACCESS_BIT : Z := 1.
Definition RW_BIT : Z := 2.
Definition EXECUTABLE_BIT : Z := 8.
Definition DESCRIPTOR_TYPE : Z := 16.
Definition DPL_RING0 : Z := 0.
Definition DPL_RING3 : Z := 96.
Definition PRESENT_BIT : Z := 128.

Definition GDT_IDX_NULL : Z := 0.
Definition GDT_IDX_KERNEL_CODE : Z := 1.
Definition GDT_IDX_KERNEL_DATA : Z := 2.
Definition GDT_IDX_USER_CODE : Z := 3.
Definition GDT_IDX_USER_DATA : Z := 4.
Definition GDT_IDX_TSS : Z := 5.

Definition GET_RING (dpl_bitmask : Z) : Z := Z.shiftr dpl_bitmask 5.

Record segment_descriptor := SegmentDescriptor {
  limit_low : Z; base_low : Z; base_middle : Z; access : Z;
  limit_high : Z; seg_flags : Z; base_high : Z }.

Record gdtr := Gdtr { gdtr_limit : Z; gdtr_base : Z }.

(** The fields of [struct tss] with their widths, in order. *)
Definition tss_layout : list (string * Z) :=
  [("link", 2); ("", 2); ("esp0", 4); ("ss0", 2); ("", 2); ("esp1", 4); ("ss1", 2); ("", 2);
   ("esp2", 4); ("ss2", 2); ("", 2); ("cr3", 4); ("eip", 4); ("eflags", 4); ("eax", 4); ("ecx", 4);
   ("edx", 4); ("ebx", 4); ("esp", 4); ("ebp", 4); ("esi", 4); ("edi", 4); ("es", 2); ("", 2);
   ("cs", 2); ("", 2); ("ss", 2); ("", 2); ("ds", 2); ("", 2); ("fs", 2); ("", 2); ("gs", 2); ("", 2);
   ("ldt", 2); ("", 2); ("", 2); ("iomap", 2)].

Definition SIZEOF_TSS : Z := foldr (λ f n, f.2 + n) 0 tss_layout.

(** The fields of [g_tss] the kernel writes; the others keep their 0. *)
Record tss := Tss { esp0 : Z; ss0 : Z; iomap : Z }.

Definition SIZEOF_SEGMENT_DESCRIPTOR : Z := 8.

Record seg_regs := SegRegs { reg_ds : Z; reg_es : Z; reg_fs : Z; reg_gs : Z; reg_ss : Z; reg_cs : Z; reg_tr : Z }.

Record gstate := GState {
  gdt_entries : Z → segment_descriptor;
  gdt_gdtr : gdtr;
  g_tss : tss;
  cpu_gdtr : gdtr;
  cpu_segs : seg_regs }.

(** ** Operations *)

Definition gdt_set_entry (base limit acc fl : Z) : segment_descriptor :=
  {| limit_low := Z.land limit 65535;
     base_low := Z.land base 65535;
     base_middle := Z.land (Z.shiftr base 16) 255;
     access := acc;
     limit_high := Z.land (Z.shiftr limit 16) 15;
     seg_flags := Z.land fl 15;
     base_high := Z.land (Z.shiftr base 24) 255 |}.

Definition set_entry (i base limit acc fl : Z) (s : gstate) : gstate :=
  GState (<[i := gdt_set_entry base limit acc fl]> (gdt_entries s)) (gdt_gdtr s) (g_tss s) (cpu_gdtr s) (cpu_segs s).

Definition get_gdtr (s : gstate) : gdtr := gdt_gdtr s.

Definition set_tss_to_kstack_top (stack_top : Z) (s : gstate) : gstate :=
  GState (gdt_entries s) (gdt_gdtr s) (Tss stack_top (ss0 (g_tss s)) (iomap (g_tss s))) (cpu_gdtr s) (cpu_segs s).

Section Init.
(** The addresses the linker gives to [gdt_entries], [g_tss] and
    [kernel_stack_top]. *)
Context (gdt_addr tss_addr kernel_stack_top : Z).

Definition GDT_COMMON_ACCESS : Z :=
  Z.lor (Z.lor (Z.lor ACCESS_BIT RW_BIT) PRESENT_BIT) DESCRIPTOR_TYPE.
Definition GDT_FLAGS : Z := Z.lor SEGMENT_SIZE_BIT GRANULARITY_BIT.
Definition GDT_KERNEL_ACCESS : Z := Z.lor GDT_COMMON_ACCESS DPL_RING0.
Definition GDT_USER_ACCESS : Z := Z.lor GDT_COMMON_ACCESS DPL_RING3.

Definition gdt_table (s : gstate) : gstate :=
  let s := set_entry GDT_IDX_NULL 0 0 0 0 s in
  let s := set_entry GDT_IDX_KERNEL_CODE 0 16777215 (Z.lor GDT_KERNEL_ACCESS EXECUTABLE_BIT) GDT_FLAGS s in
  let s := set_entry GDT_IDX_KERNEL_DATA 0 16777215 GDT_KERNEL_ACCESS GDT_FLAGS s in
  let s := set_entry GDT_IDX_USER_CODE 0 16777215 (Z.lor GDT_USER_ACCESS EXECUTABLE_BIT) GDT_FLAGS s in
  let s := set_entry GDT_IDX_USER_DATA 0 16777215 GDT_USER_ACCESS GDT_FLAGS s in
  set_entry GDT_IDX_TSS tss_addr (SIZEOF_TSS - 1)
    (Z.lor (Z.lor (Z.lor PRESENT_BIT DPL_RING0) EXECUTABLE_BIT) ACCESS_BIT) 0 s.

(** The assignments after the table, and what [lgdtl], the moves to the
    segment registers, [ljmp] and [ltr] load. *)
Definition gdt_init (s : gstate) : gstate :=
  let s := gdt_table s in
  let r := Gdtr (SIZEOF_SEGMENT_DESCRIPTOR * GDT_MAX_ENTRIES - 1) gdt_addr in
  GState (gdt_entries s) r (Tss kernel_stack_top 16 SIZEOF_TSS) r
    (SegRegs 16 16 16 16 16 8 40).

End Init.

(** ** The processor's reading of a descriptor *)

(** The eight bytes of the packed structure as a little-endian word. *)
Definition quad (d : segment_descriptor) : Z :=
  limit_low d + Z.shiftl (base_low d) 16 + Z.shiftl (base_middle d) 32 + Z.shiftl (access d) 40 +
  Z.shiftl (limit_high d) 48 + Z.shiftl (seg_flags d) 52 + Z.shiftl (base_high d) 56.

Definition bits (q lo n : Z) : Z := Z.shiftr q lo mod 2 ^ n.

Definition seg_base (q : Z) : Z := bits q 16 24 + Z.shiftl (bits q 56 8) 24.
Definition seg_raw_limit (q : Z) : Z := bits q 0 16 + Z.shiftl (bits q 48 4) 16.
Definition seg_granular (q : Z) : bool := bits q 55 1 =? 1.

(** The last byte of the segment. *)
Definition seg_limit (q : Z) : Z :=
  if seg_granular q then (seg_raw_limit q + 1) * 4096 - 1 else seg_raw_limit q.

Definition seg_type (q : Z) : Z := bits q 40 4.
Definition seg_code_data (q : Z) : bool := bits q 44 1 =? 1.
Definition seg_dpl (q : Z) : Z := bits q 45 2.
Definition seg_present (q : Z) : bool := bits q 47 1 =? 1.

(** The descriptor a selector names, when it is within the limit of the table. *)
Definition select (s : gstate) (sel : Z) : option Z :=
  if Z.land sel 65528 + 7 <=? gdtr_limit (cpu_gdtr s) then Some (quad (gdt_entries s (Z.shiftr sel 3))) else None.

(** ** Theorems *)

Lemma land_ones n a m : m = Z.ones n → 0 ≤ n → Z.land a m = a mod 2 ^ n.
Proof. intros -> Hn. by apply Z.land_ones. Qed.

(** What [gdt_set_entry] packs is what the processor unpacks: the base
    exactly, the limit truncated to 20 bits, the access byte and the flags. *)
Lemma gdt_set_entry_fields base limit acc fl :
  0 ≤ base < W32 → 0 ≤ limit < W32 → 0 ≤ acc < 256 → 0 ≤ fl < 16 →
  let q := quad (gdt_set_entry base limit acc fl) in
  seg_base q = base ∧ seg_raw_limit q = limit mod 2 ^ 20 ∧ bits q 40 8 = acc ∧ bits q 52 4 = fl.
Proof.
  intros Hb Hl Ha Hf. cbn zeta.
  assert (quad (gdt_set_entry base limit acc fl) = limit mod 2 ^ 16 + base mod 2 ^ 16 * 2 ^ 16 + base / 2 ^ 16 mod 2 ^ 8 * 2 ^ 32 + acc * 2 ^ 40 +
    limit / 2 ^ 16 mod 2 ^ 4 * 2 ^ 48 + fl mod 2 ^ 4 * 2 ^ 52 + base / 2 ^ 24 mod 2 ^ 8 * 2 ^ 56) as ->.
  { unfold quad, gdt_set_entry. cbn [limit_low base_low base_middle access limit_high seg_flags base_high].
    rewrite !(land_ones 16 _ 65535), !(land_ones 8 _ 255), !(land_ones 4 _ 15) by done.
    by rewrite !Z.shiftl_mul_pow2, !Z.shiftr_div_pow2 by lia. }
  unfold seg_base, seg_raw_limit, bits, W32 in *.
  rewrite !Z.shiftl_mul_pow2, !Z.shiftr_div_pow2 by lia.
  change (2 ^ 0) with 1. change (2 ^ 4) with 16. change (2 ^ 8) with 256. change (2 ^ 16) with 65536.
  change (2 ^ 20) with 1048576. change (2 ^ 24) with 16777216. change (2 ^ 32) with 4294967296.
  change (2 ^ 40) with 1099511627776. change (2 ^ 48) with 281474976710656.
  change (2 ^ 52) with 4503599627370496. change (2 ^ 56) with 72057594037927936.
  split_and!; Z.div_mod_to_equations; lia.
Qed.

(** A segment descriptor means what it was made from: unpacking the bytes
    [gdt_set_entry] packs gives back the base, the limit modulo 2^20, the
    access byte and the flags. *)
Theorem gdt_set_entry_roundtrip base limit acc fl :
  0 ≤ base < W32 → 0 ≤ limit < W32 → 0 ≤ acc < 256 → 0 ≤ fl < 16 →
  let q := quad (gdt_set_entry base limit acc fl) in
  seg_base q = base ∧ seg_raw_limit q = limit mod 2 ^ 20 ∧ bits q 40 8 = acc ∧ bits q 52 4 = fl.
Proof. apply gdt_set_entry_fields. Qed.

Lemma bits_sub q lo m i n : 0 ≤ lo → 0 ≤ i → 0 ≤ n → i + n ≤ m →
  bits q (lo + i) n = bits (bits q lo m) i n.
Proof.
  intros Hlo Hi Hn Hm. unfold bits. apply Z.bits_inj_iff'. intros k Hk.
  rewrite <- !Z.land_ones, !Z.land_spec, !Z.shiftr_spec, Z.land_spec, !Z.shiftr_spec by lia.
  destruct (decide (k < n)) as [Hlt|Hge].
  - rewrite (Z.ones_spec_low m) by lia. rewrite andb_true_r. by replace (k + i + lo) with (k + (lo + i)) by lia.
  - by rewrite (Z.ones_spec_high n) by lia; rewrite !andb_false_r.
Qed.

(** The fields of the access byte and of the flags. *)
Lemma descriptor_access q acc fl : bits q 40 8 = acc → bits q 52 4 = fl →
  seg_type q = bits acc 0 4 ∧ seg_code_data q = (bits acc 4 1 =? 1) ∧ seg_dpl q = bits acc 5 2 ∧
  seg_present q = (bits acc 7 1 =? 1) ∧ seg_granular q = (bits fl 3 1 =? 1).
Proof.
  intros <- <-. unfold seg_type, seg_code_data, seg_dpl, seg_present, seg_granular.
  by rewrite <- !bits_sub by lia.
Qed.

(** [q] is a present segment of the given ring that covers the whole linear
    address space; [code] tells code segments from writable data segments. *)
Definition flat_segment (q : Z) (ring : Z) (code : bool) : Prop :=
  seg_present q = true ∧ seg_code_data q = true ∧ seg_base q = 0 ∧ seg_limit q = W32 - 1 ∧
  seg_dpl q = ring ∧ seg_type q = if code then 11 else 3.

Lemma flat_entry (ring : Z) (code : bool) acc : 0 ≤ acc < 256 →
  acc = 147 + 32 * ring + (if code then 8 else 0) → ring = 0 ∨ ring = 3 →
  flat_segment (quad (gdt_set_entry 0 16777215 acc GDT_FLAGS)) ring code.
Proof.
  intros Ha -> Hr. destruct (gdt_set_entry_fields 0 16777215 (147 + 32 * ring + (if code then 8 else 0)) GDT_FLAGS)
    as (Hb & Hl & Hac & Hfl); [done..|]. unfold flat_segment, seg_limit.
  destruct (descriptor_access _ _ _ Hac Hfl) as (-> & -> & -> & -> & ->). rewrite Hb, Hl.
  destruct Hr as [-> | ->], code; vm_compute; intuition congruence.
Qed.

Lemma select_entry s sel i d : gdt_entries s i = d → Z.shiftr sel 3 = i → Z.land sel 65528 = 8 * i →
  i < 6 → gdtr_limit (cpu_gdtr s) = 47 → select s sel = Some (quad d).
Proof.
  intros <- <- E Hi Hl. unfold select. rewrite E, Hl. by rewrite (proj2 (Z.leb_le _ _)) by lia.
Qed.

(** After [gdt_init] the processor uses the new table; the kernel's code
    and data selectors, the ones it has loaded, and the user selectors the
    kernel puts in trap frames name present flat 4 GiB segments of rings 0
    and 3; TR names an available 32-bit TSS that covers exactly [g_tss], whose
    ring-0 stack is the kernel's, with no I/O permission bitmap; no selector
    past the sixth entry is usable. *)
Theorem gdt_init_correct (gdt_addr tss_addr kernel_stack_top : Z) (s : gstate) : 0 ≤ tss_addr < W32 →
  let s' := gdt_init gdt_addr tss_addr kernel_stack_top s in
  let r := cpu_segs s' in
  gdtr_base (cpu_gdtr s') = gdt_addr ∧
  (∃ q, select s' (reg_cs r) = Some q ∧ flat_segment q 0 true) ∧
  (∀ sel, sel ∈ [reg_ds r; reg_es r; reg_fs r; reg_gs r; reg_ss r; ss0 (g_tss s')] →
     ∃ q, select s' sel = Some q ∧ flat_segment q 0 false) ∧
  (∃ q, select s' USER_CS = Some q ∧ flat_segment q 3 true) ∧
  (∃ q, select s' USER_DS = Some q ∧ flat_segment q 3 false) ∧
  (∃ q, select s' (reg_tr r) = Some q ∧ seg_present q = true ∧ seg_code_data q = false ∧ seg_type q = 9 ∧
     seg_base q = tss_addr ∧ seg_limit q = SIZEOF_TSS - 1 ∧ seg_limit q < iomap (g_tss s')) ∧
  esp0 (g_tss s') = kernel_stack_top ∧
  ∀ sel, 48 ≤ sel < 65536 → select s' sel = None.
Proof.
  intros Ht s' r. split; [done|]. split_and!.
  - exists (quad (gdt_set_entry 0 16777215 (Z.lor GDT_KERNEL_ACCESS EXECUTABLE_BIT) GDT_FLAGS)). split; [exact (select_entry s' 8 1 _ eq_refl eq_refl eq_refl eq_refl eq_refl)|]. apply (flat_entry 0 true); [done|done|auto].
  - intros sel Hsel. assert (sel = 16) as -> by (unfold r in Hsel; cbn in Hsel; set_solver).
    exists (quad (gdt_set_entry 0 16777215 (GDT_KERNEL_ACCESS) GDT_FLAGS)). split; [exact (select_entry s' 16 2 _ eq_refl eq_refl eq_refl eq_refl eq_refl)|]. apply (flat_entry 0 false); [done|done|auto].
  - exists (quad (gdt_set_entry 0 16777215 (Z.lor GDT_USER_ACCESS EXECUTABLE_BIT) GDT_FLAGS)). split; [exact (select_entry s' USER_CS 3 _ eq_refl eq_refl eq_refl eq_refl eq_refl)|]. apply (flat_entry 3 true); [done|done|auto].
  - exists (quad (gdt_set_entry 0 16777215 (GDT_USER_ACCESS) GDT_FLAGS)). split; [exact (select_entry s' USER_DS 4 _ eq_refl eq_refl eq_refl eq_refl eq_refl)|]. apply (flat_entry 3 false); [done|done|auto].
  - set (acc := Z.lor (Z.lor (Z.lor PRESENT_BIT DPL_RING0) EXECUTABLE_BIT) ACCESS_BIT).
    exists (quad (gdt_set_entry tss_addr (SIZEOF_TSS - 1) acc 0)). split; [exact (select_entry s' 40 5 _ eq_refl eq_refl eq_refl eq_refl eq_refl)|].
    destruct (gdt_set_entry_fields tss_addr (SIZEOF_TSS - 1) acc 0) as (Hb & Hl & Hac & Hfl); [done..|].
    unfold seg_limit. destruct (descriptor_access _ _ _ Hac Hfl) as (-> & -> & _ & -> & ->).
    rewrite Hb, Hl. split_and!; done.
  - done.
  - intros sel Hsel. unfold select. change (gdtr_limit (cpu_gdtr s')) with 47.
    rewrite (proj2 (Z.leb_gt _ _)); [done|].
    assert (Z.land sel 65528 = sel - sel mod 8) as ->.
    { change 65528 with (Z.land (Z.ones 16) (Z.lnot (Z.ones 3))).
      rewrite Z.land_assoc, (Z.land_ones _ 16), Z.mod_small by lia. by apply land_lnot_ones. }
    pose proof (Z.mod_pos_bound sel 8). Z.div_mod_to_equations; lia.
Qed.

Lemma gdt_set_entry_roundtrip_witness :
  let q := quad (gdt_set_entry 3222274048 103 137 0) in
  seg_base q = 3222274048 ∧ seg_raw_limit q = 103 mod 2 ^ 20 ∧ bits q 40 8 = 137 ∧ bits q 52 4 = 0.
Proof. apply (gdt_set_entry_roundtrip 3222274048 103 137 0); unfold W32; lia. Defined.

Definition zero_gstate : gstate :=
  GState (λ _, SegmentDescriptor 0 0 0 0 0 0 0) (Gdtr 0 0) (Tss 0 0 0) (Gdtr 0 0) (SegRegs 0 0 0 0 0 0 0).

Lemma gdt_init_correct_witness :
  let s' := gdt_init 3222274048 3222278144 3222294528 zero_gstate in
  (∃ q, select s' USER_CS = Some q ∧ flat_segment q 3 true) ∧ esp0 (g_tss s') = 3222294528.
Proof.
  intros s'. destruct (gdt_init_correct 3222274048 3222278144 3222294528 zero_gstate)
    as (_ & _ & _ & H1 & _ & _ & H2 & _); [unfold W32; lia|]. split; [exact H1|exact H2].
Defined.
