(* ===== verification/Idt.v ===== *)
(** * Interrupts (src/arch/x86/idt.c)

    The gates [idt_init] installs, read the way the processor reads them, the
    programming of the interrupt controllers as the sequence of port writes,
    and the dispatch of exceptions to the registered handlers. *)

From S2P Require Import Prelude Gdt.

(** ** Data *)

Record idt_entry := IdtEntry {
  offset_1 : Z; selector : Z; idt_zero : Z; type_attributes : Z; offset_2 : Z }.

Definition IntGate_32 : Z := 14.
Definition TrapGate_32 : Z := 15.
Definition CPU_Ring0 : Z := Z.shiftl 0 5.
Definition CPU_Ring3 : Z := Z.shiftl 3 5.
Definition PresentBit : Z := Z.shiftl 1 7.

Definition IDT_SIZE : Z := 256.
Definition SYS_INT : Z := 128.

Definition PIC1_COMMAND : Z := 32.
Definition PIC1_DATA : Z := 33.
Definition PIC2_COMMAND : Z := 160.
Definition PIC2_DATA : Z := 161.

Definition ICW1_ICW4 : Z := 1.
Definition ICW1_INIT : Z := 16.
Definition ICW4_8086 : Z := 1.

Definition interrupt_names : list string :=
  ["Divide Error"; "Debug Exception"; "NMI Interrupt"; "Breakpoint"; "Overflow"; "BOUND Range Exceeded";
   "Invalid Opcode (Undefined Opcode)"; "Device Not Available (Math Coprocessor)"; "Double Fault";
   "Coprocessor Segment Overrun (reserved)"; "Invalid TSS"; "Segment Not Present"; "Stack-Segment Fault";
   "General Protection"; "Page Fault"; "Reserved"; "x87 FPU Floating-Point Error (Math Fault)";
   "Alignment Check"; "Machine Check"; "SIMD Floating-Point Exception"; "Virtualization Exception";
   "Control Protection Exception"; "Reserved"; "Reserved"; "Reserved"; "Reserved"; "Reserved"; "Reserved";
   "Hypervisor Injection Exception"; "VMM Communication Exception"; "Security Exception"; "Reserved"].

Record idtr := Idtr { idtr_limit : Z; idtr_base : Z }.

(** [Outb port value]: a byte written to a port. *)
Inductive port_write := Outb (port value : Z).

Section Idt.
(** The handlers are functions on a state [S]; the addresses of the stubs of
    isr.s and irq.s and of the table are the linker's. *)
Context {S : Type}.
Context (isr irq : Z → Z) (idt_addr : Z).

Definition handler : Type := M S unit.

Record istate := IState {
  idt_entries : Z → idt_entry;
  interrupt_handlers : Z → option handler;
  ports : list port_write;
  cpu_idtr : option idtr;
  cpu_IF : bool }.

(** ** Operations *)

Definition outb (port value : Z) (s : istate) : istate :=
  IState (idt_entries s) (interrupt_handlers s) (ports s ++ [Outb port value]) (cpu_idtr s) (cpu_IF s).

Definition init_pic (s : istate) : istate :=
  let s := outb PIC1_COMMAND (Z.lor ICW1_INIT ICW1_ICW4) s in
  let s := outb PIC2_COMMAND (Z.lor ICW1_INIT ICW1_ICW4) s in
  let s := outb PIC1_DATA 32 s in
  let s := outb PIC2_DATA 40 s in
  let s := outb PIC1_DATA 4 s in
  let s := outb PIC2_DATA 2 s in
  let s := outb PIC1_DATA ICW4_8086 s in
  let s := outb PIC2_DATA ICW4_8086 s in
  let s := outb PIC1_DATA 0 s in
  outb PIC2_DATA 0 s.

(** [idt_set_entry] leaves the field [zero] as it is. *)
Definition idt_set_entry (e : idt_entry) (sel ty offset : Z) : idt_entry :=
  IdtEntry (Z.land offset 65535) sel (idt_zero e) ty (Z.shiftr (Z.land offset 4294901760) 16).

Definition set_gate (v ring stub : Z) (s : istate) : istate :=
  IState (<[v := idt_set_entry (idt_entries s v) 8 (Z.lor (Z.lor PresentBit IntGate_32) ring) stub]> (idt_entries s))
    (interrupt_handlers s) (ports s) (cpu_idtr s) (cpu_IF s).

(** The gates in the order of the source: exceptions, the lines of the
    interrupt controllers, the system call. *)
Definition gates : list (Z * Z * Z) :=
  map (λ v, (v, CPU_Ring0, isr v)) (seqZ 0 32) ++ map (λ v, (v, CPU_Ring0, irq v)) (seqZ 32 16) ++
  [(SYS_INT, CPU_Ring3, irq SYS_INT)].

Definition set_gates (l : list (Z * Z * Z)) (s : istate) : istate :=
  foldl (λ s '(v, ring, stub), set_gate v ring stub s) s l.

(** [ft_bzero] on the table. *)
Definition clear_idt (s : istate) : istate :=
  IState (λ v, if (0 <=? v) && (v <? IDT_SIZE) then IdtEntry 0 0 0 0 0 else idt_entries s v)
    (interrupt_handlers s) (ports s) (cpu_idtr s) (cpu_IF s).

(** [lidt; sti]. *)
Definition lidt_sti (r : idtr) (s : istate) : istate :=
  IState (idt_entries s) (interrupt_handlers s) (ports s) (Some r) true.

Definition idt_init (s : istate) : istate :=
  lidt_sti (Idtr (8 * IDT_SIZE - 1) idt_addr) (set_gates gates (clear_idt (init_pic s))).

Definition idt_register_interrupt_handlers (num : Z) (h : handler) (s : istate) : istate :=
  IState (idt_entries s) (<[u8 num := Some h]> (interrupt_handlers s)) (ports s) (cpu_idtr s) (cpu_IF s).

Definition exception_handler (s : istate) (int_no : Z) : M S unit :=
  if (0 <=? int_no) && (int_no <? 256) then
    match interrupt_handlers s int_no with
    | Some h => h
    | None =>
        if int_no <? Z.of_nat (length interrupt_names) then
          kpanic (String.append "Exception: " (nth (Z.to_nat int_no) interrupt_names ""))
        else kpanic "Unknown Exception"
    end
  else fault.

(** ** The processor's reading of a gate *)

Definition gate_offset (e : idt_entry) : Z := offset_1 e + Z.shiftl (offset_2 e) 16.
Definition gate_type (e : idt_entry) : Z := bits (type_attributes e) 0 5.
Definition gate_dpl (e : idt_entry) : Z := bits (type_attributes e) 5 2.
Definition gate_present (e : idt_entry) : bool := bits (type_attributes e) 7 1 =? 1.

(** ** Theorems *)

Lemma set_gates_cons v r p l s : set_gates ((v, r, p) :: l) s = set_gates l (set_gate v r p s).
Proof. done. Qed.

Lemma set_gates_out l v s : (∀ r p, (v, r, p) ∉ l) → idt_entries (set_gates l s) v = idt_entries s v.
Proof.
  revert s. induction l as [|[[v' r'] p'] l IH]; intros s Hv; [done|]. rewrite set_gates_cons.
  rewrite IH by (intros r p Hin; apply (Hv r p); set_solver). cbn [set_gate idt_entries].
  apply fn_lookup_insert_ne. intros ->. apply (Hv r' p'). set_solver.
Qed.

Lemma set_gates_in l v r p s : NoDup (l.*1.*1) → (v, r, p) ∈ l →
  idt_entries (set_gates l s) v = idt_set_entry (idt_entries s v) 8 (Z.lor (Z.lor PresentBit IntGate_32) r) p.
Proof.
  revert s. induction l as [|[[v' r'] p'] l IH]; intros s Hnd Hin; [by apply elem_of_nil in Hin|].
  cbn in Hnd. apply NoDup_cons in Hnd as [Hn Hnd]. rewrite set_gates_cons.
  apply elem_of_cons in Hin as [[= -> -> ->]|Hin].
  - rewrite set_gates_out; [cbn [set_gate idt_entries]; by rewrite fn_lookup_insert|].
    intros r p Hin. apply Hn. apply list_elem_of_fmap. exists (v', r). split; [done|].
    apply list_elem_of_fmap. by exists (v', r, p).
  - rewrite (IH _ Hnd Hin). cbn [set_gate idt_entries]. rewrite fn_lookup_insert_ne; [done|].
    intros ->. apply Hn. apply list_elem_of_fmap. exists (v, r). split; [done|].
    apply list_elem_of_fmap. by exists (v, r, p).
Qed.

(** The stub of a vector, and its vectors. *)
Definition stub (v : Z) : Z := if v <? 32 then isr v else irq v.

Lemma gates_iff v r p : (v, r, p) ∈ gates ↔
  (0 ≤ v < 48 ∧ r = CPU_Ring0 ∨ v = SYS_INT ∧ r = CPU_Ring3) ∧ p = stub v.
Proof.
  unfold gates, stub, SYS_INT. rewrite !elem_of_app, list_elem_of_singleton, !list_elem_of_fmap. split.
  - intros [(x & [= -> -> ->] & Hx%elem_of_seqZ)|[(x & [= -> -> ->] & Hx%elem_of_seqZ)|[= -> -> ->]]].
    + rewrite (proj2 (Z.ltb_lt _ _)) by lia. split; [left; split; [lia|done]|done].
    + rewrite (proj2 (Z.ltb_ge _ _)) by lia. split; [left; split; [lia|done]|done].
    + split; [by right|done].
  - intros [[[Hv ->]|[-> ->]] ->]; [|by right; right]. destruct (Z.ltb_spec v 32).
    + left. exists v. split; [done|]. apply elem_of_seqZ. lia.
    + right. left. exists v. split; [done|]. apply elem_of_seqZ. lia.
Qed.

Lemma gate_offset_set e sel ty o : 0 ≤ o < W32 → gate_offset (idt_set_entry e sel ty o) = o.
Proof.
  intros Ho. unfold gate_offset, idt_set_entry. cbn [offset_1 offset_2].
  assert (Z.land o 4294901760 = o - o mod 65536) as ->.
  { change 4294901760 with (Z.land (Z.ones 32) (Z.lnot (Z.ones 16))).
    rewrite Z.land_assoc, (Z.land_ones _ 32), Z.mod_small by (unfold W32 in Ho; lia). by apply land_lnot_ones. }
  change 65535 with (Z.ones 16). rewrite Z.land_ones, Z.shiftl_mul_pow2, Z.shiftr_div_pow2 by lia.
  change (2 ^ 16) with 65536. unfold W32 in Ho. Z.div_mod_to_equations; lia.
Qed.

Lemma gates_NoDup : NoDup (gates.*1.*1).
Proof.
  assert (gates.*1.*1 = seqZ 0 48 ++ [SYS_INT]) as -> by done.
  apply NoDup_app. split_and!; [apply NoDup_seqZ| |apply NoDup_singleton].
  intros x Hx%elem_of_seqZ ->%list_elem_of_singleton. unfold SYS_INT in Hx. lia.
Qed.

Lemma lidt_entries r s : idt_entries (lidt_sti r s) = idt_entries s.
Proof. done. Qed.

Lemma clear_idt_entry s v : 0 ≤ v < IDT_SIZE → idt_entries (clear_idt s) v = IdtEntry 0 0 0 0 0.
Proof.
  intros Hv. unfold clear_idt. cbn [idt_entries]. by rewrite (proj2 (Z.leb_le _ _)), (proj2 (Z.ltb_lt _ _)) by lia.
Qed.

Lemma idt_init_in s v r : 0 ≤ v < IDT_SIZE → (v, r, stub v) ∈ gates →
  idt_entries (idt_init s) v =
    idt_set_entry (IdtEntry 0 0 0 0 0) 8 (Z.lor (Z.lor PresentBit IntGate_32) r) (stub v).
Proof.
  intros Hv Hr. unfold idt_init. rewrite lidt_entries, (set_gates_in gates v r (stub v) _ gates_NoDup Hr).
  by rewrite clear_idt_entry.
Qed.

Lemma idt_init_out s v : 0 ≤ v < IDT_SIZE → 48 ≤ v → v ≠ SYS_INT →
  idt_entries (idt_init s) v = IdtEntry 0 0 0 0 0.
Proof.
  intros Hv H48 Hs. unfold idt_init. rewrite lidt_entries, set_gates_out; [by apply clear_idt_entry|].
  intros r p [Hc _]%gates_iff. lia.
Qed.

Lemma gate_set_fields r o : 0 ≤ o < W32 → r = CPU_Ring0 ∨ r = CPU_Ring3 →
  let e := idt_set_entry (IdtEntry 0 0 0 0 0) 8 (Z.lor (Z.lor PresentBit IntGate_32) r) o in
  gate_present e = true ∧ gate_type e = IntGate_32 ∧ selector e = 8 ∧ idt_zero e = 0 ∧
  gate_offset e = o ∧ gate_dpl e = if decide (r = CPU_Ring3) then 3 else 0.
Proof. intros Ho Hr e. unfold e. rewrite gate_offset_set by done. by destruct Hr as [-> | ->]. Qed.

(** The interrupt table.  After [idt_init] exactly the vectors 0 to 47 and
    0x80 are present; each of their gates goes to the stub of that vector in
    the kernel's code segment and is a 32-bit interrupt gate, so the processor
    enters the kernel with interrupts disabled; software can raise only the
    system call (its gate alone is of ring 3); the processor uses the table. *)
Theorem idt_init_correct (s : istate) (v : Z) :
  (∀ v, 0 ≤ isr v < W32) → (∀ v, 0 ≤ irq v < W32) → 0 ≤ v < IDT_SIZE →
  let s' := idt_init s in
  let e := idt_entries s' v in
  cpu_idtr s' = Some (Idtr 2047 idt_addr) ∧ cpu_IF s' = true ∧
  (gate_present e = true ↔ 0 ≤ v < 48 ∨ v = SYS_INT) ∧
  (gate_present e = true → gate_type e = IntGate_32 ∧ selector e = 8 ∧ idt_zero e = 0 ∧
     gate_offset e = stub v ∧ gate_dpl e = if decide (v = SYS_INT) then 3 else 0).
Proof.
  intros Hisr Hirq Hv s' e. split; [reflexivity|]. split; [reflexivity|].
  assert (0 ≤ stub v < W32) as Hstub by (unfold stub; case_match; auto).
  unfold e, s'. destruct (decide (v = SYS_INT)) as [E|E]; [|destruct (decide (v < 48)) as [Hlt|Hge]].
  - rewrite (idt_init_in s v CPU_Ring3) by (done || apply gates_iff; auto).
    destruct (gate_set_fields CPU_Ring3 (stub v)) as (Hp & Hf); [done|by right|]. split; [split; auto|]. done.
  - rewrite (idt_init_in s v CPU_Ring0) by (done || (apply gates_iff; split; [left; split; [lia|done]|done])).
    destruct (gate_set_fields CPU_Ring0 (stub v)) as (Hp & Hf); [done|by left|]. split; [|done].
    split; [intros _; left; lia|done].
  - rewrite idt_init_out by (done || lia). split; [|done]. split; [done|]. lia.
Qed.

(** Dispatch.  A vector runs the handler registered last for it; an
    exception without a handler panics with its name, and another vector
    without one panics too. *)
Theorem exception_handler_correct (s : istate) (num : Z) (h : handler) (v : Z) (st : S) :
  0 ≤ num < 256 → 0 ≤ v < 256 →
  exception_handler (idt_register_interrupt_handlers num h s) v st =
    if decide (v = num) then h st
    else match interrupt_handlers s v with
         | Some h' => h' st
         | None => if decide (v < 32) then Panic (String.append "Exception: " (nth (Z.to_nat v) interrupt_names ""))
                   else Panic "Unknown Exception"
         end.
Proof.
  intros Hn Hv. unfold exception_handler, idt_register_interrupt_handlers. cbn [interrupt_handlers].
  rewrite (proj2 (Z.leb_le _ _)), (proj2 (Z.ltb_lt _ _)) by lia. cbn [andb].
  unfold u8. rewrite Z.mod_small by lia. destruct (decide (v = num)) as [->|Hne].
  { by rewrite fn_lookup_insert. }
  rewrite fn_lookup_insert_ne by done. case_match; [done|].
  change (Z.of_nat (length interrupt_names)) with 32. destruct (Z.ltb_spec v 32), (decide (v < 32)); done || lia.
Qed.

End Idt.

(** ** The theorems at work *)

Definition zero_istate : istate (S := unit) :=
  IState (λ _, IdtEntry 0 0 0 0 0) (λ _, None) [] None false.

Definition sample_isr (v : Z) : Z := u32 (1048576 + 16 * v).

Lemma idt_init_correct_witness :
  let s' := idt_init sample_isr sample_isr 3222274048 zero_istate in
  let e := idt_entries s' 14 in
  cpu_idtr s' = Some (Idtr 2047 3222274048) ∧ cpu_IF s' = true ∧
  (gate_present e = true ↔ 0 ≤ 14 < 48 ∨ 14 = SYS_INT) ∧
  (gate_present e = true → gate_type e = IntGate_32 ∧ selector e = 8 ∧ idt_zero e = 0 ∧
     gate_offset e = 1048800 ∧ gate_dpl e = 0).
Proof.
  apply (idt_init_correct sample_isr sample_isr 3222274048 zero_istate 14).
  - intros v. apply u32_range.
  - intros v. apply u32_range.
  - unfold IDT_SIZE. lia.
Defined.
