(* ===== verification/VmmWords.v ===== *)
(** * Paging: which words of memory the operations write

    VmmThm says what mapping and unmapping do to one address space.  When two
    directories are in play, as in fork, the words they leave alone matter
    too. *)

From S2P Require Import Prelude Dlist Memory Page Buddy BuddyInv BuddySpec BuddyThm PageAlloc.
From S2P Require Import BootAlloc Vmm VmmThm.

Section Words.
Context {S : Type} `{PageAllocatorLaws S}.
Implicit Types st : vmm S.

(** The page table of an address was found ([new = false]) or installed. *)
Record table_for (d v t : Z) (new : bool) st st' : Prop := {
  tf_old : new = false → present (entry (pmem st) d (GET_PDE_INDEX v)) = true ∧
    t = table (pmem st) d (GET_PDE_INDEX v) ∧ palloc st' = palloc st;
  tf_new : new = true → present (entry (pmem st) d (GET_PDE_INDEX v)) = false ∧ low_frame t ∧
    ¬ pa_taken (palloc st) t ∧ pa_ok (palloc st') ∧ pa_owned (palloc st') t 0 ∧
    (∀ j, pa_taken (palloc st) j → pa_taken (palloc st') j) ∧
    ∀ p o, pa_owned (palloc st) p o → pa_owned (palloc st') p o }.

(** The words after mapping: [x] in the table entry, [e] in the directory
    entry, zeroes in the rest of a new table. *)
Definition map_words (d v t x e : Z) (new : bool) (m : Z → Z) (a : Z) : Z :=
  if decide (a = t * 4096 + 4 * GET_PTE_INDEX v) then x
  else if decide (a = d * 4096 + 4 * GET_PDE_INDEX v) then e
  else if new && bool_decide (t * 4096 ≤ a < t * 4096 + 4096) then 0 else m a.

Record mapped (d v x t e : Z) (new : bool) st st' : Prop := {
  md_words : ∀ a, pmem st' a = map_words d v t x e new (pmem st) a;
  md_entry : 0 ≤ e < W32 ∧ present e = true ∧ GET_ENTRY_ADDR e = t * 4096;
  md_cr3 : cr3 st' = cr3 st;
  md_table : table_for d v t new st st' }.

Lemma wp_map_page_table_words st d i flags (Q : option (Z * bool) → vmm S → Prop) :
  pd_ok st d → 0 ≤ i < 1024 → 0 ≤ flags →
  (present (entry (pmem st) d i) = false → Q None st) →
  (∀ b e m, present (entry (pmem st) d i) = true → 0 ≤ e < W32 → same_entry e (entry (pmem st) d i) →
     (∀ a, m a = if decide (a = d * 4096 + 4 * i) then e else pmem st a) →
     Q (Some (table (pmem st) d i * 4096 + KERNEL_VADDR_BASE, b)) (Vmm m (palloc st) (cr3 st) (flushes st))) →
  (∀ t s e, present (entry (pmem st) d i) = false → low_frame t → ¬ pa_taken (palloc st) t → pa_ok s →
     pa_owned s t 0 → (∀ j, pa_taken (palloc st) j → pa_taken s j) →
     (∀ p o, pa_owned (palloc st) p o → pa_owned s p o) → 0 ≤ e < W32 → present e = true →
     GET_ENTRY_ADDR e = t * 4096 → Q (Some (t * 4096 + KERNEL_VADDR_BASE, true)) (install st s d i t e)) →
  wp (map_page_table ((d * 4096 + KERNEL_VADDR_BASE) ⊞ 4 * i) flags) st Q.
Proof.
  intros Hok Hi Hfl HQ0 HQ1 HQ2. pose proof (pk_frame _ _ Hok) as Hf. unfold map_page_table.
  pose proof (pk_entry _ _ Hok i Hi) as Her.
  wp_step. apply wp_ldw; [done..|]. fold (entry (pmem st) d i). change PDE_PRESENT_BIT with 1.
  destruct (FLAG_IS_SET (entry (pmem st) d i) 1) eqn:Ep; cbn [negb].
  - destruct (pk_table _ _ Hok i Hi Ep) as (Ht & _). unfold low_frame in Ht.
    assert (∀ (b : bool) e m, 0 ≤ e < W32 → same_entry e (entry (pmem st) d i) →
      (∀ a, m a = if decide (a = d * 4096 + 4 * i) then e else pmem st a) →
      wp (e ← ldw ((d * 4096 + KERNEL_VADDR_BASE) ⊞ 4 * i) ;
          pt_virt ← PHYS_TO_VIRT_LINEAR (GET_ENTRY_ADDR e) ;
          mret (Some (pt_virt, b))) (Vmm m (palloc st) (cr3 st) (flushes st)) Q) as Htail.
    { intros b e m He Hs Hm. wp_step. apply wp_ldw; [done..|]. cbn [pmem]. rewrite Hm, decide_True by done.
      destruct Hs as [Hs1 Hs2]. rewrite Hs2, table_addr by done. wp_step. apply wp_lin; [lia|]. apply wp_ret.
      eapply HQ1; done. }
    destruct (FLAG_IS_SET flags PDE_US_BIT && negb (FLAG_IS_SET (entry (pmem st) d i) PDE_US_BIT)).
    + wp_step. apply wp_stw; [done..|]. destruct (user_entry _ Her) as [He Hs].
      apply (Htail _ (Z.lor (entry (pmem st) d i) PDE_US_BIT)); [done..|]. intros a. by rewrite pm_insert.
    + wp_step. apply wp_ret. replace st with (Vmm (pmem st) (palloc st) (cr3 st) (flushes st)) by (by destruct st).
      apply (Htail _ (entry (pmem st) d i)); [done..|]. intros a. case_decide; [by subst|done].
  - wp_step. apply wp_lift_pa. eapply wp_mono; [apply pa_alloc_law; [apply Hok|done]|].
    intros r s [[-> ->]|(t & -> & Hrun & Hz & Hs & Hown & Hkeep & Hkown)].
    { simpl. apply wp_ret. destruct st. by apply HQ0. }
    rewrite order_PAGE_SIZE in *. apply lowmem_frame in Hz as Ht. change PAGE_SIZE with 4096.
    rewrite (proj2 (Z.eqb_neq (t * 4096) 0)) by (unfold low_frame in Ht; lia).
    wp_step. apply wp_lin; [unfold low_frame in Ht; lia|].
    wp_step. apply wp_assert; [by apply lin_nonzero|]. wp_step. unfold bzero_page. apply wp_modify.
    wp_step. apply wp_stw; [done..|]. apply wp_ret.
    destruct (map_entry_flags t flags Ht Hfl) as (He & Hea & Hep).
    set (e := Z.lor _ (Z.land flags PDE_US_BIT)) in *.
    rewrite (u32_small (t * 4096 + KERNEL_VADDR_BASE - KERNEL_VADDR_BASE))
      by (unfold low_frame, W32 in *; lia).
    replace (t * 4096 + KERNEL_VADDR_BASE - KERNEL_VADDR_BASE) with (t * 4096) by lia.
    change (set_pmem _ _) with (install st s d i t e).
    assert (in_block t 0 t) as Hb by (unfold in_block; simpl; lia).
    apply HQ2; try done.
    + intros Htk. by apply (proj2 (Hkeep t Htk)).
    + intros j Hj. by apply Hkeep.
Qed.

Lemma wp_map_page_words st d v p flags : pd_ok st d → 0 ≤ v < W32 → 0 ≤ flags →
  wp (vmm_map_page (d * 4096) v p flags) st (λ r st',
    (r = false ∧ st' = st ∧ present (entry (pmem st) d (GET_PDE_INDEX v)) = false) ∨
    (r = true ∧ ∃ t e new, mapped d v (Z.lor p flags) t e new st st')).
Proof.
  intros Hok Hv Hfl. destruct (index_range v Hv) as [Hi Hj]. pose proof (pk_frame _ _ Hok) as Hf.
  unfold vmm_map_page. wp_step. apply wp_lin; [unfold low_frame in Hf; lia|].
  wp_step. apply wp_assert; [by apply lin_nonzero|]. wp_step.
  assert (∀ t e new (b : bool) st1, low_frame t → 0 ≤ e < W32 → present e = true → GET_ENTRY_ADDR e = t * 4096 →
    cr3 st1 = cr3 st → table_for d v t new st st1 →
    (∀ a, pmem st1 a = if decide (a = d * 4096 + 4 * GET_PDE_INDEX v) then e
       else if new && bool_decide (t * 4096 ≤ a < t * 4096 + 4096) then 0 else pmem st a) →
    wp (assert_ (negb (t * 4096 + KERNEL_VADDR_BASE =? 0)) ;;
        Vmm.stw ((t * 4096 + KERNEL_VADDR_BASE) ⊞ 4 * GET_PTE_INDEX v) (Z.lor p flags) ;;
        current_pd ← get_current_page_directory_phys ;
        (if current_pd =? d * 4096 then
           if b then paging_reload_cr3 (d * 4096) else paging_invalid_TLB_addr v
         else mret tt) ;;
        mret true) st1 (λ r st', r = true ∧ ∃ t e new, mapped d v (Z.lor p flags) t e new st st')) as Htail.
  { intros t e new b st1 Ht He Hep Hea Hc Htf Hw.
    wp_step. apply wp_assert; [by apply lin_nonzero|]. wp_step. apply wp_stw; [done..|].
    wp_step. unfold get_current_page_directory_phys. apply wp_gets. cbn [cr3 set_pmem].
    assert (∀ c fl, c = cr3 st → mapped d v (Z.lor p flags) t e new st
      (Vmm (<[t * 4096 + 4 * GET_PTE_INDEX v := Z.lor p flags]> (pmem st1)) (palloc st1) c fl)) as Hfin.
    { intros c fl ->. split; [|done|done|by destruct Htf]. intros a. cbn [pmem]. rewrite pm_insert.
      unfold map_words. case_decide; [done|]. apply Hw. }
    wp_step. destruct (Z.eqb_spec (cr3 st1) (d * 4096)); [destruct b|];
      [apply wp_modify|apply wp_modify|apply wp_ret]; apply wp_ret; (split; [done|]);
      exists t, e, new; apply Hfin; cbn [cr3 set_pmem]; congruence. }
  apply wp_map_page_table_words; [done..| | |].
  - intros Hp. apply wp_ret. by left.
  - intros b e m Hp He Hs Hm. destruct (pk_table _ _ Hok _ Hi Hp) as (Ht & _).
    pose proof (pk_entry _ _ Hok _ Hi) as Her. destruct Hs as [Hs1 Hs2]. eapply wp_mono.
    + eapply (Htail _ e false); [done|done|congruence|by rewrite Hs2, table_addr|done| |done].
      by split.
    + auto.
  - intros t s e Hp Ht Hnt Hs Ho Hk Hko He Hep Hea. eapply wp_mono.
    + eapply (Htail t e true true); [done|done|done|done|done|by split|].
      intros a. cbn [install pmem]. rewrite pm_insert. case_decide; [done|]. cbn [andb].
      change PAGE_SIZE with 4096. case_bool_decide as Hb.
      * by rewrite (proj2 (Z.leb_le _ _)), (proj2 (Z.ltb_lt _ _)) by lia.
      * destruct (Z.leb_spec (t * 4096) a), (Z.ltb_spec a (t * 4096 + 4096)); try done. lia.
    + auto.
Qed.

(** Unmapping the page of [v], whose table is [t]: the table is given back
    ([dropped]) exactly when nothing else is mapped through it. *)
Record unmapped (d v t : Z) (dropped : bool) st st' : Prop := {
  um_words : ∀ a, pmem st' a =
    if decide (a = t * 4096 + 4 * GET_PTE_INDEX v) then 0
    else if dropped && bool_decide (a = d * 4096 + 4 * GET_PDE_INDEX v) then 0 else pmem st a;
  um_cr3 : cr3 st' = cr3 st;
  um_kept : dropped = false → palloc st' = palloc st ∧
    ∃ j, 0 ≤ j < 1024 ∧ j ≠ GET_PTE_INDEX v ∧ present (entry (pmem st) t j) = true;
  um_dropped : dropped = true → pa_ok (palloc st') ∧
    (∀ j, pa_taken (palloc st') j ↔ pa_taken (palloc st) j ∧ j ≠ t) ∧
    ∀ p o, pa_owned (palloc st) p o → p ≠ t → pa_owned (palloc st') p o }.

Lemma wp_unmap_page_words st d v : pd_ok st d → 0 ≤ v < W32 →
  present (entry (pmem st) d (GET_PDE_INDEX v)) = true →
  let t := table (pmem st) d (GET_PDE_INDEX v) in
  present (entry (pmem st) t (GET_PTE_INDEX v)) = true → pa_owned (palloc st) t 0 →
  wp (vmm_unmap_page (d * 4096) v) st (λ r st', r = true ∧ ∃ dropped, unmapped d v t dropped st st').
Proof.
  intros Hok Hv Ep t Ep' Hown. destruct (index_range v Hv) as [Hi Hj]. pose proof (pk_frame _ _ Hok) as Hf.
  destruct (pk_table _ _ Hok _ Hi Ep) as (Ht & Htk & Hne). fold t in Ht, Htk, Hne.
  unfold vmm_unmap_page. wp_step. apply wp_lin; [unfold low_frame in Hf; lia|].
  wp_step. apply wp_ldw; [done..|]. fold (entry (pmem st) d (GET_PDE_INDEX v)). change PDE_PRESENT_BIT with 1.
  fold (present (entry (pmem st) d (GET_PDE_INDEX v))). rewrite Ep. cbn [negb].
  rewrite table_addr by (by apply (pk_entry _ _ Hok)). fold t.
  wp_step. apply wp_lin; [unfold low_frame in Ht; lia|]. wp_step. apply wp_ldw; [done..|].
  fold (entry (pmem st) t (GET_PTE_INDEX v)). change PTE_PRESENT_BIT with 1.
  fold (present (entry (pmem st) t (GET_PTE_INDEX v))). rewrite Ep'. cbn [negb].
  wp_step. apply wp_stw; [done..|]. wp_step. unfold paging_invalid_TLB_addr. apply wp_modify.
  set (st2 := Vmm _ _ _ _). wp_step. eapply wp_mono; [apply (wp_pt_is_empty st2 t 1024 0 Ht); lia|].
  intros b st3 [-> Hb]. wp_step.
  assert (∀ j, 0 ≤ j < 1024 → entry (pmem st2) t j = if decide (j = GET_PTE_INDEX v) then 0 else entry (pmem st) t j) as Ht2.
  { intros j Hj'. unfold entry, st2. cbn [pmem set_pmem]. rewrite pm_insert. repeat case_decide; done || lia. }
  destruct b.
  - wp_step. apply wp_stw; [done..|]. wp_step. apply wp_lift_pa. change (t * 4096) with (t * PAGE_SIZE).
    eapply wp_mono; [apply (pa_free_law (palloc st) t 0); [apply Hok|exact Hown]|].
    intros [] s (Hs & Hkeep & Hkown). cbn beta.
    assert (∀ j, in_block t 0 j ↔ j = t) as Hb0 by (intros j; unfold in_block; simpl; lia).
    assert (∀ fl c, c = cr3 st → unmapped d v t true st
      (Vmm (<[d * 4096 + 4 * GET_PDE_INDEX v := 0]> (pmem st2)) s c fl)) as Hfin.
    { intros fl c ->. split; [|done|done|].
      - intros a. cbn [pmem]. rewrite pm_insert. unfold st2. cbn [pmem set_pmem]. rewrite pm_insert.
        cbn [andb]. change (t * PAGE_SIZE) with (t * 4096). repeat case_decide; rewrite ?bool_decide_true by done; try done.
      - intros _. split_and!; [done| |].
        + intros j. rewrite Hkeep, Hb0. done.
        + intros p o Hpo Hpt. apply Hkown; [done|].
          destruct (pa_owned_apart _ _ _ _ _ Hown Hpo) as [[= ? _]|]; [congruence|done]. }
    wp_step. unfold get_current_page_directory_phys. apply wp_gets. cbn [cr3 set_pmem].
    destruct (Z.eqb_spec (d * 4096) (cr3 st2)) as [Ec|]; [apply wp_modify|apply wp_ret]; apply wp_ret;
      (split; [done|]); exists true; apply Hfin; [rewrite Ec|]; done.
  - apply wp_ret, wp_ret. split; [done|]. exists false. split; [|done| |done].
    + intros a. unfold st2. cbn [pmem set_pmem]. by rewrite pm_insert.
    + intros _. split; [done|].
      destruct (existsb (λ j, present (entry (pmem st2) t j)) (seqZ 0 1024)) eqn:Ex.
      * apply existsb_exists in Ex as (j & Hj'%list_elem_of_In%elem_of_seqZ & Hp).
        rewrite Ht2 in Hp by lia. exists j. case_decide; [done|]. split; [lia|auto].
      * exfalso. assert (false = true); [|done]. apply Hb. intros j Hj'. apply not_true_iff_false. intros Hp.
        apply not_true_iff_false in Ex. apply Ex, existsb_exists. exists j. split; [|done].
        apply list_elem_of_In, elem_of_seqZ. lia.
Qed.

End Words.
