(* ===== verification/Fork.v ===== *)
(** * Process duplication (src/syscalls/fork.c, task_clone of src/proc/task.c):
    operations

    The state puts together the tasks (Task), the paging state with the
    allocators (Vmm) and the contents of the frames user pages are in.  Those
    contents, [frames], are kept apart from the words of the page tables
    ([pmem]): user frames come from HIGHMEM, tables from LOWMEM.  The calls
    that task.c makes into the memory subsystem, which Task records, are
    performed here. *)

From S2P Require Import Prelude Errno Memory Page Buddy PageAlloc Vmm Vma Bitmap Task Sched Process.

(** ** Data *)

Definition SIZEOF_TASK : Z := 160 + 4 * SIG_Sentinel.

Record fstate (S : Type) := FState {
  fs_sys : sys;
  fs_vmm : vmm S;
  frames : Z → Z → Z;        (* frame number, offset: byte *)
  strings : Z → list Z }.    (* the characters of the string at an address *)
Arguments FState {S} _ _ _ _.
Arguments fs_sys {S} _.
Arguments fs_vmm {S} _.
Arguments frames {S} _.
Arguments strings {S} _.

(** The 24 bytes of a [struct section], least significant first. *)
Definition le_bytes (x : Z) : list Z :=
  [x mod 256; x / 256 mod 256; x / 65536 mod 256; x / 16777216 mod 256].

Definition le_word (l : list Z) : Z :=
  nth 0 l 0 + 256 * nth 1 l 0 + 65536 * nth 2 l 0 + 16777216 * nth 3 l 0.

Definition section_bytes (x : section) : list Z :=
  le_bytes (v_addr x) ++ le_bytes (p_addr x) ++ le_bytes (data_start x) ++
  le_bytes (data_size x) ++ le_bytes (mapping_size x) ++ le_bytes (sec_flags x).

Definition section_of_bytes (l : list Z) : section :=
  Section_ (le_word (take 4 l)) (le_word (take 4 (drop 4 l))) (le_word (take 4 (drop 8 l)))
    (le_word (take 4 (drop 12 l))) (le_word (take 4 (drop 16 l))) (le_word (take 4 (drop 20 l))).

(** Writing [l] over the first bytes of a section. *)
Definition overwrite (l : list Z) (x : section) : section :=
  section_of_bytes (l ++ drop (length l) (section_bytes x)).

Definition clear_p_addr (x : section) : section :=
  Section_ (v_addr x) 0 (data_start x) (data_size x) (mapping_size x) (sec_flags x).

Section Fork.
Context {S : Type} `{KernelAllocator S}.

(** ** The parts of the state *)

Definition on_sys {A} (c : M sys A) : M (fstate S) A := λ s,
  match c (fs_sys s) with
  | Done (a, x) => Done (a, FState x (fs_vmm s) (frames s) (strings s))
  | Panic m => Panic m
  | Fault => Fault
  | Hang => Hang
  end.

Definition on_vmm {A} (c : M (vmm S) A) : M (fstate S) A := λ s,
  match c (fs_vmm s) with
  | Done (a, v) => Done (a, FState (fs_sys s) v (frames s) (strings s))
  | Panic m => Panic m
  | Fault => Fault
  | Hang => Hang
  end.

Definition fork_kmalloc (size gfp : Z) : M (fstate S) Z := on_vmm (lift_pa (ka_kmalloc size gfp)).

Definition fork_kfree (p : Z) : M (fstate S) unit := on_vmm (lift_pa (ka_kfree p)).

Definition buddy_alloc (size : Z) (z : zone_type) : M (fstate S) Z := on_vmm (lift_pa (pa_alloc size z)).

Definition buddy_free (p : Z) : M (fstate S) unit := on_vmm (lift_pa (pa_free p)).

(** The memory calls Task records, performed. *)
Definition perform (e : effect) : M (fstate S) unit :=
  match e with
  | EBuddyFree p => buddy_free p
  | EKfree p => fork_kfree p
  | EDestroyPd pd => on_vmm (vmm_destroy_user_pd pd)
  | e => on_sys (effect_ e)
  end.

Fixpoint perform_all (l : list effect) : M (fstate S) unit :=
  match l with
  | [] => mret tt
  | e :: l => perform_all l ;; perform e
  end.

(** Run [c] and perform what it recorded, oldest first. *)
Definition performing (c : M sys unit) : M (fstate S) unit := λ s,
  let kept := effects (fs_sys s) in
  let set_effects es x :=
    Sys (tasks x) (sections x) (words x) (ready_queue x) (info_queue x) (children x) (waiters x)
      (current_task x) (idle_task x) (kitoxD_task x) (dummy_task x) (pid_manager x) (global_ticks x)
      (preempt_count x) (irqs x) es in
  match c (set_effects [] (fs_sys s)) with
  | Done (_, x) =>
      perform_all (effects x) (FState (set_effects kept x) (fs_vmm s) (frames s) (strings s))
  | Panic m => Panic m
  | Fault => Fault
  | Hang => Hang
  end.

(** The MMU's translation of a virtual address in the current directory; an
    address that is not mapped faults. *)
Definition mmu (v : Z) : M (fstate S) Z :=
  a ← on_vmm (cur ← get_current_page_directory_phys ; vmm_get_mapping cur v) ;
  if a =? 0 then fault else mret a.

(** [ft_memcpy(dst, src, PAGE_SIZE)] for page-aligned user or window addresses. *)
Definition copy_page (dst src : Z) : M (fstate S) unit :=
  d ← mmu dst ;
  x ← mmu src ;
  modify (λ s, FState (fs_sys s) (fs_vmm s) (<[d / PAGE_SIZE := frames s (x / PAGE_SIZE)]> (frames s)) (strings s)).

(** [for (...) { if (...) goto fail; }]: stops at the first iteration that fails. *)
Fixpoint for_ok (n : nat) (i : Z) (body : Z → M (fstate S) bool) : M (fstate S) bool :=
  match n with
  | O => mret true
  | Datatypes.S n =>
      ok ← body i ;
      if (ok : bool) then for_ok n (i + 1) body else mret false
  end.

(** ** task_clone *)

Definition set_section (a : Z) (x : section) : M (fstate S) unit :=
  on_sys (modify (set_sections (λ m, <[a := x]> m))).

Definition copy_section (dst : Z) (f : tfield) (t : Z) : M (fstate S) unit :=
  a ← on_sys (fld t f) ;
  x ← on_sys (gets (λ s, sections s a)) ;
  set_section dst x.

Definition task_clone (t : Z) : M (fstate S) Z :=
  task_name ← on_sys (fld t name) ;
  nm ← gets (λ s, strings s task_name) ;
  let alloc_size := SIZEOF_TASK + SIZEOF_SECTION * 5 + Z.of_nat (length nm) + 1 in
  new ← fork_kmalloc alloc_size (Z.lor __GFP_KERNEL __GFP_ZERO) ;
  if new =? 0 then mret 0
  else
    (** [ft_memcpy(new, task, sizeof( *task))] and the list heads of [new] *)
    on_sys (modify (set_tasks (λ m, <[new := m t]> m))) ;;
    on_sys (modify (set_children (λ c, <[new := []]> c))) ;;
    on_sys (wq_entry_init new new TASK_INTERRUPTIBLE) ;;
    on_sys (modify (set_waiters (λ w, <[child_wq new := []]> w))) ;;
    on_sys (set_fld new kernel_stack_pointer 0) ;;
    on_sys (set_fld new kernel_stack_base 0) ;;
    let first := new ⊞ SIZEOF_TASK in
    on_sys (set_fld new text_sec first) ;;
    on_sys (set_fld new data_sec (first ⊞ SIZEOF_SECTION)) ;;
    on_sys (set_fld new stack_sec (first ⊞ 2 * SIZEOF_SECTION)) ;;
    on_sys (set_fld new sig_trampoline (first ⊞ 3 * SIZEOF_SECTION)) ;;
    on_sys (set_fld new heap_sec (first ⊞ 4 * SIZEOF_SECTION)) ;;
    copy_section first text_sec t ;;
    copy_section (first ⊞ SIZEOF_SECTION) data_sec t ;;
    copy_section (first ⊞ 2 * SIZEOF_SECTION) stack_sec t ;;
    copy_section (first ⊞ 4 * SIZEOF_SECTION) heap_sec t ;;
    copy_section (first ⊞ 3 * SIZEOF_SECTION) sig_trampoline t ;;
    (** the name goes to [sig_trampoline + 1], the heap section's place *)
    let name_ptr := (first ⊞ 3 * SIZEOF_SECTION) ⊞ SIZEOF_SECTION in
    on_sys (set_fld new name name_ptr) ;;
    on_sys (modify (set_sections (λ m, <[name_ptr := overwrite (nm ++ [0]) (m name_ptr)]> m))) ;;
    modify (λ s, FState (fs_sys s) (fs_vmm s) (frames s) (<[name_ptr := nm]> (strings s))) ;;
    mgr ← on_sys (gets pid_manager) ;
    let '(p, mgr) := id_manager_alloc mgr in
    on_sys (modify (set_pids mgr)) ;;
    on_sys (set_fld new pid p) ;;
    if p <? 0 then fork_kfree new ;; mret 0
    else
      pd ← buddy_alloc PAGE_SIZE LOWMEM_ZONE ;
      on_sys (set_fld new cr3_ pd) ;;
      if pd =? 0 then
        on_sys (modify (λ s, set_pids (id_manager_free (pid_manager s) p) s)) ;;
        fork_kfree new ;; mret 0
      else
        pd_virt ← PHYS_TO_VIRT_LINEAR pd ;
        on_vmm (bzero_page pd_virt) ;;
        mret new.

(** ** fork *)

(** The body of the inner loop, for page table entry [j] of directory entry [i]. *)
Definition copy_user_page (new_pd i current_pt j : Z) : M (fstate S) bool :=
  pte ← on_vmm (ldw (current_pt ⊞ 4 * j)) ;
  if negb (FLAG_IS_SET pte PTE_PRESENT_BIT) then mret true
  else
    page ← buddy_alloc PAGE_SIZE HIGHMEM_ZONE ;
    if page =? 0 then mret false
    else
      window ← on_vmm (vmm_kmap page) ;
      if window =? 0 then buddy_free page ;; mret false
      else
        let vaddr := Z.lor (Z.shiftl i 22) (Z.shiftl j 12) in
        ok ← on_vmm (vmm_map_page new_pd vaddr page (GET_ENTRY_FLAGS pte)) ;
        if negb ok then on_vmm vmm_kunmap ;; buddy_free page ;; mret false
        else copy_page window vaddr ;; on_vmm vmm_kunmap ;; mret true.

(** The body of the outer loop, for directory entry [i]. *)
Definition copy_user_table (current_pd_virt new_pd new_pd_virt i : Z) : M (fstate S) bool :=
  pde ← on_vmm (ldw (current_pd_virt ⊞ 4 * i)) ;
  if negb (FLAG_IS_SET pde PDE_PRESENT_BIT) then mret true
  else
    new_pt_phys ← buddy_alloc PAGE_SIZE LOWMEM_ZONE ;
    if new_pt_phys =? 0 then mret false
    else
      on_vmm (Vmm.stw (new_pd_virt ⊞ 4 * i) (Z.lor (GET_ENTRY_ADDR new_pt_phys) (GET_ENTRY_FLAGS pde))) ;;
      current_pt ← PHYS_TO_VIRT_LINEAR (GET_ENTRY_ADDR pde) ;
      new_pde ← on_vmm (ldw (new_pd_virt ⊞ 4 * i)) ;
      new_pt ← PHYS_TO_VIRT_LINEAR (GET_ENTRY_ADDR new_pde) ;
      on_vmm (bzero_page new_pt) ;;
      for_ok 1024 0 (copy_user_page new_pd i current_pt).

(** [ft_memcpy(new_pde, current_pde, 224 * sizeof(uint32_t))]. *)
Definition copy_kernel_entries (current_pd_virt new_pd_virt : Z) : M (fstate S) unit :=
  on_vmm (for_ 224 768 (λ i, e ← ldw (current_pd_virt ⊞ 4 * i) ; Vmm.stw (new_pd_virt ⊞ 4 * i) e)).

Definition copy_space (current_pd new_pd : Z) : M (fstate S) bool :=
  current_pd_virt ← PHYS_TO_VIRT_LINEAR current_pd ;
  new_pd_virt ← PHYS_TO_VIRT_LINEAR new_pd ;
  ok ← for_ok 768 0 (copy_user_table current_pd_virt new_pd new_pd_virt) ;
  if negb ok then mret false
  else copy_kernel_entries current_pd_virt new_pd_virt ;; mret true.

(** [section->p_addr = 0]; a string that starts where the section does loses
    the characters from the fourth on. *)
Definition forget_frame (t : Z) (f : tfield) : M (fstate S) unit :=
  a ← on_sys (fld t f) ;
  on_sys (modify (set_sections (λ m, <[a := clear_p_addr (m a)]> m))) ;;
  modify (λ s, FState (fs_sys s) (fs_vmm s) (frames s) (<[a := take 4 (strings s a)]> (strings s))).

(** Copying the kernel stack, and the asserts that follow it: the canary, the
    word at the base and the trap frame are those of the parent. *)
Definition copy_kernel_stack (src src_base dst dst_base : Z) : M (fstate S) unit :=
  on_sys (modify (set_words (λ w x,
    if (dst <=? x) && (x <? dst + DEFAULT_STACK_SIZE) then w (x - dst + src) else w x))) ;;
  w ← on_sys (gets words) ;
  assert_ (w dst =? STACK_CANARY_MAGIC) ;;
  assert_ (w (src_base ⊟ 4) =? w (dst_base ⊟ 4)) ;;
  assert_ (forallb (λ k, w ((dst_base ⊟ SIZEOF_TRAP_FRAME) + 4 * k) =?
                         w ((src_base ⊟ SIZEOF_TRAP_FRAME) + 4 * k)) (seqZ 0 (SIZEOF_TRAP_FRAME / 4))).

(** Putting the child, whose memory is ready, on its way: the system call
    returns 0 to it. *)
Definition fork_child (interrupt_exit current new : Z) : M (fstate S) Z :=
  src ← on_sys (fld current kernel_stack_pointer) ;
  dst ← on_sys (fld new kernel_stack_pointer) ;
  src_base ← on_sys (fld current kernel_stack_base) ;
  base ← on_sys (fld new kernel_stack_base) ;
  copy_kernel_stack src src_base dst base ;;
  let child_tf := base ⊟ SIZEOF_TRAP_FRAME in
  on_sys (Task.stw (child_tf + OFF_eax) 0) ;;
  on_sys (task_append_child current new) ;;
  saved ← on_sys (fld current esp) ;
  on_sys (set_fld new esp (dst ⊟ (src ⊟ saved))) ;;
  on_sys (set_fld new state TASK_RUNNING) ;;
  on_sys (sched_enqueue new) ;;
  on_sys (Task.stw (child_tf ⊟ 4) interrupt_exit) ;;
  on_sys (Task.stw (child_tf ⊟ 8) 0) ;;
  on_sys (Task.stw (child_tf ⊟ 12) 0) ;;
  on_sys (Task.stw (child_tf ⊟ 16) 0) ;;
  on_sys (Task.stw (child_tf ⊟ 20) 0) ;;
  on_sys (fld new pid).

(** [fail_kernel_stack:] *)
Definition fork_fail (new : Z) : M (fstate S) Z :=
  pd ← on_sys (fld new cr3_) ;
  on_vmm (vmm_destroy_user_pd pd) ;;
  performing (task_release new) ;;
  mret (- ENOMEM).

Definition sys_fork (interrupt_exit : Z) : M (fstate S) Z :=
  current ← on_sys task_get_current_task ;
  assert_ (negb (current =? 0)) ;;
  new ← task_clone current ;
  if new =? 0 then mret (- ENOMEM)
  else
    kstack ← fork_kmalloc DEFAULT_STACK_SIZE (Z.lor __GFP_KERNEL __GFP_ZERO) ;
    on_sys (set_fld new kernel_stack_pointer kstack) ;;
    if kstack =? 0 then fork_fail new
    else
      on_sys (bzero_words kstack DEFAULT_STACK_SIZE) ;;
      on_sys (set_fld new kernel_stack_base (kstack ⊞ DEFAULT_STACK_SIZE)) ;;
      current_pd ← on_sys (fld current cr3_) ;
      new_pd ← on_sys (fld new cr3_) ;
      forget_frame new text_sec ;;
      forget_frame new data_sec ;;
      forget_frame new heap_sec ;;
      forget_frame new stack_sec ;;
      ok ← copy_space current_pd new_pd ;
      if (ok : bool) then fork_child interrupt_exit current new
      else fork_kfree kstack ;; fork_fail new.

End Fork.
