(* ===== verification/ForkSpace.v ===== *)
(** * fork: copying an address space

    [cinv] is the invariant of the two nested loops of fork: which pages of
    the parent have been copied, and that nothing the parent or anyone else
    uses has changed. *)

From S2P Require Import Prelude Dlist Memory Page Buddy BuddyInv BuddySpec BuddyThm PageAlloc.
From S2P Require Import Vmm VmmThm VmmWords Vma Task Fork.

Lemma flags_range x : 0 ≤ GET_ENTRY_FLAGS x < 4096.
Proof.
  unfold GET_ENTRY_FLAGS, ENTRY_FLAGS_MASK. change 4095 with (Z.ones 12).
  rewrite Z.land_ones by lia. change (2 ^ 12) with 4096. apply Z.mod_pos_bound. lia.
Qed.

Section Space.
Context {S : Type} `{KernelAllocator S} `{!PageAllocatorLaws S}.
Implicit Types st : vmm S.

(** ** Generic steps *)

Lemma wp_on_vmm {A} (c : M (vmm S) A) (s : fstate S) (Q : A → fstate S → Prop) :
  wp c (fs_vmm s) (λ a v, Q a (FState (fs_sys s) v (frames s) (strings s))) → wp (on_vmm c) s Q.
Proof. unfold wp, on_vmm. by destruct (c (fs_vmm s)) as [[a v]| | |]. Qed.

Lemma wp_lin_f {T} (s : T) p (Q : Z → T → Prop) : 0 ≤ p < 1073741824 → Q (p + KERNEL_VADDR_BASE) s →
  wp (PHYS_TO_VIRT_LINEAR p) s Q.
Proof.
  intros Hp HQ. unfold PHYS_TO_VIRT_LINEAR. apply wp_bind, wp_assert.
  - apply Z.leb_le. change (not32 KERNEL_VADDR_BASE) with 1073741823. lia.
  - apply wp_ret. by rewrite u32_small by (unfold KERNEL_VADDR_BASE, W32; lia).
Qed.

(** Two facts about the same run. *)
Lemma wp_and {T A} (c : M T A) s (P Q : A → T → Prop) : wp c s P → wp c s Q → wp c s (λ a s', P a s' ∧ Q a s').
Proof. unfold wp. destruct (c s) as [[a s']| | |]; auto. Qed.

(** A loop that may stop: [I] while it goes on, [F] when an iteration failed. *)
Lemma wp_for_ok (I : Z → fstate S → Prop) (F : fstate S → Prop) body n i s : I i s →
  (∀ j s, i ≤ j < i + Z.of_nat n → I j s →
     wp (body j) s (λ ok s', if (ok : bool) then I (j + 1) s' else F s')) →
  wp (for_ok n i body) s (λ ok s', if (ok : bool) then I (i + Z.of_nat n) s' else F s').
Proof.
  revert i s. induction n as [|n IH]; intros i s Hi Hb; cbn [for_ok].
  - apply wp_ret. by rewrite Z.add_0_r.
  - apply wp_bind. eapply wp_mono; [apply Hb; [lia|done]|]. intros [] s' Hs'; [|by apply wp_ret].
    replace (i + Z.of_nat (Datatypes.S n)) with (i + 1 + Z.of_nat n) by lia.
    apply IH; [done|]. intros j s2 Hj. apply Hb. lia.
Qed.

(** ** The frames of a directory *)

Definition foot (m : Z → Z) (d h : Z) : Prop :=
  h = d ∨ ∃ i, 0 ≤ i < 1024 ∧ present (entry m d i) = true ∧ h = table m d i.

Lemma foot_low st d h : pd_ok st d → foot (pmem st) d h → low_frame h ∧ pa_taken (palloc st) h.
Proof.
  intros Hok [->|(i & Hi & Hp & ->)]; [split; apply Hok|].
  by destruct (pk_table _ _ Hok i Hi Hp) as (? & ? & _).
Qed.

(** A directory whose frames keep their words and stay taken. *)
Lemma pd_ok_frame st st' d : pd_ok st d → pa_ok (palloc st') →
  (∀ h, foot (pmem st) d h → pa_taken (palloc st') h) →
  (∀ h k, foot (pmem st) d h → 0 ≤ k < 1024 → entry (pmem st') h k = entry (pmem st) h k) →
  pd_ok st' d.
Proof.
  intros Hok Hs Htk Hw. pose proof Hok as [K1 K2 K3 K4 K5 K6 K7].
  assert (∀ i, 0 ≤ i < 1024 → entry (pmem st') d i = entry (pmem st) d i) as Hd by (intros; apply Hw; [by left|done]).
  assert (∀ i, 0 ≤ i < 1024 → table (pmem st') d i = table (pmem st) d i) as Ht.
  { intros i Hi. unfold table. by rewrite Hd. }
  split; [done|done|apply Htk; by left|..].
  - intros i Hi. rewrite Hd by done. auto.
  - intros i Hi. rewrite Hd, Ht by done. intros Hp. destruct (K5 i Hi Hp) as (? & _ & ?).
    split_and!; [done| |done]. apply Htk. right. eauto.
  - intros i j Hi Hj. rewrite !Hd, !Ht by done. auto.
  - intros i j Hi Hj. rewrite Hd, Ht by done. intros Hp. rewrite Hw; [auto| |done]. right. eauto.
Qed.

Lemma translate_frame st st' d v : pd_ok st d → pd_ok st' d → 0 ≤ v < W32 →
  (∀ h k, foot (pmem st) d h → 0 ≤ k < 1024 → entry (pmem st') h k = entry (pmem st) h k) →
  translate (pmem st') (d * 4096) v = translate (pmem st) (d * 4096) v.
Proof.
  intros Hok Hok' Hv Hw. destruct (index_range v Hv) as [Hi Hj]. rewrite !translate_unfold by done.
  unfold table at 1. rewrite Hw by (done || by left). fold (table (pmem st) d (GET_PDE_INDEX v)).
  destruct (present (entry (pmem st) d (GET_PDE_INDEX v))) eqn:Ep; [|done].
  rewrite Hw; [done| |done]. right. eauto.
Qed.

(** ** Virtual addresses of user pages *)

Definition page_vaddr (a b : Z) : Z := Z.lor (Z.shiftl a 22) (Z.shiftl b 12).

Lemma page_vaddr_eq a b : 0 ≤ a < 1024 → 0 ≤ b < 1024 → page_vaddr a b = a * 4194304 + b * 4096.
Proof.
  intros Ha Hb. unfold page_vaddr. rewrite !Z.shiftl_mul_pow2 by lia.
  change (2 ^ 22) with (1024 * 4096). change (2 ^ 12) with 4096.
  pose proof (Z.add_lor_land (a * (1024 * 4096)) (b * 4096)) as E.
  assert (Z.land (a * (1024 * 4096)) (b * 4096) = 0) as E0; [|lia].
  apply Z.bits_inj'. intros n Hn. rewrite Z.land_spec, Z.bits_0.
  change (1024 * 4096) with (2 ^ 22). change 4096 with (2 ^ 12). destruct (decide (n < 22)).
  - by rewrite Z.mul_pow2_bits_low by lia.
  - rewrite (Z.mul_pow2_bits b) by lia.
    rewrite <- (Z.mod_small b (2 ^ 10)) by lia. rewrite (Z.mod_pow2_bits_high b) by lia. apply andb_false_r.
Qed.

Lemma page_vaddr_index a b : 0 ≤ a < 1024 → 0 ≤ b < 1024 → 0 ≤ page_vaddr a b < W32 ∧
  GET_PDE_INDEX (page_vaddr a b) = a ∧ GET_PTE_INDEX (page_vaddr a b) = b ∧ Z.land (page_vaddr a b) 4095 = 0.
Proof.
  intros Ha Hb. rewrite page_vaddr_eq by done. unfold GET_PDE_INDEX, GET_PTE_INDEX, W32.
  change 1023 with (Z.ones 10). change 4095 with (Z.ones 12).
  rewrite !Z.land_ones, !Z.shiftr_div_pow2 by lia. change (2 ^ 22) with 4194304. change (2 ^ 12) with 4096.
  change (2 ^ 10) with 1024. split_and!; Z.div_mod_to_equations; lia.
Qed.

(** ** One page *)

Lemma highmem_frame q : zone_of q = HIGHMEM_ZONE → ¬ low_frame q.
Proof. rewrite zone_of_unfold. unfold low_frame. repeat case_decide; done || lia. Qed.

(** Blocks in use stay in use. *)
Definition pages_kept (s s' : S) : Prop :=
  pa_ok s' ∧ (∀ j, pa_taken s j → pa_taken s' j) ∧ ∀ p o, pa_owned s p o → pa_owned s' p o.

Lemma pages_kept_trans s1 s2 s3 : pages_kept s1 s2 → pages_kept s2 s3 → pages_kept s1 s3.
Proof. intros (_ & ? & ?) (? & ? & ?). split_and!; auto. Qed.

(** A frame that was taken from the allocator and given back. *)
Lemma pages_kept_back s s1 s2 q : pa_ok s2 → ¬ pa_taken s q → pages_kept s s1 →
  (∀ j, pa_taken s1 j → j ≠ q → pa_taken s2 j) →
  (∀ p o, pa_owned s1 p o → blocks_apart q 0 p o → pa_owned s2 p o) → pages_kept s s2.
Proof.
  intros Hs2 Hq (_ & Ht & Ho) Ht2 Ho2. split_and!; [done|..].
  - intros j Hj. apply Ht2; [auto|]. by intros ->.
  - intros p o Hpo. apply Ho2; [auto|]. intros j Hj Hj'. apply Hq.
    assert (j = q) as <- by (unfold in_block in Hj; simpl in Hj; lia). by eapply pa_owned_taken.
Qed.

Lemma kmap_index : GET_PDE_INDEX VMM_KMAP_VADDR = 1023 ∧ GET_PTE_INDEX VMM_KMAP_VADDR = 1022 ∧
  0 ≤ VMM_KMAP_VADDR < W32 ∧ Z.land VMM_KMAP_VADDR 4095 = 0.
Proof. done. Qed.

Section Page.
Context (f g a b : Z) (st : vmm S).
Context (Hf : pd_ok st f) (Hg : pd_ok st g) (Hcr3 : cr3 st = f * 4096).
Context (Hwin : present (entry (pmem st) f 1023) = false).
Context (Hapart : ∀ h, foot (pmem st) f h → ¬ foot (pmem st) g h).
Context (Ha : 0 ≤ a < 768) (Hb : 0 ≤ b < 1024).
Context (Hfa : present (entry (pmem st) f a) = true) (Hga : present (entry (pmem st) g a) = true).

Let tf := table (pmem st) f a.
Let tg := table (pmem st) g a.
Let e := entry (pmem st) tf b.

Context (He : present e = true → 0 < e / 4096).

(** The page has been copied to frame [q]. *)
Record page_copied (q e' : Z) (st' : vmm S) : Prop := {
  pc_zone : zone_of q = HIGHMEM_ZONE;
  pc_frame : 0 ≤ q < MAX_PAGES;
  pc_fresh : ¬ pa_taken (palloc st) q;
  pc_owned : pa_owned (palloc st') q 0;
  pc_pde : 0 ≤ e' < W32 ∧ same_entry e' (entry (pmem st) g a);
  pc_kept : pages_kept (palloc st) (palloc st');
  pc_cr3 : cr3 st' = cr3 st;
  pc_words h k : pa_taken (palloc st) h → 0 ≤ k < 1024 → entry (pmem st') h k =
    if decide (h = f ∧ k = 1023) then 0
    else if decide (h = g ∧ k = a) then e'
    else if decide (h = tg ∧ k = b) then Z.lor (q * 4096) (GET_ENTRY_FLAGS e)
    else entry (pmem st) h k }.

(** The state while the window is mapped to [q]. *)
Record window_open (q t : Z) (st1 : vmm S) : Prop := {
  wo_ok : pd_ok st1 f;
  wo_cr3 : cr3 st1 = f * 4096;
  wo_kept : pages_kept (palloc st) (palloc st1);
  wo_fresh : ¬ pa_taken (palloc st) t;
  wo_owned : pa_owned (palloc st1) t 0;
  wo_frame : pa_owned (palloc st1) q 0;
  wo_table : present (entry (pmem st1) f 1023) = true ∧ table (pmem st1) f 1023 = t;
  wo_new k : 0 ≤ k < 1024 → entry (pmem st1) t k = if decide (k = 1022) then Z.lor (q * 4096) 3 else 0;
  wo_words h k : pa_taken (palloc st) h → 0 ≤ k < 1024 → ¬ (h = f ∧ k = 1023) →
    entry (pmem st1) h k = entry (pmem st) h k;
  wo_translate : translate (pmem st1) (f * 4096) VMM_KMAP_VADDR = q * 4096 ∧
    ∀ v, 0 ≤ v < W32 → v / 4096 ≠ VMM_KMAP_VADDR / 4096 →
      translate (pmem st1) (f * 4096) v = translate (pmem st) (f * 4096) v }.

Lemma wp_open_window q s1 : 0 ≤ q < MAX_PAGES → pa_ok s1 → pages_kept (palloc st) s1 → pa_owned s1 q 0 →
  ¬ pa_taken (palloc st) q → zone_of q = HIGHMEM_ZONE →
  wp (vmm_kmap (q * 4096)) (Vmm (pmem st) s1 (cr3 st) (flushes st)) (λ r st1,
    (r = 0 ∧ st1 = Vmm (pmem st) s1 (cr3 st) (flushes st)) ∨
    (r = VMM_KMAP_VADDR ∧ ∃ t, window_open q t st1)).
Proof.
  intros Hq Hs1 Hk Hoq Hnq Hzq. pose proof Hk as (_ & Hkt & _). set (st0 := Vmm _ s1 _ _).
  assert (pd_ok st0 f) as Hf0.
  { apply (pd_ok_frame st); [done|done| |done]. intros h Hh. apply Hkt. by eapply foot_low in Hh as [_ ?]. }
  destruct (kmap_index) as (Ei & Ej & Hv & El). destruct (mk_entry q 3 Hq ltac:(lia)) as (Hx & Hxa & Hxf).
  unfold vmm_kmap. wp_step. apply wp_gets. cbn [cr3 st0]. rewrite Hcr3. wp_step.
  eapply wp_mono; [apply wp_and; [apply (wp_vmm_map_page st0 f VMM_KMAP_VADDR (q * 4096) 3 Hf0 Hv); [lia|done]|
    apply (wp_map_page_words st0 f VMM_KMAP_VADDR (q * 4096) 3 Hf0 Hv); lia]|].
  intros r st1 [[(-> & -> & _)|(-> & Hps)] Hm]; [apply wp_ret; by left|].
  destruct Hm as [(? & _)|(_ & t & e1 & new & [Hw He1 Hc Ht])]; [done|]. apply wp_ret. right. split; [done|].
  destruct new; [|destruct (tf_old _ _ _ _ _ _ Ht eq_refl) as [Hp _]; rewrite Ei in Hp; cbn [st0 pmem] in Hp; congruence].
  destruct (tf_new _ _ _ _ _ _ Ht eq_refl) as (_ & Hlt & Hnt & Hok1 & Hot & Htk & Hown). cbn [st0 palloc] in *.
  assert (low_frame f) as Hlf by apply Hf. assert (t ≠ f) as Htf.
  { intros ->. apply Hnt, Hkt, (pk_taken _ _ Hf). }
  assert (∀ h k, 0 ≤ k < 1024 → entry (pmem st1) h k =
    if decide (h = t ∧ k = 1022) then Z.lor (q * 4096) 3
    else if decide (h = f ∧ k = 1023) then e1 else if decide (h = t) then 0 else entry (pmem st) h k) as Hent.
  { intros h k Hk'. unfold entry at 1. rewrite Hw. unfold map_words. rewrite Ei, Ej. cbn [andb st0 pmem].
    repeat case_decide; try case_bool_decide; try done; try lia; subst; exfalso; naive_solver lia. }
  assert (table (pmem st1) f 1023 = t) as Etab.
  { unfold table. rewrite Hent, decide_False, decide_True by naive_solver lia.
    destruct He1 as (Hr & _ & Hea). rewrite entry_addr in Hea by done.
    pose proof (Z.div_mod e1 4096). pose proof (Z.mod_pos_bound e1 4096). lia. }
  exists t. split.
  - apply Hps.
  - rewrite Hc. done.
  - eapply pages_kept_trans; [exact Hk|]. by split_and!.
  - intros Htk'. by apply Hnt, Hkt.
  - done.
  - auto.
  - split; [|done]. rewrite Hent, decide_False, decide_True by naive_solver lia. apply He1.
  - intros k Hk'. rewrite Hent by done. repeat case_decide; done || naive_solver.
  - intros h k Hh Hk' Hne. rewrite Hent by done.
    assert (h ≠ t) by (intros ->; by apply Hnt, Hkt). rewrite !decide_False by naive_solver. done.
  - split.
    + rewrite (ps_page _ _ _ _ _ Hps) by done. unfold present. rewrite Hxf by lia. cbn.
      rewrite Hxa, El, Z.add_0_r. apply u32_small. unfold MAX_PAGES, W32 in *. lia.
    + intros v Hv' Hne. by rewrite (ps_other _ _ _ _ _ Hps).
Qed.

(** The state once the child's page is mapped too. *)
Record child_mapped (q t x e' : Z) (st1 st2 : vmm S) : Prop := {
  cm_ok : pd_ok st2 f;
  cm_cr3 : cr3 st2 = f * 4096;
  cm_palloc : palloc st2 = palloc st1;
  cm_pde : 0 ≤ e' < W32 ∧ same_entry e' (entry (pmem st) g a);
  cm_words h k : 0 ≤ k < 1024 → entry (pmem st2) h k =
    if decide (h = tg ∧ k = b) then x else if decide (h = g ∧ k = a) then e' else entry (pmem st1) h k;
  cm_translate v : 0 ≤ v < W32 → translate (pmem st2) (f * 4096) v = translate (pmem st1) (f * 4096) v }.

Lemma foot_g_taken h : foot (pmem st) g h → pa_taken (palloc st) h ∧ h ≠ f.
Proof.
  intros Hh. split; [by eapply foot_low in Hh as [_ ?]|]. intros ->. by apply (Hapart f); [left|].
Qed.

Lemma tg_foot : foot (pmem st) g tg.
Proof. right. exists a. split; [lia|done]. Qed.

Lemma wp_map_child q t st1 fl : window_open q t st1 → 0 ≤ q < MAX_PAGES → 0 ≤ fl < 4096 →
  wp (vmm_map_page (g * 4096) (page_vaddr a b) (q * 4096) fl) st1 (λ r st2,
    r = true ∧ ∃ e', child_mapped q t (Z.lor (q * 4096) fl) e' st1 st2).
Proof.
  intros Ho Hq Hfl. destruct (page_vaddr_index a b) as (Hv & Ei & Ej & _); [lia|done|].
  destruct (wo_kept _ _ _ Ho) as (Hok1 & Hk1 & _).
  assert (∀ h k, foot (pmem st) g h → 0 ≤ k < 1024 → entry (pmem st1) h k = entry (pmem st) h k) as Hg1.
  { intros h k [Hh Hne]%foot_g_taken Hk. apply (wo_words _ _ _ Ho); [done..|]. naive_solver. }
  assert (pd_ok st1 g) as Hgok1.
  { apply (pd_ok_frame st); [done|done| |done]. intros h [Hh _]%foot_g_taken. auto. }
  assert (entry (pmem st1) g a = entry (pmem st) g a) as Ega by (apply Hg1; [by left|lia]).
  eapply wp_mono; [apply (wp_map_page_words st1 g (page_vaddr a b) (q * 4096) fl Hgok1 Hv); lia|].
  rewrite Ei. intros r st2 [(_ & _ & Hn)|(-> & t' & e' & new & [Hw He' Hc Ht])]; [congruence|].
  split; [done|]. destruct new.
  { destruct (tf_new _ _ _ _ _ _ Ht eq_refl) as [Hn _]. rewrite Ei in Hn. congruence. }
  destruct (tf_old _ _ _ _ _ _ Ht eq_refl) as (_ & Et & Ep). rewrite Ei in Et.
  assert (t' = tg) as -> by (rewrite Et; unfold table, tg, table; by rewrite Ega). clear Et.
  assert (∀ h k, 0 ≤ k < 1024 → entry (pmem st2) h k = if decide (h = tg ∧ k = b) then Z.lor (q * 4096) fl
    else if decide (h = g ∧ k = a) then e' else entry (pmem st1) h k) as Hent.
  { intros h k Hk. unfold entry at 1. rewrite Hw. unfold map_words. rewrite Ei, Ej. cbn [andb].
    repeat case_decide; try done; subst; exfalso; naive_solver lia. }
  assert (∀ h, foot (pmem st1) f h → h ≠ tg ∧ h ≠ g) as Hf1.
  { intros h Hh. assert (h = t ∨ foot (pmem st) f h) as [->|Hh0].
    - destruct Hh as [->|(i & Hi & Hp & ->)]; [right; by left|].
      destruct (decide (i = 1023)) as [->|Hne]; [left; apply (wo_table _ _ _ Ho)|right]. right. exists i.
      assert (entry (pmem st1) f i = entry (pmem st) f i) as E
        by (apply (wo_words _ _ _ Ho); [apply Hf|done|naive_solver]).
      unfold table. rewrite E in *. auto.
    - pose proof (wo_fresh _ _ _ Ho) as Hnt.
      split; intros ->; apply Hnt; [apply foot_g_taken, tg_foot|apply (pk_taken _ _ Hg)].
    - split; intros ->; apply (Hapart _ Hh0); [apply tg_foot|by left]. }
  assert (∀ h k, foot (pmem st1) f h → 0 ≤ k < 1024 → entry (pmem st2) h k = entry (pmem st1) h k) as Hf2.
  { intros h k [? ?]%Hf1 Hk. rewrite Hent by done. by rewrite !decide_False by (intros [? _]; congruence). }
  assert (pd_ok st2 f) as Hfok.
  { apply (pd_ok_frame st1); [apply Ho|by rewrite Ep| |done]. intros h Hh. rewrite Ep.
    by eapply foot_low in Hh as [_ ?]; [|apply Ho]. }
  exists e'. split; [done|by rewrite Hc, (wo_cr3 _ _ _ Ho)|done| |done|].
  - destruct He' as (? & Hp & Hea). split; [done|]. split; [congruence|].
    rewrite Hea. symmetry. apply table_addr. apply (pk_entry _ _ Hg). lia.
  - intros v Hv'. apply translate_frame; [apply Ho|done|done|done].
Qed.

Lemma wp_close_window q t x e' st1 st2 : window_open q t st1 → child_mapped q t x e' st1 st2 →
  0 ≤ q < MAX_PAGES → zone_of q = HIGHMEM_ZONE → ¬ pa_taken (palloc st) q →
  x = Z.lor (q * 4096) (GET_ENTRY_FLAGS e) →
  wp vmm_kunmap st2 (λ _ st3, page_copied q e' st3).
Proof.
  intros Ho Hm Hq Hz Hnq Hx. destruct kmap_index as (Ei & Ej & Hv & _).
  pose proof (wo_fresh _ _ _ Ho) as Hnt. destruct (wo_kept _ _ _ Ho) as (_ & Hk1 & Hko1).
  destruct (wo_table _ _ _ Ho) as [Hp1 Ht1].
  assert (tg ≠ t ∧ tg ≠ f) as [Htgt Htgf].
  { destruct (foot_g_taken _ tg_foot) as [? ?]. split; [by intros ->|done]. }
  assert (tg ≠ g) as Htgg by (apply (pk_table _ _ Hg a); [lia|done]).
  assert (g ≠ t ∧ g ≠ f ∧ f ≠ t) as (Hgt & Hgf & Hft).
  { pose proof (pk_taken _ _ Hf). destruct (foot_g_taken g ltac:(by left)). split_and!; congruence. }
  assert (entry (pmem st2) f 1023 = entry (pmem st1) f 1023) as E1.
  { rewrite (cm_words _ _ _ _ _ _ Hm) by lia. by rewrite !decide_False by (intros [? _]; congruence). }
  assert (∀ k, 0 ≤ k < 1024 → entry (pmem st2) t k = if decide (k = 1022) then Z.lor (q * 4096) 3 else 0) as E2.
  { intros k Hk. rewrite (cm_words _ _ _ _ _ _ Hm) by done.
    rewrite !decide_False by (intros [? _]; congruence). by apply (wo_new _ _ _ Ho). }
  destruct (mk_entry q 3 Hq ltac:(lia)) as (_ & _ & Hxf).
  assert (table (pmem st2) f (GET_PDE_INDEX VMM_KMAP_VADDR) = t) as Et
    by (rewrite Ei; unfold table; rewrite E1; exact Ht1).
  unfold vmm_kunmap. wp_step. apply wp_gets. rewrite (cm_cr3 _ _ _ _ _ _ Hm). wp_step.
  eapply wp_mono; [apply (wp_unmap_page_words st2 f VMM_KMAP_VADDR (cm_ok _ _ _ _ _ _ Hm) Hv)|].
  - by rewrite Ei, E1.
  - rewrite Et, Ej, E2, decide_True by done. unfold present. by rewrite Hxf by lia.
  - rewrite Et, (cm_palloc _ _ _ _ _ _ Hm). exact (wo_owned _ _ _ Ho).
  - rewrite Et. intros r st3 (_ & dropped & [Hw Hc Hkeep Hdrop]). apply wp_ret. destruct dropped.
    2: { destruct (Hkeep eq_refl) as (_ & j & Hj & Hne & Hp). rewrite Ej in Hne.
         rewrite E2, decide_False in Hp by done. done. }
    destruct (Hdrop eq_refl) as (Hok3 & Htk3 & Hown3). rewrite (cm_palloc _ _ _ _ _ _ Hm) in *.
    split; [done|done|done| |apply Hm| | |].
    + apply Hown3; [exact (wo_frame _ _ _ Ho)|]. intros ->. apply (highmem_frame _ Hz).
      destruct (pk_table _ _ (wo_ok _ _ _ Ho) 1023) as (Hl & _); [lia|done|]. by rewrite Ht1 in Hl.
    + eapply (pages_kept_back _ _ _ t Hok3 Hnt (wo_kept _ _ _ Ho)).
      * intros j Hj Hne. by apply Htk3.
      * intros p o Hpo Hap. apply Hown3; [done|]. intros ->. apply (Hap t); [unfold in_block; simpl; lia|].
        destruct (pa_owned_run _ _ _ Hpo) as (? & _). unfold in_block. pose proof (Z.pow_pos_nonneg 2 o). lia.
    + rewrite Hc, (cm_cr3 _ _ _ _ _ _ Hm). done.
    + intros h k Hh Hk. assert (h ≠ t) as Hht by (by intros ->).
      assert (entry (pmem st3) h k = if decide (h = f ∧ k = 1023) then 0 else entry (pmem st2) h k) as E3.
      { unfold entry at 1. rewrite Hw, Ei, Ej. cbn [andb]. unfold low_frame in *.
        repeat case_decide; try case_bool_decide; try done; subst; exfalso; naive_solver lia. }
      rewrite E3. case_decide as Hd; [done|]. rewrite (cm_words _ _ _ _ _ _ Hm) by done.
      rewrite (wo_words _ _ _ Ho) by done. subst x.
      repeat case_decide; try done. exfalso. naive_solver.
Qed.

Lemma parent_translate : present e = true →
  translate (pmem st) (f * 4096) (page_vaddr a b) = e / 4096 * 4096 ∧ 0 ≤ e / 4096 < MAX_PAGES.
Proof.
  intros Hp. destruct (page_vaddr_index a b) as (Hv & Ei & Ej & El); [lia|done|].
  pose proof (pk_pte _ _ Hf a b ltac:(lia) Hb Hfa) as Hr. fold tf e in Hr.
  rewrite translate_unfold by done. rewrite Ei, Ej, Hfa. fold tf e. cbn zeta. rewrite Hp, El, Z.add_0_r.
  rewrite entry_addr by done. unfold W32, MAX_PAGES in *.
  pose proof (Z.div_mod e 4096). pose proof (Z.mod_pos_bound e 4096).
  split; [rewrite u32_small by (unfold W32; lia); lia|]. split; [apply Z.div_pos; lia|apply Z.div_lt_upper_bound; lia].
Qed.

Lemma mmu_run sy (st2 : vmm S) fr str v x (Q : Z → fstate S → Prop) : pd_ok st2 f → cr3 st2 = f * 4096 →
  0 ≤ v < W32 → translate (pmem st2) (f * 4096) v = x → x ≠ 0 → Q x (FState sy st2 fr str) →
  wp (mmu v) (FState sy st2 fr str) Q.
Proof.
  intros Hok Hc Hv Ex Hx HQ. unfold mmu. apply wp_bind, wp_on_vmm. cbn [fs_vmm].
  wp_step. apply wp_gets. rewrite Hc. apply wp_get_mapping; [done..|]. cbn [fs_sys frames strings].
  rewrite Ex, (proj2 (Z.eqb_neq _ _) Hx). by apply wp_ret.
Qed.

Lemma wp_copy_user_page sy fr str :
  wp (copy_user_page (g * 4096) a (tf * 4096 + KERNEL_VADDR_BASE) b) (FState sy st fr str) (λ r s',
    fs_sys s' = sy ∧ strings s' = str ∧
    if (r : bool) then
      (present e = false ∧ fs_vmm s' = st ∧ frames s' = fr) ∨
      (present e = true ∧ ∃ q e', page_copied q e' (fs_vmm s') ∧ frames s' = <[q := fr (e / 4096)]> fr)
    else ∃ s1, fs_vmm s' = Vmm (pmem st) s1 (cr3 st) (flushes st) ∧ pages_kept (palloc st) s1 ∧ frames s' = fr).
Proof.
  destruct (pk_table _ _ Hf a ltac:(lia) Hfa) as (Htf & _). fold tf in Htf. unfold copy_user_page.
  apply wp_bind, wp_on_vmm. cbn [fs_vmm]. apply wp_ldw; [done..|]. cbn [fs_sys frames strings].
  fold (entry (pmem st) tf b). fold e. change (FLAG_IS_SET e PTE_PRESENT_BIT) with (present e).
  destruct (present e) eqn:Ep; cbn [negb]; [|apply wp_ret; auto 10]. specialize (He eq_refl).
  unfold buddy_alloc. apply wp_bind, wp_on_vmm, wp_lift_pa. cbn [fs_vmm].
  eapply wp_mono; [apply pa_alloc_law; [apply Hf|done]|].
  intros r s1 [[-> ->]|(q & -> & Hrun & Hz & Hs & Hown & Hkeep & Hkown)]; cbn [fs_sys frames strings].
  { apply wp_ret. split_and!; [done..|]. exists (palloc st). split_and!; [by destruct st| |done]. split; [apply Hf|auto]. }
  rewrite order_PAGE_SIZE in *. change PAGE_SIZE with 4096.
  assert (0 ≤ q < MAX_PAGES) as Hq by (by eapply run_ok_frame). assert (0 < q) as Hq0 by apply Hrun.
  assert (¬ pa_taken (palloc st) q) as Hnq.
  { intros Htk. apply (proj2 (Hkeep q Htk)). unfold in_block. simpl. lia. }
  assert (pages_kept (palloc st) s1) as Hk1 by (split_and!; [done| |done]; intros j Hj; by apply Hkeep).
  rewrite (proj2 (Z.eqb_neq (q * 4096) 0)) by lia.
  apply wp_bind, wp_on_vmm. cbn [fs_vmm]. eapply wp_mono; [by apply (wp_open_window q s1)|].
  intros w st1 [[-> ->]|(-> & t & Ho)]; cbn [fs_sys frames strings].
  - cbn. unfold buddy_free. apply wp_bind, wp_on_vmm, wp_lift_pa. cbn [fs_vmm palloc].
    eapply wp_mono; [apply (pa_free_law s1 q 0 Hs Hown)|]. intros [] s2 (Hs2 & Hk2 & Ho2). cbn beta. apply wp_ret.
    split_and!; [done..|]. exists s2. split_and!; [done| |done].
    apply (pages_kept_back _ s1 s2 q); [done..| |done]. intros j Hj Hne. apply Hk2. split; [done|].
    unfold in_block. simpl. lia.
  - change (VMM_KMAP_VADDR =? 0) with false. cbn [negb]. fold (page_vaddr a b).
    apply wp_bind, wp_on_vmm. cbn [fs_vmm].
    eapply wp_mono; [apply (wp_map_child q t st1 _ Ho Hq (flags_range e))|].
    intros ok st2 (-> & e' & Hm). cbn [negb fs_sys frames strings].
    destruct (parent_translate Ep) as [Etr Hsrc]. destruct kmap_index as (_ & _ & Hvw & _).
    destruct (page_vaddr_index a b) as (Hv & _); [lia|done|]. destruct (wo_translate _ _ _ Ho) as [Ew Eo].
    unfold copy_page. apply wp_bind, wp_bind.
    eapply (mmu_run sy st2 fr str VMM_KMAP_VADDR (q * 4096)); [apply Hm|apply Hm|done| |lia|].
    { by rewrite (cm_translate _ _ _ _ _ _ Hm). }
    apply wp_bind. eapply (mmu_run sy st2 fr str (page_vaddr a b) (e / 4096 * 4096)); [apply Hm|apply Hm|done| |lia|].
    { rewrite (cm_translate _ _ _ _ _ _ Hm), Eo, Etr by (done || rewrite page_vaddr_eq by lia; change (VMM_KMAP_VADDR / 4096) with 1048574; Z.div_mod_to_equations; lia). done. }
    apply wp_modify. change PAGE_SIZE with 4096. rewrite !Z.div_mul by lia. cbn [fs_sys frames strings fs_vmm].
    apply wp_bind, wp_on_vmm. cbn [fs_vmm].
    eapply wp_mono; [by apply (wp_close_window q t (Z.lor (q * 4096) (GET_ENTRY_FLAGS e)) e' st1 st2)|]. intros [] st3 Hc. cbn [fs_sys frames strings].
    apply wp_ret. split_and!; [done..|]. right. split; [done|]. exists q, e'. done.
Qed.

End Page.

End Space.
