(* ===== verification/ForkThm.v ===== *)
(** * fork: the child's address space *)

From S2P Require Import Prelude Dlist Memory Page Buddy BuddyInv BuddySpec BuddyThm PageAlloc.
From S2P Require Import Vmm VmmThm VmmWords Vma Task Fork ForkSpace.

(** The page-table entry that maps page [b] of table [a]. *)
Definition page_entry (m : Z → Z) (d a b : Z) : option Z :=
  if present (entry m d a) then
    let e := entry m (table m d a) b in if present e then Some e else None
  else None.

Lemma present_flags e : present (GET_ENTRY_FLAGS e) = present e.
Proof.
  unfold present, FLAG_IS_SET, GET_ENTRY_FLAGS. rewrite <- Z.land_assoc.
  by change (Z.land ENTRY_FLAGS_MASK 1) with 1.
Qed.

Lemma child_entry q e : 0 ≤ q < MAX_PAGES →
  let x := Z.lor (q * 4096) (GET_ENTRY_FLAGS e) in
  0 ≤ x < W32 ∧ present x = present e ∧ x / 4096 = q ∧ GET_ENTRY_FLAGS x = GET_ENTRY_FLAGS e.
Proof.
  intros Hq x. pose proof (flags_range e) as Hfl. destruct (mk_entry q _ Hq Hfl) as (Hx & _ & Hxf).
  split_and!; [lia|lia|..].
  - unfold present. rewrite Hxf by lia. apply present_flags.
  - unfold x. rewrite lor_frame by done. Z.div_mod_to_equations; lia.
  - unfold x. rewrite lor_frame by done. set (fl := GET_ENTRY_FLAGS e) in *.
    unfold GET_ENTRY_FLAGS, ENTRY_FLAGS_MASK. change 4095 with (Z.ones 12). rewrite Z.land_ones by lia.
    change (2 ^ 12) with 4096. Z.div_mod_to_equations; lia.
Qed.

Section Space.
Context {S : Type} `{KernelAllocator S} `{!PageAllocatorLaws S}.
Implicit Types st : vmm S.

(** ** Updates that keep the shape of a directory *)

Definition same_shape (d : Z) st st' : Prop :=
  ∀ i, 0 ≤ i < 1024 → 0 ≤ entry (pmem st') d i < W32 ∧
    present (entry (pmem st') d i) = present (entry (pmem st) d i) ∧
    (present (entry (pmem st) d i) = true → table (pmem st') d i = table (pmem st) d i).

Lemma same_shape_foot d st st' h : same_shape d st st' → foot (pmem st') d h ↔ foot (pmem st) d h.
Proof.
  intros Hs. unfold foot. split; (intros [->|(i & Hi & Hp & ->)]; [by left|right; exists i]);
    destruct (Hs i Hi) as (_ & E & Et).
  - rewrite E in Hp. rewrite Et by done. auto.
  - rewrite E, Et by done. auto.
Qed.

Lemma pd_ok_update st st' d : pd_ok st d → pa_ok (palloc st') →
  (∀ h, foot (pmem st) d h → pa_taken (palloc st') h) → same_shape d st st' →
  (∀ i j, 0 ≤ i < 1024 → 0 ≤ j < 1024 → present (entry (pmem st) d i) = true →
     0 ≤ entry (pmem st') (table (pmem st) d i) j < W32) →
  pd_ok st' d.
Proof.
  intros [K1 K2 K3 K4 K5 K6 K7] Hok Htk Hs Hw. split; [done|done|apply Htk; by left|..].
  - intros i Hi. apply (Hs i Hi).
  - intros i Hi Hp. destruct (Hs i Hi) as (_ & E & Et). rewrite E in Hp. rewrite Et by done.
    destruct (K5 i Hi Hp) as (? & _ & ?). split_and!; [done| |done]. apply Htk. right. eauto.
  - intros i j Hi Hj Hij Hp Hp'. destruct (Hs i Hi) as (_ & E & Et), (Hs j Hj) as (_ & E' & Et').
    rewrite E in Hp. rewrite E' in Hp'. rewrite Et, Et' by done. auto.
  - intros i j Hi Hj Hp. destruct (Hs i Hi) as (_ & E & Et). rewrite E in Hp. rewrite Et by done. auto.
Qed.

(** ** The invariant *)

Section Invariant.
Context (st0 : vmm S) (fr0 : Z → Z → Z) (f g : Z).

(** [q] is a frame of the child's own. *)
Definition own_frame st (q : Z) : Prop :=
  zone_of q = HIGHMEM_ZONE ∧ 0 ≤ q < MAX_PAGES ∧ pa_owned (palloc st) q 0 ∧ ¬ pa_taken (palloc st0) q.

(** Page [b] of table [a] of the child is a copy of the parent's. *)
Definition page_ok st (fr : Z → Z → Z) (a b : Z) : Prop :=
  match page_entry (pmem st0) f a b with
  | None => page_entry (pmem st) g a b = None
  | Some e => ∃ q, page_entry (pmem st) g a b = Some (Z.lor (q * 4096) (GET_ENTRY_FLAGS e)) ∧
      own_frame st q ∧ fr q = fr0 (e / 4096)
  end.

Record cinv (n m : Z) st (fr : Z → Z → Z) : Prop := {
  ci_f : pd_ok st f;
  ci_g : pd_ok st g;
  ci_cr3 : cr3 st = f * 4096;
  ci_window : present (entry (pmem st) f 1023) = false;
  ci_apart : ∀ h, foot (pmem st) f h → ¬ foot (pmem st) g h;
  ci_kept : pages_kept (palloc st0) (palloc st);
  ci_parent : ∀ h k, foot (pmem st0) f h → 0 ≤ k < 1024 → ¬ (h = f ∧ k = 1023) →
    entry (pmem st) h k = entry (pmem st0) h k;
  ci_later : ∀ a, m ≤ a < 1024 → entry (pmem st) g a = 0;
  ci_blank : ∀ a b, 0 ≤ a < m → 0 ≤ b < 1024 → n ≤ a * 1024 + b →
    present (entry (pmem st) g a) = true → entry (pmem st) (table (pmem st) g a) b = 0;
  ci_owned : pa_owned (palloc st) g 0 ∧ ∀ a, 0 ≤ a < 1024 → present (entry (pmem st) g a) = true →
    pa_owned (palloc st) (table (pmem st) g a) 0;
  ci_page : ∀ a b, 0 ≤ a < 768 → 0 ≤ b < 1024 → a * 1024 + b < n → page_ok st fr a b;
  ci_inj : ∀ a b a' b' x x', 0 ≤ a < 768 → 0 ≤ b < 1024 → 0 ≤ a' < 768 → 0 ≤ b' < 1024 →
    a * 1024 + b < n → a' * 1024 + b' < n →
    page_entry (pmem st) g a b = Some x → page_entry (pmem st) g a' b' = Some x' →
    x / 4096 = x' / 4096 → a = a' ∧ b = b';
  ci_frames : ∀ q, pa_taken (palloc st0) q → fr q = fr0 q }.

Context (Hf0 : pd_ok st0 f) (Hwin0 : present (entry (pmem st0) f 1023) = false).
Context (Hfr0 : ∀ a b e, 0 ≤ a < 768 → 0 ≤ b < 1024 → page_entry (pmem st0) f a b = Some e →
  0 < e / 4096 ∧ pa_taken (palloc st0) (e / 4096)).

Lemma parent_entry n m st fr i : cinv n m st fr → 0 ≤ i < 1023 → entry (pmem st) f i = entry (pmem st0) f i.
Proof. intros Hc Hi. apply (ci_parent _ _ _ _ Hc); [by left|lia|lia]. Qed.

Lemma parent_foot n m st fr h : cinv n m st fr → foot (pmem st0) f h → foot (pmem st) f h.
Proof.
  intros Hc [->|(i & Hi & Hp & ->)]; [by left|]. right. exists i.
  assert (i ≠ 1023) by (intros ->; congruence).
  rewrite (parent_entry _ _ _ _ i Hc) by lia. unfold table. rewrite (parent_entry _ _ _ _ i Hc) by lia. auto.
Qed.

(** What the child's copied page says about its frame. *)
Lemma copied_frame n m st fr a b x : cinv n m st fr → 0 ≤ a < 768 → 0 ≤ b < 1024 → a * 1024 + b < n →
  page_entry (pmem st) g a b = Some x → pa_taken (palloc st) (x / 4096).
Proof.
  intros Hc Ha Hb Hn Hx. pose proof (ci_page _ _ _ _ Hc a b Ha Hb Hn) as Hp. unfold page_ok in Hp.
  destruct (page_entry (pmem st0) f a b) as [e|]; [|congruence].
  destruct Hp as (q & Eq & (_ & Hq & Ho & _) & _). rewrite Hx in Eq. injection Eq as ->.
  destruct (child_entry q e Hq) as (_ & _ & -> & _). eapply pa_owned_taken; [exact Ho|]. unfold in_block. simpl. lia.
Qed.

Lemma cinv_palloc n m st fr s1 fl : cinv n m st fr → pages_kept (palloc st) s1 →
  cinv n m (Vmm (pmem st) s1 (cr3 st) fl) fr.
Proof.
  intros [] Hk. pose proof Hk as (Hok & Htk & Hown).
  split; cbn [pmem palloc cr3]; try done; try (intros; by eauto).
  - apply (pd_ok_frame st); [done|done| |done]. intros h Hh. apply Htk. by eapply foot_low in Hh as [_ ?].
  - apply (pd_ok_frame st); [done|done| |done]. intros h Hh. apply Htk. by eapply foot_low in Hh as [_ ?].
  - by eapply pages_kept_trans.
  - destruct ci_owned0 as [? ?]. split; auto.
  - intros a b Ha Hb Hn. specialize (ci_page0 a b Ha Hb Hn). unfold page_ok in *.
    destruct (page_entry (pmem st0) f a b); [|done].
    destruct ci_page0 as (q & ? & (? & ? & ? & ?) & ?). exists q. split; [done|]. split; [|done]. do 2 (split; [done|]). auto.
Qed.

(** *** A page is copied *)

Section CopyPage.
Context (a b : Z) (st : vmm S) (fr : Z → Z → Z) (Hc : cinv (a * 1024 + b) (a + 1) st fr).
Context (Ha : 0 ≤ a < 768) (Hb : 0 ≤ b < 1024).
Context (Hfa : present (entry (pmem st0) f a) = true).
Context (Hga : present (entry (pmem st) g a) = true).

Let tg := table (pmem st) g a.
Let e := entry (pmem st) (table (pmem st) f a) b.

Lemma parent_page : page_entry (pmem st0) f a b = if present e then Some e else None.
Proof.
  assert (entry (pmem st) f a = entry (pmem st0) f a) as E by (eapply parent_entry; [done|lia]).
  assert (e = entry (pmem st0) (table (pmem st0) f a) b) as ->.
  { unfold e, table. rewrite E. apply (ci_parent _ _ _ _ Hc); [|done|].
    - right. exists a. split; [lia|done].
    - intros [Hx _]. destruct (pk_table _ _ Hf0 a ltac:(lia) Hfa) as (_ & _ & Hne). by apply Hne. }
  unfold page_entry. by rewrite Hfa.
Qed.

(** Nothing to copy. *)
Lemma cinv_skip_page : present e = false → cinv (a * 1024 + b + 1) (a + 1) st fr.
Proof.
  intros Hp. pose proof parent_page as Hpp. rewrite Hp in Hpp.
  assert (page_entry (pmem st) g a b = None) as Hcp.
  { unfold page_entry. rewrite Hga. cbn zeta.
    by rewrite (ci_blank _ _ _ _ Hc a b ltac:(lia) Hb ltac:(lia) Hga). }
  assert (∀ a' b', 0 ≤ b' < 1024 → a' * 1024 + b' < a * 1024 + b + 1 →
    a' * 1024 + b' < a * 1024 + b ∨ a' = a ∧ b' = b) as Hcase by lia.
  destruct Hc. split; try done.
  - intros a' b' Ha' Hb' Hn. apply ci_blank0; [done|done|lia].
  - intros a' b' Ha' Hb' Hn. destruct (Hcase a' b' Hb' Hn) as [|[-> ->]]; [by apply ci_page0|].
    unfold page_ok. by rewrite Hpp.
  - intros a1 b1 a2 b2 x x' Ha1 Hb1 Ha2 Hb2 H1 H2 E1 E2.
    destruct (Hcase a1 b1 Hb1 H1) as [|[-> ->]]; [|congruence].
    destruct (Hcase a2 b2 Hb2 H2) as [|[-> ->]]; [|congruence]. by eapply ci_inj0.
Qed.

Context (q e' : Z) (st' : vmm S) (Hp : present e = true) (Hpc : page_copied f g a b st q e' st').

Lemma g_not_f h : foot (pmem st) g h → h ≠ f ∧ pa_taken (palloc st) h.
Proof.
  intros Hh. split; [|by eapply foot_low in Hh as [_ ?]; [|apply Hc]].
  intros ->. by apply (ci_apart _ _ _ _ Hc f); [left|].
Qed.

Lemma copied_tg : foot (pmem st) g tg ∧ tg ≠ g ∧ g ≠ f ∧ tg ≠ f.
Proof.
  assert (foot (pmem st) g tg) as Ht by (right; exists a; split; [lia|done]).
  split_and!; [done| |apply g_not_f; by left|by apply g_not_f].
  apply (pk_table _ _ (ci_g _ _ _ _ Hc) a); [lia|done].
Qed.

Lemma copied_f_words h k : foot (pmem st) f h → 0 ≤ k < 1024 → ¬ (h = f ∧ k = 1023) →
  entry (pmem st') h k = entry (pmem st) h k.
Proof.
  intros Hh Hk Hne. pose proof (ci_apart _ _ _ _ Hc h Hh) as Hng. destruct copied_tg as (Ht & _).
  rewrite (pc_words _ _ _ _ _ _ _ _ Hpc); [|by eapply foot_low in Hh as [_ ?]; [|apply Hc]|done].
  rewrite !decide_False; [done|..|done]; intros [-> _]; [by apply Hng|by apply Hng; left].
Qed.

Lemma copied_g_words h k : foot (pmem st) g h → 0 ≤ k < 1024 → entry (pmem st') h k =
  if decide (h = g ∧ k = a) then e'
  else if decide (h = tg ∧ k = b) then Z.lor (q * 4096) (GET_ENTRY_FLAGS e) else entry (pmem st) h k.
Proof.
  intros [? ?]%g_not_f Hk. rewrite (pc_words _ _ _ _ _ _ _ _ Hpc) by done.
  by rewrite decide_False by (intros [? _]; done).
Qed.

Lemma copied_shape_f : same_shape f st st'.
Proof.
  intros i Hi. destruct (decide (i = 1023)) as [->|Hne].
  - rewrite (pc_words _ _ _ _ _ _ _ _ Hpc), decide_True by (done || apply (pk_taken _ _ (ci_f _ _ _ _ Hc))).
    rewrite (ci_window _ _ _ _ Hc). split_and!; done.
  - unfold table. rewrite copied_f_words by (by left || done || naive_solver).
    split; [|done]. by apply (pk_entry _ _ (ci_f _ _ _ _ Hc)).
Qed.

Lemma copied_shape_g : same_shape g st st'.
Proof.
  intros i Hi. destruct copied_tg as (_ & Htg & _). pose proof (pk_entry _ _ (ci_g _ _ _ _ Hc) i Hi) as Hr.
  unfold table. rewrite copied_g_words by (by left || done). destruct (decide (g = g ∧ i = a)) as [[_ ->]|Hne].
  - destruct (pc_pde _ _ _ _ _ _ _ _ Hpc) as [Her [Hs1 Hs2]]. split_and!; [lia|lia|done|]. intros _.
    rewrite !entry_addr in Hs2 by done.
    pose proof (Z.div_mod e' 4096). pose proof (Z.div_mod (entry (pmem st) g a) 4096). lia.
  - rewrite decide_False by (intros [? _]; congruence). done.
Qed.

Lemma copied_table_g i : 0 ≤ i < 1024 → present (entry (pmem st) g i) = true →
  ∀ k, 0 ≤ k < 1024 → entry (pmem st') (table (pmem st) g i) k =
    if decide (i = a ∧ k = b) then Z.lor (q * 4096) (GET_ENTRY_FLAGS e)
    else entry (pmem st) (table (pmem st) g i) k.
Proof.
  intros Hi Hpi k Hk. rewrite copied_g_words by (done || (right; by exists i)).
  destruct (pk_table _ _ (ci_g _ _ _ _ Hc) i Hi Hpi) as (_ & _ & Hne).
  rewrite decide_False by (intros [? _]; done). destruct (decide (i = a)) as [->|Hia].
  - fold tg. repeat case_decide; naive_solver.
  - assert (table (pmem st) g i ≠ tg) by (apply (pk_inj _ _ (ci_g _ _ _ _ Hc)); [done|lia|done..]).
    by rewrite !decide_False by (intros [? ?]; done).
Qed.

Lemma copied_page_entry a' b' : 0 ≤ a' < 1024 → 0 ≤ b' < 1024 → page_entry (pmem st') g a' b' =
  if decide (a' = a ∧ b' = b) then Some (Z.lor (q * 4096) (GET_ENTRY_FLAGS e)) else page_entry (pmem st) g a' b'.
Proof.
  intros Ha' Hb'. destruct (copied_shape_g a' Ha') as (_ & Epr & Et). unfold page_entry. rewrite Epr.
  destruct (present (entry (pmem st) g a')) eqn:Ep.
  - rewrite Et, copied_table_g by done. case_decide; [|done].
    destruct (child_entry q e (pc_frame _ _ _ _ _ _ _ _ Hpc)) as (_ & Epx & _). cbn zeta. by rewrite Epx, Hp.
  - rewrite decide_False; [done|]. intros [-> _]. congruence.
Qed.

Lemma copied_own a' b' : 0 ≤ a' < 768 → 0 ≤ b' < 1024 → a' * 1024 + b' < a * 1024 + b + 1 →
  page_ok st' (<[q := fr (e / 4096)]> fr) a' b'.
Proof.
  intros Ha' Hb' Hn. destruct (pc_kept _ _ _ _ _ _ _ _ Hpc) as (_ & Htk & Hown).
  unfold page_ok. rewrite copied_page_entry by lia. case_decide as Hd.
  - destruct Hd as [-> ->]. rewrite parent_page, Hp.
    destruct (Hfr0 a b e Ha Hb) as [_ Htake]; [by rewrite parent_page, Hp|]. exists q. split; [done|]. split.
    + split; [apply Hpc|]. split; [apply (pc_frame _ _ _ _ _ _ _ _ Hpc)|]. split; [apply Hpc|].
      intros Hq. by apply (pc_fresh _ _ _ _ _ _ _ _ Hpc), (ci_kept _ _ _ _ Hc).
    + rewrite fn_lookup_insert. by apply (ci_frames _ _ _ _ Hc).
  - assert (a' * 1024 + b' < a * 1024 + b) as Hlt by lia.
    pose proof (ci_page _ _ _ _ Hc a' b' Ha' Hb' Hlt) as Hpg. unfold page_ok in Hpg.
    destruct (page_entry (pmem st0) f a' b') as [x|]; [|done].
    destruct Hpg as (q' & Eq & (Hz & Hq' & Ho & Hn0) & Hcont). exists q'. split; [done|].
    split; [do 2 (split; [done|]); auto|]. rewrite fn_lookup_insert_ne; [done|].
    intros ->. apply (pc_fresh _ _ _ _ _ _ _ _ Hpc). eapply pa_owned_taken; [exact Ho|]. unfold in_block. simpl. lia.
Qed.

Lemma cinv_copy_page : cinv (a * 1024 + b + 1) (a + 1) st' (<[q := fr (e / 4096)]> fr).
Proof.
  pose proof (pc_kept _ _ _ _ _ _ _ _ Hpc) as (Hok & Htk & Hown). pose proof Hc as [].
  assert (∀ d h, pd_ok st d → foot (pmem st) d h → pa_taken (palloc st') h) as Hft.
  { intros d h Hd Hh. apply Htk. by eapply foot_low in Hh as [_ ?]. }
  destruct (child_entry q e (pc_frame _ _ _ _ _ _ _ _ Hpc)) as (Hxr & _ & Hxq & _).
  assert (∀ a' b' x, 0 ≤ a' < 768 → 0 ≤ b' < 1024 → a' * 1024 + b' < a * 1024 + b →
    page_entry (pmem st) g a' b' = Some x → x / 4096 ≠ q) as Hnq.
  { intros a' b' x Ha' Hb' Hn Hx E. apply (pc_fresh _ _ _ _ _ _ _ _ Hpc). rewrite <- E. by eapply copied_frame. }
  split.
  - apply (pd_ok_update st); [done|done|eauto|apply copied_shape_f|]. intros i j Hi Hj Hpi.
    rewrite copied_f_words; [by apply (pk_pte _ _ ci_f0)|right; by exists i|done|].
    intros [E _]. by apply (pk_table _ _ ci_f0 i Hi Hpi) in E.
  - apply (pd_ok_update st); [done|done|eauto|apply copied_shape_g|]. intros i j Hi Hj Hpi.
    rewrite copied_table_g by done. case_decide; [done|]. by apply (pk_pte _ _ ci_g0).
  - rewrite (pc_cr3 _ _ _ _ _ _ _ _ Hpc). done.
  - by destruct (copied_shape_f 1023 ltac:(lia)) as (_ & -> & _).
  - intros h. rewrite (same_shape_foot _ _ _ _ copied_shape_f), (same_shape_foot _ _ _ _ copied_shape_g). auto.
  - eapply pages_kept_trans; [exact ci_kept0|]. apply Hpc.
  - intros h k Hh Hk Hne. rewrite copied_f_words; [by apply ci_parent0| |done|done].
    by eapply parent_foot.
  - intros a' Ha'. destruct copied_tg as (_ & Htg & _). rewrite copied_g_words by (by left || lia).
    rewrite !decide_False; [apply ci_later0; lia| |]; intros [? ?]; [congruence|lia].
  - intros a' b' Ha' Hb' Hn Hpr. destruct (copied_shape_g a' ltac:(lia)) as (_ & Epr & Et).
    rewrite Epr in Hpr. rewrite Et, copied_table_g by (done || lia). rewrite decide_False by lia.
    apply ci_blank0; [done|done|lia|done].
  - destruct ci_owned0 as [Hog Hot]. split; [auto|]. intros i Hi Hpr.
    destruct (copied_shape_g i Hi) as (_ & Epr & Et). rewrite Epr in Hpr. rewrite Et by done. auto.
  - apply copied_own.
  - intros a1 b1 a2 b2 x x' Ha1 Hb1 Ha2 Hb2 H1 H2. rewrite !copied_page_entry by lia.
    destruct (decide (a1 = a ∧ b1 = b)) as [[-> ->]|Hn1], (decide (a2 = a ∧ b2 = b)) as [[-> ->]|Hn2].
    + done.
    + intros [= <-] Hx2. rewrite Hxq. intros E. symmetry in E. by apply (Hnq a2 b2 x') in E; [|done|done|lia|done].
    + intros Hx1 [= <-]. rewrite Hxq. intros E. by apply (Hnq a1 b1 x) in E; [|done|done|lia|done].
    + apply ci_inj0; done || lia.
  - intros q0 Hq0. rewrite fn_lookup_insert_ne; [auto|]. intros ->.
    by apply (pc_fresh _ _ _ _ _ _ _ _ Hpc), ci_kept0.
Qed.

End CopyPage.

(** *** A table is skipped or created *)

Lemma cinv_skip_table a st fr : cinv (a * 1024) a st fr → 0 ≤ a < 768 →
  present (entry (pmem st0) f a) = false → cinv ((a + 1) * 1024) (a + 1) st fr.
Proof.
  intros Hc Ha Hp. pose proof (ci_later _ _ _ _ Hc a ltac:(lia)) as E0.
  assert (∀ b, page_entry (pmem st) g a b = None) as Hnone by (intros b; unfold page_entry; by rewrite E0).
  assert (∀ a' b', 0 ≤ b' < 1024 → a' * 1024 + b' < (a + 1) * 1024 → a' * 1024 + b' < a * 1024 ∨ a' = a)
    as Hcase by lia.
  destruct Hc. split; try done.
  - intros a' Ha'. apply ci_later0. lia.
  - intros a' b' Ha' Hb' Hn. destruct (decide (a' = a)) as [->|]; [by rewrite E0|]. lia.
  - intros a' b' Ha' Hb' Hn. destruct (Hcase a' b' Hb' Hn) as [| ->]; [by apply ci_page0|].
    unfold page_ok. rewrite Hnone. unfold page_entry. by rewrite Hp.
  - intros a1 b1 a2 b2 x x' Ha1 Hb1 Ha2 Hb2 H1 H2 E1 E2.
    destruct (Hcase a1 b1 Hb1 H1) as [| ->]; [|by rewrite Hnone in E1].
    destruct (Hcase a2 b2 Hb2 H2) as [| ->]; [|by rewrite Hnone in E2]. by eapply ci_inj0.
Qed.

Section NewTable.
Context (a t x : Z) (st st1 : vmm S) (fr : Z → Z → Z) (Hc : cinv (a * 1024) a st fr) (Ha : 0 ≤ a < 768).
Context (Ht : low_frame t) (Hnt : ¬ pa_taken (palloc st) t) (Hk : pages_kept (palloc st) (palloc st1)).
Context (Hot : pa_owned (palloc st1) t 0) (Hcr : cr3 st1 = cr3 st).
Context (Hx : 0 ≤ x < W32) (Hxp : present x = true) (Hxt : x / 4096 = t).
Context (Hw : ∀ h k, 0 ≤ k < 1024 → entry (pmem st1) h k =
  if decide (h = t) then 0 else if decide (h = g ∧ k = a) then x else entry (pmem st) h k).

Lemma new_old h : pa_taken (palloc st) h → h ≠ t.
Proof. by intros Hh ->. Qed.

Lemma new_g i : 0 ≤ i < 1024 → entry (pmem st1) g i = if decide (i = a) then x else entry (pmem st) g i.
Proof.
  intros Hi. rewrite Hw by done. rewrite decide_False by (apply new_old, (pk_taken _ _ (ci_g _ _ _ _ Hc))).
  repeat case_decide; naive_solver.
Qed.

Lemma new_words h k : pa_taken (palloc st) h → h ≠ g → 0 ≤ k < 1024 → entry (pmem st1) h k = entry (pmem st) h k.
Proof.
  intros Hh Hg Hk'. rewrite Hw, decide_False by (done || by apply new_old).
  by rewrite decide_False by (intros [? _]; done).
Qed.

Lemma new_table i : 0 ≤ i < 1024 → present (entry (pmem st1) g i) = true →
  (i = a ∧ table (pmem st1) g i = t) ∨
  (i ≠ a ∧ present (entry (pmem st) g i) = true ∧ table (pmem st1) g i = table (pmem st) g i ∧
   pa_taken (palloc st) (table (pmem st) g i) ∧ table (pmem st) g i ≠ g).
Proof.
  intros Hi. unfold table at 1 2. rewrite new_g by done. case_decide as E; [by left|]. intros Hp. right.
  destruct (pk_table _ _ (ci_g _ _ _ _ Hc) i Hi Hp) as (_ & ? & ?). done.
Qed.

Lemma new_page_entry a' b' : 0 ≤ a' < 1024 → 0 ≤ b' < 1024 →
  page_entry (pmem st1) g a' b' = if decide (a' = a) then None else page_entry (pmem st) g a' b'.
Proof.
  intros Ha' Hb'. unfold page_entry, table. rewrite new_g by done. case_decide as E.
  - rewrite Hxp, Hxt, Hw, decide_True by done. done.
  - destruct (present (entry (pmem st) g a')) eqn:Ep; [|done].
    destruct (pk_table _ _ (ci_g _ _ _ _ Hc) a' Ha' Ep) as (_ & ? & ?). fold (table (pmem st) g a').
    by rewrite new_words.
Qed.

Lemma new_pd_f : pd_ok st1 f ∧ ∀ h k, foot (pmem st) f h → 0 ≤ k < 1024 → entry (pmem st1) h k = entry (pmem st) h k.
Proof.
  assert (∀ h k, foot (pmem st) f h → 0 ≤ k < 1024 → entry (pmem st1) h k = entry (pmem st) h k) as Hwf.
  { intros h k Hh Hk'. apply new_words; [by eapply foot_low in Hh as [_ ?]; [|apply Hc]| |done].
    intros ->. apply (ci_apart _ _ _ _ Hc g Hh). by left. }
  split; [|done]. destruct Hk as (? & Htk & _). apply (pd_ok_frame st); [apply Hc|done| |done].
  intros h Hh. apply Htk. by eapply foot_low in Hh as [_ ?]; [|apply Hc].
Qed.

Lemma new_pd_g : pd_ok st1 g.
Proof.
  destruct Hk as (Hok & Htk & _). pose proof (ci_g _ _ _ _ Hc) as [K1 K2 K3 K4 K5 K6 K7].
  assert (pa_taken (palloc st1) t) as Htt by (eapply pa_owned_taken; [exact Hot|]; unfold in_block; simpl; lia).
  split; [done|done|auto|..].
  - intros i Hi. rewrite new_g by done. case_decide; auto.
  - intros i Hi Hp. destruct (new_table i Hi Hp) as [[-> ->]|(_ & Hp' & -> & ? & ?)].
    + split_and!; [done|done|]. intros ->. by apply Hnt.
    + split_and!; [by apply K5|auto|done].
  - intros i j Hi Hj Hij Hp Hp'.
    destruct (new_table i Hi Hp) as [[-> ->]|(_ & ? & -> & Hti & _)], (new_table j Hj Hp') as [[-> ->]|(_ & ? & -> & Htj & _)].
    + done.
    + intros E. apply Hnt. by rewrite E.
    + by apply new_old.
    + by apply K6.
  - intros i j Hi Hj Hp. destruct (new_table i Hi Hp) as [[-> ->]|(_ & Hp' & -> & Hti & Hne)].
    + by rewrite Hw, decide_True by done.
    + rewrite new_words by done. auto.
Qed.

Lemma cinv_new_table : cinv (a * 1024) (a + 1) st1 fr.
Proof.
  pose proof Hk as (Hok & Htk & Hown). destruct new_pd_f as [Hf1 Hwf]. pose proof Hc as [].
  assert (∀ h, foot (pmem st1) f h → foot (pmem st) f h) as Hff.
  { intros h [->|(i & Hi & Hp & ->)]; [by left|]. rewrite Hwf in Hp by (done || by left). right. exists i.
    unfold table. rewrite Hwf by (done || by left). done. }
  split.
  - done.
  - apply new_pd_g.
  - congruence.
  - by rewrite Hwf by (done || by left).
  - intros h Hh%Hff [->|(i & Hi & Hp & ->)]; [by apply (ci_apart0 g Hh); left|].
    destruct (new_table i Hi Hp) as [[-> E]|(_ & Hp' & E & _)]; rewrite E in Hh.
    + by eapply foot_low in Hh as [_ ?].
    + apply (ci_apart0 _ Hh). right. eauto.
  - by eapply pages_kept_trans.
  - intros h k Hh Hk' Hne. rewrite Hwf; [by apply ci_parent0|by eapply parent_foot|done].
  - intros a' Ha'. rewrite new_g, decide_False by lia. apply ci_later0. lia.
  - intros a' b' Ha' Hb' Hn Hp. destruct (new_table a' ltac:(lia) Hp) as [[-> ->]|(Hne & _)]; [|lia].
    by rewrite Hw, decide_True.
  - destruct ci_owned0 as [Hog Hotb]. split; [auto|]. intros i Hi Hp.
    destruct (new_table i Hi Hp) as [[-> ->]|(_ & Hp' & -> & _)]; [done|auto].
  - intros a' b' Ha' Hb' Hn. specialize (ci_page0 a' b' Ha' Hb' Hn). unfold page_ok in *.
    rewrite new_page_entry, decide_False by lia. destruct (page_entry (pmem st0) f a' b'); [|done].
    destruct ci_page0 as (q & ? & (? & ? & ? & ?) & ?). exists q. split; [done|]. split; [|done].
    do 2 (split; [done|]). auto.
  - intros a1 b1 a2 b2 y y' Ha1 Hb1 Ha2 Hb2 H1 H2. rewrite !new_page_entry, !decide_False by lia.
    by apply ci_inj0.
  - done.
Qed.

End NewTable.

(** ** The loops *)

(** The parts of the state the loops do not concern. *)
Definition same_rest (s s' : fstate S) : Prop := fs_sys s' = fs_sys s ∧ strings s' = strings s.

Lemma wp_copy_table_pages a s : cinv (a * 1024) (a + 1) (fs_vmm s) (frames s) → 0 ≤ a < 768 →
  present (entry (pmem st0) f a) = true → present (entry (pmem (fs_vmm s)) g a) = true →
  wp (for_ok 1024 0 (copy_user_page (g * 4096) a (table (pmem st0) f a * 4096 + KERNEL_VADDR_BASE))) s (λ ok s',
    same_rest s s' ∧ if (ok : bool) then cinv ((a + 1) * 1024) (a + 1) (fs_vmm s') (frames s')
    else ∃ n m, cinv n m (fs_vmm s') (frames s')).
Proof.
  intros Hc0 Ha Hfa Hga0.
  eapply wp_mono; [apply (wp_for_ok (λ b s', same_rest s s' ∧ cinv (a * 1024 + b) (a + 1) (fs_vmm s') (frames s') ∧
    present (entry (pmem (fs_vmm s')) g a) = true) (λ s', same_rest s s' ∧ ∃ n m, cinv n m (fs_vmm s') (frames s')))|].
  - split; [done|]. by rewrite Z.add_0_r.
  - intros b [sy st fr str] Hb ([E1 E2] & Hc & Hga). cbn [fs_sys fs_vmm frames strings] in *. subst sy str.
    assert (entry (pmem st) f a = entry (pmem st0) f a) as Efa by (eapply parent_entry; [done|lia]).
    assert (table (pmem st0) f a = table (pmem st) f a) as Et by (unfold table; by rewrite Efa).
    rewrite Et. assert (present (entry (pmem st) f a) = true) as Hfa' by (by rewrite Efa).
    eapply wp_mono; [apply wp_copy_user_page; try apply Hc; try done; try lia|].
    + intros Hp. apply (Hfr0 a b); [lia|lia|]. rewrite (parent_page a b st fr Hc Ha ltac:(lia) Hfa). by rewrite Hp.
    + intros [] s' (E3 & E4 & Hr).
      * destruct Hr as [(Hp & -> & ->)|(Hp & q & e' & Hpc & ->)].
        -- split; [done|]. split; [|done]. rewrite Z.add_assoc. by apply cinv_skip_page.
        -- split; [done|]. split; [rewrite Z.add_assoc; by eapply cinv_copy_page|].
           by destruct (copied_shape_g a b st fr Hc Ha Hga q e' (fs_vmm s') Hpc a ltac:(lia)) as (_ & -> & _).
      * destruct Hr as (s1 & -> & Hk & ->). split; [done|]. exists (a * 1024 + b), (a + 1). by apply cinv_palloc.
  - intros [] s'; [|done]. intros (Hr & Hc & _). split; [done|].
    by replace ((a + 1) * 1024) with (a * 1024 + (0 + Z.of_nat 1024)) by lia.
Qed.

Lemma wp_copy_user_table a s : cinv (a * 1024) a (fs_vmm s) (frames s) → 0 ≤ a < 768 →
  wp (copy_user_table (f * 4096 + KERNEL_VADDR_BASE) (g * 4096) (g * 4096 + KERNEL_VADDR_BASE) a) s (λ ok s',
    same_rest s s' ∧ if (ok : bool) then cinv ((a + 1) * 1024) (a + 1) (fs_vmm s') (frames s')
    else ∃ n m, cinv n m (fs_vmm s') (frames s')).
Proof.
  destruct s as [sy st fr str]. cbn [fs_vmm frames]. intros Hc Ha. pose proof (pk_frame _ _ (ci_f _ _ _ _ Hc)) as Hlf.
  pose proof (pk_frame _ _ (ci_g _ _ _ _ Hc)) as Hlg.
  assert (entry (pmem st) f a = entry (pmem st0) f a) as Efa by (eapply parent_entry; [done|lia]).
  unfold copy_user_table. apply wp_bind, wp_on_vmm. cbn [fs_vmm]. apply wp_ldw; [done|lia|]. cbn [fs_sys frames strings].
  fold (entry (pmem st) f a). rewrite Efa. change (FLAG_IS_SET ?x PDE_PRESENT_BIT) with (present x).
  destruct (present (entry (pmem st0) f a)) eqn:Hp; cbn [negb].
  2: { apply wp_ret. split; [done|]. by apply cinv_skip_table. }
  destruct (pk_table _ _ Hf0 a ltac:(lia) Hp) as (Htf & _). pose proof (pk_entry _ _ Hf0 a ltac:(lia)) as Her.
  unfold buddy_alloc. apply wp_bind, wp_on_vmm, wp_lift_pa. cbn [fs_vmm].
  eapply wp_mono; [apply pa_alloc_law; [apply Hc|done]|].
  intros r s1 [[-> ->]|(t & -> & Hrun & Hz & Hs & Hown & Hkeep & Hkown)]; cbn [fs_sys frames strings].
  { apply wp_ret. split; [done|]. exists (a * 1024), a. by destruct st. }
  rewrite order_PAGE_SIZE in *. apply lowmem_frame in Hz as Ht. change PAGE_SIZE with 4096.
  rewrite (proj2 (Z.eqb_neq (t * 4096) 0)) by (unfold low_frame in Ht; lia).
  assert (0 ≤ t < MAX_PAGES) as Htm by (by eapply run_ok_frame).
  assert (GET_ENTRY_ADDR (t * 4096) = t * 4096) as Eta.
  { rewrite entry_addr, Z.mod_mul by (unfold MAX_PAGES, W32 in *; lia). lia. }
  rewrite Eta. destruct (mk_entry t _ Htm (flags_range (entry (pmem st0) f a))) as (Hx & Hxa & _).
  destruct (child_entry t (entry (pmem st0) f a) Htm) as (_ & Hxp & Hxt & _). rewrite Hp in Hxp.
  set (x := Z.lor (t * 4096) _) in *.
  assert (¬ pa_taken (palloc st) t) as Hnt.
  { intros Htk. apply (proj2 (Hkeep t Htk)). unfold in_block. simpl. lia. }
  assert (g ≠ t) as Hgt by (intros <-; apply Hnt, (pk_taken _ _ (ci_g _ _ _ _ Hc))).
  apply wp_bind, wp_on_vmm. cbn [fs_vmm]. apply wp_stw; [done|lia|]. cbn [fs_sys frames strings].
  rewrite table_addr by done. apply wp_bind, wp_lin_f; [unfold low_frame in Htf; lia|].
  apply wp_bind, wp_on_vmm. cbn [fs_vmm]. apply wp_ldw; [done|lia|]. cbn [fs_sys frames strings set_pmem pmem].
  rewrite fn_lookup_insert, Hxa. apply wp_bind, wp_lin_f; [unfold low_frame in Ht; lia|].
  apply wp_bind, wp_on_vmm. unfold bzero_page. apply wp_modify. cbn [fs_vmm fs_sys frames strings set_pmem pmem palloc cr3 flushes].
  rewrite (u32_small (t * 4096 + KERNEL_VADDR_BASE - KERNEL_VADDR_BASE)) by (unfold low_frame, W32 in *; lia).
  replace (t * 4096 + KERNEL_VADDR_BASE - KERNEL_VADDR_BASE) with (t * 4096) by lia.
  set (st1 := Vmm _ s1 _ _).
  assert (∀ h k, 0 ≤ k < 1024 → entry (pmem st1) h k =
    if decide (h = t) then 0 else if decide (h = g ∧ k = a) then x else entry (pmem st) h k) as Hw.
  { intros h k Hk. unfold entry at 1, st1. cbn [pmem]. change PAGE_SIZE with 4096. rewrite pm_insert.
    destruct (Z.leb_spec (t * 4096) (h * 4096 + 4 * k)), (Z.ltb_spec (h * 4096 + 4 * k) (t * 4096 + 4096));
      cbn [andb]; repeat case_decide; try done; try lia; exfalso; naive_solver lia. }
  assert (cinv (a * 1024) (a + 1) st1 fr) as Hc1.
  { apply (cinv_new_table a t x st st1 fr Hc Ha); try done. split_and!; [done| |done]. intros j Hj. by apply Hkeep. }
  eapply wp_mono; [apply (wp_copy_table_pages a (FState sy st1 fr str)); try done|done].
  cbn [fs_vmm]. rewrite Hw by lia. rewrite decide_False, decide_True by done. done.
Qed.

(** ** The whole address space *)

(** The child's space is a private copy of the user half of the parent's and
    shares its kernel half; the parent's is as it was. *)
Record space_copied st (fr : Z → Z → Z) : Prop := {
  sc_parent : ∀ a b, 0 ≤ a < 1024 → 0 ≤ b < 1024 →
    page_entry (pmem st) f a b = page_entry (pmem st0) f a b;
  sc_user : ∀ a b, 0 ≤ a < 768 → 0 ≤ b < 1024 → page_ok st fr a b;
  sc_private : ∀ a b a' b' x x', 0 ≤ a < 768 → 0 ≤ b < 1024 → 0 ≤ a' < 768 → 0 ≤ b' < 1024 →
    page_entry (pmem st) g a b = Some x → page_entry (pmem st) g a' b' = Some x' →
    x / 4096 = x' / 4096 → a = a' ∧ b = b';
  sc_kernel : ∀ a b, 768 ≤ a < 992 → 0 ≤ b < 1024 →
    page_entry (pmem st) g a b = page_entry (pmem st0) f a b;
  sc_rest : ∀ a b, 992 ≤ a < 1024 → page_entry (pmem st) g a b = None;
  sc_frames : ∀ q, pa_taken (palloc st0) q → fr q = fr0 q;
  sc_kept : pages_kept (palloc st0) (palloc st) }.

(** When memory runs out: the parent is intact and what was built of the
    child's directory can be torn down. *)
Record copy_failed st (fr : Z → Z → Z) : Prop := {
  cf_parent : ∀ a b, 0 ≤ a < 1024 → 0 ≤ b < 1024 →
    page_entry (pmem st) f a b = page_entry (pmem st0) f a b;
  cf_child : pd_ok st g ∧ pa_owned (palloc st) g 0 ∧ ∀ a, 0 ≤ a < 1024 →
    present (entry (pmem st) g a) = true → pa_owned (palloc st) (table (pmem st) g a) 0;
  cf_frames : ∀ q, pa_taken (palloc st0) q → fr q = fr0 q;
  cf_kept : pages_kept (palloc st0) (palloc st) }.

Lemma parent_page_entry n m st fr a b : cinv n m st fr → 0 ≤ a < 1024 → 0 ≤ b < 1024 →
  page_entry (pmem st) f a b = page_entry (pmem st0) f a b.
Proof.
  intros Hc Ha Hb. unfold page_entry. destruct (decide (a = 1023)) as [->|Hne].
  - by rewrite Hwin0, (ci_window _ _ _ _ Hc).
  - assert (entry (pmem st) f a = entry (pmem st0) f a) as E by (eapply parent_entry; [done|lia]).
    unfold table. rewrite E. destruct (present (entry (pmem st0) f a)) eqn:Ep; [|done].
    fold (table (pmem st0) f a). rewrite (ci_parent _ _ _ _ Hc); [done| |done|].
    + right. by exists a.
    + intros [Ef _]. by apply (pk_table _ _ Hf0 a Ha Ep).
Qed.

Lemma cinv_start : cr3 st0 = f * 4096 → low_frame g → pa_owned (palloc st0) g 0 → ¬ foot (pmem st0) f g →
  (∀ i, 0 ≤ i < 1024 → entry (pmem st0) g i = 0) → cinv 0 0 st0 fr0.
Proof.
  intros Hcr Hlg Hog Hng Hz.
  assert (∀ i, 0 ≤ i < 1024 → present (entry (pmem st0) g i) = false) as Hnp by (intros i Hi; by rewrite Hz).
  assert (pa_taken (palloc st0) g) as Htg by (eapply pa_owned_taken; [exact Hog|]; unfold in_block; simpl; lia).
  split; try done; try lia.
  - split; try done; try apply Hf0; intros i Hi; rewrite ?Hz by done; try done; intros; exfalso; by rewrite Hnp in *.
  - intros h Hh [->|(i & Hi & Hp & _)]; [done|]. by rewrite Hnp in Hp.
  - split; [apply Hf0|auto].
  - split; [done|]. intros a Ha Hp. by rewrite Hnp in Hp.
Qed.

(** Words after the kernel entries are copied. *)
Definition kernel_shared (n : Z) st st' : Prop :=
  palloc st' = palloc st ∧ cr3 st' = cr3 st ∧
  ∀ h k, 0 ≤ k < 1024 → entry (pmem st') h k =
    if decide (h = g ∧ 768 ≤ k < n) then entry (pmem st) f k else entry (pmem st) h k.

Lemma wp_copy_kernel_entries s : low_frame f → low_frame g → f ≠ g →
  wp (copy_kernel_entries (f * 4096 + KERNEL_VADDR_BASE) (g * 4096 + KERNEL_VADDR_BASE)) s (λ _ s',
    same_rest s s' ∧ frames s' = frames s ∧ kernel_shared 992 (fs_vmm s) (fs_vmm s')).
Proof.
  intros Hf Hg Hne. unfold copy_kernel_entries. apply wp_on_vmm.
  eapply wp_mono; [apply (wp_for (λ n st', kernel_shared n (fs_vmm s) st'))|by intros [] st'].
  - split_and!; [done..|]. intros h k Hk. rewrite decide_False; [done|lia].
  - intros i st Hi (E1 & E2 & Hw). wp_step. apply wp_ldw; [done|lia|]. apply wp_stw; [done|lia|].
    split_and!; [done..|]. intros h k Hk. unfold entry at 1. cbn [set_pmem pmem]. rewrite pm_insert.
    fold (entry (pmem st) f i). fold (entry (pmem st) h k). rewrite !Hw by lia.
    rewrite (decide_False (P := f = g ∧ _)) by (intros [? _]; done).
    repeat case_decide; try done; try lia; try (exfalso; naive_solver lia).
    f_equal. lia.
Qed.

Lemma space_copied_intro st fr st' : cinv (768 * 1024) 768 st fr → kernel_shared 992 st st' →
  space_copied st' fr.
Proof.
  intros Hc (Ep & _ & Hw). pose proof Hc as [].
  assert (∀ h k, h ≠ g → 0 ≤ k < 1024 → entry (pmem st') h k = entry (pmem st) h k) as Hout.
  { intros h k Hh Hk. rewrite Hw by done. by rewrite decide_False by (intros [? _]; done). }
  assert (f ≠ g) as Hfg by (intros <-; apply (ci_apart0 f); by left).
  assert (∀ a b, 0 ≤ a < 1024 → 0 ≤ b < 1024 → page_entry (pmem st') f a b = page_entry (pmem st) f a b) as Hpf.
  { intros a b Ha Hb. unfold page_entry, table. rewrite Hout by done.
    destruct (present (entry (pmem st) f a)) eqn:E; [|done]. rewrite Hout; [done| |done].
    fold (table (pmem st) f a). intros Eg. apply (ci_apart0 g); [right; by exists a|by left]. }
  assert (∀ a b, 0 ≤ a < 768 → 0 ≤ b < 1024 → page_entry (pmem st') g a b = page_entry (pmem st) g a b) as Hpg.
  { intros a b Ha Hb. unfold page_entry, table. rewrite Hw, decide_False by lia.
    destruct (present (entry (pmem st) g a)) eqn:E; [|done]. rewrite Hout; [done| |done].
    fold (table (pmem st) g a). by apply (pk_table _ _ ci_g0 a); [lia|]. }
  split.
  - intros a b Ha Hb. rewrite Hpf by done. by eapply parent_page_entry.
  - intros a b Ha Hb. specialize (ci_page0 a b Ha Hb ltac:(lia)). unfold page_ok, own_frame in *.
    by rewrite Hpg, Ep.
  - intros a b a' b' x x' Ha Hb Ha' Hb'. rewrite !Hpg by done. apply ci_inj0; done || lia.
  - intros a b Ha Hb. rewrite <- (parent_page_entry _ _ _ _ a b Hc), <- Hpf by lia. unfold page_entry, table.
    rewrite (Hw g a), decide_True by lia. by rewrite (Hout f a) by (done || lia).
  - intros a b Ha. unfold page_entry. rewrite Hw, decide_False by lia. by rewrite ci_later0 by lia.
  - done.
  - by rewrite Ep.
Qed.

Lemma wp_copy_space s : fs_vmm s = st0 → frames s = fr0 → cr3 st0 = f * 4096 → low_frame g →
  pa_owned (palloc st0) g 0 → ¬ foot (pmem st0) f g → (∀ i, 0 ≤ i < 1024 → entry (pmem st0) g i = 0) →
  wp (copy_space (f * 4096) (g * 4096)) s (λ ok s', same_rest s s' ∧
    if (ok : bool) then space_copied (fs_vmm s') (frames s') else copy_failed (fs_vmm s') (frames s')).
Proof.
  intros E1 E2 Hcr Hlg Hog Hng Hz. pose proof (pk_frame _ _ Hf0) as Hlf.
  assert (f ≠ g) as Hfg by (intros <-; apply Hng; by left). unfold copy_space.
  apply wp_bind, wp_lin_f; [unfold low_frame in Hlf; lia|]. apply wp_bind, wp_lin_f; [unfold low_frame in Hlg; lia|].
  apply wp_bind. eapply wp_mono; [apply (wp_for_ok (λ a s', same_rest s s' ∧ cinv (a * 1024) a (fs_vmm s') (frames s'))
    (λ s', same_rest s s' ∧ ∃ n m, cinv n m (fs_vmm s') (frames s')))|].
  - split; [done|]. rewrite E1, E2. by apply cinv_start.
  - intros a s1 Ha [[R1 R2] Hc]. eapply wp_mono; [by apply wp_copy_user_table|].
    intros [] s2 [[R3 R4] Hc2]; (split; [split; congruence|done]).
  - intros [] s1; cbn [negb].
    + intros [[R1 R2] Hc]. apply wp_bind. eapply wp_mono; [by apply (wp_copy_kernel_entries s1)|].
      intros [] s2 ([R3 R4] & Efr & Hks). apply wp_ret. split; [split; congruence|]. rewrite Efr.
      by eapply space_copied_intro.
    + intros [Hr (n & m & Hc)]. apply wp_ret. split; [done|]. split; try apply Hc.
      * intros a b Ha Hb. by eapply parent_page_entry.
      * split; [apply Hc|]. apply Hc.
Qed.

End Invariant.


End Space.
