(* ===== verification/ForkChild.v ===== *)
(** * fork: the child's first context *)

From S2P Require Import Prelude Errno Dlist Memory Page Buddy BuddyInv BuddySpec BuddyThm PageAlloc.
From S2P Require Import Vmm VmmThm Vma Bitmap Task Sched Process SchedInv ProcessThm Fork ForkSpace ForkThm.

Section Child.
Context {S : Type} `{KernelAllocator S}.

Lemma wp_on_sys {A} (c : M sys A) (s : fstate S) (Q : A → fstate S → Prop) :
  wp c (fs_sys s) (λ a x, Q a (FState x (fs_vmm s) (frames s) (strings s))) → wp (on_sys c) s Q.
Proof. unfold wp, on_sys. by destruct (c (fs_sys s)) as [[a x]| | |]. Qed.

(** The words once the stack is copied. *)
Definition copied_stack (src dst : Z) (w : Z → Z) (x : Z) : Z :=
  if (dst <=? x) && (x <? dst + DEFAULT_STACK_SIZE) then w (x - dst + src) else w x.

Lemma copied_stack_in src dst w x : dst ≤ x < dst + DEFAULT_STACK_SIZE → copied_stack src dst w x = w (x - dst + src).
Proof. intros Hx. unfold copied_stack. by rewrite (proj2 (Z.leb_le _ _)), (proj2 (Z.ltb_lt _ _)) by lia. Qed.

Lemma copied_stack_out src dst w x : x < dst ∨ dst + DEFAULT_STACK_SIZE ≤ x → copied_stack src dst w x = w x.
Proof.
  intros Hx. unfold copied_stack. destruct (Z.leb_spec dst x), (Z.ltb_spec x (dst + DEFAULT_STACK_SIZE)); try done. lia.
Qed.

Lemma wp_copy_kernel_stack src dst (s : fstate S) (Q : unit → fstate S → Prop) :
  0 ≤ src → src + DEFAULT_STACK_SIZE < W32 → 0 ≤ dst → dst + DEFAULT_STACK_SIZE < W32 →
  src + DEFAULT_STACK_SIZE ≤ dst ∨ dst + DEFAULT_STACK_SIZE ≤ src →
  words (fs_sys s) src = STACK_CANARY_MAGIC →
  Q tt (FState (set_words (copied_stack src dst) (fs_sys s)) (fs_vmm s) (frames s) (strings s)) →
  wp (copy_kernel_stack src (src + DEFAULT_STACK_SIZE) dst (dst + DEFAULT_STACK_SIZE)) s Q.
Proof.
  intros Hs1 Hs2 Hd1 Hd2 Hap Hcan HQ. unfold copy_kernel_stack.
  assert (DEFAULT_STACK_SIZE = 8192) as ED by done.
  apply wp_bind, wp_on_sys, wp_modify, wp_bind, wp_on_sys, wp_gets. cbn [fs_sys fs_vmm frames strings].
  change (words (set_words _ (fs_sys s))) with (copied_stack src dst (words (fs_sys s))).
  apply wp_bind, wp_assert.
  { rewrite copied_stack_in by lia. replace (dst - dst + src) with src by lia. by apply Z.eqb_eq. }
  assert (∀ k, 0 ≤ k ≤ 8192 → copied_stack src dst (words (fs_sys s)) (dst + DEFAULT_STACK_SIZE - k) =
    copied_stack src dst (words (fs_sys s)) (src + DEFAULT_STACK_SIZE - k) ∨ k = 0) as Hsame.
  { intros k Hk. destruct (decide (k = 0)); [by right|left]. rewrite copied_stack_in, copied_stack_out by lia. f_equal. lia. }
  unfold SIZEOF_TRAP_FRAME. rewrite !u32_small by lia. apply wp_bind, wp_assert.
  { apply Z.eqb_eq. destruct (Hsame 4); [lia|done|lia]. }
  apply wp_assert; [|exact HQ]. apply forallb_forall. intros k Hk%list_elem_of_In%elem_of_seqZ. apply Z.eqb_eq.
  change (76 / 4) with 19 in Hk.
  destruct (Hsame (76 - 4 * k)) as [E|]; [lia| |lia].
  replace (dst + DEFAULT_STACK_SIZE - 76 + 4 * k) with (dst + DEFAULT_STACK_SIZE - (76 - 4 * k)) by lia.
  by replace (src + DEFAULT_STACK_SIZE - 76 + 4 * k) with (src + DEFAULT_STACK_SIZE - (76 - 4 * k)) by lia.
Qed.

(** The words of the stack after [fork_child]: a copy of the parent's, the
    saved [eax] cleared, and below the trap frame what [switch_to] pops. *)
Definition child_words (interrupt_exit src dst : Z) (w : Z → Z) (x : Z) : Z :=
  let tf := dst + DEFAULT_STACK_SIZE - SIZEOF_TRAP_FRAME in
  if decide (x = tf - 4) then interrupt_exit
  else if decide (x = tf - 8 ∨ x = tf - 12 ∨ x = tf - 16 ∨ x = tf - 20) then 0
  else if decide (x = tf + OFF_eax) then 0
  else if decide (dst ≤ x < dst + DEFAULT_STACK_SIZE) then w (x - dst + src) else w x.

(** C37: what fork gives the child besides its memory.  With an intact parent
    stack, [fork_child] puts a child on the ready queue, under its parent,
    whose kernel stack is the parent's with the system call's result set to 0
    and, below the trap frame, four zeroed registers and the return to
    [interrupt_exit]; the parent's stack and tasks other than the child are
    untouched and the parent gets the child's pid.  The saved stack pointer of
    the child, however, is at the offset of the parent's: it designates those
    registers exactly when the parent was not switched out since it started. *)
Theorem fork_child_correct interrupt_exit current new (s : fstate S) :
  let x := fs_sys s in
  let src := tasks x current kernel_stack_pointer in
  let dst := tasks x new kernel_stack_pointer in
  current ≠ 0 → new ≠ 0 → current ≠ new → (new ∉ ready_queue x) →
  tasks x current kernel_stack_base = src + DEFAULT_STACK_SIZE →
  tasks x new kernel_stack_base = dst + DEFAULT_STACK_SIZE →
  0 ≤ src → src + DEFAULT_STACK_SIZE < W32 → 0 ≤ dst → dst + DEFAULT_STACK_SIZE < W32 →
  src + DEFAULT_STACK_SIZE ≤ dst ∨ dst + DEFAULT_STACK_SIZE ≤ src →
  words x src = STACK_CANARY_MAGIC → src ≤ tasks x current esp < src + DEFAULT_STACK_SIZE →
  wp (fork_child interrupt_exit current new) s (λ r s',
    let x' := fs_sys s' in
    r = tasks x new pid ∧
    fs_vmm s' = fs_vmm s ∧ frames s' = frames s ∧
    (∀ a, words x' a = child_words interrupt_exit src dst (words x) a) ∧
    ready_queue x' = ready_queue x ++ [new] ∧
    children x' current = new :: children x current ∧
    tasks x' new parent = current ∧ tasks x' new state = TASK_RUNNING ∧
    (∀ t f, t ≠ new → tasks x' t f = tasks x t f) ∧
    (tasks x' new esp = dst + DEFAULT_STACK_SIZE - SIZEOF_TRAP_FRAME - 20 ↔
     tasks x current esp = src + DEFAULT_STACK_SIZE - SIZEOF_TRAP_FRAME - 20)).
Proof.
  intros x src dst H0 H1 Hne Hnr Eb1 Eb2 Hs1 Hs2 Hd1 Hd2 Hap Hcan Hesp.
  assert (DEFAULT_STACK_SIZE = 8192 ∧ SIZEOF_TRAP_FRAME = 76) as [ED ET] by done.
  destruct s as [x0 v fr str]. cbn [fs_sys fs_vmm frames strings] in *. subst x.
  unfold fork_child. do 4 (apply wp_bind, wp_on_sys, wp_fld; [done|]; cbn [fs_sys fs_vmm frames strings]).
  fold src dst. rewrite Eb1, Eb2. apply wp_bind, wp_copy_kernel_stack; [done..|].
  cbn [fs_sys fs_vmm frames strings]. rewrite (u32_small (dst + DEFAULT_STACK_SIZE - SIZEOF_TRAP_FRAME)) by lia.
  apply wp_bind, wp_on_sys, wp_modify. cbn [fs_sys fs_vmm frames strings].
  apply wp_bind, wp_on_sys. unfold task_append_child. do 5 sys_step. cbn [fs_sys fs_vmm frames strings].
  apply wp_bind, wp_on_sys, wp_fld; [done|]. cbn [fs_sys fs_vmm frames strings].
  apply wp_bind, wp_on_sys, wp_set_fld; [done|]. apply wp_bind, wp_on_sys, wp_set_fld; [done|].
  cbn [fs_sys fs_vmm frames strings]. apply wp_bind, wp_on_sys. unfold sched_enqueue. sys_step. sys_step.
  cbn [ready_queue set_words set_tasks set_children]. rewrite (proj2 (Z.eqb_neq new 0)), bool_decide_false by done.
  cbn [orb]. do 5 sys_step. cbn [fs_sys fs_vmm frames strings]. unfold Task.stw.
  do 5 (apply wp_bind, wp_on_sys, wp_modify; cbn [fs_sys fs_vmm frames strings]).
  apply wp_on_sys, wp_fld; [done|]. cbn [fs_sys fs_vmm frames strings].
  cbn [tasks words ready_queue children set_words set_tasks set_children set_ready].
  assert (∀ k, 0 ≤ k ≤ 20 → u32 (dst + DEFAULT_STACK_SIZE - SIZEOF_TRAP_FRAME - k) =
    dst + DEFAULT_STACK_SIZE - SIZEOF_TRAP_FRAME - k) as Hu by (intros; apply u32_small; lia).
  rewrite !Hu by lia. split_and!.
  - by repeat (rewrite upd_ne_field by discriminate).
  - done.
  - done.
  - intros a. unfold child_words, OFF_eax. rewrite ET, ED. fold src dst.
    repeat first [rewrite decide_True by lia|rewrite decide_False by lia|case_decide]; read_words.
    all: try match goal with H : _ = _ ∨ _ |- _ => destruct H as [->|[->|[->| ->]]]; read_words end.
    all: rewrite ?copied_stack_in, ?copied_stack_out by lia; done || lia.
  - done.
  - by rewrite fn_lookup_insert.
  - repeat (rewrite upd_ne_field by discriminate). by rewrite upd_eq.
  - by rewrite upd_eq.
  - intros t f Ht. by repeat (rewrite upd_ne_task by done).
  - repeat (rewrite upd_ne_field by discriminate). rewrite upd_eq.
    repeat (rewrite upd_ne_task by done). fold src.
    assert (u32 (src - tasks x0 current esp) = (src - tasks x0 current esp) mod W32) as -> by done.
    unfold u32. rewrite Zminus_mod_idemp_r.
    replace (dst - (src - tasks x0 current esp)) with (dst + (tasks x0 current esp - src)) by lia.
    rewrite Z.mod_small by lia. lia.
Qed.

End Child.
