(* ===== verification/ForkExample.v ===== *)
(** * fork on a concrete machine

    The whole of fork, over the real kernel heap, on a machine with sixteen
    LOWMEM and eight HIGHMEM frames. *)

From S2P Require Import Prelude Errno Dlist Memory Page Buddy BuddyInv BuddySpec BuddyThm PageAlloc.
From S2P Require Import Slab SlabInv SlabThm KmallocThm SlabExample.
From S2P Require Import Vmm VmmThm Vma VmaExample Bitmap Task Sched Process ProcessThm Fork ForkSpace ForkThm ForkChild.

(** ** The kernel heap as the allocator of fork *)

#[export] Instance heap_pages : PageAllocator kstate := {
  pa_alloc := λ size z, lift_b (buddy_alloc_pages size z);
  pa_free := λ p, lift_b (buddy_free_block p);
  pa_ok := λ s, buddy_ok (kbuddy s);
  pa_owned := λ s, allocated (kbuddy s);
  pa_taken := λ s j, 0 ≤ j < MAX_PAGES ∧ ¬ is_free (kbuddy s) j }.

#[export] Instance kernel_heap : KernelAllocator kstate := {
  ka_kmalloc := Slab.kmalloc;
  ka_kfree := Slab.kfree;
  ka_live := λ s p, ∃ g n, kinv s g 0 ∧ block s g p n }.

#[export] Instance heap_pages_laws : PageAllocatorLaws kstate.
Proof.
  split.
  - intros s size z Hok Hz. apply SlabInv.wp_lift_b.
    eapply wp_mono; [exact (pa_alloc_law (S := bstate) (kbuddy s) size z Hok Hz)|].
    intros r b [[-> ->]|(p & Hp)]; [left; by destruct s|right; by exists p].
  - intros s p o Hok Ho. apply SlabInv.wp_lift_b.
    eapply wp_mono; [exact (pa_free_law (S := bstate) (kbuddy s) p o Hok Ho)|]. auto.
  - intros s. exact (@pa_owned_run bstate _ _ (kbuddy s)).
  - intros s. exact (@pa_owned_taken bstate _ _ (kbuddy s)).
  - intros s. exact (@pa_owned_apart bstate _ _ (kbuddy s)).
Qed.

(** ** The machine *)

(** Two blocks of frames to start from: sixteen from 4096 on, in LOWMEM, and
    eight from 229376 on, in HIGHMEM. *)
Definition machine_descriptors (i : Z) : page :=
  let zone := page_get_zone_flag (i * PAGE_SIZE) in
  if i =? 4096 then Page (Z.lor PAGE_STATE_AVAILABLE zone) 4
  else if i =? 229376 then Page (Z.lor PAGE_STATE_AVAILABLE zone) 3
  else Page (Z.lor PAGE_STATE_UNUSABLE zone) PAGE_MAGIC.

Definition machine : bstate := final_state
  (init_areas all_zones ;; buddy_free_block (page_to_phys 4096) ;; buddy_free_block (page_to_phys 229376))
  (BState machine_descriptors (λ _, ListHead None None) (λ _, 0) 229384 false).

(** One process, [init], with its kernel stack; [saved] is its saved stack
    pointer. *)
Definition init_task : Z := 3000000000.

Definition init_tasks (saved : Z) (t : Z) (f : tfield) : Z :=
  if t =? init_task then
    match f with
    | pid => 0
    | ring => 3
    | kernel_stack_pointer => 8192
    | kernel_stack_base => 16384
    | esp => saved
    | name => 5000
    | text_sec => 6000
    | data_sec => 6024
    | stack_sec => 6048
    | heap_sec => 6072
    | sig_trampoline => 6096
    | state => TASK_RUNNING
    | _ => 0
    end
  else 0.

Definition init_sys (saved : Z) : sys :=
  Sys (init_tasks saved) (λ _, zero_section) (λ x, if x =? 8192 then STACK_CANARY_MAGIC else x) [] [init_task]
    (λ _, []) (λ _, []) init_task 0 init_task 0
    (snd (id_manager_alloc (id_manager_create PID_MAX (λ _, 0)))) 0 0 true [].

Definition start (saved : Z) : fstate kstate :=
  FState (init_sys saved) (Vmm (λ _, 0) (bss machine) 0 []) (λ q o, q + o)
    (λ a, if a =? 5000 then [105; 110; 105; 116] else []).

(** Its address space: a page at 0x08048000 and its signal trampoline. *)
Definition setup : M (fstate kstate) unit :=
  on_vmm (lift_pa slab_init) ;;
  pd ← buddy_alloc PAGE_SIZE LOWMEM_ZONE ;
  on_vmm (paging_reload_cr3 pd) ;;
  on_sys (set_fld init_task cr3_ pd) ;;
  page ← buddy_alloc PAGE_SIZE HIGHMEM_ZONE ;
  on_vmm (vmm_map_page pd 134512640 page 5) ;;
  tramp ← buddy_alloc PAGE_SIZE HIGHMEM_ZONE ;
  on_vmm (vmm_map_page pd USER_TRAMPOLINE_VADDR tramp 5) ;;
  set_section 6072 (Section_ 134520832 0 0 0 0 7) ;;
  set_section 6096 (Section_ USER_TRAMPOLINE_VADDR tramp 4096 16 4096 5).

Definition child_of (s : fstate kstate) : Z :=
  match children (fs_sys s) init_task with c :: _ => c | [] => 0 end.

(** The results of fork worth looking at: the pid returned, the child's name
    and heap pointers, the start of its heap, and the frames of the two
    trampolines. *)
Definition fork_run : M (fstate kstate) (list Z) :=
  setup ;;
  r ← sys_fork 777 ;
  c ← gets child_of ;
  x ← gets fs_sys ;
  mret [r; tasks x c name - tasks x c heap_sec; v_addr (sections x (tasks x c heap_sec));
        p_addr (sections x (tasks x c sig_trampoline)) - p_addr (sections x (tasks x init_task sig_trampoline));
        p_addr (sections x (tasks x c sig_trampoline))].

(** ** The address space is copied *)

Definition booted4 : bstate := final_state (buddy_alloc_pages 4096 DMA_ZONE) booted3.

Lemma booted4_run : buddy_alloc_pages 4096 DMA_ZONE booted3 = Done (20480, booted4).
Proof. unfold booted4. apply run_final. vm_compute. reflexivity. Qed.

Lemma booted4_allocated : buddy_ok booted4 ∧ allocated booted4 1 0 ∧ allocated booted4 6 0 ∧
  allocated booted4 4 0 ∧ allocated booted4 5 0.
Proof.
  destruct booted3_allocated as (Hok & H1 & H6 & H4).
  pose proof (buddy_alloc_result booted3 4096 DMA_ZONE 20480 booted4 Hok ltac:(discriminate)
    booted4_run ltac:(discriminate)) as [Hok4 H5].
  pose proof (λ p, buddy_alloc_keeps booted3 booted4 4096 DMA_ZONE 20480 p 0 Hok ltac:(discriminate)
    booted4_run ltac:(discriminate)) as Hk.
  split; [exact Hok4|]. split; [exact (Hk 1 H1)|]. split; [exact (Hk 6 H6)|]. split; [exact (Hk 4 H4)|exact H5].
Qed.

(** The parent runs on directory 6 of the areas' example; frame 5, zeroed, is
    the child's directory. *)
Definition parent_space : fstate pool :=
  FState (init_sys 16288) (Vmm user_mem (booted4, []) 24576 []) (λ q o, q + o) (λ _, []).

Lemma user_foot h : foot user_mem 6 h → h = 6 ∨ h = 1.
Proof. intros [->|(i & Hi & Hp%user_present & ->)]; [by left| |done]. subst. by right. Qed.

Lemma parent_pd : pd_ok (fs_vmm parent_space) 6.
Proof.
  destruct booted4_allocated as (Hok & H1 & H6 & _).
  apply (pd_ok_frame (H := pool_heap) (vs_vmm user_space)); [exact user_pd|exact Hok| |reflexivity].
  intros h [->| ->]%user_foot; [exact (allocated_not_free _ 6 0 6 H6 ltac:(unfold in_block; simpl; lia))|exact (allocated_not_free _ 1 0 1 H1 ltac:(unfold in_block; simpl; lia))].
Qed.

Lemma parent_page_entries a b e : 0 ≤ a < 768 → 0 ≤ b < 1024 → page_entry user_mem 6 a b = Some e → e = 16391.
Proof.
  intros Ha Hb. unfold page_entry. destruct (present (entry user_mem 6 a)) eqn:E; [|done].
  apply user_present in E; [|lia]. subst a. change (table user_mem 6 0) with 1. rewrite user_pt by done.
  case_decide; [|done]. by intros [= <-].
Qed.

Lemma child_zeroed i : 0 ≤ i < 1024 → entry user_mem 5 i = 0.
Proof. intros Hi. unfold entry, user_mem. rewrite !pm_insert. repeat case_decide; lia. Qed.


(** ** The child's first context *)

Definition forked (saved : Z) : fstate kstate :=
  FState (set_tasks (λ m, <[4000000000 := λ f, match f with
    | pid => 1
    | kernel_stack_pointer => 32768
    | kernel_stack_base => 40960
    | _ => 0
    end]> m) (init_sys saved)) (Vmm (λ _, 0) (bss machine) 0 []) (λ q o, q + o) (λ _, []).

Lemma fork_child_correct_witness :
  let s := forked 16288 in
  wp (fork_child 777 init_task 4000000000) s (λ r s',
    let x := fs_sys s in
    let x' := fs_sys s' in
    r = tasks x 4000000000 pid ∧
    fs_vmm s' = fs_vmm s ∧ frames s' = frames s ∧
    (∀ a, words x' a = child_words 777 (tasks x init_task kernel_stack_pointer)
       (tasks x 4000000000 kernel_stack_pointer) (words x) a) ∧
    ready_queue x' = ready_queue x ++ [4000000000] ∧
    children x' init_task = 4000000000 :: children x init_task ∧
    tasks x' 4000000000 parent = init_task ∧ tasks x' 4000000000 state = TASK_RUNNING ∧
    (∀ t f, t ≠ 4000000000 → tasks x' t f = tasks x t f) ∧
    (tasks x' 4000000000 esp = tasks x 4000000000 kernel_stack_pointer + DEFAULT_STACK_SIZE - SIZEOF_TRAP_FRAME - 20 ↔
     tasks x init_task esp = tasks x init_task kernel_stack_pointer + DEFAULT_STACK_SIZE - SIZEOF_TRAP_FRAME - 20)).
Proof.
  apply (fork_child_correct 777 init_task 4000000000 (forked 16288));
    first [discriminate|reflexivity|apply not_elem_of_nil|left; discriminate|split; [discriminate|reflexivity]].
Defined.

(** ** What fork gets wrong *)

(** The value a computation ends with. *)
Definition result_of {S A} (c : M S A) (s : S) : outcome A :=
  match c s with
  | Done (a, _) => Done a
  | Panic m => Panic m
  | Fault => Fault
  | Hang => Hang
  end.

(** The task that fork makes.  The pid is returned, but the child's name
    is stored where its heap section is: the heap's address becomes the
    characters of [init], and the child's trampoline section still holds the
    parent's frame. *)
Theorem fork_clone_aliases : result_of fork_run (start 16288) = Done [1; 0; 1953066601; 0; 939528192].
Proof. vm_compute. reflexivity. Qed.

(** Fork, then the child's exit, then the parent's. *)
Definition fork_exits : M (fstate kstate) unit :=
  setup ;;
  sys_fork 777 ;;
  c ← gets child_of ;
  performing (task_exit_cleanup c) ;;
  performing (task_exit_cleanup init_task).

(** Since the two trampoline sections hold the same frame, the exit of a
    child frees a frame its parent still executes signal returns from, and the
    exit of the parent frees it again, which the buddy allocator answers with
    a kernel panic. *)
Theorem fork_exit_double_free : result_of fork_exits (start 16288) = Panic "Double free detected".
Proof. vm_compute. reflexivity. Qed.

Fixpoint take_high (n : nat) : M (fstate kstate) unit :=
  match n with
  | O => mret tt
  | Datatypes.S n => buddy_alloc PAGE_SIZE HIGHMEM_ZONE ;; take_high n
  end.

(** A fork that fails leaks.  With one HIGHMEM frame left, the first of
    the parent's two pages is copied to it and the second cannot be; fork
    returns [-ENOMEM], but the frame of the first page does not come back:
    where one was available before the call, none is after it. *)
Theorem fork_failure_leaks :
  result_of (setup ;; take_high 5 ;; buddy_alloc PAGE_SIZE HIGHMEM_ZONE) (start 16288) = Done 939552768 ∧
  result_of (setup ;; take_high 5 ;; r ← sys_fork 777 ; a ← buddy_alloc PAGE_SIZE HIGHMEM_ZONE ; mret (r, a))
    (start 16288) = Done (- ENOMEM, 0).
Proof. split; vm_compute; reflexivity. Qed.
