(* ===== verification/Loader.v ===== *)
(** * Loading programs (src/proc/userspace.c, src/proc/section.c,
    include/kernel/io_stream.h): operations

    The bytes of a program are in the kernel's own image, read-only: [image]
    gives the byte at an address of it.  The frames they are copied to are the
    [frames] of Fork, written through the kernel's mapping window.  A stream is
    a value, with the address of its structure: it is used by one call only.
    [kernel_directory] is the frame address of the kernel's page directory. *)

From S2P Require Import Prelude Errno Memory Page Buddy PageAlloc Vmm Vma Bitmap Task Sched Process Fork.

(** ** Addresses (include/proc/section.h, include/proc/userspace.h) *)

Definition KERNEL_START : Z := KERNEL_VADDR_BASE.
Definition USER_STACK_START : Z := USER_TRAMPOLINE_VADDR - PAGE_SIZE.
Definition USER_TEXT_START : Z := 134512640. (* 0x08048000 *)
Definition USER_SECTION_RO : Z := Z.lor PTE_PRESENT_BIT PTE_US_BIT.
Definition USER_SECTION_RW : Z := Z.lor (Z.lor PTE_PRESENT_BIT PTE_US_BIT) PTE_RW_BIT.

Definition get_next_section_start (start size : Z) : Z := ALIGN (start ⊞ size) PAGE_SIZE.
Definition get_next_section_start_after_page_guard (start size : Z) : Z :=
  ALIGN (start ⊞ (size ⊞ PAGE_SIZE)) PAGE_SIZE.
Definition get_prev_section_start (end_ size : Z) : Z := ALIGN_DOWN (end_ ⊟ size) PAGE_SIZE.

(** [section_init_from_buffer]: the section it fills, [None] for [false]. *)
Definition section_init_from_buffer (vaddr start size flags : Z) : option section :=
  if (start =? 0) || (size =? 0) then None
  else Some (Section_ vaddr 0 start size (ALIGN size PAGE_SIZE) flags).

Definition heap_section (prev : section) : section :=
  Section_ (get_next_section_start_after_page_guard (v_addr prev) (mapping_size prev)) 0 0 0 0 USER_SECTION_RW.

Definition stack_section : section :=
  Section_ (get_prev_section_start USER_STACK_START DEFAULT_STACK_SIZE) 0 0 0
    (ALIGN DEFAULT_STACK_SIZE PAGE_SIZE) USER_SECTION_RW.

(** ** Streams *)

(** The functions a stream's [ops->read] may point to. *)
Inductive read_fn := FAKE_READ.

Record io_stream := IoStream {
  st_self : Z;
  st_read : option read_fn;
  st_ctx : Z;
  st_size : Z;
  st_pos : Z }.

Definition SIZEOF_IO_STREAM : Z := 16.
Definition SIZEOF_IO_OPS : Z := 20.

Section Loader.
Context {S : Type} `{KernelAllocator S}.
Context (image : Z → Z) (kernel_directory : Z).

Definition get_section (a : Z) : M (fstate S) section := on_sys (gets (λ x, sections x a)).

Definition io_stream_get_new (ctx size pos : Z) : M (fstate S) (option io_stream) :=
  ret ← fork_kmalloc (SIZEOF_IO_STREAM + SIZEOF_IO_OPS) (Z.lor GFP_KERNEL __GFP_ZERO) ;
  if ret =? 0 then mret None else mret (Some (IoStream ret None ctx size pos)).

Definition section_create_reader (sec : Z) : M (fstate S) (option io_stream) :=
  if sec =? 0 then mret None
  else
    x ← get_section sec ;
    if (data_start x =? 0) || (data_size x =? 0) then mret None
    else
      stream ← io_stream_get_new sec (data_size x) 0 ;
      match stream with
      | None => mret None
      | Some st => mret (Some (IoStream (st_self st) (Some FAKE_READ) (st_ctx st) (st_size st) (st_pos st)))
      end.

(** Writing [n] bytes at [dest], within a page. *)
Definition write_bytes (dest n : Z) (byte : Z → Z) : M (fstate S) unit :=
  d ← mmu dest ;
  modify (λ s, FState (fs_sys s) (fs_vmm s)
    (<[d / PAGE_SIZE := λ o, if (d mod PAGE_SIZE <=? o) && (o <? d mod PAGE_SIZE + n)
                             then byte (o - d mod PAGE_SIZE) else frames s (d / PAGE_SIZE) o]> (frames s))
    (strings s)).

Definition fake_read (st : io_stream) (dest size : Z) : M (fstate S) (Z * io_stream) :=
  if st_ctx st =? 0 then mret (-1, st)
  else
    ctx ← get_section (st_ctx st) ;
    if (data_start ctx =? 0) || (dest =? 0) then mret (-1, st)
    else if data_size ctx <=? st_pos st then write_bytes dest size (λ _, 0) ;; mret (0, st)
    else
      let available := data_size ctx - st_pos st in
      let bytes_read := if size <? available then size else available in
      write_bytes dest bytes_read (λ o, image (data_start ctx ⊞ st_pos st ⊞ o)) ;;
      (if bytes_read <? size then write_bytes (dest ⊞ bytes_read) (size - bytes_read) (λ _, 0) else mret tt) ;;
      mret (s32 bytes_read, IoStream (st_self st) (st_read st) (st_ctx st) (st_size st) (st_pos st ⊞ bytes_read)).

Definition io_read (st : io_stream) (d n : Z) : M (fstate S) (Z * io_stream) :=
  match st_read st with
  | Some FAKE_READ => fake_read st d n
  | None => mret (-1, st)
  end.

(** No stream has a [close] operation. *)
Definition io_close (s : option io_stream) : M (fstate S) unit :=
  match s with
  | None => mret tt
  | Some st => fork_kfree (st_self st)
  end.

(** ** Mapping *)

Definition userspace_map_kernel (uspace_pd_phy : Z) : M (fstate S) bool :=
  uspace_pd_virt ← PHYS_TO_VIRT_LINEAR uspace_pd_phy ;
  on_vmm (bzero_page uspace_pd_virt) ;;
  if kernel_directory =? 0 then mret false
  else
    kspace_pd_virt ← PHYS_TO_VIRT_LINEAR kernel_directory ;
    copy_kernel_entries kspace_pd_virt uspace_pd_virt ;;
    mret true.

(** The loop of [map_section]: whether it went through, and [kmap_window]. *)
Fixpoint map_pages (n : nat) (i pd sec pool : Z) (stream : option io_stream) (window : Z) :
    M (fstate S) (bool * Z) :=
  match n with
  | O => mret (true, window)
  | Datatypes.S n =>
      x ← get_section sec ;
      let v := v_addr x ⊞ i * PAGE_SIZE in
      let p := pool ⊞ i * PAGE_SIZE in
      window ← on_vmm (vmm_kmap p) ;
      if window =? 0 then mret (false, 0)
      else
        ok ← on_vmm (vmm_map_page pd v p (sec_flags x)) ;
        if negb ok then mret (false, window)
        else
          write_bytes window PAGE_SIZE (λ _, 0) ;;
          match stream with
          | None => map_pages n (i + 1) pd sec pool None window
          | Some st =>
              '(r, st) ← io_read st window PAGE_SIZE ;
              if r <? 0 then mret (false, window)
              else map_pages n (i + 1) pd sec pool (Some st) window
          end
  end.

Definition map_section (uspace_pd_phy to_map : Z) : M (fstate S) bool :=
  x ← get_section to_map ;
  if (to_map =? 0) || (mapping_size x =? 0) then mret true
  else
    let pt_count := mapping_size x / PAGE_SIZE in
    p_pool_addr ← buddy_alloc (mapping_size x) HIGHMEM_ZONE ;
    if p_pool_addr =? 0 then mret false
    else
      let bad (stream : option io_stream) (kmap_window : Z) : M (fstate S) bool :=
        buddy_free p_pool_addr ;;
        io_close stream ;;
        (if kmap_window =? 0 then mret tt else on_vmm vmm_kunmap) ;;
        mret false in
      let has_data := negb (data_start x =? 0) && (0 <? data_size x) in
      stream ← (if has_data then section_create_reader to_map else mret None) ;
      match has_data, stream with
      | true, None => bad None 0
      | _, _ =>
          '(ok, window) ← map_pages (Z.to_nat pt_count) 0 uspace_pd_phy to_map p_pool_addr stream 0 ;
          if negb ok then bad stream window
          else
            y ← get_section to_map ;
            set_section to_map (Section_ (v_addr y) p_pool_addr (data_start y) (data_size y) (mapping_size y) (sec_flags y)) ;;
            io_close stream ;;
            on_vmm vmm_kunmap ;;
            mret true
      end.

(** ** The address space of a task *)

(** The sections' places, [false] when the program cannot be placed. *)
Definition place_sections (t : Z) : M (fstate S) bool :=
  text ← on_sys (fld t text_sec) ;
  data ← on_sys (fld t data_sec) ;
  x ← get_section text ;
  if (text =? 0) || (data_size x =? 0) || (KERNEL_START <=? v_addr x) then mret false
  else
    let v := if v_addr x =? 0 then USER_TEXT_START
             else if negb (IS_ALIGNED (v_addr x) PAGE_SIZE) then ALIGN_DOWN (v_addr x) PAGE_SIZE
             else v_addr x in
    let x := Section_ v (p_addr x) (data_start x) (data_size x) (ALIGN (data_size x) PAGE_SIZE) USER_SECTION_RO in
    set_section text x ;;
    y ← get_section data ;
    let has_data := negb (data =? 0) && (0 <? data_size y) in
    if has_data && negb (v_addr y =? 0) && (KERNEL_START <=? v_addr y) then mret false
    else
      (if (has_data : bool) then
         let v := if v_addr y =? 0 then get_next_section_start (v_addr x) (mapping_size x) else v_addr y in
         set_section data (Section_ v (p_addr y) (data_start y) (data_size y) (ALIGN (data_size y) PAGE_SIZE) USER_SECTION_RW)
       else mret tt) ;;
      last ← get_section (if (has_data : bool) then data else text) ;
      heap ← on_sys (fld t heap_sec) ;
      set_section heap (heap_section last) ;;
      stack ← on_sys (fld t stack_sec) ;
      set_section stack stack_section ;;
      mret true.

(** [if (sec && sec->p_addr) buddy_free_block(sec->p_addr);] *)
Definition free_mapped (sec : Z) : M (fstate S) unit :=
  x ← get_section sec ;
  if negb (sec =? 0) && negb (p_addr x =? 0) then buddy_free (p_addr x) else mret tt.

(** [a || b], for calls that return whether they succeeded. *)
Definition and_then (a b : M (fstate S) bool) : M (fstate S) bool :=
  ok ← a ; if (ok : bool) then b else mret false.

Definition userspace_create_new (new_task : Z) : M (fstate S) bool :=
  placed ← place_sections new_task ;
  if negb placed then mret false
  else
    uspace_pd_phy ← buddy_alloc PAGE_SIZE LOWMEM_ZONE ;
    if uspace_pd_phy =? 0 then mret false
    else
      text ← on_sys (fld new_task text_sec) ;
      data ← on_sys (fld new_task data_sec) ;
      stack ← on_sys (fld new_task stack_sec) ;
      tramp ← on_sys (fld new_task sig_trampoline) ;
      y ← get_section data ;
      let has_data := negb (data =? 0) && (0 <? data_size y) in
      ok ← and_then (userspace_map_kernel uspace_pd_phy)
             (and_then (map_section uspace_pd_phy text)
               (and_then (map_section uspace_pd_phy stack)
                 (and_then (if (has_data : bool) then map_section uspace_pd_phy data else mret true)
                   (map_section uspace_pd_phy tramp)))) ;
      if (ok : bool) then on_sys (set_fld new_task cr3_ uspace_pd_phy) ;; mret true
      else
        free_mapped text ;;
        free_mapped data ;;
        free_mapped stack ;;
        free_mapped tramp ;;
        on_vmm (vmm_destroy_user_pd uspace_pd_phy) ;;
        mret false.

End Loader.
