(* ===== verification/LoaderInv.v ===== *)
(** * Loading programs: the invariant of the mapping loop

    [linv] is the state while [map_section] works: the directory [f] the
    processor runs on, unchanged but for the kernel's mapping window, and the
    directory [g] being built, with the first [i] pages of the section in it. *)

From S2P Require Import Prelude Dlist Memory Page Buddy BuddyInv BuddySpec BuddyThm PageAlloc.
From S2P Require Import Vmm VmmThm VmmWords Vma VmaInv VmaMap Task Fork ForkSpace ForkThm Loader.

(** ** Mapping a page beside other directories

    What the word-level account of [vmm_map_page] (VmmWords) says about the
    directory that is changed and about the others. *)

Section Mapped.
Context {S : Type} `{KernelAllocator S} `{!PageAllocatorLaws S}.
Implicit Types st : vmm S.

Section One.
Context (d v x t e : Z) (new : bool) (st st' : vmm S).
Context (Hm : mapped d v x t e new st st') (Hv : 0 ≤ v < W32) (Hok : pd_ok st d).

Let i := GET_PDE_INDEX v.
Let j := GET_PTE_INDEX v.

Lemma mapped_index : 0 ≤ i < 1024 ∧ 0 ≤ j < 1024.
Proof. by apply index_range. Qed.

Lemma mapped_entry h k : 0 ≤ k < 1024 → entry (pmem st') h k =
  if decide (h = t ∧ k = j) then x else if decide (h = d ∧ k = i) then e
  else if new && bool_decide (h = t) then 0 else entry (pmem st) h k.
Proof.
  intros Hk. destruct mapped_index. unfold entry at 1. rewrite (md_words _ _ _ _ _ _ _ _ Hm). unfold map_words.
  fold i j. repeat case_decide; try done; try (exfalso; lia).
Qed.

Lemma mapped_kept : pages_kept (palloc st) (palloc st').
Proof.
  pose proof (md_table _ _ _ _ _ _ _ _ Hm) as Ht. destruct new.
  - destruct (tf_new _ _ _ _ _ _ Ht eq_refl) as (_ & _ & _ & ? & _ & ? & ?). done.
  - destruct (tf_old _ _ _ _ _ _ Ht eq_refl) as (_ & _ & ->). split; [apply Hok|auto].
Qed.

Lemma mapped_frame : low_frame t ∧ t ≠ d ∧ (new = true → ¬ pa_taken (palloc st) t ∧ pa_owned (palloc st') t 0).
Proof.
  pose proof (md_table _ _ _ _ _ _ _ _ Hm) as Ht. destruct mapped_index as [Hi _]. destruct new.
  - destruct (tf_new _ _ _ _ _ _ Ht eq_refl) as (_ & ? & Hn & _ & ? & _). split_and!; [done| |done].
    intros ->. by apply Hn, (pk_taken _ _ Hok).
  - destruct (tf_old _ _ _ _ _ _ Ht eq_refl) as (Hp & Et & _).
    destruct (pk_table _ _ Hok i Hi Hp) as (? & _ & ?). by rewrite Et.
Qed.

Lemma mapped_dir k : 0 ≤ k < 1024 → entry (pmem st') d k = if decide (k = i) then e else entry (pmem st) d k.
Proof.
  intros Hk. destruct mapped_frame as (_ & Htd & _). rewrite mapped_entry by done.
  rewrite decide_False by (intros [? _]; congruence). rewrite bool_decide_false, andb_false_r by done.
  repeat case_decide; done || naive_solver.
Qed.

Lemma mapped_pde : present e = true ∧ table (pmem st') d i = t.
Proof.
  destruct mapped_index as [Hi _]. destruct (md_entry _ _ _ _ _ _ _ _ Hm) as (Hr & Hp & Ha). split; [done|].
  unfold table. rewrite mapped_dir, decide_True by done. rewrite entry_addr in Ha by done.
  pose proof (Z.div_mod e 4096). lia.
Qed.

(** The entries of every page of the directory. *)
Lemma mapped_page_entry a b : present x = true → 0 ≤ a < 1024 → 0 ≤ b < 1024 →
  page_entry (pmem st') d a b = if decide (a = i ∧ b = j) then Some x else page_entry (pmem st) d a b.
Proof.
  intros Hx Ha Hb. destruct mapped_index as [Hi Hj]. destruct mapped_pde as [Hep Et].
  destruct mapped_frame as (_ & Htd & Hnew). pose proof (md_table _ _ _ _ _ _ _ _ Hm) as Htf.
  unfold page_entry. destruct (decide (a = i)) as [->|Hai].
  - rewrite Et, mapped_dir, decide_True, Hep by done. rewrite mapped_entry by done.
    destruct (decide (b = j)) as [->|Hbj].
    + by rewrite !decide_True, Hx by done.
    + rewrite !decide_False by naive_solver. destruct new.
      * rewrite bool_decide_true by done. destruct (tf_new _ _ _ _ _ _ Htf eq_refl) as (Hn & _). fold i in Hn. cbn [andb]. by rewrite Hn.
      * destruct (tf_old _ _ _ _ _ _ Htf eq_refl) as (Hp & Et' & _). fold i in Hp, Et'.
        cbn [andb]. by rewrite Hp, <- Et'.
  - unfold table. rewrite mapped_dir, (decide_False (P := a = i)) by done.
    rewrite (decide_False (P := a = i ∧ b = j)) by naive_solver.
    destruct (present (entry (pmem st) d a)) eqn:Ep; [|done]. fold (table (pmem st) d a).
    destruct (pk_table _ _ Hok a Ha Ep) as (_ & Htk & Hne).
    assert (table (pmem st) d a ≠ t) as Hta.
    { destruct new; [intros E; rewrite E in Htk; by apply (Hnew eq_refl)|].
      destruct (tf_old _ _ _ _ _ _ Htf eq_refl) as (Hp & -> & _). by apply (pk_inj _ _ Hok). }
    rewrite mapped_entry by done. rewrite !decide_False by naive_solver.
    by rewrite bool_decide_false, andb_false_r by done.
Qed.

(** A directory that shares no frame with what is written. *)
Lemma mapped_other d' : pd_ok st d' → ¬ foot (pmem st) d' d → (new = false → ¬ foot (pmem st) d' t) →
  (∀ h k, foot (pmem st) d' h → 0 ≤ k < 1024 → entry (pmem st') h k = entry (pmem st) h k) ∧ pd_ok st' d'.
Proof.
  intros Hok' Hnd Hnt. destruct mapped_frame as (_ & _ & Hnew).
  assert (∀ h k, foot (pmem st) d' h → 0 ≤ k < 1024 → entry (pmem st') h k = entry (pmem st) h k) as Hw.
  { intros h k Hh Hk. rewrite mapped_entry by done.
    assert (h ≠ t) as Ht.
    { intros ->. destruct new; [|by apply Hnt]. apply (Hnew eq_refl). by eapply foot_low in Hh as [_ ?]. }
    assert (h ≠ d) by (intros ->; done).
    rewrite !decide_False by naive_solver. by rewrite bool_decide_false, andb_false_r by done. }
  split; [done|]. destruct mapped_kept as (Hs & Htk & _). apply (pd_ok_frame st); [done|done| |done].
  intros h Hh. apply Htk. by eapply foot_low in Hh as [_ ?].
Qed.

(** The frames of the directory afterwards. *)
Lemma mapped_foot h : foot (pmem st') d h → foot (pmem st) d h ∨ h = t.
Proof.
  destruct mapped_pde as [_ Et]. intros [->|(a & Ha & Hp & ->)]; [left; by left|].
  destruct (decide (a = i)) as [->|Hai]; [by right|left]. right. exists a.
  unfold table. rewrite mapped_dir, decide_False in * by done. done.
Qed.

End One.

Lemma foot_same st st' d : pd_ok st d → (∀ h k, foot (pmem st) d h → 0 ≤ k < 1024 → entry (pmem st') h k = entry (pmem st) h k) →
  ∀ h, foot (pmem st') d h ↔ foot (pmem st) d h.
Proof.
  intros Hok Hw h. assert (∀ a, 0 ≤ a < 1024 → entry (pmem st') d a = entry (pmem st) d a) as E
    by (intros; apply Hw; [by left|done]).
  unfold foot, table. split; (intros [->|(a & Ha & Hp & ->)]; [by left|right; exists a]).
  - rewrite E in * by done. done.
  - rewrite E by done. done.
Qed.

Lemma page_entry_same st st' d a b : (∀ h k, foot (pmem st) d h → 0 ≤ k < 1024 → entry (pmem st') h k = entry (pmem st) h k) →
  0 ≤ a < 1024 → 0 ≤ b < 1024 → page_entry (pmem st') d a b = page_entry (pmem st) d a b.
Proof.
  intros Hw Ha Hb. unfold page_entry, table. rewrite Hw by (done || by left).
  destruct (present (entry (pmem st) d a)) eqn:E; [|done]. rewrite Hw; [done| |done]. right. by exists a.
Qed.

End Mapped.

(** ** The mapping loop *)

(** The frames of the user half of a directory. *)
Definition user_foot (m : Z → Z) (d h : Z) : Prop :=
  h = d ∨ ∃ a, 0 ≤ a < 768 ∧ present (entry m d a) = true ∧ h = table m d a.

Lemma user_foot_foot m d h : user_foot m d h → foot m d h.
Proof. intros [->|(a & ? & ? & ?)]; [by left|right]. exists a. split; [lia|done]. Qed.

Section Inv.
Context {S : Type} `{KernelAllocatorLaws S}.
Implicit Types st : vmm S.

(** Nobody's block is lost. *)
Definition heap_kept (s s' : S) : Prop := pages_kept s s' ∧ ∀ a, ka_live s a → ka_live s' a.

Lemma heap_kept_trans s1 s2 s3 : heap_kept s1 s2 → heap_kept s2 s3 → heap_kept s1 s3.
Proof. intros [? ?] [? ?]. split; [by eapply pages_kept_trans|auto]. Qed.

Lemma heap_step_kept s s' : heap_step s s' → (∀ a, ka_live s a → ka_live s' a) → heap_kept s s'.
Proof. intros [? ? ?] ?. by split. Qed.

Section Loop.
Context (m0 : Z → Z) (f g vp p0 fl : Z).

Record linv (s0 : S) (i : Z) st : Prop := {
  l_f : pd_ok st f;
  l_g : pd_ok st g;
  l_cr3 : cr3 st = f * 4096;
  l_fg : ¬ foot (pmem st) g f;
  l_gf : ∀ h, user_foot (pmem st) g h → ¬ foot (pmem st) f h;
  l_win : present (entry (pmem st) f 1023) = true → let w := table (pmem st) f 1023 in
    pa_owned (palloc st) w 0 ∧ ¬ pa_taken s0 w ∧ ¬ foot (pmem st) g w ∧
    present (entry (pmem st) w 1022) = true ∧
    ∀ k, 0 ≤ k < 1024 → k ≠ 1022 → entry (pmem st) w k = 0;
  l_keep : ∀ h k, foot m0 f h → 0 ≤ k < 1024 → ¬ (h = f ∧ k = 1023) → entry (pmem st) h k = entry m0 h k;
  l_pages : ∀ a b, 0 ≤ a < 1024 → 0 ≤ b < 1024 → page_entry (pmem st) g a b =
    let j := a * 1024 + b - vp in
    if decide (0 ≤ j < i) then Some (Z.lor ((p0 + j) * 4096) fl) else page_entry m0 g a b;
  l_kernel : ∀ a, 768 ≤ a < 1024 → entry (pmem st) g a = entry m0 g a;
  l_tables : ∀ a, 0 ≤ a < 768 → present (entry (pmem st) g a) = true →
    pa_owned (palloc st) (table (pmem st) g a) 0;
  l_kept : heap_kept s0 (palloc st) }.

Context (Hwin0 : present (entry m0 f 1023) = false).

(** The frames [f] had it still has. *)
Lemma keep_foot s0 i st h : linv s0 i st → foot m0 f h → foot (pmem st) f h.
Proof.
  intros Hl [->|(a & Ha & Hp & ->)]; [by left|right]. exists a.
  assert (a ≠ 1023) by (intros ->; congruence).
  unfold table. rewrite (l_keep _ _ _ Hl f a); [done|by left|done|naive_solver].
Qed.

Lemma map_live p pd v a x st r st' : vmm_map_page pd v a x st = Done (r, st') →
  ka_live (palloc st) p → ka_live (palloc st') p.
Proof. intros E. exact (map_page_live p pd v a x st r st' E). Qed.

Lemma window_page k : 0 ≤ k < 4096 → 0 ≤ VMM_KMAP_VADDR + k < W32 ∧
  (VMM_KMAP_VADDR + k) / 4096 = VMM_KMAP_VADDR / 4096 ∧ Z.land (VMM_KMAP_VADDR + k) 4095 = k.
Proof.
  intros Hk. assert (VMM_KMAP_VADDR = 4294959104) as -> by reflexivity. unfold W32.
  change 4095 with (Z.ones 12). rewrite Z.land_ones by lia. change (2 ^ 12) with 4096.
  split_and!; Z.div_mod_to_equations; lia.
Qed.

(** Opening the window on frame [q], or moving it there. *)
Lemma wp_window s0 i q st : linv s0 i st → (∀ h, foot m0 f h → pa_taken s0 h) → 0 ≤ q < MAX_PAGES →
  wp (vmm_kmap (q * 4096)) st (λ r st1,
    (r = 0 ∧ st1 = st ∧ present (entry (pmem st) f 1023) = false) ∨
    (r = VMM_KMAP_VADDR ∧ linv s0 i st1 ∧ present (entry (pmem st1) f 1023) = true ∧
     ∀ k, 0 ≤ k < 4096 → translate (pmem st1) (f * 4096) (VMM_KMAP_VADDR + k) = q * 4096 + k)).
Proof.
  intros Hl Hbase Hq. destruct kmap_index as (Ei & Ej & Hv & El). pose proof Hl as [].
  destruct (mk_entry q 3 Hq ltac:(lia)) as (Hx & Hxa & Hxf). destruct l_kept0 as [(Hpok & Htk0 & _) Hlv0].
  assert (present (Z.lor (q * 4096) 3) = true) as Hxp by (unfold present; by rewrite Hxf).
  unfold vmm_kmap. wp_step. apply wp_gets. rewrite l_cr4. wp_step.
  eapply wp_mono; [apply wp_with_run, wp_and; [apply (wp_vmm_map_page st f VMM_KMAP_VADDR (q * 4096) 3 l_f0 Hv); [lia|done]|
    apply (wp_map_page_words st f VMM_KMAP_VADDR (q * 4096) 3 l_f0 Hv); lia]|].
  rewrite Ei. intros r st1 [Erun [[(-> & -> & Hp & _)|(-> & Hps)] Hm]]; [apply wp_ret; by left|].
  destruct Hm as [(? & _)|(_ & t & e & new & Hm)]; [done|]. apply wp_ret. right. split; [done|].
  pose proof (mapped_kept _ _ _ _ _ _ _ _ Hm l_f0) as Hk.
  destruct (mapped_frame _ _ _ _ _ _ _ _ Hm Hv l_f0) as (Hlt & Htf & Hnew).
  destruct (mapped_pde _ _ _ _ _ _ _ _ Hm Hv l_f0) as [Hep Et]. rewrite Ei in Et.
  pose proof (md_table _ _ _ _ _ _ _ _ Hm) as Htab.
  assert (new = false → present (entry (pmem st) f 1023) = true ∧ t = table (pmem st) f 1023 ∧ palloc st1 = palloc st) as Hold.
  { intros ->. destruct (tf_old _ _ _ _ _ _ Htab eq_refl) as (? & ? & ?). by rewrite Ei in *. }
  assert (¬ foot (pmem st) g t) as Htg.
  { destruct new; [|destruct (Hold eq_refl) as (Hp & -> & _); apply (l_win0 Hp)].
    intros Hh. apply (Hnew eq_refl). by eapply foot_low in Hh as [_ ?]. }
  assert (¬ pa_taken s0 t) as Hts.
  { destruct new; [|destruct (Hold eq_refl) as (Hp & -> & _); apply (l_win0 Hp)]. intros Hh. apply (Hnew eq_refl). auto. }
  destruct (mapped_other _ _ _ _ _ _ _ _ Hm Hv l_f0 g l_g0 l_fg0) as [Hgw Hgok]; [auto|].
  assert (∀ h, foot (pmem st1) g h ↔ foot (pmem st) g h) as Hgf by (by apply foot_same).
  assert (∀ a, 0 ≤ a < 1024 → entry (pmem st1) g a = entry (pmem st) g a) as Hga by (intros; apply Hgw; [by left|done]).
  assert (entry (pmem st1) f 1023 = e) as Ef by (rewrite (mapped_dir _ _ _ _ _ _ _ _ Hm Hv l_f0) by lia; by rewrite Ei, decide_True).
  split_and!; [split| |].
  - apply Hps.
  - done.
  - rewrite (md_cr3 _ _ _ _ _ _ _ _ Hm). done.
  - by rewrite Hgf.
  - intros h Hu Hh.
    assert (user_foot (pmem st) g h) as Hu'.
    { destruct Hu as [->|(a & Ha & Hp & ->)]; [by left|right]. exists a. unfold table. rewrite Hga in * by lia. done. }
    destruct (mapped_foot _ _ _ _ _ _ _ _ Hm Hv l_f0 h Hh) as [Hh'| ->]; [by apply (l_gf0 h)|].
    by apply Htg, user_foot_foot.
  - intros _. rewrite Et. split_and!.
    + destruct new; [apply (Hnew eq_refl)|]. destruct (Hold eq_refl) as (Hp & -> & ->). apply (l_win0 Hp).
    + done.
    + by rewrite Hgf.
    + rewrite (mapped_entry _ _ _ _ _ _ _ _ Hm Hv) by lia. by rewrite Ej, decide_True.
    + intros k Hk' Hne. rewrite (mapped_entry _ _ _ _ _ _ _ _ Hm Hv) by done. rewrite Ej.
      rewrite !decide_False by naive_solver. rewrite bool_decide_true by done. destruct new; [done|].
      destruct (Hold eq_refl) as (Hp & -> & _). by apply (l_win0 Hp).
  - intros h k Hh Hk' Hne. assert (h ≠ t) by (intros ->; by apply Hts, Hbase).
    rewrite (mapped_entry _ _ _ _ _ _ _ _ Hm Hv) by done. rewrite Ei.
    rewrite !decide_False by naive_solver. rewrite bool_decide_false, andb_false_r by done. by apply l_keep0.
  - intros a b Ha Hb. rewrite (page_entry_same st st1) by done. auto.
  - intros a Ha. rewrite Hga by lia. auto.
  - intros a Ha. unfold table. rewrite Hga by lia. intros Hp. apply Hk. by apply l_tables0.
  - split; [split_and!; [apply Hk| |]|].
    + intros j Hj. by apply Hk, Htk0.
    + intros p o Hpo. apply Hk. by apply Hl.
    + intros p Hp. eapply map_live; [exact Erun|auto].
  - by rewrite Ef.
  - intros k Hk'. destruct (window_page k Hk') as (Hr & Hd & Ho). rewrite (ps_page _ _ _ _ _ Hps) by done.
    rewrite Hxp, Hxa, Ho. apply u32_small. unfold MAX_PAGES, W32 in *. lia.
Qed.

(** Mapping the next page of the section. *)
Lemma wp_map_user s0 i st : linv s0 i st → (∀ h, foot m0 f h → pa_taken s0 h) →
  0 ≤ i → 0 ≤ vp → vp + i < 768 * 1024 → 0 ≤ p0 → p0 + i < MAX_PAGES → 0 ≤ fl < 4096 → present fl = true →
  wp (vmm_map_page (g * 4096) ((vp + i) * 4096) ((p0 + i) * 4096) fl) st (λ r st1,
    (r = false ∧ st1 = st) ∨
    (r = true ∧ linv s0 (i + 1) st1 ∧ entry (pmem st1) f 1023 = entry (pmem st) f 1023 ∧
     ∀ v, 0 ≤ v < W32 → translate (pmem st1) (f * 4096) v = translate (pmem st) (f * 4096) v)).
Proof.
  intros Hl Hbase Hi Hvp Hlim Hp0 Hp Hfl Hpr. pose proof Hl as []. destruct l_kept0 as [(Hpok & Htk0 & Hok0) Hlv0].
  set (v := (vp + i) * 4096). set (a := (vp + i) / 1024). set (b := (vp + i) mod 1024).
  assert (0 ≤ a < 768 ∧ 0 ≤ b < 1024 ∧ vp + i = a * 1024 + b) as (Ha & Hb & Eab) by (unfold a, b; Z.div_mod_to_equations; lia).
  destruct (page_vaddr_index a b) as (Hv & Ei & Ej & _); [lia|done|].
  assert (page_vaddr a b = v) as Epv by (rewrite page_vaddr_eq by lia; unfold v; lia). rewrite Epv in Hv, Ei, Ej.
  destruct (mk_entry (p0 + i) fl ltac:(lia) Hfl) as (Hx & Hxa & Hxf). set (x := Z.lor _ fl) in *.
  assert (present x = true) as Hxp by (unfold present; rewrite Hxf by lia; exact Hpr).
  eapply wp_mono; [apply wp_with_run, wp_and; [apply (wp_vmm_map_page st g v ((p0 + i) * 4096) fl l_g0 Hv); [lia|done]|
    apply (wp_map_page_words st g v ((p0 + i) * 4096) fl l_g0 Hv); lia]|].
  fold x. rewrite Ei. intros r st1 [Erun [[(-> & -> & _)|(-> & Hps)] Hm]]; [by left|right].
  destruct Hm as [(? & _)|(_ & t & e & new & Hm)]; [done|]. split; [done|].
  pose proof (mapped_kept _ _ _ _ _ _ _ _ Hm l_g0) as Hk.
  destruct (mapped_frame _ _ _ _ _ _ _ _ Hm Hv l_g0) as (Hlt & Htg & Hnew).
  destruct (mapped_pde _ _ _ _ _ _ _ _ Hm Hv l_g0) as [Hep Et]. rewrite Ei in Et.
  pose proof (md_table _ _ _ _ _ _ _ _ Hm) as Htab. pose proof (mapped_dir _ _ _ _ _ _ _ _ Hm Hv l_g0) as Hdir.
  rewrite Ei in Hdir.
  assert (new = false → user_foot (pmem st) g t ∧ palloc st1 = palloc st) as Hold.
  { intros ->. destruct (tf_old _ _ _ _ _ _ Htab eq_refl) as (? & ? & ?). rewrite Ei in *. split; [|done]. right. by exists a. }
  assert (¬ foot (pmem st) f t) as Htf.
  { destruct new; [|by apply l_gf0, Hold]. intros Hh. apply (Hnew eq_refl). by eapply foot_low in Hh as [_ ?]. }
  destruct (mapped_other _ _ _ _ _ _ _ _ Hm Hv l_g0 f l_f0) as [Hfw Hfok]; [apply l_gf0; by left|done|].
  assert (∀ h, foot (pmem st1) f h ↔ foot (pmem st) f h) as Hff by (by apply foot_same).
  assert (entry (pmem st1) f 1023 = entry (pmem st) f 1023) as E1023 by (apply Hfw; [by left|lia]).
  assert (∀ h, foot (pmem st1) g h → foot (pmem st) g h ∨ (new = true ∧ h = t)) as Hgf.
  { intros h Hh. destruct (mapped_foot _ _ _ _ _ _ _ _ Hm Hv l_g0 h Hh) as [?| ->]; [by left|].
    destruct new; [by right|left]. by apply user_foot_foot, Hold. }
  split_and!; [split| |].
  - done.
  - apply Hps.
  - rewrite (md_cr3 _ _ _ _ _ _ _ _ Hm). done.
  - intros [?|[En ->]]%Hgf; [done|]. apply (Hnew En), (pk_taken _ _ l_f0).
  - intros h Hu Hh%Hff.
    assert (user_foot (pmem st) g h ∨ h = t) as [Hu'| ->]; [|by apply (l_gf0 h)|done].
    destruct Hu as [->|(a' & Ha' & Hp' & ->)]; [left; by left|].
    destruct (decide (a' = a)) as [->|Hne]; [by right|left; right]. exists a'.
    unfold table. rewrite Hdir, decide_False in * by (done || lia). done.
  - rewrite E1023. intros Hp1. unfold table. rewrite E1023. fold (table (pmem st) f 1023).
    destruct (l_win0 Hp1) as (Ho & Hn0 & Hng & Hp2 & Hz). set (w := table (pmem st) f 1023) in *.
    assert (foot (pmem st) f w) as Hwf by (right; exists 1023; done).
    split_and!; [by apply Hk|done| | |].
    + intros [?|[En ->]]%Hgf; [done|]. by apply (proj1 (Hnew En)), (pa_owned_taken _ _ 0 _ Ho); unfold in_block; simpl; lia.
    + by rewrite Hfw.
    + intros k Hk' Hne. rewrite Hfw by done. auto.
  - intros h k Hh Hk' Hne. rewrite Hfw; [by apply l_keep0|by eapply keep_foot|done].
  - intros a' b' Ha' Hb'. rewrite (mapped_page_entry _ _ _ _ _ _ _ _ Hm Hv l_g0) by done. rewrite Ei, Ej. cbn zeta.
    rewrite l_pages0 by done. cbn zeta. destruct (decide (a' = a ∧ b' = b)) as [[-> ->]|Hne].
    + rewrite decide_True by lia. unfold x. do 3 f_equal. lia.
    + assert (a' * 1024 + b' - vp ≠ i) by (intros E; apply Hne; lia).
      destruct (decide (0 ≤ a' * 1024 + b' - vp < i)); [rewrite decide_True by lia|rewrite decide_False by lia]; done.
  - intros a' Ha'. rewrite Hdir, decide_False by lia. auto.
  - intros a' Ha'. unfold table. rewrite Hdir by lia. destruct (decide (a' = a)) as [->|Hne].
    + intros _. replace (e / 4096) with t by (rewrite <- Et; unfold table; by rewrite Hdir, decide_True by lia).
      destruct new; [apply (Hnew eq_refl)|]. destruct (Hold eq_refl) as [_ Ep].
      destruct (tf_old _ _ _ _ _ _ Htab eq_refl) as (Hp' & -> & _). rewrite Ei in *. rewrite Ep. auto.
    + intros Hp'. apply Hk. by apply l_tables0.
  - split; [split_and!; [apply Hk| |]|].
    + intros j Hj. by apply Hk, Htk0.
    + intros q o Hpo. by apply Hk, Hok0.
    + intros q Hq. eapply map_live; [exact Erun|auto].
  - done.
  - intros u Hu. by apply translate_frame.
Qed.

(** The frames of the two directories, by where they come from. *)
Lemma linv_frames s0 i st h : linv s0 i st → foot (pmem st) f h ∨ foot (pmem st) g h →
  foot m0 f h ∨ foot m0 g h ∨ (low_frame h ∧ pa_owned (palloc st) h 0).
Proof.
  intros Hl [[->|(a & Ha & Hp & ->)]|[->|(a & Ha & Hp & ->)]]; [left; by left| |right; left; by left|].
  - destruct (decide (a = 1023)) as [->|Hne].
    + right. right. split; [by apply (pk_table _ _ (l_f _ _ _ Hl))|apply (l_win _ _ _ Hl Hp)].
    + left. right. exists a. unfold table. rewrite (l_keep _ _ _ Hl) in *; [done|by left|done|naive_solver|by left|done|naive_solver].
  - right. destruct (decide (a < 768)).
    + right. split; [by apply (pk_table _ _ (l_g _ _ _ Hl))|apply (l_tables _ _ _ Hl); [lia|done]].
    + left. right. exists a. unfold table. rewrite (l_kernel _ _ _ Hl) in * by lia. done.
Qed.

(** Steps of the allocators alone. *)
Lemma linv_palloc s0 i st s' : linv s0 i st → (∀ h, foot m0 f h ∨ foot m0 g h → pa_taken s0 h) →
  (∀ t, low_frame t → pa_owned (palloc st) t 0 → pa_owned s' t 0) → heap_kept s0 s' →
  linv s0 i (Vmm (pmem st) s' (cr3 st) (flushes st)).
Proof.
  intros Hl Hbase Hown Hk. pose proof Hl as []. pose proof Hk as [(Hs' & Htk & _) _].
  assert (∀ h, foot (pmem st) f h ∨ foot (pmem st) g h → pa_taken s' h) as Hft.
  { intros h [?|[?|[Hlo Ho]]]%(linv_frames s0 i st h Hl); [by auto..|].
    eapply (pa_owned_taken _ _ 0); [by apply Hown|]. unfold in_block. simpl. lia. }
  split; try done.
  - apply (pd_ok_frame st); auto.
  - apply (pd_ok_frame st); auto.
  - intros Hp. destruct (l_win0 Hp) as (? & ? & ? & ? & ?). split_and!; try done.
    apply Hown; [by apply (pk_table _ _ l_f0)|done].
  - intros a Ha Hp. apply Hown; [apply (pk_table _ _ l_g0); [lia|done]|by apply l_tables0].
Qed.

Lemma linv_heap s0 i st s' : linv s0 i st → (∀ h, foot m0 f h ∨ foot m0 g h → pa_taken s0 h) →
  heap_kept (palloc st) s' → linv s0 i (Vmm (pmem st) s' (cr3 st) (flushes st)).
Proof.
  intros Hl Hbase Hk. apply linv_palloc; [done|done| |].
  - intros t _. apply Hk.
  - eapply heap_kept_trans; [apply Hl|done].
Qed.

(** From the point of view of an earlier state of the allocators. *)
Lemma linv_rebase s s0 i st : linv s0 i st → heap_kept s s0 → linv s i st.
Proof.
  intros Hl Hk. pose proof Hl as []. split; try done.
  - intros Hp. destruct (l_win0 Hp) as (? & Hn & ? & ? & ?). split_and!; try done. intros Ht. by apply Hn, Hk.
  - by eapply heap_kept_trans.
Qed.

(** Closing the window. *)
Lemma wp_unwindow s0 i st : linv s0 i st → (∀ h, foot m0 f h ∨ foot m0 g h → pa_taken s0 h) →
  present (entry (pmem st) f 1023) = true →
  wp vmm_kunmap st (λ _ st1, linv s0 i st1 ∧ present (entry (pmem st1) f 1023) = false).
Proof.
  intros Hl Hbase Hp. destruct kmap_index as (Ei & Ej & Hv & _). pose proof Hl as [].
  destruct (l_win0 Hp) as (Ho & Hn0 & Hng & Hp2 & Hz). set (t := table (pmem st) f 1023) in *.
  destruct (pk_table _ _ l_f0 1023 ltac:(lia) Hp) as (Hlt & Htk & Htf). fold t in Hlt, Htk, Htf.
  pose proof (wp_vmm_unmap_page st f VMM_KMAP_VADDR l_f0 Hv) as Hw1.
  pose proof (wp_unmap_page_words st f VMM_KMAP_VADDR l_f0 Hv) as Hw2. rewrite Ei, Ej in Hw1, Hw2. cbn zeta in Hw2.
  unfold vmm_kunmap. wp_step. apply wp_gets. rewrite l_cr4. wp_step.
  eapply wp_mono; [apply wp_with_run, wp_and; [by apply Hw1|by apply Hw2]|].
  fold t. intros r st1 [Erun [H1 (-> & dropped & [Hw Hc Hkeep Hdrop])]]. apply wp_ret.
  destruct H1 as [(? & _)|(_ & _ & _ & Hpu)]; [done|].
  destruct dropped; [|destruct (Hkeep eq_refl) as (_ & j & Hj & Hne & Hp'); rewrite Ej in Hne; by rewrite Hz in Hp'].
  destruct (Hdrop eq_refl) as (Hok1 & Htk1 & Hown1). clear Hkeep Hdrop. rewrite Ei, Ej in Hw.
  assert (∀ h k, 0 ≤ k < 1024 → entry (pmem st1) h k = if decide (h = t ∧ k = 1022) then 0
    else if decide (h = f ∧ k = 1023) then 0 else entry (pmem st) h k) as Hent.
  { intros h k Hk. unfold entry at 1. rewrite Hw. cbn [andb].
    repeat case_decide; try case_bool_decide; try done; exfalso; naive_solver lia. }
  assert (∀ h k, foot (pmem st) g h → 0 ≤ k < 1024 → entry (pmem st1) h k = entry (pmem st) h k) as Hgw.
  { intros h k Hh Hk. rewrite Hent by done. rewrite !decide_False; [done|..]; intros [-> _]; done. }
  assert (∀ h, foot (pmem st1) g h ↔ foot (pmem st) g h) as Hgf by (by apply foot_same).
  assert (∀ a, 0 ≤ a < 1024 → entry (pmem st1) g a = entry (pmem st) g a) as Hga by (intros; apply Hgw; [by left|done]).
  assert (entry (pmem st1) f 1023 = 0) as E1023.
  { rewrite Hent by lia. rewrite decide_False by naive_solver. by rewrite decide_True. }
  assert (∀ a, 0 ≤ a < 768 → present (entry (pmem st) g a) = true → table (pmem st) g a ≠ t) as Hgt.
  { intros a Ha Hpa E. apply Hng. right. exists a. split; [lia|done]. }
  split; [|by rewrite E1023]. split.
  - apply Hpu.
  - apply (pd_ok_frame st); [done|done| |done]. intros h Hh. apply Htk1. split; [by eapply foot_low in Hh as [_ ?]|].
    by intros ->.
  - congruence.
  - by rewrite Hgf.
  - intros h Hu Hh. apply (l_gf0 h).
    + destruct Hu as [->|(a & Ha & Hpa & ->)]; [by left|right]. exists a. unfold table. rewrite Hga in * by lia. done.
    + destruct Hh as [->|(a & Ha & Hpa & ->)]; [by left|right]. exists a.
      assert (a ≠ 1023) by (intros ->; rewrite E1023 in Hpa; done).
      assert (entry (pmem st1) f a = entry (pmem st) f a) as Efa.
      { rewrite Hent by done. rewrite !decide_False; [done|..]; intros [? ?]; congruence. }
      unfold table. rewrite Efa in *. done.
  - intros Hp'. by rewrite E1023 in Hp'.
  - intros h k Hh Hk Hne. rewrite Hent by done. rewrite !decide_False; [by apply l_keep0|done|].
    intros [-> _]. apply Hn0. auto.
  - intros a b Ha Hb. rewrite (page_entry_same st st1) by done. auto.
  - intros a Ha. rewrite Hga by lia. auto.
  - intros a Ha. unfold table. rewrite Hga by lia. fold (table (pmem st) g a). intros Hpa. apply Hown1; auto.
  - destruct l_kept0 as [(Hpok & Htk0 & Hok0) Hlv0]. split; [split_and!; [done| |]|].
    + intros j Hj. apply Htk1. split; [auto|]. by intros ->.
    + intros p o Hpo. apply Hown1; [auto|]. intros ->. apply Hn0. eapply pa_owned_taken; [exact Hpo|].
      destruct (pa_owned_run _ _ _ Hpo) as (? & _). unfold in_block. pose proof (Z.pow_pos_nonneg 2 o). lia.
    + intros p Hpl. eapply (unmap_page_live p); [exact Erun|]. by apply Hlv0.
Qed.

End Loop.
End Inv.
