(* ===== verification/LoaderThm.v ===== *)
(** * Loading programs: a section is mapped and filled *)

From S2P Require Import Prelude Dlist Memory Page Buddy BuddyInv BuddySpec BuddyThm PageAlloc.
From S2P Require Import Vmm VmmThm VmmWords Vma VmaInv VmaMap Task Fork ForkSpace ForkThm ForkChild.
From S2P Require Import Loader LoaderInv.

Section Load.
Context {S : Type} `{KernelAllocatorLaws S}.
Context (image : Z → Z).

(** The byte at offset [y] of a section of [size] bytes of the image at [start]. *)
Definition content (start size y : Z) : Z := if y <? size then image (start ⊞ y) else 0.

(** ** Writing through the window *)

(** The window, as the processor sees it, is frame [q]. *)
Definition window_on (f q : Z) (st : vmm S) : Prop :=
  pd_ok st f ∧ cr3 st = f * 4096 ∧ 0 < q < MAX_PAGES ∧
  ∀ k, 0 ≤ k < 4096 → translate (pmem st) (f * 4096) (VMM_KMAP_VADDR + k) = q * 4096 + k.

Lemma wp_write_bytes f q k n byte (s : fstate S) (Q : unit → fstate S → Prop) :
  window_on f q (fs_vmm s) → 0 ≤ k < 4096 →
  (∀ fr, (∀ h o, fr h o = if decide (h = q ∧ k ≤ o < k + n) then byte (o - k) else frames s h o) →
     Q tt (FState (fs_sys s) (fs_vmm s) fr (strings s))) →
  wp (write_bytes (VMM_KMAP_VADDR + k) n byte) s Q.
Proof.
  intros (Hok & Hc & Hq & Htr) Hk HQ. destruct s as [sy st fr str]. cbn [fs_sys fs_vmm frames strings] in *.
  destruct (window_page k Hk) as (Hr & _). unfold write_bytes. apply wp_bind.
  eapply (mmu_run f sy st fr str _ (q * 4096 + k)); [done|done|done|by apply Htr|lia|].
  apply wp_modify. cbn [fs_sys fs_vmm frames strings]. change PAGE_SIZE with 4096.
  assert ((q * 4096 + k) / 4096 = q ∧ (q * 4096 + k) mod 4096 = k) as [-> ->] by (Z.div_mod_to_equations; lia).
  apply HQ. intros h o. destruct (decide (h = q)) as [->|Hne].
  - rewrite fn_lookup_insert. destruct (Z.leb_spec k o), (Z.ltb_spec o (k + n)); cbn [andb];
      repeat case_decide; done || lia.
  - rewrite fn_lookup_insert_ne by done. by rewrite decide_False by naive_solver.
Qed.

(** ** Streams *)

(** The stream of the section at [sec], [i] pages into it. *)
Definition stream_at (sec size i : Z) (st : io_stream) : Prop :=
  st_read st = Some FAKE_READ ∧ st_ctx st = sec ∧ st_pos st = Z.min (i * 4096) size.

Lemma wp_io_read f q i sec x st (s : fstate S) (Q : Z * io_stream → fstate S → Prop) :
  window_on f q (fs_vmm s) → sections (fs_sys s) sec = x → sec ≠ 0 → data_start x ≠ 0 →
  0 < data_size x < W32 → 0 ≤ i → stream_at sec (data_size x) i st →
  (∀ r st' fr, 0 ≤ r → st_self st' = st_self st → stream_at sec (data_size x) (i + 1) st' →
     (∀ h o, 0 ≤ o < 4096 → fr h o = if decide (h = q) then content (data_start x) (data_size x) (i * 4096 + o) else frames s h o) →
     Q (r, st') (FState (fs_sys s) (fs_vmm s) fr (strings s))) →
  wp (io_read image st VMM_KMAP_VADDR PAGE_SIZE) s Q.
Proof.
  intros Hw Ex Hsec Hds Hsz Hi (Er & Ec & Ep) HQ. unfold io_read. rewrite Er. unfold fake_read.
  rewrite Ec, (proj2 (Z.eqb_neq _ _) Hsec). apply wp_bind. unfold get_section. apply wp_on_sys, wp_gets.
  rewrite Ex, (proj2 (Z.eqb_neq _ _) Hds). change (VMM_KMAP_VADDR =? 0) with false. cbn [orb].
  destruct s as [sy v fr0 str]. cbn [fs_sys fs_vmm frames strings] in *. rewrite Ep.
  change PAGE_SIZE with 4096. replace VMM_KMAP_VADDR with (VMM_KMAP_VADDR + 0) by lia.
  destruct (Z.leb_spec (data_size x) (Z.min (i * 4096) (data_size x))) as [Hend|Hmore].
  - apply wp_bind. apply (wp_write_bytes f q); [done|lia|]. intros fr Hfr. apply wp_ret.
    apply HQ; [done|done|split_and!; [done|done|lia]|]. intros h o Ho. rewrite Hfr. unfold content.
    destruct (Z.ltb_spec (i * 4096 + o) (data_size x)); [lia|].
    repeat case_decide; done || lia.
  - assert (Z.min (i * 4096) (data_size x) = i * 4096) as Em by lia. rewrite Em.
    set (n := if 4096 <? data_size x - i * 4096 then 4096 else data_size x - i * 4096).
    assert (0 < n ≤ 4096 ∧ i * 4096 + n ≤ data_size x ∧ (n < 4096 → i * 4096 + n = data_size x)) as (Hn & Hle & Hlast)
      by (unfold n; destruct (Z.ltb_spec 4096 (data_size x - i * 4096)); lia).
    apply wp_bind. apply (wp_write_bytes f q); [done|lia|]. intros fr Hfr. cbn [fs_sys fs_vmm frames strings].
    assert (∀ r, r = s32 n → 0 ≤ r) as Hr by (intros r ->; unfold s32; rewrite u32_small by (unfold W32; lia);
      destruct (Z.ltb_spec n 2147483648); lia).
    assert (∀ o, 0 ≤ o < n → image ((data_start x ⊞ i * 4096) ⊞ (o - 0)) = content (data_start x) (data_size x) (i * 4096 + o)) as Himg.
    { intros o Ho. unfold content. destruct (Z.ltb_spec (i * 4096 + o) (data_size x)); [|lia].
      f_equal. unfold u32. rewrite Z.sub_0_r, Zplus_mod_idemp_l. f_equal. lia. }
    assert (stream_at sec (data_size x) (i + 1)
      (IoStream (st_self st) (Some FAKE_READ) sec (st_size st) (i * 4096 ⊞ n))) as Hst.
    { split_and!; [done|done|]. cbn [st_pos]. rewrite u32_small by lia. lia. }
    apply wp_bind. destruct (Z.ltb_spec n 4096) as [Hshort|Hfull].
    + replace ((VMM_KMAP_VADDR + 0) ⊞ n) with (VMM_KMAP_VADDR + n).
      2: { symmetry. rewrite Z.add_0_r. apply u32_small. apply (window_page n). lia. }
      apply (wp_write_bytes f q); [done|lia|]. intros fr' Hfr'. apply wp_ret. cbn [fs_sys fs_vmm frames strings] in *.
      apply HQ; [by apply Hr|done|by rewrite Er|]. intros h o Ho. rewrite Hfr', Hfr.
      destruct (decide (h = q)) as [->|Hne]; [|by rewrite !decide_False by naive_solver].
      destruct (decide (o < n)).
      * rewrite decide_False by lia. rewrite decide_True by lia. apply Himg. lia.
      * rewrite decide_True by lia. unfold content. destruct (Z.ltb_spec (i * 4096 + o) (data_size x)); [lia|done].
    + apply wp_ret, wp_ret. apply HQ; [by apply Hr|done|by rewrite Er|]. intros h o Ho. rewrite Hfr.
      destruct (decide (h = q)) as [->|Hne]; [|by rewrite !decide_False by naive_solver].
      rewrite decide_True by lia. apply Himg. lia.
Qed.

(** ** The loop *)

Definition has_data (x : section) : bool := negb (data_start x =? 0) && (0 <? data_size x).

(** What is read of a section: nothing, when it has no data. *)
Definition read_size (x : section) : Z := if has_data x then data_size x else 0.

Definition stream_ok (sec : Z) (x : section) (i : Z) (stream : option io_stream) : Prop :=
  match stream with
  | None => has_data x = false
  | Some st => has_data x = true ∧ stream_at sec (data_size x) i st
  end.

Section Pages.
Context (m0 : Z → Z) (f g vp p0 N sec : Z) (x : section) (s0 : S) (fr0 : Z → Z → Z).
Context (Hwin0 : present (entry m0 f 1023) = false).
Context (Hbase : ∀ h, foot m0 f h ∨ foot m0 g h → pa_taken s0 h).
Context (Hvp : 0 ≤ vp) (Hlim : vp + N ≤ 768 * 1024) (Hva : v_addr x = vp * 4096).
Context (Hp0 : 0 < p0) (Hpm : p0 + N ≤ MAX_PAGES).
Context (Hfl : 0 ≤ sec_flags x < 4096) (Hpr : present (sec_flags x) = true).
Context (Hsec : sec ≠ 0) (Hsz : 0 ≤ data_size x < W32).

Notation linv_ := (linv m0 f g vp p0 (sec_flags x) s0).

(** The first [i] frames hold the first [i] pages of the section. *)
Definition filled (i : Z) (fr : Z → Z → Z) : Prop := ∀ h o, 0 ≤ o < 4096 →
  fr h o = if decide (p0 ≤ h < p0 + i) then content (data_start x) (read_size x) ((h - p0) * 4096 + o) else fr0 h o.

Definition outside_same (fr : Z → Z → Z) : Prop := ∀ h o, 0 ≤ o < 4096 → ¬ p0 ≤ h < p0 + N → fr h o = fr0 h o.

Definition window_is (w : Z) (st : vmm S) : Prop :=
  if w =? 0 then present (entry (pmem st) f 1023) = false else present (entry (pmem st) f 1023) = true.

Lemma filled_outside i fr : i ≤ N → filled i fr → outside_same fr.
Proof. intros Hi Hf h o Ho Hh. rewrite Hf by done. by rewrite decide_False by lia. Qed.

Definition pages_post (i : Z) (s : fstate S) (r : bool * Z) (s' : fstate S) : Prop :=
  fs_sys s' = fs_sys s ∧ strings s' = strings s ∧
  if r.1 then linv_ i (fs_vmm s') ∧ filled i (frames s') ∧ window_is r.2 (fs_vmm s') ∧ (0 < i → r.2 ≠ 0)
  else ∃ k, k ≤ N ∧ linv_ k (fs_vmm s') ∧ outside_same (frames s') ∧ window_is r.2 (fs_vmm s').

Lemma has_data_true : has_data x = true → data_start x ≠ 0 ∧ 0 < data_size x < W32.
Proof.
  unfold has_data. intros [Hs Hz]%andb_true_iff. apply negb_true_iff, Z.eqb_neq in Hs. apply Z.ltb_lt in Hz. lia.
Qed.

Lemma wp_map_pages n : ∀ i s stream w, linv_ i (fs_vmm s) → filled i (frames s) → window_is w (fs_vmm s) → (0 < i → w ≠ 0) →
  sections (fs_sys s) sec = x → 0 ≤ i → i + Z.of_nat n ≤ N → stream_ok sec x i stream →
  wp (map_pages image n i (g * 4096) sec (p0 * 4096) stream w) s (pages_post (i + Z.of_nat n) s).
Proof.
  induction n as [|n IH]; intros i s stream w Hl Hf Hw Hw0 Ex Hi Hn Hst; cbn [map_pages].
  { apply wp_ret. split_and!; [done|done|]. cbn [fst snd]. rewrite Z.add_0_r. done. }
  replace (i + Z.of_nat (Datatypes.S n)) with (i + 1 + Z.of_nat n) by lia.
  destruct s as [sy st fr str]. cbn [fs_sys fs_vmm frames strings] in *.
  apply wp_bind. unfold get_section. apply wp_on_sys, wp_gets. cbn [fs_sys fs_vmm frames strings]. rewrite Ex, Hva.
  change PAGE_SIZE with 4096. rewrite (u32_small (vp * 4096 + i * 4096)), (u32_small (p0 * 4096 + i * 4096))
    by (unfold W32, MAX_PAGES in *; lia).
  replace (vp * 4096 + i * 4096) with ((vp + i) * 4096) by lia. replace (p0 * 4096 + i * 4096) with ((p0 + i) * 4096) by lia.
  assert (∀ h, foot m0 f h → pa_taken s0 h) as Hbf by auto.
  assert (outside_same fr) as Hout by (apply (filled_outside i); [lia|done]).
  apply wp_bind, wp_on_vmm. cbn [fs_vmm]. eapply wp_mono; [apply (wp_window m0 f g vp p0 (sec_flags x) s0 i (p0 + i)); [done|done|lia]|].
  intros r st1 [(-> & -> & Hp)|(-> & Hl1 & Hp1 & Htr)]; cbn [fs_sys frames strings].
  { cbn. apply wp_ret. split_and!; [done|done|]. exists i. split; [lia|done]. }
  change (VMM_KMAP_VADDR =? 0) with false. cbn match. apply wp_bind, wp_on_vmm. cbn [fs_vmm].
  eapply wp_mono; [apply (wp_map_user m0 f g vp p0 (sec_flags x) Hwin0 s0 i st1); try done; lia|].
  intros ok st2 [[-> ->]|(-> & Hl2 & E1023 & Htr2)]; cbn [negb fs_sys frames strings].
  { apply wp_ret. split_and!; [done|done|]. exists i. split_and!; [lia|done|done|]. unfold window_is. by cbn. }
  assert (window_on f (p0 + i) st2) as Hwo.
  { split_and!; [apply Hl2|apply Hl2|lia|lia|]. intros k Hk. rewrite Htr2 by (by apply window_page). auto. }
  assert (window_is VMM_KMAP_VADDR st2) as Hwi by (unfold window_is; cbn; by rewrite E1023).
  apply wp_bind. replace VMM_KMAP_VADDR with (VMM_KMAP_VADDR + 0) at 1 by lia.
  apply (wp_write_bytes f (p0 + i)); [done|lia|]. intros fr1 Hfr1. cbn [fs_sys fs_vmm frames strings] in *.
  assert (∀ fr2, (∀ h o, 0 ≤ o < 4096 → fr2 h o = if decide (h = p0 + i)
    then content (data_start x) (read_size x) (i * 4096 + o) else fr h o) → filled (i + 1) fr2) as Hfill.
  { intros fr2 Hfr2 h o Ho. rewrite Hfr2, Hf by done. destruct (decide (h = p0 + i)) as [->|Hne].
    - rewrite decide_True by lia. f_equal. lia.
    - destruct (decide (p0 ≤ h < p0 + i)); [rewrite decide_True by lia|rewrite decide_False by lia]; done. }
  destruct stream as [strm|].
  - destruct Hst as [Hd Hst]. destruct (has_data_true Hd) as [Hds Hdz]. apply wp_bind.
    apply (wp_io_read f (p0 + i) i sec x strm (FState sy st2 fr1 str)); try done.
    intros r strm' fr2 Hr _ Hst' Hfr2. cbn beta iota. rewrite (proj2 (Z.ltb_ge _ _) Hr).
    eapply wp_mono; [apply (IH (i + 1)); try done; try lia|done].
    cbn [frames]. apply Hfill. intros h o Ho. rewrite Hfr2 by done. cbn [frames]. rewrite Hfr1.
    destruct (decide (h = p0 + i)); [unfold read_size; by rewrite Hd|]. by rewrite decide_False by naive_solver.
  - eapply wp_mono; [apply (IH (i + 1)); try done; try lia|done].
    cbn [frames]. apply Hfill. intros h o Ho. rewrite Hfr1. cbn in Hst. unfold read_size. rewrite Hst. unfold content.
    destruct (Z.ltb_spec (i * 4096 + o) 0); [lia|]. repeat case_decide; naive_solver lia.
Qed.

End Pages.

End Load.
