(* ===== verification/LoaderMap.v ===== *)
(** * Loading programs: [map_section] *)

From S2P Require Import Prelude Dlist Memory Page Buddy BuddyInv BuddySpec BuddyThm PageAlloc.
From S2P Require Import Vmm VmmThm VmmWords Vma VmaInv VmaMap Task Fork ForkSpace ForkThm ForkChild.
From S2P Require Import Loader LoaderInv LoaderThm.

Section Map.
Context {S : Type} `{KernelAllocatorLaws S}.
Context (image : Z → Z).
Implicit Types st : vmm S.

(** [f] is the directory in use, with the kernel's window closed, and [g]
    another one, that shares at most kernel tables with it and owns its user
    tables. *)
Record space_ready (f g : Z) st : Prop := {
  sr_f : pd_ok st f;
  sr_g : pd_ok st g;
  sr_cr3 : cr3 st = f * 4096;
  sr_fg : ¬ foot (pmem st) g f;
  sr_gf : ∀ h, user_foot (pmem st) g h → ¬ foot (pmem st) f h;
  sr_window : present (entry (pmem st) f 1023) = false;
  sr_tables : ∀ a, 0 ≤ a < 768 → present (entry (pmem st) g a) = true →
    pa_owned (palloc st) (table (pmem st) g a) 0 }.

Lemma ready_base f g st h : space_ready f g st → foot (pmem st) f h ∨ foot (pmem st) g h → pa_taken (palloc st) h.
Proof. intros [] [Hh|Hh]; by eapply foot_low in Hh as [_ ?]. Qed.

Lemma ready_heap f g st s : space_ready f g st → heap_kept (palloc st) s →
  space_ready f g (Vmm (pmem st) s (cr3 st) (flushes st)).
Proof.
  intros Hr Hk. pose proof Hr as []. destruct Hk as [(Hs & Htk & Hown) _]. split; try done.
  - apply (pd_ok_frame st); [done|done| |done]. intros h Hh. apply Htk. eapply ready_base; eauto.
  - apply (pd_ok_frame st); [done|done| |done]. intros h Hh. apply Htk. eapply ready_base; eauto.
  - intros a Ha Hp. by apply Hown, sr_tables0.
Qed.

Lemma linv_start f g vp p0 fl st : space_ready f g st → linv (pmem st) f g vp p0 fl (palloc st) 0 st.
Proof.
  intros []. split; try done.
  - intros Hp. congruence.
  - intros a b Ha Hb. cbn zeta. by rewrite decide_False by lia.
  - split; [|done]. split; [apply sr_f0|auto].
Qed.

Lemma linv_ready m0 f g vp p0 fl s0 i st : linv m0 f g vp p0 fl s0 i st → present (entry (pmem st) f 1023) = false →
  space_ready f g st.
Proof. by intros []. Qed.

(** The pages of the directory in use are as they were. *)
Lemma linv_current m0 f g vp p0 fl s0 i st a b : linv m0 f g vp p0 fl s0 i st → present (entry m0 f 1023) = false →
  present (entry (pmem st) f 1023) = false → (∀ k, 0 ≤ k < 1024 → present (entry m0 f k) = true → table m0 f k ≠ f) →
  0 ≤ a < 1024 → 0 ≤ b < 1024 → page_entry (pmem st) f a b = page_entry m0 f a b.
Proof.
  intros Hl Hw0 Hw Htf Ha Hb. unfold page_entry. destruct (decide (a = 1023)) as [->|Hne]; [by rewrite Hw0, Hw|].
  assert (entry (pmem st) f a = entry m0 f a) as E by (apply (l_keep _ _ _ _ _ _ _ _ _ Hl); [by left|done|naive_solver]).
  unfold table. rewrite E. destruct (present (entry m0 f a)) eqn:Ep; [|done].
  rewrite (l_keep _ _ _ _ _ _ _ _ _ Hl); [done| |done|].
  - right. by exists a.
  - intros [Ef _]. by apply (Htf a Ha Ep).
Qed.

(** The section [x], of [n] pages from page [vp], is mapped to frames from [p0]. *)
Record section_mapped (f g vp n : Z) (x : section) (p0 o : Z) st (fr : Z → Z → Z) st' (fr' : Z → Z → Z) : Prop := {
  sm_ready : space_ready f g st';
  sm_pages : ∀ a b, 0 ≤ a < 1024 → 0 ≤ b < 1024 → page_entry (pmem st') g a b =
    let j := a * 1024 + b - vp in
    if decide (0 ≤ j < n) then Some (Z.lor ((p0 + j) * 4096) (sec_flags x)) else page_entry (pmem st) g a b;
  sm_current : ∀ a b, 0 ≤ a < 1024 → 0 ≤ b < 1024 →
    page_entry (pmem st') f a b = page_entry (pmem st) f a b;
  sm_block : pa_owned (palloc st') p0 o ∧ zone_of p0 = HIGHMEM_ZONE ∧ n ≤ 2 ^ o ∧
    ∀ j, in_block p0 o j → ¬ pa_taken (palloc st) j;
  sm_bytes : ∀ y, 0 ≤ y < n * 4096 →
    fr' (p0 + y / 4096) (y mod 4096) = content image (data_start x) (read_size x) y;
  sm_frames : ∀ h b, pa_taken (palloc st) h → 0 ≤ b < 4096 → fr' h b = fr h b;
  sm_kept : heap_kept (palloc st) (palloc st') }.

(** Memory ran out: the frames are given back; [g] may keep pages of the
    section that designate them, and nothing else changed. *)
Record map_failed (f g vp n : Z) st (fr : Z → Z → Z) st' (fr' : Z → Z → Z) : Prop := {
  mf_ready : space_ready f g st';
  mf_pages : ∀ a b, 0 ≤ a < 1024 → 0 ≤ b < 1024 → ¬ vp ≤ a * 1024 + b < vp + n →
    page_entry (pmem st') g a b = page_entry (pmem st) g a b;
  mf_current : ∀ a b, 0 ≤ a < 1024 → 0 ≤ b < 1024 →
    page_entry (pmem st') f a b = page_entry (pmem st) f a b;
  mf_frames : ∀ h b, pa_taken (palloc st) h → 0 ≤ b < 4096 → fr' h b = fr h b;
  mf_kept : heap_kept (palloc st) (palloc st') }.

Lemma order_of_pages n o : 0 < n ≤ 768 * 1024 → size_to_order (n * 4096) = o → o ≤ 10 → n ≤ 2 ^ o.
Proof.
  intros Hn <- Ho. assert (DIV_ROUND_UP (n * 4096) PAGE_SIZE = n) as E.
  { unfold DIV_ROUND_UP. change PAGE_SIZE with 4096. rewrite !u32_small by (rewrite ?u32_small; unfold W32; lia).
    Z.div_mod_to_equations; lia. }
  destruct (size_to_order_loop_spec 11 0 (DIV_ROUND_UP (n * 4096) PAGE_SIZE)) as (_ & Hle & _); [lia..|].
  rewrite E in Hle. unfold size_to_order in *. rewrite E in *. auto.
Qed.

(** ** Giving back *)

Section Back.
Context (m0 : Z → Z) (f g vp p0 fl : Z) (s0 : S).
Context (Hbase : ∀ h, foot m0 f h ∨ foot m0 g h → pa_taken s0 h).
Notation linv_ := (linv m0 f g vp p0 fl s0).

Lemma wp_close_stream i strm (s : fstate S) (Q : unit → fstate S → Prop) : linv_ i (fs_vmm s) →
  ka_live (palloc (fs_vmm s)) (st_self strm) → ¬ ka_live s0 (st_self strm) →
  (∀ st, linv_ i st → pmem st = pmem (fs_vmm s) → Q tt (FState (fs_sys s) st (frames s) (strings s))) →
  wp (io_close (Some strm)) s Q.
Proof.
  intros Hl Hlive Hn HQ. destruct s as [sy st fr str]. cbn [fs_sys fs_vmm frames strings] in *.
  unfold io_close, fork_kfree. apply wp_on_vmm, wp_lift_pa. cbn [fs_vmm].
  eapply wp_mono; [apply kal_kfree; [apply Hl|done]|]. intros [] s' ([Hok Htk Hown] & _ & Hlv). cbn [fs_sys frames strings].
  apply HQ; [|done]. destruct (l_kept _ _ _ _ _ _ _ _ _ Hl) as [(_ & K1 & K2) K3].
  apply linv_palloc; [done|done|auto|]. split; [split_and!; auto|].
  intros a Ha. apply Hlv; [by intros ->|auto].
Qed.

Lemma wp_free_pool i o (s : fstate S) (Q : unit → fstate S → Prop) : linv_ i (fs_vmm s) →
  pa_owned (palloc (fs_vmm s)) p0 o → zone_of p0 = HIGHMEM_ZONE → (∀ j, in_block p0 o j → ¬ pa_taken s0 j) →
  (∀ st, linv_ i st → pmem st = pmem (fs_vmm s) → (∀ a, ka_live (palloc (fs_vmm s)) a → ka_live (palloc st) a) →
     Q tt (FState (fs_sys s) st (frames s) (strings s))) →
  wp (buddy_free (p0 * PAGE_SIZE)) s Q.
Proof.
  intros Hl Hown Hz Hfresh HQ. destruct s as [sy st fr str]. cbn [fs_sys fs_vmm frames strings] in *.
  unfold buddy_free. apply wp_on_vmm, wp_lift_pa. cbn [fs_vmm].
  eapply wp_mono; [apply wp_with_run, (pa_free_law _ p0 o); [apply Hl|done]|].
  intros [] s' [Erun (Hok & Htk & Hko)]. cbn [fs_sys frames strings].
  assert (∀ a, ka_live (palloc st) a → ka_live s' a) as Hlv by (intros a; exact (kal_free_live a _ _ _ _ Erun)).
  destruct (l_kept _ _ _ _ _ _ _ _ _ Hl) as [(_ & K1 & K2) K3]. apply HQ; [|done|done].
  assert (in_block p0 o p0) as Hin.
  { destruct (pa_owned_run _ _ _ Hown) as (? & _). unfold in_block. pose proof (Z.pow_pos_nonneg 2 o). lia. }
  apply linv_palloc; [done|done| |split; [split_and!; [done|..]|auto]].
  - intros t Ht Ho. apply Hko; [done|].
    destruct (pa_owned_apart _ _ _ _ _ Hown Ho) as [[= -> ->]|?]; [by apply highmem_frame in Hz|done].
  - intros j Hj. apply Htk. split; [auto|]. intros Hb. by apply (Hfresh j).
  - intros p o' Hpo. apply Hko; [auto|].
    destruct (pa_owned_apart _ _ _ _ _ Hown (K2 _ _ Hpo)) as [[= <- <-]|?]; [|done].
    exfalso. apply (Hfresh p0 Hin). by eapply pa_owned_taken.
Qed.

End Back.

(** ** The whole *)

Record section_ok (x : section) (vp n : Z) : Prop := {
  so_start : v_addr x = vp * 4096;
  so_mapping : mapping_size x = n * 4096;
  so_first : 0 ≤ vp;
  so_pages : 0 < n;
  so_user : vp + n ≤ 768 * 1024;
  so_flags : 0 ≤ sec_flags x < 4096 ∧ present (sec_flags x) = true;
  so_size : 0 ≤ data_size x < W32 }.

Definition with_frame (x : section) (p : Z) : section :=
  Section_ (v_addr x) p (data_start x) (data_size x) (mapping_size x) (sec_flags x).

Definition map_post (f g vp n sec : Z) (x : section) (s : fstate S) (ok : bool) (s' : fstate S) : Prop :=
  strings s' = strings s ∧
  if ok then ∃ p0 o, fs_sys s' = set_sections (λ m, <[sec := with_frame x (p0 * 4096)]> m) (fs_sys s) ∧
    section_mapped f g vp n x p0 o (fs_vmm s) (frames s) (fs_vmm s') (frames s')
  else fs_sys s' = fs_sys s ∧ map_failed f g vp n (fs_vmm s) (frames s) (fs_vmm s') (frames s').

Section Section_.
Context (f g vp n sec : Z) (x : section) (sy : sys) (st : vmm S) (fr : Z → Z → Z) (str : Z → list Z).
Context (Ex : sections sy sec = x) (Hsec : sec ≠ 0) (Hx : section_ok x vp n) (Hready : space_ready f g st).

(** The frames of the section have been taken. *)
Record pool_taken (p0 o : Z) (s1 : S) : Prop := {
  po_run : run_ok p0 o;
  po_zone : zone_of p0 = HIGHMEM_ZONE;
  po_room : n ≤ 2 ^ o;
  po_fresh : ∀ j, in_block p0 o j → ¬ pa_taken (palloc st) j;
  po_owned : pa_owned s1 p0 o;
  po_kept : heap_kept (palloc st) s1 }.

Lemma wp_pool (Q : Z → fstate S → Prop) : Q 0 (FState sy st fr str) →
  (∀ p0 o s1, pool_taken p0 o s1 → Q (p0 * 4096) (FState sy (Vmm (pmem st) s1 (cr3 st) (flushes st)) fr str)) →
  wp (buddy_alloc (n * 4096) HIGHMEM_ZONE) (FState sy st fr str) Q.
Proof.
  intros HQ0 HQ1. unfold buddy_alloc. apply wp_on_vmm, wp_lift_pa. cbn [fs_vmm].
  eapply wp_mono; [apply wp_with_run, pa_alloc_law; [apply Hready|done]|].
  intros r s1 [Erun [[-> ->]|(p0 & -> & Hrun & Hz & Hs & Hown & Hkeep & Hko)]]; cbn [fs_sys frames strings].
  { by destruct st. }
  change PAGE_SIZE with 4096. apply (HQ1 p0 (size_to_order (n * 4096))). split; try done.
  - eapply order_of_pages; [destruct Hx; lia|done|apply Hrun].
  - intros j Hj Htk. by apply (proj2 (Hkeep j Htk)).
  - split; [split_and!; [done| |done]; intros j Hj; by apply Hkeep|]. intros a. exact (kal_alloc_live a _ _ _ _ _ Erun).
Qed.

Lemma pool_range p0 o s1 : pool_taken p0 o s1 → 0 < p0 ∧ p0 + n ≤ MAX_PAGES ∧ ∀ h, p0 ≤ h < p0 + n → in_block p0 o h.
Proof. intros [(? & ? & ? & _) ? ? ? ? ?]. split_and!; [lia|lia|]. unfold in_block. lia. Qed.

(** Once the loop failed, with or without a stream. *)
Lemma linv_failed p0 o s1 k st' fr' : pool_taken p0 o s1 → k ≤ n → linv (pmem st) f g vp p0 (sec_flags x) (palloc st) k st' →
  present (entry (pmem st') f 1023) = false → outside_same p0 n fr fr' → map_failed f g vp n st fr st' fr'.
Proof.
  intros Hpo Hk Hl Hw Hout. destruct (pool_range _ _ _ Hpo) as (_ & _ & Hblk). split.
  - by eapply linv_ready.
  - intros a b Ha Hb Hne. rewrite (l_pages _ _ _ _ _ _ _ _ _ Hl) by done. cbn zeta. by rewrite decide_False by lia.
  - intros a b Ha Hb. eapply linv_current; [done|apply Hready|done| |done|done].
    intros i Hi Hp. by apply (pk_table _ _ (sr_f _ _ _ Hready)).
  - intros h b Htk Hb. apply Hout; [done|]. intros Hh. by apply (po_fresh _ _ _ Hpo h); [apply Hblk|].
  - apply Hl.
Qed.

Lemma linv_mapped p0 o s1 st' fr' : pool_taken p0 o s1 → linv (pmem st) f g vp p0 (sec_flags x) s1 n st' →
  present (entry (pmem st') f 1023) = false → filled image p0 x fr n fr' →
  section_mapped f g vp n x p0 o st fr st' fr'.
Proof.
  intros Hpo Hl Hw Hfill. destruct (pool_range _ _ _ Hpo) as (Hp0 & Hpm & Hblk). split.
  - by eapply linv_ready.
  - apply Hl.
  - intros a b Ha Hb. eapply linv_current; [done|apply Hready|done| |done|done].
    intros i Hi Hp. by apply (pk_table _ _ (sr_f _ _ _ Hready)).
  - destruct Hpo as [? ? ? ? Ho ?]. split_and!; [|done|done|done]. by apply Hl.
  - intros y Hy. rewrite Hfill by (apply Z.mod_pos_bound; lia).
    rewrite decide_True by (Z.div_mod_to_equations; lia). f_equal. Z.div_mod_to_equations; lia.
  - intros h b Htk Hb. rewrite Hfill by done. rewrite decide_False; [done|].
    intros Hh. by apply (po_fresh _ _ _ Hpo h); [apply Hblk|].
  - eapply heap_kept_trans; [apply Hpo|apply Hl].
Qed.

(** The stream, when the section has data. *)
Definition reader (s1 s2 : S) (stream : option io_stream) : Prop :=
  stream_ok sec x 0 stream ∧ heap_kept s1 s2 ∧
  ∀ strm, stream = Some strm → ka_live s2 (st_self strm) ∧ ¬ ka_live s1 (st_self strm).

Lemma wp_reader s1 (Q : option io_stream → fstate S → Prop) : pa_ok s1 →
  (∀ s2, has_data x = true → heap_kept s1 s2 → Q None (FState sy (Vmm (pmem st) s2 (cr3 st) (flushes st)) fr str)) →
  (∀ s2 stream, reader s1 s2 stream → Q stream (FState sy (Vmm (pmem st) s2 (cr3 st) (flushes st)) fr str)) →
  wp (if has_data x then section_create_reader sec else mret None)
    (FState sy (Vmm (pmem st) s1 (cr3 st) (flushes st)) fr str) Q.
Proof.
  intros Hok HQ0 HQ1. assert (heap_kept s1 s1) as Hrefl by (split; [split; [done|auto]|auto]).
  destruct (has_data x) eqn:Hd; [|apply wp_ret, HQ1; split_and!; done].
  destruct (has_data_true x (so_size _ _ _ Hx) Hd) as [Hds Hdz].
  unfold section_create_reader. rewrite (proj2 (Z.eqb_neq _ _) Hsec). apply wp_bind. unfold get_section.
  apply wp_on_sys, wp_gets. cbn [fs_sys fs_vmm frames strings]. rewrite Ex, (proj2 (Z.eqb_neq _ _) Hds), (proj2 (Z.eqb_neq (data_size x) 0)) by lia.
  cbn [orb]. apply wp_bind. unfold io_stream_get_new, fork_kmalloc. apply wp_bind, wp_on_vmm, wp_lift_pa. cbn [fs_vmm palloc].
  eapply wp_mono; [by apply kal_kmalloc|]. intros r s2 (Hstep & _ & Hlv & Hr). cbn [fs_sys frames strings].
  assert (heap_kept s1 s2) as Hk by (by apply heap_step_kept).
  destruct (Z.eqb_spec r 0) as [->|Hr0]; apply wp_ret; apply wp_ret; [by apply HQ0|].
  destruct Hr as [?|[Hn Hl]]; [done|]. apply HQ1. split_and!.
  - split; [done|]. split_and!; [done|done|]. cbn [st_pos]. lia.
  - done.
  - intros strm [= <-]. done.
Qed.

(** Leaving after a failure. *)
Lemma wp_bad p0 o s1 s2 stream k w (s : fstate S) : pool_taken p0 o s1 → reader s1 s2 stream ∨ (stream = None ∧ heap_kept s1 s2) →
  k ≤ n → linv (pmem st) f g vp p0 (sec_flags x) s2 k (fs_vmm s) → outside_same p0 n fr (frames s) →
  window_is f w (fs_vmm s) → fs_sys s = sy → strings s = str →
  wp (buddy_free (p0 * 4096) ;; io_close stream ;;
      (if w =? 0 then mret tt else on_vmm vmm_kunmap) ;; mret false) s
    (map_post f g vp n sec x (FState sy st fr str)).
Proof.
  intros Hpo Hrd Hk Hl Hout Hw Esy Estr. pose proof Hpo as [_ Hz _ Hfresh Hown Hk1].
  assert (heap_kept s1 s2) as Hk2 by (destruct Hrd as [(_ & ? & _)|[_ ?]]; done).
  assert (∀ h, foot (pmem st) f h ∨ foot (pmem st) g h → pa_taken (palloc st) h) as Hbase
    by (intros h; apply ready_base; done).
  assert (∀ st', linv (pmem st) f g vp p0 (sec_flags x) (palloc st) k st' → window_is f w st' →
    wp ((if w =? 0 then mret tt else on_vmm vmm_kunmap) ;; mret false) (FState sy st' (frames s) str)
      (map_post f g vp n sec x (FState sy st fr str))) as Hlast.
  { intros st' Hl' Hw'. apply wp_bind. unfold window_is in Hw'. destruct (w =? 0).
    - apply wp_ret, wp_ret. split; [done|]. split; [done|]. by eapply linv_failed.
    - apply wp_on_vmm. cbn [fs_vmm]. eapply wp_mono; [by apply (wp_unwindow _ _ _ _ _ _ _ _ _ Hl')|].
      intros [] st2 [Hl2 Hw2]. cbn [fs_sys frames strings]. apply wp_ret. split; [done|]. split; [done|]. by eapply linv_failed. }
  assert (linv (pmem st) f g vp p0 (sec_flags x) (palloc st) k (fs_vmm s)) as Hl0.
  { apply (linv_rebase _ _ _ _ _ _ _ s2); [done|]. by eapply heap_kept_trans. }
  apply wp_bind. change (p0 * 4096) with (p0 * PAGE_SIZE).
  apply (wp_free_pool (pmem st) f g vp p0 (sec_flags x) (palloc st) Hbase k o); [done| |done|done|].
  { apply Hl. by apply Hk2. }
  intros st1 Hl1 Em1 Hlv1. rewrite Esy, Estr. assert (window_is f w st1) as Hw1 by (unfold window_is; by rewrite Em1).
  apply wp_bind. destruct stream as [strm|]; [|apply wp_ret; by apply Hlast].
  destruct Hrd as [(_ & _ & Hlive)|[? _]]; [|done]. destruct (Hlive strm eq_refl) as [Hy Hn].
  apply (wp_close_stream (pmem st) f g vp p0 (sec_flags x) (palloc st) Hbase k); [done| | |].
  - apply Hlv1. by apply Hl.
  - intros Hs. apply Hn. by apply Hk1.
  - intros st2 Hl2 Em2. apply Hlast; [done|]. unfold window_is. rewrite Em2. exact Hw1.
Qed.

(** Leaving with the section mapped. *)
Lemma wp_good p0 o s1 s2 stream w (s : fstate S) : pool_taken p0 o s1 → reader s1 s2 stream →
  linv (pmem st) f g vp p0 (sec_flags x) s2 n (fs_vmm s) → filled image p0 x fr n (frames s) →
  w ≠ 0 → window_is f w (fs_vmm s) → fs_sys s = sy → strings s = str →
  wp (y ← get_section sec ;
      set_section sec (Section_ (v_addr y) (p0 * 4096) (data_start y) (data_size y) (mapping_size y) (sec_flags y)) ;;
      io_close stream ;; on_vmm vmm_kunmap ;; mret true) s
    (map_post f g vp n sec x (FState sy st fr str)).
Proof.
  intros Hpo (_ & Hk2 & Hlive) Hl Hfill Hw0 Hw Esy Estr. pose proof Hpo as [_ Hz _ Hfresh Hown Hk1].
  assert (∀ h, foot (pmem st) f h ∨ foot (pmem st) g h → pa_taken s1 h) as Hbase
    by (intros h Hh; apply Hk1; by eapply ready_base).
  destruct s as [sy' v fr' str']. cbn [fs_sys fs_vmm frames strings] in *. subst sy' str'.
  unfold window_is in Hw. rewrite (proj2 (Z.eqb_neq _ _) Hw0) in Hw.
  apply wp_bind. unfold get_section. apply wp_on_sys, wp_gets. cbn [fs_sys fs_vmm frames strings]. rewrite Ex.
  apply wp_bind. unfold set_section. apply wp_on_sys, wp_modify. cbn [fs_sys fs_vmm frames strings].
  assert (linv (pmem st) f g vp p0 (sec_flags x) s1 n v) as Hl0 by (by apply (linv_rebase _ _ _ _ _ _ _ s2)).
  assert (∀ st', linv (pmem st) f g vp p0 (sec_flags x) s1 n st' → present (entry (pmem st') f 1023) = true →
    wp (on_vmm vmm_kunmap ;; mret true)
      (FState (set_sections (λ m, <[sec := with_frame x (p0 * 4096)]> m) sy) st' fr' str)
      (map_post f g vp n sec x (FState sy st fr str))) as Hlast.
  { intros st' Hl' Hw'. apply wp_bind, wp_on_vmm. cbn [fs_vmm].
    eapply wp_mono; [by apply (wp_unwindow _ _ _ _ _ _ _ _ _ Hl')|].
    intros [] st2 [Hl2 Hw2]. cbn [fs_sys frames strings]. apply wp_ret. split; [done|]. exists p0, o. split; [done|].
    by eapply linv_mapped. }
  apply wp_bind. destruct stream as [strm|]; [|apply wp_ret; by apply Hlast].
  destruct (Hlive strm eq_refl) as [Hy Hn].
  apply (wp_close_stream (pmem st) f g vp p0 (sec_flags x) s1 Hbase n); [done|by apply Hl|done|].
  intros st2 Hl2 Em2. apply Hlast; [done|]. by rewrite Em2.
Qed.

Lemma wp_map_section :
  wp (map_section image (g * 4096) sec) (FState sy st fr str) (map_post f g vp n sec x (FState sy st fr str)).
Proof.
  pose proof Hx as [Hva Hms Hvp Hn Hlim [Hfl Hpr] Hsz].
  unfold map_section. apply wp_bind. unfold get_section. apply wp_on_sys, wp_gets. cbn [fs_sys fs_vmm frames strings].
  rewrite Ex, Hms, (proj2 (Z.eqb_neq _ _) Hsec), (proj2 (Z.eqb_neq (n * 4096) 0)) by lia. cbn [orb]. apply wp_bind.
  fold (has_data x). apply wp_pool.
  { cbn. apply wp_ret. split; [done|]. split; [done|]. split; try done.
    split; [|auto]. split; [apply Hready|auto]. }
  intros p0 o s1 Hpo. destruct (pool_range _ _ _ Hpo) as (Hp0 & Hpm & Hblk). pose proof (po_kept _ _ _ Hpo) as Hk1.
  rewrite (proj2 (Z.eqb_neq (p0 * 4096) 0)) by lia. cbn zeta.
  assert (∀ s2, heap_kept s1 s2 → space_ready f g (Vmm (pmem st) s2 (cr3 st) (flushes st))) as Hrd2.
  { intros s2 Hk2. apply ready_heap; [done|]. by eapply heap_kept_trans. }
  apply wp_bind. apply wp_reader; [apply Hk1| |].
  - intros s2 Hd Hk2. rewrite Hd. apply (wp_bad p0 o s1 s2 None 0 0); try done; try lia.
    + right. done.
    + apply (linv_start f g vp p0 (sec_flags x) (Vmm (pmem st) s2 (cr3 st) (flushes st))). auto.
    + apply Hready.
  - intros s2 stream Hrd. pose proof Hrd as (Hst & Hk2 & _). set (st2 := Vmm _ s2 _ _).
    assert (wp ('(ok, window) ← map_pages image (Z.to_nat (n * 4096 / PAGE_SIZE)) 0 (g * 4096) sec (p0 * 4096) stream 0 ;
      if negb ok then buddy_free (p0 * 4096) ;; io_close stream ;;
        (if window =? 0 then mret tt else on_vmm vmm_kunmap) ;; mret false
      else y ← get_section sec ;
        set_section sec (Section_ (v_addr y) (p0 * 4096) (data_start y) (data_size y) (mapping_size y) (sec_flags y)) ;;
        io_close stream ;; on_vmm vmm_kunmap ;; mret true) (FState sy st2 fr str)
      (map_post f g vp n sec x (FState sy st fr str))) as Hgo;
      [|destruct stream; [destruct (has_data x); exact Hgo|]; rewrite (Hst : has_data x = false); exact Hgo].
    change PAGE_SIZE with 4096. rewrite Z.div_mul by lia. apply wp_bind.
    eapply wp_mono; [apply (wp_map_pages image (pmem st) f g vp p0 n sec x s2 fr); try done; try lia|].
    + apply Hready.
    + intros h Hh. apply Hk2, Hk1. by eapply ready_base.
    + apply (linv_start f g vp p0 (sec_flags x) st2). by apply Hrd2.
    + intros h b Hb. by rewrite decide_False by lia.
    + apply Hready.
    + rewrite Z.add_0_l, Z2Nat.id by lia. intros [[] w] s' (Esy & Estr & Hpost); cbn [fst snd negb] in *.
      * destruct Hpost as (Hl & Hfill & Hw & Hw0). by apply (wp_good p0 o s1 s2 stream w); auto.
      * destruct Hpost as (k & Hk & Hl & Hout & Hw). apply (wp_bad p0 o s1 s2 stream k); try done. by left.
Qed.

End Section_.


End Map.
