(* ===== verification/LoaderLayout.v ===== *)
(** * Loading programs: where the sections of a task go *)

From S2P Require Import Prelude Dlist Memory Page Buddy PageAlloc Vmm VmmThm Vma VmaInv Task SchedInv Process Fork ForkSpace ForkChild.
From S2P Require Import Loader LoaderInv LoaderThm LoaderMap.

(** The number of pages of [size] bytes. *)
Definition pages_of (size : Z) : Z := (size + 4095) / 4096.

Lemma ALIGN_PAGE x : 0 ≤ x → x + 4095 < W32 → ALIGN x PAGE_SIZE = pages_of x * 4096.
Proof.
  intros Hx Hr. change PAGE_SIZE with (2 ^ 12). rewrite ALIGN_pow2 by (change (2 ^ 12) with 4096; lia).
  change (2 ^ 12) with 4096. unfold pages_of. Z.div_mod_to_equations; lia.
Qed.

Lemma ALIGN_DOWN_PAGE x : 0 ≤ x < W32 → ALIGN_DOWN x PAGE_SIZE = x / 4096 * 4096.
Proof.
  intros Hx. change PAGE_SIZE with (2 ^ 12). rewrite ALIGN_DOWN_pow2 by lia.
  change (2 ^ 12) with 4096. Z.div_mod_to_equations; lia.
Qed.

Lemma ALIGN_page_multiple k : 0 ≤ k → k * 4096 + 4095 < W32 → ALIGN (k * 4096) PAGE_SIZE = k * 4096.
Proof. intros Hk Hr. rewrite ALIGN_PAGE by lia. unfold pages_of. Z.div_mod_to_equations; lia. Qed.

(** The first page of the stack and of its guard. *)
Definition STACK_PAGE : Z := 786428.

Lemma stack_section_pages : section_ok stack_section STACK_PAGE 2 ∧ read_size stack_section = 0 ∧
  (STACK_PAGE + 2) * 4096 = USER_STACK_START ∧ USER_STACK_START + 4096 = USER_TRAMPOLINE_VADDR.
Proof. split_and!; [split; vm_compute; intuition congruence|done|done|done]. Qed.

(** The page the text starts in. *)
Definition text_page (x : section) : Z := if v_addr x =? 0 then USER_TEXT_START / 4096 else v_addr x / 4096.

Definition placed_text (x : section) : section :=
  Section_ (text_page x * 4096) (p_addr x) (data_start x) (data_size x) (pages_of (data_size x) * 4096) USER_SECTION_RO.

Definition placed_data (vp : Z) (y : section) : section :=
  Section_ (vp * 4096) (p_addr y) (data_start y) (data_size y) (pages_of (data_size y) * 4096) USER_SECTION_RW.

Lemma placed_text_ok x : 0 < data_size x < W32 → 0 ≤ v_addr x < W32 →
  text_page x + pages_of (data_size x) ≤ 768 * 1024 → section_ok (placed_text x) (text_page x) (pages_of (data_size x)).
Proof.
  intros Hd Hv Hlim. assert (0 ≤ text_page x).
  { unfold text_page. destruct (v_addr x =? 0); [done|]. apply Z.div_pos; lia. }
  split; try done; cbn [data_size placed_text]; [unfold pages_of; Z.div_mod_to_equations; lia|lia].
Qed.

Lemma placed_data_ok vp y : 0 < data_size y < W32 → 0 ≤ vp → vp + pages_of (data_size y) ≤ 768 * 1024 →
  section_ok (placed_data vp y) vp (pages_of (data_size y)).
Proof.
  intros Hd Hv Hlim. split; try done; cbn [data_size placed_data]; [unfold pages_of; Z.div_mod_to_equations; lia|lia].
Qed.

Lemma insert_decide {A} (m : Z → A) k (v : A) a : (<[k := v]> m) a = if decide (a = k) then v else m a.
Proof. case_decide; [subst; by rewrite fn_lookup_insert|by rewrite fn_lookup_insert_ne]. Qed.

Section Layout.
Context {S : Type} `{KernelAllocator S}.

Lemma wp_get_section a (s : fstate S) (Q : section → fstate S → Prop) : Q (sections (fs_sys s) a) s → wp (get_section a) s Q.
Proof. intros HQ. unfold get_section. apply wp_on_sys, wp_gets. by destruct s. Qed.

Lemma wp_set_section a x (s : fstate S) (Q : unit → fstate S → Prop) :
  Q tt (FState (set_sections (λ m, <[a := x]> m) (fs_sys s)) (fs_vmm s) (frames s) (strings s)) → wp (set_section a x) s Q.
Proof. intros HQ. unfold set_section. by apply wp_on_sys, wp_modify. Qed.

Lemma wp_fld_f t fd (s : fstate S) (Q : Z → fstate S → Prop) : t ≠ 0 → Q (tasks (fs_sys s) t fd) s → wp (on_sys (fld t fd)) s Q.
Proof. intros Ht HQ. apply wp_on_sys, wp_fld; [done|]. by destruct s. Qed.

Definition some_data (y : section) : bool := 0 <? data_size y.

(** The pages of the data, none when there is no data. *)
Definition data_pages (y : section) : Z := if some_data y then pages_of (data_size y) else 0.

Lemma pages_of_range size : 0 ≤ size < W32 → 0 ≤ pages_of size ≤ 1048576 ∧ (0 < size → 0 < pages_of size) ∧
  size ≤ pages_of size * 4096 < size + 4096.
Proof. unfold pages_of, W32. intros. Z.div_mod_to_equations; lia. Qed.

Lemma text_start x : 0 ≤ v_addr x < KERNEL_START →
  (if v_addr x =? 0 then USER_TEXT_START
   else if negb (IS_ALIGNED (v_addr x) PAGE_SIZE) then ALIGN_DOWN (v_addr x) PAGE_SIZE else v_addr x) = text_page x * 4096 ∧
  0 ≤ text_page x.
Proof.
  unfold KERNEL_START, KERNEL_VADDR_BASE. intros Hv. unfold text_page. destruct (Z.eqb_spec (v_addr x) 0); [done|].
  split; [|apply Z.div_pos; lia]. unfold IS_ALIGNED. rewrite ALIGN_PAGE by (unfold W32; lia).
  destruct (Z.eqb_spec (pages_of (v_addr x) * 4096) (v_addr x)) as [E|_]; cbn [negb].
  - unfold pages_of in E. Z.div_mod_to_equations; lia.
  - apply ALIGN_DOWN_PAGE. unfold W32. lia.
Qed.

(** *** The steps of [place_sections] *)

Section Place.
Context (t : Z) (sy : sys) (v : vmm S) (fr : Z → Z → Z) (str : Z → list Z).

Let text := tasks sy t text_sec.
Let data := tasks sy t data_sec.
Let heap := tasks sy t heap_sec.
Let stack := tasks sy t stack_sec.
Let x := sections sy text.
Let y := sections sy data.
Let tp := text_page x.
Let dp := tp + pages_of (data_size x).
Let hp := dp + data_pages y + 1.

Context (Ht : t ≠ 0) (Hnd : NoDup [0; text; data; heap; stack]).
Context (Hv : 0 ≤ v_addr x < KERNEL_START) (Hdx : 0 < data_size x < W32 - 4096) (Hdy : 0 ≤ data_size y < W32 - 4096).
Context (Hvy : v_addr y = 0) (Hhp : hp ≤ STACK_PAGE).

Let m1 := <[text := placed_text x]> (sections sy).
Let m2 := if some_data y then <[data := placed_data dp y]> m1 else m1.
Let m4 := <[stack := stack_section]> (<[heap := Section_ (hp * 4096) 0 0 0 0 USER_SECTION_RW]> m2).

Lemma place_pages : 0 ≤ tp ∧ 0 < pages_of (data_size x) ∧ 0 ≤ data_pages y ∧
  tp + pages_of (data_size x) + data_pages y < 786428 ∧
  (some_data y = true → 0 < data_size y ∧ data_pages y = pages_of (data_size y)).
Proof.
  destruct (text_start x Hv) as [_ ?]. destruct (pages_of_range (data_size x)) as (? & ? & ?); [lia|].
  destruct (pages_of_range (data_size y)) as (? & ? & ?); [lia|].
  assert (0 ≤ data_pages y) by (unfold data_pages; destruct (some_data y); lia).
  split_and!; try lia; [unfold hp, dp, STACK_PAGE in Hhp; lia|].
  intros E. unfold data_pages. rewrite E. split; [by apply Z.ltb_lt|done].
Qed.

Lemma wp_place_data (Q : unit → fstate S → Prop) : Q tt (FState (set_sections (λ _, m2) sy) v fr str) →
  wp (if some_data y then set_section data (Section_
        (get_next_section_start (v_addr (placed_text x)) (mapping_size (placed_text x))) (p_addr y) (data_start y) (data_size y)
        (ALIGN (data_size y) PAGE_SIZE) USER_SECTION_RW) else mret tt)
    (FState (set_sections (λ m, <[text := placed_text x]> m) sy) v fr str) Q.
Proof.
  intros HQ. unfold m2 in HQ. destruct place_pages as (? & ? & ? & ? & _). destruct (some_data y) eqn:Esd; [|by apply wp_ret].
  unfold get_next_section_start. cbn [v_addr mapping_size placed_text].
  rewrite (u32_small (text_page x * 4096 + _)) by (fold tp; unfold W32; lia).
  rewrite <- Z.mul_add_distr_r. rewrite ALIGN_page_multiple by (fold tp; unfold W32; lia).
  rewrite ALIGN_PAGE by (unfold W32 in *; lia). by apply wp_set_section.
Qed.

Lemma heap_place : heap_section (m2 (if some_data y then data else text)) = Section_ (hp * 4096) 0 0 0 0 USER_SECTION_RW.
Proof.
  destruct place_pages as (? & ? & ? & ? & Hd). unfold heap_section, m2, m1, get_next_section_start_after_page_guard.
  destruct (some_data y) eqn:Esd; rewrite fn_lookup_insert; cbn [v_addr mapping_size placed_data placed_text];
    change PAGE_SIZE with 4096; f_equal; fold tp; rewrite (u32_small (_ * 4096 + 4096)), u32_small by (unfold dp, W32; lia).
  - replace (dp * 4096 + _) with (hp * 4096) by (unfold hp; lia). apply ALIGN_page_multiple; unfold hp, dp, W32; lia.
  - assert (data_pages y = 0) by (unfold data_pages; by rewrite Esd).
    replace (tp * 4096 + _) with (hp * 4096) by (unfold hp, dp; lia). apply ALIGN_page_multiple; unfold hp, dp, W32; lia.
Qed.

Lemma place_run : place_sections t (FState sy v fr str) = Done (true, FState (set_sections (λ _, m4) sy) v fr str).
Proof.
  apply NoDup_cons in Hnd as [N0 N1]. apply NoDup_cons in N1 as [N1 _].
  assert (text ≠ 0 ∧ data ≠ 0 ∧ text ≠ data) as (M0 & M1 & M2) by set_solver.
  destruct (text_start x Hv) as [Etext _].
  assert (wp (place_sections t) (FState sy v fr str) (λ ok s', ok = true ∧ s' = FState (set_sections (λ _, m4) sy) v fr str))
    as (ok & s' & E & -> & ->)%wp_run; [|done].
  unfold place_sections. apply wp_bind, wp_fld_f; [done|]. apply wp_bind, wp_fld_f; [done|]. cbn [fs_sys]. fold text data.
  apply wp_bind, wp_get_section. cbn [fs_sys]. fold x.
  rewrite (proj2 (Z.eqb_neq text 0)), (proj2 (Z.eqb_neq (data_size x) 0)), (proj2 (Z.leb_gt KERNEL_START (v_addr x))) by lia.
  cbn [orb]. cbn zeta. rewrite Etext, ALIGN_PAGE by (unfold W32 in *; lia). fold (placed_text x).
  apply wp_bind, wp_set_section. cbn [fs_sys fs_vmm frames strings]. apply wp_bind, wp_get_section. cbn [fs_sys sections set_sections].
  rewrite fn_lookup_insert_ne by done. fold y. rewrite Hvy, Z.eqb_refl, (proj2 (Z.eqb_neq data 0)) by done. cbn [negb andb].
  fold (some_data y). rewrite andb_false_r. cbn [andb].
  apply wp_bind, wp_place_data. apply wp_bind, wp_get_section. cbn [fs_sys sections set_sections].
  apply wp_bind, wp_fld_f; [done|]. cbn [fs_sys tasks set_sections]. fold heap. rewrite heap_place.
  apply wp_bind, wp_set_section. cbn [fs_sys fs_vmm frames strings]. apply wp_bind, wp_fld_f; [done|].
  cbn [fs_sys tasks set_sections]. fold stack. apply wp_bind, wp_set_section. by apply wp_ret.
Qed.

Lemma place_result a : m4 a = if decide (a = stack) then stack_section
  else if decide (a = heap) then Section_ (hp * 4096) 0 0 0 0 USER_SECTION_RW
  else if decide (a = data ∧ some_data y = true) then placed_data dp y
  else if decide (a = text) then placed_text x else sections sy a.
Proof using t sy.
  clear Ht Hnd Hv Hdx Hdy Hvy Hhp v fr str. unfold m4, m2, m1. destruct (some_data y); rewrite ?insert_decide; repeat case_decide; try done; exfalso; naive_solver.
Qed.

End Place.

(** The layout of a program.  When text and data fit below the stack,
    [place_sections] succeeds: the text is at its address rounded down to a
    page (or at the default one), read-only; the data follow it, writable;
    the heap is after the data and one guard page; the stack ends one guard
    page below the signal trampoline; each is whole pages, in the user half,
    and no two overlap.  Nothing but those four sections changes. *)
Theorem place_sections_correct t (s : fstate S) :
  let sy := fs_sys s in
  let text := tasks sy t text_sec in let data := tasks sy t data_sec in
  let heap := tasks sy t heap_sec in let stack := tasks sy t stack_sec in
  let x := sections sy text in let y := sections sy data in
  let tp := text_page x in let dp := tp + pages_of (data_size x) in let hp := dp + data_pages y + 1 in
  t ≠ 0 → NoDup [0; text; data; heap; stack] →
  0 ≤ v_addr x < KERNEL_START → 0 < data_size x < W32 - 4096 → 0 ≤ data_size y < W32 - 4096 →
  v_addr y = 0 → hp ≤ STACK_PAGE →
  ∃ m, place_sections t s = Done (true, FState (set_sections (λ _, m) sy) (fs_vmm s) (frames s) (strings s)) ∧
    m text = placed_text x ∧ section_ok (placed_text x) tp (pages_of (data_size x)) ∧
    (if some_data y then m data = placed_data dp y ∧ section_ok (placed_data dp y) dp (data_pages y)
     else m data = y) ∧
    m heap = Section_ (hp * 4096) 0 0 0 0 USER_SECTION_RW ∧
    m stack = stack_section ∧ section_ok stack_section STACK_PAGE 2 ∧
    (STACK_PAGE + 3) * 4096 = USER_TRAMPOLINE_VADDR ∧
    ∀ a, a ∉ [text; data; heap; stack] → m a = sections sy a.
Proof.
  intros sy text data heap stack x y tp dp hp Ht Hnd Hv Hdx Hdy Hvy Hhp.
  destruct s as [sy0 v fr str]. cbn [fs_sys fs_vmm frames strings] in *. subst sy. rename sy0 into sy.
  eexists. split; [by apply place_run|].
  pose proof (place_result t sy) as Hm. cbn zeta in Hm. fold text data heap stack in Hm. fold x y in Hm. fold tp dp hp in Hm.
  pose proof (place_pages t sy Hv Hdx Hdy Hhp) as (P0 & P1 & P2 & P3 & P4). fold text data in P0, P1, P2, P3, P4. fold x y in P0, P1, P2, P3, P4. fold tp in P0, P3.
  rewrite !NoDup_cons in Hnd. destruct Hnd as (N0 & N1 & N2 & N3 & _).
  assert (text ≠ data ∧ text ≠ heap ∧ text ≠ stack ∧ data ≠ heap ∧ data ≠ stack ∧ heap ≠ stack)
    as (M2 & M3 & M4 & M5 & M6 & M7) by set_solver.
  split_and!.
  - rewrite Hm. rewrite !decide_False by (first [congruence|intros [? ?]; congruence]). by rewrite decide_True.
  - unfold hp, dp, STACK_PAGE in Hhp. apply placed_text_ok; [lia|unfold KERNEL_START, KERNEL_VADDR_BASE, W32 in *; lia|fold tp; lia].
  - rewrite Hm. rewrite (decide_False (P := data = stack)), (decide_False (P := data = heap)) by congruence.
    destruct (decide (data = data ∧ some_data y = true)) as [[_ E]|Hn].
    + rewrite E. destruct (P4 E) as [Hpos Epg]. split; [done|].
      rewrite Epg. apply placed_data_ok; unfold dp, W32 in *; lia.
    + assert (some_data y = false) as -> by (destruct (some_data y); [exfalso; auto|done]).
      by rewrite decide_False by congruence.
  - rewrite Hm. rewrite decide_False by (first [congruence|intros [? ?]; congruence]). by rewrite decide_True.
  - rewrite Hm. by rewrite decide_True.
  - apply stack_section_pages.
  - reflexivity.
  - intros a Ha. rewrite Hm. rewrite !decide_False by set_solver. done.
Qed.

End Layout.
