(* ===== verification/Usercopy.v ===== *)
(** * Copies between the kernel and user memory (src/memory/usercopy.c,
    src/syscalls/write.c)

    The kernel's buffer is a list of bytes; user memory is what the MMU makes
    of the frames (Fork). *)

From S2P Require Import Prelude Errno Dlist Memory Page Buddy PageAlloc Vmm VmmThm Vma Slab Task SchedInv Fork ForkSpace ForkChild.

(** ** Operations *)

Definition access_ok (ptr size : Z) : bool :=
  let end_ := ptr ⊞ size in
  negb ((end_ <? ptr) || (KERNEL_VADDR_BASE <? end_)).

Section Usercopy.
Context {S : Type} `{KernelAllocator S}.

(** [ft_memcpy] from user memory, byte by byte. *)
Fixpoint read_user (n : nat) (a : Z) : M (fstate S) (list Z) :=
  match n with
  | O => mret []
  | Datatypes.S n =>
      d ← mmu a ;
      b ← gets (λ s, frames s (d / PAGE_SIZE) (d mod PAGE_SIZE)) ;
      l ← read_user n (a ⊞ 1) ;
      mret (b :: l)
  end.

(** [ft_memcpy] to user memory. *)
Fixpoint write_user (l : list Z) (a : Z) : M (fstate S) unit :=
  match l with
  | [] => mret tt
  | b :: l =>
      d ← mmu a ;
      modify (λ s, FState (fs_sys s) (fs_vmm s)
        (<[d / PAGE_SIZE := <[d mod PAGE_SIZE := b]> (frames s (d / PAGE_SIZE))]> (frames s)) (strings s)) ;;
      write_user l (a ⊞ 1)
  end.

(** The checks of [usercopy]; 0 when the copy may be made. *)
Definition usercopy_check (user_buf n : Z) (copy_into_kbuf : bool) : M (fstate S) Z :=
  if negb (access_ok user_buf n) then mret n
  else
    current ← on_sys task_get_current_task ;
    pd ← on_sys (fld current cr3_) ;
    pd_virt ← PHYS_TO_VIRT_LINEAR pd ;
    let flags := if copy_into_kbuf then PDE_US_BIT else Z.lor PDE_US_BIT PDE_RW_BIT in
    r ← on_vmm (vmm_verify_range_flags pd_virt user_buf n flags flags) ;
    mret (u32 r).

Definition copy_from_user (from n : Z) : M (fstate S) (Z * list Z) :=
  r ← usercopy_check from n true ;
  if r =? 0 then l ← read_user (Z.to_nat n) from ; mret (0, l) else mret (r, []).

Definition copy_to_user (to : Z) (buf : list Z) : M (fstate S) Z :=
  r ← usercopy_check to (Z.of_nat (length buf)) false ;
  if r =? 0 then write_user buf to ;; mret 0 else mret r.

(** The characters [vga_printf] prints for [%s]. *)
Fixpoint c_string (l : list Z) : list Z :=
  match l with
  | [] => []
  | c :: l => if c =? 0 then [] else c :: c_string l
  end.

(** [write]: its result and what it prints. *)
Definition sys_write (fd str size : Z) : M (fstate S) (Z * list Z) :=
  if MAX_KMALLOC_SIZE <=? size then mret (- EINVAL, [])
  else
    dup ← fork_kmalloc (size + 1) __GFP_KERNEL ;
    if dup =? 0 then mret (- ENOMEM, [])
    else
      '(r, l) ← copy_from_user str size ;
      if negb (r =? 0) then fork_kfree dup ;; mret (- EFAULT, [])
      else fork_kfree dup ;; mret (s32 size, c_string l).

End Usercopy.

(** ** Properties *)

Section Properties.
Context {S : Type} `{KernelAllocator S} `{!PageAllocatorLaws S}.

(** Every page of [[a, a + n)] is user memory, writable when [wr] says so. *)
Definition user_range (m : Z → Z) (f a n : Z) (wr : bool) : Prop :=
  a + n ≤ KERNEL_VADDR_BASE ∧
  ∀ q, a / 4096 ≤ q → q * 4096 < a + n →
    page_allows m f (if wr then 7 else 5) (if wr then 7 else 5) q.

Lemma access_ok_iff a n : 0 ≤ a < W32 → 0 ≤ n < W32 → access_ok a n = true ↔ a + n ≤ KERNEL_VADDR_BASE.
Proof.
  intros Ha Hn. unfold access_ok. assert (KERNEL_VADDR_BASE < W32) by reflexivity.
  destruct (decide (a + n < W32)).
  - rewrite u32_small by lia. destruct (Z.ltb_spec (a + n) a); [lia|]. cbn [orb negb].
    destruct (Z.ltb_spec KERNEL_VADDR_BASE (a + n)); split; done || lia.
  - assert (a ⊞ n = a + n - W32) as -> by (unfold u32, W32 in *; Z.div_mod_to_equations; lia).
    destruct (Z.ltb_spec (a + n - W32) a); [|lia]. cbn [orb negb]. split; [done|lia].
Qed.

Lemma has_flags_weaken e : has_flags e 7 = true → has_flags e 5 = true.
Proof.
  unfold has_flags. rewrite !Z.eqb_eq. intros E. change 5 with (Z.land 7 5) at 1. rewrite Z.land_assoc, E. done.
Qed.

(** Pages that allow user access are mapped. *)
Lemma allows_translate (st : vmm S) f pf q v : pd_ok st f → page_allows (pmem st) f (Z.lor pf 1) (Z.lor pf 1) q →
  0 ≤ v < W32 → v / 4096 = q →
  ∃ e, e = entry (pmem st) (table (pmem st) f (GET_PDE_INDEX v)) (GET_PTE_INDEX v) ∧ 0 ≤ e < W32 ∧
    present e = true ∧ translate (pmem st) (f * 4096) v = e / 4096 * 4096 + v mod 4096.
Proof.
  intros Hok [A1 A2] Hv Eq. destruct (index_range v Hv) as [Hi Hj].
  assert (GET_PDE_INDEX v = q / 1024 ∧ GET_PTE_INDEX v = q mod 1024) as [E1 E2].
  { unfold GET_PDE_INDEX, GET_PTE_INDEX. change 1023 with (Z.ones 10). rewrite Z.land_ones, !Z.shiftr_div_pow2 by lia.
    change (2 ^ 22) with 4194304. change (2 ^ 12) with 4096. change (2 ^ 10) with 1024. Z.div_mod_to_equations; lia. }
  rewrite <- E1, <- E2 in *. apply has_flags_present in A1, A2.
  pose proof (VmmThm.pk_pte _ _ Hok _ _ Hi Hj A1) as Hr. eexists. split_and!; [done|apply Hr|apply Hr|done|].
  rewrite translate_unfold by done. rewrite A1. cbn zeta. rewrite A2, entry_addr by done.
  change 4095 with (Z.ones 12). rewrite Z.land_ones by lia. change (2 ^ 12) with 4096.
  rewrite u32_small; unfold W32 in *; Z.div_mod_to_equations; lia.
Qed.

(** No page of the directory is mapped to frame 0. *)
Definition no_frame_0 (st : vmm S) (f : Z) : Prop := ∀ i j, 0 ≤ i < 1024 → 0 ≤ j < 1024 →
  present (entry (pmem st) f i) = true → present (entry (pmem st) (table (pmem st) f i) j) = true →
  0 < entry (pmem st) (table (pmem st) f i) j / 4096.

Section Space.
Context (s : fstate S) (f : Z).
Let st := fs_vmm s.
Let x := fs_sys s.
Context (Hok : pd_ok st f) (Hcr3 : cr3 st = f * 4096) (H0 : no_frame_0 st f).
Context (Hcur : current_task x ≠ 0) (Hpd : tasks x (current_task x) cr3_ = f * 4096).

Lemma wp_usercopy_check a n into : 0 ≤ a < W32 → 0 ≤ n < W32 →
  wp (usercopy_check a n into) s (λ r s', s' = s ∧ (r = 0 ↔ n = 0 ∨ user_range (pmem st) f a n (negb into))).
Proof.
  intros Ha Hn. pose proof (access_ok_iff a n Ha Hn) as Hacc. unfold usercopy_check, user_range.
  assert (KERNEL_VADDR_BASE = 3221225472) as EK by reflexivity.
  destruct (access_ok a n); cbn [negb].
  2: { apply wp_ret. split; [done|]. split; [tauto|]. intros [?|[Hc _]]; [done|]. apply Hacc in Hc. done. }
  specialize (proj1 Hacc eq_refl) as Hle. clear Hacc. subst st x. destruct s as [x st fr str]. cbn [fs_sys fs_vmm] in *.
  apply wp_bind, wp_on_sys, wp_gets. cbn [fs_sys fs_vmm frames strings]. apply wp_bind, wp_on_sys, wp_fld; [done|].
  cbn [fs_sys fs_vmm frames strings]. rewrite Hpd. pose proof (VmmThm.pk_frame _ _ Hok) as Hf.
  apply wp_bind, wp_lin_f; [unfold low_frame in Hf; lia|]. apply wp_bind, wp_on_vmm. cbn [fs_vmm].
  destruct (decide (n = 0)) as [->|Hn0].
  { apply wp_ret. cbn [fs_sys frames strings]. apply wp_ret. split; [done|]. split; [auto|done]. }
  apply wp_run. set (fl := if into then PDE_US_BIT else Z.lor PDE_US_BIT PDE_RW_BIT).
  destruct (verify_range_run st f a n fl fl Hok) as (r & E & H01 & Hiff); [lia|lia|unfold W32; lia|unfold W32; lia|].
  exists r, st. split; [done|]. cbn [fs_sys frames strings]. apply wp_ret. split; [done|].
  assert (Z.lor fl 1 = if negb into then 7 else 5) as Efl by (unfold fl; by destruct into). rewrite Efl in Hiff.
  assert (u32 r = 0 ↔ r = 0) as -> by (destruct H01 as [-> | ->]; done). rewrite Hiff. split.
  - intros Hall. right. split; [done|]. intros q Hq Hlt. apply Hall. split; [done|].
    apply Z.div_le_lower_bound; lia.
  - intros [?|[_ Hall]]; [done|]. intros q [Hq Hlt]. apply Hall; [done|].
    pose proof (Z.mul_div_le (a + n - 1) 4096). lia.
Qed.

(** The physical address behind a user address, and the byte there. *)
Definition phys (v : Z) : Z := translate (pmem st) (f * 4096) v.

Definition byte_at (fr : Z → Z → Z) (v : Z) : Z := fr (phys v / 4096) (phys v mod 4096).

Lemma user_range_phys a n wr v : user_range (pmem st) f a n wr → 0 ≤ a → a ≤ v < a + n → 0 < phys v ∧ 0 ≤ v < W32.
Proof.
  intros [Hle Hall] Ha Hv. assert (KERNEL_VADDR_BASE = 3221225472) as EK by reflexivity.
  assert (0 ≤ v < W32) as Hw by (unfold W32; lia). split; [|done].
  assert (page_allows (pmem st) f (if wr then 7 else 5) (if wr then 7 else 5) (v / 4096)) as Hpa
    by (apply Hall; [apply Z.div_le_mono; lia|pose proof (Z.mul_div_le v 4096); lia]).
  destruct (allows_translate st f (if wr then 7 else 5) (v / 4096) v Hok) as (e & Ee & Hr & Hp & Et); [|done|done|].
  { by destruct wr. }
  unfold phys. rewrite Et. assert (0 < e / 4096); [|pose proof (Z.mod_pos_bound v 4096); lia].
  destruct (index_range v Hw) as [Hi Hj]. subst e. apply H0; [done|done| |done].
  destruct Hpa as [A1 _]. assert (GET_PDE_INDEX v = v / 4096 / 1024) as ->.
  { unfold GET_PDE_INDEX. rewrite Z.shiftr_div_pow2 by lia. change (2 ^ 22) with (4096 * 1024). by rewrite Z.div_div by lia. }
  apply (has_flags_present _ (if wr then 7 else 5)). by destruct wr.
Qed.

Lemma wp_mmu v fr (Q : Z → fstate S → Prop) : 0 < phys v → 0 ≤ v < W32 →
  Q (phys v) (FState x st fr (strings s)) → wp (mmu v) (FState x st fr (strings s)) Q.
Proof. intros Hp Hv HQ. by eapply (mmu_run f x st fr); [..|exact HQ]; try done; lia. Qed.

Lemma wp_read_user n fr : ∀ a, (∀ v, a ≤ v < a + Z.of_nat n → 0 < phys v ∧ 0 ≤ v < W32) → a + Z.of_nat n < W32 →
  wp (read_user n a) (FState x st fr (strings s)) (λ l s',
    l = map (byte_at fr) (seqZ a (Z.of_nat n)) ∧ s' = FState x st fr (strings s)).
Proof.
  induction n as [|n IH]; intros a Ha Hlim; cbn [read_user]; [by apply wp_ret|].
  destruct (Ha a) as [Hp Hv]; [lia|]. apply wp_bind, wp_mmu; [done|done|]. apply wp_bind, wp_gets. cbn [frames].
  rewrite u32_small by lia. apply wp_bind. eapply wp_mono; [apply IH; [intros v Hv'; apply Ha; lia|lia]|].
  intros l s' [-> ->]. apply wp_ret. split; [|done]. rewrite (seqZ_cons a (Z.of_nat (Datatypes.S n))) by lia. cbn [map].
  f_equal. f_equal. f_equal; lia.
Qed.

(** Writing leaves, at each address of the range, the byte meant for it. *)
Definition written (l : list Z) (a : Z) (fr fr' : Z → Z → Z) : Prop :=
  map (byte_at fr') (seqZ a (Z.of_nat (length l))) = l ∧
  ∀ h o, (∀ v, a ≤ v < a + Z.of_nat (length l) → ¬ (h = phys v / 4096 ∧ o = phys v mod 4096)) → fr' h o = fr h o.

Lemma wp_write_user l : ∀ a fr, (∀ v, a ≤ v < a + Z.of_nat (length l) → 0 < phys v ∧ 0 ≤ v < W32) →
  (∀ v v', a ≤ v < a + Z.of_nat (length l) → a ≤ v' < a + Z.of_nat (length l) → phys v = phys v' → v = v') →
  a + Z.of_nat (length l) < W32 →
  wp (write_user l a) (FState x st fr (strings s)) (λ _ s',
    ∃ fr', s' = FState x st fr' (strings s) ∧ written l a fr fr').
Proof.
  induction l as [|b l IH]; intros a fr Ha Hinj Hlim; cbn [write_user].
  { apply wp_ret. exists fr. split; [done|]. by split. }
  cbn [length] in *. destruct (Ha a) as [Hp Hv]; [lia|]. apply wp_bind, wp_mmu; [done|done|].
  apply wp_bind, wp_modify. cbn [fs_sys fs_vmm frames strings]. rewrite u32_small by lia. change PAGE_SIZE with 4096.
  set (fr1 := <[_ := _]> fr). eapply wp_mono; [apply (IH (a + 1) fr1); [intros v Hv'; apply Ha; lia| |lia]|].
  { intros v v' H1 H2. apply Hinj; lia. }
  intros [] s' (fr' & -> & Hl & Hout). exists fr'. split; [done|]. unfold written. cbn [length].
  assert (fr1 (phys a / 4096) (phys a mod 4096) = b) as E1 by (unfold fr1; by rewrite !fn_lookup_insert).
  split.
  - rewrite (seqZ_cons a) by lia. cbn [map]. f_equal.
    + unfold byte_at. rewrite Hout; [done|]. intros v Hv' [E2 E3].
      assert (a = v) as <-; [|lia]. apply Hinj; [lia|lia|].
      rewrite (Z.div_mod (phys a) 4096), (Z.div_mod (phys v) 4096) by lia. by rewrite E2, E3.
    + etransitivity; [|exact Hl]. f_equal. f_equal; lia.
  - intros h o Hho. rewrite Hout by (intros v Hv'; apply Hho; lia). unfold fr1.
    assert (¬ (h = phys a / 4096 ∧ o = phys a mod 4096)) as Hn by (apply Hho; lia).
    destruct (decide (h = phys a / 4096)) as [->|Hne]; [|by rewrite fn_lookup_insert_ne].
    rewrite fn_lookup_insert, fn_lookup_insert_ne; [done|]. naive_solver.
Qed.

End Space.

(** The address space in use: that of the current task, and no page of it is
    mapped to frame 0. *)
Record in_user_space (s : fstate S) (f : Z) : Prop := {
  us_pd : pd_ok (fs_vmm s) f;
  us_cr3 : cr3 (fs_vmm s) = f * 4096;
  us_frames : no_frame_0 (fs_vmm s) f;
  us_current : current_task (fs_sys s) ≠ 0;
  us_task : tasks (fs_sys s) (current_task (fs_sys s)) cr3_ = f * 4096 }.

(** C20: reading user memory is safe.  Whatever pointer and length a program
    passes, [copy_from_user] neither faults nor changes anything; it reports
    success exactly when there is nothing to copy or every page of the range
    is below the kernel and mapped for the user, and then returns the bytes
    the program sees there; otherwise it copies nothing. *)
Theorem copy_from_user_correct (s : fstate S) f from n : in_user_space s f → 0 ≤ from < W32 → 0 ≤ n < W32 →
  ∃ r l, copy_from_user from n s = Done ((r, l), s) ∧
    (r = 0 ↔ n = 0 ∨ user_range (pmem (fs_vmm s)) f from n false) ∧
    l = if r =? 0 then map (byte_at s f (frames s)) (seqZ from n) else [].
Proof.
  intros [Hok Hc H0 Hcur Hpd] Ha Hn.
  assert (wp (copy_from_user from n) s (λ rl s', s' = s ∧
    (rl.1 = 0 ↔ n = 0 ∨ user_range (pmem (fs_vmm s)) f from n false) ∧
    rl.2 = if rl.1 =? 0 then map (byte_at s f (frames s)) (seqZ from n) else []))
    as ([r l] & s' & E & -> & ?)%wp_run; [|by exists r, l].
  unfold copy_from_user. apply wp_bind. eapply wp_mono; [by apply (wp_usercopy_check s f)|].
  intros r s' [-> Hiff]. cbn [negb] in Hiff. destruct (Z.eqb_spec r 0) as [->|Hr]; [|apply wp_ret; split_and!; [done|done|]; cbn [fst snd]; by rewrite (proj2 (Z.eqb_neq _ _) Hr)].
  apply wp_bind. assert (s = FState (fs_sys s) (fs_vmm s) (frames s) (strings s)) as Es by (by destruct s). rewrite Es at 1.
  destruct (proj1 Hiff eq_refl) as [->|Hr].
  { apply wp_ret, wp_ret. by rewrite <- Es. }
  pose proof Hr as [Hle _]. assert (KERNEL_VADDR_BASE = 3221225472) as EK by reflexivity.
  eapply wp_mono; [apply (wp_read_user s f Hok Hc)|].
  - rewrite Z2Nat.id by lia. intros v Hv. eapply user_range_phys; [done|done|exact Hr|lia|lia].
  - unfold W32. lia.
  - intros l s' [-> ->]. apply wp_ret. rewrite <- Es. cbn [fst snd]. rewrite Z2Nat.id by lia. done.
Qed.

(** C21: what the kernel writes to a program is what it reads back.  When
    [copy_to_user] succeeds on a range whose pages are distinct frames, the
    buffer is there, no other byte of any frame has changed, and
    [copy_from_user] on the range returns the buffer; it fails, with
    everything unchanged, exactly when some page of a non-empty range is not
    writable user memory. *)
Theorem copy_to_user_roundtrip (s : fstate S) f to buf : in_user_space s f → 0 ≤ to < W32 →
  Z.of_nat (length buf) < W32 →
  (∀ v v', to ≤ v < to + Z.of_nat (length buf) → to ≤ v' < to + Z.of_nat (length buf) → phys s f v = phys s f v' → v = v') →
  ∃ r s', copy_to_user to buf s = Done (r, s') ∧
    (r = 0 ↔ buf = [] ∨ user_range (pmem (fs_vmm s)) f to (Z.of_nat (length buf)) true) ∧
    (r ≠ 0 → s' = s) ∧
    (r = 0 → ∃ fr', s' = FState (fs_sys s) (fs_vmm s) fr' (strings s) ∧
       (∀ h o, (∀ v, to ≤ v < to + Z.of_nat (length buf) → ¬ (h = phys s f v / 4096 ∧ o = phys s f v mod 4096)) →
          fr' h o = frames s h o) ∧
       copy_from_user to (Z.of_nat (length buf)) s' = Done ((0, buf), s')).
Proof.
  intros Hus Ha Hn Hinj. pose proof Hus as [Hok Hc H0 Hcur Hpd]. set (n := Z.of_nat (length buf)) in *.
  assert (n = 0 ↔ buf = []) as Hnil by (unfold n; destruct buf; cbn [length]; split; done || lia).
  assert (KERNEL_VADDR_BASE = 3221225472) as EK by reflexivity.
  assert (s = FState (fs_sys s) (fs_vmm s) (frames s) (strings s)) as Es by (by destruct s).
  assert (wp (copy_to_user to buf) s (λ r s',
    (r = 0 ↔ buf = [] ∨ user_range (pmem (fs_vmm s)) f to n true) ∧ (r ≠ 0 → s' = s) ∧
    (r = 0 → ∃ fr', s' = FState (fs_sys s) (fs_vmm s) fr' (strings s) ∧ written s f buf to (frames s) fr')))
    as (r & s' & E & Hiff & Hfail & Hw)%wp_run.
  { unfold copy_to_user. fold n. apply wp_bind. eapply wp_mono; [apply (wp_usercopy_check s f); done || lia|].
    intros r s' [-> Hiff]. cbn [negb] in Hiff. rewrite Hnil in Hiff.
    destruct (Z.eqb_spec r 0) as [->|Hr]; [|by apply wp_ret]. apply wp_bind. rewrite Es at 1.
    destruct (proj1 Hiff eq_refl) as [->|Hr].
    { apply wp_ret, wp_ret. split_and!; [done|done|]. intros _. exists (frames s). split; [done|]. by split. }
    pose proof Hr as [Hle _]. eapply wp_mono; [apply (wp_write_user s f Hok Hc); fold n|].
    - intros v Hv. eapply user_range_phys; [done|done|exact Hr|lia|lia].
    - done.
    - unfold W32. lia.
    - intros [] s' (fr' & -> & Hwr). apply wp_ret. split_and!; [done|done|]. intros _. by exists fr'. }
  exists r, s'. split_and!; [done|done|done|]. intros ->. destruct (Hw eq_refl) as (fr' & -> & Hl & Hout).
  exists fr'. split_and!; [done|exact Hout|]. set (s1 := FState _ _ fr' _).
  assert (in_user_space s1 f) as Hus1 by (by split). fold n in Hl.
  destruct (wp_run (copy_from_user to n) s1 (λ rl s', s' = s1 ∧ rl = (0, buf))) as [[[r l] (s' & E1 & -> & [= -> ->])] _]; [|done].
  unfold copy_from_user. apply wp_bind. eapply wp_mono; [apply (wp_usercopy_check s1 f); done || lia|].
  intros r s' [-> Hiff1]. cbn [negb] in Hiff1.
  assert (r = 0) as ->.
  { apply Hiff1. destruct (proj1 Hiff eq_refl) as [?|[Hle Hall]]; [left; by apply Hnil|right]. split; [done|].
    intros q Hq Hlt. destruct (Hall q Hq Hlt) as [A1 A2]. split; eapply has_flags_weaken; eauto. }
  rewrite Z.eqb_refl. apply wp_bind.
  eapply wp_mono; [apply (wp_read_user s1 f Hok Hc (Z.to_nat n) fr' to)|]; rewrite ?Z2Nat.id by lia.
  - intros v Hv. destruct (proj1 Hiff eq_refl) as [->|Hr]; [unfold n in Hv; cbn [length] in Hv; lia|].
    eapply (user_range_phys s f); [done|done|exact Hr|lia|lia].
  - destruct (proj1 Hiff eq_refl) as [Hb|[Hle _]]; [|unfold W32; lia].
    assert (n = 0) by (by apply Hnil). lia.
  - intros l s' [-> ->]. apply wp_ret. split; [done|]. f_equal. exact Hl.
Qed.

End Properties.
