(* ===== verification/Spawn.v ===== *)
(** * Creating tasks and replacing their image (task_get_new and the
    initialisation of src/proc/task.c, src/syscalls/execve.c): operations

    The state adds to that of Fork the areas of every task (Vma).  The images
    of the programs and the addresses the linker gives them are parameters. *)

From S2P Require Import Prelude Errno Dlist Memory Page Buddy PageAlloc Vmm Vma Bitmap Task Sched Process Fork Loader.

Record pstate (S : Type) := PState {
  ps_f : fstate S;
  ps_lists : Z → list Z;       (* vma_areas of each task *)
  ps_area : Z → vm_area;
  ps_pages : Z → list Z }.
Arguments PState {S} _ _ _ _.
Arguments ps_f {S} _.
Arguments ps_lists {S} _.
Arguments ps_area {S} _.
Arguments ps_pages {S} _.

(** A program linked into the kernel. *)
Record exec_fn_mok := ExecFn { fn_name : list Z; fn_start : Z; fn_end : Z; is_user : bool }.

Inductive exec_result :=
  | ExecError (e : Z)
  | ExecEnter (esp_ : Z).    (* the stack the processor is switched to *)

Section Spawn.
Context {S : Type} `{KernelAllocator S}.
Context (image : Z → Z) (kernel_directory interrupt_exit : Z).
Context (sig_trampoline_start sig_trampoline_end : Z).
Context (signal_default_handler signal_ignore_handler : Z).

Definition on_f {A} (c : M (fstate S) A) : M (pstate S) A := λ s,
  match c (ps_f s) with
  | Done (a, x) => Done (a, PState x (ps_lists s) (ps_area s) (ps_pages s))
  | Panic m => Panic m
  | Fault => Fault
  | Hang => Hang
  end.

(** A computation on the areas of task [t]. *)
Definition on_areas {A} (t : Z) (c : M (vspace S) A) : M (pstate S) A := λ s,
  let f := ps_f s in
  match c (VSpace (fs_vmm f) (ps_lists s t) (ps_area s) (ps_pages s)) with
  | Done (a, v) =>
      Done (a, PState (FState (fs_sys f) (vs_vmm v) (frames f) (strings f))
                 (<[t := vs_list v]> (ps_lists s)) (vs_area v) (vs_pages v))
  | Panic m => Panic m
  | Fault => Fault
  | Hang => Hang
  end.

Definition p_sys {A} (c : M sys A) : M (pstate S) A := on_f (on_sys c).

Definition set_string (a : Z) (l : list Z) : M (pstate S) unit :=
  on_f (modify (λ s, FState (fs_sys s) (fs_vmm s) (frames s) (<[a := l]> (strings s)))).

Definition init_areas (t : Z) : M (pstate S) unit :=
  modify (λ s, PState (ps_f s) (<[t := []]> (ps_lists s)) (ps_area s) (ps_pages s)).

(** [vma_init_area(&t->vma_areas, t->heap_sec->v_addr, t->stack_sec->v_addr - PAGE_SIZE)] *)
Definition init_user_areas (t : Z) : M (pstate S) unit :=
  heap ← p_sys (fld t heap_sec) ;
  stack ← p_sys (fld t stack_sec) ;
  x ← on_f (get_section heap) ;
  y ← on_f (get_section stack) ;
  on_areas t (vma_init_area (v_addr x) (v_addr y ⊟ PAGE_SIZE)).

(** ** task_get_new *)

(** The zeroed structure and the sections behind it. *)
Definition fresh_task (new : Z) (text data : option section) : M (pstate S) unit :=
  let first := new ⊞ SIZEOF_TASK in
  p_sys (modify (set_tasks (λ m, <[new := λ _, 0]> m))) ;;
  p_sys (set_fld new text_sec first) ;;
  p_sys (set_fld new data_sec (first ⊞ SIZEOF_SECTION)) ;;
  p_sys (set_fld new stack_sec (first ⊞ 2 * SIZEOF_SECTION)) ;;
  p_sys (set_fld new heap_sec (first ⊞ 3 * SIZEOF_SECTION)) ;;
  p_sys (set_fld new sig_trampoline (first ⊞ 4 * SIZEOF_SECTION)) ;;
  on_f (set_section first (default zero_section text)) ;;
  on_f (set_section (first ⊞ SIZEOF_SECTION) (default zero_section data)) ;;
  on_f (set_section (first ⊞ 2 * SIZEOF_SECTION) zero_section) ;;
  on_f (set_section (first ⊞ 3 * SIZEOF_SECTION) zero_section) ;;
  on_f (set_section (first ⊞ 4 * SIZEOF_SECTION) zero_section).

(** [free_task:], [free_pid:] and [free_kstack:] *)
Definition free_task (new : Z) : M (pstate S) Z := on_f (fork_kfree new) ;; mret 0.

Definition free_pid (new : Z) : M (pstate S) Z :=
  p ← p_sys (fld new pid) ;
  p_sys (modify (λ s, set_pids (id_manager_free (pid_manager s) p) s)) ;;
  free_task new.

Definition free_kstack (new kstack : Z) : M (pstate S) Z := on_f (fork_kfree kstack) ;; free_pid new.

(** The page directory of the task. *)
Definition give_space (new ring_ : Z) : M (pstate S) bool :=
  p_sys (set_fld new ring ring_) ;;
  if ring_ =? 3 then on_f (userspace_create_new image kernel_directory new)
  else if ring_ =? 0 then p_sys (set_fld new cr3_ kernel_directory) ;; mret true
  else kpanic "yo you damn crazy wtf r u doing?!".

Definition name_limit (n : Z) (name_ : list Z) : list Z := take (Z.to_nat n) name_.

Definition finish_task (new ring_ : Z) (name_ : list Z) : M (pstate S) Z :=
  p_sys (set_fld new state TASK_NEW) ;;
  tramp ← p_sys (fld new sig_trampoline) ;
  let name_ptr := tramp ⊞ SIZEOF_SECTION in
  p_sys (set_fld new name name_ptr) ;;
  set_string name_ptr (name_limit 16 name_) ;;
  p_sys (wq_entry_init new new TASK_INTERRUPTIBLE) ;;
  p_sys (modify (set_waiters (λ w, <[child_wq new := []]> w))) ;;
  p_sys (modify (set_info (λ l, l ++ [new]))) ;;
  p_sys (signal_init_default_handlers signal_default_handler signal_ignore_handler new) ;;
  init_areas new ;;
  (if ring_ =? 3 then init_user_areas new else mret tt) ;;
  mret new.

(** From the kernel stack on. *)
Definition give_stack (new kstack ring_ : Z) (name_ : list Z) : M (pstate S) Z :=
  p_sys (bzero_words kstack DEFAULT_STACK_SIZE) ;;
  p_sys (set_fld new kernel_stack_pointer kstack) ;;
  p_sys (set_fld new kernel_stack_base (kstack ⊞ DEFAULT_STACK_SIZE)) ;;
  p_sys (Task.stw kstack STACK_CANARY_MAGIC) ;;
  p_sys (set_fld new esp (kstack ⊞ DEFAULT_STACK_SIZE)) ;;
  tramp ← p_sys (fld new sig_trampoline) ;
  match section_init_from_buffer USER_TRAMPOLINE_VADDR sig_trampoline_start
          (sig_trampoline_end ⊟ sig_trampoline_start) USER_SECTION_RO with
  | None => free_kstack new kstack
  | Some x =>
      on_f (set_section tramp x) ;;
      ok ← give_space new ring_ ;
      if negb ok then free_kstack new kstack else finish_task new ring_ name_
  end.

(** [name_] is the characters of the name; the caller passes one, and the
    identifier manager exists. *)
Definition task_get_new (name_ : list Z) (ring_ : Z) (text data : option section) : M (pstate S) Z :=
  let name_len := Z.of_nat (length (name_limit 16 name_)) in
  let alloc_size := SIZEOF_TASK + SIZEOF_SECTION * 5 + name_len + 1 in
  new ← on_f (fork_kmalloc alloc_size (Z.lor GFP_KERNEL __GFP_ZERO)) ;
  if new =? 0 then mret 0
  else
    fresh_task new text data ;;
    mgr ← p_sys (gets pid_manager) ;
    let '(p, mgr) := id_manager_alloc mgr in
    p_sys (modify (set_pids mgr)) ;;
    p_sys (set_fld new pid p) ;;
    if p =? -1 then free_task new
    else
      p_sys (modify (set_children (λ c, <[new := []]> c))) ;;
      kstack ← on_f (fork_kmalloc DEFAULT_STACK_SIZE (Z.lor GFP_KERNEL __GFP_ZERO)) ;
      if kstack =? 0 then free_pid new else give_stack new kstack ring_ name_.

(** ** The first tasks *)

Definition set_roles (idle kitoxD : Z) (s : sys) : sys :=
  Sys (tasks s) (sections s) (words s) (ready_queue s) (info_queue s) (children s) (waiters s)
    (current_task s) idle kitoxD (dummy_task s) (pid_manager s) (global_ticks s)
    (preempt_count s) (irqs s) (effects s).

(** The boot thread, on the stack it already has; [name_ptr] is the address
    of its name and [canary] that of [dummy_canary_val]. *)
Definition task_init_dummy (name_ptr canary esp_val : Z) : M (pstate S) unit :=
  d ← p_sys task_get_dummy ;
  p_sys (modify (set_tasks (λ m, <[d := λ _, 0]> m))) ;;
  p_sys (set_fld d name name_ptr) ;;
  p_sys (set_fld d pid 0) ;;
  p_sys (set_fld d state TASK_RUNNING) ;;
  p_sys (set_fld d cr3_ kernel_directory) ;;
  p_sys (set_fld d kernel_stack_pointer canary) ;;
  p_sys (set_fld d esp esp_val) ;;
  p_sys (set_fld d kernel_stack_base esp_val) ;;
  p_sys (task_set_current_task d).

Definition task_init_idle (cpu_idle_loop : Z) : M (pstate S) unit :=
  idle ← task_get_new [73; 100; 108; 101] 0 None None ;   (* "Idle" *)
  p_sys (modify (λ s, set_roles idle (kitoxD_task s) s)) ;;
  if idle =? 0 then kpanic "Failed to init Idle"
  else
    p_sys (task_craft_context interrupt_exit idle false cpu_idle_loop) ;;
    p_sys (set_fld idle state TASK_NEW).

Definition task_init_kitoxD (kitoxD_start kitoxD_end : Z) : M (pstate S) unit :=
  match section_init_from_buffer 0 kitoxD_start (kitoxD_end ⊟ kitoxD_start) 0 with
  | None => kpanic "Failed to init kitoxD sections"
  | Some text =>
      kitoxD ← task_get_new [107; 105; 116; 111; 120; 68] 3 (Some text) None ;   (* "kitoxD" *)
      p_sys (modify (λ s, set_roles (idle_task s) kitoxD s)) ;;
      if kitoxD =? 0 then kpanic "Failed to init kitoxD"
      else
        p_sys (set_fld kitoxD state TASK_NEW) ;;
        sec ← p_sys (fld kitoxD text_sec) ;
        x ← on_f (get_section sec) ;
        p_sys (task_craft_context interrupt_exit kitoxD true (v_addr x)) ;;
        p_sys (sched_enqueue kitoxD) ;;
        mret tt
  end.

(** The registration of the timer's handler is Idt's. *)
Definition task_init_process (name_ptr canary esp_val cpu_idle_loop kitoxD_start kitoxD_end : Z) : M (pstate S) unit :=
  task_init_dummy name_ptr canary esp_val ;;
  task_init_idle cpu_idle_loop ;;
  task_init_kitoxD kitoxD_start kitoxD_end ;;
  p_sys (timer_set_cycle TIMER_HZ).

(** ** execve *)

Definition sys_execve (mok_registry : list exec_fn_mok) (index : Z) : M (pstate S) exec_result :=
  if index <? 0 then mret (ExecError (- EINVAL))
  else
    match mok_registry !! Z.to_nat index with
    | None => mret (ExecError (- EINVAL))
    | Some fn =>
        match section_init_from_buffer 0 (fn_start fn) (fn_end fn ⊟ fn_start fn) 0 with
        | None => mret (ExecError (- EFAULT))
        | Some text =>
            cur ← p_sys task_get_current_task ;
            on_f (on_vmm (paging_reload_cr3 kernel_directory)) ;;
            sec ← p_sys (fld cur text_sec) ;
            on_f (set_section sec text) ;;
            (if is_user fn then
               ok ← on_f (userspace_create_new image kernel_directory cur) ;
               if negb ok then kpanic "Failed to create new clean userspace" else mret tt
             else p_sys (set_fld cur cr3_ kernel_directory)) ;;
            init_areas cur ;;
            (if is_user fn then init_user_areas cur else mret tt) ;;
            name_ptr ← p_sys (fld cur name) ;
            set_string name_ptr (name_limit 15 (fn_name fn)) ;;
            x ← on_f (get_section sec) ;
            p_sys (task_craft_context interrupt_exit cur (is_user fn) (v_addr x)) ;;
            pd ← p_sys (fld cur cr3_) ;
            on_f (on_vmm (paging_reload_cr3 pd)) ;;
            e ← p_sys (fld cur esp) ;
            mret (ExecEnter e)
        end
    end.

End Spawn.
