(* ===== verification/SpawnExample.v ===== *)
(** * Loading a program on a concrete machine

    The machine of ForkExample boots its first tasks: the idle thread, and the
    program [kitoxD], whose image is 5000 bytes of the kernel's. *)

From S2P Require Import Prelude Errno Dlist Memory Page Buddy BuddyInv BuddySpec BuddyThm PageAlloc.
From S2P Require Import Slab SlabInv SlabThm KmallocThm SlabExample.
From S2P Require Import Vmm VmmThm Vma VmaInv VmaExample Bitmap Task Sched Process ProcessThm.
From S2P Require Import Fork ForkSpace ForkThm ForkChild ForkExample.
From S2P Require Import Loader LoaderInv LoaderThm LoaderMap LoaderLayout Usercopy Spawn.

(** The kernel's image: a byte that depends on its address. *)
Definition code (a : Z) : Z := a mod 251.

Definition KDIR : Z := 16777216.

Definition boot_sys : sys :=
  Sys (λ _ _, 0) (λ _, zero_section) (λ x, x) [] [] (λ _, []) (λ _, []) 0 0 0 3500000000
    (id_manager_create PID_MAX (λ _, 0)) 0 0 true [].

Definition boot_state : pstate kstate :=
  PState (FState boot_sys (Vmm (λ _, 0) (bss machine) 0 []) (λ q o, 255) (λ _, []))
    (λ _, []) (λ _, VmArea VM_AREA_FREE 0 0 0 0 0) (λ _, []).

Definition boot_tasks : M (pstate kstate) unit :=
  on_f (on_vmm (lift_pa slab_init)) ;;
  pd ← on_f (buddy_alloc PAGE_SIZE LOWMEM_ZONE) ;
  on_f (on_vmm (paging_reload_cr3 pd)) ;;
  task_init_process code KDIR 777 3300000000 3300000064 888 999 5000 16384 16300 666 3400000000 3400005000.

(** ** The first program runs *)

(** What the processor finds once it runs [kitoxD]: the bytes at its text, the
    instruction pointer and the stack pointer of its trap frame. *)
Definition enter_kitoxD : M (pstate kstate) (list Z * Z * Z) :=
  boot_tasks ;;
  x ← p_sys (gets id) ;
  let k := kitoxD_task x in
  on_f (on_vmm (paging_reload_cr3 (tasks x k cr3_))) ;;
  l ← on_f (read_user 5000 USER_TEXT_START) ;
  let tf := tasks x k kernel_stack_base - SIZEOF_TRAP_FRAME in
  mret (l, words x (tf + OFF_eip), words x (tf + OFF_user_esp)).

(** Booting the first program, end to end: over the real page and heap
    allocators, the initialisation of the tasks loads [kitoxD] so that, in its
    address space, its image is at the text address, and its first context
    enters there with the stack just below the guard of the trampoline. *)
Theorem boot_enters_kitoxD : result_of enter_kitoxD boot_state =
  Done (map code (seqZ 3400000000 5000), USER_TEXT_START, USER_STACK_START).
Proof. vm_compute. reflexivity. Qed.

(** ** execve *)

Definition registry : list exec_fn_mok :=
  [ExecFn [99; 97; 102; 101] 3450000000 3450000100 true; ExecFn [100; 101; 97; 100] 3460000000 3460000100 true].

Definition exec_from_kitoxD (index : Z) : M (pstate kstate) exec_result :=
  boot_tasks ;;
  k ← p_sys task_get_kitoxD ;
  p_sys (task_set_current_task k) ;;
  sys_execve code KDIR 777 registry index.

(** Execve keeps the frames of the image it replaces.  With room for one
    image of the program, of five frames, and three frames over, replacing it
    by one of four frames, which would fit in its place, is a kernel panic. *)
Theorem execve_leaks_panics : result_of (exec_from_kitoxD 0) boot_state = Panic "Failed to create new clean userspace" ∧
  result_of (exec_from_kitoxD 2) boot_state = Done (ExecError (- EINVAL)).
Proof. split; vm_compute; reflexivity. Qed.

(** ** Witnesses *)

(** The child's directory of the copy example, empty, beside its parent's. *)
Lemma child_ready : space_ready 6 5 (fs_vmm parent_space).
Proof.
  destruct booted4_allocated as (Hok & _ & _ & _ & H5).
  assert (∀ i, 0 ≤ i < 1024 → present (entry user_mem 5 i) = false) as Hz by (intros i Hi; by rewrite child_zeroed).
  assert (∀ h, foot user_mem 5 h → h = 5) as Hf.
  { intros h [->|(i & Hi & Hp & _)]; [done|]. by rewrite Hz in Hp. }
  split.
  - exact parent_pd.
  - split; [exact Hok|done|exact (allocated_not_free _ 5 0 5 H5 ltac:(unfold in_block; simpl; lia))|..];
      intros i; [intros Hi; change (0 ≤ entry user_mem 5 i < W32); by rewrite child_zeroed|..].
    + intros Hi Hp. change (present (entry user_mem 5 i) = true) in Hp. by rewrite Hz in Hp.
    + intros j Hi Hj _ Hp. change (present (entry user_mem 5 i) = true) in Hp. by rewrite Hz in Hp.
    + intros j Hi Hj Hp. change (present (entry user_mem 5 i) = true) in Hp. by rewrite Hz in Hp.
  - reflexivity.
  - intros Hh. by apply Hf in Hh.
  - intros h Hu%user_foot_foot Hh. apply Hf in Hu as ->. by apply ForkExample.user_foot in Hh as [?|?].
  - reflexivity.
  - intros a Ha Hp. change (present (entry user_mem 5 a) = true) in Hp. rewrite Hz in Hp; [done|lia].
Qed.

Definition program : section := Section_ 8192 0 3400000000 5000 8192 5.

Definition loading : fstate pool := FState
  (set_sections (λ m, <[6000 := program]> m) (init_sys 16288)) (fs_vmm parent_space) (frames parent_space) (λ _, []).


Lemma place_sections_correct_witness :
  let s := loading in
  let sy := fs_sys s in
  ∃ m, place_sections init_task s = Done (true, FState (set_sections (λ _, m) sy) (fs_vmm s) (frames s) (strings s)) ∧
    m 6000 = placed_text program ∧ section_ok (placed_text program) 2 2 ∧
    (if some_data zero_section then m 6024 = placed_data 4 zero_section ∧ section_ok (placed_data 4 zero_section) 4 0
     else m 6024 = zero_section) ∧
    m 6072 = Section_ (5 * 4096) 0 0 0 0 USER_SECTION_RW ∧
    m 6048 = stack_section ∧ section_ok stack_section STACK_PAGE 2 ∧
    (STACK_PAGE + 3) * 4096 = USER_TRAMPOLINE_VADDR ∧
    ∀ a, a ∉ [6000; 6024; 6072; 6048] → m a = sections sy a.
Proof.
  apply (place_sections_correct init_task loading);
    [discriminate|compute; repeat (constructor; [set_solver|]); constructor|vm_compute; intuition congruence..].
Defined.

(** A program on the address space of the areas' example. *)
Definition running : fstate pool := FState
  (set_tasks (upd init_task cr3_ 24576) (init_sys 16288)) (fs_vmm parent_space) (frames parent_space) (λ _, []).

Lemma running_ok : in_user_space running 6.
Proof.
  split; [exact parent_pd|reflexivity| |discriminate|reflexivity].
  intros i j Hi Hj Hp Hq. change (pmem (fs_vmm running)) with user_mem in *. apply user_present in Hp; [|done]. subst i.
  change (table user_mem 6 0) with 1 in *. rewrite user_pt in * by done. by case_decide.
Qed.

Lemma copy_from_user_correct_witness :
  ∃ r l, copy_from_user 4100 12 running = Done ((r, l), running) ∧
    (r = 0 ↔ 12 = 0 ∨ user_range user_mem 6 4100 12 false) ∧
    l = if r =? 0 then map (byte_at running 6 (frames running)) (seqZ 4100 12) else [].
Proof.
  apply (copy_from_user_correct (H := pool_heap) running 6 4100 12 running_ok); split; reflexivity || discriminate.
Defined.

Lemma copy_to_user_roundtrip_witness :
  ∃ r s', copy_to_user 4100 [1; 2; 3] running = Done (r, s') ∧
    (r = 0 ↔ [1; 2; 3] = [] ∨ user_range user_mem 6 4100 3 true) ∧
    (r ≠ 0 → s' = running) ∧
    (r = 0 → ∃ fr', s' = FState (fs_sys running) (fs_vmm running) fr' (strings running) ∧
       (∀ h o, (∀ v, 4100 ≤ v < 4103 → ¬ (h = phys running 6 v / 4096 ∧ o = phys running 6 v mod 4096)) →
          fr' h o = frames running h o) ∧
       copy_from_user 4100 3 s' = Done ((0, [1; 2; 3]), s')).
Proof.
  apply (copy_to_user_roundtrip (H := pool_heap) running 6 4100 [1; 2; 3] running_ok); [split; [discriminate|reflexivity]|reflexivity|].
  intros v v' Hv Hv'.
  assert (∀ u, 4100 ≤ u < 4103 → phys running 6 u = 16384 + (u - 4096)) as E.
  { intros u Hu. assert (u = 4100 ∨ u = 4101 ∨ u = 4102) as [->|[->| ->]] by lia; vm_compute; reflexivity. }
  change (4100 + Z.of_nat (length [1; 2; 3])) with 4103 in *. rewrite !E by done. lia.
Defined.
