(* ===== verification/Tty.v ===== *)
(** * The console (src/drivers/tty/tty.c, src/drivers/vga/vga.c): operations

    Every terminal has a ring of 256 lines of 80 cells; the screen shows the
    25 lines from [top_line_index] on.  The bytes sent to the ports (the
    serial line included, as in the debug build) are recorded, newest first,
    and so are the shell commands that are run.  Whether the allocation of the
    frame buffer of terminal [i] succeeds is [fb_alloc i], and [inb] is what
    the ports answer. *)

From S2P Require Import Prelude Memory.

(** ** Data *)

Definition VGA_WIDTH : Z := 80.
Definition VGA_HEIGHT : Z := 25.
Definition VGA_COLOR (bg fg : Z) : Z := Z.lor (Z.shiftl bg 4) fg.
Definition VGA_COLOR_BLUE : Z := 1.
Definition VGA_COLOR_WHITE : Z := 15.
Definition VGA_DEFAULT_MODE : Z := VGA_COLOR VGA_COLOR_BLUE VGA_COLOR_WHITE.
Definition TTY_HIST_SIZE : Z := 256.
Definition MAX_TTY : Z := 12.
Definition MAX_CMD_LEN : Z := 256.

Record vga_entry := VgaEntry { character : Z; entry_mode : Z }.

Record tty_history := TtyHistory { status : bool; stop_scroll : bool; top_line_save : Z }.

Record tty := Tty {
  framebuffer : option (Z → vga_entry);
  top_line_index : Z;
  history : tty_history;
  cursor_x : Z;
  cursor_y : Z;
  mode : Z;
  cli : list Z }.        (* its 256 bytes *)

Record console := Console {
  ttys : Z → tty;
  current_tty : Z;
  screen : Z → vga_entry;            (* the memory at 0xB8000 *)
  ports : list (Z * Z);
  commands : list (string * list (list Z)) }.

(** ** Access *)

Definition cur : M console tty := gets (λ s, ttys s (current_tty s)).

Definition set_tty (i : Z) (f : tty → tty) : M console unit :=
  modify (λ s, Console (λ j, if j =? i then f (ttys s i) else ttys s j) (current_tty s) (screen s) (ports s) (commands s)).

Definition set_cur (f : tty → tty) : M console unit := i ← gets current_tty ; set_tty i f.

Definition with_cursor (x y : Z) (t : tty) : tty :=
  Tty (framebuffer t) (top_line_index t) (history t) x y (mode t) (cli t).
Definition with_top (n : Z) (t : tty) : tty :=
  Tty (framebuffer t) n (history t) (cursor_x t) (cursor_y t) (mode t) (cli t).
Definition with_history (h : tty_history) (t : tty) : tty :=
  Tty (framebuffer t) (top_line_index t) h (cursor_x t) (cursor_y t) (mode t) (cli t).
Definition with_fb (fb : option (Z → vga_entry)) (t : tty) : tty :=
  Tty fb (top_line_index t) (history t) (cursor_x t) (cursor_y t) (mode t) (cli t).
Definition with_mode (m : Z) (t : tty) : tty :=
  Tty (framebuffer t) (top_line_index t) (history t) (cursor_x t) (cursor_y t) m (cli t).
Definition with_cli (l : list Z) (t : tty) : tty :=
  Tty (framebuffer t) (top_line_index t) (history t) (cursor_x t) (cursor_y t) (mode t) l.

Definition outb_ (port v : Z) : M console unit :=
  modify (λ s, Console (ttys s) (current_tty s) (screen s) ((port, u8 v) :: ports s) (commands s)).

(** [fb[offset] = e]: the buffer has [VGA_WIDTH * TTY_HIST_SIZE] entries. *)
Definition fb_store (i offset : Z) (f : vga_entry → vga_entry) : M console unit :=
  t ← gets (λ s, ttys s i) ;
  match framebuffer t with
  | None => fault
  | Some fb =>
      if (0 <=? offset) && (offset <? VGA_WIDTH * TTY_HIST_SIZE)
      then set_tty i (with_fb (Some (<[offset := f (fb offset)]> fb))) else fault
  end.

(** ** Formatting (vga.c)

    The characters [vga_printf] puts, in order.  [None] is an argument of the
    wrong kind, or a format whose last character is [%], after which the loop
    runs past its end. *)

Inductive arg :=
  | AInt (n : Z)                              (* a 32-bit pattern *)
  | AStr (s : option (list Z))                (* [None] is NULL *)
  | ATask (t : option (Z * list Z * Z)).      (* address, name, pid *)

Definition chars (s : string) : list Z := map (λ c, Z.of_N (Ascii.N_of_ascii c)) (String.list_ascii_of_string s).

Fixpoint ft_putnbr (fuel : nat) (nb : Z) : option (list Z) :=
  match fuel with
  | O => None
  | Datatypes.S fuel =>
      if nb =? -2147483648 then
        l ← ft_putnbr fuel (-21474) ; r ← ft_putnbr fuel 83648 ; Some (l ++ r)
      else if nb <? 0 then r ← ft_putnbr fuel (nb * -1) ; Some (45 :: r)
      else if 10 <=? nb then
        l ← ft_putnbr fuel (nb / 10) ; r ← ft_putnbr fuel (nb mod 10) ; Some (l ++ r)
      else Some [nb + 48]
  end.

(** The depth of [ft_putnbr]: the two special cases and ten digits. *)
Definition NBR_FUEL : nat := 13.

Definition ft_putunsignednbr (nb : Z) : option (list Z) :=
  if 10 <=? nb then
    l ← ft_putnbr NBR_FUEL (s32 (nb / 10)) ; r ← ft_putnbr NBR_FUEL (nb mod 10) ; Some (l ++ r)
  else Some [nb + 48].

Definition hex_digit (upper : bool) (d : Z) : Z := if d <? 10 then d + 48 else d - 10 + (if upper then 65 else 97).

Fixpoint puthexa (fuel : nat) (nb : Z) (upper : bool) : option (list Z) :=
  match fuel with
  | O => None
  | Datatypes.S fuel =>
      if nb <? 16 then Some [hex_digit upper nb]
      else l ← puthexa fuel (nb / 16) upper ; r ← puthexa fuel (nb mod 16) upper ; Some (l ++ r)
  end.

Definition ft_puthexa (nb : Z) (upper addr : bool) : option (list Z) :=
  l ← puthexa 9 nb upper ; Some (if addr then 48 :: 120 :: l else l).

Definition ft_putstr (s : option (list Z)) : list Z := default (chars "(null)") s.

Definition put_task (t : option (Z * list Z * Z)) : option (list Z) :=
  match t with
  | None => Some (chars "task<" ++ chars "null" ++ [62])
  | Some (a, nm, p) =>
      h ← ft_puthexa a false true ;
      n ← ft_putnbr NBR_FUEL p ;
      Some (chars "task<" ++ h ++ chars ",name=" ++ [34] ++ nm ++ [34] ++ chars ",pid=" ++ n ++ [62])
  end.

(** One conversion: the characters and the arguments left. *)
Definition convert (d : Z) (args : list arg) : option (list Z * list arg) :=
  if d =? 37 then Some ([37], args)                                       (* % *)
  else if bool_decide (d ∈ chars "sidux") || bool_decide (d ∈ chars "Xpct") then
    match args with
    | [] => None
    | a :: args =>
        r ← match a with
            | AStr s => if d =? 115 then Some (ft_putstr s) else None      (* s *)
            | ATask t => if d =? 116 then put_task t else None             (* t *)
            | AInt n =>
                if (d =? 105) || (d =? 100) then ft_putnbr NBR_FUEL (s32 n)   (* i d *)
                else if d =? 117 then ft_putunsignednbr n                  (* u *)
                else if d =? 120 then ft_puthexa n false false             (* x *)
                else if d =? 88 then ft_puthexa n true false               (* X *)
                else if d =? 112 then ft_puthexa n false true              (* p *)
                else if d =? 99 then Some [u8 n]                           (* c *)
                else None
            end ;
        Some (r, args)
    end
  else Some ([], args).

Fixpoint format (fmt : list Z) (args : list arg) : option (list Z) :=
  match fmt with
  | [] => Some []
  | c :: fmt =>
      if c =? 37 then
        match fmt with
        | [] => None
        | d :: fmt =>
            '(l, args) ← convert d args ;
            r ← format fmt args ;
            Some (l ++ r)
        end
      else r ← format fmt args ; Some (c :: r)
  end.

Section Tty.
Context (fb_alloc : Z → bool) (inb : Z → Z).

(** ** The cursor and the screen (vga.c) *)

Definition vga_enable_cursor (cursor_start cursor_end : Z) : M console unit :=
  outb_ 980 10 ;;
  outb_ 981 (Z.lor (Z.land (inb 981) 192) cursor_start) ;;
  outb_ 980 11 ;;
  outb_ 981 (Z.lor (Z.land (inb 981) 224) cursor_end).

Definition vga_disable_cursor : M console unit := outb_ 980 10 ;; outb_ 981 32.

Definition vga_set_cursor_position (x y : Z) : M console unit :=
  let pos := y * VGA_WIDTH + x in
  outb_ 980 15 ;; outb_ 981 pos ;; outb_ 980 14 ;; outb_ 981 (Z.shiftr pos 8).

Definition vga_refresh_screen : M console unit :=
  t ← cur ;
  match framebuffer t with
  | None => mret tt
  | Some fb =>
      modify (λ s, Console (ttys s) (current_tty s)
        (λ o, if (0 <=? o) && (o <? VGA_WIDTH * VGA_HEIGHT)
              then fb (u8 (top_line_index t + o / VGA_WIDTH) * VGA_WIDTH + o mod VGA_WIDTH) else screen s o)
        (ports s) (commands s)) ;;
      vga_set_cursor_position (cursor_x t) (cursor_y t)
  end.

(** ** The frame buffer (tty.c) *)

Definition tty_framebuffer_set_screen_mode (i m : Z) : M console unit :=
  set_tty i (with_mode m) ;;
  t ← gets (λ s, ttys s i) ;
  match framebuffer t with
  | None => fault
  | Some fb => set_tty i (with_fb (Some (λ o,
      if (0 <=? o) && (o <? VGA_WIDTH * TTY_HIST_SIZE) then VgaEntry (character (fb o)) m else fb o)))
  end.

Definition tty_framebuffer_clear (i : Z) : M console unit :=
  t ← gets (λ s, ttys s i) ;
  match framebuffer t with
  | None => fault
  | Some fb =>
      set_tty i (with_fb (Some (λ o,
        if (0 <=? o) && (o <? VGA_WIDTH * TTY_HIST_SIZE) then VgaEntry 0 (mode t) else fb o))) ;;
      set_tty i (with_top 0) ;;
      set_tty i (with_cursor 0 0)
  end.

Definition tty_history_enable : M console unit :=
  vga_disable_cursor ;;
  set_cur (λ t, with_history (TtyHistory true (stop_scroll (history t)) (top_line_index t)) t).

Definition tty_history_disable : M console unit :=
  vga_enable_cursor 14 15 ;;
  set_cur (λ t, with_top (u8 (top_line_save (history t)))
    (with_history (TtyHistory false (stop_scroll (history t)) (top_line_save (history t))) t)).

Definition tty_history_scroll_up : M console unit :=
  t ← cur ;
  if negb (status (history t)) then mret tt
  else
    let oldest_line := if stop_scroll (history t) then 0 else u8 (u8 (top_line_save (history t)) + 1) in
    if top_line_index t =? oldest_line then mret tt
    else set_cur (with_top (u8 (top_line_index t - 1))).

Definition tty_history_scroll_down : M console unit :=
  t ← cur ;
  if negb (status (history t)) then mret tt
  else
    let real_y := u8 (u8 (top_line_save (history t)) + cursor_y t) in
    let cur_y := u8 (top_line_index t + cursor_y t) in
    if real_y =? cur_y then mret tt
    else set_cur (with_top (u8 (top_line_index t + 1))).

Definition tty_framebuffer_scroll_down : M console unit :=
  t ← cur ;
  let top := u8 (top_line_index t + 1) in
  set_cur (with_top top) ;;
  (if top =? 0 then
     set_cur (with_history (TtyHistory (status (history t)) false (top_line_save (history t))))
   else mret tt) ;;
  let bottom_line := u8 (top + (VGA_HEIGHT - 1)) in
  i ← gets current_tty ;
  for_ 80 0 (λ x, fb_store i (bottom_line * VGA_WIDTH + x) (λ _, VgaEntry 0 (mode t))).

Definition tty_framebuffer_write (i c : Z) : M console unit :=
  t ← gets (λ s, ttys s i) ;
  match framebuffer t with
  | None => mret tt
  | Some _ =>
      (if status (history t) then tty_history_disable else mret tt) ;;
      t ← gets (λ s, ttys s i) ;
      let real_y := u8 (top_line_index t + cursor_y t) in
      fb_store i (real_y * VGA_WIDTH + cursor_x t) (λ _, VgaEntry (u8 c) (mode t))
  end.

(** ** Characters *)

(** [while (x >= VGA_WIDTH) { x -= VGA_WIDTH; y++; }] on bytes. *)
Fixpoint wrap_lines (fuel : nat) : M console unit :=
  match fuel with
  | O => hang
  | Datatypes.S fuel =>
      t ← cur ;
      if VGA_WIDTH <=? cursor_x t
      then set_cur (with_cursor (u8 (cursor_x t - VGA_WIDTH)) (u8 (cursor_y t + 1))) ;; wrap_lines fuel
      else mret tt
  end.

(** [while (y >= VGA_HEIGHT) { tty_framebuffer_scroll_down(); y--; }]. *)
Fixpoint scroll_lines (fuel : nat) : M console unit :=
  match fuel with
  | O => hang
  | Datatypes.S fuel =>
      t ← cur ;
      if VGA_HEIGHT <=? cursor_y t then
        tty_framebuffer_scroll_down ;;
        t ← cur ;
        set_cur (with_cursor (cursor_x t) (u8 (cursor_y t - 1))) ;;
        scroll_lines fuel
      else mret tt
  end.

(** The loops that close [ft_putchar]. *)
Definition settle : M console unit := wrap_lines 5 ;; scroll_lines 257.

(** A character that is not a tabulation. *)
Definition put_plain (c : Z) : M console unit :=
  outb_ 1016 c ;;
  t ← cur ;
  (if c =? 10 then set_cur (with_cursor 0 (u8 (cursor_y t + 1)))
   else if c =? 13 then set_cur (with_cursor 0 (cursor_y t))
   else
     i ← gets current_tty ;
     tty_framebuffer_write i c ;;
     set_cur (λ t, with_cursor (u8 (cursor_x t + 1)) (cursor_y t) t)) ;;
  settle.

(** [do { ft_putchar(' '); } while (x % 4);] *)
Fixpoint put_tab (fuel : nat) : M console unit :=
  match fuel with
  | O => hang
  | Datatypes.S fuel =>
      put_plain 32 ;;
      t ← cur ;
      if cursor_x t mod 4 =? 0 then mret tt else put_tab fuel
  end.

Definition ft_putchar (c : Z) : M console unit :=
  if c =? 9 then outb_ 1016 c ;; put_tab 4 ;; settle else put_plain c.

Fixpoint put_all (l : list Z) : M console unit :=
  match l with
  | [] => mret tt
  | c :: l => ft_putchar c ;; put_all l
  end.

Definition vga_vprintf (fmt : list Z) (args : list arg) : M console unit :=
  match format fmt args with
  | None => fault
  | Some l => put_all l ;; vga_refresh_screen
  end.

Definition vga_printf (fmt : string) (args : list arg) : M console unit := vga_vprintf (chars fmt) args.

(** ** Terminals *)

Context (KERNEL_BANNER : list Z).

Definition vga_setup_default_screen : M console unit := vga_printf "%s" [AStr (Some KERNEL_BANNER)].

Definition tty_print_prompt : M console unit := vga_printf "%s" [AStr (Some (chars "$> "))].

Definition tty_init (i : Z) : M console unit :=
  set_tty i (λ _, Tty None 0 (TtyHistory false true 0) 0 0 VGA_DEFAULT_MODE (replicate 256 0)).

Definition tty_framebuffer_init (i : Z) : M console unit :=
  if negb (fb_alloc i) then kpanic "No space left to init ttys."
  else
    set_tty i (with_fb (Some (λ _, VgaEntry 0 0))) ;;
    t ← gets (λ s, ttys s i) ;
    tty_framebuffer_set_screen_mode i (mode t) ;;
    tty_framebuffer_clear i.

Definition tty_load (i : Z) : M console unit :=
  t ← gets (λ s, ttys s i) ;
  match framebuffer t with
  | None => tty_framebuffer_init i ;; vga_setup_default_screen ;; tty_print_prompt
  | Some _ => mret tt
  end ;;
  modify (λ s, Console (ttys s) i (screen s) (ports s) (commands s)) ;;
  vga_refresh_screen.

Definition ttys_init : M console unit :=
  for_ 12 0 tty_init ;;
  tty_load 0 ;;
  vga_enable_cursor 0 16.

(** ** The shell *)

(** [ft_split(cli, ' ')] on the characters before the first zero, when its
    allocations succeed. *)
Fixpoint split_words (word : list Z) (l : list Z) : list (list Z) :=
  match l with
  | [] => if decide (word = []) then [] else [word]
  | c :: l =>
      if c =? 0 then (if decide (word = []) then [] else [word])
      else if c =? 32 then (if decide (word = []) then split_words [] l else word :: split_words [] l)
      else split_words (word ++ [c]) l
  end.

Definition shell_commands : list (string * string) :=
  [("poweroff", "Power off the system."); ("reboot", "Reboot the system."); ("halt", "Halt the system.");
   ("ps", "Display existing process."); ("clear", "Clear the current tty."); ("cafe", "Run the mok process: cafe.");
   ("dead", "Run the mok process: dead."); ("fibo", "Run the mok process: fibo.");
   ("hello", "Run the mok process: hello."); ("pid", "Run the mok process: pid.");
   ("task_info", "Print task data using pid."); ("kill", "Send signal to process.");
   ("lspci", "List PCI devices."); ("lside", "List IDE/ATA drives."); ("lsblk", "List block devices.");
   ("help", "Print this help message.")].

Fixpoint print_commands (l : list (string * string)) : M console unit :=
  match l with
  | [] => mret tt
  | (c, d) :: l =>
      vga_vprintf ([9] ++ chars "%s" ++ [9; 9] ++ chars "%s" ++ [10]) [AStr (Some (chars c)); AStr (Some (chars d))] ;;
      print_commands l
  end.

Definition print_help : M console unit :=
  vga_vprintf (chars "Usage: [command] [options]" ++ [10; 10] ++ chars "Available commands:" ++ [10]) [] ;;
  print_commands shell_commands.

(** [func(argc, argv)]: the commands of the console itself are carried out,
    the others, of other components, only recorded. *)
Definition run_command (cmd : string) (argv : list (list Z)) : M console unit :=
  modify (λ s, Console (ttys s) (current_tty s) (screen s) (ports s) ((cmd, argv) :: commands s)) ;;
  if decide (cmd = "clear"%string) then i ← gets current_tty ; tty_framebuffer_clear i
  else if decide (cmd = "help"%string) then print_help
  else mret tt.

Definition tty_cli_handle_nl : M console unit :=
  vga_vprintf [10] [] ;;
  t ← cur ;
  match cli t with
  | [] => fault
  | c :: _ =>
      (if c =? 0 then mret tt
       else
         let argv := split_words [] (cli t) in
         match argv with
         | [] => mret tt
         | w :: _ =>
             match find (λ x, bool_decide (chars x.1 = w)) shell_commands with
             | Some x => run_command x.1 argv
             | None => vga_vprintf (chars "k1tOS: command not found: %s" ++ [10]) [AStr (Some w)]
             end
         end ;;
         set_cur (with_cli (replicate 256 0))) ;;
      tty_print_prompt
  end.

End Tty.
