(* ===== verification/TtyThm.v ===== *)
(** * The console: the ring of lines is a scrolling screen

    [term] is what a terminal promises: a grid of 25 lines of 80 cells and a
    cursor.  The theorems show that the ring buffer, its byte indices and the
    loops of [ft_putchar] implement it. *)

From S2P Require Import Prelude Memory Tty.

(** ** The abstract terminal *)

Record term := Term { grid : Z → Z → vga_entry; col : Z; row : Z }.

(** The lines move up and the last one is cleared. *)
Definition scroll (m : Z) (t : term) : term :=
  Term (λ x y, if y =? 24 then VgaEntry 0 m else grid t x (y + 1)) (col t) (row t - 1).

(** Back inside the screen. *)
Definition in_screen (m : Z) (t : term) : term :=
  let t := if 80 <=? col t then Term (grid t) (col t - 80) (row t + 1) else t in
  if 25 <=? row t then scroll m t else t.

Definition put1 (m c : Z) (t : term) : term :=
  in_screen m
    (if c =? 10 then Term (grid t) 0 (row t + 1)
     else if c =? 13 then Term (grid t) 0 (row t)
     else Term (λ x y, if (x =? col t) && (y =? row t) then VgaEntry (u8 c) m else grid t x y) (col t + 1) (row t)).

(** A tabulation is one to four spaces, to the next column that is a multiple of 4. *)
Definition put_char (m c : Z) (t : term) : term :=
  if c =? 9 then Nat.iter (Z.to_nat (4 - col t mod 4)) (put1 m 32) t else put1 m c t.

Definition put_string (m : Z) (l : list Z) (t : term) : term := foldl (λ t c, put_char m c t) t l.

Definition term_ok (t : term) : Prop := 0 ≤ col t < 80 ∧ 0 ≤ row t < 25.

(** ** The relation *)

Definition cur_of (s : console) : tty := ttys s (current_tty s).

(** Only the contents and the cursor of the current terminal and the ports may differ. *)
Record others (s s' : console) : Prop := {
  ot_current : current_tty s' = current_tty s;
  ot_ttys : ∀ j, j ≠ current_tty s → ttys s' j = ttys s j;
  ot_cli : cli (cur_of s') = cli (cur_of s);
  ot_screen : screen s' = screen s;
  ot_commands : commands s' = commands s }.

(** The current terminal shows [t]. *)
Record shows (s : console) (m : Z) (t : term) : Prop := {
  sh_cursor : cursor_x (cur_of s) = col t ∧ cursor_y (cur_of s) = row t;
  sh_top : 0 ≤ top_line_index (cur_of s) < 256;
  sh_mode : mode (cur_of s) = m;
  sh_live : status (history (cur_of s)) = false;
  sh_fb : ∃ fb, framebuffer (cur_of s) = Some fb ∧
    ∀ x y, 0 ≤ x < 80 → 0 ≤ y < 25 → fb (u8 (top_line_index (cur_of s) + y) * 80 + x) = grid t x y }.

Lemma others_refl s : others s s.
Proof. done. Qed.

Lemma others_trans s1 s2 s3 : others s1 s2 → others s2 s3 → others s1 s3.
Proof.
  intros [A1 A2 A3 A4 A5] [B1 B2 B3 B4 B5]. split; [congruence| |congruence..].
  intros j Hj. rewrite B2 by congruence. auto.
Qed.

Lemma shows_eq s s' m t : shows s m t → cur_of s' = cur_of s → shows s' m t.
Proof. intros [A B C D E] Ec. split; by rewrite Ec. Qed.

(** ** Steps *)

Lemma wp_returns {S} (c : M S unit) s (Q : S → Prop) : wp c s (λ _ s', Q s') → ∃ s', c s = Done (tt, s') ∧ Q s'.
Proof. intros H. apply wp_run in H as ([] & s' & E & HQ). by exists s'. Qed.


Lemma wp_cur s (Q : tty → console → Prop) : Q (cur_of s) s → wp cur s Q.
Proof. done. Qed.

Lemma wp_set_cur f s (Q : unit → console → Prop) : cli (f (cur_of s)) = cli (cur_of s) →
  (∀ s', others s s' → cur_of s' = f (cur_of s) → Q tt s') → wp (set_cur f) s Q.
Proof.
  intros Hcli HQ. unfold set_cur. apply wp_bind, wp_gets.
  apply HQ; [split; try done|unfold cur_of; simpl; by rewrite Z.eqb_refl].
  - intros j Hj. simpl. by rewrite (proj2 (Z.eqb_neq _ _) Hj).
  - unfold cur_of at 1. simpl. by rewrite Z.eqb_refl.
Qed.

Lemma wp_outb p v s (Q : unit → console → Prop) :
  (∀ s', others s s' → cur_of s' = cur_of s → Q tt s') → wp (outb_ p v) s Q.
Proof. intros HQ. apply HQ; done. Qed.

Lemma wp_fb_store offset f s fb (Q : unit → console → Prop) : framebuffer (cur_of s) = Some fb →
  0 ≤ offset < 80 * 256 →
  (∀ s', others s s' → cur_of s' = with_fb (Some (<[offset := f (fb offset)]> fb)) (cur_of s) → Q tt s') →
  wp (fb_store (current_tty s) offset f) s Q.
Proof.
  intros Hfb Ho HQ. unfold fb_store. apply wp_bind, wp_gets. fold (cur_of s). rewrite Hfb.
  change (VGA_WIDTH * TTY_HIST_SIZE) with (80 * 256).
  rewrite (proj2 (Z.leb_le _ _)), (proj2 (Z.ltb_lt _ _)) by lia. cbn [andb].
  apply HQ; [split; try done|unfold cur_of; simpl; by rewrite Z.eqb_refl].
  - intros j Hj. simpl. by rewrite (proj2 (Z.eqb_neq _ _) Hj).
  - unfold cur_of at 1. simpl. by rewrite Z.eqb_refl.
Qed.

Lemma u8_range z : 0 ≤ u8 z < 256.
Proof. unfold u8. apply Z.mod_pos_bound. lia. Qed.

Lemma u8_inj top y y' : 0 ≤ y < 256 → 0 ≤ y' < 256 → u8 (top + y) = u8 (top + y') → y = y'.
Proof. unfold u8. intros Hy Hy' E. Z.div_mod_to_equations. lia. Qed.

(** Clearing a line. *)
Lemma wp_clear_line r m s fb (Q : unit → console → Prop) : framebuffer (cur_of s) = Some fb → 0 ≤ r < 256 →
  (∀ s' fb', others s s' → cur_of s' = with_fb (Some fb') (cur_of s) →
     (∀ o, fb' o = if decide (r * 80 ≤ o < r * 80 + 80) then VgaEntry 0 m else fb o) → Q tt s') →
  wp (for_ 80 0 (λ x, fb_store (current_tty s) (r * VGA_WIDTH + x) (λ _, VgaEntry 0 m))) s Q.
Proof.
  intros Hfb Hr HQ. eapply wp_mono; [apply (wp_for (λ n s', others s s' ∧ ∃ fb', cur_of s' = with_fb (Some fb') (cur_of s) ∧
    ∀ o, fb' o = if decide (r * 80 ≤ o < r * 80 + n) then VgaEntry 0 m else fb o))|].
  - split; [done|]. exists fb. split; [unfold with_fb; rewrite <- Hfb; by destruct (cur_of s)|].
    intros o. by rewrite decide_False by lia.
  - intros n s1 Hn (Ho & fb1 & E1 & Hf1). replace (current_tty s) with (current_tty s1) by apply Ho.
    apply (wp_fb_store _ _ s1 fb1); [by rewrite E1|unfold VGA_WIDTH; lia|]. intros s2 Ho2 E2.
    split; [by eapply others_trans|]. eexists. split; [rewrite E2, E1; reflexivity|].
    intros o. change VGA_WIDTH with 80. destruct (decide (o = r * 80 + n)) as [->|Hne].
    + rewrite fn_lookup_insert. by rewrite decide_True by lia.
    + rewrite fn_lookup_insert_ne by done. rewrite Hf1. repeat case_decide; done || lia.
  - intros [] s1 (Ho & fb1 & E1 & Hf1). by eapply HQ.
Qed.


(** Moving the cursor. *)
Lemma shows_cursor s s' m t x y : shows s m t → cur_of s' = with_cursor x y (cur_of s) → shows s' m (Term (grid t) x y).
Proof. intros [[A1 A2] B C D (fb & Hfb & Hg)] E. split; rewrite ?E; try done. by exists fb. Qed.

Lemma wp_wrap s m t : shows s m t → 0 ≤ col t ≤ 80 → 0 ≤ row t ≤ 25 →
  wp (wrap_lines 5) s (λ _ s', others s s' ∧
    shows s' m (if 80 <=? col t then Term (grid t) (col t - 80) (row t + 1) else t)).
Proof.
  intros Hs Hc Hr. pose proof (sh_cursor _ _ _ Hs) as [Ex Ey].
  change (wrap_lines 5) with (t ← cur ; if VGA_WIDTH <=? cursor_x t
    then set_cur (with_cursor (u8 (cursor_x t - VGA_WIDTH)) (u8 (cursor_y t + 1))) ;; wrap_lines 4 else mret tt).
  apply wp_bind, wp_cur. rewrite Ex, Ey. change VGA_WIDTH with 80.
  destruct (Z.leb_spec 80 (col t)) as [H80|H80]; [|by apply wp_ret].
  apply wp_bind, wp_set_cur; [done|]. intros s1 Ho E1. assert (u8 (col t - 80) = 0) as E0 by (unfold u8; Z.div_mod_to_equations; lia).
  assert (u8 (row t + 1) = row t + 1) as Er by (unfold u8; apply Z.mod_small; lia).
  assert (shows s1 m (Term (grid t) (col t - 80) (row t + 1))) as Hs1.
  { eapply shows_cursor; [done|]. rewrite E1, E0, Er. f_equal. lia. }
  change (wrap_lines 4) with (t ← cur ; if VGA_WIDTH <=? cursor_x t
    then set_cur (with_cursor (u8 (cursor_x t - VGA_WIDTH)) (u8 (cursor_y t + 1))) ;; wrap_lines 3 else mret tt).
  apply wp_bind, wp_cur. rewrite (proj1 (sh_cursor _ _ _ Hs1)). cbn [col]. change VGA_WIDTH with 80.
  rewrite (proj2 (Z.leb_gt _ _)) by lia. by apply wp_ret.
Qed.

(** One line further down the ring. *)
Lemma wp_scroll_down s m t : shows s m t →
  wp tty_framebuffer_scroll_down s (λ _ s', others s s' ∧
    shows s' m (Term (grid (scroll m t)) (col t) (row t))).
Proof.
  intros Hs. pose proof Hs as [Hc Ht Hm Hlv (fb & Hfb & Hg)]. unfold tty_framebuffer_scroll_down.
  apply wp_bind, wp_cur. set (top := u8 (top_line_index (cur_of s) + 1)). pose proof (u8_range (top_line_index (cur_of s) + 1)) as Htop.
  apply wp_bind, wp_set_cur; [done|]. intros s1 Ho1 E1.
  assert (∀ (Q : unit → console → Prop), (∀ s2, others s s2 → top_line_index (cur_of s2) = top →
      status (history (cur_of s2)) = false → framebuffer (cur_of s2) = Some fb → mode (cur_of s2) = m →
      cursor_x (cur_of s2) = col t → cursor_y (cur_of s2) = row t → Q tt s2) →
    wp (if top =? 0 then set_cur (with_history (TtyHistory (status (history (cur_of s))) false (top_line_save (history (cur_of s)))))
        else mret tt) s1 Q) as Hstep.
  { intros Q HQ. destruct (top =? 0).
    - apply wp_set_cur; [done|]. intros s2 Ho2 E2. apply HQ; [by eapply others_trans|..]; rewrite E2; cbn; try done; rewrite E1; cbn; try done; apply Hc.
    - apply wp_ret. apply HQ; [done|..]; rewrite E1; cbn; try done; apply Hc. }
  apply wp_bind, Hstep. intros s2 Ho2 T1 T2 T3 T4 T5 T6. apply wp_bind, wp_gets.
  pose proof (u8_range (top + (VGA_HEIGHT - 1))) as Hb. rewrite Hm.
  apply (wp_clear_line _ m s2 fb); [done|done|]. intros s3 fb' Ho3 E3 Hfb'.
  split; [by eapply others_trans|]. split; rewrite ?E3; cbn; try done; [by rewrite T1|].
  exists fb'. split; [done|]. intros x y Hx Hy. rewrite Hfb', T1. change (VGA_HEIGHT - 1) with 24 in *. cbn [grid scroll].
  pose proof (u8_range (top + y)) as Hy8. destruct (Z.eqb_spec y 24) as [->|Hne].
  - rewrite decide_True by lia. done.
  - rewrite decide_False.
    + rewrite <- Hg by lia. do 2 f_equal. unfold top, u8. Z.div_mod_to_equations. lia.
    + intros Hin. apply Hne. apply (u8_inj top); [lia|lia|]. lia.
Qed.

Lemma wp_scroll_lines s m t : shows s m t → 0 ≤ row t ≤ 25 →
  wp (scroll_lines 257) s (λ _ s', others s s' ∧ shows s' m (if 25 <=? row t then scroll m t else t)).
Proof.
  intros Hs Hr. assert (∀ n s t, shows s m t → 0 ≤ row t < 25 → wp (scroll_lines (Datatypes.S n)) s (λ _ s', s' = s)) as Hstop.
  { intros n s' t' Hs' Hr'. cbn [scroll_lines]. apply wp_bind, wp_cur. rewrite (proj2 (sh_cursor _ _ _ Hs')).
    change VGA_HEIGHT with 25. rewrite (proj2 (Z.leb_gt _ _)) by lia. by apply wp_ret. }
  destruct (Z.leb_spec 25 (row t)) as [H25|H25].
  2: { eapply wp_mono; [apply (Hstop 256%nat s t); done || lia|]. intros [] s' ->. done. }
  change (scroll_lines 257) with (t ← cur ; if VGA_HEIGHT <=? cursor_y t then
    tty_framebuffer_scroll_down ;; t ← cur ; set_cur (with_cursor (cursor_x t) (u8 (cursor_y t - 1))) ;; scroll_lines 256
    else mret tt).
  apply wp_bind, wp_cur. rewrite (proj2 (sh_cursor _ _ _ Hs)). change VGA_HEIGHT with 25.
  rewrite (proj2 (Z.leb_le _ _)) by lia. apply wp_bind. eapply wp_mono; [by apply wp_scroll_down|].
  intros [] s1 [Ho1 Hs1]. apply wp_bind, wp_cur. destruct (sh_cursor _ _ _ Hs1) as [Ex Ey]. cbn [col row] in Ex, Ey. rewrite Ex, Ey.
  apply wp_bind, wp_set_cur; [done|]. intros s2 Ho2 E2.
  assert (u8 (row t - 1) = row t - 1) as Eu by (unfold u8; apply Z.mod_small; lia). rewrite Eu in E2.
  assert (shows s2 m (scroll m t)) as Hs2 by (exact (shows_cursor _ _ _ _ _ _ Hs1 E2)).
  eapply wp_mono; [apply (Hstop 255%nat s2 (scroll m t)); [done|cbn; lia]|].
  intros [] s' ->. split; [by eapply others_trans|done].
Qed.

Lemma wp_settle s m t : shows s m t → 0 ≤ col t ≤ 80 → 0 ≤ row t ≤ 25 → (col t = 80 → row t ≤ 24) →
  wp settle s (λ _ s', others s s' ∧ shows s' m (in_screen m t)).
Proof.
  intros Hs Hc Hr H80. unfold settle, in_screen. apply wp_bind. eapply wp_mono; [by apply wp_wrap|]. intros [] s1 [Ho1 Hs1].
  assert (0 ≤ row (if 80 <=? col t then Term (grid t) (col t - 80) (row t + 1) else t) ≤ 25) as Hr1.
  { destruct (Z.leb_spec 80 (col t)); cbn [row]; lia. }
  eapply wp_mono; [exact (wp_scroll_lines s1 m _ Hs1 Hr1)|].
  intros [] s2 [Ho2 Hs2]. split; [by eapply others_trans|done].
Qed.

Lemma in_screen_ok m t : 0 ≤ col t ≤ 80 → 0 ≤ row t ≤ 25 → (col t = 80 → row t ≤ 24) → term_ok (in_screen m t).
Proof.
  intros Hc Hr H80. unfold in_screen, term_ok. destruct (Z.leb_spec 80 (col t)); cbn [row col];
    [destruct (Z.leb_spec 25 (row t + 1))|destruct (Z.leb_spec 25 (row t))]; cbn [row col scroll]; lia.
Qed.

Lemma put1_ok m c t : term_ok t → term_ok (put1 m c t).
Proof.
  intros [Hc Hr]. unfold put1. apply in_screen_ok; destruct (c =? 10), (c =? 13); cbn [col row grid]; lia.
Qed.

Section Sim.
Context (inb : Z → Z).

Lemma wp_put_plain s m t c : shows s m t → term_ok t →
  wp (put_plain inb c) s (λ _ s', others s s' ∧ shows s' m (put1 m c t)).
Proof.
  intros Hs [Hc Hr]. unfold put_plain, put1. apply wp_bind, wp_outb. intros s1 Ho1 E1.
  assert (shows s1 m t) as Hs1.
  { destruct Hs as [A B C D E]. split; rewrite E1; done. }
  clear Hs E1. apply wp_bind, wp_cur. pose proof Hs1 as [[Ex Ey] Ht Hm Hlv (fb & Hfb & Hg)].
  assert (∀ s2 t2, others s1 s2 → shows s2 m t2 → 0 ≤ col t2 ≤ 80 → 0 ≤ row t2 ≤ 25 → (col t2 = 80 → row t2 ≤ 24) →
    wp settle s2 (λ _ s', others s s' ∧ shows s' m (in_screen m t2))) as Hend.
  { intros s2 t2 Ho2 Hs2 H1 H2 H3. eapply wp_mono; [by apply wp_settle|]. intros [] s3 [Ho3 Hs3].
    split; [|done]. eapply others_trans; [exact Ho1|]. by eapply others_trans. }
  apply wp_bind. destruct (c =? 10).
  { rewrite Ey. apply wp_set_cur; [done|]. intros s2 Ho2 E2. apply (Hend s2 (Term (grid t) 0 (row t + 1))); cbn [col row]; [done| |lia..].
    eapply shows_cursor; [done|]. rewrite E2. f_equal. unfold u8. apply Z.mod_small. lia. }
  destruct (c =? 13).
  { rewrite Ey. apply wp_set_cur; [done|]. intros s2 Ho2 E2. apply (Hend s2 (Term (grid t) 0 (row t))); cbn [col row]; [done| |lia..].
    by eapply shows_cursor. }
  apply wp_bind, wp_gets. unfold tty_framebuffer_write. apply wp_bind, wp_bind, wp_gets. fold (cur_of s1). rewrite Hfb, Hlv.
  apply wp_bind, wp_ret, wp_bind, wp_gets. fold (cur_of s1). rewrite Ex, Ey, Hm.
  pose proof (u8_range (top_line_index (cur_of s1) + row t)) as Hy8.
  apply (wp_fb_store _ _ s1 fb); [done|change VGA_WIDTH with 80; lia|]. intros s2 Ho2 E2.
  apply wp_set_cur; [done|]. intros s3 Ho3 E3.
  apply (Hend s3 (Term (λ x y, if (x =? col t) && (y =? row t) then VgaEntry (u8 c) m else grid t x y) (col t + 1) (row t)));
    cbn [col row]; [by eapply others_trans| |lia..].
  assert (u8 (col t + 1) = col t + 1) as Eu by (unfold u8; apply Z.mod_small; lia).
  split; rewrite ?E3, ?E2; cbn; try done; [by rewrite Ex, Ey, Eu|].
  eexists. split; [done|]. intros x y Hx Hy. cbn [grid]. change VGA_WIDTH with 80.
  pose proof (u8_range (top_line_index (cur_of s1) + y)) as Hy8'.
  destruct (Z.eqb_spec x (col t)) as [->|Hnx]; [destruct (Z.eqb_spec y (row t)) as [->|Hny]|]; cbn [andb].
  - by rewrite fn_lookup_insert.
  - rewrite fn_lookup_insert_ne; [auto|]. intros E. apply Hny, (u8_inj (top_line_index (cur_of s1))); lia.
  - rewrite fn_lookup_insert_ne; [auto|]. lia.
Qed.

Lemma put1_space_col m t : term_ok t → col (put1 m 32 t) = (if col t =? 79 then 0 else col t + 1).
Proof.
  intros [Hc Hr]. unfold put1, in_screen. change (32 =? 10) with false. change (32 =? 13) with false. cbn [col row grid].
  destruct (Z.leb_spec 80 (col t + 1)), (Z.eqb_spec (col t) 79); cbn [row col]; try lia; case_match; cbn [row col scroll]; lia.
Qed.

Lemma in_screen_id m t : term_ok t → in_screen m t = t.
Proof.
  intros [Hc Hr]. unfold in_screen. by rewrite (proj2 (Z.leb_gt 80 (col t))), (proj2 (Z.leb_gt 25 (row t))) by lia.
Qed.

Lemma wp_put_tab n s m t : shows s m t → term_ok t → 4 - col t mod 4 ≤ Z.of_nat n →
  wp (put_tab inb n) s (λ _ s', others s s' ∧ shows s' m (put_char m 9 t) ∧ term_ok (put_char m 9 t)).
Proof.
  unfold put_char. change (9 =? 9) with true. cbn iota.
  revert s t. induction n as [|n IH]; intros s t Hs Hok Hn; pose proof (Z.mod_pos_bound (col t) 4 ltac:(lia)) as Hm; [lia|].
  cbn [put_tab]. apply wp_bind. eapply wp_mono; [by apply wp_put_plain|]. intros [] s1 [Ho1 Hs1].
  pose proof (put1_ok m 32 t Hok) as Hok1. pose proof (put1_space_col m t Hok) as Hcol.
  apply wp_bind, wp_cur. rewrite (proj1 (sh_cursor _ _ _ Hs1)).
  assert (col (put1 m 32 t) mod 4 = (col t mod 4 + 1) mod 4) as Hmod.
  { rewrite Hcol. destruct (Z.eqb_spec (col t) 79) as [->|]; [done|]. Z.div_mod_to_equations. lia. }
  destruct (Z.eqb_spec (col (put1 m 32 t) mod 4) 0) as [E|E].
  - replace (Z.to_nat (4 - col t mod 4)) with 1%nat by (rewrite Hmod in E; Z.div_mod_to_equations; lia). by apply wp_ret.
  - assert (col (put1 m 32 t) mod 4 = col t mod 4 + 1) as E'.
    { rewrite Hmod in E |- *. apply Z.mod_small. split; [lia|]. destruct (decide (col t mod 4 = 3)) as [E3|]; [by rewrite E3 in E|lia]. }
    replace (Z.to_nat (4 - col t mod 4)) with (Datatypes.S (Z.to_nat (4 - col (put1 m 32 t) mod 4))) by lia.
    rewrite Nat.iter_succ_r. eapply wp_mono; [apply (IH s1 _ Hs1 Hok1); lia|].
    intros [] s2 (Ho2 & Hs2 & Hok2). split_and!; [by eapply others_trans|done..].
Qed.

Lemma wp_ft_putchar c s m t : shows s m t → term_ok t →
  wp (ft_putchar inb c) s (λ _ s', others s s' ∧ shows s' m (put_char m c t) ∧ term_ok (put_char m c t)).
Proof.
  intros Hs Hok. unfold ft_putchar. destruct (Z.eqb_spec c 9) as [->|Hc].
  - apply wp_bind, wp_outb. intros s1 Ho1 E1. apply wp_bind.
    eapply wp_mono; [apply (wp_put_tab 4 s1 m t)|].
    { destruct Hs. split; rewrite E1; done. }
    { done. }
    { pose proof (Z.mod_pos_bound (col t) 4 ltac:(lia)). lia. }
    intros [] s2 (Ho2 & Hs2 & Hok2). eapply wp_mono.
    { apply (wp_settle s2 m _ Hs2); destruct Hok2; lia. }
    rewrite (in_screen_id m _ Hok2). intros [] s3 [Ho3 Hs3]. split_and!; [|done..].
    eapply others_trans; [exact Ho1|]. by eapply others_trans.
  - unfold put_char. rewrite (proj2 (Z.eqb_neq _ _) Hc). eapply wp_mono; [by apply wp_put_plain|].
    intros [] s1 [Ho1 Hs1]. auto using put1_ok.
Qed.

Lemma wp_put_all l s m t : shows s m t → term_ok t →
  wp (put_all inb l) s (λ _ s', others s s' ∧ shows s' m (put_string m l t) ∧ term_ok (put_string m l t)).
Proof.
  revert s t. induction l as [|c l IH]; intros s t Hs Hok; cbn [put_all put_string foldl]; [by apply wp_ret|].
  apply wp_bind. eapply wp_mono; [by apply wp_ft_putchar|]. intros [] s1 (Ho1 & Hs1 & Hok1).
  eapply wp_mono; [by apply IH|]. intros [] s2 (Ho2 & Hs2 & Hok2). split_and!; [by eapply others_trans|done..].
Qed.

End Sim.

(** ** The screen *)

(** The cell of the memory at 0xB8000 for column [x] of line [y]. *)
Definition cell (s : console) (x y : Z) : vga_entry := screen s (y * 80 + x).

Lemma wp_refresh s t fb : framebuffer (cur_of s) = Some fb →
  (∀ x y, 0 ≤ x < 80 → 0 ≤ y < 25 → fb (u8 (top_line_index (cur_of s) + y) * 80 + x) = grid t x y) →
  cursor_x (cur_of s) = col t → cursor_y (cur_of s) = row t → term_ok t →
  wp vga_refresh_screen s (λ _ s', ttys s' = ttys s ∧ current_tty s' = current_tty s ∧ commands s' = commands s ∧
    (∀ x y, 0 ≤ x < 80 → 0 ≤ y < 25 → cell s' x y = grid t x y) ∧
    (∀ o, o < 0 ∨ 2000 ≤ o → screen s' o = screen s o) ∧
    ∃ before, ports s' = (981, (row t * 80 + col t) / 256) :: (980, 14) :: (981, (row t * 80 + col t) mod 256) :: (980, 15) :: before).
Proof.
  intros Hfb Hg Ex Ey [Hc Hr]. unfold vga_refresh_screen. apply wp_bind, wp_cur. rewrite Hfb.
  apply wp_bind, wp_modify. unfold vga_set_cursor_position. rewrite Ex, Ey.
  repeat (first [apply wp_bind|apply wp_modify]). split_and!; [done..| | |].
  - intros x y Hx Hy. unfold cell. cbn [screen]. change (VGA_WIDTH * VGA_HEIGHT) with 2000. change VGA_WIDTH with 80.
    rewrite (proj2 (Z.leb_le _ _)), (proj2 (Z.ltb_lt _ _)) by lia. cbn [andb].
    replace ((y * 80 + x) / 80) with y by (Z.div_mod_to_equations; lia).
    replace ((y * 80 + x) mod 80) with x by (Z.div_mod_to_equations; lia). auto.
  - intros o Ho. cbn [screen]. change (VGA_WIDTH * VGA_HEIGHT) with 2000.
    destruct (Z.leb_spec 0 o), (Z.ltb_spec o 2000); cbn [andb]; done || lia.
  - cbn [ports]. eexists. change VGA_WIDTH with 80. repeat f_equal; try done.
    unfold u8. rewrite Z.shiftr_div_pow2 by lia. change (2 ^ 8) with 256. apply Z.mod_small. Z.div_mod_to_equations. lia.
Qed.

(** What printing the characters that make [t'] leaves. *)
Record printed (s : console) (m : Z) (t' : term) (s' : console) : Prop := {
  pr_shows : shows s' m t';
  pr_ok : term_ok t';
  pr_cells : ∀ x y, 0 ≤ x < 80 → 0 ≤ y < 25 → cell s' x y = grid t' x y;
  pr_cursor : ∃ before, ports s' =
    (981, (row t' * 80 + col t') / 256) :: (980, 14) :: (981, (row t' * 80 + col t') mod 256) :: (980, 15) :: before;
  pr_current : current_tty s' = current_tty s;
  pr_commands : commands s' = commands s;
  pr_ttys : ∀ j, j ≠ current_tty s → ttys s' j = ttys s j;
  pr_outside : ∀ o, o < 0 ∨ 2000 ≤ o → screen s' o = screen s o;
  pr_cli : cli (cur_of s') = cli (cur_of s) }.

Lemma wp_vprintf inb fmt args l s m t : format fmt args = Some l → shows s m t → term_ok t →
  wp (vga_vprintf inb fmt args) s (λ _ s', printed s m (put_string m l t) s').
Proof.
  intros Hf Hs Hok. unfold vga_vprintf. rewrite Hf. apply wp_bind. eapply wp_mono; [by apply wp_put_all|].
  intros [] s1 ([C1 T1 L1 S1 K1] & Hs1 & Hok1). pose proof Hs1 as [[Ex Ey] _ _ _ (fb & Hfb & Hg)].
  eapply wp_mono; [by apply (wp_refresh s1 (put_string m l t) fb)|].
  intros [] s2 (ET & EC & EK & Hcell & Hout & Hp). assert (cur_of s2 = cur_of s1) as Ecur by (unfold cur_of; by rewrite ET, EC).
  split; [by eapply shows_eq|done..|congruence|congruence|intros j Hj; rewrite ET; auto|intros o Ho; rewrite Hout by done; by rewrite S1|congruence].
Qed.

(** C16: the ring of 256 lines with its byte indices implements a scrolling
    terminal.  From a current terminal that shows the grid and cursor of [t],
    printing a format whose conversions give the characters [l] returns; the
    terminal then shows the result of putting the characters of [l] one after
    the other (line feed, carriage return, tabulation, wrapping at column 80
    and scrolling at line 25 included); the memory of the display has exactly
    that grid and the display's cursor registers its cursor; no other
    terminal, and no byte of the display's memory beyond the 2000 cells, has
    changed. *)
Theorem console_refines inb fmt args l s m t : format fmt args = Some l → shows s m t → term_ok t →
  ∃ s', vga_vprintf inb fmt args s = Done (tt, s') ∧
    let t' := put_string m l t in
    shows s' m t' ∧ term_ok t' ∧
    (∀ x y, 0 ≤ x < 80 → 0 ≤ y < 25 → cell s' x y = grid t' x y) ∧
    (∃ before, ports s' = (981, (row t' * 80 + col t') / 256) :: (980, 14) :: (981, (row t' * 80 + col t') mod 256) :: (980, 15) :: before) ∧
    current_tty s' = current_tty s ∧ commands s' = commands s ∧
    (∀ j, j ≠ current_tty s → ttys s' j = ttys s j) ∧
    (∀ o, o < 0 ∨ 2000 ≤ o → screen s' o = screen s o).
Proof.
  intros Hf Hs Hok. apply wp_returns. eapply wp_mono; [by apply wp_vprintf|]. intros [] s' []. done.
Qed.

(** ** Loading a terminal *)

(** Only terminal [i] differs, and it is now [t]. *)
Record only (i : Z) (t : tty) (s s' : console) : Prop := {
  on_tty : ttys s' i = t;
  on_others : ∀ j, j ≠ i → ttys s' j = ttys s j;
  on_current : current_tty s' = current_tty s;
  on_screen : screen s' = screen s;
  on_commands : commands s' = commands s }.

Lemma wp_set_tty i f s (Q : unit → console → Prop) :
  (∀ s', only i (f (ttys s i)) s s' → Q tt s') → wp (set_tty i f) s Q.
Proof.
  intros HQ. apply HQ. split; try done; cbn; [by rewrite Z.eqb_refl|]. intros j Hj. by rewrite (proj2 (Z.eqb_neq _ _) Hj).
Qed.

Lemma only_trans i t1 t2 s s1 s2 : only i t1 s s1 → only i t2 s1 s2 → only i t2 s s2.
Proof.
  intros [A B C D E] [A' B' C' D' E']. split; [done| |congruence..]. intros j Hj. rewrite B' by done. auto.
Qed.

(** A terminal whose ring is blank. *)
Definition blank (t : tty) : Prop :=
  ∃ fb, framebuffer t = Some fb ∧ (∀ o, 0 ≤ o < 80 * 256 → fb o = VgaEntry 0 (mode t)) ∧
    top_line_index t = 0 ∧ cursor_x t = 0 ∧ cursor_y t = 0.

Lemma wp_framebuffer_init fb_alloc i s : fb_alloc i = true →
  wp (tty_framebuffer_init fb_alloc i) s (λ _ s', ∃ t, only i t s s' ∧ blank t ∧ mode t = mode (ttys s i) ∧ history t = history (ttys s i)).
Proof.
  intros Ha. unfold tty_framebuffer_init. rewrite Ha. cbn [negb].
  apply wp_bind, wp_set_tty. intros s1 O1. apply wp_bind, wp_gets, wp_bind. unfold tty_framebuffer_set_screen_mode.
  rewrite (on_tty _ _ _ _ O1). apply wp_bind, wp_set_tty. intros s2 O2. rewrite (on_tty _ _ _ _ O1) in O2.
  apply wp_bind, wp_gets. rewrite (on_tty _ _ _ _ O2). cbn [framebuffer with_mode with_fb].
  apply wp_set_tty. intros s3 O3. rewrite (on_tty _ _ _ _ O2) in O3.
  unfold tty_framebuffer_clear. apply wp_bind, wp_gets. rewrite (on_tty _ _ _ _ O3). cbn [framebuffer with_mode with_fb].
  apply wp_bind, wp_set_tty. intros s4 O4. rewrite (on_tty _ _ _ _ O3) in O4.
  apply wp_bind, wp_set_tty. intros s5 O5. rewrite (on_tty _ _ _ _ O4) in O5.
  apply wp_set_tty. intros s6 O6. rewrite (on_tty _ _ _ _ O5) in O6.
  eexists. split; [do 5 (eapply only_trans; [eassumption|]); exact O6|]. split; [|done].
  eexists. split; [reflexivity|]. split; [|done]. intros o Ho. cbn. change (VGA_WIDTH * TTY_HIST_SIZE) with (80 * 256).
  by rewrite (proj2 (Z.leb_le _ _)), (proj2 (Z.ltb_lt _ _)) by lia.
Qed.

(** The console with terminal [i] in front. *)
Definition switched (i : Z) (s : console) : console := Console (ttys s) i (screen s) (ports s) (commands s).

Lemma format_string l : format (chars "%s") [AStr (Some l)] = Some l.
Proof. change (Some (l ++ []) = Some l). by rewrite app_nil_r. Qed.

(** A string printed on the current terminal. *)
Lemma wp_print_string inb l s m t : shows s m t → term_ok t →
  wp (vga_printf inb "%s" [AStr (Some l)]) s (λ _ s', printed s m (put_string m l t) s').
Proof. apply wp_vprintf, format_string. Qed.

(** The first switch to a terminal prints its banner and its prompt on the
    terminal that is being left.  [tty_load] of a terminal [i] that has no
    frame buffer yet prints before it changes [current_tty]: afterwards [i] is
    in front with a blank ring and a blank screen, and the terminal that was
    in front shows, after its own contents, the banner and the prompt meant
    for [i]. *)
Theorem first_load_prints_elsewhere fb_alloc inb banner i s m t :
  shows s m t → term_ok t → i ≠ current_tty s → framebuffer (ttys s i) = None → fb_alloc i = true →
  ∃ s', tty_load fb_alloc inb banner i s = Done (tt, s') ∧ current_tty s' = i ∧ blank (ttys s' i) ∧
    (∀ x y, 0 ≤ x < 80 → 0 ≤ y < 25 → cell s' x y = VgaEntry 0 (mode (ttys s i))) ∧
    shows (switched (current_tty s) s') m (put_string m (chars "$> ") (put_string m banner t)).
Proof.
  intros Hs Hok Hi Hnone Ha. apply wp_returns.
  unfold tty_load. apply wp_bind, wp_gets. rewrite Hnone. apply wp_bind, wp_bind.
  eapply wp_mono; [by apply wp_framebuffer_init|]. intros [] s1 (ti & O1 & Hb & Hmi & _). pose proof O1 as [A1 B1 C1 _ _].
  assert (shows s1 m t) as Hs1. { eapply shows_eq; [done|]. unfold cur_of. by rewrite C1, B1. }
  apply wp_bind. eapply wp_mono; [by apply wp_print_string|]. intros [] s2 [Hs2 Hok2 _ _ C2 _ T2 _ _].
  eapply wp_mono; [by apply wp_print_string|]. intros [] s3 [Hs3 Hok3 _ _ C3 _ T3 _ _].
  apply wp_bind, wp_modify. assert (ttys s3 i = ti) as Eti by (rewrite T3, T2 by congruence; done).
  destruct Hb as (fb & Hfb & Hfz & Hbt & Hbx & Hby).
  assert (∀ y, 0 ≤ y < 25 → u8 (top_line_index ti + y) = y) as Eu by (intros y Hy; rewrite Hbt; unfold u8; apply Z.mod_small; lia).
  eapply wp_mono; [apply (wp_refresh (switched i s3) (Term (λ _ _, VgaEntry 0 (mode ti)) 0 0) fb);
    unfold cur_of; cbn [switched ttys current_tty col row grid]; rewrite ?Eti; try done|].
  - intros x y Hx Hy. rewrite Eu by done. apply Hfz. lia.
  - intros [] s4 (ET & EC & _ & Hcell & _). cbn in ET, EC. split; [done|]. rewrite ET, Eti. split; [by exists fb|].
    split; [intros x y Hx Hy; rewrite Hcell by done; by rewrite <- Hmi|].
    eapply shows_eq; [exact Hs3|]. unfold cur_of, switched. cbn. rewrite ET. f_equal. congruence.
Qed.

(** ** Instances *)

Definition booted_tty (i : Z) : tty :=
  Tty (if i =? 0 then Some (λ _, VgaEntry 0 31) else None) 0 (TtyHistory false true 0) 0 0 31 (replicate 256 0).

(** Twelve terminals, the first one with a blank ring, in front. *)
Definition booted : console := Console booted_tty 0 (λ _, VgaEntry 0 0) [] [].

Definition blank_term : term := Term (λ _ _, VgaEntry 0 31) 0 0.

Lemma booted_shows : shows booted 31 blank_term.
Proof. split; [done..|]. exists (λ _, VgaEntry 0 31). split; [done|]. by intros x y Hx Hy. Qed.

Lemma blank_ok : term_ok blank_term.
Proof. unfold term_ok. cbn. lia. Qed.

Lemma console_refines_witness : shows booted 31 blank_term ∧
  ∃ s', vga_vprintf (λ _, 0) (chars "a%u" ++ [10]) [AInt 42] booted = Done (tt, s') ∧ cell s' 2 0 = VgaEntry 50 31 ∧ row (put_string 31 [97; 52; 50; 10] blank_term) = 1.
Proof.
  split; [exact booted_shows|].
  destruct (console_refines (λ _, 0) (chars "a%u" ++ [10]) [AInt 42] [97; 52; 50; 10] booted 31 blank_term) as (s' & E & _ & _ & Hc & _);
    [reflexivity|exact booted_shows|exact blank_ok|]. exists s'. split; [exact E|]. rewrite Hc by lia. clear E Hc.
  split; vm_compute; reflexivity.
Defined.

Lemma first_load_prints_elsewhere_witness : ∃ s', tty_load (λ _, true) (λ _, 0) (chars "kfs") 1 booted = Done (tt, s') ∧
  current_tty s' = 1 ∧ blank (ttys s' 1).
Proof.
  destruct (first_load_prints_elsewhere (λ _, true) (λ _, 0) (chars "kfs") 1 booted 31 blank_term) as (s' & E & Hc & Hb & _);
    [exact booted_shows|exact blank_ok|done|done|done|].
  exact (ex_intro _ s' (conj E (conj Hc Hb))).
Defined.
