(* ===== verification/TtyFormat.v ===== *)
(** * The console: the conversions of [vga_printf] print numerals *)

From S2P Require Import Prelude Memory Tty.

(** ** Numerals *)

Definition value (base : Z) (ds : list Z) : Z := foldl (λ a d, a * base + d) 0 ds.

(** [ds], most significant first, is the numeral of [n]: no leading zero but
    in the numeral of 0 itself. *)
Record is_numeral (base n : Z) (ds : list Z) : Prop := {
  nu_digits : Forall (λ d, 0 ≤ d < base) ds;
  nu_value : value base ds = n;
  nu_cons : ds ≠ [];
  nu_lead : ∀ ds', ds = 0 :: ds' → ds' = [] }.

Lemma value_snoc b ds d : value b (ds ++ [d]) = value b ds * b + d.
Proof. unfold value. by rewrite foldl_snoc. Qed.

Lemma value_nonneg b ds : 0 ≤ b → Forall (λ d, 0 ≤ d < b) ds → 0 ≤ value b ds.
Proof.
  intros Hb. induction ds as [|d ds IH] using rev_ind; [done|]. rewrite Forall_app, Forall_singleton, value_snoc.
  intros [Hds Hd]. specialize (IH Hds). nia.
Qed.

Lemma numeral_digit b n : 0 ≤ n < b → is_numeral b n [n].
Proof. intros Hn. split; [by constructor| |done|]; [unfold value; cbn; lia|]. by intros ds' [= -> <-]. Qed.

Lemma numeral_snoc b n ds : 2 ≤ b → b ≤ n → is_numeral b (n / b) ds → is_numeral b n (ds ++ [n mod b]).
Proof.
  intros Hb Hn [Hd Hv Hne Hl]. pose proof (Z.mod_pos_bound n b ltac:(lia)). split.
  - apply Forall_app. split; [done|]. by constructor.
  - rewrite value_snoc, Hv. pose proof (Z.div_mod n b). nia.
  - intros E. by apply app_eq_nil in E as [_ ?].
  - intros ds' E. destruct ds as [|d ds]; [done|]. cbn in E. injection E as -> <-. rewrite (Hl ds eq_refl) in Hv.
    unfold value in Hv. cbn in Hv. assert (0 < n / b) by (apply Z.div_str_pos; lia). lia.
Qed.

(** A number has one numeral. *)
Lemma numeral_inv b n ds : 2 ≤ b → is_numeral b n ds →
  (n < b ∧ ds = [n]) ∨ (b ≤ n ∧ ∃ ds', ds = ds' ++ [n mod b] ∧ is_numeral b (n / b) ds').
Proof.
  intros Hb [Hd Hv Hne Hl]. destruct ds as [|d ds _] using rev_ind; [done|]. rewrite value_snoc in Hv.
  apply Forall_app in Hd as [Hds Hd]. rewrite Forall_singleton in Hd. cbn beta in Hd.
  assert (d = n mod b) as -> by (apply (Z.mod_unique n b (value b ds)); lia).
  assert (value b ds = n / b) as E by (apply (Z.div_unique n b _ (n mod b)); lia).
  destruct (decide (ds = [])) as [->|Hds0].
  { left. unfold value in Hv. cbn in Hv. split; [lia|]. cbn. f_equal. lia. }
  assert (∀ ds', ds = 0 :: ds' → ds' = []) as Hl'.
  { intros ds' ->. specialize (Hl (ds' ++ [n mod b]) eq_refl). by apply app_eq_nil in Hl as [_ ?]. }
  right. split; [|exists ds; by split].
  assert (value b ds ≠ 0) as Hz.
  { intros Hz. destruct ds as [|d ds]; [done|]. assert (d ≠ 0) as Hd0.
    { intros ->. specialize (Hl (ds ++ [n mod b]) eq_refl). by apply app_eq_nil in Hl as [_ ?]. }
    apply Hd0. clear -Hz Hds Hb. revert Hz Hds. induction ds as [|d2 ds IH] using rev_ind; intros Hz Hds.
    - unfold value in Hz. cbn in Hz. lia.
    - change (d :: ds ++ [d2]) with ((d :: ds) ++ [d2]) in *. rewrite value_snoc in Hz. apply Forall_app in Hds as [Hds H2].
      rewrite Forall_singleton in H2. cbn beta in H2. pose proof (value_nonneg b _ ltac:(lia) Hds). apply IH; [nia|done]. }
  pose proof (value_nonneg b _ ltac:(lia) Hds). nia.
Qed.

Lemma numeral_unique b n ds ds' : 2 ≤ b → is_numeral b n ds → is_numeral b n ds' → ds = ds'.
Proof.
  intros Hb. revert n ds'. induction ds as [|d ds IH] using rev_ind; intros n ds' H H'.
  { by destruct (nu_cons _ _ _ H). }
  destruct (numeral_inv b n _ Hb H) as [[Hn E]|(Hn & ds1 & E & H1)], (numeral_inv b n _ Hb H') as [[Hn' E']|(Hn' & ds2 & E' & H2)];
    try lia; [congruence|]. apply app_inj_tail in E as [-> ->]. rewrite E'. f_equal. by apply (IH (n / b)).
Qed.

(** ** The recursions *)

Definition decimal : list Z → list Z := map (λ d, d + 48).

(** A number below 10 to the fuel. *)
Lemma putnbr_nonneg k n : 0 ≤ n < 10 ^ Z.of_nat k → (0 < k)%nat →
  ∃ ds, is_numeral 10 n ds ∧ ft_putnbr k n = Some (decimal ds).
Proof.
  revert n. induction k as [|k IH]; intros n Hn Hk; [lia|]. cbn [ft_putnbr].
  rewrite (proj2 (Z.eqb_neq _ _)), (proj2 (Z.ltb_ge _ _)) by lia. destruct (Z.leb_spec 10 n) as [H10|H10].
  - assert (0 < k)%nat as Hk0. { destruct k; [cbn in Hn; lia|lia]. }
    rewrite Nat2Z.inj_succ, Z.pow_succ_r in Hn by lia.
    destruct (IH (n / 10)) as (ds & Hds & ->); [split; [apply Z.div_pos; lia|apply Z.div_lt_upper_bound; lia]|done|].
    pose proof (Z.mod_pos_bound n 10 ltac:(lia)) as Hm.
    destruct (IH (n mod 10)) as (ds1 & H1 & ->); [|done|].
    { split; [lia|]. eapply Z.lt_le_trans; [apply Hm|]. change 10 with (10 ^ 1) at 1. apply Z.pow_le_mono_r; lia. }
    rewrite (numeral_unique 10 _ _ _ ltac:(lia) H1 (numeral_digit 10 _ Hm)).
    exists (ds ++ [n mod 10]). split; [apply numeral_snoc; lia || done|]. cbn. unfold decimal. by rewrite map_app.
  - exists [n]. split; [apply numeral_digit; lia|done].
Qed.

Lemma putnbr_neg k n : n < 0 → n ≠ -2147483648 →
  ft_putnbr (Datatypes.S k) n = (r ← ft_putnbr k (n * -1) ; Some (45 :: r)).
Proof. intros Hn Hne. cbn [ft_putnbr]. by rewrite (proj2 (Z.eqb_neq _ _)), (proj2 (Z.ltb_lt _ _)). Qed.

Definition hexadecimal (upper : bool) : list Z → list Z := map (hex_digit upper).

Lemma puthexa_numeral k n upper : 0 ≤ n < 16 ^ Z.of_nat k → (0 < k)%nat →
  ∃ ds, is_numeral 16 n ds ∧ puthexa k n upper = Some (hexadecimal upper ds).
Proof.
  revert n. induction k as [|k IH]; intros n Hn Hk; [lia|]. cbn [puthexa]. destruct (Z.ltb_spec n 16) as [H16|H16].
  { exists [n]. split; [apply numeral_digit; lia|done]. }
  assert (0 < k)%nat as Hk0. { destruct k; [cbn in Hn; lia|lia]. }
  rewrite Nat2Z.inj_succ, Z.pow_succ_r in Hn by lia.
  destruct (IH (n / 16)) as (ds & Hds & ->); [split; [apply Z.div_pos; lia|apply Z.div_lt_upper_bound; lia]|done|].
  pose proof (Z.mod_pos_bound n 16 ltac:(lia)) as Hm.
  destruct (IH (n mod 16)) as (ds1 & H1 & ->); [|done|].
  { split; [lia|]. eapply Z.lt_le_trans; [apply Hm|]. change 16 with (16 ^ 1) at 1. apply Z.pow_le_mono_r; lia. }
  rewrite (numeral_unique 16 _ _ _ ltac:(lia) H1 (numeral_digit 16 _ Hm)).
  exists (ds ++ [n mod 16]). split; [apply numeral_snoc; lia || done|]. cbn. unfold hexadecimal. by rewrite map_app.
Qed.

(** The decimal numeral of [n], with its sign. *)
Definition prints_signed (n : Z) (l : list Z) : Prop :=
  ∃ ds, is_numeral 10 (Z.abs n) ds ∧ l = (if n <? 0 then [45] else []) ++ decimal ds.

Lemma putnbr_signed n : -2147483648 ≤ n < 2147483648 → ∃ l, ft_putnbr NBR_FUEL n = Some l ∧ prints_signed n l.
Proof.
  intros Hn. destruct (Z.eqb_spec n (-2147483648)) as [->|Hne].
  { eexists. split; [vm_compute; reflexivity|]. exists [2;1;4;7;4;8;3;6;4;8].
    split; [|reflexivity]. split; [by repeat constructor|done|done|done]. }
  unfold NBR_FUEL. destruct (Z.ltb_spec n 0) as [Hneg|Hpos].
  - destruct (putnbr_nonneg 12 (n * -1)) as (ds & Hds & E); [cbn; lia|lia|].
    rewrite putnbr_neg, E by lia. eexists. split; [reflexivity|].
    exists ds. split; [|by rewrite (proj2 (Z.ltb_lt _ _)) by lia]. by replace (Z.abs n) with (n * -1) by lia.
  - destruct (putnbr_nonneg 13 n) as (ds & Hds & E); [cbn; lia|lia|]. eexists. split; [exact E|].
    exists ds. rewrite (proj2 (Z.ltb_ge _ _)), Z.abs_eq by lia. done.
Qed.

Lemma putunsigned_numeral n : 0 ≤ n < W32 → ∃ ds, is_numeral 10 n ds ∧ ft_putunsignednbr n = Some (decimal ds).
Proof.
  unfold W32. intros Hn. unfold ft_putunsignednbr. destruct (Z.leb_spec 10 n) as [H10|H10].
  2: { exists [n]. split; [apply numeral_digit; lia|done]. }
  assert (s32 (n / 10) = n / 10) as ->.
  { unfold s32, u32, W32. rewrite Z.mod_small by (Z.div_mod_to_equations; lia).
    by rewrite (proj2 (Z.ltb_lt _ _)) by (Z.div_mod_to_equations; lia). }
  destruct (putnbr_nonneg 13 (n / 10)) as (ds & Hds & E); [cbn; Z.div_mod_to_equations; lia|lia|].
  pose proof (Z.mod_pos_bound n 10 ltac:(lia)) as Hm.
  destruct (putnbr_nonneg 13 (n mod 10)) as (ds1 & H1 & E1); [cbn; lia|lia|].
  rewrite (numeral_unique 10 _ _ _ ltac:(lia) H1 (numeral_digit 10 _ Hm)) in E1.
  unfold NBR_FUEL. rewrite E, E1. exists (ds ++ [n mod 10]). split; [apply numeral_snoc; lia || done|]. cbn. unfold decimal. by rewrite map_app.
Qed.

Lemma s32_range z : -2147483648 ≤ s32 z < 2147483648.
Proof.
  unfold s32. pose proof (Z.mod_pos_bound z W32 ltac:(done)) as H. change (z mod W32) with (u32 z) in H. unfold W32 in *.
  destruct (Z.ltb_spec (u32 z) 2147483648); lia.
Qed.

(** C23: the conversions of [vga_printf] print the number.  For every 32-bit
    pattern, [%d] and [%i] give the decimal numeral of its signed reading
    with a minus sign exactly when that is negative (the least integer, which
    has no opposite, included), [%u] the decimal numeral of the unsigned
    reading, [%x] and [%X] its hexadecimal numeral in lower and in upper case
    and [%p] the same after "0x"; no digit is missing, no zero leads, and the
    recursion is never deeper than its bound. *)
Theorem number_conversions n args : 0 ≤ n < W32 →
  (∀ d, d = 100 ∨ d = 105 → ∃ l, convert d (AInt n :: args) = Some (l, args) ∧ prints_signed (s32 n) l) ∧
  (∃ ds, is_numeral 10 n ds ∧ convert 117 (AInt n :: args) = Some (decimal ds, args)) ∧
  (∃ ds, is_numeral 16 n ds ∧ convert 120 (AInt n :: args) = Some (hexadecimal false ds, args) ∧
     convert 88 (AInt n :: args) = Some (hexadecimal true ds, args) ∧
     convert 112 (AInt n :: args) = Some (48 :: 120 :: hexadecimal false ds, args)).
Proof.
  intros Hn. split; [|split].
  - intros d Hd. destruct (putnbr_signed (s32 n) (s32_range n)) as (l & E & Hl). exists l. split; [|done].
    destruct Hd as [-> | ->]; cbn -[ft_putnbr s32 NBR_FUEL]; by rewrite E.
  - destruct (putunsigned_numeral n Hn) as (ds & Hds & E). exists ds. split; [done|].
    cbn -[ft_putunsignednbr]. by rewrite E.
  - destruct (puthexa_numeral 9 n false) as (ds & Hds & E); [unfold W32 in Hn; cbn; lia|lia|].
    destruct (puthexa_numeral 9 n true) as (ds' & Hds' & E'); [unfold W32 in Hn; cbn; lia|lia|].
    rewrite (numeral_unique 16 _ _ _ ltac:(lia) Hds' Hds) in E'. exists ds.
    split; [done|]. cbn -[ft_puthexa]. unfold ft_puthexa. rewrite E, E'. done.
Qed.

Lemma number_conversions_witness : 0 ≤ 3735928559 < W32 ∧
  ∃ ds, is_numeral 10 3735928559 ds ∧ convert 117 [AInt 3735928559] = Some (decimal ds, []).
Proof. split; [by vm_compute|]. apply (number_conversions 3735928559 []). by vm_compute. Defined.
