(* ===== verification/Keyboard.v ===== *)
(** * The keyboard (src/drivers/keyboard): operations

    The console of [Tty], the modifier keys and the table that gives each scan
    code its routine.  [inb] is what the ports answer during the event:
    port 0x64 is the controller's status and port 0x60 the scan code. *)

From S2P Require Import Prelude Memory Tty.

(** ** Data *)

Inductive layout := QWERTY | AZERTY.

Inductive key_category := KEY_ALPHANUMERIC | KEY_CONTROL | KEY_NAVIGATION | KEY_FUNCTION | KEY_SPECIAL.

Inductive key_undergroup :=
  NONE | LETTER | TOP_KEY | PUNCTUATION | SPACE | NUM_PAD | PRESS | RELEASE | TOGGLE | BACKSPACE | ENTER | ESCAPE.

(** The static booleans of layout.h, which [state_ptr] points at. *)
Inductive flag := caps_lock | left_shift | right_shift | left_ctrl | left_alt | num_lock | scroll_lock.

#[export] Instance layout_eq : EqDecision layout.
Proof. solve_decision. Defined.
#[export] Instance key_category_eq : EqDecision key_category.
Proof. solve_decision. Defined.
#[export] Instance key_undergroup_eq : EqDecision key_undergroup.
Proof. solve_decision. Defined.
#[export] Instance flag_eq : EqDecision flag.
Proof. solve_decision. Defined.

Record keyboard_key := KeyboardKey {
  key_value : Z; alt_value : Z; keycode : Z;
  category : key_category; undergroup : key_undergroup; state_ptr : option flag }.

#[export] Instance keyboard_key_eq : EqDecision keyboard_key.
Proof. solve_decision. Defined.

Definition UNDEFINED : Z := 0.
Definition KEY_MAX : Z := 255.
Definition UNDEFINED_KEY : keyboard_key := KeyboardKey 0 0 0 KEY_ALPHANUMERIC NONE None.

(** The handlers a routine can point at. *)
Inductive key_handler :=
  | keyboard_printable | keyboard_toggle | keyboard_press | keyboard_release | keyboard_navigation
  | keyboard_function | keyboard_enter | keyboard_escape | keyboard_backspace.

#[export] Instance key_handler_eq : EqDecision key_handler.
Proof. solve_decision. Defined.

Record scancode_routine := ScancodeRoutine { rkey : keyboard_key; handler : option key_handler }.

#[export] Instance scancode_routine_eq : EqDecision scancode_routine.
Proof. solve_decision. Defined.

Definition UNDEFINED_ROUTINE : scancode_routine := ScancodeRoutine UNDEFINED_KEY None.

(** ** The tables of layout.h, without their terminator *)

Definition COLOR_HOME : Z := VGA_COLOR 15 2.
Definition COLOR_UP : Z := VGA_COLOR 10 4.
Definition COLOR_PGUP : Z := VGA_COLOR 4 13.
Definition COLOR_LEFT : Z := VGA_COLOR 10 6.
Definition COLOR_CENTER : Z := VGA_COLOR 14 2.
Definition COLOR_RIGHT : Z := VGA_COLOR 0 5.
Definition COLOR_END : Z := VGA_COLOR 1 11.
Definition COLOR_DOWN : Z := VGA_COLOR 1 0.
Definition COLOR_PGDN : Z := VGA_COLOR 5 14.
Definition COLOR_INS : Z := VGA_COLOR 6 15.
Definition COLOR_DEL : Z := VGA_COLOR 4 14.
Definition COLOR_NONE : Z := VGA_COLOR 0 7.

Definition printable_keys : list keyboard_key :=
  [KeyboardKey 97 65 30 KEY_ALPHANUMERIC LETTER None;
   KeyboardKey 98 66 48 KEY_ALPHANUMERIC LETTER None;
   KeyboardKey 99 67 46 KEY_ALPHANUMERIC LETTER None;
   KeyboardKey 100 68 32 KEY_ALPHANUMERIC LETTER None;
   KeyboardKey 101 69 18 KEY_ALPHANUMERIC LETTER None;
   KeyboardKey 102 70 33 KEY_ALPHANUMERIC LETTER None;
   KeyboardKey 103 71 34 KEY_ALPHANUMERIC LETTER None;
   KeyboardKey 104 72 35 KEY_ALPHANUMERIC LETTER None;
   KeyboardKey 105 73 23 KEY_ALPHANUMERIC LETTER None;
   KeyboardKey 106 74 36 KEY_ALPHANUMERIC LETTER None;
   KeyboardKey 107 75 37 KEY_ALPHANUMERIC LETTER None;
   KeyboardKey 108 76 38 KEY_ALPHANUMERIC LETTER None;
   KeyboardKey 109 77 50 KEY_ALPHANUMERIC LETTER None;
   KeyboardKey 110 78 49 KEY_ALPHANUMERIC LETTER None;
   KeyboardKey 111 79 24 KEY_ALPHANUMERIC LETTER None;
   KeyboardKey 112 80 25 KEY_ALPHANUMERIC LETTER None;
   KeyboardKey 113 81 16 KEY_ALPHANUMERIC LETTER None;
   KeyboardKey 114 82 19 KEY_ALPHANUMERIC LETTER None;
   KeyboardKey 115 83 31 KEY_ALPHANUMERIC LETTER None;
   KeyboardKey 116 84 20 KEY_ALPHANUMERIC LETTER None;
   KeyboardKey 117 85 22 KEY_ALPHANUMERIC LETTER None;
   KeyboardKey 118 86 47 KEY_ALPHANUMERIC LETTER None;
   KeyboardKey 119 87 17 KEY_ALPHANUMERIC LETTER None;
   KeyboardKey 120 88 45 KEY_ALPHANUMERIC LETTER None;
   KeyboardKey 121 89 21 KEY_ALPHANUMERIC LETTER None;
   KeyboardKey 122 90 44 KEY_ALPHANUMERIC LETTER None;
   KeyboardKey 49 33 2 KEY_ALPHANUMERIC TOP_KEY None;
   KeyboardKey 50 64 3 KEY_ALPHANUMERIC TOP_KEY None;
   KeyboardKey 51 35 4 KEY_ALPHANUMERIC TOP_KEY None;
   KeyboardKey 52 36 5 KEY_ALPHANUMERIC TOP_KEY None;
   KeyboardKey 53 37 6 KEY_ALPHANUMERIC TOP_KEY None;
   KeyboardKey 54 94 7 KEY_ALPHANUMERIC TOP_KEY None;
   KeyboardKey 55 38 8 KEY_ALPHANUMERIC TOP_KEY None;
   KeyboardKey 56 42 9 KEY_ALPHANUMERIC TOP_KEY None;
   KeyboardKey 57 40 10 KEY_ALPHANUMERIC TOP_KEY None;
   KeyboardKey 48 41 11 KEY_ALPHANUMERIC TOP_KEY None;
   KeyboardKey 45 95 12 KEY_ALPHANUMERIC PUNCTUATION None;
   KeyboardKey 61 43 13 KEY_ALPHANUMERIC PUNCTUATION None;
   KeyboardKey 91 123 26 KEY_ALPHANUMERIC PUNCTUATION None;
   KeyboardKey 93 125 27 KEY_ALPHANUMERIC PUNCTUATION None;
   KeyboardKey 59 58 39 KEY_ALPHANUMERIC PUNCTUATION None;
   KeyboardKey 39 34 40 KEY_ALPHANUMERIC PUNCTUATION None;
   KeyboardKey 96 126 41 KEY_ALPHANUMERIC PUNCTUATION None;
   KeyboardKey 92 124 43 KEY_ALPHANUMERIC PUNCTUATION None;
   KeyboardKey 44 60 51 KEY_ALPHANUMERIC PUNCTUATION None;
   KeyboardKey 46 62 52 KEY_ALPHANUMERIC PUNCTUATION None;
   KeyboardKey 47 63 53 KEY_ALPHANUMERIC PUNCTUATION None;
   KeyboardKey 32 32 57 KEY_ALPHANUMERIC SPACE None;
   KeyboardKey 9 9 15 KEY_ALPHANUMERIC SPACE None;
   KeyboardKey 42 42 55 KEY_ALPHANUMERIC NUM_PAD None;
   KeyboardKey 45 45 74 KEY_ALPHANUMERIC NUM_PAD None;
   KeyboardKey 43 43 78 KEY_ALPHANUMERIC NUM_PAD None].

Definition control_keys : list keyboard_key :=
  [KeyboardKey 0 0 29 KEY_CONTROL PRESS (Some left_ctrl);
   KeyboardKey 0 0 42 KEY_CONTROL PRESS (Some left_shift);
   KeyboardKey 0 0 54 KEY_CONTROL PRESS (Some right_shift);
   KeyboardKey 0 0 56 KEY_CONTROL PRESS (Some left_alt);
   KeyboardKey 0 0 157 KEY_CONTROL RELEASE (Some left_ctrl);
   KeyboardKey 0 0 170 KEY_CONTROL RELEASE (Some left_shift);
   KeyboardKey 0 0 182 KEY_CONTROL RELEASE (Some right_shift);
   KeyboardKey 0 0 184 KEY_CONTROL RELEASE (Some left_alt);
   KeyboardKey 0 0 186 KEY_CONTROL TOGGLE (Some caps_lock);
   KeyboardKey 0 0 197 KEY_CONTROL TOGGLE (Some num_lock);
   KeyboardKey 0 0 198 KEY_CONTROL TOGGLE (Some scroll_lock)].

Definition navigation_keys : list keyboard_key :=
  [KeyboardKey COLOR_UP 56 72 KEY_NAVIGATION NUM_PAD (Some num_lock);
   KeyboardKey COLOR_DOWN 50 80 KEY_NAVIGATION NUM_PAD (Some num_lock);
   KeyboardKey COLOR_LEFT 52 75 KEY_NAVIGATION NUM_PAD (Some num_lock);
   KeyboardKey COLOR_RIGHT 54 77 KEY_NAVIGATION NUM_PAD (Some num_lock);
   KeyboardKey COLOR_HOME 55 71 KEY_NAVIGATION NUM_PAD (Some num_lock);
   KeyboardKey COLOR_END 49 79 KEY_NAVIGATION NUM_PAD (Some num_lock);
   KeyboardKey COLOR_PGUP 57 73 KEY_NAVIGATION NUM_PAD (Some num_lock);
   KeyboardKey COLOR_PGDN 51 81 KEY_NAVIGATION NUM_PAD (Some num_lock);
   KeyboardKey COLOR_INS 48 82 KEY_NAVIGATION NUM_PAD (Some num_lock);
   KeyboardKey COLOR_DEL 46 83 KEY_NAVIGATION NUM_PAD (Some num_lock);
   KeyboardKey COLOR_CENTER 53 76 KEY_NAVIGATION NUM_PAD (Some num_lock)].

Definition function_keys : list keyboard_key :=
  [KeyboardKey 0 0 59 KEY_FUNCTION NONE None;
   KeyboardKey 1 0 60 KEY_FUNCTION NONE None;
   KeyboardKey 2 0 61 KEY_FUNCTION NONE None;
   KeyboardKey 3 0 62 KEY_FUNCTION NONE None;
   KeyboardKey 4 0 63 KEY_FUNCTION NONE None;
   KeyboardKey 5 0 64 KEY_FUNCTION NONE None;
   KeyboardKey 6 0 65 KEY_FUNCTION NONE None;
   KeyboardKey 7 0 66 KEY_FUNCTION NONE None;
   KeyboardKey 8 0 67 KEY_FUNCTION NONE None;
   KeyboardKey 9 0 68 KEY_FUNCTION NONE None;
   KeyboardKey 10 0 87 KEY_FUNCTION NONE None;
   KeyboardKey 11 0 88 KEY_FUNCTION NONE None].

Definition special_keys : list keyboard_key :=
  [KeyboardKey 0 0 14 KEY_SPECIAL BACKSPACE None;
   KeyboardKey 0 0 28 KEY_SPECIAL ENTER None;
   KeyboardKey 0 0 1 KEY_SPECIAL ESCAPE None].

Definition azerty_layout : list keyboard_key :=
  [KeyboardKey 38 49 2 KEY_ALPHANUMERIC TOP_KEY None;
   KeyboardKey 101 50 3 KEY_ALPHANUMERIC TOP_KEY None;
   KeyboardKey 34 51 4 KEY_ALPHANUMERIC TOP_KEY None;
   KeyboardKey 39 52 5 KEY_ALPHANUMERIC TOP_KEY None;
   KeyboardKey 40 53 6 KEY_ALPHANUMERIC TOP_KEY None;
   KeyboardKey 45 54 7 KEY_ALPHANUMERIC TOP_KEY None;
   KeyboardKey 101 55 8 KEY_ALPHANUMERIC TOP_KEY None;
   KeyboardKey 95 56 9 KEY_ALPHANUMERIC TOP_KEY None;
   KeyboardKey 99 57 10 KEY_ALPHANUMERIC TOP_KEY None;
   KeyboardKey 97 48 11 KEY_ALPHANUMERIC TOP_KEY None;
   KeyboardKey 97 65 16 KEY_ALPHANUMERIC LETTER None;
   KeyboardKey 122 90 17 KEY_ALPHANUMERIC LETTER None;
   KeyboardKey 113 81 30 KEY_ALPHANUMERIC LETTER None;
   KeyboardKey 109 77 39 KEY_ALPHANUMERIC LETTER None;
   KeyboardKey 119 87 44 KEY_ALPHANUMERIC LETTER None;
   KeyboardKey 44 63 50 KEY_ALPHANUMERIC PUNCTUATION None;
   KeyboardKey 59 46 51 KEY_ALPHANUMERIC PUNCTUATION None;
   KeyboardKey 58 47 52 KEY_ALPHANUMERIC PUNCTUATION None;
   KeyboardKey 33 33 53 KEY_ALPHANUMERIC PUNCTUATION None].

(** ** State *)

Record kbd := Kbd {
  con : console;
  flags : flag → bool;
  default_key_table : Z → keyboard_key;       (* 256 entries *)
  current_layout : Z → scancode_routine;      (* 256 entries *)
  current_layout_type : layout }.

Definition on_con {A} (c : M console A) : M kbd A := λ s : kbd,
  match c (con s) with
  | Done (a, k) => Done (a, Kbd k (flags s) (default_key_table s) (current_layout s) (current_layout_type s))
  | Panic msg => Panic msg
  | Fault => Fault
  | Hang => Hang
  end.

Definition set_flag (p : flag) (b : bool) : M kbd unit :=
  modify (λ s, Kbd (con s) (<[p := b]> (flags s)) (default_key_table s) (current_layout s) (current_layout_type s)).

Definition set_routine (kc : Z) (r : scancode_routine) : M kbd unit :=
  modify (λ s, Kbd (con s) (flags s) (default_key_table s) (<[kc := r]> (current_layout s)) (current_layout_type s)).

(** ** The command line of the current terminal *)

(** [ft_strlen(cli)]: a line without a zero byte is read past its end. *)
Fixpoint cli_strlen (l : list Z) : option Z :=
  match l with
  | [] => None
  | c :: l => if c =? 0 then Some 0 else n ← cli_strlen l ; Some (n + 1)
  end.

(** [current_tty->cli[i] = v]. *)
Definition cli_store (i v : Z) : M console unit :=
  if (0 <=? i) && (i <? 256) then set_cur (λ t, with_cli (<[Z.to_nat i := v]> (cli t)) t) else fault.

Section Keyboard.
Context (fb_alloc : Z → bool) (KERNEL_BANNER : list Z) (inb : Z → Z).

(** ** Handlers *)

Definition keyboard_get_shifted_value (f : flag → bool) (key : keyboard_key) : Z :=
  let shift := f left_shift || f right_shift in
  if decide (category key = KEY_ALPHANUMERIC) then
    u8 (if f caps_lock || shift then alt_value key else key_value key)
  else if bool_decide (category key = KEY_NAVIGATION) && bool_decide (undergroup key = NUM_PAD) && f num_lock
  then u8 (alt_value key)
  else u8 (key_value key).

Definition keyboard_printable_handler (key : keyboard_key) : M kbd unit :=
  ascii ← gets (λ s, keyboard_get_shifted_value (flags s) key) ;
  t ← on_con cur ;
  match cli_strlen (cli t) with
  | None => fault
  | Some cmd_len =>
      (if cmd_len <? MAX_CMD_LEN
       then on_con (cli_store cmd_len ascii) ;; on_con (cli_store (cmd_len + 1) 0)
       else mret tt) ;;
      on_con (vga_printf inb "%c" [AInt ascii])
  end.

Definition keyboard_toggle_handler (key : keyboard_key) : M kbd unit :=
  match state_ptr key with
  | Some p => b ← gets (λ s, flags s p) ; set_flag p (negb b)
  | None => mret tt
  end.

Definition keyboard_press_handler (key : keyboard_key) : M kbd unit :=
  match state_ptr key with
  | Some p => b ← gets (λ s, flags s p) ; if negb b then set_flag p true else mret tt
  | None => mret tt
  end.

Definition keyboard_release_handler (key : keyboard_key) : M kbd unit :=
  match state_ptr key with
  | Some p => b ← gets (λ s, flags s p) ; if (b : bool) then set_flag p false else mret tt
  | None => mret tt
  end.

Definition keyboard_get_control_handler (u : key_undergroup) : option key_handler :=
  match u with
  | PRESS => Some keyboard_press
  | RELEASE => Some keyboard_release
  | TOGGLE => Some keyboard_toggle
  | _ => None
  end.

Definition keyboard_navigation_handler (key : keyboard_key) : M kbd unit :=
  ctrl ← gets (λ s, flags s left_ctrl) ;
  (if (key_value key =? COLOR_PGUP) || ((key_value key =? COLOR_UP) && ctrl)
   then on_con tty_history_enable else mret tt) ;;
  t ← on_con cur ;
  if status (history t) then
    if (key_value key =? COLOR_PGUP) || (key_value key =? COLOR_UP) then on_con tty_history_scroll_up
    else if (key_value key =? COLOR_PGDN) || (key_value key =? COLOR_DOWN) then on_con tty_history_scroll_down
    else mret tt
  else
    match state_ptr key with
    | None => fault
    | Some p =>
        b ← gets (λ s, flags s p) ;
        if negb b then i ← gets (λ s, current_tty (con s)) ; on_con (tty_framebuffer_set_screen_mode i (u8 (key_value key)))
        else keyboard_printable_handler key
    end.

Definition keyboard_function_handler (key : keyboard_key) : M kbd unit :=
  on_con (tty_load fb_alloc inb KERNEL_BANNER (key_value key)).

Definition keyboard_enter_handler (key : keyboard_key) : M kbd unit := on_con (tty_cli_handle_nl inb).

(** [shutdown()] writes to the power port and halts: it does not return. *)
Definition keyboard_escape_handler (key : keyboard_key) : M kbd unit := hang.

Definition backspace_at (len : Z) : M console unit :=
  cli_store (len - 1) 0 ;;
  t ← cur ;
  (if cursor_x t =? 0 then
     if 0 <? cursor_y t then set_cur (with_cursor (VGA_WIDTH - 1) (u8 (cursor_y t - 1))) else mret tt
   else set_cur (with_cursor (u8 (cursor_x t - 1)) (cursor_y t))) ;;
  t ← cur ;
  vga_set_cursor_position (cursor_x t) (cursor_y t) ;;
  let real_y := u8 (top_line_index t + cursor_y t) in
  i ← gets current_tty ;
  fb_store i (real_y * VGA_WIDTH + cursor_x t) (λ e, VgaEntry 0 (entry_mode e)).

Definition keyboard_backspace_handler (key : keyboard_key) : M kbd unit :=
  t ← on_con cur ;
  match cli_strlen (cli t) with
  | None => fault
  | Some len => if len =? 0 then mret tt else on_con (backspace_at len)
  end.

Definition keyboard_get_special_handler (u : key_undergroup) : option key_handler :=
  match u with
  | ENTER => Some keyboard_enter
  | ESCAPE => Some keyboard_escape
  | BACKSPACE => Some keyboard_backspace
  | _ => None
  end.

Definition keyboard_get_default_key_handler (key : keyboard_key) : option key_handler :=
  match category key with
  | KEY_ALPHANUMERIC => Some keyboard_printable
  | KEY_NAVIGATION => Some keyboard_navigation
  | KEY_FUNCTION => Some keyboard_function
  | KEY_CONTROL => keyboard_get_control_handler (undergroup key)
  | KEY_SPECIAL => keyboard_get_special_handler (undergroup key)
  end.

(** The call through the pointer. *)
Definition call_handler (h : key_handler) (key : keyboard_key) : M kbd unit :=
  match h with
  | keyboard_printable => keyboard_printable_handler key
  | keyboard_toggle => keyboard_toggle_handler key
  | keyboard_press => keyboard_press_handler key
  | keyboard_release => keyboard_release_handler key
  | keyboard_navigation => keyboard_navigation_handler key
  | keyboard_function => keyboard_function_handler key
  | keyboard_enter => keyboard_enter_handler key
  | keyboard_escape => keyboard_escape_handler key
  | keyboard_backspace => keyboard_backspace_handler key
  end.

(** ** Tables *)

Definition keyboard_bind_key (h : option key_handler) (key : keyboard_key) : M kbd unit :=
  if (0 <=? keycode key) && (keycode key <? 256) then set_routine (keycode key) (ScancodeRoutine key h) else fault.

Definition keyboard_unbind_key (kc : Z) : M kbd unit := set_routine kc UNDEFINED_ROUTINE.

Definition key_groups : list (list keyboard_key) :=
  [printable_keys; control_keys; navigation_keys; function_keys; special_keys].

Fixpoint fill_table (l : list keyboard_key) : M kbd unit :=
  match l with
  | [] => mret tt
  | k :: l =>
      modify (λ s, Kbd (con s) (flags s) (<[u8 (keycode k) := k]> (default_key_table s)) (current_layout s)
        (current_layout_type s)) ;;
      fill_table l
  end.

Fixpoint fill_groups (g : list (list keyboard_key)) : M kbd unit :=
  match g with
  | [] => mret tt
  | l :: g => fill_table l ;; fill_groups g
  end.

Definition keyboard_init_default_table : M kbd unit := fill_groups key_groups.

(** [keyboard_remap_layout(table, STOP_WHEN_UNDEFINED)]. *)
Fixpoint remap_until_undefined (table : list keyboard_key) : M kbd unit :=
  match table with
  | [] => mret tt
  | k :: table => keyboard_bind_key (keyboard_get_default_key_handler k) k ;; remap_until_undefined table
  end.

(** [keyboard_remap_layout(default_key_table, KEY_MAX)]. *)
Definition remap_default : M kbd unit :=
  for_ 256 0 (λ i,
    k ← gets (λ s, default_key_table s i) ;
    if keycode k =? UNDEFINED then mret tt
    else keyboard_bind_key (keyboard_get_default_key_handler k) k).

Definition keyboard_switch_layout (new_layout : layout) : M kbd unit :=
  ty ← gets current_layout_type ;
  if decide (ty = new_layout) then mret tt
  else
    match new_layout with
    | QWERTY => remap_default
    | AZERTY => remap_until_undefined azerty_layout
    end ;;
    modify (λ s, Kbd (con s) (flags s) (default_key_table s) (current_layout s) new_layout).

Definition keyboard_handle : M kbd unit :=
  (if negb (Z.land (inb 100) 1 =? 0) then
     let keycode := u8 (inb 96) in
     r ← gets (λ s, current_layout s keycode) ;
     match handler r with
     | Some h => call_handler h (rkey r)
     | None => mret tt
     end
   else mret tt) ;;
  on_con vga_refresh_screen.

(** The interrupt routine is registered by [Idt]. *)
Definition keyboard_init : M kbd unit :=
  for_ 256 0 (λ i, set_routine i UNDEFINED_ROUTINE) ;;
  keyboard_init_default_table ;;
  remap_default.

End Keyboard.
