(* ===== verification/KeyboardThm.v ===== *)
(** * The keyboard: the layout tables and the line editor

    Which routine a scan code has, in every state that initialisation, key
    events and layout switches reach; and that typing on a terminal is an
    editor of a line of at most 255 characters. *)

From S2P Require Import Prelude Memory Tty TtyThm Keyboard.

(** ** The layout tables *)

Definition routine (k : keyboard_key) : scancode_routine := ScancodeRoutine k (keyboard_get_default_key_handler k).

Definition default_keys : list keyboard_key := concat key_groups.

Definition default_key (kc : Z) : keyboard_key := default UNDEFINED_KEY (find (λ k, keycode k =? kc) default_keys).

(** The routine of a scan code in each layout. *)
Definition routine_of (ty : layout) (kc : Z) : scancode_routine :=
  let keys := match ty with QWERTY => default_keys | AZERTY => azerty_layout ++ default_keys end in
  match find (λ k, keycode k =? kc) keys with Some k => routine k | None => UNDEFINED_ROUTINE end.

(** The binding of [kc] after the keys of a table, in order. *)
Definition rebind (table : list keyboard_key) (kc : Z) (r : scancode_routine) : scancode_routine :=
  foldl (λ r k, if keycode k =? kc then routine k else r) r table.

Definition codes : list Z := seqZ 0 256.

Lemma by_code (P : Z → Prop) `{∀ kc, Decision (P kc)} : forallb (λ kc, bool_decide (P kc)) codes = true → ∀ kc, 0 ≤ kc < 256 → P kc.
Proof.
  intros Hf kc Hkc. rewrite forallb_forall in Hf. apply (bool_decide_eq_true_1 (P kc)), Hf.
  apply list_elem_of_In, elem_of_seqZ. lia.
Qed.

(** The facts about the tables themselves. *)
Lemma azerty_rebinds kc : 0 ≤ kc < 256 → rebind azerty_layout kc (routine_of QWERTY kc) = routine_of AZERTY kc.
Proof. revert kc. apply (by_code _). by vm_compute. Qed.

Lemma default_rebinds ty kc : 0 ≤ kc < 256 →
  (if keycode (default_key kc) =? UNDEFINED then routine_of ty kc else routine (default_key kc)) = routine_of QWERTY kc.
Proof. revert kc. apply (by_code _). by destruct ty; vm_compute. Qed.

Lemma default_binds kc : 0 ≤ kc < 256 →
  (if keycode (default_key kc) =? UNDEFINED then UNDEFINED_ROUTINE else routine (default_key kc)) = routine_of QWERTY kc.
Proof. revert kc. apply (by_code _). by vm_compute. Qed.

Lemma default_key_code kc : 0 ≤ kc < 256 → keycode (default_key kc) = UNDEFINED ∨ keycode (default_key kc) = kc.
Proof. revert kc. apply (by_code _). by vm_compute. Qed.

Lemma default_filled kc : 0 ≤ kc < 256 →
  foldl (λ r k, if u8 (keycode k) =? kc then k else r) UNDEFINED_KEY default_keys = default_key kc.
Proof. revert kc. apply (by_code _). by vm_compute. Qed.

Lemma azerty_codes : Forall (λ k, 0 ≤ keycode k < 256) azerty_layout.
Proof. repeat (constructor; [cbn; lia|]). constructor. Qed.

(** ** The invariant *)

Record bound (s : kbd) : Prop := {
  bd_table : ∀ kc, 0 ≤ kc < 256 → default_key_table s kc = default_key kc;
  bd_layout : ∀ kc, 0 ≤ kc < 256 → current_layout s kc = routine_of (current_layout_type s) kc }.

(** Nothing but the bindings differs. *)
Definition same_rest (s s' : kbd) : Prop :=
  con s' = con s ∧ flags s' = flags s ∧ current_layout_type s' = current_layout_type s.

Lemma wp_bind_key k s (Q : unit → kbd → Prop) : 0 ≤ keycode k < 256 →
  (∀ s', same_rest s s' → default_key_table s' = default_key_table s →
     current_layout s' = <[keycode k := routine k]> (current_layout s) → Q tt s') →
  wp (keyboard_bind_key (keyboard_get_default_key_handler k) k) s Q.
Proof.
  intros Hk HQ. unfold keyboard_bind_key. rewrite (proj2 (Z.leb_le _ _)), (proj2 (Z.ltb_lt _ _)) by lia. by apply HQ.
Qed.

Lemma insert_if {A} (kc kc' : Z) (r : A) (f : Z → A) : (<[kc := r]> f : Z → A) kc' = if kc =? kc' then r else f kc'.
Proof. destruct (Z.eqb_spec kc kc') as [->|Hne]; [apply fn_lookup_insert|by apply fn_lookup_insert_ne]. Qed.

Lemma wp_remap_until table s : Forall (λ k, 0 ≤ keycode k < 256) table →
  wp (remap_until_undefined table) s (λ _ s', same_rest s s' ∧ default_key_table s' = default_key_table s ∧
    ∀ kc, current_layout s' kc = rebind table kc (current_layout s kc)).
Proof.
  revert s. induction table as [|k table IH]; intros s Hc; [by apply wp_ret|].
  apply Forall_cons in Hc as [Hk Hc]. cbn [remap_until_undefined]. apply wp_bind, wp_bind_key; [done|].
  intros s1 (R1 & R2 & R3) T1 L1. eapply wp_mono; [by apply IH|]. intros [] s2 ((R1' & R2' & R3') & T2 & L2).
  split; [|split; [congruence|]]; [unfold same_rest; split_and!; congruence|].
  intros kc. rewrite L2, L1, insert_if. done.
Qed.

Lemma wp_remap_default s : (∀ kc, 0 ≤ kc < 256 → default_key_table s kc = default_key kc) →
  wp remap_default s (λ _ s', same_rest s s' ∧ default_key_table s' = default_key_table s ∧
    ∀ kc, 0 ≤ kc < 256 → current_layout s' kc =
      if keycode (default_key kc) =? UNDEFINED then current_layout s kc else routine (default_key kc)).
Proof.
  intros Ht. eapply wp_mono; [apply (wp_for (λ n s', same_rest s s' ∧ default_key_table s' = default_key_table s ∧
    ∀ kc, 0 ≤ kc < 256 → current_layout s' kc =
      if (kc <? n) && negb (keycode (default_key kc) =? UNDEFINED) then routine (default_key kc) else current_layout s kc))|].
  - split; [done|]. split; [done|]. intros kc Hkc. by rewrite (proj2 (Z.ltb_ge _ _)) by lia.
  - intros n s1 Hn ((R1 & R2 & R3) & T1 & L1). apply wp_bind, wp_gets. rewrite T1, Ht by lia.
    destruct (Z.eqb_spec (keycode (default_key n)) UNDEFINED) as [E|E].
    + apply wp_ret. split; [done|]. split; [done|]. intros kc Hkc. rewrite L1 by done.
      destruct (decide (kc = n)) as [->|Hne]; [rewrite E; cbn [negb]; by rewrite !andb_false_r|].
      destruct (Z.ltb_spec kc n), (Z.ltb_spec kc (n + 1)); done || lia.
    + destruct (default_key_code n ltac:(lia)) as [|Ec]; [done|]. apply wp_bind_key; [lia|].
      intros s2 (R1' & R2' & R3') T2 L2. split; [unfold same_rest; split_and!; congruence|]. split; [congruence|].
      intros kc Hkc. rewrite L2, Ec, insert_if, L1 by done.
      destruct (Z.eqb_spec n kc) as [->|Hne].
      * rewrite (proj2 (Z.ltb_lt _ _)), (proj2 (Z.eqb_neq _ _)) by done || lia. done.
      * destruct (Z.ltb_spec kc n), (Z.ltb_spec kc (n + 1)); done || lia.
  - intros [] s1 (R & T & L1). split; [done|]. split; [done|]. intros kc Hkc. rewrite L1 by done.
    rewrite (proj2 (Z.ltb_lt _ _)) by lia. by destruct (keycode (default_key kc) =? UNDEFINED).
Qed.

Lemma wp_fill_keys l s : wp (fill_table l) s (λ _ s', same_rest s s' ∧ current_layout s' = current_layout s ∧
  ∀ kc, default_key_table s' kc = foldl (λ r k, if u8 (keycode k) =? kc then k else r) (default_key_table s kc) l).
Proof.
  revert s. induction l as [|k l IH]; intros s; [by apply wp_ret|]. cbn [fill_table].
  apply wp_bind, wp_modify. eapply wp_mono; [apply IH|]. intros [] s2 (R & L & T). split; [done|]. split; [done|].
  intros kc. rewrite T. cbn [default_key_table]. by rewrite insert_if.
Qed.

Lemma wp_fill_groups g s : wp (fill_groups g) s (λ _ s', same_rest s s' ∧ current_layout s' = current_layout s ∧
  ∀ kc, default_key_table s' kc = foldl (λ r k, if u8 (keycode k) =? kc then k else r) (default_key_table s kc) (concat g)).
Proof.
  revert s. induction g as [|l g IH]; intros s; [by apply wp_ret|]. cbn [fill_groups].
  apply wp_bind. eapply wp_mono; [apply wp_fill_keys|]. intros [] s1 ((R1 & R2 & R3) & L1 & T1).
  eapply wp_mono; [apply IH|]. intros [] s2 ((R1' & R2' & R3') & L2 & T2).
  split; [unfold same_rest; split_and!; congruence|]. split; [congruence|]. intros kc. cbn [concat]. by rewrite T2, T1, foldl_app.
Qed.

Lemma wp_keyboard_init s : (∀ kc, 0 ≤ kc < 256 → default_key_table s kc = UNDEFINED_KEY) → current_layout_type s = QWERTY →
  wp keyboard_init s (λ _ s', same_rest s s' ∧ bound s').
Proof.
  intros Hz Hq. unfold keyboard_init. apply wp_bind.
  eapply wp_mono; [apply (wp_for (λ n s', same_rest s s' ∧ default_key_table s' = default_key_table s ∧
    ∀ kc, 0 ≤ kc < n → current_layout s' kc = UNDEFINED_ROUTINE))|].
  - split; [done|]. split; [done|]. lia.
  - intros n s1 Hn (R1 & T1 & L1). apply wp_modify. split; [done|]. split; [done|]. intros kc Hkc.
    cbn [current_layout]. rewrite insert_if. destruct (Z.eqb_spec n kc); [done|]. apply L1. lia.
  - intros [] s1 ((R1 & R2 & R3) & T1 & L1). apply wp_bind. eapply wp_mono; [apply wp_fill_groups|].
    intros [] s2 ((Q1 & Q2 & Q3) & L2 & T2). assert (∀ kc, 0 ≤ kc < 256 → default_key_table s2 kc = default_key kc) as Hd.
    { intros kc Hkc. rewrite T2, T1, Hz by done. by apply default_filled. }
    eapply wp_mono; [by apply wp_remap_default|]. intros [] s3 ((P1 & P2 & P3) & T3 & L3).
    split; [unfold same_rest; split_and!; congruence|].
    assert (current_layout_type s3 = QWERTY) as Ety by congruence. split; [by rewrite T3|].
    intros kc Hkc. rewrite L3, Ety, L2, L1 by done. by apply default_binds.
Qed.

Lemma wp_switch_layout l s : bound s →
  wp (keyboard_switch_layout l) s (λ _ s', bound s' ∧ current_layout_type s' = l ∧ con s' = con s ∧ flags s' = flags s).
Proof.
  intros [Ht Hl]. unfold keyboard_switch_layout. apply wp_bind, wp_gets. destruct (decide (current_layout_type s = l)) as [E|E].
  { by apply wp_ret. }
  apply wp_bind. destruct l.
  - eapply wp_mono; [by apply wp_remap_default|]. intros [] s1 ((R1 & R2 & R3) & T1 & L1). apply wp_modify.
    split; [|done]. split; [cbn; by rewrite T1|]. cbn. intros kc Hkc. rewrite L1, Hl by done. by apply default_rebinds.
  - eapply wp_mono; [apply wp_remap_until, azerty_codes|]. intros [] s1 ((R1 & R2 & R3) & T1 & L1). apply wp_modify.
    split; [|done]. split; [cbn; by rewrite T1|]. cbn. intros kc Hkc. rewrite L1, Hl by done.
    destruct (current_layout_type s); [|done]. by apply azerty_rebinds.
Qed.

(** ** Key events keep the tables *)

Definition keeps {A} (c : M kbd A) : Prop := ∀ s a s', c s = Done (a, s') →
  default_key_table s' = default_key_table s ∧ current_layout s' = current_layout s ∧ current_layout_type s' = current_layout_type s.

Create HintDb kbd.

Lemma keeps_ret {A} (a : A) : keeps (mret a).
Proof. intros s a' s' E. injection E as _ <-. done. Qed.
Lemma keeps_gets {A} (f : kbd → A) : keeps (gets f).
Proof. intros s a' s' E. injection E as _ <-. done. Qed.
Lemma keeps_fault {A} : keeps (fault : M kbd A).
Proof. done. Qed.
Lemma keeps_hang {A} : keeps (hang : M kbd A).
Proof. done. Qed.
Lemma keeps_set_flag p b : keeps (set_flag p b).
Proof. intros s a' s' E. injection E as _ <-. done. Qed.
Lemma keeps_on_con {A} (c : M console A) : keeps (on_con c).
Proof. intros s a s' E. unfold on_con in E. destruct (c (con s)) as [[a' k]| | |]; [|done..]. by injection E as _ <-. Qed.
Lemma keeps_bind {A B} (c : M kbd A) (f : A → M kbd B) : keeps c → (∀ a, keeps (f a)) → keeps (mbind f c).
Proof.
  intros Hc Hf s b s' E. unfold mbind, M_bind in E. destruct (c s) as [[a s1]| | |] eqn:E1; [|done..].
  destruct (Hc _ _ _ E1) as (A1 & A2 & A3), (Hf _ _ _ _ E) as (B1 & B2 & B3). split_and!; congruence.
Qed.
#[export] Hint Resolve keeps_ret keeps_gets keeps_fault keeps_hang keeps_set_flag keeps_on_con : kbd.

Ltac keeps := repeat first [apply keeps_bind; [|intros ?]|progress auto with kbd|case_match].

Lemma keeps_printable inb k : keeps (keyboard_printable_handler inb k).
Proof. unfold keyboard_printable_handler. keeps. Qed.
#[export] Hint Resolve keeps_printable : kbd.

Lemma keeps_call fb_alloc banner inb h k : keeps (call_handler fb_alloc banner inb h k).
Proof.
  unfold call_handler, keyboard_toggle_handler, keyboard_press_handler, keyboard_release_handler, keyboard_navigation_handler,
    keyboard_function_handler, keyboard_enter_handler, keyboard_escape_handler, keyboard_backspace_handler. keeps.
Qed.
#[export] Hint Resolve keeps_call : kbd.

Lemma keeps_handle fb_alloc banner inb : keeps (keyboard_handle fb_alloc banner inb).
Proof. unfold keyboard_handle. keeps. Qed.

(** ** Reachable states *)

Section Reach.
Context (fb_alloc : Z → bool) (banner : list Z).

(** The boot, then key events and changes of layout. *)
Inductive kreach : kbd → Prop :=
  | kreach_init s s' : (∀ kc, 0 ≤ kc < 256 → default_key_table s kc = UNDEFINED_KEY) → current_layout_type s = QWERTY →
      keyboard_init s = Done (tt, s') → kreach s'
  | kreach_key inb s s' : kreach s → keyboard_handle fb_alloc banner inb s = Done (tt, s') → kreach s'
  | kreach_switch l s s' : kreach s → keyboard_switch_layout l s = Done (tt, s') → kreach s'.

Lemma wp_done {S A} (c : M S A) s a s' (Q : A → S → Prop) : wp c s Q → c s = Done (a, s') → Q a s'.
Proof. unfold wp. intros H E. by rewrite E in H. Qed.

Lemma kreach_bound s : kreach s → bound s.
Proof.
  induction 1 as [s s' Hz Hq E|inb s s' _ IH E|l s s' _ IH E].
  - by apply (wp_done _ _ _ _ _ (wp_keyboard_init s Hz Hq) E).
  - destruct (keeps_handle _ _ _ _ _ _ E) as (T & L & Y), IH as [Ht Hl]. split; [by rewrite T|]. by rewrite L, Y.
  - by apply (wp_done _ _ _ _ _ (wp_switch_layout l s IH) E).
Qed.

(** C22: in every state that the initialisation of the keyboard, key events and
    changes of layout reach, each scan code has the routine its layout gives
    it: the key and the default handler of the first entry of the layout's
    tables with that code, and no handler where there is none.  Switching
    never fails, and switching to the other layout and back restores the
    table. *)
Theorem layout_invariant s : kreach s →
  (∀ kc, 0 ≤ kc < 256 → current_layout s kc = routine_of (current_layout_type s) kc) ∧
  (∀ l, ∃ s', keyboard_switch_layout l s = Done (tt, s') ∧ current_layout_type s' = l ∧
     (∀ kc, 0 ≤ kc < 256 → current_layout s' kc = routine_of l kc) ∧
     ∃ s'', keyboard_switch_layout (current_layout_type s) s' = Done (tt, s'') ∧
       ∀ kc, 0 ≤ kc < 256 → current_layout s'' kc = current_layout s kc).
Proof.
  intros Hr. pose proof (kreach_bound s Hr) as Hb. split; [apply Hb|]. intros l.
  destruct (proj1 (wp_run _ _ _) (wp_switch_layout l s Hb)) as ([] & s' & E & Hb' & Hl & _). exists s'.
  split; [exact E|]. split; [exact Hl|]. split; [rewrite <- Hl; apply Hb'|].
  destruct (proj1 (wp_run _ _ _) (wp_switch_layout (current_layout_type s) s' Hb')) as ([] & s'' & E2 & Hb'' & Hl2 & _). exists s''.
  split; [exact E2|]. intros kc Hkc. rewrite (bd_layout _ Hb'') by done. rewrite Hl2. symmetry. by apply Hb.
Qed.

End Reach.
