(* ===== verification/KeyboardEdit.v ===== *)
(** * The keyboard: typing is an editor of one line

    [editor] is what the keyboard promises: a line of at most 255 characters,
    the modifier keys and the terminal that shows what is typed; Enter submits
    the line to the shell. *)

From S2P Require Import Prelude Memory Tty TtyThm Keyboard KeyboardThm.

Record editor := Editor { ed_flags : flag → bool; ed_line : list Z; ed_term : term }.

(** One cell back, at most to the corner of the screen, and the cell is cleared. *)
Definition erase (t : term) : term :=
  let '(x, y) := if col t =? 0 then (if 0 <? row t then (79, row t - 1) else (0, row t)) else (col t - 1, row t) in
  Term (λ x' y', if (x' =? x) && (y' =? y) then VgaEntry 0 (entry_mode (grid t x y)) else grid t x' y') x y.

(** A key of the layout [lay]: [None] for the keys that do not edit the line
    and for a character that does not fit. *)
Definition ed_key (m : Z) (r : scancode_routine) (e : editor) : option editor :=
  let '(Editor f line t) := e in
  match handler r with
  | None => Some e
  | Some keyboard_printable =>
      let c := keyboard_get_shifted_value f (rkey r) in
      if (Z.of_nat (length line) <? 255) && negb (c =? 0) then Some (Editor f (line ++ [c]) (put_char m c t)) else None
  | Some keyboard_press => Some (match state_ptr (rkey r) with Some p => Editor (<[p := true]> f) line t | None => e end)
  | Some keyboard_release => Some (match state_ptr (rkey r) with Some p => Editor (<[p := false]> f) line t | None => e end)
  | Some keyboard_toggle => Some (match state_ptr (rkey r) with Some p => Editor (<[p := negb (f p)]> f) line t | None => e end)
  | Some keyboard_backspace =>
      Some (match line with [] => e | _ => Editor f (removelast line) (erase t) end)
  | _ => None
  end.

(** An interrupt without data changes nothing. *)
Definition ed_event (m : Z) (lay : Z → scancode_routine) (inb : Z → Z) (e : editor) : option editor :=
  if Z.land (inb 100) 1 =? 0 then Some e else ed_key m (lay (u8 (inb 96))) e.

Fixpoint ed_run (m : Z) (lay : Z → scancode_routine) (evs : list (Z → Z)) (e : editor) : option editor :=
  match evs with
  | [] => Some e
  | ev :: evs => e ← ed_event m lay ev e ; ed_run m lay evs e
  end.

Fixpoint handle_all (fb_alloc : Z → bool) (banner : list Z) (evs : list (Z → Z)) : M kbd unit :=
  match evs with
  | [] => mret tt
  | ev :: evs => keyboard_handle fb_alloc banner ev ;; handle_all fb_alloc banner evs
  end.

(** The buffer of 256 bytes holds the line and a zero byte. *)
Record holds (buf : list Z) (line : list Z) : Prop := {
  ho_length : length buf = 256%nat;
  ho_zero : Forall (λ c, c ≠ 0) line;
  ho_prefix : ∃ rest, buf = line ++ 0 :: rest }.

Record represents (s : kbd) (m : Z) (e : editor) : Prop := {
  re_shows : shows (con s) m (ed_term e);
  re_ok : term_ok (ed_term e);
  re_flags : ∀ p, flags s p = ed_flags e p;
  re_line : holds (cli (cur_of (con s))) (ed_line e);
  re_cells : ∀ x y, 0 ≤ x < 80 → 0 ≤ y < 25 → cell (con s) x y = grid (ed_term e) x y }.

(** ** The buffer *)

Lemma strlen_holds buf line : holds buf line → cli_strlen buf = Some (Z.of_nat (length line)) ∧ (length line ≤ 255)%nat.
Proof.
  intros [Hl Hz (rest & ->)]. rewrite length_app in Hl. cbn in Hl. split; [|lia]. clear Hl.
  induction Hz as [|c line Hc _ IH]; [done|]. cbn [app cli_strlen]. rewrite (proj2 (Z.eqb_neq _ _) Hc), IH. cbn. f_equal. lia.
Qed.

Lemma holds_snoc buf line c : holds buf line → c ≠ 0 → (length line < 255)%nat →
  holds (<[S (length line) := 0]> (<[length line := c]> buf)) (line ++ [c]).
Proof.
  intros [Hl Hz (rest & ->)] Hc Hlen. split; [by rewrite !length_insert| |].
  - apply Forall_app. by repeat constructor.
  - rewrite length_app in Hl. cbn in Hl. destruct rest as [|r rest]; [cbn in Hl; lia|].
    exists rest. replace (length line) with (length line + 0)%nat at 2 by lia.
    rewrite insert_app_r. replace (S (length line)) with (length line + 1)%nat by lia. rewrite insert_app_r. cbn. by rewrite <- app_assoc.
Qed.

Lemma holds_removelast buf line : holds buf line → line ≠ [] →
  holds (<[(length line - 1)%nat := 0]> buf) (removelast line).
Proof.
  intros [Hl Hz (rest & ->)] Hne. destruct line as [|c line _] using rev_ind; [done|].
  rewrite removelast_last, length_app. cbn. replace (length line + 1 - 1)%nat with (length line + 0)%nat by lia.
  split; [by rewrite length_insert|by apply Forall_app in Hz as [? _]|].
  exists (0 :: rest). rewrite <- app_assoc, insert_app_r. done.
Qed.

(** ** Steps *)

Lemma wp_on_con {A} (c : M console A) s (Q : A → kbd → Prop) :
  wp c (con s) (λ a k, Q a (Kbd k (flags s) (default_key_table s) (current_layout s) (current_layout_type s))) →
  wp (on_con c) s Q.
Proof. unfold wp, on_con. by destruct (c (con s)) as [[a k]| | |]. Qed.

(** A byte of the line. *)
Lemma wp_cli_store i v s (Q : unit → console → Prop) : 0 ≤ i < 256 →
  (∀ s', only (current_tty s) (with_cli (<[Z.to_nat i := v]> (cli (cur_of s))) (cur_of s)) s s' → Q tt s') → wp (cli_store i v) s Q.
Proof.
  intros Hi HQ. unfold cli_store. rewrite (proj2 (Z.leb_le _ _)), (proj2 (Z.ltb_lt _ _)) by lia. cbn [andb].
  apply wp_bind, wp_gets, wp_set_tty. done.
Qed.

Lemma shows_only s s' m t t0 : shows s m t → only (current_tty s) t0 s s' →
  (∀ l, t0 = with_cli l (cur_of s) → shows s' m t).
Proof.
  intros [A B C D E] O l ->. assert (cur_of s' = with_cli l (cur_of s)) as Ec by (unfold cur_of; rewrite (on_current _ _ _ _ O); apply O).
  split; rewrite Ec; done.
Qed.

Lemma cur_only s s' t0 : only (current_tty s) t0 s s' → cur_of s' = t0.
Proof. intros O. unfold cur_of. rewrite (on_current _ _ _ _ O). apply O. Qed.

(** [represents] but for the memory of the display. *)
Record represents0 (s : kbd) (m : Z) (e : editor) : Prop := {
  r0_shows : shows (con s) m (ed_term e);
  r0_ok : term_ok (ed_term e);
  r0_flags : ∀ p, flags s p = ed_flags e p;
  r0_line : holds (cli (cur_of (con s))) (ed_line e) }.

Lemma shifted_u8 f k : u8 (keyboard_get_shifted_value f k) = keyboard_get_shifted_value f k.
Proof. unfold keyboard_get_shifted_value. repeat case_match; unfold u8; by rewrite Z.mod_mod. Qed.

Lemma shifted_ext f g k : (∀ p, f p = g p) → keyboard_get_shifted_value f k = keyboard_get_shifted_value g k.
Proof. intros E. unfold keyboard_get_shifted_value. by rewrite !E. Qed.

Lemma format_char c : u8 c = c → format (chars "%c") [AInt c] = Some [c].
Proof. intros E. change (Some [u8 c] = Some [c]). by rewrite E. Qed.

Lemma wp_printable inb k s m f line t : represents0 s m (Editor f line t) →
  let c := keyboard_get_shifted_value f k in (length line < 255)%nat → c ≠ 0 →
  wp (keyboard_printable_handler inb k) s (λ _ s', represents0 s' m (Editor f (line ++ [c]) (put_char m c t))).
Proof.
  intros [Hs Hok Hf Hl] c Hlen Hc. cbn [ed_flags ed_line ed_term] in *. unfold keyboard_printable_handler.
  apply wp_bind, wp_gets. rewrite (shifted_ext _ f k Hf). fold c. apply wp_bind, wp_on_con, wp_cur.
  destruct (strlen_holds _ _ Hl) as [-> _]. cbn [con]. change MAX_CMD_LEN with 256. rewrite (proj2 (Z.ltb_lt _ _)) by lia.
  apply wp_bind, wp_bind, wp_on_con, wp_cli_store; [lia|]. cbn [con]. intros s1 O1.
  apply wp_on_con, wp_cli_store; [lia|]. cbn [con]. intros s2 O2.
  pose proof (shows_only _ _ _ _ _ Hs O1 _ eq_refl) as Hs1. pose proof (shows_only _ _ _ _ _ Hs1 O2 _ eq_refl) as Hs2.
  apply wp_on_con. cbn [con]. eapply wp_mono; [apply (wp_vprintf inb (chars "%c") [AInt c] [c] s2 m t); [apply format_char, shifted_u8|done|done]|].
  intros [] s3 [Hs3 Hok3 _ _ _ _ _ _ Hcli]. split; [exact Hs3|exact Hok3|exact Hf|]. cbn [con ed_line].
  rewrite Hcli, (cur_only _ _ _ O2), (cur_only _ _ _ O1). cbn [cli with_cli].
  replace (Z.to_nat (Z.of_nat (length line))) with (length line) by lia.
  replace (Z.to_nat (Z.of_nat (length line) + 1)) with (S (length line)) by lia. by apply holds_snoc.
Qed.

Lemma wp_set_cursor_position x y s (Q : unit → console → Prop) :
  (∀ s', others s s' → cur_of s' = cur_of s → Q tt s') → wp (vga_set_cursor_position x y) s Q.
Proof. intros HQ. unfold vga_set_cursor_position. do 3 apply wp_bind, wp_modify. apply wp_modify. by apply HQ. Qed.

(** The cursor goes back. *)
Lemma wp_cursor_back s m t (Q : unit → console → Prop) : shows s m t → term_ok t →
  (∀ s', others s s' → shows s' m (Term (grid t) (col (erase t)) (row (erase t))) → Q tt s') →
  wp (t ← cur ;
      if cursor_x t =? 0 then
        if 0 <? cursor_y t then set_cur (with_cursor (VGA_WIDTH - 1) (u8 (cursor_y t - 1))) else mret tt
      else set_cur (with_cursor (u8 (cursor_x t - 1)) (cursor_y t))) s Q.
Proof.
  intros Hs [Hc Hr] HQ. apply wp_bind, wp_cur. destruct (sh_cursor _ _ _ Hs) as [-> ->]. unfold erase in HQ.
  destruct (Z.eqb_spec (col t) 0) as [E|E]; [destruct (Z.ltb_spec 0 (row t)) as [Hr0|Hr0]|]; cbn [col row] in HQ.
  - apply wp_set_cur; [done|]. intros s' Ho E'. apply HQ; [done|]. eapply shows_cursor; [done|]. rewrite E'. f_equal.
    unfold u8. apply Z.mod_small. lia.
  - apply wp_ret, HQ; [done|]. replace 0 with (col t) by done. by destruct t.
  - apply wp_set_cur; [done|]. intros s' Ho E'. apply HQ; [done|]. eapply shows_cursor; [done|]. rewrite E'. f_equal.
    unfold u8. apply Z.mod_small. lia.
Qed.

Lemma erase_ok t : term_ok t → term_ok (erase t).
Proof.
  intros [Hc Hr]. unfold erase. destruct (Z.eqb_spec (col t) 0); [destruct (Z.ltb_spec 0 (row t))|]; unfold term_ok; cbn; lia.
Qed.

Lemma grid_erase t x y : grid (erase t) x y =
  if (x =? col (erase t)) && (y =? row (erase t)) then VgaEntry 0 (entry_mode (grid t (col (erase t)) (row (erase t)))) else grid t x y.
Proof. unfold erase. by destruct (col t =? 0), (0 <? row t). Qed.

Lemma wp_backspace_at s m t line : shows s m t → term_ok t → holds (cli (cur_of s)) line → line ≠ [] →
  wp (backspace_at (Z.of_nat (length line))) s (λ _ s', shows s' m (erase t) ∧ holds (cli (cur_of s')) (removelast line)).
Proof.
  intros Hs Hok Hl Hne. destruct (strlen_holds _ _ Hl) as [_ Hlen]. assert (length line ≠ 0)%nat by (by destruct line).
  unfold backspace_at. apply wp_bind, wp_cli_store; [lia|]. intros s1 O1. pose proof (shows_only _ _ _ _ _ Hs O1 _ eq_refl) as Hs1.
  assert (holds (cli (cur_of s1)) (removelast line)) as Hl1.
  { rewrite (cur_only _ _ _ O1). cbn. replace (Z.to_nat (Z.of_nat (length line) - 1)) with (length line - 1)%nat by lia.
    by apply holds_removelast. }
  cut (wp (mbind (λ _, t ← cur ; vga_set_cursor_position (cursor_x t) (cursor_y t) ;;
     i ← gets current_tty ; fb_store i (u8 (top_line_index t + cursor_y t) * VGA_WIDTH + cursor_x t) (λ e, VgaEntry 0 (entry_mode e)))
     (t ← cur ; if cursor_x t =? 0 then
        if 0 <? cursor_y t then set_cur (with_cursor (VGA_WIDTH - 1) (u8 (cursor_y t - 1))) else mret tt
      else set_cur (with_cursor (u8 (cursor_x t - 1)) (cursor_y t)))) s1 (λ _ s', shows s' m (erase t) ∧ holds (cli (cur_of s')) (removelast line))).
  { unfold wp, mbind, M_bind, cur, gets. by destruct (cursor_x (ttys s1 (current_tty s1)) =? 0). }
  apply wp_bind, (wp_cursor_back s1 m t); [done..|]. intros s2 Ho2 Hs2. apply wp_bind, wp_cur.
  pose proof (erase_ok t Hok) as [Hec Her]. destruct (sh_cursor _ _ _ Hs2) as [-> ->]. cbn [col row].
  apply wp_bind, wp_set_cursor_position. intros s3 Ho3 E3. apply wp_bind, wp_gets.
  pose proof Hs2 as [_ Htop _ _ (fb & Hfb & Hg)].
  pose proof (u8_range (top_line_index (cur_of s2) + row (erase t))) as Hy8.
  apply (wp_fb_store _ _ s3 fb); [by rewrite E3|change VGA_WIDTH with 80; lia|]. intros s4 Ho4 E4. rewrite E3 in E4.
  split; [|rewrite E4; cbn; by rewrite (ot_cli _ _ Ho2)].
  destruct Hs2 as [Hcur2 _ Hm2 Hlv2 _]. split; rewrite ?E4; try done.
  eexists. split; [done|]. intros x y Hx Hy. rewrite grid_erase. change VGA_WIDTH with 80. cbn [top_line_index with_fb].
  pose proof (u8_range (top_line_index (cur_of s2) + y)) as Hy8'.
  destruct (Z.eqb_spec x (col (erase t))) as [->|Hnx]; [destruct (Z.eqb_spec y (row (erase t))) as [->|Hny]|]; cbn [andb].
  - rewrite fn_lookup_insert. by rewrite Hg.
  - rewrite fn_lookup_insert_ne; [by apply Hg|]. intros E. apply Hny, (u8_inj (top_line_index (cur_of s2))); lia.
  - rewrite fn_lookup_insert_ne; [by apply Hg|]. lia.
Qed.

(** ** Events *)

Section Events.
Context (fb_alloc : Z → bool) (banner : list Z).

Lemma rep0_flag s m f line t p b f' : represents0 s m (Editor f line t) → (∀ q, f' q = if decide (q = p) then b else f q) →
  represents0 (Kbd (con s) (<[p := b]> (flags s)) (default_key_table s) (current_layout s) (current_layout_type s)) m (Editor f' line t).
Proof.
  intros [Hs Hok Hf Hl] Hf'. split; try done. intros q. cbn [flags ed_flags] in *. rewrite Hf'.
  destruct (decide (q = p)) as [->|Hne]; [apply fn_lookup_insert|by rewrite fn_lookup_insert_ne].
Qed.

Lemma insert_flag (f : flag → bool) p b q : (<[p := b]> f : flag → bool) q = if decide (q = p) then b else f q.
Proof. destruct (decide (q = p)) as [->|Hne]; [apply fn_lookup_insert|by rewrite fn_lookup_insert_ne]. Qed.

Lemma rep0_ext s m f f' line t : represents0 s m (Editor f line t) → (∀ p, f p = f' p) → represents0 s m (Editor f' line t).
Proof. intros [Hs Hok Hf Hl] E. split; try done. intros p. cbn in *. by rewrite Hf. Qed.

Lemma wp_ed_key inb s m h k e e' : represents0 s m e → ed_key m (ScancodeRoutine k (Some h)) e = Some e' →
  wp (call_handler fb_alloc banner inb h k) s (λ _ s', represents0 s' m e').
Proof.
  intros Hr E. destruct e as [f line t]. pose proof Hr as [Hs Hok Hf Hl].
  destruct h; cbn [ed_key handler rkey] in E; try done; cbn [call_handler].
  - destruct (_ && _) eqn:Ec in E; [|done]. apply andb_true_iff in Ec as [Ec1 Ec2]. injection E as <-.
    apply wp_printable; [done|lia|]. apply negb_true_iff, Z.eqb_neq in Ec2. done.
  - unfold keyboard_toggle_handler. destruct (state_ptr k) as [p|]; injection E as <-; [|by apply wp_ret].
    apply wp_bind, wp_gets, wp_modify. rewrite Hf. eapply rep0_flag; [done|]. intros q. apply insert_flag.
  - unfold keyboard_press_handler. destruct (state_ptr k) as [p|]; injection E as <-; [|by apply wp_ret].
    apply wp_bind, wp_gets. rewrite Hf. cbn [ed_flags]. destruct (f p) eqn:Ep; cbn [negb].
    + apply wp_ret. eapply rep0_ext; [done|]. intros q. rewrite insert_flag. by destruct (decide (q = p)) as [->|].
    + apply wp_modify. eapply rep0_flag; [done|]. intros q. apply insert_flag.
  - unfold keyboard_release_handler. destruct (state_ptr k) as [p|]; injection E as <-; [|by apply wp_ret].
    apply wp_bind, wp_gets. rewrite Hf. cbn [ed_flags]. destruct (f p) eqn:Ep.
    + apply wp_modify. eapply rep0_flag; [done|]. intros q. apply insert_flag.
    + apply wp_ret. eapply rep0_ext; [done|]. intros q. rewrite insert_flag. by destruct (decide (q = p)) as [->|].
  - unfold keyboard_backspace_handler. apply wp_bind, wp_on_con, wp_cur. cbn [con ed_line ed_term ed_flags] in *.
    destruct (strlen_holds _ _ Hl) as [-> Hlen]. destruct line as [|c line]; injection E as <-; [by apply wp_ret|].
    cbn [length]. rewrite (proj2 (Z.eqb_neq _ _)) by lia. apply wp_on_con. cbn [con].
    eapply wp_mono; [by apply (wp_backspace_at (con s) m t (c :: line))|]. intros [] s1 [Hs1 Hl1].
    split; [exact Hs1|by apply erase_ok|exact Hf|exact Hl1].
Qed.

Lemma keeps_layout {A} (c : M kbd A) s a s' : keeps c → c s = Done (a, s') → current_layout s' = current_layout s.
Proof. intros Hk E. by destruct (Hk _ _ _ E) as (_ & ? & _). Qed.

Lemma wp_handle inb s m e e' : represents s m e → ed_event m (current_layout s) inb e = Some e' →
  wp (keyboard_handle fb_alloc banner inb) s (λ _ s', represents s' m e').
Proof.
  intros [Hs Hok Hf Hl Hc] E. unfold keyboard_handle, ed_event in *. apply wp_bind.
  assert (wp (if negb (Z.land (inb 100) 1 =? 0) then
     r ← gets (λ s, current_layout s (u8 (inb 96))) ;
     match handler r with Some h => call_handler fb_alloc banner inb h (rkey r) | None => mret tt end else mret tt) s
     (λ _ s', represents0 s' m e')) as Hwp.
  { destruct (Z.land (inb 100) 1 =? 0); cbn [negb]; [injection E as <-; by apply wp_ret|].
    apply wp_bind, wp_gets. destruct (current_layout s (u8 (inb 96))) as [k [h|]]; cbn [handler rkey].
    - eapply wp_ed_key; [|exact E]. done.
    - destruct e. injection E as <-. by apply wp_ret. }
  eapply wp_mono; [exact Hwp|]. intros [] s1 [Hs1 Hok1 Hf1 Hl1]. apply wp_on_con.
  pose proof Hs1 as [[Ex Ey] _ _ _ (fb & Hfb & Hg)].
  eapply wp_mono; [by apply (wp_refresh (con s1) (ed_term e') fb)|]. intros [] k2 (ET & EC & _ & Hcell & _).
  assert (cur_of k2 = cur_of (con s1)) as Ecur by (unfold cur_of; by rewrite ET, EC).
  split; [by eapply shows_eq|done|exact Hf1|cbn; by rewrite Ecur|exact Hcell].
Qed.

Lemma handle_all_sim evs s m e e' : represents s m e → ed_run m (current_layout s) evs e = Some e' →
  wp (handle_all fb_alloc banner evs) s (λ _ s', represents s' m e' ∧ current_layout s' = current_layout s).
Proof.
  revert s e. induction evs as [|ev evs IH]; intros s e Hr E; cbn [handle_all ed_run] in *.
  { injection E as <-. by apply wp_ret. }
  destruct (ed_event m (current_layout s) ev e) as [e1|] eqn:E1; [|done]. cbn in E. apply wp_bind.
  destruct (proj1 (wp_run _ _ _) (wp_handle ev s m e e1 Hr E1)) as ([] & s1 & Er & Hr1).
  pose proof (keeps_layout _ _ _ _ (keeps_handle fb_alloc banner ev) Er) as Ely.
  unfold wp at 1. rewrite Er. rewrite <- Ely in E. eapply wp_mono; [by apply (IH s1 e1)|]. intros [] s2 [Hr2 El2]. split; [done|congruence].
Qed.

(** C17: typing implements a line editor.  For every sequence of keyboard
    interrupts that the abstract editor accepts (characters that still fit,
    shifted by the modifier keys as they stand, presses and releases of
    modifiers, locks, backspaces, releases of ordinary keys, interrupts without
    data), the handler returns each time, and in the end the 256-byte buffer
    of the terminal holds the editor's line and a zero byte, the modifier
    flags are the editor's, the terminal shows its screen (a backspace steps
    back over the line's end and clears the cell), and the memory of the
    display has that screen. *)
Theorem line_editor_refines evs s m e e' : represents s m e → ed_run m (current_layout s) evs e = Some e' →
  ∃ s', handle_all fb_alloc banner evs s = Done (tt, s') ∧ represents s' m e' ∧ current_layout s' = current_layout s.
Proof.
  intros Hr E. apply wp_returns. by apply (handle_all_sim evs s m e e').
Qed.

(** The 256th character of a line is written outside the buffer.  With 255
    characters on the line, a key that prints passes the test
    [cmd_len < MAX_CMD_LEN], and the terminating zero goes to index 256 of the
    256-byte array [cli]. *)
Theorem cli_overflow inb s m e : represents s m e → length (ed_line e) = 255%nat →
  Z.land (inb 100) 1 ≠ 0 → handler (current_layout s (u8 (inb 96))) = Some keyboard_printable →
  keyboard_handle fb_alloc banner inb s = Fault.
Proof.
  intros [Hs Hok Hf Hl _] Hlen Hd Hh. unfold keyboard_handle. rewrite (proj2 (Z.eqb_neq _ _) Hd). cbn [negb].
  unfold mbind, M_bind, gets. rewrite Hh. cbn [call_handler]. unfold keyboard_printable_handler, mbind, M_bind, gets, on_con, cur.
  unfold gets. change (ttys (con s) (current_tty (con s))) with (cur_of (con s)). destruct (strlen_holds _ _ Hl) as [-> _].
  rewrite Hlen. reflexivity.
Qed.

End Events.

(** ** The shell: the line that Enter submits *)

(** The words of a line. *)
Definition words (line : list Z) : list (list Z) := split_words [] line.

Definition command_of (line : list Z) : option string :=
  match words line with
  | [] => None
  | w :: _ => fst <$> find (λ x, bool_decide (chars x.1 = w)) shell_commands
  end.

(** The commands that other components carry out. *)
Definition external (c : string) : Prop := c ≠ "clear"%string ∧ c ≠ "help"%string.

(** What the shell itself prints for a line, before the next prompt. *)
Definition reply (line : list Z) : list Z :=
  match words line, command_of line with
  | w :: _, None => chars "k1tOS: command not found: " ++ w ++ [10]
  | _, _ => []
  end.

Definition prompt : list Z := chars "$> ".

(** ** Words *)

Lemma split_words_zero line rest w : Forall (λ c, c ≠ 0) line → split_words w (line ++ 0 :: rest) = split_words w line.
Proof.
  intros Hz. revert w. induction Hz as [|c line Hc _ IH]; intros w; [done|]. cbn [app split_words].
  rewrite (proj2 (Z.eqb_neq _ _) Hc). destruct (c =? 32); [|apply IH]. destruct (decide (w = [])); [apply IH|by rewrite IH].
Qed.

(** The words are the maximal runs of other characters than the space. *)
Lemma split_words_spec w l : Forall (λ c, c ≠ 0) l → Forall (λ c, c ≠ 32) w →
  Forall (λ v, v ≠ [] ∧ Forall (λ c, c ≠ 32) v) (split_words w l) ∧
  concat (split_words w l) = w ++ filter (λ c, c ≠ 32) l.
Proof.
  intros Hz. revert w. induction Hz as [|c l Hc _ IH]; intros w Hw; cbn [split_words].
  { destruct (decide (w = [])) as [->|]; [done|]. cbn. by split; [repeat constructor|]. }
  rewrite (proj2 (Z.eqb_neq _ _) Hc). destruct (Z.eqb_spec c 32) as [->|Hs].
  - rewrite filter_cons_False by auto. destruct (IH [] ltac:(constructor)) as [I1 I2]. cbn in I2.
    destruct (decide (w = [])) as [->|Hne]; [done|]. split; [by constructor|]. cbn. by rewrite I2.
  - rewrite filter_cons_True by done. destruct (IH (w ++ [c])) as [I1 I2]; [apply Forall_app; by repeat constructor|].
    split; [done|]. by rewrite I2, <- app_assoc.
Qed.

(** ** Submitting a line *)

Lemma put_string_app m l1 l2 t : put_string m (l1 ++ l2) t = put_string m l2 (put_string m l1 t).
Proof. unfold put_string. by rewrite foldl_app. Qed.

Lemma format_not_found w : format (chars "k1tOS: command not found: %s" ++ [10]) [AStr (Some w)] =
  Some (chars "k1tOS: command not found: " ++ w ++ [10]).
Proof. reflexivity. Qed.

Lemma holds_blank : holds (replicate 256 0) [].
Proof. split; [done|constructor|]. by exists (replicate 255 0). Qed.

(** The reply and the recorded command. *)
Lemma wp_reply inb s m t line : shows s m t → term_ok t → line ≠ [] → (∀ c, command_of line = Some c → external c) →
  wp (match words line with
      | [] => mret tt
      | w :: _ =>
          match find (λ x, bool_decide (chars x.1 = w)) shell_commands with
          | Some x => run_command inb x.1 (words line)
          | None => vga_vprintf inb (chars "k1tOS: command not found: %s" ++ [10]) [AStr (Some w)]
          end
      end) s (λ _ s', shows s' m (put_string m (reply line) t) ∧ term_ok (put_string m (reply line) t) ∧
    current_tty s' = current_tty s ∧ (∀ j, j ≠ current_tty s → ttys s' j = ttys s j) ∧
    commands s' = match command_of line with Some c => [(c, words line)] | None => [] end ++ commands s).
Proof.
  intros Hs Hok Hne Hext. unfold reply. unfold command_of in *. destruct (words line) as [|w ws]; [by apply wp_ret|].
  destruct (find _ shell_commands) as [x|] eqn:Ef; cbn [fst fmap option_fmap option_map] in *.
  - destruct (Hext _ eq_refl) as [H1 H2]. unfold run_command. apply wp_bind, wp_modify.
    rewrite !decide_False by done. apply wp_ret. split; [by eapply shows_eq|done].
  - eapply wp_mono; [apply (wp_vprintf inb _ _ _ s m t (format_not_found w)); done|]. intros [] s1 [H1 H2 _ _ H5 H6 H7 _ _].
    split_and!; done.
Qed.

(** Enter submits the line.  When the current terminal's buffer holds
    [line], [tty_cli_handle_nl] returns; it puts a line feed; a line whose
    first word is the name of one of the sixteen commands runs that command
    once, with all the words of the line as arguments (the commands that
    write to the terminal themselves, clear and help, are not covered here),
    any other line that has a word is answered by the message that its first
    word is not a command, and a line without one by nothing; the prompt
    follows, the buffer holds the empty line again, and no other terminal
    changes. *)
Theorem enter_submits_line inb s m t line : shows s m t → term_ok t → holds (cli (cur_of s)) line →
  (∀ c, command_of line = Some c → external c) →
  ∃ s', tty_cli_handle_nl inb s = Done (tt, s') ∧
    shows s' m (put_string m ([10] ++ reply line ++ prompt) t) ∧ holds (cli (cur_of s')) [] ∧
    commands s' = match command_of line with Some c => [(c, words line)] | None => [] end ++ commands s ∧
    current_tty s' = current_tty s ∧ (∀ j, j ≠ current_tty s → ttys s' j = ttys s j).
Proof.
  intros Hs Hok Hl Hext. rewrite !put_string_app.
  apply wp_returns.
  unfold tty_cli_handle_nl. apply wp_bind. eapply wp_mono; [by apply (wp_vprintf inb [10] [] [10] s m t)|].
  intros [] s1 [Hs1 Hok1 _ _ Hc1 Hk1 Ht1 _ Hcli1]. apply wp_bind, wp_cur. rewrite Hcli1.
  assert (∀ s2 u, shows s2 m u → term_ok u → holds (cli (cur_of s2)) [] →
    wp (tty_print_prompt inb) s2 (λ _ s', shows s' m (put_string m prompt u) ∧ holds (cli (cur_of s')) [] ∧
      commands s' = commands s2 ∧ current_tty s' = current_tty s2 ∧ (∀ j, j ≠ current_tty s2 → ttys s' j = ttys s2 j))) as Hprompt.
  { intros s2 u Hs2 Hu Hl2. eapply wp_mono; [by apply wp_print_string|]. intros [] s3 [H1 H2 _ _ H5 H6 H7 _ H9].
    split_and!; try done. by rewrite H9. }
  destruct line as [|c line].
  - destruct Hl as [Hl1 Hl2 (rest & E)]. rewrite E. cbn [app]. change (0 =? 0) with true. cbn iota.
    apply wp_bind, wp_ret. eapply wp_mono; [apply (Hprompt s1 _ Hs1 Hok1)|].
    { rewrite Hcli1. split; [done|done|by exists rest]. }
    intros [] s2 (H1 & H2 & H3 & H4 & H5). rewrite H3, H4, Hk1, Hc1. split_and!; try done.
    intros j Hj. rewrite H5, Ht1 by congruence. done.
  - pose proof Hl as [Hl1 Hl2 (rest & E)]. rewrite E at 1. cbn [app]. pose proof Hl2 as Hz. apply Forall_cons in Hz as [Hc0 _].
    rewrite (proj2 (Z.eqb_neq _ _) Hc0). rewrite E, split_words_zero by done. fold (words (c :: line)).
    apply wp_bind, wp_bind. eapply wp_mono; [by apply (wp_reply inb s1 m _ (c :: line) Hs1 Hok1)|].
    intros [] s2 (Hs2 & Hok2 & Hc2 & Ht2 & Hk2). apply wp_bind, wp_gets, wp_set_tty. intros s3 O3.
    pose proof (shows_only _ _ _ _ _ Hs2 O3 _ eq_refl) as Hs3.
    eapply wp_mono; [apply (Hprompt s3 _ Hs3 Hok2)|].
    { rewrite (cur_only _ _ _ O3). exact holds_blank. }
    intros [] s4 (H1 & H2 & H3 & H4 & H5). destruct O3 as [_ O2 O3 _ O5]. rewrite H3, H4, O5, O3, Hk2, Hk1, Hc2, Hc1.
    split_and!; try done. intros j Hj. rewrite H5, O2, Ht2, Ht1 by congruence. done.
Qed.
