(* ===== verification/KeyboardExample.v ===== *)
(** * The keyboard and the shell: instances of the theorems *)

From S2P Require Import Prelude Memory Tty TtyThm Keyboard KeyboardThm KeyboardEdit.

(** The keyboard before [keyboard_init]. *)
Definition cold : kbd := Kbd booted (λ _, false) (λ _, UNDEFINED_KEY) (λ _, UNDEFINED_ROUTINE) QWERTY.

Lemma cold_init : ∃ s, keyboard_init cold = Done (tt, s) ∧ bound s.
Proof. apply wp_returns. eapply wp_mono; [by apply wp_keyboard_init|]. by intros [] s' [_ ?]. Qed.

Lemma layout_invariant_witness : ∃ s, keyboard_init cold = Done (tt, s) ∧
  ∃ s', keyboard_switch_layout AZERTY s = Done (tt, s') ∧ current_layout s' 16 = routine (KeyboardKey 97 65 16 KEY_ALPHANUMERIC LETTER None).
Proof.
  destruct cold_init as (s & E & _). exists s. split; [exact E|].
  assert (kreach (λ _, true) [] s) as Hr by (apply (kreach_init (λ _, true) [] cold s); [done|done|exact E]).
  destruct (layout_invariant (λ _, true) [] s Hr) as [_ Hsw]. destruct (Hsw AZERTY) as (s' & E' & _ & Hl & _).
  exists s'. split; [exact E'|]. rewrite Hl by lia. vm_compute. reflexivity.
Defined.

(** A terminal whose buffer holds [line]. *)
Definition at_line (line : list Z) : console :=
  Console (λ _, Tty (Some (λ _, VgaEntry 0 31)) 0 (TtyHistory false true 0) 0 0 31 (line ++ replicate (256 - length line) 0))
    0 (λ _, VgaEntry 0 31) [] [].

Definition typing (line : list Z) : kbd := Kbd (at_line line) (λ _, false) default_key (routine_of QWERTY) QWERTY.

Lemma at_line_shows line : shows (at_line line) 31 blank_term.
Proof. split; [done..|]. exists (λ _, VgaEntry 0 31). split; [done|]. by intros x y Hx Hy. Qed.

Lemma at_line_holds line : (length line < 256)%nat → Forall (λ c, c ≠ 0) line → holds (cli (cur_of (at_line line))) line.
Proof.
  intros Hl Hz. cbn [cur_of at_line ttys cli]. split; [rewrite length_app, length_replicate; lia|done|].
  exists (replicate (255 - length line) 0). by replace (256 - length line)%nat with (S (255 - length line)) by lia.
Qed.

Lemma typing_represents line : (length line < 256)%nat → Forall (λ c, c ≠ 0) line →
  represents (typing line) 31 (Editor (λ _, false) line blank_term).
Proof. intros Hl Hz. split; [apply at_line_shows|exact blank_ok|done|by apply at_line_holds|done]. Qed.

(** The interrupt of a scan code. *)
Definition scan (kc : Z) : Z → Z := λ p, if p =? 100 then 1 else if p =? 96 then kc else 0.

(** Shift down, A, B, backspace, shift up, A. *)
Definition presses : list (Z → Z) := map scan [42; 30; 158; 48; 176; 14; 170; 30].

Lemma line_editor_refines_witness : ∃ s', handle_all (λ _, true) [] presses (typing []) = Done (tt, s') ∧
  holds (cli (cur_of (con s'))) [65; 97] ∧ cell (con s') 1 0 = VgaEntry 97 31 ∧ cell (con s') 2 0 = VgaEntry 0 31.
Proof.
  destruct (ed_run 31 (routine_of QWERTY) presses (Editor (λ _, false) [] blank_term)) as [e'|] eqn:E; [|vm_compute in E; discriminate E].
  destruct (line_editor_refines (λ _, true) [] presses (typing []) 31 (Editor (λ _, false) [] blank_term) e') as (s' & Es & Hr & _);
    [apply typing_represents; [cbn; lia|constructor]|exact E|].
  exists s'. split; [exact Es|]. destruct Hr as [_ _ _ Hl Hc]. rewrite !Hc by lia. clear Es Hc.
  vm_compute in E. injection E as <-. split; [exact Hl|]. split; vm_compute; reflexivity.
Defined.

Lemma cli_overflow_witness : keyboard_handle (λ _, true) [] (scan 30) (typing (replicate 255 97)) = Fault.
Proof.
  apply (cli_overflow (λ _, true) [] (scan 30) (typing (replicate 255 97)) 31 (Editor (λ _, false) (replicate 255 97) blank_term)).
  - apply typing_represents; [rewrite length_replicate; lia|by apply Forall_replicate].
  - apply length_replicate.
  - discriminate.
  - vm_compute. reflexivity.
Defined.

Lemma enter_submits_line_witness : ∃ s', tty_cli_handle_nl (λ _, 0) (at_line (chars "kill 2 9")) = Done (tt, s') ∧
  commands s' = [("kill"%string, [chars "kill"; chars "2"; chars "9"])] ∧ holds (cli (cur_of s')) [].
Proof.
  destruct (enter_submits_line (λ _, 0) (at_line (chars "kill 2 9")) 31 blank_term (chars "kill 2 9")) as (s' & E & _ & Hh & Hk & _).
  - apply at_line_shows.
  - exact blank_ok.
  - apply at_line_holds; [cbn; lia|]. repeat (constructor; [discriminate|]). constructor.
  - intros c Hc. vm_compute in Hc. injection Hc as <-. split; discriminate.
  - exists s'. split; [exact E|]. split; [rewrite Hk; vm_compute; reflexivity|exact Hh].
Defined.
