(* ===== verification/ConsoleTyped.v ===== *)
(** * The console and the keyboard: every value stays in its C type

    The coordinates, indices, characters and colours of the terminals are
    bytes, a command line is an array of 256 bytes, and [current_tty] points
    into the array of twelve terminals, in every state the console reaches. *)

From S2P Require Import Prelude Memory Tty Keyboard KeyboardThm.

Definition is_byte (z : Z) : Prop := 0 ≤ z < 256.

Definition entry_typed (e : vga_entry) : Prop := is_byte (character e) ∧ is_byte (entry_mode e).

Record tty_typed (t : tty) : Prop := {
  ty_fb : ∀ fb, framebuffer t = Some fb → ∀ o, 0 ≤ o < 20480 → entry_typed (fb o);
  ty_top : is_byte (top_line_index t);
  ty_x : is_byte (cursor_x t);
  ty_y : is_byte (cursor_y t);
  ty_mode : is_byte (mode t);
  ty_cli : length (cli t) = 256%nat ∧ Forall is_byte (cli t) }.

Record typed (s : console) : Prop := {
  td_ttys : ∀ i, 0 ≤ i < 12 → tty_typed (ttys s i);
  td_current : 0 ≤ current_tty s < 12;
  td_screen : ∀ o, 0 ≤ o < 2000 → entry_typed (screen s o) }.

(** [tk c P]: from a typed state, if [c] returns, the state is typed and the
    result satisfies [P]. *)
Definition tk {A} (c : M console A) (P : A → Prop) : Prop :=
  ∀ s a s', typed s → c s = Done (a, s') → typed s' ∧ P a.

Create HintDb typed.

Lemma u8_byte z : is_byte (u8 z).
Proof. apply Z.mod_pos_bound. lia. Qed.

Lemma tk_ret {A} (a : A) (P : A → Prop) : P a → tk (mret a) P.
Proof. intros HP s a' s' Ht E. by injection E as <- <-. Qed.

Lemma tk_fault {A} (P : A → Prop) : tk fault P.
Proof. done. Qed.

Lemma tk_hang {A} (P : A → Prop) : tk hang P.
Proof. done. Qed.

Lemma tk_panic {A} msg (P : A → Prop) : tk (kpanic msg) P.
Proof. done. Qed.

Lemma tk_bind {A B} (c : M console A) (f : A → M console B) (P : A → Prop) (Q : B → Prop) :
  tk c P → (∀ a, P a → tk (f a) Q) → tk (mbind f c) Q.
Proof.
  intros Hc Hf s b s' Ht E. unfold mbind, M_bind in E. destruct (c s) as [[a s1]| | |] eqn:E1; try done.
  destruct (Hc _ _ _ Ht E1) as [Ht1 HP]. by apply (Hf a HP s1 b s').
Qed.

Lemma tk_mono {A} (c : M console A) (P Q : A → Prop) : tk c P → (∀ a, P a → Q a) → tk c Q.
Proof. intros Hc HPQ s a s' Ht E. destruct (Hc _ _ _ Ht E). auto. Qed.

Lemma tk_cur : tk cur tty_typed.
Proof. intros s a s' Ht E. injection E as <- <-. split; [done|]. apply Ht, Ht. Qed.

Lemma tk_current : tk (gets current_tty) (λ i, 0 ≤ i < 12).
Proof. intros s a s' Ht E. injection E as <- <-. split; [done|]. apply Ht. Qed.

Lemma tk_tty i : tk (gets (λ s, ttys s i)) (λ t, 0 ≤ i < 12 → tty_typed t).
Proof. intros s a s' Ht E. injection E as <- <-. split; [done|]. apply Ht. Qed.

Lemma tk_set_tty i f : (∀ t, 0 ≤ i < 12 → tty_typed t → tty_typed (f t)) → tk (set_tty i f) (λ _, True).
Proof.
  intros Hf s a s' Ht E. injection E as _ <-. split; [|done]. destruct Ht as [A B C]. split; cbn; [|done|done].
  intros j Hj. destruct (Z.eqb_spec j i) as [->|]; auto.
Qed.

Lemma tk_set_cur f : (∀ t, tty_typed t → tty_typed (f t)) → tk (set_cur f) (λ _, True).
Proof. intros Hf. unfold set_cur. eapply tk_bind; [apply tk_current|]. intros i _. apply tk_set_tty. auto. Qed.

Lemma tk_outb p v : tk (outb_ p v) (λ _, True).
Proof. intros s a s' [A B C] E. injection E as _ <-. by split. Qed.

Lemma tk_commands f : tk (modify (λ s, Console (ttys s) (current_tty s) (screen s) (ports s) (f s))) (λ _, True).
Proof. intros s a s' [A B C] E. injection E as _ <-. by split. Qed.

Lemma tk_for n i body : (∀ j, i ≤ j < i + Z.of_nat n → tk (body j) (λ _, True)) → tk (for_ n i body) (λ _, True).
Proof.
  revert i. induction n as [|n IH]; intros i Hb; cbn [for_]; [by apply tk_ret|].
  eapply tk_bind; [apply Hb; lia|]. intros _ _. apply IH. intros j Hj. apply Hb. lia.
Qed.

Lemma entry_of c m : is_byte c → is_byte m → entry_typed (VgaEntry c m).
Proof. by split. Qed.

Lemma typed_cursor t x y : tty_typed t → is_byte x → is_byte y → tty_typed (with_cursor x y t).
Proof. intros [A B C D E F] Hx Hy. by split. Qed.

Lemma typed_top t n : tty_typed t → is_byte n → tty_typed (with_top n t).
Proof. intros [A B C D E F] Hx. by split. Qed.

Lemma typed_history t h : tty_typed t → tty_typed (with_history h t).
Proof. intros [A B C D E F]. by split. Qed.

Lemma typed_mode t m : tty_typed t → is_byte m → tty_typed (with_mode m t).
Proof. intros [A B C D E F] Hm. by split. Qed.

Lemma typed_fb t fb : tty_typed t → (∀ o, 0 ≤ o < 20480 → entry_typed (fb o)) → tty_typed (with_fb (Some fb) t).
Proof. intros [A B C D E F] Hfb. split; try done. cbn. by intros fb' [= <-]. Qed.

Lemma typed_cli t l : tty_typed t → length l = 256%nat → Forall is_byte l → tty_typed (with_cli l t).
Proof. intros [A B C D E F] Hl Hf. by split. Qed.

#[export] Hint Resolve tk_ret tk_fault tk_hang tk_panic tk_cur tk_current tk_tty tk_outb u8_byte ty_top ty_x ty_y ty_mode
  typed_cursor typed_top typed_history typed_mode entry_of : typed.

Lemma byte0 : is_byte 0.
Proof. unfold is_byte. lia. Qed.
#[export] Hint Resolve byte0 : typed.

Lemma tk_fb_store i offset f : (∀ e, 0 ≤ i < 12 → entry_typed e → entry_typed (f e)) → tk (fb_store i offset f) (λ _, True).
Proof.
  intros Hf. unfold fb_store. eapply tk_bind; [apply tk_tty|]. intros t Ht. destruct (framebuffer t) as [fb|] eqn:Efb; [|done].
  destruct (_ && _) eqn:Eo; [|done]. apply tk_set_tty. intros t' Hi Ht'. apply typed_fb; [done|]. intros o Ho.
  specialize (Ht Hi). pose proof (ty_fb _ Ht fb Efb) as Hfb. rewrite insert_if. destruct (Z.eqb_spec offset o) as [->|]; auto.
Qed.

(** The tactic that steps through a routine. *)
Ltac tk_step :=
  match goal with
  | |- tk (mbind _ _) _ => eapply tk_bind; [|let x := fresh "x" in let H := fresh "Hx" in intros x H; cbn beta in H]
  | |- tk (set_cur _) _ => apply tk_set_cur; intros ? ?
  | |- tk (if ?b then _ else _) _ => destruct b
  | |- tk (match ?x with _ => _ end) _ => destruct x eqn:?
  | |- tk (mret _) _ => by apply tk_ret
  | |- _ => solve [eauto 3 with typed]
  end.
Ltac tk_auto := repeat tk_step.

(** ** The screen *)

Lemma tk_refresh : tk vga_refresh_screen (λ _, True).
Proof.
  intros s a s' Ht E. unfold vga_refresh_screen, mbind, M_bind, cur, gets in E.
  destruct (framebuffer (ttys s (current_tty s))) as [fb|] eqn:Efb; injection E as _ <-; [|done].
  split; [|done]. pose proof Ht as [A B C]. pose proof (ty_fb _ (A _ B) fb Efb) as Hfb. split; cbn; [done|done|]. intros o Ho.
  change (VGA_WIDTH * VGA_HEIGHT) with 2000. change VGA_WIDTH with 80.
  rewrite (proj2 (Z.leb_le _ _)), (proj2 (Z.ltb_lt _ _)) by lia. cbn [andb]. apply Hfb.
  pose proof (u8_byte (top_line_index (ttys s (current_tty s)) + o / 80)) as H8. unfold is_byte in H8.
  pose proof (Z.mod_pos_bound o 80 ltac:(lia)). lia.
Qed.

Lemma tk_set_cursor_position x y : tk (vga_set_cursor_position x y) (λ _, True).
Proof. unfold vga_set_cursor_position. tk_auto. Qed.

Section Ops.
Context (inb : Z → Z).

Lemma tk_disable_cursor : tk vga_disable_cursor (λ _, True).
Proof. unfold vga_disable_cursor. tk_auto. Qed.

Lemma tk_enable_cursor a b : tk (vga_enable_cursor inb a b) (λ _, True).
Proof. unfold vga_enable_cursor. tk_auto. Qed.

Hint Resolve tk_refresh tk_set_cursor_position tk_disable_cursor tk_enable_cursor : typed.

Lemma tk_screen_mode i m : is_byte m → tk (tty_framebuffer_set_screen_mode i m) (λ _, True).
Proof.
  intros Hm. unfold tty_framebuffer_set_screen_mode. eapply tk_bind; [apply tk_set_tty; auto with typed|]. intros _ _.
  eapply tk_bind; [apply tk_tty|]. intros t Ht. destruct (framebuffer t) as [fb|] eqn:Efb; [|done].
  apply tk_set_tty. intros t' Hi Ht'. apply typed_fb; [done|]. intros o Ho. pose proof (ty_fb _ (Ht Hi) fb Efb o Ho) as Hfo.
  case_match; [apply entry_of; [apply Hfo|done]|done].
Qed.

Lemma tk_clear i : tk (tty_framebuffer_clear i) (λ _, True).
Proof.
  unfold tty_framebuffer_clear. eapply tk_bind; [apply tk_tty|]. intros t Ht. destruct (framebuffer t) as [fb|] eqn:Efb; [|done].
  eapply tk_bind; [apply tk_set_tty; intros t' Hi Ht'; apply typed_fb; [done|]; intros o Ho|].
  { specialize (Ht Hi). pose proof (ty_fb _ Ht fb Efb o Ho). case_match; eauto with typed. }
  intros _ _. eapply tk_bind; [apply tk_set_tty; auto with typed|]. intros _ _. apply tk_set_tty. auto with typed.
Qed.

Lemma tk_history_enable : tk tty_history_enable (λ _, True).
Proof. unfold tty_history_enable. tk_auto. Qed.

Lemma tk_history_disable : tk (tty_history_disable inb) (λ _, True).
Proof. unfold tty_history_disable. tk_auto. Qed.

Lemma tk_history_up : tk tty_history_scroll_up (λ _, True).
Proof. unfold tty_history_scroll_up. tk_auto. Qed.

Lemma tk_history_down : tk tty_history_scroll_down (λ _, True).
Proof. unfold tty_history_scroll_down. tk_auto. Qed.

Hint Resolve tk_screen_mode tk_clear tk_history_enable tk_history_disable tk_history_up tk_history_down : typed.

Lemma tk_scroll_down : tk tty_framebuffer_scroll_down (λ _, True).
Proof.
  unfold tty_framebuffer_scroll_down. eapply tk_bind; [apply tk_cur|]. intros t Ht.
  eapply tk_bind; [apply tk_set_cur; auto with typed|]. intros _ _.
  eapply (tk_bind _ _ (λ _, True)); [destruct (_ =? 0); tk_auto|]. intros _ _.
  eapply tk_bind; [apply tk_current|]. intros i Hi. apply tk_for. intros j _. apply tk_fb_store. eauto with typed.
Qed.

Lemma tk_write i c : tk (tty_framebuffer_write inb i c) (λ _, True).
Proof.
  unfold tty_framebuffer_write. eapply tk_bind; [apply tk_tty|]. intros t Ht. destruct (framebuffer t); [|by apply tk_ret].
  eapply (tk_bind _ _ (λ _, True)); [destruct (status _); tk_auto|]. intros _ _.
  eapply tk_bind; [apply tk_tty|]. intros t' Ht'. apply tk_fb_store. intros e Hi _. specialize (Ht' Hi). eauto with typed.
Qed.

Hint Resolve tk_scroll_down tk_write : typed.

Lemma tk_wrap n : tk (wrap_lines n) (λ _, True).
Proof. induction n as [|n IH]; cbn [wrap_lines]; tk_auto. Qed.

Lemma tk_scroll_lines n : tk (scroll_lines n) (λ _, True).
Proof. induction n as [|n IH]; cbn [scroll_lines]; tk_auto. Qed.

Lemma tk_put_plain c : tk (put_plain inb c) (λ _, True).
Proof.
  unfold put_plain, settle. tk_step; [tk_step|]. tk_step; [tk_step|].
  eapply (tk_bind _ _ (λ _, True)); [tk_auto|]. intros _ _. eapply tk_bind; [apply tk_wrap|]. intros _ _. apply tk_scroll_lines.
Qed.

Hint Resolve tk_wrap tk_scroll_lines tk_put_plain : typed.

Lemma tk_put_tab n : tk (put_tab inb n) (λ _, True).
Proof. induction n as [|n IH]; cbn [put_tab]; tk_auto. Qed.

Hint Resolve tk_put_tab : typed.

Lemma tk_put_all l : tk (put_all inb l) (λ _, True).
Proof. induction l as [|c l IH]; cbn [put_all]; [by apply tk_ret|]. unfold ft_putchar, settle. tk_auto. Qed.

Hint Resolve tk_put_all : typed.

Lemma tk_vprintf fmt args : tk (vga_vprintf inb fmt args) (λ _, True).
Proof. unfold vga_vprintf. tk_auto. Qed.

Hint Resolve tk_vprintf : typed.

Lemma tk_tty_load fb_alloc banner i : 0 ≤ i < 12 → tk (tty_load fb_alloc inb banner i) (λ _, True).
Proof.
  intros Hi. unfold tty_load. eapply tk_bind; [apply tk_tty|]. intros t _.
  eapply (tk_bind _ _ (λ _, True)).
  - destruct (framebuffer t); [by apply tk_ret|]. eapply (tk_bind _ _ (λ _, True)).
    + unfold tty_framebuffer_init. destruct (fb_alloc i); cbn [negb]; [|apply tk_panic].
      eapply tk_bind; [apply tk_set_tty; intros t' _ Ht'; apply typed_fb; auto with typed|]. intros _ _.
      eapply tk_bind; [apply tk_tty|]. intros t' Ht'. eapply tk_bind; [apply tk_screen_mode, Ht', Hi|]. intros _ _. apply tk_clear.
    + intros _ _. unfold vga_setup_default_screen, tty_print_prompt, vga_printf. tk_auto.
  - intros _ _. eapply (tk_bind _ _ (λ _, True)); [|intros _ _; apply tk_refresh].
    intros s a s' [A B C] E. injection E as _ <-. by split.
Qed.

Lemma tk_print_commands l : tk (print_commands inb l) (λ _, True).
Proof. induction l as [|[c d] l IH]; cbn [print_commands]; tk_auto. Qed.

Lemma tk_run_command cmd argv : tk (run_command inb cmd argv) (λ _, True).
Proof.
  unfold run_command. eapply tk_bind; [apply tk_commands|]. intros _ _. destruct (decide _); [tk_auto|].
  destruct (decide _); [|by apply tk_ret]. unfold print_help. eapply tk_bind; [apply tk_vprintf|]. intros _ _. apply tk_print_commands.
Qed.

Hint Resolve tk_run_command : typed.

Lemma tk_handle_nl : tk (tty_cli_handle_nl inb) (λ _, True).
Proof.
  unfold tty_cli_handle_nl, tty_print_prompt, vga_printf. eapply tk_bind; [apply tk_vprintf|]. intros _ _.
  eapply tk_bind; [apply tk_cur|]. intros t Ht. destruct (cli t) as [|c l]; [done|].
  eapply (tk_bind _ _ (λ _, True)); [|intros _ _; apply tk_vprintf]. destruct (c =? 0); [by apply tk_ret|].
  eapply (tk_bind _ _ (λ _, True)); [tk_auto|]. intros _ _. apply tk_set_cur. intros t' Ht'.
  apply typed_cli; [done|apply length_replicate|]. apply Forall_replicate, byte0.
Qed.

Lemma tk_cli_store i v : is_byte v → tk (cli_store i v) (λ _, True).
Proof.
  intros Hv. unfold cli_store. destruct (_ && _); [|done]. apply tk_set_cur. intros t Ht. destruct (ty_cli _ Ht) as [Hl Hb].
  apply typed_cli; [done|by rewrite length_insert|]. by apply Forall_insert.
Qed.

Lemma tk_backspace_at len : tk (backspace_at len) (λ _, True).
Proof.
  unfold backspace_at. eapply tk_bind; [apply tk_cli_store, byte0|]. intros _ _. eapply tk_bind; [apply tk_cur|]. intros t Ht.
  assert (is_byte (VGA_WIDTH - 1)) by (unfold is_byte, VGA_WIDTH; lia).
  eapply (tk_bind _ _ (λ _, True)); [tk_auto|]. intros _ _. eapply tk_bind; [apply tk_cur|]. intros t' Ht'.
  eapply tk_bind; [apply tk_set_cursor_position|]. intros _ _. eapply tk_bind; [apply tk_current|]. intros i Hi.
  apply tk_fb_store. intros e _ [? ?]. auto with typed.
Qed.

End Ops.

(** ** The keyboard *)

Definition ktk {A} (c : M kbd A) : Prop := ∀ s a s', typed (con s) → c s = Done (a, s') → typed (con s').

Lemma ktk_on_con {A} (c : M console A) P : tk c P → ktk (on_con c).
Proof.
  intros Hc s a s' Ht E. unfold on_con in E. destruct (c (con s)) as [[a' k]| | |] eqn:Ec; try done. injection E as _ <-.
  by destruct (Hc _ _ _ Ht Ec).
Qed.

Lemma ktk_bind {A B} (c : M kbd A) (f : A → M kbd B) : ktk c → (∀ a, ktk (f a)) → ktk (mbind f c).
Proof.
  intros Hc Hf s b s' Ht E. unfold mbind, M_bind in E. destruct (c s) as [[a s1]| | |] eqn:E1; try done.
  by apply (Hf a s1 b s'); [apply (Hc s a s1)|].
Qed.

(** A binding whose value is needed. *)
Lemma ktk_gets {A B} (g : kbd → A) (P : A → Prop) (f : A → M kbd B) : (∀ s, typed (con s) → P (g s)) → (∀ a, P a → ktk (f a)) →
  ktk (mbind f (gets g)).
Proof. intros Hg Hf s b s' Ht E. by apply (Hf (g s) (Hg s Ht) s b s'). Qed.

Lemma ktk_ret {A} (a : A) : ktk (mret a).
Proof. intros s a' s' Ht E. by injection E as _ <-. Qed.

Lemma ktk_modify f : (∀ s, con (f s) = con s) → ktk (modify f).
Proof. intros Hf s a s' Ht E. injection E as _ <-. by rewrite Hf. Qed.

Lemma shifted_byte f k : is_byte (keyboard_get_shifted_value f k).
Proof. unfold keyboard_get_shifted_value. repeat case_match; apply u8_byte. Qed.

Section Keys.
Context (fb_alloc : Z → bool) (banner : list Z).

(** The keys a handler is called with: a function key names one of the terminals. *)
Definition key_typed (k : keyboard_key) : Prop := category k = KEY_FUNCTION → 0 ≤ key_value k < 12.

Lemma ktk_printable inb k : ktk (keyboard_printable_handler inb k).
Proof.
  unfold keyboard_printable_handler. apply (ktk_gets _ is_byte); [intros; apply shifted_byte|]. intros c Hc.
  apply ktk_bind; [eapply ktk_on_con, tk_cur|]. intros t. destruct (cli_strlen (cli t)) as [n|]; [|done].
  apply ktk_bind; [|intros _; eapply ktk_on_con, tk_vprintf]. destruct (n <? MAX_CMD_LEN); [|apply ktk_ret].
  apply ktk_bind; [by eapply ktk_on_con, tk_cli_store|]. intros _. eapply ktk_on_con, tk_cli_store, byte0.
Qed.

Lemma ktk_control f (k : keyboard_key) : (∀ p b, ktk (f p b)) →
  ktk (match state_ptr k with Some p => mbind (f p) (gets (λ s, flags s p)) | None => mret tt end).
Proof.
  intros Hf. destruct (state_ptr k) as [p|]; [|apply ktk_ret]. apply (ktk_gets _ (λ _, True)); [done|]. intros b _. apply Hf.
Qed.

Lemma ktk_navigation inb k : ktk (keyboard_navigation_handler inb k).
Proof.
  unfold keyboard_navigation_handler. apply (ktk_gets _ (λ _, True)); [done|]. intros ctrl _.
  apply ktk_bind; [case_match; [eapply ktk_on_con, tk_history_enable|apply ktk_ret]|]. intros _.
  apply ktk_bind; [eapply ktk_on_con, tk_cur|]. intros t. destruct (status (history t)).
  { case_match; [eapply ktk_on_con, tk_history_up|]. case_match; [eapply ktk_on_con, tk_history_down|apply ktk_ret]. }
  destruct (state_ptr k) as [p|]; [|done]. apply (ktk_gets _ (λ _, True)); [done|]. intros b _. destruct (negb b); [|apply ktk_printable].
  apply (ktk_gets _ (λ _, True)); [done|]. intros i _. eapply ktk_on_con, tk_screen_mode, u8_byte.
Qed.

Lemma ktk_call inb h k : (h = keyboard_function → 0 ≤ key_value k < 12) → ktk (call_handler fb_alloc banner inb h k).
Proof.
  intros Hk. destruct h; cbn [call_handler].
  - apply ktk_printable.
  - apply (ktk_control (λ p b, set_flag p (negb b))). intros. by apply ktk_modify.
  - apply (ktk_control (λ p b, if negb b then set_flag p true else mret tt)). intros p b. destruct b; [apply ktk_ret|by apply ktk_modify].
  - apply (ktk_control (λ p b, if (b : bool) then set_flag p false else mret tt)). intros p b. destruct b; [by apply ktk_modify|apply ktk_ret].
  - apply ktk_navigation.
  - eapply ktk_on_con, tk_tty_load. auto.
  - eapply ktk_on_con, tk_handle_nl.
  - done.
  - unfold keyboard_backspace_handler. apply ktk_bind; [eapply ktk_on_con, tk_cur|]. intros t.
    destruct (cli_strlen (cli t)) as [n|]; [|done]. destruct (n =? 0); [apply ktk_ret|eapply ktk_on_con, tk_backspace_at].
Qed.

(** The function keys of both layouts. *)
Lemma function_keys_typed ty kc : 0 ≤ kc < 256 → handler (routine_of ty kc) = Some keyboard_function → 0 ≤ key_value (rkey (routine_of ty kc)) < 12.
Proof.
  intros Hkc Hh. assert (∀ kc, 0 ≤ kc < 256 → bool_decide (handler (routine_of ty kc) = Some keyboard_function) &&
    negb (bool_decide (0 ≤ key_value (rkey (routine_of ty kc)) < 12)) = false) as Hall.
  { apply (by_code _). destruct ty; by vm_compute. }
  specialize (Hall kc Hkc). rewrite bool_decide_true in Hall by done. cbn [andb] in Hall. apply negb_false_iff in Hall.
  by apply bool_decide_eq_true_1 in Hall.
Qed.

Lemma handle_typed inb s s' : bound s → typed (con s) → keyboard_handle fb_alloc banner inb s = Done (tt, s') → typed (con s').
Proof.
  intros Hb Ht E. unfold keyboard_handle, mbind at 1, M_bind in E.
  match type of E with match ?c with _ => _ end = _ => destruct c as [[[] s1]| | |] eqn:E1; try done end.
  assert (typed (con s1)) as Ht1.
  { destruct (negb _); [|by injection E1 as <-]. unfold mbind, M_bind, gets in E1.
    pose proof (u8_byte (inb 96)) as Hkc. rewrite (bd_layout s Hb _ Hkc) in E1.
    destruct (handler (routine_of (current_layout_type s) (u8 (inb 96)))) as [h|] eqn:Eh; [|by injection E1 as <-].
    refine (ktk_call inb h _ _ s tt s1 Ht E1). intros ->. by apply function_keys_typed. }
  by apply (ktk_on_con _ _ tk_refresh s1 tt s').
Qed.

(** Keyboard interrupts and changes of layout, one after the other. *)
Inductive kevents : kbd → kbd → Prop :=
  | kevents_nil s : kevents s s
  | kevents_key inb s s1 s' : keyboard_handle fb_alloc banner inb s = Done (tt, s1) → kevents s1 s' → kevents s s'
  | kevents_switch l s s1 s' : keyboard_switch_layout l s = Done (tt, s1) → kevents s1 s' → kevents s s'.


End Keys.

(** ** An instance *)

Definition cold_console : console :=
  Console (λ _, Tty (Some (λ _, VgaEntry 0 31)) 0 (TtyHistory false true 0) 0 0 31 (replicate 256 0)) 0 (λ _, VgaEntry 0 31) [] [].

Definition cold_kbd : kbd := Kbd cold_console (λ _, false) (λ _, UNDEFINED_KEY) (λ _, UNDEFINED_ROUTINE) QWERTY.

Lemma cold_typed : typed cold_console.
Proof.
  split; [|cbn; lia|by intros; split; unfold is_byte; cbn; lia]. intros i Hi.
  split; [intros fb [= <-] o Ho; split; unfold is_byte; cbn; lia|unfold is_byte; cbn; lia..|].
  split; [done|]. apply Forall_replicate, byte0.
Qed.

