(* ===== verification/Block.v ===== *)
(** * Block devices and partitions (src/block/partitions, include/kernel/block.h): operations

    A driver offers its disks through [struct disk_ops]; the class [Disk] is
    that interface, over the state [H] of the driver's hardware.  Arrays that
    the C code leaves uninitialised on its stack are arguments. *)

From S2P Require Import Prelude Memory.

Definition DISK_NAME_LEN : Z := 16.
Definition MBR_SIGNATURE : Z := 43605.
Definition MBR_SECTOR_SIZE : Z := 512.
Definition MBR_PARTITION_GAP : Z := 440.
Definition MBR_MAX_PARTITIONS : Z := 4.

(** ** The interface of a driver *)

(** [struct generic_disk]: its name (16 bytes), size, and the operation of its
    [ops] that is used.  [read_sectors d lba count buf] returns the code of the
    driver and the contents of the buffer. *)
Class Disk (H D : Type) := {
  disk_name : D → list Z;
  disk_nr_sectors : D → Z;
  read_sectors : D → Z → Z → list Z → M H (Z * list Z) }.

Record disk_partition := DiskPartition { part_lba_start : Z; part_nr_sectors : Z }.

Record block_device (D : Type) := BlockDevice {
  bd_name : list Z;            (* 16 bytes *)
  bd_disk : D;
  parent : option nat;         (* the position of the whole disk in the list *)
  lba_start : Z;
  nr_sectors : Z }.
Arguments BlockDevice {D}.
Arguments bd_name {D}.
Arguments bd_disk {D}.
Arguments parent {D}.
Arguments lba_start {D}.
Arguments nr_sectors {D}.

(** The hardware, the list, and whether each of the coming allocations
    succeeds (all do once the list is used up). *)
Record blk (H D : Type) := Blk { hw : H; block_devices : list (block_device D); kmallocs : list bool }.
Arguments Blk {H D}.
Arguments hw {H D}.
Arguments block_devices {H D}.
Arguments kmallocs {H D}.

(** ** The master boot record (msdos.h) *)

Definition byte_at (sector : list Z) (o : Z) : Z := nth (Z.to_nat o) sector 0.

Definition le16_at (sector : list Z) (o : Z) : Z := byte_at sector o + 256 * byte_at sector (o + 1).

Definition le32_at (sector : list Z) (o : Z) : Z :=
  byte_at sector o + 256 * byte_at sector (o + 1) + 65536 * byte_at sector (o + 2) + 16777216 * byte_at sector (o + 3).

(** [table->entries[i]]: the table starts with four bytes and a gap of two. *)
Definition entry_offset (i : Z) : Z := MBR_PARTITION_GAP + 6 + 16 * i.

Definition partition_type (sector : list Z) (i : Z) : Z := byte_at sector (entry_offset i + 4).
Definition entry_lba_start (sector : list Z) (i : Z) : Z := le32_at sector (entry_offset i + 8).
Definition entry_nr_sectors (sector : list Z) (i : Z) : Z := le32_at sector (entry_offset i + 12).
Definition signature (sector : list Z) : Z := le16_at sector (MBR_PARTITION_GAP + 70).

(** [for (i = 0; i < MIN(max, MBR_MAX_PARTITIONS); i++)]: the array and the count. *)
Fixpoint mbr_entries (fuel : nat) (i : Z) (sector : list Z) (parts : list disk_partition) (found : Z) : list disk_partition * Z :=
  match fuel with
  | O => (parts, found)
  | Datatypes.S fuel =>
      if partition_type sector i =? 0 then mbr_entries fuel (i + 1) sector parts found
      else mbr_entries fuel (i + 1) sector
             (<[Z.to_nat i := DiskPartition (entry_lba_start sector i) (entry_nr_sectors sector i)]> parts) (found + 1)
  end.

Section Block.
Context {H D : Type} `{Disk H D}.

Definition on_hw {A} (c : M H A) : M (blk H D) A := λ s,
  match c (hw s) with
  | Done (a, h) => Done (a, Blk h (block_devices s) (kmallocs s))
  | Panic msg => Panic msg
  | Fault => Fault
  | Hang => Hang
  end.

(** Whether an allocation gives an address. *)
Definition kmalloc_ok : M (blk H D) bool := λ s,
  match kmallocs s with
  | [] => Done (true, s)
  | b :: l => Done (b, Blk (hw s) (block_devices s) l)
  end.

Definition list_add_tail_ (d : block_device D) : M (blk H D) unit :=
  modify (λ s, Blk (hw s) (block_devices s ++ [d]) (kmallocs s)).

(** The array [parts] and the count or the error; [sector0] is what the stack
    holds before the read. *)
Definition mbr_parse (sector0 : list Z) (dev : block_device D) (parts : list disk_partition) (max : Z) :
    M (blk H D) (list disk_partition * Z) :=
  '(r, sector) ← on_hw (read_sectors (bd_disk dev) 0 1 sector0) ;
  if r <? 0 then mret (parts, -1)
  else if negb (signature sector =? MBR_SIGNATURE) then mret (parts, 0)
  else mret (mbr_entries (Z.to_nat (Z.min max MBR_MAX_PARTITIONS)) 0 sector parts 0).

(** [ft_strlen(name)]: a name without a zero byte is read past its end. *)
Fixpoint name_strlen (l : list Z) : option Z :=
  match l with
  | [] => None
  | c :: l => if c =? 0 then Some 0 else n ← name_strlen l ; Some (n + 1)
  end.

Definition part_digit (i : Z) : Z := nth (Z.to_nat i) [48; 49; 50; 51; 52; 53; 54; 55; 56; 57; 97; 98; 99; 100; 101; 102] 0.

(** The name of partition [i]: 'p', its digit and a zero after the disk's name. *)
Definition part_name (name : list Z) (name_len i : Z) : option (list Z) :=
  if name_len + 2 <? DISK_NAME_LEN then
    Some (<[Z.to_nat (name_len + 2) := 0]> (<[Z.to_nat (name_len + 1) := part_digit i]> (<[Z.to_nat name_len := 112]> name)))
  else None.

(** [for (int i = 0; i < nr_parts; i++)]; a failed allocation is not noticed,
    since the test is on [dev]. *)
Fixpoint add_partitions (fuel : nat) (i : Z) (disk : D) (dev : nat) (name_len : Z) (parts : list disk_partition) :
    M (blk H D) unit :=
  match fuel with
  | O => mret tt
  | Datatypes.S fuel =>
      ok ← kmalloc_ok ;
      if negb ok then fault
      else
        match part_name (disk_name disk) name_len i, parts !! Z.to_nat i with
        | Some nm, Some p =>
            list_add_tail_ (BlockDevice nm disk (Some dev) (part_lba_start p) (part_nr_sectors p)) ;;
            add_partitions fuel (i + 1) disk dev name_len parts
        | _, _ => fault
        end
  end.

Definition add_disk (sector0 : list Z) (parts0 : list disk_partition) (disk : D) : M (blk H D) Z :=
  ok ← kmalloc_ok ;
  if negb ok then mret (-1)
  else
    match name_strlen (disk_name disk) with
    | None => fault
    | Some name_len =>
        let dev := BlockDevice (disk_name disk) disk None 0 (disk_nr_sectors disk) in
        pos ← gets (λ s, length (block_devices s)) ;
        list_add_tail_ dev ;;
        '(parts, nr_parts) ← mbr_parse sector0 dev parts0 16 ;
        add_partitions (Z.to_nat nr_parts) 0 disk pos name_len parts ;;
        mret 0
    end.

End Block.
