(* ===== verification/BlockThm.v ===== *)
(** * Partitions: what [add_disk] registers for a master boot record *)

From S2P Require Import Prelude Memory Block.

(** ** The format

    A boot sector: 446 bytes of boot code, four slots of 16 bytes and the
    signature 55 AA. *)

Record mbr_part := MbrPart { p_status : Z; p_chs_start : Z * Z * Z; p_type : Z; p_chs_end : Z * Z * Z; p_lba : Z; p_count : Z }.

Definition le32 (v : Z) : list Z := [v mod 256; v / 256 mod 256; v / 65536 mod 256; v / 16777216 mod 256].

Definition slot_bytes (o : option mbr_part) : list Z :=
  match o with
  | None => [0; 0; 0; 0; 0; 0; 0; 0; 0; 0; 0; 0; 0; 0; 0; 0]
  | Some (MbrPart st (a, b, c) ty (d, e, f) lba n) => [st; a; b; c; ty; d; e; f] ++ le32 lba ++ le32 n
  end.

Definition mbr_sector (boot : list Z) (slots : list (option mbr_part)) : list Z :=
  boot ++ concat (map slot_bytes slots) ++ [85; 170].

Definition part_ok (p : mbr_part) : Prop := p_type p ≠ 0 ∧ 0 ≤ p_lba p < W32 ∧ 0 ≤ p_count p < W32.

Definition slot_ok (o : option mbr_part) : Prop := match o with Some p => part_ok p | None => True end.

(** ** Decoding *)

Lemma le32_value v : 0 ≤ v < W32 →
  v mod 256 + 256 * (v / 256 mod 256) + 65536 * (v / 65536 mod 256) + 16777216 * (v / 16777216 mod 256) = v.
Proof. unfold W32. intros Hv. Z.div_mod_to_equations. lia. Qed.

Lemma byte_at_slots boot rest k : length boot = 446%nat → 0 ≤ k → byte_at (boot ++ rest) (446 + k) = nth (Z.to_nat k) rest 0.
Proof. intros Hb Hk. unfold byte_at. rewrite app_nth2 by lia. f_equal. lia. Qed.

(** What slot [i] says, as the C structure reads it. *)
Definition decoded (sector : list Z) (i : Z) : option disk_partition :=
  if partition_type sector i =? 0 then None else Some (DiskPartition (entry_lba_start sector i) (entry_nr_sectors sector i)).

Definition as_partition (p : mbr_part) : disk_partition := DiskPartition (p_lba p) (p_count p).

Lemma slots_decoded boot s0 s1 s2 s3 (i : nat) o : length boot = 446%nat → Forall slot_ok [s0; s1; s2; s3] →
  [s0; s1; s2; s3] !! i = Some o → decoded (mbr_sector boot [s0; s1; s2; s3]) (Z.of_nat i) = as_partition <$> o.
Proof.
  intros Hb Hok Hi. assert (slot_ok o) as Ho by (eapply Forall_lookup_1; eauto).
  assert (∀ k, 0 ≤ k < 16 → byte_at (mbr_sector boot [s0; s1; s2; s3]) (entry_offset (Z.of_nat i) + k) = nth (Z.to_nat k) (slot_bytes o) 0) as Hbyte.
  { intros k Hk. unfold mbr_sector. replace (entry_offset (Z.of_nat i) + k) with (446 + (16 * Z.of_nat i + k))
      by (unfold entry_offset, MBR_PARTITION_GAP; lia). rewrite byte_at_slots by (done || lia).
    replace (Z.to_nat (16 * Z.of_nat i + k)) with (16 * i + Z.to_nat k)%nat by lia.
    assert (Z.to_nat k < 16)%nat as Hk16 by lia. revert Hk16. generalize (Z.to_nat k). clear -Hi. intros n Hn.
    assert (∀ o, length (slot_bytes o) = 16%nat) as Hlen by (by intros [[? [[? ?] ?] ? [[? ?] ?] ? ?]|]).
    destruct i as [|[|[|[|i]]]]; [injection Hi as <-..|done]; cbn [map concat].
    - rewrite <- app_assoc, app_nth1 by (rewrite Hlen; lia). f_equal.
    - rewrite <- app_assoc, app_nth2 by (rewrite Hlen; lia). rewrite Hlen, <- app_assoc, app_nth1 by (rewrite Hlen; lia). f_equal. lia.
    - rewrite <- app_assoc, app_nth2 by (rewrite Hlen; lia). rewrite Hlen, <- app_assoc, app_nth2 by (rewrite Hlen; lia).
      rewrite Hlen, <- app_assoc, app_nth1 by (rewrite Hlen; lia). f_equal. lia.
    - rewrite <- app_assoc, app_nth2 by (rewrite Hlen; lia). rewrite Hlen, <- app_assoc, app_nth2 by (rewrite Hlen; lia).
      rewrite Hlen, <- app_assoc, app_nth2 by (rewrite Hlen; lia). rewrite Hlen, app_nil_r, app_nth1 by (rewrite Hlen; lia). f_equal. lia. }
  unfold decoded, partition_type, entry_lba_start, entry_nr_sectors, le32_at.
  rewrite <- !Z.add_assoc. change (8 + 1) with 9. change (8 + 2) with 10. change (8 + 3) with 11.
  change (12 + 1) with 13. change (12 + 2) with 14. change (12 + 3) with 15. rewrite !Hbyte by lia.
  destruct o as [[st [[a b] c] ty [[d e] f] lba n]|]; [|done]. destruct Ho as (H1 & H2 & H3). cbn [p_type p_lba p_count] in *.
  change (Z.to_nat 4) with 4%nat. change (Z.to_nat 8) with 8%nat. change (Z.to_nat 9) with 9%nat. change (Z.to_nat 10) with 10%nat. change (Z.to_nat 11) with 11%nat. change (Z.to_nat 12) with 12%nat. change (Z.to_nat 13) with 13%nat. change (Z.to_nat 14) with 14%nat. change (Z.to_nat 15) with 15%nat.
  cbn -[Z.mul Z.div Z.modulo Z.eqb Z.add]. rewrite (proj2 (Z.eqb_neq _ _) H1). unfold as_partition. cbn [p_lba p_count].
  do 2 f_equal; rewrite !Z.add_assoc; by apply le32_value.
Qed.

Lemma signature_sector boot s0 s1 s2 s3 : length boot = 446%nat → signature (mbr_sector boot [s0; s1; s2; s3]) = MBR_SIGNATURE.
Proof.
  intros Hb. assert (∀ o, length (slot_bytes o) = 16%nat) as Hlen by (by intros [[? [[? ?] ?] ? [[? ?] ?] ? ?]|]).
  assert (length (concat (map slot_bytes [s0; s1; s2; s3])) = 64%nat) as Hl by (cbn [map concat]; rewrite !length_app, !Hlen; done).
  unfold signature, le16_at, mbr_sector. change (MBR_PARTITION_GAP + 70) with (446 + 64). change (446 + 64 + 1) with (446 + 65).
  rewrite !byte_at_slots by (done || lia). rewrite !app_nth2 by (rewrite Hl; lia). rewrite Hl. reflexivity.
Qed.

(** ** The loop *)

Fixpoint fill (i : nat) (sl : list (option disk_partition)) (parts : list disk_partition) : list disk_partition :=
  match sl with
  | [] => parts
  | None :: sl => fill (S i) sl parts
  | Some p :: sl => fill (S i) sl (<[i := p]> parts)
  end.

Definition used (sl : list (option disk_partition)) : Z := Z.of_nat (length (omap id sl)).

Lemma mbr_entries_fill sl i sector parts found :
  (∀ j o, sl !! j = Some o → decoded sector (Z.of_nat (i + j)) = o) →
  mbr_entries (length sl) (Z.of_nat i) sector parts found = (fill i sl parts, found + used sl).
Proof.
  revert i parts found. induction sl as [|o sl IH]; intros i parts found Hd; [cbn; f_equal; unfold used; cbn; lia|].
  pose proof (Hd 0%nat o eq_refl) as H0. rewrite Nat.add_0_r in H0. cbn [length mbr_entries]. unfold decoded in H0.
  replace (Z.of_nat i + 1) with (Z.of_nat (S i)) by lia.
  assert (∀ j o, sl !! j = Some o → decoded sector (Z.of_nat (S i + j)) = o) as Hd'.
  { intros j o' Hj. rewrite Nat.add_succ_comm. by apply (Hd (S j)). }
  destruct (partition_type sector (Z.of_nat i) =? 0); subst o; rewrite IH by done; cbn [fill].
  - done.
  - rewrite Nat2Z.id. f_equal. unfold used. cbn. lia.
Qed.

Lemma fill_before sl i parts k : (k < i)%nat → fill i sl parts !! k = parts !! k.
Proof.
  revert i parts. induction sl as [|[p|] sl IH]; intros i parts Hk; cbn [fill]; [done| |]; rewrite IH by lia; [|done].
  apply list_lookup_insert_ne. lia.
Qed.

Lemma fill_length sl i parts : length (fill i sl parts) = length parts.
Proof. revert i parts. induction sl as [|[p|] sl IH]; intros i parts; cbn [fill]; [done| |done]. by rewrite IH, length_insert. Qed.

Lemma fill_lookup sl i parts j : (i + length sl ≤ length parts)%nat →
  fill i sl parts !! (i + j)%nat = match sl !! j with Some (Some p) => Some p | _ => parts !! (i + j)%nat end.
Proof.
  revert i parts j. induction sl as [|o sl IH]; intros i parts j Hl; [done|]. cbn [length] in Hl.
  destruct j as [|j]; [rewrite Nat.add_0_r|rewrite Nat.add_succ_r, <- Nat.add_succ_l].
  - destruct o as [p|]; cbn [fill]; rewrite fill_before by lia; [apply list_lookup_insert_eq; lia|done].
  - destruct o as [p|]; cbn [fill]; rewrite IH by (rewrite ?length_insert; lia); cbn; [|done].
    by rewrite list_lookup_insert_ne by lia.
Qed.

(** ** Names *)

(** The characters of a zero-terminated name. *)
Fixpoint name_string (l : list Z) : list Z :=
  match l with [] => [] | c :: l => if c =? 0 then [] else c :: name_string l end.

Lemma strlen_split name n : name_strlen name = Some n →
  ∃ rest, name = name_string name ++ 0 :: rest ∧ n = Z.of_nat (length (name_string name)) ∧ Forall (λ c, c ≠ 0) (name_string name).
Proof.
  revert n. induction name as [|c name IH]; intros n E; [done|]. cbn [name_strlen name_string] in *.
  destruct (Z.eqb_spec c 0) as [->|Hc]; [injection E as <-; by exists name|].
  destruct (name_strlen name) as [k|]; [|done]. injection E as <-. destruct (IH k eq_refl) as (rest & E1 & -> & Hz).
  exists rest. split; [cbn; by f_equal|]. split; [cbn; lia|by constructor].
Qed.

Lemma c_string_app l rest : Forall (λ c, c ≠ 0) l → name_string (l ++ 0 :: rest) = l.
Proof. induction 1 as [|c l Hc _ IH]; [done|]. cbn. rewrite (proj2 (Z.eqb_neq _ _) Hc). by rewrite IH. Qed.

Lemma part_name_string name n i : length name = 16%nat → name_strlen name = Some n → n + 2 < 16 → 0 ≤ i < 16 →
  ∃ nm, part_name name n i = Some nm ∧ length nm = 16%nat ∧ name_string nm = name_string name ++ [112; part_digit i].
Proof.
  intros Hl En Hn Hi. destruct (strlen_split _ _ En) as (rest & E & -> & Hz). unfold part_name, DISK_NAME_LEN.
  rewrite (proj2 (Z.ltb_lt _ _)) by lia. eexists. split; [done|]. split; [by rewrite !length_insert|].
  set (l := name_string name) in *. rewrite E in Hl |- *. rewrite length_app in Hl. cbn in Hl.
  destruct rest as [|r1 [|r2 rest]]; [cbn in Hl; lia..|].
  replace (Z.to_nat (Z.of_nat (length l))) with (length l + 0)%nat by lia.
  replace (Z.to_nat (Z.of_nat (length l) + 1)) with (length l + 1)%nat by lia.
  replace (Z.to_nat (Z.of_nat (length l) + 2)) with (length l + 2)%nat by lia.
  rewrite !insert_app_r. cbn -[part_digit].
  replace (l ++ 112 :: part_digit i :: 0 :: rest) with ((l ++ [112; part_digit i]) ++ 0 :: rest) by (by rewrite <- app_assoc).
  apply c_string_app, Forall_app. split; [done|].
  assert (∀ j, (j < 16)%nat → part_digit (Z.of_nat j) ≠ 0) as Hd by (intros j Hj; do 16 (destruct j; [done|]); lia).
  repeat constructor; [done|]. rewrite <- (Z2Nat.id i) by lia. apply Hd. lia.
Qed.

(** ** Registration *)

Section Register.
Context {H D : Type} `{Disk H D}.

Definition grants (s : blk H D) : Prop := Forall (λ b, b = true) (kmallocs s).

Lemma wp_kmalloc_ok s (Q : bool → blk H D → Prop) : grants s →
  (∀ s', grants s' → hw s' = hw s → block_devices s' = block_devices s → Q true s') → wp kmalloc_ok s Q.
Proof.
  unfold grants, wp, kmalloc_ok. intros Hg HQ. destruct (kmallocs s) as [|b l] eqn:E; [apply HQ; [by rewrite E|done..]|].
  apply Forall_cons in Hg as [-> Hg]. by apply HQ.
Qed.

(** The device of partition [p], the [i]-th. *)
Record is_part (d : D) (pos : nat) (i : nat) (p : disk_partition) (b : block_device D) : Prop := {
  ip_disk : bd_disk b = d;
  ip_parent : parent b = Some pos;
  ip_lba : lba_start b = part_lba_start p;
  ip_nr : nr_sectors b = part_nr_sectors p;
  ip_name : name_string (bd_name b) = name_string (disk_name d) ++ [112; part_digit (Z.of_nat i)] }.

Definition named (d : D) (n : Z) : Prop := length (disk_name d) = 16%nat ∧ name_strlen (disk_name d) = Some n ∧ n + 2 < 16.

Lemma wp_add_partitions d pos n k i parts s : named d n → (i + k ≤ 16)%nat → (i + k ≤ length parts)%nat → grants s →
  wp (add_partitions k (Z.of_nat i) d pos n parts) s (λ _ s', grants s' ∧ hw s' = hw s ∧ ∃ subs,
    block_devices s' = block_devices s ++ subs ∧ length subs = k ∧
    ∀ j b, subs !! j = Some b → ∃ p, parts !! (i + j)%nat = Some p ∧ is_part d pos (i + j) p b).
Proof.
  intros (Hl & En & Hn) Hk. revert i s Hk. induction k as [|k IH]; intros i s Hk Hp Hg.
  { apply wp_ret. split; [done|]. split; [done|]. exists []. by rewrite app_nil_r. }
  cbn [add_partitions]. apply wp_bind, wp_kmalloc_ok; [done|]. intros s1 Hg1 Hh1 Hb1. cbn [negb].
  destruct (part_name_string _ n (Z.of_nat i) Hl En Hn ltac:(lia)) as (nm & -> & _ & Hnm).
  destruct (lookup_lt_is_Some_2 parts i ltac:(lia)) as [p Ep]. rewrite Nat2Z.id, Ep.
  apply wp_bind, wp_modify. replace (Z.of_nat i + 1) with (Z.of_nat (S i)) by lia.
  eapply wp_mono; [apply IH; [lia|lia|exact Hg1]|]. intros [] s2 (Hg2 & Hh2 & subs & Hb2 & Hs2 & Hsub).
  split; [done|]. split; [by rewrite Hh2|]. cbn [block_devices] in Hb2. rewrite Hb1 in Hb2.
  eexists (_ :: subs). split; [by rewrite Hb2, <- app_assoc|]. split; [cbn; lia|].
  intros [|j] b Hj; cbn in Hj.
  - injection Hj as <-. exists p. rewrite Nat.add_0_r. by split.
  - rewrite Nat.add_succ_r, <- Nat.add_succ_l. by apply Hsub.
Qed.

(** The general case: the array that the loop over the slots leaves, read from its start. *)
Lemma wp_add_disk d n boot s0 s1 s2 s3 sector0 parts0 r h' s :
  named d n → length boot = 446%nat → Forall slot_ok [s0; s1; s2; s3] → grants s → (4 ≤ length parts0)%nat →
  read_sectors d 0 1 sector0 (hw s) = Done ((r, mbr_sector boot [s0; s1; s2; s3]), h') → 0 ≤ r →
  let sl := map (fmap as_partition) [s0; s1; s2; s3] in
  wp (add_disk sector0 parts0 d) s (λ rc s', rc = 0 ∧ hw s' = h' ∧ ∃ subs,
    block_devices s' = block_devices s ++ BlockDevice (disk_name d) d None 0 (disk_nr_sectors d) :: subs ∧
    length subs = length (omap id sl) ∧
    ∀ j b, subs !! j = Some b → ∃ p, fill 0 sl parts0 !! j = Some p ∧ is_part d (length (block_devices s)) j p b).
Proof.
  intros Hnm Hb Hok Hg Hp Hr Hr0 sl. unfold add_disk. apply wp_bind, wp_kmalloc_ok; [done|]. intros t1 Hg1 Hh1 Hb1. cbn [negb].
  destruct Hnm as (Hl & En & Hn). rewrite En. apply wp_bind, wp_gets, wp_bind, wp_modify, wp_bind.
  unfold mbr_parse. apply wp_bind. unfold wp at 1, on_hw. cbn [hw bd_disk]. rewrite Hh1, Hr.
  rewrite (proj2 (Z.ltb_ge _ _)) by lia. rewrite signature_sector by done. cbn [negb]. change (MBR_SIGNATURE =? MBR_SIGNATURE) with true.
  cbn [negb]. apply wp_ret. change (Z.to_nat (Z.min 16 MBR_MAX_PARTITIONS)) with (length sl). change 0 with (Z.of_nat 0) at 1.
  rewrite mbr_entries_fill.
  2: { intros j o Hj. unfold sl in Hj. apply list_lookup_fmap_Some in Hj as (o' & -> & Hj). by apply slots_decoded. }
  assert (length (omap id sl) ≤ 4)%nat as Hle by (unfold sl; destruct s0, s1, s2, s3; cbn; lia).
  apply wp_bind. rewrite Z.add_0_l. unfold used. rewrite Nat2Z.id.
  eapply wp_mono; [apply (wp_add_partitions d _ n (length (omap id sl)) 0); [done|lia|rewrite fill_length; lia|exact Hg1]|].
  intros [] s' (Hg2 & Hh2 & subs & Hb2 & Hs2 & Hsub). apply wp_ret. split; [done|]. split; [done|]. cbn [block_devices hw] in *.
  exists subs. rewrite Hb2, Hb1, <- app_assoc. split; [done|]. split; [done|]. intros j b Hj.
  destruct (Hsub j b Hj) as (p & Ep & Hi). rewrite Hb1 in Hi. by exists p.
Qed.

Lemma add_disk_runs d n boot slots sector0 parts0 r h' s :
  named d n → length boot = 446%nat → length slots = 4%nat → Forall slot_ok slots → grants s → (4 ≤ length parts0)%nat →
  read_sectors d 0 1 sector0 (hw s) = Done ((r, mbr_sector boot slots), h') → 0 ≤ r →
  ∃ s' subs, add_disk sector0 parts0 d s = Done (0, s') ∧ hw s' = h' ∧
    block_devices s' = block_devices s ++ BlockDevice (disk_name d) d None 0 (disk_nr_sectors d) :: subs ∧
    length subs = length (omap id slots) ∧
    ∀ j b, subs !! j = Some b → ∃ p, fill 0 (map (fmap as_partition) slots) parts0 !! j = Some p ∧
      is_part d (length (block_devices s)) j p b.
Proof.
  intros Hn Hb Hl Hok Hg Hp Hr Hr0. destruct slots as [|s0 [|s1 [|s2 [|s3 [|]]]]]; try done.
  destruct (proj1 (wp_run _ _ _) (wp_add_disk d n boot s0 s1 s2 s3 sector0 parts0 r h' s Hn Hb Hok Hg Hp Hr Hr0))
    as (rc & s' & E & -> & Hh & subs & H1 & H2 & H3).
  exists s', subs. split; [done|]. split; [done|]. split; [done|]. split; [|done]. rewrite H2. by destruct s0, s1, s2, s3.
Qed.


(** C40: a boot sector whose first slot is empty registers garbage.  [mbr_parse]
    stores a partition at the index of its slot but returns only how many it
    found, and [add_disk] reads that many entries from the start: when slot 0
    is unused and another slot is used, the first device registered as a
    partition has the extent that the uninitialised entry 0 of the array on
    the stack happened to hold. *)
Theorem add_disk_gap d n boot slots sector0 parts0 q r h' s :
  named d n → length boot = 446%nat → length slots = 4%nat → Forall slot_ok slots → grants s → (4 ≤ length parts0)%nat →
  slots !! 0%nat = Some None → omap id slots ≠ [] → parts0 !! 0%nat = Some q →
  read_sectors d 0 1 sector0 (hw s) = Done ((r, mbr_sector boot slots), h') → 0 ≤ r →
  ∃ s' whole b rest, add_disk sector0 parts0 d s = Done (0, s') ∧ block_devices s' = block_devices s ++ whole :: b :: rest ∧
    is_part d (length (block_devices s)) 0 q b.
Proof.
  intros Hn Hb Hl Hok Hg Hp He Hu Hq Hr Hr0.
  destruct (add_disk_runs d n boot slots sector0 parts0 r h' s) as (s' & subs & E & Hh & Hb' & Hlen & Hsub); try done.
  destruct subs as [|b rest]; [by destruct (omap id slots)|]. exists s', (BlockDevice (disk_name d) d None 0 (disk_nr_sectors d)), b, rest.
  split; [done|]. split; [done|]. destruct (Hsub 0%nat b eq_refl) as (p & Ep & Hi).
  rewrite (fill_lookup _ 0 _ 0) in Ep by (rewrite length_map; lia).
  destruct slots as [|[?|] slots]; try done. cbn in Ep. assert (p = q) as -> by (cbn in Hq; congruence). done.
Qed.

End Register.

(** ** Instances *)

(** A disk that answers each read with a given sector. *)
#[export] Instance rom_disk : Disk unit (list Z) := {
  disk_name := λ _, [104; 100; 48; 0; 7; 7; 7; 7; 7; 7; 7; 7; 7; 7; 7; 7];
  disk_nr_sectors := λ _, 2048;
  read_sectors := λ d _ _ _ s, Done ((0, d), s) }.

Definition linux_part : mbr_part := MbrPart 128 (0, 2, 0) 131 (9, 9, 9) 2048 305419896.

Lemma rom_named d : named d 3.
Proof. done. Qed.

Lemma linux_ok : part_ok linux_part.
Proof. by split_and!. Qed.


Lemma add_disk_gap_witness : ∃ s' whole b rest, add_disk (replicate 512 9) (replicate 16 (DiskPartition 7 7))
    (mbr_sector (replicate 446 1) [None; Some linux_part; None; None]) (Blk tt [] []) = Done (0, s') ∧
  block_devices s' = whole :: b :: rest ∧ lba_start b = 7.
Proof.
  destruct (add_disk_gap (mbr_sector (replicate 446 1) [None; Some linux_part; None; None]) 3 (replicate 446 1) [None; Some linux_part; None; None]
    (replicate 512 9) (replicate 16 (DiskPartition 7 7)) (DiskPartition 7 7) 0 tt (Blk tt [] [])) as (s' & w & b & rest & E & Hb & [_ _ I3 _ _]);
    [apply rom_named|done|done|by repeat constructor; apply linux_ok|constructor|cbn; lia|done|done|done|reflexivity|lia|].
  exists s', w, b, rest. split; [exact E|]. split; [exact Hb|exact I3].
Defined.
