(* ===== verification/Pci.v ===== *)
(** * The PCI bus (src/drivers/pci): operations

    A configuration register is read through an address register and a data
    port.  [conf a p w] is what the data port [p] answers, [w] bytes wide,
    while the address register holds [a]. *)

From S2P Require Import Prelude Memory.

Definition PCI_CONFIG_ADDRESS : Z := 3320.
Definition PCI_CONFIG_DATA : Z := 3324.
Definition PCI_COMMON_VENDOR_ID : Z := 0.
Definition PCI_COMMON_DEVICE_ID : Z := 2.
Definition PCI_COMMON_COMMAND : Z := 4.
Definition PCI_COMMON_PROG_IF : Z := 9.
Definition PCI_COMMON_SUBCLASS : Z := 10.
Definition PCI_COMMON_CLASS_CODE : Z := 11.
Definition PCI_COMMON_HEADER_TYPE : Z := 14.
Definition PCI_GENERAL_BASE_ADDRESS (i : Z) : Z := 16 + 4 * i.
Definition PCI_VENDOR_ID_INVALID : Z := 65535.
Definition PCI_HEADER_TYPE_MULTIFUNCTION : Z := 128.
Definition PCI_MAX_SLOT : Z := 32.
Definition PCI_MAX_FUNC : Z := 8.
Definition PCI_COMMAND_IO_SPACE : Z := 1.
Definition PCI_DEVICE_IDE_CONTROLLER : Z := 257.

Record pci_device := PciDevice {
  bus : Z; slot : Z; func : Z;
  vendor_id : Z; device_id : Z;
  subclass : Z; class_code : Z;        (* the two bytes of the union with [type] *)
  prog_if : Z }.

Definition dev_type (d : pci_device) : Z := subclass d + 256 * class_code d.

(** [config_writes] are the writes to the data ports, newest first: the address
    register, the port and the value. *)
Record pci := Pci {
  pci_devices : list pci_device;
  pci_kmallocs : list bool;
  config_address : Z;
  config_writes : list (Z * Z * Z) }.

(** A device that is only probed: its position. *)
Definition probe (b s f : Z) : pci_device := PciDevice b s f 0 0 0 0 0.

Definition outl_address (a : Z) : M pci unit :=
  modify (λ s, Pci (pci_devices s) (pci_kmallocs s) a (config_writes s)).

Definition out_data (port v : Z) : M pci unit :=
  modify (λ s, Pci (pci_devices s) (pci_kmallocs s) (config_address s) ((config_address s, port, v) :: config_writes s)).

Definition config_base (d : pci_device) : Z :=
  Z.lor (Z.lor (Z.shiftl (bus d) 16) (Z.shiftl (slot d) 11)) (Z.shiftl (func d) 8).

(** [... | offset | (1u << 31)], the offset masked for the width. *)
Definition config_word (d : pci_device) (offset : Z) : Z := Z.lor (Z.lor (config_base d) offset) 2147483648.

Section Pci.
Context (conf : Z → Z → Z → Z).

Definition in_data (port width : Z) : M pci Z := gets (λ s, conf (config_address s) port width).

Definition pci_config_read_dword (d : pci_device) (offset : Z) : M pci Z :=
  outl_address (config_word d offset) ;; in_data PCI_CONFIG_DATA 4.

Definition pci_config_read_word (d : pci_device) (offset : Z) : M pci Z :=
  outl_address (config_word d (Z.land offset 254)) ;; in_data (PCI_CONFIG_DATA + Z.land offset 1) 2.

Definition pci_config_read_byte (d : pci_device) (offset : Z) : M pci Z :=
  outl_address (config_word d (Z.land offset 252)) ;; in_data (PCI_CONFIG_DATA + Z.land offset 3) 1.

Definition pci_config_write_dword (d : pci_device) (offset v : Z) : M pci unit :=
  outl_address (config_word d offset) ;; out_data PCI_CONFIG_DATA v.

Definition pci_config_write_word (d : pci_device) (offset v : Z) : M pci unit :=
  outl_address (config_word d (Z.land offset 254)) ;; out_data (PCI_CONFIG_DATA + Z.land offset 1) v.

Definition pci_config_write_byte (d : pci_device) (offset v : Z) : M pci unit :=
  outl_address (config_word d (Z.land offset 252)) ;; out_data (PCI_CONFIG_DATA + Z.land offset 3) v.

Definition pci_enable_io_space (d : pci_device) : M pci unit :=
  cmd ← pci_config_read_word d PCI_COMMON_COMMAND ;
  if Z.land cmd PCI_COMMAND_IO_SPACE =? 0
  then pci_config_write_word d PCI_COMMON_COMMAND (Z.lor cmd PCI_COMMAND_IO_SPACE) else mret tt.

Definition get_vendor_id (d : pci_device) : M pci Z := pci_config_read_word d PCI_COMMON_VENDOR_ID.
Definition get_device_id (d : pci_device) : M pci Z := pci_config_read_word d PCI_COMMON_DEVICE_ID.
Definition get_class (d : pci_device) : M pci Z := pci_config_read_byte d PCI_COMMON_CLASS_CODE.
Definition get_subclass (d : pci_device) : M pci Z := pci_config_read_byte d PCI_COMMON_SUBCLASS.
Definition get_prog_if (d : pci_device) : M pci Z := pci_config_read_byte d PCI_COMMON_PROG_IF.
Definition get_header_type (d : pci_device) : M pci Z := pci_config_read_byte d PCI_COMMON_HEADER_TYPE.

Definition pci_kmalloc : M pci bool := λ s,
  match pci_kmallocs s with
  | [] => Done (true, s)
  | b :: l => Done (b, Pci (pci_devices s) l (config_address s) (config_writes s))
  end.

Definition pci_register_device (p : pci_device) : M pci (option pci_device) :=
  cc ← get_class p ;
  sc ← get_subclass p ;
  ok ← pci_kmalloc ;
  if negb ok then mret None
  else
    v ← get_vendor_id p ;
    i ← get_device_id p ;
    pi ← get_prog_if p ;
    let dev := PciDevice (bus p) (slot p) (func p) v i sc cc pi in
    modify (λ s, Pci (pci_devices s ++ [dev]) (pci_kmallocs s) (config_address s) (config_writes s)) ;;
    mret (Some dev).

(** One turn of the loop on the functions. *)
Definition probe_func (b sl f : Z) : M pci unit :=
  v ← get_vendor_id (probe b sl f) ;
  if v =? PCI_VENDOR_ID_INVALID then mret tt
  else pci_register_device (probe b sl f) ;; mret tt.

(** One turn of the loop on the slots. *)
Definition probe_slot (b sl : Z) : M pci unit :=
  v ← get_vendor_id (probe b sl 0) ;
  if v =? PCI_VENDOR_ID_INVALID then mret tt
  else
    od ← pci_register_device (probe b sl 0) ;
    match od with
    | None => mret tt
    | Some dev =>
        h ← get_header_type dev ;
        if Z.land h PCI_HEADER_TYPE_MULTIFUNCTION =? 0 then mret tt
        else for_ 7 1 (λ f, probe_func b sl f)
    end.

(** [do { ... } while (++probe.bus != 0);] on a byte. *)
Fixpoint probe_buses (fuel : nat) (b : Z) : M pci unit :=
  match fuel with
  | O => hang
  | Datatypes.S fuel =>
      for_ 32 0 (λ sl, probe_slot b sl) ;;
      if u8 (b + 1) =? 0 then mret tt else probe_buses fuel (u8 (b + 1))
  end.

Definition pci_init : M pci unit := probe_buses 256 0.

End Pci.

(** [pci_for_each_device(type, fn, ctx)]: [fn] on the devices of the type, in order. *)
Fixpoint for_devices {S} (l : list pci_device) (ty : Z) (fn : pci_device → M S unit) : M S unit :=
  match l with
  | [] => mret tt
  | d :: l => (if dev_type d =? ty then fn d else mret tt) ;; for_devices l ty fn
  end.
