(* ===== verification/PciThm.v ===== *)
(** * The PCI bus: what [pci_init] registers

    The theorems assume of the hardware what the PCI local bus specification
    says of configuration mechanism #1: the address register names a bus, a
    slot, a function and a double word (its two low bits are always zero), and
    the data ports give the bytes of that double word. *)

From S2P Require Import Prelude Memory Pci.

(** The address of a register. *)
Definition address (b s f r : Z) : Z := 2147483648 + 65536 * b + 2048 * s + 256 * f + r.

Lemma config_word_address d r : 0 ≤ bus d < 256 → 0 ≤ slot d < 32 → 0 ≤ func d < 8 → 0 ≤ r < 256 →
  config_word d r = address (bus d) (slot d) (func d) r.
Proof.
  intros Hb Hs Hf Hr. unfold config_word, config_base, address. rewrite !Z.shiftl_mul_pow2 by lia.
  replace (bus d * 2 ^ 16) with (bus d * 32 * 2 ^ 11) by lia.
  assert (0 ≤ slot d * 2 ^ 11 < 2 ^ 16) as H1 by lia.
  rewrite <- (Z.lor_assoc _ (func d * 2 ^ 8)), (lor_low (func d) r 8) by lia.
  replace (bus d * 32 * 2 ^ 11) with (bus d * 2 ^ 16) by lia.
  rewrite (lor_low (bus d) (slot d * 2 ^ 11) 16) by lia.
  replace (bus d * 2 ^ 16 + slot d * 2 ^ 11) with ((bus d * 32 + slot d) * 2 ^ 11) by lia.
  rewrite lor_low by lia. rewrite Z.lor_comm. change 2147483648 with (1 * 2 ^ 31) at 1. rewrite lor_low by lia. lia.
Qed.

(** ** The hardware *)

(** [w] bytes, least significant first. *)
Definition little (space : Z → Z) (o w : Z) : Z :=
  if w =? 1 then space o
  else if w =? 2 then space o + 256 * space (o + 1)
  else space o + 256 * space (o + 1) + 65536 * space (o + 2) + 16777216 * space (o + 3).

Definition pci_hardware (space : Z → Z → Z → Z → Z) (conf : Z → Z → Z → Z) : Prop :=
  ∀ b s f r k w, 0 ≤ b < 256 → 0 ≤ s < 32 → 0 ≤ f < 8 → 0 ≤ r < 256 → 0 ≤ k → w = 1 ∨ w = 2 ∨ w = 4 → k + w ≤ 4 →
    conf (address b s f r) (PCI_CONFIG_DATA + k) w = little (space b s f) (r - r mod 4 + k) w.

Definition vendor (space : Z → Z → Z → Z → Z) (b s f : Z) : Z := little (space b s f) 0 2.

(** The functions of a slot that answer: none without function 0, and more than
    function 0 only if its header says so. *)
Definition functions (space : Z → Z → Z → Z → Z) (b s : Z) : list Z :=
  if vendor space b s 0 =? PCI_VENDOR_ID_INVALID then []
  else if Z.land (space b s 0 PCI_COMMON_HEADER_TYPE) PCI_HEADER_TYPE_MULTIFUNCTION =? 0 then [0]
  else 0 :: filter (λ f, vendor space b s f ≠ PCI_VENDOR_ID_INVALID) (seqZ 1 7).

Definition device_of (space : Z → Z → Z → Z → Z) (b s f : Z) : pci_device :=
  PciDevice b s f (vendor space b s f) (vendor space b s f) (space b s f PCI_COMMON_SUBCLASS)
    (space b s f PCI_COMMON_CLASS_CODE) (space b s f PCI_COMMON_PROG_IF).

Definition slot_devices (space : Z → Z → Z → Z → Z) (b s : Z) : list pci_device := map (device_of space b s) (functions space b s).

Lemma seqZ_last m n : 0 ≤ n → seqZ m (n + 1) = seqZ m n ++ [m + n].
Proof. intros Hn. by rewrite seqZ_app by lia. Qed.

Section Scan.
Context (space : Z → Z → Z → Z → Z) (conf : Z → Z → Z → Z) (Hhw : pci_hardware space conf).

Definition grants (s : pci) : Prop := Forall (λ b, b = true) (pci_kmallocs s).

(** All the scan changes: the list, the address register and the allocations made. *)
Record listed (s : pci) (l : list pci_device) (s' : pci) : Prop := {
  li_devices : pci_devices s' = pci_devices s ++ l;
  li_grants : grants s';
  li_writes : config_writes s' = config_writes s }.

Lemma listed_refl s : grants s → listed s [] s.
Proof. intros Hg. split; [by rewrite app_nil_r|done|done]. Qed.

Lemma listed_trans s1 s2 s3 l1 l2 : listed s1 l1 s2 → listed s2 l2 s3 → listed s1 (l1 ++ l2) s3.
Proof. intros [A1 A2 A3] [B1 B2 B3]. split; [by rewrite B1, A1, app_assoc|done|congruence]. Qed.

Definition at_pos (d : pci_device) (b s f : Z) : Prop := bus d = b ∧ slot d = s ∧ func d = f.

Definition in_range (b s f : Z) : Prop := 0 ≤ b < 256 ∧ 0 ≤ s < 32 ∧ 0 ≤ f < 8.

(** A byte; the masks are those of the offset. *)
Lemma wp_read_byte d b sl f o s (Q : Z → pci → Prop) : at_pos d b sl f → in_range b sl f → 0 ≤ o < 256 →
  Z.land o 252 = o - o mod 4 → Z.land o 3 = o mod 4 → grants s →
  (∀ s', listed s [] s' → Q (space b sl f o) s') → wp (pci_config_read_byte conf d o) s Q.
Proof.
  intros (Eb & Es & Ef) (Hb & Hs & Hf) Ho E1 E2 Hg HQ. unfold pci_config_read_byte. apply wp_bind, wp_modify, wp_gets.
  cbn [config_address]. pose proof (Z.mod_pos_bound o 4 ltac:(lia)) as Hm.
  pose proof (Z.mod_le o 4 ltac:(lia) ltac:(lia)) as Hm'. rewrite E1, E2, config_word_address, Eb, Es, Ef by lia.
  rewrite Hhw by lia. replace (o - o mod 4 - (o - o mod 4) mod 4 + o mod 4) with o.
  - apply HQ. split; [by rewrite app_nil_r|done|done].
  - Z.div_mod_to_equations. lia.
Qed.

(** A word at an even offset: the hardware gives the low half of the double word. *)
Lemma wp_read_word d b sl f o s (Q : Z → pci → Prop) : at_pos d b sl f → in_range b sl f → 0 ≤ o < 256 →
  Z.land o 254 = o → Z.land o 1 = 0 → grants s →
  (∀ s', listed s [] s' → Q (little (space b sl f) (o - o mod 4) 2) s') → wp (pci_config_read_word conf d o) s Q.
Proof.
  intros (Eb & Es & Ef) (Hb & Hs & Hf) Ho E1 E2 Hg HQ. unfold pci_config_read_word. apply wp_bind, wp_modify, wp_gets.
  cbn [config_address]. rewrite E1, E2, config_word_address, Eb, Es, Ef, Hhw, Z.add_0_r by lia.
  apply HQ. split; [by rewrite app_nil_r|done|done].
Qed.

Lemma grants_of s l s' : listed s l s' → grants s'.
Proof. by intros []. Qed.

(** Sequencing of scans. *)
Lemma listed_step s1 s2 s3 l : listed s1 [] s2 → listed s2 l s3 → listed s1 l s3.
Proof. apply (listed_trans s1 s2 s3 [] l). Qed.

Lemma wp_register b sl f s (Q : option pci_device → pci → Prop) : in_range b sl f → grants s →
  (∀ s', listed s [device_of space b sl f] s' → Q (Some (device_of space b sl f)) s') →
  wp (pci_register_device conf (probe b sl f)) s Q.
Proof.
  intros Hr Hg HQ. assert (at_pos (probe b sl f) b sl f) as Hp by done. unfold pci_register_device, get_class, get_subclass.
  apply wp_bind, (wp_read_byte _ b sl f); [done..|]. intros s1 L1. apply wp_bind, (wp_read_byte _ b sl f); [done..|by eapply grants_of|].
  intros s2 L2. apply wp_bind.
  assert (∀ R : bool → pci → Prop, (∀ s3, listed s [] s3 → R true s3) → wp pci_kmalloc s2 R) as Hk.
  { intros R HR. pose proof (listed_step _ _ _ _ L1 L2) as [D G W]. unfold wp, pci_kmalloc. unfold grants in G.
    destruct (pci_kmallocs s2) as [|x l] eqn:E; [apply HR; split; [done|by unfold grants; rewrite E|done]|].
    apply Forall_cons in G as [-> G]. by apply HR. }
  apply Hk. intros s3 L3. cbn [negb]. unfold get_vendor_id, get_device_id, get_prog_if.
  apply wp_bind, (wp_read_word _ b sl f); [done..|by eapply grants_of|]. intros s4 L4.
  apply wp_bind, (wp_read_word _ b sl f); [done..|by eapply grants_of|]. intros s5 L5.
  apply wp_bind, (wp_read_byte _ b sl f); [done..|by eapply grants_of|]. intros s6 L6.
  apply wp_bind, wp_modify, wp_ret. apply HQ.
  pose proof (listed_step _ _ _ _ (listed_step _ _ _ _ L3 L4) (listed_step _ _ _ _ L5 L6)) as [D G W].
  split; [cbn; by rewrite D, app_nil_r|done|done].
Qed.

Lemma wp_probe_func b sl f s : in_range b sl f → grants s →
  wp (probe_func conf b sl f) s (λ _ s', listed s
    (map (device_of space b sl) (filter (λ f, vendor space b sl f ≠ PCI_VENDOR_ID_INVALID) [f])) s').
Proof.
  intros Hr Hg. unfold probe_func, get_vendor_id. apply wp_bind, (wp_read_word _ b sl f); [done..|]. intros s1 L1.
  change (little (space b sl f) (PCI_COMMON_VENDOR_ID - PCI_COMMON_VENDOR_ID mod 4) 2) with (vendor space b sl f).
  destruct (Z.eqb_spec (vendor space b sl f) PCI_VENDOR_ID_INVALID) as [E|E].
  - rewrite filter_cons_False by auto. by apply wp_ret.
  - rewrite filter_cons_True by done. apply wp_bind, wp_register; [done|by eapply grants_of|]. intros s2 L2.
    apply wp_ret. by eapply listed_step.
Qed.

Lemma wp_probe_slot b sl s : 0 ≤ b < 256 → 0 ≤ sl < 32 → grants s →
  wp (probe_slot conf b sl) s (λ _ s', listed s (slot_devices space b sl) s').
Proof.
  intros Hb Hs Hg. assert (in_range b sl 0) as Hr by (split_and!; lia). unfold probe_slot, slot_devices, functions, get_vendor_id.
  apply wp_bind, (wp_read_word _ b sl 0); [done..|]. intros s1 L1.
  change (little (space b sl 0) (PCI_COMMON_VENDOR_ID - PCI_COMMON_VENDOR_ID mod 4) 2) with (vendor space b sl 0).
  destruct (vendor space b sl 0 =? PCI_VENDOR_ID_INVALID); [by apply wp_ret|].
  apply wp_bind, wp_register; [done|by eapply grants_of|]. intros s2 L2. pose proof (listed_step _ _ _ _ L1 L2) as L12.
  unfold get_header_type. apply wp_bind, (wp_read_byte _ b sl 0); [done..|by eapply grants_of|]. intros s3 L3.
  pose proof (listed_trans _ _ _ _ _ L12 L3) as L13. rewrite app_nil_r in L13.
  destruct (Z.land _ _ =? 0); [by apply wp_ret|].
  eapply wp_mono; [apply (wp_for (λ f s', listed s (device_of space b sl 0 ::
    map (device_of space b sl) (filter (λ f, vendor space b sl f ≠ PCI_VENDOR_ID_INVALID) (seqZ 1 (f - 1)))) s'))|].
  - by rewrite Z.sub_diag.
  - intros f s4 Hf L4. eapply wp_mono; [apply wp_probe_func; [split_and!; lia|by eapply grants_of]|]. intros [] s5 L5.
    replace (f + 1 - 1) with ((f - 1) + 1) by lia. rewrite seqZ_last, filter_app, map_app by lia.
    replace (1 + (f - 1)) with f by lia. by apply (listed_trans _ _ _ (_ :: _) _ L4).
  - intros [] s4 L4. exact L4.
Qed.

Lemma wp_probe_bus b s : 0 ≤ b < 256 → grants s →
  wp (for_ 32 0 (λ sl, probe_slot conf b sl)) s (λ _ s', listed s (concat (map (slot_devices space b) (seqZ 0 32))) s').
Proof.
  intros Hb Hg. eapply wp_mono; [apply (wp_for (λ sl s', listed s (concat (map (slot_devices space b) (seqZ 0 sl))) s'))|].
  - by apply listed_refl.
  - intros sl s1 Hs L1. eapply wp_mono; [apply wp_probe_slot; [done|lia|by eapply grants_of]|]. intros [] s2 L2.
    rewrite seqZ_last, map_app, concat_app by lia. cbn. rewrite app_nil_r. by eapply listed_trans.
  - intros [] s1 L1. exact L1.
Qed.

Lemma wp_probe_buses n b s : 0 ≤ b → b + Z.of_nat n = 256 → (0 < n)%nat → grants s →
  wp (probe_buses conf n b) s (λ _ s', listed s
    (concat (map (λ b, concat (map (slot_devices space b) (seqZ 0 32))) (seqZ b (Z.of_nat n)))) s').
Proof.
  revert b s. induction n as [|n IH]; intros b s Hb Hn Hpos Hg; [lia|]. cbn [probe_buses]. apply wp_bind.
  eapply wp_mono; [apply wp_probe_bus; [lia|done]|]. intros [] s1 L1. rewrite (seqZ_cons b) by lia. cbn [map concat].
  replace (Z.pred (Z.of_nat (S n))) with (Z.of_nat n) by lia. destruct (Z.eqb_spec (u8 (b + 1)) 0) as [E|E].
  - assert (n = 0)%nat as -> by (unfold u8 in E; Z.div_mod_to_equations; lia). apply wp_ret.
    change (seqZ (Z.succ b) (Z.of_nat 0)) with (@nil Z). cbn [map concat]. by rewrite app_nil_r.
  - assert (b + 1 ≠ 256) as Hne by (intros E'; by rewrite E' in E).
    assert (u8 (b + 1) = Z.succ b) as -> by (unfold u8; rewrite Z.mod_small by lia; lia).
    eapply wp_mono; [apply IH; [lia|lia|lia|by eapply grants_of]|]. intros [] s2 L2. by eapply listed_trans.
Qed.

(** C39: [pci_init] registers exactly the functions that answer.  On hardware
    that follows the specification, when the allocations succeed, the scan
    ends (its 8-bit bus counter wraps after bus 255) and appends to the list,
    in the order bus, slot, function, one device for function 0 of every slot
    whose vendor identifier is not 0xFFFF and, if its header has the
    multi-function bit, one for each other function that answers, with its
    class, subclass and interface; it writes no configuration register.  The
    device identifier it records is the vendor identifier again: the word at
    offset 2 is asked for through the address register, whose two low bits
    the hardware does not have. *)
Theorem pci_init_enumerates s : grants s →
  ∃ s', pci_init conf s = Done (tt, s') ∧ config_writes s' = config_writes s ∧
    pci_devices s' = pci_devices s ++ concat (map (λ b, concat (map (λ sl, map (device_of space b sl) (functions space b sl)) (seqZ 0 32))) (seqZ 0 256)).
Proof.
  intros Hg. destruct (proj1 (wp_run _ _ _) (wp_probe_buses 256 0 s ltac:(lia) ltac:(lia) ltac:(lia) Hg)) as ([] & s' & E & [D G W]).
  by exists s'.
Qed.

End Scan.

(** ** An instance *)

(** A machine with an IDE controller with two functions in slot 1 of bus 0. *)
Definition one_controller (b s f o : Z) : Z :=
  if (b =? 0) && (s =? 1) && (f <? 2) then
    if o =? 0 then 134 else if o =? 1 then 128 else if o =? 2 then 17 else if o =? 3 then 112
    else if o =? 10 then 1 else if o =? 11 then 1 else if o =? 14 then 128 else 0
  else 255.

(** The host bridge: the address register without its two low bits. *)
Definition bridge (space : Z → Z → Z → Z → Z) (a port w : Z) : Z :=
  little (space (a / 65536 mod 256) (a / 2048 mod 32) (a / 256 mod 8)) (a mod 256 - a mod 4 + (port - PCI_CONFIG_DATA)) w.

Lemma bridge_hardware space : pci_hardware space (bridge space).
Proof.
  intros b s f r k w Hb Hs Hf Hr Hk Hw Hkw. unfold bridge, address.
  replace ((2147483648 + 65536 * b + 2048 * s + 256 * f + r) / 65536 mod 256) with b by (Z.div_mod_to_equations; lia).
  replace ((2147483648 + 65536 * b + 2048 * s + 256 * f + r) / 2048 mod 32) with s by (Z.div_mod_to_equations; lia).
  replace ((2147483648 + 65536 * b + 2048 * s + 256 * f + r) / 256 mod 8) with f by (Z.div_mod_to_equations; lia).
  f_equal. Z.div_mod_to_equations; lia.
Qed.

Lemma pci_init_enumerates_witness : ∃ s', pci_init (bridge one_controller) (Pci [] [] 0 []) = Done (tt, s') ∧
  map (λ d, (slot d, func d, dev_type d, device_id d)) (pci_devices s') = [(1, 0, 257, 32902); (1, 1, 257, 32902)].
Proof.
  destruct (pci_init_enumerates one_controller (bridge one_controller) (bridge_hardware one_controller) (Pci [] [] 0 []))
    as (s' & E & _ & D); [constructor|]. exists s'. split; [exact E|]. rewrite D. vm_compute. reflexivity.
Defined.
