(* ===== verification/Ata.v ===== *)
(** * The IDE driver (src/drivers/ata): operations

    The device is a parameter: [input t p] is what port [p] answers to the
    [t]-th input of the driver.  What the driver writes is recorded.  The
    loops that wait for a device that is busy have no bound in the code; here
    they run out of [polls], which is an outcome of its own ([Hang]). *)

From S2P Require Import Prelude Memory Block Pci.

Definition ATA_PRIMARY_BASE : Z := 496.
Definition ATA_PRIMARY_CONTROL : Z := 1014.
Definition ATA_SECONDARY_BASE : Z := 368.
Definition ATA_SECONDARY_CONTROL : Z := 886.
Definition ATA_SECTOR_SIZE : Z := 512.
Definition ATA_SR_BSY : Z := 128.
Definition ATA_SR_DF : Z := 32.
Definition ATA_SR_DRQ : Z := 8.
Definition ATA_SR_ERR : Z := 1.
Definition ATA_CMD_READ_PIO : Z := 32.
Definition ATA_CMD_WRITE_PIO : Z := 48.
Definition ATA_CMD_CACHE_FLUSH : Z := 231.
Definition ATA_CMD_IDENTIFY : Z := 236.
Definition ATA_REG_DATA : Z := 0.
Definition ATA_REG_SECCOUNT0 : Z := 2.
Definition ATA_REG_LBA0 : Z := 3.
Definition ATA_REG_LBA1 : Z := 4.
Definition ATA_REG_LBA2 : Z := 5.
Definition ATA_REG_HDDEVSEL : Z := 6.
Definition ATA_REG_COMMAND : Z := 7.
Definition ATA_REG_STATUS : Z := 7.
Definition ATA_REG_CONTROL : Z := 12.
Definition ATA_REG_ALTSTATUS : Z := 12.
Definition ATA_IDENT_DEVICETYPE : Z := 0.
Definition ATA_IDENT_CYLINDERS : Z := 2.
Definition ATA_IDENT_HEADS : Z := 6.
Definition ATA_IDENT_SECTORS : Z := 12.
Definition ATA_IDENT_SERIAL : Z := 20.
Definition ATA_IDENT_MODEL : Z := 54.
Definition ATA_IDENT_CAPABILITIES : Z := 98.
Definition ATA_IDENT_FIELDVALID : Z := 106.
Definition ATA_IDENT_MAX_LBA : Z := 120.
Definition ATA_IDENT_MAX_LBA_EXT : Z := 200.

Record ide_channel := IdeChannel { base_port : Z; control_port : Z; bmide : Z; nIEN : Z }.

Record ide_device := IdeDevice {
  channel : ide_channel;
  slave : Z;
  model : list Z;                (* 21 bytes *)
  serial : list Z;               (* 21 bytes *)
  ide_dev_type : Z;
  cylinders : Z;
  heads : Z;
  sectors : Z;
  lba_max_sectors : Z;
  capabilities : Z;
  field_valid : Z;
  lba_ext_max_sectors : Z }.

Inductive ide_access_direction := IDE_ACCESS_READ | IDE_ACCESS_WRITE.

(** The number of inputs so far and the outputs, newest first. *)
Record ata_io := AtaIo { time : nat; outs : list (Z * Z) }.

Section Ata.
Context (input : nat → Z → Z) (polls : nat).

(** ** Registers *)

Definition ata_outb (port v : Z) : M ata_io unit := modify (λ s, AtaIo (time s) ((u16 port, u8 v) :: outs s)).

Definition in_port (port : Z) : M ata_io Z := λ s, Done (input (time s) (u16 port), AtaIo (S (time s)) (outs s)).

Definition ata_inb (port : Z) : M ata_io Z := v ← in_port port ; mret (u8 v).

(** A write that does not select the high-order bytes. *)
Definition out_reg (ch : ide_channel) (reg v : Z) : M ata_io unit :=
  if reg <? 8 then ata_outb (base_port ch + reg) v
  else if reg <? 12 then ata_outb (base_port ch + reg - 6) v
  else if reg <? 14 then ata_outb (control_port ch + reg - 10) v
  else if negb (bmide ch =? 0) then ata_outb (bmide ch + reg - 14) v
  else mret tt.

Definition high_order (reg : Z) : bool := (7 <? reg) && (reg <? 12).

Definition ide_write_reg (ch : ide_channel) (reg v : Z) : M ata_io unit :=
  (if high_order reg then out_reg ch ATA_REG_CONTROL (Z.lor 128 (nIEN ch)) else mret tt) ;;
  out_reg ch reg v ;;
  (if high_order reg then out_reg ch ATA_REG_CONTROL (nIEN ch) else mret tt).

Definition ide_read_reg (ch : ide_channel) (reg : Z) : M ata_io Z :=
  (if high_order reg then out_reg ch ATA_REG_CONTROL (Z.lor 128 (nIEN ch)) else mret tt) ;;
  r ← (if reg <? 8 then ata_inb (base_port ch + reg)
       else if reg <? 12 then ata_inb (base_port ch + reg - 6)
       else if reg <? 14 then ata_inb (control_port ch + reg - 10)
       else if negb (bmide ch =? 0) then ata_inb (bmide ch + reg - 14)
       else mret 255) ;
  (if high_order reg then out_reg ch ATA_REG_CONTROL (nIEN ch) else mret tt) ;;
  mret r.

(** [while (ide_read_reg(channel, ATA_REG_STATUS) & ATA_SR_BSY);] *)
Fixpoint wait_not_busy (fuel : nat) (ch : ide_channel) : M ata_io unit :=
  match fuel with
  | O => hang
  | Datatypes.S fuel =>
      st ← ide_read_reg ch ATA_REG_STATUS ;
      if Z.land st ATA_SR_BSY =? 0 then mret tt else wait_not_busy fuel ch
  end.

Definition ide_polling (ch : ide_channel) (advanced_check : bool) : M ata_io Z :=
  for_ 4 0 (λ _, ide_read_reg ch ATA_REG_ALTSTATUS ;; mret tt) ;;
  wait_not_busy polls ch ;;
  if advanced_check then
    state ← ide_read_reg ch ATA_REG_STATUS ;
    if negb (Z.land state ATA_SR_DF =? 0) then mret 1
    else if negb (Z.land state ATA_SR_ERR =? 0) then mret 2
    else if Z.land state ATA_SR_DRQ =? 0 then mret 3
    else mret 0
  else mret 0.

(** ** Transfers *)

(** [rep insw]: [n] words, little endian. *)
Fixpoint insw (n : nat) (port : Z) : M ata_io (list Z) :=
  match n with
  | O => mret []
  | Datatypes.S n =>
      w ← in_port port ;
      l ← insw n port ;
      mret (u16 w mod 256 :: u16 w / 256 :: l)
  end.

Fixpoint outsw (port : Z) (l : list Z) : M ata_io unit :=
  match l with
  | a :: b :: l =>
      modify (λ s, AtaIo (time s) ((u16 port, a + 256 * b) :: outs s)) ;;
      outsw port l
  | _ => mret tt
  end.

(** The bytes of the buffer from [off] on. *)
Definition store_at (buf : list Z) (off : nat) (bytes : list Z) : option (list Z) :=
  if decide (off + length bytes ≤ length buf)%nat
  then Some (take off buf ++ bytes ++ drop (off + length bytes) buf) else None.

(** [for (int i = 0; i < count; i++)]: the code and the buffer. *)
Fixpoint read_loop (n : nat) (i : nat) (dev : ide_device) (buf : list Z) : M ata_io (Z * list Z) :=
  match n with
  | O => mret (0, buf)
  | Datatypes.S n =>
      err ← ide_polling (channel dev) true ;
      if negb (err =? 0) then mret (err, buf)
      else
        bytes ← insw 256 (base_port (channel dev)) ;
        match store_at buf (512 * i) bytes with
        | None => fault
        | Some buf => read_loop n (S i) dev buf
        end
  end.

Fixpoint write_loop (n : nat) (i : nat) (dev : ide_device) (buf : list Z) : M ata_io unit :=
  match n with
  | O => mret tt
  | Datatypes.S n =>
      ide_polling (channel dev) false ;;
      (if decide (512 * i + 512 ≤ length buf)%nat
       then outsw (base_port (channel dev)) (take 512 (drop (512 * i) buf)) else fault) ;;
      write_loop n (S i) dev buf
  end.

Definition ata_access_sector (dev : ide_device) (lba : Z) (direction : ide_access_direction) (count : Z) (edi : list Z) :
    M ata_io (Z * list Z) :=
  let ch := channel dev in
  ide_write_reg ch ATA_REG_CONTROL 2 ;;
  if 268435456 <=? lba then kpanic "LBA48 not implemented"
  else if Z.land (capabilities dev) 512 =? 0 then kpanic "CHS not implemented"
  else
    let lba0 := Z.land lba 255 in
    let lba1 := Z.shiftr (Z.land lba 65280) 8 in
    let lba2 := Z.shiftr (Z.land lba 16711680) 16 in
    let head := Z.shiftr (Z.land lba 251658240) 24 in
    wait_not_busy polls ch ;;
    ide_write_reg ch ATA_REG_HDDEVSEL (Z.lor (Z.lor 224 (Z.shiftl (slave dev) 4)) head) ;;
    ide_write_reg ch ATA_REG_SECCOUNT0 count ;;
    ide_write_reg ch ATA_REG_LBA0 lba0 ;;
    ide_write_reg ch ATA_REG_LBA1 lba1 ;;
    ide_write_reg ch ATA_REG_LBA2 lba2 ;;
    ide_write_reg ch ATA_REG_COMMAND (match direction with IDE_ACCESS_READ => ATA_CMD_READ_PIO | IDE_ACCESS_WRITE => ATA_CMD_WRITE_PIO end) ;;
    match direction with
    | IDE_ACCESS_READ => read_loop (Z.to_nat count) 0 dev edi
    | IDE_ACCESS_WRITE =>
        write_loop (Z.to_nat count) 0 dev edi ;;
        ide_write_reg ch ATA_REG_COMMAND ATA_CMD_CACHE_FLUSH ;;
        ide_polling ch false ;;
        mret (0, edi)
    end.

(** [count] is a byte of [ata_access_sector]. *)
Definition ata_read_sector (dev : ide_device) (lba count : Z) (edi : list Z) : M ata_io (Z * list Z) :=
  ata_access_sector dev lba IDE_ACCESS_READ (u8 count) edi.

Definition ata_write_sector (dev : ide_device) (lba count : Z) (edi : list Z) : M ata_io (Z * list Z) :=
  ata_access_sector dev lba IDE_ACCESS_WRITE (u8 count) edi.

(** ** Disks *)

Record generic_disk := GenericDisk { gd_name : list Z; gd_nr_sectors : Z; priv : ide_device }.

(** [ide_ops]. *)
#[export] Instance ide_ops : Disk ata_io generic_disk := {
  disk_name := gd_name;
  disk_nr_sectors := gd_nr_sectors;
  read_sectors := λ d lba count buf, ata_read_sector (priv d) lba count buf }.

(** ** Identification *)

(** [for (i = 0; i < n; i++) { st = ...; if (stop(st)) break; if (fail(st)) return -1; }]:
    the last status, or the failure. *)
Fixpoint poll_status (n : nat) (ch : ide_channel) (stop fail : Z → bool) (st : Z) : M ata_io (option Z) :=
  match n with
  | O => mret (Some st)
  | Datatypes.S n =>
      st ← ide_read_reg ch ATA_REG_STATUS ;
      if stop st then mret (Some st)
      else if fail st then mret None
      else poll_status n ch stop fail st
  end.

Definition busy (st : Z) : bool := negb (Z.land st ATA_SR_BSY =? 0).
Definition drq (st : Z) : bool := negb (Z.land st ATA_SR_DRQ =? 0).
Definition err (st : Z) : bool := negb (Z.land st ATA_SR_ERR =? 0).

(** The 512 bytes, or -1.  The 128 double words of [insl] are 256 words. *)
Definition ide_identify (ch : ide_channel) (slave : Z) : M ata_io (option (list Z)) :=
  st ← poll_status 1000 ch (λ st, negb (busy st)) (λ _, false) 0 ;
  match st with
  | None => mret None
  | Some st =>
      if busy st then mret None
      else
        ide_write_reg ch ATA_REG_HDDEVSEL (Z.lor 160 (Z.shiftl slave 4)) ;;
        ide_write_reg ch ATA_REG_COMMAND ATA_CMD_IDENTIFY ;;
        st ← poll_status (100 * 100) ch (λ st, negb (busy st) && drq st) err st ;
        match st with
        | None => mret None
        | Some st =>
            if negb (drq st) then mret None
            else
              buf ← insw 256 (base_port ch + ATA_REG_DATA) ;
              st ← ide_read_reg ch ATA_REG_STATUS ;
              if err st then mret None else mret (Some buf)
        end
  end.

End Ata.

(** The bytes of each word swapped: [n] words, and no more than [max_len - 1] bytes. *)
Fixpoint swap_words (n : nat) (pos max_len : Z) (l : list Z) : list Z :=
  match n, l with
  | Datatypes.S n, lo :: hi :: l =>
      if pos + 1 <? max_len then
        if pos + 1 <? max_len - 1 then hi :: lo :: swap_words n (pos + 2) max_len l
        else hi :: swap_words n (pos + 1) max_len l
      else []
  | _, _ => []
  end.

(** [while (pos > 0 && (out[pos - 1] == ' ' || out[pos - 1] == 0)) out[--pos] = 0;] on the characters in reverse. *)
Fixpoint trim_end (l : list Z) : list Z :=
  match l with
  | c :: l => if (c =? 32) || (c =? 0) then trim_end l else c :: l
  | [] => []
  end.

(** The characters of [out], before its zero bytes. *)
Definition ide_id_extract_string (buf : list Z) (byte_off max_len : Z) : list Z :=
  rev (trim_end (rev (swap_words (Z.to_nat (max_len / 2)) 0 max_len (drop (Z.to_nat byte_off) buf)))).

(** A zero-terminated string in an array of [n] bytes. *)
Definition c_array (n : nat) (l : list Z) : list Z := l ++ replicate (n - length l) 0.

Definition ide_populate_drive (ch : ide_channel) (slave : Z) (id_buf : list Z) : ide_device :=
  IdeDevice ch slave
    (c_array 21 (ide_id_extract_string id_buf ATA_IDENT_MODEL 21)) (c_array 21 (ide_id_extract_string id_buf ATA_IDENT_SERIAL 21))
    (byte_at id_buf ATA_IDENT_DEVICETYPE) (le16_at id_buf ATA_IDENT_CYLINDERS) (byte_at id_buf ATA_IDENT_HEADS)
    (byte_at id_buf ATA_IDENT_SECTORS) (le32_at id_buf ATA_IDENT_MAX_LBA) (le16_at id_buf ATA_IDENT_CAPABILITIES)
    (byte_at id_buf ATA_IDENT_FIELDVALID) (le32_at id_buf ATA_IDENT_MAX_LBA_EXT).

(** ** Initialisation *)

Record ide := Ide {
  pci_st : pci;
  ide_channels : list ide_channel;
  ide_devices : list ide_device;
  disks : blk ata_io generic_disk }.

Section Init.
Context (input : nat → Z → Z) (polls : nat) (conf : Z → Z → Z → Z).
(** What the stack of [add_disk] and the heap hold before they are written. *)
Context (sector0 : list Z) (parts0 : list disk_partition) (heap0 : list Z).

Existing Instance ide_ops.

Definition on_pci {A} (c : M pci A) : M ide A := λ s,
  match c (pci_st s) with
  | Done (a, p) => Done (a, Ide p (ide_channels s) (ide_devices s) (disks s))
  | Panic msg => Panic msg | Fault => Fault | Hang => Hang
  end.

Definition on_blk {A} (c : M (blk ata_io generic_disk) A) : M ide A := λ s,
  match c (disks s) with
  | Done (a, b) => Done (a, Ide (pci_st s) (ide_channels s) (ide_devices s) b)
  | Panic msg => Panic msg | Fault => Fault | Hang => Hang
  end.

(** A base address register, or the legacy port where it is zero. *)
Definition or_legacy (bar legacy : Z) : Z := u16 (if bar =? 0 then legacy else bar).

(** The result of the allocation is not tested. *)
Definition ide_probe_controller (ctrlr : pci_device) : M ide unit :=
  ok ← on_blk kmalloc_ok ;
  bar0 ← on_pci (pci_config_read_dword conf ctrlr (PCI_GENERAL_BASE_ADDRESS 0)) ;
  bar1 ← on_pci (pci_config_read_dword conf ctrlr (PCI_GENERAL_BASE_ADDRESS 1)) ;
  bar2 ← on_pci (pci_config_read_dword conf ctrlr (PCI_GENERAL_BASE_ADDRESS 2)) ;
  bar3 ← on_pci (pci_config_read_dword conf ctrlr (PCI_GENERAL_BASE_ADDRESS 3)) ;
  bar4 ← on_pci (pci_config_read_dword conf ctrlr (PCI_GENERAL_BASE_ADDRESS 4)) ;
  bar5 ← on_pci (pci_config_read_dword conf ctrlr (PCI_GENERAL_BASE_ADDRESS 5)) ;
  if negb ok then fault
  else
    modify (λ s, Ide (pci_st s) (ide_channels s ++
      [IdeChannel (or_legacy bar0 ATA_PRIMARY_BASE) (or_legacy bar1 ATA_PRIMARY_CONTROL) (u16 bar4) 2;
       IdeChannel (or_legacy bar2 ATA_SECONDARY_BASE) (or_legacy bar3 ATA_SECONDARY_CONTROL) (u16 bar5) 2])
      (ide_devices s) (disks s)).

(** One turn of the loop on the two devices of a channel. *)
Definition probe_drive (ch : ide_channel) (slave : Z) : M ide unit :=
  ok ← on_blk kmalloc_ok ;
  if negb ok then mret tt
  else
    id ← on_blk (on_hw (ide_identify input ch slave)) ;
    match id with
    | None => mret tt
    | Some buf => modify (λ s, Ide (pci_st s) (ide_channels s) (ide_devices s ++ [ide_populate_drive ch slave buf]) (disks s))
    end.

Fixpoint ide_probe_channels (l : list ide_channel) : M ide unit :=
  match l with
  | [] => mret tt
  | ch :: l => for_ 2 0 (λ slave, probe_drive ch slave) ;; ide_probe_channels l
  end.

(** [memcpy(name, "hd0", 4); name[2] += i]: the rest of the 16 bytes is the heap's. *)
Definition drive_name (i : Z) : list Z := [104; 100; u8 (48 + i); 0] ++ drop 4 heap0.

Fixpoint register_disks (i : Z) (l : list ide_device) : M ide unit :=
  match l with
  | [] => mret tt
  | dev :: l =>
      ok ← on_blk kmalloc_ok ;
      if negb ok then register_disks i l
      else
        on_blk (@add_disk ata_io generic_disk (ide_ops input polls) sector0 parts0 (GenericDisk (drive_name i) (sectors dev) dev)) ;;
        register_disks (u8 (i + 1)) l
  end.

Definition ide_init : M ide unit :=
  ctrlrs ← gets (λ s, pci_devices (pci_st s)) ;
  for_devices ctrlrs PCI_DEVICE_IDE_CONTROLLER ide_probe_controller ;;
  chs ← gets ide_channels ;
  ide_probe_channels chs ;;
  devs ← gets ide_devices ;
  register_disks 0 devs.

End Init.
