(* ===== verification/AtaThm.v ===== *)
(** * The IDE driver: reading sectors, and what its errors become *)

From S2P Require Import Prelude Memory Block Ata.

(** ** The device

    From its [T]-th input on the device is not busy, has no fault or error and
    has data; before, it is busy. *)

Definition status_port (ch : ide_channel) : Z := u16 (base_port ch + 7).

Definition ready_from (input : nat → Z → Z) (ch : ide_channel) (T : nat) : Prop :=
  ∀ t, let st := u8 (input t (status_port ch)) in
    if decide (T ≤ t)%nat then Z.land st 128 = 0 ∧ Z.land st 32 = 0 ∧ Z.land st 1 = 0 ∧ Z.land st 8 ≠ 0
    else Z.land st 128 ≠ 0.

(** The bytes of [n] words the device gives from input [t] on. *)
Fixpoint data (input : nat → Z → Z) (port : Z) (t n : nat) : list Z :=
  match n with
  | O => []
  | S n => let w := u16 (input t port) in w mod 256 :: w / 256 :: data input port (S t) n
  end.

Lemma data_length input port t n : length (data input port t n) = (2 * n)%nat.
Proof. revert t. induction n as [|n IH]; intros t; [done|]. cbn [data length]. rewrite IH. lia. Qed.

(** ** Steps *)

Section Read.
Context (input : nat → Z → Z) (polls : nat) (ch : ide_channel).

Lemma wp_status s (Q : Z → ata_io → Prop) :
  Q (u8 (input (time s) (status_port ch))) (AtaIo (S (time s)) (outs s)) → wp (ide_read_reg input ch ATA_REG_STATUS) s Q.
Proof. done. Qed.

Lemma wp_alt_status s (Q : Z → ata_io → Prop) :
  (∀ v, Q v (AtaIo (S (time s)) (outs s))) → wp (ide_read_reg input ch ATA_REG_ALTSTATUS) s Q.
Proof. intros HQ. apply HQ. Qed.

(** The wait ends at the first input at which the device is ready. *)
Lemma wp_wait T fuel s : ready_from input ch T → (T - time s < fuel)%nat →
  wp (wait_not_busy input fuel ch) s (λ _ s', s' = AtaIo (S (Nat.max T (time s))) (outs s)).
Proof.
  intros Hr. revert s. induction fuel as [|fuel IH]; intros s Hf; [lia|]. cbn [wait_not_busy]. apply wp_bind, wp_status.
  pose proof (Hr (time s)) as Ht. cbn zeta in Ht. change ATA_SR_BSY with 128. destruct (decide (T ≤ time s)%nat) as [Hle|Hle].
  - destruct Ht as (-> & _). apply wp_ret. by replace (Nat.max T (time s)) with (time s) by lia.
  - rewrite (proj2 (Z.eqb_neq _ _) Ht). eapply wp_mono; [apply IH; cbn; lia|]. intros [] s' ->. cbn. f_equal. lia.
Qed.

Lemma wp_delay n i s : wp (for_ n i (λ _, ide_read_reg input ch ATA_REG_ALTSTATUS ;; mret tt)) s
  (λ _ s', s' = AtaIo (n + time s) (outs s)).
Proof.
  revert i s. induction n as [|n IH]; intros i s; [by destruct s|]. cbn [for_].
  apply wp_bind, wp_bind, wp_alt_status. intros v. apply wp_ret. eapply wp_mono; [apply IH|]. intros [] s' ->. cbn. f_equal. lia.
Qed.

Lemma wp_polling T s : ready_from input ch T → (T - (4 + time s) < polls)%nat →
  wp (ide_polling input polls ch true) s (λ r s', r = 0 ∧ s' = AtaIo (2 + Nat.max T (4 + time s)) (outs s)).
Proof.
  intros Hr Hf. unfold ide_polling. apply wp_bind. eapply wp_mono; [apply wp_delay|]. intros [] s1 ->.
  apply wp_bind. eapply wp_mono; [by apply (wp_wait T)|]. intros [] s2 ->. cbn [time outs]. apply wp_bind, wp_status. cbn [time outs].
  pose proof (Hr (S (Nat.max T (4 + time s)))) as Ht. cbn zeta in Ht. rewrite decide_True in Ht by lia.
  destruct Ht as (_ & H1 & H2 & H3). change ATA_SR_DF with 32. change ATA_SR_ERR with 1. change ATA_SR_DRQ with 8.
  rewrite H1, H2, (proj2 (Z.eqb_neq _ _) H3). by apply wp_ret.
Qed.

Lemma wp_insw n port s : wp (insw input n port) s (λ l s', l = data input (u16 port) (time s) n ∧ s' = AtaIo (n + time s) (outs s)).
Proof.
  revert s. induction n as [|n IH]; intros s; [by destruct s|]. cbn [insw]. apply wp_bind. unfold wp at 1, in_port.
  apply wp_bind. eapply wp_mono; [apply IH|]. intros l s1 [-> ->]. apply wp_ret. cbn. split; [done|]. f_equal. lia.
Qed.

(** The sectors of a transfer that starts at input [t]: for each, four inputs
    of delay, the wait, the status and 256 words. *)
Fixpoint sectors_read (dev_port : Z) (T t n : nat) : list Z :=
  match n with
  | O => []
  | S n => data input dev_port (2 + Nat.max T (4 + t)) 256 ++ sectors_read dev_port T (256 + (2 + Nat.max T (4 + t))) n
  end.

Lemma wp_read_loop dev T n i buf s : channel dev = ch → ready_from input ch T → (T < polls + time s + 4)%nat → (0 < polls)%nat →
  (512 * (i + n) ≤ length buf)%nat →
  wp (read_loop input polls n i dev buf) s (λ r s', outs s' = outs s ∧
    r = (0, take (512 * i) buf ++ sectors_read (u16 (base_port ch)) T (time s) n ++ drop (512 * (i + n)) buf)).
Proof.
  intros Hch Hr. revert i buf s. induction n as [|n IH]; intros i buf s Hf Hpos Hl.
  { apply wp_ret. split; [done|]. f_equal. cbn [sectors_read app]. rewrite Nat.add_0_r. by rewrite take_drop. }
  cbn [read_loop]. rewrite Hch. apply wp_bind. eapply wp_mono; [apply (wp_polling T); [done|lia]|]. intros r1 s1 [-> ->].
  change (negb (0 =? 0)) with false. cbn iota. apply wp_bind. eapply wp_mono; [apply wp_insw|]. intros l s2 [-> ->]. cbn [time outs].
  set (l := data _ _ _ _). assert (length l = 512%nat) as Hlen by (unfold l; by rewrite data_length).
  unfold store_at. rewrite decide_True by (rewrite Hlen; lia). rewrite Hlen.
  set (buf' := take (512 * i) buf ++ l ++ drop (512 * i + 512) buf).
  assert (length buf' = length buf) as Hb' by (unfold buf'; rewrite !length_app, length_take, length_drop, Hlen; lia).
  eapply wp_mono; [apply (IH (S i) buf'); cbn [time]; lia|]. intros r s3 [Ho ->]. split; [done|]. f_equal. cbn [sectors_read time].
  fold l. rewrite <- app_assoc.
  assert (take (512 * S i) buf' = take (512 * i) buf ++ l) as ->.
  { unfold buf'. rewrite app_assoc. rewrite take_app_le by (rewrite length_app, length_take, Hlen; lia).
    apply take_ge. rewrite length_app, length_take, Hlen. lia. }
  assert (drop (512 * (S i + n)) buf' = drop (512 * (i + S n)) buf) as ->.
  { unfold buf'. rewrite app_assoc, drop_app_ge by (rewrite length_app, length_take, Hlen; lia).
    rewrite drop_drop. f_equal. rewrite length_app, length_take, Hlen. lia. }
  by rewrite <- app_assoc.
Qed.

End Read.

(** ** The command *)

(** The [w]-bit field at bit [k]. *)
Lemma field lba m k w : 0 ≤ k → 0 ≤ w → Z.shiftr m k = Z.ones w → Z.shiftr (Z.land lba m) k = lba / 2 ^ k mod 2 ^ w.
Proof. intros Hk Hw Hm. rewrite Z.shiftr_land, Hm, Z.land_ones, Z.shiftr_div_pow2 by done. done. Qed.

Lemma wp_write_reg ch reg v s (Q : unit → ata_io → Prop) : 0 ≤ reg < 8 →
  Q tt (AtaIo (time s) ((u16 (base_port ch + reg), u8 v) :: outs s)) → wp (ide_write_reg ch reg v) s Q.
Proof.
  intros Hr HQ. unfold ide_write_reg, high_order, out_reg. rewrite (proj2 (Z.ltb_ge 7 reg)), (proj2 (Z.ltb_lt reg 8)) by lia.
  cbn [andb]. apply wp_bind, wp_ret, wp_bind, wp_modify, wp_ret. done.
Qed.

Lemma wp_write_control ch v s (Q : unit → ata_io → Prop) :
  Q tt (AtaIo (time s) ((u16 (control_port ch + 12 - 10), u8 v) :: outs s)) → wp (ide_write_reg ch ATA_REG_CONTROL v) s Q.
Proof. done. Qed.

(** The registers of a command for [lba] and [count]. *)
Definition command (dev : ide_device) (lba count cmd : Z) : list (Z * Z) :=
  let b := base_port (channel dev) in
  [(u16 (b + 6), 224 + 16 * slave dev + lba / 16777216 mod 16); (u16 (b + 2), count); (u16 (b + 3), lba mod 256);
   (u16 (b + 4), lba / 256 mod 256); (u16 (b + 5), lba / 65536 mod 256); (u16 (b + 7), cmd)].

Lemma devsel_value sl h : sl = 0 ∨ sl = 1 → 0 ≤ h < 16 → u8 (Z.lor (Z.lor 224 (Z.shiftl sl 4)) h) = 224 + 16 * sl + h.
Proof.
  intros Hs Hh. assert (Z.lor 224 (Z.shiftl sl 4) = (14 + sl) * 2 ^ 4) as -> by (destruct Hs as [-> | ->]; done).
  rewrite lor_low by lia. unfold u8. rewrite Z.mod_small by lia. lia.
Qed.

Section Access.
Context (input : nat → Z → Z) (polls : nat).

(** Up to the transfer: the device control register, the wait and the command. *)
Lemma wp_access dev lba dir count edi T s (Q : Z * list Z → ata_io → Prop) :
  ready_from input (channel dev) T → (T - time s < polls)%nat → slave dev = 0 ∨ slave dev = 1 → 0 ≤ lba < 268435456 →
  Z.land (capabilities dev) 512 ≠ 0 → 0 ≤ count < 256 →
  wp (match dir with
      | IDE_ACCESS_READ => read_loop input polls (Z.to_nat count) 0 dev edi
      | IDE_ACCESS_WRITE =>
          write_loop input polls (Z.to_nat count) 0 dev edi ;;
          ide_write_reg (channel dev) ATA_REG_COMMAND ATA_CMD_CACHE_FLUSH ;;
          ide_polling input polls (channel dev) false ;; mret (0, edi)
      end) (AtaIo (S (Nat.max T (time s))) (rev ((u16 (control_port (channel dev) + 2), 2) ::
        command dev lba count (match dir with IDE_ACCESS_READ => 32 | IDE_ACCESS_WRITE => 48 end)) ++ outs s)) Q →
  wp (ata_access_sector input polls dev lba dir count edi) s Q.
Proof.
  intros Hr Hf Hsl Hlba Hcap Hc HQ. unfold ata_access_sector. apply wp_bind, wp_write_control.
  rewrite (proj2 (Z.leb_gt 268435456 lba)), (proj2 (Z.eqb_neq _ _) Hcap) by lia. apply wp_bind.
  eapply wp_mono; [apply (wp_wait input _ T); [done|cbn; lia]|]. intros [] s1 ->. cbn [time outs].
  do 6 (apply wp_bind, wp_write_reg; [done|]; cbn [time outs]).
  rewrite devsel_value, (field lba 65280 8 8), (field lba 16711680 16 8), (field lba 251658240 24 4);
    try done; [|rewrite (field lba 251658240 24 4) by done; apply Z.mod_pos_bound; lia].
  assert (Z.land lba 255 = lba mod 256) as -> by (change 255 with (Z.ones 8); by rewrite Z.land_ones).
  change (2 ^ 8) with 256. change (2 ^ 16) with 65536. change (2 ^ 24) with 16777216. change (2 ^ 4) with 16.
  assert (∀ z, u8 (z mod 256) = z mod 256) as E8 by (intros z; unfold u8; by rewrite Z.mod_mod).
  rewrite !E8. assert (u8 count = count) as -> by (unfold u8; by apply Z.mod_small).
  replace (control_port (channel dev) + 12 - 10) with (control_port (channel dev) + 2) by lia. by destruct dir.
Qed.


(** ** Errors *)

(** A drive that answers every command with an error: never busy, and either a
    fault, an error or no data. *)
Definition failing (ch : ide_channel) : Prop := ∀ t, let st := u8 (input t (status_port ch)) in
  Z.land st 128 = 0 ∧ (Z.land st 32 ≠ 0 ∨ Z.land st 1 ≠ 0 ∨ Z.land st 8 = 0).

Lemma wp_wait_failing ch fuel s : failing ch → (0 < fuel)%nat →
  wp (wait_not_busy input fuel ch) s (λ _ s', s' = AtaIo (S (time s)) (outs s)).
Proof.
  intros Hf Hp. destruct fuel as [|fuel]; [lia|]. cbn [wait_not_busy]. apply wp_bind, wp_status. destruct (Hf (time s)) as [E _].
  change ATA_SR_BSY with 128. rewrite E. by apply wp_ret.
Qed.

Lemma wp_polling_failing ch s : failing ch → (0 < polls)%nat →
  wp (ide_polling input polls ch true) s (λ r _, 1 ≤ r ≤ 3).
Proof.
  intros Hf Hp. unfold ide_polling. apply wp_bind. eapply wp_mono; [apply wp_delay|]. intros [] s1 _.
  apply wp_bind. eapply wp_mono; [by apply wp_wait_failing|]. intros [] s2 _. apply wp_bind, wp_status.
  destruct (Hf (time s2)) as [_ Hbad]. cbn zeta in Hbad. set (st := u8 _) in *.
  change ATA_SR_DF with 32. change ATA_SR_ERR with 1. change ATA_SR_DRQ with 8.
  destruct (Z.eqb_spec (Z.land st 32) 0); cbn [negb]; [|by apply wp_ret].
  destruct (Z.eqb_spec (Z.land st 1) 0); cbn [negb]; [|by apply wp_ret].
  destruct (Z.eqb_spec (Z.land st 8) 0); [by apply wp_ret|naive_solver].
Qed.

Lemma wp_read_failing dev lba count edi s : failing (channel dev) → (0 < polls)%nat → 0 ≤ lba < 268435456 →
  Z.land (capabilities dev) 512 ≠ 0 → 1 ≤ count < 256 →
  wp (ata_read_sector input polls dev lba count edi) s (λ r _, 1 ≤ r.1 ≤ 3 ∧ r.2 = edi).
Proof.
  intros Hf Hp Hlba Hcap Hc. unfold ata_read_sector, ata_access_sector. apply wp_bind, wp_write_control.
  rewrite (proj2 (Z.leb_gt 268435456 lba)), (proj2 (Z.eqb_neq _ _) Hcap) by lia. apply wp_bind.
  eapply wp_mono; [by apply wp_wait_failing|]. intros [] s1 _. do 6 (apply wp_bind, wp_write_reg; [done|]).
  assert (u8 count = count) as -> by (unfold u8; apply Z.mod_small; lia).
  destruct (Z.to_nat count) as [|n] eqn:En; [lia|]. cbn [read_loop]. apply wp_bind.
  eapply wp_mono; [by apply wp_polling_failing|]. intros r s2 Hr. cbn beta in Hr. rewrite (proj2 (Z.eqb_neq r 0)) by lia. cbn [negb].
  by apply wp_ret.
Qed.

(** A failed read goes unnoticed.  The driver reports a fault, an error or
    missing data as 1, 2 or 3, but [mbr_parse] only takes a negative number
    for a failure: when the drive answers the read with an error, [mbr_parse]
    does not return -1, it decodes whatever its uninitialised buffer on the
    stack held as the boot sector. *)
Theorem ata_error_unnoticed (dev : block_device generic_disk) sector0 parts s :
  failing (channel (priv (bd_disk dev))) → (0 < polls)%nat → Z.land (capabilities (priv (bd_disk dev))) 512 ≠ 0 →
  ∃ s', @mbr_parse ata_io generic_disk (ide_ops input polls) sector0 dev parts 16 s =
    Done ((if signature sector0 =? MBR_SIGNATURE then mbr_entries 4 0 sector0 parts 0 else (parts, 0)), s').
Proof.
  intros Hf Hp Hcap. assert (wp (@mbr_parse ata_io generic_disk (ide_ops input polls) sector0 dev parts 16) s
    (λ r _, r = if signature sector0 =? MBR_SIGNATURE then mbr_entries 4 0 sector0 parts 0 else (parts, 0))) as Hwp.
  2: { apply wp_run in Hwp as (r & s' & E & ->). by exists s'. }
  unfold mbr_parse. apply wp_bind.
  destruct (proj1 (wp_run _ _ _) (wp_read_failing (priv (bd_disk dev)) 0 1 sector0 (hw s) Hf Hp ltac:(lia) Hcap ltac:(lia)))
    as ([r edi] & h' & E & Hr & He). cbn in Hr, He. subst edi. unfold wp at 1, on_hw. cbn [read_sectors ide_ops]. rewrite E.
  rewrite (proj2 (Z.ltb_ge _ _)) by lia. by destruct (signature sector0 =? MBR_SIGNATURE); apply wp_ret.
Qed.

End Access.

(** ** Instances *)

(** The device control value of a legacy channel goes to port 0x3F8, the serial
    line, and not to the device control register at 0x3F6. *)
Example control_of_legacy_channel : ide_write_reg (IdeChannel ATA_PRIMARY_BASE ATA_PRIMARY_CONTROL 0 2) ATA_REG_CONTROL 2 (AtaIo 0 []) =
  Done (tt, AtaIo 0 [(1016, 2)]).
Proof. reflexivity. Qed.

Definition primary : ide_channel := IdeChannel ATA_PRIMARY_BASE ATA_PRIMARY_CONTROL 0 2.

Definition drive : ide_device := IdeDevice primary 1 [] [] 0 0 0 63 0 512 0 0.

(** Busy for three inputs, then ready; its data are the number of the input. *)
Definition slow_drive (t : nat) (p : Z) : Z := if p =? 503 then (if decide (t < 3)%nat then 128 else 72) else Z.of_nat t.

Lemma slow_ready : ready_from slow_drive primary 3.
Proof.
  intros t. change (status_port primary) with 503. unfold slow_drive. change (503 =? 503) with true. cbn iota.
  repeat case_decide; try lia; by vm_compute.
Qed.


(** A drive that answers every status read with an error. *)
Definition broken_drive (t : nat) (p : Z) : Z := 1.

Definition broken_disk : block_device generic_disk :=
  BlockDevice [104; 100; 48; 0] (GenericDisk [104; 100; 48; 0] 63 drive) None 0 63.

Lemma ata_error_unnoticed_witness : ∃ s', @mbr_parse ata_io generic_disk (ide_ops broken_drive 1) (replicate 512 0) broken_disk [] 16
  (Blk (AtaIo 0 []) [] []) = Done (([], 0), s').
Proof.
  destruct (ata_error_unnoticed broken_drive 1 broken_disk (replicate 512 0) [] (Blk (AtaIo 0 []) [] [])) as (s' & E);
    [intros t; split; [done|by right; left]|lia|done|]. exists s'. exact E.
Defined.
