(* ===== verification/Listing.v ===== *)
(** * The listings of the shell (src/drivers/tty/tty.c): lspci, lside, lsblk

    What the three commands print for the devices the drivers registered. *)

From S2P Require Import Prelude Memory Tty Block Pci Ata.

Definition pci_class_str (class_code subclass : Z) : string :=
  if class_code =? 0 then "Unclassified device"
  else if class_code =? 1 then (if subclass =? 1 then "IDE controller" else "Bridge device")
  else if class_code =? 2 then (if subclass =? 0 then "Ethernet controller" else "Network controller")
  else if class_code =? 3 then "VGA compatible controller"
  else if class_code =? 6 then
    (if subclass =? 0 then "Host bridge" else if subclass =? 1 then "ISA bridge" else "Bridge device")
  else "Unknown device".

Section Listing.
Context (inb : Z → Z).

Fixpoint lspci_cmd (l : list pci_device) : M console unit :=
  match l with
  | [] => mret tt
  | d :: l =>
      vga_vprintf inb (chars "[%x:%x.%x] %s" ++ [10])
        [AInt (bus d); AInt (slot d); AInt (func d); AStr (Some (chars (pci_class_str (class_code d) (subclass d))))] ;;
      lspci_cmd l
  end.

(** The format of a disk, its 21-byte model and the 32-bit arithmetic of its size. *)
Definition lside_format : list Z :=
  chars "Disk %s: %u MiB, %u bytes, %u sectors" ++ [10] ++ chars "Disk model: %s" ++ [10] ++
  chars "Units: sectors of 1 * 512 = 512 bytes" ++ [10] ++
  chars "Sector size (logical/physical): 512 bytes / 512 bytes" ++ [10] ++
  chars "I/O size (minimum/optimal): 512 bytes / 512 bytes" ++ [10; 10] ++
  chars "Device   Start     End       Sectors   Size   Type" ++ [10] ++ chars "(no partition table)" ++ [10; 10].

Definition lside_sectors (dev : ide_device) : Z :=
  if negb (lba_ext_max_sectors dev =? 0) then lba_ext_max_sectors dev else lba_max_sectors dev.

Definition lside_bytes (dev : ide_device) : Z := u32 (lside_sectors dev * 512).

(** The characters of an array up to its zero byte. *)
Fixpoint c_chars (l : list Z) : list Z :=
  match l with [] => [] | c :: l => if c =? 0 then [] else c :: c_chars l end.

Definition lside_args (i : Z) (dev : ide_device) : list arg :=
  [AStr (Some (c_chars [104; 100; u8 (48 + i); 0])); AInt (lside_bytes dev / 1048576); AInt (lside_bytes dev);
   AInt (lside_sectors dev); AStr (Some (c_chars (model dev)))].

Fixpoint lside_loop (i : Z) (l : list ide_device) : M console Z :=
  match l with
  | [] => mret i
  | dev :: l => vga_vprintf inb lside_format (lside_args i dev) ;; lside_loop (i ⊞ 1) l
  end.

Definition lside_cmd (l : list ide_device) : M console unit :=
  i ← lside_loop 0 l ;
  if i =? 0 then vga_vprintf inb (chars "NO IDE devices registered" ++ [10]) [] else mret tt.

Definition lsblk_mib (nr_sectors : Z) : Z := u32 (nr_sectors * 512) / 1024 / 1024.

Fixpoint lsblk_loop {D} (l : list (block_device D)) : M console unit :=
  match l with
  | [] => mret tt
  | d :: l =>
      vga_vprintf inb (chars "%s      %s     %dMiB" ++ [10])
        [AStr (Some (c_chars (bd_name d))); AStr (Some (chars (match parent d with Some _ => "part" | None => "  disk" end)));
         AInt (lsblk_mib (nr_sectors d))] ;;
      lsblk_loop l
  end.

Definition lsblk_cmd {D} (l : list (block_device D)) : M console unit :=
  vga_vprintf inb (chars "NAME       TYPE     SIZE" ++ [10]) [] ;;
  lsblk_loop l.

(** ** What they print *)

(** The sizes of lside and lsblk are those of the disk exactly below 4 GiB: the
    number of bytes is computed on 32 bits. *)
Lemma lside_bytes_wraps dev : 0 ≤ lside_sectors dev < W32 →
  lside_bytes dev = 512 * lside_sectors dev ↔ lside_sectors dev < 8388608.
Proof. intros Hs. unfold lside_bytes, u32, W32 in *. Z.div_mod_to_equations. lia. Qed.

End Listing.

(** ** Instances *)

Example lspci_line : format (chars "[%x:%x.%x] %s" ++ [10])
  [AInt 0; AInt 31; AInt 2; AStr (Some (chars (pci_class_str 1 1)))] = Some (chars "[0:1f.2] IDE controller" ++ [10]).
Proof. reflexivity. Qed.

(** A disk of 4 GiB is listed with no byte at all. *)
Example lside_4GiB : lside_bytes (IdeDevice (IdeChannel 496 1014 0 2) 0 [] [] 0 0 0 63 8388608 512 0 0) = 0.
Proof. reflexivity. Qed.
