(* ===== verification/Report.v ===== *)
(** * Console reports

    What the dumps of the kernel print, as the sequence of their calls of
    vga_printf: page_print_info (page.c), boot_allocator_print_*
    (boot_allocator.c), buddy_print and buddy_print_summary (buddy.c),
    slab_print_summary (slab.c), vma_print_areas (vma.c), the report of a page
    fault (vmm.c), the dumps of a task (task.c, userspace.c), save_stack,
    memory_dump, print_stack_frame and kpanic (panic.c).  The theorems show that every
    format agrees with its arguments, so that the reports print. *)

From S2P Require Import Prelude Dlist Memory Page Buddy BuddyInv BuddySpec BootAlloc Slab PageAlloc Vmm Vma.
From S2P Require Import Task Process Fork Loader Spawn Tty TtyThm TtyFormat.

(** ** Calls of vga_printf *)

(** A format and the arguments that are passed with it. *)
Abbreviation print := (list Z * list arg)%type.

Definition pr (s : string) (args : list arg) : print := (chars s, args).

(** The format ends with a line feed. *)
Definition ln (s : string) (args : list arg) : print := (chars s ++ [10], args).

(** An integer or a pointer as va_arg reads it. *)
Definition word (n : Z) : arg := AInt (u32 n).

Definition str (s : string) : arg := AStr (Some (chars s)).

(** The characters of a report. *)
Fixpoint text (l : list print) : option (list Z) :=
  match l with
  | [] => Some []
  | p :: l => a ← format p.1 p.2 ; b ← text l ; Some (a ++ b)
  end.

Section Prints.
Context (inb : Z → Z).

Fixpoint vga_prints (l : list print) : M console unit :=
  match l with
  | [] => mret tt
  | p :: l => vga_vprintf inb p.1 p.2 ;; vga_prints l
  end.

End Prints.

(** *** Formats and kinds of arguments *)

Inductive kind := KInt | KStr | KTask.

Definition kind_of (a : arg) : kind := match a with AInt _ => KInt | AStr _ => KStr | ATask _ => KTask end.

(** What is left of the arguments after the conversions of a format; [None] when a
    conversion finds no argument or one of another kind, or the format ends in [%]. *)
Fixpoint conversions (fmt : list Z) (ks : list kind) : option (list kind) :=
  match fmt with
  | [] => Some ks
  | c :: fmt =>
      if c =? 37 then
        match fmt with
        | [] => None
        | d :: fmt =>
            if bool_decide (d ∈ chars "iduxXpc") then
              match ks with KInt :: ks => conversions fmt ks | _ => None end
            else if d =? 115 then match ks with KStr :: ks => conversions fmt ks | _ => None end
            else if d =? 116 then match ks with KTask :: ks => conversions fmt ks | _ => None end
            else conversions fmt ks
        end
      else conversions fmt ks
  end.

Definition arg_ok (a : arg) : Prop :=
  match a with
  | AInt n => 0 ≤ n < W32
  | AStr _ => True
  | ATask None => True
  | ATask (Some (p, _, id)) => 0 ≤ p < W32 ∧ -2147483648 ≤ id < 2147483648
  end.

Lemma ft_puthexa_some n upper a : 0 ≤ n < W32 → is_Some (ft_puthexa n upper a).
Proof.
  intros Hn. destruct (puthexa_numeral 9 n upper) as (ds & _ & E); [unfold W32 in *; cbn; lia|lia|].
  unfold ft_puthexa. rewrite E. cbn. eauto.
Qed.

Ltac eval_decides :=
  repeat match goal with |- context [@bool_decide ?P ?D] =>
    let b := eval vm_compute in (@bool_decide P D) in
    replace (@bool_decide P D) with b by (vm_compute; reflexivity) end.

Lemma convert_int d n args : bool_decide (d ∈ chars "iduxXpc") = true → 0 ≤ n < W32 →
  ∃ l, convert d (AInt n :: args) = Some (l, args).
Proof.
  intros Hd Hn. apply bool_decide_eq_true in Hd.
  destruct (putnbr_signed (s32 n) (s32_range n)) as (l1 & E1 & _).
  destruct (putunsigned_numeral n Hn) as (ds & _ & E2).
  destruct (ft_puthexa_some n false false Hn) as [l3 E3]. destruct (ft_puthexa_some n true false Hn) as [l4 E4].
  destruct (ft_puthexa_some n false true Hn) as [l5 E5].
  change (chars "iduxXpc") with [105; 100; 117; 120; 88; 112; 99] in Hd. rewrite !elem_of_cons, elem_of_nil in Hd.
  assert (d = 105 ∨ d = 100 ∨ d = 117 ∨ d = 120 ∨ d = 88 ∨ d = 112 ∨ d = 99) as H by tauto. clear Hd.
  destruct H as [->|[->|[->|[->|[->|[->| ->]]]]]]; unfold convert; eval_decides;
    cbn [Z.eqb Pos.eqb orb]; rewrite ?E1, ?E2, ?E3, ?E4, ?E5; cbn; eauto.
Qed.

Lemma convert_str s args : convert 115 (AStr s :: args) = Some (ft_putstr s, args).
Proof. unfold convert. eval_decides. done. Qed.

Lemma convert_task t args : arg_ok (ATask t) → ∃ l, convert 116 (ATask t :: args) = Some (l, args).
Proof.
  intros Ht. assert (is_Some (put_task t)) as [l El].
  { destruct t as [[[p nm] id]|]; [|by eexists]. destruct Ht as [Hp Hid]. unfold put_task, mbind, option_bind.
    destruct (ft_puthexa_some p false true Hp) as [l1 ->]. destruct (putnbr_signed id Hid) as (l2 & -> & _). by eexists. }
  exists l. unfold convert. rewrite El. eval_decides. reflexivity.
Qed.

Lemma convert_none d args : bool_decide (d ∈ chars "iduxXpc") = false → d ≠ 115 → d ≠ 116 →
  ∃ l, convert d args = Some (l, args).
Proof.
  intros Hd H1 H2. apply bool_decide_eq_false in Hd. unfold convert. destruct (d =? 37); [eauto|].
  change (chars "iduxXpc") with [105; 100; 117; 120; 88; 112; 99] in Hd. rewrite !elem_of_cons, elem_of_nil in Hd.
  rewrite !bool_decide_eq_false_2; [cbn; eauto|..].
  - change (chars "Xpct") with [88; 112; 99; 116]. rewrite !elem_of_cons, elem_of_nil. tauto.
  - change (chars "sidux") with [115; 105; 100; 117; 120]. rewrite !elem_of_cons, elem_of_nil. tauto.
Qed.

(** A format whose conversions agree with its arguments prints. *)
Lemma format_agrees fmt args rest : Forall arg_ok args → conversions fmt (kind_of <$> args) = Some rest →
  is_Some (format fmt args).
Proof.
  enough (∀ n fmt args rest, (length fmt ≤ n)%nat → Forall arg_ok args → conversions fmt (kind_of <$> args) = Some rest →
    is_Some (format fmt args)) as H by eauto.
  clear. intros n. induction n as [|n IH]; intros fmt args rest Hn Ha E.
  { destruct fmt; [by eexists|cbn in Hn; lia]. }
  destruct fmt as [|c fmt]; [by eexists|]. cbn [format conversions length] in *. destruct (c =? 37).
  2: { destruct (IH fmt args rest ltac:(lia) Ha E) as [l ->]. by eexists. }
  destruct fmt as [|d fmt]; [done|]. cbn [length] in Hn.
  assert (∀ args', Forall arg_ok args' → conversions fmt (kind_of <$> args') = Some rest →
    (∃ l, convert d args = Some (l, args')) → is_Some ('(l, args) ← convert d args ; r ← format fmt args ; Some (l ++ r))) as Hstep.
  { intros args' Ha' E' [l ->]. destruct (IH fmt args' rest ltac:(lia) Ha' E') as [r Er]. cbn. rewrite Er. by eexists. }
  destruct (bool_decide (d ∈ chars "iduxXpc")) eqn:Ed.
  { destruct args as [|a args]; [done|]. cbn in E. destruct a; cbn [kind_of] in E; try done.
    apply Forall_cons in Ha as [Hn' Ha]. apply (Hstep args); [done|done|]. by apply convert_int. }
  destruct (Z.eqb_spec d 115) as [->|N1].
  { destruct args as [|a args]; [done|]. cbn in E. destruct a; cbn [kind_of] in E; try done.
    apply Forall_cons in Ha as [_ Ha]. apply (Hstep args); [done|done|]. rewrite convert_str. eauto. }
  destruct (Z.eqb_spec d 116) as [->|N2].
  { destruct args as [|a args]; [done|]. cbn in E. destruct a; cbn [kind_of] in E; try done.
    apply Forall_cons in Ha as [Ht Ha]. apply (Hstep args); [done|done|]. by apply convert_task. }
  apply (Hstep args); [done|done|]. by apply convert_none.
Qed.

(** Every call of the report passes exactly the arguments its format converts. *)
Definition agrees (p : print) : Prop := Forall arg_ok p.2 ∧ conversions p.1 (kind_of <$> p.2) = Some [].

Definition report_ok (l : list print) : Prop := Forall agrees l.

Lemma agrees_format p : agrees p → is_Some (format p.1 p.2).
Proof. intros [Ha E]. by eapply format_agrees. Qed.

Lemma text_some l : Forall (λ p, is_Some (format p.1 p.2)) l → is_Some (text l).
Proof.
  induction 1 as [|p l [a Ea] _ [b Eb]]; cbn [text]; [by eexists|]. rewrite Ea. cbn [mbind option_bind].
  rewrite Eb. by eexists.
Qed.

Lemma report_text l : report_ok l → is_Some (text l).
Proof. intros H. apply text_some. eapply Forall_impl; [exact H|]. apply agrees_format. Qed.

Lemma text_cons p l cs : text (p :: l) = Some cs → ∃ a b, format p.1 p.2 = Some a ∧ text l = Some b ∧ cs = a ++ b.
Proof.
  cbn [text]. intros E. apply bind_Some in E as (a & Ea & E). apply bind_Some in E as (b & Eb & [= <-]). eauto.
Qed.

(** A report is put on the terminal character by character, and nothing else changes. *)
Lemma wp_vga_prints inb l cs s m t : text l = Some cs → shows s m t → term_ok t →
  wp (vga_prints inb l) s (λ _ s', shows s' m (put_string m cs t) ∧ term_ok (put_string m cs t) ∧
    current_tty s' = current_tty s ∧ commands s' = commands s ∧
    (∀ j, j ≠ current_tty s → ttys s' j = ttys s j) ∧ cli (cur_of s') = cli (cur_of s)).
Proof.
  revert cs s t. induction l as [|p l IH]; intros cs s t E Hs Ht; cbn [vga_prints].
  { injection E as <-. apply wp_ret. split_and!; done. }
  apply text_cons in E as (a & b & Ea & Eb & ->). apply wp_bind. eapply wp_mono; [by apply (wp_vprintf inb _ _ a)|].
  intros [] s1 [P1 P2 P3 P4 P5 P6 P7 P8 P9]. eapply wp_mono; [by apply (IH b s1 (put_string m a t))|].
  intros [] s2 (Q1 & Q2 & Q3 & Q4 & Q5 & Q6). unfold put_string in *. rewrite foldl_app.
  split_and!; [done|done|congruence|congruence| |congruence]. intros j Hj. rewrite Q5 by congruence. auto.
Qed.

Lemma word_ok n : arg_ok (word n).
Proof. apply u32_range. Qed.

Lemma report_app l k : report_ok (l ++ k) ↔ report_ok l ∧ report_ok k.
Proof. apply Forall_app. Qed.

Lemma report_nil : report_ok [].
Proof. apply Forall_nil_2. Qed.

Lemma report_concat {A} (f : A → list print) (l : list A) : (∀ x, report_ok (f x)) → report_ok (concat (f <$> l)).
Proof. intros H. induction l as [|x l IH]; cbn; [apply report_nil|]. by apply report_app. Qed.

Create HintDb reports.
#[export] Hint Resolve report_nil word_ok : reports.

(** Calls one by one: the format is evaluated, the arguments are words or strings. *)
Ltac report_calls :=
  repeat first
    [ apply report_nil
    | assumption
    | apply report_app; split
    | apply Forall_cons; split;
      [split; [repeat (apply Forall_cons; split; [first [apply word_ok | exact I]|]); apply Forall_nil_2|reflexivity]|] ].

(** ** page.c *)

Definition state_line (st : Z) : string :=
  if st =? PAGE_STATE_UNUSABLE then "UNUSABLE (Memory hole or MMIO)"
  else if st =? PAGE_STATE_RESERVED then "RESERVED (By boot allocator)"
  else if st =? PAGE_STATE_AVAILABLE then "AVAILABLE (Ready for Buddy System)"
  else if st =? PAGE_STATE_FREE then "FREE (In Buddy free list)"
  else if st =? PAGE_STATE_ALLOCATED then "ALLOCATED (By Buddy)"
  else if st =? PAGE_STATE_SLAB then "SLAB (Allocated for Slab)"
  else "UNKNOWN STATE!".

Definition zone_line (zone : Z) : string :=
  if zone =? PAGE_ZONE_DMA then "DMA (< 16MB)"
  else if zone =? PAGE_ZONE_LOWMEM then "LOWMEM (16MB - 896MB)"
  else if zone =? PAGE_ZONE_HIGHMEM then "HIGHMEM (> 896MB)"
  else "N/A".

(** The pointer [page] as an index of the array. *)
Definition page_print_info (pd : Z → page) (page : option Z) : list print :=
  match page with
  | None => [ln "page_print_info: Page pointer is NULL" []]
  | Some index =>
      let p := pd index in
      [ln "Page Info for PFN %u (Phys Addr: %p):" [word index; word (page_to_phys index)];
       ln "  - Raw Flags: 0x%x" [word (flags p)];
       pr "  - State: " []; ln (state_line (PAGE_GET_STATE p)) [];
       pr "  - Zone:  " []; ln (zone_line (PAGE_GET_ZONE p)) []] ++
      (if PAGE_IS_FREE p || PAGE_IS_ALLOCATED p then [ln "  - Buddy Order: %u" [word (private_data p)]]
       else if negb (private_data p =? 0) then [ln "  - Private Data: 0x%x" [word (private_data p)]]
       else [])
  end.

Lemma page_report pd page : report_ok (page_print_info pd page).
Proof.
  destruct page as [i|]; cbn [page_print_info]; [|report_calls]. apply report_app. split.
  - unfold state_line, zone_line. repeat case_match; report_calls.
  - repeat case_match; report_calls.
Qed.

(** ** boot_allocator.c *)

Definition boot_allocator_print_region_info (r : region) : list print := [ln "%p -> %p" [word (start r); word (end_ r)]].

Definition boot_allocator_for_each_regions (handler : region → list print) (reg : list region) : list print :=
  concat (handler <$> reg).

Definition boot_allocator_print_initial_layout (b : boot_allocator) : list print :=
  [ln "----------Boot Allocator Printer----------" []; ln "Reserved Areas : " []] ++
  boot_allocator_for_each_regions boot_allocator_print_region_info (regions b RESERVED_MEMORY) ++
  [ln "----------" []; ln "Free Areas : " []] ++
  boot_allocator_for_each_regions boot_allocator_print_region_info (regions b FREE_MEMORY) ++
  [ln "----------" []; ln "Holes Areas : " []] ++
  boot_allocator_for_each_regions boot_allocator_print_region_info (regions b HOLES_MEMORY) ++
  [ln "------------------------------------------" []].

(** The common body of the two zone printers. *)
Definition print_zones (title : string) (zones : zone_type → list region) : list print :=
  [ln title []; ln "Dma Zone : " []] ++
  boot_allocator_for_each_regions boot_allocator_print_region_info (zones DMA_ZONE) ++
  [ln "----------" []; ln "Lowmem Zone : " []] ++
  boot_allocator_for_each_regions boot_allocator_print_region_info (zones LOWMEM_ZONE) ++
  [ln "----------" []; ln "Highmem Zone : " []] ++
  boot_allocator_for_each_regions boot_allocator_print_region_info (zones HIGHMEM_ZONE) ++
  [ln "------------------------------------------" []].

Definition boot_allocator_print_free_zones (b : boot_allocator) : list print :=
  print_zones "----------Boot Allocator Free Zones Printer----------" (free_zones b).

Definition boot_allocator_print_reserved_zones (b : boot_allocator) : list print :=
  print_zones "----------Boot Allocator Reserved Zones Printer----------" (res_zones b).

(** "\t" between the columns. *)
Definition tabbed (s : string) (tabs : nat) (args : list arg) : print := (chars s ++ replicate tabs 9, args).

Definition print_allocation (i : Z) (e : boot_alloc_entry) : list print :=
  [tabbed "%u" 1 [word i]; tabbed "%p" 2 [word (BootAlloc.p_addr e)]; tabbed "%u" 2 [word (e_size e)];
   tabbed "%u" 2 [word (u32 (e_size e) / 1024)]; ln (if e_free e then "Yes" else "No") []].

Fixpoint print_allocations (i : Z) (l : list boot_alloc_entry) : list print :=
  match l with [] => [] | e :: l => print_allocation i e ++ print_allocations (i + 1) l end.

Definition boot_allocator_print_allocations (b : boot_allocator) : list print :=
  [ln "---------- Boot Allocator Allocations Log ----------" []] ++
  match allocations b with
  | [] => [ln "  No allocations have been made yet." []]
  | l => [(chars "Index" ++ [9] ++ chars "P. Addr" ++ [9; 9] ++ chars "Size (B)" ++ [9] ++ chars "Size (KiB)" ++ [9] ++
           chars "Freeable" ++ [10], []);
          ln "----------------------------------------------------------" []] ++ print_allocations 0 l
  end ++
  [ln "----------------------------------------------------------" []].

Lemma regions_report l : report_ok (boot_allocator_for_each_regions boot_allocator_print_region_info l).
Proof. apply report_concat. intros r. report_calls. Qed.

#[export] Hint Resolve regions_report page_report : reports.

Ltac report_parts := repeat (apply report_app; split); auto with reports; report_calls.

Lemma zones_report title zones : conversions (chars title ++ [10]) [] = Some [] → report_ok (print_zones title zones).
Proof.
  intros Ht. unfold print_zones. apply report_app. split; [|report_parts].
  apply Forall_cons. split; [split; [apply Forall_nil_2|exact Ht]|report_calls].
Qed.

Lemma allocations_report i l : report_ok (print_allocations i l).
Proof.
  revert i. induction l as [|e l IH]; intros i; [apply report_nil|]. cbn [print_allocations]. apply report_app. split; [|apply IH].
  unfold print_allocation. destruct (e_free e); report_calls.
Qed.

Lemma boot_reports b : report_ok (boot_allocator_print_initial_layout b) ∧ report_ok (boot_allocator_print_free_zones b) ∧
  report_ok (boot_allocator_print_reserved_zones b) ∧ report_ok (boot_allocator_print_allocations b).
Proof.
  split_and!.
  - unfold boot_allocator_print_initial_layout. report_parts.
  - by apply zones_report.
  - by apply zones_report.
  - unfold boot_allocator_print_allocations. apply report_app. split; [report_calls|]. apply report_app. split; [|report_calls].
    destruct (allocations b) as [|e l]; [report_calls|]. apply report_app. split; [report_calls|apply allocations_report].
Qed.

(** ** buddy.c *)

Definition debug_buddy_order_to_string (order : Z) : string :=
  if order =? 0 then "4KiB" else if order =? 1 then "8KiB" else if order =? 2 then "16KiB"
  else if order =? 3 then "32KiB" else if order =? 4 then "64KiB" else if order =? 5 then "128KiB"
  else if order =? 6 then "256KiB" else if order =? 7 then "512KiB" else if order =? 8 then "1MiB"
  else if order =? 9 then "2MiB" else if order =? 10 then "4MiB" else "Unknown order".

Definition debug_buddy_zone_to_str (zone : zone_type) : string :=
  match zone with
  | LOWMEM_ZONE => "LOWMEM zone"
  | DMA_ZONE => "DMA zone"
  | HIGHMEM_ZONE => "HIGHMEM zone"
  | INVALID_ZONE => "Unknown zone"
  end.

(** The loop of [buddy_print]: the calls, [has_blocks] and the total. *)
Fixpoint print_orders (n : nat) (order : Z) (zone : zone_type) (s : bstate) (has_blocks : bool) (total : Z)
    : list print * bool * Z :=
  match n with
  | O => ([], has_blocks, total)
  | Datatypes.S n =>
      let nr := nr_free s (zone, order) in
      if 0 <? nr then
        let '(l, h, t) := print_orders n (order + 1) zone s true (total ⊞ (nr ⊠ ORDER_TO_BYTES order)) in
        (pr "[%s:%u] " [str (debug_buddy_order_to_string order); word nr] :: l, h, t)
      else print_orders n (order + 1) zone s has_blocks total
  end.

Definition print_buddy (zone : zone_type) (s : bstate) : list print * Z :=
  let '(l, has_blocks, total) := print_orders 11 0 zone s false 0 in
  ([(10 :: chars "--- Buddy Free Blocks in Zone: %s ---" ++ [10], [str (debug_buddy_zone_to_str zone)])] ++ l ++
   (if has_blocks then
      [(10 :: chars "Total Free in Zone: %u KiB (%u MiB)" ++ [10], [word (total / 1024); word (total / (1024 * 1024))])]
    else [ln "(empty)" []]), total).

(** The zones in enumeration order. *)
Fixpoint print_zones_from (zones : list zone_type) (s : bstate) (total : Z) : list print * Z :=
  match zones with
  | [] => ([], total)
  | zone :: zones =>
      let '(l, t) := print_buddy zone s in
      let '(k, total) := print_zones_from zones s (total ⊞ t) in
      (l ++ k, total)
  end.

Definition buddy_print_summary (s : bstate) : list print :=
  let '(l, total) := print_zones_from all_zones s 0 in
  [(10 :: chars "================ Buddy Allocator Summary ================" ++ [10], [])] ++ l ++
  [(10 :: chars "-------------------------------------------------------" ++ [10], []);
   ln "Total Free Kernel Memory: %u KiB (%u MiB)" [word (total / 1024); word (total / (1024 * 1024))];
   ln "=======================================================" []].

Lemma print_orders_report n order zone s h t : report_ok (print_orders n order zone s h t).1.1.
Proof.
  revert order h t. induction n as [|n IH]; intros order h t; cbn [print_orders]; [apply report_nil|].
  case_match; [|apply IH]. specialize (IH (order + 1) true (t ⊞ (nr_free s (zone, order) ⊠ ORDER_TO_BYTES order))).
  destruct (print_orders _ _ _ _ _ _) as [[l h'] t']. cbn in *. apply Forall_cons. split; [|exact IH].
  split; [|reflexivity]. repeat (apply Forall_cons; split; [first [apply word_ok | exact I]|]). apply Forall_nil_2.
Qed.

Lemma print_buddy_report zone s : report_ok (print_buddy zone s).1.
Proof.
  unfold print_buddy. pose proof (print_orders_report 11 0 zone s false 0) as H.
  destruct (print_orders _ _ _ _ _ _) as [[l h] t]. cbn [fst] in *. apply report_app. split; [report_calls|].
  apply report_app. split; [done|]. destruct h; report_calls.
Qed.

Lemma buddy_report s : report_ok (buddy_print_summary s).
Proof.
  unfold buddy_print_summary. assert (∀ zs t, report_ok (print_zones_from zs s t).1) as H.
  { induction zs as [|z zs IH]; intros t; cbn [print_zones_from]; [apply report_nil|].
    pose proof (print_buddy_report z s). destruct (print_buddy z s) as [l t']. specialize (IH (t ⊞ t')).
    destruct (print_zones_from zs s _) as [k t'']. cbn in *. by apply report_app. }
  specialize (H all_zones 0). destruct (print_zones_from all_zones s 0) as [l t]. cbn [fst] in H.
  apply report_app. split; [report_calls|]. apply report_app. split; [done|report_calls].
Qed.

(** The total is the number [buddy_print] returns. *)
Lemma print_buddy_total zone s : zone ≠ INVALID_ZONE → buddy_print zone s = Done ((print_buddy zone s).2, s).
Proof.
  intros Hz. unfold buddy_print, print_buddy.
  assert (∀ n order h t, 0 ≤ order → order + Z.of_nat n ≤ 11 →
    buddy_print_loop n order zone t s = Done ((print_orders n order zone s h t).2, s)) as H.
  { induction n as [|n IH]; intros order h t H0 Hn; cbn [buddy_print_loop print_orders]; [done|].
    unfold order_to_nrFree, check_area. rewrite (area_ok_zone zone order) by (done || lia).
    unfold mbind, M_bind, gets, mret, M_ret. cbn beta iota. destruct (0 <? nr_free s (zone, order)).
    - rewrite (IH (order + 1) true) by lia. by destruct (print_orders _ _ _ _ _ _) as [[l h'] t'].
    - apply IH; lia. }
  rewrite (H 11%nat 0 false 0) by lia. by destruct (print_orders _ _ _ _ _ _) as [[l h'] t'].
Qed.

(** ** slab.c *)

Fixpoint print_caches (n : nat) (i : Z) (zone : zone_type) (s : kstate) : list print :=
  match n with
  | O => []
  | Datatypes.S n =>
      let st := cache_summary s (slab_caches s (zone, i)) in
      (if st_total st =? 0 then [] else
         [ln "  Cache %s:" [str (debug_slab_size_to_str i)];
          ln "    Slabs: %u (Full: %u, Partial: %u, Empty: %u)"
            [word (st_total st); word (st_full st); word (st_partial st); word (st_empty st)];
          ln "    Objects: %u used of %u total (Free: %u)"
            [word (st_inuse st); word (st_objects st); word (st_objects st - st_inuse st)];
          ln "    Memory: %u KiB used / %u KiB held | Efficiency: %u%%"
            [word (st_mem_used st / 1024); word (st_mem_held st / 1024); word (st_efficiency st)]]) ++
      print_caches n (i + 1) zone s
  end.

Definition print_slab_zone (zone : zone_type) (s : kstate) : list print :=
  [(10 :: chars "--- Slab Caches in Zone: %s ---" ++ [10],
    [str (if bool_decide (zone = DMA_ZONE) then "DMA" else "LOWMEM")])] ++
  print_caches 9 0 zone s ++
  (match (slab_print_zone_summary zone s).2 with [] => [ln "  (No active caches in this zone)" []] | _ => [] end).

(** The zones after [DMA_ZONE] are skipped. *)
Definition print_slab_summary (s : kstate) : list print :=
  let total := slab_print_summary s in
  [(10 :: chars "=================== Slab Allocator Summary ===================" ++ [10], [])] ++
  print_slab_zone LOWMEM_ZONE s ++ print_slab_zone DMA_ZONE s ++
  [(10 :: chars "------------------------------------------------------------" ++ [10], []);
   ln "Total Memory Held by Slab Caches: %u KiB (%u MiB)" [word (total / 1024); word (total / (1024 * 1024))];
   ln "============================================================" []].

Lemma slab_report s : report_ok (print_slab_summary s).
Proof.
  assert (∀ n i z, report_ok (print_caches n i z s)) as H.
  { induction n as [|n IH]; intros i z; cbn [print_caches]; [apply report_nil|]. apply report_app. split; [|apply IH].
    case_match; report_calls. }
  assert (∀ z, report_ok (print_slab_zone z s)) as Hz.
  { intros z. unfold print_slab_zone. apply report_app. split; [report_calls|]. apply report_app. split; [apply H|].
    case_match; report_calls. }
  unfold print_slab_summary. apply report_app. split; [report_calls|].
  do 2 (apply report_app; split; [apply Hz|]). report_calls.
Qed.

(** ** vma.c *)

Fixpoint print_areas (i : Z) (l : list vm_area) : list print :=
  match l with
  | [] => []
  | a :: l =>
      ln "    [%d] vaddr=%p size=%u state=%s"
        [word i; word (start_vaddr a); word (vm_size a);
         str (if bool_decide (vm_state a = VM_AREA_FREE) then "FREE" else "ALLOC")] :: print_areas (i + 1) l
  end.

Definition vma_print_areas (l : list vm_area) : list print := ln "  - VMA areas:" [] :: print_areas 0 l.

Lemma areas_report l : report_ok (vma_print_areas l).
Proof.
  assert (∀ l i, report_ok (print_areas i l)) as H.
  { clear l. induction l as [|a l IH]; intros i; cbn [print_areas]; [apply report_nil|].
    apply Forall_cons. split; [|apply IH]. split; [|reflexivity].
    repeat (apply Forall_cons; split; [first [apply word_ok | exact I]|]). apply Forall_nil_2. }
  apply Forall_cons. split; [|apply H]. split; [apply Forall_nil_2|reflexivity].
Qed.

(** ** vmm.c: the report of a page fault nothing handles *)

(** The causes of the error code, in the order of the code. *)
Definition fault_causes : list (Z * string) :=
  [(2, " - Write (W): The page fault was caused by a write access.");
   (4, " - User (U): The page fault was caused while CPL = 3. This does not necessarily mean that the page fault was a privilege violation.");
   (8, " - Reserved write (R): One or more page directory entries contain reserved bits which are set to 1. This only applies when the PSE or PAE flags in CR4 are set to 1.");
   (16, " - Instruction Fetch (I): The page fault was caused by an instruction fetch. This only applies when the No-Execute bit is supported and enabled.");
   (32, " - Protection key (PK): The page fault was caused by a protection-key violation. The PKRU register (for user-mode accesses) or PKRS MSR (for supervisor-mode accesses) specifies the protection key rights.");
   (64, " - Shadow stack (SS): The page fault was caused by a shadow stack access.");
   (32768, " - Software Guard Extensions (SGX): The fault was due to an SGX violation. The fault is unrelated to ordinary paging.")].

Definition pr_err_cause (err_code : Z) (c : Z * string) : list print :=
  if FLAG_IS_SET err_code c.1 then [ln "%s" [str c.2]] else [].

(** [pde] is the word at the index of the faulting address in the current
    directory, [task] the current task (address, name, pid). *)
Definition page_fault_report (faulting_address eip cr3 pde err_code : Z) (task : Z * list Z * Z) : list print :=
  [(10 :: chars "   === PAGE FAULT ===" ++ [10], []);
   ln "Faulting address: %p" [word faulting_address];
   ln "Instr. Pointer:   %p" [word eip];
   ln "Page Directory:   %p" [word cr3];
   ln "Page Dir. Index:  %d (+%p)" [word (GET_PDE_INDEX faulting_address); word (GET_PDE_INDEX faulting_address * 4)];
   ln "Page Table:       %p" [word (GET_ENTRY_ADDR pde)];
   ln "Page Table Index: %d (+%p)" [word (GET_PTE_INDEX faulting_address); word (GET_PTE_INDEX faulting_address * 4)];
   ln "Error code:       0x%x" [word err_code];
   ln "Task:             %t" [ATask (Some (u32 task.1.1, task.1.2, s32 task.2))];
   ln "Causes:" [];
   (if FLAG_IS_SET err_code 1
    then ln " - Present (P): The page fault was caused by a page-protection violation." []
    else ln " - Present (P): The page fault was caused by a non-present page." [])] ++
  concat (pr_err_cause err_code <$> fault_causes) ++
  [(10 :: [], [])].

Lemma fault_report addr eip cr3 pde err task : report_ok (page_fault_report addr eip cr3 pde err task).
Proof.
  unfold page_fault_report. apply report_app. split.
  - repeat (apply Forall_cons; split; [split; [repeat (apply Forall_cons; split;
      [first [apply word_ok | exact I | split; [apply u32_range|apply s32_range]]|]); apply Forall_nil_2|reflexivity]|]).
    apply Forall_cons. split; [|apply Forall_nil_2]. case_match; (split; [apply Forall_nil_2|reflexivity]).
  - apply report_app. split; [|report_calls]. apply report_concat. intros c. unfold pr_err_cause. case_match; report_calls.
Qed.

(** ** task.c and userspace.c *)

Definition task_print_section (label : string) (sec : option section) : list print :=
  match sec with
  | None => [ln "  - %s: (null)" [str label]]
  | Some s =>
      [(chars "  - %s:" ++ [10; 9] ++ chars "| vaddr=%p " ++ [10; 9] ++ chars "| paddr=%p " ++ [10; 9] ++
        chars "| data=%p " ++ [10; 9] ++ chars "| size=%u " ++ [10; 9] ++ chars "| map=%u " ++ [10; 9] ++
        chars "| flags=0x%x" ++ [10],
        [str label; word (v_addr s); word (p_addr s); word (data_start s); word (data_size s); word (mapping_size s);
         word (sec_flags s)])]
  end.

Definition print_section_info (label : string) (sec : option section) : list print :=
  match sec with
  | None => [ln "  [%s] (not mapped)" [str label]]
  | Some s =>
      if (v_addr s =? 0) && (mapping_size s =? 0) then [ln "  [%s] (not mapped)" [str label]]
      else
        [ln "  [%s]" [str label];
         ln "    vaddr       = %p" [word (v_addr s)];
         ln "    paddr       = %p" [word (p_addr s)];
         ln "    data_start  = %p" [word (data_start s)];
         ln "    data_size   = %u bytes" [word (data_size s)];
         ln "    mapping     = %u bytes (%u pages)" [word (mapping_size s); word (u32 (mapping_size s) / PAGE_SIZE)];
         ln "    flags       = 0x%x (%s)" [word (sec_flags s); str (if FLAG_IS_SET (sec_flags s) PTE_RW_BIT then "RW" else "RO")];
         ln "    range       = [%p - %p)" [word (v_addr s); word (v_addr s + mapping_size s)]]
  end.

Lemma section_reports label sec : report_ok (task_print_section label sec) ∧ report_ok (print_section_info label sec).
Proof. split; destruct sec as [s|]; cbn [task_print_section print_section_info]; repeat case_match; report_calls. Qed.

Section Tasks.
Context {S : Type} (st : pstate S).
(** The addresses in [sched_node] of a task: the queue of the model is the sequence of its members. *)
Context (sched_links : Z → Z * Z).

Definition the_sys : sys := fs_sys (ps_f st).

Definition task_field (t : Z) (f : tfield) : Z := tasks the_sys t f.

Definition task_name (t : Z) : arg := AStr (Some (strings (ps_f st) (task_field t name))).

Definition section_of (t : Z) (f : tfield) : option section :=
  if task_field t f =? 0 then None else Some (sections the_sys (task_field t f)).

(** The loop [for (int i = 1; i < SIG_Sentinel; i++)] over the pending signals. *)
Fixpoint print_signals (n : nat) (i map : Z) : list print :=
  match n with
  | O => []
  | Datatypes.S n =>
      (if Z.land (Z.shiftr map i) 1 =? 0 then [] else [pr "%s " [str (signal_to_string i)]]) ++
      print_signals n (i + 1) map
  end.

Definition task_print_info (t : Z) : list print :=
  [ln "Task Info (PID %d)" [word (task_field t pid)];
   ln "  - Name: %s" [task_name t];
   ln "  - UID: %d | GID: %d" [word (task_field t uid); word (task_field t gid)];
   ln "  - State: %s" [str (task_state_to_string (task_field t state))];
   ln "  - Parent: %p | Real Parent: %p" [word (task_field t parent); word (task_field t real_parent)];
   ln "  - Sched: next=%p | prev=%p" [word (sched_links t).1; word (sched_links t).2];
   ln "  - CPU: esp=%p | cr3=%p" [word (task_field t esp); word (task_field t cr3_)];
   ln "  - Kernel Stack: base=%p | ptr=%p" [word (task_field t kernel_stack_base); word (task_field t kernel_stack_pointer)]] ++
  task_print_section "Text" (section_of t text_sec) ++
  task_print_section "Data" (section_of t data_sec) ++
  task_print_section "Stack" (section_of t stack_sec) ++
  task_print_section "Heap" (section_of t heap_sec) ++
  [pr "  - Signals pending: " []] ++
  (if task_field t signals_map =? 0 then [pr "none" []]
   else print_signals (Z.to_nat (SIG_Sentinel - 1)) 1 (task_field t signals_map)) ++
  [ln EmptyString []] ++
  vma_print_areas (ps_area st <$> ps_lists st t).

(** [task_cmd_print_info]: [n] is the number ft_atoi reads in the argument. *)
Definition task_cmd_print_info (argc n : Z) : list print :=
  if negb (argc =? 2) then []
  else
    let t := find_task (λ t, task_field t pid =? n) (info_queue the_sys) in
    if t =? 0 then [ln "task_print_info: task pointer is NULL" []] else task_print_info t.

(** [while (len++ < 10) vga_printf(" ")]. *)
Definition pad (s : string) : list print := replicate (10 - String.length s) (pr " " []).

Definition task_ps_line (t : Z) : list print :=
  let state_ := task_state_to_string (task_field t state) in
  let par := task_field t parent in
  [pr " %d     %d      %d     %s"
     [word (task_field t pid); word (if par =? 0 then 0 else task_field par pid); word (task_field t ring); str state_]] ++
  pad state_ ++ [ln "%s" [task_name t]].

Definition task_ps : list print :=
  [ln "[PID] [PPID] [RING] [STATE]   [NAME]" []] ++ concat (task_ps_line <$> info_queue the_sys).

(** [for (; ptr < end; ptr++)] over the words of the stack. *)
Fixpoint print_slots (fuel : nat) (ptr end_ : Z) : outcome (list print) :=
  match fuel with
  | O => Hang
  | Datatypes.S fuel =>
      if ptr <? end_ then
        obind (print_slots fuel (ptr ⊞ 4) end_) (λ l, Done (ln "  %p | 0x%x" [word ptr; word (words the_sys ptr)] :: l))
      else Done []
  end.

Definition task_print_stack (fuel : nat) (t : Z) : outcome (list print) :=
  if t =? 0 then Done [ln "task_print_stack: task pointer is NULL" []]
  else
    let sp := task_field t esp in
    let base := task_field t kernel_stack_base in
    let head := [ln "=== Stack dump for task '%s' (PID %d) ===" [task_name t; word (task_field t pid)];
                 ln "  esp  = %p" [word sp];
                 ln "  base = %p  (top of stack)" [word base]] in
    if (sp =? 0) || (base =? 0) || (base <=? sp) then
      Done (head ++ [ln "  (stack is empty or invalid: esp >= base)" []])
    else
      obind (print_slots fuel sp base) (λ l,
        Done (head ++
          [ln "  %u bytes used (%u dwords)" [word (base - sp); word ((base - sp) / 4)];
           ln "  %s | %s" [str "ADDRESS"; str "VALUE"];
           ln "  -------------|-------------" []] ++ l ++
          [ln "=== End of stack dump ===" []])).

Definition map_line (label : string) (a : Z) : print := ln ("  0x%08x  " ++ label)%string [word a].

Definition if_mapped (sec : option section) (f : section → list print) : list print :=
  match sec with Some s => if mapping_size s =? 0 then [] else f s | None => [] end.

Definition userspace_print (t : Z) : list print :=
  if t =? 0 then [ln "userspace_print: task is NULL" []]
  else
    [ln "========================================" [];
     ln " Userspace layout: '%s' (PID %d, ring %u)" [task_name t; word (task_field t pid); word (task_field t ring)];
     ln "========================================" [];
     ln "  cr3 (page dir) = %p" [word (task_field t cr3_)];
     ln "  user esp       = %p" [word (task_field t esp)];
     ln EmptyString []] ++
    print_section_info "TEXT " (section_of t text_sec) ++
    print_section_info "DATA " (section_of t data_sec) ++
    print_section_info "HEAP " (section_of t heap_sec) ++
    print_section_info "STACK" (section_of t stack_sec) ++
    [(10 :: chars "  --- Virtual memory map ---" ++ [10], []); map_line "USER_TEXT_START" USER_TEXT_START] ++
    if_mapped (section_of t text_sec) (λ s, [map_line ".text end" (v_addr s + mapping_size s)]) ++
    if_mapped (section_of t data_sec) (λ s, [map_line ".data end" (v_addr s + mapping_size s)]) ++
    match section_of t heap_sec with Some s => [map_line "heap start (brk)" (v_addr s)] | None => [] end ++
    [ln "  ...          (free space)" []] ++
    if_mapped (section_of t stack_sec) (λ s, [map_line "stack bottom" (v_addr s)]) ++
    [map_line "USER_STACK_START (top)" USER_STACK_START; map_line "KERNEL_START" KERNEL_VADDR_BASE;
     ln "========================================" []].

Lemma signals_report n i map : report_ok (print_signals n i map).
Proof.
  revert i. induction n as [|n IH]; intros i; cbn [print_signals]; [apply report_nil|]. apply report_app. split; [|apply IH].
  case_match; report_calls.
Qed.

Lemma task_info_report t : report_ok (task_print_info t).
Proof.
  unfold task_print_info. apply report_app. split; [report_calls|].
  do 4 (apply report_app; split; [apply section_reports|]). apply report_app. split; [report_calls|].
  apply report_app. split; [case_match; [report_calls|apply signals_report]|]. apply report_app. split; [report_calls|].
  apply areas_report.
Qed.

Lemma task_cmd_report argc n : report_ok (task_cmd_print_info argc n).
Proof. unfold task_cmd_print_info. case_match; [apply report_nil|]. case_match; [report_calls|apply task_info_report]. Qed.

Lemma task_ps_report : report_ok task_ps.
Proof.
  unfold task_ps. apply report_app. split; [report_calls|]. apply report_concat. intros t. unfold task_ps_line.
  apply report_app. split; [report_calls|]. apply report_app. split; [|report_calls].
  apply Forall_replicate. split; [apply Forall_nil_2|reflexivity].
Qed.

(** The dump of a stack ends: one line for each word, for a stack that ends below 4 GiB. *)
Lemma print_slots_run fuel ptr end_ : 0 ≤ ptr → end_ ≤ W32 - 4 → end_ - ptr + 4 ≤ 4 * Z.of_nat fuel → (0 < fuel)%nat →
  ∃ l, print_slots fuel ptr end_ = Done l ∧ report_ok l ∧ Z.of_nat (length l) = Z.max 0 ((end_ - ptr + 3) / 4).
Proof.
  revert ptr. induction fuel as [|fuel IH]; intros ptr H0 He Hf Hp; [lia|]. cbn [print_slots].
  destruct (Z.ltb_spec ptr end_) as [Hlt|Hge].
  2: { exists []. split; [done|]. split; [apply report_nil|]. cbn. rewrite Z.max_l; [done|]. apply Z.lt_succ_r, Z.div_lt_upper_bound; lia. }
  rewrite u32_small by (unfold W32 in *; lia).
  assert (∃ l, print_slots fuel (ptr + 4) end_ = Done l ∧ report_ok l ∧ Z.of_nat (length l) = (end_ - (ptr + 4) + 3) / 4) as (l & -> & Hl & Hlen).
  { destruct (IH (ptr + 4)) as (l & E & Hl & Hlen); [lia|lia|lia|lia|]. exists l. split_and!; [done..|].
    rewrite Hlen. apply Z.max_r. apply Z.div_le_lower_bound; lia. }
  eexists. split; [reflexivity|]. split; [apply Forall_cons; split; [|exact Hl]|].
  + split; [|reflexivity]. repeat (apply Forall_cons; split; [apply word_ok|]). apply Forall_nil_2.
  + cbn [length]. rewrite Nat2Z.inj_succ, Hlen. replace (end_ - ptr + 3) with (end_ - (ptr + 4) + 3 + 1 * 4) by lia.
    rewrite Z.div_add by lia. assert (0 ≤ (end_ - (ptr + 4) + 3) / 4) by (apply Z.div_le_lower_bound; lia). lia.
Qed.

Lemma stack_report fuel t : 0 ≤ task_field t esp → task_field t kernel_stack_base ≤ W32 - 4 →
  task_field t kernel_stack_base - task_field t esp + 4 ≤ 4 * Z.of_nat fuel → (0 < fuel)%nat →
  ∃ l, task_print_stack fuel t = Done l ∧ report_ok l.
Proof.
  intros H0 H1 H2 H3. unfold task_print_stack. case_match; [eexists; split; [reflexivity|report_calls]|].
  case_match; [eexists; split; [reflexivity|report_calls]|].
  destruct (print_slots_run fuel (task_field t esp) (task_field t kernel_stack_base)) as (l & E & Hl & _); [done..|].
  rewrite E. eexists. split; [reflexivity|]. do 2 (apply report_app; split; [report_calls|]).
  apply report_app. split; [done|report_calls].
Qed.

(** Every call but those of the memory map agrees with its arguments. *)
Definition map_call (p : print) : Prop := ∃ label a, p = map_line label a ∧ 37 ∉ chars label.

Lemma userspace_calls t : Forall (λ p, agrees p ∨ map_call p) (userspace_print t).
Proof.
  assert (∀ l, report_ok l → Forall (λ p, agrees p ∨ map_call p) l) as Hr by (intros l H; eapply Forall_impl; [exact H|auto]).
  assert (∀ label a, bool_decide (37 ∈ chars label) = false → Forall (λ p, agrees p ∨ map_call p) [map_line label a]) as Hm.
  { intros label a H%bool_decide_eq_false. apply Forall_singleton. right. by exists label, a. }
  unfold userspace_print. case_match; [apply Hr; report_calls|]. rewrite !Forall_app. split_and!.
  1: apply Hr; report_calls.
  1-4: apply Hr, section_reports.
  - apply Forall_cons. split; [left; split; [apply Forall_nil_2|reflexivity]|]. by apply Hm.
  - unfold if_mapped. repeat case_match; try apply Forall_nil_2. by apply Hm.
  - unfold if_mapped. repeat case_match; try apply Forall_nil_2. by apply Hm.
  - case_match; [by apply Hm|apply Forall_nil_2].
  - apply Hr. report_calls.
  - unfold if_mapped. repeat case_match; try apply Forall_nil_2. by apply Hm.
  - apply (Forall_app _ [_] (_ :: _)). split; [by apply Hm|]. apply (Forall_app _ [_] [_]). split; [by apply Hm|].
    apply Hr. report_calls.
Qed.

End Tasks.

(** A text without conversions is printed as it is, whatever is passed with it. *)
Lemma format_prefix l r args : 37 ∉ l → format (l ++ r) args = x ← format r args ; Some (l ++ x).
Proof.
  induction l as [|c l IH]; intros H; cbn [app]; [by destruct (format r args)|].
  apply not_elem_of_cons in H as [Hc H]. cbn [format]. rewrite (proj2 (Z.eqb_neq c 37)) by congruence.
  rewrite IH by done. by destruct (format r args).
Qed.

Lemma format_plain fmt args : 37 ∉ fmt → format fmt args = Some fmt.
Proof. intros H. rewrite <- (app_nil_r fmt), format_prefix by done. done. Qed.

(** The conversion [%0] prints nothing and takes no argument. *)
Lemma format_zero r args : format (37 :: 48 :: r) args = format r args.
Proof. cbn [format Z.eqb Pos.eqb]. unfold convert. eval_decides. cbn. by destruct (format r args). Qed.

Lemma chars_app a b : chars (a ++ b)%string = chars a ++ chars b.
Proof. unfold chars. rewrite <- map_app. f_equal. induction a as [|c a IH]; [done|].
  change (String c a +:+ b) with (String c (a +:+ b)). cbn [String.list_ascii_of_string app]. by rewrite IH.
Qed.

(** A line of the memory map does not show its address: the character after [0x%]
    is [0], which no case of the conversion handles. *)
Lemma map_line_text label a : 37 ∉ chars label →
  format (map_line label a).1 (map_line label a).2 = Some (chars "  0x8x  " ++ chars label ++ [10]).
Proof.
  intros H. unfold map_line, ln. cbn [fst snd]. rewrite chars_app. change (chars "  0x%08x  ") with (chars "  0x" ++ [37; 48] ++ chars "8x  ").
  rewrite <- !app_assoc. cbn [app].
  rewrite format_prefix by (apply (bool_decide_unpack (37 ∉ chars "  0x")); exact I). rewrite format_zero.
  rewrite format_plain; [done|]. rewrite !not_elem_of_app.
  split_and!; [apply (bool_decide_unpack (37 ∉ chars "8x  ")); exact I|done|apply (bool_decide_unpack (37 ∉ [10])); exact I].
Qed.

(** ** panic.c *)

Section Panic.
(** The bytes of memory. *)
Context (mem : Z → Z).

(** The loop of [memory_dump], from [addr] down to [addr_start]. *)
Fixpoint dump_loop (fuel : nat) (addr_start addr : Z) : outcome (list print) :=
  match fuel with
  | O => Hang
  | Datatypes.S fuel =>
      if addr_start <=? addr then
        let head := if (addr mod 8 =? 0) || (addr =? addr_start) then [tabbed "%p:" 1 [word addr]] else [] in
        let zero := if u8 (mem addr) <? 16 then [pr "0" []] else [] in
        let byte := [pr "%x " [word (u8 (mem addr))]] in
        let addr := addr ⊟ 1 in
        let end_ := if addr mod 8 =? 0 then [ln EmptyString []] else [] in
        obind (dump_loop fuel addr_start addr) (λ l, Done (head ++ zero ++ byte ++ end_ ++ l))
      else Done (if negb (addr mod 8 =? 0) then [ln EmptyString []] else [])
  end.

Definition memory_dump (fuel : nat) (addr_start addr_end : Z) : outcome (list print) := dump_loop fuel addr_start addr_end.

(** [print_stack_frame] with the registers it reads: the return address is one byte. *)
Definition print_stack_frame (fuel : nat) (esp ebp : Z) : outcome (list print) :=
  obind (memory_dump fuel esp ebp) (λ l,
    Done ([ln "Stack trace:" []] ++ l ++
          [ln "ESP = %p | EBP = %p" [word esp; word ebp]; ln "Return address: 0x%x" [word (u8 (mem (ebp ⊞ 1)))]])).

(** The loop of [save_stack], [n] turns before [i] is 4096: [esp] is a pointer
    to words, and one byte of each is kept. *)
Fixpoint save_loop (n : nat) (i esp ebp : Z) (snapshot : Z → Z) : Z → Z :=
  match n with
  | O => snapshot
  | Datatypes.S n =>
      if esp <? ebp then save_loop n (i + 1) (esp ⊞ 4) ebp (<[i := u8 (mem esp)]> snapshot) else snapshot
  end.

(** [stack_snapshot] after [save_stack], with the registers it reads. *)
Definition save_stack (esp ebp : Z) (stack_snapshot : Z → Z) : Z → Z := save_loop 4096 0 esp ebp stack_snapshot.

(** The snapshot of a stack holds every fourth byte of it. *)
Lemma save_loop_bytes n i esp ebp snapshot j : 0 ≤ esp → ebp + 4 < W32 →
  save_loop n i esp ebp snapshot j =
  if decide (i ≤ j < i + Z.of_nat n ∧ esp + 4 * (j - i) < ebp) then u8 (mem (esp + 4 * (j - i))) else snapshot j.
Proof.
  revert i esp snapshot. induction n as [|n IH]; intros i esp snapshot He Hb; cbn [save_loop]; [by rewrite decide_False by lia|].
  destruct (Z.ltb_spec esp ebp); [|by rewrite decide_False by lia]. rewrite u32_small by (unfold W32 in *; lia).
  rewrite IH by lia. destruct (decide (j = i)) as [->|].
  { rewrite decide_False, decide_True by lia. rewrite fn_lookup_insert. do 2 f_equal. lia. }
  rewrite fn_lookup_insert_ne by done. replace (esp + 4 + 4 * (j - (i + 1))) with (esp + 4 * (j - i)) by lia.
  repeat case_decide; try done; lia.
Qed.

(** The bytes a dump shows, in order. *)
Definition shown_bytes (l : list print) : list print := filter (λ p, p.1 = chars "%x ") l.

Lemma dump_report fuel a0 a l : dump_loop fuel a0 a = Done l → report_ok l.
Proof.
  revert a l. induction fuel as [|fuel IH]; intros a l; cbn [dump_loop]; [done|]. case_match.
  - destruct (dump_loop fuel a0 (a ⊟ 1)) as [k| | |] eqn:E; try done. cbn [obind]. intros [= <-].
    specialize (IH _ _ E). apply report_app. split; [case_match; report_calls|]. apply report_app. split; [case_match; report_calls|].
    apply Forall_cons. split; [split; [apply Forall_cons; split; [apply word_ok|apply Forall_nil_2]|reflexivity]|].
    apply report_app. split; [case_match; report_calls|exact IH].
  - intros [= <-]. case_match; report_calls.
Qed.

(** The addresses of a dump of [n] bytes from [a] down. *)
Definition downwards (n : nat) (a : Z) : list Z := (λ i, a - Z.of_nat i) <$> seq 0 n.

Lemma downwards_S n a : downwards (Datatypes.S n) a = a :: downwards n (a - 1).
Proof.
  unfold downwards. cbn [seq fmap list_fmap]. rewrite Z.sub_0_r. f_equal. rewrite <- fmap_S_seq, <- list_fmap_compose.
  apply list_fmap_ext. intros i x _. cbn. lia.
Qed.

Lemma dump_run n fuel a0 a : 0 < a0 → a < W32 → a = a0 + Z.of_nat n - 1 → (n < fuel)%nat →
  ∃ l, dump_loop fuel a0 a = Done l ∧ shown_bytes l = (λ x, pr "%x " [word (u8 (mem x))]) <$> downwards n a.
Proof.
  revert fuel a. induction n as [|n IH]; intros fuel a H0 Ha E Hf; (destruct fuel as [|fuel]; [lia|]); cbn [dump_loop].
  { rewrite (proj2 (Z.leb_gt _ _)) by lia. eexists. split; [reflexivity|]. by case_match. }
  rewrite (proj2 (Z.leb_le _ _)), u32_small by (unfold W32 in *; lia).
  destruct (IH fuel (a - 1)) as (l & -> & Hl); [done|lia|lia|lia|]. eexists. split; [reflexivity|].
  unfold shown_bytes in *. cbn [app]. rewrite !filter_app, filter_cons_True, filter_app, Hl, downwards_S by done. cbn [fmap list_fmap].
  repeat case_match; reflexivity.
Qed.

Lemma dump_wraps fuel a : 0 ≤ a < W32 → dump_loop fuel 0 a = Hang.
Proof.
  revert a. induction fuel as [|fuel IH]; intros a Ha; cbn [dump_loop]; [done|].
  rewrite (proj2 (Z.leb_le 0 a)) by lia. by rewrite IH by apply u32_range.
Qed.

End Panic.

(** [memory_dump] prints every byte of the range once, from the highest address to
    the lowest, and ends, for a range that does not start at address 0; from
    address 0 the decrement wraps and the loop never ends. *)
Theorem memory_dump_correct (mem : Z → Z) (addr_start addr_end : Z) :
  0 < addr_start ≤ addr_end → addr_end < W32 →
  (∃ l, memory_dump mem (Z.to_nat (addr_end - addr_start + 2)) addr_start addr_end = Done l ∧ report_ok l ∧
     shown_bytes l = (λ x, pr "%x " [word (u8 (mem x))]) <$> downwards (Z.to_nat (addr_end - addr_start + 1)) addr_end) ∧
  ∀ fuel, memory_dump mem fuel 0 addr_end = Hang.
Proof.
  intros H0 He. split; [|intros fuel; apply dump_wraps; lia].
  destruct (dump_run mem (Z.to_nat (addr_end - addr_start + 1)) (Z.to_nat (addr_end - addr_start + 2)) addr_start addr_end)
    as (l & E & Hl); [lia..|]. exists l. split; [exact E|]. split; [by eapply dump_report|exact Hl].
Qed.

(** *** kpanic *)

Definition VGA_COLOR_RED : Z := 4.

Section Kpanic.
Context (inb : Z → Z).

(** [__kpanic] up to the halt; the interrupts are off from its first call on. *)
Definition __kpanic (fmt : list Z) (args : list arg) : M console unit :=
  i ← gets current_tty ;
  tty_framebuffer_set_screen_mode i (VGA_COLOR VGA_COLOR_RED VGA_COLOR_WHITE) ;;
  vga_disable_cursor ;;
  vga_vprintf inb fmt args.

(** The macro [kpanic]. *)
Definition kpanic_format (fmt : list Z) : list Z := chars "PANIC in %s:%d" ++ [10] ++ chars "%s: " ++ fmt ++ [10].

Definition kpanic_call (file func : string) (line : Z) (fmt : list Z) (args : list arg) : M console unit :=
  __kpanic (kpanic_format fmt) ([str file; word line; str func] ++ args).

End Kpanic.

(** The cells with another attribute. *)
Definition recolor (m : Z) (t : term) : term := Term (λ x y, VgaEntry (character (grid t x y)) m) (col t) (row t).

Lemma wp_screen_mode s m m' t : shows s m t →
  wp (tty_framebuffer_set_screen_mode (current_tty s) m') s (λ _ s',
    shows s' m' (recolor m' t) ∧ current_tty s' = current_tty s ∧ commands s' = commands s ∧
    ∀ j, j ≠ current_tty s → ttys s' j = ttys s j).
Proof.
  intros [[Hx Hy] Ht Hm Hl (fb & Hfb & Hg)]. unfold tty_framebuffer_set_screen_mode. apply wp_bind, wp_set_tty.
  intros s1 [T1 O1 C1 S1 K1]. apply wp_bind, wp_gets. rewrite T1. cbn [framebuffer with_mode]. fold (cur_of s). rewrite Hfb.
  apply wp_set_tty. intros s2 [T2 O2 C2 S2 K2]. rewrite T1 in T2.
  assert (cur_of s2 = with_fb (Some (λ o, if (0 <=? o) && (o <? VGA_WIDTH * TTY_HIST_SIZE)
    then VgaEntry (character (fb o)) m' else fb o)) (with_mode m' (cur_of s))) as Ec by (unfold cur_of; by rewrite C2, C1, T2).
  split; [|split_and!; [congruence..|]; intros j Hj; rewrite O2, O1 by done; done].
  split; rewrite Ec; cbn [cursor_x cursor_y top_line_index mode history framebuffer with_fb with_mode recolor grid col row]; [done..|].
  eexists. split; [reflexivity|]. intros x y Hx' Hy'. cbn beta. pose proof (u8_range (top_line_index (cur_of s) + y)) as Hr.
  unfold VGA_WIDTH, TTY_HIST_SIZE. rewrite (proj2 (Z.leb_le _ _)), (proj2 (Z.ltb_lt _ _)) by lia. cbn [andb]. by rewrite Hg.
Qed.

Lemma wp_disable_cursor s m t : shows s m t → wp vga_disable_cursor s (λ _ s',
  shows s' m t ∧ current_tty s' = current_tty s ∧ commands s' = commands s ∧ ttys s' = ttys s).
Proof.
  intros Hs. unfold vga_disable_cursor, outb_. apply wp_bind, wp_modify, wp_modify. split_and!; [|done..].
  by eapply shows_eq.
Qed.

Lemma conversions_app l r ks ks' : conversions l ks = Some ks' → conversions (l ++ r) ks = conversions r ks'.
Proof.
  enough (∀ n l ks ks', (length l ≤ n)%nat → conversions l ks = Some ks' → conversions (l ++ r) ks = conversions r ks') as H by eauto.
  clear. induction n as [|n IH]; intros l ks ks' Hn E.
  { destruct l; [by injection E as ->|cbn in Hn; lia]. }
  destruct l as [|c l]; [by injection E as ->|]. cbn [app conversions length] in *. destruct (c =? 37); [|apply IH; [lia|done]].
  destruct l as [|d l]; [done|]. cbn [app length] in *. destruct (bool_decide (d ∈ chars "iduxXpc")).
  { destruct ks as [|[] ks]; try done. apply IH; [lia|done]. }
  destruct (d =? 115); [destruct ks as [|[] ks]; try done; apply IH; [lia|done]|].
  destruct (d =? 116); [destruct ks as [|[] ks]; try done; apply IH; [lia|done]|]. apply IH; [lia|done].
Qed.

(** C31: A panic whose format agrees with its arguments shows its message: the screen
    turns to white on red and the text of the macro is printed on it.  Before the
    terminals have a framebuffer, which is the case until [ttys_init] has run, a
    panic writes through the NULL framebuffer instead. *)
Theorem kpanic_shows inb (file func : string) (line : Z) (fmt : list Z) (args : list arg) (s : console) (m : Z) (t : term) :
  Forall arg_ok args → conversions fmt (kind_of <$> args) = Some [] → shows s m t → term_ok t →
  (∃ l s', format (kpanic_format fmt) ([str file; word line; str func] ++ args) = Some l ∧
     kpanic_call inb file func line fmt args s = Done (tt, s') ∧
     shows s' 79 (put_string 79 l (recolor 79 t)) ∧ (∀ j, j ≠ current_tty s → ttys s' j = ttys s j)) ∧
  ∀ s0, framebuffer (cur_of s0) = None → kpanic_call inb file func line fmt args s0 = Fault.
Proof.
  intros Ha Hc Hs Ht. split.
  - destruct (format_agrees (kpanic_format fmt) ([str file; word line; str func] ++ args) []) as [l El].
    { apply Forall_cons. split; [exact I|]. apply Forall_cons. split; [apply word_ok|]. by apply Forall_cons. }
    { cbn [app fmap list_fmap kind_of str word]. unfold kpanic_format. rewrite app_assoc, app_assoc.
      rewrite (conversions_app _ _ (KStr :: KInt :: KStr :: (kind_of <$> args)) (kind_of <$> args)) by reflexivity.
      by rewrite (conversions_app _ _ _ [] Hc). }
    exists l. assert (wp (kpanic_call inb file func line fmt args) s (λ _ s',
      shows s' 79 (put_string 79 l (recolor 79 t)) ∧ ∀ j, j ≠ current_tty s → ttys s' j = ttys s j)) as Hw.
    { unfold kpanic_call, __kpanic. apply wp_bind, wp_gets, wp_bind. change (VGA_COLOR VGA_COLOR_RED VGA_COLOR_WHITE) with 79.
      eapply wp_mono; [by apply (wp_screen_mode s m 79 t)|]. intros [] s1 (H1 & C1 & _ & O1). apply wp_bind.
      eapply wp_mono; [by apply (wp_disable_cursor s1 79 (recolor 79 t))|]. intros [] s2 (H2 & C2 & _ & O2).
      eapply wp_mono; [apply (wp_vprintf inb _ _ l s2 79 (recolor 79 t)); [exact El|exact H2|exact Ht]|].
      intros [] s3 []. split; [done|]. intros j Hj. rewrite pr_ttys, O2 by congruence. auto. }
    apply wp_run in Hw as ([] & s' & E & ?). exists s'. split_and!; [exact El|exact E|tauto..].
  - intros s0 E. unfold kpanic_call, __kpanic, tty_framebuffer_set_screen_mode, mbind, M_bind, gets, set_tty, modify.
    cbn. rewrite Z.eqb_refl. cbn. unfold cur_of in E. by rewrite E.
Qed.

(** *** The other direction: a call that does not agree reads an argument that is not there *)

Lemma convert_missing d : bool_decide (d ∈ chars "iduxXpc") || (d =? 115) || (d =? 116) = true → convert d [] = None.
Proof.
  intros Hd. unfold convert. destruct (Z.eqb_spec d 37) as [->|_]; [by vm_compute in Hd|].
  replace (bool_decide (d ∈ chars "sidux") || bool_decide (d ∈ chars "Xpct")) with true; [done|].
  symmetry. apply orb_true_iff. rewrite !bool_decide_eq_true.
  rewrite !orb_true_iff, bool_decide_eq_true, !Z.eqb_eq in Hd.
  change (chars "iduxXpc") with [105; 100; 117; 120; 88; 112; 99] in Hd. change (chars "sidux") with [115; 105; 100; 117; 120].
  change (chars "Xpct") with [88; 112; 99; 116]. rewrite !elem_of_cons, elem_of_nil in *. tauto.
Qed.

Lemma convert_tail d a args l args' : bool_decide (d ∈ chars "iduxXpc") || (d =? 115) || (d =? 116) = true →
  convert d (a :: args) = Some (l, args') → args' = args ∧
  kind_of a = (if d =? 115 then KStr else if d =? 116 then KTask else KInt).
Proof.
  intros Hd E. unfold convert in E. destruct (Z.eqb_spec d 37) as [->|_]; [by vm_compute in Hd|].
  match type of E with (if ?c then _ else _) = _ => assert (c = true) as Hc end.
  { apply orb_true_iff. rewrite !bool_decide_eq_true. rewrite !orb_true_iff, bool_decide_eq_true, !Z.eqb_eq in Hd.
    change (chars "iduxXpc") with [105; 100; 117; 120; 88; 112; 99] in Hd. change (chars "sidux") with [115; 105; 100; 117; 120].
    change (chars "Xpct") with [88; 112; 99; 116]. rewrite !elem_of_cons, elem_of_nil in *. tauto. }
  rewrite Hc in E. apply bind_Some in E as (r & Er & [= _ <-]). split; [done|].
  destruct a; cbn [kind_of].
  - destruct (Z.eqb_spec d 115) as [->|]; [done|]. by destruct (Z.eqb_spec d 116) as [->|].
  - by destruct (d =? 115).
  - destruct (Z.eqb_spec d 115) as [->|]; [done|]. by destruct (d =? 116).
Qed.

Lemma format_disagrees fmt args : conversions fmt (kind_of <$> args) = None → format fmt args = None.
Proof.
  enough (∀ n fmt args, (length fmt ≤ n)%nat → conversions fmt (kind_of <$> args) = None → format fmt args = None) as H by eauto.
  clear. intros n. induction n as [|n IH]; intros fmt args Hn E.
  { destruct fmt; [done|cbn in Hn; lia]. }
  destruct fmt as [|c fmt]; [done|]. cbn [format conversions length] in *. destruct (c =? 37); [|by rewrite IH by (done || lia)].
  destruct fmt as [|d fmt]; [done|]. cbn [length] in Hn.
  destruct (convert d args) as [[l args']|] eqn:Ec; [|done]. cbn [mbind option_bind].
  enough (conversions fmt (kind_of <$> args') = None) as E' by (by rewrite IH by (done || lia)).
  destruct (bool_decide (d ∈ chars "iduxXpc") || (d =? 115) || (d =? 116)) eqn:Ed.
  - destruct args as [|a args]; [by rewrite convert_missing in Ec|]. destruct (convert_tail _ _ _ _ _ Ed Ec) as [-> Ek].
    cbn [fmap list_fmap] in E. rewrite Ek in E. destruct (bool_decide (d ∈ chars "iduxXpc")) eqn:Eb.
    + destruct (Z.eqb_spec d 115) as [->|]; [by vm_compute in Eb|]. by destruct (Z.eqb_spec d 116) as [->|]; [vm_compute in Eb|].
    + destruct (d =? 115); [done|]. by destruct (d =? 116).
  - apply orb_false_iff in Ed as [[Eb E1]%orb_false_iff E2]. rewrite Eb, E1, E2 in E.
    apply bool_decide_eq_false in Eb. destruct (convert_none d args) as [l' El']; [by apply bool_decide_eq_false|by apply Z.eqb_neq|by apply Z.eqb_neq|].
    rewrite El' in Ec. by injection Ec as <- <-.
Qed.

(** The panic for a full region table passes no argument for its second [%s]. *)
Lemma region_panic_lacks_argument (file func : string) (line : Z) :
  format (kpanic_format (chars "boot_alloc: %s: too many %s regions" ++ [10])) [str file; word line; str func; str func] = None.
Proof. apply format_disagrees. reflexivity. Qed.

(** ** All dumps *)

(** The calls of every dump of the kernel, in any state. *)
Inductive kernel_report : list print → Prop :=
  | RPage pd p : kernel_report (page_print_info pd p)
  | RBootLayout b : kernel_report (boot_allocator_print_initial_layout b)
  | RBootFree b : kernel_report (boot_allocator_print_free_zones b)
  | RBootReserved b : kernel_report (boot_allocator_print_reserved_zones b)
  | RBootLog b : kernel_report (boot_allocator_print_allocations b)
  | RBuddy s : kernel_report (buddy_print_summary s)
  | RSlab s : kernel_report (print_slab_summary s)
  | RAreas l : kernel_report (vma_print_areas l)
  | RFault addr eip cr3 pde err task : kernel_report (page_fault_report addr eip cr3 pde err task)
  | RTask (S : Type) (st : pstate S) links argc n : kernel_report (task_cmd_print_info st links argc n)
  | RPs (S : Type) (st : pstate S) : kernel_report (task_ps st)
  | RStack (S : Type) (st : pstate S) fuel t l : task_print_stack st fuel t = Done l → kernel_report l
  | RUser (S : Type) (st : pstate S) t : kernel_report (userspace_print st t)
  | RDump mem fuel a0 a1 l : memory_dump mem fuel a0 a1 = Done l → kernel_report l
  | RFrame mem fuel sp bp l : print_stack_frame mem fuel sp bp = Done l → kernel_report l.

Lemma slots_report {S} (st : pstate S) fuel p e l : print_slots st fuel p e = Done l → report_ok l.
Proof.
  revert p l. induction fuel as [|fuel IH]; intros p l; cbn [print_slots]; [done|]. case_match; [|intros [= <-]; apply report_nil].
  destruct (print_slots st fuel (p ⊞ 4) e) as [k| | |] eqn:E; try done. intros [= <-]. apply Forall_cons.
  split; [|by eapply IH]. split; [|reflexivity]. repeat (apply Forall_cons; split; [apply word_ok|]). apply Forall_nil_2.
Qed.

Lemma stack_dump_report {S} (st : pstate S) fuel t l : task_print_stack st fuel t = Done l → report_ok l.
Proof.
  unfold task_print_stack. case_match; [intros [= <-]; report_calls|]. case_match; [intros [= <-]; report_calls|].
  destruct (print_slots st fuel _ _) as [k| | |] eqn:E; try done. apply slots_report in E. intros [= <-]. report_calls.
Qed.

(** Every call of every dump passes exactly the arguments its format converts, but for the lines of the memory map. *)
Lemma kernel_report_calls l : kernel_report l → Forall (λ p, agrees p ∨ map_call p) l.
Proof.
  assert (∀ l, report_ok l → Forall (λ p, agrees p ∨ map_call p) l) as Hr by (intros k H; eapply Forall_impl; [exact H|auto]).
  intros []; try (apply Hr; by apply boot_reports); try (apply Hr; solve [auto using page_report, buddy_report, slab_report, areas_report, fault_report, task_cmd_report, task_ps_report]).
  - apply Hr. by eapply stack_dump_report.
  - apply userspace_calls.
  - apply Hr. by eapply dump_report.
  - apply Hr. unfold print_stack_frame in *. destruct (memory_dump mem fuel sp bp) as [k| | |] eqn:E; try done.
    apply dump_report in E. injection H as <-. report_calls.
Qed.


(** ** Instances *)

Definition sample_page : Z → page := λ _, Page 11 2.


Lemma memory_dump_correct_witness : ∃ l, memory_dump (λ a, a mod 256) (Z.to_nat (12 - 9 + 2)) 9 12 = Done l ∧
  text l = Some (chars "0c 0b 0a 0x9:" ++ [9] ++ chars "09 " ++ [10]).
Proof.
  destruct (memory_dump_correct (λ a, a mod 256) 9 12) as [(l & E & _) _]; [lia|reflexivity|].
  exists l. split; [exact E|]. apply (f_equal (λ o, match o with Done k => text k | _ => None end)) in E. cbn beta iota in E.
  rewrite <- E. vm_compute. reflexivity.
Defined.

Lemma kpanic_shows_witness : ∃ l s', l = chars "PANIC in page.c:201" ++ [10] ++ chars "f: order 11" ++ [10] ∧
  kpanic_call (λ _, 0) "page.c" "f" 201 (chars "order %u") [word 11] booted = Done (tt, s') ∧
  shows s' 79 (put_string 79 l (recolor 79 blank_term)).
Proof.
  destruct (kpanic_shows (λ _, 0) "page.c" "f" 201 (chars "order %u") [word 11] booted 31 blank_term) as [(l & s' & El & E & H & _) _].
  - apply Forall_singleton, word_ok.
  - reflexivity.
  - exact booted_shows.
  - exact blank_ok.
  - exists l, s'. split; [|split; [exact E|exact H]]. clear E H.
    apply (f_equal (default [])) in El. change (default [] (Some l)) with l in El. rewrite <- El. vm_compute. reflexivity.
Defined.
