(* ===== verification/Sloppy.v ===== *)
(** * Starting a demonstration task (src/proc/task.c)

    exec_fn and sloppy_exec, the shell's way to start a task: a kernel thread
    that runs one of the functions of task.c, or a user program linked into
    the image.  They put the creation of a task (Spawn), its first context and
    the scheduler together.  The commands of tty.c that act on tasks or stop the
    machine are here too.  The theorem follows a kernel thread through
    task_get_new and exec_fn on every branch, whatever the allocator does. *)

From S2P Require Import Prelude Errno Dlist Memory Page Buddy BuddyInv BuddySpec BuddyThm PageAlloc.
From S2P Require Import Slab SlabInv SlabThm KmallocThm SlabExample.
From S2P Require Import Vmm VmmThm Vma VmaInv VmaExample Bitmap Task Sched Process SchedInv ProcessThm.
From S2P Require Import Fork ForkSpace ForkThm ForkChild ForkExample Loader Spawn SpawnExample Tty TtyThm TtyFormat Report.

Section Sloppy.
Context {S : Type} `{KernelAllocator S}.
Context (image : Z → Z) (kernel_directory interrupt_exit : Z).
Context (sig_trampoline_start sig_trampoline_end : Z).
Context (signal_default_handler signal_ignore_handler : Z).

Local Abbreviation task_get_new := (task_get_new image kernel_directory sig_trampoline_start sig_trampoline_end
  signal_default_handler signal_ignore_handler).

(** The text section of the task, [None] when it cannot be initialised; a
    kernel thread has none. *)
Definition exec_text (addr function size : Z) : option (option section) :=
  if 0 <? size then Some <$> section_init_from_buffer addr function size 0 else Some None.

(** The result is what is printed. *)
Definition exec_fn (addr function size : Z) : M (pstate S) (list print) :=
  let is_user := 0 <? size in
  match exec_text addr function size with
  | None => mret [ln "exec_fn: Error initializing user section" []]
  | Some text_ptr =>
      sloppy_task ← task_get_new (chars "Sloppy") (if is_user then 3 else 0) text_ptr None ;
      if sloppy_task =? 0 then mret [ln "exec_fn: Failed to allocate task structure" []]
      else
        entry ← (if (is_user : bool) then
                   sec ← p_sys (fld sloppy_task text_sec) ;
                   x ← on_f (get_section sec) ;
                   mret (v_addr x)
                 else mret function) ;
        p_sys (task_craft_context interrupt_exit sloppy_task is_user entry) ;;
        p_sys (set_fld sloppy_task state TASK_RUNNING) ;;
        kitoxD ← p_sys task_get_kitoxD ;
        p_sys (task_append_child kitoxD sloppy_task) ;;
        p_sys (sched_enqueue sloppy_task) ;;
        mret []
  end.

(** Where the linker put the functions and the programs. *)
Record programs := Programs {
  sloppy_fibo : Z; sloppy_pid : Z; sloppy_hello : Z;
  user_cafe_start : Z; user_cafe_end : Z; user_dead_start : Z; user_dead_end : Z }.

Definition sloppy_exec (p : programs) (sloppy_name : list Z) : M (pstate S) (list print) :=
  if bool_decide (sloppy_name = chars "fibo") then exec_fn 2969956365 (sloppy_fibo p) 0          (* 0xB105F00D *)
  else if bool_decide (sloppy_name = chars "pid") then exec_fn 3131746989 (sloppy_pid p) 0       (* 0xBAAAAAAD *)
  else if bool_decide (sloppy_name = chars "hello") then exec_fn 3131961357 (sloppy_hello p) 0   (* 0xBAADF00D *)
  else if bool_decide (sloppy_name = chars "cafe") then
    exec_fn 3137256126 (user_cafe_start p) (user_cafe_end p ⊟ user_cafe_start p)                 (* 0xBAFEBABE *)
  else if bool_decide (sloppy_name = chars "dead") then
    exec_fn 3203334144 (user_dead_start p) (user_dead_end p ⊟ user_dead_start p)                 (* 0xBEEF0000 *)
  else mret [].

(** ** Commands of the shell that concern tasks (src/drivers/tty/tty.c) *)

(** [sig] and [n] are the numbers ft_atoi reads in the arguments. *)
Definition sys_kill_wrapper (argc sig n : Z) : M (pstate S) (list print) :=
  if negb (argc =? 3) then mret [ln "Usage: kill <signal> <pid>" []]
  else p_sys (kill_pid n sig) ;; mret [].

(** What a command makes of the machine: it goes on after printing, or stops
    after writing to ports. *)
Inductive primitive :=
  | Prints (l : list print)
  | Stops (ports : list (Z * Z)).

(** [while (inb(0x64) & 0x02)]; [status k] is the answer to the [k]th read. *)
Fixpoint reboot_loop (fuel : nat) (status : nat → Z) (k : nat) : outcome (list (Z * Z)) :=
  match fuel with
  | O => Hang
  | Datatypes.S fuel =>
      if negb (Z.land (status k) 2 =? 0) then reboot_loop fuel status (Datatypes.S k) else Done [(100, 254)]
  end.

Definition reboot (fuel : nat) (status : nat → Z) : outcome (list (Z * Z)) := reboot_loop fuel status 0.

Definition shutdown : list (Z * Z) := [(1540, 8192)].   (* outw(0x604, 0x2000) *)

Definition tty_handle_kprimitive (fuel : nat) (status : nat → Z) (argv0 : list Z) (st : pstate S) : outcome primitive :=
  if bool_decide (argv0 = chars "halt") then Done (Stops [])
  else if bool_decide (argv0 = chars "reboot") then obind (reboot fuel status) (λ l, Done (Stops l))
  else if bool_decide (argv0 = chars "poweroff") then Done (Stops shutdown)
  else if bool_decide (argv0 = chars "ps") then Done (Prints (task_ps st))
  else Done (Prints []).

End Sloppy.

(** ** The threads *)

(** A thread of task.c prints, sleeps and exits, in an order that does not
    depend on the state. *)
Inductive act :=
  | APrint (p : print)
  | ASleep (seconds : Z)
  | AExit (error_code : Z).

Definition hello_acts (cur_pid : Z) : list act :=
  [APrint (ln "[PID %d] Hello! lets sleep and die" [word cur_pid]); ASleep 3; AExit 0].

Definition pid_acts (cur_pid : Z) : list act :=
  concat (replicate 2 [APrint (ln "[PID %d] I am alive and sloppy!" [word cur_pid]); ASleep 2]) ++ [AExit 0].

Fixpoint fibo_loop (n : nat) (i a b : Z) : list act :=
  match n with
  | O => []
  | Datatypes.S n =>
      let next := a ⊞ b in
      [APrint (ln "fibo[%u] = %u" [word i; word next]); ASleep 1] ++ fibo_loop n (i + 1) b next
  end.

Definition fibo_acts : list act := fibo_loop 20 0 0 1 ++ [AExit 0].

(** The Fibonacci numbers. *)
Fixpoint fib (n : nat) : Z :=
  match n with
  | O => 0
  | Datatypes.S m => match m with O => 1 | Datatypes.S k => fib m + fib k end
  end.

(** The thread prints the numbers after the first two, one a second; none of
    the twenty wraps around. *)
Lemma fibo_acts_numbers : fibo_acts =
  concat ((λ i, [APrint (ln "fibo[%u] = %u" [word (Z.of_nat i); word (fib (i + 2))]); ASleep 1]) <$> seq 0 20) ++ [AExit 0] ∧
  (∀ i, (i < 20)%nat → fib (i + 2) < W32).
Proof.
  split; [reflexivity|]. intros i Hi. assert (Forall (λ i, fib (i + 2) < W32) (seq 0 20)) as HF.
  { repeat constructor. }
  rewrite Forall_forall in HF. apply HF, elem_of_seq. lia.
Qed.

(** The reset is sent at the first clear status. *)
Lemma reboot_sends status k fuel : (k < fuel)%nat → Z.land (status k) 2 = 0 → reboot fuel status = Done [(100, 254)].
Proof.
  intros Hk Hs. unfold reboot. cut (∀ i fuel, (i ≤ k)%nat → (k - i < fuel)%nat → reboot_loop fuel status i = Done [(100, 254)]).
  { intros HI. apply HI; lia. }
  clear Hk fuel. intros i fuel. revert i. induction fuel as [|fuel IH]; intros i Hi Hf; [lia|]. cbn [reboot_loop].
  destruct (Z.eqb_spec (Z.land (status i) 2) 0) as [|Hn]; [done|]. cbn [negb].
  destruct (decide (i = k)) as [->|]; [congruence|]. apply IH; lia.
Qed.

(** ** Steps *)

Section Steps.
Context {S : Type} `{KernelAllocatorLaws S}.

(** [s] with [x] for its tasks. *)
Definition with_sys (x : sys) (s : pstate S) : pstate S :=
  PState (FState x (fs_vmm (ps_f s)) (frames (ps_f s)) (strings (ps_f s))) (ps_lists s) (ps_area s) (ps_pages s).

Definition the_sys_of (s : pstate S) : sys := fs_sys (ps_f s).

(** The allocator of [s]. *)
Definition heap_of (s : pstate S) : S := palloc (fs_vmm (ps_f s)).

Lemma wp_on_f {A} (c : M (fstate S) A) s (Q : A → pstate S → Prop) :
  wp c (ps_f s) (λ a f, Q a (PState f (ps_lists s) (ps_area s) (ps_pages s))) → wp (on_f c) s Q.
Proof. unfold wp, on_f. by destruct (c (ps_f s)) as [[a f]| | |]. Qed.

Lemma wp_p_sys {A} (c : M sys A) s (Q : A → pstate S → Prop) :
  wp c (the_sys_of s) (λ a x, Q a (with_sys x s)) → wp (p_sys c) s Q.
Proof. intros Hc. by apply wp_on_f, wp_on_sys. Qed.

Lemma wp_p_section a x s (Q : unit → pstate S → Prop) :
  Q tt (with_sys (set_sections (λ m, <[a := x]> m) (the_sys_of s)) s) → wp (on_f (set_section a x)) s Q.
Proof. intros HQ. by apply wp_p_sys, wp_modify. Qed.

(** What an allocation and its later release leave alone. *)
Record keeps_heap (s s' : pstate S) : Prop := {
  kh_ok : pa_ok (heap_of s');
  kh_live : ∀ p, ka_live (heap_of s) p → ka_live (heap_of s') p }.

Lemma wp_p_kmalloc size gfp s (Q : Z → pstate S → Prop) : pa_ok (heap_of s) →
  (∀ r s', keeps_heap s s' → the_sys_of s' = the_sys_of s →
     (r = 0 ∨ (¬ ka_live (heap_of s) r ∧ ka_live (heap_of s') r ∧ 0 < r ∧ r + size < W32)) → Q r s') →
  wp (on_f (fork_kmalloc size gfp)) s Q.
Proof.
  intros Hok HQ. apply wp_on_f, wp_on_vmm, wp_lift_pa.
  destruct (proj1 (wp_run _ _ _) (kal_kmalloc (heap_of s) size gfp Hok)) as (r & h & E & [Hok' _ _] & _ & Hl & Hr).
  unfold wp. change (palloc (fs_vmm (ps_f s))) with (heap_of s). rewrite E. apply HQ; [by split|done|].
  destruct Hr as [|[Hf Hr]]; [by left|]. destruct (kal_range _ _ _ _ _ E) as [|Hb]; [by left|by right].
Qed.

Lemma wp_p_kfree p s (Q : unit → pstate S → Prop) : pa_ok (heap_of s) → ka_live (heap_of s) p →
  (∀ s', pa_ok (heap_of s') → (∀ q, q ≠ p → ka_live (heap_of s) q → ka_live (heap_of s') q) →
     the_sys_of s' = the_sys_of s → Q tt s') →
  wp (on_f (fork_kfree p)) s Q.
Proof.
  intros Hok Hp HQ. apply wp_on_f, wp_on_vmm, wp_lift_pa.
  eapply wp_mono; [exact (kal_kfree (heap_of s) p Hok Hp)|].
  intros [] h ([Hok' _ _] & _ & Hl). by apply HQ.
Qed.

End Steps.

(** The fields of every task but [new], the lists they are on and the roles
    are the same; so are the stacks outside [[lo, lo + 8192)]. *)
Record apart (new : Z) (x x' : sys) : Prop := {
  ap_tasks : ∀ t f, t ≠ new → tasks x' t f = tasks x t f;
  ap_children : ∀ t, t ≠ new → children x' t = children x t;
  ap_ready : ready_queue x' = ready_queue x;
  ap_current : current_task x' = current_task x;
  ap_kitoxD : kitoxD_task x' = kitoxD_task x }.

#[export] Instance apart_preorder new : PreOrder (apart new).
Proof.
  split; [by split|]. intros x y z [T1 C1 R1 U1 K1] [T2 C2 R2 U2 K2]. split; [| |congruence..].
  - intros t f Ht. by rewrite T2, T1.
  - intros t Ht. by rewrite C2, C1.
Qed.

(** Peel the steps that only change the tasks. *)
Ltac p_step :=
  lazymatch goal with
  | |- wp (mbind _ (on_f (set_section _ _))) _ _ => apply wp_bind, wp_p_section
  | |- wp (on_f (set_section _ _)) _ _ => apply wp_p_section
  | |- wp (mbind _ (p_sys _)) _ _ => apply wp_bind, wp_p_sys; sys_step
  | |- wp (p_sys _) _ _ => apply wp_p_sys; sys_step
  end;
  repeat change (with_sys ?x (with_sys ?y ?s)) with (with_sys x s);
  repeat change (the_sys_of (with_sys ?x ?s)) with x.

Tactic Notation "read_parts" :=
  cbn [the_sys_of heap_of with_sys ps_f fs_sys fs_vmm frames strings ps_lists ps_area ps_pages].
Tactic Notation "read_parts" "in" "*" :=
  cbn [the_sys_of heap_of with_sys ps_f fs_sys fs_vmm frames strings ps_lists ps_area ps_pages] in *.

Section Create.
Context {S : Type} `{KernelAllocatorLaws S}.
Context (image : Z → Z) (kernel_directory interrupt_exit : Z).
Context (sig_trampoline_start sig_trampoline_end : Z).
Context (signal_default_handler signal_ignore_handler : Z).

Lemma wp_fresh_task new text data (s : pstate S) (Q : unit → pstate S → Prop) : new ≠ 0 →
  (∀ x, apart new (the_sys_of s) x → info_queue x = info_queue (the_sys_of s) →
     pid_manager x = pid_manager (the_sys_of s) → words x = words (the_sys_of s) →
     tasks x new signals_map = 0 → Q tt (with_sys x s)) →
  wp (fresh_task new text data) s Q.
Proof.
  intros Hn HQ. unfold fresh_task. do 11 p_step. apply HQ; try done.
  - split; try done. intros t f Ht. cbn [tasks set_tasks set_sections].
    repeat (rewrite upd_ne_task by done). by rewrite fn_lookup_insert_ne.
  - cbn [tasks set_tasks set_sections]. repeat (rewrite upd_ne_field by discriminate). by rewrite fn_lookup_insert.
Qed.

(** What [signal_init_default_handlers] stores for a signal. *)
Definition handler_of (i : Z) : Z :=
  if Z.land (Z.shiftr SIG_IGN_MASK i) 1 =? 0 then signal_default_handler else signal_ignore_handler.

Lemma wp_signal_handlers new (x : sys) : new ≠ 0 →
  wp (signal_init_default_handlers signal_default_handler signal_ignore_handler new) x (λ _ x',
    ∃ g, x' = set_tasks g x ∧ (∀ t f, t ≠ new → tasks x' t f = tasks x t f) ∧
    (∀ i, 0 ≤ i < 32 → tasks x' new (sig_handlers i) = handler_of i) ∧
    (∀ f, (∀ i, f ≠ sig_handlers i) → tasks x' new f = tasks x new f)).
Proof.
  intros Hn. unfold signal_init_default_handlers.
  apply (wp_for (λ j x', ∃ g, x' = set_tasks g x ∧ (∀ t f, t ≠ new → tasks x' t f = tasks x t f) ∧
    (∀ i, 0 ≤ i < j → tasks x' new (sig_handlers i) = handler_of i) ∧
    (∀ f, (∀ i, f ≠ sig_handlers i) → tasks x' new f = tasks x new f)) _ 32).
  - exists (λ m, m). split_and!; [by destruct x|done|lia|done].
  - intros j x1 Hj (g & -> & Ht & Hs & Hf). sys_step. exists (λ m, upd new (sig_handlers j) (handler_of j) (g m)).
    split_and!; [done| | |].
    + intros t f E. rewrite <- Ht by done. cbn [tasks set_tasks]. by apply upd_ne_task.
    + intros i Hi. cbn [tasks set_tasks]. destruct (decide (i = j)) as [->|]; [apply upd_eq|].
      rewrite upd_ne_field by congruence. apply Hs. lia.
    + intros f E. rewrite <- Hf by done. cbn [tasks set_tasks]. rewrite upd_ne_field; [done|]. apply not_eq_sym, E.
Qed.

(** The fields [task_get_new] gives a kernel thread. *)
Record thread (nm : list Z) (new kstack p : Z) (s : pstate S) : Prop := {
  th_pid : tasks (the_sys_of s) new pid = p;
  th_ring : tasks (the_sys_of s) new ring = 0;
  th_cr3 : tasks (the_sys_of s) new cr3_ = kernel_directory;
  th_stack : tasks (the_sys_of s) new kernel_stack_pointer = kstack;
  th_base : tasks (the_sys_of s) new kernel_stack_base = kstack ⊞ DEFAULT_STACK_SIZE;
  th_canary : words (the_sys_of s) kstack = STACK_CANARY_MAGIC;
  th_signals : tasks (the_sys_of s) new signals_map = 0;
  th_handlers : ∀ i, 0 ≤ i < 32 → tasks (the_sys_of s) new (sig_handlers i) = handler_of i;
  th_name : strings (ps_f s) (tasks (the_sys_of s) new name) = take 16 nm }.

Lemma wp_finish_task nm new (s : pstate S) (Q : Z → pstate S → Prop) : new ≠ 0 →
  (∀ s', apart new (the_sys_of s) (the_sys_of s') → heap_of s' = heap_of s →
     info_queue (the_sys_of s') = info_queue (the_sys_of s) ++ [new] →
     pid_manager (the_sys_of s') = pid_manager (the_sys_of s) → words (the_sys_of s') = words (the_sys_of s) →
     (∀ f, f ∈ [pid; ring; cr3_; kernel_stack_pointer; kernel_stack_base; signals_map] →
        tasks (the_sys_of s') new f = tasks (the_sys_of s) new f) →
     (∀ i, 0 ≤ i < 32 → tasks (the_sys_of s') new (sig_handlers i) = handler_of i) →
     strings (ps_f s') (tasks (the_sys_of s') new name) = take 16 nm → Q new s') →
  wp (finish_task signal_default_handler signal_ignore_handler new 0 nm) s Q.
Proof.
  intros Hn HQ. destruct s as [[x v fr st] ls ar pg]. unfold finish_task. p_step. p_step. p_step. read_parts in *.
  set (tramp := upd new state TASK_NEW (tasks x) new sig_trampoline ⊞ SIZEOF_SECTION).
  apply wp_bind. unfold set_string. apply wp_on_f, wp_modify. read_parts.
  apply wp_bind, wp_p_sys. unfold wq_entry_init. do 9 sys_step. read_parts.
  do 2 p_step. read_parts. apply wp_bind, wp_p_sys. eapply wp_mono; [by apply wp_signal_handlers|].
  intros [] x' (g & -> & Ht & Hs & Hf). apply wp_bind. unfold init_areas. apply wp_modify, wp_bind, wp_ret, wp_ret.
  read_parts in *. apply HQ; clear HQ; try done; read_parts.
  - split; try done. intros t f E. rewrite Ht by done. cbn [tasks set_tasks set_info set_waiters].
    by repeat (rewrite upd_ne_task by done).
  - intros f Hin. rewrite Hf by (intros i ->; set_solver). cbn [tasks set_tasks set_info set_waiters].
    repeat (rewrite upd_ne_field by (intros <-; set_solver)). done.
  - rewrite Hf by done. cbn [tasks set_tasks set_info set_waiters]. repeat (rewrite upd_ne_field by discriminate).
    rewrite upd_eq. apply fn_lookup_insert.
Qed.

Context (Hstart : sig_trampoline_start ≠ 0) (Hsize : sig_trampoline_end ⊟ sig_trampoline_start ≠ 0).

(** Nothing is kept of a task that could not be made: a place that was not in
    use is written, and the identifiers in use are those before. *)
Definition not_created (s s' : pstate S) : Prop :=
  let x := the_sys_of s in let x' := the_sys_of s' in
  (∃ new, ¬ ka_live (heap_of s) new ∧ apart new x x') ∧ info_queue x' = info_queue x ∧
  id_ok (pid_manager x') ∧ ∀ i, in_use (pid_manager x') i ↔ in_use (pid_manager x) i.

Record created (nm : list Z) (new : Z) (s s' : pstate S) : Prop := {
  cr_fresh : ¬ ka_live (heap_of s) new;
  cr_live : ka_live (heap_of s') new;
  cr_apart : apart new (the_sys_of s) (the_sys_of s');
  cr_info : info_queue (the_sys_of s') = info_queue (the_sys_of s) ++ [new];
  cr_thread : ∃ kstack p, thread nm new kstack p s' ∧ new ≠ kstack ∧ 0 < kstack ∧ kstack + DEFAULT_STACK_SIZE < W32 ∧
    ¬ ka_live (heap_of s) kstack ∧ ka_live (heap_of s') kstack ∧
    ¬ in_use (pid_manager (the_sys_of s)) p ∧ id_written (pid_manager (the_sys_of s)) (pid_manager (the_sys_of s')) p True }.

Lemma live_nonzero (s : pstate S) p : ka_live (heap_of s) p → p ≠ 0.
Proof. intros Hp ->. by apply (kal_null (heap_of s)). Qed.

Lemma wp_free_task new (s : pstate S) (Q : Z → pstate S → Prop) : pa_ok (heap_of s) → ka_live (heap_of s) new →
  (∀ s', pa_ok (heap_of s') → (∀ q, q ≠ new → ka_live (heap_of s) q → ka_live (heap_of s') q) →
     the_sys_of s' = the_sys_of s → Q 0 s') →
  wp (free_task new) s Q.
Proof. intros Hok Hn HQ. unfold free_task. apply wp_bind, wp_p_kfree; [done..|]. intros s' ???. apply wp_ret. by apply HQ. Qed.

Lemma wp_free_pid new p (s : pstate S) (Q : Z → pstate S → Prop) : pa_ok (heap_of s) → ka_live (heap_of s) new →
  tasks (the_sys_of s) new pid = p →
  (∀ s', pa_ok (heap_of s') → (∀ q, q ≠ new → ka_live (heap_of s) q → ka_live (heap_of s') q) →
     the_sys_of s' = set_pids (id_manager_free (pid_manager (the_sys_of s)) p) (the_sys_of s) → Q 0 s') →
  wp (free_pid new) s Q.
Proof.
  intros Hok Hn Hp HQ. pose proof (live_nonzero s new Hn). unfold free_pid. p_step. p_step.
  apply wp_free_task; [done..|]. intros s' Ho Hl E. apply HQ; [done|done|by rewrite E, <- Hp].
Qed.

Lemma apart_pid new x p mgr : apart new x (set_tasks (upd new pid p) (set_pids mgr x)).
Proof. split; try done. intros t f Ht. cbn [tasks set_pids set_tasks]. by rewrite upd_ne_task. Qed.

Lemma id_free_again mgr mgr' p : 0 ≤ p < nb_bits (bitmap mgr) → ¬ in_use mgr p → id_written mgr mgr' p True →
  id_ok (id_manager_free mgr' p) ∧ ∀ i, in_use (id_manager_free mgr' p) i ↔ in_use mgr i.
Proof.
  intros Hp Hu (Hok & Hn & Hi & Ho). destruct (id_manager_free_correct mgr' p Hok ltac:(rewrite Hn; exact Hp)) as (Hok' & _ & Hi' & Ho').
  split; [done|]. intros i. destruct (decide (i = p)) as [->|]; [tauto|]. by rewrite Ho', Ho.
Qed.

(** The trampoline's section can be made, and a kernel thread takes the
    kernel's directory: from its stack on, the creation does not fail. *)
Lemma wp_give_stack nm new kstack p (s : pstate S) (Q : Z → pstate S → Prop) : new ≠ 0 →
  tasks (the_sys_of s) new pid = p → tasks (the_sys_of s) new signals_map = 0 →
  (∀ s', apart new (the_sys_of s) (the_sys_of s') → heap_of s' = heap_of s →
     info_queue (the_sys_of s') = info_queue (the_sys_of s) ++ [new] →
     pid_manager (the_sys_of s') = pid_manager (the_sys_of s) → thread nm new kstack p s' → Q new s') →
  wp (give_stack image kernel_directory sig_trampoline_start sig_trampoline_end
        signal_default_handler signal_ignore_handler new kstack 0 nm) s Q.
Proof.
  intros Hn Hp Hs HQ. unfold give_stack, Task.stw, bzero_words. do 6 p_step.
  unfold section_init_from_buffer. rewrite (proj2 (Z.eqb_neq _ _) Hstart), (proj2 (Z.eqb_neq _ _) Hsize). cbn [orb].
  p_step. apply wp_bind. unfold give_space. p_step. cbn. p_step. apply wp_ret. cbn [negb].
  apply wp_finish_task; [done|]. intros s' Ha Hh Hi Hm Hw Hf Hsig Hname.
  change (the_sys_of (with_sys ?x ?s)) with x in *. change (heap_of (with_sys ?x ?s)) with (heap_of s) in *.
  apply HQ; [|done..|].
  - etransitivity; [|exact Ha]. split; try done. intros t f Ht. cbn [tasks set_tasks set_sections set_words].
    by repeat (rewrite upd_ne_task by done).
  - split; [..|done|done]; rewrite ?Hw, ?Hf by set_solver; cbn [tasks words set_tasks set_sections set_words];
      repeat (rewrite upd_ne_field by discriminate); rewrite ?upd_eq; try done. apply fn_lookup_insert.
Qed.

Lemma wp_task_get_new nm (s : pstate S) : pa_ok (heap_of s) → id_ok (pid_manager (the_sys_of s)) →
  wp (task_get_new image kernel_directory sig_trampoline_start sig_trampoline_end
        signal_default_handler signal_ignore_handler nm 0 None None) s
    (λ r s', keeps_heap s s' ∧ ((r = 0 ∧ not_created s s') ∨ (r ≠ 0 ∧ created nm r s s'))).
Proof.
  intros Hok Hid. unfold task_get_new.
  apply wp_bind, wp_p_kmalloc; [done|]. intros new s1 Hk1 E1 Hn.
  destruct Hn as [->|(Hf1 & Hl1 & _)].
  { cbn. apply wp_ret. split; [done|]. left. split; [done|]. unfold not_created. rewrite E1. split; [|done].
    exists 0. split; [apply kal_null|done]. }
  pose proof (live_nonzero _ _ Hl1) as Hn. rewrite (proj2 (Z.eqb_neq new 0) Hn).
  apply wp_bind, wp_fresh_task; [done|]. intros x Hx Ei Ep Ew Es. rewrite E1 in Hx, Ei, Ep, Ew.
  p_step. pose proof (id_manager_alloc_correct (pid_manager x)) as Ha. rewrite Ep in Ha |- *.
  destruct (id_manager_alloc _) as [p mgr]. specialize (Ha Hid). do 2 p_step.
  set (x1 := set_tasks (upd new pid p) (set_pids mgr x)).
  assert (apart new (the_sys_of s) x1) as Hx1 by (etransitivity; [exact Hx|apply apart_pid]).
  destruct Ha as [(-> & -> & _)|(Hp & Hu & Hw)].
  { cbn. apply wp_free_task; [apply Hk1|done|]. intros s2 Hok2 Hl2 E2. split.
    { split; [done|]. intros q Hq. apply Hl2; [by intros ->|by apply Hk1]. }
    left. split; [done|]. unfold not_created. rewrite E2. split; [by exists new|]. split; [done|]. split; [done|]. done. }
  rewrite (proj2 (Z.eqb_neq p (-1))) by lia. p_step.
  apply wp_bind, wp_p_kmalloc; [apply Hk1|]. intros kstack s2 Hk2 E2 Hks.
  destruct Hks as [->|(Hf2 & Hl2 & Hb2)].
  { cbn. apply (wp_free_pid new p); [apply Hk2|by apply Hk2| |].
    { rewrite E2. apply upd_eq. }
    intros s3 Hok3 Hl3 E3. split.
    { split; [done|]. intros q Hq. apply Hl3; [by intros ->|by apply Hk2, Hk1]. }
    left. split; [done|]. unfold not_created. rewrite E3, E2. split; [exists new; split; [done|]|].
    - etransitivity; [exact Hx1|]. split; try done. intros t Ht. by apply fn_lookup_insert_ne.
    - split; [done|]. by apply id_free_again. }
  rewrite (proj2 (Z.eqb_neq kstack 0)) by (by eapply live_nonzero).
  apply (wp_give_stack nm new kstack p); [done|rewrite E2; apply upd_eq| |].
  { rewrite E2. change (upd new pid p (tasks x) new signals_map = 0). by rewrite upd_ne_field. }
  intros s3 Ha3 Hh3 Hi3 Hm3 Hth. split; [split; [rewrite Hh3; apply Hk2|intros q Hq; rewrite Hh3; by apply Hk2, Hk1]|].
  right. split; [done|]. split; [done|rewrite Hh3; by apply Hk2| | |].
  - etransitivity; [exact Hx1|]. etransitivity; [|exact Ha3]. rewrite E2. split; try done.
    intros t Ht. by apply fn_lookup_insert_ne.
  - rewrite Hi3, E2, <- Ei. done.
  - exists kstack, p. split_and!; [done| |lia|lia| |by rewrite Hh3|done|by rewrite Hm3, E2].
    + intros ->. by apply Hf2.
    + intros Hq. by apply Hf2, Hk1.
Qed.

(** ** A kernel thread is started *)

(** What [exec_fn] leaves of a thread that enters at [function]: it is the last
    of the ready queue and the first child of [kitoxD], and below the top of
    its stack is the frame [switch_to] pops. *)
Record started (function : Z) (s s' : pstate S) (new : Z) : Prop := {
  sd_fresh : ¬ ka_live (heap_of s) new;
  sd_others : ∀ t f, t ≠ new → tasks (the_sys_of s') t f = tasks (the_sys_of s) t f;
  sd_ready : ready_queue (the_sys_of s') = ready_queue (the_sys_of s) ++ [new];
  sd_info : info_queue (the_sys_of s') = info_queue (the_sys_of s) ++ [new];
  sd_child : children (the_sys_of s') (kitoxD_task (the_sys_of s)) =
    new :: children (the_sys_of s) (kitoxD_task (the_sys_of s));
  sd_parent : tasks (the_sys_of s') new parent = kitoxD_task (the_sys_of s);
  sd_state : tasks (the_sys_of s') new state = TASK_RUNNING;
  sd_thread : ∃ kstack p, thread (chars "Sloppy") new kstack p s' ∧ ¬ ka_live (heap_of s) kstack ∧
    ka_live (heap_of s') kstack ∧ ¬ in_use (pid_manager (the_sys_of s)) p ∧
    id_written (pid_manager (the_sys_of s)) (pid_manager (the_sys_of s')) p True;
  sd_context : let base := tasks (the_sys_of s') new kernel_stack_base in
    tasks (the_sys_of s') new esp = base - 20 ∧
    stack_words (the_sys_of s') (base - 20) 5 = [0; 0; 0; 0; function] }.


Lemma wp_exec_fn addr function (s : pstate S) : pa_ok (heap_of s) → id_ok (pid_manager (the_sys_of s)) →
  (∀ t, t ∈ ready_queue (the_sys_of s) → ka_live (heap_of s) t) → ka_live (heap_of s) (kitoxD_task (the_sys_of s)) →
  wp (exec_fn image kernel_directory interrupt_exit sig_trampoline_start sig_trampoline_end
        signal_default_handler signal_ignore_handler addr function 0) s (λ l s', keeps_heap s s' ∧
    ((l = [ln "exec_fn: Failed to allocate task structure" []] ∧ not_created s s') ∨
     (l = [] ∧ ∃ new, started function s s' new))).
Proof.
  intros Hok Hid Hready Hkit. unfold exec_fn, exec_text, task_get_kitoxD. change (0 <? 0) with false. cbn match.
  apply wp_bind. eapply wp_mono; [by apply wp_task_get_new|]. intros new s1 [Hk [[-> Hno]|[Hn Hc]]].
  { cbn. apply wp_ret. split; [done|]. by left. }
  rewrite (proj2 (Z.eqb_neq new 0) Hn). apply wp_bind, wp_ret, wp_bind, wp_p_sys.
  destruct Hc as [Hf Hl [Ht Hc Hr Hu Hkd] Hi (kstack & p & [Tpid Tring Tcr3 Tst Tb Tcan Tsig Th Tname] & Hne & Hks0 & Hks & Hkf & Hkl & Hpu & Hpw)].
  assert (DEFAULT_STACK_SIZE = 8192) as ED by done.
  assert (kstack ⊞ DEFAULT_STACK_SIZE = kstack + 8192) as EB by (rewrite u32_small; lia).
  eapply wp_mono; [apply task_craft_context_correct; [done|rewrite Tb, EB; lia]|].
  destruct s1 as [[x1 v fr st] ls ar pg]. read_parts in *.
  rewrite Tb, EB. intros [] x (_ & Hst & Hw & Hx). revert Hx. generalize (words x) as w. intros w ->.
  do 2 p_step. apply wp_bind, wp_p_sys. unfold task_append_child. do 5 sys_step.
  apply wp_bind, wp_p_sys. unfold sched_enqueue. do 2 sys_step. read_parts.
  cbn [kitoxD_task ready_queue set_tasks set_children set_words]. rewrite Hr, Hkd.
  rewrite (proj2 (Z.eqb_neq new 0) Hn), bool_decide_false by (intros Hin%Hready; done). cbn [orb].
  do 5 sys_step. apply wp_ret. split; [by destruct Hk; split|]. right. split; [done|]. exists new.
  assert (kitoxD_task (the_sys_of s) ≠ new) as Hnk by (by intros <-).
  split; [done|..]; read_parts; cbn [tasks words children ready_queue info_queue pid_manager set_ready set_children set_tasks set_words].
  - intros t f E. rewrite <- Ht by done. by repeat (rewrite upd_ne_task by done).
  - by rewrite Hr.
  - done.
  - rewrite fn_lookup_insert. by rewrite Hc.
  - rewrite !upd_ne_field, upd_eq by discriminate. done.
  - apply upd_eq.
  - exists kstack, p. split; [|done]. split; read_parts;
      cbn [tasks words set_ready set_children set_tasks set_words]; rewrite ?upd_ne_field by discriminate; try done.
    + rewrite Hw by lia. done.
    + intros i Hi'. rewrite !upd_ne_field by discriminate. by apply Th.
  - replace (upd _ _ _ _ new kernel_stack_base) with (kstack + 8192) by (rewrite !upd_ne_field by discriminate; lia).
    split; [|by rewrite Z.sub_0_r in Hst]. do 4 rewrite upd_ne_field by discriminate. rewrite upd_eq. lia.
Qed.

(** The function of task.c that runs under a name. *)
Definition thread_entry (p : programs) (sloppy_name : list Z) : option Z :=
  if decide (sloppy_name = chars "fibo") then Some (sloppy_fibo p)
  else if decide (sloppy_name = chars "pid") then Some (sloppy_pid p)
  else if decide (sloppy_name = chars "hello") then Some (sloppy_hello p)
  else None.


End Create.

(** ** On concrete machines *)

Definition demo_programs : programs := Programs 3222000000 3222001000 3222002000 3450000000 3450000100 3460000000 3460005000.

(** The heap of blocks of VmaExample, with [kitoxD] in its first one. *)
Definition sloppy_sys : sys :=
  Sys (λ _ _, 0) (λ _, zero_section) (λ _, 0) [3221241856] [3221241856] (λ _, []) (λ _, []) 3221241856 0 3221241856 0
    (id_manager_create PID_MAX (λ _, 0)) 0 0 true [].

Definition sloppy_start : pstate pool :=
  PState (FState sloppy_sys (Vmm (λ _, 0) (BuddyThm.booted, [3221241856]) 0 []) (λ _ _, 0) (λ _, []))
    (λ _, []) (λ _, zero_area) (λ _, []).


(** Started from the shell of the booted machine of SpawnExample. *)
Definition sloppy_shell (nm : list Z) : M (pstate kstate) (bool * list Z * list Z) :=
  boot_tasks ;;
  q ← p_sys (gets ready_queue) ;
  l ← sloppy_exec code KDIR 777 3300000000 3300000064 888 999 demo_programs nm ;
  x ← p_sys (gets id) ;
  mret (bool_decide (l = []), q, ready_queue x).

(** Over the real allocators a thread is queued behind [kitoxD]; the pages of
    a second user program do not fit in this machine, and the queue is as it
    was. *)
Lemma sloppy_shell_runs :
  result_of (sloppy_shell (chars "fibo")) boot_state = Done (true, [3238007328], [3238007328; 3238007840]) ∧
  result_of (sloppy_shell (chars "dead")) boot_state = Done (false, [3238007328], [3238007328]).
Proof. split; vm_compute; reflexivity. Qed.
