(* ===== verification/BuddyTest.v ===== *)
(** * The self test of the buddy allocator (the debug section of src/memory/buddy.c)

    [debug_buddy] and its parts: the walk over the free lists, the search for
    lost pages, the draining of the lower orders and the tests of splitting
    and freeing.  A failed test prints a message and halts, which is a panic
    here.  The theorems show that a healthy allocator with two free 4 MiB
    blocks in the zone passes, and that the test of freeing stops the machine on
    a zone that has none. *)

From S2P Require Import Prelude Dlist Memory Page Buddy BuddyInv BuddySpec BuddyThm Tty Report.

(** ** The tests *)

(** More than the nodes of a list: there are [MAX_PAGES] descriptors. *)
Definition LIST_FUEL : nat := Z.to_nat (MAX_PAGES + 1).

Definition debug_buddy_panic {A} (func : string) : M bstate A := kpanic ("Panic system here " ++ func)%string.

(** [for (cur = head->next; cur != head; cur = cur ? cur->next : NULL)]: at most
    [limit + 1] rounds. *)
Fixpoint corrupted_loop (fuel : nat) (cur : option bnode) (head : bnode) (count limit : Z) : M bstate unit :=
  match fuel with
  | O => hang
  | Datatypes.S fuel =>
      if bool_decide (cur = Some head) then mret tt
      else
        let count := count ⊞ 1 in
        match cur with
        | None => debug_buddy_panic "debug_buddy_corrupted_list"
        | Some n =>
            if limit <? count then debug_buddy_panic "debug_buddy_corrupted_list"
            else
              nx ← gets (λ s, next (nodes s n)) ;
              corrupted_loop fuel nx head count limit
        end
  end.

Definition debug_buddy_corrupted_list (order : Z) (zone : zone_type) : M bstate unit :=
  size ← order_to_nrFree order zone ;
  let limit := if size =? 0 then 2000 else size ⊠ 4 in
  let head := order_to_free_list order zone in
  first ← gets (λ s, next (nodes s head)) ;
  corrupted_loop (Z.to_nat limit + 2) first head 0 limit.

Definition debug_buddy_check_all_list_corrumption (zone : zone_type) : M bstate unit :=
  for_ 11 0 (λ order, debug_buddy_corrupted_list order zone).

(** The number of FREE pages outside the regions the boot allocator had free. *)
Fixpoint lost_loop (n : nat) (i : Z) (free_reg : list region) (lost : Z) : M bstate Z :=
  match n with
  | O => mret lost
  | Datatypes.S n =>
      p ← load_page i ;
      lost_loop n (i + 1) free_reg
        (if PAGE_IS_FREE p && negb (page_addr_is_in_reg free_reg (i ⊠ PAGE_SIZE)) then lost ⊞ 1 else lost)
  end.

Definition debug_buddy_check_lost_pages (free_reg : list region) : M bstate unit :=
  n ← gets total_pages ;
  lost ← lost_loop (Z.to_nat n) 0 free_reg 0 ;
  if 0 <? lost then debug_buddy_panic "debug_buddy_check_lost_pages" else mret tt.

Fixpoint still_free_loop (fuel : nat) (cur : option bnode) (head : bnode) (phys : Z) : M bstate unit :=
  match fuel with
  | O => hang
  | Datatypes.S fuel =>
      if bool_decide (cur = Some head) then mret tt
      else
        match cur with
        | None => fault
        | Some n =>
            p ← page_node_to_phys n ;
            if p =? phys then debug_buddy_panic "debug_buddy_alloc_still_free"
            else
              nx ← gets (λ s, next (nodes s n)) ;
              still_free_loop fuel nx head phys
        end
  end.

Definition debug_buddy_alloc_still_free (order phys : Z) (zone : zone_type) : M bstate unit :=
  check_area zone order ;;
  let head := order_to_free_list order zone in
  first ← gets (λ s, next (nodes s head)) ;
  still_free_loop LIST_FUEL first head phys.

Definition alloc_block_with_order (order : Z) (zone : zone_type) : M bstate Z :=
  buddy_alloc_pages (PAGE_BY_ORDER order ⊠ PAGE_SIZE) zone.

(** [while (buddy[zone].areas[order].nr_free > 0)]. *)
Fixpoint drain_order (fuel : nat) (order : Z) (zone : zone_type) : M bstate unit :=
  match fuel with
  | O => hang
  | Datatypes.S fuel =>
      n ← order_to_nrFree order zone ;
      if 0 <? n then
        blk ← alloc_block_with_order order zone ;
        if blk =? 0 then debug_buddy_panic "buddy_drain_lower_orders" else drain_order fuel order zone
      else mret tt
  end.

Definition buddy_drain_lower_orders (zone : zone_type) : M bstate unit :=
  for_ 10 0 (λ order,
    drain_order LIST_FUEL order zone ;;
    n ← order_to_nrFree order zone ;
    if negb (n =? 0) then debug_buddy_panic "buddy_drain_lower_orders" else mret tt).

(** [for (int i = MAX_ORDER; i >= 0; i--)]. *)
Definition debug_buddy_simple_alloc (zone : zone_type) : M bstate unit :=
  for_ 11 0 (λ k,
    let i := MAX_ORDER - k in
    n ← order_to_nrFree i zone ;
    if 0 <? n then
      ret ← alloc_block_with_order i zone ;
      debug_buddy_alloc_still_free i ret zone
    else mret tt).

(** [for (int i = order; i < MAX_ORDER; i++)]: every order has [expected] free blocks. *)
Definition expect_free (func : string) (order expected : Z) (zone : zone_type) : M bstate unit :=
  for_ (Z.to_nat (MAX_ORDER - order)) order (λ i,
    n ← order_to_nrFree i zone ;
    if negb (n =? expected) then debug_buddy_panic func else mret tt).

(** The loop of [debug_buddy_split_block] from order [n - 1] down. *)
Fixpoint split_test (n : nat) (zone : zone_type) : M bstate (list print) :=
  match n with
  | O => mret []
  | Datatypes.S n =>
      let order := Z.of_nat n in
      block ← buddy_alloc_pages (ORDER_TO_BYTES order) zone ;
      if block =? 0 then
        mret [ln "No more block for testing split, order upper than %s on %s [OK]"
                [str (debug_buddy_order_to_string order); str (debug_buddy_zone_to_str zone)]]
      else
        debug_buddy_alloc_still_free order block zone ;;
        expect_free "debug_buddy_split_block" order 1 zone ;;
        debug_buddy_check_all_list_corrumption zone ;;
        debug_buddy_simple_alloc zone ;;
        buddy_drain_lower_orders zone ;;
        split_test n zone
  end.

Definition debug_buddy_split_block (zone : zone_type) : M bstate (list print) :=
  buddy_drain_lower_orders zone ;; split_test 10 zone.

Definition debug_buddy_free_block (zone : zone_type) : M bstate unit :=
  buddy_drain_lower_orders zone ;;
  for_ 11 0 (λ order,
    block ← buddy_alloc_pages (ORDER_TO_BYTES order) zone ;
    debug_buddy_alloc_still_free order block zone ;;
    buddy_free_block block ;;
    expect_free "debug_buddy_free_block" order 0 zone).

(** One round of the loop of [debug_buddy]; [free_reg] is the free table of the boot allocator. *)
Definition debug_zone (free_reg : list region) (zone : zone_type) : M bstate (list print) :=
  debug_buddy_check_lost_pages free_reg ;;
  debug_buddy_check_all_list_corrumption zone ;;
  debug_buddy_simple_alloc zone ;;
  debug_buddy_check_all_list_corrumption zone ;;
  debug_buddy_free_block zone ;;
  l ← debug_buddy_split_block zone ;
  buddy_drain_lower_orders zone ;;
  mret ([ln "Debug on %s" [str (debug_buddy_zone_to_str zone)]; ln "[OK] No pages missing" [];
         ln "[OK] Buddy free_list is healthy" []; ln "[OK] First test for simple allocation" [];
         ln "[OK] Free Blocks" []] ++ l ++ [ln "[OK] Split Blocks" []; ln "-----" []]).

Fixpoint debug_zones (free_reg : list region) (zones : list zone_type) : M bstate (list print) :=
  match zones with
  | [] => mret []
  | zone :: zones => l ← debug_zone free_reg zone ; k ← debug_zones free_reg zones ; mret (l ++ k)
  end.

Definition debug_buddy (free_reg : list region) : M bstate (list print) := debug_zones free_reg all_zones.

(** ** Walking a healthy list *)

Lemma wp_corrupted_loop s l p head fuel count limit : dseg (nodes s) p l head → head ∉ l → (length l < fuel)%nat →
  0 ≤ count → count + Z.of_nat (length l) ≤ limit → limit < W32 →
  wp (corrupted_loop fuel (next (nodes s p)) head count limit) s (λ _ s', s' = s).
Proof.
  revert p fuel count. induction l as [|x l IH]; intros p fuel count Hd Hh Hf Hc Hl Hw;
    (destruct fuel as [|fuel]; [lia|]); cbn [corrupted_loop dseg] in *.
  { destruct Hd as [-> _]. by rewrite bool_decide_eq_true_2. }
  destruct Hd as (-> & _ & Hd). apply not_elem_of_cons in Hh as [Hx Hh]. cbn [length] in *.
  rewrite bool_decide_eq_false_2 by congruence. rewrite u32_small, (proj2 (Z.ltb_ge _ _)) by lia.
  apply wp_bind, wp_gets. apply IH; (done || lia).
Qed.

Lemma wp_still_free_loop s l p head fuel phys : dseg (nodes s) p (PageNode <$> l) head → head ∉ PageNode <$> l →
  (length l < fuel)%nat → (∀ i, i ∈ l → page_to_phys i ≠ phys) →
  wp (still_free_loop fuel (next (nodes s p)) head phys) s (λ _ s', s' = s).
Proof.
  revert p fuel. induction l as [|x l IH]; intros p fuel Hd Hh Hf Hp; (destruct fuel as [|fuel]; [lia|]);
    cbn [still_free_loop fmap list_fmap dseg] in *.
  { destruct Hd as [-> _]. by rewrite bool_decide_eq_true_2. }
  destruct Hd as (-> & _ & Hd). apply not_elem_of_cons in Hh as [Hx Hh]. cbn [length] in *.
  rewrite bool_decide_eq_false_2 by congruence. cbn [page_node_to_phys]. apply wp_bind, wp_ret.
  rewrite (proj2 (Z.eqb_neq _ _)) by (apply Hp; set_solver). apply wp_bind, wp_gets.
  apply IH; [done|done|lia|]. intros i Hi. apply Hp. set_solver.
Qed.

(** The allocator between two calls, with its free lists. *)
Definition healthy (s : bstate) (fl : freelists) : Prop := binv s fl (λ _, False) ∧ coalesced fl.

(** What the tests may do to the rest: frames only leave the free set, and the
    descriptor of a frame that is not free stays. *)
Record shrinks (s s' : bstate) : Prop := {
  sk_total : total_pages s' = total_pages s;
  sk_free : ∀ j, 0 ≤ j < MAX_PAGES → is_free s' j → is_free s j;
  sk_pages : ∀ j, 0 ≤ j < MAX_PAGES → ¬ is_free s j → page_descriptors s' j = page_descriptors s j }.

#[export] Instance shrinks_preorder : PreOrder shrinks.
Proof.
  split; [by split|]. intros s1 s2 s3 [T1 F1 P1] [T2 F2 P2]. split; [congruence|auto|].
  intros j Hj Hn. rewrite P2, P1 by auto. done.
Qed.

(** ** The free lists are determined by the free frames *)

Lemma same_free_sub s s' fl fl' z o i : healthy s fl → healthy s' fl' →
  (∀ j, 0 ≤ j < MAX_PAGES → is_free s j ↔ is_free s' j) → i ∈ fl (z, o) → i ∈ fl' (z, o).
Proof.
  intros [Hinv Hco] [Hinv' Hco'] Hiff Hi. pose proof (bi_block _ _ _ Hinv _ _ _ Hi) as B.
  destruct (free_run_in_block s' fl' o i) as (c & i' & Hc & Hi' & Hin); try apply B; [done|done|pose proof (blk_pos _ _ _ _ B); lia|..].
  { intros j Hj. apply Hiff; [by eapply (block_frames _ _ _ Hinv)|]. by apply (blk_free _ _ _ _ B). }
  pose proof (bi_block _ _ _ Hinv' _ _ _ Hi') as B'. rewrite (blk_zone _ _ _ _ B) in *.
  destruct (free_run_in_block s fl c i') as (c2 & i2 & Hc2 & Hi2 & Hin2); try apply B'; [done|done|pose proof (blk_pos _ _ _ _ B'); lia|..].
  { intros j Hj. apply Hiff; [by eapply (block_frames _ _ _ Hinv')|]. by apply (blk_free _ _ _ _ B'). }
  rewrite (blk_zone _ _ _ _ B') in Hi2. pose proof (bi_block _ _ _ Hinv _ _ _ Hi2) as B2.
  pose proof (blk_order _ _ _ _ B) as Ho. assert (in_block i2 c2 i) as Hin3.
  { destruct (blk_align _ _ _ _ B') as [a Ea], (blk_align _ _ _ _ B2) as [b Eb]. unfold in_block in *.
    rewrite (pow2_split c c2) in Hin2, Eb |- * by lia. pose proof (Z.pow_pos_nonneg 2 c ltac:(lia) ltac:(lia)).
    set (w := 2 ^ c) in *. set (v := 2 ^ (c2 - c)) in *. clearbody w v. subst i' i2.
    assert (b * v ≤ a) by nia. assert (a < b * v + v) by nia. nia. }
  destruct (block_overlap _ _ _ Hinv z o i z c2 i2 i Hi Hi2) as (_ & <- & <-); [exact (block_self _ _ _ Hinv _ _ _ Hi)|exact Hin3|].
  assert (c = o) as -> by lia. assert (i' = i) as ->; [|done].
  apply (aligned_block_eq i' i o); [apply B|apply B'|apply B|done].
Qed.

Lemma same_free_perm s s' fl fl' z o : healthy s fl → healthy s' fl' → z ≠ INVALID_ZONE → 0 ≤ o ≤ 10 →
  (∀ j, 0 ≤ j < MAX_PAGES → is_free s j ↔ is_free s' j) → fl (z, o) ≡ₚ fl' (z, o).
Proof.
  intros H H' Hz Ho Hiff. assert (∀ s fl, healthy s fl → NoDup (fl (z, o))) as Hn.
  { intros s0 fl0 [Hinv _]. destruct (bi_list _ _ _ Hinv z o) as [Hn _]; [by apply area_ok_zone|].
    apply NoDup_cons in Hn as [_ Hn]. by apply NoDup_fmap_1 in Hn. }
  apply NoDup_Permutation; [by eapply Hn|by eapply Hn|]. intros i. split.
  - by apply (same_free_sub s s').
  - apply (same_free_sub s' s); [done|done|]. intros j Hj. by rewrite Hiff.
Qed.

Section Tests.
Context (z : zone_type) (Hz : z ≠ INVALID_ZONE).

Lemma fl_length s fl o : healthy s fl → (length (fl (z, o)) < LIST_FUEL)%nat.
Proof.
  intros [Hinv _]. pose proof (block_length _ _ _ Hinv z o). unfold LIST_FUEL. apply Nat2Z.inj_lt.
  rewrite Z2Nat.id by (unfold MAX_PAGES; lia). lia.
Qed.

Lemma nr_free_length s fl o : healthy s fl → 0 ≤ o ≤ 10 → nr_free s (z, o) = Z.of_nat (length (fl (z, o))).
Proof. intros [Hinv _] Ho. apply (bi_nr _ _ _ Hinv). by apply area_ok_zone. Qed.

Lemma wp_nr o s fl (Q : Z → bstate → Prop) : healthy s fl → 0 ≤ o ≤ 10 →
  Q (Z.of_nat (length (fl (z, o)))) s → wp (order_to_nrFree o z) s Q.
Proof.
  intros Hh Ho HQ. unfold order_to_nrFree. apply wp_bind, wp_check_area; [by apply area_ok_zone|].
  apply wp_gets. by rewrite (nr_free_length s fl o Hh Ho).
Qed.

Lemma free_list_seg s fl o : healthy s fl → 0 ≤ o ≤ 10 →
  dseg (nodes s) (FreeList z o) (PageNode <$> fl (z, o)) (FreeList z o) ∧ FreeList z o ∉ PageNode <$> fl (z, o).
Proof.
  intros [Hinv _] Ho. destruct (bi_list _ _ _ Hinv z o) as [Hn Hd]; [by apply area_ok_zone|].
  split; [done|]. by apply NoDup_cons in Hn as [? _].
Qed.

Lemma wp_corrupted_list s fl o : healthy s fl → 0 ≤ o ≤ 10 →
  wp (debug_buddy_corrupted_list o z) s (λ _ s', s' = s).
Proof.
  intros Hh Ho. unfold debug_buddy_corrupted_list. apply wp_bind. eapply wp_nr; [done|done|]. apply wp_bind, wp_gets.
  destruct (free_list_seg s fl o Hh Ho) as [Hd Hn]. pose proof (block_length _ _ _ (proj1 Hh) z o) as Hl. unfold MAX_PAGES in Hl.
  assert ((if Z.of_nat (length (fl (z, o))) =? 0 then 2000 else Z.of_nat (length (fl (z, o))) ⊠ 4) =
    if decide (fl (z, o) = []) then 2000 else Z.of_nat (length (fl (z, o))) * 4) as El.
  { destruct (fl (z, o)) as [|x l]; [done|]. rewrite decide_False by done. cbn [length] in *.
    rewrite (proj2 (Z.eqb_neq _ _)), u32_small by (unfold W32; lia). done. }
  cbv zeta beta. rewrite El. clear El.
  apply (wp_corrupted_loop s (PageNode <$> fl (z, o))); [done|done|..]; rewrite ?length_fmap; try case_decide as E;
    try rewrite E; unfold W32; cbn [length]; lia.
Qed.

Lemma wp_check_all s fl : healthy s fl → wp (debug_buddy_check_all_list_corrumption z) s (λ _ s', s' = s).
Proof.
  intros Hh. unfold debug_buddy_check_all_list_corrumption. eapply wp_mono; [apply (wp_for (λ _ s', s' = s))|].
  - done.
  - intros o s' Ho ->. apply (wp_corrupted_list s fl); [done|lia].
  - by intros [] s' ->.
Qed.

Lemma wp_still_free s fl o phys : healthy s fl → 0 ≤ o ≤ 10 → (∀ i, i ∈ fl (z, o) → page_to_phys i ≠ phys) →
  wp (debug_buddy_alloc_still_free o phys z) s (λ _ s', s' = s).
Proof.
  intros Hh Ho Hp. unfold debug_buddy_alloc_still_free. apply wp_bind, wp_check_area; [by apply area_ok_zone|].
  apply wp_bind, wp_gets. destruct (free_list_seg s fl o Hh Ho) as [Hd Hn].
  apply (wp_still_free_loop s (fl (z, o))); [done|done| |done]. by eapply fl_length.
Qed.

(** ** Allocations *)

Lemma order_bytes o : 0 ≤ o ≤ 10 → size_to_order (ORDER_TO_BYTES o) = o.
Proof.
  intros Ho. assert (o = 0 ∨ o = 1 ∨ o = 2 ∨ o = 3 ∨ o = 4 ∨ o = 5 ∨ o = 6 ∨ o = 7 ∨ o = 8 ∨ o = 9 ∨ o = 10) as H by lia.
  repeat destruct H as [->|H]; try reflexivity. subst. reflexivity.
Qed.

(** The block at [p] of order [o] was taken, from the least order [c] that had one. *)
Record took (p o c : Z) (s s' : bstate) (fl fl' : freelists) : Prop := {
  tk_healthy : healthy s' fl';
  tk_lists : alloc_lists z p o c fl fl';
  tk_run : run_ok p o;
  tk_zone : zone_of p = z;
  tk_alloc : allocated s' p o;
  tk_shrinks : shrinks s s';
  tk_free : ∀ j, 0 ≤ j < MAX_PAGES → is_free s j ↔ is_free s' j ∨ in_block p o j }.

Lemma wp_alloc_order o s fl (Q : Z → bstate → Prop) : healthy s fl → 0 ≤ o ≤ 10 →
  ((∀ c, o ≤ c ≤ 10 → fl (z, c) = []) → Q 0 s) →
  (∀ p c s' fl', took p o c s s' fl fl' → page_to_phys p ≠ 0 → Q (page_to_phys p) s') →
  wp (buddy_alloc_pages (ORDER_TO_BYTES o) z) s Q.
Proof.
  intros [Hinv Hco] Ho H0 H1. eapply wp_buddy_alloc_lists; [exact Hinv|exact Hco|done|rewrite order_bytes by done; auto|].
  intros p s'. cbv zeta. rewrite order_bytes by done. intros Hrun Hzp (fl' & c & Hinv' & Hco' & Hl) Hal Hfree (F1 & F2 & F3).
  assert (∀ j, 0 ≤ j < MAX_PAGES → is_free s j ↔ is_free s' j ∨ in_block p o j) as Hiff.
  { intros j Hj. destruct (decide (in_block p o j)) as [Hb|Hb]; [split; [by right|intros _; by apply Hfree]|].
    rewrite (F1 j Hj Hb). tauto. }
  apply (H1 p c s' fl').
  - split; [by split|done..| |done]. split; [done| |done]. intros j Hj Hf. apply Hiff; auto.
  - rewrite page_to_phys_small by (by eapply run_ok_frame). destruct Hrun as (_ & ? & _). unfold PAGE_SIZE. lia.
Qed.

(** A block that is allocated is in no free list. *)
Lemma took_not_listed p o c s s' fl fl' i o' : took p o c s s' fl fl' → i ∈ fl' (z, o') → page_to_phys i ≠ page_to_phys p.
Proof.
  intros [[Hinv _] _ Hrun _ Hal _ _] Hi E. pose proof (bi_block _ _ _ Hinv _ _ _ Hi) as B.
  assert (i = p) as ->.
  { pose proof (block_frames _ _ _ Hinv _ _ _ i Hi (block_self _ _ _ Hinv _ _ _ Hi)).
    rewrite !page_to_phys_small in E by (done || by eapply run_ok_frame). unfold PAGE_SIZE in E. lia. }
  apply (allocated_not_free s' p o p Hal).
  - pose proof (Z.pow_pos_nonneg 2 o). destruct Hrun as ((? & ?) & _). unfold in_block. lia.
  - apply (blk_free _ _ _ _ B). by eapply block_self.
Qed.

(** ** Draining *)

Lemma took_head p o c s s' fl fl' x l : took p o c s s' fl fl' → fl (z, o) = x :: l →
  fl' (z, o) = l ∧ ∀ k, k ≠ (z, o) → fl' k = fl k.
Proof.
  intros [_ (Hc & He & l' & El & Hs) _ _ _ _ _] E.
  assert (c = o) as ->.
  { destruct (decide (c = o)); [done|]. rewrite (He o) in E by lia. done. }
  assert (∀ z' o', fl' (z', o') = (<[(z, o) := l']> fl) (z', o')) as Hf.
  { intros z' o'. rewrite Hs. rewrite decide_False; [done|]. intros [_ ?]. lia. }
  rewrite E in El. injection El as -> ->. split.
  - rewrite Hf, fl_insert. by rewrite decide_True.
  - intros [z' o'] Hk. rewrite Hf, fl_insert. by rewrite decide_False.
Qed.

Lemma wp_drain_order fuel o s fl : healthy s fl → 0 ≤ o ≤ 10 → (length (fl (z, o)) < fuel)%nat →
  wp (drain_order fuel o z) s (λ _ s', ∃ fl', healthy s' fl' ∧ shrinks s s' ∧ fl' (z, o) = [] ∧
    ∀ k, k ≠ (z, o) → fl' k = fl k).
Proof.
  revert s fl. induction fuel as [|fuel IH]; intros s fl Hh Ho Hf; [lia|]. cbn [drain_order]. apply wp_bind.
  eapply wp_nr; [done|done|]. destruct (fl (z, o)) as [|x l] eqn:E; cbn [length] in *.
  { apply wp_ret. by exists fl. }
  rewrite (proj2 (Z.ltb_lt _ _)) by lia. apply wp_bind. unfold alloc_block_with_order. fold (ORDER_TO_BYTES o).
  apply (wp_alloc_order o s fl); [done|done| |].
  - intros H. rewrite H in E by lia. done.
  - intros p c s1 fl1 Ht Hp. rewrite (proj2 (Z.eqb_neq _ _)) by done.
    destruct (took_head _ _ _ _ _ _ _ _ _ Ht E) as [E1 Hk1].
    eapply wp_mono; [apply (IH s1 fl1); [apply Ht|done|rewrite E1; lia]|].
    intros [] s2 (fl2 & H2 & S2 & E2 & K2). exists fl2. split_and!; [done| |done|].
    + by etransitivity; [apply Ht|].
    + intros k Hk. rewrite K2, Hk1 by done. done.
Qed.

(** The lower orders of the zone are empty; the blocks of 4 MiB and the other zones are as before. *)
Record drained (s s' : bstate) (fl fl' : freelists) : Prop := {
  dr_healthy : healthy s' fl';
  dr_shrinks : shrinks s s';
  dr_low : ∀ o, 0 ≤ o < 10 → fl' (z, o) = [];
  dr_top : fl' (z, 10) = fl (z, 10);
  dr_other : ∀ z' o, z' ≠ z → fl' (z', o) = fl (z', o) }.

Lemma wp_drain s fl : healthy s fl → wp (buddy_drain_lower_orders z) s (λ _ s', ∃ fl', drained s s' fl fl').
Proof.
  intros Hh. unfold buddy_drain_lower_orders.
  eapply wp_mono; [apply (wp_for (λ k s', ∃ fl', healthy s' fl' ∧ shrinks s s' ∧ (∀ o, 0 ≤ o < k → fl' (z, o) = []) ∧
    fl' (z, 10) = fl (z, 10) ∧ ∀ z' o, z' ≠ z → fl' (z', o) = fl (z', o)))|].
  - exists fl. split_and!; [done|done|lia|done..].
  - intros o s1 Ho (fl1 & H1 & S1 & L1 & T1 & O1). change (Z.of_nat 10) with 10 in Ho. apply wp_bind.
    eapply wp_mono; [apply (wp_drain_order LIST_FUEL o s1 fl1); [done|lia|by eapply fl_length]|].
    intros [] s2 (fl2 & H2 & S2 & E2 & K2). apply wp_bind. eapply wp_nr; [done|lia|]. rewrite E2. cbn.
    apply wp_ret. exists fl2. split_and!; [done|by etransitivity| | |].
    + intros o' Ho'. destruct (decide (o' = o)) as [->|]; [done|]. rewrite K2 by congruence. apply L1. lia.
    + rewrite K2; [done|]. intros [=]. lia.
    + intros z' o' Hz'. rewrite K2 by congruence. auto.
  - intros [] s' (fl' & ? & ? & L & ? & ?). exists fl'. by split.
Qed.

(** ** Simple allocations: every list loses its first block *)

Lemma wp_simple_alloc s fl : healthy s fl → wp (debug_buddy_simple_alloc z) s (λ _ s', ∃ fl',
  healthy s' fl' ∧ shrinks s s' ∧ (∀ o, 0 ≤ o ≤ 10 → fl' (z, o) = tail (fl (z, o))) ∧
  ∀ z' o, z' ≠ z → fl' (z', o) = fl (z', o)).
Proof.
  intros Hh. unfold debug_buddy_simple_alloc.
  eapply wp_mono; [apply (wp_for (λ k s', ∃ fl', healthy s' fl' ∧ shrinks s s' ∧
    (∀ o, 0 ≤ o ≤ 10 → fl' (z, o) = if decide (10 - k < o) then tail (fl (z, o)) else fl (z, o)) ∧
    ∀ z' o, z' ≠ z → fl' (z', o) = fl (z', o)))|].
  - exists fl. split_and!; [done|done| |done]. intros o Ho. by rewrite decide_False by lia.
  - intros k s1 Hk (fl1 & H1 & S1 & L1 & O1). change (Z.of_nat 11) with 11 in Hk. unfold MAX_ORDER. apply wp_bind.
    eapply wp_nr; [done|lia|]. pose proof (L1 (10 - k) ltac:(lia)) as Ek. rewrite decide_False in Ek by lia.
    destruct (fl1 (z, 10 - k)) as [|x l] eqn:E.
    { cbn. apply wp_ret. exists fl1. split_and!; [done|done| |done]. intros o Ho. rewrite L1 by done.
      destruct (decide (o = 10 - k)) as [->|]; [rewrite decide_False, decide_True, <- Ek by lia; done|].
      by destruct (decide (10 - k < o)), (decide (10 - (k + 1) < o)); try lia. }
    cbn [length]. rewrite (proj2 (Z.ltb_lt _ _)) by lia. apply wp_bind. unfold alloc_block_with_order.
    fold (ORDER_TO_BYTES (10 - k)). apply (wp_alloc_order (10 - k) s1 fl1); [done|lia| |].
    { intros H. rewrite H in E by lia. done. }
    intros p c s2 fl2 Ht Hp. destruct (took_head _ _ _ _ _ _ _ _ _ Ht E) as [E2 K2].
    eapply wp_mono; [apply (wp_still_free s2 fl2); [apply Ht|lia|intros i; by eapply took_not_listed]|].
    intros [] s3 ->. exists fl2. split_and!; [apply Ht|by etransitivity; [|apply Ht]| |].
    + intros o Ho. destruct (decide (o = 10 - k)) as [->|].
      * by rewrite E2, decide_True, <- Ek by lia.
      * rewrite K2, L1 by (congruence || done). by destruct (decide (10 - k < o)), (decide (10 - (k + 1) < o)); try lia.
    + intros z' o Hz'. rewrite K2 by congruence. auto.
  - intros [] s' (fl' & ? & ? & L & ?). exists fl'. split_and!; [done|done| |done]. intros o Ho. rewrite L by done.
    by rewrite decide_True by lia.
Qed.

(** ** Freeing *)

Lemma wp_expect func n exp s fl : healthy s fl → 0 ≤ n ≤ 10 → (∀ o, n ≤ o < 10 → Z.of_nat (length (fl (z, o))) = exp) →
  wp (expect_free func n exp z) s (λ _ s', s' = s).
Proof.
  intros Hh Hn He. unfold expect_free, MAX_ORDER. eapply wp_mono; [apply (wp_for (λ _ s', s' = s))|].
  - done.
  - intros o s1 Ho ->. rewrite Z2Nat.id in Ho by lia. apply wp_bind. eapply wp_nr; [done|lia|]. rewrite He by lia. by rewrite Z.eqb_refl.
  - by intros [] s' ->.
Qed.

(** Taking a block and giving it back leaves the same lists, up to their order. *)
Lemma wp_give_back p o c s s1 fl fl1 : healthy s fl → took p o c s s1 fl fl1 →
  wp (buddy_free_block (page_to_phys p)) s1 (λ _ s2, ∃ fl2, healthy s2 fl2 ∧ shrinks s s2 ∧
    ∀ z' o', z' ≠ INVALID_ZONE → 0 ≤ o' ≤ 10 → fl (z', o') ≡ₚ fl2 (z', o')).
Proof.
  intros Hh [[Hinv1 Hco1] _ Hrun Hzp Hal [T1 F1 P1] Hfr]. pose proof Hal as (_ & Hpriv & Hst).
  assert (in_block p o p) as Hpp.
  { pose proof (Z.pow_pos_nonneg 2 o). destruct Hrun as ((? & ?) & _). unfold in_block. lia. }
  eapply (wp_buddy_free p o s1 fl1); [done..| | | |].
  - left. by apply Hst.
  - rewrite Hpriv by done. by rewrite decide_True.
  - intros j Hj. by apply (allocated_not_free s1 p o j Hal).
  - intros s2 (fl2 & Hinv2 & Hco2) (Q1 & Q2 & Q3 & Q4). exists fl2.
    assert (∀ j, 0 ≤ j < MAX_PAGES → is_free s j ↔ is_free s2 j) as Hiff.
    { intros j Hj. rewrite (Hfr j Hj). destruct (decide (in_block p o j)) as [Hb|Hb].
      - split; [intros _; by apply Q1|by right].
      - rewrite (Q2 j Hj Hb). tauto. }
    split; [by split|]. split; [split; [congruence|intros j Hj; by rewrite Hiff|]|].
    + intros j Hj Hn. assert (¬ in_block p o j) as Hb by (intros ?; apply Hn, Hfr; auto).
      rewrite Q3, P1; auto.
    + intros z' o' Hz' Ho'. by apply (same_free_perm s s2).
Qed.

Lemma wp_free_test s fl : healthy s fl → fl (z, 10) ≠ [] →
  wp (debug_buddy_free_block z) s (λ _ s', ∃ fl', healthy s' fl' ∧ shrinks s s' ∧ fl' (z, 10) ≡ₚ fl (z, 10) ∧
    ∀ z' o, z' ≠ z → z' ≠ INVALID_ZONE → 0 ≤ o ≤ 10 → fl' (z', o) ≡ₚ fl (z', o)).
Proof.
  intros Hh Hne. unfold debug_buddy_free_block. apply wp_bind. eapply wp_mono; [by apply wp_drain|].
  intros [] s1 (fl1 & [H1 S1 L1 T1 O1]).
  eapply wp_mono; [apply (wp_for (λ _ s', ∃ fl', healthy s' fl' ∧ shrinks s1 s' ∧
    ∀ z' o', z' ≠ INVALID_ZONE → 0 ≤ o' ≤ 10 → fl' (z', o') ≡ₚ fl1 (z', o')))|].
  - by exists fl1.
  - intros o s2 Ho (fl2 & H2 & S2 & P2). change (0 + Z.of_nat 11) with 11 in Ho. apply wp_bind.
    apply (wp_alloc_order o s2 fl2); [done|lia| |].
    { intros H. specialize (P2 z 10 Hz ltac:(lia)). rewrite H in P2 by lia. apply Permutation_nil_l in P2.
      rewrite T1 in P2. by symmetry in P2. }
    intros p c s3 fl3 Ht Hp. apply wp_bind.
    eapply wp_mono; [apply (wp_still_free s3 fl3); [apply Ht|lia|intros i; by eapply took_not_listed]|].
    intros [] s4 ->. apply wp_bind. eapply wp_mono; [by apply (wp_give_back p o c s2 s3 fl2 fl3)|].
    intros [] s5 (fl5 & H5 & S5 & P5). assert (∀ z' o', z' ≠ INVALID_ZONE → 0 ≤ o' ≤ 10 → fl5 (z', o') ≡ₚ fl1 (z', o')) as P51.
    { intros z' o' Hz' Ho'. by rewrite <- P5, P2 by done. }
    eapply wp_mono; [apply (wp_expect _ o 0 s5 fl5); [done|lia|]|].
    + intros o' Ho'. rewrite (P51 z o' Hz) by lia. rewrite L1 by lia. done.
    + intros [] s6 ->. exists fl5. split_and!; [done|by etransitivity|done].
  - intros [] s2 (fl2 & H2 & S2 & P2). exists fl2. split_and!; [done|by etransitivity| |].
    + rewrite P2 by (done || lia). by rewrite T1.
    + intros z' o Hz' Hi Ho. rewrite P2, O1 by done. done.
Qed.

(** Without a block of 4 MiB left the test of freeing stops the machine: it gives
    NULL to [buddy_free_block], and frame 0 is reserved. *)
Lemma free_test_panics s fl : healthy s fl → fl (z, 10) = [] →
  PAGE_GET_STATE (page_descriptors s 0) = PAGE_STATE_RESERVED →
  debug_buddy_free_block z s = Panic "Attempt to free a page with invalid state".
Proof.
  intros Hh He H0. pose proof (wp_drain s fl Hh) as Hw. apply wp_run in Hw as ([] & s1 & E1 & fl1 & [H1 S1 L1 T1 _]).
  unfold debug_buddy_free_block. unfold mbind at 1, M_bind at 1. rewrite E1. cbn [for_]. unfold mbind at 1, M_bind at 1.
  assert (buddy_alloc_pages (ORDER_TO_BYTES 0) z s1 = Done (0, s1)) as Ea.
  { assert (wp (buddy_alloc_pages (ORDER_TO_BYTES 0) z) s1 (λ r s', r = 0 ∧ s' = s1)) as Ha.
    { apply (wp_alloc_order 0 s1 fl1); [done|lia|done|]. intros p c s' fl' [_ (Hc & _ & l & El & _) _ _ _ _ _] _. exfalso.
      destruct (decide (c = 10)) as [->|]; [by rewrite T1, He in El|]. rewrite L1 in El by lia. done. }
    by apply wp_run in Ha as (r & s' & -> & -> & ->). }
  unfold mbind at 1, M_bind at 1. rewrite Ea. unfold mbind at 1, M_bind at 1.
  assert (debug_buddy_alloc_still_free 0 0 z s1 = Done (tt, s1)) as Es.
  { assert (wp (debug_buddy_alloc_still_free 0 0 z) s1 (λ _ s', s' = s1)) as Ha.
    { apply (wp_still_free s1 fl1); [done|lia|]. rewrite L1 by lia. intros i []%elem_of_nil. }
    by apply wp_run in Ha as ([] & s' & -> & ->). }
  rewrite Es. unfold mbind at 1, M_bind at 1. unfold buddy_free_block. change (page_addr_to_page 0) with 0.
  unfold mbind at 1, M_bind at 1. rewrite load_page_in by (unfold MAX_PAGES; lia).
  rewrite (sk_pages _ _ S1 0); [|unfold MAX_PAGES; lia|unfold is_free; by rewrite H0]. by rewrite H0.
Qed.

(** ** Splitting *)

Lemma wp_split_test n s fl : (n ≤ 10)%nat → healthy s fl → (∀ o, 0 ≤ o < 10 → fl (z, o) = []) →
  wp (split_test n z) s (λ _ s', ∃ fl', healthy s' fl' ∧ shrinks s s' ∧ ∀ z' o, z' ≠ z → fl' (z', o) = fl (z', o)).
Proof.
  revert s fl. induction n as [|n IH]; intros s fl Hn Hh Hl; cbn [split_test]; [apply wp_ret; by exists fl|].
  apply wp_bind. apply (wp_alloc_order (Z.of_nat n) s fl); [done|lia| |].
  { intros _. rewrite Z.eqb_refl. apply wp_ret. by exists fl. }
  intros p c s1 fl1 Ht Hp. rewrite (proj2 (Z.eqb_neq _ _)) by done. apply wp_bind.
  eapply wp_mono; [apply (wp_still_free s1 fl1); [apply Ht|lia|intros i; by eapply took_not_listed]|]. intros [] s2 ->.
  pose proof Ht as [H1 (Hc & He & l & El & Hsp) _ Hzp _ S1 _].
  assert (c = 10) as -> by (destruct (decide (c = 10)); [done|]; rewrite Hl in El by lia; done).
  apply wp_bind. eapply wp_mono; [apply (wp_expect _ (Z.of_nat n) 1 s1 fl1); [done|lia|]|].
  { intros o Ho. rewrite Hsp, decide_True by (split; [done|lia]). rewrite fl_insert, decide_False by (intros [=]; lia).
    by rewrite Hl by lia. }
  intros [] s2 ->. apply wp_bind. eapply wp_mono; [by apply (wp_check_all s1 fl1)|]. intros [] s2 ->.
  apply wp_bind. eapply wp_mono; [by apply (wp_simple_alloc s1 fl1)|]. intros [] s2 (fl2 & H2 & S2 & _ & O2).
  apply wp_bind. eapply wp_mono; [by apply (wp_drain s2 fl2)|]. intros [] s3 (fl3 & [H3 S3 L3 _ O3]).
  eapply wp_mono; [apply (IH s3 fl3); [lia|done|done]|]. intros k s4 (fl4 & H4 & S4 & O4). exists fl4. split_and!; [done| |].
  - do 3 (etransitivity; [eassumption|]). done.
  - intros z' o Hz'. rewrite O4, O3, O2, Hsp, fl_insert by done. rewrite decide_False by (intros [? _]; congruence).
    by rewrite decide_False by congruence.
Qed.

Lemma wp_split_block s fl : healthy s fl →
  wp (debug_buddy_split_block z) s (λ _ s', ∃ fl', healthy s' fl' ∧ shrinks s s' ∧ ∀ z' o, z' ≠ z → fl' (z', o) = fl (z', o)).
Proof.
  intros Hh. unfold debug_buddy_split_block. apply wp_bind. eapply wp_mono; [by apply wp_drain|].
  intros [] s1 (fl1 & [H1 S1 L1 _ O1]). eapply wp_mono; [apply (wp_split_test 10 s1 fl1); [lia|done|done]|].
  intros k s2 (fl2 & H2 & S2 & O2). exists fl2. split_and!; [done|by etransitivity|]. intros z' o Hz'. by rewrite O2, O1.
Qed.

(** ** Lost pages *)

Lemma wp_lost n i free_reg lost s : 0 ≤ i → i + Z.of_nat n ≤ MAX_PAGES →
  (∀ j, i ≤ j < i + Z.of_nat n → is_free s j → page_addr_is_in_reg free_reg (j * PAGE_SIZE) = true) →
  wp (lost_loop n i free_reg lost) s (λ r s', r = lost ∧ s' = s).
Proof.
  revert i. induction n as [|n IH]; intros i Hi Hn Hf; cbn [lost_loop]; [done|].
  apply wp_bind, wp_load_page; [lia|]. rewrite u32_small by (unfold PAGE_SIZE, MAX_PAGES, W32 in *; lia).
  replace (PAGE_IS_FREE (page_descriptors s i) && negb (page_addr_is_in_reg free_reg (i * PAGE_SIZE))) with false.
  { apply IH; [lia|lia|]. intros j Hj. apply Hf. lia. }
  symmetry. apply andb_false_iff. unfold PAGE_IS_FREE. destruct (Z.eqb_spec (PAGE_GET_STATE (page_descriptors s i)) PAGE_STATE_FREE) as [E|];
    [|by left]. right. rewrite (Hf i ltac:(lia) E). done.
Qed.

Definition none_lost (free_reg : list region) (s : bstate) : Prop :=
  0 ≤ total_pages s ≤ MAX_PAGES ∧
  ∀ j, 0 ≤ j < total_pages s → is_free s j → page_addr_is_in_reg free_reg (j * PAGE_SIZE) = true.

Lemma none_lost_shrinks free_reg s s' : none_lost free_reg s → shrinks s s' → none_lost free_reg s'.
Proof. intros [Ht Hf] [T F _]. split; rewrite T; [done|]. intros j Hj H. apply Hf; [done|]. apply F; [lia|done]. Qed.

Lemma wp_lost_pages free_reg s : none_lost free_reg s → wp (debug_buddy_check_lost_pages free_reg) s (λ _ s', s' = s).
Proof.
  intros [Ht Hf]. unfold debug_buddy_check_lost_pages. apply wp_bind, wp_gets, wp_bind.
  eapply wp_mono; [apply wp_lost; rewrite ?Z2Nat.id by lia; [lia|lia|]|].
  - intros j Hj. apply Hf. lia.
  - intros r s' [-> ->]. done.
Qed.

(** ** One zone *)

Lemma wp_debug_zone free_reg s fl : healthy s fl → none_lost free_reg s → (2 ≤ length (fl (z, 10%Z)))%nat →
  wp (debug_zone free_reg z) s (λ _ s', ∃ fl', healthy s' fl' ∧ shrinks s s' ∧
    ∀ z' o, z' ≠ z → z' ≠ INVALID_ZONE → 0 ≤ o ≤ 10 → fl' (z', o) ≡ₚ fl (z', o)).
Proof.
  intros Hh Hlost H10. unfold debug_zone.
  apply wp_bind. eapply wp_mono; [by apply wp_lost_pages|]. intros [] s0 ->.
  apply wp_bind. eapply wp_mono; [by apply (wp_check_all s fl)|]. intros [] s0 ->.
  apply wp_bind. eapply wp_mono; [by apply (wp_simple_alloc s fl)|]. intros [] s1 (fl1 & H1 & S1 & L1 & O1).
  apply wp_bind. eapply wp_mono; [by apply (wp_check_all s1 fl1)|]. intros [] s0 ->.
  apply wp_bind. eapply wp_mono; [apply (wp_free_test s1 fl1); [done|]|].
  { rewrite L1 by lia. destruct (fl (z, 10)) as [|x [|y l]]; cbn in *; [lia|lia|done]. }
  intros [] s2 (fl2 & H2 & S2 & _ & O2). apply wp_bind. eapply wp_mono; [by apply (wp_split_block s2 fl2)|].
  intros k s3 (fl3 & H3 & S3 & O3). apply wp_bind. eapply wp_mono; [by apply (wp_drain s3 fl3)|].
  intros [] s4 (fl4 & [H4 S4 _ _ O4]). apply wp_ret. exists fl4. split_and!; [done| |].
  - do 3 (etransitivity; [eassumption|]). done.
  - intros z' o Hz' Hi Ho. rewrite O4, O3, O2, O1 by done. done.
Qed.

End Tests.

(** C27: A healthy buddy allocator passes its self test: from the invariant, with two
    free blocks of 4 MiB in every zone and every free page inside the memory the
    boot allocator had free, [debug_buddy] returns, without a panic of its own or
    of the allocator, and the invariant holds afterwards. *)
Theorem debug_buddy_passes (free_reg : list region) (s : bstate) :
  buddy_ok s → none_lost free_reg s → (∀ z, z ≠ INVALID_ZONE → 2 ≤ nr_free s (z, 10)) →
  ∃ l s', debug_buddy free_reg s = Done (l, s') ∧ buddy_ok s' ∧ shrinks s s'.
Proof.
  intros (fl & Hinv & Hco) Hlost H10.
  assert (∀ zones s fl, NoDup zones → INVALID_ZONE ∉ zones → healthy s fl → none_lost free_reg s →
    (∀ z, z ∈ zones → (2 ≤ length (fl (z, 10%Z)))%nat) →
    wp (debug_zones free_reg zones) s (λ _ s', buddy_ok s' ∧ shrinks s s')) as H.
  { clear. induction zones as [|z zones IH]; intros s fl Hn Hi Hh Hlost H10; cbn [debug_zones].
    { apply wp_ret. split; [by exists fl|done]. }
    apply NoDup_cons in Hn as [Hz Hn]. apply not_elem_of_cons in Hi as [Hzi Hi].
    apply wp_bind. eapply wp_mono; [apply (wp_debug_zone z (not_eq_sym Hzi) free_reg s fl); [done|done|apply H10; set_solver]|].
    intros l s1 (fl1 & H1 & S1 & O1). apply wp_bind.
    eapply wp_mono; [apply (IH s1 fl1); [done|done|done|by eapply none_lost_shrinks|]|].
    - intros z' Hz'. rewrite O1; [apply H10; set_solver|set_solver|set_solver|lia].
    - intros k s2 [Hok S2]. apply wp_ret. split; [done|by etransitivity]. }
  specialize (H all_zones s fl). apply wp_run in H as (l & s' & E & Hok & S').
  - by exists l, s'.
  - unfold all_zones. repeat constructor; set_solver.
  - unfold all_zones. set_solver.
  - by split.
  - done.
  - intros z Hz. assert (z ≠ INVALID_ZONE) as Hzi by (unfold all_zones in Hz; set_solver).
    specialize (H10 z Hzi). rewrite (nr_free_length z Hzi s fl 10) in H10 by (by split || lia). lia.
Qed.

(** On a zone without a free block of 4 MiB once [debug_buddy_simple_alloc] has
    taken one, such as HIGHMEM on a machine with less than 896 MiB, the self test
    does not report: it stops the machine with a panic of the allocator, which is
    handed NULL. *)
Theorem debug_buddy_free_panics (s : bstate) (z : zone_type) :
  buddy_ok s → z ≠ INVALID_ZONE → nr_free s (z, 10) = 0 →
  PAGE_GET_STATE (page_descriptors s 0) = PAGE_STATE_RESERVED →
  debug_buddy_free_block z s = Panic "Attempt to free a page with invalid state".
Proof.
  intros (fl & Hinv & Hco) Hz Hn H0. eapply (free_test_panics z Hz s fl); [by split| |done].
  rewrite (nr_free_length z Hz s fl 10) in Hn by (by split || lia). by destruct (fl (z, 10)).
Qed.

(** ** A machine with two blocks of 4 MiB in every zone *)

Definition large_regions (z : zone_type) : list region :=
  match z with
  | DMA_ZONE => [Region 4194304 12582912]
  | LOWMEM_ZONE => [Region 16777216 25165824]
  | HIGHMEM_ZONE => [Region 939524096 947912704]
  | INVALID_ZONE => []
  end.

Definition large_start : bstate :=
  BState (page_descriptor_init large_regions (λ _, [])) (λ _, ListHead None None) (λ _, 0) 231424 false.

Definition large : bstate := final_state buddy_init large_start.

Definition large_table : list region := concat (large_regions <$> all_zones).

Lemma page_addr_is_in_reg_app r1 r2 a :
  page_addr_is_in_reg (r1 ++ r2) a = page_addr_is_in_reg r1 a || page_addr_is_in_reg r2 a.
Proof. induction r1 as [|r r1 IH]; cbn; [done|]. by case_match. Qed.

Lemma nothing_reserved (free_reg : zone_type → list region) (a : Z) (zones : list zone_type) :
  page_get_state_flag_loop zones free_reg (λ _, []) a = PAGE_STATE_AVAILABLE ↔
  page_addr_is_in_reg (concat (free_reg <$> zones)) a = true.
Proof.
  induction zones as [|z zones IH]; [done|]. rewrite fmap_cons. cbn [concat page_get_state_flag_loop page_addr_is_in_reg].
  rewrite page_addr_is_in_reg_app. by destruct (page_addr_is_in_reg (free_reg z) a).
Qed.

Lemma large_available a : page_get_state_flag large_regions (λ _, []) a = PAGE_STATE_AVAILABLE ↔
  page_addr_is_in_reg large_table a = true.
Proof. apply nothing_reserved. Qed.

Lemma large_ok : buddy_ok large ∧ total_pages large = 231424 ∧
  ∀ j, 0 ≤ j < MAX_PAGES → is_free large j ↔ j < 231424 ∧ page_addr_is_in_reg large_table (j * PAGE_SIZE) = true.
Proof.
  destruct (buddy_init_correct large_start large_regions (λ _, [])) as (s' & E & Hok & _ & Ht & Hf);
    [reflexivity|unfold MAX_PAGES; cbn; lia|vm_compute; discriminate|].
  assert (large = s') as -> by (unfold large, final_state; by rewrite E). split_and!; [done|done|].
  intros j Hj. rewrite Hf by done. by rewrite large_available.
Qed.

(** An aligned run of 1024 free frames is on the list of 4 MiB blocks. *)
Lemma free_run_listed s fl m : healthy s fl → 0 ≤ m → (1024 | m) → m + 1024 ≤ MAX_PAGES →
  (∀ j, m ≤ j < m + 1024 → is_free s j) → m ∈ fl (zone_of m, 10).
Proof.
  intros [Hinv Hco] Hm Hd Hr Hf. destruct (free_run_in_block s fl 10 m) as (c & i & Hc & Hi & Hin); [done|done|lia|lia|done|done|done|exact Hf|].
  assert (c = 10) as -> by lia. assert (i = m) as <-; [|done].
  apply (aligned_block_eq i m 10); [lia|by eapply binv_aligned|done|done].
Qed.

Lemma large_table_covers j :
  1024 ≤ j < 3072 ∨ 4096 ≤ j < 6144 ∨ 229376 ≤ j < 231424 → page_addr_is_in_reg large_table (j * PAGE_SIZE) = true.
Proof.
  unfold PAGE_SIZE. intros Hj.
  change (page_addr_is_in_reg [Region 16777216 25165824; Region 4194304 12582912; Region 939524096 947912704] (j * 4096) = true).
  cbn [page_addr_is_in_reg start end_].
  destruct (Z.leb_spec 16777216 (j * 4096)), (Z.ltb_spec (j * 4096) 25165824), (Z.leb_spec 4194304 (j * 4096)),
    (Z.ltb_spec (j * 4096) 12582912), (Z.leb_spec 939524096 (j * 4096)), (Z.ltb_spec (j * 4096) 947912704); cbn [andb]; reflexivity || lia.
Qed.

Lemma large_blocks z : z ≠ INVALID_ZONE → 2 ≤ nr_free large (z, 10).
Proof.
  intros Hz. destruct large_ok as ((fl & Hinv & Hco) & _ & Hf).
  rewrite (nr_free_length z Hz large fl 10) by (by split || lia).
  assert (∀ m, (m = 1024 ∨ m = 2048 ∨ m = 4096 ∨ m = 5120 ∨ m = 229376 ∨ m = 230400) → m ∈ fl (zone_of m, 10)) as Hin.
  { intros m Hm. apply (free_run_listed large fl); [by split|lia| |unfold MAX_PAGES; lia|].
    - destruct Hm as [->|[->|[->|[->|[->| ->]]]]];
        [exists 1|exists 2|exists 4|exists 5|exists 224|exists 225]; reflexivity.
    - intros j Hj. apply Hf; [unfold MAX_PAGES; lia|]. split; [lia|]. apply large_table_covers. lia. }
  assert (∀ m n, m ≠ n → m ∈ fl (z, 10) → n ∈ fl (z, 10) → 2 ≤ Z.of_nat (length (fl (z, 10)))) as H2.
  { intros m n Hne Hm Hn. destruct (fl (z, 10)) as [|x [|y l]]; [by apply elem_of_nil in Hm| |cbn [length]; lia].
    apply list_elem_of_singleton in Hm, Hn. congruence. }
  destruct z; [| | |congruence].
  - apply (H2 4096 5120); [lia|apply (Hin 4096); lia|apply (Hin 5120); lia].
  - apply (H2 1024 2048); [lia|apply (Hin 1024); lia|apply (Hin 2048); lia].
  - apply (H2 229376 230400); [lia|apply (Hin 229376); lia|apply (Hin 230400); lia].
Qed.

Lemma debug_buddy_passes_witness : ∃ l s', debug_buddy large_table large = Done (l, s') ∧ buddy_ok s' ∧ shrinks large s'.
Proof.
  apply debug_buddy_passes.
  - apply large_ok.
  - destruct large_ok as (_ & Ht & Hf). split; rewrite Ht; [unfold MAX_PAGES; lia|].
    intros j Hj H. apply Hf; [unfold MAX_PAGES; lia|exact H].
  - exact large_blocks.
Defined.

(** The machine of eight frames has no block of 4 MiB. *)
Lemma debug_buddy_free_panics_witness :
  debug_buddy_free_block DMA_ZONE booted = Panic "Attempt to free a page with invalid state".
Proof. apply debug_buddy_free_panics; [exact booted_ok|discriminate|vm_compute; reflexivity|vm_compute; reflexivity]. Defined.
